(* ===== verification/_CoqProject ===== *)
-Q . S2P
Prelude.v
Glob.v
Regex.v
AgentAccess.v
TrustBoundary.v
OutputSanitizer.v
PatternScanner.v
ScannerPipeline.v
McpRules.v
JsonPath.v
Redis.v
RateLimit.v
Billing.v
Security.v
Auth.v
AuthApi.v
Routing.v
ReplicaNames.v
Json.v
Encryption.v
AgentState.v
ConversationMemory.v
Base64.v
EnvPassthrough.v
Namespaces.v
Functions.v
Procedures.v
SecurityEvents.v
AiTools.v
ToolDispatch.v
Frames.v
Hoare.v
Orchestrator.v
ProcedureRun.v
Ssrf.v
ExecTokens.v
ApiProxy.v
ResultCache.v
RunHandler.v
Packages.v
CreateHandler.v
CreateTools.v
ToolRegistry.v
Telemetry.v
CreateSettings.v
Agents.v
AgentChat.v
Scheduler.v
AgentTenancy.v
CreateAgents.v
ScratchFiles.v
Scratchpad.v
AgentApi.v
NamespaceApi.v
UserAdmin.v
