(* ===== verification/Prelude.v ===== *)
(** * mcpworks-api: verification of the core logic

    mcpworks-api (Python, [src/src/mcpworks_api]) is a multi-tenant service that
    runs user functions and AI agents behind the Model Context Protocol.  A
    request passes the middlewares (routing, rate limits, billing), is
    authenticated, and reaches an endpoint or an MCP handler; a handler checks
    the agent's access rules, evaluates the rules of a proxied MCP server, runs
    code in a sandbox and passes what comes back through sanitizers and
    scanners before it returns it to a model.  The development models this
    decision logic and proves what it guarantees; where the code departs from
    what it means to do, a theorem or an example states what it does instead.

    ** Files, in dependency order

    - [Prelude] (this file): Python's exceptions as [res] and the state monad
      [stm], which keeps the mutations made before a raise; strings, dicts
      ([dict_get], [dict_set], insertion-ordered), JSON-like values [pyval];
      the tactics [destruct_matches] and [bool_to_prop].
    - [Glob]: [fnmatch] of the standard library, for the rule engines.
    - [Regex]: Python's backtracking [re] on the syntax the code writes.
    - [AgentAccess]: [core/agent_access.py] ([check_function_access],
      [check_state_access], [filter_state_keys]), [core/tool_permissions.py] and
      [services/trust_score.py].
    - [TrustBoundary]: [core/trust_boundary.py], the markers put around untrusted
      text.
    - [OutputSanitizer]: [core/output_sanitizer.py] and [core/input_limits.py].
    - [PatternScanner]: [core/scanners/*.py].
    - [ScannerPipeline]: [core/scanner_pipeline.py], for any way of running a
      scanner and then for the scanners of the code.
    - [McpRules]: [core/mcp_rules.py], request rules and response rules.
    - [JsonPath]: [services/jsonpath.py], the paths between procedure steps.
    - [Redis]: the interface of Redis (class [Redis], model [redis_map]) and
      [RateLimiter] of [core/redis.py]; the frame predicate [keeps_at].
    - [RateLimit]: [middleware/rate_limit.py].
    - [Billing]: [middleware/billing.py].
    - [Security]: [core/exceptions.py], [core/security.py] and the token part of
      [dependencies.py]; the interface of the libraries (classes [Crypto] and
      [CryptoLaws], model [toy_crypto]).
    - [Auth]: [services/auth.py] on the tables of [models/user.py],
      [models/account.py] and [models/api_key.py].
    - [AuthApi]: [api/v1/auth.py], [get_db] of [core/database.py] and the rest of
      [dependencies.py].
    - [Routing]: [middleware/routing.py] and [middleware/subdomain.py].
    - [ReplicaNames]: [core/replica_names.py].
    - [Json]: [json.dumps] and [json.loads] on [pyval], with their round trip.
    - [Encryption]: [core/encryption.py], over an authenticated cipher (classes
      [Aead] and [AeadLaws], model [toy_aead]).
    - [AgentState]: the state operations of [services/agent_service.py] and the
      tier table of [models/subscription.py].
    - [ConversationMemory]: [core/conversation_memory.py], its caller
      [_save_chat_turns] and [core/context_budget.py].
    - [Base64]: [base64.b64decode], strict and lenient; [EnvPassthrough]:
      [mcp/env_passthrough.py] and the selection that [mcp/run_handler.py] makes.
    - [Namespaces]: [services/namespace.py] and [services/namespace_share.py] on
      their tables; the life cycle of a share is the step relation [share_step].
    - [Functions]: [services/function.py] with the validators and constraints of
      functions, versions and services.
    - [Procedures]: [services/procedure_service.py] and [models/procedure.py].
    - [SecurityEvents]: [services/security_event.py], every place that fires an
      event, and [tasks/anomaly_detector.py].
    - [AiTools]: [core/ai_tools.py], the tools and the prompt of an agent.
    - [ToolDispatch]: [_dispatch_tool] of [tasks/orchestrator.py] and what it
      calls; the class [Outside] (clock, AI provider, sandbox, tool servers) and
      its instance [scripted].
    - [Frames]: which computations leave which tables alone; [Hoare]: triples
      for the monad [stm].
    - [Orchestrator]: [run_orchestration], its loop and the recording of runs.
    - [ProcedureRun]: [run_procedure_orchestration] of the same file.
    - [Ssrf]: [core/ssrf.py], with the parts of [ipaddress] and [urllib.parse] it
      uses.
    - [ExecTokens]: [core/exec_token_registry.py].
    - [ApiProxy]: [core/api_proxy.py] and [api/v1/api_proxy.py] over the class
      [Network] (HTTP client, resolver, clock).
    - [ResultCache]: [services/result_cache.py] over the class [TextCache].
    - [RunHandler]: [mcp/run_handler.py] and [mcp/protocol.py]; the sandbox is the
      class [RunOutside].
    - [Packages]: [sandbox/packages.py], [sandbox/packages_node.py] and
      [sandbox/credential_scan.py].
    - [CreateHandler]: the guards and the dispatch of [mcp/create_handler.py], on
      the state of [RunHandler]; the class [Secrets] has the random texts.
      [CreateTools]: its tools for namespaces, services, functions, packages,
      templates, procedures and locks.
    - [ToolRegistry]: [mcp/tool_registry.py], the schemas of the management
      tools, against the parameters of their handlers.
    - [Telemetry]: [services/telemetry.py], the webhooks of a namespace: signed
      deliveries and batches in Redis.
    - [CreateSettings]: the create handler's tools for the state and the access
      rules of agents, the scanners of a namespace (with the loaded JSON value
      that session and handler share) and the cache of a function.
    - [Agents]: [services/agent_service.py] on the tables of [models/agent.py]
      (the record [fleet]); Docker, cron expressions, time zones and what a database
      session loads by itself are the class [Host].  [AgentChat]: its chats,
      [api/v1/public_chat.py] and [api/v1/webhooks.py].  [Scheduler]:
      [tasks/scheduler.py].  [AgentTenancy]: which rows the operations of an
      account leave alone.
    - [CreateAgents]: the create handler's tools for agents.
    - [ScratchFiles]: [scratchpad/filesystem.py], a directory as a tree.
      [Scratchpad]: [services/scratchpad.py], its tools and its public pages
      ([api/v1/scratchpad_view.py]).
    - [AgentApi], [NamespaceApi]: the REST endpoints of [api/v1/agents.py] and
      [api/v1/namespaces.py].  [UserAdmin]: [api/v1/users.py] and the part of
      [api/v1/admin.py] that changes users.

    A definition has the name of the Python function it models; a helper that
    stands for a few lines of one says so in its comment.  [C<n>] at the head of
    a comment is the number of a property of the manifest.

    ** How the code is represented

    Stateful code is a function of the state, in the monad [stm] where it can
    raise: the state is Redis and the tasks started ([RateLimit.mw],
    [Billing.st]) or a database session with committed and working tables
    ([Auth.session]).  [await] marks no interleaving inside one operation; where
    it matters the operation is split into its round trips: the requests of
    [RateLimit] interleave in every order in [failed_logins_bounded], and an
    example interleaves those of the concurrency check of [Billing].  The clock, the random
    values and the handler behind a middleware are arguments.  Strings are lists
    of 8-bit characters, one for each code point, except where sizes in UTF-8
    count ([OutputSanitizer]).  Integers are unbounded, as Python's are.

    Services and packages enter as interfaces with their documented behaviour:
    Redis ([Redis.Redis]), Argon2, PyJWT, SHA-256 and the PEM loader
    ([Security.Crypto]), AES-GCM ([Encryption.Aead]), Unicode normalization, base64 and the external scanners
    (variables of the sections of [PatternScanner] and [ScannerPipeline]).  Each
    interface has a concrete instance, on which the witnesses run.

    ** What the theorems show

    - Access: [check_function_access_correct] gives the decision of the access
      rules in closed form; [deny_rule_monotone],
      [trust_score_bounded] and [trust_gate_not_recoverable] (recovery stops at
      500) complete it, with the lemmas [filter_state_keys_spec],
      [rule_order_irrelevant] and [tool_tiers_nested].
    - Namespaces: [namespace_access_correct] (who may reach one),
      [share_access_changes] (access comes and goes only with the consent of
      invitee and owner), [sharing_invariant] by induction over reachable states,
      [allowlist_frozen] (the daily limit is a limit for ever).
    - Functions: [functions_well_formed] and [procedures_well_typed] for the
      tables, [versions_immutable], [locked_function_frozen],
      [deployed_version_runs] and [recreated_function]; for procedures also
      [references_checked_on_creation] and [resolve_print] (paths).
    - Orchestration: [orchestration_bounded] (requests, tokens and calls),
      [orchestration_terminates] (the [while] loop as an inductive relation with
      exactly one outcome), [guards_confine] (noninterference of restricted and
      leaking calls), [runs_recorded] (the audit trail); for one call,
      [dispatch_execution_sound], [platform_tools_refused],
      [tool_name_roundtrip] and [tools_offered].
    - Procedures at work: [procedure_enforced] (what a successful run went
      through), [procedure_bounded], and [step_references_fail]: references to
      earlier steps never resolve.
    - Execution through MCP: [function_call_sound] (who runs what, with which
      variables, and the record of it), [denied_call_inert],
      [bridge_key_closed], [executions_isolated]; [cache_key_correct] and
      [cached_result_roundtrip] for the cache.
    - Management through MCP: [management_guarded] (what stands before a tool),
      [confirmed_tools_never_run], [requirements_correct]; [made_function_runs]
      joins the two handlers: the function that is made is the one that runs.
      [lock_crosses_tenants] and [execution_trail_crosses_tenants] are departures.
      [advertised_calls_bind] compares the listed schemas with the handlers
      ([advertised_lock_fails] is where they disagree).
    - Settings: [added_denial_takes_effect] (from the tool that adds a rule to
      the call it refuses), [cache_configured], [denied_key_closed];
      [scanner_columns] gives what the scanner tools leave in the database (an
      update leaves what was there) and [first_scanner_disables_defaults] what
      the first scanner costs.
    - Telemetry: [configured_webhook_signed], with the lemmas [batch_sent_once]
      and [flush_race] for a flush with pushes between its two commands.
    - Calls of registered APIs: [api_call_confined], [path_cannot_change_host],
      [credentials_not_replaced], [api_tool_name_roundtrip]; [ssrf_gate] gives
      the URLs the gate passes in closed form ([address_policy] the addresses,
      [ipv4_canonical] their texts).
    - Security events: [fire_security_event_correct], and [events_lost]: the
      events that matter most are never stored.
    - Environment: [extract_env_sound], [env_header_roundtrip],
      [function_env_correct].
    - Content: [scrub_env_values_complete],
      [enforce_output_size_correct], [rewrite_spans_correct] (for objects with
      positions, which the program never makes);
      [pipeline_block_iff] and [default_pipeline_result] for the pipeline, and
      [fail_closed_never_applies]: no scanner raises, so the policy for errors
      is never used.
    - Rules: [block_tool_blocks], [cap_param_enforced], [redact_field_correct]; [injection_strictness_raises]: flagging and
      redacting injections raise AttributeError.
    - Limits: [limiter_admits_limit], [failed_logins_bounded] (however requests
      interleave; the bound grows with the logins under way at once),
      [monthly_quota_bounded], [concurrency_bounded] (by rule induction over
      admissions and ends).
    - Authentication: [validate_api_key_sound], [created_key_validates] and
      [revoked_key_rejected] for keys; [access_token_lifecycle] and
      [refresh_grants_all_scopes] for tokens;
      [auth_tables_invariant] for the tables; [endpoint_atomic],
      [pin_guesses_unbounded] (failed PIN attempts are rolled back) and
      [resends_bounded] for the endpoints.
    - Agents as a fleet: [fleet_well_formed] (the tables after any sequence of
      service calls, whatever Docker answers), [scale_exact],
      [destroy_complete], [dedicated_tier_has_no_agents], [creation_raises] (a
      relation that is not loaded is read); through the tools,
      [agent_tools_confined] (no row of another account's agents changes) and the
      departure [run_trail_crosses_tenants].
    - Chats: [chat_rounds] (the loop as a relation: how many rounds, what ends
      it), [chat_ignores_tool_policy] and [public_chat_guarded] (who gets to an
      agent, and what it may then do), [webhook_guarded] and
      [webhook_signature_unkeyed] (whoever has the body can compute the signature,
      which the documents say is keyed).
    - Schedules: [poll_makes_jobs] (which jobs a poll makes), [scheduler_jobs_end]
      (the loop leaves no job half done), [direct_failures_counted] (the failure policy), and
      [one_schedule_stops_all] (a departure: a schedule whose times have ended stops
      those of every account).
    - State of agents: [set_get_state] (encrypted values are read back),
      [state_quota_invariant]; [save_chat_turns_correct] and
      [history_keeps_last_turns] (the stored history refines a queue of fifty
      turns).
    - Scratchpads: [pads_accounted] (the recorded size is that of the disk, and
      within the quota), [published_files_served] (a round trip through the
      disk), [pages_guarded], [replace_atomic]; [failed_additions_escape_quota]
      is where the quota is no bound.
    - REST endpoints: [agent_api_guarded] and [namespace_api_guarded] (who is let
      in, and that no row of another account changes), [api_agrees_with_tools]
      (endpoint and tool have the same effect).
    - Users: [admin_moves_users] (what may become of a user, column by column),
      and the departures [scopes_escape], [impersonation_unscoped] and
      [suspended_admin_returns].
    - Requests: [path_routing_correct].

    ** Bounds and fuel

    Recursion is on the text, the rules, the scanners, the events or the path.
    [Json.parse_value] has fuel, twice the length of the text and one more;
    the round trip shows it to be enough for every text [json.dumps] writes, and
    running out would be the answer [OutOfModel].  [Orchestrator.loop] has as
    much fuel as the run has iterations, enough by [orchestration_terminates].  [Regex.rep] is on the text,
    and its bound is Python's.  Properties of a window (60 seconds of failed logins, a
    month of usage, a day of compute) are stated for requests inside it; those of usage
    and compute are served one after the other, logins in any interleaving.

    ** Not modelled

    Input and output themselves (HTTP, SQL, Docker, SMTP, Discord, Stripe, the
    language-model clients), schemas and ORM declarations beyond the columns
    used, migrations, templates, the sandbox and its native tools, metrics and
    logging.  Of the orchestrator the connection of tool servers, the telemetry
    and the estimate of the context size are left out; of functions the
    description of a version.  Of the run handler
    the texts that describe tools and the generated packages are left out.  The
    create handler's tools for servers, Git and statistics, the transport, the MCP
    proxy and the endpoints of [api/v1] other than those above are not modelled; the
    manifest lists every part with its status. *)

From stdpp Require Export base tactics list gmap strings pretty.
From Stdlib Require Export ZArith Lia.
From Stdlib Require Import Ascii.

#[export] Set Default Proof Using "Type".
#[global] Arguments String.append : simpl nomatch.

(** ** Python exceptions: results and the state monad that keeps the state *)

(** The outcome of code that may raise: a value or the exception raised. *)
Inductive res (E A : Type) : Type :=
| Ok (a : A)
| Err (e : E).
Arguments Ok {E A} a.
Arguments Err {E A} e.

#[export] Instance res_ret E : MRet (res E) := fun A a => Ok a.
#[export] Instance res_bind E : MBind (res E) := fun A B f m =>
  match m with Ok a => f a | Err e => Err e end.
#[export] Instance res_eq_dec E A `{EqDecision E, EqDecision A} : EqDecision (res E A).
Proof. solve_decision. Defined.

(** Code that mutates a state and may raise. As in Python, the mutations made
    before a raise are still there when the exception propagates. *)
Definition stm (S E A : Type) : Type := S -> res E A * S.

#[export] Instance stm_ret S E : MRet (stm S E) := fun A a s => (Ok a, s).
#[export] Instance stm_bind S E : MBind (stm S E) := fun A B f m s =>
  match m s with
  | (Ok a, s') => f a s'
  | (Err e, s') => (Err e, s')
  end.

Definition raise {S E A} (e : E) : stm S E A := fun s => (Err e, s).
Definition getS {S E} : stm S E S := fun s => (Ok s, s).
Definition putS {S E} (s : S) : stm S E unit := fun _ => (Ok tt, s).
Definition modS {S E} (f : S -> S) : stm S E unit := fun s => (Ok tt, f s).
Definition lift_res {S E A} (r : res E A) : stm S E A := fun s => (r, s).

(** [try: m except: h e], where [h] gives [None] for an exception it does not
    handle. *)
Definition try_except {S E A} (m : stm S E A) (h : E -> option (stm S E A)) : stm S E A :=
  fun s => match m s with
           | (Ok a, s') => (Ok a, s')
           | (Err e, s') => match h e with
                            | Some k => k s'
                            | None => (Err e, s')
                            end
           end.

Lemma stm_bind_ret_l {S E A B} (a : A) (f : A -> stm S E B) s :
  (mret a ≫= f) s = f a s.
Proof. reflexivity. Qed.

Lemma stm_bind_assoc {S E A B C} (m : stm S E A) (f : A -> stm S E B)
    (g : B -> stm S E C) s :
  ((m ≫= f) ≫= g) s = (m ≫= (fun a => f a ≫= g)) s.
Proof.
  unfold mbind, stm_bind. by destruct (m s) as [[a|e] s'].
Qed.

(** ** Automation shared by the components *)

(** A run that returns, step by step. *)
Lemma stm_bind_Ok {S E A B} (m : stm S E A) (k : A -> stm S E B) s b s' :
  (m ≫= k) s = (Ok b, s') -> exists a s1, m s = (Ok a, s1) /\ k a s1 = (Ok b, s').
Proof. unfold mbind, stm_bind. destruct (m s) as [[a|e] s1]; intros K; [by exists a, s1|done]. Qed.

Lemma stm_ret_Ok {S E A} (a b : A) (s s' : S) : (mret a : stm S E A) s = (Ok b, s') -> a = b /\ s = s'.
Proof. by intros [= -> ->]. Qed.

(** [m] leaves the part [f] of the state as it is, however it ends. *)
Definition frame {S E T A} (f : S -> T) (m : stm S E A) : Prop := forall s, f (m s).2 = f s.

Section frame.
Context {S E T : Type} (f : S -> T).

Lemma frame_ret {A} (a : A) : frame f (mret a : stm S E A).
Proof. done. Qed.
Lemma frame_raise {A} (e : E) : frame f (raise e : stm S E A).
Proof. done. Qed.
Lemma frame_get : frame f (getS : stm S E S).
Proof. done. Qed.
Lemma frame_lift {A} (r : res E A) : frame f (lift_res r).
Proof. done. Qed.
Lemma frame_bind {A B} (m : stm S E A) (k : A -> stm S E B) :
  frame f m -> (forall a, frame f (k a)) -> frame f (m ≫= k).
Proof.
  intros Hm Hk s. unfold mbind, stm_bind. specialize (Hm s). destruct (m s) as [[a|e] s']; cbn in *; [|done]. by rewrite Hk.
Qed.
Lemma frame_result {A} (m : stm S E A) s r s' : frame f m -> m s = (r, s') -> f s' = f s.
Proof. intros Hm Hr. specialize (Hm s). by rewrite Hr in Hm. Qed.
End frame.

Create HintDb frame.
#[export] Hint Resolve frame_ret frame_raise frame_get frame_lift : frame.

(** Case analysis on the computation, then the hints for its steps. *)
Ltac frame_tac :=
  repeat match goal with
  | |- forall _, _ => intros ?
  | |- frame _ (match ?x with _ => _ end) => destruct x
  | |- frame _ (if ?x then _ else _) => destruct x
  | |- frame _ (mbind _ _) => apply frame_bind
  | |- frame _ _ => solve [eauto 3 with frame typeclass_instances]
  end.

(** Case analysis on every match of the goal or hypotheses, then clean up. *)
Ltac destruct_matches :=
  repeat (case_match; simplify_eq/=; try done).

Ltac bool_to_prop :=
  repeat match goal with
  | H : (_ && _)%bool = true |- _ => apply andb_true_iff in H as [? ?]
  | H : (_ || _)%bool = false |- _ => apply orb_false_iff in H as [? ?]
  | H : negb _ = true |- _ => apply negb_true_iff in H
  | H : negb _ = false |- _ => apply negb_false_iff in H
  | H : (_ <=? _)%Z = true |- _ => apply Z.leb_le in H
  | H : (_ <=? _)%Z = false |- _ => apply Z.leb_gt in H
  | H : (_ <? _)%Z = true |- _ => apply Z.ltb_lt in H
  | H : (_ <? _)%Z = false |- _ => apply Z.ltb_ge in H
  | H : (_ =? _)%Z = true |- _ => apply Z.eqb_eq in H
  | H : (_ =? _)%Z = false |- _ => apply Z.eqb_neq in H
  | H : String.eqb _ _ = true |- _ => apply String.eqb_eq in H
  | H : String.eqb _ _ = false |- _ => apply String.eqb_neq in H
  end.

(** ** Python strings

    A [str] is a [string]; one 8-bit character stands for one code point. *)

Fixpoint starts_with (p s : string) : bool :=
  match p, s with
  | EmptyString, _ => true
  | String c p', String d s' => Ascii.eqb c d && starts_with p' s'
  | _, EmptyString => false
  end.

Fixpoint str_drop (n : nat) (s : string) : string :=
  match n, s with
  | O, _ => s
  | S n', String _ s' => str_drop n' s'
  | S _, EmptyString => EmptyString
  end.

Fixpoint str_take (n : nat) (s : string) : string :=
  match n, s with
  | O, _ => EmptyString
  | S n', String c s' => String c (str_take n' s')
  | S _, EmptyString => EmptyString
  end.

Definition ends_with (p s : string) : bool :=
  (String.length p <=? String.length s)%nat
  && String.eqb (str_drop (String.length s - String.length p) s) p.

(** [sub in s] *)
Fixpoint str_contains (sub s : string) : bool :=
  starts_with sub s ||
  match s with
  | EmptyString => false
  | String _ s' => str_contains sub s'
  end.

(** [s.split(sep)] for a separator of one character: never empty. *)
Fixpoint str_split (sep : ascii) (s : string) : list string :=
  match s with
  | EmptyString => [EmptyString]
  | String c s' =>
      if Ascii.eqb c sep then EmptyString :: str_split sep s'
      else match str_split sep s' with
           | h :: t => String c h :: t
           | [] => [String c EmptyString]
           end
  end.

(** [s.split(sep, 1)] when [sep] occurs: the texts around its first occurrence. *)
Fixpoint split_once (sep s : string) : option (string * string) :=
  if starts_with sep s then Some (""%string, str_drop (String.length sep) s)
  else match s with
       | EmptyString => None
       | String c s' => match split_once sep s' with Some (a, b) => Some (String c a, b) | None => None end
       end.

(** [s.replace(old, new)] for a non-empty [old]: leftmost, non-overlapping.
    [skip] counts the characters of a match that are still to be dropped. *)
Fixpoint str_replace_go (old new : string) (skip : nat) (s : string) : string :=
  match s with
  | EmptyString => EmptyString
  | String c s' =>
      match skip with
      | S k => str_replace_go old new k s'
      | O => if starts_with old s
             then new +:+ str_replace_go old new (String.length old - 1) s'
             else String c (str_replace_go old new 0 s')
      end
  end.
Definition str_replace (old new s : string) : string := str_replace_go old new 0 s.

Definition chr (n : nat) : ascii := Ascii.ascii_of_nat n.
Definition ord (c : ascii) : nat := Ascii.nat_of_ascii c.

Definition in_range (lo hi c : ascii) : bool := (ord lo <=? ord c)%nat && (ord c <=? ord hi)%nat.
Definition is_digit (c : ascii) : bool := in_range "0" "9" c.
Definition is_lower (c : ascii) : bool := in_range "a" "z" c.
Definition is_upper (c : ascii) : bool := in_range "A" "Z" c.
Definition is_alpha (c : ascii) : bool := is_lower c || is_upper c.

Definition char_lower (c : ascii) : ascii := if is_upper c then chr (ord c + 32) else c.
(** [s.lower()] on ASCII text. *)
Fixpoint str_lower (s : string) : string :=
  match s with
  | EmptyString => EmptyString
  | String c s' => String (char_lower c) (str_lower s')
  end.

Lemma char_lower_idem ch : char_lower (char_lower ch) = char_lower ch.
Proof.
  unfold char_lower at 2 3. destruct (is_upper ch) eqn:E; unfold char_lower; [|by rewrite E].
  replace (is_upper (chr (ord ch + 32))) with false; [done|]. revert E.
  destruct ch as [[] [] [] [] [] [] [] []]; vm_compute; done.
Qed.

Lemma str_lower_idem e : str_lower (str_lower e) = str_lower e.
Proof. induction e as [|ch e IH]; cbn; [done|]. by rewrite char_lower_idem, IH. Qed.

(** White space as [str.strip()] and the class [\s] read it, among the code
    points below 256. *)
Definition is_space (c : ascii) : bool :=
  (ord c =? 32)%nat || ((9 <=? ord c)%nat && (ord c <=? 13)%nat)
  || ((28 <=? ord c)%nat && (ord c <=? 31)%nat) || (ord c =? 133)%nat || (ord c =? 160)%nat.

Fixpoint str_lstrip_by (p : ascii -> bool) (s : string) : string :=
  match s with
  | EmptyString => EmptyString
  | String c s' => if p c then str_lstrip_by p s' else s
  end.
Fixpoint str_rstrip_by (p : ascii -> bool) (s : string) : string :=
  match s with
  | EmptyString => EmptyString
  | String c s' =>
      match str_rstrip_by p s' with
      | EmptyString => if p c then EmptyString else String c EmptyString
      | r => String c r
      end
  end.
Definition str_strip_by (p : ascii -> bool) (s : string) : string :=
  str_rstrip_by p (str_lstrip_by p s).
Definition str_strip : string -> string := str_strip_by is_space.

Fixpoint str_forallb (p : ascii -> bool) (s : string) : bool :=
  match s with
  | EmptyString => true
  | String c s' => p c && str_forallb p s'
  end.

(** The double quote and the newline, which string literals avoid. *)
Definition dq : string := String (chr 34) EmptyString.
Definition nl : string := String (chr 10) EmptyString.

(** The line breaks of [str.splitlines], and the method; a carriage return with a
    line feed is one break. *)
Definition line_break (c : ascii) : bool :=
  let n := ord c in ((10 <=? n) && (n <=? 13) || (28 <=? n) && (n <=? 30) || (n =? 133))%nat.

Fixpoint splitlines (s : string) : list string :=
  match s with
  | EmptyString => []
  | String c s' =>
      if line_break c then
        match s' with
        | String d s'' => if ((ord c =? 13) && (ord d =? 10))%nat then "" :: splitlines s'' else "" :: splitlines s'
        | EmptyString => [""]
        end
      else match splitlines s' with [] => [String c ""] | l :: ls => String c l :: ls end
  end.

(** [str.isprintable] below code point 256. *)
Definition is_printable (c : ascii) : bool :=
  ((32 <=? ord c) && (ord c <=? 126) || (161 <=? ord c) && negb (ord c =? 173))%nat.

(** [sep.join(l)] *)
Fixpoint str_join (sep : string) (l : list string) : string :=
  match l with
  | [] => ""
  | [x] => x
  | x :: l' => x +:+ sep +:+ str_join sep l'
  end.

Lemma str_join_cons x y l sep : str_join sep (x :: y :: l) = x +:+ sep +:+ str_join sep (y :: l).
Proof. reflexivity. Qed.

Definition hex_digit (n : nat) : ascii := if (n <? 10)%nat then chr (48 + n) else chr (87 + n).

(** [str(n)] of an integer. *)
Definition str_of_nat (n : nat) : string := pretty.pretty (N.of_nat n).
Definition str_of_Z (z : Z) : string := pretty.pretty z.

Definition str_len (s : string) : Z := Z.of_nat (String.length s).

(** Truth value of an optional string: [None] and [""] are false. *)
Definition truthy_str (s : string) : bool := negb (String.eqb s "").
Definition truthy_ostr (o : option string) : bool :=
  match o with Some s => truthy_str s | None => false end.

(** Membership in a Python list or set of strings. *)
Definition str_in (x : string) (l : list string) : bool := bool_decide (x ∈ l).

Lemma str_in_spec x l : str_in x l = true <-> x ∈ l.
Proof. apply bool_decide_eq_true. Qed.

(** *** Lemmas on strings *)

Lemma str_app_nil_r s : s +:+ "" = s.
Proof. induction s; simpl; [done|by f_equal]. Qed.

Lemma str_app_assoc a b c : (a +:+ b) +:+ c = a +:+ (b +:+ c).
Proof. induction a; simpl; [done|by f_equal]. Qed.

Lemma str_length_app a b : String.length (a +:+ b) = (String.length a + String.length b)%nat.
Proof. induction a; simpl; [done|by f_equal]. Qed.

Lemma starts_with_spec p s : starts_with p s = true <-> exists t, s = p +:+ t.
Proof.
  revert s; induction p as [|c p IH]; intros s; simpl.
  { split; [by exists s|done]. }
  destruct s as [|d s]; [split; [done|intros [t ?]; simplify_eq/=]|].
  rewrite andb_true_iff, Ascii.eqb_eq, IH. split.
  - intros [-> [t ->]]. by exists t.
  - intros [t Ht]. simplify_eq/=. eauto.
Qed.

Lemma starts_with_app p t : starts_with p (p +:+ t) = true.
Proof. apply starts_with_spec; eauto. Qed.

Lemma str_contains_spec sub s :
  str_contains sub s = true <-> exists a b, s = a +:+ sub +:+ b.
Proof.
  induction s as [|c s IH]; simpl.
  - rewrite orb_false_r, starts_with_spec. split.
    + intros [t Ht]. by exists "", t.
    + intros (a & b & Hab). destruct a; simplify_eq/=. eauto.
  - rewrite orb_true_iff, starts_with_spec, IH. split.
    + intros [[t Ht]|(a & b & ->)]; [by exists "", t|by exists (String c a), b].
    + intros (a & b & Hab). destruct a; simplify_eq/=; [left; eauto|right; eauto].
Qed.

Lemma str_take_drop n s : str_take n s +:+ str_drop n s = s.
Proof. revert s; induction n; intros [|c s]; simpl; try done. by f_equal. Qed.

Lemma str_length_take n s : String.length (str_take n s) = Nat.min n (String.length s).
Proof. revert s; induction n; intros [|c s]; simpl; auto. Qed.

Lemma str_take_app_length a b : str_take (String.length a) (a +:+ b) = a.
Proof. induction a; simpl; [by destruct b|by f_equal]. Qed.

Lemma str_drop_app_length a b : str_drop (String.length a) (a +:+ b) = b.
Proof. induction a; simpl; [done|done]. Qed.

Lemma split_once_Some sep s a b : split_once sep s = Some (a, b) -> s = a +:+ sep +:+ b.
Proof.
  revert a b. induction s as [|c s IH]; intros a b; cbn [split_once].
  - destruct sep; [|done]. by intros [= <- <-].
  - destruct (starts_with sep (String c s)) eqn:E.
    + apply starts_with_spec in E as [t Ht]. rewrite Ht, str_drop_app_length. by intros [= <- <-].
    + destruct (split_once sep s) as [[a' b']|]; [|done]. intros [= <- <-]. cbn. f_equal. by apply IH.
Qed.

Lemma split_once_None sep s : split_once sep s = None <-> str_contains sep s = false.
Proof.
  induction s as [|c s IH]; cbn [split_once str_contains].
  - destruct (starts_with sep ""); by split.
  - destruct (starts_with sep (String c s)); [by split|]. cbn [orb]. rewrite <-IH. by destruct (split_once sep s) as [[]|].
Qed.

Lemma str_split_nonempty sep s : str_split sep s <> [].
Proof. destruct s; simpl; [done|]. case_match; [done|]. by case_match. Qed.

Lemma ends_with_spec p s : ends_with p s = true <-> exists t, s = t +:+ p.
Proof.
  unfold ends_with. rewrite andb_true_iff, Nat.leb_le, String.eqb_eq. split.
  - intros [Hle Hd]. exists (str_take (String.length s - String.length p) s).
    rewrite <-Hd at 2. by rewrite str_take_drop.
  - intros [t ->]. rewrite str_length_app. split; [lia|].
    replace (String.length t + String.length p - String.length p)%nat with (String.length t) by lia.
    apply str_drop_app_length.
Qed.

Lemma length_list_ascii s : length (String.list_ascii_of_string s) = String.length s.
Proof. induction s; simpl; auto. Qed.

Lemma list_ascii_app a b :
  String.list_ascii_of_string (a +:+ b) = String.list_ascii_of_string a ++ String.list_ascii_of_string b.
Proof. induction a; simpl; [done|by f_equal]. Qed.

Lemma list_ascii_inj a b :
  String.list_ascii_of_string a = String.list_ascii_of_string b -> a = b.
Proof.
  intros H. rewrite <-(String.string_of_list_ascii_of_string a), H.
  apply String.string_of_list_ascii_of_string.
Qed.

Lemma str_forallb_list p s : str_forallb p s = forallb p (String.list_ascii_of_string s).
Proof. induction s; cbn; [done|by f_equal]. Qed.

Lemma str_forallb_append p a b : str_forallb p (a +:+ b) = str_forallb p a && str_forallb p b.
Proof. induction a as [|c a IH]; cbn; [done|]. rewrite IH. by rewrite andb_assoc. Qed.

(** ** Python values *)

(** The JSON-like values the program passes around. A dict keeps insertion
    order and has each key once ([dict_wf]). *)
#[warnings="-register-all"]
Inductive pyval : Type :=
| PNone
| PBool (b : bool)
| PInt (z : Z)
| PStr (s : string)
| PList (l : list pyval)
| PDict (d : list (string * pyval)).

Section dict.
Context {V : Type}.

Fixpoint dict_get (k : string) (d : list (string * V)) : option V :=
  match d with
  | [] => None
  | (k', v) :: d' => if String.eqb k k' then Some v else dict_get k d'
  end.

Definition dict_has (k : string) (d : list (string * V)) : bool :=
  match dict_get k d with Some _ => true | None => false end.

(** [d[k] = v]: replaces in place, or appends at the end. *)
Fixpoint dict_set (k : string) (v : V) (d : list (string * V)) : list (string * V) :=
  match d with
  | [] => [(k, v)]
  | (k', v') :: d' => if String.eqb k k' then (k', v) :: d' else (k', v') :: dict_set k v d'
  end.

(** [d.pop(k, None)] *)
Fixpoint dict_pop (k : string) (d : list (string * V)) : list (string * V) :=
  match d with
  | [] => []
  | (k', v') :: d' => if String.eqb k k' then d' else (k', v') :: dict_pop k d'
  end.

Definition dict_getd (k : string) (dflt : V) (d : list (string * V)) : V :=
  default dflt (dict_get k d).

Definition dict_keys (d : list (string * V)) : list string := map fst d.

Definition dict_wf (d : list (string * V)) : Prop := NoDup (dict_keys d).

Lemma dict_get_set_eq k v d : dict_get k (dict_set k v d) = Some v.
Proof.
  induction d as [|[k' v'] d IH]; simpl; [by rewrite String.eqb_refl|].
  destruct (String.eqb k k') eqn:E; simpl; by rewrite E.
Qed.

Lemma dict_get_set_ne k k' v d : k <> k' -> dict_get k' (dict_set k v d) = dict_get k' d.
Proof.
  intros Hne. induction d as [|[k0 v0] d IH]; simpl.
  - destruct (String.eqb_spec k' k); [congruence|done].
  - destruct (String.eqb_spec k k0) as [->|]; simpl.
    + destruct (String.eqb_spec k' k0); [congruence|done].
    + by rewrite IH.
Qed.

Lemma dict_get_pop_ne k k' d : k <> k' -> dict_get k' (dict_pop k d) = dict_get k' d.
Proof.
  intros Hne. induction d as [|[k0 v0] d IH]; simpl; [done|].
  destruct (String.eqb_spec k k0) as [->|]; simpl.
  - destruct (String.eqb_spec k' k0); [congruence|done].
  - by rewrite IH.
Qed.

Lemma dict_get_None_keys k d : dict_get k d = None <-> k ∉ dict_keys d.
Proof.
  induction d as [|[k0 v0] d IH]; simpl; [split; [intros _; apply not_elem_of_nil|done]|].
  rewrite not_elem_of_cons, <-IH. destruct (String.eqb_spec k k0); split; intros; by destruct_and?.
Qed.

Lemma dict_get_pop_eq k d : dict_wf d -> dict_get k (dict_pop k d) = None.
Proof.
  unfold dict_wf. induction d as [|[k0 v0] d IH]; simpl; [done|].
  intros [Hn Hd]%NoDup_cons. destruct (String.eqb_spec k k0) as [->|]; simpl.
  - by apply dict_get_None_keys.
  - destruct (String.eqb_spec k k0); [done|by apply IH].
Qed.

Lemma dict_keys_set k v d :
  dict_keys (dict_set k v d) = if dict_has k d then dict_keys d else dict_keys d ++ [k].
Proof.
  unfold dict_has, dict_keys. induction d as [|[k0 v0] d IH]; simpl; [done|].
  destruct (String.eqb_spec k k0) as [->|]; simpl; [done|].
  rewrite IH. by destruct (dict_get k d).
Qed.

Lemma dict_wf_set k v d : dict_wf d -> dict_wf (dict_set k v d).
Proof.
  unfold dict_wf. rewrite dict_keys_set. unfold dict_has.
  destruct (dict_get k d) eqn:E; [done|]. intros Hd. apply NoDup_app. split; [done|].
  split; [|apply NoDup_singleton].
  intros x Hx ->%list_elem_of_singleton. by apply dict_get_None_keys in E.
Qed.

Lemma dict_get_in k v d : dict_get k d = Some v -> (k, v) ∈ d.
Proof.
  induction d as [|[k' v'] d IH]; cbn [dict_get]; [done|]. destruct (String.eqb_spec k k') as [<-|]; [intros [= ->]; left|].
  intros. right. auto.
Qed.
End dict.

(** Python's truth value. *)
Definition truthy (v : pyval) : bool :=
  match v with
  | PNone => false
  | PBool b => b
  | PInt z => negb (z =? 0)%Z
  | PStr s => truthy_str s
  | PList l => match l with [] => false | _ => true end
  | PDict d => match d with [] => false | _ => true end
  end.

(** *** [repr()] and [str()] of a value *)

(** The escapes of [repr] of a string quoted with character [q]. *)
Fixpoint repr_body (q : ascii) (s : string) : string :=
  match s with
  | EmptyString => ""
  | String c s' =>
      (if Ascii.eqb c q || Ascii.eqb c "\" then String "\" (String c "")
       else if (ord c =? 9)%nat then "\t" else if (ord c =? 10)%nat then "\n"
       else if (ord c =? 13)%nat then "\r"
       else if is_printable c then String c ""
       else "\x" +:+ String (hex_digit (ord c / 16)) (String (hex_digit (ord c mod 16)) ""))
      +:+ repr_body q s'
  end.

Definition squote : ascii := chr 39.
Definition py_repr_str (s : string) : string :=
  let q := if str_contains (String squote "") s && negb (str_contains dq s) then chr 34 else squote in
  String q (repr_body q s) +:+ String q "".

Fixpoint py_repr (v : pyval) : string :=
  match v with
  | PNone => "None"
  | PBool b => if b then "True" else "False"
  | PInt z => str_of_Z z
  | PStr s => py_repr_str s
  | PList l => "[" +:+ str_join ", " (map py_repr l) +:+ "]"
  | PDict d => "{" +:+ str_join ", " (map (fun '(k, v) => py_repr_str k +:+ ": " +:+ py_repr v) d) +:+ "}"
  end.
Definition py_str (v : pyval) : string := match v with PStr s => s | _ => py_repr v end.

(** ** Generic list lemmas *)

(** [l[-n:]] for [n > 0]. *)
Definition last_n {A} (n : nat) (l : list A) : list A := drop (length l - n) l.
(** [l[:-n]] for [n > 0]. *)
Definition but_last_n {A} (n : nat) (l : list A) : list A := take (length l - n) l.

Lemma length_last_n {A} n (l : list A) : length (last_n n l) = Nat.min n (length l).
Proof. unfold last_n. rewrite length_drop. lia. Qed.

Lemma but_last_last {A} n (l : list A) : but_last_n n l ++ last_n n l = l.
Proof. apply take_drop. Qed.

Lemma last_n_id {A} n (l : list A) : (length l <= n)%nat -> last_n n l = l.
Proof. intros H. unfold last_n. by replace (length l - n)%nat with 0%nat by lia. Qed.

Lemma last_n_suffix {A} n (l : list A) : last_n n l `suffix_of` l.
Proof. exists (but_last_n n l). by rewrite but_last_last. Qed.

(** Ordering: texts by their characters, and insertion sort. *)
Fixpoint str_leb (a b : string) : bool :=
  match a, b with
  | EmptyString, _ => true
  | String _ _, EmptyString => false
  | String c a', String d b' => (ord c <? ord d)%nat || ((ord c =? ord d)%nat && str_leb a' b')
  end.
Fixpoint insert_by {A} (le : A -> A -> bool) (x : A) (l : list A) : list A :=
  match l with [] => [x] | y :: l' => if le x y then x :: l else y :: insert_by le x l' end.
Definition order_by {A} (le : A -> A -> bool) (l : list A) : list A := foldr (insert_by le) [] l.

(** First element satisfying a test, as a [for] loop with [return] finds it. *)
Fixpoint find_first {A} (p : A -> bool) (l : list A) : option A :=
  match l with
  | [] => None
  | x :: l' => if p x then Some x else find_first p l'
  end.

Lemma find_first_Some {A} (p : A -> bool) l x :
  find_first p l = Some x -> x ∈ l /\ p x = true.
Proof.
  induction l as [|y l IH]; simpl; [done|].
  destruct (p y) eqn:E; intros; simplify_eq.
  - split; [by left|done].
  - destruct IH; [done|]. split; [by right|done].
Qed.

Lemma find_first_None {A} (p : A -> bool) l :
  find_first p l = None <-> forall x, x ∈ l -> p x = false.
Proof.
  induction l as [|y l IH]; simpl.
  - split; [intros _ x Hx; by apply not_elem_of_nil in Hx|done].
  - destruct (p y) eqn:E.
    + split; [done|]. intros H. specialize (H y (list_elem_of_here _ _)). congruence.
    + rewrite IH. split.
      * intros H x [->|?]%elem_of_cons; [done|by apply H].
      * intros H x ?. apply H. by right.
Qed.

Lemma existsb_elem {A} (p : A -> bool) l :
  existsb p l = true <-> exists x, x ∈ l /\ p x = true.
Proof. rewrite existsb_exists. by setoid_rewrite <-list_elem_of_In. Qed.

Create HintDb mcpworks.
Create Rewrite HintDb mcpworks.
#[export] Hint Resolve str_split_nonempty dict_wf_set dict_get_set_eq : mcpworks.
#[export] Hint Rewrite @dict_get_set_eq @length_last_n str_length_app str_app_nil_r : mcpworks.

(** Uniqueness of keys, and the first row with a property. *)

Lemma NoDup_map_inj {A B} (f : A -> B) (l : list A) a b :
  NoDup (map f l) -> a ∈ l -> b ∈ l -> f a = f b -> a = b.
Proof.
  induction l as [|x l IH]; cbn; [intros _ Ha; by apply not_elem_of_nil in Ha|].
  intros [Hx Hl]%NoDup_cons [->|Ha]%elem_of_cons [->|Hb]%elem_of_cons Hf; try done; [| |by apply IH].
  - destruct Hx. rewrite Hf. apply list_elem_of_In, in_map. by apply list_elem_of_In.
  - destruct Hx. rewrite <-Hf. apply list_elem_of_In, in_map. by apply list_elem_of_In.
Qed.

Lemma find_app_last {A} (p : A -> bool) l1 l2 o :
  (forall a, a ∈ l1 -> p a = false) -> List.find p l2 = o -> List.find p (l1 ++ l2) = o.
Proof.
  intros Hl Ho. induction l1 as [|a l1 IH]; [done|]. cbn. rewrite (Hl a) by set_solver.
  apply IH. intros b Hb. apply Hl. set_solver.
Qed.

Lemma NoDup_snoc {A} (l : list A) x : NoDup l -> x ∉ l -> NoDup (l ++ [x]).
Proof.
  intros Hl Hx. apply NoDup_app. split; [done|]. split; [|apply NoDup_singleton].
  by intros y Hy ->%list_elem_of_singleton.
Qed.

Lemma find_none_iff {A} (p : A -> bool) l : (forall a, a ∈ l -> p a = false) -> List.find p l = None.
Proof.
  intros Hl. induction l as [|a l IH]; [done|]. cbn. rewrite (Hl a) by set_solver.
  apply IH. intros b Hb. apply Hl. set_solver.
Qed.
