(* ===== verification/Glob.v ===== *)
(** * Shell patterns: Python's [fnmatch.fnmatch]

    The rule engines ([core/agent_access.py], [core/mcp_rules.py]) match names
    against patterns with the standard library's [fnmatch].  This file models
    that function (POSIX: [normcase] is the identity): the translation of a
    pattern into items ([translate]) and matching an item list against a whole
    name ([fnmatch]).  It proves the facts the rule engines rely on. *)

From S2P Require Import Prelude.
From Stdlib Require Import Ascii.


(** A class token: a literal character, or the hyphen that makes a range. *)
Inductive ctok := TChar (c : ascii) | TDash.

Inductive item :=
| IStar
| IAny
| ILit (c : ascii)
| ISet (neg : bool) (toks : list ctok)
| INever.

#[export] Instance ctok_eq_dec : EqDecision ctok.
Proof. solve_decision. Defined.
#[export] Instance item_eq_dec : EqDecision item.
Proof. solve_decision. Defined.

(** [pat.find("]", ...)] with the rule that a [!] and a [']'] right after the
    bracket do not close it.  Gives the inside and the rest after the [']']. *)
Fixpoint until_close (p : list ascii) : option (list ascii * list ascii) :=
  match p with
  | [] => None
  | c :: p' =>
      if Ascii.eqb c "]" then Some ([], p')
      else match until_close p' with
           | Some (a, b) => Some (c :: a, b)
           | None => None
           end
  end.

Definition close_bracket (p : list ascii) : option (list ascii * list ascii) :=
  let '(pre, p1) := match p with
                    | "!"%char :: p' => (["!"%char], p')
                    | _ => ([], p)
                    end in
  let '(pre, p2) := match p1 with
                    | "]"%char :: p' => (pre ++ ["]"%char], p')
                    | _ => (pre, p1)
                    end in
  match until_close p2 with
  | Some (a, b) => Some (pre ++ a, b)
  | None => None
  end.

(** Splits the inside at range hyphens: a hyphen counts as one when at least
    [k] characters of the current chunk came before it. *)
Fixpoint chunks (k : nat) (cur : list ascii) (p : list ascii) : list (list ascii) :=
  match p with
  | [] => [rev cur]
  | c :: p' =>
      if Ascii.eqb c "-" && (k =? 0)%nat then rev cur :: chunks 2 [] p'
      else chunks (k - 1) (c :: cur) p'
  end.

(** An empty last chunk turns the hyphen before it into a literal one. *)
Fixpoint fix_last (cs : list (list ascii)) : list (list ascii) :=
  match cs with
  | [a; []] => [a ++ ["-"%char]]
  | a :: cs' => a :: fix_last cs'
  | [] => []
  end.

(** Drops the empty ranges, from the last chunk to the first. *)
Fixpoint drop_empty (cs : list (list ascii)) : list (list ascii) :=
  match cs with
  | a :: cs' =>
      match drop_empty cs' with
      | b :: rest =>
          match last a, b with
          | Some x, y :: b' =>
              if (ord y <? ord x)%nat then (removelast a ++ b') :: rest else a :: b :: rest
          | _, _ => a :: b :: rest
          end
      | [] => [a]
      end
  | [] => []
  end.

Fixpoint join_chunks (cs : list (list ascii)) : list ctok :=
  match cs with
  | [] => []
  | [a] => map TChar a
  | a :: cs' => map TChar a ++ TDash :: join_chunks cs'
  end.

Definition class_tokens (stuff : list ascii) : list ctok :=
  if existsb (Ascii.eqb "-") stuff
  then let k := match stuff with "!"%char :: _ => 2%nat | _ => 1%nat end in
       join_chunks (drop_empty (fix_last (chunks k [] stuff)))
  else map TChar stuff.

Definition class_item (stuff : list ascii) : item :=
  match class_tokens stuff with
  | [] => INever
  | [TChar "!"%char] => IAny
  | TChar "!"%char :: toks => ISet true toks
  | toks => ISet false toks
  end.

(** [fnmatch.translate], with the length of the pattern as fuel: every step
    consumes at least one character of it. *)
Fixpoint translate_fuel (n : nat) (p : list ascii) : list item :=
  match n with
  | O => []
  | S n' =>
      match p with
      | [] => []
      | "*"%char :: p' => IStar :: translate_fuel n' p'
      | "?"%char :: p' => IAny :: translate_fuel n' p'
      | "["%char :: p' =>
          match close_bracket p' with
          | Some (stuff, rest) => class_item stuff :: translate_fuel n' rest
          | None => ILit "[" :: translate_fuel n' p'
          end
      | c :: p' => ILit c :: translate_fuel n' p'
      end
  end.

Definition translate (pat : string) : list item :=
  translate_fuel (String.length pat) (String.list_ascii_of_string pat).

(** Membership in the class as the regular expression engine reads it. *)
Fixpoint in_class (toks : list ctok) (c : ascii) : bool :=
  match toks with
  | TChar a :: TDash :: TChar b :: rest => in_range a b c || in_class rest c
  | TChar a :: rest => Ascii.eqb a c || in_class rest c
  | TDash :: rest => Ascii.eqb "-" c || in_class rest c
  | [] => false
  end.

Definition match_one (i : item) (c : ascii) : bool :=
  match i with
  | IAny => true
  | ILit a => Ascii.eqb a c
  | ISet neg toks => xorb neg (in_class toks c)
  | INever | IStar => false
  end.

Fixpoint match_items (its : list item) (s : list ascii) {struct its} : bool :=
  match its with
  | [] => match s with [] => true | _ => false end
  | IStar :: its' =>
      (fix star (s : list ascii) : bool :=
         match_items its' s || match s with [] => false | _ :: s' => star s' end) s
  | i :: its' => match s with c :: s' => match_one i c && match_items its' s' | [] => false end
  end.

Definition fnmatch (name pat : string) : bool :=
  match_items (translate pat) (String.list_ascii_of_string name).

(** ** Specification of matching

    [IMatches its s]: the name [s] can be cut into one piece per item. *)
Inductive IMatches : list item -> list ascii -> Prop :=
| IM_nil : IMatches [] []
| IM_one i its c s : i <> IStar -> match_one i c = true -> IMatches its s -> IMatches (i :: its) (c :: s)
| IM_star its pre s : IMatches its s -> IMatches (IStar :: its) (pre ++ s).

Lemma match_items_star its s :
  match_items (IStar :: its) s = true <-> exists pre post, s = pre ++ post /\ match_items its post = true.
Proof.
  induction s as [|c s IH].
  - simpl. rewrite orb_false_r. split.
    + intros H. by exists [], [].
    + intros (pre & post & Heq & H). by destruct pre, post.
  - simpl in *. rewrite orb_true_iff, IH. split.
    + intros [H|(pre & post & -> & H)]; [by exists [], (c :: s)|by exists (c :: pre), post].
    + intros ([|d pre] & post & Heq & H); simplify_eq/=; [by left|right; eauto].
Qed.

Lemma match_items_spec its s : match_items its s = true <-> IMatches its s.
Proof.
  revert s; induction its as [|i its IH]; intros s.
  - split; [destruct s; [constructor|done]|by inversion 1].
  - destruct (decide (i = IStar)) as [->|Hi].
    { rewrite match_items_star. setoid_rewrite IH. split.
      - intros (pre & post & -> & H). by constructor.
      - inversion 1; simplify_eq; eauto. }
    split.
    + intros H. destruct i, s; cbn [match_items] in H; try done; bool_to_prop;
        (apply IM_one; [done|done|by apply IH]).
    + inversion 1; simplify_eq. destruct i; try done; cbn [match_items];
        apply andb_true_iff; (split; [done|by apply IH]).
Qed.

(** A character with no special meaning in a pattern. *)
Definition plain (c : ascii) : bool :=
  negb (Ascii.eqb c "*" || Ascii.eqb c "?" || Ascii.eqb c "[").

Lemma translate_plain_cons n c p :
  plain c = true -> translate_fuel (S n) (c :: p) = ILit c :: translate_fuel n p.
Proof. intros H. destruct c as [[] [] [] [] [] [] [] []]; vm_compute in H; try done. Qed.

Lemma translate_plain_app n p q :
  forallb plain p = true -> translate_fuel (length p + n) (p ++ q) = map ILit p ++ translate_fuel n q.
Proof.
  induction p as [|c p IH]; [done|]. cbn [forallb]. intros [Hc Hp]%andb_true_iff.
  change (length (c :: p) + n)%nat with (S (length p + n)). cbn [app].
  rewrite translate_plain_cons by done. by rewrite IH.
Qed.

Lemma match_lits p s its :
  match_items (map ILit p ++ its) s = true <-> exists t, s = p ++ t /\ match_items its t = true.
Proof.
  revert s; induction p as [|c p IH]; intros s; simpl.
  - split; [by exists s|intros (t & -> & H); done].
  - destruct s as [|d s]; simpl; [split; [done|intros (t & ? & ?); done]|].
    rewrite andb_true_iff, Ascii.eqb_eq, IH. split.
    + intros (-> & t & -> & H). eauto.
    + intros (t & ? & H); simplify_eq. eauto.
Qed.

Definition plain_str (s : string) : bool := forallb plain (String.list_ascii_of_string s).

(** A pattern without special characters matches exactly itself. *)
Lemma fnmatch_plain name pat : plain_str pat = true -> fnmatch name pat = true <-> name = pat.
Proof.
  intros Hp. unfold fnmatch, translate. rewrite <-length_list_ascii.
  pose proof (translate_plain_app 0 (String.list_ascii_of_string pat) [] Hp) as H.
  rewrite app_nil_r, Nat.add_0_r in H. rewrite H. cbn [translate_fuel].
  rewrite match_lits. split.
  - intros (t & Ht & Hm). destruct t; [|done]. rewrite app_nil_r in Ht. by apply list_ascii_inj.
  - intros ->. exists []. by rewrite app_nil_r.
Qed.

(** A plain prefix followed by a star matches exactly the names with that prefix. *)
Lemma fnmatch_prefix_star name pre :
  plain_str pre = true -> fnmatch name (pre +:+ "*") = starts_with pre name.
Proof.
  intros Hp. apply Bool.eq_iff_eq_true. unfold fnmatch, translate.
  rewrite str_length_app, list_ascii_app, <-length_list_ascii, translate_plain_app by done.
  rewrite match_lits, starts_with_spec. split.
  - intros (t & Ht & _). exists (String.string_of_list_ascii t). apply list_ascii_inj.
    rewrite list_ascii_app, Ht. by rewrite String.list_ascii_of_string_of_list_ascii.
  - intros [t ->]. exists (String.list_ascii_of_string t). split; [apply list_ascii_app|].
    apply match_items_star. exists (String.list_ascii_of_string t), [].
    by rewrite app_nil_r.
Qed.

Lemma fnmatch_star name : fnmatch name "*" = true.
Proof. change "*" with ("" +:+ "*"). by rewrite fnmatch_prefix_star. Qed.

(** Behaviours of the class syntax, on concrete names. *)
Example fnmatch_examples :
  map (fun '(n, p) => fnmatch n p)
    [("social.post", "social.*"); ("b", "[a-c]"); ("d", "[a-c]"); ("d", "[!a-c]");
     ("-", "[a-]"); ("]", "[]]"); ("x", "[!]]"); ("[x", "[x"); ("b", "[b-a]"); ("z", "[!b-a]");
     ("ab", "?"); ("a\b", "a\b")]
  = [true; true; false; true; true; true; true; true; false; true; false; true].
Proof. vm_compute. reflexivity. Qed.

