(* ===== verification/Regex.v ===== *)
(** * The regular expressions the scanners use

    Python's [re] on the syntax that [core/output_sanitizer.py] and
    [core/scanners/pattern_scanner.py] write: characters and classes,
    sequences, alternatives, greedy and lazy repetition of one class, and the
    multi-line [^], and [\b].  Matching is Python's backtracking, leftmost, first
    alternative first. *)

From S2P Require Import Prelude.
From Stdlib Require Import Ascii.

Inductive re :=
| REps
| RCls (p : ascii -> bool)
| RSeq (a b : re)
| RAlt (a b : re)
| RRep (p : ascii -> bool) (min : nat) (max : option nat) (greedy : bool)
| RBol
| RWordB.

(** A continuation gets the character before the current position and the text
    from there; it gives the text after the whole match. *)
(** [\w] on the first 256 characters. *)
Definition word_char (c : ascii) : bool :=
  is_alpha c || is_digit c || Ascii.eqb c "_"
  || existsb (fun n => (ord c =? n)%nat) [170; 178; 179; 181; 185; 186; 188; 189; 190]
  || ((192 <=? ord c)%nat && negb (ord c =? 215)%nat && negb (ord c =? 247)%nat).

Definition cont := option ascii -> list ascii -> option (list ascii).

Definition orelse (a b : option (list ascii)) : option (list ascii) :=
  match a with Some x => Some x | None => b end.

Definition dec_max (m : option nat) : option nat :=
  match m with Some k => Some (Nat.pred k) | None => None end.

(** [class{min,max}] followed by [k]. *)
Fixpoint rep (p : ascii -> bool) (min : nat) (max : option nat) (greedy : bool)
    (k : cont) (prev : option ascii) (s : list ascii) : option (list ascii) :=
  let stop := match min with O => k prev s | S _ => None end in
  let more := match max, s with
              | Some O, _ => None
              | _, c :: s' => if p c then rep p (Nat.pred min) (dec_max max) greedy k (Some c) s' else None
              | _, [] => None
              end in
  if greedy then orelse more stop else orelse stop more.

Fixpoint rmatch (r : re) (k : cont) (prev : option ascii) (s : list ascii) : option (list ascii) :=
  match r with
  | REps => k prev s
  | RCls p => match s with c :: s' => if p c then k (Some c) s' else None | [] => None end
  | RSeq a b => rmatch a (rmatch b k) prev s
  | RAlt a b => orelse (rmatch a k prev s) (rmatch b k prev s)
  | RRep p min max g => rep p min max g k prev s
  | RBol => match prev with
            | None => k prev s
            | Some c => if (ord c =? 10)%nat then k prev s else None
            end
  | RWordB =>
      let before := match prev with Some c => word_char c | None => false end in
      let after := match s with c :: _ => word_char c | [] => false end in
      if xorb before after then k prev s else None
  end.

(** A match at this position: the text that follows it. *)
Definition match_at (r : re) (prev : option ascii) (s : list ascii) : option (list ascii) :=
  rmatch r (fun _ rest => Some rest) prev s.

(** [pattern.finditer]: (start, matched text) of the leftmost non-overlapping
    matches.  [skip] counts characters of the last match still to be passed;
    the patterns never match the empty string, and an empty match would be
    passed over here. *)
Fixpoint finditer_go (r : re) (pos skip : nat) (prev : option ascii) (s : list ascii)
    : list (nat * list ascii) :=
  match s with
  | [] => []
  | c :: s' =>
      match skip with
      | S k => finditer_go r (S pos) k (Some c) s'
      | O =>
          match match_at r prev s with
          | Some rest =>
              let n := (length s - length rest)%nat in
              if (n =? 0)%nat then finditer_go r (S pos) 0 (Some c) s'
              else (pos, take n s) :: finditer_go r (S pos) (n - 1) (Some c) s'
          | None => finditer_go r (S pos) 0 (Some c) s'
          end
      end
  end.
Definition finditer (r : re) (s : string) : list (nat * list ascii) :=
  finditer_go r 0 0 None (String.list_ascii_of_string s).

(** [pattern.subn(new, s)]: the new text and the number of replacements. *)
Fixpoint subn_go (r : re) (new : list ascii) (skip : nat) (prev : option ascii) (s : list ascii)
    : list ascii * nat :=
  match s with
  | [] => ([], 0%nat)
  | c :: s' =>
      let keep (_ : unit) := let '(t, n) := subn_go r new 0 (Some c) s' in (c :: t, n) in
      match skip with
      | S k => subn_go r new k (Some c) s'
      | O =>
          match match_at r prev s with
          | Some rest =>
              let m := (length s - length rest)%nat in
              if (m =? 0)%nat then keep tt
              else let '(t, n) := subn_go r new (m - 1) (Some c) s' in (new ++ t, S n)
          | None => keep tt
          end
      end
  end.
Definition subn (r : re) (new s : string) : string * nat :=
  let '(t, n) := subn_go r (String.list_ascii_of_string new) 0 None (String.list_ascii_of_string s) in
  (String.string_of_list_ascii t, n).

(** ** Writing patterns *)

(** [re.IGNORECASE] for one class of ASCII characters. *)
Definition char_upper (c : ascii) : ascii := if is_lower c then chr (ord c - 32) else c.
Definition icase (p : ascii -> bool) (c : ascii) : bool := p c || p (char_lower c) || p (char_upper c).

Fixpoint rstr_with (f : (ascii -> bool) -> ascii -> bool) (s : string) : re :=
  match s with
  | EmptyString => REps
  | String c EmptyString => RCls (f (Ascii.eqb c))
  | String c s' => RSeq (RCls (f (Ascii.eqb c))) (rstr_with f s')
  end.
(** A literal, case-insensitively. *)
Definition rlit (s : string) : re := rstr_with icase s.

Fixpoint rseq (l : list re) : re :=
  match l with [] => REps | [r] => r | r :: l' => RSeq r (rseq l') end.
Fixpoint ralt (l : list re) : re :=
  match l with [] => RRep (fun _ => false) 1 None true | [r] => r | r :: l' => RAlt r (ralt l') end.
(** [(?:r)?] *)
Definition ropt (r : re) : re := RAlt r REps.
Definition rplus (p : ascii -> bool) : re := RRep p 1 None true.
Definition rstar (p : ascii -> bool) : re := RRep p 0 None true.
Definition rmin (p : ascii -> bool) (n : nat) : re := RRep p n None true.
Definition rexact (p : ascii -> bool) (n : nat) : re := RRep p n (Some n) true.

(** *** Anchored patterns *)

(** [$]: the end of the text, or its last newline. *)
Definition dollar : cont := fun _ rest =>
  match rest with
  | [] => Some []
  | [c] => if (ord c =? 10)%nat then Some rest else None
  | _ => None
  end.
(** The end of the text. *)
Definition at_end : cont := fun _ rest => match rest with [] => Some [] | _ => None end.

(** [pattern.match(s)], the pattern ended by [k]. *)
Definition matches (r : re) (k : cont) (s : string) : bool :=
  match rmatch r k None (String.list_ascii_of_string s) with Some _ => true | None => false end.

(** ** Facts about substitution *)

Lemma subn_go_zero r new skip prev s t :
  subn_go r new skip prev s = (t, 0%nat) -> skip = 0%nat -> t = s.
Proof.
  revert skip prev t; induction s as [|c s IH]; intros skip prev t H ->; cbn in H; [by simplify_eq|].
  destruct (match_at r prev (c :: s)) as [rest|].
  - case_match.
    + destruct (subn_go r new 0 (Some c) s) as [u n] eqn:E. simplify_eq. f_equal. by eapply IH.
    + destruct (subn_go r new _ (Some c) s) as [u n]. simplify_eq.
  - destruct (subn_go r new 0 (Some c) s) as [u n] eqn:E. simplify_eq. f_equal. by eapply IH.
Qed.

(** No replacement counted means the text is returned unchanged. *)
Lemma subn_zero r new s t : subn r new s = (t, 0%nat) -> t = s.
Proof.
  unfold subn. destruct (subn_go _ _ _ _ _) as [u n] eqn:E. intros H; simplify_eq.
  apply subn_go_zero in E as ->; [|done]. apply String.string_of_list_ascii_of_string.
Qed.

(** *** A match is a prefix of the text at its position *)

Definition cont_suffix (k : cont) : Prop :=
  forall prev s rest, k prev s = Some rest -> rest `suffix_of` s.

Lemma orelse_Some a b x : orelse a b = Some x -> a = Some x \/ b = Some x.
Proof. destruct a; cbn; naive_solver. Qed.

Lemma rep_suffix p min max g k : cont_suffix k -> cont_suffix (rep p min max g k).
Proof.
  intros Hk prev s. revert min max prev; induction s as [|c s IH]; intros min max prev rest H; cbn in H.
  - assert (match min with O => k prev [] | S _ => None end = Some rest) as H'.
    { destruct g; apply orelse_Some in H as [H|H]; try done; by destruct max as [[]|]. }
    destruct min; [by apply Hk in H'|done].
  - destruct g; apply orelse_Some in H as [H|H];
      (destruct min; [first [by apply Hk in H|idtac]|first [done|idtac]]);
      destruct max as [[|mx]|]; try done; destruct (p c); try done;
      apply IH in H; by apply suffix_cons_r.
Qed.

Lemma rmatch_suffix r k : cont_suffix k -> cont_suffix (rmatch r k).
Proof.
  revert k; induction r as [|p|a IHa b IHb|a IHa b IHb|p mn mx g| |]; intros k Hk; cbn.
  - done.
  - intros prev [|c s] rest H; [done|]. destruct (p c); [|done]. apply suffix_cons_r. by eapply Hk.
  - intros prev s rest H. eapply (IHa _ (IHb _ Hk)); done.
  - intros prev s rest [H|H]%orelse_Some; [by eapply IHa|by eapply IHb].
  - by apply rep_suffix.
  - intros prev s rest H. destruct prev as [c|]; [case_match; [|done]|]; by eapply Hk.
  - intros prev s rest H. destruct (xorb _ _); [|done]. by eapply Hk.
Qed.

Lemma match_at_suffix r prev s rest : match_at r prev s = Some rest -> rest `suffix_of` s.
Proof.
  apply rmatch_suffix. by intros ??? [= ->].
Qed.

(** *** Bounded repetition *)

#[local] Open Scope nat_scope.

(** Whether a bounded repetition can be followed by [k]. *)
Lemma rep_max_some p m g k prev s :
  (exists rest, rep p 0 (Some m) g k prev s = Some rest) <->
  exists i prev', i <= m /\ i <= length s /\ Forall (fun c => p c = true) (take i s) /\
    prev' = match i with O => prev | S j => s !! j end /\
    exists rest, k prev' (drop i s) = Some rest.
Proof.
  revert m prev; induction s as [|c s IH]; intros m prev.
  - assert (rep p 0 (Some m) g k prev [] = k prev []) as ->.
    { cbn. destruct g, m; cbn; try done; by destruct (k prev []). }
    split.
    + intros [rest Hr]. exists 0, prev. cbn. repeat split; try lia; [done|eauto].
    + intros (i & prev' & _ & Hi & _ & -> & rest & Hr). cbn in Hi. destruct i; [|lia]. cbn in Hr. eauto.
  - assert ((exists rest, rep p 0 (Some m) g k prev (c :: s) = Some rest) <->
      (exists rest, k prev (c :: s) = Some rest) \/
      (exists m', m = S m' /\ p c = true /\ exists rest, rep p 0 (Some m') g k (Some c) s = Some rest)) as ->.
    { cbn [rep Nat.pred dec_max]. destruct m as [|m]; cbn.
      - destruct g; cbn; split; intros Hx.
        + by left.
        + destruct Hx as [Hx|(m' & ? & _)]; [done|lia].
        + left. by destruct (k prev (c :: s)).
        + destruct Hx as [[x ->]|(m' & ? & _)]; [by exists x|lia].
      - destruct (p c); cbn; split; intros Hx.
        + destruct Hx as [r Hx]. destruct g; apply orelse_Some in Hx as [Hx|Hx];
            solve [left; by exists r|right; exists m; split; [done|]; split; [done|by exists r]].
        + destruct Hx as [[r Hx]|(m' & [= <-] & _ & r & Hx)]; rewrite Hx; destruct g; cbn; eauto;
            [destruct (rep p 0 (Some m) true k (Some c) s); cbn; eauto|destruct (k prev (c :: s)); cbn; eauto].
        + left. destruct Hx as [r Hx]. destruct g; try (apply orelse_Some in Hx as [Hx|Hx]); done || eauto.
        + destruct Hx as [[r Hx]|(m' & _ & ? & _)]; [|done]. rewrite Hx. destruct g; cbn; eauto. }
    split.
    + intros [[rest Hr]|(m' & -> & Hp & Hrep)].
      * exists 0, prev. cbn. repeat split; try lia; [done|eauto].
      * apply IH in Hrep as (i & prev' & Him & Hil & Hf & -> & rest & Hr).
        exists (S i), (match i with O => Some c | S j => s !! j end). cbn.
        split; [lia|]. split; [lia|]. split; [by constructor|]. split; [by destruct i|]. eauto.
    + intros (i & prev' & Him & Hil & Hf & -> & rest & Hr). destruct i as [|i]; [left; eauto|]. right.
      destruct m as [|m]; [lia|]. exists m. cbn in Hf, Hil. apply Forall_cons in Hf as [Hp Hf]. split; [done|].
      split; [done|]. apply IH. exists i, (match i with O => Some c | S j => s !! j end).
      split; [lia|]. split; [lia|]. split; [done|]. split; [done|]. cbn in Hr. destruct i; eauto.
Qed.

Lemma str_forallb_Forall p s : str_forallb p s = true <-> Forall (fun c => p c = true) (String.list_ascii_of_string s).
Proof. rewrite str_forallb_list, forallb_forall, Forall_forall. by setoid_rewrite list_elem_of_In. Qed.
