(* ===== verification/AgentAccess.v ===== *)
(** * Per-agent access control, tool tiers and trust scores

    [core/agent_access.py]: function and state rules with glob patterns, deny
    before allow, and the trust-score gate of allow rules.
    [core/tool_permissions.py]: the tools each tier of agent may call.
    [services/trust_score.py]: how security events lower an agent's score and
    successful runs raise it again.  The last section connects the gate with
    the score: what a denied agent can regain. *)

From S2P Require Import Prelude Glob.
From stdpp Require Import sorting.

Open Scope Z_scope.

(** ** Rules *)

(** A rule dict: [{"id", "type", "patterns", "min_trust_score"}], every key
    optional, as the code reads them with [.get]. *)
Record access_rule := AccessRule {
  r_id : option string;
  r_type : option string;
  r_patterns : option (list string);
  r_min_trust : option Z
}.

(** The [access_rules] JSON column of an agent. *)
Record access_rules := AccessRules {
  function_rules : option (list access_rule);
  state_rules : option (list access_rule)
}.

#[export] Instance access_rule_eq_dec : EqDecision access_rule.
Proof. solve_decision. Defined.

(** [r.get("type") == t] *)
Definition has_type (t : string) (r : access_rule) : bool :=
  match r_type r with Some t' => String.eqb t' t | None => false end.

Definition rule_patterns (r : access_rule) : list string := default [] (r_patterns r).

Definition rule_matches (name : string) (r : access_rule) : bool :=
  existsb (fnmatch name) (rule_patterns r).

Definition rules_of_type (t : string) (rs : list access_rule) : list access_rule :=
  List.filter (has_type t) rs.

(** The nested [for rule: for pattern: if fnmatch: ...] loops: the first rule
    with a pattern that matches. *)
Definition first_match (name : string) (rs : list access_rule) : option access_rule :=
  find_first (rule_matches name) rs.

Definition first_rule_id (rs : list access_rule) : option string :=
  match rs with r :: _ => r_id r | [] => None end.

(** The part of [check_function_access] after the deny loops, for functions. *)
Definition check_allow_functions (rs : list access_rule) (qualified : string)
    (trust_score : option Z) : bool * option string :=
  match rules_of_type "allow_functions" rs with
  | [] => (true, None)
  | allow_function_rules =>
      match first_match qualified allow_function_rules with
      | None => (false, first_rule_id allow_function_rules)
      | Some matching_rule =>
          match trust_score with
          | Some score =>
              if score <? default 0 (r_min_trust matching_rule)
              then (false, r_id matching_rule)
              else (true, None)
          | None => (true, None)
          end
      end
  end.

(** [check_function_access]: (allowed, blocking_rule_id). *)
Definition check_function_access (ar : option access_rules)
    (service_name function_name : string) (trust_score : option Z) : bool * option string :=
  match ar with
  | None => (true, None)
  | Some ar =>
      match default [] (function_rules ar) with
      | [] => (true, None)
      | rs =>
          let qualified := service_name +:+ "." +:+ function_name in
          match first_match service_name (rules_of_type "deny_services" rs) with
          | Some rule => (false, r_id rule)
          | None =>
              match first_match qualified (rules_of_type "deny_functions" rs) with
              | Some rule => (false, r_id rule)
              | None =>
                  match rules_of_type "allow_services" rs with
                  | [] => check_allow_functions rs qualified trust_score
                  | allow_service_rules =>
                      match first_match service_name allow_service_rules with
                      | None => (false, first_rule_id allow_service_rules)
                      | Some _ => check_allow_functions rs qualified trust_score
                      end
                  end
              end
          end
      end
  end.

(** [check_state_access]: (allowed, blocking_rule_id). *)
Definition check_state_access (ar : option access_rules) (key : string) : bool * option string :=
  match ar with
  | None => (true, None)
  | Some ar =>
      match default [] (state_rules ar) with
      | [] => (true, None)
      | rs =>
          match first_match key (rules_of_type "deny_keys" rs) with
          | Some rule => (false, r_id rule)
          | None =>
              match rules_of_type "allow_keys" rs with
              | [] => (true, None)
              | allow_rules =>
                  match first_match key allow_rules with
                  | None => (false, first_rule_id allow_rules)
                  | Some _ => (true, None)
                  end
              end
          end
      end
  end.

Definition filter_state_keys (ar : option access_rules) (keys : list string) : list string :=
  match ar with
  | None => keys
  | Some _ => List.filter (fun k => fst (check_state_access ar k)) keys
  end.

(** *** What the rules mean, declaratively *)

Definition the_rules (ar : option access_rules) : list access_rule :=
  match ar with Some ar => default [] (function_rules ar) | None => [] end.
Definition the_state_rules (ar : option access_rules) : list access_rule :=
  match ar with Some ar => default [] (state_rules ar) | None => [] end.

Definition some_rule (t name : string) (rs : list access_rule) : Prop :=
  exists r, r ∈ rs /\ has_type t r = true /\ rule_matches name r = true.
Definition any_of_type (t : string) (rs : list access_rule) : Prop :=
  exists r, r ∈ rs /\ has_type t r = true.

(** The trust gate: the first allow rule that matches decides. *)
Definition trust_ok (rs : list access_rule) (qualified : string) (score : option Z) : Prop :=
  forall s r, score = Some s ->
    first_match qualified (rules_of_type "allow_functions" rs) = Some r ->
    default 0 (r_min_trust r) <= s.

Definition function_allowed (rs : list access_rule) (service function : string)
    (score : option Z) : Prop :=
  let qualified := service +:+ "." +:+ function in
  ~ some_rule "deny_services" service rs /\
  ~ some_rule "deny_functions" qualified rs /\
  (any_of_type "allow_services" rs -> some_rule "allow_services" service rs) /\
  (any_of_type "allow_functions" rs -> some_rule "allow_functions" qualified rs) /\
  trust_ok rs qualified score.

Lemma rules_of_type_elem t rs r : r ∈ rules_of_type t rs <-> r ∈ rs /\ has_type t r = true.
Proof. unfold rules_of_type. by rewrite !list_elem_of_In, filter_In. Qed.

Lemma first_match_None t name rs :
  first_match name (rules_of_type t rs) = None <-> ~ some_rule t name rs.
Proof.
  unfold first_match, some_rule. rewrite find_first_None. setoid_rewrite rules_of_type_elem. split.
  - intros H (r & Hr & Ht & Hm). rewrite H in Hm; done.
  - intros H r [Hr Ht]. apply not_true_is_false. intros Hm. eauto.
Qed.

Lemma first_match_Some t name rs r :
  first_match name (rules_of_type t rs) = Some r -> some_rule t name rs.
Proof.
  intros [Hr Hm]%find_first_Some. apply rules_of_type_elem in Hr as [??]. by exists r.
Qed.

Lemma rules_of_type_nil t rs : rules_of_type t rs = [] <-> ~ any_of_type t rs.
Proof.
  split.
  - intros H (r & Hr & Ht). assert (r ∈ rules_of_type t rs) as Hin by by apply rules_of_type_elem.
    rewrite H in Hin. by apply not_elem_of_nil in Hin.
  - intros H. destruct (rules_of_type t rs) as [|r l] eqn:E; [done|]. destruct H.
    exists r. apply rules_of_type_elem. rewrite E. by left.
Qed.

(** Case analysis on what kind of rule exists and matches. *)
Lemma match_cases t name rs :
  (rules_of_type t rs = [] /\ ~ any_of_type t rs /\ ~ some_rule t name rs) \/
  (exists r l, rules_of_type t rs = r :: l /\ any_of_type t rs /\
     ((first_match name (r :: l) = None /\ ~ some_rule t name rs) \/
      exists m, first_match name (r :: l) = Some m /\ some_rule t name rs)).
Proof.
  destruct (rules_of_type t rs) as [|r l] eqn:E.
  - left. pose proof (proj1 (rules_of_type_nil t rs) E). split_and!; [done..|].
    intros (x & ? & ? & ?). eapply H. by exists x.
  - right. exists r, l. split; [done|]. split.
    { exists r. apply rules_of_type_elem. rewrite E. by left. }
    rewrite <-E. destruct (first_match name (rules_of_type t rs)) as [m|] eqn:F.
    + right. eauto using first_match_Some.
    + left. split; [done|]. by apply first_match_None.
Qed.

Lemma check_allow_functions_spec rs q score :
  fst (check_allow_functions rs q score) = true <->
  (any_of_type "allow_functions" rs -> some_rule "allow_functions" q rs) /\ trust_ok rs q score.
Proof.
  unfold check_allow_functions, trust_ok.
  destruct (match_cases "allow_functions" q rs)
    as [(-> & Ha & Hs)|(r & l & -> & Ha & [[F Hs]|(m & F & Hs)])].
  - cbn. split; [|done]. intros _. split; [done|]. intros ????. done.
  - rewrite F. cbn. split; [done|]. intros [H _]. tauto.
  - rewrite F. destruct score as [s|]; cbn.
    + destruct (Z.ltb_spec s (default 0 (r_min_trust m))); cbn; split; try done.
      * intros [_ H']. specialize (H' s m eq_refl eq_refl). lia.
      * intros _. split; [done|]. intros s' r' [= <-] [= <-]. lia.
    + split; [|done]. intros _. split; [done|]. intros ???; done.
Qed.

Lemma check_function_access_iff ar service function score :
  fst (check_function_access ar service function score) = true <->
  function_allowed (the_rules ar) service function score.
Proof.
  unfold check_function_access, function_allowed, the_rules.
  assert (Hnil : function_allowed [] service function score).
  { unfold function_allowed, some_rule, any_of_type, trust_ok. split_and!; try done.
    all: by intros (r & Hr & _); apply not_elem_of_nil in Hr. }
  destruct ar as [[fr sr]|]; [|by split]. cbn [AgentAccess.function_rules].
  destruct (default [] fr) as [|r0 rs0] eqn:Ers; [by split|]. rewrite <-Ers. clear Hnil.
  set (rs := default [] fr). set (q := service +:+ "." +:+ function).
  destruct (first_match service (rules_of_type "deny_services" rs)) as [m|] eqn:D1.
  { apply first_match_Some in D1. split; [done|]. intros (H & _). tauto. }
  apply first_match_None in D1.
  destruct (first_match q (rules_of_type "deny_functions" rs)) as [m|] eqn:D2.
  { apply first_match_Some in D2. split; [done|]. intros (_ & H & _). tauto. }
  apply first_match_None in D2.
  pose proof (check_allow_functions_spec rs q score) as HF.
  destruct (match_cases "allow_services" service rs)
    as [(-> & Ha & Hs)|(r & l & -> & Ha & [[F Hs]|(m & F & Hs)])]; try rewrite F; try tauto.
  cbn. split; [done|]. tauto.
Qed.

Lemma check_function_access_deny ar service function score :
  some_rule "deny_services" service (the_rules ar) \/
  some_rule "deny_functions" (service +:+ "." +:+ function) (the_rules ar) ->
  fst (check_function_access ar service function score) = false.
Proof.
  intros H. apply not_true_is_false. rewrite check_function_access_iff.
  intros (H1 & H2 & _). tauto.
Qed.

(** Both predicates only look at the rules of one type. *)
Lemma some_rule_alt t name rs :
  some_rule t name rs <-> exists r, r ∈ rules_of_type t rs /\ rule_matches name r = true.
Proof. unfold some_rule. setoid_rewrite rules_of_type_elem. firstorder. Qed.

Lemma any_of_type_alt t rs : any_of_type t rs <-> exists r, r ∈ rules_of_type t rs.
Proof. unfold any_of_type. by setoid_rewrite rules_of_type_elem. Qed.

Definition is_deny (r : access_rule) : Prop :=
  r_type r = Some "deny_services" \/ r_type r = Some "deny_functions".

Lemma rules_of_type_insert_deny t rs1 rs2 r :
  is_deny r -> t <> "deny_services" -> t <> "deny_functions" ->
  rules_of_type t (rs1 ++ r :: rs2) = rules_of_type t (rs1 ++ rs2).
Proof.
  intros Hd H1 H2. unfold rules_of_type. rewrite !List.filter_app. f_equal. cbn.
  assert (has_type t r = false) as ->; [|done].
  unfold has_type. destruct Hd as [-> | ->]; by apply String.eqb_neq, not_eq_sym.
Qed.

Lemma some_rule_insert t name rs1 rs2 r :
  some_rule t name (rs1 ++ rs2) -> some_rule t name (rs1 ++ r :: rs2).
Proof.
  intros (x & Hx & ? & ?). exists x. split; [|done].
  apply elem_of_app in Hx as [?|?]; apply elem_of_app; [by left|right; by right].
Qed.

Definition with_function_rules (rs : list access_rule) : option access_rules :=
  Some (AccessRules (Some rs) None).

Lemma the_rules_with rs : the_rules (with_function_rules rs) = rs.
Proof. reflexivity. Qed.

(** Adding a deny rule anywhere in the list never grants access that was
    not there before. *)
Theorem deny_rule_monotone rs1 rs2 r service function score :
  is_deny r ->
  fst (check_function_access (with_function_rules (rs1 ++ r :: rs2)) service function score) = true ->
  fst (check_function_access (with_function_rules (rs1 ++ rs2)) service function score) = true.
Proof.
  intros Hd. rewrite !check_function_access_iff, !the_rules_with.
  unfold function_allowed, trust_ok.
  rewrite !(some_rule_alt "allow_services"), !(some_rule_alt "allow_functions"), !any_of_type_alt.
  rewrite !rules_of_type_insert_deny by done.
  intros (H1 & H2 & H3 & H4 & H5). split_and!; try done; intros H; [apply H1|apply H2];
    by apply some_rule_insert.
Qed.

Definition demo_deny : access_rule := AccessRule (Some "d1") (Some "deny_functions") (Some ["billing.*"]) None.
Definition demo_allow : access_rule := AccessRule (Some "a1") (Some "allow_functions") (Some ["social.*"]) (Some 300).

Lemma deny_rule_monotone_witness :
  fst (check_function_access (with_function_rules ([demo_allow] ++ [])) "social" "post" (Some 400)) = true.
Proof.
  apply (deny_rule_monotone [demo_allow] [] demo_deny "social" "post" (Some 400)).
  - right. reflexivity.
  - vm_compute. reflexivity.
Defined.

Lemma some_rule_perm t name rs rs' : rs ≡ₚ rs' -> some_rule t name rs -> some_rule t name rs'.
Proof. intros Hp (r & Hr & H). exists r. split; [by rewrite <-Hp|done]. Qed.

Lemma any_of_type_perm t rs rs' : rs ≡ₚ rs' -> any_of_type t rs -> any_of_type t rs'.
Proof. intros Hp (r & Hr & H). exists r. split; [by rewrite <-Hp|done]. Qed.

Lemma function_allowed_perm rs rs' service function :
  rs ≡ₚ rs' -> function_allowed rs service function None -> function_allowed rs' service function None.
Proof.
  intros Hp (H1 & H2 & H3 & H4 & _). symmetry in Hp. unfold function_allowed, trust_ok.
  split_and!; try done; eauto using some_rule_perm, any_of_type_perm.
  all: intros; eapply some_rule_perm; [symmetry; done|]; eauto using any_of_type_perm.
Qed.

(** Without a trust score the order of the rules does not matter: the
    decision is the same for every permutation of the list. *)
Theorem rule_order_irrelevant rs rs' service function :
  rs ≡ₚ rs' ->
  fst (check_function_access (with_function_rules rs) service function None) =
  fst (check_function_access (with_function_rules rs') service function None).
Proof.
  intros Hp. apply Bool.eq_iff_eq_true. rewrite !check_function_access_iff, !the_rules_with.
  split; by apply function_allowed_perm.
Qed.

Lemma rule_order_irrelevant_witness :
  fst (check_function_access (with_function_rules [demo_allow; demo_deny]) "social" "post" None) =
  fst (check_function_access (with_function_rules [demo_deny; demo_allow]) "social" "post" None).
Proof. apply (rule_order_irrelevant [demo_allow; demo_deny] [demo_deny; demo_allow]). apply perm_swap. Defined.

(** With a trust score the order does matter: the first matching allow rule
    decides, even if a later one would let the call through. *)
Example trust_gate_first_rule_decides :
  let strict := AccessRule (Some "s") (Some "allow_functions") (Some ["social.*"]) (Some 900) in
  let lax := AccessRule (Some "l") (Some "allow_functions") (Some ["social.post"]) None in
  (check_function_access (with_function_rules [strict; lax]) "social" "post" (Some 500),
   check_function_access (with_function_rules [lax; strict]) "social" "post" (Some 500))
  = ((false, Some "s"), (true, None)).
Proof. vm_compute. reflexivity. Qed.

(** *** The reported rule *)

Lemma first_match_id t name rs r :
  first_match name (rules_of_type t rs) = Some r -> r ∈ rs.
Proof. intros [Hr _]%find_first_Some. by apply rules_of_type_elem in Hr as [? _]. Qed.

Lemma first_rule_id_elem t rs r l :
  rules_of_type t rs = r :: l -> r ∈ rs.
Proof.
  intros E. assert (r ∈ rules_of_type t rs) as H by (rewrite E; by left).
  by apply rules_of_type_elem in H as [? _].
Qed.

Lemma first_match_cons_id t name rs r l m :
  rules_of_type t rs = r :: l -> first_match name (r :: l) = Some m -> m ∈ rs.
Proof. intros <-. apply first_match_id. Qed.

Lemma blocking_rule_is_a_rule ar service function score i :
  check_function_access ar service function score = (false, i) ->
  exists r, r ∈ the_rules ar /\ r_id r = i.
Proof.
  unfold check_function_access, check_allow_functions, the_rules. intros H.
  destruct ar as [[fr sr]|]; [|done]. cbn [function_rules] in *.
  destruct (default [] fr) as [|r0 rs0] eqn:Ers; [done|]. rewrite <-Ers in *.
  repeat (case_match; simplify_eq/=);
    match goal with |- exists r, _ /\ r_id r = r_id ?m => exists m; split; [|done] end;
    eauto using first_match_id, first_match_cons_id, first_rule_id_elem.
Qed.

(** [C14]  [check_function_access] allows a call exactly when no deny rule matches
    the service or the qualified name, an allow rule of each kind that is
    present matches, and the first matching allow rule's minimum trust is met.
    An allowed call carries no rule id; a refusal carries the id of one of the
    agent's own rules. *)
Theorem check_function_access_correct ar service function score :
  let r := check_function_access ar service function score in
  (fst r = true <-> function_allowed (the_rules ar) service function score) /\
  (fst r = true -> snd r = None) /\
  (fst r = false -> exists rule, rule ∈ the_rules ar /\ r_id rule = snd r).
Proof.
  cbv zeta. split_and!.
  - apply check_function_access_iff.
  - unfold check_function_access, check_allow_functions. repeat (case_match; try done).
  - destruct (check_function_access ar service function score) as [b i] eqn:E. cbn. intros ->.
    by eapply blocking_rule_is_a_rule.
Qed.

(** ** State keys *)

Definition key_allowed (rs : list access_rule) (key : string) : Prop :=
  ~ some_rule "deny_keys" key rs /\
  (any_of_type "allow_keys" rs -> some_rule "allow_keys" key rs).

(** A state key is accessible exactly when no deny rule matches it and, if there
    are allow rules, one of them does. *)
Lemma check_state_access_iff ar key :
  fst (check_state_access ar key) = true <-> key_allowed (the_state_rules ar) key.
Proof.
  unfold check_state_access, key_allowed, the_state_rules.
  assert (Hnil : ~ some_rule "deny_keys" key [] /\
                 (any_of_type "allow_keys" [] -> some_rule "allow_keys" key [])).
  { split; intros (r & Hr & _); by apply not_elem_of_nil in Hr. }
  destruct ar as [[fr sr]|]; [|by split]. cbn [AgentAccess.state_rules].
  destruct (default [] sr) as [|r0 rs0] eqn:Ers; [by split|]. rewrite <-Ers. clear Hnil.
  set (rs := default [] sr).
  destruct (first_match key (rules_of_type "deny_keys" rs)) as [m|] eqn:D1.
  { apply first_match_Some in D1. split; [done|]. tauto. }
  apply first_match_None in D1.
  destruct (match_cases "allow_keys" key rs)
    as [(-> & Ha & Hs)|(r & l & -> & Ha & [[F Hs]|(m & F & Hs)])]; try rewrite F; cbn;
    (split; [done|tauto]).
Qed.

(** [filter_state_keys] keeps exactly the accessible keys, in their
    order. *)
Theorem filter_state_keys_spec ar keys :
  filter_state_keys ar keys `sublist_of` keys /\
  forall k, k ∈ filter_state_keys ar keys <-> k ∈ keys /\ key_allowed (the_state_rules ar) k.
Proof.
  unfold filter_state_keys. destruct ar as [ar|].
  - split.
    + induction keys as [|k ks IH]; cbn [List.filter]; [constructor|].
      destruct (fst (check_state_access (Some ar) k));
        first [by apply sublist_skip | by apply sublist_cons].
    + intros k. by rewrite !list_elem_of_In, filter_In, check_state_access_iff.
  - split; [done|]. intros k. split; [|by intros [? _]]. intros Hk. split; [done|].
    by apply (check_state_access_iff None).
Qed.

(** ** Tool tiers *)

Inductive ToolTier := EXECUTE_ONLY | STANDARD | BUILDER | ADMIN.

#[export] Instance ToolTier_eq_dec : EqDecision ToolTier.
Proof. solve_decision. Defined.

Definition _EXECUTE_ONLY_TOOLS : list string := ["execute"].

Definition _STANDARD_TOOLS : list string :=
  _EXECUTE_ONLY_TOOLS ++
  ["get_agent_state"; "set_agent_state"; "delete_agent_state"; "list_agent_state_keys";
   "list_functions"; "describe_function"; "list_services"; "list_namespaces"; "list_agents";
   "describe_agent"; "list_schedules"; "list_webhooks"; "list_packages"; "list_templates";
   "describe_template"; "chat_with_agent"; "get_view_url"].

Definition _BUILDER_TOOLS : list string :=
  _STANDARD_TOOLS ++
  ["make_function"; "update_function"; "make_service"; "make_namespace"; "make_agent";
   "add_schedule"; "add_webhook"; "add_channel"; "configure_agent_ai"; "configure_mcp_servers";
   "configure_orchestration_limits"; "configure_heartbeat"; "lock_function"; "unlock_function";
   "clone_agent"; "publish_view"; "clear_view"].

Definition _ADMIN_TOOLS : list string :=
  _BUILDER_TOOLS ++
  ["delete_function"; "delete_service"; "destroy_agent"; "remove_agent_ai"; "remove_schedule";
   "remove_webhook"; "remove_channel"; "start_agent"; "stop_agent"].

Definition TIER_TOOLS (t : ToolTier) : list string :=
  match t with
  | EXECUTE_ONLY => _EXECUTE_ONLY_TOOLS
  | STANDARD => _STANDARD_TOOLS
  | BUILDER => _BUILDER_TOOLS
  | ADMIN => _ADMIN_TOOLS
  end.

Definition CONFIRMATION_REQUIRED : list string := ["destroy_agent"; "delete_service"].

(** (calls, window in seconds) *)
Definition MANAGEMENT_RATE_LIMITS : list (string * (Z * Z)) :=
  [("make_function", (10, 60)); ("update_function", (20, 60)); ("delete_function", (5, 60));
   ("destroy_agent", (2, 3600)); ("delete_service", (2, 3600)); ("configure_agent_ai", (5, 3600))].

Definition is_tool_allowed (tool_tier : ToolTier) (tool_name : string) : bool :=
  str_contains "__" tool_name || str_in tool_name (TIER_TOOLS tool_tier).

Definition requires_confirmation (tool_name : string) : bool :=
  str_in tool_name CONFIRMATION_REQUIRED.

Definition tier_rank (t : ToolTier) : nat :=
  match t with EXECUTE_ONLY => 0 | STANDARD => 1 | BUILDER => 2 | ADMIN => 3 end.

Lemma tier_tools_mono t t' : (tier_rank t <= tier_rank t')%nat -> TIER_TOOLS t ⊆ TIER_TOOLS t'.
Proof.
  intros H x Hx. destruct t, t'; cbn in H; try lia; cbn [TIER_TOOLS] in *;
    repeat first [done | apply elem_of_app; left].
Qed.

(** The tiers are nested: whatever a tier may call, every higher tier may
    call too; and the tools that need confirmation are out of reach below
    ADMIN. *)
Theorem tool_tiers_nested :
  (forall t t' name, (tier_rank t <= tier_rank t')%nat ->
     is_tool_allowed t name = true -> is_tool_allowed t' name = true) /\
  (forall t name, requires_confirmation name = true -> is_tool_allowed t name = true -> t = ADMIN).
Proof.
  split.
  - intros t t' name H. unfold is_tool_allowed. rewrite !orb_true_iff, !str_in_spec.
    intros [?|?]; [by left|right]. by eapply tier_tools_mono.
  - intros t name. unfold requires_confirmation. rewrite str_in_spec. unfold CONFIRMATION_REQUIRED.
    intros [->|[->|[]%not_elem_of_nil]%elem_of_cons]%elem_of_cons; by destruct t.
Qed.

(** ** Trust scores *)

Definition TRUST_DEFAULT : Z := 500.
Definition TRUST_MIN : Z := 0.
Definition TRUST_MAX : Z := 1000.
Definition TRUST_RECOVERY_CAP : Z := 500.
Definition TRUST_RECOVERY_DELTA : Z := 1.

Definition EVENT_DELTAS : list (string * Z) :=
  [("scanner.prompt_injection", -50); ("scanner.secret_leak", -100);
   ("scanner.output_blocked", -25); ("agent.unauthorized_access", -50)].
Definition DEFAULT_DELTA : Z := -25.

Definition get_delta_for_event (event_type : string) : Z :=
  dict_getd event_type DEFAULT_DELTA EVENT_DELTAS.

(** The columns of the [agents] table the two statements touch. *)
Record agent_trust := AgentTrust { trust_score : Z; trust_score_updated_at : Z }.

Abbreviation trust_db := (gmap positive agent_trust).

(** [UPDATE agents SET trust_score = GREATEST(0, LEAST(1000, trust_score + d)),
    trust_score_updated_at = NOW() WHERE id = agent_id] *)
Definition adjust_trust_score (db : trust_db) (now : Z) (agent_id : positive) (delta : Z) : trust_db :=
  alter (fun a => AgentTrust (Z.max TRUST_MIN (Z.min TRUST_MAX (trust_score a + delta))) now)
    agent_id db.

(** [UPDATE ... SET trust_score = LEAST(500, trust_score + 1) WHERE id = agent_id
    AND trust_score < 500] *)
Definition recover_trust_score (db : trust_db) (now : Z) (agent_id : positive) : trust_db :=
  alter (fun a => if trust_score a <? TRUST_RECOVERY_CAP
                  then AgentTrust (Z.min TRUST_RECOVERY_CAP (trust_score a + TRUST_RECOVERY_DELTA)) now
                  else a)
    agent_id db.

(** What can happen to the scores: a security event or a successful run of
    some agent. *)
Inductive trust_step : trust_db -> trust_db -> Prop :=
| trust_event db now agent_id event_type :
    trust_step db (adjust_trust_score db now agent_id (get_delta_for_event event_type))
| trust_adjust db now agent_id delta :
    trust_step db (adjust_trust_score db now agent_id delta)
| trust_recover db now agent_id :
    trust_step db (recover_trust_score db now agent_id).

Definition trust_bounded (db : trust_db) : Prop :=
  map_Forall (fun _ a => TRUST_MIN <= trust_score a <= TRUST_MAX) db.

Lemma map_Forall_alter_pres {V} (P : V -> Prop) (f : V -> V) (i : positive) (m : gmap positive V) :
  (forall v, P v -> P (f v)) -> map_Forall (fun _ => P) m -> map_Forall (fun _ => P) (alter f i m).
Proof.
  intros Hf Hm j v. rewrite lookup_alter. case_decide; subst.
  - intros (w & Hw & ->)%fmap_Some. by eapply Hf, Hm.
  - apply Hm.
Qed.

Lemma trust_step_bounded db db' : trust_step db db' -> trust_bounded db -> trust_bounded db'.
Proof.
  unfold trust_bounded, adjust_trust_score, recover_trust_score.
  destruct 1; apply map_Forall_alter_pres; intros [s t]; unfold TRUST_MIN, TRUST_MAX, TRUST_RECOVERY_CAP; cbn; [lia|lia|].
  case_match; cbn; unfold TRUST_RECOVERY_DELTA; lia.
Qed.

(** Every score stays between 0 and 1000, whatever sequence of events,
    adjustments and recoveries happens. *)
Theorem trust_score_bounded db db' :
  rtc trust_step db db' -> trust_bounded db -> trust_bounded db'.
Proof. induction 1; eauto using trust_step_bounded. Qed.

Lemma trust_score_bounded_witness :
  trust_bounded (adjust_trust_score {[1%positive := AgentTrust 30 0]} 5 1%positive (get_delta_for_event "scanner.secret_leak")).
Proof.
  apply (trust_score_bounded {[1%positive := AgentTrust 30 0]}).
  - eapply rtc_once. constructor.
  - intros i a [<- <-]%lookup_singleton_Some. unfold TRUST_MIN, TRUST_MAX. split; vm_compute; discriminate.
Defined.

(** The score of an agent after [n] successful runs. *)
Fixpoint recover_n (n : nat) (db : trust_db) (agent_id : positive) : trust_db :=
  match n with
  | O => db
  | S n' => recover_trust_score (recover_n n' db agent_id) (Z.of_nat n) agent_id
  end.

(** Recovery adds one point per successful run up to the cap of 500 and
    leaves scores at or above the cap alone. *)
Lemma recover_n_score db agent_id a n :
  db !! agent_id = Some a ->
  exists a', recover_n n db agent_id !! agent_id = Some a' /\
    trust_score a' = Z.max (trust_score a) (Z.min TRUST_RECOVERY_CAP (trust_score a + Z.of_nat n)).
Proof.
  intros Ha. unfold TRUST_RECOVERY_CAP. induction n as [|n (a' & Ha' & IH)].
  - exists a. split; [done|]. lia.
  - cbn [recover_n]. unfold recover_trust_score. rewrite lookup_alter, decide_True, Ha' by done.
    eexists. split; [reflexivity|]. unfold TRUST_RECOVERY_CAP, TRUST_RECOVERY_DELTA.
    case_match; bool_to_prop; cbn [trust_score]; lia.
Qed.

(** ** The gate and the score together *)

(** An agent whose score has fallen below a rule's minimum of more than 500
    never gets the function back by running successfully: recovery stops at
    500, so the matching allow rule keeps refusing. *)
Theorem trust_gate_not_recoverable rs service function rule db agent_id a n :
  db !! agent_id = Some a ->
  first_match (service +:+ "." +:+ function) (rules_of_type "allow_functions" rs) = Some rule ->
  TRUST_RECOVERY_CAP < default 0 (r_min_trust rule) ->
  trust_score a < default 0 (r_min_trust rule) ->
  exists a', recover_n n db agent_id !! agent_id = Some a' /\
    fst (check_function_access (with_function_rules rs) service function (Some (trust_score a'))) = false.
Proof.
  intros Ha Hm Hcap Hlow. destruct (recover_n_score db agent_id a n Ha) as (a' & Ha' & Hs).
  exists a'. split; [done|]. apply not_true_is_false. rewrite check_function_access_iff.
  intros (_ & _ & _ & _ & Ht). specialize (Ht (trust_score a') rule eq_refl Hm).
  unfold TRUST_RECOVERY_CAP in *. lia.
Qed.

Lemma trust_gate_not_recoverable_witness :
  exists a', recover_n 40 {[1%positive := AgentTrust 490 0]} 1%positive !! 1%positive = Some a' /\
    fst (check_function_access
      (with_function_rules [AccessRule (Some "s") (Some "allow_functions") (Some ["social.*"]) (Some 900)])
      "social" "post" (Some (trust_score a'))) = false.
Proof.
  apply (trust_gate_not_recoverable _ _ _
    (AccessRule (Some "s") (Some "allow_functions") (Some ["social.*"]) (Some 900)) _ _ (AgentTrust 490 0));
    [reflexivity|vm_compute; reflexivity|cbn; unfold TRUST_RECOVERY_CAP; lia|cbn; lia].
Defined.
