(* ===== verification/PatternScanner.v ===== *)
(** * Scanners

    [core/scanners/base.py]: the data types of the pipeline.
    [core/scanners/pattern_scanner.py]: the injection patterns, the
    normalization of a text before it is scanned, and the scan itself.
    [core/scanners/secret_scanner.py], [trust_boundary_scanner.py],
    [webhook_scanner.py] and [python_scanner.py]: the other scanners.

    Unicode normalization and base64 decoding are the parameters [nfkc] and
    [b64_text]; iteration order of a set is the parameter [set_iter]; the
    outcome of a webhook call or of a user's Python function is an argument. *)

From S2P Require Import Prelude Regex OutputSanitizer TrustBoundary.
From Stdlib Require Import Ascii QArith.

Open Scope nat_scope.

(** ** Data types *)

Record ScanContext := {
  direction : string;
  namespace : string;
  service : string;
  function : string;
  execution_id : string;
  output_trust : string
}.

(** A verdict; its timing is not modelled. *)
Record ScanVerdict := mkVerdict {
  action : string;
  score : Q;
  reason : string;
  scanner_name : string
}.

(** ** Injection patterns *)

Definition sp1 : re := rplus is_space.
Definition sp0 : re := rstar is_space.
Definition bol : re := RAlt RBol (RCls (Ascii.eqb (chr 10))).
Definition rlits (l : list string) : re := ralt (map rlit l).

(** Words that optionally end in [s]. *)
Definition rlit_s (s : string) : re := RSeq (rlit s) (ropt (rlit "s")).
Definition words (l : list string) : re :=
  rseq ((fix go (l : list string) := match l with
         | [] => [] | [w] => [rlit w] | w :: l' => rlit w :: sp1 :: go l' end) l).

Definition c_quote (c : ascii) : bool := (ord c =? 39) || (ord c =? 34).
Definition c_b64 (c : ascii) : bool := c_alnum c || Ascii.eqb c "+" || Ascii.eqb c "/".

Definition pat_instruction_override : re :=
  rseq [rlits ["ignore"; "disregard"; "forget"; "override"; "bypass"; "skip"]; sp1;
        ropt (RSeq (rlit "all") sp1);
        rlits ["previous"; "prior"; "above"; "earlier"; "preceding"; "original"]; sp1;
        ralt [rlit_s "instruction"; rlit_s "prompt"; rlit_s "rule"; rlit_s "guideline";
              rlit_s "direction"; rlit "context"]].

Definition pat_role_reassignment : re :=
  ralt [words ["you"; "are"; "now"]; words ["act"; "as"];
        rseq [rlit "pretend"; sp1; ralt [words ["to"; "be"];
              RSeq (rlit "you") (ralt [rlit "'re"; RSeq sp1 (rlit "are")])]];
        words ["assume"; "the"; "role"]; words ["from"; "now"; "on"; "you"; "are"];
        rseq [rlit "switch"; sp1; rlit "to"; sp1; ralt [rlit "being"; words ["acting"; "as"]]]].

Definition pat_system_prompt : re :=
  rseq [bol; sp0;
        ralt [rseq [rlit "SYSTEM"; sp0; rlit ":"]; rlit "[SYSTEM]";
              rseq [rlit "###"; sp0; rlit "System"]; rlit "<|system|>"; rlit "<system>";
              rseq [rlit "System"; sp1; rlit "prompt"; sp0; rlit ":"]]].

Definition pat_delimiter : re :=
  rseq [bol; ralt [RSeq (rlit "--") (rplus (Ascii.eqb "-")); RSeq (rlit "==") (rplus (Ascii.eqb "="));
                   rlit "```"]; sp0; RCls (Ascii.eqb (chr 10)); sp0;
        ralt [rseq [rlit "you"; sp1; rlits ["are"; "must"; "should"; "will"; "need"]];
              rlit "ignore"; rlit "override"; rseq [rlit "new"; sp1; rlit_s "instruction"];
              rseq [rlits ["SYSTEM"; "ADMIN"; "ROOT"]; sp0; rlit ":"]]].

Definition pat_authority : re :=
  rseq [bol; sp0;
        ralt [rlit "IMPORTANT"; rlit "URGENT"; rlit "CRITICAL"; words ["ADMIN"; "NOTICE"];
              rseq [rlit "SECURITY"; sp1; rlits ["ALERT"; "UPDATE"; "NOTICE"]];
              rlit "AUTHORIZED"; rlit "OFFICIAL"]; sp0; rlit ":"; sp0;
        rlits ["ignore"; "override"; "change"; "update"; "modify"; "forward"; "send"; "delete"; "execute"]].

Definition pat_output_manipulation : re :=
  ralt [words ["repeat"; "after"; "me"]; words ["say"; "exactly"];
        rseq [rlit "respond"; sp1; ropt (RSeq (rlit "only") sp1); rlit "with"];
        rseq [rlit "output"; sp1; rlits ["only"; "exactly"]];
        rseq [rlit "your"; sp1; ropt (RSeq (rlit "only") sp1); rlit "response"; sp1;
              rlits ["should"; "must"; "will"]; sp1; rlit "be"]].

Definition pat_base64 : re :=
  rseq [rlits ["decode"; "base64"; "atob"]; sp0; rlit "("; sp0; RCls c_quote;
        rmin (icase c_b64) 20; RRep (Ascii.eqb "=") 0 (Some 2) true; RCls c_quote].

Definition pat_indirect : re :=
  ralt [rseq [rlit "when"; sp1; rlit "you"; sp1; rlits ["see"; "read"; "encounter"; "process"]; sp1; rlit "this"];
        rseq [rlit "if"; sp1;
              RAlt (rlit "this") (rseq [rlit "the"; sp1; rlits ["previous"; "above"]]); sp1;
              rlits ["message"; "text"; "content"]; sp1;
              ralt [rlit_s "contain"; rlit_s "include"; rlit_s "mention"]];
        rseq [words ["upon"; "reading"; "this"]; sp0; ropt (rlit ","); sp0;
              rseq [rlit "you"; sp1; rlits ["must"; "should"; "will"]]]].

(** [_PATTERNS]: name, pattern, severity. *)
Definition _PATTERNS : list (string * re * string) :=
  [("instruction_override", pat_instruction_override, "high");
   ("role_reassignment", pat_role_reassignment, "high");
   ("system_prompt_injection", pat_system_prompt, "high");
   ("delimiter_injection", pat_delimiter, "medium");
   ("authority_claim", pat_authority, "medium");
   ("output_manipulation", pat_output_manipulation, "medium");
   ("base64_obfuscation", pat_base64, "low");
   ("indirect_instruction", pat_indirect, "low")].

Definition _SEVERITY_SCORES : list (string * Q) := [("high", 9#10); ("medium", 6#10); ("low", 3#10)]%Q.
Definition _MAX_MATCHES : nat := 50.
Definition _MAX_MATCH_TEXT : nat := 200.

Definition _BASE64_BLOCK : re := RSeq (rmin c_b64 20) (RRep (Ascii.eqb "=") 0 (Some 2) true).

Fixpoint str_filter (p : ascii -> bool) (s : string) : string :=
  match s with
  | EmptyString => EmptyString
  | String c s' => if p c then String c (str_filter p s') else str_filter p s'
  end.

Section scan.
(** [unicodedata.normalize("NFKC", _)]. *)
Variable nfkc : string -> string.
(** [base64.b64decode(_).decode("utf-8", errors="ignore")], [None] when it
    raises. *)
Variable b64_text : string -> option string.
(** The order in which a set of strings is iterated. *)
Variable set_iter : list string -> list string.

(** The soft hyphen is the one zero-width character below code point 256. *)
Definition normalize_text (text : string) : string :=
  let result := nfkc text in
  let result := str_filter (fun c => negb (ord c =? 173)) result in
  let result := (subn (rplus (fun c => Ascii.eqb c " " || (ord c =? 9))) " " result).1 in
  let decoded_parts :=
    omap (fun '(_, block) =>
            match b64_text (String.string_of_list_ascii block) with
            | Some decoded =>
                if (5 <? String.length decoded) && str_forallb is_printable decoded
                then Some decoded else None
            | None => None
            end) (finditer _BASE64_BLOCK result) in
  match decoded_parts with
  | [] => result
  | _ => result +:+ nl +:+ str_join nl decoded_parts
  end.

(** The loop over one pattern's matches; the flag says that the limit was
    reached and the scan returns. *)
Fixpoint collect (name sev : string) (ms : list (nat * list ascii)) (acc : list inj_match)
    : list inj_match * bool :=
  match ms with
  | [] => (acc, false)
  | (pos, t) :: ms' =>
      if _MAX_MATCHES <=? length acc then (acc, true)
      else collect name sev ms'
             (acc ++ [InjMatch name (String.string_of_list_ascii (take _MAX_MATCH_TEXT t)) sev pos])
  end.

Fixpoint scan_patterns (ps : list (string * re * string)) (normalized : string) (acc : list inj_match)
    : list inj_match :=
  match ps with
  | [] => acc
  | (name, pattern, sev) :: ps' =>
      let '(acc', full) := collect name sev (finditer pattern normalized) acc in
      if full then acc' else scan_patterns ps' normalized acc'
  end.

(** [scan_text]: the matches it reports are dicts. *)
Definition scan_text (text : string) : list match_val :=
  if truthy_str text then map MatchDict (scan_patterns _PATTERNS (normalize_text text) [])
  else [].

Definition scan_for_injections (text : string) : list match_val := scan_text text.

Definition match_info (v : match_val) : inj_match :=
  match v with MatchObj m | MatchDict m => m end.

Definition severity_score (dflt : Q) (sev : string) : Q := dict_getd sev dflt _SEVERITY_SCORES.

(** [max(l, key=...)]: the first element with the largest key. *)
Fixpoint max_by {A} (key : A -> Q) (best : A) (l : list A) : A :=
  match l with
  | [] => best
  | x :: l' => if Qle_bool (key x) (key best) then max_by key best l' else max_by key x l'
  end.

Definition pattern_scan (content : string) (context : ScanContext) : ScanVerdict :=
  match scan_text content with
  | [] => mkVerdict "pass" 0 "no injection patterns detected" "pattern_scanner"
  | m :: ms =>
      let highest := max_by (fun v => severity_score 0 (severity (match_info v))) m ms in
      let patterns := str_join ", " (set_iter (map (fun v => pattern_name (match_info v)) (m :: ms))) in
      mkVerdict "flag" (severity_score (5#10)%Q (severity (match_info highest)))
        ("injection patterns detected: " +:+ patterns) "pattern_scanner"
  end.

Lemma collect_bound name sev ms acc :
  length acc <= _MAX_MATCHES -> length (collect name sev ms acc).1 <= _MAX_MATCHES.
Proof using Type.
  revert acc; induction ms as [|[pos t] ms IH]; intros acc Hacc; [done|]. cbn [collect].
  destruct (Nat.leb_spec _MAX_MATCHES (length acc)); [done|].
  apply IH. rewrite length_app. cbn [length]. lia.
Qed.

Lemma scan_patterns_bound ps t acc :
  length acc <= _MAX_MATCHES -> length (scan_patterns ps t acc) <= _MAX_MATCHES.
Proof using Type.
  revert acc; induction ps as [|[[name p] sev] ps IH]; intros acc Hacc; [done|]. cbn [scan_patterns].
  pose proof (collect_bound name sev (finditer p t) acc Hacc) as Hb.
  destruct (collect name sev (finditer p t) acc) as [acc' []]; [done|by apply IH].
Qed.

(** What a reported match says: the text cut out of the scanned text. *)
Definition genuine (normalized : string) (m : inj_match) : Prop :=
  exists t, String.list_ascii_of_string (matched_text m) = take _MAX_MATCH_TEXT t /\
    t <> [] /\
    t = take (length t) (drop (position m) (String.list_ascii_of_string normalized)).

Lemma finditer_go_genuine r s0 pos skip prev s p t :
  s = drop pos s0 -> (p, t) ∈ finditer_go r pos skip prev s ->
  t <> [] /\ t = take (length t) (drop p s0).
Proof using Type.
  revert pos skip prev; induction s as [|c s IH]; intros pos skip prev Hs Hin; cbn [finditer_go] in Hin.
  { by apply not_elem_of_nil in Hin. }
  assert (s = drop (S pos) s0) as Hs'.
  { by rewrite <-Nat.add_1_r, <-drop_drop, <-Hs. }
  destruct skip as [|k]; [|by eapply IH].
  destruct (match_at r prev (c :: s)) as [rest|] eqn:E; [|by eapply IH].
  destruct (Nat.eqb_spec (length (c :: s) - length rest) 0); [by eapply IH|].
  apply elem_of_cons in Hin as [Heq|Hin]; [|by eapply IH].
  injection Heq as -> ->. rewrite <-Hs. split.
  - intros H%(f_equal length). rewrite length_take in H. cbn [length] in *. lia.
  - rewrite length_take. cbn [length]. by rewrite Nat.min_l by lia.
Qed.

Lemma collect_genuine normalized name p sev ms acc :
  (forall x, x ∈ ms -> x ∈ finditer p normalized) ->
  Forall (genuine normalized) acc -> Forall (genuine normalized) (collect name sev ms acc).1.
Proof using Type.
  revert acc; induction ms as [|[pos t] ms IH]; intros acc Hms Hacc; [done|]. cbn [collect].
  case_match; [done|]. apply IH; [intros x Hx; apply Hms; by right|].
  apply Forall_app. split; [done|]. repeat constructor. exists t.
  destruct (finditer_go_genuine p (String.list_ascii_of_string normalized) 0 0 None
              (String.list_ascii_of_string normalized) pos t) as [H1 H2].
  - by rewrite drop_0.
  - apply (Hms (pos, t)). by left.
  - cbn. split; [apply String.list_ascii_of_string_of_list_ascii|]. done.
Qed.

Lemma scan_patterns_genuine normalized ps acc :
  Forall (genuine normalized) acc -> Forall (genuine normalized) (scan_patterns ps normalized acc).
Proof using Type.
  revert acc; induction ps as [|[[name p] sev] ps IH]; intros acc Hacc; [done|]. cbn [scan_patterns].
  pose proof (collect_genuine normalized name p sev (finditer p normalized) acc (fun x H => H) Hacc) as Hb.
  destruct (collect name sev (finditer p normalized) acc) as [acc' []]; [done|by apply IH].
Qed.

(** A scan reports at most 50 matches, and every one of them is text cut
    out of the normalized input at the reported position (shortened to 200
    characters); the verdict flags the content exactly when there is one. *)
Theorem scan_text_sound content context :
  length (scan_text content) <= _MAX_MATCHES /\
  (forall v, v ∈ scan_text content -> genuine (normalize_text content) (match_info v)) /\
  (action (pattern_scan content context) = "flag" <-> scan_text content <> []).
Proof using Type.
  split_and!.
  - unfold scan_text. case_match; [|cbn; unfold _MAX_MATCHES; lia].
    rewrite length_map. apply scan_patterns_bound. cbn [length]. unfold _MAX_MATCHES; lia.
  - intros v. unfold scan_text. case_match; [|by intros ?%not_elem_of_nil].
    rewrite list_elem_of_In, in_map_iff. intros (m & <- & Hm%list_elem_of_In).
    cbn [match_info].
    assert (Forall (genuine (normalize_text content)) (scan_patterns _PATTERNS (normalize_text content) []))
      as Hf by (by apply scan_patterns_genuine).
    rewrite List.Forall_forall in Hf. by apply Hf, list_elem_of_In.
  - unfold pattern_scan. destruct (scan_text content); cbn; split; done.
Qed.
End scan.

(** *** The other scanners *)

Definition secret_scan (content : string) : string * ScanVerdict :=
  let '(cleaned, count) := scrub_secrets content None in
  if (0 <? count)%nat
  then (cleaned, mkVerdict "flag" (95#100)%Q (str_of_nat count +:+ " secret(s) redacted") "secret_scanner")
  else (content, mkVerdict "pass" 0 "no secrets detected" "secret_scanner").

Definition trust_boundary_scan (content : string) (context : ScanContext) : string * ScanVerdict :=
  if String.eqb (output_trust context) "data"
  then ("[UNTRUSTED_OUTPUT source=" +:+ dq +:+ service context +:+ "." +:+ function context +:+ dq +:+
        " trust=" +:+ dq +:+ "data" +:+ dq +:+ "]" +:+ nl +:+ content +:+ nl +:+ "[/UNTRUSTED_OUTPUT]",
        mkVerdict "pass" 0 "trust boundary markers applied" "trust_boundary")
  else (content, mkVerdict "pass" 0 "trusted output, no wrapping" "trust_boundary").

(** The JSON object a webhook or a Python scanner answers with. *)
Record scan_reply := { rp_action : option string; rp_score : option Q; rp_reason : option string }.

(** What calling the webhook does: a reply, a timeout, or any other failure
    (connection, HTTP status, malformed JSON) with its message. *)
Inductive webhook_outcome := WReply (r : scan_reply) | WTimeout | WError (msg : string).

Definition valid_action (a : option string) : string :=
  let a := default "pass" a in
  if str_in a ["pass"; "flag"; "block"] then a else "pass".

Definition webhook_scan (name : string) (timeout_ms : Z) (o : webhook_outcome) : ScanVerdict :=
  match o with
  | WReply r => mkVerdict (valid_action (rp_action r)) (default 0%Q (rp_score r)) (default "" (rp_reason r)) name
  | WTimeout => mkVerdict "pass" 0 ("webhook timeout (" +:+ str_of_Z timeout_ms +:+ "ms) — skipped") name
  | WError msg => mkVerdict "pass" 0 ("webhook error: " +:+ str_take 100 msg +:+ " — skipped") name
  end.

(** What importing and calling a user's scanner function does. *)
Inductive python_outcome :=
| PyImportFailed
| PyReply (r : scan_reply)
| PyNonDict (type_name : string)
| PyRaised (msg : string).

Definition python_scan (name module_path : string) (o : python_outcome) : ScanVerdict :=
  match o with
  | PyImportFailed =>
      mkVerdict "pass" 0 ("scanner unavailable (import failed: " +:+ module_path +:+ ")") name
  | PyReply r => mkVerdict (valid_action (rp_action r)) (default 0%Q (rp_score r)) (default "" (rp_reason r)) name
  | PyNonDict t => mkVerdict "pass" 0 ("scanner returned non-dict: " +:+ t) name
  | PyRaised msg => mkVerdict "pass" 0 ("scanner error: " +:+ str_take 100 msg +:+ " — skipped") name
  end.
