(* ===== verification/JsonPath.v ===== *)
(** * Paths of procedure step mappings

    [services/jsonpath.py]: the path language that connects the steps of a
    procedure ([$.steps.name.result.field], [$.items[0].id]).  The main theorem
    is a round trip: a path written the way the documentation says resolves
    step by step to the value it names, or to the error of the first step that
    fails.  [raw_remaining] of the code is computed and never read; it has no
    counterpart here. *)

From S2P Require Import Prelude Regex.
From Stdlib Require Import Ascii.

Open Scope nat_scope.

(** ** The tokenizer *)

Definition ident_start (c : ascii) : bool := is_alpha c || Ascii.eqb c "_".
Definition ident_cont (c : ascii) : bool := is_alpha c || is_digit c || Ascii.eqb c "_" || Ascii.eqb c "-".

Definition _SEGMENT_PATTERN : re :=
  RAlt (RSeq (RCls ident_start) (rstar ident_cont))
       (RSeq (RCls (Ascii.eqb "[")) (RSeq (rplus is_digit) (RCls (Ascii.eqb "]")))).

Inductive segment := Field (name : string) | Index (digits : string).

(** The two groups of a match: a match that starts with the bracket is an
    index, its digits without the brackets. *)
Definition classify (t : list ascii) : segment :=
  match t with
  | "["%char :: ds => Index (String.string_of_list_ascii (removelast ds))
  | _ => Field (String.string_of_list_ascii t)
  end.

(** [_SEGMENT_PATTERN.findall(path)] *)
Definition segments (path : string) : list segment :=
  map (fun m => classify (snd m)) (finditer _SEGMENT_PATTERN path).

(** ** Resolution *)

(** [int(digits)] *)
Fixpoint int_of_go (acc : nat) (s : string) : nat :=
  match s with
  | EmptyString => acc
  | String c s' => int_of_go (acc * 10 + (ord c - 48)) s'
  end.
Definition int_of (s : string) : nat := int_of_go 0 s.

Definition type_name (v : pyval) : string :=
  match v with
  | PNone => "NoneType" | PBool _ => "bool" | PInt _ => "int" | PStr _ => "str"
  | PList _ => "list" | PDict _ => "dict"
  end.

(** The body of the loop over the segments. *)
Definition resolve_step (expression : string) (current : pyval) (sg : segment) : res string pyval :=
  match sg with
  | Field field =>
      match current with
      | PDict d =>
          match dict_get field d with
          | Some v => Ok v
          | None => Err ("Key '" +:+ field +:+ "' not found (at '" +:+ expression +:+ "')")
          end
      | _ => Err ("Cannot access '" +:+ field +:+ "' on " +:+ type_name current +:+ " (at '" +:+ expression +:+ "')")
      end
  | Index digits =>
      let idx := int_of digits in
      match current with
      | PList l =>
          match l !! idx with
          | Some v => Ok v
          | None => Err ("Index [" +:+ str_of_nat idx +:+ "] out of range (length " +:+ str_of_nat (length l)
                         +:+ ") (at '" +:+ expression +:+ "')")
          end
      | _ => Err ("Cannot index [" +:+ str_of_nat idx +:+ "] on " +:+ type_name current
                  +:+ " (at '" +:+ expression +:+ "')")
      end
  end.

Fixpoint resolve_segments (expression : string) (current : pyval) (sgs : list segment) : res string pyval :=
  match sgs with
  | [] => Ok current
  | sg :: sgs' => v ← resolve_step expression current sg; resolve_segments expression v sgs'
  end.

(** [resolve(expression, context)]: the value, or the message of the
    [JSONPathError]. *)
Definition resolve (expression : string) (context : pyval) : res string pyval :=
  if negb (starts_with "$." expression)
  then Err ("Expression must start with '$.' — got: " +:+ expression)
  else
    let path := str_drop 2 expression in
    if String.eqb path "" then Err "Empty path after '$.'"
    else resolve_segments expression context (segments path).

(** [validate_expression]: [None] when the expression is acceptable. *)
Definition validate_expression (expression : pyval) : option string :=
  match expression with
  | PStr e =>
      if negb (starts_with "$." e) then Some "Expression must start with '$.'"
      else
        let path := str_drop 2 e in
        if String.eqb path "" then Some "Empty path after '$.'"
        else
          let cleaned := (subn _SEGMENT_PATTERN "" path).1 in
          let cleaned := str_replace "." "" cleaned in
          if truthy_str cleaned then Some ("Invalid characters in path: '" +:+ cleaned +:+ "'") else None
  | _ => Some "Expression must be a string"
  end.

(** The loop shared by the two mapping functions. *)
Definition apply_mapping (mapping : list (string * string)) (context : pyval)
    : list (string * pyval) * list string :=
  foldl (fun '(resolved, errors) '(name, expression) =>
           match resolve expression context with
           | Ok v => (dict_set name v resolved, errors)
           | Err e => (resolved, errors ++ [name +:+ ": " +:+ e])
           end) ([], []) mapping.

Definition resolve_input_mapping (mapping : list (string * string)) (context : pyval)
    : list (string * pyval) * list string :=
  apply_mapping mapping context.

Definition apply_output_mapping (mapping : list (string * string)) (result : pyval)
    : list (string * pyval) * list string :=
  match result with
  | PDict _ => apply_mapping mapping result
  | _ => ([], ["Cannot apply output_mapping to " +:+ type_name result +:+ " result"])
  end.

(** ** Written paths *)

Definition good_name (s : string) : bool :=
  match s with
  | EmptyString => false
  | String c s' => ident_start c && str_forallb ident_cont s'
  end.
Definition good_digits (s : string) : bool :=
  match s with EmptyString => false | _ => str_forallb is_digit s end.
Definition good_segment (sg : segment) : bool :=
  match sg with Field n => good_name n | Index d => good_digits d end.

(** How a path is written: fields joined by dots, an index right behind. *)
Fixpoint print_rest (sgs : list segment) : string :=
  match sgs with
  | [] => ""
  | Field n :: sgs' => "." +:+ n +:+ print_rest sgs'
  | Index d :: sgs' => "[" +:+ d +:+ "]" +:+ print_rest sgs'
  end.
Definition print_path (sgs : list segment) : string :=
  match sgs with
  | Field n :: sgs' => n +:+ print_rest sgs'
  | _ => print_rest sgs
  end.

(** *** Tokenizing what was printed *)

Definition tok_str (sg : segment) : list ascii :=
  match sg with
  | Field n => String.list_ascii_of_string n
  | Index d => "["%char :: String.list_ascii_of_string d ++ ["]"%char]
  end.

(** A text that cannot extend a name. *)
Definition name_stop (s : list ascii) : Prop :=
  match s with [] => True | c :: _ => ident_cont c = false end.

Lemma rep_greedy_all p k prev t rest min x :
  forallb p t = true -> match rest with [] => True | c :: _ => p c = false end ->
  min <= length t ->
  (forall pv, k pv rest = Some x) -> rep p min None true k prev (t ++ rest) = Some x.
Proof.
  intros Ht Hr Hmin Hk. revert min prev Hmin; induction t as [|c t IH]; intros min prev Hmin.
  - cbn in Hmin. assert (min = 0) as -> by lia. destruct rest as [|c rest]; cbn; [apply Hk|].
    cbn in Hr. rewrite Hr. apply Hk.
  - cbn in Ht. apply andb_true_iff in Ht as [Hc Ht]. cbn [app rep]. rewrite Hc. cbn [dec_max].
    rewrite (IH Ht); [done|]. cbn in Hmin. lia.
Qed.

Lemma match_at_token sg prev rest :
  good_segment sg = true -> name_stop rest ->
  match_at _SEGMENT_PATTERN prev (tok_str sg ++ rest) = Some rest.
Proof.
  intros Hg Hr. destruct sg as [n|d]; cbn [good_segment tok_str] in *.
  - destruct n as [|c n]; [done|]. cbn [good_name] in Hg. apply andb_true_iff in Hg as [Hc Hn].
    rewrite str_forallb_list in Hn. unfold match_at, _SEGMENT_PATTERN. cbn [rmatch String.list_ascii_of_string app].
    rewrite Hc. unfold rstar. cbn [rmatch]. rewrite (rep_greedy_all _ _ _ _ _ 0 rest); [done|done|done|lia|done].
  - assert (Hd : forallb is_digit (String.list_ascii_of_string d) = true /\ 1 <= length (String.list_ascii_of_string d)).
    { destruct d as [|c d]; [done|]. cbn [good_digits] in Hg. rewrite str_forallb_list in Hg. split; [done|cbn; lia]. }
    destruct Hd as [Hd1 Hd2]. unfold match_at, _SEGMENT_PATTERN. cbn [rmatch app].
    change (ident_start "[") with false. change (Ascii.eqb "[" "[") with true. cbn [orelse].
    rewrite <-app_assoc. unfold rplus. cbn [rmatch].
    rewrite (rep_greedy_all _ _ _ _ (["]"%char] ++ rest) 1 rest); done.
Qed.

(** A token at the current position is reported and passed. *)
Lemma finditer_token r pos prev t rest :
  t <> [] -> match_at r prev (t ++ rest) = Some rest ->
  exists prev', finditer_go r pos 0 prev (t ++ rest) = (pos, t) :: finditer_go r (pos + length t) 0 prev' rest.
Proof.
  intros Ht Hm. destruct t as [|c t]; [done|]. cbn [app finditer_go]. cbn [app] in Hm. rewrite Hm.
  assert (length (c :: t ++ rest) - length rest = S (length t)) as Hn by (cbn; rewrite length_app; lia).
  rewrite Hn. cbn [Nat.eqb Nat.sub].
  assert (Hskip : forall t pos prev, exists prev',
            finditer_go r pos (length t) prev (t ++ rest) = finditer_go r (pos + length t) 0 prev' rest).
  { clear. induction t as [|c t IH]; intros pos prev; cbn [app length finditer_go]; [rewrite Nat.add_0_r; eauto|].
    destruct (IH (S pos) (Some c)) as [pv Hpv]. exists pv. rewrite Hpv. f_equal. lia. }
  destruct (Hskip t (S pos) (Some c)) as [pv Hpv]. exists pv. rewrite Nat.sub_0_r, Hpv.
  replace (pos + length (c :: t)) with (S pos + length t) by (cbn [length]; lia).
  f_equal. f_equal. cbn [take]. f_equal. by rewrite take_app_length.
Qed.

Lemma tok_str_nonempty sg : good_segment sg = true -> tok_str sg <> [].
Proof. destruct sg as [[|]|]; done. Qed.

Lemma classify_token sg : good_segment sg = true -> classify (tok_str sg) = sg.
Proof.
  destruct sg as [n|d]; cbn [good_segment tok_str].
  - destruct n as [|c n]; [done|]. cbn [good_name]. intros [Hc _]%andb_true_iff.
    cbn [String.list_ascii_of_string].
    assert (c <> "["%char) by (by intros ->).
    transitivity (Field (String.string_of_list_ascii (c :: String.list_ascii_of_string n))).
    + destruct c as [[] [] [] [] [] [] [] []]; try reflexivity. done.
    + f_equal. apply (String.string_of_list_ascii_of_string (String c n)).
  - intros _. cbn [classify]. rewrite removelast_app by done. cbn [removelast].
    rewrite app_nil_r. f_equal. apply String.string_of_list_ascii_of_string.
Qed.

Lemma print_rest_stop sgs : name_stop (String.list_ascii_of_string (print_rest sgs)).
Proof. destruct sgs as [|[|] ?]; done. Qed.

Lemma finditer_print_rest sgs pos prev :
  forallb good_segment sgs = true ->
  map (fun m => classify (snd m))
    (finditer_go _SEGMENT_PATTERN pos 0 prev (String.list_ascii_of_string (print_rest sgs))) = sgs.
Proof.
  revert pos prev; induction sgs as [|sg sgs IH]; intros pos prev; [done|].
  cbn [forallb]. intros [Hg Hgs]%andb_true_iff.
  set (rest := String.list_ascii_of_string (print_rest sgs)).
  assert (Htok : forall pos prev, map (fun m => classify (snd m))
            (finditer_go _SEGMENT_PATTERN pos 0 prev (tok_str sg ++ rest)) = sg :: sgs).
  { intros pos' prev'. destruct (finditer_token _SEGMENT_PATTERN pos' prev' (tok_str sg) rest) as [pv ->].
    - by apply tok_str_nonempty.
    - apply match_at_token; [done|apply print_rest_stop].
    - cbn [map snd]. rewrite classify_token by done. f_equal. by apply IH. }
  destruct sg as [n|d]; cbn [print_rest tok_str] in *.
  - change ("." +:+ n +:+ print_rest sgs) with (String "." (n +:+ print_rest sgs)).
    cbn [String.list_ascii_of_string]. rewrite list_ascii_app. fold rest.
    cbn [finditer_go]. change (match_at _SEGMENT_PATTERN prev ("."%char :: String.list_ascii_of_string n ++ rest))
      with (@None (list ascii)). apply Htok.
  - change ("[" +:+ d +:+ "]" +:+ print_rest sgs) with (String "[" (d +:+ String "]" (print_rest sgs))).
    cbn [String.list_ascii_of_string]. rewrite list_ascii_app. cbn [String.list_ascii_of_string]. fold rest.
    specialize (Htok pos prev). rewrite <-app_comm_cons, <-app_assoc in Htok. apply Htok.
Qed.

Lemma segments_print sgs :
  forallb good_segment sgs = true -> segments (print_path sgs) = sgs.
Proof.
  intros Hg. unfold segments, finditer. destruct sgs as [|[n|d] sgs]; [done| |by apply finditer_print_rest].
  cbn [print_path]. rewrite list_ascii_app.
  cbn [forallb] in Hg. apply andb_true_iff in Hg as [Hn Hg].
  destruct (finditer_token _SEGMENT_PATTERN 0 None (tok_str (Field n)) (String.list_ascii_of_string (print_rest sgs))) as [pv Hpv].
  - by apply tok_str_nonempty.
  - apply match_at_token; [done|apply print_rest_stop].
  - cbn [tok_str] in Hpv. rewrite Hpv. cbn [map snd]. f_equal.
    + apply (classify_token (Field n)), Hn.
    + by apply finditer_print_rest.
Qed.

(** A name followed by a dot is the first segment. *)
Lemma segments_head n rest : good_name n = true -> exists sgs, segments (n +:+ "." +:+ rest) = Field n :: sgs.
Proof.
  intros Hn. unfold segments, finditer. rewrite list_ascii_app.
  destruct (finditer_token _SEGMENT_PATTERN 0 None (tok_str (Field n)) (String.list_ascii_of_string ("." +:+ rest))) as [pv Hpv].
  - by apply tok_str_nonempty.
  - by apply match_at_token.
  - cbn [tok_str] in Hpv. rewrite Hpv. cbn [map snd]. eexists. f_equal. apply (classify_token (Field n)), Hn.
Qed.

Lemma resolve_missing n rest ctx : good_name n = true -> dict_get n ctx = None ->
  exists m, resolve ("$." +:+ n +:+ "." +:+ rest) (PDict ctx) = Err m.
Proof.
  intros Hn Hc. unfold resolve. rewrite starts_with_app. cbn [negb].
  change 2 with (String.length "$."). rewrite str_drop_app_length.
  destruct (String.eqb_spec (n +:+ "." +:+ rest) "") as [E|_]; [by destruct n|].
  destruct (segments_head n rest Hn) as [sgs ->]. cbn [resolve_segments resolve_step]. rewrite Hc. by eexists.
Qed.

Lemma print_path_nonempty sgs : forallb good_segment sgs = true -> sgs <> [] -> print_path sgs <> "".
Proof. destruct sgs as [|[[|]|] ?]; done. Qed.

(** Round trip: a written path resolves to exactly the value reached by
    following its segments one by one, and to the error of the first segment
    that fails. *)
Theorem resolve_print sgs context :
  forallb good_segment sgs = true -> sgs <> [] ->
  resolve ("$." +:+ print_path sgs) context = resolve_segments ("$." +:+ print_path sgs) context sgs.
Proof.
  intros Hg Hne. unfold resolve. rewrite starts_with_app. cbn [negb].
  change 2 with (String.length "$."). rewrite str_drop_app_length.
  pose proof (print_path_nonempty sgs Hg Hne) as Hp. apply String.eqb_neq in Hp. rewrite Hp.
  by rewrite segments_print.
Qed.

Definition demo_ctx : pyval :=
  PDict [("steps", PDict [("fetch", PDict [("result", PList [PInt 7; PDict [("id", PStr "x1")]])])])].
Definition demo_path : list segment := [Field "steps"; Field "fetch"; Field "result"; Index "1"; Field "id"].

Lemma resolve_print_witness :
  resolve "$.steps.fetch.result[1].id" demo_ctx = Ok (PStr "x1").
Proof. apply (resolve_print demo_path demo_ctx); [vm_compute; reflexivity|discriminate]. Defined.

(** Characters between segments are ignored, so a path with none of them in
    order still passes validation and yields the whole context. *)
Example dots_only_valid :
  validate_expression (PStr "$...") = None /\ resolve "$..." demo_ctx = Ok demo_ctx.
Proof. split; vm_compute; reflexivity. Qed.

(** ** Mappings *)

Definition mapping_step context : list (string * pyval) * list string -> string * string -> list (string * pyval) * list string :=
  fun '(resolved, errors) '(name, expression) =>
    match resolve expression context with
    | Ok v => (dict_set name v resolved, errors)
    | Err e => (resolved, errors ++ [name +:+ ": " +:+ e])
    end.

Lemma mapping_errors context mapping : forall acc,
  (acc.2 <> [] \/ exists k e m, (k, e) ∈ mapping /\ resolve e context = Err m) -> (foldl (mapping_step context) acc mapping).2 <> [].
Proof.
  induction mapping as [|[k e] mapping IH]; intros [res errors] Hor; cbn [foldl].
  - destruct Hor as [?|(k & e & m & Hin & _)]; [done|by apply not_elem_of_nil in Hin].
  - apply IH. cbn [mapping_step]. destruct (resolve e context) as [v|m] eqn:E.
    + destruct Hor as [?|(k' & e' & m' & Hin & Hm)]; [by left|right].
      apply elem_of_cons in Hin as [[= <- <-]|Hin]; [congruence|by exists k', e', m'].
    + left. cbn. by destruct errors.
Qed.

Lemma mapping_fold_spec mapping context resolved errors :
  NoDup (dict_keys mapping) ->
  (forall k, k ∈ dict_keys mapping -> dict_get k resolved = None) ->
  let r := foldl (mapping_step context) (resolved, errors) mapping in
  (forall k, k ∉ dict_keys mapping -> dict_get k r.1 = dict_get k resolved) /\
  (forall k e, (k, e) ∈ mapping ->
     match resolve e context with
     | Ok v => dict_get k r.1 = Some v
     | Err m => dict_get k r.1 = None /\ (k +:+ ": " +:+ m) ∈ r.2
     end) /\
  (forall x, x ∈ errors -> x ∈ r.2).
Proof.
  revert resolved errors; induction mapping as [|[k e] mapping IH]; intros resolved errors Hnd Hfresh.
  - cbv zeta; cbn. split_and!; [done|intros ?? H; by apply not_elem_of_nil in H|done].
  - cbn [dict_keys map fst] in Hnd. apply NoDup_cons in Hnd as [Hk Hnd].
    cbv zeta. cbn [foldl mapping_step].
    assert (Hne : forall k', k' ∈ dict_keys mapping -> k <> k') by (intros k' ? ->; done).
    destruct (resolve e context) as [v|m] eqn:E.
    + destruct (IH (dict_set k v resolved) errors Hnd) as (H1 & H2 & H3).
      { intros k' Hk'. rewrite dict_get_set_ne by auto. apply Hfresh. by right. }
      split_and!; [|intros k' e' [Heq|Hin]%elem_of_cons|done].
      * intros k' Hk'. apply not_elem_of_cons in Hk' as [Hk1 Hk2]. rewrite H1 by done. by rewrite dict_get_set_ne.
      * injection Heq as -> ->. rewrite E, H1 by done. apply dict_get_set_eq.
      * by apply H2.
    + destruct (IH resolved (errors ++ [k +:+ ": " +:+ m]) Hnd) as (H1 & H2 & H3).
      { intros k' Hk'. apply Hfresh. by right. }
      split_and!; [|intros k' e' [Heq|Hin]%elem_of_cons|].
      * intros k' Hk'. apply not_elem_of_cons in Hk' as [Hk1 Hk2]. by rewrite H1.
      * injection Heq as -> ->. rewrite E, H1 by done. split; [apply Hfresh; by left|].
        apply H3, elem_of_app. right. by apply list_elem_of_singleton.
      * by apply H2.
      * intros x Hx. apply H3, elem_of_app. by left.
Qed.

(** Every parameter of a mapping is accounted for: it is resolved to the
    value of its own expression, or it is absent and its error is reported. *)
Theorem input_mapping_complete mapping context name expression :
  NoDup (dict_keys mapping) -> (name, expression) ∈ mapping ->
  let r := resolve_input_mapping mapping context in
  match resolve expression context with
  | Ok v => dict_get name r.1 = Some v
  | Err m => dict_get name r.1 = None /\ (name +:+ ": " +:+ m) ∈ r.2
  end.
Proof.
  intros Hnd Hin. cbv zeta. unfold resolve_input_mapping, apply_mapping. fold (mapping_step context).
  by apply (mapping_fold_spec mapping context [] [] Hnd).
Qed.

Lemma input_mapping_complete_witness :
  dict_get "id" (resolve_input_mapping [("id", "$.steps.fetch.result[1].id")] demo_ctx).1 = Some (PStr "x1").
Proof.
  apply (input_mapping_complete [("id", "$.steps.fetch.result[1].id")] demo_ctx "id" "$.steps.fetch.result[1].id");
    [apply NoDup_singleton|by left].
Defined.
