(* ===== verification/Redis.v ===== *)
(** * Redis as the program uses it, and the rate limiter on top

    Redis is a service the code calls; its behaviour enters as the class
    [Redis]: a state, the view of a key at an instant (expired keys are gone),
    the commands, and the documented effect of each command on that view.
    [redis_map] shows that the class has a model.  [core/redis.py] builds the
    [RateLimiter] on it. *)

From S2P Require Import Prelude.
From Stdlib Require Import QArith Qround Sorted.

Open Scope Z_scope.

(** A numeric value: what [INCR] or [INCRBYFLOAT] left behind.  Redis writes a
    number without a fractional part as an integer, so [RFloat] is the text of
    a number that has one. *)
Inductive rval := RInt (z : Z) | RFloat (q : Q).

Definition rval_of (q : Q) : rval :=
  if (Qden (Qred q) =? 1)%positive then RInt (Qnum (Qred q)) else RFloat q.

(** A key that exists: its value and, if one is set, the instant it expires. *)
Definition entry := (rval * option Z)%type.

(** The entry at a later instant. *)
Definition expire_at (now : Z) (e : option entry) : option entry :=
  match e with
  | Some (v, Some d) => if now <? d then e else None
  | _ => e
  end.

Definition rval_num (v : rval) : Q := match v with RInt z => inject_Z z | RFloat q => q end.

Class RedisOps (R : Type) := {
  view : R -> Z -> string -> option entry;
  incr : R -> Z -> string -> option Z * R;
  decr : R -> Z -> string -> option Z * R;
  incrbyfloat : R -> Z -> string -> Q -> Q * R;
  expire : R -> Z -> string -> Z -> R;
  expireat : R -> Z -> string -> Z -> R;
  set_ex : R -> Z -> string -> Z -> Z -> R;
  delete_key : R -> Z -> string -> R
}.

(** What [INCRBY n] does to a key: the new number, [None] for a non-integer. *)
Definition add_int (n : Z) (e : option entry) : option (Z * entry) :=
  match e with
  | None => Some (n, (RInt n, None))
  | Some (RInt z, d) => Some (z + n, (RInt (z + n), d))
  | Some (RFloat _, _) => None
  end.

Definition upd (f : option entry -> option entry) (k k' : string) (e : option entry) : option entry :=
  if String.eqb k k' then f e else e.

Definition set_deadline (d : Z) (e : option entry) : option entry :=
  match e with Some (v, _) => Some (v, Some d) | None => None end.

(** The documented effect of each command on what is visible at that instant,
    and of time passing. *)
Class Redis (R : Type) `{RedisOps R} := {
  view_later r t t' k : t <= t' -> view r t' k = expire_at t' (view r t k);
  view_incr r t k k' :
    match add_int 1 (view r t k) with
    | Some (n, e) => (incr r t k).1 = Some n /\
        view (incr r t k).2 t k' = upd (fun _ => expire_at t (Some e)) k k' (view r t k')
    | None => (incr r t k).1 = None /\ view (incr r t k).2 t k' = view r t k'
    end;
  view_decr r t k k' :
    match add_int (-1) (view r t k) with
    | Some (n, e) => (decr r t k).1 = Some n /\
        view (decr r t k).2 t k' = upd (fun _ => expire_at t (Some e)) k k' (view r t k')
    | None => (decr r t k).1 = None /\ view (decr r t k).2 t k' = view r t k'
    end;
  view_incrbyfloat r t k q k' :
    let old := view r t k in
    let new := (match old with Some (v, _) => rval_num v | None => 0 end + q)%Q in
    (incrbyfloat r t k q).1 = new /\
    view (incrbyfloat r t k q).2 t k' =
      upd (fun _ => Some (rval_of new, match old with Some (_, d) => d | None => None end)) k k' (view r t k');
  view_expire r t k s k' :
    view (expire r t k s) t k' = upd (fun e => expire_at t (set_deadline (t + s) e)) k k' (view r t k');
  view_expireat r t k d k' :
    view (expireat r t k d) t k' = upd (fun e => expire_at t (set_deadline d e)) k k' (view r t k');
  view_set_ex r t k n s k' :
    view (set_ex r t k n s) t k' = upd (fun _ => expire_at t (Some (RInt n, Some (t + s)))) k k' (view r t k');
  view_delete r t k k' :
    view (delete_key r t k) t k' = upd (fun _ => None) k k' (view r t k')
}.

(** [GET] as the code reads it: [int(...)] of the text, which raises
    [ValueError] for a number with a fractional part. *)
Definition get_int {R} `{RedisOps R} (r : R) (t : Z) (k : string) : option (option Z) :=
  match view r t k with
  | Some (RInt z, _) => Some (Some z)
  | Some (RFloat _, _) => None
  | None => Some None
  end.
(** [float(...)] of the value. *)
Definition get_float {R} `{RedisOps R} (r : R) (t : Z) (k : string) : option Q :=
  match view r t k with Some (v, _) => Some (rval_num v) | None => None end.
(** [TTL]: [-2] without the key, [-1] without an expiry. *)
Definition ttl {R} `{RedisOps R} (r : R) (t : Z) (k : string) : Z :=
  match view r t k with None => -2 | Some (_, None) => -1 | Some (_, Some d) => d - t end.

(** ** A model of the class *)

Abbreviation rmap := (gmap string entry).

Definition rmap_put (r : rmap) (k : string) (e : option entry) : rmap :=
  match e with Some e => <[k := e]> r | None => delete k r end.

Definition rmap_view (r : rmap) (t : Z) (k : string) : option entry := expire_at t (r !! k).

Definition rmap_add (n : Z) (r : rmap) (t : Z) (k : string) : option Z * rmap :=
  match add_int n (rmap_view r t k) with
  | Some (m, e) => (Some m, <[k := e]> r)
  | None => (None, r)
  end.

#[export] Instance redis_map_ops : RedisOps rmap := {|
  view := rmap_view;
  incr r t k := rmap_add 1 r t k;
  decr r t k := rmap_add (-1) r t k;
  incrbyfloat r t k q :=
    let old := rmap_view r t k in
    let new := (match old with Some (v, _) => rval_num v | None => 0 end + q)%Q in
    (new, <[k := (rval_of new, match old with Some (_, d) => d | None => None end)]> r);
  expire r t k s := rmap_put r k (set_deadline (t + s) (rmap_view r t k));
  expireat r t k d := rmap_put r k (set_deadline d (rmap_view r t k));
  set_ex r t k n s := <[k := (RInt n, Some (t + s))]> r;
  delete_key r t k := delete k r
|}.

Lemma rmap_view_insert r t k e k' :
  rmap_view (<[k := e]> r) t k' = upd (fun _ => expire_at t (Some e)) k k' (rmap_view r t k').
Proof.
  unfold rmap_view, upd. destruct (String.eqb_spec k k') as [->|]; [by rewrite lookup_insert_eq|].
  by rewrite lookup_insert_ne.
Qed.

Lemma rmap_view_delete r t k k' :
  rmap_view (delete k r) t k' = upd (fun _ => None) k k' (rmap_view r t k').
Proof.
  unfold rmap_view, upd. destruct (String.eqb_spec k k') as [->|]; [by rewrite lookup_delete_eq|].
  by rewrite lookup_delete_ne.
Qed.

Lemma rmap_view_put r t k f k' :
  (f None = None) ->
  rmap_view (rmap_put r k (f (rmap_view r t k))) t k' = upd (fun e => expire_at t (f e)) k k' (rmap_view r t k').
Proof.
  intros Hf. unfold rmap_put. destruct (f (rmap_view r t k)) as [e|] eqn:E.
  - rewrite rmap_view_insert. unfold upd. destruct (String.eqb_spec k k') as [->|]; [by rewrite E|done].
  - rewrite rmap_view_delete. unfold upd. destruct (String.eqb_spec k k') as [->|]; [by rewrite E|done].
Qed.

Lemma expire_at_idem t e : expire_at t (expire_at t e) = expire_at t e.
Proof. destruct e as [[v [d|]]|]; cbn; try done. destruct (t <? d) eqn:E; cbn; by rewrite ?E. Qed.

Lemma expire_at_later t t' e : t <= t' -> expire_at t' (expire_at t e) = expire_at t' e.
Proof.
  intros Ht. destruct e as [[v [d|]]|]; cbn; try done.
  destruct (Z.ltb_spec t d); cbn; [done|]. by rewrite (proj2 (Z.ltb_ge t' d)) by lia.
Qed.

Lemma rmap_view_live r t k v d : rmap_view r t k = Some (v, Some d) -> (t <? d) = true.
Proof.
  unfold rmap_view. destruct (r !! k) as [[v' [d'|]]|]; cbn; try done.
  destruct (t <? d') eqn:E; intros Hv; [congruence|discriminate].
Qed.

#[export] Instance redis_map : Redis rmap.
Proof.
  split; intros; cbn.
  - unfold rmap_view. by rewrite expire_at_later.
  - unfold rmap_add. destruct (add_int 1 (rmap_view r t k)) as [[n e]|]; cbn; [|done].
    split; [done|apply rmap_view_insert].
  - unfold rmap_add. destruct (add_int (-1) (rmap_view r t k)) as [[n e]|]; cbn; [|done].
    split; [done|apply rmap_view_insert].
  - split; [done|]. rewrite rmap_view_insert. subst new old. cbn [view redis_map_ops].
    unfold upd. case_match; [|done].
    destruct (rmap_view r t k) as [[v [d|]]|] eqn:E; try done.
    unfold expire_at. by rewrite (rmap_view_live _ _ _ _ _ E).
  - by apply (rmap_view_put r t k (set_deadline (t + s))).
  - by apply (rmap_view_put r t k (set_deadline d)).
  - apply rmap_view_insert.
  - apply rmap_view_delete.
Qed.

(** ** Consequences the clients use *)

Section facts.
Context {R : Type} `{Redis R}.
#[local] Set Default Proof Using "Type*".

Lemma view_incr_ne r t k k' : k <> k' -> view (incr r t k).2 t k' = view r t k'.
Proof.
  intros Hk. pose proof (view_incr r t k k') as Hv. apply String.eqb_neq in Hk.
  destruct (add_int 1 (view r t k)) as [[n e]|]; destruct Hv as [_ ->]; [|done].
  unfold upd. by rewrite Hk.
Qed.

Lemma view_expire_ne r t k s k' : k <> k' -> view (expire r t k s) t k' = view r t k'.
Proof. intros Hk. rewrite view_expire. unfold upd. apply String.eqb_neq in Hk. by rewrite Hk. Qed.

Lemma view_incr_new r t k :
  view r t k = None -> (incr r t k).1 = Some 1 /\ view (incr r t k).2 t k = Some (RInt 1, None).
Proof.
  intros E. pose proof (view_incr r t k k) as Hv. rewrite E in Hv. cbn in Hv.
  unfold upd in Hv. by rewrite String.eqb_refl in Hv.
Qed.

Lemma view_live r t k v d : view r t k = Some (v, Some d) -> t < d.
Proof.
  intros E. pose proof (view_later r t t k (Z.le_refl t)) as Hl. rewrite E in Hl. cbn in Hl.
  destruct (Z.ltb_spec t d); [done|discriminate].
Qed.

Lemma view_incr_int r t k z d :
  view r t k = Some (RInt z, d) ->
  (incr r t k).1 = Some (z + 1) /\ view (incr r t k).2 t k = Some (RInt (z + 1), d).
Proof.
  intros E. pose proof (view_incr r t k k) as Hv. rewrite E in Hv. cbn [add_int] in Hv.
  unfold upd in Hv. rewrite String.eqb_refl in Hv. destruct Hv as [H1 H2]. split; [done|].
  rewrite H2. destruct d as [d|]; cbn; [|done]. apply view_live in E. by rewrite (proj2 (Z.ltb_lt t d)).
Qed.

Lemma view_decr_int r t k z d :
  view r t k = Some (RInt z, d) ->
  (decr r t k).1 = Some (z + -1) /\ view (decr r t k).2 t k = Some (RInt (z + -1), d).
Proof.
  intros E. pose proof (view_decr r t k k) as Hv. rewrite E in Hv. cbn [add_int] in Hv.
  unfold upd in Hv. rewrite String.eqb_refl in Hv. destruct Hv as [H1 H2]. split; [done|].
  rewrite H2. destruct d as [d|]; cbn; [|done]. apply view_live in E. by rewrite (proj2 (Z.ltb_lt t d)).
Qed.

Lemma view_expire_eq r t k s v d :
  view r t k = Some (v, d) -> 0 < s -> view (expire r t k s) t k = Some (v, Some (t + s)).
Proof.
  intros E Hs. rewrite view_expire. unfold upd. rewrite String.eqb_refl, E. cbn.
  by rewrite (proj2 (Z.ltb_lt t (t + s))) by lia.
Qed.
End facts.

(** ** What a computation leaves alone

    For a computation on a state of which [proj] is the Redis part. *)

Section frame.
Context {R S E : Type} `{RedisOps R} (proj : S -> R).

(** [m] does not change what key [k] shows at instant [t]. *)
Definition keeps_at {A} (t : Z) (k : string) (m : stm S E A) : Prop :=
  forall s, view (proj (m s).2) t k = view (proj s) t k.

Lemma keeps_ret {A} t k (a : A) : keeps_at t k (mret a).
Proof. by intros s. Qed.

Lemma keeps_raise {A} t k e : keeps_at t k (raise e : stm S E A).
Proof. by intros s. Qed.

Lemma keeps_bind {A B} t k (m : stm S E A) (f : A -> stm S E B) :
  keeps_at t k m -> (forall a, keeps_at t k (f a)) -> keeps_at t k (m ≫= f).
Proof.
  intros Hm Hf s. unfold mbind, stm_bind. specialize (Hm s).
  destruct (m s) as [[a|e] s']; cbn in *; [by rewrite Hf|done].
Qed.

Lemma keeps_try {A} t k (m : stm S E A) h :
  keeps_at t k m -> (forall e k', h e = Some k' -> keeps_at t k k') -> keeps_at t k (try_except m h).
Proof.
  intros Hm Hh s. unfold try_except. specialize (Hm s).
  destruct (m s) as [[a|e] s']; [done|]. destruct (h e) eqn:E'; [|done].
  cbn in *. by rewrite (Hh _ _ E').
Qed.

Lemma keeps_if {A} t k (b : bool) (m m' : stm S E A) :
  keeps_at t k m -> keeps_at t k m' -> keeps_at t k (if b then m else m').
Proof. by destruct b. Qed.
End frame.

Create HintDb keeps.
#[export] Hint Resolve keeps_ret keeps_raise keeps_bind keeps_try keeps_if : keeps.

(** ** The rate limiter *)

Section limiter.
Context {R : Type} `{RedisOps R}.

(** [is_rate_limited]: counts the event; (limited, count).  [None] when the
    counter holds a non-integer and [INCR] fails. *)
Definition is_rate_limited (r : R) (now : Z) (key : string) (limit window_seconds : Z)
    : option (bool * Z) * R :=
  let '(current, r1) := incr r now key in
  match current with
  | None => (None, r1)
  | Some current =>
      let r2 := if current =? 1 then expire r1 now key window_seconds else r1 in
      (Some (limit <? current, current), r2)
  end.

(** [check_rate_limited]: looks without counting. *)
Definition check_rate_limited (r : R) (now : Z) (key : string) (limit : Z) : option (bool * Z) :=
  match get_int r now key with
  | None => None
  | Some None => Some (false, 0)
  | Some (Some count) => Some (limit <=? count, count)
  end.

Definition get_remaining (r : R) (now : Z) (key : string) (limit : Z) : option Z :=
  match get_int r now key with
  | None => None
  | Some None => Some limit
  | Some (Some current) => Some (Z.max 0 (limit - current))
  end.

Definition reset (r : R) (now : Z) (key : string) : R := delete_key r now key.

(** A sequence of calls at the given instants: who was limited. *)
Fixpoint limiter_run (r : R) (times : list Z) (key : string) (limit window : Z) : list bool * R :=
  match times with
  | [] => ([], r)
  | t :: times' =>
      let '(o, r1) := is_rate_limited r t key limit window in
      let '(bs, r2) := limiter_run r1 times' key limit window in
      (match o with Some (b, _) => b | None => false end :: bs, r2)
  end.
End limiter.

Section limiter_facts.
Context {R : Type} `{Redis R}.
#[local] Set Default Proof Using "Type*".

(** A counter that is alive counts on until its deadline. *)
Lemma limiter_step r t t' key limit window z d :
  view r t key = Some (RInt z, Some d) -> t <= t' -> t' < d -> 0 < z ->
  let '(o, r') := is_rate_limited r t' key limit window in
  o = Some (limit <? z + 1, z + 1) /\ view r' t' key = Some (RInt (z + 1), Some d).
Proof.
  intros E Ht Hd Hz. unfold is_rate_limited.
  assert (view r t' key = Some (RInt z, Some d)) as E'.
  { rewrite (view_later r t t') by done. rewrite E. cbn. by rewrite (proj2 (Z.ltb_lt t' d)). }
  apply view_incr_int in E' as [H1 H2]. destruct (incr r t' key) as [o r1]. cbn in *. subst o.
  destruct (Z.eqb_spec (z + 1) 1); [lia|]. done.
Qed.

Lemma limiter_start r t key limit window :
  view r t key = None -> 0 < window ->
  let '(o, r') := is_rate_limited r t key limit window in
  o = Some (limit <? 1, 1) /\ view r' t key = Some (RInt 1, Some (t + window)).
Proof.
  intros E Hw. unfold is_rate_limited. apply view_incr_new in E as [H1 H2].
  destruct (incr r t key) as [o r1]. cbn in *. subst o. cbn. split; [done|].
  by apply (view_expire_eq _ _ _ _ _ None).
Qed.

Lemma limiter_run_live r t times key limit window z d :
  view r t key = Some (RInt z, Some d) -> 0 < z -> Sorted Z.le (t :: times) -> Forall (fun t' => t' < d) times ->
  forall i b, (limiter_run r times key limit window).1 !! i = Some b -> b = (limit <? z + 1 + Z.of_nat i).
Proof.
  revert r t z; induction times as [|t' times IH]; intros r t z E Hz Hs Hd i b; [done|].
  apply Sorted_inv in Hs as [Hs Hhd]. inversion Hhd as [|? ? Hle]; subst.
  apply Forall_cons in Hd as [Hd Hds].
  pose proof (limiter_step r t t' key limit window z d E Hle Hd Hz) as Hst.
  cbn [limiter_run]. destruct (is_rate_limited r t' key limit window) as [o r1]. destruct Hst as [-> E1].
  specialize (IH r1 t' (z + 1) E1 ltac:(lia) Hs Hds).
  destruct (limiter_run r1 times key limit window) as [bs r2]. cbn in IH.
  destruct i as [|i]; cbn; [intros [= <-]; f_equal; lia|].
  intros Hi. rewrite (IH i b Hi). f_equal. lia.
Qed.

(** In the window that starts with the first call, call number [i]
    (counting from zero) is limited exactly when [limit] calls came before it:
    the limiter admits the first [limit] calls and no other. *)
Theorem limiter_admits_limit r t times key limit window i b :
  view r t key = None -> 0 < window -> Sorted Z.le (t :: times) ->
  Forall (fun t' => t' < t + window) times ->
  (limiter_run r (t :: times) key limit window).1 !! i = Some b ->
  b = (limit <=? Z.of_nat i).
Proof.
  intros E Hw Hs Hd. cbn [limiter_run].
  pose proof (limiter_start r t key limit window E Hw) as Hst.
  destruct (is_rate_limited r t key limit window) as [o r1]. destruct Hst as [-> E1].
  pose proof (limiter_run_live r1 t times key limit window 1 (t + window) E1 ltac:(lia) Hs Hd) as Hl.
  destruct (limiter_run r1 times key limit window) as [bs r2]. cbn in Hl.
  destruct i as [|i]; cbn [fst lookup list_lookup].
  - intros [= <-]. destruct (Z.ltb_spec limit 1), (Z.leb_spec limit (Z.of_nat 0)); lia.
  - intros Hi. rewrite (Hl i b Hi). destruct (Z.ltb_spec limit (1 + 1 + Z.of_nat i)), (Z.leb_spec limit (Z.of_nat (S i))); lia.
Qed.
End limiter_facts.

Lemma limiter_admits_limit_witness :
  (limiter_run (∅ : rmap) [0; 1; 2] "k" 2 60).1 = [false; false; true] /\ true = (2 <=? Z.of_nat 2).
Proof.
  split; [vm_compute; reflexivity|].
  apply (limiter_admits_limit (∅ : rmap) 0 [1; 2] "k" 2 60 2);
    [vm_compute; reflexivity|lia|repeat constructor; lia|repeat constructor; lia|vm_compute; reflexivity].
Defined.

(** The window is fixed, not sliding: with a limit of 2 per 60 seconds, four
    calls within 3 seconds are admitted around the expiry. *)
Example limiter_window_is_fixed :
  (limiter_run (∅ : rmap) [0; 59; 60; 61] "k" 2 60).1 = [false; false; false; false].
Proof. vm_compute. reflexivity. Qed.
