(* ===== verification/RateLimit.v ===== *)
(** * The rate-limiting middleware

    [middleware/rate_limit.py]: the limits, the client address, the checks made
    before a request reaches its handler and the record of failed logins made
    after ([dispatch], with the handler as argument).  [happens] serves any number
    of requests at the same time, one round trip to Redis at a time; by itself a
    request is [dispatch] ([alone_dispatch]).  Redis enters through the interface
    of [Redis]. *)

From S2P Require Import Prelude Redis.
From Stdlib Require Import Sorted Ascii.

Open Scope Z_scope.

(** ** Requests and responses *)

(** [request.headers] with the names in lower case, as the server delivers
    them; [client] is the host of the peer, if there is one. *)
Record request := Request {
  path : string;
  method : string;
  headers : list (string * string);
  client : option string
}.

Record response := Response {
  status_code : Z;
  content : pyval;
  resp_headers : list (string * string)
}.

Inductive exn :=
| RedisError
| ValueError
| RateLimitExceededError (limit : Z) (window : string) (retry_after : Z)
| HandlerError.

(** A task given to [asyncio.create_task]: the security event to write. *)
Record task := LogSecurityEvent { event_type : string; severity : string; actor_ip : string }.

(** [LIMITS]: (limit, window in seconds). *)
Definition LIMITS : list (string * (Z * Z)) :=
  [("auth_failure", (5, 60)); ("auth_attempt", (20, 60)); ("registration", (3, 3600));
   ("user_request", (1000, 3600)); ("ip_request", (100, 3600))].

Definition limit_of (k : string) : Z := (dict_getd k (0, 0) LIMITS).1.
Definition window_of (k : string) : Z := (dict_getd k (0, 0) LIMITS).2.

(** What the middleware changes: Redis, and the tasks it starts. *)
Record mw (R : Type) := Mw { rds : R; tasks : list task }.
Arguments Mw {R}.
Arguments rds {R}.
Arguments tasks {R}.

(** [forwarded.split(",")[0].strip()] *)
Definition first_forwarded (forwarded : string) : string :=
  str_strip (hd "" (str_split ","%char forwarded)).

Definition _get_client_ip (req : request) : string :=
  match dict_get "x-forwarded-for" (headers req) with
  | Some ((String _ _) as forwarded) => first_forwarded forwarded
  | _ => match dict_get "x-real-ip" (headers req) with
         | Some ((String _ _) as real_ip) => real_ip
         | _ => default "unknown" (client req)
         end
  end.

Definition auth_key (ip : string) : string := "ratelimit:auth:" +:+ ip.
Definition auth_fail_key (ip : string) : string := "ratelimit:auth_fail:" +:+ ip.
Definition register_key (ip : string) : string := "ratelimit:register:" +:+ ip.
Arguments auth_key : simpl never.
Arguments auth_fail_key : simpl never.
Arguments register_key : simpl never.

Definition login_paths : list string := ["/v1/auth/token"; "/v1/auth/login"].

Definition _rate_limit_response (limit : Z) (window : string) (retry_after : Z) : response :=
  Response 429
    (PDict [("error", PStr "RATE_LIMIT_EXCEEDED");
            ("message", PStr ("Rate limit exceeded: " +:+ str_of_Z limit +:+ " requests per " +:+ window));
            ("details", PDict [("limit", PInt limit); ("window", PStr window); ("retry_after", PInt retry_after)])])
    [("Retry-After", str_of_Z retry_after)].

(** ** The middleware *)

Section middleware.
Context {R : Type} `{RedisOps R}.

Abbreviation M := (stm (mw R) exn).

(** [RateLimiter(redis).is_rate_limited(...)] *)
Definition count_event (now : Z) (key : string) (limit window : Z) : M (bool * Z) := fun s =>
  let '(o, r) := is_rate_limited (rds s) now key limit window in
  (match o with Some x => Ok x | None => Err RedisError end, Mw r (tasks s)).

(** [RateLimiter(redis).check_rate_limited(...)] *)
Definition look_at (now : Z) (key : string) (limit : Z) : M (bool * Z) := fun s =>
  (match check_rate_limited (rds s) now key limit with Some x => Ok x | None => Err ValueError end, s).

Definition _check_auth_rate_limit (now : Z) (client_ip : string) : M (bool * Z) :=
  x ← count_event now (auth_key client_ip) (limit_of "auth_attempt") (window_of "auth_attempt");
  mret (x.1, Z.max 0 (limit_of "auth_attempt" - x.2)).

Definition _record_auth_failure (now : Z) (client_ip : string) : M unit :=
  count_event now (auth_fail_key client_ip) (limit_of "auth_failure") (window_of "auth_failure");;
  mret tt.

Definition _check_registration_limit (now : Z) (client_ip : string) : M bool :=
  x ← count_event now (register_key client_ip) (limit_of "registration") (window_of "registration");
  mret x.1.

Definition _check_auth_failure_limit (now : Z) (client_ip : string) : M bool :=
  x ← look_at now (auth_fail_key client_ip) (limit_of "auth_failure");
  mret x.1.

(** The checks [dispatch] makes on an auth endpoint: the response that
    refuses the request, or [None]. *)
Definition auth_checks (now : Z) (req : request) (client_ip : string) : M (option response) :=
  refused ← (if String.eqb (path req) "/v1/auth/register" && String.eqb (method req) "POST"
             then _check_registration_limit now client_ip else mret false);
  if (refused : bool) then mret (Some (_rate_limit_response (limit_of "registration") "1 hour" 900))
  else
    lim ← _check_auth_rate_limit now client_ip;
    if (lim.1 : bool) then mret (Some (_rate_limit_response (limit_of "auth_attempt") "1 minute" 60))
    else
      failed ← _check_auth_failure_limit now client_ip;
      if (failed : bool) then mret (Some (_rate_limit_response (limit_of "auth_failure") "1 minute" 60))
      else mret None.

(** [dispatch]: the checks run at [now], the handler's answer is there at
    [later]. *)
Definition dispatch (req : request) (call_next : M response) (now later : Z) : M response :=
  if starts_with "/v1/health" (path req) then call_next
  else
    let client_ip := _get_client_ip req in
    blocked ← (if starts_with "/v1/auth" (path req) then auth_checks now req client_ip else mret None);
    match blocked with
    | Some resp => mret resp
    | None =>
        resp ← call_next;
        if str_in (path req) login_paths && (status_code resp =? 401) then
          _record_auth_failure later client_ip;;
          modS (fun s => Mw (rds s) (tasks s ++ [LogSecurityEvent "auth.login_failed" "warning" client_ip]));;
          mret resp
        else mret resp
    end.

(** The dependency [check_auth_rate_limit]; it does not read [X-Real-IP]. *)
Definition dependency_client_ip (req : request) : string :=
  match dict_get "x-forwarded-for" (headers req) with
  | Some ((String _ _) as forwarded) => first_forwarded forwarded
  | _ => default "unknown" (client req)
  end.

Definition check_auth_rate_limit (now : Z) (req : request) : M unit :=
  x ← look_at now (auth_fail_key (dependency_client_ip req)) (limit_of "auth_failure");
  if (x.1 : bool) then raise (RateLimitExceededError (limit_of "auth_failure") "1 minute" 60) else mret tt.

(** *** Requests at the same time

    Between two awaits nothing else runs, so that a request is one of these
    phases away from its next round trip to Redis; [INCR] and the [EXPIRE] that
    follows a count of one are two round trips. *)
Inductive phase :=
| Registering | RegisterFirst
| Attempting | AttemptFirst
| Looking
| Handling
| Recording (resp : response) | RecordFirst (resp : response)
| Done (o : res exn response).

Definition arrive (req : request) : phase :=
  if starts_with "/v1/health" (path req) then Handling
  else if starts_with "/v1/auth" (path req) then
    if String.eqb (path req) "/v1/auth/register" && String.eqb (method req) "POST" then Registering else Attempting
  else Handling.

(** [is_rate_limited] up to its [EXPIRE]: what follows a count of one, a count
    above the limit, or any other. *)
Definition counting (now : Z) (key : string) (limit : Z) (first refused passed : phase) (s : mw R) : phase * mw R :=
  let '(c, r) := incr (rds s) now key in
  (match c with
   | None => Done (Err RedisError)
   | Some c => if c =? 1 then first else if limit <? c then refused else passed
   end, Mw r (tasks s)).

(** The [EXPIRE], and the comparison of the count of one with the limit. *)
Definition expiring (now : Z) (key : string) (limit window : Z) (refused passed : phase) (s : mw R) : phase * mw R :=
  (if limit <? 1 then refused else passed, Mw (expire (rds s) now key window) (tasks s)).

Definition logged_failure (ip : string) (s : mw R) : mw R :=
  Mw (rds s) (tasks s ++ [LogSecurityEvent "auth.login_failed" "warning" ip]).

(** The next round trip of a request, at [now]. *)
Definition round_trip (now : Z) (req : request) (p : phase) (s : mw R) : phase * mw R :=
  let ip := _get_client_ip req in
  let refused k window retry := Done (Ok (_rate_limit_response (limit_of k) window retry)) in
  match p with
  | Registering => counting now (register_key ip) (limit_of "registration") RegisterFirst (refused "registration" "1 hour" 900) Attempting s
  | RegisterFirst =>
      expiring now (register_key ip) (limit_of "registration") (window_of "registration") (refused "registration" "1 hour" 900) Attempting s
  | Attempting => counting now (auth_key ip) (limit_of "auth_attempt") AttemptFirst (refused "auth_attempt" "1 minute" 60) Looking s
  | AttemptFirst =>
      expiring now (auth_key ip) (limit_of "auth_attempt") (window_of "auth_attempt") (refused "auth_attempt" "1 minute" 60) Looking s
  | Looking =>
      match check_rate_limited (rds s) now (auth_fail_key ip) (limit_of "auth_failure") with
      | None => (Done (Err ValueError), s)
      | Some (failed, _) => (if failed : bool then refused "auth_failure" "1 minute" 60 else Handling, s)
      end
  | Recording resp =>
      let '(p', s') := counting now (auth_fail_key ip) (limit_of "auth_failure") (RecordFirst resp) (Done (Ok resp)) (Done (Ok resp)) s in
      (p', match p' with Done (Ok _) => logged_failure ip s' | _ => s' end)
  | RecordFirst resp =>
      let '(p', s') := expiring now (auth_fail_key ip) (limit_of "auth_failure") (window_of "auth_failure") (Done (Ok resp)) (Done (Ok resp)) s in
      (p', logged_failure ip s')
  | Handling | Done _ => (p, s)
  end.

(** A login that its handler refuses with 401 is recorded before it is answered. *)
Definition to_record (req : request) (resp : response) : bool := str_in (path req) login_paths && (status_code resp =? 401).
Definition answered (req : request) (o : res exn response) : phase :=
  match o with
  | Ok resp => if to_record req resp then Recording resp else Done (Ok resp)
  | Err e => Done (Err e)
  end.

(** The requests of the server, each with its phase, and what they share. *)
Record server := Server { shared : mw R; requests : list (request * phase) }.

(** A request arrives, the request at a place makes a round trip or gets its
    handler's answer, or anything else happens to what is shared. *)
Inductive event :=
| Arrives (req : request)
| Moves (i : nat)
| Answers (i : nat) (o : res exn response)
| Other (f : mw R -> mw R).

Definition happen (now : Z) (e : event) (c : server) : server :=
  match e with
  | Arrives req => Server (shared c) (requests c ++ [(req, arrive req)])
  | Moves i =>
      match requests c !! i with
      | Some (req, p) => let '(p', s) := round_trip now req p (shared c) in Server s (<[i := (req, p')]> (requests c))
      | None => c
      end
  | Answers i o =>
      match requests c !! i with
      | Some (req, Handling) => Server (shared c) (<[i := (req, answered req o)]> (requests c))
      | _ => c
      end
  | Other f => Server (f (shared c)) (requests c)
  end.

Fixpoint happens (events : list (Z * event)) (c : server) : server :=
  match events with
  | [] => c
  | (now, e) :: rest => happens rest (happen now e c)
  end.

(** How many of the requests are such that. *)
Definition count {A} (p : A -> bool) (l : list A) : nat := length (List.filter p l).

Definition login_of (ip : string) (req : request) : bool := String.eqb (_get_client_ip req) ip && str_in (path req) login_paths.

(** A login of [ip] that its handler answered with 401. *)
Definition failed_login (ip : string) (x : request * phase) : bool :=
  login_of ip x.1 && match x.2 with Done (Ok resp) => status_code resp =? 401 | _ => false end.

(** A login of [ip] that has passed the look at the failure counter, with its
    handler, or on the way to being counted. *)
Definition under_way (ip : string) (x : request * phase) : bool :=
  login_of ip x.1 && match x.2 with Handling | Recording _ => true | _ => false end.

(** The most of them there are at any time. *)
Fixpoint most_under_way (ip : string) (events : list (Z * event)) (c : server) : nat :=
  Nat.max (count (under_way ip) (requests c))
    match events with
    | [] => 0
    | (now, e) :: rest => most_under_way ip rest (happen now e c)
    end.

(** A request with nothing else at work: round trips, the handler, round trips. *)
Fixpoint trips (n : nat) (now : Z) (req : request) (x : phase * mw R) : phase * mw R :=
  match n with O => x | S n' => trips n' now req (round_trip now req x.1 x.2) end.
Definition alone (req : request) (handler : M response) (now later : Z) (s : mw R) : phase * mw R :=
  let x := trips 5 now req (arrive req, s) in
  match x.1 with
  | Handling => let '(o, s') := handler x.2 in trips 2 later req (answered req o, s')
  | _ => x
  end.
End middleware.

Arguments server R : clear implicits.
Arguments event R : clear implicits.

(** ** One request by itself is [dispatch] *)

Section by_itself.
Context {R : Type} `{RedisOps R}.

Definition resting (p : phase) : bool := match p with Handling | Done _ => true | _ => false end.

Lemma trips_resting n now req p (s : mw R) : resting p = true -> trips n now req (p, s) = (p, s).
Proof. intros Hp. induction n as [|n IH]; [done|]. cbn [trips fst snd]. by destruct p. Qed.

(** The phase that a computed check leads to. *)
Definition led (r : res exn (option response)) : phase :=
  match r with Ok None => Handling | Ok (Some resp) => Done (Ok resp) | Err e => Done (Err e) end.

Lemma look_alone n now req (s : mw R) :
  trips (S n) now req (Looking, s) =
  let '(r, s') := (failed ← _check_auth_failure_limit now (_get_client_ip req);
                   if (failed : bool) then mret (Some (_rate_limit_response (limit_of "auth_failure") "1 minute" 60)) else mret None) s in
  (led r, s').
Proof.
  cbn [trips fst snd round_trip]. unfold _check_auth_failure_limit, look_at, mbind, stm_bind.
  destruct (check_rate_limited _ _ _ _) as [[[] c]|]; by rewrite trips_resting.
Qed.

(** The two round trips of [is_rate_limited], and what follows it. *)
Lemma count_alone n m now req p0 first refused passed key limit window (k : bool * Z -> stm (mw R) exn (option response)) resp (s : mw R) :
  round_trip now req p0 = counting now key limit first refused passed ->
  round_trip now req first = expiring now key limit window refused passed ->
  refused = Done (Ok resp) ->
  (forall x s', k x s' = if (x.1 : bool) then (Ok (Some resp), s') else k (false, x.2) s') ->
  (forall i s' c, (i <= 1)%nat -> trips (i + m) now req (passed, s') = let '(r, s'') := k (false, c) s' in (led r, s'')) ->
  n = S (S m) ->
  trips n now req (p0, s) = let '(r, s') := (count_event now key limit window ≫= k) s in (led r, s').
Proof.
  intros H0 H1 -> Hk Hp ->. change (trips (S (S m)) now req (p0, s)) with (trips (S m) now req (round_trip now req p0 s)).
  rewrite H0. unfold counting, count_event, is_rate_limited, mbind, stm_bind.
  destruct (incr (rds s) now key) as [[c|] r]; [|by rewrite trips_resting].
  destruct (c =? 1) eqn:Ec.
  - apply Z.eqb_eq in Ec as ->. change (trips (S m) now req (first, Mw r (tasks s))) with (trips m now req (round_trip now req first (Mw r (tasks s)))).
    rewrite H1. unfold expiring. cbn [rds tasks fst]. rewrite Hk. cbn [fst snd].
    destruct (limit <? 1); [by rewrite trips_resting|by apply (Hp 0%nat); lia].
  - rewrite Hk. cbn [fst snd]. destruct (limit <? c); [by rewrite trips_resting|by apply (Hp 1%nat); lia].
Qed.

Lemma attempt_alone n now req (s : mw R) : (3 <= n)%nat ->
  trips n now req (Attempting, s) =
  let '(r, s') := (lim ← _check_auth_rate_limit now (_get_client_ip req);
    if (lim.1 : bool) then mret (Some (_rate_limit_response (limit_of "auth_attempt") "1 minute" 60))
    else
      failed ← _check_auth_failure_limit now (_get_client_ip req);
      if (failed : bool) then mret (Some (_rate_limit_response (limit_of "auth_failure") "1 minute" 60))
      else mret None) s in (led r, s').
Proof.
  intros Hn. destruct n as [|[|[|n]]]; try lia.
  erewrite (count_alone _ (S n) now req Attempting AttemptFirst _ Looking _ _ _
    (fun x => if (x.1 : bool) then mret (Some (_rate_limit_response (limit_of "auth_attempt") "1 minute" 60))
    else
      failed ← _check_auth_failure_limit now (_get_client_ip req);
      if (failed : bool) then mret (Some (_rate_limit_response (limit_of "auth_failure") "1 minute" 60))
      else mret None)); [|reflexivity|reflexivity|reflexivity| | |done].
  - unfold _check_auth_rate_limit, mbind, stm_bind. by destruct (count_event _ _ _ _ s) as [[[]|e] s'].
  - by intros [[] c] s'.
  - intros i s' c _. cbn [fst]. rewrite Nat.add_succ_r. apply look_alone.
Qed.

(** What [dispatch] does before the handler runs. *)
Definition checks (now : Z) (req : request) : stm (mw R) exn (option response) :=
  if starts_with "/v1/auth" (path req) then auth_checks now req (_get_client_ip req) else mret None.

Lemma checks_alone now req (s : mw R) : starts_with "/v1/health" (path req) = false ->
  trips 5 now req (arrive req, s) = let '(r, s') := checks now req s in (led r, s').
Proof.
  intros Eh. unfold arrive, checks. rewrite Eh. destruct (starts_with "/v1/auth" (path req)); [|done].
  unfold auth_checks. destruct (_ && _); [|].
  - erewrite (count_alone _ 3 now req Registering RegisterFirst _ Attempting _ _ _
      (fun x => if (x.1 : bool) then mret (Some (_rate_limit_response (limit_of "registration") "1 hour" 900))
       else
        lim ← _check_auth_rate_limit now (_get_client_ip req);
        if (lim.1 : bool) then mret (Some (_rate_limit_response (limit_of "auth_attempt") "1 minute" 60))
        else
          failed ← _check_auth_failure_limit now (_get_client_ip req);
          if (failed : bool) then mret (Some (_rate_limit_response (limit_of "auth_failure") "1 minute" 60))
          else mret None)); [|reflexivity|reflexivity|reflexivity| | |done].
    + unfold _check_registration_limit, mbind, stm_bind. by destruct (count_event _ _ _ _ s) as [[[]|e] s'].
    + by intros [[] c] s'.
    + intros i s' c _. cbn [fst]. apply attempt_alone. lia.
  - by rewrite attempt_alone by lia.
Qed.

(** What it does after the handler answered. *)
Definition after (later : Z) (req : request) (resp : response) : stm (mw R) exn response :=
  if str_in (path req) login_paths && (status_code resp =? 401) then
    _record_auth_failure later (_get_client_ip req);;
    modS (fun s => Mw (rds s) (tasks s ++ [LogSecurityEvent "auth.login_failed" "warning" (_get_client_ip req)]));;
    mret resp
  else mret resp.

Lemma after_alone later req o (s : mw R) :
  trips 2 later req (answered req o, s) =
  let '(r, s') := (resp ← lift_res o; after later req resp) s in (Done r, s').
Proof.
  unfold mbind, stm_bind at 1, lift_res. destruct o as [resp|e]; [|done]. unfold answered, after, to_record.
  destruct (_ && _); [|done]. unfold _record_auth_failure, mbind, stm_bind, count_event, is_rate_limited.
  cbn [trips fst snd round_trip]. unfold counting. destruct (incr (rds s) later _) as [[c|] r]; [|done].
  destruct (c =? 1); [done|]. by destruct (_ <? c).
Qed.

Lemma login_path_cases p :
  str_in p login_paths = true -> starts_with "/v1/health" p = false /\ starts_with "/v1/auth" p = true.
Proof. intros Hp%str_in_spec. unfold login_paths in Hp. set_unfold in Hp. by destruct Hp as [-> | [-> | []]]. Qed.

(** With nothing else at work between its checks, its handler and its end, a
    request goes through its phases as [dispatch] has it. *)
Lemma alone_dispatch req handler now later (s : mw R) :
  alone req handler now later s = let '(o, s') := dispatch req handler now later s in (Done o, s').
Proof.
  unfold alone. destruct (starts_with "/v1/health" (path req)) eqn:Eh.
  { unfold dispatch, arrive. rewrite Eh, trips_resting by done. cbn [fst snd]. destruct (handler s) as [[resp|e] s']; [|done].
    unfold answered, to_record. destruct (str_in _ _) eqn:E; [|done]. apply login_path_cases in E as [E _]. congruence. }
  rewrite checks_alone by done.
  assert (dispatch req handler now later s =
    (checks now req ≫= fun blocked => match blocked with Some resp => mret resp | None => handler ≫= after later req end) s) as ->
    by (unfold dispatch; by rewrite Eh).
  unfold mbind, stm_bind at 1. destruct (checks now req s) as [[[resp|]|e] s1]; [done| |done].
  cbn [led fst snd]. unfold stm_bind. destruct (handler s1) as [o s2]. rewrite after_alone.
  unfold mbind, stm_bind, lift_res. by destruct o.
Qed.
End by_itself.

(** ** Failed logins are bounded *)

Section counts.
Context {A : Type} (p : A -> bool).

Lemma count_app l k : count p (l ++ k) = (count p l + count p k)%nat.
Proof. unfold count. by rewrite List.filter_app, length_app. Qed.

Lemma count_insert l i x y : l !! i = Some x ->
  (count p (<[i := y]> l) + Nat.b2n (p x) = count p l + Nat.b2n (p y))%nat.
Proof.
  unfold count. revert i. induction l as [|z l IH]; intros [|i] Hi; [done..| |].
  - injection Hi as ->. change (<[0%nat := y]> (x :: l)) with (y :: l). cbn [List.filter]. destruct (p x), (p y); cbn [length Nat.b2n]; lia.
  - change (<[S i := y]> (z :: l)) with (z :: <[i := y]> l). specialize (IH i Hi). cbn [List.filter]. destruct (p z); cbn [length]; lia.
Qed.

Lemma count_le (q : A -> bool) l : (forall x, x ∈ l -> p x = true -> q x = true) -> (count p l <= count q l)%nat.
Proof.
  unfold count. induction l as [|x l IH]; intros Hpq; [done|]. cbn [List.filter].
  pose proof (Hpq x ltac:(by left)) as Hx. specialize (IH ltac:(intros; apply Hpq; [by right|done])).
  destruct (p x); [rewrite Hx by done; cbn [length]; lia|]. destruct (q x); cbn [length]; lia.
Qed.

Lemma count_none l : Forall (fun x => p x = false) l -> count p l = 0%nat.
Proof. unfold count. induction 1 as [|x l Hx _ IH]; [done|]. cbn. by rewrite Hx. Qed.
End counts.

(** Later and later, and before [t1]. *)
Fixpoint timely {A} (t t1 : Z) (events : list (Z * A)) : Prop :=
  match events with
  | [] => True
  | (now, _) :: rest => t <= now /\ now < t1 /\ timely now t1 rest
  end.

Section facts.
Context {R : Type} `{Redis R}.
#[local] Set Default Proof Using "Type*".

Lemma auth_key_ne ip ip' : auth_key ip <> auth_fail_key ip'.
Proof. done. Qed.
Lemma register_key_ne ip ip' : register_key ip <> auth_fail_key ip' /\ register_key ip <> auth_key ip'.
Proof. done. Qed.
Lemma auth_fail_key_inj ip ip' : auth_fail_key ip = auth_fail_key ip' -> ip = ip'.
Proof. unfold auth_fail_key. cbn. intros Hk. by simplify_eq. Qed.
Lemma auth_key_inj ip ip' : auth_key ip = auth_key ip' -> ip = ip'.
Proof. unfold auth_key. cbn. intros Hk. by simplify_eq. Qed.

(** *** A counter of the window that starts at [t0] *)

(** [n] events were counted under the key since [t0]; its expiry, once it is
    set, is not before [t0 + 60]. *)
Definition tally (key : string) (t0 : Z) (n : nat) (r : R) (t : Z) : Prop :=
  match n with
  | O => view r t key = None
  | S _ => exists d, view r t key = Some (RInt (Z.of_nat n), d) /\ match d with Some d => t0 + 60 <= d | None => True end
  end.

Lemma tally_later key t0 n r t r' t' :
  tally key t0 n r t -> t <= t' -> t' < t0 + 60 -> view r' t' key = view r t' key -> tally key t0 n r' t'.
Proof.
  intros Hc Ht Ht' Hv. unfold tally in *. rewrite Hv, (view_later r t t') by done. destruct n; [by rewrite Hc|].
  destruct Hc as (d & -> & Hd). exists d. split; [|done]. destruct d as [d|]; cbn; [|done]. by rewrite (proj2 (Z.ltb_lt t' d)) by lia.
Qed.

Lemma tally_incr key t0 n r t : tally key t0 n r t ->
  (incr r t key).1 = Some (Z.of_nat (S n)) /\ tally key t0 (S n) (incr r t key).2 t.
Proof.
  unfold tally. destruct n as [|n].
  - intros [H1 H2]%view_incr_new. split; [done|]. by exists None.
  - intros (d & [H1 H2]%view_incr_int & Hd). rewrite H1. split; [f_equal; lia|]. exists d. split; [|done]. rewrite H2. do 3 f_equal. lia.
Qed.

Lemma tally_expire key t0 n r t : tally key t0 n r t -> t0 <= t -> tally key t0 n (expire r t key 60) t.
Proof.
  unfold tally. intros Hn Ht. destruct n as [|n].
  - rewrite view_expire, Hn. unfold upd. by destruct (String.eqb _ _).
  - destruct Hn as (d & Hn & _). exists (Some (t + 60)). split; [by apply (view_expire_eq _ _ _ _ _ d)|lia].
Qed.

(** *** What the round trips of a request do to a counter *)

Lemma counting_ne now key limit first refused passed (s : mw R) k : key <> k ->
  view (rds (counting now key limit first refused passed s).2) now k = view (rds s) now k.
Proof. intros Hk. unfold counting. pose proof (view_incr_ne (rds s) now key k Hk) as Hv. by destruct (incr (rds s) now key). Qed.

Lemma counting_eq now key limit first refused passed (s : mw R) t0 n : tally key t0 n (rds s) now ->
  exists s', counting now key limit first refused passed s =
    (if (n =? 0)%nat then first else if limit <=? Z.of_nat n then refused else passed, s') /\ tally key t0 (S n) (rds s') now.
Proof.
  intros [H1 H2]%tally_incr. unfold counting. destruct (incr (rds s) now key) as [c r]. cbn [fst snd] in *. subst c.
  exists (Mw r (tasks s)). split; [|exact H2]. f_equal. destruct n as [|n]; [done|]. cbn [Nat.eqb].
  rewrite (proj2 (Z.eqb_neq (Z.of_nat (S (S n))) 1)) by lia.
  destruct (Z.ltb_spec limit (Z.of_nat (S (S n)))), (Z.leb_spec limit (Z.of_nat (S n))); try done; lia.
Qed.

Lemma rds_logged (s : mw R) ip (p : phase) : rds (match p with Done (Ok _) => logged_failure ip s | _ => s end) = rds s.
Proof. by destruct p as [| | | | | | | |[|]]. Qed.

(** A request of another client leaves the counters of this one. *)
Lemma round_trip_other now req p (s : mw R) ip : _get_client_ip req <> ip ->
  view (rds (round_trip now req p s).2) now (auth_fail_key ip) = view (rds s) now (auth_fail_key ip) /\
  view (rds (round_trip now req p s).2) now (auth_key ip) = view (rds s) now (auth_key ip).
Proof.
  intros Hne.
  assert (auth_fail_key (_get_client_ip req) <> auth_fail_key ip) as H1 by (by intros ?%auth_fail_key_inj).
  assert (auth_key (_get_client_ip req) <> auth_key ip) as H2 by (by intros ?%auth_key_inj).
  assert (forall k, k = auth_fail_key ip \/ k = auth_key ip ->
    auth_fail_key (_get_client_ip req) <> k /\ auth_key (_get_client_ip req) <> k /\ register_key (_get_client_ip req) <> k) as Hkeys
    by (intros k [->| ->]; by repeat split).
  enough (forall k, k = auth_fail_key ip \/ k = auth_key ip -> view (rds (round_trip now req p s).2) now k = view (rds s) now k) as Hk
    by (split; apply Hk; auto).
  intros k (K1 & K2 & K3)%Hkeys. destruct p; cbn [round_trip].
  - by apply counting_ne.
  - by apply view_expire_ne.
  - by apply counting_ne.
  - by apply view_expire_ne.
  - by destruct (check_rate_limited _ _ _ _) as [[]|].
  - done.
  - pose proof (counting_ne now (auth_fail_key (_get_client_ip req)) (limit_of "auth_failure") (RecordFirst resp) (Done (Ok resp)) (Done (Ok resp)) s k K1) as Hv.
    destruct (counting _ _ _ _ _ _ s) as [p' s']. cbn [snd] in *. by rewrite rds_logged.
  - by apply view_expire_ne.
  - done.
Qed.

(** *** The invariant *)

Section client.
Context (ip : string) (t0 : Z).

(** Logins that are counted as failures. *)
Definition recorded (x : request * phase) : bool :=
  login_of ip x.1 && match x.2 with RecordFirst _ => true | Done (Ok resp) => status_code resp =? 401 | _ => false end.
(** Logins that the limit of attempts has admitted, unless they ended otherwise. *)
Definition admitted (x : request * phase) : bool :=
  login_of ip x.1 &&
  match x.2 with
  | AttemptFirst | Looking | Handling | Recording _ | RecordFirst _ => true
  | Done (Ok resp) => status_code resp =? 401
  | _ => false
  end.
(** Only what is to be recorded is recorded. *)
Definition sane (x : request * phase) : Prop :=
  _get_client_ip x.1 = ip -> match x.2 with Recording resp | RecordFirst resp => to_record x.1 resp = true | _ => True end.

Record inv (m : nat) (c : server R) (t : Z) : Prop := Inv {
  inv_failures : tally (auth_fail_key ip) t0 (count recorded (requests c)) (rds (shared c)) t;
  inv_attempts : exists n, tally (auth_key ip) t0 n (rds (shared c)) t /\ (count admitted (requests c) <= Nat.min n 20)%nat;
  inv_bound : (count recorded (requests c) + count (under_way ip) (requests c) <= 4 + m)%nat;
  inv_sane : Forall sane (requests c)
}.

Lemma inv_later m c t s' t' m' : inv m c t -> t <= t' -> t' < t0 + 60 ->
  view (rds s') t' (auth_fail_key ip) = view (rds (shared c)) t' (auth_fail_key ip) ->
  view (rds s') t' (auth_key ip) = view (rds (shared c)) t' (auth_key ip) -> (m <= m')%nat -> inv m' (Server s' (requests c)) t'.
Proof.
  intros [Hf (n & Ha & Hn) Hb Hs] Ht Ht' H1 H2 Hm. split; cbn [requests shared].
  - by eapply tally_later.
  - exists n. split; [by eapply tally_later|done].
  - lia.
  - done.
Qed.

(** A request at its place goes on to another phase. *)
Lemma inv_move m m' c t i req p p' s' : inv m c t -> requests c !! i = Some (req, p) ->
  let one f := fun x : request * phase => Nat.b2n (f x) in
  sane (req, p') ->
  tally (auth_fail_key ip) t0 (count recorded (requests c) + one recorded (req, p') - one recorded (req, p)) (rds s') t ->
  (forall n, tally (auth_key ip) t0 n (rds (shared c)) t -> (count admitted (requests c) <= Nat.min n 20)%nat ->
    exists n', tally (auth_key ip) t0 n' (rds s') t /\
      (count admitted (requests c) + one admitted (req, p') <= Nat.min n' 20 + one admitted (req, p))%nat) ->
  ((one recorded (req, p') + one (under_way ip) (req, p') <= one recorded (req, p) + one (under_way ip) (req, p) /\ m <= m') \/
   (count recorded (requests c) + one recorded (req, p') <= 4 + one recorded (req, p) /\
    count (under_way ip) (requests c) + one (under_way ip) (req, p') <= m' + one (under_way ip) (req, p)))%nat ->
  inv m' (Server s' (<[i := (req, p')]> (requests c))) t.
Proof.
  intros [Hf (n & Ha & Hn) Hb Hs] Hi one Hsane Hf' Ha' Hb'.
  pose proof (count_insert recorded (requests c) i _ (req, p') Hi) as C1.
  pose proof (count_insert admitted (requests c) i _ (req, p') Hi) as C2.
  pose proof (count_insert (under_way ip) (requests c) i _ (req, p') Hi) as C3.
  subst one. cbn beta in *. split; cbn [requests shared].
  - replace (count recorded _) with (count recorded (requests c) + Nat.b2n (recorded (req, p')) - Nat.b2n (recorded (req, p)))%nat by lia. exact Hf'.
  - destruct (Ha' n Ha Hn) as (n' & Ht & Hle). exists n'. split; [done|lia].
  - lia.
  - apply Forall_insert; done.
Qed.

Lemma login_flags req p : login_of ip req = false ->
  recorded (req, p) = false /\ admitted (req, p) = false /\ under_way ip (req, p) = false.
Proof. unfold recorded, admitted, under_way. cbn [fst snd]. by intros ->. Qed.

(** A phase that no counter depends on leads to another. *)
Lemma inv_step m m' c t i req p p' s' : inv m c t -> requests c !! i = Some (req, p) -> sane (req, p') -> (m <= m')%nat ->
  (recorded (req, p') = recorded (req, p)) -> (under_way ip (req, p') = true -> under_way ip (req, p) = true) ->
  (admitted (req, p') = true -> admitted (req, p) = true) ->
  (forall n, tally (auth_fail_key ip) t0 n (rds (shared c)) t -> tally (auth_fail_key ip) t0 n (rds s') t) ->
  (forall n, tally (auth_key ip) t0 n (rds (shared c)) t -> tally (auth_key ip) t0 n (rds s') t) ->
  inv m' (Server s' (<[i := (req, p')]> (requests c))) t.
Proof.
  intros Hinv Hi Hsane Hm Hr Hu Ha Hf Hat.
  assert (Nat.b2n (under_way ip (req, p')) <= Nat.b2n (under_way ip (req, p)))%nat as Lu
    by (destruct (under_way ip (req, p')); [by rewrite Hu|cbn; lia]).
  assert (Nat.b2n (admitted (req, p')) <= Nat.b2n (admitted (req, p)))%nat as La
    by (destruct (admitted (req, p')); [by rewrite Ha|cbn; lia]).
  eapply inv_move; [done..| | |left]; rewrite ?Hr.
  - rewrite Nat.add_sub. apply Hf, Hinv.
  - intros n Hn Hle. exists n. split; [by apply Hat|]. lia.
  - lia.
Qed.

(** A login that is refused, or not one at all. *)
Definition refusal (p : phase) : Prop := match p with Done (Ok resp) => status_code resp <> 401 | Done (Err _) => True | _ => False end.
Lemma refusal_flags req p : refusal p ->
  recorded (req, p) = false /\ admitted (req, p) = false /\ under_way ip (req, p) = false /\ sane (req, p).
Proof.
  unfold recorded, admitted, under_way, sane. cbn [fst snd]. destruct p as [| | | | | | | |[resp|e]]; intros Hp; try done.
  - cbn in Hp. rewrite (proj2 (Z.eqb_neq _ _) Hp), andb_false_r. done.
  - by rewrite andb_false_r.
Qed.

Lemma admitted_true req p : login_of ip req = true ->
  match p with AttemptFirst | Looking | Handling | Recording _ | RecordFirst _ => True | _ => False end -> admitted (req, p) = true.
Proof. unfold admitted. cbn [fst snd]. intros ->. by destruct p. Qed.

(** The limit of attempts. *)
Lemma inv_attempting m m' c t i req p' s' : inv m c t -> (m <= m')%nat -> requests c !! i = Some (req, Attempting) ->
  _get_client_ip req = ip -> round_trip t req Attempting (shared c) = (p', s') ->
  inv m' (Server s' (<[i := (req, p')]> (requests c))) t.
Proof.
  intros Hinv Hm Hi Hip Hr. cbn [round_trip] in Hr. rewrite Hip in Hr. pose proof Hinv as [Hf (n & Ha & Hn) Hb Hs].
  match type of Hr with counting _ _ _ ?f ?r ?p _ = _ =>
    destruct (counting_eq t (auth_key ip) (limit_of "auth_attempt") f r p (shared c) t0 n Ha) as (s1 & E & Ht);
    pose proof (counting_ne t (auth_key ip) (limit_of "auth_attempt") f r p (shared c) _ (auth_key_ne ip ip)) as Hv
  end.
  rewrite E in Hr, Hv. injection Hr as <- <-. cbn [snd] in Hv. change (limit_of "auth_attempt") with 20.
  set (p' := if (n =? 0)%nat then _ else _).
  assert (recorded (req, p') = false /\ under_way ip (req, p') = false /\ sane (req, p')) as (F1 & F2 & F3).
  { unfold recorded, under_way, sane. cbn [fst snd]. subst p'. destruct (n =? 0)%nat; [|destruct (_ <=? _)]; by rewrite ?andb_false_r. }
  assert (recorded (req, Attempting) = false /\ under_way ip (req, Attempting) = false /\ admitted (req, Attempting) = false) as (G1 & G2 & G3)
    by (unfold recorded, under_way, admitted; by rewrite !andb_false_r).
  apply (inv_move m m' c t i req Attempting p'); try done; rewrite ?F1, ?F2, ?G1, ?G2, ?G3; cbn [Nat.b2n].
  - rewrite Nat.add_0_r, Nat.sub_0_r. unfold tally in *. by rewrite Hv.
  - intros n' Hn' _.
    assert (n' = n) as ->.
    { unfold tally in Ha, Hn'. destruct n, n'; [done|..]; [destruct Hn' as (d & Hn' & _); congruence|destruct Ha as (d & Ha & _); congruence|].
      destruct Hn' as (d & Hn' & _), Ha as (d' & Ha & _). rewrite Ha in Hn'. injection Hn' as Hn' _. lia. }
    exists (S n). split; [done|].
    assert (Nat.b2n (admitted (req, p')) <= if (20 <=? Z.of_nat n)%Z then 0 else 1)%nat.
    { subst p'. destruct (n =? 0)%nat eqn:E0.
      - apply Nat.eqb_eq in E0 as ->. change (20 <=? Z.of_nat 0) with false. set (b := admitted _). destruct b; cbn; lia.
      - destruct (20 <=? Z.of_nat n); [unfold admitted; by rewrite andb_false_r|]. set (b := admitted _). destruct b; cbn; lia. }
    destruct (Z.leb_spec 20 (Z.of_nat n)); lia.
  - left. lia.
Qed.

(** The look at the failures. *)
Lemma inv_looking m m' c t i req p' s' : inv m c t -> (m <= m')%nat -> requests c !! i = Some (req, Looking) ->
  _get_client_ip req = ip -> round_trip t req Looking (shared c) = (p', s') ->
  (count (under_way ip) (<[i := (req, p')]> (requests c)) <= m')%nat ->
  inv m' (Server s' (<[i := (req, p')]> (requests c))) t.
Proof.
  intros Hinv Hm Hi Hip Hr Hpeak. cbn [round_trip] in Hr. rewrite Hip in Hr. pose proof Hinv as [Hf _ _ _].
  pose proof (count_insert (under_way ip) (requests c) i _ (req, p') Hi) as Hcount.
  set (n := count recorded (requests c)) in *.
  assert (check_rate_limited (rds (shared c)) t (auth_fail_key ip) (limit_of "auth_failure") =
    Some (5 <=? Z.of_nat n, Z.of_nat n)) as Hlook.
  { unfold check_rate_limited, get_int. destruct n as [|n']; cbn [tally] in Hf; [by rewrite Hf|]. by destruct Hf as (d & -> & _). }
  rewrite Hlook in Hr. destruct (Z.leb_spec 5 (Z.of_nat n)) as [Hn|Hn]; injection Hr as <- <-.
  - pose proof (refusal_flags req (Done (Ok (_rate_limit_response (limit_of "auth_failure") "1 minute" 60))) ltac:(cbn; lia)) as (F1 & F2 & F3 & F4).
    apply (inv_step m m' c t i req Looking); try done; rewrite ?F1, ?F2, ?F3; try done; unfold recorded; by rewrite andb_false_r.
  - apply (inv_move m m' c t i req Looking); try done.
    + fold n. replace (n + _ - _)%nat with n; [done|]. unfold recorded. cbn [fst snd]. rewrite !andb_false_r. cbn [Nat.b2n]. lia.
    + intros n' Hn' Hle. exists n'. split; [done|]. change (admitted (req, Handling)) with (admitted (req, Looking)). lia.
    + right. assert (forall q, match q with Looking | Handling => recorded (req, q) = false | _ => True end) as Hz
        by (intros []; try done; unfold recorded; by rewrite andb_false_r).
      rewrite (Hz Looking), (Hz Handling). cbn [Nat.b2n]. fold n. split; lia.
Qed.

(** The record of a failure. *)
Lemma inv_recording m m' c t i req resp p' s' : inv m c t -> (m <= m')%nat -> requests c !! i = Some (req, Recording resp) ->
  _get_client_ip req = ip -> round_trip t req (Recording resp) (shared c) = (p', s') ->
  inv m' (Server s' (<[i := (req, p')]> (requests c))) t.
Proof.
  intros Hinv Hm Hi Hip Hr. cbn [round_trip] in Hr. rewrite Hip in Hr. pose proof Hinv as [Hf _ _ Hs].
  assert (to_record req resp = true) as Hrec by (apply (proj1 (Forall_lookup _ _) Hs i _ Hi); done).
  assert (login_of ip req = true /\ (status_code resp =? 401) = true) as [Hl H4].
  { unfold login_of. apply andb_true_iff in Hrec as [H3 H4]. by rewrite Hip, String.eqb_refl, H3. }
  destruct (counting_eq t (auth_fail_key ip) (limit_of "auth_failure") (RecordFirst resp) (Done (Ok resp)) (Done (Ok resp)) (shared c) t0 _ Hf)
    as (s1 & E & Ht).
  pose proof (counting_ne t (auth_fail_key ip) (limit_of "auth_failure") (RecordFirst resp) (Done (Ok resp)) (Done (Ok resp)) (shared c)
    (auth_key ip) ltac:(intros K; symmetry in K; by apply auth_key_ne in K)) as Hv.
  rewrite E in Hr, Hv. cbn [snd] in Hv. set (q := if (_ =? 0)%nat then _ else _) in Hr.
  assert (p' = q /\ rds s' = rds s1) as [-> Hrds] by (injection Hr as <- <-; by rewrite rds_logged).
  assert (recorded (req, q) = true /\ admitted (req, q) = true /\ under_way ip (req, q) = false /\ sane (req, q)) as (F1 & F2 & F3 & F4).
  { unfold recorded, admitted, under_way, sane. cbn [fst snd]. rewrite Hl. subst q. destruct (_ =? 0)%nat; [done|]. destruct (_ <=? _); by rewrite H4. }
  assert (recorded (req, Recording resp) = false /\ admitted (req, Recording resp) = true /\ under_way ip (req, Recording resp) = true)
    as (G1 & G2 & G3) by (unfold recorded, admitted, under_way; cbn [fst snd]; by rewrite Hl).
  apply (inv_move m m' c t i req (Recording resp) q); try done; rewrite ?F1, ?F2, ?F3, ?G1, ?G2, ?G3; cbn [Nat.b2n].
  - rewrite Hrds. by replace (count recorded (requests c) + 1 - 0)%nat with (S (count recorded (requests c))) by lia.
  - intros n Hn Hle. exists n. split; [|lia]. unfold tally in *. by rewrite Hrds, Hv.
  - left. lia.
Qed.
(** The phases that leave both counters, or only set an expiry. *)
Lemma inv_quiet m m' c t i req p p' s' : inv m c t -> (m <= m')%nat -> t0 <= t -> requests c !! i = Some (req, p) ->
  _get_client_ip req = ip -> round_trip t req p (shared c) = (p', s') ->
  match p with Attempting | Looking | Recording _ => False | _ => True end ->
  inv m' (Server s' (<[i := (req, p')]> (requests c))) t.
Proof.
  intros Hinv Hm Ht Hi Hip Hr Hp. pose proof Hinv as [_ _ _ Hs]. pose proof (proj1 (Forall_lookup _ _) Hs i _ Hi) as Hsane.
  assert (forall (r : response), status_code r = 429 -> refusal (Done (Ok r))) as H429 by (intros r E; cbn; lia).
  assert (forall k, k = register_key ip -> forall (s1 : mw R), (forall k', k <> k' -> view (rds s1) t k' = view (rds (shared c)) t k') ->
    (forall n, tally (auth_fail_key ip) t0 n (rds (shared c)) t -> tally (auth_fail_key ip) t0 n (rds s1) t) /\
    (forall n, tally (auth_key ip) t0 n (rds (shared c)) t -> tally (auth_key ip) t0 n (rds s1) t)) as Hreg.
  { intros k -> s1 Hv. destruct (register_key_ne ip ip) as [N1 N2]. split; intros n; unfold tally; by rewrite Hv. }
  assert (forall p', match p' with RegisterFirst | Attempting => True | _ => refusal p' end ->
    recorded (req, p') = false /\ admitted (req, p') = false /\ under_way ip (req, p') = false /\ sane (req, p')) as Hflags.
  { intros q. destruct q as [| | | | | | | |o]; cbn [refusal]; intros Hq; try done; [..|by apply (refusal_flags req (Done o))];
      unfold recorded, admitted, under_way; cbn [fst snd]; by rewrite !andb_false_r. }
  destruct p; try done; cbn [round_trip] in Hr.
  - pose proof (counting_ne t (register_key (_get_client_ip req)) (limit_of "registration") RegisterFirst
      (Done (Ok (_rate_limit_response (limit_of "registration") "1 hour" 900))) Attempting (shared c)) as Hv. rewrite Hr in Hv. rewrite Hip in Hv.
    destruct (Hreg _ eq_refl s' Hv) as [T1 T2].
    assert (match p' with RegisterFirst | Attempting => True | _ => refusal p' end) as Hp'.
    { unfold counting in Hr. destruct (incr _ _ _) as [[z|] r]; [|by injection Hr as <- _].
      injection Hr as <- _. destruct (z =? 1); [done|]. destruct (_ <? z); [by apply H429|done]. }
    destruct (Hflags p' Hp') as (F1 & F2 & F3 & F4).
    apply (inv_step m m' c t i req Registering); try done; rewrite ?F1, ?F2, ?F3; try done; unfold recorded; by rewrite andb_false_r.
  - unfold expiring in Hr. injection Hr as <- <-. rewrite Hip.
    destruct (Hreg _ eq_refl (Mw (expire (rds (shared c)) t (register_key ip) (window_of "registration")) (tasks (shared c)))
      ltac:(intros; by apply view_expire_ne)) as [T1 T2].
    destruct (Hflags Attempting I) as (F1 & F2 & F3 & F4).
    apply (inv_step m m' c t i req RegisterFirst); try done; rewrite ?F1, ?F2, ?F3; try done; unfold recorded; by rewrite andb_false_r.
  - unfold expiring in Hr. injection Hr as <- <-. rewrite Hip. apply (inv_step m m' c t i req AttemptFirst); try done.
    + intros n Hn. unfold tally in *. cbn [rds]. by rewrite view_expire_ne by (by apply auth_key_ne).
    + intros n Hn. by apply (tally_expire (auth_key ip)).
  - injection Hr as <- <-. apply (inv_step m m' c t i req Handling); done.
  - unfold expiring in Hr. injection Hr as <- <-. rewrite Hip.
    assert (login_of ip req = true /\ (status_code resp =? 401) = true) as [Hl H4].
    { specialize (Hsane Hip). cbn [fst snd] in Hsane. unfold login_of. apply andb_true_iff in Hsane as [H3 H4]. by rewrite Hip, String.eqb_refl, H3. }
    apply (inv_step m m' c t i req (RecordFirst resp)); try done.
    + unfold recorded. cbn [fst snd]. change (limit_of "auth_failure" <? 1) with false. cbn iota. by rewrite H4.
    + unfold admitted. cbn [fst snd]. by rewrite Hl.
    + intros n Hn. by apply (tally_expire (auth_fail_key ip)).
    + intros n Hn. unfold tally in *. unfold logged_failure. cbn [rds].
      by rewrite view_expire_ne by (intros K; symmetry in K; by apply auth_key_ne in K).
  - injection Hr as <- <-. apply (inv_step m m' c t i req (Done o)); done.
Qed.

Lemma inv_foreign m m' c t i req p p' s' : inv m c t -> (m <= m')%nat -> requests c !! i = Some (req, p) ->
  _get_client_ip req <> ip ->
  view (rds s') t (auth_fail_key ip) = view (rds (shared c)) t (auth_fail_key ip) ->
  view (rds s') t (auth_key ip) = view (rds (shared c)) t (auth_key ip) ->
  inv m' (Server s' (<[i := (req, p')]> (requests c))) t.
Proof.
  intros Hinv Hm Hi Hne H1 H2.
  assert (login_of ip req = false) as Hl by (unfold login_of; by rewrite (proj2 (String.eqb_neq _ _) Hne)).
  destruct (login_flags req p Hl) as (F1 & F2 & F3). destruct (login_flags req p' Hl) as (G1 & G2 & G3).
  apply (inv_step m m' c t i req p); try done; rewrite ?F1, ?G1, ?G2, ?G3; try done.
  - intros Hip. done.
  - intros n Hn. unfold tally in *. by rewrite H1.
  - intros n Hn. unfold tally in *. by rewrite H2.
Qed.

Lemma inv_moves m m' c t i req p p' s' : inv m c t -> (m <= m')%nat -> t0 <= t -> requests c !! i = Some (req, p) ->
  round_trip t req p (shared c) = (p', s') -> (count (under_way ip) (<[i := (req, p')]> (requests c)) <= m')%nat ->
  inv m' (Server s' (<[i := (req, p')]> (requests c))) t.
Proof.
  intros Hinv Hm Ht Hi Hr Hpeak. destruct (decide (_get_client_ip req = ip)) as [Hip|Hne].
  - destruct p; try (by eapply (inv_quiet m m' c t i)); [by eapply (inv_attempting m)|by eapply (inv_looking m)|by eapply (inv_recording m)].
  - destruct (round_trip_other t req p (shared c) ip Hne) as [H1 H2]. rewrite Hr in H1, H2. by eapply (inv_foreign m).
Qed.

Lemma inv_answers m m' c t i req o : inv m c t -> (m <= m')%nat -> requests c !! i = Some (req, Handling) ->
  inv m' (Server (shared c) (<[i := (req, answered req o)]> (requests c))) t.
Proof.
  intros Hinv Hm Hi. destruct (decide (_get_client_ip req = ip)) as [Hip|Hne]; [|by apply (inv_foreign m m' c t i req Handling)].
  assert (sane (req, answered req o)) as Hsane.
  { intros _. cbn [fst snd]. unfold answered. destruct o as [resp|e]; [|done]. by destruct (to_record req resp) eqn:E. }
  apply (inv_step m m' c t i req Handling); try done.
  - unfold recorded. cbn [fst snd]. rewrite andb_false_r. unfold answered, to_record, login_of. destruct o as [resp|e]; [|by rewrite andb_false_r].
    destruct (str_in _ _); [|by rewrite !andb_false_r]. cbn [andb]. destruct (status_code resp =? 401) eqn:E; [by rewrite andb_false_r|by rewrite E, andb_false_r].
  - unfold under_way. cbn [fst snd]. rewrite andb_true_r. by intros [? _]%andb_true_iff.
  - unfold admitted. cbn [fst snd]. rewrite andb_true_r. by intros [? _]%andb_true_iff.
Qed.

Lemma inv_arrives m m' c t req : inv m c t -> (m <= m')%nat -> inv m' (Server (shared c) (requests c ++ [(req, arrive req)])) t.
Proof.
  intros [Hf (n & Ha & Hn) Hb Hs] Hm.
  assert (recorded (req, arrive req) = false /\ admitted (req, arrive req) = false /\ under_way ip (req, arrive req) = false /\ sane (req, arrive req))
    as (F1 & F2 & F3 & F4).
  { unfold recorded, admitted, under_way, sane, arrive, login_of. cbn [fst snd].
    destruct (str_in (path req) login_paths) eqn:E; [apply login_path_cases in E as [-> ->]|rewrite !andb_false_r]; cbn [andb].
    - destruct (String.eqb (path req) "/v1/auth/register" && _); cbn iota; by rewrite !andb_false_r.
    - split_and!; try done. by repeat case_match. }
  assert (forall f, f (req, arrive req) = false -> count f (requests c ++ [(req, arrive req)]) = count f (requests c)) as Hcount.
  { intros f E. rewrite count_app. unfold count at 2. cbn. rewrite E. cbn. lia. }
  split; cbn [requests shared]; rewrite ?(Hcount recorded F1), ?(Hcount admitted F2), ?(Hcount _ F3); [done|by exists n|lia|].
  apply Forall_app. split; [done|by repeat constructor].
Qed.

(** What is not a request of the middleware leaves the client's counters. *)
Definition leaves_counters (e : Z * event R) : Prop :=
  match e.2 with
  | Other f => forall s k, k = auth_fail_key ip \/ k = auth_key ip -> view (rds (f s)) e.1 k = view (rds s) e.1 k
  | _ => True
  end.

Lemma inv_happen m c t now e : inv m c t -> t <= now -> t0 <= t -> now < t0 + 60 -> leaves_counters (now, e) ->
  inv (Nat.max m (count (under_way ip) (requests (happen now e c)))) (happen now e c) now.
Proof.
  intros Hinv Ht Ht0 Hnow Hleave. set (m' := Nat.max _ _). assert (m <= m')%nat as Hm by lia.
  assert (count (under_way ip) (requests (happen now e c)) <= m')%nat as Hpeak by lia. clearbody m'. destruct c as [sh rqs].
  assert (inv m (Server sh rqs) now) as Hinv' by (by apply (inv_later m (Server sh rqs) t sh now m)).
  assert (inv m' (Server sh rqs) now) as Hstay by (by apply (inv_later m (Server sh rqs) t sh now m')).
  destruct e as [req|i|i o|f]; cbn [happen requests shared] in *.
  - by apply (inv_arrives m m' (Server sh rqs)).
  - destruct (rqs !! i) as [[req p]|] eqn:Hi; [|done]. destruct (round_trip now req p sh) as [p' s'] eqn:Hr.
    apply (inv_moves m m' (Server sh rqs) now i req p); try done. lia.
  - destruct (rqs !! i) as [[req p]|] eqn:Hi; [|done]. destruct p; try done. by apply (inv_answers m m' (Server sh rqs) now).
  - apply (inv_later m (Server sh rqs) t); try done; apply Hleave; auto.
Qed.

Lemma inv_happens events : forall m c t, inv m c t -> t0 <= t -> timely t (t0 + 60) events -> Forall leaves_counters events ->
  exists t', inv (Nat.max m (most_under_way ip events c)) (happens events c) t'.
Proof.
  induction events as [|[now e] events IH]; intros m c t Hinv Ht0 Ht Hl; cbn [happens most_under_way].
  { exists t. destruct Hinv as [Hf Ha Hb Hs]. split; [done..|lia|done]. }
  destruct Ht as (Ht & Hnow & Hrest). apply Forall_cons in Hl as [Hl Hls].
  pose proof (inv_happen m c t now e Hinv Ht Ht0 Hnow Hl) as Hnext.
  destruct (IH _ _ now Hnext ltac:(lia) Hrest Hls) as (t' & [Hf Ha Hb Hs]). exists t'. split; [done..| |done].
  assert (forall l c, count (under_way ip) (requests c) <= most_under_way ip l c)%nat as Hmost by (intros [|[? ?] ?] ?; cbn; lia).
  specialize (Hmost events (happen now e c)). lia.
Qed.
End client.

(** [C1] Brute force is bounded, however the round trips of the requests of all
    clients interleave, with everything else that uses Redis and leaves the two
    counters of the client alone.  Within sixty seconds from an instant at which
    these counters are clear and no request of the client is under way, at most
    twenty logins of the client are answered 401 by a handler, and at most four
    more than were ever under way at the same time between their look at the
    failures and their record: five, when the client sends one after the other. *)
Theorem failed_logins_bounded ip t0 events c :
  view (rds (shared c)) t0 (auth_fail_key ip) = None -> view (rds (shared c)) t0 (auth_key ip) = None ->
  Forall (fun x => _get_client_ip x.1 <> ip) (requests c) ->
  timely t0 (t0 + 60) events -> Forall (leaves_counters ip) events ->
  (count (failed_login ip) (requests (happens events c)) <= Nat.min 20 (4 + most_under_way ip events c))%nat.
Proof.
  intros Hf Ha Hc Ht Hl.
  assert (forall f, (forall req p, login_of ip req = false -> f (req, p) = false) -> count f (requests c) = 0%nat) as Hnone.
  { intros f Hfl. apply count_none. eapply Forall_impl; [exact Hc|]. intros [req p] Hne. apply Hfl. unfold login_of. cbn in Hne.
    by rewrite (proj2 (String.eqb_neq _ _) Hne). }
  assert (inv ip t0 0 c t0) as Hinv.
  { split; rewrite ?(Hnone (recorded ip)), ?(Hnone (admitted ip)), ?(Hnone (under_way ip));
      try (intros req p Hlog; by destruct (login_flags ip req p Hlog) as (? & ? & ?)); [done|exists 0%nat; by split|lia|].
    eapply Forall_impl; [exact Hc|]. by intros [req p] Hne Hip. }
  destruct (inv_happens ip t0 events 0 c t0 Hinv ltac:(lia) Ht Hl) as (t' & [_ (n & _ & Hn) Hb _]).
  assert (forall x, failed_login ip x = true -> recorded ip x = true /\ admitted ip x = true) as Hfr.
  { intros [req p]. unfold failed_login, recorded, admitted. cbn [fst snd]. intros [-> Hp]%andb_true_iff. by destruct p as [| | | | | | | |[]]. }
  pose proof (count_le (failed_login ip) (recorded ip) (requests (happens events c)) (fun x _ Hx => proj1 (Hfr x Hx))).
  pose proof (count_le (failed_login ip) (admitted ip) (requests (happens events c)) (fun x _ Hx => proj2 (Hfr x Hx))). lia.
Qed.
End facts.

(** ** Examples *)

Definition wrong_login (ip : string) : request := Request "/v1/auth/login" "POST" [("x-forwarded-for", ip)] None.
Definition refused_401 : res exn response := Ok (Response 401 PNone []).

(** Seven logins that the handler refuses, one after the other: request [i]
    arrives at [t] and has made all its round trips before the next one. *)
Definition one_by_one (ip : string) (n : nat) (t : Z) : list (Z * event rmap) :=
  concat (map (fun i => (t, Arrives (wrong_login ip)) :: replicate 3 (t, Moves i) ++ [(t, Answers i refused_401)] ++ replicate 2 (t, Moves i)) (seq 0 n)).

(** [n] logins, all before the first answer. *)
Definition all_at_once (ip : string) (n : nat) (t : Z) : list (Z * event rmap) :=
  let each f := map f (seq 0 n) in
  each (fun _ => (t, Arrives (wrong_login ip))) ++ concat (replicate 3 (each (fun i => (t, Moves i)))) ++
  each (fun i => (t, Answers i refused_401)) ++ concat (replicate 2 (each (fun i => (t, Moves i)))).

Definition idle : server rmap := Server (Mw ∅ []) [].
Definition statuses (c : server rmap) : list Z :=
  map (fun x => match x.2 with Done (Ok r) => status_code r | _ => 0 end) (requests c).

(** Five of seven get to the handler; of thirty at once, twenty do. *)
Example attempts_one_by_one :
  statuses (happens (one_by_one "10.0.0.1" 7 0) idle) = [401; 401; 401; 401; 401; 429; 429] /\
  most_under_way "10.0.0.1" (one_by_one "10.0.0.1" 7 0) idle = 1%nat.
Proof. split; vm_compute; reflexivity. Qed.
Example attempts_at_once :
  count (failed_login "10.0.0.1") (requests (happens (all_at_once "10.0.0.1" 12 0) idle)) = 12%nat /\
  count (failed_login "10.0.0.1") (requests (happens (all_at_once "10.0.0.1" 30 0) idle)) = 20%nat.
Proof. split; vm_compute; reflexivity. Qed.

Lemma failed_logins_bounded_witness :
  statuses (happens (one_by_one "10.0.0.1" 7 0) idle) = [401; 401; 401; 401; 401; 429; 429] /\
  (count (failed_login "10.0.0.1") (requests (happens (one_by_one "10.0.0.1" 7 0) idle)) <=
   Nat.min 20 (4 + most_under_way "10.0.0.1" (one_by_one "10.0.0.1" 7 0) idle))%nat.
Proof.
  split; [vm_compute; reflexivity|].
  apply (failed_logins_bounded "10.0.0.1" 0); [vm_compute; reflexivity..|constructor|cbn; lia|repeat constructor].
Defined.

(** The middleware and the dependency do not agree on who the client is: with
    [X-Real-IP] set by a proxy, the failures are recorded for the client and
    looked up for the proxy, so the dependency lets a limited client through. *)
Example dependency_misses_real_ip :
  let req := Request "/v1/auth/login" "POST" [("x-real-ip", "10.0.0.1")] (Some "192.168.0.1") in
  let login (s : mw rmap) := (dispatch req (mret (Response 401 PNone [])) 0 0 s).2 in
  let s := login (login (login (login (login (Mw ∅ []))))) in
  (dispatch req (mret (Response 401 PNone [])) 5 5 s).1 = Ok (_rate_limit_response 5 "1 minute" 60) /\
  (check_auth_rate_limit 5 req s).1 = Ok tt.
Proof. split; vm_compute; reflexivity. Qed.
