(* ===== verification/Billing.v ===== *)
(** * Usage limits of accounts

    [middleware/billing.py]: the per-minute rate and concurrency limits, the
    daily compute budget, and the middleware that enforces the monthly quota.
    Redis enters through the interface of [Redis]; the clock and the handler
    are arguments.  A float is a rational: rounding of CPU seconds is not
    modelled. *)

From S2P Require Import Prelude Redis.
From Stdlib Require Import QArith.

Open Scope Z_scope.

Definition EXECUTIONS_PER_MINUTE : list (string * Z) :=
  [("trial", 100); ("pro", 100); ("enterprise", 300); ("dedicated", 500)].

Definition MAX_CONCURRENT : list (string * Z) :=
  [("trial", 10); ("pro", 15); ("enterprise", 50); ("dedicated", 100)].

Definition DAILY_COMPUTE_BUDGETS : list (string * Z) :=
  [("trial", 3600); ("pro", 14400); ("enterprise", 86400); ("dedicated", 345600)].

Definition DAILY_EXEC_LIMITS : list (string * Z) :=
  [("trial", 5000); ("pro", 10000); ("enterprise", 50000); ("dedicated", -1)].

Definition TIER_LIMITS : list (string * Z) :=
  [("trial", 125000); ("pro", 250000); ("enterprise", 1000000); ("dedicated", -1);
   ("trial-agent", 125000); ("pro-agent", 250000); ("enterprise-agent", 1000000); ("dedicated-agent", -1)].

Definition DEFAULT_LIMIT : Z := 125000.

(** The tier whose limits an agent tier shares. *)
Definition base_tier (tier : string) : string :=
  if ends_with "-agent" tier then str_replace "-agent" "" tier else tier.

(** [TABLE.get(base_tier, TABLE["trial"])] *)
Definition tier_entry (table : list (string * Z)) (tier : string) : Z :=
  dict_getd (base_tier tier) (dict_getd "trial" 0 table) table.

Arguments tier_entry : simpl never.

(** What the code reads from [datetime.now(UTC)]: the whole seconds since the
    epoch, the year and month, and the date as [%Y-%m-%d]. *)
Record clock := Clock { ts : Z; year : Z; month : Z; date_key : string }.

(** [getattr]s of the account object; [None] is a missing attribute or [None]. *)
Record account := Account { acc_id : string; effective_tier : option string; tier_attr : option string }.

Definition account_tier (a : account) : string :=
  match effective_tier a with
  | Some ((String _ _) as t) => t
  | _ => default "trial" (tier_attr a)
  end.

Inductive exn :=
| HTTPException (status : Z) (code : string)
| OtherException.

(** Tasks started with [asyncio.create_task]. *)
Inductive task :=
| ReleaseConcurrency (account_id : string)
| QuotaExceeded (account_id : string) (usage limit : Z) (tier : string).

(** Redis, the tasks started, and the billing checks counted per namespace. *)
Record st (R : Type) := St { rds : R; tasks : list task; billing_checks : list (string * string) }.
Arguments St {R}.
Arguments rds {R}.
Arguments tasks {R}.
Arguments billing_checks {R}.

Definition minute_key (account_id : string) (now : clock) : string :=
  "execrate:" +:+ account_id +:+ ":" +:+ str_of_Z (ts now / 60).
Definition concurrent_key (account_id : string) : string := "concurrent:" +:+ account_id.
Definition compute_key (account_id : string) (now : clock) : string :=
  "compute:daily:" +:+ account_id +:+ ":" +:+ date_key now.
Definition exec_key (account_id : string) (now : clock) : string :=
  "execcount:daily:" +:+ account_id +:+ ":" +:+ date_key now.
Definition _get_usage_key (account_id : string) (now : clock) : string :=
  "usage:" +:+ account_id +:+ ":" +:+ str_of_Z (year now) +:+ ":" +:+ str_of_Z (month now).
Arguments minute_key : simpl never.
Arguments concurrent_key : simpl never.
Arguments compute_key : simpl never.
Arguments exec_key : simpl never.
Arguments _get_usage_key : simpl never.

(** [now + timedelta(days=62)] *)
Definition _end_of_next_month (now : clock) : Z := ts now + 62 * 86400.

(** What [track_compute] logs about the budget. *)
Inductive budget_log := BudgetExceeded | BudgetWarning | NoBudgetLog.

Record response := Response { status_code : Z; resp_body : pyval }.

(** What the middleware reads from the request and the settings. *)
Record request := Request {
  billing_enabled : bool;
  endpoint_type : option string;
  req_account : option account;
  namespace_name : option string
}.

(** The account of a request to a run endpoint, if authentication left one. *)
Definition run_account (req : request) : option account :=
  if bool_decide (endpoint_type req = Some "run") then req_account req else None.

Section billing.
Context {R : Type} `{RedisOps R}.

Abbreviation M := (stm (st R) exn).

Definition set_rds (r : R) (s : st R) : st R := St r (tasks s) (billing_checks s).

(** A command that may fail with [ResponseError]. *)
Definition cmd {A} (f : R -> option A * R) : M A := fun s =>
  let '(o, r) := f (rds s) in
  (match o with Some a => Ok a | None => Err OtherException end, set_rds r s).
(** A command that does not fail. *)
Definition cmd_ (f : R -> R) : M unit := fun s => (Ok tt, set_rds (f (rds s)) s).

(** [int(await redis.get(key))], [None] when there is no such key. *)
Definition redis_get_int (t : Z) (key : string) : M (option Z) := fun s =>
  (match get_int (rds s) t key with Some o => Ok o | None => Err OtherException end, s).

(** [current and int(current) >= limit] *)
Definition at_least (limit : Z) (current : option Z) : bool :=
  match current with Some c => limit <=? c | None => false end.

(** The reads of [check_execution_rate]. *)
Definition execution_rate_checks (now : clock) (account_id tier : string) : M unit :=
  current_rate ← redis_get_int (ts now) (minute_key account_id now);
  (if at_least (tier_entry EXECUTIONS_PER_MINUTE tier) current_rate
   then raise (HTTPException 429 "EXECUTION_RATE_EXCEEDED") else mret tt);;
  current_concurrent ← redis_get_int (ts now) (concurrent_key account_id);
  if at_least (tier_entry MAX_CONCURRENT tier) current_concurrent
  then raise (HTTPException 429 "CONCURRENCY_LIMIT_EXCEEDED") else mret tt.

(** Its pipeline: all four commands run, then the first failure is raised. *)
Definition execution_rate_pipe (now : clock) (account_id : string) : M unit := fun s =>
  let '(a, r1) := incr (rds s) (ts now) (minute_key account_id now) in
  let r2 := expire r1 (ts now) (minute_key account_id now) 120 in
  let '(b, r3) := incr r2 (ts now) (concurrent_key account_id) in
  let r4 := expire r3 (ts now) (concurrent_key account_id) 600 in
  (match a, b with Some _, Some _ => Ok tt | _, _ => Err OtherException end, set_rds r4 s).

Definition check_execution_rate (now : clock) (account_id tier : string) : M unit :=
  execution_rate_checks now account_id tier;; execution_rate_pipe now account_id.

(** [release_concurrency]: any exception is dropped. *)
Definition release_concurrency (t : Z) (account_id : string) : M unit :=
  try_except
    (current ← cmd (fun r => decr r t (concurrent_key account_id));
     if current <? 0 then cmd_ (fun r => set_ex r t (concurrent_key account_id) 0 600) else mret tt)
    (fun _ => Some (mret tt)).

Definition check_daily_budget (now : clock) (account_id tier : string) : M unit :=
  let budget := tier_entry DAILY_COMPUTE_BUDGETS tier in
  let daily_limit := tier_entry DAILY_EXEC_LIMITS tier in
  s ← getS;
  let current_compute := get_float (rds s) (ts now) (compute_key account_id now) in
  (if match current_compute with Some c => Qle_bool (inject_Z budget) c | None => false end
   then raise (HTTPException 429 "DAILY_COMPUTE_BUDGET_EXCEEDED") else mret tt);;
  if daily_limit =? -1 then mret tt
  else
    current_execs ← redis_get_int (ts now) (exec_key account_id now);
    if at_least daily_limit current_execs
    then raise (HTTPException 429 "DAILY_EXEC_LIMIT_EXCEEDED") else mret tt.

Definition track_compute (now : clock) (account_id : string) (cpu_seconds : Q) (tier : string) : M budget_log :=
  let budget := tier_entry DAILY_COMPUTE_BUDGETS tier in
  let compute := compute_key account_id now in
  let execs := exec_key account_id now in
  current ← cmd (fun r => let '(q, r') := incrbyfloat r (ts now) compute cpu_seconds in (Some q, r'));
  cmd (fun r => incr r (ts now) execs);;
  s ← getS;
  (if ttl (rds s) (ts now) compute =? -1
   then cmd_ (fun r => expire r (ts now) compute (86400 * 2));;
        cmd_ (fun r => expire r (ts now) execs (86400 * 2))
   else mret tt);;
  mret (if Qle_bool (inject_Z budget) current then BudgetExceeded
        else if Qle_bool (inject_Z budget * (8 # 10)) current then BudgetWarning
        else NoBudgetLog).

(** (current usage, limit) *)
Definition _check_quota (now : clock) (a : account) : M (Z * Z) :=
  let limit := dict_getd (account_tier a) DEFAULT_LIMIT TIER_LIMITS in
  current_usage ← redis_get_int (ts now) (_get_usage_key (acc_id a) now);
  mret (default 0 current_usage, limit).

Definition _increment_usage (now : clock) (a : account) : M Z :=
  let month_key := _get_usage_key (acc_id a) now in
  new_count ← cmd (fun r => incr r (ts now) month_key);
  (if new_count =? 1
   then cmd_ (fun r => expireat r (ts now) month_key (_end_of_next_month now)) else mret tt);;
  mret new_count.

Definition start_task (t : task) : M unit := modS (fun s => St (rds s) (tasks s ++ [t]) (billing_checks s)).
Definition record_billing_check (ns_name result : string) : M unit :=
  modS (fun s => St (rds s) (tasks s) (billing_checks s ++ [(ns_name, result)])).

(** [try: m except HTTPException: raise except Exception: log] *)
Definition only_http (m : M unit) : M unit :=
  try_except m (fun e => match e with HTTPException _ _ => None | OtherException => Some (mret tt) end).

Definition quota_check (now : clock) (ns_name : string) (a : account) : M unit :=
  ul ← _check_quota now a;
  let '(usage, limit) := ul : Z * Z in
  if negb (limit =? -1) && (limit <=? usage) then
    record_billing_check ns_name "blocked";;
    start_task (QuotaExceeded (acc_id a) usage limit (account_tier a));;
    raise (HTTPException 429 "QUOTA_EXCEEDED")
  else mret tt.

(** [try: m finally: f] *)
Definition finally_do {A} (m : M A) (f : M unit) : M A := fun s =>
  let '(o, s1) := m s in
  match f s1 with
  | (Ok _, s2) => (o, s2)
  | (Err e, s2) => (Err e, s2)
  end.

(** [dispatch]: the checks read the clock at [now], the count of a successful
    execution at [later]. *)
Definition dispatch (req : request) (call_next : M response) (now later : clock) : M response :=
  if negb (billing_enabled req) then call_next
  else match run_account req with
  | Some a =>
      let ns_name := default "unknown" (namespace_name req) in
      only_http (quota_check now ns_name a);;
      only_http (check_execution_rate now (acc_id a) (account_tier a));;
      record_billing_check ns_name "allowed";;
      resp ← finally_do call_next (start_task (ReleaseConcurrency (acc_id a)));
      (if status_code resp <? 400
       then try_except (_increment_usage later a;; mret tt) (fun _ => Some (mret tt))
       else mret tt);;
      mret resp
  | None => call_next
  end.

(** [get_account_usage]: (year, month, usage), and whether the count could be
    read. *)
Definition get_account_usage (now : clock) (account_id : string) (s : st R) : Z * Z * Z * bool :=
  match (redis_get_int (ts now) (_get_usage_key account_id now) s).1 with
  | Ok current_usage => (year now, month now, default 0 current_usage, true)
  | Err _ => (year now, month now, 0, false)
  end.

Definition reset_account_usage (now : clock) (account_id : string) : M bool :=
  cmd_ (fun r => delete_key r (ts now) (_get_usage_key account_id now));; mret true.
End billing.

(** ** Requests served one after the other *)

(** A request with the handler that would answer it and the clocks the
    middleware reads before and after. *)
Record arrival (R : Type) := Arrival {
  a_req : request;
  a_handler : stm (st R) exn response;
  a_now : clock;
  a_later : clock
}.
Arguments Arrival {R}.
Arguments a_req {R}.
Arguments a_handler {R}.
Arguments a_now {R}.
Arguments a_later {R}.

Fixpoint serve {R} `{RedisOps R} (arrivals : list (arrival R)) (s : st R)
    : list (arrival R * res exn response) * st R :=
  match arrivals with
  | [] => ([], s)
  | a :: rest =>
      let '(o, s1) := dispatch (a_req a) (a_handler a) (a_now a) (a_later a) s in
      let '(os, s2) := serve rest s1 in
      ((a, o) :: os, s2)
  end.

(** The account whose quota pays for the request. *)
Definition metered_account (req : request) : option account :=
  if billing_enabled req then run_account req else None.

Definition quota_limit (a : account) : Z := dict_getd (account_tier a) DEFAULT_LIMIT TIER_LIMITS.

(** The request was a successful execution of account [id]. *)
Definition executed {R} (id : string) (x : arrival R * res exn response) : bool :=
  match metered_account (a_req x.1), x.2 with
  | Some a, Ok resp => String.eqb (acc_id a) id && (status_code resp <? 400)
  | _, _ => false
  end.

(** ** Frames *)

Section facts.
Context {R : Type} `{Redis R}.
#[local] Set Default Proof Using "Type*".

Abbreviation M := (stm (st R) exn).
Abbreviation keeps := (keeps_at rds).

Lemma keeps_redis_get_int t k t' k' : keeps t k (redis_get_int t' k').
Proof. by intros s. Qed.
Lemma keeps_start_task t k x : keeps t k (start_task x : M unit).
Proof. by intros s. Qed.
Lemma keeps_billing_record t k a b : keeps t k (record_billing_check a b : M unit).
Proof. by intros s. Qed.

Lemma keeps_incr t k k' : k <> k' -> keeps t k' (cmd (fun r => incr r t k) : M Z).
Proof.
  intros Hk s. unfold cmd. pose proof (view_incr_ne (rds s) t k k' Hk) as Hv.
  by destruct (incr (rds s) t k) as [[z|] r].
Qed.

Lemma keeps_expireat t k d k' : k <> k' -> keeps t k' (cmd_ (fun r => expireat r t k d) : M unit).
Proof.
  intros Hk s. cbn. rewrite view_expireat. unfold upd. apply String.eqb_neq in Hk. by rewrite Hk.
Qed.

Lemma keeps_pipe now id k :
  minute_key id now <> k -> concurrent_key id <> k -> keeps (ts now) k (execution_rate_pipe now id : M unit).
Proof.
  intros Hm Hc s. unfold execution_rate_pipe.
  pose proof (view_incr_ne (rds s) (ts now) _ k Hm) as H1.
  destruct (incr (rds s) (ts now) (minute_key id now)) as [o1 r1]. cbn in H1.
  pose proof (view_incr_ne (expire r1 (ts now) (minute_key id now) 120) (ts now) _ k Hc) as H2.
  destruct (incr (expire r1 (ts now) (minute_key id now) 120) (ts now) (concurrent_key id)) as [o2 r3].
  cbn in *. by rewrite view_expire_ne, H2, view_expire_ne.
Qed.

#[local] Hint Resolve keeps_redis_get_int keeps_start_task keeps_billing_record keeps_incr keeps_expireat keeps_pipe : keeps.

Lemma minute_key_usage id now id' now' : minute_key id now <> _get_usage_key id' now'.
Proof. done. Qed.
Lemma concurrent_key_usage id id' now' : concurrent_key id <> _get_usage_key id' now'.
Proof. done. Qed.
Lemma minute_key_concurrent id now id' : minute_key id now <> concurrent_key id'.
Proof. done. Qed.
#[local] Hint Resolve minute_key_usage concurrent_key_usage minute_key_concurrent : keeps.

(** In one month, accounts have counters of their own. *)
Lemma usage_key_inj id id' now now' :
  year now = year now' -> month now = month now' ->
  _get_usage_key id now = _get_usage_key id' now' -> id = id'.
Proof.
  intros Hy Hm. unfold _get_usage_key. rewrite Hy, Hm. cbn. intros Hk. simplify_eq.
  revert Hk. generalize (":" +:+ str_of_Z (year now') +:+ ":" +:+ str_of_Z (month now')).
  intros u Hu. apply (f_equal (fun x => String.length x)) in Hu as Hlen. rewrite !str_length_app in Hlen.
  apply (f_equal (str_take (String.length id))) in Hu. rewrite str_take_app_length in Hu.
  replace (String.length id) with (String.length id') in Hu by lia. by rewrite str_take_app_length in Hu.
Qed.

Lemma keeps_check_execution_rate now id tier id' now' :
  keeps (ts now) (_get_usage_key id' now') (check_execution_rate now id tier : M unit).
Proof. unfold check_execution_rate, execution_rate_checks. eauto 8 with keeps. Qed.

Lemma keeps_quota_check now ns a k t : keeps t k (quota_check now ns a : M unit).
Proof.
  unfold quota_check, _check_quota. apply keeps_bind; [eauto with keeps|].
  intros [u l]. eauto 6 with keeps.
Qed.

Lemma keeps_only_http t k m : keeps t k m -> keeps t k (only_http m : M unit).
Proof. intros Hm. apply keeps_try; [done|]. intros [] k' [= <-]. apply keeps_ret. Qed.

Lemma keeps_finally {A} t k (m : M A) f : keeps t k m -> keeps t k f -> keeps t k (finally_do m f).
Proof.
  intros Hm Hf s. unfold finally_do. specialize (Hm s). destruct (m s) as [o s1]. specialize (Hf s1).
  destruct (f s1) as [[?|?] ?]; cbn in *; congruence.
Qed.

(** ** The monthly quota *)

(** The counter [k] stands at [u] at instant [t] and lives until [t1]. *)
Definition counted (k : string) (t1 : Z) (u : nat) (s : st R) (t : Z) : Prop :=
  match u with
  | O => view (rds s) t k = None
  | S _ => exists d, t1 <= d /\ view (rds s) t k = Some (RInt (Z.of_nat u), Some d)
  end.

Lemma bill_counted_view k t1 u s t s' t' :
  counted k t1 u s t -> t <= t' -> t' < t1 -> view (rds s') t' k = view (rds s) t' k -> counted k t1 u s' t'.
Proof.
  intros Hc Ht Ht' Hv. unfold counted in *. rewrite Hv, (view_later _ t t') by done.
  destruct u; [by rewrite Hc|]. destruct Hc as (d & Hd & Hc). exists d. split; [done|].
  rewrite Hc. cbn. by rewrite (proj2 (Z.ltb_lt t' d)) by lia.
Qed.

Lemma counted_get k t1 u s t :
  counted k t1 u s t -> get_int (rds s) t k = Some (match u with O => None | S _ => Some (Z.of_nat u) end).
Proof. unfold counted, get_int. destruct u; [by intros ->|by intros (d & _ & ->)]. Qed.

(** The check refuses exactly when the counter has reached the limit. *)
Lemma quota_check_pass now ns a t1 u s s' :
  counted (_get_usage_key (acc_id a) now) t1 u s (ts now) ->
  only_http (quota_check now ns a) s = (Ok tt, s') ->
  s' = s /\ (quota_limit a = -1 \/ Z.of_nat u < quota_limit a).
Proof.
  intros Hc. unfold only_http, try_except, quota_check, _check_quota, redis_get_int, mbind, stm_bind.
  rewrite (counted_get _ _ _ _ _ Hc). cbn [mret stm_ret]. fold (quota_limit a).
  replace (default 0 match u with O => None | S _ => Some (Z.of_nat u) end) with (Z.of_nat u) by by destruct u.
  destruct (negb (quota_limit a =? -1) && (quota_limit a <=? Z.of_nat u)) eqn:E; [done|].
  intros [= <-]. split; [done|]. apply andb_false_iff in E as [E|E]; bool_to_prop; [by left|by right].
Qed.

Lemma increment_counts now a t1 u s :
  counted (_get_usage_key (acc_id a) now) t1 u s (ts now) -> ts now < t1 -> t1 <= _end_of_next_month now ->
  counted (_get_usage_key (acc_id a) now) t1 (S u) (_increment_usage now a s).2 (ts now) /\
  (_increment_usage now a s).1 = Ok (Z.of_nat (S u)).
Proof.
  intros Hc Ht Ht1. unfold _increment_usage, cmd, mbind, stm_bind. set (k := _get_usage_key _ _) in *.
  destruct u as [|u].
  - destruct (view_incr_new _ _ _ Hc) as [H1 H2].
    destruct (incr (rds s) (ts now) k) as [o r]. cbn in H1, H2. subst o. cbn. split; [|done].
    exists (_end_of_next_month now). split; [done|]. cbn.
    rewrite view_expireat, H2. unfold upd. rewrite String.eqb_refl. cbn.
    by rewrite (proj2 (Z.ltb_lt (ts now) (_end_of_next_month now))) by lia.
  - destruct Hc as (d & Hd & Hc). destruct (view_incr_int _ _ _ _ _ Hc) as [H1 H2].
    destruct (incr (rds s) (ts now) k) as [o r]. cbn in H1, H2. subst o. cbn [rds set_rds].
    destruct (Z.eqb_spec (Z.of_nat (S u) + 1) 1); [lia|]. cbn [snd fst mret stm_ret].
    split; [|cbn; do 2 f_equal; lia]. exists d. split; [done|]. etrans; [exact H2|]. do 3 f_equal. lia.
Qed.

Lemma keeps_increment now a k :
  _get_usage_key (acc_id a) now <> k -> keeps (ts now) k (_increment_usage now a : M Z).
Proof. intros Hk. unfold _increment_usage. eauto 8 with keeps. Qed.

(** The three parts of [dispatch] for a metered request. *)
Definition before (now : clock) (req : request) (a : account) : M unit :=
  only_http (quota_check now (default "unknown" (namespace_name req)) a);;
  only_http (check_execution_rate now (acc_id a) (account_tier a));;
  record_billing_check (default "unknown" (namespace_name req)) "allowed".

Definition after (later : clock) (a : account) (resp : response) : M response :=
  (if status_code resp <? 400
   then try_except (_increment_usage later a;; mret tt) (fun _ => Some (mret tt))
   else mret tt);;
  mret resp.

Lemma dispatch_metered req h now later a s :
  metered_account req = Some a ->
  dispatch req h now later s =
  (before now req a ≫= fun _ => finally_do h (start_task (ReleaseConcurrency (acc_id a))) ≫= after later a) s.
Proof.
  unfold metered_account, dispatch, before. intros Hm. destruct (billing_enabled req); [|done]. cbn [negb].
  rewrite Hm. unfold mbind, stm_bind.
  destruct (only_http _ s) as [[] s1]; [|done]. by destruct (only_http _ s1) as [[] s2].
Qed.

Lemma dispatch_unmetered req h now later : metered_account req = None -> dispatch req h now later = (h : M response).
Proof.
  unfold metered_account, dispatch. destruct (billing_enabled req); [|done]. cbn [negb].
  by intros ->.
Qed.

Lemma keeps_before now req a id now' : keeps (ts now) (_get_usage_key id now') (before now req a).
Proof.
  unfold before. apply keeps_bind; [apply keeps_only_http, keeps_quota_check|intros _].
  apply keeps_bind; [apply keeps_only_http, keeps_check_execution_rate|eauto with keeps].
Qed.

Lemma before_pass now req a t1 u s s' :
  counted (_get_usage_key (acc_id a) now) t1 u s (ts now) -> before now req a s = (Ok tt, s') ->
  quota_limit a = -1 \/ Z.of_nat u < quota_limit a.
Proof.
  intros Hc. unfold before, mbind, stm_bind.
  destruct (only_http (quota_check _ _ _) s) as [[[]|] s1] eqn:E; [|done].
  intros _. by destruct (quota_check_pass _ _ _ _ _ _ _ Hc E).
Qed.

(** A request is in the month of [c0], its clocks in order and before [t1],
    which the expiry of a counter started then does not precede; its handler
    leaves the counter alone. *)
Definition in_month (c0 : clock) (k : string) (t1 : Z) (a : arrival R) : Prop :=
  (year (a_now a) = year c0 /\ month (a_now a) = month c0) /\
  (year (a_later a) = year c0 /\ month (a_later a) = month c0) /\
  ts (a_now a) <= ts (a_later a) /\ ts (a_later a) < t1 /\ t1 <= _end_of_next_month (a_later a) /\
  keeps (ts (a_later a)) k (a_handler a).

Lemma bill_after_counts c0 id t1 u s a acc resp o s' :
  in_month c0 (_get_usage_key id c0) t1 a -> metered_account (a_req a) = Some acc ->
  counted (_get_usage_key id c0) t1 u s (ts (a_later a)) ->
  after (a_later a) acc resp s = (o, s') ->
  counted (_get_usage_key id c0) t1 (u + if executed id (a, o) then 1 else 0)%nat s' (ts (a_later a)).
Proof.
  intros (_ & [Hy Hm] & _ & Ht1 & Hend & _) Hacc Hc. unfold after, mbind, stm_bind, executed.
  cbn [fst snd]. rewrite Hacc. destruct (status_code resp <? 400) eqn:Es.
  2:{ intros [= <- <-]. rewrite Es, andb_false_r, Nat.add_0_r. done. }
  destruct (String.eqb_spec (acc_id acc) id) as [<-|Hne].
  - assert (_get_usage_key (acc_id acc) c0 = _get_usage_key (acc_id acc) (a_later a)) as Hk
      by (unfold _get_usage_key; by rewrite Hy, Hm).
    rewrite Hk in *. destruct (increment_counts _ _ _ _ _ Hc Ht1 Hend) as [H1 H2].
    unfold try_except, stm_bind. destruct (_increment_usage (a_later a) acc s) as [o1 s1]. cbn in H1, H2. subst o1.
    intros [= <- <-]. rewrite Es. by replace (u + _)%nat with (S u) by (cbn; lia).
  - pose proof (keeps_increment (a_later a) acc (_get_usage_key id c0)) as Hk.
    unfold try_except, stm_bind. intros Hr.
    replace (match o with Ok _ => _ | Err _ => false end) with false by by destruct o.
    rewrite Nat.add_0_r. apply (bill_counted_view _ t1 u s (ts (a_later a))); [done|lia|lia|].
    rewrite <-(Hk ltac:(intros E; apply Hne; by eapply usage_key_inj) s).
    destruct (_increment_usage (a_later a) acc s) as [[?|?] s1];
      revert Hr; cbn; by intros [= <- <-].
Qed.

Lemma bill_dispatch_counts c0 id t1 u s t a o s' :
  in_month c0 (_get_usage_key id c0) t1 a -> t <= ts (a_now a) ->
  counted (_get_usage_key id c0) t1 u s t ->
  dispatch (a_req a) (a_handler a) (a_now a) (a_later a) s = (o, s') ->
  counted (_get_usage_key id c0) t1 (u + if executed id (a, o) then 1 else 0)%nat s' (ts (a_later a)) /\
  (executed id (a, o) = true ->
   exists acc, metered_account (a_req a) = Some acc /\ acc_id acc = id /\
     (quota_limit acc = -1 \/ Z.of_nat u < quota_limit acc)).
Proof.
  intros Him Ht Hc Hd. pose proof Him as ([Hy Hm] & _ & Hl & Ht1 & _ & Hh).
  set (k := _get_usage_key id c0) in *.
  destruct (metered_account (a_req a)) as [acc|] eqn:Em.
  2:{ rewrite dispatch_unmetered in Hd by done. pose proof (Hh s) as Hk. rewrite Hd in Hk.
      unfold executed. cbn [fst snd]. rewrite Em. split; [|done].
      rewrite Nat.add_0_r. by apply (bill_counted_view k t1 u s t); [|lia..|]. }
  rewrite (dispatch_metered _ _ _ _ acc) in Hd by done.
  pose proof (keeps_before (a_now a) (a_req a) acc id c0 s) as Hk. fold k in Hk.
  assert (counted k t1 u s (ts (a_now a))) as Hc0 by by apply (bill_counted_view k t1 u s t); [|lia..|].
  unfold mbind, stm_bind at 1 in Hd. destruct (before (a_now a) (a_req a) acc s) as [[[]|e] s1] eqn:Eb; cbn [snd] in Hk.
  2:{ simplify_eq. unfold executed. cbn [fst snd]. rewrite Em, Nat.add_0_r. split; [|done].
      apply (bill_counted_view k t1 u s' (ts (a_now a))); [|lia..|done]. by apply (bill_counted_view k t1 u s t); [|lia..|]. }
  assert (counted k t1 u s1 (ts (a_later a))) as Hc1.
  { apply (bill_counted_view k t1 u s1 (ts (a_now a))); [|lia..|done]. by apply (bill_counted_view k t1 u s t); [|lia..|]. }
  pose proof (keeps_finally (ts (a_later a)) k (a_handler a) (start_task (ReleaseConcurrency (acc_id acc)))
    Hh (keeps_start_task _ _ _) s1) as Hk2.
  unfold stm_bind in Hd. destruct (finally_do _ _ s1) as [[resp|e] s2]; cbn [snd] in Hk2.
  - split; [apply (bill_after_counts c0 id t1 u s2 a acc resp); [done..| |done];
            by apply (bill_counted_view k t1 u s1 (ts (a_later a))); [|lia..|]|].
    unfold executed. cbn [fst snd]. rewrite Em. destruct o; [|done].
    intros [Hid%String.eqb_eq _]%andb_true_iff. exists acc. split; [done|]. split; [done|]. subst id.
    apply (before_pass (a_now a) (a_req a) acc t1 u s s1); [|done].
    unfold k, _get_usage_key in Hc0 |- *. by rewrite Hy, Hm.
  - simplify_eq. unfold executed. cbn [fst snd]. rewrite Em, Nat.add_0_r. split; [|done].
    by apply (bill_counted_view k t1 u s1 (ts (a_later a))); [|lia..|].
Qed.

Fixpoint in_order (t : Z) (arrivals : list (arrival R)) : Prop :=
  match arrivals with
  | [] => True
  | a :: rest => t <= ts (a_now a) /\ in_order (ts (a_later a)) rest
  end.

(** Every request that account [id] pays for has the quota [limit]. *)
Definition same_limit (id : string) (limit : Z) (a : arrival R) : Prop :=
  forall acc, metered_account (a_req a) = Some acc -> acc_id acc = id -> quota_limit acc = limit.

(** The monthly quota holds: from a counter that stands at [u], requests
    served one after the other in that month, of this and of other accounts,
    never bring the number of successful executions of the account above its
    limit. *)
Theorem monthly_quota_bounded c0 id t1 limit arrivals u t s :
  counted (_get_usage_key id c0) t1 u s t -> limit <> -1 -> Z.of_nat u <= limit ->
  in_order t arrivals -> Forall (in_month c0 (_get_usage_key id c0) t1) arrivals ->
  Forall (same_limit id limit) arrivals ->
  Z.of_nat (u + length (filter (fun x => executed id x = true) (serve arrivals s).1)) <= limit.
Proof.
  revert u t s; induction arrivals as [|a rest IH]; intros u t s Hc Hl Hu; cbn [in_order serve].
  { intros _ _ _. cbn. lia. }
  intros [Ht Ho] [Hm Hms]%Forall_cons [Hs Hss]%Forall_cons.
  destruct (dispatch (a_req a) (a_handler a) (a_now a) (a_later a) s) as [o s1] eqn:Ed.
  destruct (bill_dispatch_counts _ _ _ _ _ _ _ _ _ Hm Ht Hc Ed) as [Hc1 Hx].
  assert (Z.of_nat (u + if executed id (a, o) then 1 else 0)%nat <= limit) as Hu1.
  { destruct (executed id (a, o)); [|lia]. destruct (Hx eq_refl) as (acc & H1 & H2 & H3).
    rewrite (Hs acc H1 H2) in H3. lia. }
  specialize (IH _ _ s1 Hc1 Hl Hu1 Ho Hms Hss). destruct (serve rest s1) as [os s2]. cbn [fst] in *.
  rewrite filter_cons. destruct (executed id (a, o)); destruct (decide _); cbn [length]; try lia; try done.
Qed.
End facts.

Definition run_request (id : string) : request :=
  Request true (Some "run") (Some (Account id None (Some "trial"))) (Some "ns").
Definition ok_run (id : string) (t : Z) : arrival rmap :=
  Arrival (run_request id) (mret (Response 200 PNone)) (Clock t 2026 1 "2026-01-05") (Clock (t + 1) 2026 1 "2026-01-05").

Lemma monthly_quota_bounded_witness :
  let run := serve (map (ok_run "a") [10; 20; 30]) (St (∅ : rmap) [] []) in
  map (fun x => executed "a" x) run.1 = [true; true; true] /\
  Z.of_nat (0 + length (filter (fun x => executed "a" x = true) run.1)) <= 125000.
Proof.
  split; [vm_compute; reflexivity|].
  apply (monthly_quota_bounded (Clock 0 2026 1 "2026-01-05") "a" (31 * 86400) 125000 _ 0 0);
    [vm_compute; reflexivity|lia|lia|cbn; lia| |].
  - repeat constructor; vm_compute; try done.
  - repeat constructor; intros acc [= <-] _; reflexivity.
Defined.

(** At the limit a run is refused and nothing is counted; a management request
    passes. *)
Example quota_bites :
  let r : rmap := <[ "usage:a:2026:1" := (RInt 125000, None) ]> ∅ in
  let s := St r [] [] in
  let c := Clock 0 2026 1 "2026-01-05" in
  (dispatch (run_request "a") (mret (Response 200 PNone)) c c s).1 = Err (HTTPException 429 "QUOTA_EXCEEDED") /\
  (dispatch (Request true (Some "create") (Some (Account "a" None None)) None) (mret (Response 200 PNone)) c c s).1
    = Ok (Response 200 PNone).
Proof. split; vm_compute; reflexivity. Qed.

(** ** Concurrency *)

Section concurrency.
Context {R : Type} `{Redis R} (id tier : string).
#[local] Set Default Proof Using "Type*".

(** The account's executions: the state, the time, how many run, and when the
    last one was admitted. *)
Record cstate := CState { c_st : st R; c_time : Z; c_running : nat; c_last : Z }.

(** One event: time passes (a run does not outlive the counter, which is kept
    for 600 seconds after each admission), an execution is admitted or refused,
    or one ends. *)
Inductive cstep : cstate -> cstate -> Prop :=
| step_tick s t n l t' :
    t <= t' -> ((0 < n)%nat -> t' < l + 600) -> cstep (CState s t n l) (CState s t' n l)
| step_admit s c n l s' :
    check_execution_rate c id tier s = (Ok tt, s') ->
    cstep (CState s (ts c) n l) (CState s' (ts c) (S n) (ts c))
| step_refuse s c n l code s' :
    check_execution_rate c id tier s = (Err (HTTPException 429 code), s') ->
    cstep (CState s (ts c) n l) (CState s' (ts c) n l)
| step_end s t n l :
    cstep (CState s t (S n) l) (CState (release_concurrency t id s).2 t n l).

(** The counter is the number of running executions. *)
Definition cinv (x : cstate) : Prop :=
  Z.of_nat (c_running x) <= tier_entry MAX_CONCURRENT tier /\
  match c_running x with
  | O => view (rds (c_st x)) (c_time x) (concurrent_key id) = None \/
         exists d, view (rds (c_st x)) (c_time x) (concurrent_key id) = Some (RInt 0, Some d)
  | S _ => c_time x < c_last x + 600 /\
      view (rds (c_st x)) (c_time x) (concurrent_key id) = Some (RInt (Z.of_nat (c_running x)), Some (c_last x + 600))
  end.

(** What a passed check says of the counter. *)
Lemma bill_checks_pass c s s' :
  execution_rate_checks c id tier s = (Ok tt, s') ->
  s' = s /\ exists o, get_int (rds s) (ts c) (concurrent_key id) = Some o /\
    at_least (tier_entry MAX_CONCURRENT tier) o = false.
Proof.
  unfold execution_rate_checks, redis_get_int, mbind, stm_bind.
  destruct (get_int (rds s) (ts c) (minute_key id c)) as [o1|]; [|done].
  destruct (at_least _ o1); [done|]. cbn [mret stm_ret].
  destruct (get_int (rds s) (ts c) (concurrent_key id)) as [o2|]; [|done].
  destruct (at_least _ o2) eqn:E; [done|]. intros [= <-]. eauto.
Qed.

Lemma checks_raise c s e s' : execution_rate_checks c id tier s = (Err e, s') -> s' = s.
Proof.
  unfold execution_rate_checks, redis_get_int, raise, mret, stm_ret, mbind, stm_bind.
  intros E. by repeat (case_match; simplify_eq/=).
Qed.

(** The pipeline puts the counter one up and its expiry at 600 seconds. *)
Lemma pipe_counts c s n s' :
  (view (rds s) (ts c) (concurrent_key id) = None /\ n = 0 \/
   exists d, view (rds s) (ts c) (concurrent_key id) = Some (RInt n, d)) ->
  execution_rate_pipe c id s = (Ok tt, s') ->
  view (rds s') (ts c) (concurrent_key id) = Some (RInt (n + 1), Some (ts c + 600)).
Proof.
  intros Hv. unfold execution_rate_pipe.
  pose proof (view_incr_ne (rds s) (ts c) _ _ (minute_key_concurrent id c id)) as H1.
  destruct (incr (rds s) (ts c) (minute_key id c)) as [o1 r1]. cbn in H1.
  pose proof (view_expire_ne r1 (ts c) _ 120 _ (minute_key_concurrent id c id)) as H2.
  set (r2 := expire r1 (ts c) (minute_key id c) 120) in *. rewrite H1 in H2.
  assert (exists d, view (incr r2 (ts c) (concurrent_key id)).2 (ts c) (concurrent_key id) = Some (RInt (n + 1), d))
    as [d H3].
  { destruct Hv as [[Hv ->]|[d Hv]]; rewrite Hv in H2.
    - exists None. apply (view_incr_new _ _ _ H2).
    - exists d. apply (view_incr_int _ _ _ _ _ H2). }
  destruct (incr r2 (ts c) (concurrent_key id)) as [o3 r3]. cbn in H3.
  intros [= _ <-]. by apply (view_expire_eq _ _ _ _ _ d).
Qed.

(** Ending a counted run puts the counter one down and keeps its expiry. *)
Lemma release_counts t s n d :
  view (rds s) t (concurrent_key id) = Some (RInt (n + 1), d) -> 0 <= n ->
  view (rds (release_concurrency t id s).2) t (concurrent_key id) = Some (RInt n, d).
Proof.
  intros Hv Hn. unfold release_concurrency, try_except, cmd, mbind, stm_bind.
  destruct (view_decr_int _ _ _ _ _ Hv) as [H1 H2].
  destruct (decr (rds s) t (concurrent_key id)) as [o r]. cbn in H1, H2. subst o. cbn.
  replace (n + 1 + -1) with n in * by lia. destruct (Z.ltb_spec n 0); [lia|]. done.
Qed.

(** A refusal changes nothing. *)
Lemma check_refused c s st code s' :
  check_execution_rate c id tier s = (Err (HTTPException st code), s') -> s' = s.
Proof.
  unfold check_execution_rate, mbind, stm_bind.
  destruct (execution_rate_checks c id tier s) as [[[]|e] s1] eqn:E.
  - unfold execution_rate_pipe. repeat case_match; intros ?; simplify_eq.
  - intros [= -> ->]. by apply checks_raise in E.
Qed.

Lemma max_concurrent_pos : 1 <= tier_entry MAX_CONCURRENT tier.
Proof.
  unfold tier_entry, dict_getd, MAX_CONCURRENT. generalize (base_tier tier). intros t. cbn [dict_get].
  repeat (case_match; simplify_eq/=; try lia).
Qed.

Lemma cstep_inv x y : cstep x y -> cinv x -> cinv y.
Proof.
  intros Hs [Hb Hc]. destruct Hs as [s t n l t' Ht Hl|s c n l s' Hs|s c n l code s' Hs|s t n l]; cbn in *.
  - split; [done|]. cbn. destruct n.
    + rewrite (view_later _ t t') by done. destruct Hc as [->|[d ->]]; cbn; [by left|].
      destruct (t' <? d); eauto.
    + destruct Hc as [_ Hc]. split; [lia|]. rewrite (view_later _ t t'), Hc by done. cbn.
      by rewrite (proj2 (Z.ltb_lt _ _)) by lia.
  - unfold check_execution_rate, mbind, stm_bind in Hs.
    destruct (execution_rate_checks c id tier s) as [[[]|] s1] eqn:E; [|done].
    apply bill_checks_pass in E as [-> (o & Ho & Ha)].
    assert (view (rds s) (ts c) (concurrent_key id) = None /\ Z.of_nat n = 0 \/
      exists d, view (rds s) (ts c) (concurrent_key id) = Some (RInt (Z.of_nat n), d)) as Hv.
    { destruct n; [destruct Hc as [Hc|[d Hc]]; eauto|]. destruct Hc as [_ Hc]. eauto. }
    pose proof (pipe_counts _ _ _ _ Hv Hs) as Hp. split; cbn [c_running c_st c_time c_last].
    + destruct n as [|n]; [pose proof max_concurrent_pos; lia|]. destruct Hc as [_ Hc].
      unfold get_int in Ho. rewrite Hc in Ho. injection Ho as <-. cbn in Ha. apply Z.leb_gt in Ha. lia.
    + split; [lia|]. rewrite Hp. do 3 f_equal. lia.
  - apply check_refused in Hs as ->. by split.
  - destruct Hc as [Ht Hc]. split; [cbn; lia|]. cbn [c_running c_st c_time c_last].
    rewrite Nat2Z.inj_succ in Hc.
    pose proof (release_counts t s (Z.of_nat n) (Some (l + 600)) Hc ltac:(lia)) as Hr.
    destruct n; eauto.
Qed.

(** In every reachable state the number of running executions of an
    account is at most its tier's concurrency limit, provided admissions are
    not interleaved with one another and no execution runs on for 600 seconds
    after the last admission. *)
Theorem concurrency_bounded s0 t0 x :
  view (rds s0) t0 (concurrent_key id) = None ->
  rtc cstep (CState s0 t0 0 t0) x ->
  Z.of_nat (c_running x) <= tier_entry MAX_CONCURRENT tier.
Proof.
  intros Hv Hx. cut (cinv x); [by intros []|]. assert (cinv (CState s0 t0 0 t0)) as H0'.
  { split; cbn; [pose proof max_concurrent_pos; lia|by left]. }
  revert H0'. induction Hx; eauto using cstep_inv.
Qed.
End concurrency.

(** Two admissions and one end, from nothing. *)
Lemma concurrency_bounded_witness :
  let c := Clock 0 2026 1 "2026-01-05" in
  let s0 := St (∅ : rmap) [] [] in
  let s1 := (check_execution_rate c "a" "trial" s0).2 in
  let s2 := (check_execution_rate c "a" "trial" s1).2 in
  let x := CState (release_concurrency 5 "a" s2).2 5 1 0 in
  view (rds (c_st x)) 5 (concurrent_key "a") = Some (RInt 1, Some 600) /\
  Z.of_nat (c_running x) <= tier_entry MAX_CONCURRENT "trial".
Proof.
  intros c s0 s1 s2 x. split; [vm_compute; reflexivity|].
  apply (concurrency_bounded "a" "trial" s0 0); [vm_compute; reflexivity|].
  apply (rtc_l _ _ (CState s1 0 1 0)); [by apply (step_admit "a" "trial" s0 c)|].
  apply (rtc_l _ _ (CState s2 0 2 0)); [by apply (step_admit "a" "trial" s1 c)|].
  apply (rtc_l _ _ (CState s2 5 2 0)); [by constructor|].
  apply rtc_once, step_end.
Defined.

(** The check and the increment are separate round trips: two requests whose
    reads both come before either pipeline are both admitted over the limit. *)
Example concurrency_race :
  let c := Clock 0 2026 1 "2026-01-05" in
  let s : st rmap := St (<[ "concurrent:a" := (RInt 9, Some 600) ]> ∅) [] [] in
  let '(o1, s1) := execution_rate_checks c "a" "trial" s in
  let '(o2, s2) := execution_rate_checks c "a" "trial" s1 in
  let '(o3, s3) := execution_rate_pipe c "a" s2 in
  let '(o4, s4) := execution_rate_pipe c "a" s3 in
  [o1; o2; o3; o4] = [Ok tt; Ok tt; Ok tt; Ok tt] /\
  get_int (rds s4) 0 "concurrent:a" = Some (Some 11) /\ tier_entry MAX_CONCURRENT "trial" = 10.
Proof. vm_compute. done. Qed.

(** ** The daily compute budget *)

Section budget.
Context {R : Type} `{Redis R} (id : string) (d0 : Z) (day : string).
#[local] Set Default Proof Using "Type*".

(** A finished execution: when, its CPU seconds, the tier. *)
Record usage := Usage { u_clock : clock; u_cpu : Q; u_tier : string }.

Definition on_day (c : clock) : Prop := d0 <= ts c /\ ts c < d0 + 86400 /\ date_key c = day.

Fixpoint track_all (us : list usage) (s : st R) : st R :=
  match us with
  | [] => s
  | u :: us' => track_all us' (track_compute (u_clock u) id (u_cpu u) (u_tier u) s).2
  end.

Fixpoint total_cpu (us : list usage) : Q :=
  match us with [] => 0 | u :: us' => u_cpu u + total_cpu us' end.

Definition day_compute_key : string := "compute:daily:" +:+ id +:+ ":" +:+ day.
Definition day_exec_key : string := "execcount:daily:" +:+ id +:+ ":" +:+ day.
Arguments day_compute_key : simpl never.
Arguments day_exec_key : simpl never.

(** [n] executions with [q] CPU seconds are on the day's counters at [t]; the
    counters outlive the day. *)
Definition tracked (n : nat) (q : Q) (s : st R) (t : Z) : Prop :=
  match n with
  | O => (q == 0)%Q /\ view (rds s) t day_compute_key = None /\ view (rds s) t day_exec_key = None
  | S _ => exists v d, (rval_num v == q)%Q /\ d0 + 86400 <= d /\
      view (rds s) t day_compute_key = Some (v, Some d) /\
      view (rds s) t day_exec_key = Some (RInt (Z.of_nat n), Some d)
  end.

Lemma tracked_later n q s t t' :
  tracked n q s t -> t <= t' -> t' < d0 + 86400 -> tracked n q s t'.
Proof.
  intros Hc Ht Ht'. unfold tracked in *. rewrite !(view_later _ t t') by done.
  destruct n; [by destruct Hc as (? & -> & ->)|]. destruct Hc as (v & d & Hq & Hd & -> & ->).
  exists v, d. cbn. by rewrite (proj2 (Z.ltb_lt t' d)) by lia.
Qed.

Lemma rval_num_of q : (rval_num (rval_of q) == q)%Q.
Proof.
  unfold rval_of. destruct (Pos.eqb_spec (Qden (Qred q)) 1) as [E|]; [|done]. cbn.
  rewrite <-(Qred_correct q) at 2. destruct (Qred q) as [a b]. cbn in *. by subst b.
Qed.

Lemma compute_exec_ne : day_compute_key <> day_exec_key.
Proof. done. Qed.

Lemma view_incrbyfloat_eq r t k q o d :
  view r t k = o -> d = match o with Some (_, d) => d | None => None end ->
  view (incrbyfloat r t k q).2 t k =
    Some (rval_of (match o with Some (v, _) => rval_num v | None => 0 end + q)%Q, d).
Proof.
  intros Hv ->. destruct (view_incrbyfloat r t k q k) as [_ ->]. unfold upd. rewrite String.eqb_refl. by rewrite Hv.
Qed.

Lemma view_incrbyfloat_ne r t k q k' : k <> k' -> view (incrbyfloat r t k q).2 t k' = view r t k'.
Proof.
  intros Hk. destruct (view_incrbyfloat r t k q k') as [_ ->]. unfold upd.
  apply String.eqb_neq in Hk. by rewrite Hk.
Qed.

Lemma track_step c q tier n q0 s :
  on_day c -> tracked n q0 s (ts c) ->
  tracked (S n) (q0 + q)%Q (track_compute c id q tier s).2 (ts c).
Proof.
  intros (Hd0 & Hd & Hday) Hc. unfold track_compute, cmd, cmd_, getS, mbind, stm_bind, compute_key, exec_key.
  rewrite Hday. fold day_compute_key day_exec_key. set (t := ts c) in *.
  pose proof (view_incrbyfloat_ne (rds s) t _ q _ compute_exec_ne) as H1.
  pose proof (view_incrbyfloat_eq (rds s) t day_compute_key q _ _ eq_refl eq_refl) as H2.
  destruct (incrbyfloat (rds s) t day_compute_key q) as [cur r1]. cbn [fst snd rds set_rds] in *.
  pose proof (view_incr_ne r1 t day_exec_key day_compute_key (not_eq_sym compute_exec_ne)) as H3.
  destruct n as [|n].
  - destruct Hc as (Hq & Hv1 & Hv2). rewrite Hv2 in H1. rewrite Hv1 in H2.
    destruct (view_incr_new _ _ _ H1) as [H4 H5]. destruct (incr r1 t day_exec_key) as [o r2].
    cbn [fst snd rds set_rds] in *. subst o. cbn [rds set_rds]. unfold ttl. rewrite H3, H2.
    change (-1 =? -1) with true. cbn [snd rds set_rds mret stm_ret].
    exists (rval_of (0 + q)), (t + 86400 * 2). rewrite rval_num_of, Hq. split; [done|]. split; [lia|]. split.
    + cbn [rds set_rds]. rewrite view_expire_ne by (apply not_eq_sym, compute_exec_ne).
      apply (view_expire_eq _ _ _ _ _ None); [by rewrite H3, H2|lia].
    + cbn [rds set_rds]. apply (view_expire_eq _ _ _ _ _ None); [|lia]. by rewrite view_expire_ne by apply compute_exec_ne.
  - destruct Hc as (v & d & Hq & Hdd & Hv1 & Hv2). rewrite Hv2 in H1. rewrite Hv1 in H2.
    destruct (view_incr_int _ _ _ _ _ H1) as [H4 H5]. destruct (incr r1 t day_exec_key) as [o r2].
    cbn [fst snd rds set_rds] in *. subst o. cbn [rds set_rds]. unfold ttl. rewrite H3, H2.
    destruct (Z.eqb_spec (d - t) (-1)); [lia|]. cbn [snd rds set_rds mret stm_ret].
    exists (rval_of (rval_num v + q)), d. split; [rewrite rval_num_of; apply Qplus_comp; [exact Hq|reflexivity]|]. split; [done|].
    split; [etrans; [exact H3|exact H2]|]. etrans; [exact H5|]. do 3 f_equal. lia.
Qed.

(** The executions of the day, each recorded after the one before. *)
Fixpoint day_order (t : Z) (us : list usage) : Prop :=
  match us with [] => True | u :: us' => t <= ts (u_clock u) /\ on_day (u_clock u) /\ day_order (ts (u_clock u)) us' end.

Lemma track_all_tracked us n q s t c :
  tracked n q s t -> day_order t us -> on_day c -> t <= ts c ->
  Forall (fun u => ts (u_clock u) <= ts c) us ->
  tracked (n + length us) (q + total_cpu us)%Q (track_all us s) (ts c).
Proof.
  revert n q s t; induction us as [|u us IH]; intros n q s t Hc Ho Hday Ht; cbn [track_all total_cpu length].
  { intros _. rewrite Nat.add_0_r. apply (tracked_later n _ s t); [|done|apply Hday].
    unfold tracked in *. destruct n; [by rewrite Qplus_0_r|].
    destruct Hc as (v & d & Hq & ?). exists v, d. by rewrite Qplus_0_r. }
  intros [Hu Hus]%Forall_cons. destruct Ho as (Htu & Hdu & Ho).
  pose proof (track_step (u_clock u) (u_cpu u) (u_tier u) n q s Hdu) as Hs.
  specialize (Hs (tracked_later n q s t _ Hc Htu ltac:(apply Hdu))).
  specialize (IH (S n) _ _ _ Hs Ho Hday Hu Hus).
  replace (n + S (length us))%nat with (S n + length us)%nat by lia.
  unfold tracked in IH |- *. cbn [Nat.add] in IH |- *. destruct IH as (v & d & Hq & ?). exists v, d.
  by rewrite Qplus_assoc.
Qed.

(** The daily check is exact: after the executions of a day, starting
    with clear counters, it refuses exactly when their CPU seconds reach the
    tier's budget, or their number the tier's daily limit; the compute refusal
    comes first. *)
Theorem daily_budget_exact us s tier c :
  view (rds s) d0 day_compute_key = None -> view (rds s) d0 day_exec_key = None ->
  day_order d0 us -> on_day c -> Forall (fun u => ts (u_clock u) <= ts c) us ->
  (check_daily_budget c id tier (track_all us s)).1 =
    if bool_decide (us <> []) && Qle_bool (inject_Z (tier_entry DAILY_COMPUTE_BUDGETS tier)) (total_cpu us)
    then Err (HTTPException 429 "DAILY_COMPUTE_BUDGET_EXCEEDED")
    else if negb (tier_entry DAILY_EXEC_LIMITS tier =? -1) && bool_decide (us <> [])
            && (tier_entry DAILY_EXEC_LIMITS tier <=? Z.of_nat (length us))
    then Err (HTTPException 429 "DAILY_EXEC_LIMIT_EXCEEDED")
    else Ok tt.
Proof.
  intros Hv1 Hv2 Ho Hc Hus. assert (tracked 0 0 s d0) as H0' by done.
  pose proof (track_all_tracked us 0 0 s d0 c H0' Ho Hc ltac:(apply Hc) Hus) as Ht.
  pose proof Hc as (_ & _ & Hday). unfold check_daily_budget, getS, mbind, stm_bind, compute_key, exec_key.
  rewrite Hday. fold day_compute_key day_exec_key. unfold get_float, redis_get_int, get_int.
  cbn [Nat.add] in Ht. destruct us as [|u us].
  - destruct Ht as (_ & E1 & E2). rewrite E1. rewrite bool_decide_eq_false_2 by auto. rewrite andb_false_r.
    cbn [andb mret stm_ret]. destruct (_ =? -1); [done|]. by rewrite E2.
  - rewrite (bool_decide_eq_true_2 (u :: us <> [])) by done. cbn [andb].
    destruct Ht as (v & d & Hq & _ & E1 & E2). rewrite E1.
    replace (Qle_bool (inject_Z (tier_entry DAILY_COMPUTE_BUDGETS tier)) (total_cpu (u :: us)))
      with (Qle_bool (inject_Z (tier_entry DAILY_COMPUTE_BUDGETS tier)) (rval_num v))
      by (rewrite Hq; by rewrite Qplus_0_l).
    destruct (Qle_bool _ _); [done|]. cbn [mret stm_ret].
    destruct (_ =? -1); [done|]. rewrite E2. cbn [negb andb at_least]. by destruct (_ <=? _).
Qed.
End budget.

Lemma daily_budget_exact_witness :
  let c t := Clock t 2026 1 "2026-01-05" in
  let us := [Usage (c 10) (3000 # 1) "trial"; Usage (c 20) (1201 # 2) "trial"] in
  (check_daily_budget (c 30) "a" "trial" (track_all "a" us (St (∅ : rmap) [] []))).1
    = Err (HTTPException 429 "DAILY_COMPUTE_BUDGET_EXCEEDED").
Proof.
  intros c us. refine (eq_trans (daily_budget_exact "a" 0 "2026-01-05" us (St (∅ : rmap) [] []) "trial" (c 30) _ _ _ _ _) _);
    [vm_compute; reflexivity|vm_compute; reflexivity|repeat split; cbn; lia|repeat split; cbn; lia
    |repeat constructor; cbn; lia|vm_compute; reflexivity].
Defined.

(** The middleware does not consult the daily budget: with the day's compute
    exhausted a run still reaches its handler. *)
Example dispatch_ignores_daily_budget :
  let c := Clock 0 2026 1 "2026-01-05" in
  let s : st rmap := St (<[ "compute:daily:a:2026-01-05" := (RInt 3600, Some 600) ]> ∅) [] [] in
  (check_daily_budget c "a" "trial" s).1 = Err (HTTPException 429 "DAILY_COMPUTE_BUDGET_EXCEEDED") /\
  (dispatch (run_request "a") (mret (Response 200 PNone)) c c s).1 = Ok (Response 200 PNone).
Proof. split; vm_compute; reflexivity. Qed.
