(* ===== verification/Security.v ===== *)
(** * Tokens, keys and the dependencies that check them

    [core/exceptions.py] (the exception classes of the authentication code),
    [core/security.py] and the token part of [dependencies.py].  Argon2, PyJWT,
    the PEM loader, SHA-256 and the entropy source are not code of the
    repository: they are the operations of the class [Crypto], with what their
    documentation promises in [CryptoLaws]. *)

From S2P Require Import Prelude.
From Stdlib Require Import Ascii.

Open Scope Z_scope.

(** ** Exceptions *)

Inductive exc_class :=
| InvalidApiKeyError | TokenExpiredError | InvalidTokenError | InvalidCredentialsError | RefreshTokenExpiredError
| InsufficientTierError | InsufficientScopeError
| NotFoundError | ConflictError | ForbiddenError | UserNotFoundError | ApiKeyNotFoundError | EmailExistsError
| ServiceUnavailableError | ServiceTimeoutError | RateLimitExceededError | ValidationError
| InvalidVerificationPinError | VerificationPinExpiredError | VerificationAttemptsExceededError
| VerificationResendLimitError | AlreadyVerifiedError.

#[export] Instance exc_class_eq_dec : EqDecision exc_class.
Proof. solve_decision. Defined.

(** [error_code] of a class. *)
Definition error_code (c : exc_class) : string :=
  match c with
  | InvalidApiKeyError => "INVALID_API_KEY"
  | TokenExpiredError => "TOKEN_EXPIRED"
  | InvalidTokenError => "INVALID_TOKEN"
  | InvalidCredentialsError => "INVALID_CREDENTIALS"
  | NotFoundError => "NOT_FOUND"
  | ForbiddenError => "FORBIDDEN"
  | UserNotFoundError => "USER_NOT_FOUND"
  | ApiKeyNotFoundError => "API_KEY_NOT_FOUND"
  | EmailExistsError => "EMAIL_EXISTS"
  | InvalidVerificationPinError => "INVALID_PIN"
  | VerificationPinExpiredError => "PIN_EXPIRED"
  | VerificationAttemptsExceededError => "PIN_ATTEMPTS_EXCEEDED"
  | VerificationResendLimitError => "RESEND_LIMIT_EXCEEDED"
  | AlreadyVerifiedError => "ALREADY_VERIFIED"
  | RefreshTokenExpiredError => "REFRESH_TOKEN_EXPIRED"
  | InsufficientTierError => "INSUFFICIENT_TIER"
  | InsufficientScopeError => "INSUFFICIENT_SCOPE"
  | ConflictError => "CONFLICT"
  | ServiceUnavailableError => "SERVICE_UNAVAILABLE"
  | ServiceTimeoutError => "SERVICE_TIMEOUT"
  | RateLimitExceededError => "RATE_LIMIT_EXCEEDED"
  | ValidationError => "VALIDATION_ERROR"
  end.

(** [status_code] of a class. *)
Definition class_status (c : exc_class) : Z :=
  match c with
  | InvalidApiKeyError | TokenExpiredError | InvalidTokenError | InvalidCredentialsError
  | RefreshTokenExpiredError => 401
  | InsufficientTierError | InsufficientScopeError | ForbiddenError => 403
  | NotFoundError | UserNotFoundError | ApiKeyNotFoundError => 404
  | ConflictError | EmailExistsError | AlreadyVerifiedError => 409
  | ServiceUnavailableError => 503
  | ServiceTimeoutError => 504
  | RateLimitExceededError | VerificationAttemptsExceededError | VerificationResendLimitError => 429
  | InvalidVerificationPinError | VerificationPinExpiredError => 400
  | ValidationError => 422
  end.

(** The default [message] of a class. *)
Definition default_message (c : exc_class) : string :=
  match c with
  | InvalidApiKeyError => "Invalid or revoked API key"
  | TokenExpiredError => "Access token has expired"
  | InvalidTokenError => "Invalid access token"
  | InvalidCredentialsError => "Invalid email or password"
  | NotFoundError => "Resource not found"
  | ForbiddenError => "Access denied"
  | UserNotFoundError => "User not found"
  | ApiKeyNotFoundError => "API key not found"
  | EmailExistsError => "Email address is already registered"
  | InvalidVerificationPinError => "Invalid verification PIN"
  | VerificationPinExpiredError => "Verification PIN has expired. Please request a new one."
  | VerificationAttemptsExceededError => "Too many failed attempts. Please request a new PIN."
  | VerificationResendLimitError => "Maximum verification email resend limit reached"
  | AlreadyVerifiedError => "Email is already verified"
  | RefreshTokenExpiredError => "Refresh token has expired"
  | InsufficientTierError => "Your subscription tier does not permit this action"
  | InsufficientScopeError => "API key does not have required scope"
  | ConflictError => "Resource already exists"
  | ServiceUnavailableError => "Service temporarily unavailable"
  | ServiceTimeoutError => "Service request timed out"
  | RateLimitExceededError => "Rate limit exceeded"
  | ValidationError => "Validation error"
  end.

(** An exception in flight: one of the program's, an [HTTPException], or one
    of Python or SQLAlchemy. *)
Inductive exn :=
| Mcp (c : exc_class) (message : string)
| HTTPException (status : Z) (error : string) (message : string)
| ValueError
| KeyError
| MultipleResultsFound
| NoResultFound
| DBAPIError.

#[export] Instance exn_eq_dec : EqDecision exn.
Proof. solve_decision. Defined.

(** [C()], with the message of the class. *)
Definition mcp (c : exc_class) : exn := Mcp c (default_message c).

(** [C(message=m)]: an empty message gives way to the one of the class. *)
Definition mcp_with (c : exc_class) (m : string) : exn := Mcp c (if String.eqb m "" then default_message c else m).

(** [HTTPException(status_code=status, detail=e.to_dict())] *)
Definition http_of (status : Z) (c : exc_class) (message : string) : exn :=
  HTTPException status (error_code c) message.

(** ** The libraries *)

(** What [jwt.decode] answers. *)
Inductive jwt_result :=
| Decoded (payload : list (string * pyval))
| ExpiredSignatureError
| JwtInvalidTokenError (message : string).

(** [_hasher], [jwt], [serialization] and [hashlib]; the arguments of type
    [nat] are fresh entropy. *)
Class Crypto := {
  private_key : Type;
  public_key : Type;
  load_private : string -> option private_key;
  load_public : string -> option public_key;
  hasher_hash : nat -> string -> string;
  hasher_verify : string -> string -> bool;
  hasher_needs_rehash : string -> bool;
  jwt_encode : nat -> list (string * pyval) -> private_key -> string;
  jwt_decode : Z -> string -> public_key -> string -> string -> jwt_result;
  sha256_hex : string -> string
}.

(** The claims as [jwt.decode] checks them: issued by now, not expired, and for
    this issuer and audience. *)
Definition claims_valid (now : Z) (issuer audience : string) (p : list (string * pyval)) : Prop :=
  (exists iat, dict_get "iat" p = Some (PInt iat) /\ iat <= now) /\
  (exists exp, dict_get "exp" p = Some (PInt exp) /\ now < exp) /\
  dict_get "iss" p = Some (PStr issuer) /\ dict_get "aud" p = Some (PStr audience).

(** The documented behaviour the code relies on; [pair] says which public key
    belongs to which private key. *)
Class CryptoLaws `{Crypto} := {
  pair : private_key -> public_key -> Prop;
  hasher_verify_hash n x : hasher_verify (hasher_hash n x) x = true;
  jwt_decode_encode n p sk pk now iss aud :
    pair sk pk -> claims_valid now iss aud p -> jwt_decode now (jwt_encode n p sk) pk iss aud = Decoded p;
  jwt_decode_expired n p sk pk now iss aud exp :
    pair sk pk -> dict_get "exp" p = Some (PInt exp) -> exp <= now ->
    (exists iat, dict_get "iat" p = Some (PInt iat) /\ iat <= now) ->
    jwt_decode now (jwt_encode n p sk) pk iss aud = ExpiredSignatureError
}.

(** The settings the code reads; a key file is its text if the path exists. *)
Record settings := Settings {
  jwt_private_key : option string;
  jwt_private_key_file : option string;
  jwt_public_key : option string;
  jwt_public_key_file : option string;
  jwt_access_token_expire_minutes : Z;
  jwt_refresh_token_expire_days : Z;
  jwt_issuer : string;
  jwt_audience : string;
  allow_registration : bool;
  admin_api_key : string;
  admin_emails : list string
}.

Section security.
Context `{Crypto} (cfg : settings).

(** [hash_api_key] and [hash_password] are the same function. *)
Definition hash_api_key (entropy : nat) (api_key : string) : string := hasher_hash entropy api_key.
Definition hash_password (entropy : nat) (password : string) : string := hasher_hash entropy password.
Definition verify_api_key (api_key hashed : string) : bool := hasher_verify hashed api_key.
Definition verify_password (password hashed : string) : bool := hasher_verify hashed password.
Definition check_needs_rehash (hashed : string) : bool := hasher_needs_rehash hashed.

(** [random_part] is [secrets.token_hex(32)]. *)
Definition generate_api_key (prefix random_part : string) : string := prefix +:+ "_" +:+ random_part.

Definition _get_private_key : res exn private_key :=
  key_pem ← match jwt_private_key cfg with
            | Some ((String _ _) as pem) => Ok pem
            | _ => match jwt_private_key_file cfg with Some pem => Ok pem | None => Err ValueError end
            end;
  match load_private key_pem with Some k => Ok k | None => Err ValueError end.

Definition _get_public_key : res exn public_key :=
  key_pem ← match jwt_public_key cfg with
            | Some ((String _ _) as pem) => Ok pem
            | _ => match jwt_public_key_file cfg with Some pem => Ok pem | None => Err ValueError end
            end;
  match load_public key_pem with Some k => Ok k | None => Err ValueError end.

(** [payload.update(more)] *)
Definition dict_update (more payload : list (string * pyval)) : list (string * pyval) :=
  foldl (fun p kv => dict_set kv.1 kv.2 p) payload more.

Definition access_payload (now : Z) (user_id : string) (scopes : option (list string)) (expires_delta : option Z)
    (additional_claims : option (list (string * pyval))) : list (string * pyval) :=
  let expire := now + default (jwt_access_token_expire_minutes cfg * 60) expires_delta in
  let payload := [("sub", PStr user_id); ("iat", PInt now); ("exp", PInt expire);
                  ("iss", PStr (jwt_issuer cfg)); ("aud", PStr (jwt_audience cfg)); ("type", PStr "access")] in
  let payload := match scopes with
                 | Some ((_ :: _) as l) => dict_set "scopes" (PList (map PStr l)) payload
                 | _ => payload
                 end in
  match additional_claims with Some more => dict_update more payload | None => payload end.

Definition create_access_token (entropy : nat) (now : Z) (user_id : string) (scopes : option (list string))
    (expires_delta : option Z) (additional_claims : option (list (string * pyval))) : res exn string :=
  private_key ← _get_private_key;
  Ok (jwt_encode entropy (access_payload now user_id scopes expires_delta additional_claims) private_key).

Definition refresh_payload (now : Z) (user_id : string) (expires_delta : option Z) (jti : string)
    : list (string * pyval) :=
  let expire := now + default (jwt_refresh_token_expire_days cfg * 86400) expires_delta in
  [("sub", PStr user_id); ("iat", PInt now); ("exp", PInt expire); ("iss", PStr (jwt_issuer cfg));
   ("aud", PStr (jwt_audience cfg)); ("type", PStr "refresh"); ("jti", PStr jti)].

Definition create_refresh_token (entropy : nat) (now : Z) (user_id : string) (expires_delta : option Z)
    (jti : string) : res exn string :=
  private_key ← _get_private_key;
  Ok (jwt_encode entropy (refresh_payload now user_id expires_delta jti) private_key).

Definition decode_token (now : Z) (token : string) : res exn (list (string * pyval)) :=
  public_key ← _get_public_key;
  match jwt_decode now token public_key (jwt_issuer cfg) (jwt_audience cfg) with
  | Decoded payload => Ok payload
  | ExpiredSignatureError => Err (mcp TokenExpiredError)
  | JwtInvalidTokenError m => Err (mcp_with InvalidTokenError m)
  end.

(** [payload.get("type") != kind] *)
Definition has_type (kind : string) (payload : list (string * pyval)) : bool :=
  match dict_get "type" payload with Some (PStr s) => String.eqb s kind | _ => false end.

Definition verify_access_token (now : Z) (token : string) : res exn (list (string * pyval)) :=
  payload ← decode_token now token;
  if has_type "access" payload then Ok payload
  else Err (Mcp InvalidTokenError "Token is not an access token").

Definition verify_refresh_token (now : Z) (token : string) : res exn (list (string * pyval)) :=
  payload ← decode_token now token;
  if has_type "refresh" payload then Ok payload
  else Err (Mcp InvalidTokenError "Token is not a refresh token").

(** ** The dependencies that read a bearer token *)

(** [s.split()]: the maximal runs of non-space characters. *)
Fixpoint split_words_go (cur : string) (s : string) : list string :=
  match s with
  | EmptyString => if String.eqb cur "" then [] else [cur]
  | String c s' =>
      if is_space c then (if String.eqb cur "" then [] else [cur]) ++ split_words_go "" s'
      else split_words_go (cur +:+ String c "") s'
  end.
Definition split_words (s : string) : list string := split_words_go "" s.

(** The token of a bearer header, or the refusal. *)
Definition bearer_token (authorization : option string) : res exn string :=
  match authorization with
  | None | Some EmptyString => Err (HTTPException 401 "MISSING_TOKEN" "Authorization header required")
  | Some a =>
      match split_words a with
      | [scheme; token] =>
          if String.eqb (str_lower scheme) "bearer" then Ok token
          else Err (HTTPException 401 "INVALID_TOKEN_FORMAT" "Expected 'Bearer <token>'")
      | _ => Err (HTTPException 401 "INVALID_TOKEN_FORMAT" "Expected 'Bearer <token>'")
      end
  end.

(** [except TokenExpiredError ... except InvalidTokenError as e ...] *)
Definition token_errors {A} (r : res exn A) : res exn A :=
  match r with
  | Err (Mcp TokenExpiredError _) => Err (HTTPException 401 "TOKEN_EXPIRED" "Access token has expired")
  | Err (Mcp InvalidTokenError m) => Err (HTTPException 401 "INVALID_TOKEN" m)
  | _ => r
  end.

(** [payload["sub"]] of a text subject. *)
Definition subject (payload : list (string * pyval)) : res exn string :=
  match dict_get "sub" payload with Some (PStr s) => Ok s | _ => Err KeyError end.

Definition get_current_user_id (now : Z) (authorization : option string) : res exn string :=
  token ← bearer_token authorization;
  token_errors (payload ← verify_access_token now token; subject payload).

Definition get_optional_user_id (now : Z) (authorization : option string) : res exn (option string) :=
  match authorization with
  | None | Some EmptyString => Ok None
  | Some _ => match get_current_user_id now authorization with
              | Ok u => Ok (Some u)
              | Err (HTTPException _ _ _) => Ok None
              | Err e => Err e
              end
  end.

(** [payload.get("scopes", [])] contains the scope. *)
Definition has_scope (required_scope : string) (payload : list (string * pyval)) : bool :=
  match dict_get "scopes" payload with
  | Some (PList l) => existsb (fun v => match v with PStr s => String.eqb s required_scope | _ => false end) l
  | _ => false
  end.

Definition require_scope (required_scope : string) (now : Z) (authorization : option string) : res exn unit :=
  token ← bearer_token authorization;
  token_errors
    (payload ← verify_access_token now token;
     if has_scope required_scope payload then Ok tt
     else Err (HTTPException 403 "INSUFFICIENT_SCOPE" ("Scope '" +:+ required_scope +:+ "' required"))).
End security.

(** ** A model of the libraries

    Hashes and tokens that are readable; a token is the payload written as a
    number in base two. *)

Fixpoint enc_val (v : pyval) : gen_tree (bool + (Z + string)) :=
  match v with
  | PNone => GenNode 0 []
  | PBool b => GenLeaf (inl b)
  | PInt z => GenLeaf (inr (inl z))
  | PStr s => GenLeaf (inr (inr s))
  | PList l => GenNode 1 (map enc_val l)
  | PDict d => GenNode 2 (map (fun kv => GenNode 3 [GenLeaf (inr (inr kv.1)); enc_val kv.2]) d)
  end.

Fixpoint dec_val (t : gen_tree (bool + (Z + string))) : pyval :=
  match t with
  | GenLeaf (inl b) => PBool b
  | GenLeaf (inr (inl z)) => PInt z
  | GenLeaf (inr (inr s)) => PStr s
  | GenNode 1 ts => PList (map dec_val ts)
  | GenNode 2 ts => PDict (map (fun t => match t with
                                         | GenNode _ [GenLeaf (inr (inr k)); v] => (k, dec_val v)
                                         | _ => ("", PNone)
                                         end) ts)
  | GenNode _ _ => PNone
  end.

Fixpoint dec_enc_val (v : pyval) : dec_val (enc_val v) = v.
Proof.
  destruct v as [|b|z|s|l|d]; cbn; try reflexivity.
  - f_equal. induction l as [|v l IH]; cbn; [reflexivity|]. rewrite dec_enc_val, IH. reflexivity.
  - f_equal. induction d as [|[k v] d IH]; cbn; [reflexivity|]. rewrite dec_enc_val, IH. reflexivity.
Qed.

Fixpoint string_of_pos (p : positive) : string :=
  match p with
  | xH => ""
  | xO p => String "0" (string_of_pos p)
  | xI p => String "1" (string_of_pos p)
  end.
Fixpoint pos_of_string (s : string) : positive :=
  match s with
  | EmptyString => xH
  | String c s => if Ascii.eqb c "0" then xO (pos_of_string s) else xI (pos_of_string s)
  end.
Lemma pos_of_string_of_pos p : pos_of_string (string_of_pos p) = p.
Proof. induction p; cbn; by f_equal. Qed.

Definition write_token (p : list (string * pyval)) : string := string_of_pos (encode (enc_val (PDict p))).
Definition read_token (s : string) : option (list (string * pyval)) :=
  match decode (pos_of_string s) with
  | Some t => match dec_val t with PDict p => Some p | _ => None end
  | None => None
  end.
Lemma read_write_token p : read_token (write_token p) = Some p.
Proof. unfold read_token, write_token. by rewrite pos_of_string_of_pos, decode_encode, dec_enc_val. Qed.

Definition int_claim (k : string) (p : list (string * pyval)) : option Z :=
  match dict_get k p with Some (PInt z) => Some z | _ => None end.
Definition str_claim (k v : string) (p : list (string * pyval)) : bool :=
  match dict_get k p with Some (PStr s) => String.eqb s v | _ => false end.

Definition toy_decode (now : Z) (token : string) (_ : unit) (iss aud : string) : jwt_result :=
  match read_token token with
  | None => JwtInvalidTokenError "Not enough segments"
  | Some p =>
      match int_claim "exp" p, int_claim "iat" p with
      | Some exp, Some iat =>
          if now <? iat then JwtInvalidTokenError "The token is not yet valid (iat)"
          else if exp <=? now then ExpiredSignatureError
          else if str_claim "iss" iss p && str_claim "aud" aud p then Decoded p
          else JwtInvalidTokenError "Invalid issuer"
      | _, _ => JwtInvalidTokenError "Invalid claim"
      end
  end.

#[export] Instance toy_crypto : Crypto := {|
  private_key := unit;
  public_key := unit;
  load_private _ := Some tt;
  load_public _ := Some tt;
  hasher_hash _ x := "argon2:" +:+ x;
  hasher_verify h x := String.eqb h ("argon2:" +:+ x);
  hasher_needs_rehash _ := false;
  jwt_encode _ p _ := write_token p;
  jwt_decode := toy_decode;
  sha256_hex x := "sha256:" +:+ x
|}.

#[export] Instance toy_crypto_laws : CryptoLaws.
Proof.
  apply (Build_CryptoLaws toy_crypto (fun _ _ => True)); cbn.
  - intros n x. apply String.eqb_refl.
  - intros n p sk pk now iss aud _ ((iat & Hi & Hi') & (exp & He & He') & Hiss & Haud).
    unfold toy_decode. rewrite read_write_token. unfold int_claim, str_claim. rewrite He, Hi, Hiss, Haud, !String.eqb_refl.
    by rewrite (proj2 (Z.ltb_ge now iat)), (proj2 (Z.leb_gt exp now)) by lia.
  - intros n p sk pk now iss aud exp _ He He' (iat & Hi & Hi').
    unfold toy_decode. rewrite read_write_token. unfold int_claim. rewrite He, Hi.
    by rewrite (proj2 (Z.ltb_ge now iat)), (proj2 (Z.leb_le exp now)) by lia.
Defined.

Definition toy_settings : settings :=
  Settings (Some "PEM") None (Some "PEM") None 60 7 "https://api.mcpworks.io" "https://mcpworks.io" true ""
    ["admin@mcpworks.io"].

(** ** Tokens *)

Section token_facts.
Context `{CryptoLaws} (cfg : settings).
#[local] Set Default Proof Using "Type*".

(** The claims [create_access_token] sets itself. *)
Definition reserved : list string := ["sub"; "iat"; "exp"; "iss"; "aud"; "type"; "scopes"].

Lemma dict_get_update k more p : dict_get k more = None -> dict_get k (dict_update more p) = dict_get k p.
Proof.
  unfold dict_update. revert p; induction more as [|[k' v] more IH]; intros p; [done|]. cbn.
  destruct (String.eqb_spec k k') as [|Hne]; [done|]. intros Hk. rewrite IH by done.
  by apply dict_get_set_ne, not_eq_sym.
Qed.

(** The lookups of an access payload, whatever the additional claims. *)
Lemma access_payload_get now uid scopes delta more k :
  k ∈ reserved -> k <> "scopes" -> Forall (fun k => dict_get k more = None) reserved ->
  dict_get k (access_payload cfg now uid scopes delta (Some more)) =
  dict_get k [("sub", PStr uid); ("iat", PInt now);
              ("exp", PInt (now + default (jwt_access_token_expire_minutes cfg * 60) delta));
              ("iss", PStr (jwt_issuer cfg)); ("aud", PStr (jwt_audience cfg)); ("type", PStr "access")].
Proof.
  intros Hk Hs Hm. unfold access_payload. rewrite dict_get_update by by apply (proj1 (Forall_forall _ _) Hm).
  destruct scopes as [[|s l]|]; [done| |done]. by apply dict_get_set_ne, not_eq_sym.
Qed.

(** An access token works as one until it expires and never as a refresh
    token: from issue to expiry [verify_access_token] gives back its subject and
    [verify_refresh_token] refuses it; from then on both raise
    [TokenExpiredError]. *)
Theorem access_token_lifecycle sk pk n now uid scopes more tok t :
  _get_private_key cfg = Ok sk -> _get_public_key cfg = Ok pk -> pair sk pk ->
  Forall (fun k => dict_get k more = None) reserved ->
  create_access_token cfg n now uid scopes None (Some more) = Ok tok -> now <= t ->
  if t <? now + jwt_access_token_expire_minutes cfg * 60 then
    (verify_access_token cfg t tok ≫= subject) = Ok uid /\
    verify_refresh_token cfg t tok = Err (Mcp InvalidTokenError "Token is not a refresh token")
  else
    verify_access_token cfg t tok = Err (mcp TokenExpiredError) /\
    verify_refresh_token cfg t tok = Err (mcp TokenExpiredError).
Proof.
  intros Hsk Hpk Hpair Hm Hc Ht. unfold create_access_token in Hc. rewrite Hsk in Hc. injection Hc as <-.
  pose proof (fun k Hk Hs => access_payload_get now uid scopes None more k Hk Hs Hm) as Hget.
  unfold verify_access_token, verify_refresh_token, decode_token. rewrite Hpk. cbn [mbind res_bind].
  set (p := access_payload _ _ _ _ _ _) in *.
  assert (dict_get "iat" p = Some (PInt now)) as Hiat by (apply Hget; [set_solver|done]).
  assert (dict_get "exp" p = Some (PInt (now + jwt_access_token_expire_minutes cfg * 60))) as Hexp
    by (apply Hget; [set_solver|done]).
  destruct (Z.ltb_spec t (now + jwt_access_token_expire_minutes cfg * 60)).
  - rewrite (jwt_decode_encode n p sk pk); [|done|].
    2:{ split; [eauto|]. split; [eauto|]. split; by apply Hget; [set_solver|]. }
    assert (dict_get "type" p = Some (PStr "access")) as Htype by (apply Hget; [set_solver|done]).
    assert (dict_get "sub" p = Some (PStr uid)) as Hsub by (apply Hget; [set_solver|done]).
    unfold has_type, mbind, res_bind. rewrite Htype. cbn [String.eqb Ascii.eqb Bool.eqb]. unfold subject. by rewrite Hsub.
  - rewrite (jwt_decode_expired n p sk pk t _ _ _ Hpair Hexp); [done|lia|eauto].
Qed.

(** A refresh token is never accepted where an access token is required,
    so it cannot be used to call the API; until it expires it does work as a
    refresh token for its subject. *)
Theorem refresh_token_not_access sk pk n now uid jti tok t :
  _get_private_key cfg = Ok sk -> _get_public_key cfg = Ok pk -> pair sk pk ->
  create_refresh_token cfg n now uid None jti = Ok tok -> now <= t ->
  (exists e, verify_access_token cfg t tok = Err e) /\
  (t < now + jwt_refresh_token_expire_days cfg * 86400 -> (verify_refresh_token cfg t tok ≫= subject) = Ok uid).
Proof.
  intros Hsk Hpk Hpair Hc Ht. unfold create_refresh_token in Hc. rewrite Hsk in Hc. injection Hc as <-.
  unfold verify_access_token, verify_refresh_token, decode_token. rewrite Hpk. cbn [mbind res_bind].
  set (p := refresh_payload _ _ _ _ _).
  destruct (Z.ltb_spec t (now + jwt_refresh_token_expire_days cfg * 86400)).
  - rewrite (jwt_decode_encode n p sk pk); [|done|].
    2:{ split; [by exists now|]. split; [by eexists|]. done. }
    split; [by eexists|done].
  - rewrite (jwt_decode_expired n p sk pk t _ _ (now + jwt_refresh_token_expire_days cfg * 86400)); try done; [|by exists now].
    split; [by eexists|lia].
Qed.
End token_facts.

Lemma access_token_lifecycle_witness :
  let tok := write_token (access_payload toy_settings 100 "u1" (Some ["read"]) None (Some [("tier", PStr "pro")])) in
  (verify_access_token toy_settings 200 tok ≫= subject) = Ok "u1" /\
  verify_refresh_token toy_settings 200 tok = Err (Mcp InvalidTokenError "Token is not a refresh token").
Proof.
  intros tok. apply (@access_token_lifecycle toy_crypto toy_crypto_laws toy_settings tt tt 0 100 "u1" (Some ["read"]) [("tier", PStr "pro")] tok 200);
    [reflexivity|reflexivity|exact I|repeat constructor|reflexivity|lia].
Defined.

Lemma refresh_token_not_access_witness :
  let tok := write_token (refresh_payload toy_settings 100 "u1" None "jti") in
  (exists e, verify_access_token toy_settings 200 tok = Err e) /\
  (200 < 100 + 7 * 86400 -> (verify_refresh_token toy_settings 200 tok ≫= subject) = Ok "u1").
Proof.
  intros tok. apply (@refresh_token_not_access toy_crypto toy_crypto_laws toy_settings tt tt 0 100 "u1" "jti" tok 200);
    [reflexivity|reflexivity|exact I|reflexivity|lia].
Defined.
