(* ===== verification/Auth.v ===== *)
(** * The authentication service

    [services/auth.py] on a database session: API keys, registration with
    e-mail verification, login and token refresh.  A session keeps the committed
    tables and the working ones; [AuthApi] adds the endpoints and the
    transaction around them.  Instants are whole seconds. *)

From S2P Require Import Prelude Security.
From Stdlib Require Import Ascii.

Open Scope Z_scope.

(** ** Identifiers *)

Definition is_hex (c : ascii) : bool := is_digit c || in_range "a" "f" (char_lower c).

(** [str(u)] of the UUID with these 32 hexadecimal digits. *)
Definition uuid_text (hex : string) : string :=
  str_take 8 hex +:+ "-" +:+ str_take 4 (str_drop 8 hex) +:+ "-" +:+ str_take 4 (str_drop 12 hex) +:+ "-"
  +:+ str_take 4 (str_drop 16 hex) +:+ "-" +:+ str_drop 20 hex.

(** [uuid.UUID(s)], as its canonical text; [None] is [ValueError]. *)
Definition uuid_parse (s : string) : option string :=
  let hex := str_replace "uuid:" "" (str_replace "urn:" "" s) in
  let hex := str_strip_by (fun c => Ascii.eqb c "{" || Ascii.eqb c "}") hex in
  let hex := str_replace "-" "" hex in
  if (String.length hex =? 32)%nat && str_forallb is_hex hex then Some (uuid_text (str_lower hex)) else None.

Definition as_uuid {S} (s : string) : stm S exn string :=
  match uuid_parse s with Some u => mret u | None => raise ValueError end.

(** ** The tables *)

Record user := User {
  u_id : string;
  email : string;
  password_hash : option string;
  u_name : option string;
  tier : string;
  status : string;
  email_verified : bool;
  verification_token : option string;
  verification_pin_expires_at : option Z;
  verification_attempts : Z;
  verification_resend_count : Z;
  tos_accepted_at : option Z;
  tos_version : option string
}.

Record account := Account { a_id : string; a_user_id : string; a_name : option string }.

Record api_key := APIKey {
  k_id : string;
  k_user_id : string;
  key_hash : string;
  key_prefix : string;
  k_name : option string;
  scopes : list string;
  k_namespace_id : option string;
  created_at : Z;
  last_used_at : option Z;
  expires_at : option Z;
  revoked_at : option Z
}.

Record audit_log := AuditLog {
  l_user_id : option string;
  action : string;
  resource_type : string;
  resource_id : option string;
  l_ip_address : option string;
  l_user_agent : option string;
  event_data : list (string * pyval)
}.

Record namespace := Namespace { n_id : string; n_account_id : string }.

Record db := Db {
  users : list user;
  accounts : list account;
  api_keys : list api_key;
  audit_logs : list audit_log;
  namespaces : list namespace
}.

(** What the service starts besides the database: tasks and metrics. *)
Inductive effect :=
| SendVerificationPin (to : string) (name : option string) (pin : string)
| SendWelcome (to : string) (name : option string)
| RegistrationAlert (email : string) (name ip agent : option string)
| AuthSecurityEvent (actor_ip actor_id : option string) (reason : string)
| AuthAttempt (meth result : string).

(** A session: what the database holds, what the session sees, what was
    started. *)
Record session := Session { committed : db; working : db; effects : list effect }.

Abbreviation M := (stm session exn).

(** The client a request comes from. *)
Record client := Client { ip_address : option string; user_agent : option string }.

(** The random values one request may draw: Argon2 salt, signature nonces,
    [token_urlsafe], [token_hex], two fresh UUIDs, [randbelow(1_000_000)]. *)
Record entropy := Entropy {
  e_salt : nat; e_nonce1 : nat; e_nonce2 : nat; e_jti : string; e_hex : string;
  e_id1 : string; e_id2 : string; e_pin : Z
}.

(** ** Sessions *)

Definition query {A} (f : db -> A) : M A := fun s => (Ok (f (working s)), s).
Definition modify (f : db -> db) : M unit := fun s => (Ok tt, Session (committed s) (f (working s)) (effects s)).
Definition start (e : effect) : M unit := fun s => (Ok tt, Session (committed s) (working s) (effects s ++ [e])).
Definition commit : M unit := fun s => (Ok tt, Session (working s) (working s) (effects s)).

Definition set_users (f : list user -> list user) (d : db) : db :=
  Db (f (users d)) (accounts d) (api_keys d) (audit_logs d) (namespaces d).
Definition set_keys (f : list api_key -> list api_key) (d : db) : db :=
  Db (users d) (accounts d) (f (api_keys d)) (audit_logs d) (namespaces d).
Definition add_user (u : user) : M unit := modify (set_users (fun l => l ++ [u])).
Definition add_account (a : account) : M unit :=
  modify (fun d => Db (users d) (accounts d ++ [a]) (api_keys d) (audit_logs d) (namespaces d)).
Definition add_key (k : api_key) : M unit := modify (set_keys (fun l => l ++ [k])).
Definition add_audit (l : audit_log) : M unit :=
  modify (fun d => Db (users d) (accounts d) (api_keys d) (audit_logs d ++ [l]) (namespaces d)).

(** Assignment to attributes of a loaded row. *)
Definition update_user (id : string) (f : user -> user) : M unit :=
  modify (set_users (map (fun u => if String.eqb (u_id u) id then f u else u))).
Definition update_key (id : string) (f : api_key -> api_key) : M unit :=
  modify (set_keys (map (fun k => if String.eqb (k_id k) id then f k else k))).

(** [result.scalar_one_or_none()] and [result.scalar_one()] *)
Definition scalar_one_or_none {A} (l : list A) : M (option A) :=
  match l with [] => mret None | [a] => mret (Some a) | _ => raise MultipleResultsFound end.
Definition scalar_one {A} (l : list A) : M A :=
  match l with [] => raise NoResultFound | [a] => mret a | _ => raise MultipleResultsFound end.

Definition user_by_id (id : string) : M (option user) :=
  rows ← query (fun d => List.filter (fun u => String.eqb (u_id u) id) (users d)); scalar_one_or_none rows.
Definition user_by_email (e : string) : M (option user) :=
  rows ← query (fun d => List.filter (fun u => String.eqb (email u) e) (users d)); scalar_one_or_none rows.

Definition is_none {A} (o : option A) : bool := match o with None => true | Some _ => false end.

(** The rows [validate_api_key] considers. *)
Definition live_keys (prefix : string) (d : db) : list api_key :=
  List.filter (fun k => String.eqb (key_prefix k) prefix && is_none (revoked_at k)) (api_keys d).

Definition default_scopes : list string := ["read"; "write"; "execute"].
(** [scopes or ["read", "write", "execute"]] *)
Definition scopes_or_default (l : list string) : list string := match l with [] => default_scopes | _ => l end.

(** [f"{n:06d}"] *)
Fixpoint zeros (n : nat) : string := match n with O => "" | S n => String "0" (zeros n) end.
Definition pin_text (n : Z) : string :=
  let s := str_of_Z n in zeros (6 - String.length s) +:+ s.

Section service.
Context `{Crypto} (cfg : settings).

Definition _log_auth_success (user_id api_key_id : string) (c : client) : M unit :=
  add_audit (AuditLog (Some user_id) "user_login" "api_key" (Some api_key_id) (ip_address c) (user_agent c)
    [("method", PStr "api_key")]).

Definition _log_auth_failure (user_id : option string) (c : client) (reason : string) : M unit :=
  add_audit (AuditLog user_id "auth_failed" "api_key" None (ip_address c) (user_agent c) [("reason", PStr reason)]);;
  start (AuthSecurityEvent (ip_address c) user_id reason).

(** [_log_auth_failure(...)] followed by the raise. *)
Definition refuse {A} (user_id : option string) (c : client) (reason : string) (e : exn) : M A :=
  _log_auth_failure user_id c reason;; raise e.

(** [expires_at is not None and now >= expires_at] *)
Definition expired (now : Z) (e : option Z) : bool := match e with Some t => t <=? now | None => false end.

Definition validate_api_key (now : Z) (r : entropy) (raw_key : string) (c : client) : M user :=
  if (String.length raw_key <? 12)%nat then refuse None c "Key too short" (mcp InvalidApiKeyError)
  else
    keys ← query (live_keys (str_take 12 raw_key));
    match keys with
    | [] => refuse None c "No matching key prefix" (mcp InvalidApiKeyError)
    | _ =>
        match List.find (fun k => verify_api_key raw_key (key_hash k)) keys with
        | None => refuse None c "Hash verification failed" (mcp InvalidApiKeyError)
        | Some valid_key =>
            if expired now (expires_at valid_key) then
              refuse (Some (k_user_id valid_key)) c "Key expired" (Mcp InvalidApiKeyError "API key has expired")
            else
              update_key (k_id valid_key) (fun k =>
                APIKey (k_id k) (k_user_id k)
                  (if check_needs_rehash (key_hash k) then hash_api_key (e_salt r) raw_key else key_hash k)
                  (key_prefix k) (k_name k) (scopes k) (k_namespace_id k) (created_at k) (Some now)
                  (expires_at k) (revoked_at k));;
              user ← user_by_id (k_user_id valid_key);
              match user with
              | Some u =>
                  if String.eqb (status u) "active" then
                    _log_auth_success (u_id u) (k_id valid_key) c;; mret u
                  else refuse (Some (k_user_id valid_key)) c "User inactive"
                         (Mcp InvalidApiKeyError "User account is not active")
              | None => refuse (Some (k_user_id valid_key)) c "User inactive"
                          (Mcp InvalidApiKeyError "User account is not active")
              end
        end
    end.

(** The access token the service issues for a user. *)
Definition user_access_token (now : Z) (nonce : nat) (u : user) (sc : list string) : res exn string :=
  create_access_token cfg nonce now (u_id u) (Some sc) None
    (Some [("tier", PStr (tier u)); ("email", PStr (email u))]).

Definition expires_in : Z := jwt_access_token_expire_minutes cfg * 60.

Definition exchange_api_key_for_tokens (now : Z) (r : entropy) (raw_key : string) (c : client)
    : M (string * string * Z) :=
  user ← validate_api_key now r raw_key c;
  rows ← query (fun d => List.filter (fun k =>
           String.eqb (k_user_id k) (u_id user) && String.eqb (key_prefix k) (str_take 12 raw_key)) (api_keys d));
  key ← scalar_one rows;
  access_token ← lift_res (user_access_token now (e_nonce1 r) user (scopes_or_default (scopes key)));
  refresh_token ← lift_res (create_refresh_token cfg (e_nonce2 r) now (u_id user) None (e_jti r));
  mret (access_token, refresh_token, expires_in).

Definition refresh_access_token (now : Z) (r : entropy) (refresh_token : string) : M (string * Z) :=
  payload ← lift_res (verify_refresh_token cfg now refresh_token);
  sub ← lift_res (subject payload);
  user_id ← as_uuid sub;
  user ← user_by_id user_id;
  match user with
  | Some u =>
      if String.eqb (status u) "active" then
        access_token ← lift_res (user_access_token now (e_nonce1 r) u default_scopes);
        mret (access_token, expires_in)
      else raise (Mcp InvalidTokenError "User account is not active")
  | None => raise (Mcp InvalidTokenError "User account is not active")
  end.

(** (pin, hash) *)
Definition _generate_pin (r : entropy) : string * string :=
  let pin := pin_text (e_pin r) in (pin, sha256_hex pin).

(** The row [register_user] adds. *)
Definition new_user (now : Z) (r : entropy) (em password : string) (name : option string) (accept_tos : bool) : user :=
  User (e_id1 r) (str_lower em) (Some (hash_password (e_salt r) password)) name "trial-agent"
    "pending_verification" false (Some (_generate_pin r).2) (Some (now + 600)) 0 0
    (if accept_tos then Some now else None) (if accept_tos then Some "1.0.0" else None).

Definition register_user (now : Z) (r : entropy) (em password : string) (name : option string) (c : client)
    (accept_tos : bool) : M (user * string * string * Z) :=
  existing ← user_by_email (str_lower em);
  match existing with
  | Some _ => raise (mcp EmailExistsError)
  | None =>
      let user := new_user now r em password name accept_tos in
      add_user user;;
      add_account (Account (e_id2 r) (u_id user)
        (Some (match name with
               | Some ((String _ _) as n) => n
               | _ => hd "" (str_split "@" em)
               end)));;
      add_audit (AuditLog (Some (u_id user)) "user_registered" "user" (Some (u_id user)) (ip_address c) (user_agent c)
        [("email", PStr (email user)); ("status", PStr "pending_verification")]);;
      start (SendVerificationPin (email user) name (_generate_pin r).1);;
      start (RegistrationAlert (email user) name (ip_address c) (user_agent c));;
      access_token ← lift_res (user_access_token now (e_nonce1 r) user default_scopes);
      refresh_token ← lift_res (create_refresh_token cfg (e_nonce2 r) now (u_id user) None (e_jti r));
      mret (user, access_token, refresh_token, expires_in)
  end.

(** The verification fields of a user row. *)
Definition set_verification (verified : bool) (st : string) (token : option string) (pin_expires : option Z)
    (attempts resends : Z) (u : user) : user :=
  User (u_id u) (email u) (password_hash u) (u_name u) (tier u) st verified token pin_expires attempts resends
    (tos_accepted_at u) (tos_version u).

Definition verify_email_pin (now : Z) (user_id pin : string) (c : client) : M user :=
  user ← user_by_id user_id;
  match user with
  | None => raise (mcp UserNotFoundError)
  | Some u =>
      if email_verified u then raise (mcp AlreadyVerifiedError)
      else match verification_token u, verification_pin_expires_at u with
      | Some ((String _ _) as token), Some pin_expires =>
          if 5 <=? verification_attempts u then raise (mcp VerificationAttemptsExceededError)
          else if pin_expires <=? now then raise (mcp VerificationPinExpiredError)
          else if negb (String.eqb (sha256_hex pin) token) then
            update_user (u_id u) (fun u => set_verification (email_verified u) (status u) (verification_token u)
              (verification_pin_expires_at u) (verification_attempts u + 1) (verification_resend_count u) u);;
            add_audit (AuditLog (Some (u_id u)) "auth_failed" "user" (Some (u_id u)) (ip_address c) (user_agent c)
              [("reason", PStr "invalid_verification_pin"); ("attempts", PInt (verification_attempts u + 1))]);;
            raise (mcp InvalidVerificationPinError)
          else
            let u' := set_verification true "active" None None 0 (verification_resend_count u) u in
            update_user (u_id u) (fun _ => u');;
            add_audit (AuditLog (Some (u_id u)) "user_login" "user" (Some (u_id u)) (ip_address c) (user_agent c)
              [("method", PStr "email_verification"); ("email", PStr (email u))]);;
            start (SendWelcome (email u) (u_name u));;
            mret u'
      | _, _ => raise (mcp VerificationPinExpiredError)
      end
  end.

Definition max_resends : Z := 5.

Definition resend_verification_pin (now : Z) (r : entropy) (user_id : string) (c : client) : M Z :=
  user ← user_by_id user_id;
  match user with
  | None => raise (mcp UserNotFoundError)
  | Some u =>
      if email_verified u then raise (mcp AlreadyVerifiedError)
      else if max_resends <=? verification_resend_count u then raise (mcp VerificationResendLimitError)
      else
        let '(pin, pin_hash) := _generate_pin r in
        let u' := set_verification (email_verified u) (status u) (Some pin_hash) (Some (now + 600)) 0
                    (verification_resend_count u + 1) u in
        update_user (u_id u) (fun _ => u');;
        add_audit (AuditLog (Some (u_id u)) "user_login" "user" (Some (u_id u)) (ip_address c) (user_agent c)
          [("method", PStr "resend_verification_pin"); ("resend_count", PInt (verification_resend_count u'))]);;
        start (SendVerificationPin (email u) (u_name u) pin);;
        mret (max_resends - verification_resend_count u')
  end.

Definition login_user (now : Z) (r : entropy) (em password : string) (c : client) : M (string * string * Z) :=
  user ← user_by_email (str_lower em);
  match user with
  | None => refuse None c "Email not found" (mcp InvalidCredentialsError)
  | Some u =>
      match password_hash u with
      | Some ((String _ _) as hashed) =>
          if negb (verify_password password hashed) then
            refuse (Some (u_id u)) c "Invalid password" (mcp InvalidCredentialsError)
          else if String.eqb (status u) "rejected" then
            refuse (Some (u_id u)) c "Account rejected" (Mcp InvalidCredentialsError "Account has not been approved")
          else if negb (str_in (status u) ["active"; "pending_verification"]) then
            refuse (Some (u_id u)) c "User inactive" (Mcp InvalidCredentialsError "User account is not active")
          else
            add_audit (AuditLog (Some (u_id u)) "user_login" "user" (Some (u_id u)) (ip_address c) (user_agent c)
              [("method", PStr "email_password")]);;
            access_token ← lift_res (user_access_token now (e_nonce1 r) u default_scopes);
            refresh_token ← lift_res (create_refresh_token cfg (e_nonce2 r) now (u_id u) None (e_jti r));
            mret (access_token, refresh_token, expires_in)
      | _ => refuse (Some (u_id u)) c "OAuth-only account"
               (Mcp InvalidCredentialsError "This account uses social login. Please sign in with your OAuth provider.")
      end
  end.

(** The namespace a key is scoped to must belong to the user's account. *)
Definition check_namespace (user_id : string) (namespace_id : option string) : M unit :=
  match namespace_id with
  | None => mret tt
  | Some nid =>
      rows ← query (fun d => List.filter (fun n => String.eqb (n_id n) nid) (namespaces d));
      ns ← scalar_one_or_none rows;
      match ns with
      | None => raise (Mcp NotFoundError "Namespace not found")
      | Some n =>
          rows ← query (fun d => List.filter (fun a => String.eqb (a_user_id a) user_id) (accounts d));
          acc ← scalar_one_or_none rows;
          match acc with
          | Some a => if String.eqb (n_account_id n) (a_id a) then mret tt
                      else raise (Mcp ForbiddenError "Namespace does not belong to this account")
          | None => raise (Mcp ForbiddenError "Namespace does not belong to this account")
          end
      end
  end.

Definition create_api_key (now : Z) (r : entropy) (user_id : string) (name : option string)
    (sc : option (list string)) (namespace_id : option string) (expires_in_days : option Z) (c : client)
    : M (api_key * string) :=
  user ← user_by_id user_id;
  match user with
  | None => raise (mcp UserNotFoundError)
  | Some _ =>
      check_namespace user_id namespace_id;;
      let raw_key := generate_api_key "mcpw" (e_hex r) in
      let expires := match expires_in_days with
                     | Some days => if days =? 0 then None else Some (now + days * 86400)
                     | None => None
                     end in
      let key := APIKey (e_id1 r) user_id (hash_api_key (e_salt r) raw_key) (str_take 12 raw_key) name
                   (scopes_or_default (default [] sc)) namespace_id now None expires None in
      add_key key;;
      add_audit (AuditLog (Some user_id) "api_key_created" "api_key" (Some (k_id key)) (ip_address c) (user_agent c)
        [("key_prefix", PStr (key_prefix key)); ("scopes", PList (map PStr (scopes key)));
         ("namespace_id", match namespace_id with Some n => PStr n | None => PNone end)]);;
      mret (key, raw_key)
  end.

(** [order_by(created_at.desc())] *)
Fixpoint insert_by_created (k : api_key) (l : list api_key) : list api_key :=
  match l with
  | [] => [k]
  | k' :: l' => if created_at k' <=? created_at k then k :: l else k' :: insert_by_created k l'
  end.

Definition list_api_keys (user_id : string) (include_revoked : bool) : M (list api_key) :=
  rows ← query (fun d => List.filter (fun k =>
           String.eqb (k_user_id k) user_id && (include_revoked || is_none (revoked_at k))) (api_keys d));
  mret (foldr insert_by_created [] rows).

Definition revoke_api_key (now : Z) (user_id key_id : string) (c : client) : M api_key :=
  rows ← query (fun d => List.filter (fun k => String.eqb (k_id k) key_id && String.eqb (k_user_id k) user_id)
                  (api_keys d));
  found ← scalar_one_or_none rows;
  match found with
  | None => raise (mcp ApiKeyNotFoundError)
  | Some k =>
      match revoked_at k with
      | Some _ => raise (Mcp ApiKeyNotFoundError "API key is already revoked")
      | None =>
          let k' := APIKey (k_id k) (k_user_id k) (key_hash k) (key_prefix k) (k_name k) (scopes k) (k_namespace_id k)
                      (created_at k) (last_used_at k) (expires_at k) (Some now) in
          update_key (k_id k) (fun _ => k');;
          add_audit (AuditLog (Some user_id) "api_key_revoked" "api_key" (Some key_id) (ip_address c) (user_agent c)
            [("key_prefix", PStr (key_prefix k))]);;
          mret k'
      end
  end.
End service.

(** ** Reasoning about sessions *)

(** [m] keeps property [P] of the working tables, whether it raises or not. *)
Definition preserves {A} (P : db -> Prop) (m : M A) : Prop :=
  forall s, P (working s) -> P (working (m s).2).

Lemma preserves_ret {A} P (a : A) : preserves P (mret a).
Proof. by intros s. Qed.
Lemma preserves_raise {A} P e : preserves P (raise e : M A).
Proof. by intros s. Qed.
Lemma preserves_query {A} P (f : db -> A) : preserves P (query f).
Proof. by intros s. Qed.
Lemma preserves_start P e : preserves P (start e).
Proof. by intros s. Qed.
Lemma preserves_lift {A} P (r : res exn A) : preserves P (lift_res r : M A).
Proof. by intros s. Qed.
Lemma preserves_bind {A B} P (m : M A) (f : A -> M B) :
  preserves P m -> (forall a, preserves P (f a)) -> preserves P (m ≫= f).
Proof.
  intros Hm Hf s Hs. unfold mbind, stm_bind. specialize (Hm s Hs).
  destruct (m s) as [[a|e] s']; [by apply Hf|done].
Qed.
Lemma preserves_if {A} P (b : bool) (m m' : M A) : preserves P m -> preserves P m' -> preserves P (if b then m else m').
Proof. by destruct b. Qed.
Lemma preserves_modify P f : (forall d, P d -> P (f d)) -> preserves P (modify f).
Proof. intros Hf s Hs. by apply Hf. Qed.
Lemma preserves_scalar_one_or_none {A} P (l : list A) : preserves P (scalar_one_or_none l).
Proof. by destruct l as [|? []]; intros s. Qed.
Lemma preserves_scalar_one {A} P (l : list A) : preserves P (scalar_one l).
Proof. by destruct l as [|? []]; intros s. Qed.

Lemma preserves_after {A B} P (m : M A) (f : A -> M B) s :
  P (working (m s).2) -> (forall a, preserves P (f a)) -> P (working ((m ≫= f) s).2).
Proof. intros Hm Hf. unfold mbind, stm_bind. destruct (m s) as [[a|e] s']; [by apply Hf|done]. Qed.
(** Two changes that keep [P] together. *)
Lemma preserves_modify_two {B} P f g (k : M B) s :
  P (g (f (working s))) -> preserves P k -> P (working ((modify f;; modify g;; k) s).2).
Proof. intros Hd Hk. by apply Hk. Qed.

Create HintDb session.
#[export] Hint Resolve preserves_ret preserves_raise preserves_query preserves_start preserves_lift preserves_bind
  preserves_if preserves_scalar_one_or_none preserves_scalar_one : session.

(** Rows are found by their identifier, and only they. *)
Lemma scalar_one_or_none_Some {A} (l : list A) s a s' :
  scalar_one_or_none l s = (Ok (Some a), s') -> l = [a] /\ s' = s.
Proof. unfold scalar_one_or_none, raise, mret, stm_ret. destruct l as [|x [|y l]]; intros [=]; by subst. Qed.
Lemma scalar_one_or_none_None {A} (l : list A) s s' :
  scalar_one_or_none l s = (Ok None, s') -> l = [] /\ s' = s.
Proof. unfold scalar_one_or_none, raise, mret, stm_ret. destruct l as [|x [|y l]]; intros [=]; by subst. Qed.

(** The row with an identifier that is unique. *)
Lemma filter_by_unique (us : list user) u :
  NoDup (map u_id us) -> u ∈ us -> List.filter (fun v => String.eqb (u_id v) (u_id u)) us = [u].
Proof.
  induction us as [|v us IH]; [intros _ Hu; by apply not_elem_of_nil in Hu|]. cbn.
  intros [Hn Hd]%NoDup_cons [->|Hu]%elem_of_cons.
  - rewrite String.eqb_refl. f_equal. clear -Hn. induction us as [|w us IH]; [done|]. cbn in *.
    apply not_elem_of_cons in Hn as [Hne Hn]. destruct (String.eqb_spec (u_id w) (u_id v)); [congruence|by apply IH].
  - destruct (String.eqb_spec (u_id v) (u_id u)) as [E|]; [|by apply IH].
    destruct Hn. rewrite E. apply list_elem_of_In, in_map. by apply list_elem_of_In.
Qed.

Lemma filter_singleton_elem {A} (p : A -> bool) (l : list A) a : List.filter p l = [a] -> a ∈ l /\ p a = true.
Proof.
  intros Hf. assert (In a (List.filter p l)) as Hin by (rewrite Hf; by left).
  apply filter_In in Hin as [Hin Hp]. split; [by apply list_elem_of_In|done].
Qed.

Lemma user_by_id_Some id s u s' :
  user_by_id id s = (Ok (Some u), s') -> s' = s /\ u ∈ users (working s) /\ u_id u = id.
Proof.
  unfold user_by_id, mbind, stm_bind, query. intros [Hl ->]%scalar_one_or_none_Some.
  apply filter_singleton_elem in Hl as [? ?%String.eqb_eq]. done.
Qed.

(** ** The invariant of the tables *)

Definition lower_fixed (e : string) : Prop := str_lower e = e.

(** Identifiers and e-mail addresses are unique, addresses are in lower case,
    and no user has two accounts. *)
Record wf (d : db) : Prop := {
  wf_ids : NoDup (map u_id (users d));
  wf_emails : NoDup (map email (users d));
  wf_lower : Forall lower_fixed (map email (users d));
  wf_accounts : NoDup (map a_user_id (accounts d));
  wf_keys : NoDup (map k_id (api_keys d));
  wf_owned : Forall (fun a => a_user_id a ∈ map u_id (users d)) (accounts d)
}.

Lemma wf_add_audit l : preserves wf (add_audit l).
Proof. apply preserves_modify. intros d []. by constructor. Qed.

Lemma map_update_fixed {A B} (g : A -> B) (c : A -> bool) (f : A -> A) (l : list A) :
  (forall a, a ∈ l -> c a = true -> g (f a) = g a) -> map g (map (fun a => if c a then f a else a) l) = map g l.
Proof.
  intros Hf. rewrite map_map. apply map_ext_in. intros a Ha%list_elem_of_In.
  destruct (c a) eqn:E; [by apply Hf|done].
Qed.

Lemma wf_update_user id f :
  (forall u, u_id u = id -> u_id (f u) = u_id u /\ email (f u) = email u) -> preserves wf (update_user id f).
Proof.
  intros Hf. apply preserves_modify. intros d [].
  assert (map u_id (map (fun u => if String.eqb (u_id u) id then f u else u) (users d)) = map u_id (users d)) as H1
    by (apply map_update_fixed; intros u _ ?%String.eqb_eq; by apply Hf).
  assert (map email (map (fun u => if String.eqb (u_id u) id then f u else u) (users d)) = map email (users d)) as H2
    by (apply map_update_fixed; intros u _ ?%String.eqb_eq; by apply Hf).
  constructor; cbn; by rewrite ?H1, ?H2.
Qed.

(** Replacing the row that was loaded by a changed copy. *)
Lemma wf_replace_user u u' s :
  u ∈ users (working s) -> u_id u' = u_id u -> email u' = email u ->
  wf (working s) -> wf (working (update_user (u_id u) (fun _ => u') s).2).
Proof.
  intros Hu Hid Hem Hwf. destruct (working s) as [us ac ks au nss] eqn:E. cbn in *. rewrite E. cbn.
  assert (forall v, v ∈ us -> String.eqb (u_id v) (u_id u) = true -> v = u) as Heq.
  { intros v Hv ?%String.eqb_eq. destruct Hwf as [Hn _ _ _ _ _]. cbn in Hn.
    eapply NoDup_map_inj; eauto. }
  assert (map u_id (map (fun v => if String.eqb (u_id v) (u_id u) then u' else v) us) = map u_id us) as H1
    by (apply map_update_fixed; intros v Hv Hc; by rewrite (Heq v Hv Hc)).
  assert (map email (map (fun v => if String.eqb (u_id v) (u_id u) then u' else v) us) = map email us) as H2
    by (apply map_update_fixed; intros v Hv Hc; by rewrite (Heq v Hv Hc)).
  destruct Hwf. constructor; cbn in *; by rewrite ?H1, ?H2.
Qed.

Lemma wf_update_key id f :
  (forall k, k_id k = id -> k_id (f k) = id) -> preserves wf (update_key id f).
Proof.
  intros Hf. apply preserves_modify. intros d []. constructor; cbn; try done.
  rewrite map_update_fixed; [done|]. intros k _ E%String.eqb_eq. by rewrite Hf.
Qed.

#[export] Hint Resolve wf_add_audit : session.

Section facts.
Context `{CryptoLaws} (cfg : settings).
#[local] Set Default Proof Using "Type*".

Lemma wf_user_by_id id : preserves wf (user_by_id id).
Proof. unfold user_by_id. eauto with session. Qed.
Lemma wf_user_by_email e : preserves wf (user_by_email e).
Proof. unfold user_by_email. eauto with session. Qed.
Lemma wf_refuse {A} u c reason e : preserves wf (refuse u c reason e : M A).
Proof. unfold refuse, _log_auth_failure. eauto 6 with session. Qed.
Lemma wf_log_success u k c : preserves wf (_log_auth_success u k c).
Proof. apply wf_add_audit. Qed.
#[local] Hint Resolve wf_user_by_id wf_user_by_email (@wf_refuse) wf_log_success : session.

Lemma wf_validate now r raw c : preserves wf (validate_api_key now r raw c).
Proof.
  unfold validate_api_key. apply preserves_if; [eauto with session|].
  apply preserves_bind; [eauto with session|]. intros [|k ks]; [eauto with session|].
  destruct (List.find _ _) as [v|]; [|eauto with session]. apply preserves_if; [eauto with session|].
  apply preserves_bind; [by apply wf_update_key|intros _].
  apply preserves_bind; [eauto with session|]. intros [u|]; eauto with session.
Qed.
#[local] Hint Resolve wf_validate : session.

Lemma wf_verify_pin now id pin c : preserves wf (verify_email_pin now id pin c).
Proof.
  intros s Hs. unfold verify_email_pin. unfold mbind at 1, stm_bind at 1.
  pose proof (wf_user_by_id id s Hs) as Hw.
  destruct (user_by_id id s) as [[[u|]|e] s1] eqn:E; [|done|done].
  apply user_by_id_Some in E as (-> & Hu & Hid). destruct (email_verified u); [done|].
  destruct (verification_token u) as [[|ch tk]|]; [done| |done].
  destruct (verification_pin_expires_at u) as [pe|]; [|done].
  destruct (5 <=? _); [done|]. destruct (pe <=? now); [done|]. destruct (negb _).
  - revert s Hs Hw Hu. intros s Hs _ _. revert s Hs.
    apply (preserves_bind wf); [by apply wf_update_user|intros _]. eauto with session.
  - apply preserves_after; [by apply (wf_replace_user u)|intros _; eauto with session].
Qed.

Lemma wf_resend now r id c : preserves wf (resend_verification_pin now r id c).
Proof.
  intros s Hs. unfold resend_verification_pin. unfold mbind at 1, stm_bind at 1.
  pose proof (wf_user_by_id id s Hs) as Hw.
  destruct (user_by_id id s) as [[[u|]|e] s1] eqn:E; [|done|done].
  apply user_by_id_Some in E as (-> & Hu & Hid). destruct (email_verified u); [done|].
  destruct (max_resends <=? _); [done|]. destruct (_generate_pin r) as [pin pin_hash].
  apply preserves_after; [by apply (wf_replace_user u)|intros _; eauto with session].
Qed.

Lemma wf_login now r em pw c : preserves wf (login_user cfg now r em pw c).
Proof.
  unfold login_user. apply preserves_bind; [eauto with session|]. intros [u|]; [|eauto with session].
  destruct (password_hash u) as [[|ch h]|]; [eauto with session| |eauto with session].
  repeat (apply preserves_if; [eauto with session|]). eauto 8 with session.
Qed.

(** The values drawn for identifiers are not in use. *)
Definition fresh (r : entropy) (d : db) : Prop :=
  (e_id1 r ∉ map u_id (users d)) /\ (e_id1 r ∉ map k_id (api_keys d)).

(** Adding the user and the account of a registration. *)
Lemma wf_register_rows d u a :
  wf d -> u_id u ∉ map u_id (users d) -> email u ∉ map email (users d) -> lower_fixed (email u) ->
  a_user_id a = u_id u ->
  wf (Db (users d ++ [u]) (accounts d ++ [a]) (api_keys d) (audit_logs d) (namespaces d)).
Proof.
  intros [Hi He Hl Ha Hk Ho] Hid Hem Hlow Hau. constructor; cbn; rewrite ?map_app; cbn; try done.
  - by apply NoDup_snoc.
  - by apply NoDup_snoc.
  - apply Forall_app. split; [done|by repeat constructor].
  - apply NoDup_snoc; [done|]. rewrite Hau. intros (b & Hb & Hin)%list_elem_of_In%in_map_iff.
    apply list_elem_of_In in Hin. apply (proj1 (Forall_forall _ _) Ho) in Hin. congruence.
  - apply Forall_app. split; [|rewrite Forall_singleton, Hau; set_solver].
    apply (Forall_impl _ _ _ Ho). intros b ?. apply elem_of_app. by left.
Qed.

Lemma user_by_email_None e s s' :
  user_by_email e s = (Ok None, s') -> s' = s /\ (e ∉ map email (users (working s))).
Proof.
  unfold user_by_email, mbind, stm_bind, query. intros [Hl ->]%scalar_one_or_none_None. split; [done|].
  intros (u & <- & Hin)%list_elem_of_In%in_map_iff.
  assert (In u (List.filter (fun v => String.eqb (email v) (email u)) (users (working s)))) as Hf
    by (apply filter_In; by rewrite String.eqb_refl).
  by rewrite Hl in Hf.
Qed.

Lemma wf_register now r em pw name c tos s :
  wf (working s) -> fresh r (working s) -> wf (working (register_user cfg now r em pw name c tos s).2).
Proof.
  intros Hs [Hf _]. unfold register_user. unfold mbind at 1, stm_bind at 1.
  pose proof (wf_user_by_email (str_lower em) s Hs) as Hw.
  destruct (user_by_email (str_lower em) s) as [[[u|]|e] s1] eqn:E; [done| |done].
  apply user_by_email_None in E as [-> Hem].
  cbv zeta. unfold add_user, add_account. apply (preserves_modify_two wf); [|eauto 10 with session].
  apply (wf_register_rows (working s) (new_user now r em pw name tos) (Account _ _ _)); try done.
  apply str_lower_idem.
Qed.

Lemma wf_check_namespace uid nid : preserves wf (check_namespace uid nid).
Proof.
  unfold check_namespace. destruct nid as [n|]; [|eauto with session].
  apply preserves_bind; [eauto with session|intros rows]. apply preserves_bind; [eauto with session|].
  intros [ns|]; [|eauto with session]. apply preserves_bind; [eauto with session|intros rows'].
  apply preserves_bind; [eauto with session|]. intros [a|]; eauto with session.
Qed.

Lemma wf_add_key d k : wf d -> k_id k ∉ map k_id (api_keys d) -> wf (set_keys (fun l => l ++ [k]) d).
Proof. intros [] Hk. constructor; cbn; try done. rewrite map_app. by apply NoDup_snoc. Qed.

(** Looking up changes nothing. *)
Lemma check_namespace_state uid nid s o s' : check_namespace uid nid s = (o, s') -> s' = s.
Proof.
  unfold check_namespace, scalar_one_or_none, query, mbind, stm_bind, raise, mret, stm_ret.
  intros E. repeat (case_match; simplify_eq/=; try done).
Qed.
Lemma user_by_id_state id s o s' : user_by_id id s = (o, s') -> s' = s.
Proof.
  unfold user_by_id, scalar_one_or_none, query, mbind, stm_bind, raise, mret, stm_ret.
  intros E. repeat (case_match; simplify_eq/=; try done).
Qed.

(** The key [create_api_key] adds. *)
Definition new_key (now : Z) (r : entropy) (user_id : string) (name : option string) (sc : option (list string))
    (namespace_id : option string) (expires_in_days : option Z) : api_key :=
  let raw_key := generate_api_key "mcpw" (e_hex r) in
  APIKey (e_id1 r) user_id (hash_api_key (e_salt r) raw_key) (str_take 12 raw_key) name
    (scopes_or_default (default [] sc)) namespace_id now None
    (match expires_in_days with Some days => if days =? 0 then None else Some (now + days * 86400) | None => None end) None.

(** Creation either changes nothing or adds that key and an audit row. *)
Lemma create_api_key_cases now r uid name sc nid days c s :
  let '(o, s') := create_api_key now r uid name sc nid days c s in
  match o with
  | Ok (k, raw) => k = new_key now r uid name sc nid days /\ raw = generate_api_key "mcpw" (e_hex r) /\
      users (working s') = users (working s) /\ api_keys (working s') = api_keys (working s) ++ [k] /\
      accounts (working s') = accounts (working s)
  | Err _ => s' = s
  end.
Proof.
  unfold create_api_key. unfold mbind at 1, stm_bind at 1.
  destruct (user_by_id uid s) as [[[u|]|e] s1] eqn:E; apply user_by_id_state in E as ->; [|done|done].
  unfold mbind at 1, stm_bind at 1. destruct (check_namespace uid nid s) as [[[]|e] s1] eqn:E;
    apply check_namespace_state in E as ->; [|done]. by repeat split.
Qed.

Lemma wf_create_key now r uid name sc nid days c s :
  wf (working s) -> fresh r (working s) -> wf (working (create_api_key now r uid name sc nid days c s).2).
Proof.
  intros Hs [_ Hf]. pose proof (create_api_key_cases now r uid name sc nid days c s) as Hc.
  destruct (create_api_key _ _ _ _ _ _ _ _ s) as [[[k raw]|e] s']; [|by subst].
  destruct Hc as (-> & _ & Hu & Hk & Ha). cbn [snd]. destruct Hs. constructor; rewrite ?Hu, ?Hk, ?Ha; try done.
  rewrite map_app. by apply NoDup_snoc.
Qed.

Lemma wf_revoke now uid kid c : preserves wf (revoke_api_key now uid kid c).
Proof.
  unfold revoke_api_key. apply preserves_bind; [eauto with session|intros rows].
  apply preserves_bind; [eauto with session|]. intros [k|]; [|eauto with session].
  destruct (revoked_at k); [eauto with session|]. apply preserves_bind; [|eauto with session].
  by apply wf_update_key.
Qed.

(** The operations of the service, as a request may call them. *)
Inductive op :=
| ValidateKey (now : Z) (raw_key : string) (c : client)
| ExchangeKey (now : Z) (raw_key : string) (c : client)
| Refresh (now : Z) (token : string)
| Register (now : Z) (em password : string) (name : option string) (c : client) (accept_tos : bool)
| VerifyPin (now : Z) (user_id pin : string) (c : client)
| ResendPin (now : Z) (user_id : string) (c : client)
| Login (now : Z) (em password : string) (c : client)
| CreateKey (now : Z) (user_id : string) (name : option string) (sc : option (list string))
    (namespace_id : option string) (days : option Z) (c : client)
| ListKeys (user_id : string) (include_revoked : bool)
| RevokeKey (now : Z) (user_id key_id : string) (c : client).

Definition run_op (r : entropy) (o : op) : M unit :=
  match o with
  | ValidateKey now raw c => validate_api_key now r raw c;; mret tt
  | ExchangeKey now raw c => exchange_api_key_for_tokens cfg now r raw c;; mret tt
  | Refresh now t => refresh_access_token cfg now r t;; mret tt
  | Register now em pw name c tos => register_user cfg now r em pw name c tos;; mret tt
  | VerifyPin now id pin c => verify_email_pin now id pin c;; mret tt
  | ResendPin now id c => resend_verification_pin now r id c;; mret tt
  | Login now em pw c => login_user cfg now r em pw c;; mret tt
  | CreateKey now id name sc nid days c => create_api_key now r id name sc nid days c;; mret tt
  | ListKeys id rev => list_api_keys id rev;; mret tt
  | RevokeKey now id kid c => revoke_api_key now id kid c;; mret tt
  end.

Lemma wf_exchange now r raw c : preserves wf (exchange_api_key_for_tokens cfg now r raw c).
Proof.
  unfold exchange_api_key_for_tokens. apply preserves_bind; [eauto with session|intros u].
  apply preserves_bind; [eauto with session|intros rows]. eauto 8 with session.
Qed.

Lemma wf_refresh now r t : preserves wf (refresh_access_token cfg now r t).
Proof.
  unfold refresh_access_token, as_uuid. apply preserves_bind; [eauto with session|intros p].
  apply preserves_bind; [eauto with session|intros sub]. apply preserves_bind; [destruct (uuid_parse sub); eauto with session|].
  intros id. apply preserves_bind; [eauto with session|]. intros [u|]; eauto with session.
Qed.

Lemma wf_list id b : preserves wf (list_api_keys id b).
Proof. unfold list_api_keys. eauto with session. Qed.

(** Every operation of the service, whether it succeeds or raises, keeps
    the tables well formed: user and key identifiers and e-mail addresses stay
    unique, addresses stay in lower case, and no user gets a second account or
    an account without a user. *)
Theorem auth_tables_invariant r o s :
  wf (working s) -> fresh r (working s) -> wf (working (run_op r o s).2).
Proof.
  intros Hs Hf. destruct o; cbn [run_op]; (apply preserves_after; [|eauto with session]);
    first [by apply wf_validate|by apply wf_exchange|by apply wf_refresh|by apply wf_register|by apply wf_verify_pin
          |by apply wf_resend|by apply wf_login|by apply wf_create_key|by apply wf_list|by apply wf_revoke].
Qed.

(** ** API keys *)

(** Run the assignment to a key, naming the session after it. *)
Ltac run_update_key s s1 Hu :=
  unfold mbind at 1, stm_bind at 1;
  match goal with
  | |- context [update_key ?i ?f s] =>
      set (s1 := (update_key i f s).2); assert (users (working s1) = users (working s)) as Hu by done;
      change (update_key i f s) with (Ok tt : res exn unit, s1)
  end; cbv beta iota.

(** The key a raw key stands for. *)
Definition matching_key (raw : string) (d : db) : option api_key :=
  List.find (fun k => verify_api_key raw (key_hash k)) (live_keys (str_take 12 raw) d).

Lemma validate_no_match now r raw c s :
  matching_key raw (working s) = None -> (validate_api_key now r raw c s).1 = Err (mcp InvalidApiKeyError).
Proof.
  unfold matching_key, validate_api_key. intros Hm. destruct (_ <? _)%nat; [done|].
  unfold mbind at 1, stm_bind at 1, query. destruct (live_keys _ _) as [|k ks]; [done|]. by rewrite Hm.
Qed.

(** What an accepted key was checked for. *)
Lemma validate_accepted now r raw c s u s' :
  validate_api_key now r raw c s = (Ok u, s') ->
  exists k, matching_key raw (working s) = Some k /\ expired now (expires_at k) = false /\
    u ∈ users (working s) /\ u_id u = k_user_id k /\ status u = "active".
Proof.
  unfold validate_api_key, matching_key. destruct (_ <? _)%nat; [done|].
  unfold mbind at 1, stm_bind at 1, query.
  destruct (live_keys _ _) as [|k0 ks]; [done|]. destruct (List.find _ _) as [k|]; [|done].
  destruct (expired now (expires_at k)) eqn:Ex; [done|]. run_update_key s s1 Hu.
  unfold mbind at 1, stm_bind at 1.
  destruct (user_by_id (k_user_id k) s1) as [[[v|]|e] s2] eqn:E; [|done|done].
  apply user_by_id_Some in E as (-> & Hin & Hid). destruct (String.eqb_spec (status v) "active"); [|done].
  intros [= <- _]. exists k. rewrite Hu in Hin. done.
Qed.

Lemma matching_key_Some raw d k :
  matching_key raw d = Some k ->
  k ∈ api_keys d /\ key_prefix k = str_take 12 raw /\ revoked_at k = None /\ verify_api_key raw (key_hash k) = true.
Proof.
  unfold matching_key, live_keys. intros [Hin Hv]%find_some. apply filter_In in Hin as [Hin Hp].
  apply andb_true_iff in Hp as [Hp%String.eqb_eq Hr]. apply list_elem_of_In in Hin.
  destruct (revoked_at k); done.
Qed.

(** [C36]  Authentication by API key is sound: whoever is let in is an active
    user who owns a stored key that has the prefix of the key presented, whose
    hash it verifies against, and which is neither revoked nor expired. *)
Theorem validate_api_key_sound now r raw c s u s' :
  validate_api_key now r raw c s = (Ok u, s') ->
  u ∈ users (working s) /\ status u = "active" /\
  exists k, k ∈ api_keys (working s) /\ k_user_id k = u_id u /\ key_prefix k = str_take 12 raw /\
    verify_api_key raw (key_hash k) = true /\ revoked_at k = None /\
    (forall t, expires_at k = Some t -> now < t).
Proof.
  intros (k & Hm & Hx & Hu & Hid & Ha)%validate_accepted. apply matching_key_Some in Hm as (H1 & H2 & H3 & H4).
  split; [done|]. split; [done|]. exists k. repeat split; try done.
  intros t Ht. rewrite Ht in Hx. cbn in Hx. by apply Z.leb_gt in Hx.
Qed.

(** What [revoke_api_key] does when it succeeds. *)
Lemma revoke_ok now uid kid c s k s' :
  revoke_api_key now uid kid c s = (Ok k, s') ->
  exists k0, k0 ∈ api_keys (working s) /\ k_id k0 = kid /\ k_user_id k0 = uid /\ revoked_at k0 = None /\
  revoked_at k = Some now /\
  api_keys (working s') = map (fun x => if String.eqb (k_id x) kid then k else x) (api_keys (working s)).
Proof.
  unfold revoke_api_key. unfold mbind at 1, stm_bind at 1, query. unfold mbind at 1, stm_bind at 1.
  destruct (scalar_one_or_none _ s) as [[[k0|]|e] s1] eqn:E; [|done|done].
  apply scalar_one_or_none_Some in E as [Hf ->]. apply filter_singleton_elem in Hf as [Hin Hp].
  apply andb_true_iff in Hp as [Hk%String.eqb_eq Hu%String.eqb_eq].
  destruct (revoked_at k0) eqn:Er; [done|]. intros [= <- <-]. exists k0. cbn. by rewrite Hk.
Qed.

(** A revoked key stops working at once: after [revoke_api_key] succeeds,
    the raw key it was issued for (one that no other stored key verifies) is
    refused, for every user and at every later time. *)
Theorem revoked_key_rejected now uid kid c s k s' raw now' r c' :
  revoke_api_key now uid kid c s = (Ok k, s') ->
  (forall x, x ∈ api_keys (working s) -> verify_api_key raw (key_hash x) = true -> k_id x = kid) ->
  (validate_api_key now' r raw c' s').1 = Err (mcp InvalidApiKeyError).
Proof.
  intros (k0 & Hin & Hk & Hu & Hr & Hr' & Hkeys)%revoke_ok Honly. apply validate_no_match.
  unfold matching_key, live_keys. rewrite Hkeys. apply find_none_iff. intros x Hx.
  apply list_elem_of_In, filter_In in Hx as [Hx Hp]. apply in_map_iff in Hx as (y & Hy & Hyin).
  apply andb_true_iff in Hp as [_ Hp]. destruct (String.eqb_spec (k_id y) kid) as [|Hne]; subst x.
  - by rewrite Hr' in Hp.
  - destruct (verify_api_key raw (key_hash y)) eqn:E; [|done]. destruct Hne. apply Honly; [by apply list_elem_of_In|done].
Qed.

(** The accepting run, step by step. *)
Lemma validate_run now r raw c s k u :
  (12 <= String.length raw)%nat -> matching_key raw (working s) = Some k -> expired now (expires_at k) = false ->
  List.filter (fun v => String.eqb (u_id v) (k_user_id k)) (users (working s)) = [u] -> status u = "active" ->
  (validate_api_key now r raw c s).1 = Ok u.
Proof.
  intros Hl Hm Hx Hu Ha. unfold validate_api_key. rewrite (proj2 (Nat.ltb_ge _ _) Hl).
  unfold matching_key in Hm. unfold mbind at 1, stm_bind at 1, query.
  destruct (live_keys _ _) as [|k0 ks]; [done|]. rewrite Hm, Hx. run_update_key s s1 Hs1.
  unfold user_by_id, query, mbind, stm_bind. rewrite Hs1, Hu. cbn [scalar_one_or_none mret stm_ret]. by rewrite Ha.
Qed.

(** A created key works: the raw key [create_api_key] returns, presented
    before its expiry, authenticates the user it was created for, as long as
    that user is active and no other stored key verifies it. *)
Theorem created_key_validates now r uid name sc nid days c s k raw s' u now' r' c' :
  wf (working s) ->
  create_api_key now r uid name sc nid days c s = (Ok (k, raw), s') ->
  u ∈ users (working s) -> u_id u = uid -> status u = "active" ->
  (7 <= String.length (e_hex r))%nat ->
  (forall x, x ∈ api_keys (working s) -> verify_api_key raw (key_hash x) = false) ->
  (forall t, expires_at k = Some t -> now' < t) ->
  (validate_api_key now' r' raw c' s').1 = Ok u.
Proof.
  intros Hwf Hc Hu Hid Ha Hlen Hother Hexp. pose proof (create_api_key_cases now r uid name sc nid days c s) as Hk.
  rewrite Hc in Hk. destruct Hk as (-> & -> & Hus & Hks & _).
  apply (validate_run _ _ _ _ _ (new_key now r uid name sc nid days)).
  - unfold generate_api_key. rewrite !str_length_app. cbn. lia.
  - unfold matching_key, live_keys. rewrite Hks, List.filter_app. apply find_app_last.
    + intros x Hx. apply Hother, list_elem_of_In. by apply list_elem_of_In, filter_In in Hx as [? _].
    + unfold new_key. cbn [List.filter key_prefix revoked_at is_none]. rewrite String.eqb_refl. cbn [andb].
      cbn [List.find key_hash]. unfold verify_api_key, hash_api_key. by rewrite hasher_verify_hash.
  - destruct (expires_at _) as [t|] eqn:E; [|done]. apply Z.leb_gt. by apply Hexp.
  - rewrite Hus. cbn [new_key k_user_id]. subst uid. apply filter_by_unique; [apply Hwf|done].
  - done.
Qed.

(** ** Refreshing *)

Lemma user_access_token_scopes sk pk now nonce u sc0 sc tok t x :
  _get_private_key cfg = Ok sk -> _get_public_key cfg = Ok pk -> pair sk pk ->
  user_access_token cfg now nonce u (sc0 :: sc) = Ok tok -> now <= t -> t < now + expires_in cfg ->
  (p ← verify_access_token cfg t tok; Ok (has_scope x p)) = Ok (existsb (fun y => String.eqb y x) (sc0 :: sc)).
Proof.
  intros Hsk Hpk Hpair Htok Ht Ht'. unfold user_access_token, create_access_token in Htok. rewrite Hsk in Htok.
  injection Htok as <-. unfold verify_access_token, decode_token. rewrite Hpk. cbn [mbind res_bind].
  rewrite jwt_decode_encode; [|done|].
  2:{ split; [by exists now|]. split; [by exists (now + expires_in cfg)|]. done. }
  unfold mbind, res_bind. cbn. f_equal. f_equal. clear. induction sc; cbn; [done|]. by rewrite IHsc.
Qed.

(** Refreshing hands out the full scopes: whatever the scopes of the API
    key a refresh token was obtained with, the access token that
    [refresh_access_token] issues carries read, write and execute; it is issued
    only to a user who is active at that time. *)
Theorem refresh_grants_all_scopes sk pk now r tok s tok' ex s' t x :
  _get_private_key cfg = Ok sk -> _get_public_key cfg = Ok pk -> pair sk pk ->
  refresh_access_token cfg now r tok s = (Ok (tok', ex), s') ->
  now <= t -> t < now + expires_in cfg -> x ∈ default_scopes ->
  (p ← verify_access_token cfg t tok'; Ok (has_scope x p)) = Ok true /\
  exists u, u ∈ users (working s) /\ status u = "active".
Proof.
  intros Hsk Hpk Hpair Href Ht Ht' Hx. unfold refresh_access_token, lift_res, as_uuid in Href.
  unfold mbind, stm_bind, mret, stm_ret, raise in Href.
  destruct (verify_refresh_token cfg now tok) as [p|e]; [|done]. destruct (subject p) as [sub|e]; [|done].
  destruct (uuid_parse sub) as [id|]; [|done].
  destruct (user_by_id id s) as [[[u|]|e] s1] eqn:E; [|done|done].
  apply user_by_id_Some in E as (-> & Hu & _). destruct (String.eqb_spec (status u) "active") as [Ha|]; [|done].
  destruct (user_access_token cfg now (e_nonce1 r) u default_scopes) as [tk|e] eqn:Et; [|done].
  injection Href as <- <- <-. split; [|eauto].
  rewrite (user_access_token_scopes sk pk now (e_nonce1 r) u "read" ["write"; "execute"] _ _ _ Hsk Hpk Hpair Et Ht Ht').
  unfold default_scopes in Hx. set_unfold in Hx. by destruct Hx as [->|[->|[->|[]]]].
Qed.
End facts.

(** ** Concrete runs *)

Definition demo_id : string := "00000000-0000-4000-8000-000000000001".
Definition demo_user : user :=
  User demo_id "ada@example.com" (Some "argon2:secret") (Some "Ada") "pro" "active" true None None 0 0 None None.
Definition demo_db : db := Db [demo_user] [Account "acc1" demo_id None] [] [] [].
Definition demo_session : session := Session demo_db demo_db [].
Definition demo_entropy : entropy := Entropy 0 1 2 "jti" "0123456789abcdef" "id1" "id2" 42.
Definition demo_client : client := Client (Some "10.0.0.1") None.

(** A key created for [demo_user] with the scope to read. *)
Definition demo_created : res exn (api_key * string) * session :=
  create_api_key 1000 demo_entropy demo_id None (Some ["read"]) None (Some 30) demo_client demo_session.
Definition demo_raw : string := "mcpw_0123456789abcdef".
Definition demo_key : api_key := new_key 1000 demo_entropy demo_id None (Some ["read"]) None (Some 30).

Lemma demo_wf : wf demo_db.
Proof. constructor; cbn; repeat constructor; try set_solver. Qed.

Lemma auth_tables_invariant_witness :
  wf (working (run_op toy_settings demo_entropy (Register 5 "Bob@Example.com" "pw" None demo_client true) demo_session).2).
Proof.
  apply (@auth_tables_invariant toy_crypto toy_crypto_laws); [apply demo_wf|]. split; cbn; set_solver.
Defined.

Lemma created_key_validates_witness :
  demo_created.1 = Ok (demo_key, demo_raw) /\
  (validate_api_key 2000 demo_entropy demo_raw demo_client demo_created.2).1 = Ok demo_user.
Proof.
  split; [vm_compute; reflexivity|].
  apply (@created_key_validates toy_crypto toy_crypto_laws 1000 demo_entropy demo_id None (Some ["read"]) None (Some 30)
    demo_client demo_session demo_key demo_raw); try (vm_compute; reflexivity).
  - apply demo_wf.
  - set_solver.
  - cbn. lia.
  - intros x Hx. by apply not_elem_of_nil in Hx.
  - intros t [= <-]. lia.
Defined.

Lemma validate_api_key_sound_witness :
  demo_user ∈ users (working demo_created.2) /\ status demo_user = "active" /\
  exists k, k ∈ api_keys (working demo_created.2) /\ k_user_id k = demo_id /\ key_prefix k = str_take 12 demo_raw /\
    verify_api_key demo_raw (key_hash k) = true /\ revoked_at k = None /\
    (forall t, expires_at k = Some t -> 2000 < t).
Proof.
  apply (@validate_api_key_sound toy_crypto toy_crypto_laws 2000 demo_entropy demo_raw demo_client demo_created.2 demo_user
    (validate_api_key 2000 demo_entropy demo_raw demo_client demo_created.2).2).
  vm_compute. reflexivity.
Defined.

Lemma revoked_key_rejected_witness :
  (validate_api_key 4000 demo_entropy demo_raw demo_client
     (revoke_api_key 3000 demo_id "id1" demo_client demo_created.2).2).1 = Err (mcp InvalidApiKeyError).
Proof.
  eapply (@revoked_key_rejected toy_crypto toy_crypto_laws 3000 demo_id "id1" demo_client demo_created.2);
    [vm_compute; reflexivity|].
  intros x Hx _. vm_compute in Hx. apply list_elem_of_singleton in Hx as ->. reflexivity.
Defined.

(** A refresh token of [demo_user]. *)
Definition demo_refresh : string := write_token (refresh_payload toy_settings 1000 demo_id None "jti").

Lemma refresh_grants_all_scopes_witness :
  exists tok', (refresh_access_token toy_settings 2000 demo_entropy demo_refresh demo_session).1 = Ok (tok', 3600) /\
  (p ← verify_access_token toy_settings 2500 tok'; Ok (has_scope "write" p)) = Ok true /\
  exists u, u ∈ users (working demo_session) /\ status u = "active".
Proof.
  eexists. split; [vm_compute; reflexivity|].
  eapply (@refresh_grants_all_scopes toy_crypto toy_crypto_laws toy_settings tt tt 2000 demo_entropy demo_refresh demo_session);
    [reflexivity|reflexivity|exact I|vm_compute; reflexivity|lia|vm_compute; reflexivity|set_solver].
Defined.

(** From a key that may only read, to a token that may write. *)
Example refresh_escalates :
  let '(o, s) := exchange_api_key_for_tokens toy_settings 2000 demo_entropy demo_raw demo_client demo_created.2 in
  match o with
  | Ok (access, refresh, _) =>
      (p ← verify_access_token toy_settings 2500 access; Ok (has_scope "write" p)) = Ok false /\
      match (refresh_access_token toy_settings 2500 demo_entropy refresh s).1 with
      | Ok (access', _) => (p ← verify_access_token toy_settings 2600 access'; Ok (has_scope "write" p)) = Ok true
      | Err _ => False
      end
  | Err _ => False
  end.
Proof. vm_compute. done. Qed.

(** With a revoked key of the same prefix in the table, exchanging a valid key
    fails although [validate_api_key] accepts it: the second query does not
    leave revoked keys out. *)
Example exchange_fails_on_shared_prefix :
  let s := (revoke_api_key 1500 demo_id "id1" demo_client demo_created.2).2 in
  let r := Entropy 0 1 2 "jti" "0123456zzz" "id3" "id4" 7 in
  let '(_, s1) := create_api_key 1600 r demo_id None None None None demo_client s in
  (validate_api_key 2000 r "mcpw_0123456zzz" demo_client s1).1 = Ok demo_user /\
  (exchange_api_key_for_tokens toy_settings 2000 r "mcpw_0123456zzz" demo_client s1).1 = Err MultipleResultsFound.
Proof. vm_compute. done. Qed.
