(* ===== verification/AuthApi.v ===== *)
(** * The authentication endpoints

    [api/v1/auth.py], the transaction that [core/database.py] puts around a
    request, and the dependencies of [dependencies.py] that read the user
    table.  The rate-limit dependency is in [RateLimit]. *)

From S2P Require Import Prelude Security Auth.

Open Scope Z_scope.

(** [get_db]: commit when the endpoint returns, roll back when it raises. *)
Definition get_db {A} (body : M A) (d : db) : res exn A * db * list effect :=
  match body (Session d d []) with
  | (Ok a, s) => (Ok a, working s, effects s)
  | (Err e, s) => (Err e, committed s, effects s)
  end.

(** [try: m except C as e: raise HTTPException(status, e.to_dict())] for the
    classes of [table]. *)
Definition translate {A} (table : list (exc_class * (Z * list effect))) (m : M A) : M A :=
  try_except m (fun e =>
    match e with
    | Mcp c message =>
        match List.find (fun row => bool_decide (row.1 = c)) table with
        | Some (_, (status, es)) =>
            Some ((fun s => (Ok tt, Session (committed s) (working s) (effects s ++ es)));; raise (http_of status c message))
        | None => None
        end
    | _ => None
    end).

Section endpoints.
Context `{Crypto} (cfg : settings).

(** (user, access token, refresh token, lifetime) *)
Definition register (now : Z) (r : entropy) (em password : string) (name : option string) (accept_tos : bool)
    (c : client) : M (user * string * string * Z) :=
  if negb (allow_registration cfg) then
    raise (HTTPException 403 "registration_disabled"
      "Public registration is disabled on this instance. Contact the administrator.")
  else
    out ← translate [(EmailExistsError, (409, [AuthAttempt "register" "failure"]))]
      (out ← register_user cfg now r em password name c accept_tos; commit;; mret out);
    start (AuthAttempt "register" "success");; mret out.

Definition login (now : Z) (r : entropy) (em password : string) (c : client) : M (string * string * Z) :=
  out ← translate [(InvalidCredentialsError, (401, [AuthAttempt "login" "failure"]))]
    (out ← login_user cfg now r em password c; commit;; mret out);
  start (AuthAttempt "login" "success");; mret out.

Definition exchange_token (now : Z) (r : entropy) (raw_key : string) (c : client) : M (string * string * Z) :=
  out ← translate [(InvalidApiKeyError, (401, [AuthAttempt "apikey" "failure"]))]
    (exchange_api_key_for_tokens cfg now r raw_key c);
  start (AuthAttempt "apikey" "success");; mret out.

Definition refresh_token (now : Z) (r : entropy) (token : string) : M (string * Z) :=
  translate [(TokenExpiredError, (401, [])); (InvalidTokenError, (401, []))]
    (refresh_access_token cfg now r token).

(** [user_id] comes from [require_active_status]. *)
Definition create_api_key_endpoint (now : Z) (r : entropy) (user_id : string) (name : option string)
    (sc : option (list string)) (days : option Z) (c : client) : M (api_key * string) :=
  uid ← as_uuid user_id;
  out ← create_api_key now r uid name sc None days c;
  commit;; mret out.

(** [user_id] comes from [get_current_user_id]. *)
Definition verify_email (now : Z) (user_id pin : string) (c : client) : M user :=
  translate [(AlreadyVerifiedError, (409, [])); (VerificationPinExpiredError, (400, []));
             (VerificationAttemptsExceededError, (429, [])); (InvalidVerificationPinError, (400, []))]
    (uid ← as_uuid user_id;
     user ← verify_email_pin now uid pin c;
     commit;; mret user).

(** (message, resends remaining) *)
Definition resend_verification (now : Z) (r : entropy) (user_id : string) (c : client) : M (string * Z) :=
  resends_remaining ← translate [(AlreadyVerifiedError, (409, [])); (VerificationResendLimitError, (429, []))]
    (uid ← as_uuid user_id;
     n ← resend_verification_pin now r uid c;
     commit;; mret n);
  mret ("Verification PIN sent to your email", resends_remaining).

(** It only answers. *)
Definition logout_all : M string := mret "All sessions have been logged out".

(** ** Dependencies on the user table *)

(** The comparison [User.id == user_id] with a text: the database reads the
    text as a UUID. *)
Definition id_column (user_id : string) : M string :=
  match uuid_parse user_id with Some u => mret u | None => raise DBAPIError end.

Definition require_active_status (user_id : string) : M string :=
  uid ← id_column user_id;
  user ← user_by_id uid;
  match user with
  | None => raise (HTTPException 403 "USER_NOT_FOUND" "User account not found")
  | Some u =>
      if String.eqb (status u) "" then raise (HTTPException 403 "USER_NOT_FOUND" "User account not found")
      else if String.eqb (status u) "pending_verification" then
        raise (HTTPException 403 "PENDING_VERIFICATION"
          "Email verification required. Check your inbox for the verification PIN.")
      else if String.eqb (status u) "pending_approval" then
        raise (HTTPException 403 "PENDING_APPROVAL" "Account is awaiting admin approval")
      else if String.eqb (status u) "rejected" then
        raise (HTTPException 403 "ACCOUNT_REJECTED" "Account has been rejected")
      else if String.eqb (status u) "suspended" then
        raise (HTTPException 403 "ACCOUNT_SUSPENDED" "Account has been suspended")
      else if negb (String.eqb (status u) "active") then
        raise (HTTPException 403 "ACCOUNT_INACTIVE" "Account is not active")
      else mret user_id
  end.

(** [require_admin]: the static key first, then the address of the token's
    user. *)
Definition require_admin (now : Z) (authorization x_admin_key : option string) : M string :=
  if match x_admin_key with
     | Some k => truthy_str k && truthy_str (admin_api_key cfg) && String.eqb k (admin_api_key cfg)
     | None => false
     end
  then
    rows ← query (fun d => take 1 (List.filter (fun u => str_in (email u) (admin_emails cfg)) (users d)));
    mret (match rows with u :: _ => u_id u | [] => "system-admin" end)
  else
    user_id ← lift_res (get_current_user_id cfg now authorization);
    uid ← id_column user_id;
    user ← user_by_id uid;
    match user with
    | Some u => if truthy_str (email u) && str_in (email u) (admin_emails cfg) then mret user_id
                else raise (HTTPException 403 "FORBIDDEN" "Admin access required")
    | None => raise (HTTPException 403 "FORBIDDEN" "Admin access required")
    end.

(** ** The endpoints as requests *)

Inductive call :=
| CRegister (em password : string) (name : option string) (accept_tos : bool) (c : client)
| CLogin (em password : string) (c : client)
| CToken (raw_key : string) (c : client)
| CRefresh (token : string)
| CCreateKey (user_id : string) (name : option string) (sc : option (list string)) (days : option Z) (c : client)
| CVerifyEmail (user_id pin : string) (c : client)
| CResend (user_id : string) (c : client)
| CLogoutAll.

Definition endpoint (now : Z) (r : entropy) (x : call) : M unit :=
  match x with
  | CRegister em pw name tos c => register now r em pw name tos c;; mret tt
  | CLogin em pw c => login now r em pw c;; mret tt
  | CToken raw c => exchange_token now r raw c;; mret tt
  | CRefresh t => refresh_token now r t;; mret tt
  | CCreateKey uid name sc days c => require_active_status uid;; create_api_key_endpoint now r uid name sc days c;; mret tt
  | CVerifyEmail uid pin c => verify_email now uid pin c;; mret tt
  | CResend uid c => resend_verification now r uid c;; mret tt
  | CLogoutAll => logout_all;; mret tt
  end.

(** Requests one after the other, each with its time and its random values. *)
Fixpoint serve (calls : list (Z * entropy * call)) (d : db) : list (call * res exn unit) * db :=
  match calls with
  | [] => ([], d)
  | (now, r, x) :: rest =>
      let '(o, d1, _) := get_db (endpoint now r x) d in
      let '(os, d2) := serve rest d1 in
      ((x, o) :: os, d2)
  end.
End endpoints.

(** ** Transactions *)

(** [m] does not commit. *)
Definition no_commit {A} (m : M A) : Prop := forall s, committed (m s).2 = committed s.

Lemma no_commit_bind {A B} (m : M A) (f : A -> M B) :
  no_commit m -> (forall a, no_commit (f a)) -> no_commit (m ≫= f).
Proof.
  intros Hm Hf s. unfold mbind, stm_bind. specialize (Hm s).
  destruct (m s) as [[a|e] s']; cbn in *; [by rewrite Hf|done].
Qed.
Lemma no_commit_ret {A} (a : A) : no_commit (mret a).
Proof. by intros s. Qed.
Lemma no_commit_raise {A} e : no_commit (raise e : M A).
Proof. by intros s. Qed.
Lemma no_commit_query {A} (f : db -> A) : no_commit (query f).
Proof. by intros s. Qed.
Lemma no_commit_modify f : no_commit (modify f).
Proof. by intros s. Qed.
Lemma no_commit_start e : no_commit (start e).
Proof. by intros s. Qed.
Lemma no_commit_lift {A} (r : res exn A) : no_commit (lift_res r : M A).
Proof. by intros s. Qed.
Lemma no_commit_if {A} (b : bool) (m m' : M A) : no_commit m -> no_commit m' -> no_commit (if b then m else m').
Proof. by destruct b. Qed.
Lemma no_commit_scalar {A} (l : list A) : no_commit (scalar_one_or_none l).
Proof. by destruct l as [|? []]; intros s. Qed.
Lemma no_commit_scalar_one {A} (l : list A) : no_commit (scalar_one l).
Proof. by destruct l as [|? []]; intros s. Qed.
Lemma no_commit_as_uuid u : no_commit (as_uuid u : M string).
Proof. unfold as_uuid. by destruct (uuid_parse u); intros ?. Qed.

Create HintDb nocommit.
#[export] Hint Resolve no_commit_bind no_commit_ret no_commit_raise no_commit_query no_commit_modify no_commit_start
  no_commit_lift no_commit_if no_commit_scalar no_commit_scalar_one no_commit_as_uuid : nocommit.

(** Decompose a computation by its syntax. *)
Ltac no_commit_tac :=
  repeat first
    [ apply no_commit_if | apply no_commit_bind; [|intros ?]
    | apply no_commit_ret | apply no_commit_raise | apply no_commit_query | apply no_commit_modify
    | apply no_commit_start | apply no_commit_lift | apply no_commit_scalar | apply no_commit_scalar_one
    | apply no_commit_as_uuid | case_match ].

Section transactions.
Context `{Crypto} (cfg : settings).

Lemma no_commit_user_by_id id : no_commit (user_by_id id).
Proof. unfold user_by_id. no_commit_tac. Qed.
Lemma no_commit_register now r em pw name c tos : no_commit (register_user cfg now r em pw name c tos).
Proof. unfold register_user, user_by_email, add_user, add_account, add_audit. no_commit_tac. Qed.
Lemma no_commit_login now r em pw c : no_commit (login_user cfg now r em pw c).
Proof. unfold login_user, user_by_email, refuse, _log_auth_failure, add_audit. no_commit_tac. Qed.
Lemma no_commit_exchange now r raw c : no_commit (exchange_api_key_for_tokens cfg now r raw c).
Proof.
  unfold exchange_api_key_for_tokens, validate_api_key, update_key, user_by_id, refuse, _log_auth_failure,
    _log_auth_success, add_audit. no_commit_tac.
Qed.
Lemma no_commit_refresh now r t : no_commit (refresh_access_token cfg now r t).
Proof. unfold refresh_access_token, user_by_id. no_commit_tac. Qed.
Lemma no_commit_create now r u name sc nid days c : no_commit (create_api_key now r u name sc nid days c).
Proof. unfold create_api_key, user_by_id, check_namespace, add_key, add_audit. no_commit_tac. Qed.
Lemma no_commit_verify now u pin c : no_commit (verify_email_pin now u pin c).
Proof. unfold verify_email_pin, user_by_id, update_user, add_audit. no_commit_tac. Qed.
Lemma no_commit_resend now r u c : no_commit (resend_verification_pin now r u c).
Proof. unfold resend_verification_pin, user_by_id, update_user, add_audit. no_commit_tac. Qed.
Lemma no_commit_active u : no_commit (require_active_status u).
Proof. unfold require_active_status, id_column, user_by_id. no_commit_tac. Qed.
End transactions.

(** When [m] raises, nothing it did was committed. *)
Definition clean {A} (m : M A) : Prop := forall s e s', m s = (Err e, s') -> committed s' = committed s.

Lemma clean_no_commit {A} (m : M A) : no_commit m -> clean m.
Proof. intros Hm s e s' E. specialize (Hm s). by rewrite E in Hm. Qed.

Lemma clean_bind {A B} (m : M A) (f : A -> M B) : no_commit m -> (forall a, clean (f a)) -> clean (m ≫= f).
Proof.
  intros Hm Hf s e s'. unfold mbind, stm_bind. specialize (Hm s).
  destruct (m s) as [[a|e'] s1]; cbn in *; [|by intros [= _ <-]]. intros E%Hf. congruence.
Qed.

(** Nothing after [m] raises. *)
Lemma clean_then_total {A B} (m : M A) (f : A -> M B) :
  clean m -> (forall a s, exists b s', f a s = (Ok b, s')) -> clean (m ≫= f).
Proof.
  intros Hm Hf s e s'. unfold mbind, stm_bind. destruct (m s) as [[a|e'] s1] eqn:E.
  - destruct (Hf a s1) as (b & s2 & ->). done.
  - intros [= _ <-]. by apply Hm in E.
Qed.

Lemma clean_translate {A} t (m : M A) : clean m -> clean (translate t m).
Proof.
  intros Hm s e s'. unfold translate, try_except. destruct (m s) as [[a|e'] s1] eqn:E; [done|].
  apply Hm in E. destruct e'; try (by intros [= _ <-]). destruct (List.find _ t) as [[? [? ?]]|]; by intros [= _ <-].
Qed.

Section facts.
Context `{CryptoLaws} (cfg : settings).
#[local] Set Default Proof Using "Type*".

#[local] Hint Resolve no_commit_register no_commit_login no_commit_exchange no_commit_refresh no_commit_create
  no_commit_verify no_commit_resend no_commit_active no_commit_user_by_id : nocommit.

Lemma clean_commit {A} (m : M A) : no_commit m -> clean (a ← m; commit;; mret a).
Proof. intros Hm. apply clean_then_total; [by apply clean_no_commit|]. by intros; do 2 eexists. Qed.

Lemma endpoint_clean now r x : clean (endpoint cfg now r x).
Proof.
  destruct x; cbn [endpoint]; try (apply clean_then_total; [|by intros; do 2 eexists]).
  - unfold register. case_match; [by apply clean_no_commit, no_commit_raise|].
    apply clean_then_total; [|by intros; do 2 eexists]. by apply clean_translate, clean_commit, no_commit_register.
  - apply clean_then_total; [|by intros; do 2 eexists]. by apply clean_translate, clean_commit, no_commit_login.
  - apply clean_then_total; [|by intros; do 2 eexists]. by apply clean_translate, clean_no_commit, no_commit_exchange.
  - by apply clean_translate, clean_no_commit, no_commit_refresh.
  - apply clean_bind; [apply no_commit_active|intros _].
    apply clean_then_total; [|by intros; do 2 eexists]. apply clean_bind; [apply no_commit_as_uuid|intros u].
    by apply clean_commit, no_commit_create.
  - apply clean_translate, clean_bind; [apply no_commit_as_uuid|intros u]. by apply clean_commit, no_commit_verify.
  - apply clean_then_total; [|by intros; do 2 eexists].
    apply clean_translate, clean_bind; [apply no_commit_as_uuid|intros u]. by apply clean_commit, no_commit_resend.
  - apply clean_no_commit, no_commit_ret.
Qed.

(** Every endpoint is atomic: when it answers with an error, the tables
    are as they were before the request. *)
Theorem endpoint_atomic now r x d e d' es :
  get_db (endpoint cfg now r x) d = (Err e, d', es) -> d' = d.
Proof.
  pose proof (endpoint_clean now r x) as Hc. unfold get_db.
  destruct (endpoint cfg now r x (Session d d [])) as [[a|e'] s'] eqn:E; [done|].
  intros [= _ <- _]. by apply Hc in E.
Qed.

(** ** Guessing the verification PIN *)

(** A user who waits for verification, with a PIN that is still valid at
    [now] for less than five attempts. *)
Definition awaiting (u : user) (token : string) (now : Z) : Prop :=
  email_verified u = false /\ verification_token u = Some token /\ token <> "" /\
  verification_attempts u < 5 /\ exists t, verification_pin_expires_at u = Some t /\ now < t.

Lemma user_by_id_found d u s :
  wf d -> u ∈ users d -> working s = d -> user_by_id (u_id u) s = (Ok (Some u), s).
Proof.
  intros Hwf Hu Hs. unfold user_by_id, mbind, stm_bind, query. rewrite Hs, filter_by_unique; [done|apply Hwf|done].
Qed.

Lemma wrong_pin now u user_id pin c d token :
  wf d -> u ∈ users d -> uuid_parse user_id = Some (u_id u) -> awaiting u token now -> sha256_hex pin <> token ->
  exists es, get_db (verify_email now user_id pin c) d =
    (Err (http_of 400 InvalidVerificationPinError (default_message InvalidVerificationPinError)), d, es).
Proof.
  intros Hwf Hu Hid (Hv & Ht & Hne & Ha & t & Hte & Hnow) Hpin.
  unfold get_db, verify_email, translate, try_except, as_uuid. rewrite Hid.
  unfold mbind at 1, stm_bind at 1, mret, stm_ret. unfold verify_email_pin.
  unfold mbind, stm_bind. rewrite (user_by_id_found d) by done. cbn beta iota. rewrite Hv, Ht, Hte.
  destruct token as [|ch token]; [done|]. rewrite (proj2 (Z.leb_gt _ _)) by done.
  rewrite (proj2 (Z.leb_gt _ _)) by done. apply String.eqb_neq in Hpin. rewrite Hpin.
  cbn. by eexists.
Qed.

(** The limit of five attempts on a verification PIN is never reached:
    the failed attempt is counted and then rolled back with the error answer.
    Through the endpoint a user can try any number of wrong PINs; each is
    answered 400, none 429, and the tables do not change. *)
Theorem pin_guesses_unbounded u user_id token c d guesses :
  wf d -> u ∈ users d -> uuid_parse user_id = Some (u_id u) ->
  Forall (fun g => awaiting u token g.1.1 /\ sha256_hex g.2 <> token) guesses ->
  serve cfg (map (fun g => (g.1.1, g.1.2, CVerifyEmail user_id g.2 c)) guesses) d =
  (map (fun g => (CVerifyEmail user_id g.2 c,
                  Err (http_of 400 InvalidVerificationPinError (default_message InvalidVerificationPinError)))) guesses, d).
Proof.
  intros Hwf Hu Hid. induction guesses as [|[[now r] pin] gs IH]; [done|]. intros [[Ha Hp] Hgs]%Forall_cons.
  cbn [map serve fst snd] in *. destruct (wrong_pin now u user_id pin c d token Hwf Hu Hid Ha Hp) as [es Hw].
  unfold get_db, endpoint in *. unfold mbind, stm_bind in *.
  destruct (verify_email now user_id pin c (Session d d [])) as [[v|e] s1]; [done|].
  injection Hw as -> -> _. by rewrite IH.
Qed.

(** ** Resending is bounded *)

(** The row of user [uid], with [n] resends on it. *)
Definition resent (uid : string) (n : Z) (d : db) : Prop :=
  exists v, List.filter (fun u => String.eqb (u_id u) uid) (users d) = [v] /\ verification_resend_count v = n.

Lemma filter_map_update (uid id : string) (f : user -> user) us :
  (forall u, u_id u = id -> u_id (f u) = id) ->
  List.filter (fun u => String.eqb (u_id u) uid) (map (fun u => if String.eqb (u_id u) id then f u else u) us) =
  map (fun u => if String.eqb (u_id u) id then f u else u) (List.filter (fun u => String.eqb (u_id u) uid) us).
Proof.
  intros Hf. induction us as [|u us IH]; [done|]. cbn [map List.filter]. rewrite IH.
  destruct (String.eqb_spec (u_id u) id) as [E|E].
  - rewrite (Hf u E). destruct (String.eqb_spec (u_id u) uid), (String.eqb_spec id uid); try congruence; cbn [map].
    by rewrite (proj2 (String.eqb_eq _ _) E).
  - destruct (String.eqb (u_id u) uid); [|done]. cbn [map]. by rewrite (proj2 (String.eqb_neq _ _) E).
Qed.

(** Changing a row keeps the count if it keeps identifiers, and that row's
    count if it is the one. *)
Lemma resent_update uid n m id f d :
  resent uid n d -> (forall u, u_id u = id -> u_id (f u) = id) ->
  (forall v, List.filter (fun u => String.eqb (u_id u) uid) (users d) = [v] ->
     verification_resend_count (if String.eqb (u_id v) id then f v else v) = m) ->
  resent uid m (set_users (map (fun u => if String.eqb (u_id u) id then f u else u)) d).
Proof.
  intros (v & Hv & Hn) Hf Hm. exists (if String.eqb (u_id v) id then f v else v). split; [|by apply Hm].
  cbn [users set_users]. rewrite filter_map_update by done. by rewrite Hv.
Qed.

Lemma resent_update_user uid n id f :
  (forall u, u_id u = id -> u_id (f u) = id /\ verification_resend_count (f u) = verification_resend_count u) ->
  preserves (resent uid n) (update_user id f).
Proof.
  intros Hf. apply preserves_modify. intros d Hd. apply (resent_update uid n n); [done|by apply Hf|].
  destruct Hd as (v & Hv & Hn). intros w Hw. rewrite Hv in Hw. injection Hw as <-.
  destruct (String.eqb_spec (u_id v) id); [|done]. by rewrite (proj2 (Hf v e)).
Qed.

(** The loaded row replaced by a copy with another count. *)
Lemma resent_replace uid n u u' s :
  resent uid n (working s) -> u ∈ users (working s) -> u_id u' = u_id u ->
  resent uid (if String.eqb (u_id u) uid then verification_resend_count u' else n)
    (working (update_user (u_id u) (fun _ => u') s).2).
Proof.
  intros Hd Hu Hid. apply (resent_update uid n); [done|done|].
  destruct Hd as (v & Hv & Hn). intros w Hw. rewrite Hv in Hw. injection Hw as <-.
  destruct (filter_singleton_elem _ _ _ Hv) as [_ Hvid%String.eqb_eq]. subst uid.
  destruct (String.eqb_spec (u_id v) (u_id u)) as [E|E].
  - rewrite E, String.eqb_refl. done.
  - destruct (String.eqb_spec (u_id u) (u_id v)); [congruence|done].
Qed.

Lemma resent_loaded uid n s u :
  resent uid n (working s) -> u ∈ users (working s) -> u_id u = uid -> verification_resend_count u = n.
Proof.
  intros (v & Hv & Hn) Hu Hid. assert (In u (List.filter (fun u => String.eqb (u_id u) uid) (users (working s)))) as Hin.
  { apply filter_In. split; [by apply list_elem_of_In|by apply String.eqb_eq]. }
  rewrite Hv in Hin. destruct Hin as [->|[]]. done.
Qed.

Lemma resent_add_user uid n u : u_id u <> uid -> preserves (resent uid n) (add_user u).
Proof.
  intros Hne. apply preserves_modify. intros d (v & Hv & Hn). exists v. split; [|done].
  cbn [users set_users]. rewrite List.filter_app. cbn. apply String.eqb_neq in Hne. by rewrite Hne, Hv, app_nil_r.
Qed.

(** Changes of other tables. *)
Lemma resent_modify uid n f : (forall d, users (f d) = users d) -> preserves (resent uid n) (modify f).
Proof. intros Hf. apply preserves_modify. intros d (v & Hv & Hn). exists v. by rewrite Hf. Qed.

Lemma preserves_translate {A} P t (m : M A) : preserves P m -> preserves P (translate t m).
Proof.
  intros Hm s Hs. unfold translate, try_except. specialize (Hm s Hs). destruct (m s) as [[a|e] s1]; [done|].
  destruct e; try done. by destruct (List.find _ t) as [[? [? ?]]|].
Qed.
Lemma preserves_commit P : preserves P commit.
Proof. by intros s. Qed.
Lemma preserves_as_uuid P u : preserves P (as_uuid u : M string).
Proof. unfold as_uuid. by destruct (uuid_parse u); intros ?. Qed.

(** Decompose a computation that keeps the count. *)
Ltac resent_tac :=
  repeat first
    [ apply preserves_translate | apply preserves_if | apply preserves_bind; [|intros ?]
    | apply preserves_ret | apply preserves_raise | apply preserves_query | apply preserves_start
    | apply preserves_lift | apply preserves_scalar_one_or_none | apply preserves_scalar_one
    | apply preserves_as_uuid | apply preserves_commit
    | apply resent_modify; done | apply resent_add_user; done | case_match ].

Lemma resent_verify uid n now id pin c : preserves (resent uid n) (verify_email_pin now id pin c).
Proof.
  intros s Hs. unfold verify_email_pin. unfold mbind at 1, stm_bind at 1.
  destruct (user_by_id id s) as [[[u|]|e] s1] eqn:E;
    [|by apply user_by_id_state in E as ->|by apply user_by_id_state in E as ->].
  apply user_by_id_Some in E as (-> & Hu & Hid). destruct (email_verified u); [done|].
  destruct (verification_token u) as [[|ch tk]|]; [done| |done].
  destruct (verification_pin_expires_at u) as [pe|]; [|done].
  destruct (5 <=? _); [done|]. destruct (pe <=? now); [done|]. destruct (negb _).
  - apply preserves_after; [by apply resent_update_user|intros _; unfold add_audit; resent_tac].
  - apply preserves_after; [|intros _; unfold add_audit; resent_tac].
    pose proof (resent_replace uid n u (set_verification true "active" None None 0 (verification_resend_count u) u) s
      Hs Hu eq_refl) as Hr.
    destruct (String.eqb_spec (u_id u) uid) as [Heq|]; [|done].
    by rewrite <-(resent_loaded uid n s u Hs Hu Heq).
Qed.

(** A resend of [id]: refused below five, or counted. *)
Lemma resend_step uid n now r id c s :
  resent uid n (working s) ->
  let '(o, s') := resend_verification_pin now r id c s in
  match o with
  | Ok _ => resent uid (if String.eqb id uid then n + 1 else n) (working s') /\ (id = uid -> n < 5)
  | Err _ => s' = s
  end.
Proof.
  intros Hs. unfold resend_verification_pin. unfold mbind at 1, stm_bind at 1.
  destruct (user_by_id id s) as [[[u|]|e] s1] eqn:E; [|by apply user_by_id_state in E as ->..].
  apply user_by_id_Some in E as (-> & Hu & Hid). destruct (email_verified u); [done|].
  destruct (Z.leb_spec max_resends (verification_resend_count u)) as [|Hlt]; [done|].
  destruct (_generate_pin r) as [pin ph].
  set (u' := set_verification false (status u) (Some ph) (Some (now + 600)) 0
    (verification_resend_count u + 1) u).
  pose proof (resent_replace uid n u u' s Hs Hu eq_refl) as Hr. cbn. subst id.
  destruct (String.eqb_spec (u_id u) uid) as [Heq|Hne].
  - pose proof (resent_loaded uid n s u Hs Hu Heq) as Hn.
    split; [|intros _; by rewrite <-Hn]. rewrite <-Hn. destruct Hr as (v & Hv & Hc). by exists v.
  - split; [|done]. destruct Hr as (v & Hv & Hc). by exists v.
Qed.

(** The user a resend request is for. *)
Definition resend_for (uid : string) (x : call) : bool :=
  match x with CResend user_id _ => bool_decide (uuid_parse user_id = Some uid) | _ => false end.

Lemma endpoint_keeps_resent uid n now r x :
  e_id1 r <> uid -> (forall id c, x <> CResend id c) -> preserves (resent uid n) (endpoint cfg now r x).
Proof.
  intros Hne Hx. destruct x as [| | | | | |id c|]; cbn [endpoint]; [| | | | | |by destruct (Hx id c)|].
  - unfold register, register_user, user_by_email, add_account, add_audit. resent_tac.
  - unfold login, login_user, user_by_email, refuse, _log_auth_failure, add_audit. resent_tac.
  - unfold exchange_token, exchange_api_key_for_tokens, validate_api_key, update_key, user_by_id, refuse,
      _log_auth_failure, _log_auth_success, add_audit. resent_tac.
  - unfold refresh_token, refresh_access_token, user_by_id. resent_tac.
  - unfold require_active_status, id_column, create_api_key_endpoint, create_api_key, check_namespace, user_by_id, add_key,
      add_audit. resent_tac.
  - apply preserves_bind; [|intros ?; apply preserves_ret]. apply preserves_translate.
    apply preserves_bind; [apply preserves_as_uuid|intros u]. apply preserves_bind; [apply resent_verify|].
    intros v. resent_tac.
  - resent_tac.
Qed.

Lemma serve_step uid n now r x d o d' es :
  resent uid n d -> e_id1 r <> uid -> get_db (endpoint cfg now r x) d = (o, d', es) ->
  let k := if resend_for uid x && (match o with Ok _ => true | Err _ => false end) then 1 else 0 in
  resent uid (n + k) d' /\ (k = 1 -> n < 5).
Proof.
  intros Hd Hne. unfold get_db. destruct (endpoint cfg now r x (Session d d [])) as [[[]|e] s'] eqn:E.
  2:{ intros [= <- <- <-]. rewrite andb_false_r, Z.add_0_r. apply endpoint_clean in E. cbn in E. by rewrite E. }
  intros [= <- <- <-]. rewrite andb_true_r. 
  assert ((exists id c, x = CResend id c) \/ (forall id c, x <> CResend id c)) as [(id & c & ->)|Hx]
    by (destruct x; eauto; by right).
  - revert E. cbn [endpoint resend_for]. unfold resend_verification, translate, try_except, as_uuid.
    destruct (uuid_parse id) as [u|]; [|done]. unfold mbind, stm_bind, mret, stm_ret.
    pose proof (resend_step uid n now r u c (Session d d []) Hd) as Hs.
    destruct (resend_verification_pin now r u c (Session d d [])) as [[m|e] s1].
    + destruct Hs as [Hr Hlt]. intros [= <-]. cbn. rewrite (bool_decide_ext (Some u = Some uid) (u = uid)) by naive_solver.
      destruct (String.eqb_spec u uid); [rewrite bool_decide_true by done|rewrite bool_decide_false by done]; cbn.
      * split; [done|]. intros _. by apply Hlt.
      * rewrite Z.add_0_r. split; [done|lia].
    + destruct e; try done. by destruct (List.find _ _) as [[? [? ?]]|].
  - assert (resend_for uid x = false) as -> by (destruct x as [| | | | | |id c|]; try done; by destruct (Hx id c)).
    rewrite Z.add_0_r. split; [|lia]. change s' with (Ok tt : res exn unit, s').2. rewrite <-E.
    by apply endpoint_keeps_resent.
Qed.

(** A user gets at most five new PINs: whatever requests are served, the
    successful resends for one user never exceed five less the number already
    on the row. *)
Theorem resends_bounded uid n calls d :
  resent uid n d -> n <= 5 -> Forall (fun x => e_id1 x.1.2 <> uid) calls ->
  n + Z.of_nat (length (filter (fun x => resend_for uid x.1 && (match x.2 with Ok _ => true | Err _ => false end) = true)
                          (serve cfg calls d).1)) <= 5.
Proof.
  revert n d; induction calls as [|[[now r] x] rest IH]; intros n d Hd Hn; cbn [serve].
  { intros _. cbn. lia. }
  intros [Hr Hrs]%Forall_cons. cbn [fst snd] in *.
  destruct (get_db (endpoint cfg now r x) d) as [[o d1] es] eqn:E.
  destruct (serve_step uid n now r x d o d1 es Hd Hr E) as [Hd1 Hk].
  set (k := if _ && _ then 1 else 0) in *. assert (n + k <= 5) as Hn1 by (subst k; case_match; lia).
  specialize (IH (n + k) d1 Hd1 Hn1 Hrs). destruct (serve cfg rest d1) as [os d2]. cbn [fst] in *.
  rewrite filter_cons. cbn [fst snd]. subst k. destruct (resend_for uid x && _); destruct (decide _);
    cbn [length]; try done; lia.
Qed.
End facts.

(** ** Concrete runs *)

(** A user who just registered with the PIN 000042. *)
Definition demo_pending : user :=
  User demo_id "ada@example.com" (Some "argon2:secret") None "trial-agent" "pending_verification" false
    (Some "sha256:000042") (Some 1600) 0 0 None None.
Definition demo_pending_db : db := Db [demo_pending] [Account "acc1" demo_id None] [] [] [].

Lemma demo_pending_wf : wf demo_pending_db.
Proof. constructor; cbn; repeat constructor; try set_solver. Qed.

Definition demo_guess (k : Z) : Z * entropy * string := (1000 + k, demo_entropy, pin_text k).

Lemma pin_guesses_unbounded_witness :
  serve toy_settings (map (fun g => (g.1.1, g.1.2, CVerifyEmail demo_id g.2 demo_client)) (map demo_guess [1; 2; 3; 4; 5; 6; 7]))
    demo_pending_db =
  (map (fun g => (CVerifyEmail demo_id g.2 demo_client,
                  Err (http_of 400 InvalidVerificationPinError (default_message InvalidVerificationPinError))))
     (map demo_guess [1; 2; 3; 4; 5; 6; 7]), demo_pending_db).
Proof.
  apply (@pin_guesses_unbounded toy_crypto toy_crypto_laws toy_settings demo_pending demo_id "sha256:000042");
    [apply demo_pending_wf|set_solver|vm_compute; reflexivity|].
  repeat constructor; try (vm_compute; congruence); eexists; (split; [reflexivity|cbn; lia]).
Defined.

(** After nine wrong guesses the right PIN is accepted. *)
Example tenth_guess_accepted :
  let d := (serve toy_settings (map (fun g => (g.1.1, g.1.2, CVerifyEmail demo_id g.2 demo_client))
              (map demo_guess [1; 2; 3; 4; 5; 6; 7; 8; 9])) demo_pending_db).2 in
  match (get_db (verify_email 1500 demo_id "000042" demo_client) d).1.1 with
  | Ok u => status u = "active"
  | Err _ => False
  end.
Proof. vm_compute. reflexivity. Qed.

(** Within one session, where nothing is rolled back, the sixth attempt is
    refused: the service itself counts as intended. *)
Example attempts_counted_in_session :
  let guess pin : M user := verify_email_pin 1500 demo_id pin demo_client in
  let s0 := Session demo_pending_db demo_pending_db [] in
  let s5 := foldl (fun s pin => (guess pin s).2) s0 ["1"; "2"; "3"; "4"; "5"] in
  (guess "000042" s5).1 = Err (mcp VerificationAttemptsExceededError).
Proof. vm_compute. reflexivity. Qed.

Lemma endpoint_atomic_witness :
  let '(o, d', es) := get_db (endpoint toy_settings 1000 demo_entropy (CLogin "Ada@example.com" "wrong" demo_client)) demo_db in
  o = Err (http_of 401 InvalidCredentialsError "Invalid email or password") /\ d' = demo_db.
Proof.
  destruct (get_db (endpoint toy_settings 1000 demo_entropy (CLogin "Ada@example.com" "wrong" demo_client)) demo_db)
    as [[o d'] es] eqn:E.
  assert (o = Err (http_of 401 InvalidCredentialsError "Invalid email or password")) as Ho.
  { change o with (o, d', es).1.1. rewrite <-E. vm_compute. reflexivity. }
  split; [exact Ho|]. subst o. exact (@endpoint_atomic toy_crypto toy_crypto_laws _ _ _ _ _ _ _ _ E).
Defined.

Lemma resends_bounded_witness :
  let calls := map (fun t => (t, demo_entropy, CResend demo_id demo_client)) [1; 2; 3; 4; 5; 6; 7] in
  map (fun x => match x.2 with Ok _ => true | Err _ => false end) (serve toy_settings calls demo_pending_db).1
    = [true; true; true; true; true; false; false] /\
  0 + Z.of_nat (length (filter (fun x => resend_for demo_id x.1 && (match x.2 with Ok _ => true | Err _ => false end) = true)
                          (serve toy_settings calls demo_pending_db).1)) <= 5.
Proof.
  split; [vm_compute; reflexivity|].
  apply (@resends_bounded toy_crypto toy_crypto_laws); [by exists demo_pending|lia|repeat constructor; done].
Defined.
