(* ===== verification/Routing.v ===== *)
(** * Routing of MCP requests

    [middleware/routing.py] (by path) and [middleware/subdomain.py] (by host),
    and the order in which [main.py] stacks them.  A middleware either passes
    the request on with what it put on [request.state], or raises. *)

From S2P Require Import Prelude Regex.
From Stdlib Require Import Ascii.

Open Scope nat_scope.

(** ** Namespace labels *)

Definition alnum (c : ascii) : bool := in_range "a" "z" c || is_digit c.
Definition alnum_dash (c : ascii) : bool := alnum c || Ascii.eqb c "-".

(** [[a-z0-9]([a-z0-9-]{0,61}[a-z0-9])?] *)
Definition label_re : re :=
  RSeq (RCls alnum) (ropt (RSeq (RRep alnum_dash 0 (Some 61) true) (RCls alnum))).

(** [_NAMESPACE_RE.match(s)] *)
Definition namespace_match (s : string) : bool := matches label_re dollar s.

(** ** Requests *)

Inductive EndpointType := CREATE | RUN | AGENT.

#[export] Instance EndpointType_eq_dec : EqDecision EndpointType.
Proof. solve_decision. Defined.

(** [EndpointType(s)], for a value that was checked. *)
Definition endpoint_of (s : string) : option EndpointType :=
  if String.eqb s "create" then Some CREATE
  else if String.eqb s "run" then Some RUN
  else if String.eqb s "agent" then Some AGENT
  else None.

Record request := Request {
  path : string;
  host : option string;
  query_params : list (string * string)
}.

(** What the middlewares put on [request.state]. *)
Record state := State {
  s_namespace : option string;
  s_endpoint_type : option EndpointType;
  s_is_local : bool;
  s_routed_by_subdomain : bool
}.

Definition no_state : state := State None None false false.

Inductive exn := HTTPException (status : Z) (code message : string).

(** ** By path *)

Definition path_dispatch (req : request) (st : state) : res exn state :=
  if negb (starts_with "/mcp/" (path req)) then Ok st
  else match str_split "/" (path req) with
  | _ :: _ :: endpoint :: namespace :: _ =>
      match endpoint_of endpoint with
      | None => Err (HTTPException 404 "INVALID_ENDPOINT"
                  ("Invalid endpoint '" +:+ endpoint +:+ "'. Must be one of: create, run, agent"))
      | Some e =>
          if String.eqb namespace "" || negb (namespace_match namespace) then
            Err (HTTPException 400 "INVALID_NAMESPACE"
              ("Invalid namespace '" +:+ namespace +:+ "'. Must match [a-z0-9]([a-z0-9-]{0,61}[a-z0-9])?"))
          else Ok (State (Some namespace) (Some e) false (s_routed_by_subdomain st))
      end
  | _ => Ok st
  end.

(** ** By host *)

Section subdomain.
Context (domain : string) (exempt_paths : list string).

Definition default_exempt_paths : list string :=
  ["/"; "/admin"; "/console"; "/register"; "/login"; "/dashboard"; "/health"; "/health/ready"; "/health/live";
   "/metrics"; "/docs"; "/redoc"; "/openapi.json"].

Definition _is_local_host (h : string) : bool :=
  starts_with "localhost" h || starts_with "127.0.0.1" h || starts_with "0.0.0.0" h || str_contains ":8000" h.

(** [s.partition(".")], for a text with a dot. *)
Fixpoint split_dot (s : string) : option (string * string) :=
  match s with
  | EmptyString => None
  | String c s' =>
      if Ascii.eqb c "." then Some ("", s')
      else match split_dot s' with Some (a, b) => Some (String c a, b) | None => None end
  end.

(** [(?::\d+)?] up to the end of the host. *)
Definition port_suffix (s : string) : bool :=
  match s with
  | EmptyString => true
  | String c ((String _ _) as digits) => Ascii.eqb c ":" && str_forallb is_digit digits
  | _ => false
  end.

(** The last part of a host: the domain, or a local one. *)
Definition domain_match (d : string) : bool :=
  String.eqb d domain || String.eqb d "localhost"
  || (starts_with "127.0.0.1" d && port_suffix (str_drop 9 d)).

(** [subdomain_pattern.match(host)]: neither a label nor an endpoint has a dot,
    so the groups are the pieces between the first two dots and the rest. *)
Definition subdomain_match (h : string) : option (string * EndpointType) :=
  match split_dot h with
  | Some (namespace, rest) =>
      match split_dot rest with
      | Some (endpoint, d) =>
          match endpoint_of endpoint with
          | Some e => if matches label_re at_end namespace && domain_match d then Some (namespace, e) else None
          | None => None
          end
      | None => None
      end
  | None => None
  end.

(** Requests the middleware does not look at. *)
Definition is_exempt (req : request) (h : string) : bool :=
  str_in (path req) exempt_paths || starts_with "/.well-known/" (path req) || starts_with "/v1/" (path req)
  || String.eqb h ("api." +:+ domain) || starts_with ("api." +:+ domain +:+ ":") h.

Definition subdomain_dispatch (req : request) (st : state) : res exn state :=
  match s_namespace st with
  | Some _ => Ok st
  | None =>
      let h := str_lower (default "" (host req)) in
      if is_exempt req h then Ok st
      else if _is_local_host h then
        let namespace := dict_getd "namespace" "default" (query_params req) in
        let endpoint := dict_getd "endpoint" "create" (query_params req) in
        match endpoint_of endpoint with
        | None => Err (HTTPException 400 "INVALID_ENDPOINT"
                    ("Invalid endpoint: " +:+ endpoint +:+ ". Must be 'create', 'run', or 'agent'"))
        | Some e => Ok (State (Some namespace) (Some e) true (s_routed_by_subdomain st))
        end
      else match subdomain_match h with
      | None => Err (HTTPException 400 "INVALID_HOST"
                  ("Invalid host: " +:+ h +:+ ". Expected {namespace}.{create|run|agent}." +:+ domain))
      | Some (namespace, e) => Ok (State (Some namespace) (Some e) false true)
      end
  end.

(** [settings.routing_mode] *)
Inductive routing_mode := ByPath | BySubdomain | Both.

(** The two as [create_app] stacks them: what is added last runs first. *)
Definition route (mode : routing_mode) (req : request) : res exn state :=
  match mode with
  | ByPath => path_dispatch req no_state
  | BySubdomain => subdomain_dispatch req no_state
  | Both => st ← subdomain_dispatch req no_state; path_dispatch req st
  end.

(** The deprecation header is set on the response. *)
Definition deprecated_header (mode : routing_mode) (st : state) : bool :=
  match mode with Both => s_routed_by_subdomain st | _ => false end.

Definition get_namespace (st : state) : res exn string :=
  match s_namespace st with
  | Some ((String _ _) as n) => Ok n
  | _ => Err (HTTPException 500 "INTERNAL_ERROR" "Namespace not set. SubdomainMiddleware may not be applied.")
  end.

Definition get_endpoint_type (st : state) : res exn EndpointType :=
  match s_endpoint_type st with
  | Some e => Ok e
  | None => Err (HTTPException 500 "INTERNAL_ERROR" "Endpoint type not set. SubdomainMiddleware may not be applied.")
  end.

Definition is_create_endpoint (st : state) : res exn bool :=
  e ← get_endpoint_type st; Ok (bool_decide (e = CREATE)).
Definition is_run_endpoint (st : state) : res exn bool :=
  e ← get_endpoint_type st; Ok (bool_decide (e = RUN)).
End subdomain.

(** ** What a label is *)

(** 1 to 63 letters, digits and dashes that neither start nor end with a dash. *)
Definition valid_label (s : string) : bool :=
  (1 <=? String.length s) && (String.length s <=? 63) && str_forallb alnum_dash s
  && match s with String c _ => alnum c | EmptyString => false end
  && match last (String.list_ascii_of_string s) with Some c => alnum c | None => false end.

(** [valid_label] on characters, for a text of at least two. *)
Lemma last_snoc_split {A} (l : list A) a c : l = a ++ [c] -> last l = Some c.
Proof. intros ->. by rewrite last_snoc. Qed.

Lemma orelse_l a b x : a = Some x -> orelse a b = Some x.
Proof. by intros ->. Qed.

Lemma label_matches (k : cont) s :
  (forall prev prev' l, k prev l = k prev' l) ->
  (exists rest, rmatch label_re k None s = Some rest) <->
  exists l t, s = l ++ t /\ 1 <= length l <= 63 /\ Forall (fun c => alnum_dash c = true) l /\
    (exists c, head l = Some c /\ alnum c = true) /\ (exists c, last l = Some c /\ alnum c = true) /\
    exists rest, k None t = Some rest.
Proof.
  intros Hk. destruct s as [|c s].
  { split; [by intros []|]. intros (l & t & Hs & Hl & _). symmetry in Hs. apply app_nil in Hs as [-> _]. cbn in Hl. lia. }
  cbn [label_re rmatch ropt]. destruct (alnum c) eqn:Ec.
  2:{ split; [by intros []|]. intros (l & t & Hs & Hl & _ & (d & Hd & Had) & _).
      destruct l as [|x l]; [cbn in Hl; lia|]. cbn in *. simplify_eq. congruence. }
  assert (forall d, alnum d = true -> alnum_dash d = true) as Hdash by (intros d Hd; unfold alnum_dash; by rewrite Hd).
  set (k2 := rmatch (RCls alnum) k). split.
  - intros [rest [Hr|Hr]%orelse_Some].
    + destruct (proj1 (rep_max_some alnum_dash 61 true k2 (Some c) s)) as (i & prev' & Hi & Hil & Hf & _ & r & Hr').
      { by exists rest. }
      unfold k2 in Hr'. cbn in Hr'. destruct (drop i s) as [|d t] eqn:Ed; [done|]. destruct (alnum d) eqn:Ead; [|done].
      exists (c :: take i s ++ [d]), t. split; [by rewrite <-app_comm_cons, <-app_assoc; cbn; rewrite <-Ed, take_drop|].
      cbn. rewrite length_app, length_take. cbn. split; [lia|]. split.
      { constructor; [by apply Hdash|]. apply Forall_app. split; [done|]. constructor; [by apply Hdash|done]. }
      split; [by exists c|]. split; [|exists r; by rewrite <-Hr'].
      exists d. split; [|done]. rewrite app_comm_cons. apply last_snoc.
    + exists [c], s. cbn. split; [done|]. split; [lia|]. split; [constructor; [by apply Hdash|done]|].
      split; [by exists c|]. split; [by exists c|]. exists rest. rewrite <-Hr. apply Hk.
  - intros (l & t & Hs & Hl & Hf & (d & Hd & Had) & (e & He & Hae) & r & Hr).
    destruct l as [|x l]; [cbn in Hl; lia|]. cbn in Hs. injection Hs as <- ->. cbn in Hd, Hl.
    apply Forall_cons in Hf as [_ Hf].
    destruct (decide (l = [])) as [->|Hne].
    + cbn. destruct (rep _ _ _ _ _ _ _); cbn; eauto. exists r. rewrite <-Hr. apply Hk.
    + destruct (exists_last Hne) as (m & z & ->). rewrite app_comm_cons, last_snoc in He. injection He as ->.
      rewrite length_app in Hl. cbn in Hl. apply Forall_app in Hf as [Hfm _].
      destruct (proj2 (rep_max_some alnum_dash 61 true k2 (Some c) ((m ++ [e]) ++ t))) as [rest Hrest].
      { exists (length m), (match length m with O => Some c | S j => ((m ++ [e]) ++ t) !! j end).
        split; [lia|]. rewrite !length_app. split; [lia|]. rewrite <-app_assoc, take_app_length, drop_app_length.
        split; [done|]. split; [done|]. unfold k2. cbn. rewrite Hae. exists r. rewrite <-Hr. apply Hk. }
      exists rest. by apply orelse_l.
Qed.

Lemma valid_label_list s :
  valid_label s = true <->
  let l := String.list_ascii_of_string s in
  1 <= length l <= 63 /\ Forall (fun c => alnum_dash c = true) l /\
  (exists c, head l = Some c /\ alnum c = true) /\ (exists c, last l = Some c /\ alnum c = true).
Proof.
  unfold valid_label. cbv zeta. rewrite !andb_true_iff, !Nat.leb_le, str_forallb_Forall, <-length_list_ascii.
  assert (match s with String c _ => alnum c | EmptyString => false end = true <->
    exists c, head (String.list_ascii_of_string s) = Some c /\ alnum c = true) as ->.
  { destruct s as [|c s]; cbn; [split; [done|by intros (?&?&?)]|]. split; [eauto|by intros (?&[= ->]&?)]. }
  assert (forall o : option ascii, (match o with Some c => alnum c | None => false end = true <->
    exists c, o = Some c /\ alnum c = true)) as ->.
  { intros [c|]; split; try done; [eauto|by intros (?&[= ->]&?)|by intros (?&?&?)]. }
  tauto.
Qed.

(** [_NAMESPACE_RE] accepts the valid labels, and them with a newline at the
    end, which [$] lets pass. *)
Lemma namespace_match_spec s :
  namespace_match s = true <-> valid_label s = true \/ exists l, valid_label l = true /\ s = l +:+ nl.
Proof.
  unfold namespace_match, matches.
  assert ((match rmatch label_re dollar None (String.list_ascii_of_string s) with Some _ => true | None => false end) = true
    <-> exists rest, rmatch label_re dollar None (String.list_ascii_of_string s) = Some rest) as ->.
  { destruct (rmatch _ _ _ _); split; eauto; [done|by intros []]. }
  rewrite label_matches by done. split.
  - intros (l & t & Hs & Hl & Hf & Hh & Hla & rest & Hd).
    assert (valid_label (String.string_of_list_ascii l) = true) as Hv
      by (apply valid_label_list; cbv zeta; rewrite String.list_ascii_of_string_of_list_ascii; done).
    rewrite <-(String.string_of_list_ascii_of_string s), Hs. destruct t as [|d [|d' t]]; cbn in Hd.
    + rewrite app_nil_r. by left.
    + destruct (ord d =? 10) eqn:E; [|done]. right. exists (String.string_of_list_ascii l). split; [done|].
      apply Nat.eqb_eq in E. replace d with (chr 10) by (rewrite <-E; apply Ascii.ascii_nat_embedding).
      clear. induction l; cbn; [done|by f_equal].
    + done.
  - intros [Hv|(l & Hv & ->)]; apply valid_label_list in Hv as (Hl & Hf & Hh & Hla).
    + exists (String.list_ascii_of_string s), []. rewrite app_nil_r. split; [done|]. repeat (split; [done|]). by eexists.
    + exists (String.list_ascii_of_string l), [chr 10].
      split; [clear; induction l; cbn; [done|by f_equal]|]. repeat (split; [done|]). by eexists.
Qed.

(** Path routing is exact: an MCP path is passed on with a namespace and
    an endpoint exactly when its third and fourth pieces are one of create, run
    and agent and a valid label (with [$], a final newline would pass as well);
    a path of fewer pieces passes untouched, every other one is refused. *)
Theorem path_routing_correct req st st' :
  starts_with "/mcp/" (path req) = true ->
  path_dispatch req st = Ok st' <->
  (length (str_split "/" (path req)) < 4 /\ st' = st) \/
  exists p0 p1 endpoint namespace rest e,
    str_split "/" (path req) = p0 :: p1 :: endpoint :: namespace :: rest /\ endpoint_of endpoint = Some e /\
    (valid_label namespace = true \/ exists l, valid_label l = true /\ namespace = l +:+ nl) /\
    st' = State (Some namespace) (Some e) false (s_routed_by_subdomain st).
Proof.
  intros Hp. unfold path_dispatch. rewrite Hp. cbn [negb].
  destruct (str_split "/" (path req)) as [|p0 [|p1 [|en [|ns rest]]]] eqn:Es; cbn [length];
    try (split; [intros [= <-]; left; split; [lia|done]|intros [[_ ->]|(?&?&?&?&?&?&[=]&_)]; done]).
  destruct (endpoint_of en) as [e|] eqn:Ee.
  2:{ split; [done|]. intros [[? _]|(?&?&?&?&?&?&[= -> -> -> -> ->]&?&_)]; [lia|congruence]. }
  destruct (namespace_match ns) eqn:En.
  - assert (String.eqb ns "" = false) as ->.
    { destruct ns; [|done]. apply namespace_match_spec in En as [?|(l & Hv & Hl)]; [done|]. by destruct l. }
    cbn. split.
    + intros [= <-]. right. exists p0, p1, en, ns, rest, e. repeat (split; [done|]). split; [|done].
      by apply namespace_match_spec.
    + intros [[? _]|(?&?&?&?&?&?&[= -> -> -> -> ->]&?&_&->)]; [lia|congruence].
  - rewrite orb_true_r. split; [done|]. intros [[? _]|(?&?&?&?&?&?&[= -> -> -> -> ->]&_&Hns&_)]; [lia|].
    apply namespace_match_spec in Hns. congruence.
Qed.

Lemma path_routing_correct_witness :
  path_dispatch (Request "/mcp/agent/my-bot/webhook/github" None []) no_state
    = Ok (State (Some "my-bot") (Some AGENT) false false).
Proof.
  apply (path_routing_correct (Request "/mcp/agent/my-bot/webhook/github" None [])); [reflexivity|]. right.
  exists "", "mcp", "agent", "my-bot", ["webhook"; "github"], AGENT. split; [reflexivity|]. split; [reflexivity|].
  split; [left; vm_compute; reflexivity|reflexivity].
Defined.

(** Hosts: the documented form, a name with a port, and the API host. *)
Example subdomain_hosts :
  map (fun h => subdomain_dispatch "mcpworks.io" default_exempt_paths (Request "/x" (Some h) []) no_state)
    ["Acme.run.mcpworks.io"; "api.mcpworks.io:443"; "localhost:9000"; "-a.run.mcpworks.io"]
  = [Ok (State (Some "acme") (Some RUN) false true); Ok no_state; Ok (State (Some "default") (Some CREATE) true false);
     Err (HTTPException 400 "INVALID_HOST"
       "Invalid host: -a.run.mcpworks.io. Expected {namespace}.{create|run|agent}.mcpworks.io")].
Proof. vm_compute. reflexivity. Qed.

(** Any host with [:8000] in it counts as local: the namespace then comes from
    the query. *)
Example port_8000_is_local :
  subdomain_dispatch "mcpworks.io" default_exempt_paths
    (Request "/x" (Some "acme.run.mcpworks.io:8000") [("namespace", "other")]) no_state
  = Ok (State (Some "other") (Some CREATE) true false).
Proof. vm_compute. reflexivity. Qed.

(** In mode [both] the host is looked at before the path: an MCP path on the
    bare domain is refused for its host, although path routing would take it. *)
Example both_mode_refuses_path :
  let req := Request "/mcp/run/acme" (Some "mcpworks.io") [] in
  route "mcpworks.io" default_exempt_paths ByPath req = Ok (State (Some "acme") (Some RUN) false false) /\
  route "mcpworks.io" default_exempt_paths Both req =
    Err (HTTPException 400 "INVALID_HOST"
      "Invalid host: mcpworks.io. Expected {namespace}.{create|run|agent}.mcpworks.io").
Proof. split; vm_compute; reflexivity. Qed.
