(* ===== verification/ReplicaNames.v ===== *)
(** * Names of agent replicas

    [core/replica_names.py]: the pool of verb-animal names and the generator of
    a name that is not in use.  The random draws and the shuffled pool are
    arguments. *)

From S2P Require Import Prelude.
From Stdlib Require Import Permutation Ascii.

Open Scope nat_scope.

Definition VERBS : list string :=
  ["bold"; "brave"; "bright"; "brisk"; "calm"; "clear"; "clever"; "cool"; "crisp"; "daring"; "eager";
   "even"; "fair"; "fast"; "fierce"; "firm"; "fleet"; "fluid"; "frank"; "fresh"; "glad"; "grand"; "great";
   "keen"; "kind"; "lively"; "lucid"; "merry"; "mighty"; "noble"; "plain"; "prime"; "proud"; "pure";
   "quick"; "quiet"; "rapid"; "ready"; "sharp"; "sleek"; "smart"; "smooth"; "snappy"; "solid"; "steady";
   "stout"; "strong"; "sturdy"; "super"; "swift"].

Definition ANIMALS : list string :=
  ["ant"; "badger"; "bear"; "bison"; "cobra"; "condor"; "crane"; "crow"; "deer"; "dolphin"; "dove"; "duck";
   "eagle"; "elk"; "falcon"; "finch"; "fox"; "frog"; "goat"; "goose"; "gull"; "hawk"; "heron"; "horse";
   "ibis"; "jay"; "kite"; "lark"; "lion"; "lynx"; "marten"; "mink"; "moose"; "newt"; "otter"; "owl";
   "panda"; "parrot"; "pike"; "puma"; "quail"; "ram"; "raven"; "robin"; "salmon"; "seal"; "shrike";
   "snake"; "squid"; "stork"; "swan"; "tern"; "tiger"; "trout"; "viper"; "vole"; "wasp"; "whale"; "wolf";
   "wren"].

Definition POOL_SIZE : nat := length VERBS * length ANIMALS.

Inductive exn := RuntimeError (message : string).

(** [random.choice(l)], for the index that was drawn. *)
Definition choice (l : list string) (i : nat) : string := nth (i mod length l) l "".

Definition name_of (v a : string) : string := v +:+ "-" +:+ a.

(** [[f"{v}-{a}" for v in VERBS for a in ANIMALS]] *)
Definition all_names : list string := VERBS ≫= fun v => map (name_of v) ANIMALS.

(** The first of the names that is not in use. *)
Definition first_free (existing_names names : list string) : option string :=
  List.find (fun n => negb (str_in n existing_names)) names.

(** The attempts that draw a verb and an animal: [draws] holds the indices of
    attempt [0 .. max_retries - 1]. *)
Definition attempts (draws : nat -> nat * nat) (max_retries : nat) : list string :=
  map (fun i => name_of (choice VERBS (draws i).1) (choice ANIMALS (draws i).2)) (seq 0 max_retries).

Definition generate_replica_name (draws : nat -> nat * nat) (shuffled existing_names : list string)
    (max_retries : nat) : res exn string :=
  match first_free existing_names (attempts draws max_retries) with
  | Some name => Ok name
  | None =>
      match first_free existing_names shuffled with
      | Some name => Ok name
      | None => Err (RuntimeError ("No unique replica names available (pool=" +:+ str_of_nat POOL_SIZE
                  +:+ ", existing=" +:+ str_of_nat (length existing_names) +:+ ")"))
      end
  end.

(** ** The generator *)

Lemma first_free_Some existing names n :
  first_free existing names = Some n -> n ∈ names /\ n ∉ existing.
Proof.
  intros [Hin Hn]%find_some. split; [by apply list_elem_of_In|].
  intros Hx%str_in_spec. by rewrite Hx in Hn.
Qed.

Lemma first_free_None existing names : first_free existing names = None -> forall n, n ∈ names -> n ∈ existing.
Proof.
  intros Hf n Hn%list_elem_of_In. pose proof (find_none _ _ Hf n Hn) as Hx. cbn in Hx.
  apply str_in_spec. by destruct (str_in n existing).
Qed.

Lemma choice_in l i : l <> [] -> choice l i ∈ l.
Proof.
  intros Hl. apply list_elem_of_In, nth_In, Nat.mod_upper_bound. by destruct l.
Qed.

Lemma name_in_pool v a : v ∈ VERBS -> a ∈ ANIMALS -> name_of v a ∈ all_names.
Proof.
  intros Hv Ha. apply list_elem_of_bind. exists v. split; [|done].
  apply list_elem_of_In, in_map. by apply list_elem_of_In.
Qed.

Lemma attempts_in_pool draws k n : n ∈ attempts draws k -> n ∈ all_names.
Proof.
  intros (i & <- & _)%list_elem_of_In%in_map_iff. by apply name_in_pool; apply choice_in.
Qed.

(** A text without a dash. *)
Definition no_dash (s : string) : bool := str_forallb (fun c => negb (Ascii.eqb c "-")) s.

Lemma name_of_inj v a v' a' :
  no_dash v = true -> no_dash v' = true -> name_of v a = name_of v' a' -> v = v' /\ a = a'.
Proof.
  unfold name_of, no_dash. revert v'; induction v as [|c v IH]; intros [|c' v'] Hv Hv' Hn; cbn in *.
  - by simplify_eq.
  - injection Hn as <- _. by rewrite Ascii.eqb_refl in Hv'.
  - injection Hn as -> _. by rewrite Ascii.eqb_refl in Hv.
  - injection Hn as -> Hn. apply andb_true_iff in Hv as [_ Hv], Hv' as [_ Hv'].
    by destruct (IH v' Hv Hv' Hn) as [-> ->].
Qed.

Lemma names_NoDup verbs animals :
  NoDup verbs -> NoDup animals -> Forall (fun v => no_dash v = true) verbs ->
  NoDup (verbs ≫= fun v => map (name_of v) animals).
Proof.
  intros Hv Ha. induction verbs as [|v verbs IH]; [intros _; apply NoDup_nil_2|].
  apply NoDup_cons in Hv as [Hnv Hv]. intros [Hd Hds]%Forall_cons. cbn. apply NoDup_app. split; [|split].
  - clear -Ha Hd. induction animals as [|a animals IH]; [apply NoDup_nil_2|].
    apply NoDup_cons in Ha as [Hna Ha]. cbn. apply NoDup_cons. split; [|by apply IH].
    intros (b & Hb & Hin)%list_elem_of_In%in_map_iff. apply name_of_inj in Hb as [_ ->]; [|done..].
    by apply Hna, list_elem_of_In.
  - intros n (a & <- & _)%list_elem_of_In%in_map_iff (w & Hw & Hin)%list_elem_of_bind.
    apply list_elem_of_In, in_map_iff in Hw as (b & Hb & _).
    pose proof (proj1 (Forall_forall _ _) Hds w Hin) as Hdw.
    by apply name_of_inj in Hb as [-> _].
  - by apply IH.
Qed.

Lemma all_names_NoDup : NoDup all_names.
Proof.
  apply names_NoDup; [apply (bool_decide_unpack _); vm_compute; exact I..|].
  apply (bool_decide_unpack _). vm_compute. exact I.
Qed.

Lemma all_names_length : length all_names = POOL_SIZE.
Proof. vm_compute. reflexivity. Qed.

(** A fresh name while there is one: whatever is drawn, the generator
    returns a name of the pool that is not in use; it raises only when every
    name of the pool is in use, so never while fewer names are in use than the
    pool holds. *)
Theorem generate_replica_name_fresh draws shuffled existing max_retries :
  Permutation shuffled all_names ->
  match generate_replica_name draws shuffled existing max_retries with
  | Ok name => name ∈ all_names /\ name ∉ existing
  | Err _ => (forall n, n ∈ all_names -> n ∈ existing) /\ POOL_SIZE <= length existing
  end.
Proof.
  intros Hp. unfold generate_replica_name.
  destruct (first_free existing (attempts draws max_retries)) as [n|] eqn:E1.
  { apply first_free_Some in E1 as [Hn Hx]. split; [by eapply attempts_in_pool|done]. }
  destruct (first_free existing shuffled) as [n|] eqn:E2.
  - apply first_free_Some in E2 as [Hn Hx]. split; [by rewrite <-Hp|done].
  - assert (forall n, n ∈ all_names -> n ∈ existing) as Hall
      by (intros n Hn; apply (first_free_None _ _ E2); by rewrite Hp).
    split; [done|]. rewrite <-all_names_length. apply submseteq_length, NoDup_submseteq; [apply all_names_NoDup|].
    intros n. apply Hall.
Qed.

Lemma generate_replica_name_fresh_witness :
  generate_replica_name (fun i => (i, i)) all_names ["bold-ant"; "brave-badger"] 10 = Ok "bright-bear" /\
  ("bright-bear" ∈ all_names /\ "bright-bear" ∉ ["bold-ant"; "brave-badger"]).
Proof.
  split; [vm_compute; reflexivity|].
  exact (generate_replica_name_fresh (fun i => (i, i)) all_names ["bold-ant"; "brave-badger"] 10 (Permutation_refl _)).
Defined.
