(* ===== verification/Json.v ===== *)
(** * JSON: Python's [json.dumps] and [json.loads]

    The standard library's encoder (ASCII output, optional spaces after the
    separators, as the code calls it) and decoder on the values of [pyval].  A
    text that holds a float, [NaN], [Infinity] or a character outside the first
    256 code points is valid for Python and has no value here: the decoder says
    so ([OutOfModel]).  The main theorem is the round trip. *)

From S2P Require Import Prelude.
From Stdlib Require Import Ascii.

Open Scope nat_scope.

(** ** Encoding *)

Definition backslash : string := String (chr 92) EmptyString.

(** One character of a string literal: [ESCAPE_ASCII]. *)
Definition esc_char (c : ascii) : string :=
  let n := ord c in
  if n =? 34 then backslash +:+ dq
  else if n =? 92 then backslash +:+ backslash
  else if n =? 10 then backslash +:+ "n"
  else if n =? 13 then backslash +:+ "r"
  else if n =? 9 then backslash +:+ "t"
  else if n =? 12 then backslash +:+ "f"
  else if n =? 8 then backslash +:+ "b"
  else if (32 <=? n) && (n <=? 126) then String c EmptyString
  else backslash +:+ "u00" +:+ String (hex_digit (n / 16)) (String (hex_digit (n mod 16)) EmptyString).

Fixpoint str_body (s : string) : string :=
  match s with EmptyString => EmptyString | String c s' => esc_char c +:+ str_body s' end.

Definition json_str (s : string) : string := dq +:+ str_body s +:+ dq.

(** [json.dumps(v)], or with [separators=(",", ":")] when [spaced] is false. *)
Fixpoint dumps_with (spaced : bool) (v : pyval) : string :=
  let sp := if spaced then " " else "" in
  match v with
  | PNone => "null"
  | PBool true => "true"
  | PBool false => "false"
  | PInt z => str_of_Z z
  | PStr s => json_str s
  | PList l => "[" +:+ str_join ("," +:+ sp) (map (dumps_with spaced) l) +:+ "]"
  | PDict d => "{" +:+ str_join ("," +:+ sp)
                 (map (fun kv => json_str kv.1 +:+ ":" +:+ sp +:+ dumps_with spaced kv.2) d) +:+ "}"
  end.

Definition json_dumps (v : pyval) : string := dumps_with true v.

(** ** Decoding *)

Inductive jerr := JSONDecodeError | OutOfModel.

#[export] Instance jerr_eq_dec : EqDecision jerr.
Proof. solve_decision. Defined.

Definition is_ws (c : ascii) : bool :=
  (ord c =? 32) || (ord c =? 9) || (ord c =? 10) || (ord c =? 13).

Fixpoint skip_ws (s : string) : string :=
  match s with
  | String c s' => if is_ws c then skip_ws s' else s
  | EmptyString => EmptyString
  end.

(** The value of a hexadecimal digit. *)
Definition hex_val (c : ascii) : option nat :=
  if is_digit c then Some (ord c - 48)
  else if in_range "a" "f" c then Some (ord c - 87)
  else if in_range "A" "F" c then Some (ord c - 55)
  else None.

Definition simple_escape (c : ascii) : option ascii :=
  let n := ord c in
  if n =? 34 then Some (chr 34)
  else if n =? 92 then Some (chr 92)
  else if n =? 47 then Some (chr 47)
  else if n =? 98 then Some (chr 8)
  else if n =? 102 then Some (chr 12)
  else if n =? 110 then Some (chr 10)
  else if n =? 114 then Some (chr 13)
  else if n =? 116 then Some (chr 9)
  else None.

Definition cons_to (c : ascii) (r : res jerr (string * string)) : res jerr (string * string) :=
  match r with Ok (x, t) => Ok (String c x, t) | Err e => Err e end.

(** A string literal after its opening quote: the text and the rest. *)
Fixpoint scan_string (s : string) : res jerr (string * string) :=
  match s with
  | EmptyString => Err JSONDecodeError
  | String c s' =>
      if ord c =? 34 then Ok (EmptyString, s')
      else if ord c =? 92 then
        match s' with
        | String e t =>
            match simple_escape e with
            | Some x => cons_to x (scan_string t)
            | None =>
                if ord e =? 117 then
                  match t with
                  | String a (String b (String x (String y t'))) =>
                      match hex_val a, hex_val b, hex_val x, hex_val y with
                      | Some 0, Some 0, Some h, Some l => cons_to (chr (16 * h + l)) (scan_string t')
                      | Some _, Some _, Some _, Some _ => Err OutOfModel
                      | _, _, _, _ => Err JSONDecodeError
                      end
                  | _ => Err JSONDecodeError
                  end
                else Err JSONDecodeError
            end
        | EmptyString => Err JSONDecodeError
        end
      else if ord c <? 32 then Err JSONDecodeError
      else cons_to c (scan_string s')
  end.

Fixpoint take_digits (acc : Z) (s : string) : Z * string :=
  match s with
  | String c s' => if is_digit c then take_digits (acc * 10 + Z.of_nat (ord c - 48)) s' else (acc, s)
  | EmptyString => (acc, s)
  end.

Definition starts_digit (s : string) : bool := match s with String c _ => is_digit c | EmptyString => false end.

(** A fraction or an exponent makes the number a float. *)
Definition float_follows (s : string) : bool :=
  match s with
  | String c s' =>
      if Ascii.eqb c "." then starts_digit s'
      else if Ascii.eqb c "e" || Ascii.eqb c "E" then
        starts_digit (match s' with
                      | String d s'' => if Ascii.eqb d "+" || Ascii.eqb d "-" then s'' else s'
                      | EmptyString => s'
                      end)
      else false
  | EmptyString => false
  end.

(** [0|[1-9]\d*] *)
Definition scan_nat (s : string) : option (Z * string) :=
  match s with
  | String c s' =>
      if Ascii.eqb c "0" then Some (0%Z, s')
      else if is_digit c then Some (take_digits 0 s)
      else None
  | EmptyString => None
  end.

Definition scan_number (s : string) : res jerr (pyval * string) :=
  let '(neg, t) := match s with
                   | String c s' => if Ascii.eqb c "-" then (true, s') else (false, s)
                   | EmptyString => (false, s)
                   end in
  match scan_nat t with
  | Some (z, r) => if float_follows r then Err OutOfModel else Ok (PInt (if neg then - z else z)%Z, r)
  | None => if starts_with "Infinity" t || starts_with "NaN" s then Err OutOfModel else Err JSONDecodeError
  end.

(** [n] bounds the calls; [loads_between] shows the bound of [json_loads] to be
    enough for what [json.dumps] writes. *)
Fixpoint parse_value (n : nat) (s : string) : res jerr (pyval * string) :=
  match n with
  | O => Err OutOfModel
  | S n =>
      match s with
      | EmptyString => Err JSONDecodeError
      | String c s' =>
          if ord c =? 34 then '(x, r) ← scan_string s'; Ok (PStr x, r)
          else if Ascii.eqb c "[" then
            if starts_with "]" (skip_ws s') then Ok (PList [], str_drop 1 (skip_ws s'))
            else '(l, r) ← parse_elems n (skip_ws s'); Ok (PList l, r)
          else if Ascii.eqb c "{" then
            if starts_with "}" (skip_ws s') then Ok (PDict [], str_drop 1 (skip_ws s'))
            else '(l, r) ← parse_members n (skip_ws s');
                 Ok (PDict (foldl (fun d kv => dict_set kv.1 kv.2 d) [] l), r)
          else if starts_with "null" s then Ok (PNone, str_drop 4 s)
          else if starts_with "true" s then Ok (PBool true, str_drop 4 s)
          else if starts_with "false" s then Ok (PBool false, str_drop 5 s)
          else scan_number s
      end
  end
with parse_elems (n : nat) (s : string) : res jerr (list pyval * string) :=
  match n with
  | O => Err OutOfModel
  | S n =>
      '(v, r) ← parse_value n s;
      match skip_ws r with
      | String c r' =>
          if Ascii.eqb c "]" then Ok ([v], r')
          else if Ascii.eqb c "," then '(l, r2) ← parse_elems n (skip_ws r'); Ok (v :: l, r2)
          else Err JSONDecodeError
      | EmptyString => Err JSONDecodeError
      end
  end
with parse_members (n : nat) (s : string) : res jerr (list (string * pyval) * string) :=
  match n with
  | O => Err OutOfModel
  | S n =>
      if starts_with dq s then
        '(k, r) ← scan_string (str_drop 1 s);
        if starts_with ":" (skip_ws r) then
          '(v, r2) ← parse_value n (skip_ws (str_drop 1 (skip_ws r)));
          match skip_ws r2 with
          | String c r' =>
              if Ascii.eqb c "}" then Ok ([(k, v)], r')
              else if Ascii.eqb c "," then '(l, r3) ← parse_members n (skip_ws r'); Ok ((k, v) :: l, r3)
              else Err JSONDecodeError
          | EmptyString => Err JSONDecodeError
          end
        else Err JSONDecodeError
      else Err JSONDecodeError
  end.

Definition json_loads (s : string) : res jerr pyval :=
  '(v, r) ← parse_value (S (2 * String.length s)) (skip_ws s);
  match skip_ws r with EmptyString => Ok v | _ => Err JSONDecodeError end.

(** Every dict in the value has each key once. *)
Fixpoint val_wf (v : pyval) : Prop :=
  match v with
  | PList l => foldr (fun v P => val_wf v /\ P) True l
  | PDict d => dict_wf d /\ foldr (fun kv P => val_wf kv.2 /\ P) True d
  | _ => True
  end.

Example json_demo :
  json_loads (" {" +:+ dq +:+ "a" +:+ dq +:+ ": [1, -20, true], " +:+ dq +:+ "b" +:+ dq +:+ " : null} ")
  = Ok (PDict [("a", PList [PInt 1; PInt (-20); PBool true]); ("b", PNone)]).
Proof. vm_compute. reflexivity. Qed.

(** ** The round trip *)

Section pyval_induction.
Variable P : pyval -> Prop.
Hypothesis HNone : P PNone.
Hypothesis HBool : forall b, P (PBool b).
Hypothesis HInt : forall z, P (PInt z).
Hypothesis HStr : forall s, P (PStr s).
Hypothesis HList : forall l, Forall P l -> P (PList l).
Hypothesis HDict : forall d, Forall (fun kv => P kv.2) d -> P (PDict d).

(** Induction on values, into lists and dicts. *)
Fixpoint pyval_deep_ind (v : pyval) : P v :=
  match v with
  | PNone => HNone
  | PBool b => HBool b
  | PInt z => HInt z
  | PStr s => HStr s
  | PList l => HList l ((fix go l : Forall P l :=
      match l with [] => List.Forall_nil _ | v :: l' => @List.Forall_cons _ _ v l' (pyval_deep_ind v) (go l') end) l)
  | PDict d => HDict d ((fix go d : Forall (fun kv => P kv.2) d :=
      match d with [] => List.Forall_nil _ | kv :: d' => @List.Forall_cons _ _ kv d' (pyval_deep_ind kv.2) (go d') end) d)
  end.
End pyval_induction.

(** Values are compared as Python compares them, but that [True] is not [1]. *)
Fixpoint pyval_eqb (v w : pyval) : bool :=
  match v, w with
  | PNone, PNone => true
  | PBool a, PBool b => Bool.eqb a b
  | PInt a, PInt b => Z.eqb a b
  | PStr a, PStr b => String.eqb a b
  | PList l, PList l' =>
      (fix go l l' := match l, l' with
                      | [], [] => true
                      | v :: l, w :: l' => pyval_eqb v w && go l l'
                      | _, _ => false
                      end) l l'
  | PDict d, PDict d' =>
      (fix go d d' := match d, d' with
                      | [], [] => true
                      | (k, v) :: d, (k', w) :: d' => String.eqb k k' && pyval_eqb v w && go d d'
                      | _, _ => false
                      end) d d'
  | _, _ => false
  end.

Lemma pyval_eqb_spec v : forall w, pyval_eqb v w = true <-> v = w.
Proof.
  induction v as [|b|z|s|l IH|d IH] using pyval_deep_ind; intros w; destruct w; cbn [pyval_eqb]; try (split; congruence).
  - rewrite Bool.eqb_true_iff. split; congruence.
  - rewrite Z.eqb_eq. split; congruence.
  - rewrite String.eqb_eq. split; congruence.
  - assert (forall l', (fix go l l' := match l, l' with [], [] => true | v :: l, w :: l' => pyval_eqb v w && go l l' | _, _ => false end) l l' = true <-> l = l') as K.
    { induction IH as [|v l Hv _ IHl]; intros [|w l']; try (split; congruence). rewrite andb_true_iff, Hv, IHl. split; [by intros [-> ->]|by intros [= -> ->]]. }
    rewrite K. split; congruence.
  - assert (forall d', (fix go d d' := match d, d' with [], [] => true
      | (k, v) :: d, (k', w) :: d' => String.eqb k k' && pyval_eqb v w && go d d' | _, _ => false end) d d' = true <-> d = d') as K.
    { induction IH as [|[k v] d Hv _ IHd]; intros [|[k' w] d']; try (split; congruence).
      cbn [snd] in Hv. rewrite !andb_true_iff, String.eqb_eq, (Hv w), IHd. split; [by intros [[-> ->] ->]|by intros [= -> -> ->]]. }
    rewrite K. split; congruence.
Qed.

#[export] Instance pyval_eq_dec : EqDecision pyval.
Proof.
  intros v w. destruct (pyval_eqb v w) eqn:E; [left; by apply pyval_eqb_spec|right].
  intros K%pyval_eqb_spec. congruence.
Defined.

(** *** Strings *)

Lemma scan_esc c t : scan_string (esc_char c +:+ t) = cons_to c (scan_string t).
Proof. destruct c as [[] [] [] [] [] [] [] []]; reflexivity. Qed.

Lemma scan_body s t : scan_string (str_body s +:+ dq +:+ t) = Ok (s, t).
Proof.
  induction s as [|c s IH]; [reflexivity|]. cbn [str_body]. rewrite str_app_assoc, scan_esc, IH. reflexivity.
Qed.

(** *** Numbers *)

(** The rest does not continue a number. *)
Definition num_stop (s : string) : bool :=
  match s with
  | String c _ => negb (is_digit c || Ascii.eqb c "." || Ascii.eqb c "e" || Ascii.eqb c "E")
  | EmptyString => true
  end.

Lemma num_stop_float s : num_stop s = true -> float_follows s = false.
Proof.
  destruct s as [|c s]; [done|]. cbn. rewrite negb_true_iff, !orb_false_iff. by intros [[[_ ->] ->] ->].
Qed.

Lemma num_stop_digits z s : num_stop s = true -> take_digits z s = (z, s).
Proof.
  destruct s as [|c s]; [done|]. cbn. rewrite negb_true_iff, !orb_false_iff. by intros [[[-> _] _] _].
Qed.

Lemma digit_char x : (x < 10)%N ->
  is_digit (pretty_N_char x) = true /\ Z.of_nat (ord (pretty_N_char x) - 48) = Z.of_N x.
Proof.
  intros Hx.
  assert (x = 0 \/ x = 1 \/ x = 2 \/ x = 3 \/ x = 4 \/ x = 5 \/ x = 6 \/ x = 7 \/ x = 8 \/ x = 9)%N as Hc by lia.
  repeat (destruct Hc as [->|Hc]; [by split|]). subst x. by split.
Qed.

Lemma pretty_go_app x s t : pretty_N_go x s +:+ t = pretty_N_go x (s +:+ t).
Proof.
  revert s. induction (N.lt_wf_0 x) as [x _ IH]; intros s. destruct (decide (0 < x)%N) as [Hx|Hx].
  - rewrite !(pretty_N_go_step x) by done. rewrite IH by (by apply N.div_lt). reflexivity.
  - assert (x = 0)%N as -> by lia. by rewrite !pretty_N_go_0.
Qed.

Lemma take_digits_go x s : take_digits 0 (pretty_N_go x s) = take_digits (Z.of_N x) s.
Proof.
  revert s. induction (N.lt_wf_0 x) as [x _ IH]; intros s. destruct (decide (0 < x)%N) as [Hx|Hx].
  - rewrite pretty_N_go_step, IH by (done || by apply N.div_lt). cbn [take_digits].
    destruct (digit_char (x `mod` 10)%N) as [-> ->]; [by apply N.mod_lt|]. f_equal.
    rewrite (N.div_mod x 10) at 3 by done. lia.
  - assert (x = 0)%N as -> by lia. by rewrite pretty_N_go_0.
Qed.

(** The decimal text of a positive number starts with a digit but not with 0. *)
Lemma pretty_go_head x s : (0 < x)%N ->
  exists c t, pretty_N_go x s = String c t /\ is_digit c = true /\ Ascii.eqb c "0" = false.
Proof.
  revert s. induction (N.lt_wf_0 x) as [x _ IH]; intros s Hx. rewrite pretty_N_go_step by done.
  destruct (decide (x < 10)%N) as [Hlt|Hge].
  - rewrite N.div_small, N.mod_small, pretty_N_go_0 by done. exists (pretty_N_char x), s. split; [done|].
    assert (x = 1 \/ x = 2 \/ x = 3 \/ x = 4 \/ x = 5 \/ x = 6 \/ x = 7 \/ x = 8 \/ x = 9)%N as Hc by lia.
    repeat (destruct Hc as [->|Hc]; [by split|]). subst x. by split.
  - apply IH; [by apply N.div_lt|]. apply N.div_str_pos. lia.
Qed.

Lemma scan_nat_N (x : N) t : num_stop t = true -> scan_nat (pretty x +:+ t) = Some (Z.of_N x, t).
Proof.
  intros Ht. unfold pretty, pretty_N. destruct (decide (x = 0)%N) as [->|Hx]; [reflexivity|].
  rewrite pretty_go_app. destruct (pretty_go_head x ("" +:+ t)) as (c & u & Hu & Hd & H0); [lia|].
  rewrite Hu. unfold scan_nat. rewrite H0, Hd, <-Hu, take_digits_go. by rewrite num_stop_digits.
Qed.

(** A value in the text starts with a character that is no space or bracket. *)
Definition value_start (c : ascii) : bool :=
  negb (is_ws c) && negb (Ascii.eqb c "]") && negb (Ascii.eqb c "}").

Lemma N_text_head (x : N) : exists c t, pretty x = String c t /\ is_digit c = true.
Proof.
  unfold pretty, pretty_N. destruct (decide (x = 0)%N) as [->|Hx]; [by do 2 eexists|].
  destruct (pretty_go_head x "") as (c & t & -> & Hd & _); [lia|]. eauto.
Qed.

Lemma Z_text_head z : exists c t, str_of_Z z = String c t /\ (is_digit c || Ascii.eqb c "-") = true.
Proof.
  unfold str_of_Z. destruct z as [|p|p].
  - by do 2 eexists.
  - destruct (N_text_head (Npos p)) as (c & t & H & Hd). exists c, t. by rewrite Hd.
  - by do 2 eexists.
Qed.

Lemma scan_number_Z z t : num_stop t = true -> scan_number (str_of_Z z +:+ t) = Ok (PInt z, t).
Proof.
  intros Ht. unfold scan_number. destruct (decide (0 <= z)%Z) as [Hz|Hz].
  - assert (str_of_Z z = pretty (Z.to_N z)) as -> by by destruct z as [|p|p].
    destruct (N_text_head (Z.to_N z)) as (c & u & Hu & Hd). pose proof (scan_nat_N (Z.to_N z) t Ht) as Hs.
    rewrite Hu in Hs |- *. cbn [String.append].
    assert (Ascii.eqb c "-" = false) as -> by (destruct c as [[] [] [] [] [] [] [] []]; done).
    cbn [String.append] in Hs. rewrite Hs, num_stop_float by done. by rewrite Z2N.id.
  - destruct z as [|p|p]; [lia..|]. change (str_of_Z (Z.neg p)) with ("-" +:+ pretty (Npos p)).
    cbn [String.append]. rewrite Ascii.eqb_refl. rewrite scan_nat_N, num_stop_float by done. reflexivity.
Qed.

(** *** Values *)

Section roundtrip.
Variable spaced : bool.
#[local] Set Default Proof Using "Type".
Abbreviation dumps := (dumps_with spaced).
Abbreviation sp := (if spaced then " " else "").

Lemma skip_sp t : skip_ws (sp +:+ t) = skip_ws t.
Proof. by destruct spaced. Qed.

Lemma skip_start c t : is_ws c = false -> skip_ws (String c t) = String c t.
Proof. intros Hc. cbn [skip_ws]. by rewrite Hc. Qed.

Lemma dumps_head v : exists c t, dumps v = String c t /\ value_start c = true.
Proof.
  destruct v as [|[]|z|s|l|d]; try (by do 2 eexists).
  destruct (Z_text_head z) as (c & t & Hz & Hc). exists c, t. split; [done|].
  destruct c as [[] [] [] [] [] [] [] []]; done.
Qed.

Lemma value_start_spec c : value_start c = true ->
  is_ws c = false /\ Ascii.eqb c "]" = false /\ Ascii.eqb c "}" = false.
Proof. unfold value_start. rewrite !andb_true_iff, !negb_true_iff. tauto. Qed.

Lemma skip_dumps v t : skip_ws (dumps v +:+ t) = dumps v +:+ t.
Proof.
  destruct (dumps_head v) as (c & u & Hu & (Hw & _)%value_start_spec). rewrite Hu.
  cbn [String.append]. by apply skip_start.
Qed.

(** The text of the elements or members after the first bracket. *)
Definition elem_text (l : list pyval) : string := str_join ("," +:+ sp) (map dumps l).
Definition member (kv : string * pyval) : string := json_str kv.1 +:+ ":" +:+ sp +:+ dumps kv.2.
Definition member_text (d : list (string * pyval)) : string := str_join ("," +:+ sp) (map member d).

(** What the round trip says of one value, for all that may follow it. *)
Definition parses (v : pyval) : Prop :=
  val_wf v -> forall n rest, 2 * String.length (dumps v) < n -> num_stop rest = true ->
  parse_value n (dumps v +:+ rest) = Ok (v, rest).

Lemma parse_elems_text l : Forall parses l -> Forall val_wf l -> l <> [] ->
  forall n rest, 2 * String.length (elem_text l) + 1 < n ->
  parse_elems n (elem_text l +:+ "]" +:+ rest) = Ok (l, rest).
Proof.
  induction l as [|v [|w l] IH]; [done|..]; intros [Hv Hl]%Forall_cons [Hwv Hwl]%Forall_cons _ n rest Hn;
    (destruct n as [|n]; [lia|]); unfold elem_text in *; cbn [map] in *.
  - cbn [str_join] in *. cbn [parse_elems]. rewrite (Hv Hwv) by (done || lia). reflexivity.
  - rewrite str_join_cons in *. rewrite !str_length_app in Hn. cbn [String.length] in Hn. cbn [parse_elems].
    rewrite !str_app_assoc, (Hv Hwv) by (done || lia). cbn [mbind res_bind].
    change ("," +:+ (sp +:+ (str_join ("," +:+ sp) (dumps w :: map dumps l) +:+ ("]" +:+ rest))))
      with (String "," (sp +:+ (str_join ("," +:+ sp) (dumps w :: map dumps l) +:+ ("]" +:+ rest)))).
    rewrite skip_start by done. change (Ascii.eqb "," "]") with false. change (Ascii.eqb "," ",") with true. cbv iota.
    rewrite skip_sp.
    assert (skip_ws (str_join ("," +:+ sp) (dumps w :: map dumps l) +:+ ("]" +:+ rest)) =
      str_join ("," +:+ sp) (dumps w :: map dumps l) +:+ ("]" +:+ rest)) as ->.
    { destruct l as [|x l]; cbn [map]; [cbn [str_join]|rewrite str_join_cons, !str_app_assoc]; apply skip_dumps. }
    rewrite IH by (done || lia). reflexivity.
Qed.

Lemma json_str_scan k t : starts_with dq (json_str k +:+ t) = true /\
  scan_string (str_drop 1 (json_str k +:+ t)) = Ok (k, t).
Proof.
  unfold json_str. rewrite !str_app_assoc. split; [reflexivity|].
  change (str_drop 1 (dq +:+ (str_body k +:+ (dq +:+ t)))) with (str_body k +:+ (dq +:+ t)). apply scan_body.
Qed.

Lemma skip_member kv t : skip_ws (member kv +:+ t) = member kv +:+ t.
Proof. unfold member, json_str. rewrite !str_app_assoc. by apply skip_start. Qed.

Lemma parse_members_text d : Forall (fun kv => parses kv.2) d -> Forall (fun kv => val_wf kv.2) d -> d <> [] ->
  forall n rest, 2 * String.length (member_text d) + 1 < n ->
  parse_members n (member_text d +:+ "}" +:+ rest) = Ok (d, rest).
Proof.
  induction d as [|[k v] [|kv2 d] IH]; [done|..]; intros [Hv Hl]%Forall_cons [Hwv Hwl]%Forall_cons _ n rest Hn;
    (destruct n as [|n]; [lia|]); unfold member_text in *; cbn [map snd] in *.
  - cbn [str_join] in *. unfold member in *. cbn [fst snd] in *. rewrite !str_length_app in Hn. cbn [parse_members].
    rewrite !str_app_assoc. destruct (json_str_scan k (":" +:+ (sp +:+ (dumps v +:+ ("}" +:+ rest))))) as [-> ->].
    cbn [mbind res_bind].
    change (":" +:+ (sp +:+ (dumps v +:+ ("}" +:+ rest)))) with (String ":" (sp +:+ (dumps v +:+ ("}" +:+ rest)))).
    rewrite skip_start by done. cbn [starts_with str_drop]. change (Ascii.eqb ":" ":") with true. cbn [andb].
    rewrite skip_sp, skip_dumps, (Hv Hwv) by (done || lia). reflexivity.
  - rewrite str_join_cons in *. unfold member at 1 in Hn. unfold member at 1. cbn [fst snd] in *.
    rewrite !str_length_app in Hn. cbn [String.length] in Hn. cbn [parse_members].
    rewrite !str_app_assoc.
    set (tail := str_join ("," +:+ sp) (member kv2 :: map member d)) in *.
    destruct (json_str_scan k (":" +:+ (sp +:+ (dumps v +:+ ("," +:+ (sp +:+ (tail +:+ ("}" +:+ rest)))))))) as [-> ->].
    cbn [mbind res_bind].
    change (":" +:+ (sp +:+ (dumps v +:+ ("," +:+ (sp +:+ (tail +:+ ("}" +:+ rest)))))))
      with (String ":" (sp +:+ (dumps v +:+ ("," +:+ (sp +:+ (tail +:+ ("}" +:+ rest))))))).
    rewrite skip_start by done. cbn [starts_with str_drop]. change (Ascii.eqb ":" ":") with true. cbn [andb].
    rewrite skip_sp, skip_dumps, (Hv Hwv) by (done || lia). cbn [mbind res_bind].
    change ("," +:+ (sp +:+ (tail +:+ ("}" +:+ rest)))) with (String "," (sp +:+ (tail +:+ ("}" +:+ rest)))).
    rewrite skip_start by done. change (Ascii.eqb "," "}") with false. change (Ascii.eqb "," ",") with true. cbv iota.
    rewrite skip_sp.
    assert (skip_ws (tail +:+ ("}" +:+ rest)) = tail +:+ ("}" +:+ rest)) as ->.
    { subst tail. destruct d as [|x d]; cbn [map]; [cbn [str_join]|rewrite str_join_cons, !str_app_assoc]; apply skip_member. }
    rewrite IH by (done || lia). reflexivity.
Qed.

(** Building the dict of distinct keys gives the pairs back. *)
Lemma dict_of_pairs d acc :
  NoDup (dict_keys acc ++ dict_keys d) ->
  foldl (fun d kv => dict_set kv.1 (kv.2 : pyval) d) acc d = acc ++ d.
Proof.
  revert acc; induction d as [|[k v] d IH]; intros acc Hn; [by rewrite app_nil_r|]. cbn [foldl fst snd].
  assert (k ∉ dict_keys acc) as Hk.
  { apply NoDup_app in Hn as (_ & Hd & _). intros Hin. apply (Hd k Hin). cbn. by left. }
  assert (dict_set k v acc = acc ++ [(k, v)]) as ->.
  { clear -Hk. induction acc as [|[k' v'] acc IH]; [done|]. cbn in *. apply not_elem_of_cons in Hk as [Hne Hk].
    destruct (String.eqb_spec k k'); [done|]. by rewrite IH. }
  rewrite IH, <-app_assoc; [done|]. unfold dict_keys in *. rewrite map_app, <-app_assoc. done.
Qed.

Lemma foldr_and_Forall {A} (Q : A -> Prop) l : foldr (fun a P => Q a /\ P) True l <-> Forall Q l.
Proof.
  induction l as [|a l IH]; cbn; [split; [intros _; apply Forall_nil_2|done]|]. by rewrite IH, Forall_cons.
Qed.

Lemma first_not (c : ascii) s p : match s with String d _ => Ascii.eqb c d = false | EmptyString => True end ->
  starts_with (String c p) s = false.
Proof. destruct s as [|d s]; cbn; [done|]. by intros ->. Qed.

Lemma elem_text_head l t : l <> [] -> exists c u, elem_text l +:+ t = String c u /\ value_start c = true.
Proof.
  destruct l as [|v l]; [done|]. intros _. destruct (dumps_head v) as (c & u & Hu & Hc). unfold elem_text.
  destruct l as [|w l]; cbn [map]; [cbn [str_join]|rewrite str_join_cons, str_app_assoc]; rewrite Hu; by do 2 eexists.
Qed.

Lemma parses_all v : parses v.
Proof.
  induction v as [|b|z|s|l IH|d IH] using pyval_deep_ind; intros Hwf n rest Hn Hstop; (destruct n as [|n]; [lia|]).
  - reflexivity.
  - destruct b; reflexivity.
  - cbn [dumps_with]. destruct (Z_text_head z) as (c & t & Hz & Hc). cbn [parse_value].
    pose proof (scan_number_Z z rest Hstop) as Hs. rewrite Hz in Hs |- *. cbn [String.append] in Hs |- *.
    destruct c as [[] [] [] [] [] [] [] []]; try discriminate Hc; exact Hs.
  - cbn [dumps_with]. unfold json_str. rewrite !str_app_assoc. cbn [parse_value].
    change (dq +:+ (str_body s +:+ (dq +:+ rest))) with (String (chr 34) (str_body s +:+ (dq +:+ rest))).
    change (ord (chr 34) =? 34) with true. cbv iota. by rewrite scan_body.
  - cbn [val_wf] in Hwf. apply foldr_and_Forall in Hwf. cbn [dumps_with] in *. fold (elem_text l) in *.
    rewrite !str_length_app in Hn. cbn [String.length] in Hn. rewrite !str_app_assoc. cbn [parse_value].
    change ("[" +:+ (elem_text l +:+ ("]" +:+ rest))) with (String "[" (elem_text l +:+ ("]" +:+ rest))).
    change (ord "[" =? 34) with false. change (Ascii.eqb "[" "[") with true. cbv iota.
    destruct (decide (l = [])) as [->|Hl]; [reflexivity|].
    pose proof (parse_elems_text l IH Hwf Hl n rest ltac:(lia)) as Hp.
    destruct (elem_text_head l ("]" +:+ rest) Hl) as (c & u & Hu & (Hw & Hb & _)%value_start_spec).
    rewrite Hu in Hp |- *. rewrite skip_start by done. rewrite first_not by by rewrite Ascii.eqb_sym.
    by rewrite Hp.
  - cbn [val_wf] in Hwf. destruct Hwf as [Hd Hwf]. apply (foldr_and_Forall (fun kv => val_wf kv.2)) in Hwf.
    cbn [dumps_with] in *. change (str_join _ _) with (member_text d) in Hn. change (str_join _ _) with (member_text d).
    rewrite !str_length_app in Hn. cbn [String.length] in Hn. rewrite !str_app_assoc. cbn [parse_value].
    change ("{" +:+ (member_text d +:+ ("}" +:+ rest))) with (String "{" (member_text d +:+ ("}" +:+ rest))).
    change (ord "{" =? 34) with false. change (Ascii.eqb "{" "[") with false. change (Ascii.eqb "{" "{") with true. cbv iota.
    destruct (decide (d = [])) as [->|Hdn]; [reflexivity|].
    pose proof (parse_members_text d IH Hwf Hdn n rest ltac:(lia)) as Hp.
    assert (skip_ws (member_text d +:+ ("}" +:+ rest)) = member_text d +:+ ("}" +:+ rest) /\
            starts_with "}" (member_text d +:+ ("}" +:+ rest)) = false) as [-> ->].
    { unfold member_text. destruct d as [|kv [|kv2 d]]; [done|..]; cbn [map]; [cbn [str_join]|rewrite str_join_cons, !str_app_assoc];
        (split; [apply skip_member|reflexivity]). }
    rewrite Hp. cbn [mbind res_bind]. by rewrite dict_of_pairs.
Qed.
End roundtrip.

Lemma loads_between spaced v before after :
  val_wf v -> str_forallb is_ws before = true -> str_forallb is_ws after = true ->
  json_loads (before +:+ dumps_with spaced v +:+ after) = Ok v.
Proof.
  intros Hwf Hb Ha.
  assert (forall t, skip_ws (before +:+ t) = skip_ws t) as Hskip.
  { intros t. clear -Hb. induction before as [|c b IH]; [done|]. cbn in Hb |- *. apply andb_true_iff in Hb as [-> Hb].
    by apply IH. }
  assert (skip_ws after = "") as Hend.
  { clear -Ha. induction after as [|c b IH]; [done|]. cbn in Ha |- *. apply andb_true_iff in Ha as [-> Ha]. by apply IH. }
  assert (num_stop after = true) as Hstop.
  { destruct after as [|c a]; [done|]. cbn in Ha. apply andb_true_iff in Ha as [Hc _].
    destruct c as [[] [] [] [] [] [] [] []]; done. }
  unfold json_loads. rewrite Hskip, skip_dumps. rewrite (parses_all spaced v Hwf); [|rewrite !str_length_app; lia|done].
  cbn [mbind res_bind]. by rewrite Hend.
Qed.

Lemma loads_dumps spaced v : val_wf v -> json_loads (dumps_with spaced v) = Ok v.
Proof.
  intros Hv. pose proof (loads_between spaced v "" "" Hv eq_refl eq_refl) as Hl.
  by rewrite str_app_nil_r in Hl.
Qed.

Example loads_dumps_example :
  let v := PDict [("k" +:+ dq, PList [PInt (-7); PStr (nl +:+ "a"); PBool true; PNone]); ("e", PDict [])] in
  json_loads (" " +:+ dumps_with true v +:+ nl) = Ok v.
Proof. reflexivity. Qed.
