(* ===== verification/Encryption.v ===== *)
(** * Envelope encryption

    [core/encryption.py]: each value is encrypted with a key of its own, and
    that key with the key-encryption key of the settings.  AES-GCM is the class
    [Aead] with the law [AeadLaws]; [base64.b64decode] and [os.urandom] are
    arguments.  Bytes are texts of 8-bit characters. *)

From S2P Require Import Prelude Json.
From Stdlib Require Import Ascii.

Open Scope nat_scope.

Inductive exn :=
| RuntimeError (message : string)
| ValueError
| InvalidTag
| UnicodeDecodeError
| JsonError (e : jerr).

#[export] Instance exn_eq_dec : EqDecision exn.
Proof. solve_decision. Defined.

(** [AESGCM(key).encrypt(nonce, data, None)] and [.decrypt]: [None] of the
    first is a key or nonce of a wrong size, of the second also a failed tag. *)
Class Aead := {
  aes_encrypt : string -> string -> string -> option string;
  aes_decrypt : string -> string -> string -> option string
}.

Class AeadLaws `{Aead} := {
  aes_encrypt_some key nonce data :
    String.length key = 32 -> String.length nonce = 12 -> exists ct, aes_encrypt key nonce data = Some ct;
  aes_decrypt_encrypt key nonce data ct :
    aes_encrypt key nonce data = Some ct -> aes_decrypt key nonce ct = Some data
}.

(** ** UTF-8 on code points below 256 *)

Fixpoint utf8_encode (s : string) : string :=
  match s with
  | EmptyString => EmptyString
  | String c s' =>
      if ord c <? 128 then String c (utf8_encode s')
      else String (chr (192 + ord c / 64)) (String (chr (128 + ord c mod 64)) (utf8_encode s'))
  end.

(** [None]: not UTF-8, or a code point of 256 or more. *)
Fixpoint utf8_decode (s : string) : option string :=
  match s with
  | EmptyString => Some EmptyString
  | String c s' =>
      if ord c <? 128 then option_map (String c) (utf8_decode s')
      else match s' with
           | String d s'' =>
               if ((ord c =? 194) || (ord c =? 195)) && (128 <=? ord d) && (ord d <? 192)
               then option_map (String (chr ((ord c - 192) * 64 + (ord d - 128)))) (utf8_decode s'')
               else None
           | EmptyString => None
           end
  end.

Lemma latin_decode_char c t :
  utf8_decode (if ord c <? 128 then String c t
               else String (chr (192 + ord c / 64)) (String (chr (128 + ord c mod 64)) t))
  = option_map (String c) (utf8_decode t).
Proof. destruct c as [[] [] [] [] [] [] [] []]; reflexivity. Qed.

Lemma utf8_decode_encode s : utf8_decode (utf8_encode s) = Some s.
Proof. induction s as [|c s IH]; [done|]. cbn [utf8_encode]. by rewrite latin_decode_char, IH. Qed.

Section encryption.
Context `{Aead} (b64decode : string -> string).

(** [_get_kek()]: the cached key, or the one of the settings.  The cache is
    written before the length is checked. *)
Definition _get_kek (kek_b64 : string) : stm (option string) exn string := fun cache =>
  match cache with
  | Some kek => (Ok kek, cache)
  | None =>
      if String.eqb kek_b64 "" then (Err (RuntimeError "ENCRYPTION_KEK_B64 not configured"), None)
      else
        let kek := b64decode kek_b64 in
        if String.length kek =? 32 then (Ok kek, Some kek)
        else (Err (RuntimeError "ENCRYPTION_KEK_B64 must decode to exactly 32 bytes"), Some kek)
  end.

Definition of_option {A} (e : exn) (o : option A) : res exn A := match o with Some a => Ok a | None => Err e end.

(** The random bytes of one encryption: the data key and the two nonces. *)
Record randomness := Randomness { r_dek : string; r_nonce : string; r_dek_nonce : string }.

Definition encrypt_dek (nonce dek kek : string) : res exn string :=
  ct ← of_option ValueError (aes_encrypt kek nonce dek); Ok (nonce +:+ ct).

Definition decrypt_dek (encrypted_dek kek : string) : res exn string :=
  of_option InvalidTag (aes_decrypt kek (str_take 12 encrypted_dek) (str_drop 12 encrypted_dek)).

(** (ciphertext, encrypted data key) *)
Definition encrypt_string (r : randomness) (plaintext kek : string) : res exn (string * string) :=
  ct ← of_option ValueError (aes_encrypt (r_dek r) (r_nonce r) (utf8_encode plaintext));
  encrypted_dek ← encrypt_dek (r_dek_nonce r) (r_dek r) kek;
  Ok (r_nonce r +:+ ct, encrypted_dek).

Definition decrypt_string (ciphertext encrypted_dek kek : string) : res exn string :=
  dek ← decrypt_dek encrypted_dek kek;
  plaintext ← of_option InvalidTag (aes_decrypt dek (str_take 12 ciphertext) (str_drop 12 ciphertext));
  of_option UnicodeDecodeError (utf8_decode plaintext).

(** A value is encrypted as its JSON text. *)
Definition encrypt_value (r : randomness) (plaintext : pyval) (kek : string) : res exn (string * string) :=
  encrypt_string r (json_dumps plaintext) kek.

Definition decrypt_value (ciphertext encrypted_dek kek : string) : res exn pyval :=
  text ← decrypt_string ciphertext encrypted_dek kek;
  match json_loads text with Ok v => Ok v | Err e => Err (JsonError e) end.
End encryption.

(** ** The envelope opens *)

Definition good_randomness (r : randomness) : Prop :=
  String.length (r_dek r) = 32 /\ String.length (r_nonce r) = 12 /\ String.length (r_dek_nonce r) = 12.

Section facts.
Context `{AeadLaws}.
#[local] Set Default Proof Using "Type*".

Lemma take_drop_12 n ct : String.length n = 12 -> str_take 12 (n +:+ ct) = n /\ str_drop 12 (n +:+ ct) = ct.
Proof. intros <-. split; [apply str_take_app_length|apply str_drop_app_length]. Qed.

Lemma decrypt_encrypt_string r s kek ct dk :
  good_randomness r -> encrypt_string r s kek = Ok (ct, dk) -> decrypt_string ct dk kek = Ok s.
Proof.
  intros (Hd & Hn & Hdn). unfold encrypt_string, encrypt_dek, decrypt_string, decrypt_dek.
  destruct (aes_encrypt (r_dek r) (r_nonce r) (utf8_encode s)) as [c1|] eqn:E1; [|done].
  cbn [of_option mbind res_bind].
  destruct (aes_encrypt kek (r_dek_nonce r) (r_dek r)) as [c2|] eqn:E2; [|done]. cbn [of_option mbind res_bind].
  intros [= <- <-]. destruct (take_drop_12 _ c2 Hdn) as [-> ->]. rewrite (aes_decrypt_encrypt _ _ _ _ E2).
  cbn [of_option mbind res_bind]. destruct (take_drop_12 _ c1 Hn) as [-> ->]. rewrite (aes_decrypt_encrypt _ _ _ _ E1).
  cbn [of_option mbind res_bind]. by rewrite utf8_decode_encode.
Qed.

Lemma json_dumps_loads v : val_wf v -> json_loads (json_dumps v) = Ok v.
Proof. intros Hv. by apply (loads_dumps true). Qed.

Lemma decrypt_encrypt_value r v kek ct dk :
  good_randomness r -> val_wf v -> encrypt_value r v kek = Ok (ct, dk) -> decrypt_value ct dk kek = Ok v.
Proof.
  intros Hr Hv He. unfold decrypt_value. rewrite (decrypt_encrypt_string _ _ _ _ _ Hr He). cbn [mbind res_bind].
  by rewrite json_dumps_loads.
Qed.

(** Encryption succeeds with a key of 32 bytes. *)
Lemma encrypt_value_ok r v kek :
  good_randomness r -> String.length kek = 32 -> exists ct dk, encrypt_value r v kek = Ok (ct, dk).
Proof.
  intros (Hd & Hn & Hdn) Hk. unfold encrypt_value, encrypt_string, encrypt_dek.
  destruct (aes_encrypt_some (r_dek r) (r_nonce r) (utf8_encode (json_dumps v)) Hd Hn) as [c1 ->].
  destruct (aes_encrypt_some kek (r_dek_nonce r) (r_dek r) Hk Hdn) as [c2 ->]. by do 2 eexists.
Qed.
End facts.

(** The length of the key is checked once: the failed call leaves the short key
    in the cache, and every later call returns it. *)
Example short_kek_is_cached :
  let f := _get_kek (fun x => x) "0123456789abcdef" in
  f None = (Err (RuntimeError "ENCRYPTION_KEK_B64 must decode to exactly 32 bytes"), Some "0123456789abcdef") /\
  (f (f None).2).1 = Ok "0123456789abcdef".
Proof. split; reflexivity. Qed.

(** A readable cipher, for concrete runs. *)
#[export] Instance toy_aead : Aead := {|
  aes_encrypt key nonce data :=
    if (String.length key =? 32) && (String.length nonce =? 12) then Some (key +:+ data) else None;
  aes_decrypt key nonce ct := if starts_with key ct then Some (str_drop (String.length key) ct) else None
|}.

#[export] Instance toy_aead_laws : AeadLaws.
Proof.
  split; cbn.
  - intros key nonce data -> ->. by eexists.
  - intros key nonce data ct. destruct (_ && _); [|done]. intros [= <-].
    by rewrite starts_with_app, str_drop_app_length.
Defined.
