(* ===== verification/AgentState.v ===== *)
(** * The stored state of an agent

    The state operations of [services/agent_service.py] ([set_state] to
    [get_all_state]) on the tables of agents and state entries, with the tier
    table of [models/subscription.py].  Values are stored encrypted
    ([Encryption]); the database keeps (agent, key) unique. *)

From S2P Require Import Prelude Json Encryption.

Open Scope Z_scope.

(** ** Tiers *)

Record tier_config := TierConfig {
  max_agents : Z;
  memory_limit_mb : Z;
  cpu_limit_tenths : Z;
  min_schedule_seconds : Z;
  max_state_bytes : Z;
  run_retention_days : Z;
  max_webhook_payload_bytes : Z
}.

Definition AGENT_TIER_CONFIG : list (string * tier_config) :=
  [("trial-agent", TierConfig 5 512 5 30 (100 * 1024 * 1024) 14 (1 * 1024 * 1024));
   ("pro-agent", TierConfig 5 512 5 30 (100 * 1024 * 1024) 30 (1 * 1024 * 1024));
   ("enterprise-agent", TierConfig 20 1024 10 15 (1024 * 1024 * 1024) 90 (5 * 1024 * 1024));
   ("dedicated-agent", TierConfig (-1) 2048 20 15 (-1) 365 (10 * 1024 * 1024))].

(** ** Tables *)

Record agent := Agent { ag_id : string; ag_account_id : string; ag_name : string }.

Record state_entry := StateEntry {
  e_agent_id : string;
  e_key : string;
  value_encrypted : string;
  value_dek_encrypted : string;
  size_bytes : Z
}.

(** The tables and the cached key-encryption key. *)
Record st := St { agents : list agent; entries : list state_entry; kek_cache : option string }.

Inductive err :=
| NotFoundError (message : string)
| ForbiddenError (message : string)
| CryptoError (e : Encryption.exn)
| DataError.

Section service.
Context `{Aead} (b64decode : string -> string) (kek_b64 : string).

Abbreviation M := (stm st err).

Definition _get_tier_config (tier : string) : res err tier_config :=
  match dict_get tier AGENT_TIER_CONFIG with
  | Some c => Ok c
  | None => Err (ForbiddenError ("Tier '" +:+ tier +:+ "' is not agent-enabled"))
  end.

Definition get_agent (account_id agent_name : string) : M agent := fun s =>
  match List.find (fun a => String.eqb (ag_account_id a) account_id && String.eqb (ag_name a) agent_name) (agents s) with
  | Some a => (Ok a, s)
  | None => (Err (NotFoundError ("Agent '" +:+ agent_name +:+ "' not found")), s)
  end.

Definition is_entry (agent_id key : string) (e : state_entry) : bool :=
  String.eqb (e_agent_id e) agent_id && String.eqb (e_key e) key.

Definition find_entry (agent_id key : string) (l : list state_entry) : option state_entry :=
  List.find (is_entry agent_id key) l.

(** [String(255)]: the database refuses a new row with a longer key. *)
Definition MAX_KEY : Z := 255.
Definition key_refused (agent_id key : string) (l : list state_entry) : bool :=
  match find_entry agent_id key l with Some _ => false | None => MAX_KEY <? str_len key end.

(** The sum of the sizes of an agent's entries. *)
Fixpoint total_size (agent_id : string) (l : list state_entry) : Z :=
  match l with
  | [] => 0
  | e :: l' => (if String.eqb (e_agent_id e) agent_id then size_bytes e else 0) + total_size agent_id l'
  end.

(** The key-encryption key, cached in the module. *)
Definition kek : M string := fun s =>
  let '(o, c) := _get_kek b64decode kek_b64 (kek_cache s) in
  (match o with Ok k => Ok k | Err e => Err (CryptoError e) end, St (agents s) (entries s) c).

Definition lift_crypto {A} (r : res Encryption.exn A) : M A := fun s =>
  (match r with Ok a => Ok a | Err e => Err (CryptoError e) end, s).

(** [len(json.dumps(value).encode("utf-8"))] *)
Definition serialized_size (value : pyval) : Z := str_len (utf8_encode (json_dumps value)).

(** The entry updated, or added at the end. *)
Fixpoint put_entry (new : state_entry) (l : list state_entry) : list state_entry :=
  match l with
  | [] => [new]
  | e :: l' => if is_entry (e_agent_id new) (e_key new) e then new :: l' else e :: put_entry new l'
  end.

Definition set_state (r : randomness) (account_id agent_name key : string) (value : pyval) (tier : string)
    : M state_entry :=
  a ← get_agent account_id agent_name;
  cfg ← lift_res (_get_tier_config tier);
  let size := serialized_size value in
  s ← getS;
  let current_total := total_size (ag_id a) (entries s) in
  let existing_size := match find_entry (ag_id a) key (entries s) with Some e => size_bytes e | None => 0 end in
  let projected_total := current_total - existing_size + size in
  if max_state_bytes cfg <? projected_total then
    raise (ForbiddenError ("State size limit exceeded: " +:+ str_of_Z projected_total +:+ " bytes > "
             +:+ str_of_Z (max_state_bytes cfg) +:+ " bytes for " +:+ tier))
  else
    k ← kek;
    ct ← lift_crypto (encrypt_value r value k);
    let entry := StateEntry (ag_id a) key ct.1 ct.2 size in
    if key_refused (ag_id a) key (entries s) then raise DataError
    else
      modS (fun s => St (agents s) (put_entry entry (entries s)) (kek_cache s));;
      mret entry.

Definition get_state (account_id agent_name key : string) : M (pyval * state_entry) :=
  a ← get_agent account_id agent_name;
  s ← getS;
  match find_entry (ag_id a) key (entries s) with
  | None => raise (NotFoundError ("State key '" +:+ key +:+ "' not found"))
  | Some e =>
      k ← kek;
      v ← lift_crypto (decrypt_value (value_encrypted e) (value_dek_encrypted e) k);
      mret (v, e)
  end.

Fixpoint delete_entry (agent_id key : string) (l : list state_entry) : list state_entry :=
  match l with
  | [] => []
  | e :: l' => if is_entry agent_id key e then l' else e :: delete_entry agent_id key l'
  end.

Definition delete_state (account_id agent_name key : string) : M unit :=
  a ← get_agent account_id agent_name;
  s ← getS;
  match find_entry (ag_id a) key (entries s) with
  | None => raise (NotFoundError ("State key '" +:+ key +:+ "' not found"))
  | Some _ => modS (fun s => St (agents s) (delete_entry (ag_id a) key (entries s)) (kek_cache s))
  end.

(** (keys, total size, maximal size) *)
Definition list_state_keys (account_id agent_name tier : string) : M (list string * Z * Z) :=
  a ← get_agent account_id agent_name;
  cfg ← lift_res (_get_tier_config tier);
  s ← getS;
  mret (order_by str_leb (map e_key (List.filter (fun e => String.eqb (e_agent_id e) (ag_id a)) (entries s))),
        total_size (ag_id a) (entries s), max_state_bytes cfg).

(** The loop of [get_all_state]: entries that do not decrypt are left out. *)
Fixpoint decrypt_rows (rows : list state_entry) (state : list (string * pyval)) : M (list (string * pyval)) :=
  match rows with
  | [] => mret state
  | e :: rows' =>
      state' ← try_except
        (k ← kek; v ← lift_crypto (decrypt_value (value_encrypted e) (value_dek_encrypted e) k);
         mret (dict_set (e_key e) v state))
        (fun _ => Some (mret state));
      decrypt_rows rows' state'
  end.

Definition get_all_state (agent_id : string) : M (list (string * pyval)) :=
  s ← getS;
  decrypt_rows (List.filter (fun e => String.eqb (e_agent_id e) agent_id) (entries s)) [].
End service.

(** ** Entries *)

Lemma find_put_eq e l : find_entry (e_agent_id e) (e_key e) (put_entry e l) = Some e.
Proof.
  unfold find_entry. induction l as [|x l IH]; cbn.
  - unfold is_entry. by rewrite !String.eqb_refl.
  - destruct (is_entry (e_agent_id e) (e_key e) x) eqn:E; cbn; [|by rewrite E].
    unfold is_entry. by rewrite !String.eqb_refl.
Qed.

Lemma is_entry_spec a k e : is_entry a k e = true <-> e_agent_id e = a /\ e_key e = k.
Proof. unfold is_entry. by rewrite andb_true_iff, !String.eqb_eq. Qed.

Lemma find_put_ne a k e l : (a, k) <> (e_agent_id e, e_key e) -> find_entry a k (put_entry e l) = find_entry a k l.
Proof.
  intros Hne. assert (is_entry a k e = false) as He.
  { apply not_true_iff_false. rewrite is_entry_spec. intros [<- <-]. done. }
  unfold find_entry. induction l as [|x l IH]; cbn; [by rewrite He|].
  destruct (is_entry (e_agent_id e) (e_key e) x) eqn:E; cbn; [|by rewrite IH].
  rewrite He. apply is_entry_spec in E as [Ha Hk].
  assert (is_entry a k x = false) as ->; [|done].
  apply not_true_iff_false. rewrite is_entry_spec. intros [<- <-]. congruence.
Qed.

(** Replacing an entry changes the total by the difference of the sizes. *)
Lemma total_put e l :
  total_size (e_agent_id e) (put_entry e l) =
  total_size (e_agent_id e) l
    - (match find_entry (e_agent_id e) (e_key e) l with Some x => size_bytes x | None => 0 end) + size_bytes e.
Proof.
  unfold find_entry. induction l as [|x l IH]; cbn [put_entry total_size List.find].
  - rewrite String.eqb_refl. cbn. lia.
  - destruct (is_entry (e_agent_id e) (e_key e) x) eqn:E; cbn [total_size].
    + apply is_entry_spec in E as [-> _]. rewrite !String.eqb_refl. lia.
    + rewrite IH. lia.
Qed.

Lemma total_put_ne a e l : a <> e_agent_id e -> total_size a (put_entry e l) = total_size a l.
Proof.
  intros Hne. assert (String.eqb (e_agent_id e) a = false) as He by by apply String.eqb_neq, not_eq_sym.
  induction l as [|x l IH]; cbn [put_entry total_size].
  - rewrite He. lia.
  - destruct (is_entry (e_agent_id e) (e_key e) x) eqn:E; cbn [total_size].
    + apply is_entry_spec in E as [-> _]. rewrite He. lia.
    + by rewrite IH.
Qed.

Definition sizes_ok (l : list state_entry) : Prop := Forall (fun e => 0 <= size_bytes e) l.

Lemma total_delete a a' k l : sizes_ok l -> total_size a (delete_entry a' k l) <= total_size a l.
Proof.
  induction l as [|x l IH]; cbn [delete_entry total_size]; [lia|]. intros [Hx Hl]%Forall_cons.
  specialize (IH Hl). destruct (is_entry a' k x); cbn [total_size]; destruct (String.eqb _ a); lia.
Qed.

(** The constraint [uq_agent_state_key]. *)
Definition entry_key (e : state_entry) : string * string := (e_agent_id e, e_key e).
Definition unique_entries (l : list state_entry) : Prop := NoDup (map entry_key l).

Lemma put_entry_keys e l x : x ∈ map entry_key (put_entry e l) -> x = entry_key e \/ x ∈ map entry_key l.
Proof.
  induction l as [|y l IH]; cbn [put_entry map]; [intros Hx; left; by apply list_elem_of_singleton|].
  destruct (is_entry _ _ y); cbn [map]; rewrite !elem_of_cons; tauto.
Qed.

Lemma unique_put e l : unique_entries l -> unique_entries (put_entry e l).
Proof.
  unfold unique_entries. induction l as [|y l IH]; cbn [put_entry map]; [intros _; apply NoDup_singleton|].
  intros [Hy Hl]%NoDup_cons. destruct (is_entry (e_agent_id e) (e_key e) y) eqn:E; cbn [map].
  - apply is_entry_spec in E as [Ha Hk]. apply NoDup_cons. split; [|done].
    unfold entry_key at 1 in Hy. unfold entry_key at 1. by rewrite <-Ha, <-Hk.
  - apply NoDup_cons. split; [|by apply IH]. intros [Heq|?]%put_entry_keys; [|done].
    apply not_true_iff_false in E. apply E, is_entry_spec. unfold entry_key in Heq. by injection Heq.
Qed.

Lemma unique_agent_keys a l :
  unique_entries l -> NoDup (map e_key (List.filter (fun e => String.eqb (e_agent_id e) a) l)).
Proof.
  unfold unique_entries. induction l as [|x l IH]; cbn [List.filter map]; [intros _; apply NoDup_nil_2|].
  intros [Hx Hl]%NoDup_cons. destruct (String.eqb_spec (e_agent_id x) a) as [Ha|]; [|by apply IH].
  cbn [map]. apply NoDup_cons. split; [|by apply IH]. intros Hin. apply Hx.
  apply list_elem_of_In, in_map_iff in Hin as (y & Hk & [Hy Hya]%filter_In).
  apply String.eqb_eq in Hya. apply list_elem_of_In, in_map_iff. exists y. split; [|done].
  unfold entry_key. congruence.
Qed.

Lemma find_agent_row a key l :
  List.find (fun e => String.eqb (e_key e) key) (List.filter (fun e => String.eqb (e_agent_id e) a) l)
  = find_entry a key l.
Proof.
  unfold find_entry, is_entry. induction l as [|x l IH]; cbn; [done|].
  destruct (String.eqb (e_agent_id x) a); cbn; by rewrite IH.
Qed.

Section facts.
Context `{AeadLaws} (b64decode : string -> string) (kek_b64 : string).
#[local] Set Default Proof Using "Type*".

(** What a successful [set_state] did. *)
Lemma set_state_ok r acc name key v tier s e s' :
  set_state b64decode kek_b64 r acc name key v tier s = (Ok e, s') ->
  exists a cfg k ct dk,
    get_agent acc name s = (Ok a, s) /\ dict_get tier AGENT_TIER_CONFIG = Some cfg /\
    (kek b64decode kek_b64 s).1 = Ok k /\ encrypt_value r v k = Ok (ct, dk) /\
    key_refused (ag_id a) key (entries s) = false /\
    e = StateEntry (ag_id a) key ct dk (serialized_size v) /\
    total_size (ag_id a) (entries s) - (match find_entry (ag_id a) key (entries s) with Some x => size_bytes x | None => 0 end)
      + serialized_size v <= max_state_bytes cfg /\
    agents s' = agents s /\ entries s' = put_entry e (entries s) /\ kek_cache s' = Some k.
Proof.
  unfold set_state, mbind, stm_bind. unfold get_agent at 1.
  destruct (List.find _ (agents s)) as [a|] eqn:Ea; [|done]. unfold lift_res, _get_tier_config.
  destruct (dict_get tier AGENT_TIER_CONFIG) as [cfg|] eqn:Ec; [|done]. cbn [getS].
  destruct (Z.ltb_spec (max_state_bytes cfg) (total_size (ag_id a) (entries s) -
    match find_entry (ag_id a) key (entries s) with Some x => size_bytes x | None => 0 end + serialized_size v)); [done|].
  destruct (kek b64decode kek_b64 s) as [[k|x] s1] eqn:Ek; [|done].
  assert (agents s1 = agents s /\ entries s1 = entries s /\ kek_cache s1 = Some k) as (Hag & Hen & Hca).
  { unfold kek, _get_kek in Ek. destruct (kek_cache s) as [k0|]; [by injection Ek as <- <-|].
    destruct (String.eqb kek_b64 ""); [done|]. destruct (_ =? _)%nat; [by injection Ek as <- <-|done]. }
  unfold lift_crypto. destruct (encrypt_value r v k) as [[ct dk]|x] eqn:Ee; [|done]. cbn.
  destruct (key_refused _ _ _) eqn:Ef; [done|].
  intros [= <- <-]. exists a, cfg, k, ct, dk. unfold get_agent. rewrite Ea. cbn. by rewrite Hag, Hen.
Qed.

(** The bytes of the entry that a new value of [key] replaces. *)
Definition existing_size (agent_id key : string) (l : list state_entry) : Z :=
  match find_entry agent_id key l with Some x => size_bytes x | None => 0 end.

(** A row with the key exists, or the key is short enough for one. *)
Lemma key_taken a key l : str_len key <= MAX_KEY \/ is_Some (find_entry a key l) -> key_refused a key l = false.
Proof. unfold key_refused. intros [Hk|[e ->]]; [|done]. destruct (find_entry a key l); [done|]. apply Z.ltb_ge. done. Qed.

(** Within the limit and with a key of 32 bytes the value is stored. *)
Lemma set_state_succeeds r acc name key v tier s a cfg k :
  good_randomness r -> get_agent acc name s = (Ok a, s) -> dict_get tier AGENT_TIER_CONFIG = Some cfg ->
  (kek b64decode kek_b64 s).1 = Ok k -> String.length k = 32%nat ->
  total_size (ag_id a) (entries s) - existing_size (ag_id a) key (entries s) + serialized_size v <= max_state_bytes cfg ->
  key_refused (ag_id a) key (entries s) = false ->
  exists e s', set_state b64decode kek_b64 r acc name key v tier s = (Ok e, s').
Proof.
  intros Hr Ha Hc Hk Hlen Hle Hf. unfold set_state, mbind, stm_bind. rewrite Ha. unfold lift_res, _get_tier_config.
  rewrite Hc. cbn [getS]. fold (existing_size (ag_id a) key (entries s)).
  destruct (Z.ltb_spec (max_state_bytes cfg) (total_size (ag_id a) (entries s)
    - existing_size (ag_id a) key (entries s) + serialized_size v)); [lia|].
  destruct (kek b64decode kek_b64 s) as [o s1]. cbn in Hk. subst o. unfold lift_crypto.
  destruct (encrypt_value_ok r v k Hr Hlen) as (ct & dk & ->). rewrite Hf. by do 2 eexists.
Qed.

(** And a new key that is too long is not. *)
Lemma set_state_refused r acc name key v tier s a cfg k :
  good_randomness r -> get_agent acc name s = (Ok a, s) -> dict_get tier AGENT_TIER_CONFIG = Some cfg ->
  (kek b64decode kek_b64 s).1 = Ok k -> String.length k = 32%nat ->
  total_size (ag_id a) (entries s) - existing_size (ag_id a) key (entries s) + serialized_size v <= max_state_bytes cfg ->
  key_refused (ag_id a) key (entries s) = true ->
  let o := set_state b64decode kek_b64 r acc name key v tier s in
  o.1 = Err DataError /\ agents o.2 = agents s /\ entries o.2 = entries s.
Proof.
  intros Hr Ha Hc Hk Hlen Hle Hf o. subst o. unfold set_state, mbind, stm_bind. rewrite Ha. unfold lift_res, _get_tier_config.
  rewrite Hc. cbn [getS]. fold (existing_size (ag_id a) key (entries s)).
  destruct (Z.ltb_spec (max_state_bytes cfg) (total_size (ag_id a) (entries s)
    - existing_size (ag_id a) key (entries s) + serialized_size v)); [lia|].
  destruct (kek b64decode kek_b64 s) as [o s1] eqn:Ek. cbn in Hk. subst o. unfold lift_crypto.
  destruct (encrypt_value_ok r v k Hr Hlen) as (ct & dk & ->). rewrite Hf. cbn.
  unfold kek, _get_kek in Ek. destruct (kek_cache s); [by injection Ek as _ <-|]. destruct (String.eqb kek_b64 ""); [done|].
  destruct (_ =? _)%nat; [by injection Ek as _ <-|done].
Qed.

Lemma get_after_set r acc name key v tier s e s' :
  good_randomness r -> val_wf v ->
  set_state b64decode kek_b64 r acc name key v tier s = (Ok e, s') ->
  (get_state b64decode kek_b64 acc name key s').1 = Ok (v, e) /\
  forall a k, (a, k) <> (e_agent_id e, e_key e) -> find_entry a k (entries s') = find_entry a k (entries s).
Proof.
  intros Hr Hv (a & cfg & k & ct & dk & Ha & _ & Hk & He & _ & -> & _ & Hag & Hen & Hca)%set_state_ok.
  split; [|intros a' k' Hne; rewrite Hen; by apply find_put_ne].
  unfold get_state, mbind, stm_bind. unfold get_agent in *. rewrite Hag.
  destruct (List.find _ (agents s)) as [a0|]; [|done]. injection Ha as ->. cbn [getS].
  rewrite Hen. pose proof (find_put_eq (StateEntry (ag_id a) key ct dk (serialized_size v)) (entries s)) as Hf.
  cbn [e_agent_id e_key] in Hf. rewrite Hf.
  unfold kek, _get_kek. rewrite Hca. unfold lift_crypto. cbn [value_encrypted value_dek_encrypted].
  by rewrite (decrypt_encrypt_value _ _ _ _ _ Hr Hv He).
Qed.

(** [C40] What is stored is read back: within the limit of the tier, with a
    configured key-encryption key, and for a key that is stored already or fits
    its column of 255 characters, [set_state] succeeds, [get_state] of that key then returns
    the value and the entry, and the entry of every other key of every agent is
    the one it was.  A new key that does not fit is refused, and the tables stay as
    they were. *)
Theorem set_get_state r acc name key v tier s a cfg k :
  good_randomness r -> val_wf v ->
  get_agent acc name s = (Ok a, s) -> dict_get tier AGENT_TIER_CONFIG = Some cfg ->
  (kek b64decode kek_b64 s).1 = Ok k -> String.length k = 32%nat ->
  total_size (ag_id a) (entries s) - existing_size (ag_id a) key (entries s) + serialized_size v <= max_state_bytes cfg ->
  let o := set_state b64decode kek_b64 r acc name key v tier s in
  if decide (str_len key <= 255 \/ is_Some (find_entry (ag_id a) key (entries s))) then
    exists e s', o = (Ok e, s') /\
      (get_state b64decode kek_b64 acc name key s').1 = Ok (v, e) /\
      e_agent_id e = ag_id a /\ e_key e = key /\ size_bytes e = serialized_size v /\
      forall a' k', (a', k') <> (ag_id a, key) -> find_entry a' k' (entries s') = find_entry a' k' (entries s)
  else o.1 = Err DataError /\ agents o.2 = agents s /\ entries o.2 = entries s.
Proof.
  intros Hr Hv Ha Hc Hk Hlen Hle o. destruct (decide _) as [Hf|Hf].
  - destruct (set_state_succeeds r acc name key v tier s a cfg k) as (e & s' & E); try done; [by apply key_taken|].
    exists e, s'. split; [done|]. destruct (get_after_set _ _ _ _ _ _ _ _ _ Hr Hv E) as [Hg Hfr].
    apply set_state_ok in E as (a0 & _ & _ & ct & dk & Ha0 & _ & _ & _ & _ & -> & _).
    rewrite Ha in Ha0. by injection Ha0 as <-.
  - apply (set_state_refused r acc name key v tier s a cfg k); try done. unfold key_refused, MAX_KEY.
    destruct (find_entry _ _ _); [destruct Hf; right; by eexists|]. apply Z.ltb_lt. apply Z.nle_gt. intros ?. apply Hf. by left.
Qed.

(** An agent on the dedicated tier can store no state: its limit of -1,
    meant as no limit, is compared as a number, so [set_state] refuses every
    value, however small. *)
Theorem dedicated_state_refused r acc name key v s a :
  get_agent acc name s = (Ok a, s) -> sizes_ok (entries s) ->
  exists m, set_state b64decode kek_b64 r acc name key v "dedicated-agent" s = (Err (ForbiddenError m), s).
Proof.
  intros Ha Hs. unfold set_state, mbind, stm_bind. rewrite Ha. cbn [lift_res _get_tier_config dict_get AGENT_TIER_CONFIG
    String.eqb Ascii.eqb Bool.eqb getS]. cbn [max_state_bytes].
  assert (match find_entry (ag_id a) key (entries s) with Some x => size_bytes x | None => 0 end
    <= total_size (ag_id a) (entries s)) as Hle.
  { clear -Hs. unfold find_entry. induction (entries s) as [|x l IH]; cbn [List.find total_size]; [lia|].
    apply Forall_cons in Hs as [Hx Hl]. specialize (IH Hl).
    assert (0 <= total_size (ag_id a) l) as Hn.
    { clear -Hl. induction l as [|y l IH]; cbn; [lia|]. apply Forall_cons in Hl as [Hy Hl]. specialize (IH Hl).
      destruct (String.eqb _ _); lia. }
    destruct (is_entry (ag_id a) key x) eqn:E.
    - apply is_entry_spec in E as [-> _]. rewrite String.eqb_refl. lia.
    - destruct (String.eqb _ _); lia. }
  assert (0 <= serialized_size v) as Hz by (unfold serialized_size, str_len; lia).
  destruct (Z.ltb_spec (-1) (total_size (ag_id a) (entries s) -
    match find_entry (ag_id a) key (entries s) with Some x => size_bytes x | None => 0 end + serialized_size v)) as [Hlt|]; [|lia].
  by eexists.
Qed.

(** The key is available, and calls leave it so. *)
Definition kek_ready (k : string) (s : st) : Prop := (kek b64decode kek_b64 s).1 = Ok k.

Lemma kek_ready_step k s :
  kek_ready k s -> exists s1, kek b64decode kek_b64 s = (Ok k, s1) /\ agents s1 = agents s /\ entries s1 = entries s /\
    kek_ready k s1 /\ kek_cache s1 = Some k.
Proof.
  unfold kek_ready, kek, _get_kek. destruct (kek_cache s) as [k0|] eqn:E.
  { cbn. intros [= ->]. by eexists. }
  destruct (String.eqb kek_b64 ""); [done|]. destruct (_ =? _)%nat; [|done]. cbn. intros [= <-]. by eexists.
Qed.

Lemma kek_ready_cached k s : kek_cache s = Some k -> kek_ready k s.
Proof. unfold kek_ready, kek, _get_kek. by intros ->. Qed.

(** What an entry holds, and what an agent has stored under a key. *)
Definition entry_value (k : string) (e : state_entry) : option pyval :=
  match decrypt_value (value_encrypted e) (value_dek_encrypted e) k with Ok v => Some v | Err _ => None end.
Definition view (k agent_id key : string) (l : list state_entry) : option pyval :=
  find_entry agent_id key l ≫= entry_value k.

Lemma decrypt_rows_lookup k rows : forall state s,
  kek_ready k s -> NoDup (map e_key rows) ->
  exists m s', decrypt_rows b64decode kek_b64 rows state s = (Ok m, s') /\
    agents s' = agents s /\ entries s' = entries s /\ kek_ready k s' /\
    forall key, dict_get key m =
      match List.find (fun e => String.eqb (e_key e) key) rows ≫= entry_value k with
      | Some v => Some v
      | None => dict_get key state
      end.
Proof.
  induction rows as [|e rows IH]; intros state s Hk Hn; [by exists state, s|].
  cbn [map] in Hn. apply NoDup_cons in Hn as [He Hn].
  destruct (kek_ready_step _ _ Hk) as (s1 & Es & Ha1 & He1 & Hk1 & _).
  set (state' := match entry_value k e with Some v => dict_set (e_key e) v state | None => state end).
  destruct (IH state' s1 Hk1 Hn) as (m & s' & Em & Ha & Hen & Hk' & Hm).
  exists m, s'. split; [|split; [congruence|split; [congruence|split; [done|]]]].
  - cbn [decrypt_rows]. unfold try_except, mbind, stm_bind. rewrite Es. unfold lift_crypto. subst state'. unfold entry_value in Em.
    by destruct (decrypt_value _ _ k).
  - intros key. rewrite Hm. cbn [List.find]. destruct (String.eqb_spec (e_key e) key) as [<-|Hne].
    + assert (List.find (fun x => String.eqb (e_key x) (e_key e)) rows = None) as ->.
      { apply find_none_iff. intros x Hx. apply String.eqb_neq. intros Heq. apply He. rewrite <-Heq.
        apply list_elem_of_In, in_map. by apply list_elem_of_In. }
      cbn. subst state'. destruct (entry_value k e); [by rewrite dict_get_set_eq|done].
    + destruct (List.find _ rows ≫= entry_value k); [done|]. subst state'.
      destruct (entry_value k e); [by rewrite dict_get_set_ne|done].
Qed.

(** [get_all_state] never raises and gives the view of each key. *)
Lemma get_all_state_view k agent_id s :
  kek_ready k s -> unique_entries (entries s) ->
  exists m s', get_all_state b64decode kek_b64 agent_id s = (Ok m, s') /\
    agents s' = agents s /\ entries s' = entries s /\ kek_ready k s' /\
    forall key, dict_get key m = view k agent_id key (entries s).
Proof.
  intros Hk Hu. unfold get_all_state, mbind, stm_bind. cbn [getS].
  destruct (decrypt_rows_lookup k (List.filter (fun e => String.eqb (e_agent_id e) agent_id) (entries s)) [] s)
    as (m & s' & Em & Ha & He & Hk' & Hm); [done|by apply unique_agent_keys|].
  exists m, s'. repeat (split; [done|]). intros key. rewrite Hm, find_agent_row. unfold view.
  by destruct (find_entry agent_id key (entries s) ≫= entry_value k).
Qed.

(** What [set_state] does to the tables, however it ends. *)
Lemma set_state_effect k r acc name key v tier s :
  kek_ready k s -> good_randomness r -> val_wf v ->
  let s' := (set_state b64decode kek_b64 r acc name key v tier s).2 in
  agents s' = agents s /\ kek_ready k s' /\
  (entries s' = entries s \/
   exists e, entries s' = put_entry e (entries s) /\ e_key e = key /\ entry_value k e = Some v).
Proof.
  intros Hk Hr Hv. destruct (set_state b64decode kek_b64 r acc name key v tier s) as [[e|x] s'] eqn:E; cbn [snd].
  - apply set_state_ok in E as (a & cfg & k0 & ct & dk & _ & _ & Hk0 & He & _ & -> & _ & Hag & Hen & Hca).
    unfold kek_ready in Hk. rewrite Hk in Hk0. injection Hk0 as <-.
    split; [done|]. split; [by apply kek_ready_cached|]. right. eexists. split; [done|]. split; [done|].
    unfold entry_value. cbn [value_encrypted value_dek_encrypted].
    by rewrite (decrypt_encrypt_value _ _ _ _ _ Hr Hv He).
  - revert E. unfold set_state, mbind, stm_bind. unfold get_agent at 1.
    destruct (List.find _ (agents s)) as [a|]; [|intros [= _ <-]; auto]. unfold lift_res, _get_tier_config.
    destruct (dict_get tier AGENT_TIER_CONFIG) as [cfg|]; [|intros [= _ <-]; auto]. cbn [getS].
    destruct (max_state_bytes cfg <? _); [intros [= _ <-]; auto|].
    destruct (kek_ready_step _ _ Hk) as (s1 & -> & Ha1 & He1 & Hk1 & _). unfold lift_crypto.
    destruct (encrypt_value r v k) as [c|y]; [destruct (key_refused _ _ _); [|done]|]; intros [= _ <-]; auto.
Qed.

Lemma view_put k e v l :
  entry_value k e = Some v -> view k (e_agent_id e) (e_key e) (put_entry e l) = Some v.
Proof. unfold view. by rewrite find_put_eq. Qed.

Lemma view_put_ne k e a key l :
  (a, key) <> (e_agent_id e, e_key e) -> view k a key (put_entry e l) = view k a key l.
Proof. unfold view. intros Hne. by rewrite find_put_ne. Qed.

(** The changes clients may make. *)
Inductive op :=
| SetState (r : randomness) (acc name key : string) (v : pyval)
| DeleteState (acc name key : string).

(** [tier] is the tier of the account the operations come from. *)
Definition run_op (tier : string) (o : op) (s : st) : st :=
  match o with
  | SetState r acc name key v => (set_state b64decode kek_b64 r acc name key v tier s).2
  | DeleteState acc name key => (delete_state acc name key s).2
  end.

(** Whatever else happens, a refused [set_state] leaves the entries alone. *)
Lemma set_state_err r acc name key v tier s x s' :
  set_state b64decode kek_b64 r acc name key v tier s = (Err x, s') -> entries s' = entries s.
Proof.
  unfold set_state, mbind, stm_bind. unfold get_agent at 1.
  destruct (List.find _ (agents s)) as [a|]; [|by intros [= _ <-]]. unfold lift_res, _get_tier_config.
  destruct (dict_get tier AGENT_TIER_CONFIG) as [cfg|]; [|by intros [= _ <-]]. cbn [getS].
  destruct (max_state_bytes cfg <? _); [by intros [= _ <-]|].
  destruct (kek b64decode kek_b64 s) as [[k|y] s1] eqn:Ek.
  - assert (entries s1 = entries s) as <- by (unfold kek in Ek; destruct (_get_kek _ _ _) as [[] ?]; by simplify_eq/=).
    unfold lift_crypto. destruct (encrypt_value r v k) as [c|y]; [destruct (key_refused _ _ _); [|done]|]; by intros [= _ <-].
  - intros [= _ <-]. unfold kek in Ek. destruct (_get_kek _ _ _) as [[] ?]; by simplify_eq/=.
Qed.

Lemma run_op_entries tier o s :
  entries (run_op tier o s) = entries s \/
  (exists e cfg, dict_get tier AGENT_TIER_CONFIG = Some cfg /\ 0 <= size_bytes e /\
     entries (run_op tier o s) = put_entry e (entries s) /\
     total_size (e_agent_id e) (put_entry e (entries s)) <= max_state_bytes cfg) \/
  exists a k, entries (run_op tier o s) = delete_entry a k (entries s).
Proof.
  destruct o as [r acc name key v|acc name key]; cbn [run_op].
  - destruct (set_state b64decode kek_b64 r acc name key v tier s) as [[e|x] s'] eqn:E.
    + apply set_state_ok in E as (a & cfg & k & ct & dk & _ & Hc & _ & _ & _ & -> & Hle & _ & Hen & _).
      right. left. exists (StateEntry (ag_id a) key ct dk (serialized_size v)), cfg.
      split; [done|]. split; [unfold serialized_size, str_len; cbn [size_bytes]; lia|].
      split; [exact Hen|]. rewrite total_put. cbn [e_agent_id e_key size_bytes]. lia.
    + left. by apply set_state_err in E.
  - unfold delete_state, get_agent, mbind, stm_bind. destruct (List.find _ (agents s)) as [a|]; [|by left]. cbn [getS].
    destruct (find_entry _ _ _); [|by left]. right. right. by do 2 eexists.
Qed.

Lemma sizes_ok_put e l : 0 <= size_bytes e -> sizes_ok l -> sizes_ok (put_entry e l).
Proof.
  intros He. induction l as [|x l IH]; cbn; [by repeat constructor|]. intros [Hx Hl]%Forall_cons.
  destruct (is_entry _ _ x); constructor; try done. by apply IH.
Qed.
Lemma sizes_ok_delete a k l : sizes_ok l -> sizes_ok (delete_entry a k l).
Proof.
  induction l as [|x l IH]; cbn; [done|]. intros [Hx Hl]%Forall_cons. destruct (is_entry a k x); [done|].
  constructor; [done|by apply IH].
Qed.

(** The state quota is an invariant: however values are set, replaced and
    deleted, the stored bytes of an agent stay within the limit of the tier. *)
Theorem state_quota_invariant tier cfg ops s a :
  dict_get tier AGENT_TIER_CONFIG = Some cfg -> sizes_ok (entries s) ->
  total_size a (entries s) <= max_state_bytes cfg ->
  total_size a (entries (foldl (fun s o => run_op tier o s) s ops)) <= max_state_bytes cfg.
Proof.
  intros Hc. revert s; induction ops as [|o ops IH]; intros s Hs Ht; [done|]. cbn [foldl].
  destruct (run_op_entries tier o s) as [E|[(e & cfg' & Hc' & He & E & Hle)|(a' & k & E)]]; apply IH; rewrite E; try done.
  - by apply sizes_ok_put.
  - rewrite Hc in Hc'. injection Hc' as <-. destruct (decide (a = e_agent_id e)) as [->|Hne]; [done|].
    by rewrite total_put_ne.
  - by apply sizes_ok_delete.
  - pose proof (total_delete a a' k (entries s) Hs). lia.
Qed.
End facts.

(** ** Concrete runs *)

Definition demo_st : st := St [Agent "ag1" "acc1" "bot"] [] None.
Definition demo_kek : string := "0123456789abcdef0123456789abcdef".
Definition demo_rnd : randomness := Randomness "fedcba9876543210fedcba9876543210" "nonce-000001" "nonce-000002".
Definition demo_value : pyval := PDict [("count", PInt 3)].

Definition long_key : string := Nat.iter 256 (fun s => "k" +:+ s) "".

Lemma set_get_state_witness :
  (exists e s', set_state (fun x => x) demo_kek demo_rnd "acc1" "bot" "memory" demo_value "pro-agent" demo_st = (Ok e, s') /\
    (get_state (fun x => x) demo_kek "acc1" "bot" "memory" s').1 = Ok (demo_value, e) /\
    e_agent_id e = "ag1" /\ e_key e = "memory" /\ size_bytes e = serialized_size demo_value /\
    forall a' k', (a', k') <> ("ag1", "memory") -> find_entry a' k' (entries s') = find_entry a' k' (entries demo_st)) /\
  (set_state (fun x => x) demo_kek demo_rnd "acc1" "bot" long_key demo_value "pro-agent" demo_st).1 = Err DataError.
Proof.
  assert (val_wf demo_value) as Hv by (cbn; split; [|done]; unfold dict_wf; apply (bool_decide_unpack _); vm_compute; exact I).
  pose proof (fun key => @set_get_state toy_aead toy_aead_laws (fun x => x) demo_kek demo_rnd "acc1" "bot" key demo_value
    "pro-agent" demo_st (Agent "ag1" "acc1" "bot") (TierConfig 5 512 5 30 (100 * 1024 * 1024) 30 (1 * 1024 * 1024)) demo_kek
    ltac:(done) Hv eq_refl eq_refl eq_refl eq_refl) as K.
  split; [exact (K "memory"%string ltac:(by vm_compute))|exact (proj1 (K long_key ltac:(by vm_compute)))].
Defined.

Lemma dedicated_state_refused_witness :
  exists m, set_state (fun x => x) demo_kek demo_rnd "acc1" "bot" "k" PNone "dedicated-agent" demo_st
    = (Err (ForbiddenError m), demo_st).
Proof.
  apply (@dedicated_state_refused toy_aead toy_aead_laws (fun x => x) demo_kek demo_rnd "acc1" "bot" "k" PNone demo_st
    (Agent "ag1" "acc1" "bot")); [reflexivity|constructor].
Defined.

Lemma state_quota_invariant_witness :
  let ops := [SetState demo_rnd "acc1" "bot" "a" demo_value; SetState demo_rnd "acc1" "bot" "b" PNone;
              DeleteState "acc1" "bot" "a"] in
  let s := foldl (fun s o => run_op (fun x => x) demo_kek "pro-agent" o s) demo_st ops in
  total_size "ag1" (entries s) = 4 /\ total_size "ag1" (entries s) <= 100 * 1024 * 1024.
Proof.
  split; [vm_compute; reflexivity|].
  apply (@state_quota_invariant toy_aead toy_aead_laws (fun x => x) demo_kek "pro-agent"
    (TierConfig 5 512 5 30 (100 * 1024 * 1024) 30 (1 * 1024 * 1024))); [reflexivity|constructor|cbn; lia].
Defined.
