(* ===== verification/ConversationMemory.v ===== *)
(** * Conversation memory of an agent

    [core/conversation_memory.py] on the stored state of an agent
    ([AgentState]), [_save_chat_turns] of [services/agent_service.py], which
    calls it after each chat, and [core/context_budget.py].  The summarizing
    model, the clock and the random values are arguments. *)

From S2P Require Import Prelude Json Encryption AgentState.

Open Scope Z_scope.

(** ** Constants *)

Definition MAX_HISTORY_TURNS : nat := 50.
Definition COMPACTION_TURN_THRESHOLD : nat := 30.
Definition COMPACTION_KEEP_RECENT : nat := 10.
Definition MAX_HISTORY_CHARS : nat := Z.to_nat 50000.
Definition SUMMARY_MAX_CHARS : nat := Z.to_nat 2000.
Definition STATE_KEY : string := "__conversation_history__".

(** What the code may raise, of its own or from the service. *)
Inductive exn :=
| AttributeError
| TypeError
| ServiceError (e : AgentState.err).

(** ** Reading *)

(** The stored history, if it is a non-empty dict:
    [if not raw or not isinstance(raw, dict)]. *)
Definition history_dict (agent_state : list (string * pyval)) : option (list (string * pyval)) :=
  match dict_get STATE_KEY agent_state with
  | Some (PDict (kv :: d)) => Some (kv :: d)
  | _ => None
  end.

(** (summary, recent turns) *)
Definition load_history (agent_state : list (string * pyval)) : pyval * list pyval :=
  match history_dict agent_state with
  | None => (PNone, [])
  | Some raw =>
      let summary := dict_getd "summary" PNone raw in
      match dict_getd "turns" (PList []) raw with
      | PList turns => (summary, turns)
      | _ => (summary, [])
      end
  end.

(** [turn.get(k, dflt)] *)
Definition turn_get (k : string) (dflt turn : pyval) : res exn pyval :=
  match turn with
  | PDict d => Ok (dict_getd k dflt d)
  | _ => Err AttributeError
  end.

Definition message (role content : pyval) : pyval := PDict [("role", role); ("content", content)].

Definition is_str (s : string) (v : pyval) : bool := match v with PStr t => String.eqb s t | _ => false end.

Definition build_history_messages (summary : pyval) (turns : list pyval) : res exn (list pyval) :=
  let intro := if truthy summary then
      [message (PStr "user") (PStr ("[Previous conversation summary]" +:+ nl +:+ py_str summary));
       message (PStr "assistant") (PStr "Understood, I have context from our previous conversations.")]
    else [] in
  foldl (fun acc turn =>
      messages ← acc;
      role ← turn_get "role" (PStr "user") turn;
      content ← turn_get "content" (PStr "") turn;
      Ok (if (is_str "user" role || is_str "assistant" role) && truthy content
          then messages ++ [message role content] else messages))
    (Ok intro) turns.

Definition needs_compaction (agent_state : list (string * pyval)) : bool :=
  match history_dict agent_state with
  | None => false
  | Some raw =>
      match dict_getd "turns" (PList []) raw with
      | PList turns => (COMPACTION_TURN_THRESHOLD <=? length turns)%nat
      | _ => false
      end
  end.

(** ** Writing *)

Section memory.
Context `{Aead} (b64decode : string -> string) (kek_b64 : string).

Abbreviation M := (stm st exn).

Definition service {A} (m : stm st err A) : M A := fun s =>
  match m s with
  | (Ok a, s') => (Ok a, s')
  | (Err e, s') => (Err (ServiceError e), s')
  end.

(** [try: m except Exception: log] *)
Definition suppress {A} (m : stm st err A) : M unit := fun s => (Ok tt, (m s).2).

Definition new_turn (role content ts trigger : string) : pyval :=
  PDict [("role", PStr role); ("content", PStr (str_take MAX_HISTORY_CHARS content));
         ("ts", PStr ts); ("trigger", PStr trigger)].

(** The history with one more turn. *)
Definition with_turn (agent_state : list (string * pyval)) (turn : pyval) : pyval :=
  let raw := match history_dict agent_state with
             | Some raw => raw
             | None => [("turns", PList []); ("summary", PNone); ("compacted_at", PNone)]
             end in
  let turns := match dict_getd "turns" (PList []) raw with PList l => l | _ => [] end in
  let turns := turns ++ [turn] in
  let turns := if (MAX_HISTORY_TURNS <? length turns)%nat then last_n MAX_HISTORY_TURNS turns else turns in
  PDict (dict_set "turns" (PList turns) raw).

Definition append_turn (r : randomness) (now_iso : string) (agent_id account_id agent_name role content tier trigger : string)
    : M unit :=
  agent_state ← service (get_all_state b64decode kek_b64 agent_id);
  suppress (set_state b64decode kek_b64 r account_id agent_name STATE_KEY
              (with_turn agent_state (new_turn role content now_iso trigger)) tier).

(** [v[:500]] *)
Definition slice500 (v : pyval) : res exn pyval :=
  match v with
  | PStr s => Ok (PStr (str_take 500 s))
  | PList l => Ok (PList (take 500 l))
  | _ => Err TypeError
  end.

(** The text to summarize. *)
Definition conversation_text (existing_summary : pyval) (old_turns : list pyval) : res exn string :=
  let start := (if truthy existing_summary
                then "Previous summary:" +:+ nl +:+ py_str existing_summary +:+ nl +:+ nl else "")
               +:+ "Recent conversation:" +:+ nl in
  text ← foldl (fun acc turn =>
      text ← acc;
      role ← turn_get "role" (PStr "unknown") turn;
      content ← turn_get "content" (PStr "") turn;
      content ← slice500 content;
      Ok (text +:+ py_str role +:+ ": " +:+ py_str content +:+ nl)) (Ok start) old_turns;
  Ok (str_take MAX_HISTORY_CHARS text).

Definition compaction_prompt (text : string) : string :=
  "Summarize this conversation history in under 500 words. " +:+
  "Focus on: decisions made, tasks completed, current state of work, " +:+
  "important facts shared, and anything that should be remembered going forward. " +:+
  "Be specific about names, dates, and outcomes." +:+ nl +:+ nl +:+ text.

(** [chat engine model api_key message system_prompt]: [None] when it raises. *)
Context (chat : string -> string -> string -> string -> string -> option string).

Definition compact_history (r : randomness) (now_iso : string) (account_id agent_name ai_engine ai_model api_key : string)
    (agent_state : list (string * pyval)) (tier : string) : M unit :=
  match history_dict agent_state with
  | None => mret tt
  | Some raw =>
      match dict_getd "turns" (PList []) raw with
      | PList turns =>
          if (length turns <? COMPACTION_TURN_THRESHOLD)%nat then mret tt else
          let old_turns := but_last_n COMPACTION_KEEP_RECENT turns in
          let keep_turns := last_n COMPACTION_KEEP_RECENT turns in
          text ← lift_res (conversation_text (dict_getd "summary" (PStr "") raw) old_turns);
          match chat ai_engine ai_model api_key (compaction_prompt text)
                  "You are a concise conversation summarizer. Output only the summary." with
          | None => mret tt
          | Some new_summary =>
              let compacted := PDict [("turns", PList keep_turns);
                                      ("summary", PStr (str_take SUMMARY_MAX_CHARS new_summary));
                                      ("compacted_at", PStr now_iso)] in
              suppress (set_state b64decode kek_b64 r account_id agent_name STATE_KEY compacted tier)
          end
      | _ => mret tt
      end
  end.

(** The clock and the random values of the three writes of one chat. *)
Record chat_env := ChatEnv { rnd1 : randomness; now1 : string; rnd2 : randomness; now2 : string;
                             rnd3 : randomness; now3 : string }.

(** [_save_chat_turns], for the agent and tier of the account. *)
Definition _save_chat_turns (env : chat_env) (agent_id account_id agent_name ai_engine ai_model tier : string)
    (user_message assistant_response : string) (agent_state : list (string * pyval)) (api_key : string) : M unit :=
  fun s =>
  match (append_turn (rnd1 env) (now1 env) agent_id account_id agent_name "user" user_message tier "chat";;
         append_turn (rnd2 env) (now2 env) agent_id account_id agent_name "assistant" assistant_response tier "chat") s with
  | (Err _, s') => (Ok tt, s')
  | (Ok _, s') =>
      if needs_compaction agent_state then
        match (fresh_state ← service (get_all_state b64decode kek_b64 agent_id);
               compact_history (rnd3 env) (now3 env) account_id agent_name ai_engine ai_model api_key fresh_state tier) s' with
        | (_, s'') => (Ok tt, s'')
        end
      else (Ok tt, s')
  end.
End memory.

(** ** Context budget *)

Definition CONTEXT_GREEN : Z := 4000.
Definition CONTEXT_YELLOW : Z := 8000.
Definition CONTEXT_ORANGE : Z := 16000.
Definition CONTEXT_RED : Z := 32000.

Definition estimate_tokens (text : string) : Z := str_len text / 4.

Record budget := Budget {
  total_estimated_tokens : Z;
  b_system_prompt : Z;
  b_messages : Z;
  b_tools : Z;
  level : string
}.

Definition estimate_context_budget (system_prompt : string) (messages tools : list pyval) : budget :=
  let prompt_tokens := estimate_tokens system_prompt in
  let messages_tokens := estimate_tokens (json_dumps (PList messages)) in
  let tools_tokens := estimate_tokens (json_dumps (PList tools)) in
  let total := prompt_tokens + messages_tokens + tools_tokens in
  Budget total prompt_tokens messages_tokens tools_tokens
    (if total <? CONTEXT_GREEN then "green" else if total <? CONTEXT_YELLOW then "yellow"
     else if total <? CONTEXT_ORANGE then "orange" else "red").

(** ** The shape of a history *)

Definition hist (turns : list pyval) (summary compacted_at : pyval) : pyval :=
  PDict [("turns", PList turns); ("summary", summary); ("compacted_at", compacted_at)].

(** A turn as [append_turn] writes it. *)
Definition turn_ok (t : pyval) : Prop :=
  exists role content ts trigger, t = new_turn role content ts trigger.

Definition opt_text (bound : nat) (v : pyval) : Prop :=
  v = PNone \/ exists s, v = PStr s /\ (String.length s <= bound)%nat.

(** At most 50 turns, each cut to 50,000 characters, and a summary of at most
    2,000 characters. *)
Definition hist_ok (v : pyval) : Prop :=
  exists turns summary compacted, v = hist turns summary compacted /\
    (length turns <= MAX_HISTORY_TURNS)%nat /\ Forall turn_ok turns /\
    opt_text SUMMARY_MAX_CHARS summary /\ (compacted = PNone \/ exists s, compacted = PStr s).

Lemma turn_ok_wf t : turn_ok t -> val_wf t.
Proof.
  intros (role & content & ts & trigger & ->). split; [|by repeat split].
  unfold dict_wf. apply (bool_decide_unpack _). by vm_compute.
Qed.

Lemma hist_wf turns summary compacted :
  Forall turn_ok turns -> val_wf summary -> val_wf compacted -> val_wf (hist turns summary compacted).
Proof.
  intros Ht Hs Hc. split; [unfold dict_wf; apply (bool_decide_unpack _); by vm_compute|]. cbn.
  split; [|done]. induction Ht; cbn; [done|]. split; [by apply turn_ok_wf|done].
Qed.

Lemma hist_ok_wf v : hist_ok v -> val_wf v.
Proof.
  intros (l & sm & c & -> & _ & Hl & [->|(s & -> & _)] & [->|(s' & ->)]); by apply hist_wf.
Qed.

(** The history an agent has: none yet, or the stored one. *)
Definition holds (h : option pyval) (turns : list pyval) (summary compacted : pyval) : Prop :=
  h = Some (hist turns summary compacted) \/ (h = None /\ turns = [] /\ summary = PNone /\ compacted = PNone).

Lemma with_turn_holds m turns sm c t :
  holds (dict_get STATE_KEY m) turns sm c -> with_turn m t = hist (last_n MAX_HISTORY_TURNS (turns ++ [t])) sm c.
Proof.
  unfold with_turn, history_dict. intros [->|(-> & -> & -> & ->)]; [|reflexivity]. cbn -[last_n MAX_HISTORY_TURNS Nat.ltb].
  destruct (Nat.ltb_spec MAX_HISTORY_TURNS (length (turns ++ [t]))); [done|].
  by rewrite last_n_id.
Qed.

Lemma last_n_app {A} n (l l' : list A) : last_n n (last_n n l ++ l') = last_n n (l ++ l').
Proof.
  unfold last_n at 1 3. rewrite length_app, length_last_n, length_app. unfold last_n.
  rewrite !drop_app, drop_drop, length_drop. f_equal; f_equal; lia.
Qed.

Lemma last_n_last_n {A} n n' (l : list A) : (n <= n')%nat -> last_n n (last_n n' l) = last_n n l.
Proof.
  intros Hle. unfold last_n at 1. rewrite length_last_n. unfold last_n. rewrite drop_drop. f_equal. lia.
Qed.

(** ** Room for a history *)

Lemma esc_char_length c : (String.length (esc_char c) <= 6)%nat.
Proof. unfold esc_char. repeat case_match; cbn; lia. Qed.

Lemma json_str_length s : (String.length (json_str s) <= 6 * String.length s + 2)%nat.
Proof.
  unfold json_str. rewrite !str_length_app. cbn [dq String.length].
  enough (String.length (str_body s) <= 6 * String.length s)%nat by lia.
  induction s as [|c s IH]; cbn [str_body String.length]; [lia|].
  rewrite str_length_app. pose proof (esc_char_length c). lia.
Qed.

Lemma utf8_length s : (String.length (utf8_encode s) <= 2 * String.length s)%nat.
Proof. induction s as [|c s IH]; cbn [utf8_encode String.length]; [lia|]. case_match; cbn [String.length]; lia. Qed.

Lemma str_join_length sep n l :
  Forall (fun x => (String.length x <= n)%nat) l ->
  (String.length (str_join sep l) <= length l * (n + String.length sep))%nat.
Proof.
  intros Hl. induction Hl as [|x l Hx Hl IH]; [done|]. destruct l as [|y l]; [cbn; lia|].
  rewrite str_join_cons, !str_length_app. cbn [length] in *. lia.
Qed.

(** A turn whose role, time and trigger are short. *)
Definition small_turn (t : pyval) : Prop :=
  exists role content ts trigger, t = new_turn role content ts trigger /\
    (String.length role + String.length ts + String.length trigger <= 1000)%nat.

Lemma small_turn_ok t : small_turn t -> turn_ok t.
Proof. intros (role & content & ts & trigger & -> & _). by do 4 eexists. Qed.

Lemma small_turn_length t : small_turn t -> (String.length (json_dumps t) <= 6 * (MAX_HISTORY_CHARS + 1000) + 100)%nat.
Proof.
  intros (role & content & ts & trigger & -> & Hn). unfold json_dumps, new_turn.
  cbn [dumps_with map str_join fst snd]. rewrite !str_length_app.
  pose proof (json_str_length role). pose proof (json_str_length ts). pose proof (json_str_length trigger).
  pose proof (json_str_length (str_take MAX_HISTORY_CHARS content)) as Hc. rewrite str_length_take in Hc.
  cbn [json_str str_body String.length]. revert Hc. generalize MAX_HISTORY_CHARS. intros mx Hc.
  change (String.length (json_str "role")) with 6%nat. change (String.length (json_str "content")) with 9%nat.
  change (String.length (json_str "ts")) with 4%nat. change (String.length (json_str "trigger")) with 9%nat.
  cbn [String.length]. lia.
Qed.

Lemma opt_text_length n v : opt_text n v -> (String.length (json_dumps v) <= 6 * n + 4)%nat.
Proof.
  intros [->|(s & -> & Hs)]; [cbn; lia|]. unfold json_dumps. cbn [dumps_with].
  pose proof (json_str_length s). lia.
Qed.

(** The room, in bytes, a history may need. *)
Definition HISTORY_ROOM : Z := 32 * 1024 * 1024.

Lemma history_fits turns summary compacted :
  Forall small_turn turns -> (length turns <= MAX_HISTORY_TURNS)%nat ->
  opt_text SUMMARY_MAX_CHARS summary -> opt_text 1000 compacted ->
  serialized_size (hist turns summary compacted) <= HISTORY_ROOM.
Proof.
  intros Ht Hlen Hs Hc. unfold serialized_size, str_len.
  pose proof (utf8_length (json_dumps (hist turns summary compacted))) as Hu.
  assert (String.length (json_dumps (hist turns summary compacted)) <=
    50 * (6 * (MAX_HISTORY_CHARS + 1000) + 102) + 6 * SUMMARY_MAX_CHARS + 6 * 1000 + 100)%nat as Hd.
  { pose proof (opt_text_length _ _ Hs) as Hs'. pose proof (opt_text_length _ _ Hc) as Hc'.
    assert (String.length (str_join ", " (map (dumps_with true) turns)) <= 50 * (6 * (MAX_HISTORY_CHARS + 1000) + 102))%nat as Hj.
    { etrans; [apply (str_join_length _ (6 * (MAX_HISTORY_CHARS + 1000) + 100))|].
      - clear -Ht. induction Ht; cbn [map]; constructor; [by apply small_turn_length|done].
      - rewrite length_map. change (String.length ", ") with 2%nat. unfold MAX_HISTORY_TURNS in Hlen. nia. }
    revert Hs' Hc' Hj. unfold json_dumps, hist. cbn [dumps_with map str_join fst snd]. rewrite !str_length_app.
    change ("," +:+ " ") with ", ".
    change (String.length (json_str "turns")) with 7%nat. change (String.length (json_str "summary")) with 9%nat.
    change (String.length (json_str "compacted_at")) with 14%nat. cbn [String.length].
    generalize MAX_HISTORY_CHARS SUMMARY_MAX_CHARS. lia. }
  unfold MAX_HISTORY_CHARS, SUMMARY_MAX_CHARS in Hd. unfold HISTORY_ROOM. lia.
Qed.

(** ** The invariant *)

Section facts.
Context `{AeadLaws} (b64decode : string -> string) (kek_b64 : string).
Context (chat : string -> string -> string -> string -> string -> option string).
#[local] Set Default Proof Using "Type*".

Abbreviation kek_ready := (kek_ready b64decode kek_b64).
Abbreviation append_turn := (append_turn b64decode kek_b64).
Abbreviation compact_history := (compact_history b64decode kek_b64 chat).
Abbreviation _save_chat_turns := (_save_chat_turns b64decode kek_b64 chat).

(** Every stored history is well-shaped. *)
Definition memory_ok (k : string) (s : st) : Prop :=
  kek_ready k s /\ unique_entries (entries s) /\
  forall a v, view k a STATE_KEY (entries s) = Some v -> hist_ok v.

Lemma memory_ok_frame k s s' :
  memory_ok k s -> entries s' = entries s -> kek_ready k s' -> memory_ok k s'.
Proof. intros (_ & Hu & Hh) E Hk. unfold memory_ok. by rewrite E. Qed.

Lemma memory_ok_set k r acc name v tier s :
  memory_ok k s -> good_randomness r -> hist_ok v ->
  memory_ok k (set_state b64decode kek_b64 r acc name STATE_KEY v tier s).2.
Proof.
  intros (Hk & Hu & Hh) Hr Hv.
  destruct (set_state_effect b64decode kek_b64 k r acc name STATE_KEY v tier s) as (_ & Hk' & Hen); [done|done|by apply hist_ok_wf|].
  destruct Hen as [E|(e & E & Hkey & He)]; split; try done; rewrite E; [done|].
  split; [by apply unique_put|]. intros a w. destruct (decide (a = e_agent_id e)) as [->|Hne].
  - rewrite <-Hkey at 1. rewrite (view_put _ _ _ _ He). by intros [= <-].
  - rewrite view_put_ne; [apply Hh|congruence].
Qed.

Lemma hist_ok_turn v0 turns sm c t :
  (v0 = None \/ exists v, v0 = Some v /\ hist_ok v) -> holds v0 turns sm c -> turn_ok t ->
  hist_ok (hist (last_n MAX_HISTORY_TURNS (turns ++ [t])) sm c).
Proof.
  intros Hok Hh Ht. exists (last_n MAX_HISTORY_TURNS (turns ++ [t])), sm, c. split; [done|].
  split; [rewrite length_last_n; lia|].
  assert (Forall turn_ok turns /\ opt_text SUMMARY_MAX_CHARS sm /\ (c = PNone \/ exists s, c = PStr s)) as (Hl & Hs & Hc).
  { destruct Hh as [->|(-> & -> & -> & ->)]; [|repeat split; by left].
    destruct Hok as [?|(v & [= <-] & (l' & sm' & c' & [= -> -> ->] & _ & ? & ? & ?))]; done. }
  split; [|done]. apply Forall_drop, Forall_app. by split; [|constructor].
Qed.

(** The view is one of the two cases of [holds] when the invariant holds. *)
Lemma memory_holds k s a :
  memory_ok k s -> exists turns sm c, holds (view k a STATE_KEY (entries s)) turns sm c.
Proof.
  intros (_ & _ & Hh). destruct (view k a STATE_KEY (entries s)) as [v|] eqn:E.
  - destruct (Hh _ _ E) as (l & sm & c & -> & _). exists l, sm, c. by left.
  - exists [], PNone, PNone. by right.
Qed.

Lemma append_turn_run k r ts aid acc name role content tier trigger s turns sm c :
  kek_ready k s -> unique_entries (entries s) -> holds (view k aid STATE_KEY (entries s)) turns sm c ->
  exists s1, agents s1 = agents s /\ entries s1 = entries s /\ kek_ready k s1 /\
    append_turn r ts aid acc name role content tier trigger s =
    (Ok tt, (set_state b64decode kek_b64 r acc name STATE_KEY
       (hist (last_n MAX_HISTORY_TURNS (turns ++ [new_turn role content ts trigger])) sm c) tier s1).2).
Proof.
  intros Hk Hu Hh.
  destruct (get_all_state_view b64decode kek_b64 k aid s Hk Hu) as (m & s1 & Em & Ha & He & Hk1 & Hm).
  exists s1. repeat (split; [done|]). unfold ConversationMemory.append_turn, mbind, stm_bind, service. rewrite Em.
  unfold suppress. do 4 f_equal. apply with_turn_holds. by rewrite Hm.
Qed.

Lemma append_turn_inv k r ts aid acc name role content tier trigger s :
  memory_ok k s -> good_randomness r ->
  exists s', append_turn r ts aid acc name role content tier trigger s = (Ok tt, s') /\ memory_ok k s'.
Proof.
  intros Hok Hr. destruct (memory_holds k s aid Hok) as (turns & sm & c & Hh).
  pose proof Hok as (Hk & Hu & Hv).
  destruct (append_turn_run k r ts aid acc name role content tier trigger s turns sm c)
    as (s1 & _ & He & Hk1 & ->); [done..|].
  eexists. split; [done|]. apply memory_ok_set; [by eapply memory_ok_frame|done|].
  eapply hist_ok_turn; [|done|by do 4 eexists].
  destruct (view k aid STATE_KEY (entries s)) eqn:E; [right; eauto|by left].
Qed.

Lemma compact_history_inv k r ts acc name eng md key m tier s :
  memory_ok k s -> good_randomness r -> (forall v, dict_get STATE_KEY m = Some v -> hist_ok v) ->
  memory_ok k (compact_history r ts acc name eng md key m tier s).2.
Proof.
  intros Hok Hr Hm. unfold ConversationMemory.compact_history, history_dict.
  destruct (dict_get STATE_KEY m) as [v|]; [|exact Hok].
  destruct (Hm v) as (turns & sm & c & -> & Hlen & Hl & Hs & Hc); [done|]. cbn [hist].
  unfold dict_getd. cbn [dict_get String.eqb Ascii.eqb Bool.eqb default from_option id].
  destruct (length turns <? COMPACTION_TURN_THRESHOLD)%nat; [exact Hok|].
  unfold mbind, stm_bind, lift_res. destruct (conversation_text _ _) as [text|]; [|exact Hok].
  destruct (chat _ _ _ _ _) as [sum|]; [|exact Hok]. unfold suppress. cbn [snd]. apply memory_ok_set; [done|done|].
  do 3 eexists. split; [done|]. split; [|split; [by apply Forall_drop|]].
  - rewrite length_last_n. unfold COMPACTION_KEEP_RECENT, MAX_HISTORY_TURNS. lia.
  - split; [right; eexists; split; [done|rewrite str_length_take; lia]|right; by eexists].
Qed.

Lemma save_chat_turns_inv k env aid acc name eng md tier um ar m key s :
  memory_ok k s -> good_randomness (rnd1 env) -> good_randomness (rnd2 env) -> good_randomness (rnd3 env) ->
  exists s', _save_chat_turns env aid acc name eng md tier um ar m key s = (Ok tt, s') /\ memory_ok k s'.
Proof.
  intros Hok H1 H2 H3. unfold ConversationMemory._save_chat_turns, mbind, stm_bind.
  destruct (append_turn_inv k (rnd1 env) (now1 env) aid acc name "user" um tier "chat" s Hok H1) as (s1 & -> & Hok1).
  destruct (append_turn_inv k (rnd2 env) (now2 env) aid acc name "assistant" ar tier "chat" s1 Hok1 H2) as (s2 & -> & Hok2).
  destruct (needs_compaction m); [|by eexists]. unfold service.
  pose proof Hok2 as (Hk2 & Hu2 & Hv2).
  destruct (get_all_state_view b64decode kek_b64 k aid s2 Hk2 Hu2) as (m' & s3 & -> & _ & He & Hk3 & Hm').
  pose proof (compact_history_inv k (rnd3 env) (now3 env) acc name eng md key m' tier s3) as Hc.
  destruct (compact_history _ _ _ _ _ _ _ _ _ _) as [o s4]. eexists. split; [done|].
  apply Hc; [by eapply memory_ok_frame|done|]. intros v. rewrite Hm'. apply Hv2.
Qed.

(** One chat to be saved: the state its orchestration read, and the rest. *)
Record chat_record := ChatRecord {
  c_env : chat_env;
  c_agent_id : string;
  c_account_id : string;
  c_agent_name : string;
  c_tier : string;
  c_user_message : string;
  c_response : string;
  c_state : list (string * pyval);
  c_engine : string;
  c_model : string;
  c_api_key : string
}.

Definition env_ok (e : chat_env) : Prop :=
  good_randomness (rnd1 e) /\ good_randomness (rnd2 e) /\ good_randomness (rnd3 e).

Definition save_chat (c : chat_record) (s : st) : st :=
  (_save_chat_turns (c_env c) (c_agent_id c) (c_account_id c) (c_agent_name c) (c_engine c) (c_model c) (c_tier c)
     (c_user_message c) (c_response c) (c_state c) (c_api_key c) s).2.

(** The memory stays bounded: whatever chats are saved, for whichever
    agents and tiers and with whatever the summarizer answers, every stored
    history has at most 50 turns, each cut to 50,000 characters, and a summary of
    at most 2,000 characters. *)
Theorem chat_memory_bounded k chats s :
  memory_ok k s -> Forall (fun c => env_ok (c_env c)) chats ->
  forall a v, view k a STATE_KEY (entries (foldl (fun s c => save_chat c s) s chats)) = Some v -> hist_ok v.
Proof.
  intros Hok Hc. enough (memory_ok k (foldl (fun s c => save_chat c s) s chats)) as Hf by apply Hf.
  revert s Hok. induction Hc as [|c chats (H1 & H2 & H3) _ IH]; intros s Hok; [done|]. cbn [foldl]. apply IH.
  unfold save_chat. edestruct save_chat_turns_inv as (s' & -> & Hs'); eauto.
Qed.

(** ** What is kept *)

(** The agent exists, the key is there, and the limit of the tier leaves room
    for a history beside the agent's other state. *)
Definition ready (k tier acc name aid : string) (s : st) : Prop :=
  kek_ready k s /\ String.length k = 32%nat /\ unique_entries (entries s) /\
  (exists a, get_agent acc name s = (Ok a, s) /\ ag_id a = aid) /\
  exists cfg, dict_get tier AGENT_TIER_CONFIG = Some cfg /\
    total_size aid (entries s) - existing_size aid STATE_KEY (entries s) + HISTORY_ROOM <= max_state_bytes cfg.

(** A history that fits into the room. *)
Definition small_hist (turns : list pyval) (summary compacted : pyval) : Prop :=
  Forall small_turn turns /\ (length turns <= MAX_HISTORY_TURNS)%nat /\
  opt_text SUMMARY_MAX_CHARS summary /\ opt_text 1000 compacted.

Lemma get_agent_frame acc name a s s' :
  get_agent acc name s = (Ok a, s) -> agents s' = agents s -> get_agent acc name s' = (Ok a, s').
Proof. unfold get_agent. intros Ha ->. destruct (List.find _ _); [|done]. by injection Ha as <-. Qed.

Lemma ready_frame k tier acc name aid s s' :
  ready k tier acc name aid s -> agents s' = agents s -> entries s' = entries s -> kek_ready k s' ->
  ready k tier acc name aid s'.
Proof.
  intros (_ & Hl & Hu & (a & Ha & Hid) & cfg & Hc & Hroom) Eag Een Hk. unfold ready. rewrite Een.
  do 3 (split; [done|]). split; [|by exists cfg]. exists a. split; [by eapply get_agent_frame|done].
Qed.

(** A small history is stored. *)
Lemma set_history k r tier acc name aid s turns sm c :
  ready k tier acc name aid s -> good_randomness r -> small_hist turns sm c ->
  let s' := (set_state b64decode kek_b64 r acc name STATE_KEY (hist turns sm c) tier s).2 in
  ready k tier acc name aid s' /\ view k aid STATE_KEY (entries s') = Some (hist turns sm c).
Proof.
  intros (Hk & Hl & Hu & (a & Ha & <-) & cfg & Hc & Hroom) Hr (Ht & Hlen & Hs & Hcs).
  assert (val_wf (hist turns sm c)) as Hwf.
  { apply hist_wf; [by eapply Forall_impl; [|apply small_turn_ok]|..].
    - by destruct Hs as [->|(? & -> & _)].
    - by destruct Hcs as [->|(? & -> & _)]. }
  pose proof (history_fits turns sm c Ht Hlen Hs Hcs) as Hfit.
  destruct (set_state_succeeds b64decode kek_b64 r acc name STATE_KEY (hist turns sm c) tier s a cfg k) as (e & s' & E);
    [done..|lia|by apply key_taken; left|].
  pose proof (set_state_effect b64decode kek_b64 k r acc name STATE_KEY (hist turns sm c) tier s Hk Hr Hwf) as He.
  rewrite E in *. cbn [snd] in *. destruct He as (Hag & Hk' & _).
  apply set_state_ok in E as (a0 & cfg0 & k0 & ct & dk & Ha0 & _ & Hk0 & Henc & _ & -> & _ & _ & Hen & _).
  rewrite Ha in Ha0. injection Ha0 as <-. unfold AgentState.kek_ready in Hk. rewrite Hk in Hk0. injection Hk0 as <-.
  set (e := StateEntry (ag_id a) STATE_KEY ct dk (serialized_size (hist turns sm c))) in *.
  assert (entry_value k e = Some (hist turns sm c)) as Hv.
  { unfold entry_value. cbn. by rewrite (decrypt_encrypt_value _ _ _ _ _ Hr Hwf Henc). }
  rewrite Hen. split; [|exact (view_put _ _ _ _ Hv)].
  split; [done|]. split; [done|]. rewrite Hen. split; [by apply unique_put|].
  split; [exists a; split; [by eapply get_agent_frame|done]|]. exists cfg. split; [done|].
  unfold existing_size in *. rewrite (find_put_eq e). pose proof (total_put e (entries s)) as Htot.
  cbn [e e_agent_id e_key size_bytes] in *. lia.
Qed.

Lemma small_hist_turn turns sm c t :
  small_hist turns sm c -> small_turn t -> small_hist (last_n MAX_HISTORY_TURNS (turns ++ [t])) sm c.
Proof.
  intros (Ht & _ & Hs & Hc) Hn. split; [apply Forall_drop, Forall_app; by split; [|constructor]|].
  split; [rewrite length_last_n; lia|done].
Qed.

Lemma append_turn_stored k r ts tier acc name aid role content trigger s turns sm c :
  ready k tier acc name aid s -> holds (view k aid STATE_KEY (entries s)) turns sm c -> small_hist turns sm c ->
  good_randomness r -> small_turn (new_turn role content ts trigger) ->
  let turns' := last_n MAX_HISTORY_TURNS (turns ++ [new_turn role content ts trigger]) in
  exists s', append_turn r ts aid acc name role content tier trigger s = (Ok tt, s') /\
    ready k tier acc name aid s' /\ view k aid STATE_KEY (entries s') = Some (hist turns' sm c) /\ small_hist turns' sm c.
Proof.
  intros Hrd Hh Hsm Hr Hn turns'. pose proof Hrd as (Hk & _ & Hu & _).
  destruct (append_turn_run k r ts aid acc name role content tier trigger s turns sm c)
    as (s1 & Hag & Hen & Hk1 & ->); [done..|]. eexists. split; [done|].
  pose proof (small_hist_turn _ _ _ _ Hsm Hn) as Hsm'.
  destruct (set_history k r tier acc name aid s1 turns' sm c) as [? ?]; [by eapply ready_frame|done|done|done].
Qed.

(** A turn to append. *)
Record turn_record := TurnRecord {
  t_rnd : randomness; t_now : string; t_role : string; t_content : string; t_trigger : string
}.
Definition turn_of (t : turn_record) : pyval := new_turn (t_role t) (t_content t) (t_now t) (t_trigger t).
Definition turn_record_ok (t : turn_record) : Prop := good_randomness (t_rnd t) /\ small_turn (turn_of t).

(** The memory is a queue of the last fifty turns: with room for it in the
    agent's state, the turns appended one after the other are all stored, in
    their order and beside the summary there was, less those pushed out by fifty
    later ones. *)
Theorem history_keeps_last_turns k tier acc name aid s turns sm c new :
  ready k tier acc name aid s -> holds (view k aid STATE_KEY (entries s)) turns sm c -> small_hist turns sm c ->
  Forall turn_record_ok new ->
  let s' := foldl (fun s t => (append_turn (t_rnd t) (t_now t) aid acc name (t_role t) (t_content t) tier (t_trigger t) s).2)
              s new in
  holds (view k aid STATE_KEY (entries s')) (last_n MAX_HISTORY_TURNS (turns ++ map turn_of new)) sm c.
Proof.
  intros Hrd Hh Hsm Hnew. revert s turns Hrd Hh Hsm.
  induction Hnew as [|t new [Hr Ht] _ IH]; intros s turns Hrd Hh Hsm; cbn [foldl map].
  - rewrite app_nil_r, last_n_id by apply Hsm. done.
  - destruct (append_turn_stored k (t_rnd t) (t_now t) tier acc name aid (t_role t) (t_content t) (t_trigger t) s turns sm c)
      as (s1 & -> & Hrd1 & Hv1 & Hsm1); [done..|]. cbn [snd].
    specialize (IH s1 _ Hrd1 (or_introl Hv1) Hsm1). cbn zeta in IH. rewrite last_n_app, <-app_assoc in IH. exact IH.
Qed.

Lemma conversation_text_ok sm turns : Forall turn_ok turns -> exists text, conversation_text sm turns = Ok text.
Proof.
  intros Ht. unfold conversation_text.
  match goal with |- context [foldl ?f (Ok ?x) turns] => enough (forall start, exists t, foldl f (Ok start) turns = Ok t) as He end.
  { match goal with |- context [foldl ?f (Ok ?x) turns] => destruct (He x) as [t ->] end. by eexists. }
  induction Ht as [|t turns (role & content & ts & trigger & ->) _ IH]; intros start; [by eexists|].
  cbn [foldl mbind res_bind turn_get new_turn dict_getd dict_get String.eqb Ascii.eqb Bool.eqb default from_option id slice500].
  apply IH.
Qed.

(** Saving a chat, on every branch: the two turns are appended, and if the
    state read before the chat was due for compaction and at least thirty turns
    are there, all but the last ten are replaced by what the summarizer answers
    about them, cut to 2,000 characters; if it fails, nothing is lost. *)
Theorem save_chat_turns_correct k env aid acc name eng md tier um ar m key s turns sm c :
  ready k tier acc name aid s -> holds (view k aid STATE_KEY (entries s)) turns sm c -> small_hist turns sm c ->
  env_ok env -> (String.length (now1 env) <= 900)%nat -> (String.length (now2 env) <= 900)%nat ->
  (String.length (now3 env) <= 900)%nat ->
  let fresh := last_n MAX_HISTORY_TURNS (turns ++ [new_turn "user" um (now1 env) "chat"; new_turn "assistant" ar (now2 env) "chat"]) in
  exists s' text, _save_chat_turns env aid acc name eng md tier um ar m key s = (Ok tt, s') /\
    conversation_text sm (but_last_n COMPACTION_KEEP_RECENT fresh) = Ok text /\
    view k aid STATE_KEY (entries s') = Some
      (if needs_compaction m && (COMPACTION_TURN_THRESHOLD <=? length fresh)%nat then
         match chat eng md key (compaction_prompt text)
                 "You are a concise conversation summarizer. Output only the summary." with
         | Some answer => hist (last_n COMPACTION_KEEP_RECENT fresh) (PStr (str_take SUMMARY_MAX_CHARS answer)) (PStr (now3 env))
         | None => hist fresh sm c
         end
       else hist fresh sm c).
Proof.
  intros Hrd Hh Hsm (Hr1 & Hr2 & Hr3) Hn1 Hn2 Hn3 fresh.
  destruct (append_turn_stored k (rnd1 env) (now1 env) tier acc name aid "user" um "chat" s turns sm c)
    as (s1 & E1 & Hrd1 & Hv1 & Hsm1); [done..|do 4 eexists; split; [done|cbn [String.length]; lia]|].
  destruct (append_turn_stored k (rnd2 env) (now2 env) tier acc name aid "assistant" ar "chat" s1 _ sm c Hrd1 (or_introl Hv1) Hsm1)
    as (s2 & E2 & Hrd2 & Hv2 & Hsm2); [done|do 4 eexists; split; [done|cbn [String.length]; lia]|].
  rewrite last_n_app, <-app_assoc in Hv2, Hsm2. cbn [app] in Hv2, Hsm2. fold fresh in Hv2, Hsm2.
  pose proof Hsm2 as (Hf2 & Hlen2 & Hs2 & Hc2).
  destruct (conversation_text_ok sm (but_last_n COMPACTION_KEEP_RECENT fresh)) as [text Htext].
  { apply Forall_take. by eapply Forall_impl; [|apply small_turn_ok]. }
  unfold ConversationMemory._save_chat_turns, mbind, stm_bind. rewrite E1, E2.
  destruct (needs_compaction m); [|by exists s2, text]. unfold service. pose proof Hrd2 as (Hk2 & _ & Hu2 & _).
  destruct (get_all_state_view b64decode kek_b64 k aid s2 Hk2 Hu2) as (m' & s3 & -> & Hag3 & Hen3 & Hk3 & Hm').
  assert (ready k tier acc name aid s3) as Hrd3 by by eapply ready_frame.
  unfold ConversationMemory.compact_history, history_dict. rewrite Hm', Hv2. cbn [hist dict_getd].
  unfold dict_getd. cbn [dict_get String.eqb Ascii.eqb Bool.eqb default from_option id andb].
  rewrite Nat.ltb_antisym. destruct (COMPACTION_TURN_THRESHOLD <=? length fresh)%nat; cbn [negb].
  2:{ exists s3, text. by rewrite Hen3. }
  unfold mbind, stm_bind, lift_res. rewrite Htext.
  destruct (chat eng md key (compaction_prompt text) _) as [answer|] eqn:Ec; [|exists s3, text; by rewrite Ec, Hen3].
  unfold suppress. eexists _, text. split; [done|]. split; [done|]. rewrite Ec.
  destruct (set_history k (rnd3 env) tier acc name aid s3 (last_n COMPACTION_KEEP_RECENT fresh)
    (PStr (str_take SUMMARY_MAX_CHARS answer)) (PStr (now3 env))) as [_ ?]; [done|done| |done].
  split; [by apply Forall_drop|]. split; [rewrite length_last_n; unfold COMPACTION_KEEP_RECENT, MAX_HISTORY_TURNS; lia|].
  split; right; eexists; (split; [done|]); [rewrite str_length_take|]; lia.
Qed.
End facts.

(** ** Concrete runs *)

Definition demo_turn : pyval := new_turn "user" "hello" "2026-01-01T00:00:00" "chat".
Definition demo_turns : list pyval := repeat demo_turn 28.
(** An agent with 28 turns. *)
Definition demo_memory : st :=
  (set_state (fun x => x) demo_kek demo_rnd "acc1" "bot" STATE_KEY (hist demo_turns PNone PNone) "pro-agent" demo_st).2.
Definition demo_env : chat_env :=
  ChatEnv demo_rnd "2026-01-01T00:00:01" demo_rnd "2026-01-01T00:00:02" demo_rnd "2026-01-01T00:00:03".
Definition demo_chat : string -> string -> string -> string -> string -> option string := fun _ _ _ _ _ => Some "They greet.".
Definition demo_due : list (string * pyval) := [(STATE_KEY, hist (repeat demo_turn 30) PNone PNone)].

Lemma Forall_repeat_intro {A} (P : A -> Prop) x n : P x -> Forall P (repeat x n).
Proof. intros Hx. induction n; cbn; by constructor. Qed.

Lemma demo_small_turn : small_turn demo_turn.
Proof. do 4 eexists. split; [reflexivity|cbn; lia]. Qed.

Lemma demo_ready : ready (fun x => x) demo_kek demo_kek "pro-agent" "acc1" "bot" "ag1" demo_memory.
Proof.
  split; [by vm_compute|]. split; [reflexivity|].
  split; [unfold unique_entries; apply (bool_decide_unpack _); by vm_compute|].
  split; [exists (Agent "ag1" "acc1" "bot"); split; [by vm_compute|reflexivity]|].
  exists (TierConfig 5 512 5 30 (100 * 1024 * 1024) 30 (1 * 1024 * 1024)). split; [reflexivity|by vm_compute].
Qed.

Lemma demo_small_hist : small_hist demo_turns PNone PNone.
Proof.
  split; [|split; [cbn; unfold MAX_HISTORY_TURNS; lia|by split; left]].
  apply Forall_repeat_intro, demo_small_turn.
Qed.

Lemma demo_holds : view demo_kek "ag1" STATE_KEY (entries demo_memory) = Some (hist demo_turns PNone PNone).
Proof. vm_compute. reflexivity. Qed.

Lemma demo_memory_ok : memory_ok (fun x => x) demo_kek demo_kek demo_memory.
Proof.
  apply memory_ok_set; [|done|].
  - split; [reflexivity|]. split; [apply NoDup_nil_2|done].
  - destruct demo_small_hist as (Ht & Hl & Hs & _). exists demo_turns, PNone, PNone. split; [done|]. split; [done|].
    split; [by eapply Forall_impl; [|apply small_turn_ok]|by split; [|left]].
Qed.

Definition demo_record : chat_record :=
  ChatRecord demo_env "ag1" "acc1" "bot" "pro-agent" "hi" "hello" demo_due "e" "m" "key".
(** What is stored after the chat of [demo_record]. *)
Definition demo_compacted : pyval :=
  hist (repeat demo_turn 8 ++ [new_turn "user" "hi" "2026-01-01T00:00:01" "chat";
                               new_turn "assistant" "hello" "2026-01-01T00:00:02" "chat"])
    (PStr "They greet.") (PStr "2026-01-01T00:00:03").

Lemma chat_memory_bounded_witness :
  view demo_kek "ag1" STATE_KEY (entries (foldl (fun s c => save_chat (fun x => x) demo_kek demo_chat c s) demo_memory
    [demo_record])) = Some demo_compacted /\ hist_ok demo_compacted.
Proof.
  split; [vm_compute; reflexivity|].
  apply (@chat_memory_bounded toy_aead toy_aead_laws (fun x => x) demo_kek demo_chat demo_kek [demo_record] demo_memory
    demo_memory_ok) with (a := "ag1"); [|vm_compute; reflexivity].
  constructor; [|constructor]. repeat split; reflexivity.
Defined.

Lemma history_keeps_last_turns_witness :
  let new := repeat (TurnRecord demo_rnd "2026-01-01T00:00:04" "user" "again" "chat") 30 in
  let s' := foldl (fun s t => (append_turn (fun x => x) demo_kek (t_rnd t) (t_now t) "ag1" "acc1" "bot" (t_role t)
              (t_content t) "pro-agent" (t_trigger t) s).2) demo_memory new in
  holds (view demo_kek "ag1" STATE_KEY (entries s')) (last_n MAX_HISTORY_TURNS (demo_turns ++ map turn_of new)) PNone PNone.
Proof.
  intros new s'. apply (@history_keeps_last_turns toy_aead toy_aead_laws (fun x => x) demo_kek demo_kek "pro-agent" "acc1" "bot"
    "ag1" demo_memory demo_turns PNone PNone new demo_ready (or_introl demo_holds) demo_small_hist).
  apply Forall_repeat_intro. split; [done|]. do 4 eexists. split; [reflexivity|cbn; lia].
Defined.

Lemma save_chat_turns_correct_witness :
  exists s', _save_chat_turns (fun x => x) demo_kek demo_chat demo_env "ag1" "acc1" "bot" "e" "m" "pro-agent" "hi" "hello"
      demo_due "key" demo_memory = (Ok tt, s') /\
    view demo_kek "ag1" STATE_KEY (entries s') = Some demo_compacted.
Proof.
  edestruct (@save_chat_turns_correct toy_aead toy_aead_laws (fun x => x) demo_kek demo_chat demo_kek demo_env "ag1" "acc1" "bot"
    "e" "m" "pro-agent" "hi" "hello" demo_due "key" demo_memory demo_turns PNone PNone demo_ready (or_introl demo_holds)
    demo_small_hist) as (s' & text & E & _ & Hv); [repeat split; reflexivity|cbn; lia..|].
  exists s'. split; [exact E|]. rewrite Hv. vm_compute. reflexivity.
Defined.
