(* ===== verification/Base64.v ===== *)
(** * Base64: [base64.b64decode], with and without [validate=True]

    The standard library's strict decoder (Python 3.11: the data characters,
    then the padding the last group lacks; padding after a full last group is
    let through), the lenient one, and an encoder, with which the round trips are
    stated. *)

From S2P Require Import Prelude.
From Stdlib Require Import Ascii ZifyNat.

Open Scope nat_scope.

(** The value of a character of the alphabet. *)
Definition sextet (c : ascii) : option nat :=
  if is_upper c then Some (ord c - 65)
  else if is_lower c then Some (ord c - 71)
  else if is_digit c then Some (ord c + 4)
  else if Ascii.eqb c "+" then Some 62
  else if Ascii.eqb c "/" then Some 63
  else None.

(** The data characters at the start, and the rest. *)
Fixpoint take_data (s : string) : list nat * string :=
  match s with
  | EmptyString => ([], s)
  | String c s' =>
      match sextet c with
      | Some n => let '(l, r) := take_data s' in (n :: l, r)
      | None => ([], s)
      end
  end.

(** The bytes of the groups of four, with the number of paddings that must
    follow; [None] for any number after a full group. *)
Fixpoint groups (l : list nat) : option (string * option nat) :=
  match l with
  | [] => Some (EmptyString, None)
  | [_] => None
  | [a; b] => Some (String (chr ((a * 64 + b) / 16)) EmptyString, Some 2)
  | [a; b; c] =>
      let v := (a * 64 + b) * 64 + c in
      Some (String (chr (v / 1024)) (String (chr ((v / 4) mod 256)) EmptyString), Some 1)
  | a :: b :: c :: d :: l' =>
      match groups l' with
      | Some (s, p) =>
          Some (String (chr (a * 4 + b / 16)) (String (chr ((b mod 16) * 16 + c / 4)) (String (chr ((c mod 4) * 64 + d)) s)), p)
      | None => None
      end
  end.

(** [None]: [binascii.Error]. *)
Definition b64decode_strict (s : string) : option string :=
  let '(data, pad) := take_data s in
  if negb (str_forallb (Ascii.eqb "=") pad) then None
  else match groups data with
       | Some (bytes, None) => if (length data =? 0) && negb (String.eqb pad "") then None else Some bytes
       | Some (bytes, Some p) => if String.length pad =? p then Some bytes else None
       | None => None
       end.

(** ** Encoding *)

Definition b64_char (n : nat) : ascii :=
  if n <? 26 then chr (n + 65) else if n <? 52 then chr (n + 71) else if n <? 62 then chr (n - 4)
  else if n =? 62 then "+"%char else "/"%char.

Fixpoint b64encode (s : string) : string :=
  match s with
  | EmptyString => EmptyString
  | String a EmptyString =>
      String (b64_char (ord a / 4)) (String (b64_char (ord a mod 4 * 16)) "==")
  | String a (String b EmptyString) =>
      String (b64_char (ord a / 4)) (String (b64_char (ord a mod 4 * 16 + ord b / 16))
        (String (b64_char (ord b mod 16 * 4)) "="))
  | String a (String b (String c s')) =>
      String (b64_char (ord a / 4)) (String (b64_char (ord a mod 4 * 16 + ord b / 16))
        (String (b64_char (ord b mod 16 * 4 + ord c / 64)) (String (b64_char (ord c mod 64)) (b64encode s'))))
  end.

Example b64_demo :
  b64encode "mcpworks" = "bWNwd29ya3M=" /\ b64decode_strict "bWNwd29ya3M=" = Some "mcpworks" /\
  b64decode_strict "bWNwd29ya3M" = None /\ b64decode_strict "bWNw d29y" = None.
Proof. by vm_compute. Qed.

(** ** [base64.b64decode(s)] *)

(** [binascii.a2b_base64] without its strict mode: characters outside the
    alphabet are passed over; [quad] is the place in the group, [pads] the paddings
    since the last character, [left] the bits left over.  With the bytes, the
    place at the end of the text, or [None] when a full padding ended it. *)
Fixpoint a2b_go (quad pads left : nat) (s : string) : string * option nat :=
  match s with
  | EmptyString => (EmptyString, Some quad)
  | String c s' =>
      if Ascii.eqb c "=" then
        if (2 <=? quad) && (4 <=? quad + S pads) then (EmptyString, None)
        else a2b_go quad (if 2 <=? quad then S pads else pads) left s'
      else match sextet c with
           | None => a2b_go quad pads left s'
           | Some n =>
               let byte (b quad' left' : nat) := let '(bytes, e) := a2b_go quad' 0 left' s' in (String (chr (b mod 256)) bytes, e) in
               match quad with
               | 0 => a2b_go 1 0 n s'
               | 1 => byte (left * 4 + n / 16) 2 (n mod 16)
               | 2 => byte (left * 16 + n / 4) 3 (n mod 4)
               | _ => byte (left * 64 + n) 0 0
               end
           end
  end.

(** The bytes, or the text of the exception. *)
Definition b64decode_lenient (s : string) : res string string :=
  if negb (str_forallb (fun c => ord c <? 128) s) then Err "string argument should contain only ASCII characters"
  else match a2b_go 0 0 0 s with
       | (bytes, None) | (bytes, Some 0) => Ok bytes
       | (bytes, Some 1) =>
           Err ("Invalid base64-encoded string: number of data characters (" +:+ str_of_nat (String.length bytes / 3 * 4 + 1)
                +:+ ") cannot be 1 more than a multiple of 4")
       | (_, Some _) => Err "Incorrect padding"
       end.

Example b64decode_lenient_texts :
  b64decode_lenient "aGk=" = Ok "hi" /\ b64decode_lenient "a G*k=====zz" = Ok "hi" /\ b64decode_lenient "aGk" = Err "Incorrect padding" /\
  b64decode_lenient "aGkhx" = Err "Invalid base64-encoded string: number of data characters (5) cannot be 1 more than a multiple of 4".
Proof. by vm_compute. Qed.

(** ** The round trips *)

Lemma sextet_char n : n < 64 -> sextet (b64_char n) = Some n.
Proof.
  intros Hn. assert (Forall (fun n => sextet (b64_char n) = Some n) (seq 0 64)) as Hall
    by (repeat (constructor; [reflexivity|]); constructor).
  rewrite Forall_forall in Hall. apply Hall, elem_of_seq. lia.
Qed.

Lemma chr_eq (c : ascii) n : n = ord c -> chr n = c.
Proof. intros ->. apply Ascii.ascii_nat_embedding. Qed.

Lemma ord_lt c : ord c < 256.
Proof. apply Ascii.nat_ascii_bounded. Qed.

#[local] Ltac Zify.zify_post_hook ::= Z.div_mod_to_equations.

(** The data characters of an encoding, and the bytes they stand for. *)
Lemma b64_data s : exists data pad bytes p,
  take_data (b64encode s) = (data, pad) /\ str_forallb (Ascii.eqb "=") pad = true /\
  groups data = Some (bytes, p) /\ bytes = s /\
  match p with Some n => String.length pad = n | None => pad = "" end.
Proof.
  revert s. fix IH 1. intros [|a [|b [|c s]]]; [by do 4 eexists|..].
  - pose proof (ord_lt a). cbn [b64encode take_data]. rewrite !sextet_char by lia. do 4 eexists. split; [done|].
    split; [done|]. split; [cbn [groups]; reflexivity|]. split; [|done]. f_equal. apply chr_eq. lia.
  - pose proof (ord_lt a). pose proof (ord_lt b). cbn [b64encode take_data]. rewrite !sextet_char by lia.
    do 4 eexists. split; [done|]. split; [done|]. split; [cbn [groups]; reflexivity|]. split; [|done].
    f_equal; [apply chr_eq; lia|]. f_equal. apply chr_eq. lia.
  - pose proof (ord_lt a). pose proof (ord_lt b). pose proof (ord_lt c).
    destruct (IH s) as (data & pad & bytes & p & Ht & Hp & Hg & Hb & Hl). cbn [b64encode take_data].
    rewrite !sextet_char by lia. rewrite Ht. do 4 eexists. split; [done|]. split; [done|]. cbn [groups]. rewrite Hg.
    split; [reflexivity|]. split; [|done]. rewrite Hb.
    f_equal; [apply chr_eq; lia|]. f_equal; [apply chr_eq; lia|]. f_equal. apply chr_eq. lia.
Qed.

Lemma b64decode_encode s : b64decode_strict (b64encode s) = Some s.
Proof.
  destruct (b64_data s) as (data & pad & bytes & p & Ht & Hp & Hg & -> & Hl). unfold b64decode_strict.
  rewrite Ht, Hp, Hg. cbn [negb]. destruct p as [n|]; [by rewrite Hl, Nat.eqb_refl|].
  rewrite Hl. by rewrite andb_false_r.
Qed.

Lemma b64_char_plain n : n < 64 -> Ascii.eqb (b64_char n) "=" = false /\ (ord (b64_char n) <? 128) = true.
Proof.
  intros Hn. assert (Forall (fun n => Ascii.eqb (b64_char n) "=" = false /\ (ord (b64_char n) <? 128) = true) (seq 0 64)) as Hall
    by (repeat (constructor; [split; reflexivity|]); constructor).
  rewrite Forall_forall in Hall. apply Hall, elem_of_seq. lia.
Qed.

Lemma b64_char_not_pad n : n < 64 -> Ascii.eqb (b64_char n) "=" = false.
Proof. by intros [? _]%b64_char_plain. Qed.
Lemma b64_char_ascii n : n < 64 -> (ord (b64_char n) <? 128) = true.
Proof. by intros [_ ?]%b64_char_plain. Qed.

Lemma a2b_encode s : exists e, a2b_go 0 0 0 (b64encode s) = (s, e) /\ (e = None \/ e = Some 0).
Proof.
  revert s. fix IH 1. intros [|a [|b [|c s]]]; [by eexists; split; [|right]|..]; cbn [b64encode].
  - pose proof (ord_lt a). cbn [a2b_go]. rewrite !b64_char_not_pad, !sextet_char by lia.
    change (Ascii.eqb "=" "=") with true. cbn [Nat.leb andb Nat.add].
    eexists. split; [|by left]. f_equal. f_equal. apply chr_eq. lia.
  - pose proof (ord_lt a). pose proof (ord_lt b). cbn [a2b_go].
    rewrite !b64_char_not_pad, !sextet_char by lia.
    change (Ascii.eqb "=" "=") with true. cbn [Nat.leb andb Nat.add].
    eexists. split; [|by left]. f_equal. f_equal; [apply chr_eq; lia|]. f_equal. apply chr_eq. lia.
  - pose proof (ord_lt a). pose proof (ord_lt b). pose proof (ord_lt c). destruct (IH s) as (e & He & Hc). cbn [a2b_go].
    rewrite !b64_char_not_pad, !sextet_char by lia. rewrite He.
    exists e. split; [|done]. f_equal. f_equal; [apply chr_eq; lia|]. f_equal; [apply chr_eq; lia|]. f_equal. apply chr_eq. lia.
Qed.

Lemma b64encode_ascii s : str_forallb (fun c => ord c <? 128) (b64encode s) = true.
Proof.
  revert s. fix IH 1. intros [|a [|b [|c s]]]; [done|..]; cbn [b64encode str_forallb].
  - pose proof (ord_lt a). rewrite !b64_char_ascii by lia. done.
  - pose proof (ord_lt a). pose proof (ord_lt b). rewrite !b64_char_ascii by lia. done.
  - pose proof (ord_lt a). pose proof (ord_lt b). pose proof (ord_lt c). rewrite IH. rewrite !b64_char_ascii by lia. done.
Qed.

Lemma b64decode_lenient_encode s : b64decode_lenient (b64encode s) = Ok s.
Proof.
  unfold b64decode_lenient. rewrite b64encode_ascii. destruct (a2b_encode s) as (e & He & Hc). rewrite He. by destruct Hc as [->| ->].
Qed.
