(* ===== verification/EnvPassthrough.v ===== *)
(** * Environment variables passed with a request

    [mcp/env_passthrough.py]: the header [X-MCPWorks-Env] carries a JSON object
    in base64; its variables are checked, and a function gets those it
    declares.  [json.loads] on bytes is modelled for UTF-8 text of code points
    below 256; for other encodings and code points the outcome is
    [OutOfModel]. *)

From S2P Require Import Prelude Regex OutputSanitizer Json Encryption Base64.
From Stdlib Require Import Ascii.

Open Scope Z_scope.

(** ** Policy *)

Definition HEADER_NAME : string := "X-MCPWorks-Env".
Definition MAX_DECODED_BYTES : Z := 32 * 1024.
Definition MAX_KEY_COUNT : Z := 64.
Definition MAX_VALUE_BYTES : Z := 8 * 1024.

Definition key_char (c : ascii) : bool := is_upper c || is_digit c || Ascii.eqb c "_".
(** [^[A-Z][A-Z0-9_]{0,127}$], matched with [match]. *)
Definition KEY_PATTERN : re := RSeq (RCls is_upper) (RRep key_char 0 (Some 127%nat) true).
Definition key_match (key : string) : bool := matches KEY_PATTERN dollar key.

Definition BLOCKED_PREFIXES : list string := ["LD_"; "PYTHON"; "NSJAIL"; "SSL_"; "MCPWORKS_INTERNAL_"].
Definition BLOCKED_EXACT : list string :=
  ["PATH"; "HOME"; "USER"; "SHELL"; "LANG"; "LC_ALL"; "LC_CTYPE"; "TMPDIR"; "TMP"; "TEMP"; "DISPLAY";
   "DBUS_SESSION_BUS_ADDRESS"; "XDG_RUNTIME_DIR"; "HOSTNAME"; "IFS"].
Definition RESERVED_PREFIX : string := "MCPWORKS_".

Inductive exn :=
| EnvPassthroughError (message : string)
| UnicodeDecodeError
| OutOfModel.

Definition env_error {A} (message : string) : res exn A := Err (EnvPassthroughError message).

(** ** Checks *)

Definition _validate_key (key : string) : res exn unit :=
  if negb (key_match key) then
    env_error ("Invalid env var name: '" +:+ key +:+ "'. Must match ^[A-Z][A-Z0-9_]{{0,127}}$")
  else if str_in key BLOCKED_EXACT then env_error ("Env var name '" +:+ key +:+ "' is blocked (system variable)")
  else match find_first (fun prefix => starts_with prefix key) BLOCKED_PREFIXES with
       | Some prefix => env_error ("Env var name '" +:+ key +:+ "' is blocked (prefix '" +:+ prefix +:+ "' is reserved)")
       | None =>
           if starts_with RESERVED_PREFIX key then
             env_error ("Env var name '" +:+ key +:+ "' is blocked (prefix '" +:+ RESERVED_PREFIX
                          +:+ "' is reserved for platform use)")
           else Ok tt
       end.

(** [type(v).__name__] *)
Definition type_name (v : pyval) : string :=
  match v with
  | PNone => "NoneType" | PBool _ => "bool" | PInt _ => "int" | PStr _ => "str" | PList _ => "list" | PDict _ => "dict"
  end.

Definition nul : string := String (chr 0) EmptyString.

Definition _validate_value (key : string) (value : pyval) : res exn unit :=
  match value with
  | PStr v =>
      let n := str_len (utf8_encode v) in
      if MAX_VALUE_BYTES <? n then
        env_error ("Env var '" +:+ key +:+ "' value too large (" +:+ str_of_Z n +:+ " bytes, max "
                     +:+ str_of_Z MAX_VALUE_BYTES +:+ ")")
      else if str_contains nul v then env_error ("Env var '" +:+ key +:+ "' contains null byte")
      else Ok tt
  | _ => env_error ("Env var '" +:+ key +:+ "' value must be a string, got " +:+ type_name value)
  end.

(** ** [json.loads] on bytes *)

Definition byte_values (b : string) : list Z := map (fun c => Z.of_nat (ord c)) (String.list_ascii_of_string b).

(** Whether the bytes are UTF-8; [skip] counts continuation bytes to pass. *)
Fixpoint utf8_valid_go (skip : nat) (bs : list Z) : bool :=
  match bs with
  | [] => true
  | _ :: r =>
      match skip with
      | S k => utf8_valid_go k r
      | O => match utf8_head bs with Some (_, k) => utf8_valid_go k r | None => false end
      end
  end.

(** [json.detect_encoding(b)] is UTF-8, with or without a byte order mark. *)
Definition bom_utf8 : string := String (chr 239) (String (chr 187) (String (chr 191) EmptyString)).
Definition bom_utf16 (b0 b1 : Z) : bool := (b0 =? 254) && (b1 =? 255) || (b0 =? 255) && (b1 =? 254).
Definition detects_utf8 (b : string) : bool :=
  match byte_values b with
  | [b0; b1] | b0 :: b1 :: _ :: _ :: _ => negb (bom_utf16 b0 b1 || (b0 =? 0) || (b1 =? 0))
  | b0 :: b1 :: _ => negb (bom_utf16 b0 b1)
  | _ => true
  end.

Definition decode_json_bytes (b : string) : res exn string :=
  if negb (detects_utf8 b) then Err OutOfModel
  else
    let b := if starts_with bom_utf8 b then str_drop 3 b else b in
    match utf8_decode b with
    | Some t => Ok t
    | None =>
        (* a sequence that starts with 0xED may be a surrogate, which json.loads lets pass *)
        if utf8_valid_go 0 (byte_values b) || str_contains (String (chr 237) EmptyString) b
        then Err OutOfModel else Err UnicodeDecodeError
    end.

(** ** Extraction *)

(** The loop over the items: [sanitized] so far. *)
Fixpoint sanitize (items : list (string * pyval)) (sanitized : list (string * string)) : res exn (list (string * string)) :=
  match items with
  | [] => Ok sanitized
  | (key, value) :: items' =>
      _ ← _validate_key key;
      _ ← _validate_value key value;
      sanitize items' (dict_set key (py_str value) sanitized)
  end.

(** [header]: the value of [X-MCPWorks-Env], if it was sent. *)
Definition extract_env_vars (header : option string) : res exn (list (string * string)) :=
  match header with
  | None => Ok []
  | Some raw =>
      if negb (truthy_str raw) then Ok []
      else
        let raw := if starts_with "base64:" raw then str_drop 7 raw else raw in
        match b64decode_strict raw with
        | None => env_error (HEADER_NAME +:+ " header is not valid base64")
        | Some decoded =>
            if MAX_DECODED_BYTES <? str_len decoded then
              env_error ("Env payload too large (" +:+ str_of_Z (str_len decoded) +:+ " bytes, max "
                           +:+ str_of_Z MAX_DECODED_BYTES +:+ ")")
            else
              text ← decode_json_bytes decoded;
              match json_loads text with
              | Err JSONDecodeError => env_error (HEADER_NAME +:+ " decoded content is not valid JSON")
              | Err Json.OutOfModel => Err OutOfModel
              | Ok (PDict env) =>
                  if MAX_KEY_COUNT <? Z.of_nat (length env) then
                    env_error ("Too many env vars (" +:+ str_of_Z (Z.of_nat (length env)) +:+ ", max "
                                 +:+ str_of_Z MAX_KEY_COUNT +:+ ")")
                  else sanitize env []
              | Ok v => env_error (HEADER_NAME +:+ " must be a JSON object, got " +:+ type_name v)
              end
        end
  end.

(** ** What a function gets *)

(** A list that may be [None] or empty. *)
Definition names (l : option (list string)) : list string := default [] l.

Definition filter_env_for_function (env_vars : list (string * string)) (required_env optional_env : option (list string))
    : list (string * string) :=
  match env_vars with
  | [] => []
  | _ =>
      let declared := names required_env ++ names optional_env in
      match declared with
      | [] => []
      | _ => List.filter (fun kv => str_in kv.1 declared) env_vars
      end
  end.

Definition check_required_env (env_vars : list (string * string)) (required_env : option (list string)) : list string :=
  List.filter (fun name => negb (dict_has name env_vars)) (names required_env).

(** What [run_handler] passes to the sandbox: the variables, or the names that
    are missing. *)
Definition function_env (sandbox_env : list (string * string)) (required_env optional_env : option (list string))
    : list (string * string) + list string :=
  let filtered_env := filter_env_for_function sandbox_env required_env optional_env in
  match check_required_env filtered_env required_env with
  | [] => inl filtered_env
  | missing => inr missing
  end.

(** ** What a name may be *)

(** A capital letter and at most 127 capitals, digits and underscores. *)
Definition well_named (name : string) : bool :=
  match name with
  | String c rest => is_upper c && str_forallb key_char rest && (String.length rest <=? 127)%nat
  | EmptyString => false
  end.

(** The names the checks let through: a newline may end the name, since [$]
    matches before it. *)
Definition allowed_key (key : string) : Prop :=
  (exists name, well_named name = true /\ (key = name \/ key = (name +:+ nl))) /\
  (key ∉ BLOCKED_EXACT) /\ forall p, p ∈ RESERVED_PREFIX :: BLOCKED_PREFIXES -> starts_with p key = false.

(** At most 8 KiB of UTF-8 and no null character. *)
Definition allowed_value (v : string) : Prop :=
  str_len (utf8_encode v) <= MAX_VALUE_BYTES /\ str_contains nul v = false.

Lemma dollar_some prev s : (exists rest, dollar prev s = Some rest) <-> s = [] \/ s = String.list_ascii_of_string nl.
Proof.
  unfold dollar, nl. destruct s as [|c [|d s]]; cbn.
  - split; [by left|by exists []].
  - destruct (Nat.eqb_spec (ord c) 10) as [E|E]; split.
    + intros _. right. f_equal. rewrite <-(Ascii.ascii_nat_embedding c). unfold chr. f_equal. exact E.
    + intros _. by eexists.
    + by intros [].
    + intros [?|[= ->]]; [done|]. by destruct E.
  - split; [by intros []|intros [?|?]; done].
Qed.

Lemma key_match_spec key :
  key_match key = true <-> exists name, well_named name = true /\ (key = name \/ key = name +:+ nl).
Proof.
  unfold key_match, matches. assert (forall o : option (list ascii), (match o with Some _ => true | None => false end) = true
    <-> exists rest, o = Some rest) as Hopt by (intros [x|]; split; [by exists x|done|done|by intros []]).
  rewrite Hopt. destruct key as [|c key]; cbn [String.list_ascii_of_string KEY_PATTERN rmatch].
  { split; [by intros []|]. intros ([|c' name] & Hn & [E|E]); simplify_eq/=. }
  destruct (is_upper c) eqn:Ec.
  2:{ split; [by intros []|]. intros ([|c' name] & Hn & [E|E]); simplify_eq/=; by rewrite Ec in Hn. }
  rewrite rep_max_some. split.
  - intros (i & prev & Hi & Hil & Hf & _ & Hd%dollar_some).
    exists (String c (String.string_of_list_ascii (take i (String.list_ascii_of_string key)))). split.
    + cbn. rewrite Ec. cbn [andb]. rewrite andb_true_iff, Nat.leb_le, str_forallb_Forall, <-length_list_ascii,
        String.list_ascii_of_string_of_list_ascii, length_take. split; [done|lia].
    + destruct Hd as [Hd|Hd]; [left|right]; apply list_ascii_inj; cbn [String.append String.list_ascii_of_string];
        rewrite ?list_ascii_app, String.list_ascii_of_string_of_list_ascii; f_equal;
        rewrite <-(take_drop i (String.list_ascii_of_string key)) at 1; by rewrite Hd, ?app_nil_r.
  - intros ([|c' name] & Hn & Hk); [done|]. cbn in Hn. bool_to_prop.
    rewrite str_forallb_Forall in *. apply Nat.leb_le in H0. rewrite <-length_list_ascii in H0.
    set (l := String.list_ascii_of_string name) in *.
    assert (exists t, String.list_ascii_of_string key = l ++ t /\ (t = [] \/ t = String.list_ascii_of_string nl)) as (t & -> & Ht).
    { destruct Hk as [E|E]; cbn [String.append] in E; injection E as -> ->;
        [exists []; split; [by rewrite app_nil_r|by left]|exists (String.list_ascii_of_string nl); split; [apply list_ascii_app|by right]]. }
    exists (length l), (match length l with O => Some c | S j => (l ++ t) !! j end). split; [lia|].
    rewrite length_app. split; [lia|]. rewrite take_app_length, drop_app_length. split; [done|]. split; [done|].
    by apply dollar_some.
Qed.

Lemma validate_key_spec key :
  (_validate_key key = Ok tt <-> allowed_key key) /\
  (_validate_key key = Ok tt \/ exists m, _validate_key key = env_error m).
Proof.
  unfold _validate_key, allowed_key. rewrite <-key_match_spec.
  assert ((key ∉ BLOCKED_EXACT) <-> str_in key BLOCKED_EXACT = false) as ->.
  { rewrite <-not_true_iff_false. by rewrite str_in_spec. }
  destruct (key_match key); cbn [negb]; [|split; [naive_solver|right; by eexists]].
  destruct (str_in key BLOCKED_EXACT); [split; [naive_solver|right; by eexists]|].
  destruct (find_first _ BLOCKED_PREFIXES) as [p|] eqn:Ep.
  { split; [|right; by eexists]. split; [done|]. intros (_ & _ & Hp). apply find_first_Some in Ep as [Hin Hs].
    specialize (Hp p ltac:(by right)). congruence. }
  rewrite find_first_None in Ep. destruct (starts_with RESERVED_PREFIX key) eqn:Er.
  - split; [|right; by eexists]. split; [done|]. intros (_ & _ & Hp). specialize (Hp RESERVED_PREFIX ltac:(by left)). congruence.
  - split; [|by left]. split; [|done]. intros _. split; [done|]. split; [done|].
    intros p [->|Hp]%elem_of_cons; [done|by apply Ep].
Qed.

Lemma validate_value_spec key v :
  (_validate_value key (PStr v) = Ok tt <-> allowed_value v) /\
  (_validate_value key (PStr v) = Ok tt \/ exists m, _validate_value key (PStr v) = env_error m).
Proof.
  unfold _validate_value, allowed_value. destruct (Z.ltb_spec MAX_VALUE_BYTES (str_len (utf8_encode v))).
  - split; [split; [done|lia]|right; by eexists].
  - destruct (str_contains nul v); split; [naive_solver|right; by eexists|naive_solver|by left].
Qed.

(** What a variable must be. *)
Definition allowed (kv : string * string) : Prop := allowed_key kv.1 /\ allowed_value kv.2.

Definition as_json (env : list (string * string)) : list (string * pyval) := map (fun kv => (kv.1, PStr kv.2)) env.

(** The loop, for items in general: what it returns are strings that passed. *)
Lemma sanitize_sound items : forall acc env,
  dict_wf acc -> Forall allowed acc -> sanitize items acc = Ok env -> dict_wf env /\ Forall allowed env /\
  (length env <= length acc + length items)%nat.
Proof.
  induction items as [|[key value] items IH]; intros acc env Hwf Hacc; cbn [sanitize length].
  { intros [= <-]. split; [done|]. split; [done|lia]. }
  destruct (_validate_key key) as [[]|] eqn:Ek; [|done]. destruct (_validate_value key value) as [[]|] eqn:Ev; [|done].
  cbn [mbind res_bind]. destruct value as [| | |v| |]; try done. cbn [py_str]. intros E.
  apply (validate_key_spec key) in Ek. apply (validate_value_spec key v) in Ev.
  apply IH in E as (? & ? & Hl); [|by apply dict_wf_set|].
  - split; [done|]. split; [done|]. enough (length (dict_set key v acc) <= S (length acc))%nat by lia. clear.
    induction acc as [|[k w] acc IH]; cbn; [lia|]. case_match; cbn; lia.
  - clear -Hacc Ek Ev. induction Hacc as [|[k w] acc Hk Hacc IH]; cbn; [by constructor|].
    destruct (String.eqb_spec key k) as [->|]; constructor; try done.
Qed.

(** The loop on strings: all of them, or the error of the first that fails. *)
Lemma sanitize_strings env : forall acc,
  NoDup (dict_keys (acc ++ env)) ->
  (Forall allowed env -> sanitize (as_json env) acc = Ok (acc ++ env)) /\
  (~ Forall allowed env -> exists m, sanitize (as_json env) acc = env_error m).
Proof.
  induction env as [|[k v] env IH]; intros acc Hnd; cbn [as_json map sanitize fst snd].
  { split; [by rewrite app_nil_r|]. intros Hn. by destruct Hn. }
  assert (dict_set k v acc = acc ++ [(k, v)]) as Hset.
  { unfold dict_keys in Hnd. rewrite map_app in Hnd. cbn in Hnd. apply NoDup_app in Hnd as (_ & Hd & _).
    clear -Hd. induction acc as [|[k' v'] acc IH]; cbn; [done|]. destruct (String.eqb_spec k k') as [->|].
    - exfalso. apply (Hd k'); [by left|by left].
    - f_equal. apply IH. intros x Hx. apply Hd. by right. }
  destruct (validate_key_spec k) as [Hk [Ek|[m Ek]]]; rewrite Ek; cbn [mbind res_bind env_error].
  2:{ split; [|by eexists]. intros [[Hak _] _]%Forall_cons. apply Hk in Hak. rewrite Ek in Hak. done. }
  destruct (validate_value_spec k v) as [Hv [Ev|[m Ev]]]; rewrite Ev; cbn [mbind res_bind env_error].
  2:{ split; [|by eexists]. intros [[_ Hav] _]%Forall_cons. apply Hv in Hav. rewrite Ev in Hav. done. }
  cbn [py_str]. rewrite Hset. destruct (IH (acc ++ [(k, v)])) as [H1 H2]; [by rewrite <-app_assoc|].
  rewrite <-app_assoc in H1. split.
  - intros [_ ?]%Forall_cons. by apply H1.
  - intros Hn. apply H2. intros Hf. apply Hn. constructor; [|done]. split; [by apply Hk|by apply Hv].
Qed.

(** ** The header a client writes *)

(** The JSON object, in base64. *)
Definition header_of (env : list (string * string)) : string := b64encode (json_dumps (PDict (as_json env))).

Definition text_char (c : ascii) : bool := ((1 <=? ord c) && (ord c <? 128))%nat.

Lemma json_str_text s : str_forallb text_char (json_str s) = true.
Proof.
  unfold json_str. rewrite !str_forallb_append. cbn [str_forallb dq]. change (text_char (chr 34)) with true. cbn [andb].
  rewrite andb_true_r. induction s as [|c s IH]; [done|]. cbn [str_body]. rewrite str_forallb_append, IH, andb_true_r.
  by destruct c as [[] [] [] [] [] [] [] []].
Qed.

Lemma env_json_text env :
  exists t, json_dumps (PDict (as_json env)) = String "{" t /\ str_forallb text_char (String "{" t) = true.
Proof.
  unfold json_dumps. cbn [dumps_with]. eexists. split; [reflexivity|].
  cbn [str_forallb]. change (text_char "{") with true. rewrite str_forallb_append, andb_true_iff. split; [done|].
  rewrite andb_true_r. unfold as_json. rewrite map_map. induction env as [|[k v] [|kv env] IH]; [done|..].
  - cbn [map str_join]. cbn [fst snd dumps_with]. rewrite !str_forallb_append, !json_str_text. reflexivity.
  - cbn [map]. rewrite str_join_cons. cbn [map] in IH. rewrite !str_forallb_append, IH. cbn [fst snd dumps_with].
    rewrite !json_str_text. reflexivity.
Qed.

Lemma text_decodes t :
  str_forallb text_char (String "{" t) = true -> decode_json_bytes (String "{" t) = Ok (String "{" t).
Proof.
  intros Ht. unfold decode_json_bytes.
  assert (detects_utf8 (String "{" t) = true) as ->.
  { unfold detects_utf8, byte_values. cbn [String.list_ascii_of_string map]. cbn [str_forallb] in Ht.
    apply andb_true_iff in Ht as [_ Ht].
    assert (forall c, text_char c = true -> forall b, bom_utf16 123 (Z.of_nat (ord c)) || (123 =? 0) || (Z.of_nat (ord c) =? 0) = b -> b = false) as Hc.
    { unfold text_char, bom_utf16. intros c Hc b <-. apply andb_true_iff in Hc as [?%Nat.leb_le ?%Nat.ltb_lt].
      cbn. destruct (Z.eqb_spec (Z.of_nat (ord c)) 0); [lia|done]. }
    change (Z.of_nat (ord "{")) with 123. destruct t as [|c t]; [done|]. cbn in Ht. apply andb_true_iff in Ht as [Hc0 _].
    cbn [String.list_ascii_of_string map]. specialize (Hc c Hc0 _ eq_refl).
    destruct (map _ (String.list_ascii_of_string t)) as [|b2 [|b3 l]]; try (by rewrite Hc).
    rewrite !orb_false_iff in Hc. by destruct Hc as [[-> _] _]. }
  change (starts_with bom_utf8 (String "{" t)) with false. cbn [negb]. cbv iota zeta.
  assert (utf8_decode (String "{" t) = Some (String "{" t)) as ->; [|done].
  revert Ht. generalize (String "{" t). clear t. intros t. induction t as [|c t IH]; [done|]. cbn [str_forallb utf8_decode].
  unfold text_char at 1. intros [[_ Hc]%andb_true_iff Ht]%andb_true_iff. rewrite Hc, IH by done. done.
Qed.

Lemma b64encode_head a s : exists t, b64encode (String a s) = String (b64_char (ord a / 4)) t.
Proof. destruct s as [|b [|c s]]; cbn [b64encode]; by eexists. Qed.

Lemma as_json_wf env : dict_wf env -> val_wf (PDict (as_json env)).
Proof.
  unfold dict_wf, dict_keys, as_json. intros Hwf. cbn [val_wf]. unfold dict_wf, dict_keys. rewrite map_map. split; [done|].
  clear. induction env as [|kv env IH]; cbn; [done|by split].
Qed.

(** How a client's header is read, with and without the prefix. *)
Lemma extract_header env :
  dict_wf env -> str_len (json_dumps (PDict (as_json env))) <= MAX_DECODED_BYTES ->
  Z.of_nat (length env) <= MAX_KEY_COUNT ->
  extract_env_vars (Some (header_of env)) = sanitize (as_json env) [] /\
  extract_env_vars (Some ("base64:" +:+ header_of env)) = sanitize (as_json env) [].
Proof.
  intros Hwf Hsize Hn. unfold header_of. destruct (env_json_text env) as (t & Et & Ht).
  assert (json_loads (json_dumps (PDict (as_json env))) = Ok (PDict (as_json env))) as Hl
    by by apply json_dumps_loads, as_json_wf.
  rewrite Et in *. pose proof (b64decode_encode (String "{" t)) as Hb.
  destruct (b64encode_head "{" t) as (u & Hu). change (b64_char (ord "{" / 4)) with "e"%char in Hu.
  unfold extract_env_vars. rewrite Hu in *. change (truthy_str (String "e" u)) with true.
  change (truthy_str ("base64:" +:+ String "e" u)) with true. change (starts_with "base64:" (String "e" u)) with false.
  change (starts_with "base64:" ("base64:" +:+ String "e" u)) with true.
  change (str_drop 7 ("base64:" +:+ String "e" u)) with (String "e" u). cbn [negb]. cbv zeta iota. rewrite Hb.
  destruct (Z.ltb_spec MAX_DECODED_BYTES (str_len (String "{" t))); [lia|]. rewrite text_decodes by done.
  cbn [mbind res_bind]. rewrite Hl.
  assert (length (as_json env) = length env) as -> by apply length_map.
  destruct (Z.ltb_spec MAX_KEY_COUNT (Z.of_nat (length env))); [lia|done].
Qed.

(** A header written as documented is read back exactly: for a dict of
    strings of at most 64 variables and 32 KiB the variables are returned, in
    their order, when each of them is allowed, and the request is refused with
    [EnvPassthroughError] otherwise; with the prefix [base64:] too. *)
Theorem env_header_roundtrip env prefix :
  dict_wf env -> str_len (json_dumps (PDict (as_json env))) <= MAX_DECODED_BYTES ->
  Z.of_nat (length env) <= MAX_KEY_COUNT -> prefix = "" \/ prefix = "base64:" ->
  (Forall allowed env -> extract_env_vars (Some (prefix +:+ header_of env)) = Ok env) /\
  (~ Forall allowed env -> exists m, extract_env_vars (Some (prefix +:+ header_of env)) = Err (EnvPassthroughError m)).
Proof.
  intros Hwf Hs Hn Hp. destruct (extract_header env Hwf Hs Hn) as [H1 H2].
  destruct Hp as [-> | ->]; [change ("" +:+ header_of env) with (header_of env); rewrite H1|rewrite H2];
    by apply (sanitize_strings env []).
Qed.

(** Whatever the header holds, the variables that come out of it are at
    most 64, each name once; every name is a capital letter followed by at most
    127 capitals, digits and underscores (and possibly a newline), is no system
    variable and has no reserved prefix, and every value has at most 8 KiB and no
    null character. *)
Theorem extract_env_sound header env :
  extract_env_vars header = Ok env ->
  dict_wf env /\ Z.of_nat (length env) <= MAX_KEY_COUNT /\ Forall allowed env.
Proof.
  assert (dict_wf ([] : list (string * string))) as Hwf by apply NoDup_nil_2.
  unfold extract_env_vars. destruct header as [raw|]; [|by intros [= <-]].
  destruct (truthy_str raw); cbn [negb]; [|by intros [= <-]].
  destruct (b64decode_strict _) as [decoded|]; [|done]. destruct (MAX_DECODED_BYTES <? _); [done|].
  destruct (decode_json_bytes decoded) as [text|]; [|done]. cbn [mbind res_bind].
  destruct (json_loads text) as [v|[]]; try done. destruct v as [| | | | |items]; try done.
  destruct (Z.ltb_spec MAX_KEY_COUNT (Z.of_nat (length items))); [done|].
  intros (? & ? & Hl)%sanitize_sound; [|done|done]. cbn in Hl. split; [done|]. split; [lia|done].
Qed.

(** What the sandbox gets: a function runs exactly when every variable it
    requires was sent, and then with exactly the variables sent that it declares,
    required or optional, with their values; otherwise the missing names are
    reported, and they are exactly the required ones that were not sent. *)
Theorem function_env_correct env required optional :
  match function_env env required optional with
  | inl given =>
      (forall n, n ∈ names required -> dict_has n env = true) /\
      (forall k, dict_get k given = if str_in k (names required ++ names optional) then dict_get k env else None)
  | inr missing =>
      missing <> [] /\ forall n, n ∈ missing <-> n ∈ names required /\ dict_has n env = false
  end.
Proof.
  set (given := filter_env_for_function env required optional).
  assert (forall k, dict_get k given = if str_in k (names required ++ names optional) then dict_get k env else None) as Hg.
  { intros k. subst given. unfold filter_env_for_function. destruct env as [|kv env]; [by destruct (str_in _ _)|].
    destruct (names required ++ names optional) as [|n declared]; [done|]. generalize (kv :: env). clear kv env.
    intros env. induction env as [|[k' v] env IH]; cbn [List.filter dict_get fst]; [by destruct (str_in _ _)|].
    destruct (String.eqb_spec k k') as [<-|Hne]; [|destruct (str_in k' _); cbn [dict_get]; [|done]].
    - destruct (str_in k (n :: declared)) eqn:E; cbn [dict_get]; [by rewrite String.eqb_refl|]. by rewrite IH.
    - destruct (String.eqb_spec k k'); done. }
  assert (forall n, n ∈ names required -> dict_has n given = dict_has n env) as Hh.
  { intros n Hn. unfold dict_has. rewrite Hg. assert (str_in n (names required ++ names optional) = true) as ->; [|done].
    apply str_in_spec, elem_of_app. by left. }
  assert (forall n, n ∈ check_required_env given required <-> n ∈ names required /\ dict_has n env = false) as Hm.
  { intros n. unfold check_required_env. rewrite list_elem_of_In, filter_In, <-list_elem_of_In, negb_true_iff.
    split; intros [Hn Hd]; (split; [done|]); by rewrite Hh in *. }
  unfold function_env. fold given. destruct (check_required_env given required) as [|m ms]; [|by split].
  split; [|done]. intros n Hn. apply not_false_iff_true. intros Hd.
  by apply (not_elem_of_nil n), Hm.
Qed.

(** ** Concrete runs *)

(** A name may end in a newline, and then no exact name is recognized. *)
Example newline_name_accepted :
  extract_env_vars (Some (header_of [("PATH" +:+ nl, "/tmp")])) = Ok [("PATH" +:+ nl, "/tmp")] /\
  extract_env_vars (Some (header_of [("PATH", "/tmp")])) = env_error "Env var name 'PATH' is blocked (system variable)".
Proof. by vm_compute. Qed.

(** Bytes that are no UTF-8 raise another exception than the documented one. *)
Example bad_utf8_not_wrapped :
  extract_env_vars (Some (b64encode (String (chr 255) "abc"))) = Err UnicodeDecodeError.
Proof. by vm_compute. Qed.

Definition demo_env : list (string * string) := [("API_KEY", "s3cret" +:+ dq); ("REGION", "eu")].

Lemma demo_allowed : Forall allowed demo_env.
Proof.
  repeat constructor; cbn [fst snd]; try (apply (validate_key_spec _); by vm_compute);
    try (by vm_compute); by apply (validate_value_spec "k" _).
Qed.

Lemma env_header_roundtrip_witness :
  extract_env_vars (Some ("base64:" +:+ header_of demo_env)) = Ok demo_env.
Proof.
  apply (env_header_roundtrip demo_env "base64:"); [|by vm_compute|by vm_compute|by right|apply demo_allowed].
  unfold dict_wf. apply (bool_decide_unpack _). by vm_compute.
Defined.

Lemma extract_env_sound_witness :
  dict_wf demo_env /\ Z.of_nat (length demo_env) <= MAX_KEY_COUNT /\ Forall allowed demo_env.
Proof. apply (extract_env_sound (Some (header_of demo_env))). by vm_compute. Defined.
