(* ===== verification/Namespaces.v ===== *)
(** * Namespaces and their sharing

    [services/namespace.py] (namespaces of an account, the services in them, who
    may reach them) and [services/namespace_share.py] (invitations) on the tables
    of [models/namespace.py], [models/namespace_service.py] and
    [models/namespace_share.py].  Fresh identifiers and the time are arguments;
    an operation that raises leaves the mutations made before it in the session,
    which the endpoint rolls back. *)

From S2P Require Import Prelude Regex Routing Security.
From Stdlib Require Import Ascii.

Open Scope Z_scope.

(** ** Tables *)

Record user := User { u_id : string; u_email : string; u_name : option string }.
Record account := Account { a_id : string; a_user_id : string }.

Record namespace := Namespace {
  n_id : string;
  n_account_id : string;
  n_name : string;
  n_description : option string;
  network_allowlist : option (list string);
  allowlist_updated_at : option Z;
  allowlist_changes_today : Z;
  deleted_at : option Z
}.

Record service := Service { s_id : string; s_namespace_id : string; s_name : string; s_description : option string }.

Inductive ShareStatus := PENDING | ACCEPTED | DECLINED | REVOKED.

#[export] Instance ShareStatus_eq_dec : EqDecision ShareStatus.
Proof. solve_decision. Defined.

Definition status_value (s : ShareStatus) : string :=
  match s with PENDING => "pending" | ACCEPTED => "accepted" | DECLINED => "declined" | REVOKED => "revoked" end.

Record share := Share {
  sh_id : string;
  sh_namespace_id : string;
  sh_user_id : string;
  granted_by_user_id : option string;
  permissions : list string;
  status : ShareStatus;
  accepted_at : option Z;
  revoked_at : option Z;
  sh_created_at : Z
}.

(** An invitation mail: to, display name, namespace, owner. *)
Record invite_mail := InviteMail { to : string; name_var : string; namespace_name : string; owner_name : string }.

Record tables := Tables {
  users : list user;
  accounts : list account;
  namespaces : list namespace;
  services : list service;
  shares : list share;
  mails : list invite_mail
}.

Abbreviation M := (stm tables exn).

(** [result.scalar_one_or_none()] of the rows with [p]. *)
Definition select {A} (rows : tables -> list A) (p : A -> bool) : M (option A) := fun t =>
  match List.filter p (rows t) with
  | [] => (Ok None, t)
  | [a] => (Ok (Some a), t)
  | _ => (Err MultipleResultsFound, t)
  end.

Definition set_namespaces (f : list namespace -> list namespace) : M unit := modS (fun t =>
  Tables (users t) (accounts t) (f (namespaces t)) (services t) (shares t) (mails t)).
Definition set_services (f : list service -> list service) : M unit := modS (fun t =>
  Tables (users t) (accounts t) (namespaces t) (f (services t)) (shares t) (mails t)).
Definition set_shares (f : list share -> list share) : M unit := modS (fun t =>
  Tables (users t) (accounts t) (namespaces t) (services t) (f (shares t)) (mails t)).
Definition add_mail (m : invite_mail) : M unit := modS (fun t =>
  Tables (users t) (accounts t) (namespaces t) (services t) (shares t) (mails t ++ [m])).

(** The row replaced where the identifier is its own. *)
Definition put_namespace (n : namespace) : M unit :=
  set_namespaces (map (fun x => if String.eqb (n_id x) (n_id n) then n else x)).
Definition put_service (x : service) : M unit :=
  set_services (map (fun y => if String.eqb (s_id y) (s_id x) then x else y)).
Definition put_share (x : share) : M unit :=
  set_shares (map (fun y => if String.eqb (sh_id y) (sh_id x) then x else y)).

Definition not_found {A} (m : string) : M A := raise (mcp_with NotFoundError m).
Definition forbidden {A} (m : string) : M A := raise (mcp_with ForbiddenError m).
Definition conflict {A} (m : string) : M A := raise (mcp_with ConflictError m).
Definition invalid {A} (m : string) : M A := raise (mcp_with ValidationError m).

(** ** Namespaces *)

Definition RESERVED_NAMESPACE_NAMES : list string :=
  ["admin"; "api"; "app"; "auth"; "billing"; "blog"; "cdn"; "console"; "create"; "dashboard"; "dev"; "docs"; "ftp";
   "git"; "grafana"; "help"; "internal"; "login"; "mail"; "manage"; "mcpworks"; "monitor"; "ns"; "null"; "ops";
   "portal"; "prometheus"; "proxy"; "redis"; "register"; "root"; "run"; "sandbox"; "smtp"; "staging"; "static";
   "status"; "support"; "system"; "test"; "undefined"; "www"].

(** [strftime('%Y-%m-%d')] of seconds since the epoch. *)
Definition two_digits (n : Z) : string := if n <? 10 then "0" +:+ str_of_Z n else str_of_Z n.
Definition date_text (seconds : Z) : string :=
  let z := seconds / 86400 + 719468 in
  let era := z / 146097 in
  let doe := z mod 146097 in
  let yoe := (doe - doe / 1460 + doe / 36524 - doe / 146096) / 365 in
  let doy := doe - (365 * yoe + yoe / 4 - yoe / 100) in
  let mp := (5 * doy + 2) / 153 in
  let d := doy - (153 * mp + 2) / 5 + 1 in
  let m := if mp <? 10 then mp + 3 else mp - 9 in
  let y := yoe + era * 400 + (if m <=? 2 then 1 else 0) in
  str_of_Z y +:+ "-" +:+ two_digits m +:+ "-" +:+ two_digits d.

(** The validator of [Namespace.name]. *)
Definition validate_name (value : string) : res exn string :=
  if String.eqb value "" then Err ValueError
  else if 63 <? str_len value then Err ValueError
  else if negb (namespace_match value) then Err ValueError
  else Ok (str_lower value).

(** The check constraint [namespace_name_format] and the unique name, on flush. *)
Definition insert_namespace (n : namespace) : M unit :=
  t ← getS;
  if negb (valid_label (n_name n)) || existsb (fun x => String.eqb (n_name x) (n_name n)) (namespaces t)
  then raise DBAPIError else set_namespaces (fun l => l ++ [n]).

Definition create (new_id account_id name : string) (description : option string) (allowlist : option (list string))
    : M namespace :=
  if str_in (str_lower name) RESERVED_NAMESPACE_NAMES then raise ValueError
  else
    found ← select namespaces (fun n => String.eqb (n_name n) (str_lower name));
    match found with
    | Some f =>
        match deleted_at f with
        | Some t => conflict ("Namespace '" +:+ name +:+ "' was deleted and is in a 30-day recovery period until "
            +:+ date_text (t + 30 * 86400)
            +:+ ". Contact support to restore or wait for the recovery period to expire.")
        | None => conflict ("Namespace '" +:+ name +:+ "' already exists")
        end
    | None =>
        nm ← lift_res (validate_name (str_lower name));
        let n := Namespace new_id account_id nm description allowlist None 0 None in
        insert_namespace n;; mret n
    end.

Definition is_live (n : namespace) : bool := match deleted_at n with None => true | Some _ => false end.

Definition _check_share_access (namespace_id user_id permission : string) : M bool :=
  found ← select shares (fun x => String.eqb (sh_namespace_id x) namespace_id && String.eqb (sh_user_id x) user_id
                                  && bool_decide (status x = ACCEPTED));
  mret (match found with Some x => str_in permission (permissions x) | None => false end).

(** The test that [get_by_id] and [get_by_name] make of a found row. *)
Definition check_owner (n : namespace) (account_id user_id required_permission : option string) : M namespace :=
  match account_id with
  | Some acc =>
      if String.eqb (n_account_id n) acc then mret n
      else
        allowed ← match user_id, required_permission with
                  | Some u, Some p => if truthy_str p then _check_share_access (n_id n) u p else mret false
                  | _, _ => mret false
                  end;
        if (allowed : bool) then mret n else forbidden "Access denied to this namespace"
  | None => mret n
  end.

Definition get_by_id (namespace_id : string) (account_id user_id required_permission : option string) : M namespace :=
  found ← select namespaces (fun n => String.eqb (n_id n) namespace_id && is_live n);
  match found with
  | None => not_found ("Namespace '" +:+ namespace_id +:+ "' not found")
  | Some n => check_owner n account_id user_id required_permission
  end.

Definition get_by_name (name : string) (account_id user_id required_permission : option string) : M namespace :=
  found ← select namespaces (fun n => String.eqb (n_name n) (str_lower name) && is_live n);
  match found with
  | None => not_found ("Namespace '" +:+ name +:+ "' not found")
  | Some n => check_owner n account_id user_id required_permission
  end.

Definition can_update_allowlist (n : namespace) : bool := allowlist_changes_today n <? 5.

Definition update (now : Z) (namespace_id account_id : string) (description : option string)
    (allowlist : option (list string)) : M namespace :=
  n ← get_by_id namespace_id (Some account_id) None None;
  let n := match description with
           | Some d => Namespace (n_id n) (n_account_id n) (n_name n) (Some d) (network_allowlist n)
                         (allowlist_updated_at n) (allowlist_changes_today n) (deleted_at n)
           | None => n
           end in
  put_namespace n;;
  match allowlist with
  | Some l =>
      if negb (can_update_allowlist n) then invalid "Allowlist update rate limit exceeded (max 5 per 24 hours)"
      else
        let n := Namespace (n_id n) (n_account_id n) (n_name n) (n_description n) (Some l) (Some now)
                   (allowlist_changes_today n + 1) (deleted_at n) in
        put_namespace n;; mret n
  | None => mret n
  end.

Definition delete (now : Z) (namespace_id account_id : string) : M namespace :=
  n ← get_by_id namespace_id (Some account_id) None None;
  let n := Namespace (n_id n) (n_account_id n) (n_name n) (n_description n) (network_allowlist n)
             (allowlist_updated_at n) (allowlist_changes_today n) (Some now) in
  put_namespace n;; mret n.

(** Whether the namespace is shared with the user. *)
Definition shared_with (t : tables) (user_id : string) (n : namespace) : nat :=
  length (List.filter (fun x => String.eqb (sh_namespace_id x) (n_id n) && String.eqb (sh_user_id x) user_id
                                && bool_decide (status x = ACCEPTED)) (shares t)).

(** [list]: a page of the account's namespaces followed by those shared with the
    user, and the number of both. *)
Definition list_namespaces (account_id : string) (user_id : option string) (page page_size : Z) : M (list namespace * Z) :=
  t ← getS;
  let by_name := fun a b => str_leb (n_name a) (n_name b) in
  let owned := List.filter (fun n => String.eqb (n_account_id n) account_id && is_live n) (namespaces t) in
  let offset := (page - 1) * page_size in
  if (offset <? 0) || (page_size <? 0) then raise DBAPIError
  else
    let found := take (Z.to_nat page_size) (drop (Z.to_nat offset) (order_by by_name owned)) in
    match user_id with
    | Some u =>
        let shared := concat (map (fun n => repeat n (shared_with t u n)) (List.filter is_live (namespaces t))) in
        mret (found ++ order_by by_name shared, Z.of_nat (length owned) + Z.of_nat (length shared))
    | None => mret (found, Z.of_nat (length owned))
    end.

(** ** Services in a namespace *)

(** The names of services and functions: [[a-z0-9]([a-z0-9_-]{0,61}[a-z0-9])?] *)
Definition item_char (c : ascii) : bool := alnum_dash c || Ascii.eqb c "_".
Definition item_re : re :=
  RSeq (RCls alnum) (ropt (RSeq (RRep item_char 0 (Some 61%nat) true) (RCls alnum))).

(** The validator of the name: the pattern ends in [$]. *)
Definition validate_item_name (value : string) : res exn string :=
  if String.eqb value "" then Err ValueError
  else if 63 <? str_len value then Err ValueError
  else if negb (matches item_re dollar value) then Err ValueError
  else Ok (str_lower value).

(** The check constraint on the name, which a line feed does not pass. *)
Definition valid_item (value : string) : bool := matches item_re at_end value.

(** The foreign key, the check constraint and the unique name, on flush. *)
Definition insert_service (x : service) : M unit :=
  t ← getS;
  if negb (valid_item (s_name x)) || negb (existsb (fun n => String.eqb (n_id n) (s_namespace_id x)) (namespaces t))
    || existsb (fun y => String.eqb (s_namespace_id y) (s_namespace_id x) && String.eqb (s_name y) (s_name x)) (services t)
  then raise DBAPIError else set_services (fun l => l ++ [x]).

Definition service_create (new_id namespace_id name : string) (description : option string) : M service :=
  existing ← select services (fun x => String.eqb (s_namespace_id x) namespace_id && String.eqb (s_name x) (str_lower name));
  match existing with
  | Some _ => conflict ("Service '" +:+ name +:+ "' already exists in this namespace")
  | None =>
      nm ← lift_res (validate_item_name (str_lower name));
      let x := Service new_id namespace_id nm description in
      insert_service x;; mret x
  end.

Definition service_get_by_id (service_id : string) : M service :=
  found ← select services (fun x => String.eqb (s_id x) service_id);
  match found with Some x => mret x | None => not_found ("Service '" +:+ service_id +:+ "' not found") end.

Definition service_get_by_name (namespace_id name : string) : M service :=
  found ← select services (fun x => String.eqb (s_namespace_id x) namespace_id && String.eqb (s_name x) (str_lower name));
  match found with Some x => mret x | None => not_found ("Service '" +:+ name +:+ "' not found in namespace") end.

Definition service_list (namespace_id : string) : M (list service) :=
  t ← getS;
  mret (order_by (fun a b => str_leb (s_name a) (s_name b))
          (List.filter (fun x => String.eqb (s_namespace_id x) namespace_id) (services t))).

Definition service_update (service_id : string) (description : option string) : M service :=
  x ← service_get_by_id service_id;
  let x := match description with Some d => Service (s_id x) (s_namespace_id x) (s_name x) (Some d) | None => x end in
  put_service x;; mret x.

Definition service_delete (service_id : string) : M unit :=
  x ← service_get_by_id service_id;
  set_services (List.filter (fun y => negb (String.eqb (s_id y) (s_id x)))).

(** ** Shares *)

Definition VALID_PERMISSIONS : list string := ["read"; "execute"].

Definition check_access (namespace_id user_id required_permission : string) : M (option share) :=
  found ← select shares (fun x => String.eqb (sh_namespace_id x) namespace_id && String.eqb (sh_user_id x) user_id
                                  && bool_decide (status x = ACCEPTED));
  mret (match found with Some x => if str_in required_permission (permissions x) then Some x else None | None => None end).

Definition _get_share (share_id : string) : M share :=
  found ← select shares (fun x => String.eqb (sh_id x) share_id);
  match found with Some x => mret x | None => not_found "Share not found" end.

(** [x or y] of an optional text. *)
Definition or_text (x : option string) (y : string) : string := if truthy_ostr x then default y x else y.

Definition _send_invite_email (email : string) (name : option string) (ns : string) (owner : option string) : M unit :=
  add_mail (InviteMail email (or_text name email) ns (or_text owner "a mcpworks user")).

(** [set_iter]: the order in which a set is iterated. *)
Definition create_invite (set_iter : list string -> list string) (now : Z) (new_id namespace_id invitee_email : string)
    (perms : list string) (granter : string) : M share :=
  match List.filter (fun p => negb (str_in p VALID_PERMISSIONS)) perms with
  | (_ :: _) as bad => invalid ("Invalid permissions: " +:+ str_join ", " (set_iter bad))
  | [] =>
      match perms with
      | [] => invalid "At least one permission required"
      | _ =>
          ns ← select namespaces (fun n => String.eqb (n_id n) namespace_id);
          match ns with
          | None => not_found "Namespace not found"
          | Some ns =>
              owner ← select users (fun u => String.eqb (u_id u) granter);
              match owner with
              | None => not_found "Owner user not found"
              | Some owner =>
                  acc ← select accounts (fun a => String.eqb (a_id a) (n_account_id ns));
                  if negb (match acc with Some a => String.eqb (a_user_id a) granter | None => false end)
                  then forbidden "Only the namespace owner can share it"
                  else
                    invitee ← select users (fun u => String.eqb (u_email u) (str_lower invitee_email));
                    match invitee with
                    | None => not_found ("No user found with email '" +:+ invitee_email +:+ "'")
                    | Some invitee =>
                        if String.eqb (u_id invitee) granter then invalid "Cannot share a namespace with yourself"
                        else
                          existing ← select shares (fun x => String.eqb (sh_namespace_id x) namespace_id
                                                             && String.eqb (sh_user_id x) (u_id invitee));
                          match existing with
                          | Some x =>
                              if bool_decide (status x = PENDING) || bool_decide (status x = ACCEPTED)
                              then conflict "This user already has a pending or active share"
                              else
                                let x := Share (sh_id x) (sh_namespace_id x) (sh_user_id x) (Some granter) perms PENDING
                                           None None (sh_created_at x) in
                                put_share x;;
                                _send_invite_email (u_email invitee) (u_name invitee) (n_name ns) (u_name owner);;
                                mret x
                          | None =>
                              let x := Share new_id namespace_id (u_id invitee) (Some granter) perms PENDING None None now in
                              set_shares (fun l => l ++ [x]);;
                              _send_invite_email (u_email invitee) (u_name invitee) (n_name ns) (u_name owner);;
                              mret x
                          end
                    end
              end
          end
      end
  end.

Definition accept (now : Z) (share_id user_id : string) : M share :=
  x ← _get_share share_id;
  if negb (String.eqb (sh_user_id x) user_id) then forbidden "You can only accept invitations sent to you"
  else if negb (bool_decide (status x = PENDING)) then
    invalid ("Cannot accept a share with status '" +:+ status_value (status x) +:+ "'")
  else
    let x := Share (sh_id x) (sh_namespace_id x) (sh_user_id x) (granted_by_user_id x) (permissions x) ACCEPTED (Some now)
               (revoked_at x) (sh_created_at x) in
    put_share x;; mret x.

Definition decline (share_id user_id : string) : M share :=
  x ← _get_share share_id;
  if negb (String.eqb (sh_user_id x) user_id) then forbidden "You can only decline invitations sent to you"
  else if negb (bool_decide (status x = PENDING)) then
    invalid ("Cannot decline a share with status '" +:+ status_value (status x) +:+ "'")
  else
    let x := Share (sh_id x) (sh_namespace_id x) (sh_user_id x) (granted_by_user_id x) (permissions x) DECLINED
               (accepted_at x) (revoked_at x) (sh_created_at x) in
    put_share x;; mret x.

Definition revoke (now : Z) (share_id owner_user_id : string) : M share :=
  x ← _get_share share_id;
  ns ← select namespaces (fun n => String.eqb (n_id n) (sh_namespace_id x));
  match ns with
  | None => not_found "Namespace not found"
  | Some ns =>
      acc ← select accounts (fun a => String.eqb (a_id a) (n_account_id ns));
      if negb (match acc with Some a => String.eqb (a_user_id a) owner_user_id | None => false end)
      then forbidden "Only the namespace owner can revoke shares"
      else
        let x := Share (sh_id x) (sh_namespace_id x) (sh_user_id x) (granted_by_user_id x) (permissions x) REVOKED
                   (accepted_at x) (Some now) (sh_created_at x) in
        put_share x;; mret x
  end.

Definition latest_first (a b : share) : bool := sh_created_at b <=? sh_created_at a.

Definition list_for_namespace (namespace_id : string) : M (list share) :=
  t ← getS; mret (order_by latest_first (List.filter (fun x => String.eqb (sh_namespace_id x) namespace_id) (shares t))).
Definition list_with_status (st : ShareStatus) (user_id : string) : M (list share) :=
  t ← getS;
  mret (order_by latest_first
          (List.filter (fun x => String.eqb (sh_user_id x) user_id && bool_decide (status x = st)) (shares t))).
Definition list_invitations : string -> M (list share) := list_with_status PENDING.
Definition list_shared_with_me : string -> M (list share) := list_with_status ACCEPTED.

Example date_demo : date_text 1767225600 = "2026-01-01" /\ date_text 951782400 = "2000-02-29" /\ date_text 86399 = "1970-01-01".
Proof. by vm_compute. Qed.

(** ** Queries *)

Lemma select_cases {A} (rows : tables -> list A) p t :
  (exists a, select rows p t = (Ok (Some a), t) /\ a ∈ rows t /\ p a = true /\ List.filter p (rows t) = [a]) \/
  (select rows p t = (Ok None, t) /\ List.filter p (rows t) = []) \/
  select rows p t = (Err MultipleResultsFound, t).
Proof.
  unfold select. destruct (List.filter p (rows t)) as [|a [|b l]] eqn:E; [by right; left| |by right; right].
  left. exists a. split; [done|]. assert (In a (List.filter p (rows t))) as [Ha Hp]%filter_In by (rewrite E; by left).
  split; [by apply list_elem_of_In|done].
Qed.

(** One row at most when the rows that pass have the same key. *)
Lemma filter_unique {A B} (key : A -> B) p (l : list A) a :
  NoDup (map key l) -> a ∈ l -> p a = true -> (forall b, b ∈ l -> p b = true -> key b = key a) ->
  List.filter p l = [a].
Proof.
  intros Hnd Ha Hp Hk. induction l as [|x l IH]; [by apply not_elem_of_nil in Ha|]. cbn in Hnd.
  apply NoDup_cons in Hnd as [Hx Hnd]. cbn [List.filter].
  assert (forall y, y ∈ l -> p y = true -> key y = key x -> False) as Hno.
  { intros y Hy _ Hyx. apply Hx. rewrite <-Hyx. apply list_elem_of_In, in_map. by apply list_elem_of_In. }
  apply elem_of_cons in Ha as [->|Ha].
  - rewrite Hp. f_equal.
    destruct (List.filter p l) as [|y l'] eqn:E; [done|]. exfalso.
    assert (In y (List.filter p l)) as [Hy Hpy]%filter_In by (rewrite E; by left).
    apply list_elem_of_In in Hy. apply (Hno y Hy Hpy). apply Hk; [by right|done].
  - destruct (p x) eqn:Ex.
    + exfalso. apply (Hno a Ha Hp). symmetry. apply Hk; [by left|done].
    + apply IH; [done|done|]. intros b Hb. apply Hk. by right.
Qed.

Lemma select_unique {A B} (key : A -> B) (rows : tables -> list A) p t a :
  NoDup (map key (rows t)) -> a ∈ rows t -> p a = true -> (forall b, b ∈ rows t -> p b = true -> key b = key a) ->
  select rows p t = (Ok (Some a), t).
Proof. intros. unfold select. by rewrite (filter_unique key p (rows t) a). Qed.

(** A query for one key finds no second row. *)
Lemma select_not_multiple {A B} (key : A -> B) (rows : tables -> list A) p t k :
  NoDup (map key (rows t)) -> (forall b, p b = true -> key b = k) -> select rows p t <> (Err MultipleResultsFound, t).
Proof.
  intros Hnd Hk Hs. destruct (List.filter p (rows t)) as [|a l] eqn:E.
  - unfold select in Hs. by rewrite E in Hs.
  - assert (In a (List.filter p (rows t))) as [Ha Hp]%filter_In by (rewrite E; by left).
    rewrite (select_unique key rows p t a) in Hs; [done|done|by apply list_elem_of_In|done|].
    intros b _ Hb. by rewrite (Hk b), (Hk a).
Qed.

Lemma select_none {A} (rows : tables -> list A) p t :
  (forall a, a ∈ rows t -> p a = false) -> select rows p t = (Ok None, t).
Proof.
  intros Hp. unfold select. destruct (List.filter p (rows t)) as [|a l] eqn:E; [done|].
  assert (In a (List.filter p (rows t))) as [Ha Hpa]%filter_In by (rewrite E; by left).
  rewrite Hp in Hpa; [done|]. by apply list_elem_of_In.
Qed.

(** Case analysis on every query of the goal, then on the tests. *)
Ltac run_queries :=
  repeat match goal with
  | |- context [select ?rows ?p ?t] =>
      destruct (select_cases rows p t) as [(? & -> & ? & ? & ?)|[[-> ?]| ->]]
  end.

(** ** Who owns a namespace *)

Definition owner_of (t : tables) (namespace_id : string) : option string :=
  n ← List.find (fun n => String.eqb (n_id n) namespace_id) (namespaces t);
  a ← List.find (fun a => String.eqb (a_id a) (n_account_id n)) (accounts t);
  Some (a_user_id a).

(** The accepted shares, as the queries of access see them. *)
Definition access (t : tables) (namespace_id user_id permission : string) : bool :=
  existsb (fun x => String.eqb (sh_namespace_id x) namespace_id && String.eqb (sh_user_id x) user_id
                    && bool_decide (status x = ACCEPTED) && str_in permission (permissions x)) (shares t).

Lemma find_unique {A} (key : A -> string) (l : list A) a :
  NoDup (map key l) -> a ∈ l -> List.find (fun x => String.eqb (key x) (key a)) l = Some a.
Proof.
  intros Hnd Ha. induction l as [|x l IH]; [by apply not_elem_of_nil in Ha|]. cbn in *.
  apply NoDup_cons in Hnd as [Hx Hnd]. destruct (String.eqb_spec (key x) (key a)) as [E|E].
  - apply elem_of_cons in Ha as [->|Ha]; [done|]. exfalso. apply Hx. rewrite E.
    apply list_elem_of_In, in_map. by apply list_elem_of_In.
  - apply elem_of_cons in Ha as [->|Ha]; [done|]. by apply IH.
Qed.

(** ** The sharing life cycle as a step relation *)

(** A row replaced by one with the same identifier. *)
Definition replaced (x x' : share) (l l' : list share) : Prop :=
  x ∈ l /\ sh_id x' = sh_id x /\ sh_namespace_id x' = sh_namespace_id x /\ sh_user_id x' = sh_user_id x /\
  l' = map (fun y => if String.eqb (sh_id y) (sh_id x') then x' else y) l.

(** The changes of state. *)
Inductive op :=
| Create (new_id account_id name : string) (description : option string) (allowlist : option (list string))
| Update (now : Z) (namespace_id account_id : string) (description : option string) (allowlist : option (list string))
| Delete (now : Z) (namespace_id account_id : string)
| ServiceCreate (new_id namespace_id name : string) (description : option string)
| ServiceUpdate (service_id : string) (description : option string)
| ServiceDelete (service_id : string)
| Invite (now : Z) (new_id namespace_id email : string) (perms : list string) (granter : string)
| Accept (now : Z) (share_id user_id : string)
| Decline (share_id user_id : string)
| Revoke (now : Z) (share_id owner_user_id : string).

Section steps.
Context (set_iter : list string -> list string).

Definition run_op (o : op) (t : tables) : tables :=
  match o with
  | Create i a n d l => (create i a n d l t).2
  | Update now n a d l => (update now n a d l t).2
  | Delete now n a => (delete now n a t).2
  | ServiceCreate i n nm d => (service_create i n nm d t).2
  | ServiceUpdate i d => (service_update i d t).2
  | ServiceDelete i => (service_delete i t).2
  | Invite now i n e p g => (create_invite set_iter now i n e p g t).2
  | Accept now i u => (accept now i u t).2
  | Decline i u => (decline i u t).2
  | Revoke now i o => (revoke now i o t).2
  end.

(** What an operation may do to the shares. *)
Inductive share_step (t : tables) : op -> list share -> Prop :=
| step_same o : share_step t o (shares t)
| step_invite now i n e perms g x :
    owner_of t n = Some g -> sh_namespace_id x = n -> sh_user_id x <> g -> granted_by_user_id x = Some g ->
    permissions x = perms -> perms <> [] -> Forall (fun p => p ∈ VALID_PERMISSIONS) perms ->
    status x = PENDING -> accepted_at x = None -> revoked_at x = None -> sh_id x = i ->
    (forall y, y ∈ shares t -> (sh_namespace_id y, sh_user_id y) <> (n, sh_user_id x)) ->
    share_step t (Invite now i n e perms g) (shares t ++ [x])
| step_reinvite now i n e perms g x x' l' :
    owner_of t n = Some g -> sh_namespace_id x = n -> sh_user_id x <> g -> granted_by_user_id x' = Some g ->
    permissions x' = perms -> perms <> [] -> Forall (fun p => p ∈ VALID_PERMISSIONS) perms ->
    status x = DECLINED \/ status x = REVOKED ->
    status x' = PENDING -> accepted_at x' = None -> revoked_at x' = None ->
    replaced x x' (shares t) l' -> share_step t (Invite now i n e perms g) l'
| step_accept now x x' l' :
    status x = PENDING -> status x' = ACCEPTED -> accepted_at x' = Some now -> revoked_at x' = revoked_at x ->
    permissions x' = permissions x -> granted_by_user_id x' = granted_by_user_id x ->
    replaced x x' (shares t) l' -> share_step t (Accept now (sh_id x) (sh_user_id x)) l'
| step_decline x x' l' :
    status x = PENDING -> status x' = DECLINED -> accepted_at x' = accepted_at x -> revoked_at x' = revoked_at x ->
    permissions x' = permissions x -> granted_by_user_id x' = granted_by_user_id x ->
    replaced x x' (shares t) l' -> share_step t (Decline (sh_id x) (sh_user_id x)) l'
| step_revoke now x x' l' g :
    owner_of t (sh_namespace_id x) = Some g ->
    status x' = REVOKED -> accepted_at x' = accepted_at x -> revoked_at x' = Some now ->
    permissions x' = permissions x -> granted_by_user_id x' = granted_by_user_id x ->
    replaced x x' (shares t) l' -> share_step t (Revoke now (sh_id x) g) l'.

Lemma filter_find {A} (p : A -> bool) l a : List.filter p l = [a] -> List.find p l = Some a.
Proof. induction l as [|x l IH]; cbn; [done|]. destruct (p x); [by intros [= -> _]|done]. Qed.

Lemma filter_nil {A} (p : A -> bool) l a : List.filter p l = [] -> a ∈ l -> p a = false.
Proof.
  intros Hf Ha. apply not_true_iff_false. intros Hp.
  assert (In a (List.filter p l)) as Hin by (apply filter_In; split; [by apply list_elem_of_In|done]).
  by rewrite Hf in Hin.
Qed.

(** The owner as the queries of an operation find them. *)
Lemma owner_found t n_row a_row namespace_id :
  List.filter (fun n => String.eqb (n_id n) namespace_id) (namespaces t) = [n_row] ->
  List.filter (fun a => String.eqb (a_id a) (n_account_id n_row)) (accounts t) = [a_row] ->
  owner_of t namespace_id = Some (a_user_id a_row).
Proof.
  intros Hn%filter_find Ha%filter_find. unfold owner_of. rewrite Hn. cbn. by rewrite Ha.
Qed.

Ltac same := match goal with |- share_step ?t ?o _ => change (share_step t o (shares t)); apply step_same end.
Ltac step_run :=
  unfold mbind, stm_bind; run_queries; try same; unfold not_found, forbidden, invalid, conflict, raise;
  cbn [mret stm_ret].

Lemma put_share_shares x t : shares (put_share x t).2 = map (fun y => if String.eqb (sh_id y) (sh_id x) then x else y) (shares t).
Proof. reflexivity. Qed.

Lemma invite_step now i n e perms g t : share_step t (Invite now i n e perms g) (shares (run_op (Invite now i n e perms g) t)).
Proof.
  cbn [run_op]. unfold create_invite. destruct (List.filter _ perms) as [|bad ?] eqn:Ep; [|same].
  destruct perms as [|p perms]; [same|]. unfold mbind, stm_bind.
  destruct (select_cases namespaces (fun x => String.eqb (n_id x) n) t) as [(ns & -> & _ & _ & Hns)|[[-> _]| ->]]; try same.
  destruct (select_cases users (fun u => String.eqb (u_id u) g) t) as [(owner & -> & _)|[[-> _]| ->]]; try same.
  destruct (select_cases accounts (fun a => String.eqb (a_id a) (n_account_id ns)) t) as [(a & -> & _ & _ & Ha)|[[-> _]| ->]];
    try same. destruct (String.eqb_spec (a_user_id a) g) as [<-|]; [|same]. cbn [negb].
  pose proof (owner_found t ns a n Hns Ha) as Ho.
  destruct (select_cases users (fun u => String.eqb (u_email u) (str_lower e)) t) as [(u & -> & _)|[[-> _]| ->]]; try same.
  destruct (String.eqb_spec (u_id u) (a_user_id a)) as [|Hne]; [same|].
  assert (Forall (fun q => q ∈ VALID_PERMISSIONS) (p :: perms)) as Hp.
  { apply Forall_forall. intros q Hq. pose proof (filter_nil _ _ q Ep Hq) as Hb. by apply negb_false_iff, str_in_spec in Hb. }
  destruct (select_cases shares (fun x => String.eqb (sh_namespace_id x) n && String.eqb (sh_user_id x) (u_id u)) t)
    as [(x & -> & Hx & Hpx & _)|[[-> Hf]| ->]]; try same.
  - apply andb_true_iff in Hpx as [<-%String.eqb_eq Hu%String.eqb_eq].
    destruct (bool_decide (status x = PENDING) || bool_decide (status x = ACCEPTED)) eqn:Es; [same|].
    apply orb_false_iff in Es as [Hs1%bool_decide_eq_false Hs2%bool_decide_eq_false].
    assert (status x = DECLINED \/ status x = REVOKED) as Hs by (destruct (status x); [done|done|by left|by right]).
    eapply step_reinvite with (x := x) (x' := Share (sh_id x) (sh_namespace_id x) (sh_user_id x) (Some (a_user_id a))
      (p :: perms) PENDING None None (sh_created_at x)); first [done|congruence|by repeat split].
  - eapply step_invite; try done. intros y Hy [= <- E]. pose proof (filter_nil _ _ y Hf Hy) as Hb.
    cbn in Hb, E. by rewrite E, !String.eqb_refl in Hb.
Qed.

(** Every operation is one of these steps. *)
Lemma run_op_step o t : share_step t o (shares (run_op o t)).
Proof.
  destruct o; try apply invite_step; cbn [run_op].
  - unfold create, insert_namespace. destruct (str_in _ _); [same|]. step_run.
    + destruct (deleted_at _); same.
    + unfold lift_res. destruct (validate_name _); [|same]. cbn [getS]. destruct (negb _ || _); same.
  - unfold update, get_by_id, check_owner. step_run. destruct (String.eqb _ account_id); [|same].
    destruct allowlist; [|same]. cbn [mret stm_ret put_namespace set_namespaces modS]. destruct (negb _); same.
  - unfold delete, get_by_id, check_owner. step_run. destruct (String.eqb _ account_id); same.
  - unfold service_create, insert_service. step_run. unfold lift_res. destruct (validate_item_name _); [|same].
    cbn [getS]. destruct (_ || _); same.
  - unfold service_update, service_get_by_id. step_run.
  - unfold service_delete, service_get_by_id. step_run.
  - unfold accept, _get_share. step_run. match goal with x : share |- _ => rename x into y end.
    destruct (String.eqb_spec (sh_user_id y) user_id) as [<-|]; [|same]. cbn [negb].
    destruct (bool_decide_reflect (status y = PENDING)); [|same]. cbn [negb].
    match goal with Hid : String.eqb (sh_id y) _ = true |- _ => apply String.eqb_eq in Hid as <- end.
    eapply step_accept with (x := y) (x' := Share (sh_id y) (sh_namespace_id y) (sh_user_id y) (granted_by_user_id y)
      (permissions y) ACCEPTED (Some now) (revoked_at y) (sh_created_at y)); first [done|by repeat split].
  - unfold decline, _get_share. step_run. match goal with x : share |- _ => rename x into y end.
    destruct (String.eqb_spec (sh_user_id y) user_id) as [<-|]; [|same]. cbn [negb].
    destruct (bool_decide_reflect (status y = PENDING)); [|same]. cbn [negb].
    match goal with Hid : String.eqb (sh_id y) _ = true |- _ => apply String.eqb_eq in Hid as <- end.
    eapply step_decline with (x := y) (x' := Share (sh_id y) (sh_namespace_id y) (sh_user_id y) (granted_by_user_id y)
      (permissions y) DECLINED (accepted_at y) (revoked_at y) (sh_created_at y)); first [done|by repeat split].
  - unfold revoke, _get_share, mbind, stm_bind, not_found, forbidden, raise.
    destruct (select_cases shares (fun x => String.eqb (sh_id x) share_id) t) as [(y & -> & Hy & Hid & _)|[[-> _]| ->]];
      try same. apply String.eqb_eq in Hid as <-. cbn [mret stm_ret].
    destruct (select_cases namespaces (fun x => String.eqb (n_id x) (sh_namespace_id y)) t) as [(ns & -> & _ & _ & Hns)|[[-> _]| ->]];
      try same.
    destruct (select_cases accounts (fun a => String.eqb (a_id a) (n_account_id ns)) t) as [(a & -> & _ & _ & Ha)|[[-> _]| ->]];
      try same. destruct (String.eqb_spec (a_user_id a) owner_user_id) as [<-|]; [|same]. cbn [negb].
    eapply step_revoke with (x := y) (x' := Share (sh_id y) (sh_namespace_id y) (sh_user_id y) (granted_by_user_id y)
      (permissions y) REVOKED (accepted_at y) (Some now) (sh_created_at y)); first [done|by eapply owner_found|by repeat split].
Qed.

(** ** What an operation does to the namespaces *)

(** A row as an operation may leave it: the allowlist counter never falls, and
    from five changes on the allowlist stays as it is. *)
Definition kept (n n' : namespace) : Prop :=
  n_id n' = n_id n /\ n_account_id n' = n_account_id n /\ n_name n' = n_name n /\
  allowlist_changes_today n <= allowlist_changes_today n' /\
  (5 <= allowlist_changes_today n -> network_allowlist n' = network_allowlist n).

#[local] Instance kept_preorder : PreOrder kept.
Proof.
  split; [by intros n; repeat split; lia|]. intros a b c (? & ? & ? & ? & Hf) (? & ? & ? & ? & Hg).
  repeat split; try congruence; [lia|]. intros Hge. rewrite Hg by lia. by apply Hf.
Qed.

Lemma put_kept x x' l :
  NoDup (map n_id l) -> x ∈ l -> kept x x' ->
  Forall2 kept l (map (fun y => if String.eqb (n_id y) (n_id x') then x' else y) l).
Proof.
  intros Hnd Hx Hk. pose proof Hk as (Hid & _). apply Forall2_fmap_r, Forall_Forall2_diag, Forall_forall.
  intros y Hy. unfold compose. destruct (String.eqb_spec (n_id y) (n_id x')) as [E|]; [|reflexivity].
  rewrite Hid in E. by rewrite (NoDup_map_inj n_id l y x) by done.
Qed.

Lemma kept_ids l l' : Forall2 kept l l' -> map n_id l' = map n_id l /\ map n_name l' = map n_name l.
Proof. induction 1 as [|n n' l l' (Hi & _ & Hn & _) _ [IH1 IH2]]; cbn; [done|]. by rewrite Hi, Hn, IH1, IH2. Qed.

(** The rows of the state, and new ones at the end. *)
Definition ns_step (o : op) (t t' : tables) : Prop :=
  users t' = users t /\ accounts t' = accounts t /\
  exists l new, namespaces t' = l ++ new /\ Forall2 kept (namespaces t) l /\
    (new = [] \/ exists a nm d al, o = Create (n_id (default (Namespace "" "" "" None None None 0 None) (head new))) a nm d al /\
       exists n, new = [n] /\ forall m, m ∈ namespaces t -> n_name m <> n_name n).

Lemma ns_same o t t' :
  users t' = users t -> accounts t' = accounts t -> namespaces t' = namespaces t -> ns_step o t t'.
Proof.
  intros Hu Ha Hn. split; [done|]. split; [done|]. exists (namespaces t), []. rewrite app_nil_r. split; [done|].
  split; [|by left]. by apply Forall_Forall2_diag, Forall_forall.
Qed.

Lemma ns_put o t t' x x' :
  NoDup (map n_id (namespaces t)) -> x ∈ namespaces t -> kept x x' -> users t' = users t -> accounts t' = accounts t ->
  namespaces t' = map (fun y => if String.eqb (n_id y) (n_id x') then x' else y) (namespaces t) -> ns_step o t t'.
Proof.
  intros Hnd Hx Hk Hu Ha Hn. split; [done|]. split; [done|]. do 2 eexists. rewrite app_nil_r. split; [exact Hn|].
  split; [by eapply put_kept|by left].
Qed.

Ltac ns_same := apply ns_same; reflexivity.
Ltac ns_run := unfold mbind, stm_bind; run_queries; try ns_same; unfold not_found, forbidden, invalid, conflict, raise;
  cbn [mret stm_ret].

(** An operation that leaves the namespaces alone. *)
Ltac ns_untouched :=
  unfold mbind, stm_bind, not_found, forbidden, invalid, conflict, raise;
  repeat first
    [ ns_same
    | match goal with |- context [select ?rows ?p ?t] =>
        destruct (select_cases rows p t) as [(? & -> & _)|[[-> _]| ->]]; cbn [mret stm_ret] end
    | match goal with |- context [if ?b then _ else _] => destruct b end ].

Lemma update_ns now i a d al t :
  NoDup (map n_id (namespaces t)) -> ns_step (Update now i a d al) t (run_op (Update now i a d al) t).
Proof.
  intros Hnd. cbn [run_op]. unfold update, get_by_id, check_owner. ns_run. match goal with x : namespace |- _ => rename x into n end.
  destruct (String.eqb (n_account_id n) a); [|ns_same]. cbn [mret stm_ret].
  match goal with |- context [put_namespace ?x] => set (n1 := x) end.
  assert (kept n n1) as Hk1 by (subst n1; destruct d; [repeat split; cbn; lia|reflexivity]).
  assert (allowlist_changes_today n1 = allowlist_changes_today n /\ network_allowlist n1 = network_allowlist n) as [Hc Hn]
    by (subst n1; by destruct d). clearbody n1.
  unfold put_namespace, set_namespaces, modS. destruct al as [al|]; [|by eapply ns_put].
  unfold can_update_allowlist. destruct (Z.ltb_spec (allowlist_changes_today n1) 5); cbn [negb]; [|by eapply ns_put].
  set (n2 := Namespace _ _ _ _ _ _ _ _). assert (kept n n2) as Hk2.
  { destruct Hk1 as (? & ? & ? & ? & ?). subst n2. repeat split; cbn; try done; lia. }
  assert (n_id n2 = n_id n1) as Hid by done. clearbody n2. eapply ns_put; try done. cbn. rewrite map_map. apply map_ext.
  intros y. rewrite Hid. destruct (String.eqb (n_id y) (n_id n1)) eqn:E; [by rewrite String.eqb_refl|by rewrite E].
Qed.

Lemma create_ns i a nm d al t : ns_step (Create i a nm d al) t (run_op (Create i a nm d al) t).
Proof.
  cbn [run_op]. unfold create, insert_namespace. destruct (str_in _ _); [ns_same|]. ns_run; [destruct (deleted_at _); ns_same|].
  unfold lift_res. destruct (validate_name _) as [v|]; [|ns_same]. cbn [getS].
  destruct (negb _ || existsb _ _) eqn:E; [ns_same|]. apply orb_false_iff in E as [_ E]. cbn [n_name] in E.
  split; [done|]. split; [done|]. do 2 eexists. split; [reflexivity|]. split; [by apply Forall_Forall2_diag, Forall_forall|].
  right. exists a, nm, d, al. split; [done|]. eexists. split; [done|]. intros m Hm Heq. cbn in Heq.
  apply not_true_iff_false in E. apply E, existsb_elem. exists m. split; [done|]. by apply String.eqb_eq.
Qed.

Lemma run_op_ns o t : NoDup (map n_id (namespaces t)) -> ns_step o t (run_op o t).
Proof.
  intros Hnd. destruct o; try (by apply update_ns); try apply create_ns; cbn [run_op].
  - unfold delete, get_by_id, check_owner. ns_run. match goal with x : namespace |- _ => rename x into n end.
    destruct (String.eqb (n_account_id n) account_id); [|ns_same].
    eapply ns_put with (x := n); [done|done| |done|done|reflexivity]. repeat split; cbn; lia.
  - unfold service_create, insert_service, lift_res, getS, set_services, modS. ns_run.
    destruct (validate_item_name _); [|ns_same]. destruct (_ || _); ns_same.
  - unfold service_update, service_get_by_id. ns_untouched.
  - unfold service_delete, service_get_by_id. ns_untouched.
  - unfold create_invite. destruct (List.filter _ perms); [|ns_same]. destruct perms; ns_untouched.
  - unfold accept, _get_share. ns_untouched.
  - unfold decline, _get_share. ns_untouched.
  - unfold revoke, _get_share. ns_untouched.
Qed.

(** ** The invariant *)

(** The time stamps that go with a status. *)
Definition times_ok (x : share) : Prop :=
  match status x with
  | PENDING | DECLINED => accepted_at x = None /\ revoked_at x = None
  | ACCEPTED => is_Some (accepted_at x) /\ revoked_at x = None
  | REVOKED => is_Some (revoked_at x)
  end.

(** A share is granted by the owner, to someone else, with valid permissions. *)
Definition share_ok (t : tables) (x : share) : Prop :=
  (exists g, owner_of t (sh_namespace_id x) = Some g /\ granted_by_user_id x = Some g /\ sh_user_id x <> g) /\
  permissions x <> [] /\ Forall (fun p => p ∈ VALID_PERMISSIONS) (permissions x) /\ times_ok x.

Definition share_pair (x : share) : string * string := (sh_namespace_id x, sh_user_id x).

(** Identifiers, names and (namespace, user) pairs are unique, and the shares
    are as they should be. *)
Record wf (t : tables) : Prop := {
  wf_ids : NoDup (map n_id (namespaces t));
  wf_names : NoDup (map n_name (namespaces t));
  wf_share_ids : NoDup (map sh_id (shares t));
  wf_share_pairs : NoDup (map share_pair (shares t));
  wf_shares : Forall (share_ok t) (shares t)
}.

(** Fresh identifiers, as [uuid4] gives them. *)
Definition op_fresh (o : op) (t : tables) : Prop :=
  match o with
  | Create i _ _ _ _ => i ∉ map n_id (namespaces t)
  | Invite _ i _ _ _ _ => i ∉ map sh_id (shares t)
  | _ => True
  end.

(** The states a sequence of operations leads to. *)
Inductive reach (t : tables) : tables -> Prop :=
| reach_refl : reach t t
| reach_step o t' : reach t t' -> op_fresh o t' -> reach t (run_op o t').

Lemma find_kept l l' new i n :
  Forall2 kept l l' -> List.find (fun n => String.eqb (n_id n) i) l = Some n ->
  exists n', List.find (fun n => String.eqb (n_id n) i) (l' ++ new) = Some n' /\ kept n n'.
Proof.
  induction 1 as [|m m' l l' Hk _ IH]; cbn; [done|]. pose proof Hk as (-> & _).
  destruct (String.eqb (n_id m) i); [intros [= <-]; by exists m'|done].
Qed.

Lemma owner_stable o t i g :
  NoDup (map n_id (namespaces t)) -> owner_of t i = Some g -> owner_of (run_op o t) i = Some g.
Proof.
  intros Hnd. destruct (run_op_ns o t Hnd) as (_ & Ha & l & new & El & Hk & _). unfold owner_of. rewrite El, Ha.
  destruct (List.find _ (namespaces t)) as [n|] eqn:En; [|done]. cbn [mbind option_bind].
  destruct (find_kept _ _ new _ _ Hk En) as (n' & -> & (_ & Hacc & _)). cbn. by rewrite Hacc.
Qed.

(** Replacing a row keeps what depends on its identifier and pair. *)
Lemma replaced_keys x x' l l' :
  NoDup (map sh_id l) -> replaced x x' l l' -> map sh_id l' = map sh_id l /\ map share_pair l' = map share_pair l.
Proof.
  intros Hnd (Hx & Hid & Hns & Hu & ->). rewrite !map_map. split; apply map_ext_in; intros y Hy%list_elem_of_In;
    (destruct (String.eqb_spec (sh_id y) (sh_id x')) as [E|]; [|done]).
  - done.
  - rewrite Hid in E. unfold share_pair. rewrite (NoDup_map_inj sh_id l y x) by done. by rewrite Hns, Hu.
Qed.

Lemma replaced_elem x x' l l' y : replaced x x' l l' -> y ∈ l' -> y = x' \/ y ∈ l /\ sh_id y <> sh_id x'.
Proof.
  intros (_ & _ & _ & _ & ->) Hy. apply list_elem_of_fmap in Hy as (z & -> & Hz).
  destruct (String.eqb_spec (sh_id z) (sh_id x')); [by left|by right].
Qed.

Lemma share_ok_stable o t x :
  NoDup (map n_id (namespaces t)) -> share_ok t x -> share_ok (run_op o t) x.
Proof. intros Hnd ((g & Ho & Hg) & Hr). split; [|done]. exists g. split; [by apply owner_stable|done]. Qed.

(** A replaced row that still satisfies the invariant. *)
Lemma shares_replaced t x x' l' :
  NoDup (map sh_id (shares t)) -> NoDup (map share_pair (shares t)) -> Forall (share_ok t) (shares t) ->
  replaced x x' (shares t) l' -> share_ok t x' ->
  NoDup (map sh_id l') /\ NoDup (map share_pair l') /\ Forall (share_ok t) l'.
Proof.
  intros Hi Hp Hs Hr Hx'. destruct (replaced_keys _ _ _ _ Hi Hr) as [-> ->]. split; [done|]. split; [done|].
  apply Forall_forall. intros y [->|[Hy _]]%(replaced_elem _ _ _ _ y Hr); [done|]. by eapply Forall_forall in Hs.
Qed.

Lemma step_shares_ok t o l' :
  wf t -> op_fresh o t -> share_step t o l' ->
  NoDup (map sh_id l') /\ NoDup (map share_pair l') /\ Forall (share_ok t) l'.
Proof.
  intros [_ _ Hi Hp Hs] Hf Hst.
  assert (forall x x', x ∈ shares t -> status x = PENDING -> sh_namespace_id x' = sh_namespace_id x ->
    sh_user_id x' = sh_user_id x -> permissions x' = permissions x -> granted_by_user_id x' = granted_by_user_id x ->
    times_ok x' -> share_ok t x') as Hmod.
  { intros x x' Hx _ Hn Hu Hpm Hg Ht. apply (proj1 (Forall_forall _ _) Hs) in Hx as ((g & ?) & ? & ? & _).
    unfold share_ok. rewrite Hn, Hu, Hpm, Hg. split; [by exists g|done]. }
  destruct Hst as [o|now i n e perms g x Ho Hn Hu Hg Hpm Hne Hv Hst Ha Hr Hid Hnew
    |now i n e perms g x x' l' Ho Hn Hu Hg Hpm Hne Hv _ Hst Ha Hr Hrep
    |now x x' l' Hs1 Hs2 Ha Hr Hpm Hg Hrep|x x' l' Hs1 Hs2 Ha Hr Hpm Hg Hrep|now x x' l' g Ho Hs2 Ha Hr Hpm Hg Hrep].
  - done.
  - rewrite !map_app. cbn. split; [apply NoDup_snoc; [done|by rewrite Hid]|]. split.
    + apply NoDup_snoc; [done|]. intros (y & Hy & Hin)%list_elem_of_fmap. apply (Hnew y Hin). unfold share_pair in Hy. congruence.
    + apply Forall_app. split; [done|]. constructor; [|done]. unfold share_ok, times_ok.
      rewrite Hn, Hpm, Hst. split; [by exists g|done].
  - eapply shares_replaced; try done. pose proof Hrep as (_ & _ & En & Eu & _). unfold share_ok, times_ok.
    rewrite En, Eu, Hn, Hpm, Hst. split; [by exists g|done].
  - eapply shares_replaced; try done. pose proof Hrep as (Hx & _ & En & Eu & _). apply (Hmod x); try done.
    apply (proj1 (Forall_forall _ _) Hs) in Hx as (_ & _ & _ & Ht). unfold times_ok in *. rewrite Hs1 in Ht.
    rewrite Hs2, Ha, Hr. destruct Ht as [_ ->]. by split; [eexists|].
  - eapply shares_replaced; try done. pose proof Hrep as (Hx & _ & En & Eu & _). apply (Hmod x); try done.
    apply (proj1 (Forall_forall _ _) Hs) in Hx as (_ & _ & _ & Ht). unfold times_ok in *. rewrite Hs1 in Ht.
    by rewrite Hs2, Ha, Hr.
  - eapply shares_replaced; try done. pose proof Hrep as (Hx & _ & En & Eu & _).
    apply (proj1 (Forall_forall _ _) Hs) in Hx as ((g' & ?) & ? & ? & _). unfold share_ok, times_ok.
    rewrite En, Eu, Hpm, Hg, Hs2, Hr. split; [by exists g'|]. split; [done|]. split; [done|by eexists].
Qed.

Lemma run_op_wf o t : wf t -> op_fresh o t -> wf (run_op o t).
Proof.
  intros Hwf Hf. destruct (step_shares_ok t o _ Hwf Hf (run_op_step o t)) as (H1 & H2 & H3).
  pose proof (wf_ids t Hwf) as Hi. pose proof (wf_names t Hwf) as Hn.
  destruct (run_op_ns o t Hi) as (_ & _ & l & new & El & Hk & Hnew). destruct (kept_ids _ _ Hk) as [Ei En].
  split; [| |done|done|].
  - rewrite El, map_app, Ei. destruct Hnew as [->|(a & nm & d & al & -> & n & -> & _)]; [by rewrite app_nil_r|].
    cbn in *. by apply NoDup_snoc.
  - rewrite El, map_app, En. destruct Hnew as [->|(a & nm & d & al & _ & n & -> & Hne)]; [by rewrite app_nil_r|].
    apply NoDup_snoc; [done|]. intros (m & Hm & Hin)%list_elem_of_fmap. by apply (Hne m Hin).
  - eapply Forall_impl; [exact H3|]. intros x. by apply share_ok_stable.
Qed.

Lemma reach_wf t t' : wf t -> reach t t' -> wf t'.
Proof. intros Hwf. induction 1 as [|o t' _ IH Hf]; [done|]. by apply run_op_wf. Qed.

(** Sharing keeps its invariant: whatever operations are run, identifiers,
    names and (namespace, user) pairs stay unique, and every share was granted by
    the owner of the namespace to another user, with read or execute permission
    and the time stamps of its status. *)
Theorem sharing_invariant t t' : wf t -> reach t t' -> wf t'.
Proof. apply reach_wf. Qed.

(** *** Access *)

Lemma accepted_spec x n u :
  String.eqb (sh_namespace_id x) n && String.eqb (sh_user_id x) u && bool_decide (status x = ACCEPTED) = true <->
  share_pair x = (n, u) /\ status x = ACCEPTED.
Proof.
  rewrite !andb_true_iff, !String.eqb_eq, bool_decide_eq_true. unfold share_pair. split.
  - intros [[-> ->] ?]. done.
  - intros [[= -> ->] ?]. done.
Qed.

Lemma access_spec t n u p :
  access t n u p = true <->
  exists x, x ∈ shares t /\ share_pair x = (n, u) /\ status x = ACCEPTED /\ p ∈ permissions x.
Proof.
  unfold access. rewrite existsb_elem. split.
  - intros (x & Hx & [[Hp Hs]%accepted_spec Hin%str_in_spec]%andb_true_iff). by exists x.
  - intros (x & Hx & Hp & Hs & Hin). exists x. split; [done|]. apply andb_true_iff.
    split; [by apply accepted_spec|by apply str_in_spec].
Qed.

(** The share an accepted access rests on is the only one of its pair. *)
Lemma access_unique t x p :
  NoDup (map share_pair (shares t)) -> x ∈ shares t -> status x = ACCEPTED ->
  access t (sh_namespace_id x) (sh_user_id x) p = str_in p (permissions x).
Proof.
  intros Hnd Hx Hs. apply eq_true_iff_eq. rewrite access_spec, str_in_spec. split.
  - intros (y & Hy & Hp & _ & Hin). by rewrite (NoDup_map_inj share_pair (shares t) x y) by done.
  - intros Hin. by exists x.
Qed.

Lemma check_share_access_correct t n u p :
  wf t -> _check_share_access n u p t = (Ok (access t n u p), t).
Proof.
  intros [_ _ _ Hnd _]. unfold _check_share_access, mbind, stm_bind.
  destruct (access t n u p) eqn:E.
  - apply access_spec in E as (x & Hx & Hp & Hs & Hin). rewrite (select_unique share_pair _ _ t x); [|done|done| |].
    + cbn. by rewrite (proj2 (str_in_spec p (permissions x)) Hin).
    + by apply accepted_spec.
    + intros b _ [Hb _]%accepted_spec. congruence.
  - destruct (select_cases shares (fun x => String.eqb (sh_namespace_id x) n && String.eqb (sh_user_id x) u
      && bool_decide (status x = ACCEPTED)) t) as [(x & -> & Hx & Hb & _)|[[-> _]|Hm]]; [|done|].
    + apply accepted_spec in Hb as [[= <- <-] Hs]. rewrite access_unique in E by done. cbn. by rewrite E.
    + exfalso. by apply (select_not_multiple share_pair _ _ t (n, u) Hnd) in Hm; [|intros b [Hb _]%accepted_spec].
Qed.

(** Who may reach a namespace. *)
Definition may_reach (t : tables) (n : namespace) (acc : string) (u p : option string) : Prop :=
  n_account_id n = acc \/
  exists usr perm, u = Some usr /\ p = Some perm /\ perm <> "" /\ access t (n_id n) usr perm = true.

Lemma check_owner_correct t n acc u p :
  wf t -> (check_owner n (Some acc) u p t = (Ok n, t) /\ may_reach t n acc u p) \/
          (check_owner n (Some acc) u p t = (Err (mcp_with ForbiddenError "Access denied to this namespace"), t) /\
           ~ may_reach t n acc u p).
Proof.
  intros Hwf. unfold check_owner, may_reach. destruct (String.eqb_spec (n_account_id n) acc) as [E|Hne]; [left; auto|].
  unfold mbind, stm_bind. destruct u as [u|]; [destruct p as [p|]|].
  - unfold truthy_str. destruct (String.eqb_spec p "") as [->|Hp]; cbn [negb].
    + right. split; [done|]. intros [?|(? & ? & _ & [= <-] & ? & _)]; done.
    + rewrite check_share_access_correct by done. destruct (access t (n_id n) u p) eqn:Ea.
      * left. split; [done|]. right. by exists u, p.
      * right. split; [done|]. intros [?|(? & ? & [= <-] & [= <-] & _ & Hac)]; [done|congruence].
  - right. split; [done|]. intros [?|(? & ? & _ & ? & _)]; done.
  - right. split; [done|]. intros [?|(? & ? & ? & _)]; done.
Qed.

(** [C30]  Tenants are isolated: asked for a namespace by name with an account,
    [get_by_name] returns a row exactly when it is the live one of that name and
    either the account owns it or the user holds an accepted share of it with the
    permission asked for; it never changes the tables. *)
Theorem namespace_access_correct t name acc u p :
  wf t ->
  (forall n, (get_by_name name (Some acc) u p t).1 = Ok n <->
     n ∈ namespaces t /\ n_name n = str_lower name /\ deleted_at n = None /\ may_reach t n acc u p) /\
  (get_by_name name (Some acc) u p t).2 = t.
Proof.
  intros Hwf. pose proof (wf_names t Hwf) as Hnd. unfold get_by_name, mbind, stm_bind.
  destruct (select_cases namespaces (fun n => String.eqb (n_name n) (str_lower name) && is_live n) t)
    as [(m & -> & Hm & Hb & _)|[[-> Hf]|Hs]].
  - apply andb_true_iff in Hb as [Hn%String.eqb_eq Hl]. unfold is_live in Hl.
    assert (forall n, n ∈ namespaces t -> n_name n = str_lower name -> n = m) as Hu.
    { intros n Hin E. apply (NoDup_map_inj n_name (namespaces t)); congruence. }
    destruct (check_owner_correct t m acc u p Hwf) as [[-> Hr]|[-> Hr]]; split; try done; intros n; cbn; split.
    + intros [= <-]. by destruct (deleted_at m).
    + intros (Hin & E & _). by rewrite (Hu n Hin E).
    + done.
    + intros (Hin & E & _ & Hreach). rewrite (Hu n Hin E) in Hreach. done.
  - split; [|done]. intros n. split; [done|]. intros (Hin & E & Hd & _). pose proof (filter_nil _ _ n Hf Hin) as Hb.
    cbn in Hb. unfold is_live in Hb. by rewrite E, String.eqb_refl, Hd in Hb.
  - exfalso. apply (select_not_multiple n_name _ _ t (str_lower name) Hnd) in Hs; [done|].
    intros b Hb. by bool_to_prop.
Qed.

(** How access follows a replaced row. *)
Lemma access_replaced t t' x x' n u p :
  NoDup (map sh_id (shares t)) -> replaced x x' (shares t) (shares t') ->
  access t' n u p = true -> access t n u p = true \/
    (share_pair x = (n, u) /\ status x' = ACCEPTED /\ p ∈ permissions x').
Proof.
  intros _ Hr (y & Hy & Hp & Hs & Hin)%access_spec.
  destruct (replaced_elem _ _ _ _ y Hr Hy) as [->|[Hy' _]].
  - right. destruct Hr as (_ & _ & En & Eu & _). unfold share_pair in *. rewrite <-En, <-Eu. done.
  - left. apply access_spec. by exists y.
Qed.

Lemma access_kept t t' x x' n u p :
  NoDup (map sh_id (shares t)) -> NoDup (map share_pair (shares t)) -> replaced x x' (shares t) (shares t') ->
  access t n u p = true -> access t' n u p = true \/
    (share_pair x = (n, u) /\ status x = ACCEPTED /\ p ∈ permissions x /\ (status x' = ACCEPTED -> p ∉ permissions x')).
Proof.
  intros Hid Hnd (Hx & Ei & En & Eu & El) (y & Hy & Hp & Hs & Hin)%access_spec.
  destruct (decide (sh_id y = sh_id x')) as [E|E].
  - rewrite Ei in E. assert (y = x) as -> by by apply (NoDup_map_inj sh_id (shares t)).
    destruct (decide (status x' = ACCEPTED /\ p ∈ permissions x')) as [[Hs' Hp']|Hno]; [left|right].
    + apply access_spec. exists x'. split; [|unfold share_pair in *; by rewrite En, Eu].
      rewrite El. apply list_elem_of_fmap. exists x. by rewrite Ei, String.eqb_refl.
    + split; [done|]. split; [done|]. split; [done|]. intros ? ?. by apply Hno.
  - left. apply access_spec. exists y. split; [|done]. rewrite El. apply list_elem_of_fmap. exists y. split; [|done].
    destruct (String.eqb_spec (sh_id y) (sh_id x')); done.
Qed.

Lemma share_access_changes_lemma o t n u p :
  wf t ->
  (access t n u p = false -> access (run_op o t) n u p = true ->
     exists now x, o = Accept now (sh_id x) u /\ x ∈ shares t /\ share_pair x = (n, u) /\ status x = PENDING /\ p ∈ permissions x) /\
  (access t n u p = true -> access (run_op o t) n u p = false ->
     exists now x g, o = Revoke now (sh_id x) g /\ owner_of t n = Some g /\ x ∈ shares t /\ share_pair x = (n, u)).
Proof.
  intros [_ _ Hid Hnd _]. pose proof (run_op_step o t) as Hst. set (t' := run_op o t) in *. clearbody t'.
  remember (shares t') as l eqn:Hsh.
  destruct Hst as [o|now i n' e perms g x _ _ _ _ _ _ _ Hs _ _ _ _
    |now i n' e perms g x x' l' _ _ _ _ _ _ _ Hs0 Hs _ _ Hrep
    |now x x' l' Hs1 Hs2 _ _ Hpm _ Hrep|x x' l' Hs1 Hs2 _ _ Hpm _ Hrep|now x x' l' g Ho Hs2 _ _ Hpm _ Hrep];
    try subst l'.
  - assert (access t' n u p = access t n u p) as -> by (unfold access; by rewrite <-Hsh). split; congruence.
  - assert (access t' n u p = access t n u p) as ->; [|split; congruence]. unfold access. rewrite <-Hsh, existsb_app. cbn.
    rewrite Hs. by rewrite andb_false_r, !orb_false_r.
  - split; intros H1 H2.
    + destruct (access_replaced _ _ _ _ n u p Hid Hrep H2) as [?|(_ & ? & _)]; congruence.
    + destruct (access_kept _ _ _ _ n u p Hid Hnd Hrep H1) as [?|(_ & ? & _)]; [congruence|]. destruct Hs0; congruence.
  - split; intros H1 H2.
    + destruct (access_replaced _ _ _ _ n u p Hid Hrep H2) as [?|(Hp & _ & Hin)]; [congruence|].
      exists now, x. pose proof Hp as [= _ <-]. destruct Hrep as [Hx _]. rewrite Hpm in Hin. done.
    + destruct (access_kept _ _ _ _ n u p Hid Hnd Hrep H1) as [?|(_ & ? & _)]; congruence.
  - split; intros H1 H2.
    + destruct (access_replaced _ _ _ _ n u p Hid Hrep H2) as [?|(_ & ? & _)]; congruence.
    + destruct (access_kept _ _ _ _ n u p Hid Hnd Hrep H1) as [?|(_ & ? & _)]; congruence.
  - split; intros H1 H2.
    + destruct (access_replaced _ _ _ _ n u p Hid Hrep H2) as [?|(_ & ? & _)]; congruence.
    + destruct (access_kept _ _ _ _ n u p Hid Hnd Hrep H1) as [?|(Hp & _)]; [congruence|].
      exists now, x, g. pose proof Hp as [= <- _]. destruct Hrep as [Hx _]. done.
Qed.

(** Access needs consent of both sides: in every reachable state, whatever
    operation is run, a user gains a permission on a namespace only by accepting
    himself a pending share of it that grants it, and loses one only when the
    owner of the namespace revokes the share. *)
Theorem share_access_changes t0 t o n u p :
  wf t0 -> reach t0 t ->
  (access t n u p = false -> access (run_op o t) n u p = true ->
     exists now x, o = Accept now (sh_id x) u /\ x ∈ shares t /\ share_pair x = (n, u) /\ status x = PENDING /\ p ∈ permissions x) /\
  (access t n u p = true -> access (run_op o t) n u p = false ->
     exists now x g, o = Revoke now (sh_id x) g /\ owner_of t n = Some g /\ x ∈ shares t /\ share_pair x = (n, u)).
Proof. intros Hwf Hr. by apply share_access_changes_lemma, (reach_wf t0). Qed.

(** *** The allowlist limit *)

Lemma reach_kept t t' n :
  wf t -> reach t t' -> n ∈ namespaces t -> exists n', n' ∈ namespaces t' /\ kept n n'.
Proof.
  intros Hwf Hr Hn. induction Hr as [|o t' Hr IH Hf]; [by exists n|]. destruct IH as (n1 & Hn1 & Hk1).
  destruct (run_op_ns o t' (wf_ids _ (reach_wf _ _ Hwf Hr))) as (_ & _ & l & new & El & Hk & _).
  apply list_elem_of_lookup_1 in Hn1 as (i & Hi). destruct (Forall2_lookup_l _ _ _ _ _ Hk Hi) as (n2 & Hi2 & Hk2).
  exists n2. split; [|by etrans]. rewrite El. apply elem_of_app. left. by eapply list_elem_of_lookup_2.
Qed.

(** The allowlist limit never resets: nothing lowers the counter of
    changes, so once a namespace has had five, its allowlist stays as it is for
    ever, and every later attempt of its owner to change it is refused with
    "max 5 per 24 hours", however many days later. *)
Theorem allowlist_frozen t t' n now d al :
  wf t -> reach t t' -> n ∈ namespaces t -> 5 <= allowlist_changes_today n ->
  exists n', n' ∈ namespaces t' /\ n_id n' = n_id n /\ network_allowlist n' = network_allowlist n /\
    (deleted_at n' = None ->
     (update now (n_id n) (n_account_id n) d (Some al) t').1
     = Err (mcp_with ValidationError "Allowlist update rate limit exceeded (max 5 per 24 hours)")).
Proof.
  intros Hwf Hr Hn Hge. destruct (reach_kept t t' n Hwf Hr Hn) as (n' & Hn' & Hid & Hacc & _ & Hc & Hal).
  exists n'. split; [done|]. split; [done|]. split; [by apply Hal|]. intros Hd.
  unfold update, get_by_id, mbind, stm_bind. rewrite (select_unique n_id _ _ t' n'); [|by apply wf_ids, (reach_wf t)|done| |].
  - unfold check_owner. rewrite Hacc, String.eqb_refl. cbn [mret stm_ret]. unfold put_namespace, set_namespaces, modS.
    unfold can_update_allowlist. destruct d; cbn; (destruct (Z.ltb_spec (allowlist_changes_today n') 5); [lia|done]).
  - unfold is_live. by rewrite Hid, String.eqb_refl, Hd.
  - intros b _ [Hb%String.eqb_eq _]%andb_true_iff. congruence.
Qed.
End steps.

(** ** Concrete runs *)

Definition demo_tables : tables :=
  Tables [User "u1" "owner@x.io" (Some "Ann"); User "u2" "guest@x.io" None] [Account "a1" "u1"; Account "a2" "u2"]
    [Namespace "n1" "a1" "acme" None None None 5 None] [] [Share "s1" "n1" "u2" (Some "u1") ["read"] PENDING None None 1] [].

Lemma demo_tables_wf : wf demo_tables.
Proof.
  split; try (cbn; apply (bool_decide_unpack _); by vm_compute). cbn. constructor; [|done].
  split; [by exists "u1"|]. split; [done|]. split; [by repeat constructor|done].
Qed.

Definition demo_iter (l : list string) : list string := l.

Lemma demo_reach : reach demo_iter demo_tables (run_op demo_iter (Accept 7 "s1" "u2") demo_tables).
Proof. apply reach_step; [apply reach_refl|done]. Qed.

Lemma sharing_invariant_witness : wf (run_op demo_iter (Accept 7 "s1" "u2") demo_tables).
Proof. exact (sharing_invariant demo_iter demo_tables _ demo_tables_wf demo_reach). Defined.

Lemma namespace_access_correct_witness :
  let t := run_op demo_iter (Accept 7 "s1" "u2") demo_tables in
  (get_by_name "ACME" (Some "a2") (Some "u2") (Some "read") demo_tables).1
    = Err (mcp_with ForbiddenError "Access denied to this namespace") /\
  exists n, (get_by_name "ACME" (Some "a2") (Some "u2") (Some "read") t).1 = Ok n /\ n_name n = "acme".
Proof.
  intros t. split; [reflexivity|]. exists (Namespace "n1" "a1" "acme" None None None 5 None). split; [|reflexivity].
  apply (namespace_access_correct t "ACME" "a2" (Some "u2") (Some "read")
    (run_op_wf demo_iter (Accept 7 "s1" "u2") demo_tables demo_tables_wf I)).
  split; [by left|]. split; [reflexivity|]. split; [reflexivity|]. right. by exists "u2", "read".
Defined.

Lemma share_access_changes_witness :
  exists now x, Accept 7 "s1" "u2" = Accept now (sh_id x) "u2" /\ x ∈ shares demo_tables /\ share_pair x = ("n1", "u2") /\
    status x = PENDING /\ "read" ∈ permissions x.
Proof.
  apply (proj1 (share_access_changes demo_iter demo_tables demo_tables (Accept 7 "s1" "u2") "n1" "u2" "read" demo_tables_wf
    (reach_refl demo_iter demo_tables))); reflexivity.
Defined.

Lemma allowlist_frozen_witness :
  (update 99999999 "n1" "a1" None (Some ["10.0.0.1"]) (run_op demo_iter (Accept 7 "s1" "u2") demo_tables)).1
  = Err (mcp_with ValidationError "Allowlist update rate limit exceeded (max 5 per 24 hours)").
Proof.
  destruct (allowlist_frozen demo_iter demo_tables _ (Namespace "n1" "a1" "acme" None None None 5 None) 99999999 None ["10.0.0.1"]
    demo_tables_wf demo_reach) as (n' & Hin & _ & _ & H); [by left|cbn; lia|].
  apply H. apply list_elem_of_singleton in Hin. by rewrite Hin.
Defined.
