(* ===== verification/Functions.v ===== *)
(** * Functions and their versions

    [services/function.py] on the tables of [models/function.py] and
    [models/function_version.py]: functions live in the services of a namespace,
    a function has immutable numbered versions of which one is active, and a
    deleted function keeps its row and its history.  Fresh identifiers and the
    time are arguments.  As in [Namespaces], an operation that raises leaves the
    mutations made before it in the session. *)

From S2P Require Import Prelude Regex Routing Security Namespaces.
From stdpp Require Import gmap strings.

Open Scope Z_scope.

(** ** Tables *)

(** What a version holds besides its number and language. *)
Record spec := Spec {
  backend : string;
  code : option string;
  config : option pyval;
  input_schema : option pyval;
  output_schema : option pyval;
  requirements : option (list string);
  required_env : option (list string);
  optional_env : option (list string);
  created_by : option string
}.

Record version := Version {
  v_id : string;
  v_function_id : string;
  v_version : Z;
  v_language : string;
  v_spec : spec;
  v_created_at : Z
}.

Record function := Function {
  f_id : string;
  f_service_id : string;
  f_name : string;
  f_description : option string;
  f_tags : option (list string);
  output_trust : string;
  active_version : Z;
  call_count : Z;
  locked : bool;
  locked_by : option string;
  locked_at : option Z;
  public_safe : bool;
  f_deleted_at : option Z
}.

(** [calls]: the column [call_count] of the rows of namespaces and services. *)
Record store := Store {
  ns : Namespaces.tables;
  functions : list function;
  versions : list version;
  calls : gmap string Z
}.

Abbreviation M := (stm store exn).

Definition set_functions (g : list function -> list function) : M unit := modS (fun s =>
  Store (ns s) (g (functions s)) (versions s) (calls s)).
Definition set_versions (g : list version -> list version) : M unit := modS (fun s =>
  Store (ns s) (functions s) (g (versions s)) (calls s)).

(** The row replaced where the identifier is its own. *)
Definition replace (f' : function) : list function -> list function :=
  map (fun x => if String.eqb (f_id x) (f_id f') then f' else x).
Definition put_function (f : function) : M unit := set_functions (replace f).

(** [result.scalar_one_or_none()] of the rows with [p]. *)
Definition one_or_none {A} (p : A -> bool) (rows : list A) : res exn (option A) :=
  match List.filter p rows with
  | [] => Ok None
  | [a] => Ok (Some a)
  | _ => Err MultipleResultsFound
  end.

Definition not_found {A} (m : string) : M A := raise (mcp_with NotFoundError m).
Definition conflict {A} (m : string) : M A := raise (mcp_with ConflictError m).
Definition forbidden {A} (m : string) : M A := raise (mcp_with ForbiddenError m).

(** ** Rows *)

Definition ALLOWED_BACKENDS : list string := ["code_sandbox"; "nanobot"; "github_repo"].
Definition ALLOWED_LANGUAGES : list string := ["python"; "typescript"].

(** [FunctionVersion(...)] with its validators. *)
Definition new_version (id function_id : string) (n : Z) (language : string) (sp : spec) (now : Z) : res exn version :=
  if n <? 1 then Err ValueError
  else if negb (str_in (backend sp) ALLOWED_BACKENDS) then Err ValueError
  else if negb (str_in language ALLOWED_LANGUAGES) then Err ValueError
  else Ok (Version id function_id n language sp now).

(** The insertion on flush: the unique number and the width of [created_by]. *)
Definition insert_version (v : version) : M unit :=
  s ← getS;
  if (100 <? str_len (default "" (created_by (v_spec v))))
    || existsb (fun x => String.eqb (v_function_id x) (v_function_id v) && (v_version x =? v_version v)) (versions s)
  then raise DBAPIError else set_versions (fun l => l ++ [v]).

(** The width of [output_trust], on flush. *)
Definition trust_fits (f : function) : M unit :=
  if 10 <? str_len (output_trust f) then raise DBAPIError else mret tt.

(** The insertion of a function on flush: its service, the check constraint and
    the unique name. *)
Definition insert_function (f : function) : M unit :=
  s ← getS;
  if negb (valid_item (f_name f)) || negb (existsb (fun x => String.eqb (s_id x) (f_service_id f)) (services (ns s)))
    || existsb (fun x => String.eqb (f_service_id x) (f_service_id f) && String.eqb (f_name x) (f_name f)) (functions s)
  then raise DBAPIError else trust_fits f;; set_functions (fun l => l ++ [f]).

(** [function.versions], the latest first. *)
Definition versions_of (id : string) (l : list version) : list version :=
  order_by (fun a b => v_version b <=? v_version a) (List.filter (fun v => String.eqb (v_function_id v) id) l).

Definition get_active_version_obj (l : list version) (f : function) : option version :=
  List.find (fun v => v_version v =? active_version f) (versions_of (f_id f) l).

(** [max(v.version for v in ...)], 0 if there is none. *)
Definition max_version (l : list version) : Z := foldr (fun v m => Z.max (v_version v) m) 0 l.

Definition is_live (f : function) : bool := match f_deleted_at f with None => true | Some _ => false end.

Definition with_active (f : function) (n : Z) : function :=
  Function (f_id f) (f_service_id f) (f_name f) (f_description f) (f_tags f) (output_trust f) n (call_count f)
    (locked f) (locked_by f) (locked_at f) (public_safe f) (f_deleted_at f).

(** ** [FunctionService] *)

Definition create (now : Z) (new_id version_id service_id name : string) (sp : spec) (description : option string)
    (tags : option (list string)) (language : string) (safe : bool) (trust : string) : M function :=
  s ← getS;
  existing ← lift_res (one_or_none
    (fun f => String.eqb (f_service_id f) service_id && String.eqb (f_name f) (str_lower name)) (functions s));
  match existing with
  | Some f =>
      if is_live f then conflict ("Function '" +:+ name +:+ "' already exists in this service")
      else
        let f1 := Function (f_id f) (f_service_id f) (f_name f) description tags trust (active_version f) (call_count f)
          false None None (public_safe f) None in
        put_function f1;;
        let next := max_version (versions_of (f_id f) (versions s)) + 1 in
        v ← lift_res (new_version version_id (f_id f) next language sp now);
        put_function (with_active f1 next);;
        trust_fits f1;;
        insert_version v;;
        mret (with_active f1 next)
  | None =>
      nm ← lift_res (validate_item_name (str_lower name));
      let f := Function new_id service_id nm description tags trust 1 0 false None None safe None in
      insert_function f;;
      v ← lift_res (new_version version_id new_id 1 language sp now);
      insert_version v;;
      mret f
  end.

Definition get_by_id (function_id : string) : M function :=
  s ← getS;
  found ← lift_res (one_or_none (fun f => String.eqb (f_id f) function_id && is_live f) (functions s));
  match found with
  | Some f => mret f
  | None => not_found ("Function '" +:+ function_id +:+ "' not found")
  end.

Definition get_by_name (service_id name : string) : M function :=
  s ← getS;
  found ← lift_res (one_or_none
    (fun f => String.eqb (f_service_id f) service_id && String.eqb (f_name f) (str_lower name) && is_live f) (functions s));
  match found with
  | Some f => mret f
  | None => not_found ("Function '" +:+ name +:+ "' not found in service")
  end.

(** [Function.tags.overlap(tags)] *)
Definition tags_overlap (tags : list string) (f : function) : bool :=
  match f_tags f with Some l => existsb (fun t => str_in t tags) l | None => false end.

Definition list_functions (service_id : string) (page page_size : Z) (tags : option (list string)) : M (list function * Z) :=
  s ← getS;
  let rows := List.filter (fun f => String.eqb (f_service_id f) service_id && is_live f) (functions s) in
  let rows := match tags with Some ((_ :: _) as l) => List.filter (tags_overlap l) rows | _ => rows end in
  let offset := (page - 1) * page_size in
  if (offset <? 0) || (page_size <? 0) then raise DBAPIError
  else mret (take (Z.to_nat page_size) (drop (Z.to_nat offset)
               (order_by (fun a b => str_leb (f_name a) (f_name b)) rows)), Z.of_nat (length rows)).

Definition or_else {A} (x : option A) (y : A) : A := match x with Some a => a | None => y end.

Definition update (function_id : string) (description : option string) (tags : option (list string))
    (safe : option bool) (trust : option string) : M function :=
  f ← get_by_id function_id;
  let f' := Function (f_id f) (f_service_id f) (f_name f)
    (match description with Some d => Some d | None => f_description f end)
    (match tags with Some t => Some t | None => f_tags f end)
    (or_else trust (output_trust f)) (active_version f) (call_count f) (locked f) (locked_by f) (locked_at f)
    (or_else safe (public_safe f)) (f_deleted_at f) in
  put_function f';;
  trust_fits f';;
  mret f'.

Definition create_version (now : Z) (version_id function_id : string) (sp : spec) (activate is_admin : bool)
    (language : option string) : M version :=
  f ← get_by_id function_id;
  if locked f && negb is_admin then forbidden ("Function '" +:+ f_name f +:+ "' is locked and cannot be modified")
  else
    s ← getS;
    let vs := versions_of function_id (versions s) in
    lang ← (match vs with
            | v0 :: _ =>
                match language with
                | None => mret (v_language v0)
                | Some l => if String.eqb l (v_language v0) then mret l else raise ValueError
                end
            | [] => mret (or_else language "python")
            end : M string);
    let next := match vs with [] => 1 | _ => max_version vs + 1 end in
    v ← lift_res (new_version version_id function_id next lang sp now);
    (if activate then put_function (with_active f next) else mret tt);;
    insert_version v;;
    mret v.

Definition get_version (function_id : string) (n : Z) : M version :=
  s ← getS;
  found ← lift_res (one_or_none (fun v => String.eqb (v_function_id v) function_id && (v_version v =? n)) (versions s));
  match found with
  | Some v => mret v
  | None => not_found ("Version " +:+ str_of_Z n +:+ " not found for function '" +:+ function_id +:+ "'")
  end.

Definition get_active_version (function_id : string) : M version :=
  f ← get_by_id function_id;
  get_version function_id (active_version f).

(** [validate_active_version] refuses a number below 1. *)
Definition set_active_version (function_id : string) (n : Z) : M function :=
  f ← get_by_id function_id;
  _ ← get_version function_id n;
  if n <? 1 then raise ValueError
  else put_function (with_active f n);; mret (with_active f n).

Definition delete (now : Z) (function_id : string) (is_admin : bool) : M unit :=
  f ← get_by_id function_id;
  if locked f && negb is_admin then forbidden ("Function '" +:+ f_name f +:+ "' is locked and cannot be deleted")
  else put_function (Function (f_id f) (f_service_id f) (f_name f) (f_description f) (f_tags f) (output_trust f)
         (active_version f) (call_count f) (locked f) (locked_by f) (locked_at f) (public_safe f) (Some now)).

Definition lock_row (f : function) (b : bool) (by_user : option string) (at_time : option Z) : function :=
  Function (f_id f) (f_service_id f) (f_name f) (f_description f) (f_tags f) (output_trust f)
    (active_version f) (call_count f) b by_user at_time (public_safe f) (f_deleted_at f).

Definition lock_function (now : Z) (function_id user_id : string) : M function :=
  f ← get_by_id function_id;
  let f' := lock_row f true (Some user_id) (Some now) in
  put_function f';; mret f'.

Definition unlock_function (function_id : string) : M function :=
  f ← get_by_id function_id;
  let f' := lock_row f false None None in
  put_function f';; mret f'.

(** [select(Function).join(NamespaceService)]: the live functions of the
    services with [p]. *)
Definition joined (p : service -> bool) (s : store) : list function :=
  List.filter (fun f => is_live f && existsb (fun x => String.eqb (s_id x) (f_service_id f) && p x) (services (ns s))) (functions s).

Definition list_all_for_namespace (namespace_id : string) : M (list (function * version)) :=
  s ← getS;
  mret (omap (fun f => v ← get_active_version_obj (versions s) f; Some (f, v))
          (joined (fun x => String.eqb (s_namespace_id x) namespace_id) s)).

Definition get_for_execution (namespace_id service_name function_name : string) : M (function * version) :=
  s ← getS;
  found ← lift_res (one_or_none (fun f => String.eqb (f_name f) (str_lower function_name))
    (joined (fun x => String.eqb (s_namespace_id x) namespace_id && String.eqb (s_name x) (str_lower service_name)) s));
  match found with
  | None => not_found ("Function '" +:+ service_name +:+ "." +:+ function_name +:+ "' not found")
  | Some f =>
      match get_active_version_obj (versions s) f with
      | None => not_found ("Function '" +:+ service_name +:+ "." +:+ function_name +:+ "' has no active version")
      | Some v => mret (f, v)
      end
  end.

(** A deleted service takes its functions and their versions with it
    ([cascade="all, delete-orphan"]). *)
Definition delete_service (service_id : string) : M unit := fun s =>
  match service_delete service_id (ns s) with
  | (Err e, t) => (Err e, Store t (functions s) (versions s) (calls s))
  | (Ok _, t) =>
      let kept := List.filter (fun f => negb (String.eqb (f_service_id f) service_id)) (functions s) in
      (Ok tt, Store t kept (List.filter (fun v => existsb (fun f => String.eqb (f_id f) (v_function_id v)) kept) (versions s)) (calls s))
  end.

(** ** Queries *)

Lemma one_or_none_cases {A} (p : A -> bool) (l : list A) :
  (exists a, one_or_none p l = Ok (Some a) /\ a ∈ l /\ p a = true /\ List.filter p l = [a]) \/
  (one_or_none p l = Ok None /\ List.filter p l = []) \/
  one_or_none p l = Err MultipleResultsFound.
Proof.
  unfold one_or_none. destruct (List.filter p l) as [|a [|b l']] eqn:E; [by right; left| |by right; right].
  left. exists a. split; [done|]. assert (In a (List.filter p l)) as [Ha Hp]%filter_In by (rewrite E; by left).
  split; [by apply list_elem_of_In|done].
Qed.

Lemma one_unique {A B} (key : A -> B) p (l : list A) a :
  NoDup (map key l) -> a ∈ l -> p a = true -> (forall b, b ∈ l -> p b = true -> key b = key a) ->
  one_or_none p l = Ok (Some a).
Proof. intros. unfold one_or_none. by rewrite (filter_unique key p l a). Qed.

Lemma elem_of_filter_bool {A} (p : A -> bool) (l : list A) x : x ∈ List.filter p l <-> x ∈ l /\ p x = true.
Proof. by rewrite !list_elem_of_In, filter_In. Qed.

Lemma insert_by_perm {A} (le : A -> A -> bool) x l : insert_by le x l ≡ₚ x :: l.
Proof.
  induction l as [|y l IH]; cbn; [done|]. destruct (le x y); [done|]. rewrite IH. by constructor.
Qed.

Lemma order_by_perm {A} (le : A -> A -> bool) l : order_by le l ≡ₚ l.
Proof. induction l as [|x l IH]; cbn; [done|]. fold (order_by le l). by rewrite insert_by_perm, IH. Qed.

Lemma elem_of_versions id l v : v ∈ versions_of id l <-> v ∈ l /\ v_function_id v = id.
Proof. unfold versions_of. rewrite order_by_perm, elem_of_filter_bool. by rewrite String.eqb_eq. Qed.

(** *** Version numbers *)

Definition numbers (id : string) (l : list version) : list Z :=
  map v_version (List.filter (fun v => String.eqb (v_function_id v) id) l).

Lemma max_version_numbers id l : max_version (versions_of id l) = foldr Z.max 0 (numbers id l).
Proof.
  unfold max_version, numbers, versions_of.
  rewrite (foldr_permutation eq (fun v m => Z.max (v_version v) m) 0 _ _ ltac:(intros; cbn; lia) (order_by_perm _ _)).
  induction (List.filter _ l); cbn; [done|]. by f_equal.
Qed.

Lemma max_of_seq n : foldr Z.max 0 (seqZ 1 (Z.of_nat n)) = Z.of_nat n.
Proof.
  enough (forall k, 0 <= k -> foldr Z.max k (seqZ 1 (Z.of_nat n)) = Z.max k (Z.of_nat n)) as H by (rewrite H; lia).
  induction n as [|n IH]; intros k Hk; [change (seqZ 1 (Z.of_nat 0)) with (@nil Z); cbn [foldr]; lia|].
  rewrite seqZ_S, foldr_app. cbn [foldr]. rewrite IH by lia. lia.
Qed.

Lemma numbers_app id l v :
  numbers id (l ++ [v]) = numbers id l ++ (if String.eqb (v_function_id v) id then [v_version v] else []).
Proof. unfold numbers. rewrite List.filter_app, map_app. cbn [List.filter]. by destruct (String.eqb _ _). Qed.

Lemma elem_of_numbers id l n : n ∈ numbers id l <-> exists v, v ∈ l /\ v_function_id v = id /\ v_version v = n.
Proof.
  unfold numbers. rewrite list_elem_of_fmap. split.
  - intros (v & -> & Hv). apply elem_of_filter_bool in Hv as [Hv Hid%String.eqb_eq]. eauto.
  - intros (v & Hv & <- & <-). exists v. split; [done|]. apply elem_of_filter_bool. split; [done|apply String.eqb_refl].
Qed.

(** ** The invariant *)

Definition full_name (f : function) : string * string := (f_service_id f, f_name f).
Definition service_key (x : service) : string * string := (s_namespace_id x, s_name x).

(** The versions of a function are numbered 1, 2, ... without a gap, in the
    order they were added, and the active one is among them. *)
Definition history (l : list version) (f : function) : Prop :=
  exists n, numbers (f_id f) l = seqZ 1 (Z.of_nat n) /\ 1 <= active_version f <= Z.of_nat n.

Definition row_ok (v : version) : Prop :=
  backend (v_spec v) ∈ ALLOWED_BACKENDS /\ v_language v ∈ ALLOWED_LANGUAGES.

Record wf (s : store) : Prop := {
  wf_service_ids : NoDup (map s_id (services (ns s)));
  wf_service_names : NoDup (map service_key (services (ns s)));
  wf_ids : NoDup (map f_id (functions s));
  wf_names : NoDup (map full_name (functions s));
  wf_name_format : Forall (fun f => valid_item (f_name f) = true) (functions s);
  wf_history : Forall (history (versions s)) (functions s);
  wf_owner : Forall (fun v => v_function_id v ∈ map f_id (functions s)) (versions s);
  wf_rows : Forall row_ok (versions s)
}.

(** ** Transactions *)

Inductive op :=
| Create (now : Z) (new_id version_id service_id name : string) (sp : spec) (description : option string)
    (tags : option (list string)) (language : string) (safe : bool) (trust : string)
| Update (function_id : string) (description : option string) (tags : option (list string)) (safe : option bool)
    (trust : option string)
| CreateVersion (now : Z) (version_id function_id : string) (sp : spec) (activate is_admin : bool) (language : option string)
| SetActive (function_id : string) (n : Z)
| Delete (now : Z) (function_id : string) (is_admin : bool)
| Lock (now : Z) (function_id user_id : string)
| Unlock (function_id : string)
| ServiceCreate (new_id namespace_id name : string) (description : option string)
| ServiceUpdate (service_id : string) (description : option string)
| DeleteService (service_id : string).

(** A request commits what it did, or nothing if it raised. *)
Definition commit {A} (m : M A) (s : store) : store :=
  match m s with (Ok _, s') => s' | (Err _, _) => s end.

Definition on_services {A} (m : stm Namespaces.tables exn A) : M A := fun s =>
  let '(r, t) := m (ns s) in (r, Store t (functions s) (versions s) (calls s)).

Definition run_op (o : op) (s : store) : store :=
  match o with
  | Create now i vi sv nm sp d t l sf tr => commit (create now i vi sv nm sp d t l sf tr) s
  | Update i d t sf tr => commit (update i d t sf tr) s
  | CreateVersion now vi i sp act adm l => commit (create_version now vi i sp act adm l) s
  | SetActive i n => commit (set_active_version i n) s
  | Delete now i adm => commit (delete now i adm) s
  | Lock now i u => commit (lock_function now i u) s
  | Unlock i => commit (unlock_function i) s
  | ServiceCreate i n nm d => commit (on_services (service_create i n nm d)) s
  | ServiceUpdate i d => commit (on_services (service_update i d)) s
  | DeleteService i => commit (delete_service i) s
  end.

(** Fresh identifiers, as [uuid4] gives them. *)
Definition op_fresh (o : op) (s : store) : Prop :=
  match o with
  | Create _ i _ _ _ _ _ _ _ _ _ => i ∉ map f_id (functions s)
  | ServiceCreate i _ _ _ => i ∉ map s_id (services (ns s))
  | _ => True
  end.

(** What a committed operation may do to functions and versions. *)
Definition same_row (f f' : function) : Prop :=
  f_id f' = f_id f /\ f_service_id f' = f_service_id f /\ f_name f' = f_name f.

(** The operations that may change what a locked function runs. *)
Definition touches (o : op) (f : function) : bool :=
  match o with
  | CreateVersion _ _ i _ _ is_admin _ => is_admin && String.eqb i (f_id f)
  | Delete _ i is_admin => is_admin && String.eqb i (f_id f)
  | SetActive i _ => String.eqb i (f_id f)
  | Unlock i => String.eqb i (f_id f)
  | DeleteService i => String.eqb i (f_service_id f)
  | _ => false
  end.

Definition guarded (o : op) (f f' : function) : Prop :=
  locked f = true -> is_live f = true -> touches o f = true \/
  locked f' = true /\ is_live f' = true /\ active_version f' = active_version f.

Inductive fn_step (s : store) : op -> store -> Prop :=
| step_none o : fn_step s o s
| step_put o f f' s' :
    f ∈ functions s -> same_row f f' -> guarded o f f' ->
    active_version f' = active_version f \/ active_version f' ∈ numbers (f_id f) (versions s) -> s' = Store (ns s) (replace f' (functions s)) (versions s) (calls s) -> fn_step s o s'
| step_version o f f' v s' :
    f ∈ functions s -> same_row f f' -> guarded o f f' ->
    v_function_id v = f_id f -> v_version v = max_version (versions_of (f_id f) (versions s)) + 1 ->
    active_version f' = active_version f \/ active_version f' = v_version v -> row_ok v ->
    s' = Store (ns s) (replace f' (functions s)) (versions s ++ [v]) (calls s) -> fn_step s o s'
| step_new o f v s' :
    valid_item (f_name f) = true -> full_name f ∉ map full_name (functions s) ->
    (exists now vi sv nm sp d t l sf tr, o = Create now (f_id f) vi sv nm sp d t l sf tr) ->
    v_function_id v = f_id f -> v_version v = 1 -> active_version f = 1 -> row_ok v ->
    s' = Store (ns s) (functions s ++ [f]) (versions s ++ [v]) (calls s) -> fn_step s o s'
| step_service o t s' :
    ((map s_id (services t) = map s_id (services (ns s)) /\ map service_key (services t) = map service_key (services (ns s))) \/
     exists x, services t = services (ns s) ++ [x] /\ (service_key x ∉ map service_key (services (ns s))) /\
       (exists n nm d, o = ServiceCreate (s_id x) n nm d)) ->
    s' = Store t (functions s) (versions s) (calls s) -> fn_step s o s'
| step_delete_service i t s' :
    services t = List.filter (fun y => negb (String.eqb (s_id y) i)) (services (ns s)) ->
    functions s' = List.filter (fun f => negb (String.eqb (f_service_id f) i)) (functions s) ->
    versions s' = List.filter (fun v => existsb (fun f => String.eqb (f_id f) (v_function_id v)) (functions s')) (versions s) ->
    ns s' = t -> fn_step s (DeleteService i) s'.

Lemma replace_keys {B} (key : function -> B) f f' l :
  NoDup (map f_id l) -> f ∈ l -> f_id f' = f_id f -> key f' = key f -> map key (replace f' l) = map key l.
Proof.
  intros Hnd Hf Hid Hk. unfold replace. rewrite map_map. apply map_ext_in. intros x Hx%list_elem_of_In.
  destruct (String.eqb_spec (f_id x) (f_id f')) as [Hx'|]; [|done]. rewrite Hk. f_equal.
  apply (NoDup_map_inj f_id l); [done|done|done|congruence].
Qed.

Lemma replace_replace f f' l : f_id f = f_id f' -> replace f' (replace f l) = replace f' l.
Proof.
  intros Hid. unfold replace. rewrite map_map. apply map_ext. intros x. rewrite Hid.
  destruct (String.eqb (f_id x) (f_id f')) eqn:E; [|by rewrite E]. rewrite Hid. by rewrite String.eqb_refl.
Qed.

Lemma replace_id f l : NoDup (map f_id l) -> f ∈ l -> replace f l = l.
Proof.
  intros Hnd Hf. unfold replace. rewrite <-(map_id l) at 2. apply map_ext_in. intros x Hx%list_elem_of_In.
  destruct (String.eqb_spec (f_id x) (f_id f)); [|done]. symmetry. by apply (NoDup_map_inj f_id l).
Qed.

Lemma elem_of_replace f' l x : x ∈ replace f' l -> x = f' \/ x ∈ l /\ f_id x <> f_id f'.
Proof.
  unfold replace. intros (y & -> & Hy)%list_elem_of_fmap. destruct (String.eqb_spec (f_id y) (f_id f')); [by left|by right].
Qed.

Lemma replace_elem f f' l : f ∈ l -> f_id f' = f_id f -> f' ∈ replace f' l.
Proof.
  intros Hf Hid. apply list_elem_of_fmap. exists f. split; [|done]. by rewrite Hid, String.eqb_refl.
Qed.

Lemma replace_other f' l x : x ∈ l -> f_id x <> f_id f' -> x ∈ replace f' l.
Proof.
  intros Hx Hne. apply list_elem_of_fmap. exists x. split; [|done]. by destruct (String.eqb_spec (f_id x) (f_id f')).
Qed.

(** *** The invariant is kept *)

Lemma history_frame l l' f : numbers (f_id f) l' = numbers (f_id f) l -> history l f -> history l' f.
Proof. intros Hn (n & ? & ?). exists n. by rewrite Hn. Qed.

Lemma history_max l f : history l f -> numbers (f_id f) l = seqZ 1 (max_version (versions_of (f_id f) l)) /\
  1 <= active_version f <= max_version (versions_of (f_id f) l).
Proof. intros (n & Hn & Ha). rewrite max_version_numbers, Hn, max_of_seq. done. Qed.

Lemma history_active l f f' :
  history l f -> f_id f' = f_id f -> active_version f' = active_version f \/ active_version f' ∈ numbers (f_id f) l ->
  history l f'.
Proof.
  intros (n & Hn & Ha) Hid Hact. exists n. rewrite Hid. split; [done|].
  destruct Hact as [->|Hact]; [done|]. rewrite Hn in Hact. apply elem_of_seqZ in Hact. lia.
Qed.

Lemma history_add l f f' v :
  history l f -> f_id f' = f_id f -> v_function_id v = f_id f -> v_version v = max_version (versions_of (f_id f) l) + 1 ->
  active_version f' = active_version f \/ active_version f' = v_version v -> history (l ++ [v]) f'.
Proof.
  intros (n & Hn & Ha) Hid Hv Hmax Hact. exists (S n). rewrite Hid, numbers_app, Hv, String.eqb_refl, Hn.
  rewrite max_version_numbers, Hn, max_of_seq in Hmax. rewrite Hmax in *. split; [|lia].
  rewrite seqZ_S. do 2 f_equal. lia.
Qed.

Lemma numbers_other id l v : v_function_id v <> id -> numbers id (l ++ [v]) = numbers id l.
Proof. intros Hne. rewrite numbers_app. destruct (String.eqb_spec (v_function_id v) id); [done|]. by rewrite app_nil_r. Qed.

Lemma numbers_none id s : wf s -> id ∉ map f_id (functions s) -> numbers id (versions s) = [].
Proof.
  intros Hwf Hid. unfold numbers. destruct (List.filter _ _) as [|v l] eqn:E; [done|]. exfalso. apply Hid.
  assert (v ∈ List.filter (fun v => String.eqb (v_function_id v) id) (versions s)) as Hv by (rewrite E; by left).
  apply elem_of_filter_bool in Hv as [Hv <-%String.eqb_eq].
  exact (proj1 (Forall_forall _ _) (wf_owner s Hwf) v Hv).
Qed.

Lemma NoDup_filter_map {A B} (key : A -> B) p (l : list A) : NoDup (map key l) -> NoDup (map key (List.filter p l)).
Proof.
  induction l as [|x l IH]; cbn; [done|]. intros [Hx Hnd]%NoDup_cons. destruct (p x); [|by apply IH]. cbn.
  apply NoDup_cons. split; [|by apply IH]. intros (y & Hk & Hy)%list_elem_of_fmap. apply Hx, list_elem_of_fmap.
  exists y. split; [done|]. by apply elem_of_filter_bool in Hy as [? _].
Qed.

Lemma Forall_filter_bool {A} (P : A -> Prop) p (l : list A) : Forall P l -> Forall P (List.filter p l).
Proof. rewrite !Forall_forall. intros HP x [Hx _]%elem_of_filter_bool. by apply HP. Qed.

Lemma numbers_kept id l (p : version -> bool) :
  (forall v, v ∈ l -> v_function_id v = id -> p v = true) -> numbers id (List.filter p l) = numbers id l.
Proof.
  intros Hp. unfold numbers. f_equal. induction l as [|v l IH]; [done|]. cbn [List.filter].
  destruct (String.eqb_spec (v_function_id v) id) as [Hid|Hne].
  - rewrite (Hp v) by (done || by left). cbn [List.filter]. rewrite (proj2 (String.eqb_eq _ _) Hid). f_equal. apply IH.
    intros w Hw. apply Hp. by right.
  - destruct (p v); cbn [List.filter]; [rewrite (proj2 (String.eqb_neq _ _) Hne)|]; apply IH; intros w Hw; apply Hp; by right.
Qed.

Lemma Forall_elem {A} (P : A -> Prop) l x : Forall P l -> x ∈ l -> P x.
Proof. rewrite Forall_forall. auto. Qed.

Lemma Forall_replace (P : function -> Prop) f' l : P f' -> (forall x, x ∈ l -> f_id x <> f_id f' -> P x) -> Forall P (replace f' l).
Proof. intros Hf Hl. apply Forall_forall. intros x [->|[Hx Hne]]%elem_of_replace; [done|by apply Hl]. Qed.

Lemma put_function_wf s f f' vs :
  wf s -> f ∈ functions s -> same_row f f' -> history vs f' ->
  (forall id, id <> f_id f -> numbers id vs = numbers id (versions s)) ->
  Forall (fun v => v_function_id v ∈ map f_id (functions s)) vs -> Forall row_ok vs ->
  wf (Store (ns s) (replace f' (functions s)) vs (calls s)).
Proof.
  intros [] Hf (Hid & Hsv & Hnm) Hh Hothers Hown Hrows.
  assert (map f_id (replace f' (functions s)) = map f_id (functions s)) as Hids by by apply (replace_keys f_id f).
  split; cbn [ns functions versions]; try done.
  - by rewrite Hids.
  - rewrite (replace_keys full_name f); try done. unfold full_name. congruence.
  - apply Forall_replace.
    + rewrite Hnm. by apply (Forall_elem _ _ _ wf_name_format0).
    + intros x Hx _. by apply (Forall_elem _ _ _ wf_name_format0).
  - apply Forall_replace; [done|]. intros x Hx Hne. apply (history_frame (versions s)).
    + apply Hothers. congruence.
    + by apply (Forall_elem _ _ _ wf_history0).
  - by rewrite Hids.
Qed.

Lemma new_wf s f v :
  wf s -> valid_item (f_name f) = true -> full_name f ∉ map full_name (functions s) -> f_id f ∉ map f_id (functions s) ->
  v_function_id v = f_id f -> v_version v = 1 -> active_version f = 1 -> row_ok v ->
  wf (Store (ns s) (functions s ++ [f]) (versions s ++ [v]) (calls s)).
Proof.
  intros Hwf Hnm Hfull Hid Hv Hn Ha Hrow. pose proof (numbers_none _ _ Hwf Hid) as Hnone. destruct Hwf.
  split; cbn [ns functions versions]; try done; rewrite ?map_app; cbn [map].
  - by apply NoDup_snoc.
  - by apply NoDup_snoc.
  - by apply Forall_app_2, Forall_singleton.
  - apply Forall_app_2.
    + apply Forall_forall. intros x Hx. apply (history_frame (versions s)); [|by apply (Forall_elem _ _ _ wf_history0)].
      apply numbers_other. intros Heq. apply Hid. rewrite <-Hv, Heq. by apply list_elem_of_fmap_2.
    + apply Forall_singleton. exists 1%nat. rewrite numbers_app, Hnone, Hv, String.eqb_refl, Hn, Ha. split; [done|lia].
  - apply Forall_app_2; [|apply Forall_singleton; rewrite Hv; apply elem_of_app; right; by left].
    eapply Forall_impl; [exact wf_owner0|]. intros x Hx. apply elem_of_app. by left.
  - by apply Forall_app_2, Forall_singleton.
Qed.

Lemma delete_service_wf i t s s' :
  wf s -> services t = List.filter (fun y => negb (String.eqb (s_id y) i)) (services (ns s)) ->
  functions s' = List.filter (fun f => negb (String.eqb (f_service_id f) i)) (functions s) ->
  versions s' = List.filter (fun v => existsb (fun f => String.eqb (f_id f) (v_function_id v)) (functions s')) (versions s) ->
  ns s' = t -> wf s'.
Proof.
  intros [] Ht Hf Hv <-. split.
  - rewrite Ht. by apply NoDup_filter_map.
  - rewrite Ht. by apply NoDup_filter_map.
  - rewrite Hf. by apply NoDup_filter_map.
  - rewrite Hf. by apply NoDup_filter_map.
  - rewrite Hf. by apply Forall_filter_bool.
  - apply Forall_forall. intros f Hin. apply (history_frame (versions s)).
    + rewrite Hv. apply numbers_kept. intros v _ Hid. apply existsb_elem. exists f. split; [done|]. by apply String.eqb_eq.
    + rewrite Hf in Hin. apply elem_of_filter_bool in Hin as [Hin _]. by apply (Forall_elem _ _ _ wf_history0).
  - apply Forall_forall. rewrite Hv. intros v [_ (f & Hin & He%String.eqb_eq)%existsb_elem]%elem_of_filter_bool.
    rewrite <-He. by apply list_elem_of_fmap_2.
  - rewrite Hv. by apply Forall_filter_bool.
Qed.

Lemma service_wf s t :
  wf s -> NoDup (map s_id (services t)) -> NoDup (map service_key (services t)) ->
  wf (Store t (functions s) (versions s) (calls s)).
Proof. intros [] Hi Hk. by split. Qed.

Lemma step_wf s o s' : wf s -> op_fresh o s -> fn_step s o s' -> wf s'.
Proof.
  intros Hwf Hfresh Hstep. destruct Hstep as [o|o f f' s' Hf Hrow _ Ha ->|o f f' v s' Hf Hrow _ Hv Hn Ha Hok ->
    |o f v s' Hnm Hfull (?&?&?&?&?&?&?&?&?&?& ->) Hv Hn Ha Hok ->|o t s' Hserv ->|i t s' Ht Hfn Hvs Hns].
  - done.
  - pose proof (Forall_elem _ _ _ (wf_history s Hwf) Hf) as Hh.
    eapply put_function_wf; try done; [|apply Hwf|apply Hwf]. destruct Hrow as (Hid & _). by eapply history_active.
  - pose proof (Forall_elem _ _ _ (wf_history s Hwf) Hf) as Hh.
    eapply put_function_wf; try done.
    + destruct Hrow as (Hid & _). by eapply history_add.
    + intros id Hne. apply numbers_other. congruence.
    + apply Forall_app_2; [apply Hwf|]. apply Forall_singleton. rewrite Hv. by apply list_elem_of_fmap_2.
    + apply Forall_app_2; [apply Hwf|]. by apply Forall_singleton.
  - by apply new_wf.
  - apply service_wf; [done| |]; destruct Hserv as [[Hi Hk]|(x & -> & Hk & n & nm & d & ->)].
    + rewrite Hi. apply Hwf.
    + rewrite map_app. apply NoDup_snoc; [apply Hwf|done].
    + rewrite Hk. apply Hwf.
    + rewrite map_app. apply NoDup_snoc; [apply Hwf|done].
  - by eapply delete_service_wf.
Qed.

(** *** Every operation is a step *)

Lemma new_version_ok i fi n l sp now v : new_version i fi n l sp now = Ok v ->
  v_function_id v = fi /\ v_version v = n /\ v_spec v = sp /\ v_language v = l /\ row_ok v.
Proof.
  unfold new_version. destruct (n <? 1); [done|]. destruct (str_in (backend sp) _) eqn:Hb; [|done]. cbn [negb].
  destruct (str_in l _) eqn:Hl; [|done]. cbn [negb]. intros [= <-]. cbn. repeat split; by apply str_in_spec.
Qed.

Lemma validate_item_name_ok s nm : validate_item_name s = Ok nm -> nm = str_lower s.
Proof.
  unfold validate_item_name. destruct (String.eqb _ _); [done|]. destruct (63 <? _); [done|]. destruct (negb _); [done|].
  by intros [= <-].
Qed.

Lemma get_by_id_cases i s :
  (exists f, get_by_id i s = (Ok f, s) /\ f ∈ functions s /\ f_id f = i /\ is_live f = true) \/
  (exists e, get_by_id i s = (Err e, s)).
Proof.
  unfold get_by_id, mbind, stm_bind, getS, lift_res.
  destruct (one_or_none_cases (fun f => String.eqb (f_id f) i && is_live f) (functions s)) as
    [(f & -> & Hf & [He%String.eqb_eq Hl]%andb_true_iff & _)|[[-> _]| ->]]; [|right; by eexists..].
  left. by exists f.
Qed.

(** A new version of [f] with what is put in its row. *)
Lemma insert_version_cases v s :
  insert_version v s = (Ok tt, Store (ns s) (functions s) (versions s ++ [v]) (calls s)) \/ insert_version v s = (Err DBAPIError, s).
Proof. unfold insert_version, mbind, stm_bind, getS. destruct (_ || _); [by right|by left]. Qed.

Ltac fn_none := apply step_none.
Ltac with_function i s f :=
  let e := fresh "e" in
  destruct (get_by_id_cases i s) as [(f & -> & ? & ? & ?)|(e & ->)]; [|try fn_none].

Lemma create_step now i vi sv nm sp d t l sf tr s :
  wf s -> fn_step s (Create now i vi sv nm sp d t l sf tr) (run_op (Create now i vi sv nm sp d t l sf tr) s).
Proof.
  intros Hwf. cbn [run_op]. unfold commit, create, mbind, stm_bind, getS, lift_res.
  destruct (one_or_none_cases (fun f => String.eqb (f_service_id f) sv && String.eqb (f_name f) (str_lower nm)) (functions s))
    as [(f & -> & Hf & _)|[[-> Hnil]| ->]]; [| |fn_none].
  - destruct (is_live f) eqn:Hlive; [fn_none|]. cbn [put_function set_functions modS].
    set (f1 := Function _ _ _ _ _ _ _ _ _ _ _ _ _). destruct (new_version _ _ _ _ _ _) as [v|] eqn:Hv; [|fn_none].
    apply new_version_ok in Hv as (Hvf & Hvn & _ & _ & Hok). cbn [put_function set_functions modS].
    unfold trust_fits. destruct (10 <? _); [fn_none|]. cbn [mret stm_ret].
    match goal with |- context [insert_version v ?st] => destruct (insert_version_cases v st) as [-> | ->]; [|fn_none] end.
    cbn [ns functions versions calls].
    apply step_version with (f := f) (f' := with_active f1 (max_version (versions_of (f_id f) (versions s)) + 1)) (v := v); [done|by split| |done|done|right; by rewrite Hvn|done|].
    + intros _ Hl. by rewrite Hlive in Hl.
    + f_equal. by apply replace_replace.
  - destruct (validate_item_name _) as [nm'|] eqn:Hnm; [|fn_none].
    unfold insert_function, mbind, stm_bind, getS.
    destruct (valid_item _) eqn:Hvalid; [|fn_none]. cbn [negb orb].
    destruct (existsb _ (services _)); [|fn_none]. cbn [negb orb].
    destruct (existsb _ (functions s)) eqn:Hex; [fn_none|]. cbn [f_service_id f_name] in *.
    unfold trust_fits. destruct (10 <? _); [fn_none|]. cbn [mret stm_ret set_functions modS].
    destruct (new_version _ _ _ _ _ _) as [v|] eqn:Hv; [|fn_none]. apply new_version_ok in Hv as (Hvf & Hvn & _ & _ & Hok).
    match goal with |- context [insert_version v ?st] => destruct (insert_version_cases v st) as [-> | ->]; [|fn_none] end.
    cbn [ns functions versions calls]. eapply step_new; [| | | | | | |reflexivity]; [done| |by repeat eexists|done|done|done|done].
    intros (g & Hk & Hg)%list_elem_of_fmap. injection Hk as Hk1 Hk2.
    apply not_true_iff_false in Hex. apply Hex, existsb_elem. exists g. split; [done|]. cbn.
    rewrite <-Hk1, <-Hk2. by rewrite !String.eqb_refl.
Qed.

Lemma update_step i d t sf tr s : fn_step s (Update i d t sf tr) (run_op (Update i d t sf tr) s).
Proof.
  cbn [run_op]. unfold commit, update, mbind, stm_bind. with_function i s f. cbn [put_function set_functions modS].
  unfold trust_fits. destruct (10 <? _); [fn_none|]. cbn [mret stm_ret].
  eapply step_put with (f := f); [done| | | |reflexivity]; [by split|intros Hl Hlive; right; by repeat split|by left].
Qed.

Lemma create_version_step now vi i sp act adm l s :
  wf s -> fn_step s (CreateVersion now vi i sp act adm l) (run_op (CreateVersion now vi i sp act adm l) s).
Proof.
  intros Hwf. cbn [run_op]. unfold commit, create_version, mbind, stm_bind. with_function i s f. subst i.
  destruct (locked f && negb adm) eqn:Hlock; [fn_none|]. cbn [getS].
  pose proof (Forall_elem _ _ _ (wf_history s Hwf) ltac:(eassumption)) as Hh.
  apply history_max in Hh as [_ Hact]. destruct (versions_of (f_id f) (versions s)) as [|v0 vs] eqn:Hvs; [by cbn in Hact; lia|].
  rewrite <-Hvs. assert (exists r, (match l with None => mret (v_language v0)
    | Some l => if String.eqb l (v_language v0) then mret l else raise ValueError end : M string) s = (r, s)) as (r & ->)
    by (destruct l; [destruct (String.eqb _ _)|]; by eexists).
  destruct r as [lang|]; [|fn_none]. unfold lift_res. destruct (new_version _ _ _ _ _ _) as [v|] eqn:Hv; [|fn_none].
  apply new_version_ok in Hv as (Hvf & Hvn & _ & _ & Hok).
  set (f' := if act then with_active f (v_version v) else f).
  assert ((if act then put_function (with_active f (max_version (versions_of (f_id f) (versions s)) + 1)) else mret tt : M unit) s =
    (Ok tt, Store (ns s) (if act then replace f' (functions s) else functions s) (versions s) (calls s))) as ->.
  { subst f'. rewrite Hvn. by destruct act, s. }
  match goal with |- context [insert_version v ?st] => destruct (insert_version_cases v st) as [-> | ->]; [|fn_none] end.
  cbn [ns functions versions calls mret stm_ret].
  apply step_version with (f := f) (f' := f') (v := v); [done|subst f'; by destruct act| |done|done| |done|].
  - intros Hl Hlive. subst f'. destruct act; [|by right]. left. cbn. rewrite Hl in Hlock. destruct adm; [|done].
    by rewrite String.eqb_refl.
  - subst f'. destruct act; [by right|by left].
  - f_equal. subst f'. destruct act; [done|]. symmetry. apply replace_id; [apply Hwf|done].
Qed.

Lemma get_version_cases i n s :
  (exists v, get_version i n s = (Ok v, s) /\ v ∈ versions s /\ v_function_id v = i /\ v_version v = n) \/
  (exists e, get_version i n s = (Err e, s)).
Proof.
  unfold get_version, mbind, stm_bind, getS, lift_res.
  destruct (one_or_none_cases (fun v => String.eqb (v_function_id v) i && (v_version v =? n)) (versions s)) as
    [(v & -> & Hv & [He%String.eqb_eq Hn%Z.eqb_eq]%andb_true_iff & _)|[[-> _]| ->]]; [|right; by eexists..].
  left. by exists v.
Qed.

Lemma set_active_step i n s : fn_step s (SetActive i n) (run_op (SetActive i n) s).
Proof.
  cbn [run_op]. unfold commit, set_active_version, mbind, stm_bind. with_function i s f. subst i.
  destruct (get_version_cases (f_id f) n s) as [(v & -> & Hv & Hid & <-)|(e & ->)]; [|fn_none].
  destruct (v_version v <? 1); [fn_none|]. cbn [put_function set_functions modS].
  eapply step_put with (f := f); [done| | | |reflexivity]; [by split| |].
  - intros _ _. left. cbn. apply String.eqb_refl.
  - right. cbn. apply elem_of_numbers. by exists v.
Qed.

Lemma delete_step now i adm s : fn_step s (Delete now i adm) (run_op (Delete now i adm) s).
Proof.
  cbn [run_op]. unfold commit, delete, mbind, stm_bind. with_function i s f. subst i.
  destruct (locked f && negb adm) eqn:Hlock; [fn_none|]. cbn [put_function set_functions modS].
  eapply step_put with (f := f); [done| | | |reflexivity]; [by split| |by left].
  intros Hl _. left. cbn. rewrite Hl in Hlock. destruct adm; [|done]. by rewrite String.eqb_refl.
Qed.

Lemma lock_step now i u s : fn_step s (Lock now i u) (run_op (Lock now i u) s).
Proof.
  cbn [run_op]. unfold commit, lock_function, mbind, stm_bind. with_function i s f. cbn [put_function set_functions modS].
  eapply step_put with (f := f); [done| | | |reflexivity]; [by split| |by left]. intros _ Hl. right. by split.
Qed.

Lemma unlock_step i s : fn_step s (Unlock i) (run_op (Unlock i) s).
Proof.
  cbn [run_op]. unfold commit, unlock_function, mbind, stm_bind. with_function i s f. subst i.
  cbn [put_function set_functions modS].
  eapply step_put with (f := f); [done| | | |reflexivity]; [by split| |by left]. intros _ _. left. cbn. apply String.eqb_refl.
Qed.

Lemma service_create_step i n nm d s : fn_step s (ServiceCreate i n nm d) (run_op (ServiceCreate i n nm d) s).
Proof.
  cbn [run_op]. unfold commit, on_services, service_create, mbind, stm_bind.
  destruct (select_cases services (fun x => String.eqb (s_namespace_id x) n && String.eqb (s_name x) (str_lower nm)) (ns s))
    as [(x & -> & _)|[[-> _]| ->]]; [fn_none| |fn_none].
  unfold lift_res. destruct (validate_item_name _) as [nm'|] eqn:Hnm; [|fn_none].
  unfold insert_service, getS, mbind, stm_bind. destruct (negb _ || _ || _) eqn:E; [fn_none|].
  apply orb_false_iff in E as [_ E]. cbn [set_services modS mret stm_ret s_namespace_id s_name] in *.
  eapply step_service; [|reflexivity]. right. eexists. split; [reflexivity|]. split; [|by repeat eexists].
  intros (y & [= Hk1 Hk2] & Hy)%list_elem_of_fmap. apply not_true_iff_false in E. apply E, existsb_elem.
  exists y. split; [done|]. by rewrite <-Hk1, <-Hk2, !String.eqb_refl.
Qed.

Lemma service_update_step i d s : wf s -> fn_step s (ServiceUpdate i d) (run_op (ServiceUpdate i d) s).
Proof.
  intros Hwf. cbn [run_op]. unfold commit, on_services, service_update, service_get_by_id, mbind, stm_bind.
  destruct (select_cases services (fun x => String.eqb (s_id x) i) (ns s))
    as [(x & -> & Hx & _)|[[-> _]| ->]]; [|fn_none|fn_none].
  cbn [mret stm_ret put_service set_services modS]. eapply step_service; [|reflexivity]. left. cbn [services].
  assert (forall B (key : service -> B) x', s_id x' = s_id x -> key x' = key x ->
    map key (map (fun y => if String.eqb (s_id y) (s_id x') then x' else y) (services (ns s))) = map key (services (ns s))) as Hmap.
  { intros B key x' Hid Hk. rewrite map_map. apply map_ext_in. intros y Hy%list_elem_of_In. rewrite Hid.
    destruct (String.eqb_spec (s_id y) (s_id x)) as [Hyx|]; [|done]. rewrite Hk. f_equal. symmetry.
    by apply (NoDup_map_inj s_id (services (ns s))); [apply Hwf| | |]. }
  split; apply Hmap; by destruct d.
Qed.

Lemma service_delete_cases i t :
  (exists e, service_delete i t = (Err e, t)) \/
  exists t', service_delete i t = (Ok tt, t') /\
    services t' = List.filter (fun y => negb (String.eqb (s_id y) i)) (services t).
Proof.
  unfold service_delete, service_get_by_id, mbind, stm_bind.
  destruct (select_cases services (fun x => String.eqb (s_id x) i) t) as [(x & -> & Hx & He%String.eqb_eq & _)|[[-> _]| ->]];
    [|left; by eexists..].
  right. eexists. split; [reflexivity|]. by rewrite <-He.
Qed.

Lemma delete_service_step i s : fn_step s (DeleteService i) (run_op (DeleteService i) s).
Proof.
  cbn [run_op]. unfold commit, delete_service.
  destruct (service_delete_cases i (ns s)) as [(e & ->)|(t & -> & Ht)]; [fn_none|]. by eapply step_delete_service.
Qed.

Lemma run_op_fn_step o s : wf s -> fn_step s o (run_op o s).
Proof.
  intros Hwf. destruct o; [by apply create_step|apply update_step|by apply create_version_step|apply set_active_step
    |apply delete_step|apply lock_step|apply unlock_step|apply service_create_step|by apply service_update_step
    |apply delete_service_step].
Qed.

Definition run (l : list op) (s : store) : store := fold_left (fun s o => run_op o s) l s.

(** Every operation of the sequence has a fresh identifier when it runs. *)
Fixpoint fresh_run (l : list op) (s : store) : Prop :=
  match l with [] => True | o :: l' => op_fresh o s /\ fresh_run l' (run_op o s) end.

Lemma run_wf l : forall s, wf s -> fresh_run l s -> wf (run l s).
Proof.
  induction l as [|o l IH]; intros s Hwf; [done|]. intros [Hf Hl]. apply IH; [|done].
  apply (step_wf s o); [done|done|by apply run_op_fn_step].
Qed.

(** *** A function keeps its versions *)

(** A row and its versions survive any operation but the deletion of its service. *)
Lemma step_survives s o s' f :
  wf s -> op_fresh o s -> fn_step s o s' -> f ∈ functions s -> o <> DeleteService (f_service_id f) ->
  exists f', f' ∈ functions s' /\ same_row f f' /\ guarded o f f' /\
    (forall v, v ∈ versions s -> v_function_id v = f_id f -> v ∈ versions s').
Proof.
  intros Hwf Hfresh Hstep Hf Hne.
  assert (same_row f f /\ guarded o f f) as [Hsame Hg] by (split; [by split|by right]).
  destruct Hstep as [o|o g f' s' Hin Hrow Hgd _ ->|o g f' v s' Hin Hrow Hgd Hv Hn Ha Hok ->|o g v s' _ _ _ _ _ _ _ ->|o t s' _ ->
    |i t s' Ht Hfn Hvs Hns]; cbn [functions versions] in *.
  - exists f. by repeat split.
  - destruct (decide (f_id f = f_id g)) as [Heq|Hneq].
    + assert (f = g) as -> by (apply (NoDup_map_inj f_id (functions s)); [apply Hwf|done..]).
      exists f'. split; [|by split_and!]. apply (replace_elem g); [done|apply Hrow].
    + exists f. split; [|by split_and!]. apply replace_other; [done|]. destruct Hrow as (-> & _). done.
  - destruct (decide (f_id f = f_id g)) as [Heq|Hneq].
    + assert (f = g) as -> by (apply (NoDup_map_inj f_id (functions s)); [apply Hwf|done..]).
      exists f'. split; [apply (replace_elem g); [done|apply Hrow]|]. split_and!; [done|done|].
      intros w Hw _. apply elem_of_app. by left.
    + exists f. split; [apply replace_other; [done|]; destruct Hrow as (-> & _); done|]. split_and!; [done|done|].
      intros w Hw _. apply elem_of_app. by left.
  - exists f. split; [apply elem_of_app; by left|]. split_and!; [done|done|]. intros w Hw _. apply elem_of_app. by left.
  - exists f. by repeat split.
  - assert (f ∈ functions s') as Hf'.
    { rewrite Hfn. apply elem_of_filter_bool. split; [done|]. destruct (String.eqb_spec (f_service_id f) i); [congruence|done]. }
    exists f. split_and!; [done|done|done|]. intros v Hv Hid. rewrite Hvs. apply elem_of_filter_bool. split; [done|].
    apply existsb_elem. exists f. split; [done|]. by apply String.eqb_eq.
Qed.

Definition version_key (v : version) : string * Z := (v_function_id v, v_version v).

Lemma version_keys l : (forall id, NoDup (numbers id l)) -> NoDup (map version_key l).
Proof.
  induction l as [|v l IH]; intros Hn; [by constructor|]. cbn [map]. apply NoDup_cons. split.
  - intros (w & [= Hid Hv] & Hw)%list_elem_of_fmap. pose proof (Hn (v_function_id v)) as H. unfold numbers in H.
    cbn [List.filter] in H. rewrite String.eqb_refl in H. apply NoDup_cons in H as [H _]. apply H.
    change (map v_version _) with (numbers (v_function_id v) l). apply elem_of_numbers. eauto.
  - apply IH. intros id. specialize (Hn id). unfold numbers in *. cbn [List.filter] in Hn.
    destruct (String.eqb _ id); [|done]. cbn in Hn. by apply NoDup_cons in Hn as [_ Hn].
Qed.

Lemma wf_version_keys s : wf s -> NoDup (map version_key (versions s)).
Proof.
  intros Hwf. apply version_keys. intros id. destruct (decide (id ∈ map f_id (functions s))) as [Hin|Hout].
  - apply list_elem_of_fmap in Hin as (f & -> & Hf). destruct (Forall_elem _ _ _ (wf_history s Hwf) Hf) as (n & -> & _).
    apply NoDup_seqZ.
  - rewrite (numbers_none id s Hwf Hout). by constructor.
Qed.

Lemma get_version_iff s i n v :
  wf s -> get_version i n s = (Ok v, s) <-> v ∈ versions s /\ v_function_id v = i /\ v_version v = n.
Proof.
  intros Hwf. split.
  - intros Hg. destruct (get_version_cases i n s) as [(w & Hw & ?)|(e & He)]; [|congruence]. rewrite Hg in Hw. by injection Hw as <-.
  - intros (Hv & Hi & Hn). unfold get_version, mbind, stm_bind, getS, lift_res.
    rewrite (one_unique version_key _ _ v); [done|by apply wf_version_keys|done| |].
    + by rewrite Hi, Hn, String.eqb_refl, Z.eqb_refl.
    + intros w Hw [Hwi%String.eqb_eq Hwn%Z.eqb_eq]%andb_true_iff. unfold version_key. congruence.
Qed.

Lemma active_iff s f v :
  wf s -> get_active_version_obj (versions s) f = Some v <->
  v ∈ versions s /\ v_function_id v = f_id f /\ v_version v = active_version f.
Proof.
  intros Hwf. unfold get_active_version_obj. split.
  - intros [Hin Hn%Z.eqb_eq]%find_some. apply list_elem_of_In, elem_of_versions in Hin as [Hin Hid]. done.
  - intros (Hv & Hid & Hn). destruct (List.find _ _) as [w|] eqn:E.
    + apply find_some in E as [Hin Hw%Z.eqb_eq]. apply list_elem_of_In, elem_of_versions in Hin as [Hin Hwid].
      f_equal. apply (NoDup_map_inj version_key (versions s)); [by apply wf_version_keys|done|done|].
      unfold version_key. congruence.
    + assert (In v (versions_of (f_id f) (versions s))) as Hin by by apply list_elem_of_In, elem_of_versions.
      pose proof (find_none _ _ E v Hin) as Hno. cbv beta in Hno. by rewrite Hn, Z.eqb_refl in Hno.
Qed.

Definition in_service (s : store) (namespace_id name : string) (f : function) : Prop :=
  exists x, x ∈ services (ns s) /\ s_id x = f_service_id f /\ s_namespace_id x = namespace_id /\ s_name x = name.

Lemma get_for_execution_iff s n sn fn f v :
  wf s -> get_for_execution n sn fn s = (Ok (f, v), s) <->
  f ∈ functions s /\ is_live f = true /\ in_service s n (str_lower sn) f /\ f_name f = str_lower fn /\
  v ∈ versions s /\ v_function_id v = f_id f /\ v_version v = active_version f.
Proof.
  intros Hwf. unfold get_for_execution, mbind, stm_bind, getS, lift_res.
  set (rows := joined _ s). assert (forall g, g ∈ rows <-> g ∈ functions s /\ is_live g = true /\ in_service s n (str_lower sn) g) as Hrows.
  { intros g. unfold rows, joined. rewrite elem_of_filter_bool, andb_true_iff, existsb_elem. unfold in_service.
    setoid_rewrite andb_true_iff. setoid_rewrite andb_true_iff. setoid_rewrite String.eqb_eq. firstorder. }
  assert (forall g h, g ∈ rows -> h ∈ rows -> f_name g = f_name h -> full_name g = full_name h) as Huniq.
  { intros g h (_ & _ & x & Hx & Hxi & Hxn & Hxs)%Hrows (_ & _ & y & Hy & Hyi & Hyn & Hys)%Hrows Hnm. unfold full_name.
    f_equal; [|done]. rewrite <-Hxi, <-Hyi. f_equal.
    apply (NoDup_map_inj service_key (services (ns s))); [apply Hwf|done|done|]. unfold service_key. congruence. }
  assert (forall g, g ∈ rows -> f_name g = str_lower fn ->
    one_or_none (fun f => String.eqb (f_name f) (str_lower fn)) rows = Ok (Some g)) as Hone.
  { intros g Hg Hnm. apply (one_unique full_name); [apply NoDup_filter_map; apply Hwf|done|by apply String.eqb_eq|].
    intros h Hh Hhn%String.eqb_eq. apply Huniq; [done|done|congruence]. }
  assert (forall g, f ∈ functions s -> is_live f = true -> in_service s n (str_lower sn) f -> f_name f = str_lower fn ->
    one_or_none (fun f => String.eqb (f_name f) (str_lower fn)) rows = g -> g = Ok (Some f)) as Hfound.
  { intros g Hf Hl Hin Hnm <-. apply Hone; [by apply Hrows|done]. }
  destruct (one_or_none_cases (fun f => String.eqb (f_name f) (str_lower fn)) rows) as
    [(g & Hg & Hgr & Hgn%String.eqb_eq & _)|[[Hg Hnil]|Hg]]; rewrite Hg; unfold not_found, raise;
    [|split; [done|intros (Hf & Hl & Hin & Hnm & _); specialize (Hfound _ Hf Hl Hin Hnm Hg); done]..].
  destruct (get_active_version_obj (versions s) g) as [w|] eqn:Hw; cbn [mret stm_ret].
  - pose proof (proj1 (active_iff s g w Hwf) Hw) as (? & ? & ?). apply Hrows in Hgr as (? & ? & ?). split.
    + intros [= <- <-]. done.
    + intros (Hf & Hl & Hin & Hnm & Hv). specialize (Hfound _ Hf Hl Hin Hnm Hg). injection Hfound as ->.
      assert (Some w = Some v) as [= ->] by (rewrite <-Hw; by apply active_iff). done.
  - split; [done|]. intros (Hf & Hl & Hin & Hnm & Hv). specialize (Hfound _ Hf Hl Hin Hnm Hg). injection Hfound as ->.
    apply (active_iff s f v Hwf) in Hv. congruence.
Qed.

(** ** Properties *)

(** [C39] The tables stay well-formed: whatever sequence of requests runs (each
    committed as a whole or rolled back), names and identifiers stay unique,
    every name has the documented form, every function has its versions numbered
    1, 2, ... without a gap and an active version among them, no version is
    without a function, and every version has a known backend and language. *)
Theorem functions_well_formed ops s : wf s -> fresh_run ops s -> wf (run ops s).
Proof. apply run_wf. Qed.

Lemma run_survives ops : forall s f,
  wf s -> fresh_run ops s -> f ∈ functions s -> DeleteService (f_service_id f) ∉ ops ->
  exists f', f' ∈ functions (run ops s) /\ same_row f f' /\
    (forall v, v ∈ versions s -> v_function_id v = f_id f -> v ∈ versions (run ops s)) /\
    (locked f = true -> is_live f = true -> Forall (fun o => touches o f = false) ops ->
     locked f' = true /\ is_live f' = true /\ active_version f' = active_version f).
Proof.
  induction ops as [|o ops IH]; intros s f Hwf Hfresh Hf Hd; [by exists f|]. destruct Hfresh as [Ho Hfresh].
  apply not_elem_of_cons in Hd as [Hne Hd].
  destruct (step_survives s o (run_op o s) f Hwf Ho (run_op_fn_step o s Hwf) Hf ltac:(congruence)) as (g & Hg & Hrow & Hgd & Hv).
  assert (wf (run_op o s)) as Hwf' by by apply (step_wf s o); [| |apply run_op_fn_step].
  destruct Hrow as (Hid & Hsv & Hnm). rewrite <-Hsv in Hd.
  destruct (IH (run_op o s) g Hwf' Hfresh Hg Hd) as (f' & Hf' & (Hid' & Hsv' & Hnm') & Hv' & Hl').
  exists f'. split; [done|]. split; [split_and!; congruence|]. split.
  - intros v Hin Hvid. apply Hv'; [by apply Hv|congruence].
  - intros Hl Hlive Hall. apply Forall_cons in Hall as [Ht Hall].
    destruct (Hgd Hl Hlive) as [Ht'|(Hlg & Hliveg & Hag)]; [congruence|].
    destruct (Hl' Hlg Hliveg) as (? & ? & ?); [|split_and!; congruence].
    eapply Forall_impl; [exact Hall|]. intros x Hx. unfold touches in *. by rewrite Hid, Hsv.
Qed.

(** Versions are immutable: what [get_version] answers for a function and
    a number is what it answers after any sequence of requests, as long as the
    service of the function is not deleted. *)
Theorem versions_immutable ops s f n v :
  wf s -> fresh_run ops s -> f ∈ functions s -> DeleteService (f_service_id f) ∉ ops ->
  get_version (f_id f) n s = (Ok v, s) -> get_version (f_id f) n (run ops s) = (Ok v, run ops s).
Proof.
  intros Hwf Hfresh Hf Hd (Hv & Hid & Hn)%get_version_iff; [|done].
  destruct (run_survives ops s f Hwf Hfresh Hf Hd) as (_ & _ & _ & Hkeep & _).
  apply get_version_iff; [by apply run_wf|]. split; [by apply Hkeep|done].
Qed.

(** A lock holds: whatever others do, a locked function goes on running
    the version it ran when it was locked, unless a request of one of these
    kinds names it: an unlock, a change of the active version, an
    administrator's new version or deletion, the deletion of its service. *)
Theorem locked_function_frozen ops s f n sn fn v :
  wf s -> fresh_run ops s -> Forall (fun o => touches o f = false) ops -> locked f = true ->
  get_for_execution n sn fn s = (Ok (f, v), s) ->
  in_service (run ops s) n (str_lower sn) f ->
  exists f', get_for_execution n sn fn (run ops s) = (Ok (f', v), run ops s) /\ locked f' = true.
Proof.
  intros Hwf Hfresh Hall Hl (Hf & Hlive & _ & Hnm & Hv & Hid & Hact)%get_for_execution_iff Hin; [|done].
  assert (DeleteService (f_service_id f) ∉ ops) as Hd.
  { intros Hd. pose proof (Forall_elem _ _ _ Hall Hd) as Ht. cbn in Ht. by rewrite String.eqb_refl in Ht. }
  destruct (run_survives ops s f Hwf Hfresh Hf Hd) as (f' & Hf' & (Hid' & Hsv & Hnm') & Hkeep & Hlock).
  destruct (Hlock Hl Hlive Hall) as (Hl' & Hlive' & Hact'). exists f'. split; [|done].
  apply get_for_execution_iff; [by apply run_wf|]. split_and!; [done|done| |congruence|by apply Hkeep|congruence|congruence].
  destruct Hin as (x & ? & ? & ?). exists x. by rewrite Hsv.
Qed.

Lemma run_op_commit {A} (m : M A) s r s' : m s = (r, s') -> commit m s = match r with Ok _ => s' | Err _ => s end.
Proof. unfold commit. intros ->. by destruct r. Qed.

Lemma get_by_id_live s f : wf s -> f ∈ functions s -> is_live f = true -> get_by_id (f_id f) s = (Ok f, s).
Proof.
  intros Hwf Hf Hl. unfold get_by_id, mbind, stm_bind, getS, lift_res.
  rewrite (one_unique f_id _ _ f); [done|apply Hwf|done|by rewrite String.eqb_refl|].
  by intros b _ [Hb%String.eqb_eq _]%andb_true_iff.
Qed.

Lemma committed_wf o s : wf s -> op_fresh o s -> wf (run_op o s).
Proof. intros Hwf Ho. by apply (step_wf s o); [| |apply run_op_fn_step]. Qed.

(** What [create_version] leaves when it succeeds. *)
Lemma create_version_ok now vi f sp act adm l s v s' :
  wf s -> f ∈ functions s -> is_live f = true -> create_version now vi (f_id f) sp act adm l s = (Ok v, s') ->
  let f' := if act then with_active f (v_version v) else f in
  s' = Store (ns s) (if act then replace f' (functions s) else functions s) (versions s ++ [v]) (calls s) /\
  v_function_id v = f_id f /\ v_spec v = sp /\ wf s'.
Proof.
  intros Hwf Hf Hl Hrun.
  assert (wf s') as Hwf'.
  { pose proof (committed_wf (CreateVersion now vi (f_id f) sp act adm l) s Hwf I) as H.
    cbn [run_op] in H. by rewrite (run_op_commit _ _ _ _ Hrun) in H. }
  unfold create_version, mbind, stm_bind in Hrun. rewrite get_by_id_live in Hrun by done.
  destruct (locked f && negb adm); [done|]. cbn [getS] in Hrun.
  destruct (history_max _ _ (Forall_elem _ _ _ (wf_history s Hwf) Hf)) as [_ Hact].
  destruct (versions_of (f_id f) (versions s)) as [|v0 vs] eqn:Hvs; [by cbn in Hact; lia|]. rewrite <-Hvs in Hrun.
  set (lang := match l with None => _ | Some _ => _ end) in Hrun.
  assert (exists r, lang s = (r, s)) as (r & Hr) by (subst lang; destruct l; [destruct (String.eqb _ _)|]; by eexists).
  rewrite Hr in Hrun. destruct r as [lg|]; [|done]. unfold lift_res in Hrun.
  destruct (new_version _ _ _ _ _ _) as [w|] eqn:Hw; [|done]. apply new_version_ok in Hw as (Hwf1 & Hwn & Hws & _).
  destruct act; cbn [put_function set_functions modS mret stm_ret] in Hrun;
    match type of Hrun with context [insert_version w ?st] => destruct (insert_version_cases w st) as [Hi|Hi]; rewrite Hi in Hrun; [|done] end;
    cbn [ns functions versions calls mret stm_ret] in Hrun; injection Hrun as <- <-; rewrite ?Hwn; by split_and!.
Qed.

(** What is deployed is what runs.  For a function [f] that service
    [sn] of a namespace has under the name [fn], in any spelling:
    a new active version makes [get_for_execution] return exactly that version,
    with the code it was created with; [set_active_version] makes it return the
    version stored under that number; after [delete] it returns NotFoundError. *)
Theorem deployed_version_runs s f n sn fn :
  wf s -> f ∈ functions s -> is_live f = true -> in_service s n (str_lower sn) f -> f_name f = str_lower fn ->
  (forall now vi sp adm l v s', create_version now vi (f_id f) sp true adm l s = (Ok v, s') ->
     v_spec v = sp /\ exists f', get_for_execution n sn fn s' = (Ok (f', v), s')) /\
  (forall k f' s', set_active_version (f_id f) k s = (Ok f', s') ->
     exists v, get_version (f_id f) k s = (Ok v, s) /\ get_for_execution n sn fn s' = (Ok (f', v), s')) /\
  (forall now adm s', delete now (f_id f) adm s = (Ok tt, s') ->
     forall f' v, get_for_execution n sn fn s' <> (Ok (f', v), s')).
Proof.
  intros Hwf Hf Hl Hin Hnm. split; [|split].
  - intros now vi sp adm l v s' Hrun.
    destruct (create_version_ok _ _ _ _ _ _ _ _ _ _ Hwf Hf Hl Hrun) as (-> & Hid & Hsp & Hwf'). split; [done|].
    exists (with_active f (v_version v)). apply get_for_execution_iff; [done|]. cbn [functions versions]. split_and!; try done.
    + by apply (replace_elem f).
    + apply elem_of_app. right. by left.
  - intros k f' s' Hrun. pose proof (committed_wf (SetActive (f_id f) k) s Hwf I) as Hwf'.
    cbn [run_op] in Hwf'. rewrite (run_op_commit _ _ _ _ Hrun) in Hwf'.
    unfold set_active_version, mbind, stm_bind in Hrun. rewrite get_by_id_live in Hrun by done.
    destruct (get_version_cases (f_id f) k s) as [(v & Hv & Hvin & Hvid & Hvn)|(e & He)]; [|by rewrite He in Hrun].
    rewrite Hv in Hrun. destruct (k <? 1); [done|]. cbn [put_function set_functions modS mret stm_ret] in Hrun.
    injection Hrun as <- <-. exists v. split; [done|]. apply get_for_execution_iff; [done|]. split_and!; try done.
    + by apply (replace_elem f).
  - intros now adm s' Hrun f' v Hget. pose proof (committed_wf (Delete now (f_id f) adm) s Hwf I) as Hwf'.
    cbn [run_op] in Hwf'. rewrite (run_op_commit _ _ _ _ Hrun) in Hwf'.
    unfold delete, mbind, stm_bind in Hrun. rewrite get_by_id_live in Hrun by done.
    destruct (locked f && negb adm); [done|]. cbn [put_function set_functions modS] in Hrun. injection Hrun as <-.
    apply get_for_execution_iff in Hget as (Hf' & Hlive & (x & Hx & Hxi & Hxn & Hxs) & Hnm' & _); [|done].
    cbn [functions versions ns] in *. destruct Hin as (y & Hy & Hyi & Hyn & Hys).
    assert (x = y) as -> by (apply (NoDup_map_inj service_key (services (ns s))); [apply Hwf|done|done|]; unfold service_key; congruence).
    apply elem_of_replace in Hf' as [->|[Hf' Hne]]; [done|]. cbn in Hne. apply Hne. f_equal.
    apply (NoDup_map_inj full_name (functions s)); [apply Hwf|done|done|]. unfold full_name. congruence.
Qed.

(** What [create] leaves runs, whether the name is new or that of a deleted
    function. *)
Lemma create_runs s n sn fn x now i vi sp d t l safe tr f' s' :
  wf s -> i ∉ map f_id (functions s) -> x ∈ services (ns s) -> s_namespace_id x = n -> s_name x = str_lower sn ->
  create now i vi (s_id x) fn sp d t l safe tr s = (Ok f', s') ->
  wf s' /\ exists v, get_for_execution n sn fn s' = (Ok (f', v), s') /\ v_spec v = sp /\ v_language v = l /\ output_trust f' = tr.
Proof.
  intros Hwf Hi Hx Hxn Hxs Hrun.
  pose proof (committed_wf (Create now i vi (s_id x) fn sp d t l safe tr) s Hwf Hi) as Hwf'.
  cbn [run_op] in Hwf'. rewrite (run_op_commit _ _ _ _ Hrun) in Hwf'. split; [done|].
  unfold create, mbind, stm_bind, getS, lift_res in Hrun.
  destruct (one_or_none_cases (fun f => String.eqb (f_service_id f) (s_id x) && String.eqb (f_name f) (str_lower fn)) (functions s))
    as [(f & E & Hf & [Hsv%String.eqb_eq Hnm%String.eqb_eq]%andb_true_iff & _)|[[E _]|E]]; rewrite E in Hrun; [| |done].
  - destruct (is_live f); [done|]. cbn [put_function set_functions modS] in Hrun.
    set (f1 := Function _ _ _ _ _ _ _ _ _ _ _ _ _) in Hrun. destruct (new_version _ _ _ _ _ _) as [v|] eqn:Hv; [|done].
    apply new_version_ok in Hv as (Hvf & Hvn & Hvs & Hvl & _). unfold put_function, set_functions, modS, trust_fits in Hrun.
    destruct (10 <? _); [done|]. cbn [mret stm_ret] in Hrun.
    match type of Hrun with context [insert_version v ?st] => destruct (insert_version_cases v st) as [Hins|Hins]; rewrite Hins in Hrun; [|done] end.
    cbn [ns functions versions calls] in Hrun. injection Hrun as <- <-. exists v. split; [|done].
    apply get_for_execution_iff; [done|]. cbn [functions versions]. split_and!; try done.
    + apply (replace_elem f1); [|done]. by apply (replace_elem f).
    + by exists x.
    + apply elem_of_app. right. by left.
  - destruct (validate_item_name _) as [nm|] eqn:Hnm; [|done]. apply validate_item_name_ok in Hnm. rewrite str_lower_idem in Hnm. subst nm.
    unfold insert_function, mbind, stm_bind, getS in Hrun. destruct (_ || _ || _); [done|]. unfold trust_fits in Hrun.
    destruct (10 <? _); [done|]. cbn [mret stm_ret set_functions modS] in Hrun.
    destruct (new_version _ _ _ _ _ _) as [v|] eqn:Hv; [|done]. apply new_version_ok in Hv as (Hvf & Hvn & Hvs & Hvl & _).
    match type of Hrun with context [insert_version v ?st] => destruct (insert_version_cases v st) as [Hins|Hins]; rewrite Hins in Hrun; [|done] end.
    cbn [ns functions versions calls] in Hrun. injection Hrun as <- <-. exists v. split; [|done].
    apply get_for_execution_iff; [done|]. cbn [functions versions]. split_and!; try done.
    + apply elem_of_app. right. by left.
    + by exists x.
    + apply elem_of_app. right. by left.
Qed.

(** Creating a function under the name of a deleted one revives its row:
    the history goes on with the next number and the new code runs, but the
    argument [public_safe] is not looked at: the flag of the deleted function
    stays. *)
Theorem recreated_function s f fn sn n now i vi sp d t l safe tr f' s' :
  wf s -> f ∈ functions s -> is_live f = false -> f_name f = str_lower fn -> in_service s n (str_lower sn) f ->
  i ∉ map f_id (functions s) ->
  create now i vi (f_service_id f) fn sp d t l safe tr s = (Ok f', s') ->
  f_id f' = f_id f /\ public_safe f' = public_safe f /\ exists v,
    get_for_execution n sn fn s' = (Ok (f', v), s') /\ v_spec v = sp /\
    v_version v = max_version (versions_of (f_id f) (versions s)) + 1.
Proof.
  intros Hwf Hf Hl Hnm Hin Hi Hrun.
  pose proof (committed_wf (Create now i vi (f_service_id f) fn sp d t l safe tr) s Hwf Hi) as Hwf'.
  cbn [run_op] in Hwf'. rewrite (run_op_commit _ _ _ _ Hrun) in Hwf'.
  unfold create, mbind, stm_bind, getS, lift_res in Hrun. rewrite (one_unique full_name _ _ f) in Hrun; [|apply Hwf|done| |].
  2: by rewrite <-Hnm, !String.eqb_refl.
  2: intros g _ [Hg1%String.eqb_eq Hg2%String.eqb_eq]%andb_true_iff; unfold full_name; congruence.
  rewrite Hl in Hrun. cbn [put_function set_functions modS] in Hrun.
  set (f1 := Function _ _ _ _ _ _ _ _ _ _ _ _ _) in Hrun. destruct (new_version _ _ _ _ _ _) as [v|] eqn:Hv; [|done].
  apply new_version_ok in Hv as (Hvf & Hvn & Hvs & _). unfold put_function, set_functions, modS, trust_fits in Hrun.
  destruct (10 <? _); [done|]. cbn [mret stm_ret] in Hrun.
  match type of Hrun with context [insert_version v ?st] => destruct (insert_version_cases v st) as [Hins|Hins]; rewrite Hins in Hrun; [|done] end.
  cbn [ns functions versions calls] in Hrun. injection Hrun as <- <-.
  split; [done|]. split; [done|]. exists v. split; [|done]. apply get_for_execution_iff; [done|]. cbn [functions versions].
  split_and!; try done.
  - apply (replace_elem f1); [|done]. by apply (replace_elem f).
  - apply elem_of_app. right. by left.
Qed.

(** ** Examples *)

Definition demo_ns : Namespaces.tables :=
  Tables [] [] [Namespace "n1" "a1" "acme" None None None 0 None] [Service "s1" "n1" "social" None] [] [].
Definition empty_store : store := Store demo_ns [] [] ∅.
Definition demo_spec (c : string) : spec := Spec "code_sandbox" (Some c) None None None None None None None.
Definition demo_ops : list op :=
  [Create 1 "f1" "v1" "s1" "Post" (demo_spec "one") None None "python" true "prompt";
   CreateVersion 2 "v2" "f1" (demo_spec "two") false false None].
Definition demo_later : list op :=
  [CreateVersion 4 "v3" "f1" (demo_spec "three") true false None;
   Update "f1" (Some "posts") None None None;
   Create 5 "f2" "v4" "s1" "like" (demo_spec "like") None None "typescript" false "data"].
Definition demo_store : store := run demo_ops empty_store.
Definition demo_fn : function := Function "f1" "s1" "post" None None "prompt" 1 0 false None None true None.
Definition demo_locked : store := run [Lock 3 "f1" "u1"] demo_store.
Definition demo_deleted : store := run [Delete 3 "f1" false] demo_store.
Definition demo_v1 : version := Version "v1" "f1" 1 "python" (demo_spec "one") 1.

Ltac elem := repeat first [apply list_elem_of_here|apply list_elem_of_further].
Ltac not_elem := apply (bool_decide_unpack _); vm_compute; exact I.

Lemma empty_wf : wf empty_store.
Proof.
  split; cbn; try (by constructor); try (apply NoDup_singleton).
Qed.

Lemma demo_fresh : fresh_run demo_ops empty_store.
Proof. split; [not_elem|]. split; done. Qed.

Lemma demo_ops_wf : wf demo_store.
Proof. apply run_wf; [apply empty_wf|apply demo_fresh]. Qed.

Lemma locked_wf : wf demo_locked.
Proof. apply run_wf; [apply demo_ops_wf|by split]. Qed.

Lemma deleted_wf : wf demo_deleted.
Proof. apply run_wf; [apply demo_ops_wf|by split]. Qed.

Lemma later_fresh : fresh_run demo_later demo_locked.
Proof. split; [done|]. split; [done|]. split; [not_elem|done]. Qed.

Example demo_execution :
  get_for_execution "n1" "Social" "POST" demo_store = (Ok (demo_fn, demo_v1), demo_store) /\
  (exists e, (create_version 4 "v3" "f1" (demo_spec "three") true false None demo_locked).1 = Err e) /\
  (exists f v, get_for_execution "n1" "social" "post" (run [SetActive "f1" 2] demo_store) = (Ok (f, v), run [SetActive "f1" 2] demo_store) /\
     code (v_spec v) = Some "two").
Proof. split; [by vm_compute|]. split; eexists; [by vm_compute|]. eexists. split; [by vm_compute|done]. Qed.

Lemma functions_well_formed_witness : (wf empty_store /\ fresh_run demo_ops empty_store) /\ wf (run demo_ops empty_store).
Proof.
  split; [split; [apply empty_wf|apply demo_fresh]|]. apply (functions_well_formed demo_ops); [apply empty_wf|apply demo_fresh].
Defined.

Lemma versions_immutable_witness : get_version "f1" 1 (run demo_later demo_locked) = (Ok demo_v1, run demo_later demo_locked).
Proof.
  apply (versions_immutable demo_later demo_locked (lock_row demo_fn true (Some "u1") (Some 3)) 1 demo_v1);
    [apply locked_wf|apply later_fresh|vm_compute; elem| |by vm_compute].
  unfold demo_later. rewrite !not_elem_of_cons. split_and!; [done..|apply not_elem_of_nil].
Defined.

Lemma locked_function_frozen_witness : exists f',
  get_for_execution "n1" "social" "post" (run demo_later demo_locked) = (Ok (f', demo_v1), run demo_later demo_locked) /\ locked f' = true.
Proof.
  apply (locked_function_frozen demo_later demo_locked (lock_row demo_fn true (Some "u1") (Some 3)) "n1" "social" "post" demo_v1);
    [apply locked_wf|apply later_fresh|repeat constructor|done|by vm_compute|].
  exists (Service "s1" "n1" "social" None). split; [vm_compute; elem|done].
Defined.

Lemma deployed_version_runs_witness : exists f' v,
  get_for_execution "n1" "social" "Post" (run [SetActive "f1" 2] demo_store) = (Ok (f', v), run [SetActive "f1" 2] demo_store) /\
  get_version "f1" 2 demo_store = (Ok v, demo_store).
Proof.
  assert (in_service demo_store "n1" (str_lower "social") demo_fn) as Hin
    by (exists (Service "s1" "n1" "social" None); split; [vm_compute; elem|done]).
  destruct (deployed_version_runs demo_store demo_fn "n1" "social" "Post" demo_ops_wf ltac:(vm_compute; elem) eq_refl Hin eq_refl)
    as (_ & Hset & _).
  destruct (Hset 2 (with_active demo_fn 2) (run [SetActive "f1" 2] demo_store)) as (v & Hv & Hrun); [by vm_compute|].
  exists (with_active demo_fn 2), v. split; [exact Hrun|exact Hv].
Defined.

Lemma recreated_function_witness :
  let s' := (create 9 "f9" "v9" "s1" "post" (demo_spec "new") None None "typescript" false "data" demo_deleted).2 in
  exists f' v, get_for_execution "n1" "social" "post" s' = (Ok (f', v), s') /\ public_safe f' = true /\ v_version v = 3.
Proof.
  assert (in_service demo_deleted "n1" (str_lower "social")
    (Function "f1" "s1" "post" None None "prompt" 1 0 false None None true (Some 3))) as Hin
    by (exists (Service "s1" "n1" "social" None); split; [vm_compute; elem|done]).
  intros s'. pose proof (recreated_function demo_deleted
    (Function "f1" "s1" "post" None None "prompt" 1 0 false None None true (Some 3)) "post" "social" "n1" 9 "f9" "v9"
    (demo_spec "new") None None "typescript" false "data"
    (Function "f1" "s1" "post" None None "data" 3 0 false None None true None) s' deleted_wf ltac:(vm_compute; elem) eq_refl eq_refl
    Hin ltac:(not_elem) ltac:(by vm_compute)) as (_ & Hsafe & v & Hget & _ & Hv).
  exists (Function "f1" "s1" "post" None None "data" 3 0 false None None true None), v. by repeat split.
Defined.
