(* ===== verification/Procedures.v ===== *)
(** * Procedures

    [services/procedure_service.py] on the tables of [models/procedure.py]: a
    procedure is a list of steps, each of which must call one function; its
    versions are kept, the active one runs, and every run is an execution row.
    Steps are JSON objects, as the API receives them. *)

From S2P Require Import Prelude JsonPath Security Namespaces Functions.
From stdpp Require Import gmap strings.
From Stdlib Require Import Ascii.

Open Scope Z_scope.

(** ** Tables *)

Definition step := list (string * pyval).

Record procedure := Procedure {
  p_id : string;
  p_namespace_id : string;
  p_service_id : string;
  p_name : string;
  p_description : option string;
  p_active_version : Z;
  p_is_deleted : bool;
  p_created_at : Z
}.

Record pversion := PVersion { pv_procedure_id : string; pv_version : Z; pv_steps : list step; pv_created_by : option string }.

Record execution := Execution {
  x_id : string;
  x_procedure_id : string;
  x_procedure_version : Z;
  x_agent_id : option string;
  x_trigger_type : string;
  x_status : string;
  x_current_step : Z;
  x_step_results : list pyval;
  x_input_context : option pyval;
  x_completed_at : option Z;
  x_error : option string;
  x_created_at : Z
}.

Record pstore := PStore {
  base : store;
  procedures : list procedure;
  pversions : list pversion;
  executions : list execution
}.

(** Exceptions: those of the services, and two of Python on steps of another shape. *)
Inductive pexn := Exn (e : exn) | TypeError | AttributeError.

Abbreviation M := (stm pstore pexn).

Definition lift {A} (r : res exn A) : M A := fun s => (match r with Ok a => Ok a | Err e => Err (Exn e) end, s).
Definition throw {A} (e : exn) : M A := raise (Exn e).
Definition set_procedures (g : list procedure -> list procedure) : M unit := modS (fun s =>
  PStore (base s) (g (procedures s)) (pversions s) (executions s)).
Definition set_pversions (g : list pversion -> list pversion) : M unit := modS (fun s =>
  PStore (base s) (procedures s) (g (pversions s)) (executions s)).
Definition set_executions (g : list execution -> list execution) : M unit := modS (fun s =>
  PStore (base s) (procedures s) (pversions s) (g (executions s))).
(** The row replaced where the identifier is its own. *)
Definition replace_row {A} (key : A -> string) (x : A) : list A -> list A :=
  map (fun y => if String.eqb (key y) (key x) then x else y).

Definition put_procedure (p : procedure) : M unit := set_procedures (replace_row p_id p).
Definition put_execution (x : execution) : M unit := set_executions (replace_row x_id x).

(** ** Validators *)

Definition PROCEDURE_EXECUTION_STATUSES : list string := ["running"; "completed"; "failed"].
Definition FAILURE_POLICIES : list string := ["required"; "allowed"; "skip"].
Definition MAX_STEPS : nat := 20.
Definition MIN_STEPS : nat := 1.
Definition MAX_RETRIES : Z := 5.

(** [step.get(key, dflt)] *)
Definition get (key : string) (dflt : pyval) (s : step) : pyval := dict_getd key dflt s.

(** A value that [isinstance(v, int)] accepts, as a number. *)
Definition int_value (v : pyval) : option Z :=
  match v with PInt z => Some z | PBool b => Some (if b then 1 else 0) | _ => None end.

Definition valid_policy (v : pyval) : bool := match v with PStr p => str_in p FAILURE_POLICIES | _ => false end.
Definition valid_retries (v : pyval) : bool :=
  match int_value v with Some z => (0 <=? z) && (z <=? MAX_RETRIES) | None => false end.

Definition validate_step (s : step) : bool :=
  dict_has "function_ref" s && dict_has "name" s && dict_has "instructions" s
  && valid_policy (get "failure_policy" (PStr "required") s) && valid_retries (get "max_retries" (PInt 1) s).

(** [ProcedureVersion.validate_steps] *)
Definition validate_steps (steps : list step) : res exn unit :=
  if (length steps <? MIN_STEPS)%nat || (MAX_STEPS <? length steps)%nat then Err ValueError
  else if forallb validate_step steps then Ok tt else Err ValueError.

Definition get_active_version_obj (l : list pversion) (p : procedure) : option pversion :=
  List.find (fun v => String.eqb (pv_procedure_id v) (p_id p) && (pv_version v =? p_active_version p)) l.

(** ** Steps *)

(** [step[key]] *)
Definition item (key : string) (s : step) : M pyval :=
  match dict_get key s with Some v => mret v | None => throw KeyError end.

Definition is_text (t : string) (v : pyval) : bool := match v with PStr s => String.eqb s t | _ => false end.

(** [validate_expression] of every expression of a mapping; with [names], what
    an input mapping may refer to. *)
Fixpoint check_mapping (names : option (list pyval)) (mapping : list (string * pyval)) : M unit :=
  match mapping with
  | [] => mret tt
  | (_, expr) :: mapping' =>
      match validate_expression expr with
      | Some _ => throw ValueError
      | None =>
          match names, expr with
          | Some names, PStr e =>
              if starts_with "$.steps." e then
                let ref_step := default "" (str_split "."%char e !! 2%nat) in
                if existsb (is_text ref_step) names then check_mapping (Some names) mapping' else throw ValueError
              else check_mapping (Some names) mapping'
          | _, _ => check_mapping names mapping'
          end
      end
  end.

(** The mapping is looked at when it is a dict with entries. *)
Definition check_mapping_of (names : option (list pyval)) (v : pyval) : M unit :=
  match v with PDict d => check_mapping names d | _ => mret tt end.

Definition with_truthy (key : string) (v : pyval) (s : step) : step := if truthy v then s ++ [(key, v)] else s.

(** The loop that checks and normalizes the steps. *)
Fixpoint normalize_steps (i : Z) (names : list pyval) (steps : list step) : M (list step) :=
  match steps with
  | [] => mret []
  | st :: steps' =>
      let input_mapping := get "input_mapping" PNone st in
      let output_mapping := get "output_mapping" PNone st in
      check_mapping_of (Some names) input_mapping;;
      check_mapping_of None output_mapping;;
      name ← item "name" st;
      function_ref ← item "function_ref" st;
      instructions ← item "instructions" st;
      let normalized :=
        [("step_number", PInt i); ("name", name); ("function_ref", function_ref); ("instructions", instructions);
         ("failure_policy", get "failure_policy" (PStr "required") st); ("max_retries", get "max_retries" (PInt 1) st);
         ("validation", get "validation" PNone st)] in
      rest ← normalize_steps (i + 1) (names ++ [name]) steps';
      mret (with_truthy "output_mapping" output_mapping (with_truthy "input_mapping" input_mapping normalized) :: rest)
  end.

(** The function a step refers to exists: the loop of [create_procedure]. *)
Fixpoint check_references (i : Z) (namespace_id : string) (steps : list step) : M unit :=
  match steps with
  | [] => mret tt
  | st :: steps' =>
      ref ← item "function_ref" st;
      match ref with
      | PStr r =>
          match split_once "." r with
          | None => throw ValueError
          | Some (svc_name, fn_name) =>
              s ← getS;
              found ← lift (one_or_none (fun f => String.eqb (f_name f) (str_lower fn_name))
                (joined (fun x => String.eqb (s_namespace_id x) namespace_id && String.eqb (s_name x) svc_name) (base s)));
              match found with
              | Some _ => check_references (i + 1) namespace_id steps'
              | None => throw (mcp_with NotFoundError ("Step " +:+ str_of_Z i +:+ ": function '" +:+ r +:+ "' not found in namespace"))
              end
          end
      | PDict d => if dict_has "." d then raise AttributeError else throw ValueError
      | PList l => if existsb (is_text ".") l then raise AttributeError else throw ValueError
      | _ => raise TypeError
      end
  end.

(** ** [ProcedureService] *)

Definition get_service (namespace_id service_name : string) : M service :=
  s ← getS;
  found ← lift (one_or_none (fun x => String.eqb (s_namespace_id x) namespace_id && String.eqb (s_name x) service_name)
                  (services (ns (base s))));
  match found with
  | Some x => mret x
  | None => throw (mcp_with NotFoundError ("Service '" +:+ service_name +:+ "' not found"))
  end.

Definition live_named (service_id name : string) (p : procedure) : bool :=
  String.eqb (p_service_id p) service_id && String.eqb (p_name p) name && negb (p_is_deleted p).

(** [ProcedureVersion(...)] and its insertion: the validator, then the unique
    number on flush. *)
Definition add_version (v : pversion) : M unit :=
  _ ← lift (validate_steps (pv_steps v));
  s ← getS;
  if existsb (fun w => String.eqb (pv_procedure_id w) (pv_procedure_id v) && (pv_version w =? pv_version v)) (pversions s)
  then throw DBAPIError else set_pversions (fun l => l ++ [v]).

Definition create_procedure (now : Z) (new_id namespace_id service_name name : string) (steps : list step)
    (description created_by : option string) : M procedure :=
  svc ← get_service namespace_id service_name;
  s ← getS;
  existing ← lift (one_or_none (live_named (s_id svc) name) (procedures s));
  match existing with
  | Some _ => throw (mcp_with ConflictError ("Procedure '" +:+ name +:+ "' already exists in service '" +:+ service_name +:+ "'"))
  | None =>
      check_references 1 namespace_id steps;;
      normalized ← normalize_steps 1 [] steps;
      let p := Procedure new_id namespace_id (s_id svc) name description 1 false now in
      set_procedures (fun l => l ++ [p]);;
      add_version (PVersion new_id 1 normalized created_by);;
      mret p
  end.

Definition get_procedure (namespace_id service_name name : string) : M procedure :=
  svc ← get_service namespace_id service_name;
  s ← getS;
  found ← lift (one_or_none (live_named (s_id svc) name) (procedures s));
  match found with
  | Some p => mret p
  | None => throw (mcp_with NotFoundError ("Procedure '" +:+ name +:+ "' not found in service '" +:+ service_name +:+ "'"))
  end.

Definition list_procedures (namespace_id service_name : string) : M (list procedure) :=
  svc ← get_service namespace_id service_name;
  s ← getS;
  mret (order_by (fun a b => p_created_at b <=? p_created_at a)
          (List.filter (fun p => String.eqb (p_service_id p) (s_id svc) && negb (p_is_deleted p)) (procedures s))).

Definition update_procedure (namespace_id service_name name : string) (steps : option (list step))
    (description created_by : option string) : M procedure :=
  p ← get_procedure namespace_id service_name name;
  let p := match description with
           | Some d => Procedure (p_id p) (p_namespace_id p) (p_service_id p) (p_name p) (Some d) (p_active_version p)
                         (p_is_deleted p) (p_created_at p)
           | None => p
           end in
  match steps with
  | None => put_procedure p;; mret p
  | Some steps =>
      normalized ← normalize_steps 1 [] steps;
      let n := p_active_version p + 1 in
      let p' := Procedure (p_id p) (p_namespace_id p) (p_service_id p) (p_name p) (p_description p) n
                  (p_is_deleted p) (p_created_at p) in
      put_procedure p';;
      add_version (PVersion (p_id p) n normalized created_by);;
      mret p'
  end.

Definition delete_procedure (namespace_id service_name name : string) : M unit :=
  p ← get_procedure namespace_id service_name name;
  put_procedure (Procedure (p_id p) (p_namespace_id p) (p_service_id p) (p_name p) (p_description p) (p_active_version p)
                   true (p_created_at p)).

(** [validate_status] passes ["running"]. *)
Definition create_execution (now : Z) (new_id : string) (p : procedure) (trigger_type : string) (agent_id : option string)
    (input_context : option pyval) : M execution :=
  let x := Execution new_id (p_id p) (p_active_version p) agent_id trigger_type "running" 1 [] input_context None None now in
  if 20 <? str_len trigger_type then throw DBAPIError
  else set_executions (fun l => l ++ [x]);; mret x.

Definition get_execution (execution_id : string) : M execution :=
  s ← getS;
  found ← lift (one_or_none (fun x => String.eqb (x_id x) execution_id) (executions s));
  match found with
  | Some x => mret x
  | None => throw (mcp_with NotFoundError ("Procedure execution '" +:+ execution_id +:+ "' not found"))
  end.

Definition list_executions (procedure_id : string) (status : option string) (limit : Z) : M (list execution) :=
  s ← getS;
  let rows := List.filter (fun x => String.eqb (x_procedure_id x) procedure_id
    && (negb (truthy_ostr status) || String.eqb (x_status x) (default "" status))) (executions s) in
  if limit <? 0 then throw DBAPIError
  else mret (take (Z.to_nat limit) (order_by (fun a b => x_created_at b <=? x_created_at a) rows)).

(** [setattr] for the columns that the callers pass; [status] is validated. *)
Definition update_execution (x : execution) (status : string) (current_step : Z) (step_results : list pyval)
    (completed_at : Z) (error : option string) : M unit :=
  if negb (str_in status PROCEDURE_EXECUTION_STATUSES) then throw ValueError
  else put_execution (Execution (x_id x) (x_procedure_id x) (x_procedure_version x) (x_agent_id x) (x_trigger_type x)
         status current_step step_results (x_input_context x) (Some completed_at)
         (match error with Some e => Some e | None => x_error x end) (x_created_at x)).

(** ** Well-formed procedures *)

(** The references [$.steps.x...] of an input mapping name earlier steps. *)
Definition refs_ok (names : list pyval) (st : step) : Prop :=
  forall d k e, get "input_mapping" PNone st = PDict d -> (k, PStr e) ∈ d -> starts_with "$.steps." e = true ->
    exists nm, nm ∈ names /\ is_text (default "" (str_split "."%char e !! 2%nat)) nm = true.

Definition mapping_ok (v : pyval) : Prop :=
  forall d k e, v = PDict d -> (k, e) ∈ d -> validate_expression e = None.

Fixpoint steps_typed (i : Z) (names : list pyval) (steps : list step) : Prop :=
  match steps with
  | [] => True
  | st :: steps' =>
      dict_get "step_number" st = Some (PInt i) /\
      mapping_ok (get "input_mapping" PNone st) /\ mapping_ok (get "output_mapping" PNone st) /\
      refs_ok names st /\ steps_typed (i + 1) (names ++ [get "name" PNone st]) steps'
  end.

(** The steps of a version, as it is stored. *)
Definition stored_ok (steps : list step) : Prop :=
  (MIN_STEPS <= length steps <= MAX_STEPS)%nat /\ forallb validate_step steps = true /\ steps_typed 1 [] steps.

Definition version_key (v : pversion) : string * Z := (pv_procedure_id v, pv_version v).
Definition live_key (p : procedure) : string * string := (p_service_id p, p_name p).
Definition live (p : procedure) : bool := negb (p_is_deleted p).

Record wf (s : pstore) : Prop := {
  wf_ids : NoDup (map p_id (procedures s));
  wf_names : NoDup (map live_key (List.filter live (procedures s)));
  wf_version_keys : NoDup (map version_key (pversions s));
  wf_active : Forall (fun p => (p_id p, p_active_version p) ∈ map version_key (pversions s)) (procedures s);
  wf_latest : Forall (fun v => exists p, p ∈ procedures s /\ p_id p = pv_procedure_id v /\ 1 <= pv_version v <= p_active_version p)
                (pversions s);
  wf_steps : Forall (fun v => stored_ok (pv_steps v)) (pversions s);
  wf_status : Forall (fun x => x_status x ∈ PROCEDURE_EXECUTION_STATUSES) (executions s)
}.

(** *** Normalized steps *)

Lemma bind_ok {S E A B} (m : stm S E A) (f : A -> stm S E B) s b s' :
  (m ≫= f) s = (Ok b, s') -> exists a s1, m s = (Ok a, s1) /\ f a s1 = (Ok b, s').
Proof. unfold mbind, stm_bind. destruct (m s) as [[a|e] s1]; intros; [by exists a, s1|done]. Qed.

Ltac step_ok H :=
  let a := fresh "a" in let s1 := fresh "s1" in let H1 := fresh "H" in
  apply bind_ok in H as (a & s1 & H1 & H).

Lemma lift_ok {A} (r : res exn A) s a s' : lift r s = (Ok a, s') -> r = Ok a /\ s' = s.
Proof. unfold lift. destruct r; intros [= -> ->]; done. Qed.

Lemma item_ok k st s v s' : item k st s = (Ok v, s') -> dict_get k st = Some v /\ s' = s.
Proof. unfold item. destruct (dict_get k st); intros [= -> ->]; done. Qed.

Lemma check_mapping_ok names d s u s' : check_mapping names d s = (Ok u, s') ->
  s' = s /\ forall k e, (k, e) ∈ d -> validate_expression e = None /\
    forall ns t, names = Some ns -> e = PStr t -> starts_with "$.steps." t = true ->
      existsb (is_text (default "" (str_split "."%char t !! 2%nat))) ns = true.
Proof.
  revert s. induction d as [|[k0 e0] d IH]; intros s; cbn [check_mapping].
  - intros [= _ <-]. split; [done|]. by intros ? ? ?%not_elem_of_nil.
  - destruct (validate_expression e0) eqn:Hv; [done|]. intros Hrun.
    assert (check_mapping names d s = (Ok u, s') /\ forall ns t, names = Some ns -> e0 = PStr t -> starts_with "$.steps." t = true ->
      existsb (is_text (default "" (str_split "."%char t !! 2%nat))) ns = true) as [Hd H0].
    { destruct names as [ns|]; [|by split]. destruct e0; try (by split).
      destruct (starts_with "$.steps." s0) eqn:Hs.
      - destruct (existsb _ ns) eqn:Hex; [|done]. split; [done|]. by intros ? ? [= <-] [= <-] _.
      - split; [done|]. intros ? ? [= <-] [= <-]. congruence. }
    apply IH in Hd as [-> Hd]. split; [done|]. intros k e [[= -> ->]|Hin]%elem_of_cons; [by split|by apply (Hd k)].
Qed.

Lemma check_mapping_of_ok names v s u s' : check_mapping_of names v s = (Ok u, s') ->
  s' = s /\ mapping_ok v /\ forall ns d k t, names = Some ns -> v = PDict d -> (k, PStr t) ∈ d -> starts_with "$.steps." t = true ->
      existsb (is_text (default "" (str_split "."%char t !! 2%nat))) ns = true.
Proof.
  unfold check_mapping_of. destruct v as [| | | | |d]; try (intros [= _ <-]; split; [done|]; split; by intros ? ? ? ?).
  intros [-> H]%check_mapping_ok. split; [done|]. split.
  - intros d' k e [= <-] Hin. by apply (H k).
  - intros ns d' k t Hn [= <-] Hin. by apply (H k (PStr t)).
Qed.

Lemma mapping_ok_none : mapping_ok PNone.
Proof. by intros ? ? ?. Qed.

(** What a normalized step has under its keys. *)
Lemma normalized_get i nm fr ins fp mr va im om :
  let st := with_truthy "output_mapping" om (with_truthy "input_mapping" im
    [("step_number", i); ("name", nm); ("function_ref", fr); ("instructions", ins); ("failure_policy", fp); ("max_retries", mr);
     ("validation", va)]) in
  dict_get "step_number" st = Some i /\ get "name" PNone st = nm /\
  get "input_mapping" PNone st = (if truthy im then im else PNone) /\
  get "output_mapping" PNone st = (if truthy om then om else PNone).
Proof. unfold with_truthy. by destruct (truthy im), (truthy om). Qed.

Lemma normalize_ok steps : forall i names s out s', normalize_steps i names steps s = (Ok out, s') ->
  s' = s /\ steps_typed i names out.
Proof.
  induction steps as [|st steps IH]; intros i names s out s'; cbn [normalize_steps].
  - by intros [= <- <-].
  - intros Hrun. step_ok Hrun. step_ok Hrun. step_ok Hrun. step_ok Hrun. step_ok Hrun. step_ok Hrun.
    apply check_mapping_of_ok in H as (-> & Hi & Hrefs). apply check_mapping_of_ok in H0 as (-> & Ho & _).
    apply item_ok in H1 as [_ ->], H2 as [_ ->], H3 as [_ ->]. apply IH in H4 as [-> Hrest].
    injection Hrun as <- <-. split; [done|]. cbn [steps_typed].
    match goal with |- context [with_truthy "output_mapping" ?om (with_truthy "input_mapping" ?im
      [_; (_, ?nm); (_, ?fr); (_, ?ins); (_, ?fp); (_, ?mr); (_, ?va)])] =>
      pose proof (normalized_get (PInt i) nm fr ins fp mr va im om) as (Hnum & Hname & Him & Hom) end.
    rewrite Hname. split; [done|]. unfold refs_ok. rewrite Him, Hom.
    split; [|split; [|split; [|done]]].
    + destruct (truthy (get "input_mapping" PNone st)); [exact Hi|apply mapping_ok_none].
    + destruct (truthy (get "output_mapping" PNone st)); [exact Ho|apply mapping_ok_none].
    + intros d k e Hd Hin Hs. destruct (truthy (get "input_mapping" PNone st)); [|done].
      apply existsb_elem. by apply (Hrefs names d k e).
Qed.

Lemma check_references_state n steps : forall i s u s', check_references i n steps s = (Ok u, s') -> s' = s.
Proof.
  induction steps as [|st steps IH]; intros i s u s' H; [by injection H as _ <-|]. cbn [check_references] in H. step_ok H.
  apply item_ok in H0 as [_ ->]. destruct a as [| | |r|l|d]; try done; [|by destruct (existsb _ l)|by destruct (dict_has _ d)].
  destruct (split_once "." r) as [[svc fn]|]; [|done]. step_ok H. injection H0 as <- <-. step_ok H.
  apply lift_ok in H0 as [_ ->]. destruct a; [by apply IH in H|done].
Qed.

(** ** Transactions *)

(** The foreign keys of the rows of a deleted service ([ondelete="CASCADE"]). *)
Definition delete_service_cascade (service_id : string) : M unit := fun s =>
  match delete_service service_id (base s) with
  | (Err e, b) => (Err (Exn e), PStore b (procedures s) (pversions s) (executions s))
  | (Ok _, b) =>
      let kept := List.filter (fun p => negb (String.eqb (p_service_id p) service_id)) (procedures s) in
      let owned (id : string) := existsb (fun p => String.eqb (p_id p) id) kept in
      (Ok tt, PStore b kept (List.filter (fun v => owned (pv_procedure_id v)) (pversions s))
                (List.filter (fun x => owned (x_procedure_id x)) (executions s)))
  end.

Inductive pop :=
| PCreate (now : Z) (new_id namespace_id service_name name : string) (steps : list step) (description created_by : option string)
| PUpdate (namespace_id service_name name : string) (steps : option (list step)) (description created_by : option string)
| PDelete (namespace_id service_name name : string)
| PStart (now : Z) (new_id namespace_id service_name name trigger_type : string) (agent_id : option string)
    (input_context : option pyval)
| PFinish (execution_id status : string) (current_step : Z) (step_results : list pyval) (completed_at : Z) (error : option string)
| PFunctions (o : op)
| PDeleteService (service_id : string).

Definition pcommit {A} (m : M A) (s : pstore) : pstore :=
  match m s with (Ok _, s') => s' | (Err _, _) => s end.

Definition run_pop (o : pop) (s : pstore) : pstore :=
  match o with
  | PCreate now i n sn nm st d cb => pcommit (create_procedure now i n sn nm st d cb) s
  | PUpdate n sn nm st d cb => pcommit (update_procedure n sn nm st d cb) s
  | PDelete n sn nm => pcommit (delete_procedure n sn nm) s
  | PStart now i n sn nm tr ag inp => pcommit (p ← get_procedure n sn nm; create_execution now i p tr ag inp) s
  | PFinish i st cur res at' err => pcommit (x ← get_execution i; update_execution x st cur res at' err) s
  | PFunctions o => PStore (run_op o (base s)) (procedures s) (pversions s) (executions s)
  | PDeleteService i => pcommit (delete_service_cascade i) s
  end.

Definition pop_fresh (o : pop) (s : pstore) : Prop :=
  match o with
  | PCreate _ i _ _ _ _ _ _ => i ∉ map p_id (procedures s)
  | PFunctions o => match o with DeleteService _ => False | _ => True end
  | _ => True
  end.

Fixpoint run_pops (l : list pop) (s : pstore) : pstore :=
  match l with [] => s | o :: l' => run_pops l' (run_pop o s) end.
Fixpoint fresh_pops (l : list pop) (s : pstore) : Prop :=
  match l with [] => True | o :: l' => pop_fresh o s /\ fresh_pops l' (run_pop o s) end.

(** A committed operation that succeeded, or nothing. *)
Lemma pcommit_cases {A} (m : M A) s : (exists a, m s = (Ok a, pcommit m s)) \/ pcommit m s = s.
Proof. unfold pcommit. destruct (m s) as [[a|e] s']; [left; by exists a|by right]. Qed.

Lemma get_service_ok n sn s x s' : get_service n sn s = (Ok x, s') -> s' = s.
Proof.
  unfold get_service. intros H. step_ok H. injection H0 as <- <-. step_ok H. apply lift_ok in H0 as [_ ->].
  destruct a; [|done]. by injection H as <- <-.
Qed.

Lemma get_procedure_ok n sn nm s p s' :
  get_procedure n sn nm s = (Ok p, s') -> s' = s /\ p ∈ procedures s /\ live p = true /\ p_name p = nm.
Proof.
  unfold get_procedure. intros H. step_ok H. apply get_service_ok in H0 as ->. step_ok H. injection H0 as <- <-.
  step_ok H. apply lift_ok in H0 as [Hone ->]. destruct a0 as [q|]; [|done]. injection H as <- <-.
  destruct (one_or_none_cases (live_named (s_id a) nm) (procedures s)) as [(r & Hr & Hin & Hp & _)|[[Hr _]|Hr]];
    rewrite Hr in Hone; try done. injection Hone as <-. unfold live_named in Hp.
  apply andb_true_iff in Hp as [[_ Hn%String.eqb_eq]%andb_true_iff Hl]. done.
Qed.

Lemma add_version_ok v s u s' : add_version v s = (Ok u, s') ->
  validate_steps (pv_steps v) = Ok tt /\ (version_key v ∉ map version_key (pversions s)) /\
  s' = PStore (base s) (procedures s) (pversions s ++ [v]) (executions s).
Proof.
  unfold add_version. intros H. step_ok H. apply lift_ok in H0 as [Hv ->]. destruct a. step_ok H. injection H0 as <- <-.
  destruct (existsb _ _) eqn:E; [done|]. injection H as _ <-. split; [done|]. split; [|done].
  intros (w & [= Hw1 Hw2] & Hw)%list_elem_of_fmap. apply not_true_iff_false in E. apply E, existsb_elem.
  exists w. split; [done|]. by rewrite Hw1, Hw2, String.eqb_refl, Z.eqb_refl.
Qed.

Lemma validate_steps_ok steps : validate_steps steps = Ok tt ->
  (MIN_STEPS <= length steps <= MAX_STEPS)%nat /\ forallb validate_step steps = true.
Proof.
  unfold validate_steps. destruct (_ || _) eqn:E; [done|]. apply orb_false_iff in E as [E1%Nat.ltb_ge E2%Nat.ltb_ge].
  destruct (forallb _ _); [|done]. done.
Qed.

Lemma replace_row_keys {A B} (key : A -> string) (k : A -> B) (x x' : A) l :
  NoDup (map key l) -> x ∈ l -> key x' = key x -> k x' = k x -> map k (replace_row key x' l) = map k l.
Proof.
  intros Hnd Hx Hid Hk. unfold replace_row. rewrite map_map. apply map_ext_in. intros y Hy%list_elem_of_In.
  destruct (String.eqb_spec (key y) (key x')) as [Heq|]; [|done]. rewrite Hk. f_equal.
  apply (NoDup_map_inj key l); [done|done|done|congruence].
Qed.

Lemma elem_of_replace_row {A} (key : A -> string) x' l y : y ∈ replace_row key x' l -> y = x' \/ y ∈ l.
Proof. unfold replace_row. intros (z & -> & Hz)%list_elem_of_fmap. destruct (String.eqb _ _); [by left|by right]. Qed.

Lemma replace_row_in {A} (key : A -> string) x' l y : y ∈ l ->
  (if String.eqb (key y) (key x') then x' else y) ∈ replace_row key x' l.
Proof. intros Hy. apply list_elem_of_fmap. by exists y. Qed.

(** The live names after a row is replaced that keeps its name, or dies. *)
Lemma live_names_replace p p' l :
  NoDup (map p_id l) -> NoDup (map live_key (List.filter live l)) -> p ∈ l -> p_id p' = p_id p -> live_key p' = live_key p ->
  (live p' = true -> live p = true) -> NoDup (map live_key (List.filter live (replace_row p_id p' l))).
Proof.
  intros Hids Hnd Hp Hid Hk Hl.
  assert (map live_key (List.filter live (replace_row p_id p' l)) `sublist_of` map live_key (List.filter live l)) as Hsub.
  { clear Hnd. assert (forall x, x ∈ l -> p_id x = p_id p' -> x = p) as Huniq
      by (intros x Hx Hxi; apply (NoDup_map_inj p_id l); [done|done|done|congruence]).
    clear Hp Hids. induction l as [|x l IH]; [done|]. cbn [replace_row map List.filter].
    assert (map live_key (List.filter live (replace_row p_id p' l)) `sublist_of` map live_key (List.filter live l)) as H
      by (apply IH; intros y Hy; apply Huniq; by right). fold (replace_row p_id p' l).
    destruct (String.eqb_spec (p_id x) (p_id p')) as [He|].
    - rewrite (Huniq x) in * by (done || by left). destruct (live p') eqn:E1.
      + rewrite (Hl eq_refl). cbn [map]. rewrite Hk. by apply sublist_skip.
      + destruct (live p); [by apply sublist_cons|done].
    - destruct (live x); [by apply sublist_skip|done]. }
  by eapply sublist_NoDup.
Qed.

(** *** The invariant is kept *)

Lemma wf_frame s b x : wf s -> Forall (fun e => x_status e ∈ PROCEDURE_EXECUTION_STATUSES) x ->
  wf (PStore b (procedures s) (pversions s) x).
Proof. intros [] Hx. by split. Qed.

(** A row with the same name and the same active version. *)
Lemma put_wf s p p' :
  wf s -> p ∈ procedures s -> p_id p' = p_id p -> live_key p' = live_key p -> (live p' = true -> live p = true) ->
  p_active_version p' = p_active_version p ->
  wf (PStore (base s) (replace_row p_id p' (procedures s)) (pversions s) (executions s)).
Proof.
  intros [] Hp Hid Hk Hl Ha. split; cbn [procedures pversions executions]; try done.
  - by rewrite (replace_row_keys p_id p_id p).
  - by apply (live_names_replace p).
  - apply Forall_forall. intros q [->|Hq]%elem_of_replace_row; [|by apply (Forall_elem _ _ _ wf_active0)].
    rewrite Hid, Ha. by apply (Forall_elem _ _ _ wf_active0 Hp).
  - eapply Forall_impl; [exact wf_latest0|]. intros v (q & Hq & Hqi & Hqv).
    eexists. split; [by apply replace_row_in|]. destruct (String.eqb_spec (p_id q) (p_id p')) as [He|]; [|done].
    assert (q = p) as -> by (apply (NoDup_map_inj p_id (procedures s)); [done|done|done|congruence]).
    rewrite Hid, Ha. done.
Qed.

(** A new version, which becomes the active one. *)
Lemma version_wf s p p' v :
  wf s -> p ∈ procedures s -> p_id p' = p_id p -> live_key p' = live_key p -> (live p' = true -> live p = true) ->
  p_active_version p' = p_active_version p + 1 -> pv_procedure_id v = p_id p -> pv_version v = p_active_version p' ->
  version_key v ∉ map version_key (pversions s) -> stored_ok (pv_steps v) ->
  wf (PStore (base s) (replace_row p_id p' (procedures s)) (pversions s ++ [v]) (executions s)).
Proof.
  intros [] Hp Hid Hk Hl Ha Hv Hvn Hkey Hst.
  assert (1 <= p_active_version p) as Hpos.
  { pose proof (Forall_elem _ _ _ wf_active0 Hp) as (w & [= Hw1 Hw2] & Hw)%list_elem_of_fmap.
    destruct (Forall_elem _ _ _ wf_latest0 Hw) as (q & _ & _ & ?). lia. }
  split; cbn [procedures pversions executions]; rewrite ?map_app; try done.
  - by rewrite (replace_row_keys p_id p_id p).
  - by apply (live_names_replace p).
  - by apply NoDup_snoc.
  - apply Forall_forall. intros q [->|Hq]%elem_of_replace_row; apply elem_of_app.
    + right. apply list_elem_of_singleton. unfold version_key. congruence.
    + left. by apply (Forall_elem _ _ _ wf_active0).
  - apply Forall_app_2.
    + eapply Forall_impl; [exact wf_latest0|]. intros w (q & Hq & Hqi & Hqv).
      eexists. split; [by apply replace_row_in|]. destruct (String.eqb_spec (p_id q) (p_id p')) as [He|]; [|done].
      assert (q = p) as -> by (apply (NoDup_map_inj p_id (procedures s)); [done|done|done|congruence]).
      rewrite Hid, Ha. split; [done|lia].
    + apply Forall_singleton. exists p'. split; [|split; [congruence|lia]].
      pose proof (replace_row_in p_id p' _ p Hp) as Hin. rewrite Hid in Hin. by rewrite String.eqb_refl in Hin.
  - by apply Forall_app_2, Forall_singleton.
Qed.

Lemma new_procedure_wf s p v :
  wf s -> p_id p ∉ map p_id (procedures s) -> live_key p ∉ map live_key (List.filter live (procedures s)) -> live p = true ->
  p_active_version p = 1 -> pv_procedure_id v = p_id p -> pv_version v = 1 -> version_key v ∉ map version_key (pversions s) ->
  stored_ok (pv_steps v) ->
  wf (PStore (base s) (procedures s ++ [p]) (pversions s ++ [v]) (executions s)).
Proof.
  intros [] Hid Hk Hl Ha Hv Hvn Hkey Hst. split; cbn [procedures pversions executions]; rewrite ?map_app; try done.
  - by apply NoDup_snoc.
  - rewrite List.filter_app, map_app. cbn [List.filter]. rewrite Hl. by apply NoDup_snoc.
  - by apply NoDup_snoc.
  - apply Forall_app_2.
    + eapply Forall_impl; [exact wf_active0|]. intros q Hq. apply elem_of_app. by left.
    + apply Forall_singleton, elem_of_app. right. apply list_elem_of_singleton. unfold version_key. congruence.
  - apply Forall_app_2.
    + eapply Forall_impl; [exact wf_latest0|]. intros w (q & Hq & ?). exists q. split; [|done]. apply elem_of_app. by left.
    + apply Forall_singleton. exists p. split; [apply elem_of_app; right; by left|]. rewrite Hv, Hvn, Ha. done.
  - by apply Forall_app_2, Forall_singleton.
Qed.

Lemma delete_service_pwf s b i :
  wf s -> let kept := List.filter (fun p => negb (String.eqb (p_service_id p) i)) (procedures s) in
  let owned (id : string) := existsb (fun p => String.eqb (p_id p) id) kept in
  wf (PStore b kept (List.filter (fun v => owned (pv_procedure_id v)) (pversions s))
        (List.filter (fun x => owned (x_procedure_id x)) (executions s))).
Proof.
  intros [] kept owned. split; cbn [procedures pversions executions].
  - by apply NoDup_filter_map.
  - unfold kept. assert (forall l : list procedure, List.filter live (List.filter (fun p => negb (String.eqb (p_service_id p) i)) l) =
      List.filter (fun p => negb (String.eqb (p_service_id p) i)) (List.filter live l)) as ->.
    { induction l as [|x l IH]; [done|]. cbn. destruct (negb _) eqn:E1, (live x) eqn:E2; cbn; rewrite ?E1, ?E2, IH; done. }
    by apply NoDup_filter_map.
  - by apply NoDup_filter_map.
  - apply Forall_forall. intros p Hp. pose proof Hp as [Hin _]%elem_of_filter_bool.
    pose proof (Forall_elem _ _ _ wf_active0 Hin) as (v & Hv & Hvin)%list_elem_of_fmap. rewrite Hv.
    apply list_elem_of_fmap_2, elem_of_filter_bool. split; [done|]. injection Hv as Hv _. rewrite <-Hv.
    unfold owned. apply existsb_elem. exists p. split; [done|apply String.eqb_refl].
  - apply Forall_forall. intros v [Hv (p & Hp & He%String.eqb_eq)%existsb_elem]%elem_of_filter_bool. exists p. split; [done|].
    destruct (Forall_elem _ _ _ wf_latest0 Hv) as (q & Hq & Hqi & ?).
    assert (p = q) as -> by (apply (NoDup_map_inj p_id (procedures s));
      [done|by apply elem_of_filter_bool in Hp as [? _]|done|congruence]). done.
  - by apply Forall_filter_bool.
  - by apply Forall_filter_bool.
Qed.

Lemma run_pop_wf o s : wf s -> pop_fresh o s -> wf (run_pop o s).
Proof.
  intros Hwf Hfresh. destruct o as [now i n sn nm st d cb|n sn nm st d cb|n sn nm|now i n sn nm tr ag inp|i st cur res at' err|o|i]; cbn [run_pop].
  - destruct (pcommit_cases (create_procedure now i n sn nm st d cb) s) as [(p & H)| ->]; [|done].
    revert H. generalize (pcommit (create_procedure now i n sn nm st d cb) s) as s'. intros s' H. unfold create_procedure in H.
    step_ok H. apply get_service_ok in H0 as ->. step_ok H. injection H0 as <- <-. step_ok H.
    apply lift_ok in H0 as [Hone ->]. destruct a0 as [q|]; [done|]. step_ok H. step_ok H.
    assert (s1 = s) as -> by by eapply check_references_state. apply normalize_ok in H1 as [-> Htyped].
    step_ok H. cbn in H1. injection H1 as _ <-. step_ok H. apply add_version_ok in H1 as (Hval & Hkey & ->).
    injection H as _ <-. apply validate_steps_ok in Hval as [Hlen Hall]. cbn [base procedures pversions executions].
    apply new_procedure_wf; [done|done| |done|done|done|done|done|split; [done|by split]].
    intros (q & [= Hq1 Hq2] & [Hq Hql]%elem_of_filter_bool)%list_elem_of_fmap.
    destruct (one_or_none_cases (live_named (s_id a) nm) (procedures s)) as [(r & Hr & _)|[[Hr Hnil]|Hr]]; rewrite Hr in Hone; try done.
    assert (q ∈ List.filter (live_named (s_id a) nm) (procedures s)) as Hin; [|rewrite Hnil in Hin; by apply not_elem_of_nil in Hin].
    apply elem_of_filter_bool. split; [done|]. unfold live_named. rewrite <-Hq1, <-Hq2, !String.eqb_refl. done.
  - destruct (pcommit_cases (update_procedure n sn nm st d cb) s) as [(p & H)| ->]; [|done].
    revert H. generalize (pcommit (update_procedure n sn nm st d cb) s) as s'. intros s' H. unfold update_procedure in H.
    step_ok H. apply get_procedure_ok in H0 as (-> & Hp & Hl & Hnm).
    set (p1 := match d with Some _ => _ | None => _ end) in H.
    assert (p_id p1 = p_id a /\ live_key p1 = live_key a /\ live p1 = live a /\ p_active_version p1 = p_active_version a) as (Hid & Hk & Hlv & Ha)
      by by destruct d. clearbody p1. destruct st as [st|].
    + step_ok H. apply normalize_ok in H0 as [-> Htyped]. step_ok H. cbn in H0. injection H0 as _ <-.
      step_ok H. apply add_version_ok in H0 as (Hval & Hkey & ->). injection H as _ <-.
      apply validate_steps_ok in Hval as [Hlen Hall]. cbn [base procedures pversions executions] in *.
      apply (version_wf s a); cbn; try done; first [by rewrite Ha|split; [done|by split]].
    + step_ok H. cbn in H0. injection H0 as _ <-. injection H as _ <-. by apply (put_wf s a).
  - destruct (pcommit_cases (delete_procedure n sn nm) s) as [(p & H)| ->]; [|done].
    revert H. generalize (pcommit (delete_procedure n sn nm) s) as s'. intros s' H. unfold delete_procedure in H.
    step_ok H. apply get_procedure_ok in H0 as (-> & Hp & Hl & Hnm). cbn in H. injection H as _ <-. by apply (put_wf s a).
  - unfold pcommit, mbind, stm_bind. destruct (get_procedure n sn nm s) as [[p|e] s1] eqn:H; [|done].
    apply get_procedure_ok in H as (-> & _). unfold create_execution. destruct (20 <? _); [done|].
    unfold mbind, stm_bind. cbn [set_executions modS mret stm_ret]. apply wf_frame; [done|].
    apply Forall_app_2; [apply Hwf|]. apply Forall_singleton. by left.
  - unfold pcommit, mbind, stm_bind. destruct (get_execution i s) as [[x|e] s1] eqn:H; [|done].
    assert (s1 = s) as ->.
    { unfold get_execution in H. step_ok H. injection H0 as <- <-. step_ok H. apply lift_ok in H0 as [_ ->].
      destruct a; [by injection H|done]. }
    unfold update_execution. destruct (negb _) eqn:E; [done|]. cbn [put_execution set_executions modS]. apply wf_frame; [done|].
    apply Forall_forall. intros y [->|Hy]%elem_of_replace_row; [|by apply (Forall_elem _ _ _ (wf_status s Hwf))].
    cbn. apply negb_false_iff, str_in_spec in E. done.
  - apply wf_frame; [done|apply Hwf].
  - unfold pcommit, delete_service_cascade. destruct (delete_service i (base s)) as [[u|e] b]; [|done]. by apply delete_service_pwf.
Qed.

Lemma run_pops_wf l : forall s, wf s -> fresh_pops l s -> wf (run_pops l s).
Proof.
  induction l as [|o l IH]; intros s Hwf; [done|]. intros [Ho Hl]. apply IH; [by apply run_pop_wf|done].
Qed.

(** ** Properties *)

(** Stored procedures are well-typed: after any sequence of requests the
    live procedures of a service have different names, every procedure has an
    active version, which is its latest, and the steps of every stored version
    are 1 to 20, numbered from 1 on, with the required keys, a known failure
    policy, 0 to 5 retries, mappings that are JSON paths and input references
    only to earlier steps; every execution has one of the three statuses. *)
Theorem procedures_well_typed ops s : wf s -> fresh_pops ops s -> wf (run_pops ops s).
Proof. apply run_pops_wf. Qed.

(** The reference of a step names a live function of the namespace. *)
Definition reference_ok (s : pstore) (namespace_id : string) (st : step) : Prop :=
  exists r svc fn f, dict_get "function_ref" st = Some (PStr r) /\ split_once "." r = Some (svc, fn) /\
    f ∈ functions (base s) /\ is_live f = true /\ f_name f = str_lower fn /\ in_service (base s) namespace_id svc f.

Lemma check_references_ok n steps : forall i s u s',
  check_references i n steps s = (Ok u, s') -> Forall (reference_ok s n) steps.
Proof.
  induction steps as [|st steps IH]; intros i s u s' H; [by constructor|]. cbn [check_references] in H. step_ok H.
  apply item_ok in H0 as [Hr ->]. destruct a as [| | |r|l|d]; try done; [|by destruct (existsb _ l)|by destruct (dict_has _ d)].
  destruct (split_once "." r) as [[svc fn]|] eqn:Hs; [|done]. step_ok H. injection H0 as <- <-. step_ok H.
  apply lift_ok in H0 as [Hone ->]. destruct a as [f|]; [|done]. apply IH in H. constructor; [|done].
  destruct (one_or_none_cases (fun f => String.eqb (f_name f) (str_lower fn)) (joined (fun x => String.eqb (s_namespace_id x) n &&
    String.eqb (s_name x) svc) (base s))) as [(g & Hg & Hin & Hn%String.eqb_eq & _)|[[Hg _]|Hg]]; rewrite Hg in Hone; try done.
  injection Hone as ->. apply elem_of_filter_bool in Hin as [Hin [Hl (x & Hx & [Hx1%String.eqb_eq [Hx2%String.eqb_eq Hx3%String.eqb_eq]%andb_true_iff]%andb_true_iff)%existsb_elem]%andb_true_iff].
  exists r, svc, fn, f. split_and!; try done. by exists x.
Qed.

(** *** Checks that look at the steps only *)

Definition pure_check {A} (m : M A) : Prop := exists r, forall s, m s = (r, s).

Lemma pure_ret {A} (a : A) : pure_check (mret a).
Proof. by exists (Ok a). Qed.
Lemma pure_raise {A} e : pure_check (raise e : M A).
Proof. by exists (Err e). Qed.
Lemma pure_bind {A B} (m : M A) (f : A -> M B) : pure_check m -> (forall a, pure_check (f a)) -> pure_check (m ≫= f).
Proof.
  intros [[a|e] Hm] Hf.
  - destruct (Hf a) as [r Hr]. exists r. intros s. unfold mbind, stm_bind. rewrite Hm. apply Hr.
  - exists (Err e). intros s. unfold mbind, stm_bind. by rewrite Hm.
Qed.

Lemma check_mapping_pure names d : pure_check (check_mapping names d).
Proof.
  induction d as [|[k e] d IH]; cbn [check_mapping]; [apply pure_ret|].
  destruct (validate_expression e); [apply pure_raise|]. destruct names as [names|]; [|done].
  destruct e; try done. destruct (starts_with _ _); [|done]. destruct (existsb _ _); [done|apply pure_raise].
Qed.

Lemma check_mapping_of_pure names v : pure_check (check_mapping_of names v).
Proof. destruct v; try apply pure_ret. apply check_mapping_pure. Qed.

Lemma item_pure k st : pure_check (item k st).
Proof. unfold item. destruct (dict_get k st); [apply pure_ret|apply pure_raise]. Qed.

Lemma normalize_pure steps : forall i names, pure_check (normalize_steps i names steps).
Proof.
  induction steps as [|st steps IH]; intros i names; cbn [normalize_steps]; [apply pure_ret|].
  apply pure_bind; [apply check_mapping_of_pure|]. intros _. apply pure_bind; [apply check_mapping_of_pure|]. intros _.
  do 3 (apply pure_bind; [apply item_pure|]; intros ?). apply pure_bind; [apply IH|]. intros ?. apply pure_ret.
Qed.

(** The same tables with other functions and versions of functions. *)
Definition with_functions (fs : list function) (vs : list version) (s : pstore) : pstore :=
  PStore (Store (ns (base s)) fs vs (calls (base s))) (procedures s) (pversions s) (executions s).

(** A procedure can only be created if every step names a live function of
    the namespace.  Its update does not look at the functions at all: whatever
    the function tables hold, it gives the same answer and stores the same
    version, so that a version whose functions do not exist is accepted. *)
Theorem references_checked_on_creation s :
  (forall now i n sn nm steps d cb p s', create_procedure now i n sn nm steps d cb s = (Ok p, s') ->
     Forall (reference_ok s n) steps) /\
  (forall n sn nm steps d cb fs vs,
     let out := update_procedure n sn nm steps d cb s in
     update_procedure n sn nm steps d cb (with_functions fs vs s) = (out.1, with_functions fs vs out.2)).
Proof.
  split.
  - intros now i n sn nm steps d cb p s' H. unfold create_procedure in H. step_ok H. apply get_service_ok in H0 as ->.
    step_ok H. injection H0 as <- <-. step_ok H. apply lift_ok in H0 as [_ ->]. destruct a0; [done|]. step_ok H.
    by eapply check_references_ok.
  - intros n sn nm steps d cb fs vs out. subst out. unfold update_procedure, get_procedure, get_service, mbind, stm_bind, getS, lift, throw, raise.
    cbn [with_functions base ns procedures pversions executions].
    destruct (one_or_none _ (services _)) as [[x|]|]; [|reflexivity..]. cbn [mret stm_ret with_functions base ns procedures pversions executions].
    destruct (one_or_none _ (procedures s)) as [[p|]|]; [|reflexivity..]. cbn [mret stm_ret with_functions base ns procedures pversions executions].
    destruct steps as [steps|]; [|reflexivity]. destruct (normalize_pure steps 1 []) as [r Hr]. rewrite !Hr.
    destruct r as [out|]; [|reflexivity]. cbn [put_procedure set_procedures modS with_functions base procedures pversions executions].
    unfold add_version, mbind, stm_bind, lift, getS, throw, raise. destruct (validate_steps _); [|reflexivity].
    cbn [pv_procedure_id pv_version pversions]. destruct (existsb _ _); reflexivity.
Qed.

(** ** Examples *)

Definition demo_step (name ref : string) (mapping : list (string * pyval)) : step :=
  [("name", PStr name); ("function_ref", PStr ref); ("instructions", PStr "Do it."); ("input_mapping", PDict mapping)].
Definition demo_steps : list step :=
  [demo_step "fetch" "social.post" []; demo_step "send" "social.post" [("text", PStr "$.steps.fetch.result.text")]].
Definition demo_pstore : pstore := PStore demo_store [] [] [].
Definition demo_pops : list pop :=
  [PCreate 1 "p1" "n1" "social" "thread" demo_steps None None;
   PStart 2 "x1" "n1" "social" "thread" "manual" None None;
   PUpdate "n1" "social" "thread" (Some [demo_step "gone" "nowhere.nothing" []]) None None;
   PFinish "x1" "completed" 2 [] 3 None].

Lemma demo_pwf : wf demo_pstore.
Proof. split; cbn; constructor. Qed.

Example demo_procedure :
  let s := run_pops demo_pops demo_pstore in
  map p_active_version (procedures s) = [2] /\ map x_status (executions s) = ["completed"%string] /\
  (create_procedure 5 "p2" "n1" "social" "other" [demo_step "gone" "nowhere.nothing" []] None None s).1 =
    Err (Exn (Mcp NotFoundError "Step 1: function 'nowhere.nothing' not found in namespace")) /\
  (create_procedure 5 "p2" "n1" "social" "late" [demo_step "one" "social.post" [("x", PStr "$.steps.two.result")]] None None s).1 =
    Err (Exn ValueError).
Proof. by vm_compute. Qed.

Lemma procedures_well_typed_witness : (wf demo_pstore /\ fresh_pops demo_pops demo_pstore) /\ wf (run_pops demo_pops demo_pstore).
Proof.
  assert (fresh_pops demo_pops demo_pstore) as Hf by (split; [apply not_elem_of_nil|by repeat split]).
  split; [by split; [apply demo_pwf|]|]. apply (procedures_well_typed demo_pops); [apply demo_pwf|done].
Defined.
