(* ===== verification/SecurityEvents.v ===== *)
(** * Security events

    [models/security_event.py] and [services/security_event.py]: storing an
    event, the query over them, and the loss of trust of the agent an event is
    about; then every place of the program that fires one, among them
    [tasks/anomaly_detector.py] as a whole.  Averages and rates are exact; the
    code computes them in floating point. *)

From S2P Require Import Prelude AgentAccess Security Auth.
From stdpp Require Import gmap strings.

Open Scope Z_scope.

(** ** The table *)

Definition ALLOWED_SEVERITIES : list string := ["info"; "warning"; "error"; "critical"].

(** A value among the details of an event: JSON, or a [UUID] object, which the
    JSON column cannot store; [DReal] counts hundredths. *)
Inductive detail := DStr (s : string) | DInt (z : Z) | DReal (hundredths : Z) | DUuid (s : string).

Record security_event := SecurityEvent {
  ev_timestamp : Z;
  ev_type : string;
  actor_ip_hash : option string;
  ev_actor_id : option string;
  ev_details : option (list (string * detail));
  ev_severity : string
}.

(** The tables written: the events, and the trust scores of the agents, by the
    code of the agent's UUID. *)
Record sec := Sec { stored : list security_event; trust : trust_db }.

(** The arguments of [fire_security_event]. *)
Record event_request := EventRequest {
  rq_type : string;
  rq_severity : string;
  rq_actor_ip : option string;
  rq_actor_id : option string;
  rq_details : option (list (string * detail))
}.

Inductive event_exn := EventValueError (message : string) | EventDatabaseError.

Definition validate_severity (value : string) : bool := str_in value ALLOWED_SEVERITIES.
Definition validate_event_type (value : string) : bool := truthy_str value && str_contains "." value.

(** What the columns take. *)
Definition json_detail (d : detail) : bool := match d with DUuid _ => false | _ => true end.
Definition storable (details : option (list (string * detail))) : bool := forallb (fun d => json_detail d.2) (default [] details).
Definition within (n : Z) (o : option string) : bool := match o with Some s => str_len s <=? n | None => true end.

Definition insert_event (e : security_event) : stm sec event_exn unit := fun s =>
  if storable (ev_details e) && within 100 (Some (ev_type e)) && within 255 (ev_actor_id e)
  then (Ok tt, Sec (stored s ++ [e]) (trust s)) else (Err EventDatabaseError, s).

Section events.
Context `{Crypto}.

Abbreviation M := (stm sec event_exn).

Definition hash_ip (ip : option string) : option string :=
  match ip with Some ip => if truthy_str ip then Some (sha256_hex ip) else None | None => None end.

Definition log_event (now : Z) (rq : event_request) : M security_event :=
  if negb (validate_event_type (rq_type rq)) then raise (EventValueError "Event type must be in format 'category.action'")
  else if negb (validate_severity (rq_severity rq)) then raise (EventValueError "Severity must be one of")
  else
    let event := SecurityEvent now (rq_type rq) (hash_ip (rq_actor_ip rq)) (rq_actor_id rq) (rq_details rq) (rq_severity rq) in
    insert_event event;; mret event.

(** The filters apply when given and not empty; the newest first. *)
Definition passes (wanted : option string) (value : option string) : bool :=
  if truthy_ostr wanted then bool_decide (value = wanted) else true.

Definition get_events (actor_id event_type severity : option string) (limit offset : nat) (s : sec) : list security_event * Z :=
  let found := List.filter (fun e => passes actor_id (ev_actor_id e) && passes event_type (Some (ev_type e))
                                     && passes severity (Some (ev_severity e))) (stored s) in
  (take limit (drop offset (order_by (fun a b => ev_timestamp b <=? ev_timestamp a) found)), Z.of_nat (length found)).

(** The row of the [agents] table is found by the UUID in the details. *)
Definition agent_key (u : string) : positive := encode u.

Definition agent_of (details : option (list (string * detail))) : option positive :=
  match details with
  | Some d =>
      match dict_get "agent_id" d with
      | Some (DStr i) | Some (DUuid i) => agent_key <$> uuid_parse i
      | Some (DInt i) => agent_key <$> uuid_parse (str_of_Z i)
      | _ => None
      end
  | None => None
  end.

Definition _degrade_agent_trust (now : Z) (event_type : string) (details : option (list (string * detail))) (s : sec) : sec :=
  match agent_of details with
  | Some agent => Sec (stored s) (adjust_trust_score (trust s) now agent (get_delta_for_event event_type))
  | None => s
  end.

(** Any exception is logged. *)
Definition fire_security_event (now : Z) (rq : event_request) (s : sec) : sec :=
  match log_event now rq s with
  | (Ok _, s') => _degrade_agent_trust now (rq_type rq) (rq_details rq) s'
  | (Err _, s') => s'
  end.
End events.

(** ** Who fires events *)

(** [middleware/rate_limit.py], [middleware/billing.py] *)
Definition rate_limit_event (client_ip : string) : event_request :=
  EventRequest "auth.login_failed" "warning" (Some client_ip) None None.
Definition quota_event (account_id : string) (usage limit : Z) (tier : string) : event_request :=
  EventRequest "billing.quota_exceeded" "warning" None (Some account_id)
    (Some [("usage", DInt usage); ("limit", DInt limit); ("tier", DStr tier)]).

(** [services/auth.py], [services/oauth.py], [mcp/router.py] *)
Definition _fire_auth_security_event (actor_ip actor_id : option string) (reason : string) : event_request :=
  EventRequest "auth.login_failed" "warning" actor_ip actor_id (Some [("reason", DStr reason)]).
Definition _fire_oauth_security_event (action provider actor_id : string) (actor_ip : option string) : event_request :=
  EventRequest ("auth." +:+ action) "info" actor_ip (Some actor_id) (Some [("provider", DStr provider)]).
Definition _fire_mcp_auth_failure (actor_ip : option string) (reason : string) : event_request :=
  EventRequest "auth.login_failed" "warning" actor_ip None (Some [("reason", DStr reason); ("source", DStr "mcp")]).

(** [api/v1/admin.py] *)
Definition _fire_approval_security_event (admin_id user_id email action : string) : event_request :=
  EventRequest ("admin.user_" +:+ action) "info" None (Some admin_id)
    (Some [("target_user_id", DStr user_id); ("target_email", DStr email)]).

(** [backends/sandbox.py] *)
Definition _log_sandbox_violation (execution_id account_id : string) (exit_code : Z) (stderr_tail : string) : event_request :=
  EventRequest "sandbox.violation" "error" None (Some account_id)
    (Some [("execution_id", DStr execution_id); ("exit_code", DInt exit_code); ("stderr_tail", DStr (str_take 255 stderr_tail))]).

(** [tasks/orchestrator.py] *)
Definition canary_event (agent_name tool_name namespace_id : string) : event_request :=
  EventRequest "canary_token_leaked" "critical" None None
    (Some [("agent", DStr agent_name); ("tool", DStr tool_name); ("namespace", DUuid namespace_id)]).
Definition restricted_event (agent_name tool_name trigger_type : string) : event_request :=
  EventRequest "restricted_tool_attempt" "high" None None
    (Some [("agent", DStr agent_name); ("tool", DStr tool_name); ("trigger_type", DStr trigger_type)]).

(** ** [tasks/anomaly_detector.py] *)

(** The columns of an execution that the query reads; times in microseconds. *)
Record exec_stat := ExecStat { x_user_id : string; x_started_at : option Z; x_completed_at : option Z; x_status : string }.

(** A row of the query; [avg_duration] is the sum and the number of the known
    durations. *)
Record anomaly_row := AnomalyRow { a_user_id : string; exec_count : Z; avg_duration : Z * Z; failures : Z }.

Definition anomaly_stats (l : list exec_stat) (user : string) : anomaly_row :=
  let mine := List.filter (fun x => String.eqb (x_user_id x) user) l in
  let durations := omap (fun x => match x_started_at x, x_completed_at x with Some a, Some b => Some (b - a) | _, _ => None end) mine in
  AnomalyRow user (Z.of_nat (length mine)) (foldr Z.add 0 durations, Z.of_nat (length durations))
    (Z.of_nat (length (List.filter (fun x => String.eqb (x_status x) "failed") mine))).

Fixpoint first_seen (l : list string) : list string :=
  match l with
  | [] => []
  | x :: l' => x :: List.filter (fun y => negb (String.eqb y x)) (first_seen l')
  end.

Definition failure_storm (r : anomaly_row) : bool := Z.max (exec_count r) 1 <? 2 * failures r.

Definition anomaly_query (now : Z) (l : list exec_stat) : list anomaly_row :=
  let recent := List.filter (fun x => match x_started_at x with Some t => now - 5 * 60 * 1000000 <? t | None => false end) l in
  List.filter (fun r => (50 <? exec_count r) || failure_storm r) (map (anomaly_stats recent) (first_seen (map x_user_id recent))).

(** [round(n / d)], ties to even. *)
Definition round_div (n d : Z) : Z :=
  let q := n / d in
  let r := n mod d in
  if 2 * r <? d then q else if d <? 2 * r then q + 1 else if Z.even q then q else q + 1.

(** Durations are microseconds: one hundredth of a second is 10000. *)
Definition spike_event (r : anomaly_row) : event_request :=
  let '(total, n) := avg_duration r in
  EventRequest "anomaly_spike" "warning" None (Some (a_user_id r))
    (Some [("exec_count_5min", DInt (exec_count r));
           ("avg_duration_sec", DReal (if n =? 0 then 0 else round_div total (n * 10000)))]).
Definition storm_event (r : anomaly_row) : event_request :=
  EventRequest "anomaly_error_storm" "warning" None (Some (a_user_id r))
    (Some [("total", DInt (exec_count r)); ("failures", DInt (failures r));
           ("failure_rate_pct", DInt (round_div (100 * failures r) (Z.max (exec_count r) 1)))]).

Definition anomaly_events (r : anomaly_row) : list event_request :=
  (if 50 <? exec_count r then [spike_event r] else []) ++ (if failure_storm r then [storm_event r] else []).

Definition detect_anomalies `{Crypto} (now : Z) (l : list exec_stat) (s : sec) : sec :=
  foldl (fun s rq => fire_security_event now rq s) s (concat (map anomaly_events (anomaly_query now l))).

(** ** What is stored *)

(** All requests the program makes. *)
Inductive fired : event_request -> Prop :=
| fired_rate_limit ip : fired (rate_limit_event ip)
| fired_quota account usage limit tier : fired (quota_event account usage limit tier)
| fired_auth ip actor reason : fired (_fire_auth_security_event ip actor reason)
| fired_oauth action provider actor ip : fired (_fire_oauth_security_event action provider actor ip)
| fired_mcp ip reason : fired (_fire_mcp_auth_failure ip reason)
| fired_admin admin user email action : fired (_fire_approval_security_event admin user email action)
| fired_sandbox execution account code tail : fired (_log_sandbox_violation execution account code tail)
| fired_canary agent tool namespace : fired (canary_event agent tool namespace)
| fired_restricted agent tool trigger : fired (restricted_event agent tool trigger)
| fired_anomaly row rq : rq ∈ anomaly_events row -> fired rq.

(** The row an accepted request becomes. *)
Definition event_row `{Crypto} (now : Z) (rq : event_request) : security_event :=
  SecurityEvent now (rq_type rq) (hash_ip (rq_actor_ip rq)) (rq_actor_id rq) (rq_details rq) (rq_severity rq).

Definition accepted (rq : event_request) : bool :=
  validate_event_type (rq_type rq) && validate_severity (rq_severity rq)
  && storable (rq_details rq) && within 100 (Some (rq_type rq)) && within 255 (rq_actor_id rq).

Section facts.
Context `{Crypto}.

Lemma fire_rejected now rq s : accepted rq = false -> fire_security_event now rq s = s.
Proof.
  unfold accepted, fire_security_event, log_event, insert_event, mbind, stm_bind.
  destruct (validate_event_type _); cbn [negb andb]; [|done]. destruct (validate_severity _); cbn [negb andb]; [|done].
  cbn [ev_details ev_type ev_actor_id]. intros ->. done.
Qed.

Lemma fire_accepted now rq s : accepted rq = true ->
  fire_security_event now rq s = _degrade_agent_trust now (rq_type rq) (rq_details rq) (Sec (stored s ++ [event_row now rq]) (trust s)).
Proof.
  unfold accepted, fire_security_event, log_event, insert_event, mbind, stm_bind. rewrite !andb_true_iff.
  cbn [ev_details ev_type ev_actor_id]. intros ((((-> & ->) & ->) & ->) & ->). done.
Qed.

(** What [fire_security_event] does, on any request and any state: a
    request whose type has a dot, whose severity is one of the four, whose
    details are JSON and whose texts fit their columns is appended to the table
    with the hash of the address in place of the address, and the score of the
    agent that the details name as [agent_id] changes by the delta of the event,
    within 0 to 1000, and no other; any other request changes nothing at all. *)
Theorem fire_security_event_correct now rq s :
  let s' := fire_security_event now rq s in
  if accepted rq then
    stored s' = stored s ++ [event_row now rq] /\
    forall a, trust s' !! a =
      if bool_decide (agent_of (rq_details rq) = Some a)
      then (fun t => AgentTrust (Z.max 0 (Z.min 1000 (trust_score t + get_delta_for_event (rq_type rq)))) now) <$> trust s !! a
      else trust s !! a
  else s' = s.
Proof.
  intros s'. subst s'. destruct (accepted rq) eqn:Ha; [|by apply fire_rejected]. rewrite fire_accepted by done.
  unfold _degrade_agent_trust. destruct (agent_of (rq_details rq)) as [b|]; (split; [done|]); intros a; cbn [trust].
  - unfold adjust_trust_score. rewrite lookup_alter. destruct (decide (b = a)) as [->|Hne].
    + by rewrite bool_decide_true.
    + rewrite bool_decide_false by congruence. done.
  - done.
Qed.

Lemma dotless t : str_contains "." t = false -> validate_event_type t = false.
Proof. unfold validate_event_type. intros ->. apply andb_false_r. Qed.

Lemma anomaly_types row rq : rq ∈ anomaly_events row -> str_contains "." (rq_type rq) = false /\ agent_of (rq_details rq) = None.
Proof.
  unfold anomaly_events. intros [Hin|Hin]%elem_of_app; destruct (_ <? _) in Hin || destruct (failure_storm row) in Hin;
    first [by apply not_elem_of_nil in Hin | apply list_elem_of_singleton in Hin as ->].
  - unfold spike_event. by destruct (avg_duration row).
  - done.
Qed.

(** No event of the program is about an agent, and the four kinds of event
    that would matter most are never stored: for every request the program
    makes, all trust scores stay as they are, so that the degradation by
    security events never takes place; and a leaked canary, an attempt to use a
    restricted tool, a spike of executions and a storm of errors leave no trace,
    because their types have no dot (the attempt's severity is none of the four
    either, and the details of the leak hold a [UUID] object). *)
Theorem events_lost now rq s :
  fired rq ->
  trust (fire_security_event now rq s) = trust s /\
  (str_in (rq_type rq) ["canary_token_leaked"; "restricted_tool_attempt"; "anomaly_spike"; "anomaly_error_storm"] = true ->
   fire_security_event now rq s = s) /\
  forall l, detect_anomalies now l s = s.
Proof.
  intros Hf. assert (agent_of (rq_details rq) = None) as Ha.
  { destruct Hf; try reflexivity. by eapply anomaly_types. }
  split; [|split].
  - destruct (accepted rq) eqn:Hacc; [|by rewrite fire_rejected]. rewrite fire_accepted by done.
    unfold _degrade_agent_trust. by rewrite Ha.
  - intros Ht. apply fire_rejected. unfold accepted. rewrite dotless; [done|].
    apply str_in_spec in Ht. rewrite !elem_of_cons in Ht. destruct Ht as [->|[->|[->|[->|Ht]]]]; try reflexivity.
    by apply not_elem_of_nil in Ht.
  - intros l. unfold detect_anomalies. assert (forall x, x ∈ concat (map anomaly_events (anomaly_query now l)) ->
      str_contains "." (rq_type x) = false) as Hall.
    { intros x (evs & Hevs & Hx)%list_elem_of_In%in_concat. apply in_map_iff in Hevs as (row & <- & _).
      apply (anomaly_types row). by apply list_elem_of_In. }
    induction (concat _) as [|x rest IH]; [done|]. cbn [foldl].
    rewrite fire_rejected; [apply IH; intros y Hy; apply Hall; by apply list_elem_of_further|].
    unfold accepted. rewrite dotless; [done|]. apply Hall. apply list_elem_of_here.
Qed.
End facts.

(** ** Examples *)

Definition demo_uuid : string := "6f1c2d3e-4b5a-4c7d-8e9f-0a1b2c3d4e5f".
Definition demo_sec : sec := Sec [] {[agent_key demo_uuid := AgentTrust 500 0]}.
Definition demo_request : event_request :=
  EventRequest "scanner.secret_leak" "error" (Some "10.0.0.1") None (Some [("agent_id", DStr demo_uuid)]).

(** A request that names an agent would lower its score, if there were one. *)
Example degrade_demo :
  let s := @fire_security_event toy_crypto 7 demo_request demo_sec in
  stored s = [SecurityEvent 7 "scanner.secret_leak" (Some "sha256:10.0.0.1") None (Some [("agent_id", DStr demo_uuid)]) "error"] /\
  trust s !! agent_key demo_uuid = Some (AgentTrust 400 7).
Proof. by vm_compute. Qed.

Example anomaly_demo :
  let l := repeat (ExecStat "u1" (Some 1000000) (Some 2500000) "failed") 51 ++ [ExecStat "u2" (Some 1000000) None "completed"] in
  map rq_details (concat (map anomaly_events (anomaly_query 2000000 l))) =
    [Some [("exec_count_5min", DInt 51); ("avg_duration_sec", DReal 150)];
     Some [("total", DInt 51); ("failures", DInt 51); ("failure_rate_pct", DInt 100)]].
Proof. by vm_compute. Qed.

Lemma events_lost_witness :
  trust (@fire_security_event toy_crypto 7 (restricted_event "bot" "set_state" "manual") demo_sec) = trust demo_sec /\
  @fire_security_event toy_crypto 7 (restricted_event "bot" "set_state" "manual") demo_sec = demo_sec.
Proof.
  destruct (@events_lost toy_crypto 7 (restricted_event "bot" "set_state" "manual") demo_sec (fired_restricted _ _ _)) as (Ht & Hs & _).
  split; [exact Ht|apply Hs; reflexivity].
Defined.
