(* ===== verification/AiTools.v ===== *)
(** * The tools offered to an agent

    [core/ai_tools.py]: the built-in tools, the tools made of the functions of a
    namespace, the names by which they are called, the procedures that cover
    functions, and the part of the system prompt that lists them all; with
    [is_mcp_tool] of [core/mcp_client.py].  Characters beyond the first 256 stand
    in the texts as the bytes of their UTF-8 encoding. *)

From S2P Require Import Prelude Regex Routing Security Namespaces Functions Procedures.
From stdpp Require Import gmap strings.
From Stdlib Require Import Ascii.

Open Scope Z_scope.

Record tool := Tool { t_name : string; t_description : string; t_schema : pyval }.

Definition PLATFORM_TOOLS : list tool :=
  [Tool "send_to_channel"
     ("Send a message to a configured communication channel. Use this to notify users or post "
      +:+ "updates. Example: send_to_channel(channel_type='discord', message='Deploy complete!') "
      +:+ "Returns {" +:+ dq +:+ "sent" +:+ dq +:+ ": true, " +:+ dq +:+ "channel" +:+ dq +:+ ": " +:+ dq +:+ "discord" +:+ dq +:+ "} on success.")
     (PDict [("type", PStr "object");
      ("properties", PDict [("channel_type", PDict [("type", PStr "string");
          ("enum", PList [PStr "discord"; PStr "slack"; PStr "email"]);
          ("description", PStr "Which channel to send to: 'discord', 'slack', or 'email'")]);
        ("message", PDict [("type", PStr "string");
          ("description", PStr "The message text to send")])]);
      ("required", PList [PStr "channel_type"; PStr "message"])]);
   Tool "get_state"
     ("Read a single value from your persistent memory by exact key name. Use this when you "
      +:+ "know the exact key. If you don't know the key name, use list_state_keys or "
      +:+ "search_state first. Example: get_state(key='user_prefs') Returns {" +:+ dq +:+ "key" +:+ dq +:+ ": " +:+ dq +:+ "user_prefs" +:+ dq +:+ ", "
      +:+ dq +:+ "value" +:+ dq +:+ ": ...} or an error if key not found.")
     (PDict [("type", PStr "object");
      ("properties", PDict [("key", PDict [("type", PStr "string");
          ("description", PStr "Exact key name to retrieve (e.g. '__goals__', 'config', 'last_run')")])]);
      ("required", PList [PStr "key"])]);
   Tool "set_state"
     ("Save a value to your persistent memory. Values survive restarts and are available in "
      +:+ "future conversations. The value can be any JSON type: string, number, boolean, object, "
      +:+ "or array. Example: set_state(key='last_run', value='2026-03-20T10:00:00Z') Returns "
      +:+ "{" +:+ dq +:+ "key" +:+ dq +:+ ": " +:+ dq +:+ "last_run" +:+ dq +:+ ", " +:+ dq +:+ "stored" +:+ dq +:+ ": true} on success. Special keys: '__soul__' (your "
      +:+ "identity), '__goals__' (your objectives), '__heartbeat_instructions__' (what to do on "
      +:+ "next heartbeat wake).")
     (PDict [("type", PStr "object");
      ("properties", PDict [("key", PDict [("type", PStr "string");
          ("description", PStr "Key name to store under (e.g. 'config', 'last_run', '__goals__')")]);
        ("value", PDict [("description", PStr "Value to store. Any JSON type: string, number, boolean, object {}, or array []")])]);
      ("required", PList [PStr "key"; PStr "value"])]);
   Tool "list_state_keys"
     ("List all keys stored in your persistent memory. Use this to discover what you have "
      +:+ "saved. Takes no arguments. Returns {" +:+ dq +:+ "keys" +:+ dq +:+ ": [" +:+ dq +:+ "key1" +:+ dq +:+ ", " +:+ dq +:+ "key2" +:+ dq +:+ ", ...], " +:+ dq +:+ "count" +:+ dq +:+ ": 5, "
      +:+ dq +:+ "total_size_bytes" +:+ dq +:+ ": 2048}.")
     (PDict [("type", PStr "object");
      ("properties", PDict [])]);
   Tool "search_state"
     ("Search your persistent memory by keyword. Finds keys and values containing the search "
      +:+ "term (case-insensitive). Use this when you need to find something but don't remember "
      +:+ "the exact key name. Example: search_state(query='project') Returns {" +:+ dq +:+ "matches" +:+ dq +:+ ": "
      +:+ "[{" +:+ dq +:+ "key" +:+ dq +:+ ": " +:+ dq +:+ "my_project" +:+ dq +:+ ", " +:+ dq +:+ "preview" +:+ dq +:+ ": " +:+ dq +:+ "...first 100 chars..." +:+ dq +:+ "}], " +:+ dq +:+ "query" +:+ dq +:+ ": " +:+ dq +:+ "project" +:+ dq +:+ ", "
      +:+ dq +:+ "total_searched" +:+ dq +:+ ": 10}.")
     (PDict [("type", PStr "object");
      ("properties", PDict [("query", PDict [("type", PStr "string");
          ("description", PStr ("Search keyword — matches against key names and values (case-insensitive substring "
              +:+ "match)"))])]);
      ("required", PList [PStr "query"])]);
   Tool "run_procedure"
     ("Execute a procedure step-by-step with enforced function calls. The orchestrator steps "
      +:+ "through each defined step, calling the required function and capturing its result as "
      +:+ "proof before advancing. ALWAYS use this instead of calling functions directly when a "
      +:+ "matching procedure exists. Example: run_procedure(service='social', "
      +:+ "name='post-bluesky-thread', input_context={'post1_text': '...', 'post2_text': '...'}) "
      +:+ "Returns {" +:+ dq +:+ "success" +:+ dq +:+ ": true, " +:+ dq +:+ "steps_completed" +:+ dq +:+ ": 3, " +:+ dq +:+ "final_text" +:+ dq +:+ ": " +:+ dq +:+ "..." +:+ dq +:+ "}.")
     (PDict [("type", PStr "object");
      ("properties", PDict [("service", PDict [("type", PStr "string");
          ("description", PStr "Service name containing the procedure")]);
        ("name", PDict [("type", PStr "string");
          ("description", PStr "Procedure name")]);
        ("input_context", PDict [("type", PStr "object");
          ("description", PStr "Optional initial context available to step 1")])]);
      ("required", PList [PStr "service"; PStr "name"])])].

Definition PLATFORM_TOOL_NAMES : list string := map t_name PLATFORM_TOOLS.

Definition PUBLIC_SAFE_PLATFORM_TOOLS : list string := ["get_state"; "send_to_channel"; "list_state_keys"; "search_state"].

Definition RESTRICTED_AGENT_TOOLS : list string :=
  ["make_function"; "update_function"; "delete_function"; "make_service"; "delete_service"; "lock_function";
   "unlock_function"; "make_procedure"; "update_procedure"; "delete_procedure"].

(** The version a reference [service.function] runs, or [None] for any error. *)
Definition get_function_input_schema (s : store) (namespace_id function_ref : string) : option pyval :=
  match split_once "." function_ref with
  | None => None
  | Some (service_name, function_name) =>
      match get_for_execution namespace_id service_name function_name s with
      | (Ok (_, v), _) => input_schema (v_spec v)
      | (Err _, _) => None
      end
  end.

(** [description or default] *)
Definition or_text (o : option string) (dflt : string) : string := if truthy_ostr o then default dflt o else dflt.

Definition tool_name (service_name function_name : string) : string := service_name +:+ "__" +:+ function_name.

(** [input_schema or {...}] *)
Definition schema_or_empty (v : option pyval) : pyval :=
  match v with
  | Some s => if truthy s then s else PDict [("type", PStr "object"); ("properties", PDict [])]
  | None => PDict [("type", PStr "object"); ("properties", PDict [])]
  end.

(** [fn.service.name if fn.service else "unknown"] *)
Definition service_name_of (s : store) (service_id : string) : string :=
  match List.find (fun x => String.eqb (s_id x) service_id) (services (ns s)) with
  | Some x => s_name x
  | None => "unknown"
  end.

Definition build_tool_definitions (s : store) (namespace_id : string) (public_only agent_mode : bool) : list tool :=
  let pairs := match list_all_for_namespace namespace_id s with (Ok l, _) => l | _ => [] end in
  omap (fun '(fn, v) =>
    if public_only && negb (public_safe fn) then None
    else
      let service_name := service_name_of s (f_service_id fn) in
      let name := tool_name service_name (f_name fn) in
      if agent_mode && str_in name RESTRICTED_AGENT_TOOLS then None
      else Some (Tool name (or_text (f_description fn) ("Execute " +:+ service_name +:+ "." +:+ f_name fn))
                   (schema_or_empty (input_schema (v_spec v))))) pairs
  ++ (if public_only then List.filter (fun t => str_in (t_name t) PUBLIC_SAFE_PLATFORM_TOOLS) PLATFORM_TOOLS
      else List.filter (fun t => negb (agent_mode && str_in (t_name t) RESTRICTED_AGENT_TOOLS)) PLATFORM_TOOLS).

(** ** Names *)

Definition MCP_TOOL_PREFIX : string := "mcp__".
Definition is_mcp_tool (name : string) : bool := starts_with MCP_TOOL_PREFIX name.

Definition parse_tool_name (name : string) : option (string * string) :=
  if str_in name PLATFORM_TOOL_NAMES then None
  else if is_mcp_tool name then None
  else if str_contains "__" name then split_once "__" name
  else if str_contains "." name then split_once "." name
  else None.

Definition format_available_tools (tools : list tool) : string :=
  let names := map t_name tools in
  if (length names <=? 15)%nat then str_join ", " names
  else str_join ", " (take 15 names) +:+ " (and " +:+ str_of_nat (length names - 15) +:+ " more)".

(** ** Procedures *)

Record summary := Summary {
  ps_service : string;
  ps_name : string;
  ps_description : string;
  ps_step_count : nat;
  covered_functions : list pyval
}.

(** The references of the steps that must succeed. *)
Definition covered_by (steps : list step) : list pyval :=
  omap (fun st =>
    let ref := get "function_ref" (PStr "") st in
    if truthy ref && is_text "required" (get "failure_policy" (PStr "required") st) then Some ref else None) steps.

(** The procedures of the namespace, in the order of the table. *)
Definition get_procedure_summaries (s : pstore) (namespace_id : string) : list summary :=
  omap (fun p =>
    if String.eqb (p_namespace_id p) namespace_id && negb (p_is_deleted p)
       && existsb (fun x => String.eqb (s_id x) (p_service_id p)) (services (ns (base s))) then
      match Procedures.get_active_version_obj (pversions s) p with
      | None => None
      | Some v => Some (Summary (service_name_of (base s) (p_service_id p)) (p_name p) (or_text (p_description p) "")
                          (length (pv_steps v)) (covered_by (pv_steps v)))
      end
    else None) (procedures s).

(** [None] is the AttributeError of a reference that is no string. *)
Fixpoint cover (label : string) (refs : list pyval) (covered : list (string * string)) : option (list (string * string)) :=
  match refs with
  | [] => Some covered
  | PStr ref :: refs' => cover label refs' (dict_set (str_replace "." "__" ref) label covered)
  | _ => None
  end.

Fixpoint cover_all (l : list summary) (covered : list (string * string)) : option (list (string * string)) :=
  match l with
  | [] => Some covered
  | p :: l' =>
      match cover (ps_service p +:+ " / " +:+ ps_name p) (covered_functions p) covered with
      | Some c => cover_all l' c
      | None => None
      end
  end.

Definition _build_covered_function_set (l : list summary) : option (list (string * string)) := cover_all l [].

(** ** The system prompt *)

Definition tick : string := String (chr 96) EmptyString.

Definition procedure_line (p : summary) : string :=
  "- " +:+ tick +:+ "run_procedure(service='" +:+ ps_service p +:+ "', name='" +:+ ps_name p +:+ "')" +:+ tick +:+ " — "
  +:+ ps_description p +:+ " (" +:+ str_of_nat (ps_step_count p) +:+ " steps)".

Definition tool_line (covered : list (string * string)) (t : tool) : string :=
  "- " +:+ tick +:+ t_name t +:+ tick +:+ " — " +:+ t_description t
  +:+ match dict_get (t_name t) covered with Some label => " ⚠️ USE PROCEDURE: " +:+ label | None => "" end.

Definition prompt_lines (tools : list tool) (summaries : list summary) (covered : list (string * string)) : list string :=
  let ns_tools := List.filter (fun t => negb (str_in (t_name t) PLATFORM_TOOL_NAMES)) tools in
  let platform := List.filter (fun t => str_in (t_name t) PLATFORM_TOOL_NAMES) tools in
  match summaries with
  | [] => []
  | _ =>
      ["## Procedures (USE THESE FIRST)";
       "IMPORTANT: When a procedure exists for the task you are about to do, "
       +:+ "you MUST use " +:+ tick +:+ "run_procedure" +:+ tick +:+ " instead of calling the underlying functions "
       +:+ "directly. Procedures enforce verified step-by-step execution. Calling "
       +:+ "raw functions that a procedure covers is a violation — the results "
       +:+ "cannot be trusted without procedure enforcement."; ""]
      ++ map procedure_line summaries ++ [""]
  end
  ++ match ns_tools with
     | [] => []
     | _ => ["## Your callable tools"; "Use these EXACT names when making tool calls:"] ++ map (tool_line covered) ns_tools
     end
  ++ match platform with
     | [] => []
     | _ => [""; "## Platform tools"] ++ map (tool_line []) platform
     end.

Definition augment_system_prompt (system_prompt : option string) (tools : list tool) (summaries : list summary) : option string :=
  match _build_covered_function_set summaries with
  | None => None
  | Some covered =>
      let suffix := str_join nl (prompt_lines tools summaries covered) in
      let base := or_text system_prompt "" in
      Some (if truthy_str base then base +:+ nl +:+ nl +:+ suffix else suffix)
  end.

(** ** Names are read back *)

Lemma starts_two_frame c a b : starts_with "__" (String c (a +:+ "__" +:+ b)) = starts_with "__" (String c (a +:+ "_")).
Proof. by destruct a. Qed.

(** The first double underscore, if the text before it has none and does not
    end in an underscore. *)
Lemma split_first a b : str_contains "__" (a +:+ "_") = false -> split_once "__" (a +:+ "__" +:+ b) = Some (a, b).
Proof.
  induction a as [|c a IH]; intros H; [done|].
  change (String c a +:+ "__" +:+ b) with (String c (a +:+ "__" +:+ b)).
  change (String c a +:+ "_") with (String c (a +:+ "_")) in H. cbn [str_contains] in H. apply orb_false_iff in H as [H1 H2].
  cbn [split_once]. rewrite starts_two_frame, H1. by rewrite IH.
Qed.

Lemma str_contains_middle a b c : str_contains b (a +:+ b +:+ c) = true.
Proof. apply str_contains_spec. by exists a, c. Qed.

Lemma platform_names name : name ∈ PLATFORM_TOOL_NAMES -> str_contains "__" name = false /\ name ∉ RESTRICTED_AGENT_TOOLS.
Proof.
  assert (Forall (fun n => str_contains "__" n = false /\ n ∉ RESTRICTED_AGENT_TOOLS) PLATFORM_TOOL_NAMES) as H.
  { apply (bool_decide_unpack _). vm_compute. exact I. }
  intros Hn. by apply (Forall_elem _ _ _ H).
Qed.

Lemma restricted_names name : name ∈ RESTRICTED_AGENT_TOOLS -> str_contains "__" name = false.
Proof.
  assert (Forall (fun n => str_contains "__" n = false) RESTRICTED_AGENT_TOOLS) as H by (apply (bool_decide_unpack _); vm_compute; exact I).
  intros Hn. by apply (Forall_elem _ _ _ H).
Qed.

Lemma str_in_false x l : x ∉ l -> str_in x l = false.
Proof. intros H. apply not_true_iff_false. by rewrite str_in_spec. Qed.

Lemma not_platform name : str_contains "__" name = true -> str_in name PLATFORM_TOOL_NAMES = false.
Proof. intros H. apply str_in_false. intros [? _]%platform_names. congruence. Qed.

Lemma not_restricted name : str_contains "__" name = true -> str_in name RESTRICTED_AGENT_TOOLS = false.
Proof. intros H. apply str_in_false. intros ?%restricted_names. congruence. Qed.

Lemma parse_double name : str_contains "__" name = true -> is_mcp_tool name = false -> parse_tool_name name = split_once "__" name.
Proof. intros H Hm. unfold parse_tool_name. by rewrite not_platform, Hm, H. Qed.

(** The name of a tool leads back to its function: whatever the function
    is called, [parse_tool_name] gives the service and the function back if the
    name of the service holds no double underscore, does not end in one
    underscore and is not [mcp].  A service name with a double underscore is
    read as the part before it, and the tools of a service called [mcp] are
    never read as functions. *)
Theorem tool_name_roundtrip svc fn :
  (str_contains "__" (svc +:+ "_") = false -> svc <> "mcp" -> parse_tool_name (tool_name svc fn) = Some (svc, fn)) /\
  (forall a b, svc = a +:+ "__" +:+ b -> str_contains "__" (a +:+ "_") = false -> a <> "mcp" ->
     parse_tool_name (tool_name svc fn) = Some (a, b +:+ "__" +:+ fn)) /\
  (svc = "mcp" -> parse_tool_name (tool_name svc fn) = None /\ is_mcp_tool (tool_name svc fn) = true).
Proof.
  assert (forall a c, str_contains "__" (a +:+ "_") = false -> a <> "mcp" -> is_mcp_tool (a +:+ "__" +:+ c) = false) as Hmcp.
  { intros a c Ha Hne. unfold is_mcp_tool. apply not_true_iff_false. intros [t Ht]%starts_with_spec.
    pose proof (split_first a c Ha) as Hs. rewrite Ht in Hs.
    pose proof (split_first "mcp" t eq_refl) as Hs'. cbn in Hs, Hs'. congruence. }
  split; [|split].
  - intros Hs Hne. unfold tool_name. rewrite parse_double; [by apply split_first|apply str_contains_middle|by apply Hmcp].
  - intros a b -> Ha Hne. unfold tool_name. rewrite !str_app_assoc.
    rewrite parse_double; [by apply split_first|apply str_contains_middle|by apply Hmcp].
  - intros ->. unfold tool_name. assert (is_mcp_tool ("mcp" +:+ "__" +:+ fn) = true) as Hm by by apply starts_with_spec; exists fn.
    split; [|done]. unfold parse_tool_name. rewrite not_platform by apply (str_contains_middle "mcp" "__" fn). by rewrite Hm.
Qed.

(** ** What is offered *)

Definition offered_function (s : store) (namespace_id : string) (public_only : bool) (name : string) : Prop :=
  exists f x v, f ∈ functions s /\ is_live f = true /\ x ∈ services (ns s) /\ s_id x = f_service_id f /\
    s_namespace_id x = namespace_id /\ v ∈ versions s /\ v_function_id v = f_id f /\ v_version v = active_version f /\
    name = tool_name (s_name x) (f_name f) /\ (public_only = true -> public_safe f = true).

Lemma service_name_found s x : NoDup (map s_id (services (ns s))) -> x ∈ services (ns s) -> service_name_of s (s_id x) = s_name x.
Proof.
  intros Hnd Hx. unfold service_name_of. by rewrite (find_unique s_id).
Qed.

Lemma joined_iff s p f : f ∈ joined p s <->
  f ∈ functions s /\ is_live f = true /\ exists x, x ∈ services (ns s) /\ s_id x = f_service_id f /\ p x = true.
Proof.
  unfold joined. rewrite elem_of_filter_bool, andb_true_iff, existsb_elem.
  setoid_rewrite andb_true_iff. setoid_rewrite String.eqb_eq. firstorder.
Qed.

Lemma platform_offered (po am : bool) name :
  name ∈ map t_name (if po then List.filter (fun t => str_in (t_name t) PUBLIC_SAFE_PLATFORM_TOOLS) PLATFORM_TOOLS
    else List.filter (fun t => negb (am && str_in (t_name t) RESTRICTED_AGENT_TOOLS)) PLATFORM_TOOLS) <->
  name ∈ (if po then PUBLIC_SAFE_PLATFORM_TOOLS else PLATFORM_TOOL_NAMES).
Proof.
  assert (forall a b : list string, forallb (fun x => str_in x b) a = true -> forallb (fun x => str_in x a) b = true ->
    (name ∈ a <-> name ∈ b)) as Hsame.
  { intros a b Ha Hb. rewrite forallb_forall in Ha, Hb. setoid_rewrite <-list_elem_of_In in Ha. setoid_rewrite <-list_elem_of_In in Hb.
    split; intros Hn; [apply Ha in Hn|apply Hb in Hn]; by apply str_in_spec in Hn. }
  apply Hsame; destruct po, am; by vm_compute.
Qed.

(** The tools offered are exactly the live functions of the namespace with
    their active version, under the name [service__function], and the built-in
    tools; for the public only the functions marked safe and the four built-in
    tools that write no state and run no procedure.  None of the restricted
    management tools is offered, with or without [agent_mode]: that flag makes
    no difference to what is offered. *)
Theorem tools_offered s n po am name :
  Functions.wf s ->
  (name ∈ map t_name (build_tool_definitions s n po am) <->
   offered_function s n po name \/ name ∈ (if po then PUBLIC_SAFE_PLATFORM_TOOLS else PLATFORM_TOOL_NAMES)) /\
  (name ∈ map t_name (build_tool_definitions s n po am) -> name ∉ RESTRICTED_AGENT_TOOLS).
Proof.
  intros Hwf.
  assert (name ∈ map t_name (build_tool_definitions s n po am) <->
    offered_function s n po name \/ name ∈ (if po then PUBLIC_SAFE_PLATFORM_TOOLS else PLATFORM_TOOL_NAMES)) as Hiff.
  { unfold build_tool_definitions, list_all_for_namespace, mbind, stm_bind, getS. cbn [mret stm_ret].
    rewrite map_app, elem_of_app, platform_offered. apply or_iff_compat_r. rewrite list_elem_of_fmap. split.
    - intros (t & -> & Ht). apply list_elem_of_omap in Ht as ([f v] & Hf & Ht).
      apply list_elem_of_omap in Hf as (g & Hg & Hgv). cbn in Hgv.
      destruct (Functions.get_active_version_obj (versions s) g) as [w|] eqn:Hw; [|done]. cbn in Hgv. injection Hgv as -> ->.
      apply joined_iff in Hg as (Hin & Hl & x & Hx & Hxi & Hxn%String.eqb_eq).
      apply (active_iff s f v Hwf) in Hw as (Hv & Hvi & Hvn).
      destruct (po && negb (public_safe f)) eqn:Hpo; [done|]. rewrite <-Hxi, service_name_found in Ht by (done || apply Hwf).
      rewrite not_restricted, andb_false_r in Ht by apply str_contains_middle. injection Ht as <-.
      exists f, x, v. split_and!; try done. intros ->. by destruct (public_safe f).
    - intros (f & x & v & Hf & Hl & Hx & Hxi & Hxn & Hv & Hvi & Hvn & -> & Hsafe).
      eexists. split; [|apply list_elem_of_omap; exists (f, v); split].
      2: { apply list_elem_of_omap. exists f. split; [apply joined_iff; split_and!; [done|done|exists x; split_and!; [done|done|by apply String.eqb_eq]]|].
           by rewrite (proj2 (active_iff s f v Hwf)). }
      2: { cbv beta iota. assert (po && negb (public_safe f) = false) as -> by (destruct po; [by rewrite Hsafe|done]).
           rewrite <-Hxi, service_name_found by (done || apply Hwf).
           rewrite not_restricted, andb_false_r by apply str_contains_middle. reflexivity. }
      done. }
  split; [done|]. rewrite Hiff. intros [(f & x & v & _ & _ & _ & _ & _ & _ & _ & _ & -> & _)|Hp] Hr.
  - apply restricted_names in Hr. unfold tool_name in Hr. by rewrite (str_contains_middle (s_name x) "__" (f_name f)) in Hr.
  - destruct po; [|by apply platform_names in Hp as [_ ?]].
    assert (name ∈ PLATFORM_TOOL_NAMES) as H by by apply (platform_offered true false), list_elem_of_fmap in Hp as (t & -> & [Ht _]%elem_of_filter_bool); apply list_elem_of_fmap_2.
    by apply platform_names in H as [_ ?].
Qed.

Example demo_tools :
  map t_name (build_tool_definitions demo_store "n1" true false) =
    ["social__post"; "send_to_channel"; "get_state"; "list_state_keys"; "search_state"]%string.
Proof. by vm_compute. Qed.

Lemma tools_offered_witness :
  Functions.wf demo_store /\ "social__post" ∈ map t_name (build_tool_definitions demo_store "n1" true true).
Proof.
  split; [apply demo_ops_wf|]. apply (tools_offered demo_store "n1" true true "social__post" demo_ops_wf). left.
  exists demo_fn, (Service "s1" "n1" "social" None), demo_v1.
  split_and!; first [done|vm_compute; elem].
Defined.
