(* ===== verification/ToolDispatch.v ===== *)
(** * Tool calls of an agent

    [_dispatch_tool] of [tasks/orchestrator.py] and what it calls: the built-in
    tools on the state of the agent, messages to a channel, functions of the
    namespace run in the sandbox with their execution rows and call counts.
    What the program gets from outside is the class [Outside]: the clock, fresh
    identifiers and random bytes, the replies of the AI provider, the sandbox,
    and the other tool servers with the tools they offer to an agent.  The texts of exceptions of libraries are its
    operation [lib_text]. *)

From S2P Require Import Prelude Regex AgentAccess Security SecurityEvents Json Encryption AgentState Namespaces Functions Procedures AiTools.
From stdpp Require Import gmap strings.
From Stdlib Require Import Ascii.

Open Scope Z_scope.

(** ** What comes from outside *)

(** An exception in flight, with its text: the one the AI client raises for a
    failed request, or any other. *)
Inductive exc := AIClientError (text : string) | Exception (text : string).

Definition exc_text (e : exc) : string := match e with AIClientError t => t | Exception t => t end.

(** [ExecutionResult], the fields the orchestrator reads. *)
Record exec_result := ExecResult { r_success : bool; r_output : pyval; r_error : option string }.

(** A call of the sandbox. *)
Record exec_call := ExecCall {
  c_code : option string;
  c_config : option pyval;
  c_input : pyval;
  c_execution_id : string;
  c_state : list (string * pyval);
  c_agent_run_id : option string;
  c_namespace : string
}.

(** A block of a reply; [BadToolUse] is a call without [id] or [name]. *)
Inductive block :=
| TextBlock (text : string)
| ToolUse (id name : string) (input : pyval)
| BadToolUse
| OtherBlock (kind : string).

(** A reply of [chat_with_tools]: the blocks, [stop_reason], and the sum of
    the input and output tokens. *)
Record response := Response { content : list block; stop_reason : string; tokens : Z }.

(** The messages of a request; [HistoryMsg] is one that was read from the state
    of the agent. *)
Inductive msg :=
| UserMsg (text : string)
| AssistantMsg (blocks : list block)
| ToolResult (tool_use_id tool_name content : string)
| HistoryMsg (m : pyval).

Record chat_request := ChatRequest {
  q_engine : string;
  q_model : string;
  q_api_key : pyval;
  q_messages : list msg;
  q_tools : list tool;
  q_system : string
}.

Inductive lib_exn := LibService (e : Security.exn) | LibState (e : AgentState.err) | LibProcedure (e : pexn)
| LibAttributeError | LibKeyError | LibTypeError | LibValueError | LibMissingGreenlet.

Class Outside := {
  outside : Type;
  monotonic : outside -> Z * outside;
  uuid4 : outside -> string * outside;
  random_bytes : outside -> randomness * outside;
  now : outside -> Z * outside;
  chat_with_tools : chat_request -> outside -> res exc response * outside;
  sandbox_execute : exec_call -> outside -> res exc exec_result * outside;
  mcp_call_tool : string -> pyval -> outside -> string * outside;
  api_call_tool : string -> pyval -> outside -> res exc string * outside;
  post_webhook : string -> string -> outside -> res exc Z * outside;
  load_mcp_tools : string -> outside -> option (list tool) * outside;
  load_api_tools : string -> outside -> res exc (list tool) * outside;
  token_urlsafe : outside -> string * outside;
  lib_text : lib_exn -> string
}.

(** ** Rows *)

Record agent_row := AgentRow {
  ar_id : string;
  ar_account_id : string;
  ar_namespace_id : string;
  ar_name : string;
  ai_engine : option string;
  ai_model : option string;
  ai_api_key : option (string * string);
  system_prompt : option string;
  auto_channel : option string;
  orchestration_limits : option (list (string * pyval));
  tool_tier : string;
  scheduled_tool_tier : string
}.

Record channel := Channel {
  ch_agent_id : string;
  ch_type : string;
  ch_config_encrypted : string;
  ch_config_dek_encrypted : string;
  ch_enabled : bool
}.

(** A row of the table of executions. *)
Record execution_row := ExecutionRow {
  ex_id : string;
  ex_namespace_id : string;
  ex_service_name : string;
  ex_function_name : string;
  ex_function_id : string;
  ex_version : Z;
  ex_status : string;
  ex_input : pyval;
  ex_result : option pyval;
  ex_error : option string;
  ex_agent_run_id : option string
}.

Record OrchestrationResult := Result {
  success : bool;
  final_text : option string;
  functions_called : list string;
  iterations : Z;
  total_tokens : Z;
  duration_ms : Z;
  error : option string;
  run_id : option string;
  outcome : option string;
  limits_consumed : option (list (string * Z));
  limits_configured : option (list (string * pyval))
}.

(** One row of the audit trail of tool calls. *)
Record tool_call := ToolCall {
  sequence_number : Z;
  tc_tool_name : string;
  tc_input : pyval;
  result_preview : string;
  tc_duration_ms : Z;
  source : string;
  tc_status : string;
  reason_category : string;
  tc_error : option string
}.

Record agent_run := AgentRun {
  run_agent_id : string;
  run_row_id : option string;
  run_trigger_detail : string;
  run_function_name : option string;
  run_status : string;
  run_outcome : string;
  run_orchestration_mode : option string;
  run_limits_consumed : option (list (string * Z));
  run_limits_configured : option (list (string * pyval));
  run_duration_ms : Z;
  run_schedule_id : option string;
  run_functions_called : Z;
  run_result_summary : option string;
  run_error : option string
}.

Section world.
Context `{Outside}.

Record world := World {
  tables : pstore;
  states : st;
  channels : list channel;
  execution_log : list execution_row;
  runs : list (agent_run * list tool_call);
  events : sec;
  out : outside
}.

Abbreviation M := (stm world exc).

Definition set_tables (t : pstore) : M unit := modS (fun w =>
  World t (states w) (channels w) (execution_log w) (runs w) (events w) (out w)).
Definition set_states (s : st) : M unit := modS (fun w =>
  World (tables w) s (channels w) (execution_log w) (runs w) (events w) (out w)).
Definition log_execution (x : execution_row) : M unit := modS (fun w =>
  World (tables w) (states w) (channels w) (execution_log w ++ [x]) (runs w) (events w) (out w)).
Definition add_run (x : agent_run * list tool_call) : M unit := modS (fun w =>
  World (tables w) (states w) (channels w) (execution_log w) (runs w ++ [x]) (events w) (out w)).
Definition set_events (x : sec) : M unit := modS (fun w =>
  World (tables w) (states w) (channels w) (execution_log w) (runs w) x (out w)).
Definition set_out (o : outside) (w : world) : world :=
  World (tables w) (states w) (channels w) (execution_log w) (runs w) (events w) o.

(** A question to the outside, and one that may raise. *)
Definition ask {A} (f : outside -> A * outside) : M A := fun w => let '(a, o) := f (out w) in (Ok a, set_out o w).
Definition ask_res {A} (f : outside -> res exc A * outside) : M A := fun w => let '(r, o) := f (out w) in (r, set_out o w).

Definition lib {A} (e : lib_exn) : M A := raise (Exception (lib_text e)).

(** A session of its own on the state of agents: committed, or rolled back. *)
Definition on_states {A} (m : stm st AgentState.err A) : M A := fun w =>
  match m (states w) with
  | (Ok a, s) => (Ok a, World (tables w) s (channels w) (execution_log w) (runs w) (events w) (out w))
  | (Err e, s) =>
      (Err (Exception (match e with
                       | AgentState.NotFoundError m => m
                       | AgentState.ForbiddenError m => m
                       | AgentState.CryptoError _ | AgentState.DataError => lib_text (LibState e)
                       end)),
       World (tables w) (St (agents (states w)) (entries (states w)) (kek_cache s)) (channels w) (execution_log w) (runs w)
         (events w) (out w))
  end.

(** [str(e)] of an exception of the services. *)
Definition service_text (e : Security.exn) : string :=
  match e with Mcp _ m => m | _ => lib_text (LibService e) end.

(** [try: m except Exception as e: h(e)] *)
Definition try_all {A} (m : M A) (h : exc -> M A) : M A := fun w =>
  match m w with (Ok a, w') => (Ok a, w') | (Err e, w') => h e w' end.
End world.

(** ** Texts *)

(** [json.dumps({"error": m})] *)
Definition error_json (m : string) : string := json_dumps (PDict [("error", PStr m)]).

(** [is_error]: the word among the first 50 characters of a result. *)
Definition is_error (result : string) : bool := str_contains (dq +:+ "error" +:+ dq) (str_take 50 result).

Definition ToolTier_of (value : string) : option ToolTier :=
  if String.eqb value "execute_only" then Some EXECUTE_ONLY
  else if String.eqb value "standard" then Some STANDARD
  else if String.eqb value "builder" then Some BUILDER
  else if String.eqb value "admin" then Some ADMIN
  else None.

(** [_scrub_error_message]: the patterns for addresses, telephone numbers and
    keys, then at most 255 characters. *)
Definition nonspace (c : ascii) : bool := negb (is_space c).
Definition sep_char (c : ascii) : bool := Ascii.eqb c "-" || Ascii.eqb c ".".
Definition email_re : re :=
  rseq [rplus nonspace; RCls (Ascii.eqb "@"); rplus nonspace; RCls (Ascii.eqb "."); rplus nonspace].
Definition phone_re : re :=
  rseq [RWordB; rexact is_digit 3; ropt (RCls sep_char); rexact is_digit 3; ropt (RCls sep_char); rexact is_digit 4; RWordB].
Definition key_re : re :=
  RSeq (ralt [rlit "sk-"; rlit "mcpw_"; RSeq (rlit "bearer") (rplus is_space)]) (rplus nonspace).
Definition _ERROR_MESSAGE_MAX_LEN : nat := 255.

Definition _scrub_error_message (m : string) : string :=
  let m := (subn email_re "[EMAIL]" m).1 in
  let m := (subn phone_re "[PHONE]" m).1 in
  let m := (subn key_re "[REDACTED_KEY]" m).1 in
  if (_ERROR_MESSAGE_MAX_LEN <? String.length m)%nat then str_take (_ERROR_MESSAGE_MAX_LEN - 3) m +:+ "..." else m.

Section dispatch.
Context `{Outside} `{Aead} (b64decode : string -> string) (kek_b64 : string).

Abbreviation M := (stm world exc).

(** [tool_input.get(key, dflt)], which needs a dict. *)
Definition input_get (key : string) (dflt : pyval) (tool_input : pyval) : M pyval :=
  match tool_input with PDict d => mret (dict_getd key dflt d) | _ => lib LibAttributeError end.

(** An argument that the database takes as text. *)
Definition as_text (v : pyval) : M string := match v with PStr s => mret s | _ => lib LibTypeError end.

(** [.lower()] of an argument. *)
Definition as_lower (v : pyval) : M string := match v with PStr s => mret (str_lower s) | _ => lib LibAttributeError end.

(** ** Channels *)

Definition decrypt_config (c : channel) : M pyval :=
  on_states (k ← kek b64decode kek_b64; lift_crypto (decrypt_value (ch_config_encrypted c) (ch_config_dek_encrypted c) k)).

Definition _send_to_channel (agent : agent_row) (channel_type message : pyval) : M string :=
  kind ← as_text channel_type;
  w ← getS;
  match List.filter (fun c => String.eqb (ch_agent_id c) (ar_id agent) && String.eqb (ch_type c) kind && ch_enabled c)
          (channels w) with
  | [] => mret (error_json ("Channel not configured: " +:+ kind))
  | _ :: _ :: _ => lib (LibService MultipleResultsFound)
  | [c] =>
      config ← decrypt_config c;
      if String.eqb kind "discord" then
        let url := match config with PDict d => dict_getd "webhook_url" PNone d | _ => PNone end in
        if negb (truthy url) then mret (error_json "Discord channel missing webhook_url in config")
        else
          try_all
            (u ← as_text url;
             text ← (match message with
                     | PStr m => mret (str_take (Z.to_nat 2000) m)
                     | _ => lib LibTypeError
                     end : M string);
             status ← ask_res (post_webhook u text);
             if status <? 300 then mret (json_dumps (PDict [("sent", PBool true); ("channel", PStr kind)]))
             else mret (error_json ("Discord webhook returned " +:+ str_of_Z status)))
            (fun e => mret (error_json ("Discord send failed: " +:+ str_take 200 (exc_text e))))
      else mret (error_json ("Channel type '" +:+ kind +:+ "' not yet supported"))
  end.

(** ** Built-in tools *)

(** The entries whose key or value contains the query. *)
Definition state_text (v : pyval) : string := match v with PStr s => s | _ => json_dumps v end.

Definition search_matches (query : string) (agent_state : list (string * pyval)) : list pyval :=
  omap (fun '(key, value) =>
    let text := state_text value in
    if str_contains query (str_lower key) || str_contains query (str_lower text) then
      let preview := str_take 100 text +:+ (if (100 <? String.length text)%nat then "..." else "") in
      Some (PDict [("key", PStr key); ("preview", PStr preview)])
    else None) agent_state.

Definition _execute_platform_tool (tool_name : string) (tool_input : pyval) (agent : agent_row) (account_id tier : string)
    (agent_state : list (string * pyval)) : M string :=
  try_all
    (if String.eqb tool_name "send_to_channel" then
       channel_type ← input_get "channel_type" (PStr "") tool_input;
       message ← input_get "message" (PStr "") tool_input;
       _send_to_channel agent channel_type message
     else if String.eqb tool_name "get_state" then
       key ← input_get "key" (PStr "") tool_input;
       k ← as_text key;
       v ← on_states (get_state b64decode kek_b64 account_id (ar_name agent) k);
       shown ← input_get "key" PNone tool_input;
       mret (json_dumps (PDict [("key", shown); ("value", v.1)]))
     else if String.eqb tool_name "set_state" then
       key ← input_get "key" (PStr "") tool_input;
       k ← as_text key;
       value ← input_get "value" PNone tool_input;
       r ← ask random_bytes;
       _ ← on_states (set_state b64decode kek_b64 r account_id (ar_name agent) k value tier);
       shown ← input_get "key" PNone tool_input;
       mret (json_dumps (PDict [("key", shown); ("stored", PBool true)]))
     else if String.eqb tool_name "list_state_keys" then
       info ← on_states (list_state_keys account_id (ar_name agent) tier);
       let '(keys, total, _) := info in
       mret (json_dumps (PDict [("keys", PList (map PStr keys)); ("count", PInt (Z.of_nat (length keys)));
                                ("total_size_bytes", PInt total)]))
     else if String.eqb tool_name "search_state" then
       q ← input_get "query" (PStr "") tool_input;
       query ← as_lower q;
       if negb (truthy_str query) then mret (error_json "query is required")
       else mret (json_dumps (PDict [("matches", PList (take 20 (search_matches query agent_state))); ("query", PStr query);
                                     ("total_searched", PInt (Z.of_nat (length agent_state)))]))
     else mret (error_json ("Unknown platform tool: " +:+ tool_name)))
    (fun e => mret (error_json (str_take 500 (exc_text e)))).

(** ** Functions of the namespace *)

(** The columns [call_count] of the namespace, of the service and of the
    function; the names are compared as the caller wrote them. *)
Definition bump (key : string) (m : gmap string Z) : gmap string Z := <[key := default 0 (m !! key) + 1]> m.

Definition _increment_orchestration_call_count (namespace_id service_name function_name : string) : M unit :=
  w ← getS;
  let t := tables w in
  let s := base t in
  let svc := List.filter (fun x => String.eqb (s_namespace_id x) namespace_id && String.eqb (s_name x) service_name) (services (ns s)) in
  let counted f := existsb (fun x => String.eqb (s_id x) (f_service_id f)) svc && String.eqb (f_name f) function_name in
  let fs := map (fun f => if counted f then
      Function (f_id f) (f_service_id f) (f_name f) (f_description f) (f_tags f) (output_trust f) (active_version f)
        (call_count f + 1) (locked f) (locked_by f) (locked_at f) (public_safe f) (f_deleted_at f) else f) (functions s) in
  let calls' := foldr (fun x m => bump (s_id x) m)
    (if existsb (fun n => String.eqb (n_id n) namespace_id) (namespaces (ns s)) then bump namespace_id (calls s) else calls s) svc in
  set_tables (PStore (Store (ns s) fs (versions s) calls') (procedures t) (pversions t) (executions t)).

(** The only registered backend. *)
Definition get_backend (name : string) : bool := String.eqb name "code_sandbox".

Definition output_text (output : pyval) : string :=
  str_take (Z.to_nat 4000) (match output with PStr s => s | _ => json_dumps output end).

Definition _execute_namespace_function (service_name function_name : string) (input_data : pyval) (agent : agent_row)
    (agent_state : list (string * pyval)) (agent_run_id : option string) : M string :=
  try_all
    (w ← getS;
     match (get_for_execution (ar_namespace_id agent) service_name function_name (base (tables w))).1 with
     | Err e => raise (Exception (service_text e))
     | Ok (func, version) =>
         if negb (get_backend (backend (v_spec version))) then
           mret (error_json ("Backend not available: " +:+ backend (v_spec version)))
         else
           execution_id ← ask uuid4;
           result ← ask_res (sandbox_execute (ExecCall (code (v_spec version)) (config (v_spec version)) input_data
             execution_id agent_state (if truthy_ostr agent_run_id then agent_run_id else None) (ar_name agent)));
           log_execution (ExecutionRow execution_id (ar_namespace_id agent) service_name function_name (f_id func)
             (v_version version) (if r_success result then "completed" else "failed") input_data
             (if r_success result then Some (r_output result) else None)
             (if truthy_ostr (r_error result) then Some (_scrub_error_message (default "" (r_error result))) else None)
             (if truthy_ostr agent_run_id then agent_run_id else None));;
           if r_success result then
             _increment_orchestration_call_count (ar_namespace_id agent) service_name function_name;;
             mret (output_text (r_output result))
           else mret (error_json (or_text (r_error result) "Function execution failed"))
     end)
    (fun e => mret (error_json (str_take 500 (exc_text e)))).

(** ** [_dispatch_tool] *)

(** [run_procedure_orchestration], with the names of the procedure and of its
    service, the trigger, the account, the tier and the input. *)
Context (run_procedure : agent_row -> pyval -> pyval -> string -> string -> string -> pyval -> M OrchestrationResult).

(** The text of [json.dumps] escapes the dash of the message. *)
Definition covered_json (tool_name label : string) : string :=
  let '(svc, proc) := match split_once " / " label with Some p => p | None => (label, ""%string) end in
  "{" +:+ json_str "error" +:+ ": " +:+ dq +:+ str_body ("Direct call to '" +:+ tool_name +:+ "' is blocked ") +:+ "\u2014"
  +:+ str_body (" this function is covered by procedure '" +:+ label +:+ "'. You MUST use run_procedure(service='" +:+ svc
                +:+ "', name='" +:+ proc +:+ "') instead.") +:+ dq +:+ "}".

Definition unknown_tool (tool_name : string) (available_tools : list tool) : string :=
  error_json ("Unknown tool: '" +:+ tool_name +:+ "'. Tool names use the format "
    +:+ "'service_name__function_name' (double underscore). Available tools: "
    +:+ match available_tools with [] => "none" | _ => format_available_tools available_tools end).

Definition refusal (agent : agent_row) (tier_value tool_name trigger_type : string) : string :=
  error_json ("Agent '" +:+ ar_name agent +:+ "' (tier: " +:+ tier_value +:+ ") is not authorized to call '" +:+ tool_name
    +:+ "' in " +:+ trigger_type +:+ " context").

(** The tier of a scheduled run is another one. *)
Definition tier_value (agent : agent_row) (trigger_type : string) : string :=
  if str_in trigger_type ["cron"; "webhook"] then scheduled_tool_tier agent else tool_tier agent.

Definition procedure_result (r : OrchestrationResult) : string :=
  json_dumps (PDict [("success", PBool (success r)); ("steps_completed", PInt (Z.of_nat (length (functions_called r))));
                     ("final_text", PStr (str_take 500 (or_text (final_text r) "")))]).

(** The built-in tool [run_procedure]. *)
Definition dispatch_procedure (agent : agent_row) (account_id tier trigger_type : string) (tool_input : pyval) : M string :=
  service_name ← input_get "service" (PStr "") tool_input;
  procedure_name ← input_get "name" (PStr "") tool_input;
  if negb (truthy service_name) || negb (truthy procedure_name) then
    mret (error_json "run_procedure requires 'service' and 'name'")
  else
    try_all
      (input_context ← input_get "input_context" PNone tool_input;
       r ← run_procedure agent procedure_name service_name trigger_type account_id tier input_context;
       mret (procedure_result r))
      (fun e => mret (error_json ("Procedure failed: " +:+ str_take 300 (exc_text e)))).

Record dispatch_env := DispatchEnv {
  d_account_id : string;
  d_tier : string;
  d_trigger_type : string;
  d_mcp_pool : bool;
  d_agent_state : list (string * pyval);
  d_available_tools : list tool;
  d_procedure_covered : list (string * string);
  d_agent_run_id : option string
}.

Definition _dispatch_tool (tool_name : string) (tool_input : pyval) (agent : agent_row) (d : dispatch_env) : M string :=
  let value := tier_value agent (d_trigger_type d) in
  match ToolTier_of value with
  | None => lib LibValueError
  | Some effective_tier =>
      if negb (is_tool_allowed effective_tier tool_name) then mret (refusal agent value tool_name (d_trigger_type d))
      else if String.eqb tool_name "run_procedure" then
        dispatch_procedure agent (d_account_id d) (d_tier d) (d_trigger_type d) tool_input
      else if str_in tool_name PLATFORM_TOOL_NAMES then
        _execute_platform_tool tool_name tool_input agent (d_account_id d) (d_tier d) (d_agent_state d)
      else if is_mcp_tool tool_name then
        if negb (d_mcp_pool d) then mret (error_json "MCP server pool not available")
        else ask (mcp_call_tool tool_name tool_input)
      else if starts_with "api__" tool_name then ask_res (api_call_tool tool_name tool_input)
      else
        match parse_tool_name tool_name with
        | None => mret (unknown_tool tool_name (d_available_tools d))
        | Some (service_name, function_name) =>
            match dict_get tool_name (d_procedure_covered d) with
            | Some label => mret (covered_json tool_name label)
            | None =>
                _execute_namespace_function service_name function_name tool_input agent (d_agent_state d) (d_agent_run_id d)
            end
        end
  end.
End dispatch.

(** ** Error texts *)

Lemma error_json_is_error m : is_error (error_json m) = true.
Proof.
  unfold is_error, error_json. cbn [json_dumps dumps_with map str_join].
  assert (forall rest, str_contains (dq +:+ "error" +:+ dq) (str_take 50 ("{" +:+ (dq +:+ "error" +:+ dq) +:+ rest)) = true) as H.
  { intros rest. apply str_contains_spec. exists "{"%string. eexists. reflexivity. }
  apply H.
Qed.

Lemma platform_not_allowed t name : name ∈ PLATFORM_TOOL_NAMES -> is_tool_allowed t name = false.
Proof.
  assert (forallb (fun n => forallb (fun t => negb (is_tool_allowed t n)) [EXECUTE_ONLY; STANDARD; BUILDER; ADMIN])
    PLATFORM_TOOL_NAMES = true) as Hall by by vm_compute.
  intros Hn%list_elem_of_In. rewrite forallb_forall in Hall. specialize (Hall _ Hn). rewrite forallb_forall in Hall.
  apply negb_true_iff, Hall. destruct t; cbn; tauto.
Qed.

Section facts.
Context `{Outside} `{Aead} (b64decode : string -> string) (kek_b64 : string).
Context (run_procedure : agent_row -> pyval -> pyval -> string -> string -> string -> pyval -> stm world exc OrchestrationResult).
#[local] Set Default Proof Using "Type*".

Abbreviation dispatch := (_dispatch_tool b64decode kek_b64 run_procedure).

(** The orchestrator refuses all its built-in tools: whatever the tier of
    the agent and the trigger, a call of [send_to_channel], of one of the state
    tools or of [run_procedure] is answered with the message that the agent is
    not authorized, and does nothing.  So a function covered by a procedure
    cannot be run by its name at all: the direct call is refused with the advice
    to use [run_procedure], and that call is refused too. *)
Theorem platform_tools_refused agent d t name w :
  ToolTier_of (tier_value agent (d_trigger_type d)) = Some t ->
  (name ∈ PLATFORM_TOOL_NAMES -> forall input,
     exists m, dispatch name input agent d w = (Ok m, w) /\
       m = refusal agent (tier_value agent (d_trigger_type d)) name (d_trigger_type d) /\ is_error m = true) /\
  (forall svc fn label, name = tool_name svc fn -> dict_get name (d_procedure_covered d) = Some label ->
     str_contains "__" (svc +:+ "_") = false -> svc <> "mcp" -> svc <> "api" ->
     (forall input, dispatch name input agent d w = (Ok (covered_json name label), w)) /\
     (forall input, exists m, dispatch "run_procedure" input agent d w = (Ok m, w) /\ is_error m = true)).
Proof.
  intros Ht. assert (forall name, name ∈ PLATFORM_TOOL_NAMES -> forall input,
    dispatch name input agent d w = (Ok (refusal agent (tier_value agent (d_trigger_type d)) name (d_trigger_type d)), w)) as Hrefuse.
  { intros nm Hnm input. unfold _dispatch_tool. rewrite Ht, platform_not_allowed by done. done. }
  split.
  - intros Hn input. eexists. split; [by apply Hrefuse|]. split; [done|apply error_json_is_error].
  - intros svc fn label -> Hc Hsvc Hmcp Hapi. split.
    + intros input. assert (str_contains "__" (tool_name svc fn) = true) as Hdd by apply (str_contains_middle svc "__" fn).
      assert (forall p, p <> svc -> str_contains "__" (p +:+ "_") = false -> starts_with (p +:+ "__") (tool_name svc fn) = false) as Hpre.
      { intros p Hne Hp. apply not_true_iff_false. intros [u Hu]%starts_with_spec. rewrite str_app_assoc in Hu.
        pose proof (split_first svc fn Hsvc) as H1. pose proof (split_first p u Hp) as H2. unfold tool_name in Hu. congruence. }
      assert (is_mcp_tool (tool_name svc fn) = false) as Hm by (apply (Hpre "mcp"); [congruence|done]).
      assert (starts_with "api__" (tool_name svc fn) = false) as Ha by (apply (Hpre "api"); [congruence|done]).
      unfold _dispatch_tool. rewrite Ht. unfold is_tool_allowed. rewrite Hdd. cbn [orb negb].
      destruct (String.eqb_spec (tool_name svc fn) "run_procedure") as [Heq|_].
      { rewrite Heq in Hdd. done. }
      rewrite not_platform, Hm, Ha by done.
      rewrite parse_double by done. unfold tool_name at 1. rewrite split_first by done. by rewrite Hc.
    + intros input. eexists. split; [apply Hrefuse; apply str_in_spec; by vm_compute|apply error_json_is_error].
Qed.
End facts.

(** ** What a call may run *)

Section execution.
Context `{Outside}.

(** The row of one run of function [f] in its active version [v]. *)
Definition row_of (agent : agent_row) (svc fn : string) (input : pyval) (run : option string) (f : function) (v : version)
    (result : exec_result) (id : string) : execution_row :=
  ExecutionRow id (ar_namespace_id agent) svc fn (f_id f) (v_version v)
    (if r_success result then "completed" else "failed") input
    (if r_success result then Some (r_output result) else None)
    (if truthy_ostr (r_error result) then Some (_scrub_error_message (default "" (r_error result))) else None)
    (if truthy_ostr run then run else None).

Definition result_text (result : exec_result) : string :=
  if r_success result then output_text (r_output result) else error_json (or_text (r_error result) "Function execution failed").

(** Nothing changed but what is outside. *)
Definition untouched (w w' : world) : Prop :=
  tables w' = tables w /\ states w' = states w /\ channels w' = channels w /\ execution_log w' = execution_log w /\
  runs w' = runs w /\ events w' = events w.

(** One run in the sandbox, of the active version of a live function of the
    agent's namespace: its code with the input given, its result in the text
    and in one new row. *)
Definition executed (agent : agent_row) (svc fn : string) (input : pyval) (run : option string) (w : world) (m : string)
    (w' : world) : Prop :=
  exists f v result id o state,
    get_for_execution (ar_namespace_id agent) svc fn (base (tables w)) = (Ok (f, v), base (tables w)) /\
    backend (v_spec v) = "code_sandbox" /\
    (sandbox_execute (ExecCall (code (v_spec v)) (config (v_spec v)) input id state
       (if truthy_ostr run then run else None) (ar_name agent)) o).1 = Ok result /\
    execution_log w' = execution_log w ++ [row_of agent svc fn input run f v result id] /\
    m = result_text result /\ states w' = states w /\ runs w' = runs w /\ events w' = events w.

Lemma get_for_execution_state n svc fn s : (get_for_execution n svc fn s).2 = s.
Proof.
  unfold get_for_execution, mbind, stm_bind, getS, lift_res, Functions.not_found, raise.
  destruct (one_or_none _ _) as [[f|]|]; [|done..]. by destruct (Functions.get_active_version_obj _ f).
Qed.

Lemma execute_function_spec svc fn input agent state run w :
  exists m w', _execute_namespace_function svc fn input agent state run w = (Ok m, w') /\
    (untouched w w' \/ executed agent svc fn input run w m w').
Proof.
  unfold _execute_namespace_function, try_all, mbind, stm_bind. cbn [getS].
  destruct (get_for_execution (ar_namespace_id agent) svc fn (base (tables w))) as [r s0] eqn:Hget.
  assert (s0 = base (tables w)) as -> by by rewrite <-(get_for_execution_state (ar_namespace_id agent) svc fn (base (tables w))), Hget.
  cbn [fst]. destruct r as [[f v]|e].
  2: { unfold raise. do 2 eexists. split; [reflexivity|]. left. by repeat split. }
  unfold get_backend. destruct (String.eqb_spec (backend (v_spec v)) "code_sandbox") as [Hb|Hb]; cbn [negb].
  2: { do 2 eexists. split; [reflexivity|]. left. by repeat split. }
  unfold ask. destruct (uuid4 (out w)) as [id o1]. unfold ask_res. cbn [set_out out].
  set (call := ExecCall _ _ _ _ _ _ _).
  destruct (sandbox_execute call o1) as [[result|e] o2] eqn:Hexec.
  2: { do 2 eexists. split; [reflexivity|]. left. by repeat split. }
  cbn [log_execution modS]. destruct (r_success result) eqn:Hok.
  - unfold _increment_orchestration_call_count, mbind, stm_bind. cbn [getS set_tables modS mret stm_ret].
    do 2 eexists. split; [reflexivity|]. right. exists f, v, result, id, o1, state. split; [done|]. split; [done|].
    split; [subst call; by rewrite Hexec|]. unfold row_of, result_text. rewrite Hok. by repeat split.
  - do 2 eexists. split; [reflexivity|]. right. exists f, v, result, id, o1, state. split; [done|]. split; [done|].
    split; [subst call; by rewrite Hexec|]. unfold row_of, result_text. rewrite Hok. by repeat split.
Qed.
End execution.

Section soundness.
Context `{Outside} `{Aead} (b64decode : string -> string) (kek_b64 : string).
Context (run_procedure : agent_row -> pyval -> pyval -> string -> string -> string -> pyval -> stm world exc OrchestrationResult).
#[local] Set Default Proof Using "Type*".

Abbreviation dispatch := (_dispatch_tool b64decode kek_b64 run_procedure).

(** What one tool call of the orchestrator can do: it leaves all tables as
    they are (what happens elsewhere, on other tool servers, aside), or it runs
    exactly one function in the sandbox, which then is a live function of the
    agent's own namespace in its active version, named by the two parts of the
    tool name and not under a name listed as covered by a procedure; the sandbox
    gets the stored code and the input of the call, and one row records the run
    with its result.  An exception leaves everything as it was. *)
Theorem dispatch_execution_sound agent d name input w r w' :
  dispatch name input agent d w = (r, w') ->
  untouched w w' \/
  exists svc fn m, r = Ok m /\ parse_tool_name name = Some (svc, fn) /\ dict_get name (d_procedure_covered d) = None /\
    (exists t, ToolTier_of (tier_value agent (d_trigger_type d)) = Some t /\ is_tool_allowed t name = true) /\
    executed agent svc fn input (d_agent_run_id d) w m w'.
Proof.
  unfold _dispatch_tool. destruct (ToolTier_of _) as [t|] eqn:Ht; [|intros [= <- <-]; left; by repeat split].
  destruct (is_tool_allowed t name) eqn:Hallow; cbn [negb]; [|intros [= <- <-]; left; by repeat split].
  destruct (String.eqb_spec name "run_procedure") as [->|_]; [by destruct t|].
  destruct (str_in name PLATFORM_TOOL_NAMES) eqn:Hp; [by apply str_in_spec, (platform_not_allowed t) in Hp; congruence|].
  destruct (is_mcp_tool name) eqn:Hm.
  { destruct (d_mcp_pool d); cbn [negb]; [|intros [= <- <-]; left; by repeat split].
    unfold ask. destruct (mcp_call_tool name input (out w)). intros [= <- <-]. left. by repeat split. }
  destruct (starts_with "api__" name).
  { unfold ask_res. destruct (api_call_tool name input (out w)). intros [= <- <-]. left. by repeat split. }
  destruct (parse_tool_name name) as [[svc fn]|] eqn:Hparse; [|intros [= <- <-]; left; by repeat split].
  destruct (dict_get name _) as [label|] eqn:Hcov; [intros [= <- <-]; left; by repeat split|].
  destruct (execute_function_spec svc fn input agent (d_agent_state d) (d_agent_run_id d) w) as (m & w1 & -> & Hcase).
  intros [= <- <-]. destruct Hcase as [?|Hex]; [by left|]. right. exists svc, fn, m. split_and!; try done. by exists t.
Qed.
End soundness.

(** ** Examples *)

(** Outside with a clock that advances one second at each reading and replies
    read from a script; the sandbox gives back its input. *)
Record script := Script { s_clock : Z; s_replies : list (res exc response) }.

#[export] Instance scripted : Outside := {|
  outside := script;
  monotonic o := (s_clock o, Script (s_clock o + 1000000) (s_replies o));
  uuid4 o := ("id-" +:+ str_of_Z (s_clock o), o);
  random_bytes o := (demo_rnd, o);
  now o := (s_clock o, o);
  chat_with_tools q o :=
    match s_replies o with
    | [] => (Err (AIClientError "no reply"), o)
    | r :: l => (r, Script (s_clock o) l)
    end;
  sandbox_execute c o := (Ok (ExecResult true (c_input c) None), o);
  mcp_call_tool name input o := ("{}", o);
  api_call_tool name input o := (Ok "{}", o);
  post_webhook url text o := (Ok 204, o);
  load_mcp_tools id o := (None, o);
  load_api_tools id o := (Ok [], o);
  token_urlsafe o := ("cAnArY-tOkEn_0123456", o);
  lib_text e := "error"
|}.

Definition demo_agent : agent_row :=
  AgentRow "ag1" "acc1" "n1" "bot" (Some "anthropic") (Some "model") (Some ("", "")) None None None "standard" "execute_only".
Definition demo_world : world :=
  World demo_pstore demo_st [] [] [] (Sec [] ∅) (Script 0 []).
Definition demo_covered : list (string * string) := [("social__post", "social / thread")].
Definition demo_dispatch : dispatch_env := DispatchEnv "acc1" "pro-agent" "manual" false [] [] demo_covered None.
Definition no_procedure : agent_row -> pyval -> pyval -> string -> string -> string -> pyval -> stm world exc OrchestrationResult :=
  fun _ _ _ _ _ _ _ => lib LibTypeError.
Definition demo_call (name : string) (input : pyval) : res exc string * world :=
  _dispatch_tool (fun x => x) demo_kek no_procedure name input demo_agent demo_dispatch demo_world.
Definition demo_text : pyval := PDict [("text", PStr "hi")].

(** A function covered by a procedure runs all the same when its name is
    written in another case: the list of covered names is compared as written,
    the functions are looked up in lower case. *)
Lemma covered_function_bypassed :
  (exists w, demo_call "social__post" demo_text = (Ok (covered_json "social__post" "social / thread"), w) /\ execution_log w = []) /\
  (exists w, demo_call "social__Post" demo_text = (Ok (json_dumps demo_text), w) /\
     map ex_function_id (execution_log w) = ["f1"%string] /\ map ex_status (execution_log w) = ["completed"%string]).
Proof. split; eexists; (split; [by vm_compute|by vm_compute]). Qed.

(** The call counts are kept by the names as written too: a call in another
    case is not counted. *)
Lemma call_count_case :
  map call_count (functions (base (tables (demo_call "social__Post" demo_text).2))) = [0] /\
  map call_count (functions (base (tables (_dispatch_tool (fun x => x) demo_kek no_procedure "social__post" demo_text demo_agent
    (DispatchEnv "acc1" "pro-agent" "manual" false [] [] [] None) demo_world).2))) = [1].
Proof. by vm_compute. Qed.

Example scrub_demo :
  _scrub_error_message "mail bob@example.org or 555-123-4567, key sk-abc" = "mail [EMAIL] or [PHONE], key [REDACTED_KEY]".
Proof. by vm_compute. Qed.

Lemma platform_tools_refused_witness :
  (exists m, demo_call "get_state" (PDict [("key", PStr "memory")]) = (Ok m, demo_world) /\
     m = refusal demo_agent "standard" "get_state" "manual" /\ is_error m = true) /\
  demo_call "social__post" demo_text = (Ok (covered_json "social__post" "social / thread"), demo_world).
Proof.
  split.
  - apply (@platform_tools_refused scripted toy_aead (fun x => x) demo_kek no_procedure demo_agent demo_dispatch STANDARD "get_state" demo_world eq_refl).
    apply str_in_spec. reflexivity.
  - refine (proj1 (proj2 (@platform_tools_refused scripted toy_aead (fun x => x) demo_kek no_procedure demo_agent demo_dispatch STANDARD "social__post" demo_world eq_refl)
      "social" "post" "social / thread" eq_refl eq_refl eq_refl _ _) demo_text); discriminate.
Defined.

Lemma dispatch_execution_sound_witness :
  let '(r, w') := demo_call "social__Post" demo_text in
  untouched demo_world w' \/ exists svc fn m, r = Ok m /\ parse_tool_name "social__Post" = Some (svc, fn) /\
    dict_get "social__Post" demo_covered = None /\
    (exists t, ToolTier_of "standard" = Some t /\ is_tool_allowed t "social__Post" = true) /\
    executed demo_agent svc fn demo_text None demo_world m w'.
Proof.
  destruct (demo_call "social__Post" demo_text) as [r w'] eqn:E.
  exact (@dispatch_execution_sound scripted toy_aead (fun x => x) demo_kek no_procedure demo_agent demo_dispatch "social__Post" demo_text demo_world r w' E).
Defined.
