(* ===== verification/Frames.v ===== *)
(** * What a computation leaves alone

    [keeps f m]: the part [f] of the world is the same after [m] as before.  A
    [Frame] is a part that neither the outside nor the state of agents is in;
    the lemmas follow the operations of [ToolDispatch], and [keeps_tac] applies
    them. *)

From S2P Require Import Prelude Encryption AgentState AiTools ToolDispatch AgentAccess.

Section frames.
Context `{Outside}.

Class Frame {T} (f : world -> T) := {
  frame_out o w : f (set_out o w) = f w;
  frame_states t s s' c x r e o : f (World t s c x r e o) = f (World t s' c x r e o)
}.

#[export] Instance runs_frame : Frame runs.
Proof. by split. Qed.
#[export] Instance tables_frame : Frame tables.
Proof. by split. Qed.

Definition keeps {T A} (f : world -> T) (m : stm world exc A) : Prop := forall w, f (m w).2 = f w.

Section frame.
Context {T} (f : world -> T) `{!Frame f}.

Lemma keeps_run {A} (m : stm world exc A) w r w' : keeps f m -> m w = (r, w') -> f w' = f w.
Proof. intros Hm Hr. specialize (Hm w). by rewrite Hr in Hm. Qed.
Lemma keeps_pure {A} (a : A) : keeps f (mret a).
Proof. done. Qed.
Lemma keeps_lib {A} e : keeps f (lib e : stm world exc A).
Proof. done. Qed.
Lemma keeps_err {A} e : keeps f (raise e : stm world exc A).
Proof. done. Qed.
Lemma keeps_get : keeps f getS.
Proof. done. Qed.
Lemma keeps_seq {A B} (m : stm world exc A) (k : A -> stm world exc B) : keeps f m -> (forall a, keeps f (k a)) -> keeps f (m ≫= k).
Proof.
  intros Hm Hk w. unfold mbind, stm_bind. specialize (Hm w). destruct (m w) as [[a|x] w']; cbn in *; [|done]. by rewrite Hk.
Qed.
Lemma keeps_try_all {A} (m : stm world exc A) h : keeps f m -> (forall e, keeps f (h e)) -> keeps f (try_all m h).
Proof.
  intros Hm Hh w. unfold try_all. specialize (Hm w). destruct (m w) as [[a|x] w']; cbn in *; [done|]. by rewrite Hh.
Qed.

#[local] Set Default Proof Using "Type*".

Lemma keeps_ask {A} (g : outside -> A * outside) : keeps f (ask g).
Proof. intros w. unfold ask. destruct (g (out w)). apply frame_out. Qed.
Lemma keeps_ask_res {A} (g : outside -> res exc A * outside) : keeps f (ask_res g).
Proof. intros w. unfold ask_res. destruct (g (out w)). apply frame_out. Qed.
Lemma keeps_on_states {A} (m : stm st AgentState.err A) : keeps f (on_states m).
Proof.
  intros w. unfold on_states. destruct (m (states w)) as [[a|x] s]; cbn [snd]; rewrite (frame_states _ _ (states w)); by destruct w.
Qed.
End frame.

Lemma keeps_set_events_runs x : keeps runs (set_events x).
Proof. done. Qed.
Lemma keeps_set_events_tables x : keeps tables (set_events x).
Proof. done. Qed.
Lemma keeps_log_runs x : keeps runs (log_execution x).
Proof. done. Qed.
Lemma keeps_log_tables x : keeps tables (log_execution x).
Proof. done. Qed.
Lemma keeps_set_tables_runs t : keeps runs (set_tables t).
Proof. done. Qed.
Lemma keeps_add_run_tables x : keeps tables (add_run x).
Proof. done. Qed.
End frames.

Create HintDb keeps.
#[export] Hint Resolve keeps_pure keeps_lib keeps_err keeps_get keeps_ask keeps_ask_res keeps_on_states keeps_set_events_runs
  keeps_set_events_tables keeps_log_runs keeps_log_tables keeps_set_tables_runs keeps_add_run_tables : keeps.
#[export] Hint Extern 1 (Frame _) => apply runs_frame || apply tables_frame : keeps.

(** Case analysis on the computation, then the lemmas. *)
Ltac keeps_step :=
  first [ apply keeps_seq; [|intros ?] | apply keeps_try_all; [|intros ?] | solve [eauto 2 with keeps typeclass_instances]
        | match goal with |- keeps _ (match ?x with _ => _ end) => destruct x end
        | match goal with |- keeps _ (if ?x then _ else _) => destruct x end ].
Ltac keeps_tac := repeat keeps_step.

Section keepers.
Context `{Outside} `{Aead} (b64decode : string -> string) (kek_b64 : string).

Lemma keeps_send {T} (f : world -> T) `{!Frame f} agent kind text : keeps f (_send_to_channel b64decode kek_b64 agent kind text).
Proof. unfold _send_to_channel, as_text, decrypt_config. keeps_tac. Qed.

Context (run_procedure : agent_row -> pyval -> pyval -> string -> string -> string -> pyval -> stm world exc OrchestrationResult).

Lemma keeps_dispatch name input agent d : keeps runs (_dispatch_tool b64decode kek_b64 run_procedure name input agent d).
Proof.
  unfold _dispatch_tool. destruct (ToolTier_of _) as [t|]; [|apply keeps_lib].
  destruct (is_tool_allowed t name) eqn:Ha; cbn [negb]; [|apply keeps_pure].
  destruct (String.eqb_spec name "run_procedure") as [->|_]; [by destruct t|].
  destruct (str_in name PLATFORM_TOOL_NAMES) eqn:Hp; [by apply str_in_spec, (platform_not_allowed t) in Hp; congruence|].
  unfold _execute_namespace_function, _increment_orchestration_call_count. keeps_tac.
Qed.
End keepers.
