(* ===== verification/Hoare.v ===== *)
(** * Triples for the state and error monad

    [triple P m Q X]: run in a state with [P], the computation [m] ends in a
    state with [Q a] if it returns [a], and with [X e] if it raises [e].  The
    rules follow the monad; [hoare] applies them. *)

From S2P Require Import Prelude.

Section triples.
Context {S E : Type}.

Definition triple {A} (P : S -> Prop) (m : stm S E A) (Q : A -> S -> Prop) (X : E -> S -> Prop) : Prop :=
  forall s, P s -> match m s with (Ok a, s') => Q a s' | (Err e, s') => X e s' end.

Lemma triple_ret {A} (P : S -> Prop) (a : A) Q X : (forall s, P s -> Q a s) -> triple P (mret a) Q X.
Proof. intros H s Hs. by apply H. Qed.

Lemma triple_raise {A} (P : S -> Prop) e (Q : A -> S -> Prop) X : (forall s, P s -> X e s) -> triple P (raise e) Q X.
Proof. intros H s Hs. by apply H. Qed.

Lemma triple_bind {A B} P R (m : stm S E A) (f : A -> stm S E B) Q X :
  triple P m R X -> (forall a, triple (R a) (f a) Q X) -> triple P (m ≫= f) Q X.
Proof.
  intros Hm Hf s Hs. specialize (Hm s Hs). unfold mbind, stm_bind. destruct (m s) as [[a|e] s']; [|done].
  by apply Hf.
Qed.

Lemma triple_weaken {A} (P P' : S -> Prop) (m : stm S E A) (Q Q' : A -> S -> Prop) (X X' : E -> S -> Prop) :
  triple P' m Q' X' -> (forall s, P s -> P' s) -> (forall a s, Q' a s -> Q a s) -> (forall e s, X' e s -> X e s) ->
  triple P m Q X.
Proof.
  intros Hm HP HQ HX s Hs. specialize (Hm s (HP s Hs)). destruct (m s) as [[a|e] s']; auto.
Qed.

Lemma triple_pre {A} (P P' : S -> Prop) (m : stm S E A) Q X :
  triple P' m Q X -> (forall s, P s -> P' s) -> triple P m Q X.
Proof. intros Hm HP s Hs. by apply Hm, HP. Qed.

Lemma triple_post {A} (P : S -> Prop) (m : stm S E A) (Q Q' : A -> S -> Prop) (X X' : E -> S -> Prop) :
  triple P m Q' X' -> (forall a s, Q' a s -> Q a s) -> (forall e s, X' e s -> X e s) -> triple P m Q X.
Proof. intros Hm HQ HX. by eapply triple_weaken. Qed.

Lemma triple_conj {A} P P' (m : stm S E A) Q Q' X X' :
  triple P m Q X -> triple P' m Q' X' ->
  triple (fun s => P s /\ P' s) m (fun a s => Q a s /\ Q' a s) (fun e s => X e s /\ X' e s).
Proof. intros H H' s [Hs Hs']. specialize (H s Hs). specialize (H' s Hs'). by destruct (m s) as [[a|e] s']. Qed.

Lemma triple_pure {A} (P : S -> Prop) (p : Prop) (m : stm S E A) Q X :
  (p -> triple P m Q X) -> triple (fun s => p /\ P s) m Q X.
Proof. intros H s [Hp Hs]. by apply H. Qed.

Lemma triple_run {A} P (m : stm S E A) Q X s r s' :
  triple P m Q X -> P s -> m s = (r, s') -> match r with Ok a => Q a s' | Err e => X e s' end.
Proof. intros Hm Hs Hr. specialize (Hm s Hs). by rewrite Hr in Hm. Qed.
End triples.
