(* ===== verification/ProcedureRun.v ===== *)
(** * The execution of a procedure

    [run_procedure_orchestration] of [tasks/orchestrator.py]: each step of the
    active version is put to the AI provider with its function as the required
    tool, and tried again with the error of the last attempt until the function
    has returned a result or the attempts are used up.  The dispatcher is a
    parameter of the run; at the end it is [_dispatch_tool], and the knot with
    [run_orchestration] is tied. *)

From stdpp Require Import gmap strings.
From Stdlib Require Import Ascii.
From S2P Require Import Prelude JsonPath AgentAccess Security SecurityEvents Json Encryption AgentState Namespaces Functions Procedures AiTools ToolDispatch Frames Hoare Orchestrator.

Open Scope Z_scope.

(** ** Texts *)

(** [json.dumps(v, indent=2)] at a depth. *)
Fixpoint spaces (n : nat) : string := match n with O => "" | S n' => "  " +:+ spaces n' end.
Fixpoint dumps_indent (depth : nat) (v : pyval) : string :=
  let sep := "," +:+ nl +:+ spaces (S depth) in
  match v with
  | PList ((_ :: _) as l) =>
      "[" +:+ nl +:+ spaces (S depth) +:+ str_join sep (map (dumps_indent (S depth)) l) +:+ nl +:+ spaces depth +:+ "]"
  | PDict ((_ :: _) as d) =>
      "{" +:+ nl +:+ spaces (S depth) +:+ str_join sep (map (fun kv => json_str kv.1 +:+ ": " +:+ dumps_indent (S depth) kv.2) d)
      +:+ nl +:+ spaces depth +:+ "}"
  | _ => json_dumps v
  end.

(** [datetime.isoformat()] in UTC, of microseconds since the epoch. *)
Fixpoint padded (digits : nat) (n : Z) : string :=
  match digits with O => "" | S k => padded k (n / 10) +:+ str_of_Z (n mod 10) end.
Definition isoformat (us : Z) : string :=
  let s := us / 1000000 in
  date_text s +:+ "T" +:+ padded 2 (s mod 86400 / 3600) +:+ ":" +:+ padded 2 (s mod 3600 / 60) +:+ ":" +:+ padded 2 (s mod 60)
  +:+ (if us mod 1000000 =? 0 then "" else "." +:+ padded 6 (us mod 1000000)) +:+ "+00:00".

(** ** Records of a run *)

Record attempt_record := Attempt {
  at_number : Z;
  at_started_at : string;
  at_completed_at : option string;
  at_success : bool;
  at_error : option string;
  at_tool_input : option pyval
}.

Record step_result := StepResult {
  sr_step_number : pyval;
  sr_name : pyval;
  sr_status : string;
  sr_function_called : option string;
  sr_result : pyval;
  sr_error : option string;
  sr_attempt_count : Z;
  sr_attempts : list attempt_record
}.

Definition or_null (o : option string) : pyval := match o with Some s => PStr s | None => PNone end.

Definition attempt_json (a : attempt_record) : pyval :=
  PDict ([("attempt", PInt (at_number a)); ("started_at", PStr (at_started_at a)); ("completed_at", or_null (at_completed_at a));
          ("success", PBool (at_success a)); ("error", or_null (at_error a))]
         ++ match at_tool_input a with Some v => [("tool_input", v)] | None => [] end).

Definition step_json (r : step_result) : pyval :=
  PDict [("step_number", sr_step_number r); ("name", sr_name r); ("status", PStr (sr_status r));
         ("function_called", or_null (sr_function_called r)); ("result", sr_result r); ("error", or_null (sr_error r));
         ("attempt_count", PInt (sr_attempt_count r)); ("attempts", PList (map attempt_json (sr_attempts r)))].

(** The variables of the run that the steps change. *)
Record run_vars := RunVars {
  v_called : list string;
  v_tokens : Z;
  v_iterations : Z;
  v_context : list (string * pyval);
  v_results : list step_result
}.

(** What is read from a step. *)
Record step_plan := StepPlan {
  pl_number : pyval;
  pl_name : pyval;
  pl_ref : string;
  pl_tool : string;
  pl_instructions : pyval;
  pl_policy : string;
  pl_retries : Z;
  pl_validation : pyval;
  pl_input_mapping : pyval;
  pl_output_mapping : pyval
}.

Section procedure.
Context `{Outside} `{Aead} (b64decode : string -> string) (kek_b64 : string).

Abbreviation M := (stm world exc).

Definition pexn_text (e : pexn) : string :=
  match e with Exn e => service_text e | _ => lib_text (LibProcedure e) end.

(** A session of its own on the tables: committed, or rolled back. *)
Definition on_tables {A} (m : stm pstore pexn A) : M A := fun w =>
  match m (tables w) with
  | (Ok a, t) => (Ok a, World t (states w) (channels w) (execution_log w) (runs w) (events w) (out w))
  | (Err e, _) => (Err (Exception (pexn_text e)), w)
  end.

(** ** Reading a step *)

Definition need (key : string) (s : step) : M pyval := match dict_get key s with Some v => mret v | None => lib LibKeyError end.

(** [function_ref.split(".", 1)] into two names. *)
Definition read_step (s : step) : M step_plan :=
  number ← need "step_number" s;
  name ← need "name" s;
  ref ← need "function_ref" s;
  instructions ← need "instructions" s;
  match ref with
  | PStr r =>
      match split_once "." r with
      | Some (svc_name, fn_name) =>
          mret (StepPlan number name r (tool_name svc_name fn_name) instructions
                  (match get "failure_policy" (PStr "required") s with PStr p => p | _ => "" end)
                  (default 0 (int_value (get "max_retries" (PInt 1) s)))
                  (get "validation" PNone s) (get "input_mapping" PNone s) (get "output_mapping" PNone s))
      | None => lib LibValueError
      end
  | _ => lib LibAttributeError
  end.

(** The expressions of a mapping as texts. *)
Fixpoint mapping_texts (d : list (string * pyval)) : M (list (string * string)) :=
  match d with
  | [] => mret []
  | (k, PStr e) :: d' => l ← mapping_texts d'; mret ((k, e) :: l)
  | _ :: _ => lib LibAttributeError
  end.

(** ** The prompt *)

Definition data_lines (pre_resolved context : list (string * pyval)) : list string :=
  map (fun '(k, v) => "  " +:+ k +:+ " = " +:+ json_dumps v +:+ " (pre-resolved)") pre_resolved
  ++ match dict_get "input" context with
     | Some (PDict d) =>
         omap (fun '(k, v) => if dict_has k pre_resolved then None else Some ("  " +:+ k +:+ " = " +:+ json_dumps v)) d
     | _ => []
     end
  ++ omap (fun '(k, v) =>
       if String.eqb k "input" then None
       else
         let r := match v with PDict d => dict_getd "result" PNone d | _ => v end in
         Some ("  " +:+ k +:+ "_result = " +:+ json_dumps r)) context.

Definition mapping_hint (pre_resolved : list (string * pyval)) : string :=
  match pre_resolved with
  | [] => ""
  | _ => nl +:+ "## Pre-Resolved Parameters" +:+ nl
         +:+ "The following parameters have been pre-resolved from input mappings. " +:+ "Use these exact values:" +:+ nl
         +:+ "```json" +:+ nl +:+ dumps_indent 0 (PDict pre_resolved) +:+ nl +:+ "```" +:+ nl
  end.

Definition step_prompt (p : step_plan) (schema : option pyval) (pre_resolved context : list (string * pyval)) : string :=
  "You are executing step " +:+ py_str (pl_number p) +:+ " of a procedure." +:+ nl +:+ nl
  +:+ "## Step: " +:+ py_str (pl_name p) +:+ nl
  +:+ "## Instructions" +:+ nl +:+ py_str (pl_instructions p) +:+ nl +:+ nl
  +:+ "## Required Function: `" +:+ pl_tool p +:+ "`" +:+ nl
  +:+ "Parameter schema:" +:+ nl +:+ "```json" +:+ nl
  +:+ (match schema with Some v => if truthy v then dumps_indent 0 v else "{}" | None => "{}" end) +:+ nl +:+ "```" +:+ nl +:+ nl
  +:+ mapping_hint pre_resolved
  +:+ "## Available Data" +:+ nl
  +:+ (match data_lines pre_resolved context with [] => "  (none)" | l => str_join nl l end) +:+ nl +:+ nl
  +:+ "## RULES" +:+ nl
  +:+ "- You MUST make a tool call to `" +:+ pl_tool p +:+ "`. Do NOT respond with text." +:+ nl
  +:+ "- Use the available data above to fill the function parameters." +:+ nl
  +:+ "- Do NOT fabricate data not present in the available data section." +:+ nl.

(** What a second attempt is told about the last one. *)
Definition retry_prompt (p : step_plan) (attempt : Z) (prev : attempt_record) : string :=
  str_join nl
    ([nl +:+ "## PREVIOUS ATTEMPT FAILED (attempt " +:+ str_of_Z attempt +:+ ")" +:+ nl;
      "Error: " +:+ (match at_error prev with Some e => e | None => "None" end) +:+ nl]
     ++ match at_tool_input prev with
        | Some v => if truthy v then ["Parameters you sent: ```json" +:+ nl +:+ json_dumps v +:+ nl +:+ "```" +:+ nl] else []
        | None => []
        end
     ++ ["You must adapt your parameters to fix this error. " +:+ "Do NOT repeat the same parameters. "
         +:+ "Call `" +:+ pl_tool p +:+ "` with corrected parameters now." +:+ nl]).

(** ** An attempt *)

Context (dispatch : string -> pyval -> agent_row -> dispatch_env -> M string).

(** What does not change during the run of a procedure. *)
Record proc_env := ProcEnv {
  pe_agent : agent_row;
  pe_dispatch : dispatch_env;
  pe_limits : list (string * pyval);
  pe_api_key : pyval;
  pe_tools : list tool;
  pe_start : Z;
  pe_execution_id : string
}.

Definition set_error (e : string) (a : attempt_record) : attempt_record :=
  Attempt (at_number a) (at_started_at a) (at_completed_at a) (at_success a) (Some e) (at_tool_input a).
Definition set_input (v : pyval) (a : attempt_record) : attempt_record :=
  Attempt (at_number a) (at_started_at a) (at_completed_at a) (at_success a) (at_error a) (Some v).
Definition set_success (a : attempt_record) : attempt_record :=
  Attempt (at_number a) (at_started_at a) (at_completed_at a) true (at_error a) (at_tool_input a).
Definition set_completed (t : string) (a : attempt_record) : attempt_record :=
  Attempt (at_number a) (at_started_at a) (Some t) (at_success a) (at_error a) (at_tool_input a).

(** [json.loads] or the text itself; what [json.loads] reads beyond the model
    of [Json] stops the run. *)
Definition result_value (text : string) : M pyval :=
  match json_loads text with
  | Ok v => mret v
  | Err JSONDecodeError => mret (PStr text)
  | Err OutOfModel => lib LibValueError
  end.

(** [f not in result] needs a hashable [f]; keys are texts. *)
Fixpoint not_in (fields : list pyval) (r : list (string * pyval)) : M (list pyval) :=
  match fields with
  | [] => mret []
  | PList _ :: _ | PDict _ :: _ => lib LibTypeError
  | f :: fields' =>
      rest ← not_in fields' r;
      mret (match f with PStr k => if dict_has k r then rest else f :: rest | _ => f :: rest end)
  end.

(** The fields that the validation misses; only a dict is validated. *)
Definition missing_fields (validation result : pyval) : M (list pyval) :=
  match validation, result with
  | PDict v, PDict r =>
      match dict_getd "required_fields" (PList []) v with
      | PList fields => not_in fields r
      | PStr s => not_in (map (fun c => PStr (String c "")) (String.list_ascii_of_string s)) r
      | PDict d => not_in (map (fun kv => PStr kv.1) d) r
      | other => if truthy other then lib LibTypeError else mret []
      end
  | _, _ => mret []
  end.

(** The loop over the blocks of a reply: the result of the required function
    when a call of it succeeded. *)
Fixpoint attempt_blocks (e : proc_env) (p : step_plan) (blocks : list block) (a : attempt_record)
    : M (attempt_record * option pyval) :=
  match blocks with
  | [] => mret (a, None)
  | BadToolUse :: _ => lib LibKeyError
  | ToolUse _ called_tool tool_input :: blocks' =>
      if negb (String.eqb called_tool (pl_tool p)) then
        attempt_blocks e p blocks'
          (set_error ("Called '" +:+ called_tool +:+ "' instead of required '" +:+ pl_tool p +:+ "'") a)
      else
        let a := set_input tool_input a in
        result_str ← dispatch called_tool tool_input (pe_agent e) (pe_dispatch e);
        if is_error result_str then attempt_blocks e p blocks' (set_error (str_take 500 result_str) a)
        else
          result_data ← result_value result_str;
          missing ← missing_fields (pl_validation p) result_data;
          match missing with
          | [] => mret (set_success a, Some result_data)
          | _ => attempt_blocks e p blocks' (set_error ("Validation failed: missing fields " +:+ py_repr (PList missing)) a)
          end
  | _ :: blocks' => attempt_blocks e p blocks' a
  end.

(** How an attempt ends: out of time, without a reply, or with one and perhaps
    a result. *)
Inductive attempt_end := TimedOut | NoReply | Replied (tokens : Z) (result : option pyval).

Definition completed (a : attempt_record) : M attempt_record := t ← ask now; mret (set_completed (isoformat t) a).

(** [chat_with_tools] with only the errors of the client caught. *)
Definition try_chat (q : chat_request) : M (response + string) := fun w =>
  match ask_res (chat_with_tools q) w with
  | (Ok r, w') => (Ok (inl r), w')
  | (Err (AIClientError m), w') => (Ok (inr m), w')
  | (Err x, w') => (Err x, w')
  end.

Definition text_reply_error : string := "LLM responded with text instead of calling the required function".

Definition run_attempt (e : proc_env) (p : step_plan) (schema : option pyval) (pre_resolved : list (string * pyval))
    (context : list (string * pyval)) (attempt : Z) (previous : option attempt_record) : M (attempt_record * attempt_end) :=
  started ← ask now;
  let a := Attempt (attempt + 1) (isoformat started) None false None None in
  used ← elapsed (pe_start e);
  if 1000000 * limit "max_execution_seconds" (pe_limits e) <=? used then
    a ← completed (set_error "Execution time limit exceeded" a); mret (a, TimedOut)
  else
    let system := step_prompt p schema pre_resolved context
      +:+ match previous with Some prev => retry_prompt p attempt prev | None => "" end in
    let step_tools := List.filter (fun t => String.eqb (t_name t) (pl_tool p)) (pe_tools e) in
    reply ← try_chat (ChatRequest (default "" (ai_engine (pe_agent e))) (or_text (ai_model (pe_agent e)) "") (pe_api_key e)
      [UserMsg ("Execute step " +:+ py_str (pl_number p) +:+ ": " +:+ py_str (pl_name p) +:+ ". Call `" +:+ pl_tool p +:+ "` now.")]
      (match step_tools with [] => pe_tools e | _ => step_tools end) system);
    match reply with
    | inr m => a ← completed (set_error (str_take 500 m) a); mret (a, NoReply)
    | inl r =>
        if negb (String.eqb (stop_reason r) "tool_use") then
          a ← completed (set_error text_reply_error a); mret (a, Replied (tokens r) None)
        else
          out ← attempt_blocks e p (content r) a;
          let '(a, result) := out in
          a ← completed a;
          mret (a, Replied (tokens r) result)
    end.

(** [for attempt in range(max_retries + 1)], with [n] turns left: the attempts
    made, and the result of the last one. *)
Fixpoint run_attempts (n : nat) (e : proc_env) (p : step_plan) (schema : option pyval) (pre_resolved : list (string * pyval))
    (v : run_vars) (attempts : list attempt_record) : M (run_vars * list attempt_record * option pyval) :=
  match n with
  | O => mret (v, attempts, None)
  | S n' =>
      out ← run_attempt e p schema pre_resolved (v_context v) (Z.of_nat (length attempts)) (last attempts);
      let '(a, ended) := out in
      match ended with
      | TimedOut => mret (v, attempts ++ [a], None)
      | NoReply => run_attempts n' e p schema pre_resolved v (attempts ++ [a])
      | Replied t result =>
          let v := RunVars (v_called v) (v_tokens v + t) (v_iterations v + 1) (v_context v) (v_results v) in
          match result with
          | Some r =>
              mret (RunVars (v_called v ++ [pl_tool p]) (v_tokens v) (v_iterations v) (v_context v) (v_results v),
                    attempts ++ [a], Some r)
          | None => run_attempts n' e p schema pre_resolved v (attempts ++ [a])
          end
      end
  end.

(** ** A step *)

(** The row of the execution, looked up and written in a session of its own. *)
Definition save (e : proc_env) (f : execution -> stm pstore pexn unit) : M unit :=
  on_tables (s ← getS;
    match List.filter (fun x => String.eqb (x_id x) (pe_execution_id e)) (executions s) with
    | [x] => f x
    | [] => throw NoResultFound
    | _ => throw MultipleResultsFound
    end).

(** The plain assignments to the row; [status] is validated. *)
Definition write_execution (status : option string) (current_step : option Z) (completed_at : option Z)
    (results : list step_result) (x : execution) : stm pstore pexn unit :=
  put_execution (Execution (x_id x) (x_procedure_id x) (x_procedure_version x) (x_agent_id x) (x_trigger_type x)
    (default (x_status x) status) (default (x_current_step x) current_step) (map step_json results) (x_input_context x)
    (match completed_at with Some t => Some t | None => x_completed_at x end) (x_error x) (x_created_at x)).

(** The row is left alone if it is gone. *)
Definition save_mapping_failure (e : proc_env) (now : Z) (results : list step_result) : M unit :=
  on_tables (s ← getS;
    match List.filter (fun x => String.eqb (x_id x) (pe_execution_id e)) (executions s) with
    | [x] => write_execution (Some "failed") None (Some now) results x
    | [] => mret tt
    | _ => throw MultipleResultsFound
    end).

Definition step_index (v : pyval) : Z := default 0 (int_value v).

Definition add_result (r : step_result) (v : run_vars) : run_vars :=
  RunVars (v_called v) (v_tokens v) (v_iterations v) (v_context v) (v_results v ++ [r]).
Definition set_context (key : string) (x : pyval) (v : run_vars) : run_vars :=
  RunVars (v_called v) (v_tokens v) (v_iterations v) (dict_set key x (v_context v)) (v_results v).

Definition context_key (p : step_plan) : string := "step_" +:+ py_str (pl_number p).
Definition context_entry (p : step_plan) (status : string) (result : pyval) : pyval :=
  PDict [("name", pl_name p); ("status", PStr status); ("result", result)].

(** The result that later steps see: what the output mapping extracts, if it
    extracts anything. *)
Definition mapped_output (p : step_plan) (output : pyval) : M pyval :=
  match pl_output_mapping p, output with
  | PDict ((_ :: _) as m), PDict _ =>
      texts ← mapping_texts m;
      let '(extracted, _) := apply_output_mapping texts output in
      mret (match extracted with [] => output | _ => PDict extracted end)
  | _, _ => mret output
  end.

Definition proc_failed (e : proc_env) (v : run_vars) (text error : string) : M OrchestrationResult :=
  ms ← _elapsed_ms (pe_start e);
  mret (Result false (Some text) (v_called v) (v_iterations v) (v_tokens v) ms (Some error) None None None None).

(** Resolution of the input mapping against the context. *)
Definition pre_resolve (p : step_plan) (context : list (string * pyval)) : M (list (string * pyval) * list string) :=
  match pl_input_mapping p with
  | PDict ((_ :: _) as m) => texts ← mapping_texts m; mret (resolve_input_mapping texts (PDict context))
  | _ => mret ([], [])
  end.

Definition mapping_error (errors : list string) : string := "Input mapping failed: " +:+ str_join "; " errors.

Definition input_schema_of (agent : agent_row) (ref : string) : M (option pyval) :=
  w ← getS; mret (get_function_input_schema (base (tables w)) (ar_namespace_id agent) ref).

(** The end of a step whose attempts are over: the variables, or the result of
    the run. *)
Definition end_step (e : proc_env) (p : step_plan) (v : run_vars) (attempts : list attempt_record) (result : option pyval)
    : M (run_vars + OrchestrationResult) :=
  let row status := StepResult (pl_number p) (pl_name p) status (match result with Some _ => Some (pl_tool p) | None => None end)
    (default PNone result) None (Z.of_nat (length attempts)) attempts in
  let go status entry :=
    let v := add_result (row status) (set_context (context_key p) entry v) in
    save e (write_execution None (Some (step_index (pl_number p))) None (v_results v));;
    mret (inl v) in
  match result with
  | Some output =>
      shown ← mapped_output p output;
      go "success" (context_entry p "success" shown)
  | None =>
      if String.eqb (pl_policy p) "skip" then go "skipped" (context_entry p "skipped" PNone)
      else if String.eqb (pl_policy p) "allowed" then go "failed" (context_entry p "failed" PNone)
      else
        let v := add_result (row "failed") v in
        let message := "Required step " +:+ py_str (pl_number p) +:+ " (" +:+ py_str (pl_name p) +:+ ") failed" in
        t ← ask now;
        save e (fun x => update_execution x "failed" (step_index (pl_number p)) (map step_json (v_results v)) t
          (Some (message +:+ " after " +:+ str_of_nat (length attempts) +:+ " attempts")));;
        r ← proc_failed e v ("Procedure failed at step " +:+ py_str (pl_number p) +:+ " (" +:+ py_str (pl_name p) +:+ ")") message;
        mret (inr r)
  end.

Definition run_step (e : proc_env) (s : step) (v : run_vars) : M (run_vars + OrchestrationResult) :=
  p ← read_step s;
  schema ← input_schema_of (pe_agent e) (pl_ref p);
  mapped ← pre_resolve p (v_context v);
  let '(pre_resolved, errors) := mapped in
  match errors with
  | _ :: _ =>
      let v := add_result (StepResult (pl_number p) (pl_name p) "failed" None PNone (Some (mapping_error errors)) 0 []) v in
      if String.eqb (pl_policy p) "required" then
        t ← ask now;
        save_mapping_failure e t (v_results v);;
        r ← proc_failed e v ("Procedure failed at step " +:+ py_str (pl_number p) +:+ " (" +:+ py_str (pl_name p)
              +:+ "): input mapping error") (mapping_error errors);
        mret (inr r)
      else mret (inl v)
  | [] =>
      out ← run_attempts (Z.to_nat (pl_retries p + 1)) e p schema pre_resolved v [];
      let '(v, attempts, result) := out in
      end_step e p v attempts result
  end.

Fixpoint run_steps (e : proc_env) (steps : list step) (v : run_vars) : M (run_vars + OrchestrationResult) :=
  match steps with
  | [] => mret (inl v)
  | s :: steps' =>
      out ← run_step e s v;
      match out with inl v' => run_steps e steps' v' | inr r => mret (inr r) end
  end.

(** What follows the last step. *)
Definition complete (e : proc_env) (procedure_name : pyval) (trigger_type : string) (n : nat) (v : run_vars)
    : M OrchestrationResult :=
  t ← ask now;
  save e (fun x => update_execution x "completed" (Z.of_nat n) (map step_json (v_results v)) t None);;
  ms ← _elapsed_ms (pe_start e);
  let result := Result true
    (Some ("Procedure '" +:+ py_str procedure_name +:+ "' completed successfully (" +:+ str_of_nat n +:+ " steps)"))
    (v_called v) (v_iterations v) (v_tokens v) ms None None None None None in
  _post_orchestration b64decode kek_b64 (pe_agent e) trigger_type result [] None None None;;
  mret result.

(** ** [run_procedure_orchestration] *)

(** The lookup of the procedure and of its active version, and the row of the
    execution, in one session; [inr] is the message of a refusal. *)
Definition find_procedure (namespace_id : string) (service_name name : pyval) : stm pstore pexn procedure :=
  match service_name, name with
  | PStr svc, PStr nm => get_procedure namespace_id svc nm
  | PStr svc, _ => get_service namespace_id svc;; raise TypeError
  | _, _ => raise TypeError
  end.

Definition start_execution (agent : agent_row) (procedure_name service_name : pyval) (trigger_type : string) (input_context : pyval)
    (id : string) (t : Z) : stm pstore pexn (list step * execution + string) := fun s =>
  match find_procedure (ar_namespace_id agent) service_name procedure_name s with
  | (Err e, s') => (Ok (inr (pexn_text e)), s')
  | (Ok p, s') =>
      match get_active_version_obj (pversions s') p with
      | None => (Ok (inr ("No active version for procedure '" +:+ py_str procedure_name +:+ "'")), s')
      | Some v =>
          (x ← create_execution t id p trigger_type (Some (ar_id agent))
                 (match input_context with PNone => None | c => Some c end);
           mret (inl (pv_steps v, x))) s'
      end
  end.

Definition run_procedure_orchestration (agent : agent_row) (procedure_name service_name : pyval)
    (trigger_type account_id tier : string) (input_context : pyval) : M OrchestrationResult :=
  start ← ask monotonic;
  match truthy_ostr (ai_engine agent) && truthy_ostr (fst <$> ai_api_key agent), ai_api_key agent with
  | true, Some (encrypted, dek) =>
      api_key ← on_states (k ← kek b64decode kek_b64; lift_crypto (decrypt_value encrypted dek k));
      let limits := resolve_orchestration_limits tier agent in
      id ← ask uuid4;
      t ← ask now;
      started ← on_tables (start_execution agent procedure_name service_name trigger_type input_context id t);
      match started with
      | inr message =>
          ms ← _elapsed_ms start;
          mret (Result false None [] 0 0 ms (Some message) None None None None)
      | inl (steps, x) =>
          w ← getS;
          let tools := build_tool_definitions (base (tables w)) (ar_namespace_id agent) false true in
          agent_state ← on_states (get_all_state b64decode kek_b64 (ar_id agent));
          let d := DispatchEnv account_id tier trigger_type false agent_state tools [] None in
          let e := ProcEnv agent d limits api_key tools start (x_id x) in
          let context := if truthy input_context then [("input", input_context)] else [] in
          out ← run_steps e steps (RunVars [] 0 0 context []);
          match out with
          | inl v => complete e procedure_name trigger_type (length steps) v
          | inr r => mret r
          end
      end
  | _, _ =>
      ms ← _elapsed_ms start;
      mret (Result false None [] 0 0 ms (Some "Agent has no AI engine configured") None None None None)
  end.
End procedure.

(** ** The calls of a step *)

Section steps.
Context `{Outside} `{Aead} (b64decode : string -> string) (kek_b64 : string).
Context (dispatch : string -> pyval -> agent_row -> dispatch_env -> stm world exc string) (e : proc_env).

(** The fields that a validation requires: those of a list, the characters of a
    text, the keys of a dict. *)
Definition required_of (validation : pyval) : list pyval :=
  match validation with
  | PDict v =>
      match dict_getd "required_fields" (PList []) v with
      | PList fields => fields
      | PStr s => map (fun c => PStr (String c "")) (String.list_ascii_of_string s)
      | PDict d => map (fun kv => PStr kv.1) d
      | _ => []
      end
  | _ => []
  end.

(** A result that is a dict has all of them; any other result has none, and is
    good enough for the code. *)
Definition complete_or_unstructured (validation r : pyval) : Prop :=
  match r with
  | PDict d => Forall (fun f => exists k, f = PStr k /\ dict_has k d = true) (required_of validation)
  | _ => True
  end.

(** The required function of a step was dispatched, and its answer, read as
    JSON, is [r], no error, and, if it is a dict, with the required fields. *)
Definition returned (p : step_plan) (r : pyval) : Prop :=
  exists input w1 w2 text, dispatch (pl_tool p) input (pe_agent e) (pe_dispatch e) w1 = (Ok text, w2) /\
    is_error text = false /\ (result_value text w2).1 = Ok r /\ complete_or_unstructured (pl_validation p) r.

Lemma lib_ok {A} x w (a : A) w' : (lib x : stm world exc A) w = (Ok a, w') -> False.
Proof. done. Qed.

Lemma result_value_ok text w r w' : result_value text w = (Ok r, w') -> w' = w /\ (result_value text w).1 = Ok r.
Proof. unfold result_value. destruct (json_loads text) as [v|[]]; intros [= <- <-]; done. Qed.

Lemma not_in_ok fields r : forall w l w', not_in fields r w = (Ok l, w') -> w' = w.
Proof.
  induction fields as [|f fields IH]; intros w l w' Hl; cbn [not_in] in Hl; [by injection Hl as <- <-|].
  destruct f; try done; step_ok Hl; injection Hl as <- <-; by eapply IH.
Qed.

Lemma missing_fields_ok v r w l w' : missing_fields v r w = (Ok l, w') -> w' = w.
Proof.
  unfold missing_fields. destruct v; try by intros [= <- <-]. destruct r; try by intros [= <- <-].
  destruct (dict_getd _ _ _) as [| | |s|fields|f]; try apply not_in_ok; cbn; repeat case_match; by intros [= <- <-].
Qed.

Lemma not_in_none fields d : forall w, (not_in fields d w).1 = Ok [] -> Forall (fun f => exists k, f = PStr k /\ dict_has k d = true) fields.
Proof.
  induction fields as [|f fields IH]; intros w Hn; [constructor|]. cbn [not_in] in Hn.
  destruct f as [|b|z|s|l|l]; try done; unfold mbind, stm_bind in Hn; specialize (IH w);
    destruct (not_in fields d w) as [[rest|x] w1]; try done; cbn in Hn; try (injection Hn as Hn; discriminate Hn).
  destruct (dict_has s d) eqn:E; injection Hn as Hn; [|discriminate Hn]. rewrite Hn in IH. constructor; [by exists s|by apply IH].
Qed.

Lemma missing_none v r w : (missing_fields v r w).1 = Ok [] -> complete_or_unstructured v r.
Proof.
  unfold missing_fields, complete_or_unstructured, required_of. destruct r as [| | | | |d]; try done. destruct v as [| | | | |v]; [by constructor..|].
  destruct (dict_getd _ _ v) as [|b|z|s|fields|f]; [by constructor..|apply not_in_none|apply not_in_none|apply not_in_none].
Qed.

Lemma attempt_blocks_returned p blocks : forall a w a' r w',
  attempt_blocks dispatch e p blocks a w = (Ok (a', Some r), w') -> returned p r.
Proof.
  induction blocks as [|b blocks IH]; intros a w a' r w' Hb; cbn [attempt_blocks] in Hb; [done|].
  destruct b as [t|id name input| |k]; [by eapply IH| |done|by eapply IH].
  destruct (String.eqb_spec name (pl_tool p)) as [->|_]; cbn [negb] in Hb; [|by eapply IH].
  step_ok Hb. rename H1 into Hd. destruct (is_error a0) eqn:He; [by eapply IH|].
  step_ok Hb. apply result_value_ok in H1 as [-> Hv]. step_ok Hb.
  pose proof (missing_fields_ok _ _ _ _ _ H1) as ->. destruct a2 as [|f l]; [|by eapply IH].
  injection Hb as <- <- <-. exists input, w, s1, a0. split_and!; [done..|]. apply (missing_none _ _ s1). by rewrite H1.
Qed.

Lemma try_chat_ok q w r w' : try_chat q w = (Ok r, w') -> exists o, ask_res (chat_with_tools q) w = (o, w').
Proof. unfold try_chat. destruct (ask_res _ w) as [[x|[m|m]] w1]; intros [= <- <-]; by eexists. Qed.

Lemma run_attempt_returned p schema pre context n prev w a ended w' :
  run_attempt dispatch e p schema pre context n prev w = (Ok (a, ended), w') ->
  match ended with Replied _ (Some r) => returned p r | _ => True end.
Proof.
  unfold run_attempt. intros Hr. step_ok Hr. step_ok Hr. destruct (_ <=? a1).
  { step_ok Hr. by injection Hr as <- <- <-. }
  step_ok Hr. destruct a2 as [r|m].
  - destruct (negb _); [step_ok Hr; by injection Hr as <- <- <-|].
    step_ok Hr. destruct a2 as [a2 res]. step_ok Hr. injection Hr as <- <- <-. destruct res as [res|]; [|done].
    by eapply attempt_blocks_returned.
  - step_ok Hr. by injection Hr as <- <- <-.
Qed.

Lemma run_attempts_spec p schema pre n : forall v attempts w v' attempts' res w',
  run_attempts dispatch n e p schema pre v attempts w = (Ok (v', attempts', res), w') ->
  v_context v' = v_context v /\ v_results v' = v_results v /\ v_iterations v <= v_iterations v' <= v_iterations v + Z.of_nat n /\
  (length attempts <= length attempts' <= length attempts + n)%nat /\
  match res with
  | Some r => returned p r /\ v_called v' = v_called v ++ [pl_tool p]
  | None => v_called v' = v_called v
  end.
Proof.
  induction n as [|n IH]; intros v attempts w v' attempts' res w' Hr; cbn [run_attempts] in Hr.
  { injection Hr as <- <- <- <-. by repeat split; try lia. }
  step_ok Hr. destruct a as [a ended]. apply run_attempt_returned in H1. destruct ended as [| |t [r|]].
  - injection Hr as <- <- <- <-. rewrite length_app. cbn. by repeat split; try lia.
  - apply IH in Hr as (Hc & Hres & Hi & Hl & Hcase). rewrite length_app in Hl. cbn in Hl. split_and!; try done; lia.
  - injection Hr as <- <- <- <-. rewrite length_app. cbn. by repeat split; try lia.
  - apply IH in Hr as (Hc & Hres & Hi & Hl & Hcase). rewrite length_app in Hl. cbn in *. split_and!; try done; lia.
Qed.

(** What the record of a step says. *)
Definition step_obeyed (p : step_plan) (r : step_result) : Prop :=
  sr_step_number r = pl_number p /\ sr_name r = pl_name p /\
  (sr_attempt_count r <= Z.max 0 (pl_retries p + 1)) /\
  (sr_status r = "success"%string -> sr_function_called r = Some (pl_tool p) /\ returned p (sr_result r)) /\
  (sr_status r <> "success"%string -> sr_function_called r = None) /\
  (pl_policy p = "required"%string -> sr_status r = "success"%string).

Definition called_by (r : step_result) : list string := match sr_function_called r with Some f => [f] | None => [] end.

(** The counters of what a step leads to. *)
Definition out_iterations (o : run_vars + OrchestrationResult) : Z := match o with inl v => v_iterations v | inr r => iterations r end.
Definition out_called (o : run_vars + OrchestrationResult) : list string := match o with inl v => v_called v | inr r => functions_called r end.

Lemma need_ok key s w x w' : need key s w = (Ok x, w') -> w' = w.
Proof. unfold need. destruct (dict_get key s); [by intros [= <- <-]|done]. Qed.

Lemma read_step_ok s w p w' : read_step s w = (Ok p, w') -> w' = w /\
  pl_retries p = default 0 (int_value (get "max_retries" (PInt 1) s)) /\ pl_input_mapping p = get "input_mapping" PNone s /\
  pl_policy p = match get "failure_policy" (PStr "required") s with PStr p => p | _ => "" end.
Proof.
  unfold read_step. intros Hr. do 4 (step_ok Hr). apply need_ok in H1 as ->, H2 as ->, H3 as ->, H4 as ->.
  destruct a1; try done. destruct (split_once _ _) as [[svc fn]|]; [|done]. by injection Hr as <- <-.
Qed.

Lemma proc_failed_ok v text error w r w' : proc_failed e v text error w = (Ok r, w') ->
  iterations r = v_iterations v /\ functions_called r = v_called v /\ success r = false.
Proof. unfold proc_failed. intros Hr. step_ok Hr. injection Hr as <- <-. done. Qed.

Lemma end_step_spec p v attempts res w out w' : end_step e p v attempts res w = (Ok out, w') ->
  out_iterations out = v_iterations v /\ out_called out = v_called v /\
  match out with
  | inl v' => exists r, v_results v' = v_results v ++ [r] /\ sr_step_number r = pl_number p /\ sr_name r = pl_name p /\
      sr_attempt_count r = Z.of_nat (length attempts) /\
      (exists shown, v_context v' = dict_set (context_key p) shown (v_context v)) /\
      match res with
      | Some x => sr_status r = "success"%string /\ sr_function_called r = Some (pl_tool p) /\ sr_result r = x
      | None => sr_status r <> "success"%string /\ sr_function_called r = None /\
          (pl_policy p = "skip"%string \/ pl_policy p = "allowed"%string)
      end
  | inr r => success r = false
  end.
Proof.
  unfold end_step. destruct res as [x|].
  { intros Hr. step_ok Hr. step_ok Hr. injection Hr as <- <-. split; [done|]. split; [done|]. eexists. split; [done|].
    split_and!; try done. by eexists. }
  destruct (String.eqb_spec (pl_policy p) "skip") as [Hs|Hs].
  { intros Hr. step_ok Hr. injection Hr as <- <-. split; [done|]. split; [done|]. eexists. split; [done|].
    split_and!; try done; [by eexists|by left]. }
  destruct (String.eqb_spec (pl_policy p) "allowed") as [Ha|Ha].
  { intros Hr. step_ok Hr. injection Hr as <- <-. split; [done|]. split; [done|]. eexists. split; [done|].
    split_and!; try done; [by eexists|by right]. }
  intros Hr. step_ok Hr. step_ok Hr. step_ok Hr. injection Hr as <- <-.
  apply proc_failed_ok in H3 as (Hi & Hc & Hf). done.
Qed.

(** The plan of a step does not depend on the world. *)
Lemma read_step_pure s w p w1 : read_step s w = (Ok p, w1) -> forall w2, read_step s w2 = (Ok p, w2).
Proof.
  unfold read_step, need, mbind, stm_bind. destruct (dict_get "step_number" s); [|done]. destruct (dict_get "name" s); [|done].
  destruct (dict_get "function_ref" s) as [r|]; [|done]. destruct (dict_get "instructions" s); [|done]. cbn.
  destruct r; try done. destruct (split_once _ _) as [[svc fn]|]; [|done]. by intros [= <- <-].
Qed.

Definition plan_of (s : step) (p : step_plan) : Prop := forall w, read_step s w = (Ok p, w).

(** The attempts that a step may take. *)
Definition turns (s : step) : Z := Z.max 0 (default 0 (int_value (get "max_retries" (PInt 1) s)) + 1).

Lemma context_key_steps p : context_key p <> "steps"%string.
Proof. unfold context_key. done. Qed.

Lemma run_step_spec s v w out w' : run_step dispatch e s v w = (Ok out, w') ->
  v_iterations v <= out_iterations out <= v_iterations v + turns s /\
  (length (out_called out) <= length (v_called v) + 1)%nat /\
  exists p, plan_of s p /\
    match out with
    | inl v' => exists r, v_results v' = v_results v ++ [r] /\ step_obeyed p r /\ v_called v' = v_called v ++ called_by r /\
        dict_get "steps" (v_context v') = dict_get "steps" (v_context v)
    | inr r => success r = false
    end.
Proof.
  unfold run_step. intros Hr. step_ok Hr. pose proof (read_step_pure _ _ _ _ H1) as Hp. apply read_step_ok in H1 as (-> & Hret & _).
  unfold turns. rewrite <-Hret. step_ok Hr. step_ok Hr. destruct a1 as [pre errors]. destruct errors as [|err errors].
  - step_ok Hr. destruct a1 as [[v1 attempts] res]. apply run_attempts_spec in H3 as (Hc & Hres & Hi & Hl & Hcase).
    apply end_step_spec in Hr as (Hoi & Hoc & Hout). rewrite Hoi, Hoc. cbn [length] in Hl.
    split; [lia|]. split; [destruct res; [destruct Hcase as [_ ->]; rewrite length_app; cbn; lia|rewrite Hcase; lia]|].
    exists a. split; [exact Hp|]. destruct out as [v'|r]; [|done].
    destruct Hout as (r & Hr & Hnum & Hname & Hn & (shown & Hctx) & Hkind). exists r. rewrite Hr, Hres. split; [done|].
    cbn [out_called] in Hoc. split; [|split].
    + destruct res as [x|].
      * destruct Hkind as (Hst & Hfn & <-). split_and!; try done; [lia|intros _; by split; [|apply Hcase]].
      * destruct Hkind as (Hst & Hfn & Hpol). split_and!; try done; [lia|]. intros Hreq. rewrite Hreq in Hpol. by destruct Hpol.
    + rewrite Hoc. unfold called_by. destruct res as [x|].
      * destruct Hkind as (_ & -> & _). by destruct Hcase as [_ ->].
      * destruct Hkind as (_ & -> & _). by rewrite app_nil_r.
    + rewrite Hctx, Hc. apply dict_get_set_ne. apply context_key_steps.
  - destruct (String.eqb_spec (pl_policy a) "required") as [Hreq|Hreq].
    + step_ok Hr. step_ok Hr. step_ok Hr. injection Hr as <- <-. apply proc_failed_ok in H5 as (Hi & Hc & Hf).
      cbn [out_iterations out_called]. rewrite Hi, Hc. cbn. split; [lia|]. split; [lia|]. by exists a.
    + injection Hr as <- <-. cbn [out_iterations out_called v_iterations v_called add_result]. split; [lia|]. split; [lia|].
      exists a. split; [exact Hp|]. eexists. split; [done|]. split; [|split; [by rewrite app_nil_r|done]].
      split_and!; try done. cbn. lia.
Qed.

Lemma run_steps_spec steps : forall v w out w', run_steps dispatch e steps v w = (Ok out, w') ->
  v_iterations v <= out_iterations out <= v_iterations v + foldr Z.add 0 (map turns steps) /\
  (length (out_called out) <= length (v_called v) + length steps)%nat /\
  match out with
  | inl v' => exists rs, v_results v' = v_results v ++ rs /\ Forall2 (fun s r => exists p, plan_of s p /\ step_obeyed p r) steps rs /\
      v_called v' = v_called v ++ concat (map called_by rs)
  | inr r => success r = false
  end.
Proof.
  induction steps as [|s steps IH]; intros v w out w' Hr; cbn [run_steps] in Hr.
  { injection Hr as <- <-. cbn. split; [lia|]. split; [lia|]. exists []. by rewrite !app_nil_r. }
  step_ok Hr. apply run_step_spec in H1 as (Hi & Hl & p & Hp & Hout). cbn [map foldr length]. destruct a as [v1|r].
  - apply IH in Hr as (Hi1 & Hl1 & Hout1). cbn [out_iterations out_called] in *.
    split; [lia|]. split; [lia|]. destruct out as [v'|r']; [|done].
    destruct Hout as (r & Hres & Hob & Hcall & _). destruct Hout1 as (rs & Hres1 & Hall & Hcall1).
    exists (r :: rs). rewrite Hres1, Hres, <-app_assoc. split; [done|]. split; [constructor; [by exists p|done]|].
    rewrite Hcall1, Hcall. cbn [map concat]. by rewrite <-app_assoc.
  - injection Hr as <- <-. cbn [out_iterations out_called] in *. split; [|split; [lia|done]].
    assert (0 <= foldr Z.add 0 (map turns steps)) as Hpos.
    { clear. induction steps as [|s steps IH]; cbn; [lia|]. unfold turns at 1. lia. }
    lia.
Qed.

(** *** References between steps *)

(** A required step whose input mapping refers to the result of another step
    the documented way. *)
Definition refers_to_step (s : step) : Prop :=
  get "failure_policy" (PStr "required") s = PStr "required" /\
  exists m k t, get "input_mapping" PNone s = PDict m /\ (k, PStr t) ∈ m /\ starts_with "$.steps." t = true.

Lemma mapping_texts_ok d : forall w l w', mapping_texts d w = (Ok l, w') -> w' = w /\ forall k t, (k, PStr t) ∈ d -> (k, t) ∈ l.
Proof.
  induction d as [|[k v] d IH]; intros w l w' Hm; cbn [mapping_texts] in Hm.
  - injection Hm as <- <-. split; [done|]. intros k t Hin. by apply not_elem_of_nil in Hin.
  - destruct v; try done. step_ok Hm. injection Hm as <- <-. apply IH in H1 as [-> Hall]. split; [done|].
    intros k' t [[= -> ->]|Hin]%elem_of_cons; [by left|right; by apply Hall].
Qed.

Lemma refers_step_fails s v w out w' : refers_to_step s -> dict_get "steps" (v_context v) = None ->
  run_step dispatch e s v w = (Ok out, w') -> exists r, out = inr r.
Proof.
  intros (Hpol & m & k & t & Hmap & Hin & Ht) Hctx. unfold run_step. intros Hr. step_ok Hr.
  apply read_step_ok in H1 as (-> & _ & Hm & Hp). rewrite Hpol in Hp. step_ok Hr. step_ok Hr. destruct a1 as [pre errors].
  assert (errors <> []) as Hne.
  { unfold pre_resolve in H2. rewrite Hm, Hmap in H2. destruct m as [|kv m]; [by apply not_elem_of_nil in Hin|].
    step_ok H2. injection H2 as H2 <-. apply mapping_texts_ok in H3 as [-> Hall].
    unfold resolve_input_mapping, apply_mapping in H2. fold (mapping_step (PDict (v_context v))) in H2.
    change errors with ((pre, errors).2). rewrite <-H2. apply mapping_errors. right. exists k, t.
    apply starts_with_spec in Ht as [rest ->].
    destruct (resolve_missing "steps" rest (v_context v)) as [err Herr]; [done|done|]. exists err. split; [apply Hall, Hin|exact Herr]. }
  destruct errors as [|err errors]; [done|]. rewrite Hp in Hr. cbn in Hr.
  step_ok Hr. step_ok Hr. step_ok Hr. injection Hr as <- <-. by eexists.
Qed.

Lemma refers_steps_fail steps : Exists refers_to_step steps -> forall v w out w', dict_get "steps" (v_context v) = None ->
  run_steps dispatch e steps v w = (Ok out, w') -> exists r, out = inr r.
Proof.
  induction 1 as [s steps Hs|s steps _ IH]; intros v w out w' Hctx Hr; cbn [run_steps] in Hr; step_ok Hr.
  - destruct (refers_step_fails _ _ _ _ _ Hs Hctx H1) as [r ->]. injection Hr as <- <-. by eexists.
  - destruct a as [v1|r]; [|injection Hr as <- <-; by eexists]. apply (IH v1 s1 out w'); [|done].
    apply run_step_spec in H1 as (_ & _ & p & _ & r & _ & _ & _ & Hc). by rewrite Hc.
Qed.
End steps.

(** ** The run *)

Section run.
Context `{Outside} `{Aead} (b64decode : string -> string) (kek_b64 : string).
Context (dispatch : string -> pyval -> agent_row -> dispatch_env -> stm world exc string).
#[local] Set Default Proof Using "Type*".

Abbreviation run := (run_procedure_orchestration b64decode kek_b64 dispatch).

Lemma on_tables_ok {A} (m : stm pstore pexn A) w a w' : on_tables m w = (Ok a, w') -> m (tables w) = (Ok a, tables w').
Proof. unfold on_tables. destruct (m (tables w)) as [[x|x] t]; [|done]. by intros [= <- <-]. Qed.

Lemma save_ok e f w u w' : save e f w = (Ok u, w') ->
  exists x, x ∈ executions (tables w) /\ f x (tables w) = (Ok u, tables w').
Proof.
  unfold save. intros Hs%on_tables_ok. step_ok Hs. injection H1 as <- <-.
  destruct (List.filter _ (executions (tables w))) as [|x [|y l]] eqn:Hf; [done| |done]. exists x. split; [|done].
  assert (In x (List.filter (fun y => String.eqb (x_id y) (pe_execution_id e)) (executions (tables w)))) as Hin by (rewrite Hf; by left).
  apply filter_In in Hin as [Hin _]. by apply list_elem_of_In.
Qed.

Lemma put_execution_in x' t t' u : put_execution x' t = (Ok u, t') -> (exists x, x ∈ executions t /\ x_id x = x_id x') ->
  x' ∈ executions t'.
Proof.
  unfold put_execution, set_executions, modS. intros [= <- <-] (x & Hin & Hid). cbn [executions].
  apply list_elem_of_In, in_map_iff. exists x. rewrite Hid, String.eqb_refl. split; [done|by apply list_elem_of_In].
Qed.

Lemma keeps_post_tables agent trigger x calls schedule mode id :
  keeps tables (_post_orchestration b64decode kek_b64 agent trigger x calls schedule mode id).
Proof.
  unfold _post_orchestration, _record_run. apply keeps_seq; [|intros ?; destruct (row_fits _ _); eauto with keeps].
  destruct (_ && _); [|apply keeps_pure]. apply keeps_try_all; [|intros ?; apply keeps_pure].
  apply keeps_seq; [apply (keeps_send b64decode kek_b64 tables)|intros ?; apply keeps_pure].
Qed.

Lemma complete_ok e name trigger n v w r w' : complete b64decode kek_b64 e name trigger n v w = (Ok r, w') ->
  functions_called r = v_called v /\ iterations r = v_iterations v /\
  exists x, x ∈ executions (tables w') /\ x_status x = "completed"%string /\ x_current_step x = Z.of_nat n /\
    x_step_results x = map step_json (v_results v).
Proof.
  unfold complete. intros Hc. step_ok Hc. step_ok Hc. step_ok Hc. step_ok Hc. injection Hc as <- <-. split; [done|]. split; [done|].
  apply save_ok in H2 as (x & Hin & Hf). unfold update_execution in Hf.
  change (str_in "completed" PROCEDURE_EXECUTION_STATUSES) with true in Hf. cbn [negb] in Hf.
  apply put_execution_in in Hf; [|by exists x].
  rewrite <-(keeps_run tables _ _ _ _ (keeps_elapsed_ms tables _) H3) in Hf.
  rewrite <-(keeps_run tables _ _ _ _ (keeps_post_tables _ _ _ _ _ _ _) H4) in Hf.
  eexists. split; [exact Hf|done].
Qed.

(** The procedure asked for, and the steps of its active version. *)
Definition active_steps (agent : agent_row) (name service : pyval) (w : world) (steps : list step) : Prop :=
  exists p v t, find_procedure (ar_namespace_id agent) service name (tables w) = (Ok p, t) /\
    get_active_version_obj (pversions t) p = Some v /\ pv_steps v = steps.

(** A run returns before it starts, or runs the steps. *)
Lemma run_cases agent name service trigger account tier ctx w r w' :
  run agent name service trigger account tier ctx w = (Ok r, w') ->
  (success r = false /\ iterations r = 0 /\ functions_called r = []) \/
  exists e steps context out w1 w2, pe_agent e = agent /\ active_steps agent name service w steps /\
    dict_get "steps" context = None /\
    run_steps dispatch e steps (RunVars [] 0 0 context []) w1 = (Ok out, w2) /\
    match out with
    | inl v => complete b64decode kek_b64 e name trigger (length steps) v w2 = (Ok r, w')
    | inr r' => r' = r
    end.
Proof.
  unfold run_procedure_orchestration. intros Hr. step_ok Hr.
  destruct (_ && _); [destruct (ai_api_key agent) as [[ct dek]|]|]; [|step_ok Hr; injection Hr as <- <-; by left..].
  step_ok Hr. step_ok Hr. step_ok Hr. step_ok Hr. rename H5 into Hstart. apply on_tables_ok in Hstart.
  match type of Hstart with _ (tables ?x) = _ => assert (tables x = tables w) as Ht end.
  { rewrite (keeps_run tables _ _ _ _ (keeps_ask tables _) H4), (keeps_run tables _ _ _ _ (keeps_ask tables _) H3).
    rewrite (keeps_run tables _ _ _ _ (keeps_on_states tables _) H2). apply (keeps_run tables _ _ _ _ (keeps_ask tables _) H1). }
  rewrite Ht in Hstart. destruct a3 as [[steps x]|message]; [|step_ok Hr; injection Hr as <- <-; by left].
  right. step_ok Hr. step_ok Hr. step_ok Hr. rename H7 into Hsteps.
  eexists _, steps, _, a5, _, _. split; [|split; [|split; [|split; [exact Hsteps|]]]]; [done| | |].
  - unfold start_execution in Hstart. destruct (find_procedure _ _ _ _) as [[p|err] t] eqn:Hfind; [|done].
    destruct (get_active_version_obj (pversions t) p) as [v|] eqn:Hv; [|done]. step_ok Hstart. injection Hstart as <- _ _.
    by exists p, v, t.
  - by destruct (truthy ctx).
  - destruct a5 as [v|r']; [done|]. by injection Hr as <- <-.
Qed.

(** [C7] A procedure enforces its steps: if a run succeeds, the steps are those
    of the active version, each with its record, in order; a required step has
    the status success; a step with that status was answered by its own
    function, dispatched with what the model sent, with a result that is no
    error and has the required fields if it is an object (a text, a number or a list
    passes without any); the functions that the result names are
    those of these steps and no others; and the row of the execution says all
    that: completed at the last step, with these records. *)
Theorem procedure_enforced agent name service trigger account tier ctx w r w' :
  run agent name service trigger account tier ctx w = (Ok r, w') -> success r = true ->
  exists e steps rs, pe_agent e = agent /\ active_steps agent name service w steps /\
    Forall2 (fun s x => exists p, plan_of s p /\ step_obeyed dispatch e p x) steps rs /\
    functions_called r = concat (map called_by rs) /\
    exists x, x ∈ executions (tables w') /\ x_status x = "completed"%string /\ x_current_step x = Z.of_nat (length steps) /\
      x_step_results x = map step_json rs.
Proof.
  intros [(Hf & _)|(e & steps & context & out & w1 & w2 & He & Hact & _ & Hsteps & Hout)]%run_cases Hs; [congruence|].
  apply run_steps_spec in Hsteps as (_ & _ & Hcase). destruct out as [v|r']; [|subst; congruence].
  destruct Hcase as (rs & Hres & Hall & Hcall). apply complete_ok in Hout as (Hfn & _ & x & Hx & Hst & Hcur & Hrows).
  exists e, steps, rs. split_and!; [done..|by rewrite Hfn, Hcall|]. exists x. cbn in Hres. by rewrite Hrows, Hres.
Qed.

Lemma wf_active agent name service w steps : wf (tables w) -> active_steps agent name service w steps -> stored_ok steps.
Proof.
  intros Hwf (p & v & t & Hfind & Hv & <-). assert (t = tables w) as ->.
  { unfold find_procedure in Hfind. destruct service as [| | |svc| |]; try done. destruct name as [| | |nm| |]; try (by step_ok Hfind).
    by apply get_procedure_ok in Hfind as [-> _]. }
  apply List.find_some in Hv as [Hin _]. pose proof (wf_steps _ Hwf) as Hall. rewrite Forall_forall in Hall.
  by apply Hall, list_elem_of_In.
Qed.

Lemma turns_valid s : validate_step s = true -> turns s <= 6.
Proof.
  unfold validate_step, valid_retries, turns, MAX_RETRIES. rewrite !andb_true_iff. intros [_ Hr].
  destruct (int_value _) as [z|]; [|done]. bool_to_prop. cbn. lia.
Qed.

(** The cost of a procedure: whatever the provider and the functions do, a
    run makes at most 120 requests to the provider (20 steps with 6 attempts)
    and at most one successful call a step, whether it succeeds or fails.  These
    are its only bounds besides the time: the limits on iterations, tokens and
    calls of the agent do not apply. *)
Theorem procedure_bounded agent name service trigger account tier ctx w r w' :
  wf (tables w) -> run agent name service trigger account tier ctx w = (Ok r, w') ->
  0 <= iterations r <= 120 /\ (length (functions_called r) <= 20)%nat.
Proof.
  intros Hwf [(_ & -> & ->)|(e & steps & context & out & w1 & w2 & _ & Hact & _ & Hsteps & Hout)]%run_cases; [cbn; lia|].
  apply wf_active in Hact as ((_ & Hlen) & Hvalid & _); [|done]. apply run_steps_spec in Hsteps as (Hi & Hl & _).
  assert (foldr Z.add 0 (map turns steps) <= 6 * Z.of_nat (length steps)) as Hsum.
  { clear -Hvalid. induction steps as [|s steps IH]; cbn; [lia|]. cbn in Hvalid. apply andb_true_iff in Hvalid as [Hs Hrest].
    pose proof (turns_valid s Hs). specialize (IH Hrest). lia. }
  unfold MAX_STEPS in Hlen. cbn [v_iterations v_called length] in *.
  assert (iterations r = out_iterations out /\ functions_called r = out_called out) as [-> ->].
  { destruct out as [v|r']; [|by subst]. by apply complete_ok in Hout as (-> & -> & _). }
  lia.
Qed.

(** References between steps do not work: a procedure with a required step
    whose input mapping refers to an earlier step as documented
    ([$.steps.<name>...], which is what [create_procedure] checks) never
    succeeds, since the context that paths are resolved in has the keys [input]
    and [step_<number>] only. *)
Theorem step_references_fail agent name service trigger account tier ctx w r w' steps :
  active_steps agent name service w steps -> Exists refers_to_step steps ->
  run agent name service trigger account tier ctx w = (Ok r, w') -> success r = false.
Proof.
  intros Hact Hex [(-> & _)|(e & steps' & context & out & w1 & w2 & _ & Hact' & Hctx & Hsteps & Hout)]%run_cases; [done|].
  assert (steps' = steps) as ->.
  { destruct Hact as (p & v & t & Hf & Hv & <-). destruct Hact' as (p' & v' & t' & Hf' & Hv' & <-). congruence. }
  pose proof Hsteps as Hspec. apply run_steps_spec in Hspec as (_ & _ & Hcase).
  apply refers_steps_fail in Hsteps as [r' ->]; [|done..]. by subst.
Qed.
End run.

(** ** The knot *)

Section knot.
Context `{Outside} `{Aead} (b64decode : string -> string) (kek_b64 : string).

(** The dispatcher of procedure steps and of runs, [depth] runs of procedures
    deep. *)
Fixpoint dispatch_tool (depth : nat) : string -> pyval -> agent_row -> dispatch_env -> stm world exc string :=
  _dispatch_tool b64decode kek_b64
    (match depth with
     | O => fun _ _ _ _ _ _ _ => lib LibValueError
     | S depth' => run_procedure_orchestration b64decode kek_b64 (dispatch_tool depth')
     end).

(** Runs of procedures are never nested: the dispatcher refuses the tool that
    would start one, so the depth is irrelevant. *)
Lemma dispatch_depth n m name input agent d w : dispatch_tool n name input agent d w = dispatch_tool m name input agent d w.
Proof.
  assert (forall rp rp', _dispatch_tool b64decode kek_b64 rp name input agent d w
                         = _dispatch_tool b64decode kek_b64 rp' name input agent d w) as Hany.
  { intros rp rp'. unfold _dispatch_tool. destruct (ToolTier_of _) as [t|]; [|done].
    destruct (String.eqb_spec name "run_procedure") as [->|_]; [by destruct t|done]. }
  destruct n, m; apply Hany.
Qed.
End knot.

(** ** Examples *)

Definition proc_steps : list step :=
  [[("name", PStr "first"); ("function_ref", PStr "social.post"); ("instructions", PStr "Post."); ("max_retries", PInt 2);
    ("validation", PDict [("required_fields", PList [PStr "text"])])];
   [("name", PStr "second"); ("function_ref", PStr "social.post"); ("instructions", PStr "Post again.");
    ("failure_policy", PStr "skip"); ("max_retries", PInt 0)]].
Definition chained_steps : list step :=
  [[("name", PStr "first"); ("function_ref", PStr "social.post"); ("instructions", PStr "Post.")];
   [("name", PStr "second"); ("function_ref", PStr "social.post"); ("instructions", PStr "Post again.");
    ("input_mapping", PDict [("text", PStr "$.steps.first.result.text")])]].

Definition proc_world (steps : list step) (l : list (res exc response)) : @world scripted :=
  World (run_pops [PCreate 1 "p1" "n1" "social" "thread" steps None None] demo_pstore) demo_st [] [] [] (Sec [] ∅) (Script 0 l).
Definition good_call : res exc response := Ok (Response [ToolUse "t1" "social__post" demo_text] "tool_use" 100).
Definition bad_call : res exc response := Ok (Response [ToolUse "t1" "social__post" (PDict [])] "tool_use" 100).

Abbreviation proc_demo w :=
  (@run_procedure_orchestration scripted toy_aead (fun x => x) demo_kek
     (@dispatch_tool scripted toy_aead (fun x => x) demo_kek 0)
     keyed_agent (PStr "thread") (PStr "social") "manual" "acc1" "pro-agent" PNone w).

(** The first step needs a second attempt, since the first result lacks the
    field; the second step is answered with a text and skipped. *)
Example procedure_demo :
  let '(r, w) := proc_demo (proc_world proc_steps [bad_call; good_call; the_end]) in
  (exists x, r = Ok x /\ success x = true /\ functions_called x = ["social__post"%string] /\ iterations x = 3) /\
  map (fun x => (x_status x, x_current_step x)) (executions (tables w)) = [("completed"%string, 2)] /\
  map ex_status (execution_log w) = ["completed"%string; "completed"%string].
Proof. vm_compute. split; [|by split]. eexists. split; [reflexivity|]. by repeat split. Qed.

(** A list has no fields, and fulfils the step that requires one. *)
Example unstructured_answer_passes :
  let '(r, w) := proc_demo (proc_world proc_steps [Ok (Response [ToolUse "t1" "social__post" (PList [PInt 1])] "tool_use" 100); the_end]) in
  match r with Ok x => success x = true /\ functions_called x = ["social__post"%string] | Err _ => False end /\
  map x_status (executions (tables w)) = ["completed"%string].
Proof. by vm_compute. Qed.

(** A provider that fails with another exception than its own leaves the
    execution running for ever. *)
Example stuck_execution :
  let '(r, w) := proc_demo (proc_world proc_steps [Err (Exception "connection reset")]) in
  r = Err (Exception "connection reset") /\ map x_status (executions (tables w)) = ["running"%string].
Proof. by vm_compute. Qed.

Lemma procedure_enforced_witness :
  exists r w', proc_demo (proc_world proc_steps [bad_call; good_call; the_end]) = (Ok r, w') /\
    exists e steps rs, pe_agent e = keyed_agent /\
      active_steps keyed_agent (PStr "thread") (PStr "social") (proc_world proc_steps [bad_call; good_call; the_end]) steps /\
      Forall2 (fun s x => exists p, plan_of s p /\
        step_obeyed (@dispatch_tool scripted toy_aead (fun x => x) demo_kek 0) e p x) steps rs /\
      functions_called r = concat (map called_by rs).
Proof.
  set (w0 := proc_world proc_steps [bad_call; good_call; the_end]).
  assert (match (proc_demo w0).1 with Ok r => success r | Err _ => false end = true) as Hok by (vm_compute; reflexivity).
  destruct (proc_demo w0) as [[r|x] w'] eqn:E; [|discriminate Hok]. exists r, w'. split; [reflexivity|].
  destruct (@procedure_enforced scripted toy_aead (fun x => x) demo_kek _ _ _ _ _ _ _ _ _ _ _ E Hok)
    as (e & steps & rs & He & Ha & Hs & Hc & _).
  exists e, steps, rs. split; [exact He|]. split; [exact Ha|]. split; [exact Hs|exact Hc].
Defined.

Lemma proc_world_wf steps l : fresh_pops [PCreate 1 "p1" "n1" "social" "thread" steps None None] demo_pstore -> wf (tables (proc_world steps l)).
Proof. intros Hf. apply run_pops_wf; [apply demo_pwf|done]. Qed.

Lemma procedure_bounded_witness :
  exists r w', proc_demo (proc_world proc_steps [bad_call; good_call; the_end]) = (Ok r, w') /\
    0 <= iterations r <= 120 /\ (length (functions_called r) <= 20)%nat.
Proof.
  set (w0 := proc_world proc_steps [bad_call; good_call; the_end]).
  assert (match (proc_demo w0).1 with Ok r => success r | Err _ => false end = true) as Hok by (vm_compute; reflexivity).
  destruct (proc_demo w0) as [[r|x] w'] eqn:E; [|discriminate Hok]. exists r, w'. split; [reflexivity|].
  refine (@procedure_bounded scripted toy_aead (fun x => x) demo_kek _ _ _ _ _ _ _ _ _ _ _ _ E).
  apply proc_world_wf. split; [apply not_elem_of_nil|done].
Defined.

Lemma step_references_fail_witness :
  exists r w', proc_demo (proc_world chained_steps [good_call; good_call]) = (Ok r, w') /\ success r = false.
Proof.
  set (w0 := proc_world chained_steps [good_call; good_call]).
  assert (match (proc_demo w0).1 with Ok _ => true | Err _ => false end = true) as Hok by (vm_compute; reflexivity).
  destruct (proc_demo w0) as [[r|x] w'] eqn:E; [|discriminate Hok]. exists r, w'. split; [reflexivity|].
  refine (@step_references_fail scripted toy_aead (fun x => x) demo_kek _ _ _ _ _ _ _ _ _ _ _ _ _ _ E).
  - eexists _, _, _. split; [reflexivity|]. split; reflexivity.
  - right. left. split; [reflexivity|]. eexists _, _, _. split; [reflexivity|]. split; [left|reflexivity].
Defined.
