(* ===== verification/Ssrf.v ===== *)
(** * The gate against requests into the own network

    [core/ssrf.py], with what it uses of the standard library: the parsers and
    the tables of [ipaddress] (the ones of Python 3.11) and [urlsplit] with
    [hostname].  Name resolution is the argument [resolve], which may answer
    anything and differently each time; [None] would be a raise, given with its
    text. *)

From S2P Require Import Prelude.
From Stdlib Require Import Ascii.

Open Scope Z_scope.

(** ** Addresses *)

Inductive address := IPv4Address (ip : Z) | IPv6Address (ip : Z).

#[export] Instance address_eq_dec : EqDecision address.
Proof. solve_decision. Defined.

(** The value of digits, in base [b]. *)
Definition digit_value (c : ascii) : Z :=
  if is_digit c then Z.of_nat (ord c) - 48
  else if in_range "a" "f" c then Z.of_nat (ord c) - 87
  else if in_range "A" "F" c then Z.of_nat (ord c) - 55
  else 0.

Fixpoint number_from (b acc : Z) (s : string) : Z :=
  match s with
  | EmptyString => acc
  | String c s' => number_from b (acc * b + digit_value c) s'
  end.

Definition hex_char (c : ascii) : bool := is_digit c || in_range "a" "f" c || in_range "A" "F" c.

Definition _parse_octet (octet_str : string) : option Z :=
  if String.eqb octet_str "" then None
  else if negb (str_forallb is_digit octet_str) then None
  else if (3 <? String.length octet_str)%nat then None
  else if negb (String.eqb octet_str "0") && starts_with "0" octet_str then None
  else
    let octet_int := number_from 10 0 octet_str in
    if 255 <? octet_int then None else Some octet_int.

Definition parse_ipv4 (ip_str : string) : option Z :=
  match str_split "." ip_str with
  | [a; b; c; d] =>
      a ← _parse_octet a; b ← _parse_octet b; c ← _parse_octet c; d ← _parse_octet d;
      Some (((a * 256 + b) * 256 + c) * 256 + d)
  | _ => None
  end.

Definition _parse_hextet (hextet_str : string) : option Z :=
  if negb (str_forallb hex_char hextet_str) then None
  else if (4 <? String.length hextet_str)%nat then None
  else if String.eqb hextet_str "" then None
  else Some (number_from 16 0 hextet_str).

(** ['%x' % n] for two bytes. *)
Fixpoint strip_zeros (l : list nat) : list nat :=
  match l with
  | 0%nat :: ((_ :: _) as l') => strip_zeros l'
  | _ => l
  end.
Definition hex16 (n : Z) : string :=
  String.string_of_list_ascii (map hex_digit (strip_zeros
    [Z.to_nat (n / 4096); Z.to_nat (n / 256 mod 16); Z.to_nat (n / 16 mod 16); Z.to_nat (n mod 16)])).

(** An address may end in four octets. *)
Definition expand_suffix (parts : list string) : option (list string) :=
  match last parts with
  | Some p =>
      if str_contains "." p then
        ipv4_int ← parse_ipv4 p;
        Some (but_last_n 1 parts ++ [hex16 (Z.land (Z.shiftr ipv4_int 16) 65535); hex16 (Z.land ipv4_int 65535)])
      else Some parts
  | None => Some parts
  end.

(** The empty parts between the ends. *)
Definition skips (parts : list string) : list nat :=
  List.filter (fun i => match parts !! i with Some p => String.eqb p "" | None => false end)
    (seq 1 (length parts - 2)).

Fixpoint hextets (acc : Z) (parts : list string) : option Z :=
  match parts with
  | [] => Some acc
  | p :: parts' => h ← _parse_hextet p; hextets (Z.lor (Z.shiftl acc 16) h) parts'
  end.

(** [parts_hi], [parts_lo] and [parts_skipped]. *)
Definition layout (parts : list string) : option (nat * nat * nat) :=
  let n := length parts in
  let empty i := match parts !! i with Some p => String.eqb p "" | None => false end in
  match skips parts with
  | [skip_index] =>
      let hi := if empty 0%nat then (skip_index - 1)%nat else skip_index in
      let lo := if empty (n - 1)%nat then (n - skip_index - 2)%nat else (n - skip_index - 1)%nat in
      if empty 0%nat && negb (hi =? 0)%nat then None
      else if empty (n - 1)%nat && negb (lo =? 0)%nat then None
      else if (8 <=? hi + lo)%nat then None
      else Some (hi, lo, (8 - (hi + lo))%nat)
  | [] =>
      if negb (n =? 8)%nat then None
      else if empty 0%nat || empty (n - 1)%nat then None
      else Some (n, 0%nat, 0%nat)
  | _ => None
  end.

Definition parse_ipv6 (ip_str : string) : option Z :=
  let parts := str_split ":" ip_str in
  if (length parts <? 3)%nat then None
  else
    parts ← expand_suffix parts;
    if (9 <? length parts)%nat then None
    else
      '(hi, lo, skipped) ← layout parts;
      high ← hextets 0 (take hi parts);
      hextets (Z.shiftl high (16 * Z.of_nat skipped)) (last_n lo parts).

Definition _split_scope_id (ip_str : string) : option string :=
  match split_once "%" ip_str with
  | None => Some ip_str
  | Some (addr, scope_id) =>
      if String.eqb scope_id "" || str_contains "%" scope_id then None else Some addr
  end.

(** [ipaddress.ip_address]; [None] is [ValueError]. *)
Definition ip_address (s : string) : option address :=
  if str_contains "/" s then None
  else
    match parse_ipv4 s with
    | Some n => Some (IPv4Address n)
    | None => addr ← _split_scope_id s; n ← parse_ipv6 addr; Some (IPv6Address n)
    end.

(** ** Networks *)

Record network := Network { version6 : bool; base : Z; prefix : Z }.

Definition width (v6 : bool) : Z := if v6 then 128 else 32.
Definition net4 (a b c d prefix : Z) : network := Network false (((a * 256 + b) * 256 + c) * 256 + d) prefix.
(** The network of the first hextets, the others being zero. *)
Definition net6 (l : list Z) (prefix : Z) : network :=
  Network true (fold_left (fun n h => n * 65536 + h) l 0 * 65536 ^ (8 - Z.of_nat (length l))) prefix.

(** [addr in net] *)
Definition in_net (addr : address) (net : network) : bool :=
  match addr with
  | IPv4Address n => negb (version6 net) && (n / 2 ^ (32 - prefix net) =? base net / 2 ^ (32 - prefix net))
  | IPv6Address n => version6 net && (n / 2 ^ (128 - prefix net) =? base net / 2 ^ (128 - prefix net))
  end.

Definition in_any (addr : address) (nets : list network) : bool := existsb (in_net addr) nets.

Definition private4 : list network :=
  [net4 0 0 0 0 8; net4 10 0 0 0 8; net4 127 0 0 0 8; net4 169 254 0 0 16; net4 172 16 0 0 12; net4 192 0 0 0 24;
   net4 192 0 0 170 31; net4 192 0 2 0 24; net4 192 168 0 0 16; net4 198 18 0 0 15; net4 198 51 100 0 24;
   net4 203 0 113 0 24; net4 240 0 0 0 4; net4 255 255 255 255 32].
Definition private_exceptions4 : list network := [net4 192 0 0 9 32; net4 192 0 0 10 32].
Definition private6 : list network :=
  [net6 [0;0;0;0;0;0;0;1] 128; net6 [] 128; net6 [0;0;0;0;0;0xffff] 96; net6 [0x64;0xff9b;1] 48; net6 [0x100] 64;
   net6 [0x2001] 23; net6 [0x2001;0xdb8] 32; net6 [0x2002] 16; net6 [0xfc00] 7; net6 [0xfe80] 10].
Definition private_exceptions6 : list network :=
  [net6 [0x2001;1;0;0;0;0;0;1] 128; net6 [0x2001;1;0;0;0;0;0;2] 128; net6 [0x2001;3] 32; net6 [0x2001;4;0x112] 48;
   net6 [0x2001;0x20] 28; net6 [0x2001;0x30] 28].
Definition reserved6 : list network :=
  [net6 [] 8; net6 [0x100] 8; net6 [0x200] 7; net6 [0x400] 6; net6 [0x800] 5; net6 [0x1000] 4; net6 [0x4000] 3;
   net6 [0x6000] 3; net6 [0x8000] 3; net6 [0xa000] 3; net6 [0xc000] 3; net6 [0xe000] 4; net6 [0xf000] 5;
   net6 [0xf800] 6; net6 [0xfe00] 9].

Definition is_private (a : address) : bool :=
  match a with
  | IPv4Address _ => in_any a private4 && negb (in_any a private_exceptions4)
  | IPv6Address _ => in_any a private6 && negb (in_any a private_exceptions6)
  end.
Definition is_loopback (a : address) : bool :=
  match a with IPv4Address _ => in_net a (net4 127 0 0 0 8) | IPv6Address n => n =? 1 end.
Definition is_link_local (a : address) : bool :=
  match a with IPv4Address _ => in_net a (net4 169 254 0 0 16) | IPv6Address _ => in_net a (net6 [0xfe80] 10) end.
Definition is_multicast (a : address) : bool :=
  match a with IPv4Address _ => in_net a (net4 224 0 0 0 4) | IPv6Address _ => in_net a (net6 [0xff00] 8) end.
Definition is_reserved (a : address) : bool :=
  match a with IPv4Address _ => in_net a (net4 240 0 0 0 4) | IPv6Address _ => in_any a reserved6 end.
Definition is_unspecified (a : address) : bool := match a with IPv4Address n | IPv6Address n => n =? 0 end.

(** ** The policy *)

Definition _EXTRA_DENIED : list network :=
  [net4 100 64 0 0 10; net4 198 18 0 0 15; net4 192 0 0 0 24; net6 [0x64;0xff9b] 96].

Definition ipv4_mapped (a : address) : option Z :=
  match a with
  | IPv6Address n => if Z.shiftr n 32 =? 65535 then Some (Z.land n 4294967295) else None
  | IPv4Address _ => None
  end.

Definition plain_denied (addr : address) : bool :=
  is_private addr || is_loopback addr || is_link_local addr || is_multicast addr || is_reserved addr
  || is_unspecified addr || in_any addr _EXTRA_DENIED.

Definition _addr_is_denied (addr : address) : bool :=
  match ipv4_mapped addr with
  | Some n => plain_denied (IPv4Address n)
  | None => plain_denied addr
  end.

Definition ip_is_denied (ip_str : string) : bool :=
  match ip_address ip_str with Some addr => _addr_is_denied addr | None => true end.

Inductive exn := SSRFError (message : string) | ValueError.

#[export] Instance exn_eq_dec : EqDecision exn.
Proof. solve_decision. Defined.

(** What the resolver does: addresses, or a raise with its text. *)
Abbreviation resolver := (string -> res string (list string)).

Definition bracket (c : ascii) : bool := Ascii.eqb c "[" || Ascii.eqb c "]".

Definition resolve_and_validate (resolve : resolver) (host : string) : res exn (list string) :=
  let literal := str_strip_by bracket host in
  match ip_address literal with
  | Some addr =>
      if _addr_is_denied addr then Err (SSRFError ("host resolves to a denied address: " +:+ literal))
      else Ok [literal]
  | None =>
      match resolve host with
      | Err e => Err (SSRFError ("could not resolve host '" +:+ host +:+ "': " +:+ e))
      | Ok [] => Err (SSRFError ("host '" +:+ host +:+ "' did not resolve to any address"))
      | Ok addresses =>
          match find_first ip_is_denied addresses with
          | Some addr => Err (SSRFError ("host '" +:+ host +:+ "' resolves to a denied address: " +:+ addr))
          | None => Ok addresses
          end
      end
  end.

(** ** URLs *)

(** [s.rpartition(c)[2]] *)
Definition after_last (c : ascii) (s : string) : string := default s (last (str_split c s)).

(** [s.partition(c)] without the separator. *)
Definition partition (c : string) (s : string) : string * string :=
  match split_once c s with Some p => p | None => (s, "") end.

Definition scheme_char (c : ascii) : bool := is_alpha c || is_digit c || Ascii.eqb c "+" || Ascii.eqb c "-" || Ascii.eqb c ".".
Definition c0_or_space (c : ascii) : bool := (ord c <=? 32)%nat.
Definition unsafe_char (c : ascii) : bool := Ascii.eqb c (chr 9) || Ascii.eqb c (chr 10) || Ascii.eqb c (chr 13).

Fixpoint str_filter (p : ascii -> bool) (s : string) : string :=
  match s with
  | EmptyString => EmptyString
  | String c s' => if p c then String c (str_filter p s') else str_filter p s'
  end.

(** The text up to the first character with [p], and the rest from there. *)
Fixpoint str_span (p : ascii -> bool) (s : string) : string * string :=
  match s with
  | EmptyString => (EmptyString, EmptyString)
  | String c s' => if p c then (EmptyString, s) else let '(a, b) := str_span p s' in (String c a, b)
  end.

Definition netloc_end (c : ascii) : bool := Ascii.eqb c "/" || Ascii.eqb c "?" || Ascii.eqb c "#".

Definition split_scheme (url : string) : string * string :=
  match url with
  | String c _ =>
      if is_alpha c then
        match split_once ":" url with
        | Some (s, rest) => if str_forallb scheme_char s then (str_lower s, rest) else ("", url)
        | None => ("", url)
        end
      else ("", url)
  | EmptyString => ("", url)
  end.

(** [v[a-fA-F0-9]+\..+] *)
Definition ipvfuture (hostname : string) : bool :=
  match split_once "." (str_drop 1 hostname) with
  | Some (h, rest) => negb (String.eqb h "") && str_forallb hex_char h && negb (String.eqb rest "")
      && str_forallb (fun c => negb (Ascii.eqb c (chr 10))) rest
  | None => false
  end.

Definition bracketed_host_ok (hostname : string) : bool :=
  if starts_with "v" hostname then ipvfuture hostname
  else match ip_address hostname with Some (IPv6Address _) => true | _ => false end.

Definition bracketed_netloc_ok (netloc : string) : bool :=
  let hostname_and_port := after_last "@" netloc in
  match split_once "[" hostname_and_port with
  | Some (before, bracketed) =>
      if negb (String.eqb before "") then false
      else
        let '(hostname, port) := partition "]" bracketed in
        if negb (String.eqb port "") && negb (starts_with ":" port) then false
        else bracketed_host_ok hostname
  | None => bracketed_host_ok (partition ":" hostname_and_port).1
  end.

Definition netloc_ok (netloc : string) : bool :=
  let open_ := str_contains "[" netloc in
  let close := str_contains "]" netloc in
  if xorb open_ close then false
  else if open_ && close then bracketed_netloc_ok netloc
  else true.

(** The scheme and the network location of [urlsplit(url)]. *)
Definition urlsplit (url : string) : res exn (string * string) :=
  let url := str_filter (fun c => negb (unsafe_char c)) (str_lstrip_by c0_or_space url) in
  let '(scheme, url) := split_scheme url in
  if starts_with "//" url then
    let netloc := (str_span netloc_end (str_drop 2 url)).1 in
    if netloc_ok netloc then Ok (scheme, netloc) else Err ValueError
  else Ok (scheme, "").

(** [.hostname] *)
Definition hostname (netloc : string) : string :=
  let hostinfo := after_last "@" netloc in
  let name := match split_once "[" hostinfo with
              | Some (_, bracketed) => (partition "]" bracketed).1
              | None => (partition ":" hostinfo).1
              end in
  match split_once "%" name with
  | Some (name, zone) => str_lower name +:+ "%" +:+ zone
  | None => str_lower name
  end.

Definition ALLOWED_SCHEMES : list string := ["http"; "https"].

Definition assert_url_allowed (resolve : resolver) (url : string) : res exn (list string) :=
  '(scheme, netloc) ← urlsplit url;
  if negb (str_in (str_lower scheme) ALLOWED_SCHEMES)
  then Err (SSRFError ("scheme '" +:+ scheme +:+ "' not allowed (only http/https)"))
  else
    let host := hostname netloc in
    if String.eqb host "" then Err (SSRFError "URL has no host") else resolve_and_validate resolve host.


(** ** Ranges *)

(** The first and the last address of a network. *)
Definition net_range (net : network) : Z * Z :=
  let size := 2 ^ (width (version6 net) - prefix net) in
  let first := base net / size * size in (first, first + size - 1).

Lemma div_block n q k : 0 < k -> n / k = q <-> q * k <= n <= q * k + k - 1.
Proof.
  intros Hk. split.
  - intros <-. pose proof (Z.div_mod n k). pose proof (Z.mod_pos_bound n k Hk). nia.
  - intros H. symmetry. apply (Z.div_unique n k q (n - q * k)); nia.
Qed.

Lemma in_net4_range n net :
  version6 net = false -> 0 <= 32 - prefix net -> in_net (IPv4Address n) net = true <-> (net_range net).1 <= n <= (net_range net).2.
Proof.
  intros Hv Hp. unfold in_net, net_range, width. rewrite Hv. cbn [negb andb fst snd]. rewrite Z.eqb_eq. apply div_block. lia.
Qed.

Lemma in_net6_range n net :
  version6 net = true -> 0 <= 128 - prefix net -> in_net (IPv6Address n) net = true <-> (net_range net).1 <= n <= (net_range net).2.
Proof.
  intros Hv Hp. unfold in_net, net_range, width. rewrite Hv. cbn [negb andb fst snd]. rewrite Z.eqb_eq. apply div_block. lia.
Qed.

(** The ranges of the networks of one version. *)
Definition ranges (v6 : bool) (nets : list network) : list (Z * Z) :=
  map net_range (List.filter (fun net => Bool.eqb (version6 net) v6) nets).

Fixpoint in_ranges (n : Z) (l : list (Z * Z)) : Prop :=
  match l with [] => False | r :: l' => r.1 <= n <= r.2 \/ in_ranges n l' end.

Definition proper (v6 : bool) (nets : list network) : bool :=
  forallb (fun net => 0 <=? width v6 - prefix net) (List.filter (fun net => Bool.eqb (version6 net) v6) nets).

Lemma in_any_ranges v6 n nets :
  proper v6 nets = true ->
  in_any (if v6 then IPv6Address n else IPv4Address n) nets = true <-> in_ranges n (ranges v6 nets).
Proof.
  unfold in_any, ranges, proper. induction nets as [|net nets IH]; cbn [existsb List.filter]; intros Hp; [done|].
  destruct (Bool.eqb (version6 net) v6) eqn:Hv; cbn [map forallb in_ranges] in *.
  - apply andb_true_iff in Hp as [Hw%Z.leb_le Hp]. apply eqb_prop in Hv. rewrite orb_true_iff, IH by done.
    destruct v6; [rewrite in_net6_range by done|rewrite in_net4_range by done]; done.
  - rewrite orb_true_iff, IH by done. split; [|by right]. intros [H|H]; [|done]. exfalso.
    destruct v6, (version6 net) eqn:Hn; try done; cbn in H; by rewrite Hn in H.
Qed.

Lemma in_any_ranges_false v6 n nets :
  proper v6 nets = true ->
  in_any (if v6 then IPv6Address n else IPv4Address n) nets = false <-> ~ in_ranges n (ranges v6 nets).
Proof. intros Hp. rewrite <-in_any_ranges by done. by rewrite not_true_iff_false. Qed.

(** [in_ranges] of closed tables, as inequalities. *)
Ltac table_to_ineqs :=
  repeat match goal with
  | |- context [in_ranges ?n (ranges ?v ?l)] =>
      let l' := eval vm_compute in (ranges v l) in change (ranges v l) with l'
  | |- context [in_ranges ?n ?l] => is_const l; let l' := eval vm_compute in l in change l with l'
  end;
  cbn [in_ranges fst snd].

Lemma in_net_any a net : in_net a net = in_any a [net].
Proof. unfold in_any. cbn. by rewrite orb_false_r. Qed.

(** ** What the policy denies *)

Definition ip4 (a b c d : Z) : Z := ((a * 256 + b) * 256 + c) * 256 + d.

(** The denied part of the IPv4 space, as disjoint ranges in order. *)
Definition DENIED4 : list (Z * Z) :=
  [(ip4 0 0 0 0, ip4 0 255 255 255); (ip4 10 0 0 0, ip4 10 255 255 255); (ip4 100 64 0 0, ip4 100 127 255 255);
   (ip4 127 0 0 0, ip4 127 255 255 255); (ip4 169 254 0 0, ip4 169 254 255 255); (ip4 172 16 0 0, ip4 172 31 255 255);
   (ip4 192 0 0 0, ip4 192 0 0 255); (ip4 192 0 2 0, ip4 192 0 2 255); (ip4 192 168 0 0, ip4 192 168 255 255);
   (ip4 198 18 0 0, ip4 198 19 255 255); (ip4 198 51 100 0, ip4 198 51 100 255); (ip4 203 0 113 0, ip4 203 0 113 255);
   (ip4 224 0 0 0, ip4 255 255 255 255)].

Lemma ipv4_denied_iff n :
  0 <= n < 2 ^ 32 -> plain_denied (IPv4Address n) = true <-> in_ranges n DENIED4.
Proof.
  intros Hn. unfold plain_denied, is_private, is_loopback, is_link_local, is_multicast, is_reserved, is_unspecified.
  rewrite !in_net_any, !orb_true_iff, andb_true_iff, negb_true_iff, Z.eqb_eq.
  rewrite !(in_any_ranges false), (in_any_ranges_false false) by (vm_compute; reflexivity).
  table_to_ineqs. lia.
Qed.

(** An IPv4 address written inside an IPv6 address. *)
Definition mapped (n m : Z) : Prop := n = 0xffff * 2 ^ 32 + m /\ 0 <= m < 2 ^ 32.

Lemma ipv4_mapped_iff n m : 0 <= n -> ipv4_mapped (IPv6Address n) = Some m <-> mapped n m.
Proof.
  intros Hn. unfold ipv4_mapped, mapped. rewrite Z.shiftr_div_pow2 by lia.
  change 4294967295 with (Z.ones 32). rewrite Z.land_ones by lia.
  pose proof (Z.div_mod n (2 ^ 32)). pose proof (Z.mod_pos_bound n (2 ^ 32)).
  destruct (n / 2 ^ 32 =? 65535) eqn:E.
  - apply Z.eqb_eq in E. split; [intros [= <-]|intros [-> Hm]; f_equal]; lia.
  - apply Z.eqb_neq in E. split; [done|]. intros [-> Hm]. exfalso. apply E.
    symmetry. apply (Z.div_unique _ _ 65535 m); lia.
Qed.

(** The address with these first hextets. *)
Definition ip6 (l : list Z) : Z := fold_left (fun n h => n * 65536 + h) l 0 * 65536 ^ (8 - Z.of_nat (length l)).

(** The public part of the IPv6 space: global unicast addresses without the
    special-purpose ones. *)
Definition PUBLIC6 : list (Z * Z) :=
  [(ip6 [0x2000], ip6 [0x2001] - 1); (ip6 [0x2001;1;0;0;0;0;0;1], ip6 [0x2001;1;0;0;0;0;0;2]);
   (ip6 [0x2001;3], ip6 [0x2001;4] - 1); (ip6 [0x2001;4;0x112], ip6 [0x2001;4;0x113] - 1);
   (ip6 [0x2001;0x20], ip6 [0x2001;0x40] - 1); (ip6 [0x2001;0x200], ip6 [0x2001;0xdb8] - 1);
   (ip6 [0x2001;0xdb9], ip6 [0x2002] - 1); (ip6 [0x2003], ip6 [0x3fff] - 1);
   (ip6 [0x3fff;0x1000], ip6 [0x4000] - 1)].

(** Two ranges that are not public and that none of the tested networks has:
    site-local addresses [fec0::/10], and [3fff::/20] for documentation. *)
Definition OVERLOOKED6 : list (Z * Z) := [(ip6 [0x3fff], ip6 [0x3fff;0x1000] - 1); (ip6 [0xfec0], ip6 [0xff00] - 1)].

Lemma ipv6_denied_iff n :
  0 <= n < 2 ^ 128 -> plain_denied (IPv6Address n) = true <-> ~ (in_ranges n PUBLIC6 \/ in_ranges n OVERLOOKED6).
Proof.
  intros Hn. unfold plain_denied, is_private, is_loopback, is_link_local, is_multicast, is_reserved, is_unspecified.
  rewrite !in_net_any, !orb_true_iff, andb_true_iff, negb_true_iff, !Z.eqb_eq.
  rewrite !(in_any_ranges true), (in_any_ranges_false true) by (vm_compute; reflexivity).
  table_to_ineqs. lia.
Qed.

(** The address that the policy judges: an embedded IPv4 address counts. *)
Definition judged (a : address) : address :=
  match ipv4_mapped a with Some m => IPv4Address m | None => a end.

Definition valid_address (a : address) : Prop :=
  match a with IPv4Address n => 0 <= n < 2 ^ 32 | IPv6Address n => 0 <= n < 2 ^ 128 end.

(** The addresses that a request may be sent to, and those that the gate lets pass
    besides. *)
Definition public (a : address) : Prop :=
  match judged a with IPv4Address n => ~ in_ranges n DENIED4 | IPv6Address n => in_ranges n PUBLIC6 end.
Definition overlooked (a : address) : Prop :=
  match judged a with IPv4Address _ => False | IPv6Address n => in_ranges n OVERLOOKED6 end.

Lemma in_ranges_dec n l : in_ranges n l \/ ~ in_ranges n l.
Proof.
  induction l as [|r l IH]; cbn [in_ranges]; [tauto|]. assert (r.1 <= n <= r.2 \/ ~ r.1 <= n <= r.2) by lia. tauto.
Qed.

Lemma judged_valid a : valid_address a -> valid_address (judged a).
Proof.
  destruct a as [n|n]; [done|]. intros Hn. unfold judged.
  destruct (ipv4_mapped (IPv6Address n)) as [m|] eqn:E; [|done].
  apply ipv4_mapped_iff in E as [_ Hm]; [done|]. by destruct Hn.
Qed.

Theorem address_policy a : valid_address a -> _addr_is_denied a = false <-> public a \/ overlooked a.
Proof.
  intros Hv. assert (_addr_is_denied a = plain_denied (judged a)) as ->.
  { unfold _addr_is_denied, judged. by destruct (ipv4_mapped a). }
  unfold public, overlooked. apply judged_valid in Hv. destruct (judged a) as [n|n]; cbn in Hv; rewrite <-not_true_iff_false.
  - rewrite ipv4_denied_iff by done. tauto.
  - rewrite ipv6_denied_iff by done. destruct (in_ranges_dec n PUBLIC6), (in_ranges_dec n OVERLOOKED6); tauto.
Qed.

(** ** Parsed addresses *)

Lemma digit_value_bound c : 0 <= digit_value c < 16.
Proof.
  assert ((0 <=? digit_value c) = true /\ (digit_value c <? 16) = true) as [?%Z.leb_le ?%Z.ltb_lt]; [|lia].
  destruct c as [[] [] [] [] [] [] [] []]; by vm_compute.
Qed.

Lemma number_from_bound k s acc :
  0 <= acc < 16 ^ k -> 0 <= k -> 0 <= number_from 16 acc s < 16 ^ (k + Z.of_nat (String.length s)).
Proof.
  revert k acc. induction s as [|c s IH]; cbn [number_from String.length]; intros k acc Ha Hk; [by rewrite Z.add_0_r|].
  pose proof (digit_value_bound c). replace (k + Z.of_nat (S (String.length s))) with ((k + 1) + Z.of_nat (String.length s)) by lia.
  apply IH; [|lia]. rewrite Z.pow_add_r by lia. change (16 ^ 1) with 16. lia.
Qed.

Lemma parse_octet_bound s n : _parse_octet s = Some n -> 0 <= n < 256.
Proof.
  unfold _parse_octet. do 4 (destruct (_ : bool); [done|]). destruct (255 <? _) eqn:E; [done|]. intros [= <-]. apply Z.ltb_ge in E.
  assert (forall acc, 0 <= acc -> 0 <= number_from 10 acc s) as Hn; [|specialize (Hn 0); lia].
  clear. induction s as [|c s IH]; cbn [number_from]; intros acc Ha; [done|]. apply IH. pose proof (digit_value_bound c). lia.
Qed.

Lemma parse_hextet_bound s n : _parse_hextet s = Some n -> 0 <= n < 2 ^ 16.
Proof.
  unfold _parse_hextet. destruct (negb _); [done|]. destruct (4 <? _)%nat eqn:E; [done|]. apply Nat.ltb_ge in E.
  destruct (String.eqb _ _); [done|]. intros [= <-].
  pose proof (number_from_bound 0 s 0). assert (16 ^ (0 + Z.of_nat (String.length s)) <= 16 ^ 4) by (apply Z.pow_le_mono_r; lia). lia.
Qed.

Lemma parse_ipv4_bound s n : parse_ipv4 s = Some n -> 0 <= n < 2 ^ 32.
Proof.
  unfold parse_ipv4. destruct (str_split "." s) as [|a [|b [|c [|d [|]]]]]; try done. cbn [mbind option_bind].
  intros (x & Hx%parse_octet_bound & H)%bind_Some. apply bind_Some in H as (y & Hy%parse_octet_bound & H).
  apply bind_Some in H as (z & Hz%parse_octet_bound & H). apply bind_Some in H as (t & Ht%parse_octet_bound & [= <-]). lia.
Qed.

(** A number of [k] hextets. *)
Definition fits (k : nat) (n : Z) : Prop := 0 <= n < 2 ^ (16 * Z.of_nat k).

Lemma fits_shift k j n : fits k n -> fits (k + j) (Z.shiftl n (16 * Z.of_nat j)).
Proof.
  unfold fits. rewrite Z.shiftl_mul_pow2, Nat2Z.inj_add, Z.mul_add_distr_l, Z.pow_add_r by lia. intros [H1 H2].
  pose proof (Z.pow_pos_nonneg 2 (16 * Z.of_nat j)). nia.
Qed.

Lemma fits_le k j n : (k <= j)%nat -> fits k n -> fits j n.
Proof.
  unfold fits. intros Hk [H1 H2]. split; [done|]. eapply Z.lt_le_trans; [apply H2|]. apply Z.pow_le_mono_r; lia.
Qed.

Lemma hextets_fits parts k acc n :
  fits k acc -> hextets acc parts = Some n -> fits (k + length parts) n.
Proof.
  revert k acc. induction parts as [|p parts IH]; cbn [hextets length]; intros k acc Ha.
  { intros [= <-]. by rewrite Nat.add_0_r. }
  cbn [mbind option_bind]. intros (h & Hh%parse_hextet_bound & H)%bind_Some.
  replace (k + S (length parts))%nat with ((k + 1) + length parts)%nat by lia. apply (IH (k + 1)%nat) in H; [done|].
  apply (fits_shift k 1) in Ha. cbn in Ha.
  assert (Z.land (Z.shiftl acc 16) h = 0) as Hz.
  { apply Z.bits_inj'. intros i Hi. rewrite Z.land_spec, Z.bits_0, Z.shiftl_spec by done.
    destruct (Z.ltb_spec i 16); [by rewrite Z.testbit_neg_r by lia|].
    destruct (Z.eq_dec h 0) as [->|Hn]; [by rewrite Z.bits_0, andb_false_r|].
    assert (Z.log2 h < 16) by (apply Z.log2_lt_pow2; lia). rewrite (Z.bits_above_log2 h) by lia.
    apply andb_false_r. }
  rewrite <-Z.lxor_lor, <-Z.add_nocarry_lxor by done.
  unfold fits in *. rewrite Z.shiftl_mul_pow2 in * by lia. rewrite Nat2Z.inj_add, Z.mul_add_distr_l, Z.pow_add_r in * by lia.
  change (2 ^ (16 * Z.of_nat 1)) with (2 ^ 16) in *. lia.
Qed.

Lemma layout_eight parts hi lo skipped : layout parts = Some (hi, lo, skipped) -> (hi + lo + skipped = 8)%nat.
Proof.
  unfold layout. destruct (skips parts) as [|i [|]]; [| |done].
  - destruct (length parts =? 8)%nat eqn:E; [|done]. apply Nat.eqb_eq in E. cbn [negb]. destruct (_ || _); [done|].
    intros [= <- <- <-]. lia.
  - do 2 (destruct (_ && _); [done|]). destruct (8 <=? _)%nat eqn:E; [done|]. apply Nat.leb_gt in E. intros [= <- <- <-]. lia.
Qed.

Lemma parse_ipv6_bound s n : parse_ipv6 s = Some n -> 0 <= n < 2 ^ 128.
Proof.
  unfold parse_ipv6. destruct (_ <? _)%nat; [done|]. cbn [mbind option_bind]. intros (parts & _ & H)%bind_Some.
  destruct (9 <? _)%nat; [done|]. apply bind_Some in H as ([[hi lo] skipped] & Hl%layout_eight & H).
  apply bind_Some in H as (high & Hh & H). apply (hextets_fits _ 0) in Hh; [|done].
  apply (fits_shift _ skipped) in Hh. eapply hextets_fits in H; [|apply Hh].
  apply (fits_le _ 8) in H; [done|]. rewrite length_last_n, length_take. lia.
Qed.

Lemma ip_address_valid s a : ip_address s = Some a -> valid_address a.
Proof.
  unfold ip_address. destruct (str_contains _ _); [done|]. destruct (parse_ipv4 s) as [n|] eqn:E.
  - intros [= <-]. by apply parse_ipv4_bound in E.
  - cbn [mbind option_bind]. intros (addr & _ & (n & Hn%parse_ipv6_bound & [= <-])%bind_Some)%bind_Some. done.
Qed.

(** ** The gate *)

Lemma denied_reads addr : ip_is_denied addr = false <-> exists x, ip_address addr = Some x /\ (public x \/ overlooked x).
Proof.
  unfold ip_is_denied. destruct (ip_address addr) as [x|] eqn:E.
  - rewrite address_policy by (by apply ip_address_valid in E). split; [by exists x|]. by intros (y & [= <-] & H).
  - split; [done|]. by intros (x & ? & _).
Qed.

(** A name passes when it is an address, or resolves to addresses, that are public or
    overlooked. *)
Definition vetted (resolve : resolver) (host : string) (addresses : list string) : Prop :=
  (forall a, a ∈ addresses -> exists x, ip_address a = Some x /\ (public x \/ overlooked x)) /\
  match ip_address (str_strip_by bracket host) with
  | Some _ => addresses = [str_strip_by bracket host]
  | None => resolve host = Ok addresses /\ addresses <> []
  end.

Lemma resolve_and_validate_vetted resolve host addresses :
  resolve_and_validate resolve host = Ok addresses <-> vetted resolve host addresses.
Proof.
  unfold resolve_and_validate, vetted. setoid_rewrite <-denied_reads.
  destruct (ip_address (str_strip_by bracket host)) as [x|] eqn:E.
  - assert (ip_is_denied (str_strip_by bracket host) = _addr_is_denied x) as Hd by (unfold ip_is_denied; by rewrite E).
    split.
    + destruct (_addr_is_denied x) eqn:Ex; [done|]. intros [= <-]. split; [|done]. by intros a ->%list_elem_of_singleton.
    + intros [H ->]. rewrite <-Hd, H; [done|]. by apply list_elem_of_singleton.
  - destruct (resolve host) as [[|a l]|e].
    + split; [done|]. by intros [_ [[= <-] ?]].
    + destruct (find_first ip_is_denied (a :: l)) as [b|] eqn:Ef.
      * split; [done|]. intros [H [[= <-] _]]. apply find_first_Some in Ef as [Hin Hb].
        by rewrite H in Hb.
      * pose proof (proj1 (find_first_None ip_is_denied (a :: l)) Ef) as Hn. split; [by intros [= <-]|]. by intros [_ [[= <-] _]].
    + split; [done|]. by intros [_ [? _]].
Qed.

(** [C35] The gate as a whole: a URL passes exactly when its scheme is http or
    https, it has a host, and every address of the host is public or in one of the
    two ranges that the code overlooks: site-local addresses and those for
    documentation of IPv6, which are not public.  The addresses are the ones the
    resolver gave for this call. *)
Theorem ssrf_gate resolve url addresses :
  assert_url_allowed resolve url = Ok addresses <->
  exists scheme netloc,
    urlsplit url = Ok (scheme, netloc) /\ str_lower scheme ∈ ALLOWED_SCHEMES /\
    hostname netloc <> "" /\ vetted resolve (hostname netloc) addresses.
Proof.
  unfold assert_url_allowed. destruct (urlsplit url) as [[scheme netloc]|e]; cbn [mbind res_bind].
  2:{ split; [done|]. by intros (? & ? & ? & _). }
  setoid_rewrite <-str_in_spec. setoid_rewrite <-resolve_and_validate_vetted. split.
  - destruct (str_in _ _) eqn:Es; [cbn [negb]|done]. destruct (String.eqb_spec (hostname netloc) ""); [done|].
    intros H. by exists scheme, netloc.
  - intros (s & n & [= <- <-] & -> & Hh & H). cbn [negb]. destruct (String.eqb_spec (hostname netloc) ""); done.
Qed.

(** Site-local addresses pass, and so does a name that resolves to one. *)
Example site_local_passes :
  ip_is_denied "fec0::1" = false /\
  assert_url_allowed (fun _ => Ok ["fec0::1"]) "http://internal.example/" = Ok ["fec0::1"].
Proof. split; vm_compute; reflexivity. Qed.

(** [urlsplit] raises [ValueError], which callers do not expect of the gate. *)
Example gate_raises_value_error resolve : assert_url_allowed resolve "http://[10.0.0.1]/" = Err ValueError.
Proof. vm_compute. reflexivity. Qed.

(** ** One text for an IPv4 address *)

Definition dotted (a b c d : Z) : string := str_join "." (map str_of_Z [a; b; c; d]).

Lemma join_split c s : str_join (String c "") (str_split c s) = s.
Proof.
  induction s as [|d s IH]; [done|]. cbn [str_split]. destruct (Ascii.eqb_spec d c) as [->|Hn].
  - destruct (str_split c s) as [|x l] eqn:E; [by apply str_split_nonempty in E|]. rewrite str_join_cons, IH. done.
  - destruct (str_split c s) as [|x l] eqn:E; [by apply str_split_nonempty in E|]. rewrite <-IH. by destruct l.
Qed.

Lemma split_plain c a : str_forallb (fun d => negb (Ascii.eqb d c)) a = true -> str_split c a = [a].
Proof.
  induction a as [|d a IH]; cbn [str_forallb str_split]; [done|]. intros [Hd Ha]%andb_true_iff.
  rewrite IH by done. by destruct (Ascii.eqb d c).
Qed.

Lemma split_cons c a s :
  str_forallb (fun d => negb (Ascii.eqb d c)) a = true -> str_split c (a +:+ String c "" +:+ s) = a :: str_split c s.
Proof.
  induction a as [|d a IH]; cbn [str_forallb]; [intros _; cbn; by rewrite Ascii.eqb_refl|]. intros [Hd Ha]%andb_true_iff.
  cbn [String.append str_split] in *. rewrite IH by done. by destruct (Ascii.eqb d c).
Qed.

(** All texts of [k] digits. *)
Fixpoint digit_texts (k : nat) : list string :=
  match k with
  | O => [""]
  | S k => s ← digit_texts k; map (fun d => String (chr (48 + d)) s) (seq 0 10)
  end.

Lemma digit_texts_all s : str_forallb is_digit s = true -> s ∈ digit_texts (String.length s).
Proof.
  induction s as [|c s IH]; cbn [str_forallb String.length digit_texts]; [by left|]. intros [Hc Hs]%andb_true_iff.
  apply list_elem_of_bind. exists s. split; [|by apply IH]. clear IH Hs.
  assert (String c "" ∈ map (fun d => String (chr (48 + d)) "") (seq 0 10)) as H.
  { destruct c as [[] [] [] [] [] [] [] []]; try (by vm_compute in Hc); apply (bool_decide_unpack _); vm_compute; exact I. }
  apply list_elem_of_In, in_map_iff in H as (d & Hd & Hin). apply list_elem_of_In, in_map_iff.
  exists d. split; [|done]. congruence.
Qed.

Definition octet_texts : list string := k ← [1; 2; 3]%nat; digit_texts k.

Lemma octet_text s n : _parse_octet s = Some n -> s = str_of_Z n.
Proof.
  intros Hp. assert (s ∈ octet_texts) as Hin.
  { unfold _parse_octet in Hp. destruct (String.eqb_spec s ""); [done|]. destruct (str_forallb is_digit s) eqn:Ed; [|done].
    destruct (3 <? _)%nat eqn:El; [done|]. apply Nat.ltb_ge in El. apply list_elem_of_bind. exists (String.length s).
    split; [by apply digit_texts_all|]. destruct s as [|? [|? [|? [|]]]]; cbn in *; first [done|lia|set_solver]. }
  assert (forallb (fun s => match _parse_octet s with Some n => String.eqb s (str_of_Z n) | None => true end) octet_texts = true)
    as Hall by (vm_compute; reflexivity).
  rewrite forallb_forall in Hall. apply list_elem_of_In, Hall in Hin. rewrite Hp in Hin. by apply String.eqb_eq.
Qed.

Definition octet_values : list Z := map Z.of_nat (seq 0 256).
Definition octet_ok (n : Z) : bool :=
  bool_decide (_parse_octet (str_of_Z n) = Some n) && str_forallb (fun d => negb (Ascii.eqb d ".")) (str_of_Z n).

Lemma octet_print n : 0 <= n < 256 -> octet_ok n = true.
Proof.
  intros Hn. assert (forallb octet_ok octet_values = true) as Hall by (vm_compute; reflexivity).
  rewrite forallb_forall in Hall. apply Hall. apply in_map_iff. exists (Z.to_nat n). split; [lia|]. apply in_seq. lia.
Qed.

(** The parser of IPv4 addresses accepts one text for each address, the
    one that [str] prints: no leading zeros, so no text has a second, octal,
    reading under which the gate and the resolver could differ. *)
Theorem ipv4_canonical s n :
  parse_ipv4 s = Some n <->
  exists a b c d, Forall (fun x => 0 <= x < 256) [a; b; c; d] /\ n = ip4 a b c d /\ s = dotted a b c d.
Proof.
  split.
  - unfold parse_ipv4. destruct (str_split "." s) as [|a [|b [|c [|d [|]]]]] eqn:Es; try done. cbn [mbind option_bind].
    intros (x & Hx & H)%bind_Some. apply bind_Some in H as (y & Hy & H). apply bind_Some in H as (z & Hz & H).
    apply bind_Some in H as (t & Ht & [= <-]). exists x, y, z, t.
    repeat split; [repeat constructor; try (by eapply parse_octet_bound)|].
    rewrite <-(join_split "." s), Es. unfold dotted. cbn [map].
    by rewrite <-(octet_text _ _ Hx), <-(octet_text _ _ Hy), <-(octet_text _ _ Hz), <-(octet_text _ _ Ht).
  - intros (a & b & c & d & H & -> & ->). rewrite !Forall_cons in H. destruct H as (Ha & Hb & Hc & Hd & _).
    apply octet_print in Ha, Hb, Hc, Hd. unfold octet_ok in *. rewrite !andb_true_iff, !bool_decide_eq_true in *.
    destruct Ha as [Ha Ha'], Hb as [Hb Hb'], Hc as [Hc Hc'], Hd as [Hd Hd'].
    unfold parse_ipv4, dotted. cbn [map]. rewrite !str_join_cons. cbn [str_join].
    rewrite !split_cons, split_plain by done. cbn [mbind option_bind]. by rewrite Ha, Hb, Hc, Hd.
Qed.
