(* ===== verification/ExecTokens.v ===== *)
(** * The registry of running executions

    [core/exec_token_registry.py]: a dict of the process from bridge keys to
    context objects.  The objects are mutable and shared: a proxied call holds
    the object it looked up while another execution may replace the entry.  So
    the objects live in a store, and the dict maps keys to addresses. *)

From S2P Require Import Prelude.

Open Scope Z_scope.

Record ExecutionContext := Context_ {
  execution_id : string;
  namespace_id : string;
  namespace_name : string;
  created_at : Z;
  mcp_calls_count : Z;
  mcp_bytes_total : Z;
  api_calls_count : Z;
  passthrough_env : list (string * string)
}.

Record registry := Registry {
  objects : list ExecutionContext;
  _registry : gmap string nat
}.

Definition empty_registry : registry := Registry [] ∅.

Definition register_execution (now : Z) (token ns name eid : string) (env : list (string * string)) (r : registry) : registry :=
  Registry (objects r ++ [Context_ eid ns name now 0 0 0 env]) (<[token := length (objects r)]> (_registry r)).

Definition resolve_execution (token : string) (r : registry) : option nat := _registry r !! token.

Definition unregister_execution (token : string) (r : registry) : registry :=
  Registry (objects r) (delete token (_registry r)).

Definition active_count (r : registry) : nat := size (_registry r).

(** Reading and updating an object through its address. *)
Definition context_at (a : nat) (r : registry) : option ExecutionContext := objects r !! a.
Definition update_context (a : nat) (f : ExecutionContext -> ExecutionContext) (r : registry) : registry :=
  Registry (alter f a (objects r)) (_registry r).

(** [ctx.mcp_calls_count += 1; ctx.mcp_bytes_total += size], and
    [ctx.api_calls_count += 1]. *)
Definition count_mcp_call (size : Z) (c : ExecutionContext) : ExecutionContext :=
  Context_ (execution_id c) (namespace_id c) (namespace_name c) (created_at c) (mcp_calls_count c + 1)
    (mcp_bytes_total c + size) (api_calls_count c) (passthrough_env c).
Definition count_api_call (c : ExecutionContext) : ExecutionContext :=
  Context_ (execution_id c) (namespace_id c) (namespace_name c) (created_at c) (mcp_calls_count c)
    (mcp_bytes_total c) (api_calls_count c + 1) (passthrough_env c).

(** The part of a context that no call changes. *)
Definition identity (c : ExecutionContext) : string * string * string * list (string * string) :=
  (execution_id c, namespace_id c, namespace_name c, passthrough_env c).

(** ** Executions in any order *)

(** An execution in the sandbox: the key it registered and who it is. *)
Record running := Running {
  token : string;
  who : string * string * string * list (string * string)
}.

Definition register (now : Z) (x : running) : registry -> registry :=
  let '(eid, ns, name, env) := who x in register_execution now (token x) ns name eid env.

(** Starts, ends and calls of executions, interleaved.  A call updates the
    counters of an object that it found at any time before. *)
Inductive interleaving : list running -> registry -> Prop :=
| at_rest : interleaving [] empty_registry
| begins now x live r :
    interleaving live r -> token x ∉ map token live -> interleaving (x :: live) (register now x r)
| ends l1 x l2 r :
    interleaving (l1 ++ x :: l2) r -> interleaving (l1 ++ l2) (unregister_execution (token x) r)
| calls_mcp live r a size : interleaving live r -> interleaving live (update_context a (count_mcp_call size) r)
| calls_api live r a : interleaving live r -> interleaving live (update_context a count_api_call r).

(** What is registered is what is running: every live execution has an object
    of its own, with its identity, and nothing else is found. *)
Record agrees (live : list running) (r : registry) : Prop := {
  tokens_differ : NoDup (map token live);
  found x : x ∈ live -> exists a c, resolve_execution (token x) r = Some a /\ context_at a r = Some c /\ identity c = who x;
  own t t' a : resolve_execution t r = Some a -> resolve_execution t' r = Some a -> t = t';
  nothing_else t : t ∉ map token live -> resolve_execution t r = None;
  counted : active_count r = length live
}.

Lemma update_identity f a b c r :
  (forall c, identity (f c) = identity c) -> context_at b r = Some c ->
  exists c', context_at b (update_context a f r) = Some c' /\ identity c' = identity c.
Proof.
  intros Hf Hc. unfold context_at, update_context in *. cbn [objects]. destruct (decide (a = b)) as [->|Hn].
  - rewrite list_lookup_alter_eq, Hc. by exists (f c).
  - rewrite list_lookup_alter_ne by done. by exists c.
Qed.

Lemma agrees_update f a live r :
  (forall c, identity (f c) = identity c) -> agrees live r -> agrees live (update_context a f r).
Proof.
  intros Hf [H1 H2 H3 H4 H5]. split; [done| |done..]. intros x (b & c & Hr & Hc & <-)%H2.
  destruct (update_identity f a b c r Hf Hc) as (c' & Hc' & Hi). by exists b, c'.
Qed.

(** No entry points past the store. *)
Definition in_store (r : registry) : Prop := forall t a, resolve_execution t r = Some a -> (a < length (objects r))%nat.

Lemma interleaving_in_store live r : interleaving live r -> in_store r.
Proof.
  unfold in_store, resolve_execution. induction 1 as [|now [t [[[eid ns] name] env]] live r _ IH|l1 x l2 r _ IH|live r a n _ IH|live r a _ IH].
  - done.
  - cbn. intros u b. rewrite length_app. destruct (decide (t = u)) as [->|Hn].
    + rewrite lookup_insert_eq. intros [= <-]. cbn. lia.
    + rewrite lookup_insert_ne by done. intros ?%IH. lia.
  - cbn. intros u b Hu. apply lookup_delete_Some in Hu as [_ Hu]. by apply IH in Hu.
  - cbn. intros u b Hu. rewrite length_alter. by apply IH in Hu.
  - cbn. intros u b Hu. rewrite length_alter. by apply IH in Hu.
Qed.

Lemma agrees_begins now x live r :
  in_store r -> token x ∉ map token live -> agrees live r -> agrees (x :: live) (register now x r).
Proof.
  intros Hs Hx [H1 H2 H3 H4 H5]. destruct x as [t [[[eid ns] name] env]]. cbn [token] in *.
  unfold resolve_execution, context_at, in_store, active_count in *. cbn [who register].
  assert (_registry r !! t = None) as Ht by by apply H4.
  split; unfold resolve_execution, context_at, active_count, register_execution; cbn [map token _registry objects].
  - by constructor.
  - intros y [->|Hy]%elem_of_cons.
    + exists (length (objects r)), (Context_ eid ns name now 0 0 0 env). rewrite lookup_insert_eq. split; [done|].
      by rewrite lookup_app_r, Nat.sub_diag by lia.
    + destruct (H2 y Hy) as (a & c & Hr & Hc & Hi). exists a, c.
      rewrite lookup_insert_ne by (intros ->; congruence). by rewrite lookup_app_l by (by apply (Hs (token y))).
  - intros u v a. destruct (decide (t = u)) as [<-|Hu], (decide (t = v)) as [<-|Hv]; try done;
      rewrite ?lookup_insert_eq; rewrite ?lookup_insert_ne by done; intros Ha Hb; [| |by eapply H3].
    + injection Ha as <-. apply Hs in Hb. lia.
    + injection Hb as <-. apply Hs in Ha. lia.
  - intros u [Hn Hu]%not_elem_of_cons. rewrite lookup_insert_ne by done. by apply H4.
  - cbn [length]. by rewrite map_size_insert_None, H5.
Qed.

Lemma agrees_ends l1 x l2 r :
  agrees (l1 ++ x :: l2) r -> agrees (l1 ++ l2) (unregister_execution (token x) r).
Proof.
  intros [H1 H2 H3 H4 H5]. unfold unregister_execution. rewrite map_app in *. cbn [map] in *.
  apply NoDup_app in H1 as (Hl1 & Hd & [Hx Hl2]%NoDup_cons).
  assert (token x ∉ map token l1) as Hx1 by (intros ?; by apply (Hd (token x)), elem_of_cons; [|left]).
  split; unfold resolve_execution, context_at, active_count in *; cbn [_registry objects] in *.
  - rewrite map_app. apply NoDup_app. split; [done|]. split; [|done]. intros t Ht Ht2. apply (Hd t Ht). by right.
  - intros y Hy. assert (token x <> token y) as Hn.
    { intros He. apply elem_of_app in Hy as [Hy|Hy]; [apply Hx1|apply Hx]; rewrite He; by apply list_elem_of_fmap_2. }
    rewrite lookup_delete_ne by done. apply H2. set_solver.
  - intros t t' a [_ Ht]%lookup_delete_Some [_ Ht']%lookup_delete_Some. by eapply H3.
  - intros t Ht. destruct (decide (token x = t)) as [<-|Hn]; [apply lookup_delete_eq|]. rewrite lookup_delete_ne by done.
    apply H4. rewrite map_app in Ht. set_solver.
  - destruct (H2 x) as (a & c & Hr & _); [set_solver|]. rewrite map_size_delete_Some by (by exists a).
    rewrite H5, !length_app. cbn [length]. lia.
Qed.

(** Executions are isolated as long as their keys differ: in every
    interleaving of starts, ends and calls, each live execution finds, under
    its key, a context of its own with its namespace and its credentials, a key
    of an ended execution finds nothing, and the registry has no other
    entries. *)
Theorem executions_isolated live r : interleaving live r -> agrees live r.
Proof.
  intros Hr. induction Hr as [|now x live r Hr IH Hx|l1 x l2 r Hr IH|live r a size Hr IH|live r a Hr IH].
  - split; [constructor|set_solver|done|done|done].
  - apply agrees_begins; [by eapply interleaving_in_store|done|done].
  - by apply agrees_ends.
  - by apply agrees_update.
  - by apply agrees_update.
Qed.

Definition demo_x : running := Running "key-1" ("e1", "n1", "first", [("TOKEN", "s1")]).
Definition demo_y : running := Running "key-2" ("e2", "n2", "second", []).

Lemma executions_isolated_witness :
  agrees [demo_y] (unregister_execution "key-1" (update_context 1 count_api_call (register 6 demo_y (register 5 demo_x empty_registry)))).
Proof.
  apply executions_isolated. apply (ends [demo_y] demo_x []). apply calls_api.
  apply begins; [|by intros ?%list_elem_of_singleton].
  apply begins; [constructor|]. apply not_elem_of_nil.
Defined.

(** The key is the API key of the caller, so two executions of one client
    share it: the calls of the first go out with the namespace and credentials
    of the second, and the end of the first cuts the second off. *)
Example one_key_two_executions now :
  let r := register_execution now "api-key" "n2" "second" "e2" [("TOKEN", "s2")]
             (register_execution now "api-key" "n1" "first" "e1" [("TOKEN", "s1")] empty_registry) in
  (a ← resolve_execution "api-key" r; c ← context_at a r; Some (namespace_id c, passthrough_env c)) = Some ("n2", [("TOKEN", "s2")]) /\
  resolve_execution "api-key" (unregister_execution "api-key" r) = None.
Proof. split; vm_compute; reflexivity. Qed.
