(* ===== verification/ApiProxy.v ===== *)
(** * The proxy of registered REST APIs

    [core/api_proxy.py] and the endpoint [api/v1/api_proxy.py], on the tables of
    [models/namespace_api_server.py] and [models/api_endpoint.py].  The network
    is the class [Network]: the resolver, which may change its answers, and the
    HTTP client.  [sent] is the list of the requests that left. *)

From S2P Require Import Prelude Json Security Functions Encryption ExecTokens Ssrf PatternScanner ScannerPipeline.
From stdpp Require Import strings.
From Stdlib Require Import Ascii.

Open Scope Z_scope.

(** ** Rows *)

(** An entry of [auth]. *)
Record injection := Injection {
  i_name : string;
  i_location : string;
  i_key : option string;
  i_format : option string;
  i_source : string;
  i_env_var : option string
}.

Record api_server := ApiServer {
  srv_id : string;
  srv_namespace_id : string;
  srv_name : string;
  srv_description : option string;
  base_url : string;
  spec_source : string;
  openapi_url : option string;
  auth : list injection;
  credentials : option (string * string);
  default_headers : option (string * string);
  settings : list (string * pyval);
  srv_enabled : bool;
  endpoint_count : Z;
  last_refreshed_at : option Z
}.

Record api_endpoint := ApiEndpoint {
  ep_server_id : string;
  operation_id : string;
  ep_method : string;
  ep_path : string;
  summary : option string;
  param_schema : pyval;
  request_body_schema : option pyval;
  response_schema : option pyval;
  ep_enabled : bool;
  published : bool;
  ep_source : string
}.

Record tables := Tables { servers : list api_server; endpoints : list api_endpoint }.

Definition DEFAULT_SETTINGS : list (string * pyval) :=
  [("response_limit_bytes", PInt 1048576); ("timeout_seconds", PInt 30); ("max_calls_per_execution", PInt 50);
   ("retry_on_failure", PBool true); ("retry_count", PInt 2)].
Definition IDEMPOTENT_METHODS : list string := ["GET"; "HEAD"; "PUT"; "DELETE"; "OPTIONS"].
Definition _RETRYABLE_STATUSES : list Z := [502; 503; 504].

(** [{**a, **b}] *)
Definition merge {V} (a b : list (string * V)) : list (string * V) :=
  fold_left (fun d kv => dict_set kv.1 kv.2 d) b a.

(** ** The network *)

Record request := Request {
  rq_method : string;
  rq_url : string;
  rq_params : list (string * pyval);
  rq_headers : list (string * pyval);
  rq_json : pyval;
  rq_timeout : pyval
}.

(** What the client makes of a reply: [r_json] is [None] when [resp.json()]
    raises [ValueError]. *)
Record response := Response {
  r_status : Z;
  r_content : string;
  r_content_type : option string;
  r_json : option pyval;
  r_text : string
}.

Inductive http_outcome :=
| Replied (r : response)
| TimeoutException (text : string)
| HTTPError (text : string)
| OtherException (text : string).

Class Network := {
  net : Type;
  monotonic_ms : net -> Z * net;
  getaddrinfo : net -> string -> res string (list string);
  after_lookup : net -> net;
  http_request : request -> net -> http_outcome * net
}.

(** The row that [_record] hands to the analytics. *)
Record call_record := CallRecord {
  c_namespace_id : string;
  c_server : string;
  c_operation_id : string;
  c_method : string;
  c_latency_ms : Z;
  c_response_bytes : Z;
  c_status_code : option Z;
  c_error_type : option string;
  c_truncated : bool
}.

(** Exceptions that leave the proxy.  [OutOfModel]: a list of pairs where a dict
    is expected, and texts beyond the model. *)
Inductive exn :=
| DbError (e : Security.exn)
| GateValueError
| KeyError (key : string)
| TypeError
| ClientError (text : string)
| OutOfModel.

Section proxy.
Context `{Network} `{Aead}.
(** The key-encryption key, [None] when it cannot be had. *)
Context (kek : option string).
(** [bytes.decode("utf-8", errors="replace")] of bytes that are not the UTF-8 of
    a text of the model. *)
Context (lossy_decode : string -> string).

Record st := St {
  reg : registry;
  world : net;
  sent : list request;
  recorded : list call_record
}.

Abbreviation M := (stm st exn).

Definition ask {A} (f : net -> A * net) : M A := fun s =>
  let '(a, n) := f (world s) in (Ok a, St (reg s) n (sent s) (recorded s)).
Definition set_reg (f : registry -> registry) : M unit := modS (fun s => St (f (reg s)) (world s) (sent s) (recorded s)).
Definition log_sent (r : request) : M unit := modS (fun s => St (reg s) (world s) (sent s ++ [r]) (recorded s)).

Definition no_context : ExecutionContext := Context_ "" "" "" 0 0 0 0 [].
(** The context object at an address, now. *)
Definition ctx_at (a : nat) : M ExecutionContext := s ← getS; mret (default no_context (context_at a (reg s))).

(** ** Parts of a request *)

Record ApiProxyResult := ProxyResult {
  status_code : option Z;
  json_body : option pyval;
  text : option string;
  content_type : option string;
  truncated : bool;
  error : option string;
  error_type : option string;
  reason : option string;
  action : option string
}.

Definition _err (e r a : string) : ApiProxyResult :=
  ProxyResult None None None None false (Some e) (Some e) (Some r) (Some a).

(** [x or {}] of a value that should be a dict. *)
Definition or_dict (v : pyval) : M (list (string * pyval)) :=
  if truthy v then match v with PDict d => mret d | PList _ => raise OutOfModel | _ => raise TypeError end else mret [].

(** [re.sub(r"\{([^}]+)\}", repl, path_template)]: [skip] characters belong to
    the match before. *)
Definition upto_brace (s : string) : string * string := str_span (fun c => Ascii.eqb c "}") s.

Fixpoint build_go (path_args : list (string * pyval)) (skip : nat) (s : string) : M string :=
  match s with
  | EmptyString => mret ""
  | String c s' =>
      match skip with
      | S skip => build_go path_args skip s'
      | O =>
          let '(key, rest) := upto_brace s' in
          if Ascii.eqb c "{" && negb (String.eqb key "") && negb (String.eqb rest "") then
            match dict_get key path_args with
            | None => raise (KeyError key)
            | Some v => tail ← build_go path_args (String.length key + 1) s'; mret (py_str v +:+ tail)
            end
          else tail ← build_go path_args 0 s'; mret (String c tail)
      end
  end.

Definition _build_path (path_template : string) (path_args : list (string * pyval)) : M string :=
  build_go path_args 0 path_template.

Definition with_scheme (scheme value : string) : string :=
  if starts_with (str_lower scheme +:+ " ") (str_lower value) then value else scheme +:+ " " +:+ value.

(** [inj.get("key") or inj["name"]] *)
Definition key_or_name (inj : injection) : string := if truthy_ostr (i_key inj) then default "" (i_key inj) else i_name inj.

(** The value to inject: from the stored secrets, or the environment of the
    execution. *)
Definition raw_secret (inj : injection) (secrets : list (string * pyval)) (passthrough_env : list (string * string)) : option pyval :=
  if String.eqb (i_source inj) "stored" then
    match dict_get (i_name inj) secrets with Some PNone | None => None | Some v => Some v end
  else if truthy_ostr (i_env_var inj) then option_map PStr (dict_get (default "" (i_env_var inj)) passthrough_env)
  else None.

(** [str.replace] needs a text. *)
Fixpoint _apply_injections (auth : list injection) (secrets : list (string * pyval)) (passthrough_env : list (string * string))
    (headers query : list (string * pyval)) : M (option string * list (string * pyval) * list (string * pyval)) :=
  match auth with
  | [] => mret (None, headers, query)
  | inj :: auth =>
      match raw_secret inj secrets passthrough_env with
      | None => mret (Some (i_name inj), headers, query)
      | Some (PStr raw) =>
          let value := str_replace "{value}" raw (default "{value}" (i_format inj)) in
          if String.eqb (i_location inj) "bearer" then
            _apply_injections auth secrets passthrough_env (dict_set "Authorization" (PStr (with_scheme "Bearer" value)) headers) query
          else if String.eqb (i_location inj) "basic" then
            _apply_injections auth secrets passthrough_env (dict_set "Authorization" (PStr (with_scheme "Basic" value)) headers) query
          else if String.eqb (i_location inj) "header" then
            _apply_injections auth secrets passthrough_env (dict_set (key_or_name inj) (PStr value) headers) query
          else if String.eqb (i_location inj) "query" then
            _apply_injections auth secrets passthrough_env headers (dict_set (key_or_name inj) (PStr value) query)
          else _apply_injections auth secrets passthrough_env headers query
      | Some _ => raise TypeError
      end
  end.

(** [decrypt_value], where any exception is caught by the caller. *)
Definition try_decrypt (c : string * string) : option pyval :=
  k ← kek; match decrypt_value c.1 c.2 k with Ok v => Some v | Err _ => None end.

(** A number of the settings, as comparisons and [range] read it. *)
Definition as_int (v : pyval) : M Z :=
  match v with PInt z => mret z | PBool b => mret (if b then 1 else 0) | _ => raise TypeError end.

(** [s[:n]] *)
Definition slice_to (n : Z) (s : string) : string :=
  str_take (Z.to_nat (if n <? 0 then str_len s + n else n)) s.

Definition decode_replace (bytes : string) : string :=
  match utf8_decode bytes with Some t => t | None => lossy_decode bytes end.

Definition elapsed (start : Z) : M Z := now ← ask monotonic_ms; mret (now - start).

Definition _record (addr : nat) (server_name operation method : string) (latency_ms response_bytes : Z)
    (status : option Z) (error : option string) (cut : bool) : M unit :=
  ctx ← ctx_at addr;
  modS (fun s => St (reg s) (world s) (sent s)
    (recorded s ++ [CallRecord (namespace_id ctx) server_name operation method latency_ms response_bytes status error cut])).

(** The gate, with what the resolver answers now. *)
Definition gate (url : string) : M (option string) := fun s =>
  (match assert_url_allowed (getaddrinfo (world s)) url with
   | Ok _ => Ok None
   | Err (SSRFError m) => Ok (Some m)
   | Err ValueError => Err GateValueError
   end, St (reg s) (after_lookup (world s)) (sent s) (recorded s)).

Definition send (r : request) : M http_outcome := log_sent r;; ask (http_request r).

(** ** The call *)

(** What the loop over the attempts needs. *)
Record plan := Plan {
  p_request : request;
  p_retry : bool;
  p_limit : pyval;
  p_timeout : pyval;
  p_server : string;
  p_operation : string;
  p_addr : nat;
  p_start : Z
}.

Definition p_method (p : plan) : string := rq_method (p_request p).

(** The end without a reply. *)
Definition record_failure (p : plan) (e : string) : M unit :=
  latency ← elapsed (p_start p);
  _record (p_addr p) (p_server p) (p_operation p) (p_method p) latency 0 None (Some e) false.

(** A reply that is not retried: it counts, and is cut to the limit. *)
Definition read_reply (p : plan) (r : response) : M ApiProxyResult :=
  latency ← elapsed (p_start p);
  limit ← as_int (p_limit p);
  let cut := limit <? str_len (r_content r) in
  let ctype := default "" (r_content_type r) in
  let is_json := str_contains "application/json" ctype && negb cut in
  let body := if is_json then r_json r else None in
  let shown :=
    if is_json then match r_json r with Some _ => None | None => Some (slice_to limit (r_text r)) end
    else Some (decode_replace (slice_to limit (r_content r))) in
  _record (p_addr p) (p_server p) (p_operation p) (p_method p) latency (str_len (r_content r)) (Some (r_status r)) None cut;;
  mret (ProxyResult (Some (r_status r)) body shown (Some ctype) cut None None None None).

Definition reply_result (p : plan) (r : response) : M ApiProxyResult :=
  set_reg (update_context (p_addr p) count_api_call);; read_reply p r.

(** [n] attempts are left; [last_exc] is the text of the last exception. *)
Fixpoint attempts (p : plan) (n : nat) (last_exc : option string) : M ApiProxyResult :=
  match n with
  | O =>
      record_failure p "upstream_error";;
      mret (_err "upstream_error" ("request failed: " +:+ str_take 200 (default "None" last_exc)) "check the API host")
  | S n =>
      o ← send (p_request p);
      match o with
      | Replied r =>
          if p_retry p && bool_decide (r_status r ∈ _RETRYABLE_STATUSES) && (0 <? n)%nat then attempts p n last_exc
          else reply_result p r
      | TimeoutException e =>
          if (0 <? n)%nat then attempts p n (Some e)
          else
            record_failure p "timeout";;
            mret (_err "timeout" ("upstream timed out after " +:+ py_str (p_timeout p) +:+ "s") "increase timeout_seconds")
      | HTTPError e => attempts p n (Some e)
      | OtherException e => raise (ClientError e)
      end
  end.

(** [s.upper()] *)
Definition char_upper (c : ascii) : ascii := if is_lower c then chr (ord c - 32) else c.
Fixpoint str_upper (s : string) : string :=
  match s with EmptyString => EmptyString | String c s' => String (char_upper c) (str_upper s') end.

Definition slash (c : ascii) : bool := Ascii.eqb c "/".

Definition target_url (server : api_server) (rel_path : string) : string :=
  str_rstrip_by slash (base_url server) +:+ "/" +:+ str_lstrip_by slash rel_path.

Definition missing_error (server : api_server) (missing : string) : ApiProxyResult :=
  let env_var := match find_first (fun a => String.eqb (i_name a) missing) (auth server) with
                 | Some a => i_env_var a | None => None end in
  _err "missing_credential" ("credential '" +:+ missing +:+ "' unavailable")
    (if truthy_ostr env_var then "set " +:+ default "" env_var +:+ " in execution env" else "set credential '" +:+ missing +:+ "'").

(** The end of the call: the gate, and the attempts. *)
Definition send_guarded (server : api_server) (endpoint : api_endpoint) (conf : list (string * pyval)) (addr : nat) (start : Z)
    (url : string) (req_query req_headers : list (string * pyval)) (body : pyval) : M ApiProxyResult :=
  denied ← gate url;
  match denied with
  | Some m =>
      latency ← elapsed start;
      _record addr (srv_name server) (operation_id endpoint) (ep_method endpoint) latency 0 None (Some "ssrf_blocked") false;;
      mret (_err "ssrf_blocked" m "use a public API host")
  | None =>
      let method := str_upper (ep_method endpoint) in
      let timeout := dict_getd "timeout_seconds" (PInt 30) conf in
      let retry := truthy (dict_getd "retry_on_failure" (PBool true) conf) && str_in method IDEMPOTENT_METHODS in
      retry_count ← (if retry then as_int (dict_getd "retry_count" (PInt 2) conf) else mret 0);
      attempts (Plan (Request method url req_query req_headers body timeout) retry
                  (dict_getd "response_limit_bytes" (PInt 1048576) conf) timeout (srv_name server) (operation_id endpoint) addr start)
        (Z.to_nat (1 + retry_count)) None
  end.

Definition find_server (t : tables) (ns server_name : string) : M (option api_server) :=
  match one_or_none (fun x => String.eqb (srv_namespace_id x) ns && String.eqb (srv_name x) server_name) (servers t) with
  | Ok o => mret o | Err e => raise (DbError e)
  end.

Definition find_endpoint (t : tables) (server operation : string) : M (option api_endpoint) :=
  match one_or_none (fun x => String.eqb (ep_server_id x) server && String.eqb (operation_id x) operation) (endpoints t) with
  | Ok o => mret o | Err e => raise (DbError e)
  end.

(** Decrypted columns: [None] when decryption fails. *)
Definition decrypted (c : option (string * string)) : M (option (list (string * pyval))) :=
  match c with
  | None => mret (Some [])
  | Some c =>
      match try_decrypt c with
      | Some (PDict d) => mret (Some d)
      | Some _ => raise OutOfModel
      | None => mret None
      end
  end.

(** [try: ... except KeyError as e] *)
Definition try_path (m : M string) : M (string + string) := fun s =>
  match m s with
  | (Err (KeyError k), s) => (Ok (inl k), s)
  | (Err e, s) => (Err e, s)
  | (Ok p, s) => (Ok (inr p), s)
  end.

Definition proxy_api_call (t : tables) (addr : nat) (server_name operation : string) (path query body headers : pyval)
    : M ApiProxyResult :=
  start ← ask monotonic_ms;
  ctx ← ctx_at addr;
  found ← find_server t (namespace_id ctx) server_name;
  match found with
  | None => mret (_err "endpoint_not_found" ("API server '" +:+ server_name +:+ "' not found") "check name")
  | Some server =>
      if negb (srv_enabled server) then
        mret (_err "endpoint_disabled" ("API server '" +:+ server_name +:+ "' is disabled") "enable it")
      else
        found ← find_endpoint t (srv_id server) operation;
        match found with
        | None => mret (_err "endpoint_not_found" ("endpoint '" +:+ operation +:+ "' not found on '" +:+ server_name +:+ "'")
                          "list_endpoints to see available operations")
        | Some endpoint =>
            if negb (ep_enabled endpoint || published endpoint) then
              mret (_err "endpoint_disabled" ("endpoint '" +:+ operation +:+ "' is disabled") "enable_endpoint before calling it")
            else
              let conf := merge DEFAULT_SETTINGS (settings server) in
              let max_calls := dict_getd "max_calls_per_execution" (PInt 50) conf in
              limit ← as_int max_calls;
              if limit <=? api_calls_count ctx then
                mret (_err "max_calls_exceeded" ("exceeded " +:+ py_str max_calls +:+ " API calls for this execution")
                        "reduce calls or raise max_calls_per_execution")
              else
                preset ← decrypted (default_headers server);
                match preset with
                | None => mret (_err "upstream_error" "failed to decrypt default headers" "re-add the server")
                | Some preset =>
                    given ← or_dict headers;
                    req_query ← or_dict query;
                    secrets ← decrypted (credentials server);
                    match secrets with
                    | None => mret (_err "upstream_error" "failed to decrypt credentials" "re-set credentials")
                    | Some secrets =>
                        '(missing, req_headers, req_query) ←
                          _apply_injections (auth server) secrets (passthrough_env ctx) (merge preset given) req_query;
                        if truthy_ostr missing then mret (missing_error server (default "" missing))
                        else
                          path_args ← or_dict path;
                          built ← try_path (_build_path (ep_path endpoint) path_args);
                          match built with
                          | inl k => mret (_err "upstream_error" ("missing path parameter " +:+ py_repr_str k) "provide all path params")
                          | inr rel_path =>
                              send_guarded server endpoint conf addr start (target_url server rel_path) req_query req_headers body
                          end
                    end
                end
        end
  end.

(** ** The two callers *)

(** The members of an answer. *)
Definition payload (r : ApiProxyResult) : pyval :=
  PDict ([("status_code", match status_code r with Some n => PInt n | None => PNone end); ("truncated", PBool (truncated r));
          ("content_type", match content_type r with Some c => PStr c | None => PNone end)] ++
         match json_body r with Some PNone | None => [] | Some v => [("json", v)] end ++
         match text r with Some s => [("text", PStr s)] | None => [] end).

Definition ostr (o : option string) : pyval := match o with Some s => PStr s | None => PNone end.
Definition error_payload (r : ApiProxyResult) : pyval :=
  PDict [("error", ostr (error r)); ("reason", ostr (reason r)); ("action", ostr (action r))].

(** [POST /v1/internal/api-proxy]: the calls of code in the sandbox. *)
Record proxy_request := ProxyRequest {
  b_server : string;
  b_operation_id : string;
  b_path : list (string * pyval);
  b_query : list (string * pyval);
  b_body : pyval;
  b_headers : list (string * string)
}.

Definition bearer_token (authorization : string) : string :=
  str_strip (if starts_with "Bearer " authorization then str_drop 7 authorization else authorization).

Definition api_proxy (t : tables) (authorization : string) (b : proxy_request) : M (Z * pyval) :=
  s ← getS;
  match resolve_execution (bearer_token authorization) (reg s) with
  | None => mret (403, PDict [("error", PStr "auth_error"); ("reason", PStr "invalid or expired bridge key"); ("action", PStr "")])
  | Some addr =>
      r ← proxy_api_call t addr (b_server b) (b_operation_id b) (PDict (b_path b)) (PDict (b_query b)) (b_body b)
            (PDict (map (fun kv => (kv.1, PStr kv.2)) (b_headers b)));
      if truthy_ostr (error r) then mret (502, error_payload r) else mret (200, payload r)
  end.

(** The tools made of published endpoints. *)
Definition api_tool_name (server_name operation : string) : string := "api__" +:+ server_name +:+ "__" +:+ operation.

Definition schema_of (key : string) (param_schema : list (string * pyval)) : pyval :=
  let v := dict_getd key PNone param_schema in if truthy v then v else PDict [("type", PStr "object")].

(** [endpoint.get("param_schema") or {}] of a JSON column. *)
Definition build_published_api_tool (server_name : string) (e : api_endpoint) : string * string * pyval :=
  let summary := if truthy_ostr (summary e) then default "" (summary e) else ep_method e +:+ " " +:+ ep_path e in
  let params := match param_schema e with PDict d => d | _ => [] end in
  (api_tool_name server_name (operation_id e),
   ep_method e +:+ " " +:+ ep_path e +:+ " — " +:+ summary +:+ " [raw API response; published endpoint]",
   PDict [("type", PStr "object");
          ("properties", PDict ([("path", schema_of "path" params); ("query", schema_of "query" params);
                                 ("headers", schema_of "header" params)] ++
             match request_body_schema e with Some v => if truthy v then [("body", v)] else [] | None => [] end))]).

Definition parse_api_tool_name (name : string) : option (string * string) :=
  if negb (starts_with "api__" name) then None
  else
    match split_once "__" (str_drop 5 name) with
    | Some (server, operation) => if String.eqb server "" || String.eqb operation "" then None else Some (server, operation)
    | None => None
    end.

Section scan.
(** Running one scanner, and the hash of a content, as in [ScannerPipeline]. *)
Context (run : scanner -> string -> ScanContext -> option (string * ScanVerdict)) (compute_hash : string -> string).

Definition _scan_response (text namespace : string) (config : option pipeline_config) (server_name operation execution_id : string) : string :=
  match config with
  | None => text
  | Some c =>
      let context := {| PatternScanner.direction := "output"; PatternScanner.namespace := namespace;
                        PatternScanner.service := "api:" +:+ server_name; PatternScanner.function := operation;
                        PatternScanner.execution_id := execution_id; PatternScanner.output_trust := "prompt" |} in
      let result := evaluate_pipeline run compute_hash text context (Some c) in
      if String.eqb (final_action result) "block" then
        json_dumps (PDict [("error", PStr "blocked_by_scanner"); ("reason", PStr "response blocked by injection scanner")])
      else default text (modified_content result)
  end.

(** [namespace]: its name and its pipeline. *)
Definition proxy_and_format (t : tables) (addr : nat) (server_name operation : string) (arguments : list (string * pyval))
    (namespace : option (string * option pipeline_config)) (execution_id : string) : M (bool * string) :=
  let get k := let v := dict_getd k PNone arguments in if truthy v then v else PDict [] in
  r ← proxy_api_call t addr server_name operation (get "path") (get "query") (dict_getd "body" PNone arguments) (get "headers");
  if truthy_ostr (error r) then mret (false, json_dumps (error_payload r))
  else
    let text := json_dumps (payload r) in
    mret (true, match namespace with
                | Some (name, config) => _scan_response text name config server_name operation execution_id
                | None => text
                end).
End scan.
End proxy.

(** ** What a call sends *)

Section facts.
Context `{Network} `{Aead} (kek : option string) (lossy_decode : string -> string).

Abbreviation M := (stm st exn).

(** [m] sends nothing and changes no context. *)
Definition quiet {A} (m : M A) : Prop := forall s, sent (m s).2 = sent s /\ reg (m s).2 = reg s.

Lemma silent_ret {A} (a : A) : quiet (mret a).
Proof. done. Qed.
Lemma quiet_raise {A} e : quiet (raise e : M A).
Proof. done. Qed.
Lemma silent_get : quiet getS.
Proof. done. Qed.
Lemma silent_bind {A B} (m : M A) (k : A -> M B) : quiet m -> (forall a, quiet (k a)) -> quiet (m ≫= k).
Proof.
  intros Hm Hk s. specialize (Hm s). unfold mbind, stm_bind. destruct (m s) as [[a|e] s']; cbn in *; [|done].
  destruct (Hk a s') as [-> ->]. done.
Qed.
Lemma quiet_ask {A} (f : net -> A * net) : quiet (ask f).
Proof. intros s. unfold ask. by destruct (f (world s)). Qed.
Lemma quiet_gate url : quiet (gate url).
Proof. intros s. unfold gate. by destruct (assert_url_allowed _ _) as [|[|]]. Qed.
Lemma quiet_record addr sn op me l b st e c : quiet (_record addr sn op me l b st e c).
Proof. done. Qed.
Lemma quiet_try_path (m : M string) : quiet m -> quiet (try_path m).
Proof. intros Hm s. specialize (Hm s). unfold try_path. by destruct (m s) as [[p|[]] s']. Qed.
End facts.

Create HintDb quiet.
#[export] Hint Resolve silent_ret quiet_raise silent_get silent_bind quiet_ask quiet_gate quiet_record quiet_try_path : quiet.
Ltac quiet_tac :=
  repeat match goal with
  | |- forall _, _ => intros ?
  | |- quiet (match ?x with _ => _ end) => destruct x
  | |- quiet (if ?x then _ else _) => destruct x
  | |- quiet (mbind _ _) => apply silent_bind
  | |- quiet _ => solve [auto with quiet]
  end.

Section facts2.
Context `{Network} `{Aead} (kek : option string) (lossy_decode : string -> string).

Abbreviation M := (stm st exn).

Lemma quiet_or_dict v : quiet (or_dict v).
Proof. unfold or_dict. quiet_tac. Qed.
Lemma quiet_as_int v : quiet (as_int v).
Proof. unfold as_int. quiet_tac. Qed.
Lemma quiet_elapsed start : quiet (elapsed start).
Proof. unfold elapsed. quiet_tac. Qed.
Lemma quiet_build_go args s k : quiet (build_go args k s).
Proof. revert k. induction s as [|c s IH]; intros [|k]; cbn [build_go]; quiet_tac; apply IH. Qed.
Lemma quiet_build_path s args : quiet (_build_path s args).
Proof. apply quiet_build_go. Qed.
Lemma quiet_injections au sec env h q : quiet (_apply_injections au sec env h q).
Proof. revert h q. induction au as [|inj au IH]; intros h q; cbn [_apply_injections]; quiet_tac; apply IH. Qed.
Lemma quiet_decrypted c : quiet (decrypted kek c).
Proof. unfold decrypted. quiet_tac. Qed.
Lemma quiet_ctx_at a : quiet (ctx_at a).
Proof. done. Qed.
Lemma quiet_find_server t n sn : quiet (find_server t n sn).
Proof. unfold find_server. quiet_tac. Qed.
Lemma quiet_find_endpoint t n sn : quiet (find_endpoint t n sn).
Proof. unfold find_endpoint. quiet_tac. Qed.
End facts2.

#[export] Hint Resolve quiet_or_dict quiet_as_int quiet_elapsed quiet_build_path quiet_injections quiet_decrypted quiet_ctx_at
  quiet_find_server quiet_find_endpoint : quiet.

Section confinement.
Context `{Network} `{Aead} (kek : option string) (lossy_decode : string -> string).

Abbreviation M := (stm st exn).

(** The requests of a run, and the contexts after it. *)
Definition effect {A} (R : list request -> registry -> Prop) (m : M A) (s : st) : Prop :=
  exists rs, sent (m s).2 = sent s ++ rs /\ R rs (reg (m s).2).

(** Quiet steps from contexts [g0]. *)
Lemma effect_quiet {A} R g0 (m : M A) s : quiet m -> R [] g0 -> reg s = g0 -> effect R m s.
Proof. intros Hm HR <-. exists []. destruct (Hm s) as [-> ->]. by rewrite app_nil_r. Qed.

Lemma effect_bind {A B} R g0 (m : M A) (k : A -> M B) s :
  quiet m -> R [] g0 -> reg s = g0 ->
  (forall a s', m s = (Ok a, s') -> reg s' = g0 -> effect R (k a) s') -> effect R (m ≫= k) s.
Proof.
  intros Hm HR <- Hk. unfold effect, mbind, stm_bind. destruct (Hm s) as [Hs Hr]. destruct (m s) as [[a|e] s'] eqn:E; cbn in *.
  - destruct (Hk a s' eq_refl Hr) as (rs & Hrs & HR'). exists rs. by rewrite Hrs, Hs.
  - exists []. rewrite Hs, Hr, app_nil_r. done.
Qed.

(** At most one count, on the context of the call. *)
Definition counted (addr : nat) (g g' : registry) : Prop := g' = g \/ g' = update_context addr count_api_call g.

Lemma reply_effect p r s :
  sent (reply_result lossy_decode p r s).2 = sent s /\ reg (reply_result lossy_decode p r s).2 = update_context (p_addr p) count_api_call (reg s).
Proof.
  assert (quiet (read_reply lossy_decode p r)) as Hq by (unfold read_reply; quiet_tac).
  exact (Hq (St (update_context (p_addr p) count_api_call (reg s)) (world s) (sent s) (recorded s))).
Qed.

Lemma effect_send {A} R q (k : http_outcome -> M A) s :
  (forall o s', reg s' = reg s -> effect (fun rs g => R (q :: rs) g) (k o) s') -> effect R (o ← send q; k o) s.
Proof.
  intros Hk. unfold effect, send, log_sent, ask, modS, mbind, stm_bind. cbn [world reg sent recorded].
  destruct (http_request q (world s)) as [o w].
  destruct (Hk o (St (reg s) w (sent s ++ [q]) (recorded s)) eq_refl) as (rs & Hrs & HR). exists (q :: rs). split; [|done].
  rewrite Hrs. cbn [sent]. by rewrite <-app_assoc.
Qed.

Lemma effect_weaken {A} (R R' : list request -> registry -> Prop) (m : M A) s :
  (forall rs g, R rs g -> R' rs g) -> effect R m s -> effect R' m s.
Proof. intros HR (rs & Hrs & Hx). exists rs. auto. Qed.

(** At most [n] requests, all the same. *)
Definition copies (q : request) (n : nat) (rs : list request) : Prop := exists k, (k <= n)%nat /\ rs = replicate k q.

Lemma copies_none q n : copies q n [].
Proof. exists 0%nat. split; [lia|done]. Qed.
Lemma copies_more q n rs : copies q n rs -> copies q (S n) (q :: rs).
Proof. intros (k & Hk & ->). exists (S k). split; [lia|done]. Qed.

Lemma attempts_effect p n last_exc s :
  effect (fun rs g => copies (p_request p) n rs /\ counted (p_addr p) (reg s) g) (attempts lossy_decode p n last_exc) s.
Proof.
  revert last_exc s. induction n as [|n IH]; intros last_exc s; cbn [attempts].
  { apply (effect_quiet _ (reg s)); [unfold record_failure; quiet_tac| |done]. split; [apply copies_none|by left]. }
  apply effect_send. intros o s' Hr.
  assert (forall m : M ApiProxyResult,
    effect (fun rs g => copies (p_request p) n rs /\ counted (p_addr p) (reg s') g) m s' ->
    effect (fun rs g => copies (p_request p) (S n) (p_request p :: rs) /\ counted (p_addr p) (reg s) g) m s') as Hlift.
  { intros m. apply effect_weaken. rewrite Hr. intros rs g [Hc Hg]. split; [by apply copies_more|done]. }
  destruct o as [r|e|e|e]; [destruct (_ && _)|destruct (0 <? n)%nat| |]; try by apply Hlift, IH.
  - destruct (reply_effect p r s') as [Hs Hr']. exists []. rewrite Hs, Hr', app_nil_r. split; [done|].
    split; [apply copies_more, copies_none|right; by rewrite Hr].
  - apply Hlift, (effect_quiet _ (reg s')); [unfold record_failure; quiet_tac| |done]. split; [apply copies_none|by left].
  - apply Hlift, (effect_quiet _ (reg s')); [quiet_tac| |done]. split; [apply copies_none|by left].
Qed.

(** The limits of a server, from its settings. *)
Definition int_setting (server : api_server) (key : string) (dflt : Z) : option Z :=
  match dict_getd key (PInt dflt) (merge DEFAULT_SETTINGS (settings server)) with
  | PInt z => Some z | PBool b => Some (if b then 1 else 0) | _ => None
  end.

(** How often a request with this method may leave: once, except for the
    idempotent methods of a server with retries. *)
Definition tries (server : api_server) (method : string) : nat :=
  if truthy (dict_getd "retry_on_failure" (PBool true) (merge DEFAULT_SETTINGS (settings server))) && str_in method IDEMPOTENT_METHODS
  then Z.to_nat (1 + default 0 (int_setting server "retry_count" 2)) else 1%nat.

(** What a request of a context must have been checked for: its rows, its
    method and URL, the gate at some instant, and the budget. *)
Record checked (t : tables) (ctx : ExecutionContext) (server_name operation : string)
    (server : api_server) (endpoint : api_endpoint) (q : request) : Prop := {
  server_row : server ∈ servers t /\ srv_namespace_id server = namespace_id ctx /\ srv_name server = server_name
               /\ srv_enabled server = true;
  endpoint_row : endpoint ∈ endpoints t /\ ep_server_id endpoint = srv_id server /\ operation_id endpoint = operation
                 /\ (ep_enabled endpoint || published endpoint) = true;
  target : rq_method q = str_upper (ep_method endpoint) /\ exists rel, rq_url q = target_url server rel;
  gate_passed : exists w addresses, assert_url_allowed (getaddrinfo w) (rq_url q) = Ok addresses;
  in_budget : exists limit, int_setting server "max_calls_per_execution" 50 = Some limit /\ api_calls_count ctx < limit
}.

Definition confined (t : tables) (ctx : ExecutionContext) (server_name operation : string) (rs : list request) : Prop :=
  rs = [] \/ exists server endpoint q, checked t ctx server_name operation server endpoint q /\
    copies q (tries server (rq_method q)) rs.

Lemma one_or_none_row {A} (p : A -> bool) l x : one_or_none p l = Ok (Some x) -> x ∈ l /\ p x = true.
Proof.
  intros Hx. destruct (one_or_none_cases p l) as [(g & Hg & Hin & Hp & _)|[[Hg _]|Hg]]; rewrite Hg in Hx; try done.
  by injection Hx as <-.
Qed.

Lemma find_server_row t ns name x s s' :
  find_server t ns name s = (Ok (Some x), s') -> x ∈ servers t /\ srv_namespace_id x = ns /\ srv_name x = name.
Proof.
  unfold find_server. destruct (one_or_none _ _) as [o|e] eqn:E; [|done]. intros [= -> _].
  apply one_or_none_row in E as [Hin [Hn Hm]%andb_true_iff]. by rewrite <-!String.eqb_eq.
Qed.

Lemma find_endpoint_row t srv op x s s' :
  find_endpoint t srv op s = (Ok (Some x), s') -> x ∈ endpoints t /\ ep_server_id x = srv /\ operation_id x = op.
Proof.
  unfold find_endpoint. destruct (one_or_none _ _) as [o|e] eqn:E; [|done]. intros [= -> _].
  apply one_or_none_row in E as [Hin [Hn Hm]%andb_true_iff]. by rewrite <-!String.eqb_eq.
Qed.

Lemma as_int_value v z s s' : as_int v s = (Ok z, s') -> match v with PInt z => Some z | PBool b => Some (if b then 1 else 0) | _ => None end = Some z.
Proof. destruct v; cbn; try done; by intros [= <- _]. Qed.

Lemma gate_passes url s s' : gate url s = (Ok None, s') -> exists w addresses, assert_url_allowed (getaddrinfo w) url = Ok addresses.
Proof.
  unfold gate. destruct (assert_url_allowed _ url) as [l|[|]] eqn:E; [|done|done]. intros _. by exists (world s), l.
Qed.

(** A quiet step, or a quiet end, of a proof of [effect]. *)
Ltac quiet_step := eapply effect_bind; [solve [quiet_tac]|eassumption|eassumption|].
Ltac quiet_end := eapply effect_quiet; [solve [quiet_tac]|eassumption|eassumption].

(** Names the relation of an [effect] and proves it for a quiet end. *)
Ltac open_effect g0 :=
  match goal with |- effect ?R _ _ => let P := eval cbv beta in (R [] g0) in assert P by (by split; left) end.

(** The part after the checks of rows and budget. *)
Lemma send_guarded_effect t ctx server endpoint addr start rel rq rh body g0 s :
  server ∈ servers t /\ srv_namespace_id server = namespace_id ctx /\ srv_name server = srv_name server /\ srv_enabled server = true ->
  endpoint ∈ endpoints t /\ ep_server_id endpoint = srv_id server /\ operation_id endpoint = operation_id endpoint /\
    (ep_enabled endpoint || published endpoint) = true ->
  (exists limit, int_setting server "max_calls_per_execution" 50 = Some limit /\ api_calls_count ctx < limit) ->
  reg s = g0 ->
  effect (fun rs g => confined t ctx (srv_name server) (operation_id endpoint) rs /\ counted addr g0 g)
    (send_guarded lossy_decode server endpoint (merge DEFAULT_SETTINGS (settings server)) addr start (target_url server rel) rq rh body) s.
Proof.
  intros Hs He Hb Hr0. unfold send_guarded. open_effect g0.
  quiet_step. intros [m|] s1 Hg Hr1; [quiet_end|].
  set (method := str_upper (ep_method endpoint)). set (retry := (truthy _ && _)%bool).
  quiet_step. intros n s2 Hn Hr2. eapply effect_weaken; [|apply attempts_effect]. cbn [p_request p_addr]. rewrite Hr2.
  intros rs g [Hc Hg']. split; [|done]. right.
  match type of Hc with copies ?q _ _ => exists server, endpoint, q end. split.
  2:{ unfold tries. cbn [rq_method]. fold retry. destruct retry.
      - apply as_int_value in Hn. unfold int_setting. cbn [rq_method]. fold method. by rewrite Hn.
      - injection Hn as <- _. exact Hc. }
  split; [done..| | |done]; cbn [rq_method rq_url]; [by split; [|exists rel]|by eapply gate_passes].
Qed.

(** [C5] Whatever the code in a sandbox asks for, a call of the proxy sends
    nothing, or copies of one request: to an enabled or published endpoint of an
    enabled server of the namespace of the execution, with the method of the
    endpoint and a URL below the base URL of the server, after the gate passed
    that URL and while the execution was below its budget.  A request with a
    method that is not idempotent leaves at most once, another at most once more
    than the retries of the server.  The call adds at most one to the count of
    its context and touches no other context. *)
Theorem api_call_confined t addr server_name operation path query body headers s :
  let s' := (proxy_api_call kek lossy_decode t addr server_name operation path query body headers s).2 in
  exists rs, sent s' = sent s ++ rs /\
    confined t (default no_context (context_at addr (reg s))) server_name operation rs /\
    counted addr (reg s) (reg s').
Proof.
  cbv zeta. set (ctx := default _ _).
  enough (effect (fun rs g => confined t ctx server_name operation rs /\ counted addr (reg s) g)
    (proxy_api_call kek lossy_decode t addr server_name operation path query body headers) s) as (rs & Hrs & HR) by by exists rs.
  set (g0 := reg s). assert (reg s = g0) as Hr0 by done. open_effect g0.
  unfold proxy_api_call. quiet_step. intros start s1 _ Hr1.
  quiet_step. intros ctx' s2 Hctx Hr2. assert (ctx' = ctx) as -> by (injection Hctx as <- _; by rewrite Hr1).
  quiet_step. intros [server|] s3 Hs Hr3; [|quiet_end]. apply find_server_row in Hs as (Hs1 & Hs2 & <-).
  destruct (srv_enabled server) eqn:Hs3; cbn [negb]; [|quiet_end].
  quiet_step. intros [endpoint|] s4 He Hr4; [|quiet_end]. apply find_endpoint_row in He as (He1 & He2 & <-).
  destruct (ep_enabled endpoint || published endpoint) eqn:He3; cbn [negb]; [|quiet_end].
  quiet_step. intros limit s5 Hl Hr5. apply as_int_value in Hl.
  destruct (limit <=? api_calls_count ctx) eqn:Hb; [quiet_end|]. apply Z.leb_gt in Hb.
  quiet_step. intros [preset|] s6 _ Hr6; [|quiet_end]. quiet_step. intros given s7 _ Hr7. quiet_step. intros q s8 _ Hr8.
  quiet_step. intros [secrets|] s9 _ Hr9; [|quiet_end]. quiet_step. intros [[missing h] q'] s10 _ Hr10.
  destruct (truthy_ostr missing); [quiet_end|]. quiet_step. intros args s11 _ Hr11.
  quiet_step. intros [k|rel] s12 _ Hr12; [quiet_end|].
  apply send_guarded_effect; [done|done| |done]. by exists limit.
Qed.
End confinement.

(** ** Credentials win over the headers of the caller *)

Section credentials.
Context `{Network} `{Aead}.

(** The headers that an injection writes. *)
Definition injected_header (inj : injection) : option string :=
  if str_in (i_location inj) ["bearer"; "basic"] then Some "Authorization"
  else if String.eqb (i_location inj) "header" then Some (key_or_name inj) else None.

Lemma dict_set_agree {V} k (v : V) d1 d2 k' :
  (k' <> k -> dict_get k' d1 = dict_get k' d2) -> dict_get k' (dict_set k v d1) = dict_get k' (dict_set k v d2).
Proof.
  intros Hd. destruct (decide (k = k')) as [->|Hn]; [by rewrite !dict_get_set_eq|]. rewrite !dict_get_set_ne by done. auto.
Qed.

(** Two runs on other headers and parameters end alike, with the same value
    under every key on which they agreed or which is injected. *)
Lemma injections_agree au sec env h1 q1 h2 q2 s h1' q1' s1 :
  _apply_injections au sec env h1 q1 s = (Ok (None, h1', q1'), s1) ->
  exists h2' q2', _apply_injections au sec env h2 q2 s = (Ok (None, h2', q2'), s1) /\
    forall k, dict_get k h1 = dict_get k h2 \/ Some k ∈ map injected_header au -> dict_get k h1' = dict_get k h2'.
Proof.
  revert h1 q1 h2 q2. induction au as [|inj au IH]; intros h1 q1 h2 q2; cbn [_apply_injections map].
  { intros [= <- <- <-]. exists h2, q2. split; [done|]. intros k [?|Hk]; [done|by apply not_elem_of_nil in Hk]. }
  destruct (raw_secret inj sec env) as [[| | |raw| |]|]; try done. unfold injected_header at 1.
  set (value := str_replace _ _ _). unfold str_in.
  destruct (String.eqb_spec (i_location inj) "bearer") as [Hb|Hb];
    [|destruct (String.eqb_spec (i_location inj) "basic") as [Hc|Hc];
      [|destruct (String.eqb_spec (i_location inj) "header") as [Hd|Hd]; [|destruct (String.eqb_spec (i_location inj) "query") as [He|He]]]];
    intros Hrun; (eapply IH in Hrun as (h2' & q2' & Hrun & Hk); exists h2', q2'; split; [exact Hrun|]); intros k Hor; apply Hk.
  all: rewrite ?elem_of_cons in Hor.
  - rewrite bool_decide_eq_true_2 in Hor by (rewrite Hb; by left). destruct Hor as [?|[[= ->]|?]]; [left; by apply dict_set_agree| |by right].
    left. by rewrite !dict_get_set_eq.
  - rewrite bool_decide_eq_true_2 in Hor by (rewrite Hc; right; by left). destruct Hor as [?|[[= ->]|?]]; [left; by apply dict_set_agree| |by right].
    left. by rewrite !dict_get_set_eq.
  - rewrite bool_decide_eq_false_2 in Hor by (rewrite Hd; set_solver). destruct Hor as [?|[[= ->]|?]]; [left; by apply dict_set_agree| |by right].
    left. by rewrite !dict_get_set_eq.
  - rewrite bool_decide_eq_false_2 in Hor by (rewrite He; set_solver). destruct Hor as [?|[?|?]]; [by left|done|by right].
  - rewrite bool_decide_eq_false_2 in Hor by set_solver. destruct Hor as [?|[?|?]]; [by left|done|by right].
Qed.

(** The caller cannot replace a credential: whatever headers and parameters
    it gives, the value under a key that an injection of the server writes is
    the same. *)
Theorem credentials_not_replaced au sec env h1 q1 h2 q2 s h1' q1' s1 k :
  _apply_injections au sec env h1 q1 s = (Ok (None, h1', q1'), s1) -> Some k ∈ map injected_header au ->
  exists h2' q2', _apply_injections au sec env h2 q2 s = (Ok (None, h2', q2'), s1) /\ dict_get k h1' = dict_get k h2'.
Proof.
  intros Hrun Hk. eapply injections_agree in Hrun as (h2' & q2' & Hrun & Hall). exists h2', q2'. split; [exact Hrun|]. apply Hall. by right.
Qed.
End credentials.

(** ** Names of tools *)

(** The name of the tool of an endpoint gives back the server and the
    operation, when the name of the server has no underscore, as the registry
    demands. *)
Theorem api_tool_name_roundtrip server operation :
  server <> "" -> operation <> "" -> str_contains "_" server = false ->
  parse_api_tool_name (api_tool_name server operation) = Some (server, operation).
Proof.
  intros Hs Ho Hu. unfold parse_api_tool_name, api_tool_name. rewrite starts_with_app. cbn [negb].
  change (str_drop 5 ("api__" +:+ server +:+ "__" +:+ operation)) with (server +:+ "__" +:+ operation).
  assert (split_once "__" (server +:+ "__" +:+ operation) = Some (server, operation)) as ->.
  { clear Hs Ho. induction server as [|c server IH]; [done|]. cbn [String.append split_once].
    assert (str_contains "_" server = false /\ c <> "_"%char) as [Hu' Hc].
    { cbn [str_contains starts_with] in Hu. destruct (Ascii.eqb_spec "_" c); [done|]. split; [|congruence]. by destruct server. }
    cbn [String.append] in IH. rewrite IH by done. cbn [starts_with]. destruct (Ascii.eqb_spec "_" c); [congruence|done]. }
  destruct (String.eqb_spec server ""), (String.eqb_spec operation ""); done.
Qed.

Lemma api_tool_name_roundtrip_witness : parse_api_tool_name "api__pay-api__create_order" = Some ("pay-api", "create_order").
Proof. apply (api_tool_name_roundtrip "pay-api" "create_order"); [done|done|reflexivity]. Defined.

(** ** The host of a request *)

Lemma str_filter_app p a b : str_filter p (a +:+ b) = str_filter p a +:+ str_filter p b.
Proof. induction a as [|c a IH]; [done|]. cbn [String.append str_filter]. rewrite IH. by destruct (p c). Qed.

Lemma lstrip_app p a b : str_lstrip_by p a <> "" -> str_lstrip_by p (a +:+ b) = str_lstrip_by p a +:+ b.
Proof. induction a as [|c a IH]; [done|]. cbn [String.append str_lstrip_by]. destruct (p c); [exact IH|done]. Qed.

Lemma rstrip_rest p s : exists t, s = str_rstrip_by p s +:+ t /\ str_forallb p t = true.
Proof.
  induction s as [|c s (t & Hs & Ht)]; [by exists ""|]. cbn [str_rstrip_by].
  destruct (str_rstrip_by p s) as [|d r] eqn:E.
  - destruct (p c) eqn:Hc.
    + exists (String c s). split; [done|]. cbn [str_forallb]. rewrite Hc. cbn in Hs. by rewrite Hs.
    + exists t. split; [|done]. cbn in *. by rewrite <-Hs.
  - exists t. split; [|done]. cbn [String.append] in *. by rewrite <-Hs.
Qed.

Lemma split_colon_app a b x y : split_once ":" a = Some (x, y) -> split_once ":" (a +:+ b) = Some (x, y +:+ b).
Proof.
  revert x y. induction a as [|c a IH]; cbn [String.append split_once]; intros x y; [done|].
  cbn [starts_with]. destruct (Ascii.eqb ":" c); [intros [= <- <-]; done|].
  destruct (split_once ":" a) as [[x' y']|]; [|done]. intros [= <- <-]. by rewrite (IH x' y').
Qed.

Lemma split_colon_plain a t : str_contains ":" t = false -> split_once ":" a = None -> split_once ":" (a +:+ t) = None.
Proof.
  intros Ht Ha. apply split_once_None. apply split_once_None in Ha. induction a as [|c a IH]; [done|].
  cbn [String.append str_contains starts_with] in *. destruct (Ascii.eqb ":" c); [done|]. rewrite IH; [done|]. by destruct a.
Qed.

Lemma slashes_plain t : str_forallb slash t = true -> str_contains ":" t = false /\ str_filter (fun c => negb (unsafe_char c)) t = t /\ (str_span netloc_end t).1 = "".
Proof.
  induction t as [|c t IH]; [done|]. cbn [str_forallb]. intros [Hc Ht]%andb_true_iff. apply Ascii.eqb_eq in Hc as ->.
  destruct (IH Ht) as (H1 & H2 & _). cbn. rewrite H2. by destruct t.
Qed.

Lemma no_location t : str_forallb slash t = true -> (str_span netloc_end t).1 = "".
Proof. intros Ht. by apply slashes_plain. Qed.

Lemma forallb_drop p n t : str_forallb p t = true -> str_forallb p (str_drop n t) = true.
Proof.
  revert t. induction n as [|n IH]; intros [|c t]; cbn; try done. intros [_ Ht]%andb_true_iff. by apply IH.
Qed.

(** The location ends at a slash, whatever follows it. *)
Lemma span_app r t : t = "" \/ starts_with "/" t = true -> (str_span netloc_end (r +:+ t)).1 = (str_span netloc_end r).1.
Proof.
  intros Ht. induction r as [|c r IH].
  - destruct Ht as [->|Ht]; [done|]. destruct t as [|d t]; [done|]. cbn [starts_with] in Ht. apply andb_true_iff in Ht as [Hd _].
    apply Ascii.eqb_eq in Hd as <-. done.
  - cbn [String.append str_span]. destruct (netloc_end c); [done|].
    destruct (str_span netloc_end (r +:+ t)), (str_span netloc_end r); cbn [fst] in *. by rewrite IH.
Qed.

Lemma slashes_start t : str_forallb slash t = true -> t = "" \/ starts_with "/" t = true.
Proof. destruct t as [|c t]; [by left|]. cbn. intros [Hc%Ascii.eqb_eq _]%andb_true_iff. right. by subst. Qed.

(** The part of [urlsplit] after the clean-up, for URLs with a scheme and a
    location. *)
Definition split_clean (url : string) : res Ssrf.exn (string * string) :=
  let '(scheme, rest) := split_scheme url in
  if starts_with "//" rest then
    let netloc := (str_span netloc_end (str_drop 2 rest)).1 in
    if netloc_ok netloc then Ok (scheme, netloc) else Err ValueError
  else Ok (scheme, "").

Definition clean (url : string) : string := str_filter (fun c => negb (unsafe_char c)) (str_lstrip_by c0_or_space url).

Lemma urlsplit_clean url : urlsplit url = split_clean (clean url).
Proof. done. Qed.

Lemma split_scheme_Some url s rest :
  split_scheme url = (s, rest) -> s <> "" ->
  exists s0, split_once ":" url = Some (s0, rest) /\ s = str_lower s0 /\
    forall t, split_scheme (url +:+ t) = (s, rest +:+ t).
Proof.
  unfold split_scheme. destruct url as [|c url]; [by intros [= <- _]|]. destruct (is_alpha c) eqn:Hc; [|by intros [= <- _]].
  destruct (split_once ":" (String c url)) as [[s0 r]|] eqn:E; [|by intros [= <- _]].
  destruct (str_forallb scheme_char s0) eqn:Hs; [|by intros [= <- _]]. intros [= <- <-] _. exists s0. split; [done|]. split; [done|].
  intros t. pose proof (split_colon_app _ t _ _ E) as Ht. cbn [String.append] in *. by rewrite Hc, Ht, Hs.
Qed.

Lemma split_clean_scheme url scheme netloc : split_clean url = Ok (scheme, netloc) -> scheme = (split_scheme url).1.
Proof.
  unfold split_clean. destruct (split_scheme url) as [s rest]. destruct (starts_with _ _); [destruct (netloc_ok _); [|done]|];
    by intros [= <- _].
Qed.

Lemma slashes_scheme t : str_forallb slash t = true -> clean t = t /\ split_scheme t = ("", t).
Proof.
  intros Ht. destruct (slashes_plain t Ht) as (_ & Hf & _). destruct t as [|c t]; [done|].
  cbn in Ht. apply andb_true_iff in Ht as [Hc%Ascii.eqb_eq _]. subst c. done.
Qed.

(** Appending after the slashes at the end changes neither scheme nor
    location. *)
Lemma split_clean_app b sl t scheme netloc :
  str_forallb slash sl = true -> split_clean (b +:+ sl) = Ok (scheme, netloc) -> scheme <> "" -> netloc <> "" ->
  split_clean (b +:+ "/" +:+ t) = Ok (scheme, netloc).
Proof.
  intros Hsl. destruct (slashes_plain sl Hsl) as (Hp & _ & Hspan). unfold split_clean.
  destruct (split_scheme b) as [s rest] eqn:Eb. destruct (decide (s = "")) as [->|Hs].
  - destruct (split_scheme (b +:+ sl)) as [s' rest'] eqn:E. intros Hr Hn _. exfalso.
    assert (s' <> "") as Hs' by (pose proof (split_clean_scheme (b +:+ sl) scheme netloc) as Hx; unfold split_clean in Hx; rewrite E in Hx;
      cbn [fst] in Hx; rewrite <-Hx; done).
    revert E Hs'. unfold split_scheme in *. destruct b as [|c b].
    + destruct sl as [|d sl]; [by intros [= <- _]|]. cbn in Hsl. apply andb_true_iff in Hsl as [Hd%Ascii.eqb_eq _]. subst d.
      by intros [= <- _].
    + cbn [String.append]. destruct (is_alpha c); [|by intros [= <- _]].
      destruct (split_once ":" (String c b)) as [[s0 r]|] eqn:E0.
      * pose proof (split_colon_app _ sl _ _ E0) as Ht. cbn [String.append] in Ht. rewrite Ht.
        destruct (str_forallb scheme_char s0); [|by intros [= <- _]]. injection Eb as Es _. intros [= <- _] Hx. by rewrite Es in Hx.
      * pose proof (split_colon_plain _ sl Hp E0) as Ht. cbn [String.append] in Ht. rewrite Ht. by intros [= <- _].
  - destruct (split_scheme_Some _ _ _ Eb Hs) as (s0 & _ & _ & Happ). rewrite !Happ.
    destruct rest as [|c [|d r]].
    + cbn [String.append]. intros Hr _ Hn. exfalso. apply Hn.
      destruct (starts_with "//" sl); [|by injection Hr as _ <-]. destruct (netloc_ok _); [|done]. injection Hr as _ <-.
      apply no_location, (forallb_drop slash 2 sl Hsl).
    + cbn [String.append]. intros Hr _ Hn. exfalso. apply Hn.
      destruct (starts_with "//" (String c sl)); [|by injection Hr as _ <-]. destruct (netloc_ok _); [|done]. injection Hr as _ <-.
      apply no_location, (forallb_drop slash 1 sl Hsl).
    + cbn [String.append starts_with str_drop]. 
      by rewrite (span_app r sl), (span_app r (String "/" t)) by (first [by apply slashes_start|by right; destruct t]).
Qed.

(** Whatever path a caller gives, its request goes to the host of the
    registered base URL: scheme and location of the URL are those of the base. *)
Theorem path_cannot_change_host resolve server rel addresses :
  assert_url_allowed resolve (base_url server) = Ok addresses ->
  exists scheme netloc, urlsplit (base_url server) = Ok (scheme, netloc) /\
    urlsplit (target_url server rel) = Ok (scheme, netloc) /\ hostname netloc <> "".
Proof.
  unfold assert_url_allowed. destruct (urlsplit (base_url server)) as [[scheme netloc]|] eqn:E; cbn [mbind res_bind]; [|done].
  destruct (str_in (str_lower scheme) _) eqn:Es; cbn [negb]; [|done]. destruct (String.eqb_spec (hostname netloc) "") as [|Hh]; [done|].
  intros _. exists scheme, netloc. split; [done|]. split; [|done].
  assert (scheme <> "") as Hs by (intros ->; by vm_compute in Es).
  assert (netloc <> "") as Hn by (intros ->; by apply Hh).
  rewrite urlsplit_clean in *. unfold target_url. destruct (rstrip_rest slash (base_url server)) as (sl & Hb & Hsl).
  set (b := str_rstrip_by slash (base_url server)) in *. rewrite Hb in E.
  assert (str_lstrip_by c0_or_space b <> "") as Hne.
  { intros Hz. assert (forall t, str_lstrip_by c0_or_space (b +:+ t) = str_lstrip_by c0_or_space t) as Ht.
    { clear -Hz. intros t. induction b as [|c b IH]; [done|]. cbn in *. by destruct (c0_or_space c); [apply IH|]. }
    unfold clean in E. rewrite Ht in E. fold (clean sl) in E. destruct (slashes_scheme sl Hsl) as [Hc Hsc].
    rewrite Hc in E. apply split_clean_scheme in E. by rewrite Hsc in E. }
  unfold clean in *. rewrite lstrip_app in * by done. rewrite str_filter_app in *.
  destruct (slashes_plain sl Hsl) as (_ & Hf & _). rewrite Hf in E. rewrite str_filter_app.
  change (str_filter _ "/") with "/". by eapply split_clean_app.
Qed.

Definition demo_server : api_server :=
  ApiServer "s1" "n1" "crm" None "https://crm.example/api/" "manual" None
    [Injection "token" "bearer" None None "passthrough" (Some "CRM_TOKEN")] None None
    [("max_calls_per_execution", PInt 1)] true 2 None.

Lemma path_cannot_change_host_witness :
  exists scheme netloc, urlsplit (base_url demo_server) = Ok (scheme, netloc) /\
    urlsplit (target_url demo_server "@evil.example/../x") = Ok (scheme, netloc) /\ hostname netloc <> "".
Proof. apply (path_cannot_change_host (fun _ => Ok ["93.184.216.34"]) demo_server _ ["93.184.216.34"]). vm_compute. reflexivity. Defined.

(** ** Runs *)

(** A client with a script of replies. *)
#[local] Instance scripted_net : Network := {
  net := list http_outcome;
  monotonic_ms n := (0, n);
  getaddrinfo _ _ := Ok ["93.184.216.34"];
  after_lookup n := n;
  http_request _ n := match n with [] => (TimeoutException "timed out", []) | o :: n => (o, n) end
}.

Definition demo_get : api_endpoint :=
  ApiEndpoint "s1" "get_user" "GET" "/users/{id}" None (PDict []) None None true false "manual".
Definition demo_post : api_endpoint :=
  ApiEndpoint "s1" "create" "POST" "/users" None (PDict []) None None true false "manual".
Definition demo_keys : api_endpoint :=
  ApiEndpoint "s1" "get_keys" "GET" "/users/1/keys" None (PDict []) None None false false "imported".
Definition demo_db : tables := Tables [demo_server] [demo_get; demo_post; demo_keys].
Definition demo_start (n : list http_outcome) : st :=
  St (register_execution 0 "key" "n1" "demo" "e1" [("CRM_TOKEN", "t0k")] empty_registry) n [] [].
Definition demo_reply (status : Z) : http_outcome := Replied (Response status "{}" (Some "application/json") (Some (PDict [])) "{}").
Definition demo_call (operation : string) (path headers : list (string * string)) : proxy_request :=
  ProxyRequest "crm" operation (map (fun kv => (kv.1, PStr kv.2)) path) [] PNone headers.
Abbreviation demo_run n operation path headers :=
  (api_proxy (H0 := toy_aead) None (fun s => s) demo_db "Bearer key" (demo_call operation path headers) (demo_start n)).

Example reply_passes : (demo_run [demo_reply 200] "get_user" [("id", "7")] []).1 =
  Ok (200, PDict [("status_code", PInt 200); ("truncated", PBool false); ("content_type", PStr "application/json"); ("json", PDict [])]).
Proof. vm_compute. reflexivity. Qed.

(** A gateway error is retried for GET, and not for POST. *)
Example retries :
  length (sent (demo_run [demo_reply 503; demo_reply 503; demo_reply 503] "get_user" [("id", "7")] []).2) = 3%nat /\
  length (sent (demo_run [demo_reply 503] "create" [] []).2) = 1%nat.
Proof. split; vm_compute; reflexivity. Qed.

(** Values in a path are not quoted, so an enabled endpoint opens others: here
    the URL of an endpoint that is disabled. *)
Example disabled_endpoint_reached :
  map rq_url (sent (demo_run [demo_reply 200] "get_user" [("id", "1/keys")] []).2) = [target_url demo_server (ep_path demo_keys)] /\
  ep_enabled demo_keys = false.
Proof. split; vm_compute; reflexivity. Qed.

(** Only replies count: with a budget of one call, a server that does not answer
    in time can be called for ever. *)
Example timeouts_do_not_count :
  let s1 := (demo_run [] "get_user" [("id", "1")] []).2 in
  let s2 := (api_proxy (H0 := toy_aead) None (fun s => s) demo_db "Bearer key" (demo_call "get_user" [("id", "2")] []) s1).2 in
  length (sent s2) = 6%nat /\ map api_calls_count (objects (reg s2)) = [0].
Proof. split; vm_compute; reflexivity. Qed.

(** A header of the caller that differs in case is sent beside the injected one. *)
Example header_beside_credential :
  map rq_headers (sent (demo_run [demo_reply 200] "create" [] [("Authorization", "x"); ("authorization", "y")]).2) =
  [[("Authorization", PStr "Bearer t0k"); ("authorization", PStr "y")]].
Proof. vm_compute. reflexivity. Qed.

Lemma credentials_not_replaced_witness :
  exists h2' q2', _apply_injections (auth demo_server) [] [("CRM_TOKEN", "t0k")] [("Authorization", PStr "mine")] [] (demo_start []) =
      (Ok (None, h2', q2'), demo_start []) /\
    Some (PStr "Bearer t0k") = dict_get "Authorization" h2'.
Proof.
  apply (credentials_not_replaced (auth demo_server) [] [("CRM_TOKEN", "t0k")] [] [] [("Authorization", PStr "mine")] []
           (demo_start []) [("Authorization", PStr "Bearer t0k")] [] (demo_start []) "Authorization").
  - vm_compute. reflexivity.
  - vm_compute. left.
Defined.
