(* ===== verification/ResultCache.v ===== *)
(** * The cache of function results

    [services/result_cache.py].  Redis enters as the class [TextCache]: a store
    of texts with an expiry, whose operations may fail.  A key is made from a
    hash of the canonical text of the input; inputs that differ only in the
    order of keys, at any depth, are [same_input]. *)

From S2P Require Import Prelude Security Functions Json.
From Stdlib Require Import Ascii.

Open Scope Z_scope.

(** [GET] and [SET] with [ex]; [None] when the call raises. *)
Class TextCacheOps (R : Type) := {
  t_get : R -> Z -> string -> option (option string);
  t_set : R -> Z -> string -> string -> Z -> option R
}.

Class TextCache (R : Type) `{TextCacheOps R} := {
  t_get_set r r' t k v ttl t' k' x :
    t_set r t k v ttl = Some r' -> 0 < ttl -> t <= t' -> t_get r' t' k' = Some x ->
    x = (if String.eqb k k' then if t' <? t + ttl then Some v else None else default None (t_get r t' k'))
}.

(** ** Keys *)

Definition key_le (a b : string * pyval) : bool := str_leb a.1 b.1.

(** What [sort_keys=True] does. *)
Fixpoint sort_keys (v : pyval) : pyval :=
  match v with
  | PList l => PList (map sort_keys l)
  | PDict d => PDict (order_by key_le (map (fun kv => (kv.1, sort_keys kv.2)) d))
  | _ => v
  end.

(** [json.dumps(input_data or {}, sort_keys=True, separators=(",", ":"))] *)
Definition canonical (input_data : option (list (string * pyval))) : string :=
  dumps_with false (sort_keys (PDict (default [] input_data))).

Definition make_cache_key `{Crypto} (function_id : string) (version : Z) (input_data : option (list (string * pyval))) : string :=
  "fncache:" +:+ function_id +:+ ":v" +:+ str_of_Z version +:+ ":" +:+ str_take 16 (sha256_hex (canonical input_data)).

(** [None]: the comparison [ttl <= 0] raises TypeError. *)
Definition get_cache_policy (policy : pyval) : option (bool * Z) :=
  match policy with
  | PDict ((_ :: _) as d) =>
      let enabled := dict_getd "enabled" (PBool false) d in
      if negb (truthy enabled) then Some (false, 0)
      else
        match dict_getd "ttl_seconds" (PInt 300) d with
        | PInt ttl => Some (if ttl <=? 0 then (false, 0) else (true, ttl))
        | PBool b => Some (if b then (true, 1) else (false, 0))
        | _ => None
        end
  | _ => Some (false, 0)
  end.

Section cache.
Context {R : Type} `{TextCacheOps R}.

(** Python's [None] is [PNone]. *)
Definition get_cached_result (r : R) (now : Z) (cache_key : string) : pyval :=
  match t_get r now cache_key with
  | Some (Some raw) => match json_loads raw with Ok v => v | Err _ => PNone end
  | _ => PNone
  end.

Definition set_cached_result (r : R) (now : Z) (cache_key : string) (result_output : pyval) (ttl_seconds : Z) : R :=
  default r (t_set r now cache_key (json_dumps result_output) ttl_seconds).
End cache.

(** ** What is read back *)

Section laws.
Context {R : Type} `{TextCache R}.
#[local] Set Default Proof Using "Type*".

(** A result that was stored is read back, unchanged, as long as its time to
    live runs, under its own key, and leaves other keys alone; after that
    time it is gone.  Each read may fail, and then counts as a miss. *)
Theorem cached_result_roundtrip (r r' : R) t k v ttl t' k' :
  t_set r t k (json_dumps v) ttl = Some r' -> 0 < ttl -> t <= t' -> val_wf v ->
  let got := get_cached_result (set_cached_result r t k v ttl) t' k' in
  got = PNone \/ got = (if String.eqb k k' then if t' <? t + ttl then v else PNone else get_cached_result r t' k').
Proof.
  intros Hset Httl Ht Hwf. cbv zeta. unfold set_cached_result. rewrite Hset. change (default r (Some r')) with r'.
  unfold get_cached_result. destruct (t_get r' t' k') as [x|] eqn:E; [|by left]. right.
  rewrite (t_get_set _ _ _ _ _ _ _ _ _ Hset Httl Ht E). destruct (String.eqb k k'); [destruct (t' <? t + ttl); [|done]|].
  - pose proof (loads_between true v "" "" Hwf eq_refl eq_refl) as Hl. rewrite str_app_nil_r in Hl.
    change ("" +:+ dumps_with true v) with (json_dumps v) in Hl. by rewrite Hl.
  - by destruct (t_get r t' k') as [[]|].
Qed.
End laws.

(** ** Which inputs share a key *)

(** The same input up to the order of keys, at any depth. *)
Inductive same_input : pyval -> pyval -> Prop :=
| same_refl v : same_input v v
| same_sym v w : same_input v w -> same_input w v
| same_trans u v w : same_input u v -> same_input v w -> same_input u w
| same_elem l1 l2 v w : same_input v w -> same_input (PList (l1 ++ v :: l2)) (PList (l1 ++ w :: l2))
| same_member d1 d2 k v w : same_input v w -> same_input (PDict (d1 ++ (k, v) :: d2)) (PDict (d1 ++ (k, w) :: d2))
| same_order d d' : d ≡ₚ d' -> same_input (PDict d) (PDict d').

#[export] Instance same_input_equivalence : Equivalence same_input.
Proof. split; [exact same_refl|exact same_sym|exact same_trans]. Qed.

Lemma str_leb_total a b : str_leb a b = false -> str_leb b a = true.
Proof.
  revert b. induction a as [|c a IH]; intros [|d b]; cbn [str_leb]; try done.
  rewrite orb_false_iff, andb_false_iff, orb_true_iff, andb_true_iff, Nat.ltb_ge, Nat.eqb_neq, Nat.ltb_lt, Nat.eqb_eq.
  intros [Hle [Hn|Hb]]; [left; lia|]. destruct (decide (ord d = ord c)); [right; split; [done|by apply IH]|left; lia].
Qed.

Lemma ord_inj c d : ord c = ord d -> c = d.
Proof. intros H. rewrite <-(Ascii.ascii_nat_embedding c), <-(Ascii.ascii_nat_embedding d). f_equal. exact H. Qed.

Lemma str_leb_antisym a b : str_leb a b = true -> str_leb b a = true -> a = b.
Proof.
  revert b. induction a as [|c a IH]; intros [|d b]; cbn [str_leb]; try done.
  rewrite !orb_true_iff, !andb_true_iff, !Nat.ltb_lt, !Nat.eqb_eq. intros [H1|[H1 Ha]] [H2|[H2 Hb]]; try lia.
  apply ord_inj in H1 as ->. f_equal. by apply IH.
Qed.

Lemma str_leb_trans a b c : str_leb a b = true -> str_leb b c = true -> str_leb a c = true.
Proof.
  revert b c. induction a as [|x a IH]; intros [|y b] [|z c]; cbn [str_leb]; try done.
  rewrite !orb_true_iff, !andb_true_iff, !Nat.ltb_lt, !Nat.eqb_eq. intros [?|[? Ha]] [?|[? Hb]]; [left; lia..|].
  right. split; [lia|by eapply IH].
Qed.

(** Two insertions with different keys commute. *)
Lemma insert_comm (a b : string * pyval) l :
  a.1 <> b.1 -> insert_by key_le a (insert_by key_le b l) = insert_by key_le b (insert_by key_le a l).
Proof.
  intros Hn. unfold key_le. induction l as [|c l IH]; cbn [insert_by].
  - destruct (str_leb a.1 b.1) eqn:Hab, (str_leb b.1 a.1) eqn:Hba; try done.
    + exfalso. by apply Hn, str_leb_antisym.
    + exfalso. apply str_leb_total in Hab. congruence.
  - destruct (str_leb b.1 c.1) eqn:Hbc, (str_leb a.1 c.1) eqn:Hac; cbn [insert_by]; rewrite ?Hbc, ?Hac; [| | |by rewrite IH].
    + destruct (str_leb a.1 b.1) eqn:Hab, (str_leb b.1 a.1) eqn:Hba; rewrite ?Hac, ?Hbc; try done.
      * exfalso. by apply Hn, str_leb_antisym.
      * exfalso. apply str_leb_total in Hab. congruence.
    + destruct (str_leb a.1 b.1) eqn:Hab; [|done]. rewrite (str_leb_trans _ _ _ Hab Hbc) in Hac. done.
    + destruct (str_leb b.1 a.1) eqn:Hba; [|done]. rewrite (str_leb_trans _ _ _ Hba Hac) in Hbc. done.
Qed.

Lemma order_perm d d' : d ≡ₚ d' -> dict_wf d -> order_by key_le d = order_by key_le d'.
Proof.
  unfold dict_wf, dict_keys, order_by. induction 1 as [|x l l' _ IH|x y l|l l' l'' H1 IH1 H2 IH2]; cbn [map foldr]; intros Hd.
  - done.
  - apply NoDup_cons in Hd as [_ Hd]. by rewrite IH.
  - apply NoDup_cons in Hd as [Hy _]. apply insert_comm. intros He. apply Hy. rewrite He. by left.
  - rewrite IH1 by done. apply IH2. by rewrite <-H1.
Qed.

Lemma sorted_keys_keys d : dict_keys (map (fun kv : string * pyval => (kv.1, sort_keys kv.2)) d) = dict_keys d.
Proof. unfold dict_keys. rewrite map_map. by apply map_ext. Qed.

Lemma val_wf_list l : val_wf (PList l) <-> Forall val_wf l.
Proof. cbn [val_wf]. induction l as [|v l IH]; cbn [foldr]; [by split|]. by rewrite IH, Forall_cons. Qed.
Lemma val_wf_dict d : val_wf (PDict d) <-> dict_wf d /\ Forall (fun kv => val_wf kv.2) d.
Proof.
  cbn [val_wf]. enough (foldr (fun kv P => val_wf kv.2 /\ P) True d <-> Forall (fun kv => val_wf kv.2) d) as -> by done.
  induction d as [|kv d IH]; cbn [foldr]; [by split|]. by rewrite IH, Forall_cons.
Qed.

(** Sorting forgets exactly the order of keys. *)
Lemma same_input_sorted v w : same_input v w -> (val_wf v <-> val_wf w) /\ (val_wf v -> sort_keys v = sort_keys w).
Proof.
  induction 1 as [v|v w _ [IH1 IH2]|u v w _ [IH1 IH2] _ [IH3 IH4]|l1 l2 v w _ [IH1 IH2]|d1 d2 k v w _ [IH1 IH2]|d d' Hd].
  - done.
  - split; [done|]. intros Hw. symmetry. apply IH2. by apply IH1.
  - split; [by rewrite IH1|]. intros Hu. rewrite IH2 by done. apply IH4. by apply IH1.
  - rewrite !val_wf_list, !Forall_app, !Forall_cons. split; [by rewrite IH1|]. intros (_ & Hv & _). cbn [sort_keys].
    by rewrite !map_app, !map_cons, IH2.
  - rewrite !val_wf_dict, !Forall_app, !Forall_cons. unfold dict_wf, dict_keys. rewrite !map_app, !map_cons. cbn [fst snd].
    split; [by rewrite IH1|]. intros (_ & _ & Hv & _). cbn [sort_keys]. rewrite !map_app, !map_cons. cbn [fst snd]. by rewrite IH2.
  - rewrite !val_wf_dict. unfold dict_wf, dict_keys. split; [by rewrite Hd|]. intros [Hk _]. cbn [sort_keys]. f_equal.
    apply order_perm; [by apply Permutation_map|]. unfold dict_wf. by rewrite sorted_keys_keys.
Qed.

Lemma same_elems l l' : Forall2 same_input l l' -> forall l0, same_input (PList (l0 ++ l)) (PList (l0 ++ l')).
Proof.
  induction 1 as [|v w l l' Hv _ IH]; intros l0; [reflexivity|]. etransitivity; [by apply same_elem|].
  specialize (IH (l0 ++ [w])). by rewrite <-!app_assoc in IH.
Qed.

Lemma same_members (f : pyval -> pyval) d :
  Forall (fun kv => same_input kv.2 (f kv.2)) d ->
  forall d0, same_input (PDict (d0 ++ d)) (PDict (d0 ++ map (fun kv => (kv.1, f kv.2)) d)).
Proof.
  induction 1 as [|[k v] d Hv _ IH]; intros d0; [reflexivity|]. cbn [map fst snd] in *. etransitivity; [by apply same_member|].
  specialize (IH (d0 ++ [(k, f v)])). by rewrite <-!app_assoc in IH.
Qed.

Lemma same_as_sorted v : same_input v (sort_keys v).
Proof.
  induction v as [|b|z|s|l IH|d IH] using pyval_deep_ind; try reflexivity; cbn [sort_keys].
  - apply (same_elems _ _) with (l0 := []). induction IH; constructor; done.
  - etransitivity; [apply (same_members sort_keys d IH [])|]. cbn [app]. apply same_order. symmetry. apply order_by_perm.
Qed.

Lemma sorted_same v w : val_wf v -> sort_keys v = sort_keys w <-> same_input v w.
Proof.
  intros Hv. split; [|intros H; by apply same_input_sorted in H as [_ H]; apply H].
  intros H. rewrite (same_as_sorted v), (same_as_sorted w), H. reflexivity.
Qed.

Lemma dumps_inj spaced v w : val_wf v -> val_wf w -> dumps_with spaced v = dumps_with spaced w -> v = w.
Proof.
  intros Hv Hw H. pose proof (loads_between spaced v "" "" Hv eq_refl eq_refl) as H1.
  pose proof (loads_between spaced w "" "" Hw eq_refl eq_refl) as H2. rewrite H in H1. congruence.
Qed.

Lemma canonical_same a b :
  val_wf (PDict a) -> val_wf (PDict b) -> canonical (Some a) = canonical (Some b) <-> same_input (PDict a) (PDict b).
Proof.
  intros Ha Hb. rewrite <-(sorted_same _ _ Ha).
  change (canonical (Some a)) with (dumps_with false (sort_keys (PDict a))).
  change (canonical (Some b)) with (dumps_with false (sort_keys (PDict b))). split; [|by intros ->]. apply dumps_inj.
  - by apply (same_input_sorted _ _ (same_as_sorted (PDict a))).
  - by apply (same_input_sorted _ _ (same_as_sorted (PDict b))).
Qed.

Lemma colon_cut a b s t :
  str_contains ":" a = false -> str_contains ":" b = false -> a +:+ ":" +:+ s = b +:+ ":" +:+ t -> a = b /\ s = t.
Proof.
  revert b. induction a as [|c a IH]; intros [|d b]; cbn [String.append str_contains starts_with]; intros Ha Hb.
  - by intros [= ->].
  - intros [= <- _]. by destruct b.
  - intros [= -> _]. by destruct a.
  - destruct (Ascii.eqb ":" c); [by destruct a|]. destruct (Ascii.eqb ":" d); [by destruct b|].
    intros [= <- H]. apply IH in H as [-> ->]; [done|by destruct a|by destruct b].
Qed.

(** Two calls share a key exactly when they call the same version of the
    same function with the same input up to the order of keys, provided that
    the 16 digits of the hash do not collide on the two inputs. *)
Theorem cache_key_correct `{Crypto} i j v w a b :
  str_contains ":" i = false -> str_contains ":" j = false -> val_wf (PDict a) -> val_wf (PDict b) ->
  (str_take 16 (sha256_hex (canonical (Some a))) = str_take 16 (sha256_hex (canonical (Some b))) -> canonical (Some a) = canonical (Some b)) ->
  make_cache_key i v (Some a) = make_cache_key j w (Some b) <-> i = j /\ v = w /\ same_input (PDict a) (PDict b).
Proof.
  intros Hi Hj Ha Hb Hhash. rewrite <-canonical_same by done. unfold make_cache_key. split.
  - intros Hk. apply (f_equal (str_drop 8)) in Hk. apply (colon_cut i j) in Hk as [-> Hk]; [|done..].
    set (ha := str_take 16 _) in *. set (hb := str_take 16 (sha256_hex (canonical (Some b)))) in *.
    assert (str_of_Z v +:+ ":" +:+ ha = str_of_Z w +:+ ":" +:+ hb) as Hk' by by injection Hk.
    pose proof (scan_number_Z v (":" +:+ ha) eq_refl) as H1. pose proof (scan_number_Z w (":" +:+ hb) eq_refl) as H2.
    rewrite Hk', H2 in H1. injection H1 as -> H1. auto.
  - intros (-> & -> & ->). done.
Qed.

Definition demo_a : list (string * pyval) := [("x", PInt 1); ("q", PDict [("b", PNone); ("a", PInt 2)])].
Definition demo_b : list (string * pyval) := [("q", PDict [("a", PInt 2); ("b", PNone)]); ("x", PInt 1)].

Lemma cache_key_correct_witness :
  make_cache_key (H := toy_crypto) "f-1" 3 (Some demo_a) = make_cache_key (H := toy_crypto) "f-1" 3 (Some demo_b) <->
  "f-1" = "f-1" /\ 3 = 3 /\ same_input (PDict demo_a) (PDict demo_b).
Proof.
  apply (cache_key_correct "f-1" "f-1" 3 3 demo_a demo_b); [reflexivity|reflexivity| | |intros _; vm_compute; reflexivity];
    apply val_wf_dict; (split; [apply (bool_decide_unpack _); vm_compute; exact I|]);
    repeat constructor; cbn; repeat (split || constructor); apply (bool_decide_unpack _); vm_compute; exact I.
Defined.

(** A function that returns [None] is run each time, although its result is
    stored. *)
Example null_is_a_miss {R} `{TextCacheOps R} (r : R) now key : t_get r now key = Some (Some "null") -> get_cached_result r now key = PNone.
Proof. intros Hg. unfold get_cached_result. by rewrite Hg. Qed.

(** ** A model of the class *)

Abbreviation text_map := (gmap string (string * Z)).

#[export] Instance text_map_ops : TextCacheOps text_map := {
  t_get r t k := Some (match r !! k with Some (v, d) => if t <? d then Some v else None | None => None end);
  t_set r t k v ttl := Some (<[k := (v, t + ttl)]> r)
}.

#[export] Instance text_map_laws : TextCache text_map.
Proof.
  split. cbn. intros r r' t k v ttl t' k' x [= <-] _ _ [= <-]. destruct (String.eqb_spec k k') as [->|Hn].
  - by rewrite lookup_insert_eq.
  - by rewrite lookup_insert_ne.
Qed.

Lemma cached_result_roundtrip_witness :
  get_cached_result (set_cached_result (∅ : text_map) 100 "k" (PInt 7) 300) 200 "k" = PNone \/
  get_cached_result (set_cached_result (∅ : text_map) 100 "k" (PInt 7) 300) 200 "k" = PInt 7.
Proof.
  apply (cached_result_roundtrip (∅ : text_map) (<["k" := (json_dumps (PInt 7), 400)]> ∅) 100 "k" (PInt 7) 300 200 "k");
    [reflexivity|lia|lia|exact I].
Defined.
