(* ===== verification/RunHandler.v ===== *)
(** * The run handler

    [mcp/run_handler.py] with the JSON-RPC shapes of [mcp/protocol.py]: a tool
    call of a client on a namespace.  It composes the other components: access
    to the namespace, the access rules of the agent, the active version of the
    function, its environment, the cache, the sandbox, the record of the
    execution, and the scanners on the output; in code mode the registry of
    executions, and for published endpoints the API proxy.  The packages that
    code mode generates ([code_mode.py]) are kept as the arguments of their
    generators. *)

From S2P Require Import Prelude AgentAccess PatternScanner ScannerPipeline Security Json Encryption AgentState EnvPassthrough Namespaces Functions AiTools ToolDispatch Ssrf ExecTokens ApiProxy ResultCache.
From stdpp Require Import gmap strings.

Open Scope Z_scope.

(** ** What comes from outside *)

(** [ExecutionResult] of [backends/base.py]. *)
Record ExecutionResult := ExecutionResult_ {
  x_success : bool;
  x_output : pyval;
  x_stdout : option string;
  x_stderr : option string;
  x_error : option string;
  x_error_type : option string;
  x_execution_time_ms : option Z;
  x_call_log : list string
}.

(** A call of a backend. *)
Record backend_call := BackendCall {
  b_backend : string;
  b_code : option string;
  b_config : option pyval;
  b_input : pyval;
  b_execution_id : string;
  b_sandbox_env : option (list (string * string));
  b_context : option (list (string * pyval));
  b_language : string;
  b_namespace : string;
  b_package : option (list (function * version) * list (string * pyval) * list (string * list api_endpoint))
}.

Class RunOutside := {
  around : Type;
  clock_ms : around -> Z * around;
  fresh_uuid : around -> string * around;
  (** [get_backend(name).execute(...)]; a raise has its text, and whether the
      exception is a [ValueError]. *)
  execute : backend_call -> around -> res (bool * string) ExecutionResult * around;
  (** [flush] of a new execution row; [false] when the database refuses it. *)
  flush_ok : around -> bool * around
}.

(** ** State *)

Record agent_rules := AgentRules {
  ag_row_id : string;
  ag_namespace : string;
  ag_row_name : string;
  access_rules : option AgentAccess.access_rules;
  ag_trust : Z
}.

Record mcp_server_row := McpServerRow {
  ms_namespace_id : string;
  ms_name : string;
  ms_enabled : bool;
  tool_count : Z;
  tool_schemas : option pyval
}.

(** A row of [executions]. *)
Record execution := Execution {
  e_id : string;
  e_namespace_id : string;
  e_service_name : string;
  e_function_name : string;
  e_user_id : string;
  e_function_id : string;
  e_version : Z;
  e_backend : string;
  e_status : string;
  e_input : pyval;
  e_result : option pyval;
  e_error_message : option string;
  e_error_code : option string;
  e_started_at : Z;
  e_execution_time_ms : Z;
  e_metadata : option (list (string * string))
}.

(** Tasks left to run after the answer: the analytics, and the telemetry event. *)
Inductive background :=
| RecordStats (ns eid : string) (calls bytes result_bytes input_bytes : Z)
| EmitTelemetry (ns ns_name fn eid : string) (ms : Z) (success : bool) (backend : string) (version : option Z)
| CacheResult (key : string) (output : pyval) (ttl : Z)
| RecoverTrust (ns : string).

Section handler.
Context `{Network} `{Aead} `{Crypto} {R : Type} `{TextCacheOps R} `{RunOutside}.

Record world := World {
  tables : store;
  agent_rows : list agent_rules;
  mcp_rows : list mcp_server_row;
  api_tables : ApiProxy.tables;
  pipelines : list (string * pipeline_config);
  cache_policies : list (string * pyval);
  states : AgentState.st;
  proxy : ApiProxy.st;
  cache : R;
  executions : list execution;
  tasks : list background;
  out : around
}.

(** Exceptions that leave a tool call. *)
Inductive exn :=
| ValueError (message : string)
| AgentAccessDenied (agent resource rule_id : string)
| Service (e : Security.exn)
| State (e : AgentState.err)
| Proxy (e : ApiProxy.exn)
| TypeError
| Raised (value_error : bool) (text : string).

Abbreviation M := (stm world exn).

Definition with_store (t : store) (w : world) : world :=
  World t (agent_rows w) (mcp_rows w) (api_tables w) (pipelines w) (cache_policies w) (states w) (proxy w) (cache w) (executions w) (tasks w) (out w).
Definition with_states (s : AgentState.st) (w : world) : world :=
  World (tables w) (agent_rows w) (mcp_rows w) (api_tables w) (pipelines w) (cache_policies w) s (proxy w) (cache w) (executions w) (tasks w) (out w).
Definition with_proxy (p : ApiProxy.st) (w : world) : world :=
  World (tables w) (agent_rows w) (mcp_rows w) (api_tables w) (pipelines w) (cache_policies w) (states w) p (cache w) (executions w) (tasks w) (out w).
Definition with_out (o : around) (w : world) : world :=
  World (tables w) (agent_rows w) (mcp_rows w) (api_tables w) (pipelines w) (cache_policies w) (states w) (proxy w) (cache w) (executions w) (tasks w) o.
Definition add_execution (x : execution) : M unit := modS (fun w =>
  World (tables w) (agent_rows w) (mcp_rows w) (api_tables w) (pipelines w) (cache_policies w) (states w) (proxy w) (cache w) (executions w ++ [x]) (tasks w) (out w)).
Definition create_task (b : background) : M unit := modS (fun w =>
  World (tables w) (agent_rows w) (mcp_rows w) (api_tables w) (pipelines w) (cache_policies w) (states w) (proxy w) (cache w) (executions w) (tasks w ++ [b]) (out w)).

Definition ask {A} (f : around -> A * around) : M A := fun w => let '(a, o) := f (out w) in (Ok a, with_out o w).

Definition on_store {A} (m : stm store Security.exn A) : M A := fun w =>
  match m (tables w) with (Ok a, t) => (Ok a, with_store t w) | (Err e, t) => (Err (Service e), with_store t w) end.
Definition on_namespaces {A} (m : stm Namespaces.tables Security.exn A) : M A := on_store (on_services m).
Definition on_states {A} (m : stm AgentState.st AgentState.err A) : M A := fun w =>
  match m (states w) with (Ok a, s) => (Ok a, with_states s w) | (Err e, s) => (Err (State e), with_states s w) end.
Definition on_proxy {A} (m : stm ApiProxy.st ApiProxy.exn A) : M A := fun w =>
  match m (proxy w) with (Ok a, s) => (Ok a, with_proxy s w) | (Err e, s) => (Err (Proxy e), with_proxy s w) end.

(** ** The answer of a tool *)

Record tool_metadata := Metadata {
  m_function : option string;
  m_version : option Z;
  m_backend : option string;
  m_mode : option string;
  m_execution_time_ms : Z;
  m_execution_id : string;
  m_called_functions : pyval
}.

Record MCPToolResult := ToolResult_ { r_text : string; isError : bool; metadata : option tool_metadata }.

(** ** The handler *)

(** The caller: the account, its key, and the options of the request. *)
Record caller := Caller {
  c_account_id : string;
  c_user_id : string;
  c_scopes : list string;
  c_raw_key : option string;
  c_namespace_name : string;
  c_mode : string
}.

Context (kek : option string) (lossy_decode : string -> string) (b64decode : string -> string) (kek_b64 : string).
(** Running one scanner, and the hash of a content, as in [ScannerPipeline]. *)
Context (run : scanner -> string -> ScanContext -> option (string * ScanVerdict)) (compute_hash : string -> string).
(** The backends that are registered. *)
Context (backends : list string).
(** The order in which a set of names is traversed. *)
Context (set_iter : list string -> list string).

Definition TOOL_SCOPES : list (string * string) := [("_env_status", "read")].

Definition _check_scope (c : caller) (tool_name : string) : M unit :=
  let required := dict_getd tool_name "execute" TOOL_SCOPES in
  if str_in required (c_scopes c) then mret tt
  else raise (ValueError ("API key missing required scope '" +:+ required +:+ "' for tool '" +:+ tool_name +:+ "'")).

Definition _get_namespace (c : caller) : M Namespaces.namespace :=
  on_namespaces (Namespaces.get_by_name (c_namespace_name c) (Some (c_account_id c)) (Some (c_user_id c)) (Some "execute")).
Definition _get_namespace_for_read (c : caller) : M Namespaces.namespace :=
  on_namespaces (Namespaces.get_by_name (c_namespace_name c) (Some (c_account_id c)) (Some (c_user_id c)) (Some "read")).

(** [select(Agent...).where(namespace_id == ...).limit(1)] *)
Definition agent_of (ns : string) (w : world) : option agent_rules :=
  find_first (fun a => String.eqb (ag_namespace a) ns) (agent_rows w).

(** A JSON object that is empty counts as none. *)
Definition some_rules (ar : option AgentAccess.access_rules) : option AgentAccess.access_rules :=
  match ar with
  | Some r => match function_rules r, state_rules r with None, None => None | _, _ => Some r end
  | None => None
  end.

Definition _check_agent_function_access (ns : Namespaces.namespace) (service_name function_name : string) : M unit :=
  w ← getS;
  match agent_of (n_id ns) w with
  | None => mret tt
  | Some a =>
      match some_rules (access_rules a) with
      | None => mret tt
      | Some rules =>
          let '(allowed, rule_id) := check_function_access (Some rules) service_name function_name (Some (ag_trust a)) in
          if allowed then mret tt
          else raise (AgentAccessDenied (ag_row_name a) (service_name +:+ "." +:+ function_name) (default "unknown" rule_id))
      end
  end.

Definition _load_agent_context (ns : Namespaces.namespace) : M (option (list (string * pyval))) :=
  w ← getS;
  match agent_of (n_id ns) w with
  | None => mret None
  | Some a => state ← on_states (get_all_state b64decode kek_b64 (ag_row_id a)); mret (Some [("state", PDict state)])
  end.

Definition _run_output_pipeline (c : caller) (content : string) (ns : Namespaces.namespace) (service_name function_name execution_id output_trust : string)
    : M string :=
  w ← getS;
  let context := {| PatternScanner.direction := "output"; PatternScanner.namespace := c_namespace_name c;
                    PatternScanner.service := service_name; PatternScanner.function := function_name;
                    PatternScanner.execution_id := execution_id; PatternScanner.output_trust := output_trust |} in
  let result := evaluate_pipeline run compute_hash content context (dict_get (n_id ns) (pipelines w)) in
  mret (default content (modified_content result)).

(** ** Running a function *)

Definition env_of (e : option (list (string * string))) : list (string * string) := default [] e.

(** [x or y] of an optional number, where 0 is false too. *)
Definition or_ms (x : option Z) (y : Z) : Z := match x with Some 0 | None => y | Some n => n end.

(** [x[:4096]] when the text is not empty. *)
Definition meta_entry (key : string) (x : option string) : list (string * string) :=
  if truthy_ostr x then [(key, str_take (Z.to_nat 4096) (default "" x))] else [].

Definition _persist_execution_record (c : caller) (execution_id namespace_id service_name function_name : string)
    (f : function) (v : version) (arguments : pyval) (r : ExecutionResult) (execution_time_ms start_time : Z) : M unit :=
  let backend_meta := meta_entry "stdout" (x_stdout r) ++ meta_entry "stderr" (x_stderr r) in
  let row := Execution execution_id namespace_id service_name function_name (c_user_id c) (f_id f) (v_version v)
    (backend (v_spec v)) (if x_success r then "completed" else "failed") arguments
    (if x_success r then Some (x_output r) else None)
    (if truthy_ostr (x_error r) then Some (_scrub_error_message (default "" (x_error r))) else None)
    (x_error_type r) start_time execution_time_ms (match backend_meta with [] => None | m => Some m end) in
  ok ← ask flush_ok;
  if (ok : bool) then add_execution row else mret tt.

(** [len(json.dumps(v))] when [v] is true. *)
Definition dumps_size (v : pyval) : Z := if truthy v then str_len (json_dumps v) else 0.

Definition missing_env_result (missing : list string) : MCPToolResult :=
  ToolResult_ (json_dumps (PDict [("error", PStr "missing_env"); ("missing", PList (map PStr missing));
    ("message", PStr ("Required environment variables not provided: " +:+ str_join ", " missing))])) true None.

Definition ostring (o : option string) : pyval := match o with Some s => PStr s | None => PNone end.
Definition failure_text (r : ExecutionResult) : string :=
  json_dumps (PDict [("error", ostring (x_error r)); ("error_type", ostring (x_error_type r)); ("stderr", ostring (x_stderr r))]).

Definition elapsed_since (start_time : Z) : M Z := now ← ask clock_ms; mret (now - start_time).

Definition run_backend (b : backend_call) : M ExecutionResult :=
  r ← ask (execute b);
  match r with Ok x => mret x | Err (b, e) => raise (Raised b e) end.

(** The cached answer counts when it is not [None]. *)
Definition read_cache (key : string) : M pyval :=
  now ← ask clock_ms;
  w ← getS;
  mret (get_cached_result (cache w) now key).

Definition cached_execution (output : pyval) : ExecutionResult := ExecutionResult_ true output None None None None (Some 0) [].

Definition cache_policy_of (f : function) : M (bool * Z) :=
  w ← getS;
  match get_cache_policy (dict_getd (f_id f) PNone (cache_policies w)) with
  | Some p => mret p | None => raise TypeError
  end.

(** What the cache says, and what the sandbox does otherwise. *)
Definition execute_cached (c : caller) (f : function) (v : version) (arguments : list (string * pyval)) (bypass : bool)
    (env : option (list (string * string))) (context : option (list (string * pyval))) : M (string * Z * ExecutionResult) :=
  '(enabled, ttl) ← cache_policy_of f;
  let key := make_cache_key (f_id f) (v_version v) (Some arguments) in
  cached ← (if enabled && negb bypass then read_cache key else mret PNone);
  execution_id ← ask fresh_uuid;
  start_time ← ask clock_ms;
  match cached with
  | PNone =>
      r ← run_backend (BackendCall (backend (v_spec v)) (code (v_spec v)) (config (v_spec v)) (PDict arguments) execution_id
             env context (v_language v) (c_namespace_name c) None);
      (if enabled && x_success r then create_task (CacheResult key (x_output r) ttl) else mret tt);;
      mret (execution_id, start_time, r)
  | _ => mret (execution_id, start_time, cached_execution cached)
  end.

Definition answer (c : caller) (ns : Namespaces.namespace) (service_name function_name name execution_id : string) (f : function) (v : version)
    (r : ExecutionResult) (execution_time_ms : Z) : M MCPToolResult :=
  text ← (if x_success r
          then _run_output_pipeline c (json_dumps (x_output r)) ns service_name function_name execution_id (output_trust f)
          else mret (failure_text r));
  mret (ToolResult_ text (negb (x_success r))
    (Some (Metadata (Some name) (Some (v_version v)) (Some (backend (v_spec v))) None execution_time_ms execution_id PNone))).

Definition finish_function (c : caller) (ns : Namespaces.namespace) (service_name function_name name : string) (f : function) (v : version)
    (arguments : list (string * pyval)) (execution_id : string) (start_time : Z) (r : ExecutionResult) : M MCPToolResult :=
  now ← elapsed_since start_time;
  let execution_time_ms := or_ms (x_execution_time_ms r) now in
  _persist_execution_record c execution_id (n_id ns) service_name function_name f v (PDict arguments) r execution_time_ms start_time;;
  create_task (RecordStats (n_id ns) execution_id 0 0 (if x_success r then dumps_size (x_output r) else 0) (dumps_size (PDict arguments)));;
  create_task (EmitTelemetry (n_id ns) (c_namespace_name c) name execution_id execution_time_ms (x_success r) (backend (v_spec v)) (Some (v_version v)));;
  (if x_success r then create_task (RecoverTrust (n_id ns)) else mret tt);;
  answer c ns service_name function_name name execution_id f v r execution_time_ms.

(** [arguments.pop("cache", None) is False] *)
Definition asks_bypass (arguments : list (string * pyval)) : bool :=
  match dict_get "cache" arguments with Some (PBool false) => true | _ => false end.

Definition dispatch_function (c : caller) (name service_name function_name : string) (arguments : list (string * pyval))
    (sandbox_env : option (list (string * string))) : M MCPToolResult :=
  ns ← _get_namespace c;
  _check_agent_function_access ns service_name function_name;;
  '(f, v) ← on_store (get_for_execution (n_id ns) service_name function_name);
  match function_env (env_of sandbox_env) (required_env (v_spec v)) (optional_env (v_spec v)) with
  | inr missing => mret (missing_env_result missing)
  | inl env =>
      if negb (str_in (backend (v_spec v)) backends) then raise (ValueError ("Backend not available: " +:+ backend (v_spec v)))
      else
        context ← _load_agent_context ns;
        let args := dict_pop "cache" arguments in
        '(execution_id, start_time, r) ← execute_cached c f v args (asks_bypass arguments) (match env with [] => None | e => Some e end) context;
        finish_function c ns service_name function_name name f v args execution_id start_time r
  end.

(** ** Code mode *)

(** Enabled servers with tools, in order of name. *)
Definition _load_mcp_server_tools (ns : string) : M (list pyval) :=
  w ← getS;
  mret (map (fun s => PDict [("name", PStr (ms_name s));
                             ("tool_schemas", match tool_schemas s with Some v => if truthy v then v else PList [] | None => PList [] end)])
         (List.filter (fun s => 0 <? tool_count s)
           (order_by (fun a b => str_leb (ms_name a) (ms_name b))
             (List.filter (fun s => String.eqb (ms_namespace_id s) ns && ms_enabled s) (mcp_rows w))))).

Definition enabled_api_servers (ns : string) (t : ApiProxy.tables) : list api_server :=
  List.filter (fun s => String.eqb (srv_namespace_id s) ns && srv_enabled s) (servers t).

Definition _load_api_server_endpoints (ns : string) : M (list (string * list api_endpoint)) :=
  w ← getS;
  mret (List.filter (fun p => negb (match p.2 with [] => true | _ => false end))
         (map (fun s => (srv_name s, order_by (fun a b => str_leb (operation_id a) (operation_id b))
                           (List.filter (fun e => String.eqb (ep_server_id e) (srv_id s) && ep_enabled e) (endpoints (api_tables w)))))
           (order_by (fun a b => str_leb (srv_name a) (srv_name b)) (enabled_api_servers ns (api_tables w))))).

(** The names that passthrough injections declare. *)
Definition declared_passthrough (servers : list api_server) : list string :=
  s ← servers;
  inj ← auth s;
  if String.eqb (i_source inj) "passthrough" && truthy_ostr (i_env_var inj) then [default "" (i_env_var inj)] else [].

Definition _load_api_passthrough_env (ns : string) (sandbox_env : list (string * string)) : M (list (string * string)) :=
  w ← getS;
  mret (omap (fun k => match dict_get k sandbox_env with Some v => Some (k, v) | None => None end)
         (set_iter (remove_dups (declared_passthrough (enabled_api_servers ns (api_tables w)))))).

Definition bridge_key : string := "__MCPWORKS_BRIDGE_KEY__".

Definition _CALL_LOG_MARKER : string := "__MCPWORKS_CALL_LOG__:".

(** The first marked line that parses. *)
Fixpoint parse_lines (lines : list string) : pyval :=
  match lines with
  | [] => PList []
  | line :: lines =>
      let line := str_strip line in
      if starts_with _CALL_LOG_MARKER line then
        match json_loads (str_drop (String.length _CALL_LOG_MARKER) line) with Ok v => v | Err _ => parse_lines lines end
      else parse_lines lines
  end.
Definition _parse_call_log (stderr : option string) : pyval :=
  if truthy_ostr stderr then parse_lines (splitlines (default "" stderr)) else PList [].

Definition with_registry (f : registry -> registry) : M unit := on_proxy (set_reg f).

(** The [finally] of code mode: the counters, the end of the registration and
    the statistics. *)
Definition close_execution (token : option string) (ns execution_id code : string) (r : option ExecutionResult) : M unit :=
  w ← getS;
  let ctx := t ← token; a ← resolve_execution t (reg (proxy w)); context_at a (reg (proxy w)) in
  match token with Some t => with_registry (unregister_execution t) | None => mret tt end;;
  create_task (RecordStats ns execution_id (match ctx with Some x => mcp_calls_count x | None => 0 end)
    (match ctx with Some x => mcp_bytes_total x | None => 0 end)
    (match r with Some x => dumps_size (x_output x) | None => 0 end) (str_len (utf8_encode code))).

(** [try: m finally: h]; [h] raises nothing here. *)
Definition finally {A} (m : M A) (h : option A -> M unit) : M A := fun w =>
  match m w with
  | (Ok a, w1) => (Ok a, (h (Some a) w1).2)
  | (Err e, w1) => (Err e, (h None w1).2)
  end.

Definition is_language (l : string) (fs : list (function * version)) : bool := existsb (fun fv => String.eqb (v_language fv.2) l) fs.

Definition code_answer (c : caller) (mode execution_id : string) (execution_time_ms : Z) (called : pyval) (scan : option Namespaces.namespace)
    (r : ExecutionResult) : M MCPToolResult :=
  text ← (if x_success r then
            match scan with
            | Some ns => id ← ask fresh_uuid; _run_output_pipeline c (json_dumps (x_output r)) ns "code_mode" "execute" id "data"
            | None => mret (json_dumps (x_output r))
            end
          else mret (failure_text r));
  mret (ToolResult_ text (negb (x_success r))
    (Some (Metadata None None None (Some mode) execution_time_ms execution_id called))).

Definition _CALL_LOG_CAPTURE_SNIPPET : string := nl +:+ nl +:+ "# --- MCPWorks: capture call log for billing ---" +:+ nl.

(** What is put beside the code: the agent's state as [context.json]. *)
Definition sandbox_call (c : caller) (code language execution_id : string) (env : option (list (string * string)))
    (context : option (list (string * pyval))) (pkg : list (function * version) * list pyval * list (string * list api_endpoint)) : backend_call :=
  BackendCall "code_sandbox" (Some code) None (PDict []) execution_id env context language (c_namespace_name c)
    (Some (pkg.1.1, match context with Some x => [("context.json", PDict x)] | None => [] end ++ [("mcp_servers", PList pkg.1.2)], pkg.2)).

(** [call_log or _parse_call_log(stderr)] *)
Definition called_of (r : ExecutionResult) : pyval :=
  match x_call_log r with [] => _parse_call_log (x_stderr r) | l => PList (map PStr l) end.

Definition _execute_code_mode (c : caller) (code : string) (sandbox_env : option (list (string * string))) : M MCPToolResult :=
  if String.eqb code "" then raise (ValueError "No code provided")
  else
    ns ← _get_namespace c;
    fs ← on_store (list_all_for_namespace (n_id ns));
    mcp ← _load_mcp_server_tools (n_id ns);
    api ← _load_api_server_endpoints (n_id ns);
    context ← _load_agent_context ns;
    let has_mcp := negb (match mcp with [] => true | _ => false end) in
    let has_api := negb (match api with [] => true | _ => false end) in
    let key := if truthy_ostr (c_raw_key c) then c_raw_key c else None in
    let env := match key with
               | Some k => if is_language "typescript" fs || has_mcp || has_api then dict_set bridge_key k (env_of sandbox_env) else env_of sandbox_env
               | None => env_of sandbox_env
               end in
    passthrough ← (if has_api then _load_api_passthrough_env (n_id ns) env else mret []);
    if negb (str_in "code_sandbox" backends) then raise (ValueError "Code sandbox backend not available")
    else
      execution_id ← ask fresh_uuid;
      start_time ← ask clock_ms;
      let token := if has_mcp || has_api then key else None in
      match token with
      | Some t => with_registry (register_execution start_time t (n_id ns) (c_namespace_name c) execution_id passthrough)
      | None => mret tt
      end;;
      r ← finally (run_backend (sandbox_call c (code +:+ _CALL_LOG_CAPTURE_SNIPPET) "python" execution_id (Some env) context (fs, mcp, api)))
            (close_execution token (n_id ns) execution_id code);
      now ← elapsed_since start_time;
      let ms := or_ms (x_execution_time_ms r) now in
      create_task (EmitTelemetry (n_id ns) (c_namespace_name c) "execute_python" execution_id ms (x_success r) "code_sandbox" None);;
      let has_data_trust := has_mcp || existsb (fun fv => String.eqb (output_trust fv.1) "data") fs in
      code_answer c "code" execution_id ms (called_of r) (if has_data_trust then Some ns else None) r.

Definition _execute_code_mode_ts (c : caller) (code : string) (sandbox_env : option (list (string * string))) : M MCPToolResult :=
  if String.eqb code "" then raise (ValueError "No code provided")
  else
    ns ← _get_namespace c;
    fs ← on_store (list_all_for_namespace (n_id ns));
    context ← _load_agent_context ns;
    let env := if is_language "python" fs && truthy_ostr (c_raw_key c)
               then Some (dict_set bridge_key (default "" (c_raw_key c)) (env_of sandbox_env)) else sandbox_env in
    if negb (str_in "code_sandbox" backends) then raise (ValueError "Code sandbox backend not available")
    else
      execution_id ← ask fresh_uuid;
      start_time ← ask clock_ms;
      r ← run_backend (sandbox_call c code "typescript" execution_id env context (fs, [], []));
      now ← elapsed_since start_time;
      code_answer c "code_typescript" execution_id (or_ms (x_execution_time_ms r) now) (PList (map PStr (x_call_log r))) None r.

(** ** The other tools *)

Definition py_sorted (l : list string) : list string := order_by str_leb (remove_dups l).

Definition service_name_of (f : function) (t : store) : string :=
  match find_first (fun s => String.eqb (s_id s) (f_service_id f)) (services (Functions.ns t)) with Some s => s_name s | None => "" end.
Definition tool_name_of (t : store) (f : function) : string := service_name_of f t +:+ "." +:+ f_name f.

Definition env_names (l : option (list string)) : list string := default [] l.

Definition _handle_env_status (c : caller) (sandbox_env : option (list (string * string))) : M MCPToolResult :=
  ns ← _get_namespace c;
  fs ← on_store (list_all_for_namespace (n_id ns));
  w ← getS;
  let provided := map fst (env_of sandbox_env) in
  let required := fv ← fs; env_names (required_env (v_spec fv.2)) in
  let optional := fv ← fs; env_names (optional_env (v_spec fv.2)) in
  let row (fv : function * version) :=
    let req := env_names (required_env (v_spec fv.2)) in
    PDict [("required", PList (map PStr req)); ("optional", PList (map PStr (env_names (optional_env (v_spec fv.2)))));
           ("status", PStr (if forallb (fun r => str_in r provided) req then "ready" else "missing_env"))] in
  let per_function := fold_left (fun d fv => dict_set (tool_name_of (tables w) fv.1) (row fv) d) fs [] in
  let missing_required := py_sorted (List.filter (fun r => negb (str_in r provided)) required) in
  mret (ToolResult_ (json_dumps (PDict ([
      ("configured", PList (map PStr (py_sorted (List.filter (fun r => str_in r provided) (required ++ optional)))));
      ("missing_required", PList (map PStr missing_required));
      ("missing_optional", PList (map PStr (py_sorted (List.filter (fun r => negb (str_in r provided)) optional))));
      ("functions", PDict per_function)] ++
      match missing_required with
      | [] => []
      | _ => [("note", PStr ("Functions with status 'missing_env' will fail. " +:+
                             "Add missing variables to your MCP server X-MCPWorks-Env header."))]
      end))) false None).

(** The context of a direct call is a new object that no key leads to. *)
Definition fresh_context (ctx : ExecutionContext) : M nat := fun w =>
  let r := reg (proxy w) in
  (Ok (length (objects r)),
   with_proxy (ApiProxy.St (Registry (objects r ++ [ctx]) (_registry r)) (ApiProxy.world (proxy w)) (sent (proxy w)) (recorded (proxy w))) w).

Definition _dispatch_published_api (c : caller) (name : string) (arguments : list (string * pyval)) (sandbox_env : option (list (string * string)))
    : M MCPToolResult :=
  match parse_api_tool_name name with
  | None => raise (ValueError ("Invalid API tool name: " +:+ name))
  | Some (server, operation) =>
      ns ← _get_namespace c;
      passthrough ← _load_api_passthrough_env (n_id ns) (env_of sandbox_env);
      execution_id ← ask fresh_uuid;
      now ← ask clock_ms;
      addr ← fresh_context (Context_ execution_id (n_id ns) (c_namespace_name c) now 0 0 0 passthrough);
      w ← getS;
      r ← on_proxy (proxy_and_format kek lossy_decode run compute_hash (api_tables w) addr server operation arguments
                      (Some (n_name ns, dict_get (n_id ns) (pipelines w))) execution_id);
      mret (ToolResult_ r.2 false None)
  end.

Definition text_argument (key : string) (arguments : list (string * pyval)) : M string :=
  match dict_getd key (PStr "") arguments with PStr s => mret s | _ => raise TypeError end.

Definition dispatch_tool (c : caller) (name : string) (arguments : list (string * pyval)) (sandbox_env : option (list (string * string)))
    : M MCPToolResult :=
  _check_scope c name;;
  if str_in name ["execute_python"; "execute"] && String.eqb (c_mode c) "code" then
    code ← text_argument "code" arguments; _execute_code_mode c code sandbox_env
  else if String.eqb name "execute_typescript" && String.eqb (c_mode c) "code" then
    code ← text_argument "code" arguments; _execute_code_mode_ts c code sandbox_env
  else if String.eqb name "_env_status" then _handle_env_status c sandbox_env
  else if starts_with "api__" name then _dispatch_published_api c name arguments sandbox_env
  else
    match split_once "." name with
    | None => raise (ValueError ("Invalid tool name format. Expected service.function, got: " +:+ name))
    | Some (service_name, function_name) => dispatch_function c name service_name function_name arguments sandbox_env
    end.

(** ** JSON-RPC *)

Definition METHOD_NOT_FOUND : Z := -32601.
Definition INVALID_PARAMS : Z := -32602.
Definition NOT_FOUND : Z := -32003.
Definition EXECUTION_ERROR : Z := -32006.

Inductive rpc_response := RpcResult (v : pyval) | RpcTool (r : MCPToolResult) | RpcError (code : Z).

(** Which exceptions are instances of [ValueError]: the decoders' errors are. *)
Definition is_value_error (e : exn) : bool :=
  match e with
  | ValueError _ | Service Security.ValueError | Proxy GateValueError | Raised true _
  | State (CryptoError (Encryption.ValueError | Encryption.UnicodeDecodeError | Encryption.JsonError _)) => true
  | _ => false
  end.

(** The error code that [_handle_tools_call] gives to an exception. *)
Definition code_of_exn (e : exn) : Z :=
  match e with
  | AgentAccessDenied _ _ _ => INVALID_PARAMS
  | _ =>
      if is_value_error e then INVALID_PARAMS
      else match e with
           | Service (Mcp Security.NotFoundError _) | State (AgentState.NotFoundError _) => NOT_FOUND
           | _ => EXECUTION_ERROR
           end
  end.

(** [MCPToolCallParams] of the parameters: a name, and arguments that are a dict. *)
Definition call_params (params : list (string * pyval)) : option (string * list (string * pyval)) :=
  match dict_get "name" params, dict_getd "arguments" (PDict []) params with
  | Some (PStr name), PDict arguments => Some (name, arguments)
  | _, _ => None
  end.

Definition _handle_tools_call (c : caller) (params : list (string * pyval)) : stm world Empty_set rpc_response := fun w =>
  match call_params params with
  | None => (Ok (RpcError INVALID_PARAMS), w)
  | Some (name, arguments) =>
      match dispatch_tool c name arguments None w with
      | (Ok r, w) => (Ok (RpcTool r), w)
      | (Err e, w) => (Ok (RpcError (code_of_exn e)), w)
      end
  end.

(** ** The list of tools *)

(** [_env_status] and the functions; the texts of descriptions are left out. *)
Definition function_tools (t : store) (tag_filter : list string) (fs : list (function * version)) : list (string * pyval) :=
  map (fun fv => (tool_name_of t fv.1, match input_schema (v_spec fv.2) with
                                       | Some s => if truthy s then s else PDict [("type", PStr "object"); ("properties", PDict [])]
                                       | None => PDict [("type", PStr "object"); ("properties", PDict [])] end))
    (match tag_filter with
     | [] => fs
     | _ => List.filter (fun fv => existsb (fun t => str_in (str_lower t) tag_filter) (default [] (f_tags fv.1))) fs
     end).

(** Published endpoints of enabled servers, by server and operation. *)
Definition published_rows (ns : string) (t : ApiProxy.tables) : list (string * api_endpoint) :=
  order_by (fun a b => if String.eqb a.1 b.1 then str_leb (operation_id a.2) (operation_id b.2) else str_leb a.1 b.1)
    (s ← enabled_api_servers ns t;
     e ← endpoints t;
     if String.eqb (ep_server_id e) (srv_id s) && published e then [(srv_name s, e)] else []).

Definition _load_published_api_tools (c : caller) : M (list (string * pyval)) :=
  ns ← _get_namespace_for_read c;
  w ← getS;
  mret (map (fun p => let '(name, _, schema) := build_published_api_tool p.1 p.2 in (name, schema)) (published_rows (n_id ns) (api_tables w))).

Definition code_tool (name : string) : string * pyval :=
  (name, PDict [("type", PStr "object"); ("required", PList [PStr "code"])]).

Definition get_tools (c : caller) (tag_filter : list string) : M (list (string * pyval)) :=
  if String.eqb (c_mode c) "code" then
    published ← _load_published_api_tools c;
    mret ([code_tool "execute_python"; code_tool "execute_typescript"] ++ published)
  else
    ns ← _get_namespace_for_read c;
    fs ← on_store (list_all_for_namespace (n_id ns));
    w ← getS;
    published ← _load_published_api_tools c;
    mret (function_tools (tables w) tag_filter fs ++
          [("_env_status", PDict [("type", PStr "object"); ("properties", PDict [])])] ++ published).

(** ** The tasks that the answer leaves behind *)

(** [set_cached_result] and [_recover_agent_trust]; the other tasks write
    telemetry. *)
Definition run_task (now : Z) (b : background) (w : world) : world :=
  match b with
  | CacheResult key output ttl =>
      World (tables w) (agent_rows w) (mcp_rows w) (api_tables w) (pipelines w) (cache_policies w) (states w) (proxy w)
        (set_cached_result (cache w) now key output ttl) (executions w) (tasks w) (out w)
  | RecoverTrust ns =>
      match agent_of ns w with
      | None => w
      | Some a =>
          let better a' := if String.eqb (ag_row_id a') (ag_row_id a) && (ag_trust a' <? TRUST_RECOVERY_CAP)
            then AgentRules (ag_row_id a') (ag_namespace a') (ag_row_name a') (access_rules a')
                   (Z.min TRUST_RECOVERY_CAP (ag_trust a' + TRUST_RECOVERY_DELTA))
            else a' in
          World (tables w) (map better (agent_rows w)) (mcp_rows w) (api_tables w) (pipelines w) (cache_policies w) (states w) (proxy w)
            (cache w) (executions w) (tasks w) (out w)
      end
  | _ => w
  end.
End handler.

(** ** Running computations *)

Section facts.
Context `{Network} `{Aead} `{Crypto} {R : Type} `{TextCacheOps R} `{RunOutside}.

Abbreviation wld := (world (R := R)).
Abbreviation M := (stm wld exn).



(** A part that is none of the tables, the states of agents, the tasks and the
    outside. *)
Class Part {T} (f : wld -> T) := {
  part_store t w : f (with_store t w) = f w;
  part_states s w : f (with_states s w) = f w;
  part_out o w : f (with_out o w) = f w;
  part_task b w : f (create_task b w).2 = f w
}.

#[export] Instance executions_part : Part executions.
Proof. by split. Qed.
#[export] Instance proxy_part : Part proxy.
Proof. by split. Qed.

Section part.
Context {T} (f : wld -> T) `{!Part f}.

#[local] Set Default Proof Using "Type*".

Lemma keeps_asking {A} (g : around -> A * around) : frame f (ask g).
Proof. intros w. unfold ask. destruct (g (out w)). apply part_out. Qed.
Lemma keeps_store {A} (m : stm store Security.exn A) : frame f (on_store m).
Proof. intros w. unfold on_store. destruct (m (tables w)) as [[]]; apply part_store. Qed.
Lemma keeps_on_states' {A} (m : stm AgentState.st AgentState.err A) : frame f (on_states m).
Proof. intros w. unfold on_states. destruct (m (states w)) as [[]]; apply part_states. Qed.
Lemma keeps_task b : frame f (create_task b).
Proof. intros w. apply part_task. Qed.
End part.
End facts.

#[export] Hint Resolve keeps_asking keeps_store keeps_on_states' keeps_task : frame.
#[export] Hint Extern 1 (Part _) => (apply executions_part || apply proxy_part) : frame.


Section parts.
Context `{Network} `{Aead} `{Crypto} {R : Type} `{TextCacheOps R} `{RunOutside}.
Context (b64decode : string -> string) (kek_b64 : string).
Context (run : scanner -> string -> ScanContext -> option (string * ScanVerdict)) (compute_hash : string -> string).
Abbreviation wld := (world (R := R)).
Context {T} (f : wld -> T) `{!Part f}.

#[local] Set Default Proof Using "Type*".

Lemma keeps_namespace c : frame f (_get_namespace c).
Proof. unfold _get_namespace, on_namespaces. frame_tac. Qed.
Lemma keeps_context n : frame f (_load_agent_context b64decode kek_b64 n).
Proof. unfold _load_agent_context. frame_tac. Qed.
Lemma keeps_pipeline c text n s g e o : frame f (_run_output_pipeline run compute_hash c text n s g e o).
Proof. unfold _run_output_pipeline. frame_tac. Qed.
Lemma keeps_run_backend b : frame f (run_backend b).
Proof. unfold run_backend. frame_tac. Qed.
Lemma keeps_rules n s g : frame f (_check_agent_function_access n s g).
Proof.
  intros w. unfold _check_agent_function_access, mbind, stm_bind, getS. destruct (agent_of _ _) as [a|]; [|done].
  destruct (some_rules _); [|done]. by destruct (check_function_access _ _ _ _) as [[] ?].
Qed.
Lemma keeps_latency s : frame f (elapsed_since s).
Proof. unfold elapsed_since. frame_tac. Qed.
Lemma keeps_read_cache k : frame f (read_cache k).
Proof. unfold read_cache. frame_tac. Qed.
Lemma keeps_policy g : frame f (cache_policy_of g).
Proof. unfold cache_policy_of. frame_tac. Qed.
End parts.

#[export] Hint Resolve keeps_namespace keeps_context keeps_pipeline keeps_run_backend keeps_rules keeps_latency keeps_read_cache
  keeps_policy : frame.

Section cached.
Context `{Network} `{Aead} `{Crypto} {R : Type} `{TextCacheOps R} `{RunOutside}.
Abbreviation wld := (world (R := R)).
Context {T} (f : wld -> T) `{!Part f}.
#[local] Set Default Proof Using "Type*".

Lemma keeps_execute_cached c g v args bypass env context : frame f (execute_cached c g v args bypass env context).
Proof. unfold execute_cached. frame_tac. Qed.
End cached.
#[export] Hint Resolve keeps_execute_cached : frame.

(** ** Calls of functions *)

Section calls.
Context `{Network} `{Aead} `{Crypto} {R : Type} `{TextCacheOps R} `{RunOutside}.
Context (kek : option string) (lossy_decode : string -> string) (b64decode : string -> string) (kek_b64 : string).
Context (run : scanner -> string -> ScanContext -> option (string * ScanVerdict)) (compute_hash : string -> string).
Context (backends : list string) (set_iter : list string -> list string).

Abbreviation wld := (world (R := R)).
Abbreviation M := (stm wld exn).
Abbreviation dispatch := (dispatch_tool (R := R) kek lossy_decode b64decode kek_b64 run compute_hash backends set_iter).
Abbreviation call := (dispatch_function (R := R) b64decode kek_b64 run compute_hash backends).


(** Looking a namespace up changes nothing. *)
Lemma get_by_name_pure name acc u p t : (Namespaces.get_by_name name acc u p t).2 = t.
Proof.
  unfold Namespaces.get_by_name, mbind, stm_bind.
  destruct (select_cases namespaces (fun n => String.eqb (n_name n) (str_lower name) && Namespaces.is_live n) t) as [(n & -> & _)|[[-> _]| ->]]; try done.
  unfold check_owner. destruct acc as [acc|]; [|done]. destruct (String.eqb _ _); [done|].
  destruct u as [u|], p as [p|]; try done. destruct (truthy_str p); [|done].
  unfold _check_share_access, mbind, stm_bind.
  destruct (select_cases shares (fun x => String.eqb (sh_namespace_id x) (n_id n) && String.eqb (sh_user_id x) u
    && bool_decide (status x = ACCEPTED)) t) as [(x & -> & _)|[[-> _]| ->]]; try done. by destruct (str_in p (permissions x)).
Qed.

Lemma get_namespace_run c (w : wld) :
  _get_namespace c w =
    (match (Namespaces.get_by_name (c_namespace_name c) (Some (c_account_id c)) (Some (c_user_id c)) (Some "execute") (Functions.ns (tables w))).1 with
     | Ok n => Ok n | Err e => Err (Service e) end, w).
Proof.
  unfold _get_namespace, on_namespaces, on_store, on_services.
  pose proof (get_by_name_pure (c_namespace_name c) (Some (c_account_id c)) (Some (c_user_id c)) (Some "execute") (Functions.ns (tables w))) as Hp.
  destruct (Namespaces.get_by_name _ _ _ _ _) as [[n|e] t]; cbn in *; subst t; by destruct w as [[]].
Qed.

Lemma get_for_execution_pure n sn fn s : (get_for_execution n sn fn s).2 = s.
Proof.
  unfold get_for_execution, mbind, stm_bind, getS, lift_res. destruct (one_or_none _ _) as [[g|]|]; try done.
  by destruct (get_active_version_obj _ _).
Qed.

(** What the rules say about a call, as the names are written. *)
Definition rules_allow (w : wld) (ns sn fn : string) : bool :=
  match agent_of ns w with
  | Some a => match some_rules (access_rules a) with
              | Some rules => (check_function_access (Some rules) sn fn (Some (ag_trust a))).1
              | None => true
              end
  | None => true
  end.

Lemma check_rules_run n sn fn (w : wld) u w1 :
  _check_agent_function_access n sn fn w = (Ok u, w1) -> w1 = w /\ rules_allow w (n_id n) sn fn = true.
Proof.
  unfold _check_agent_function_access, rules_allow, mbind, stm_bind, getS.
  destruct (agent_of _ w) as [a|]; [|by intros [= _ <-]]. destruct (some_rules _) as [rules|]; [|by intros [= _ <-]].
  destruct (check_function_access _ _ _ _) as [[] i]; [by intros [= _ <-]|done].
Qed.

#[local] Set Default Proof Using "Type*".

(** The row that an execution leaves. *)
Definition execution_of (c : caller) (n : Namespaces.namespace) (sn fn : string) (f : function) (v : version) (input : list (string * pyval))
    (eid : string) (x : ExecutionResult) (row : execution) : Prop :=
  e_id row = eid /\ e_namespace_id row = n_id n /\ e_service_name row = sn /\ e_function_name row = fn /\ e_user_id row = c_user_id c /\
  e_function_id row = f_id f /\ e_version row = v_version v /\ e_backend row = backend (v_spec v) /\ e_input row = PDict input /\
  e_status row = (if x_success x then "completed" else "failed") /\
  e_result row = (if x_success x then Some (x_output x) else None).

(** What the caller is shown of an execution. *)
Definition shown (w : wld) (c : caller) (n : Namespaces.namespace) (sn fn eid trust : string) (x : ExecutionResult) : string :=
  if x_success x then
    let content := json_dumps (x_output x) in
    default content (modified_content (evaluate_pipeline run compute_hash content
      {| PatternScanner.direction := "output"; PatternScanner.namespace := c_namespace_name c; PatternScanner.service := sn;
         PatternScanner.function := fn; PatternScanner.execution_id := eid; PatternScanner.output_trust := trust |}
      (dict_get (n_id n) (pipelines w))))
  else failure_text x.

(** The database takes the row when it is flushed, and otherwise the loss is logged:
    [o] is the outside at that moment. *)
Definition stored_once (log log' : list execution) (row : execution) : Prop :=
  exists o, log' = log ++ (if (flush_ok o).1 then [row] else []).

Lemma persist_effect c eid ns sn fn g v args x ms start (w : wld) u w' :
  _persist_execution_record c eid ns sn fn g v args x ms start w = (Ok u, w') ->
  pipelines w' = pipelines w /\ exists row, stored_once (executions w) (executions w') row /\
    e_id row = eid /\ e_namespace_id row = ns /\ e_service_name row = sn /\ e_function_name row = fn /\
    e_user_id row = c_user_id c /\ e_function_id row = f_id g /\ e_version row = v_version v /\ e_backend row = backend (v_spec v) /\
    e_input row = args /\ e_status row = (if x_success x then "completed" else "failed") /\
    e_result row = (if x_success x then Some (x_output x) else None).
Proof.
  unfold _persist_execution_record, ask, mbind, stm_bind. destruct (flush_ok (out w)) as [b o] eqn:E. intros Hrun.
  split; [by destruct b; injection Hrun as <- <-|].
  match type of Hrun with context [add_execution ?row] => exists row end. split; [exists (out w); rewrite E|].
  - destruct b; injection Hrun as <- <-; cbn; [done|by rewrite app_nil_r].
  - done.
Qed.

Lemma finish_effect c n sn fn name g v args eid start x (w : wld) r w' :
  finish_function run compute_hash c n sn fn name g v args eid start x w = (Ok r, w') ->
  isError r = negb (x_success x) /\ r_text r = shown w c n sn fn eid (output_trust g) x /\
  exists row, stored_once (executions w) (executions w') row /\ execution_of c n sn fn g v args eid x row.
Proof.
  unfold finish_function. intros (ms & w1 & K1 & Hrun)%stm_bind_Ok.
  assert (executions w1 = executions w) as E1 by (eapply frame_result; [|exact K1]; auto with frame typeclass_instances).
  assert (pipelines w1 = pipelines w) as P1 by (unfold elapsed_since, ask, mbind, stm_bind in K1; destruct (clock_ms _); by injection K1 as <- <-).
  apply stm_bind_Ok in Hrun as (u & w2 & K2 & Hrun). apply persist_effect in K2 as [P2 E2]. rewrite P1 in P2. rewrite E1 in E2.
  apply stm_bind_Ok in Hrun as (u3 & w3 & [= <- <-] & Hrun). apply stm_bind_Ok in Hrun as (u4 & w4 & [= <- <-] & Hrun).
  apply stm_bind_Ok in Hrun as (u5 & w5 & K5 & Hrun).
  assert (executions w5 = executions w2 /\ pipelines w5 = pipelines w2) as [E5 P5] by (by destruct (x_success x); injection K5 as <- <-).
  rewrite <-E5 in E2. unfold answer in Hrun. apply stm_bind_Ok in Hrun as (text & w6 & K6 & [= <- ->]). cbn [isError r_text].
  assert (w' = w5 /\ r_text (ToolResult_ text (negb (x_success x)) None) = shown w c n sn fn eid (output_trust g) x) as [-> Ht].
  { unfold shown. rewrite <-P2, <-P5. destruct (x_success x); by injection K6 as <- <-. }
  split; [done|]. split; [exact Ht|exact E2].
Qed.

(** The call of the sandbox for a version. *)
Definition version_call (c : caller) (v : version) (input : list (string * pyval)) (env : list (string * string))
    (context : option (list (string * pyval))) (eid : string) : backend_call :=
  BackendCall (backend (v_spec v)) (code (v_spec v)) (config (v_spec v)) (PDict input) eid (match env with [] => None | e => Some e end)
    context (v_language v) (c_namespace_name c) None.

(** An answer of the sandbox for the version, or one that the cache had under
    its key. *)
Definition obtained (c : caller) (f : function) (v : version) (input : list (string * pyval)) (env : list (string * string)) (w : wld)
    (eid : string) (x : ExecutionResult) : Prop :=
  (exists context o, (execute (version_call c v input env context eid) o).1 = Ok x) \/
  (exists output now, x = cached_execution output /\ output <> PNone /\
     get_cached_result (cache w) now (make_cache_key (f_id f) (v_version v) (Some input)) = output).

(** The execution of a call whose environment is complete. *)
Definition executed (c : caller) (n : Namespaces.namespace) (sn fn : string) (f : function) (v : version) (args : list (string * pyval))
    (env : list (string * string)) (w w' : wld) (r : MCPToolResult) : Prop :=
  backend (v_spec v) ∈ backends /\
  exists x eid w1, pipelines w1 = pipelines w /\ obtained c f v (dict_pop "cache" args) env w eid x /\
    isError r = negb (x_success x) /\ r_text r = shown w1 c n sn fn eid (output_trust f) x /\
    exists row, stored_once (executions w) (executions w') row /\ execution_of c n sn fn f v (dict_pop "cache" args) eid x row.

Instance pipelines_part : Part (R := R) pipelines.
Proof. by split. Qed.

Instance cache_part : Part (R := R) cache.
Proof. by split. Qed.

Lemma execute_cached_obtained c f v input bypass env context (w : wld) eid start x w' :
  execute_cached c f v input bypass (match env with [] => None | e => Some e end) context w = (Ok (eid, start, x), w') ->
  obtained c f v input env w eid x.
Proof.
  unfold execute_cached. intros ([enabled ttl] & w1 & K1 & Hrun)%stm_bind_Ok.
  assert (cache w1 = cache w) as C1 by (eapply frame_result; [|exact K1]; auto using cache_part with frame).
  apply stm_bind_Ok in Hrun as (cached & w2 & K2 & Hrun).
  assert (cached <> PNone -> exists now, get_cached_result (cache w) now (make_cache_key (f_id f) (v_version v) (Some input)) = cached) as Hc.
  { destruct (enabled && negb bypass); [|by apply stm_ret_Ok in K2 as [<- _]].
    apply stm_bind_Ok in K2 as (now & w3 & K3 & K2). intros _. exists now.
    assert (cache w3 = cache w1) as C3 by (eapply frame_result; [|exact K3]; auto using keeps_asking, cache_part).
    injection K2 as <- _. by rewrite C3, C1. }
  apply stm_bind_Ok in Hrun as (id & w3 & _ & Hrun). apply stm_bind_Ok in Hrun as (st & w4 & _ & Hrun).
  destruct cached; [|apply stm_ret_Ok in Hrun as [[= <- _ <-] _]; right; destruct Hc as [now Hc]; [done|]; by eauto..].
  apply stm_bind_Ok in Hrun as (y & w5 & K5 & Hrun). apply stm_bind_Ok in Hrun as (u & w6 & _ & [[= <- _ <-] _]%stm_ret_Ok).
  left. exists context, (out w4). unfold run_backend, ask, mbind, stm_bind in K5. unfold version_call.
  destruct (execute _ _) as [[z|[]] o]; [|done]. by injection K5 as <- _.
Qed.

Lemma call_sound c name sn fn args env (w : wld) r w' :
  call c name sn fn args env w = (Ok r, w') ->
  exists n f v,
    (Namespaces.get_by_name (c_namespace_name c) (Some (c_account_id c)) (Some (c_user_id c)) (Some "execute") (Functions.ns (tables w))).1 = Ok n /\
    rules_allow w (n_id n) sn fn = true /\
    (get_for_execution (n_id n) sn fn (tables w)).1 = Ok (f, v) /\
    match function_env (env_of env) (required_env (v_spec v)) (optional_env (v_spec v)) with
    | inr missing => r = missing_env_result missing /\ executions w' = executions w
    | inl e => executed c n sn fn f v args e w w' r
    end.
Proof.
  unfold dispatch_function. intros (n & w1 & Kn & Hrun)%stm_bind_Ok. rewrite get_namespace_run in Kn.
  destruct (Namespaces.get_by_name _ _ _ _ _).1 as [n'|] eqn:En; [|done]. injection Kn as -> <-.
  apply stm_bind_Ok in Hrun as (u & w1 & Ku & Hrun). apply check_rules_run in Ku as [-> Ha].
  apply stm_bind_Ok in Hrun as ([f v] & w1 & Kf & Hrun).
  assert (exists t, w1 = with_store t w /\ (get_for_execution (n_id n) sn fn (tables w)).1 = Ok (f, v)) as (t & -> & Hf).
  { unfold on_store in Kf. destruct (get_for_execution _ _ _ _) as [[p|] t]; [|done]. injection Kf as -> <-. by exists t. }
  exists n, f, v. split; [done|]. split; [done|]. split; [done|]. destruct (function_env _ _ _) as [e|missing].
  2:{ by injection Hrun as <- <-. }
  unfold executed. destruct (str_in (backend (v_spec v)) backends) eqn:Hb; cbn [negb] in Hrun; [|done]. apply str_in_spec in Hb.
  split; [done|]. apply stm_bind_Ok in Hrun as (context & w2 & Kc & Hrun). apply stm_bind_Ok in Hrun as ([[eid start] x] & w3 & Kx & Hrun).
  apply finish_effect in Hrun as (He & Ht & Hr).
  assert (executions w3 = executions w) as E3.
  { transitivity (executions w2); [eapply frame_result; [|exact Kx]|transitivity (executions (with_store t w)); [eapply frame_result; [|exact Kc]|done]];
      auto with frame typeclass_instances. }
  assert (cache w2 = cache w) as C2
    by (transitivity (cache (with_store t w)); [eapply frame_result; [|exact Kc]; auto using cache_part with frame|done]).
  assert (pipelines w3 = pipelines w) as P3.
  { transitivity (pipelines w2); [eapply frame_result; [|exact Kx]|transitivity (pipelines (with_store t w)); [eapply frame_result; [|exact Kc]|done]];
      auto using pipelines_part with frame. }
  rewrite E3 in Hr. apply execute_cached_obtained in Kx. exists x, eid, w3. split; [done|].
  split; [|done]. unfold obtained in *. by rewrite <-C2.
Qed.

(** [C4] A tool call that runs a function runs the right one: the key has the
    scope, the namespace is the one of the request and open to the caller, the
    rules of its agent allow the call, and the code is the active version of
    the live function of that name. Without a variable that the version requires
    nothing runs and nothing is recorded; otherwise the answer is that of one
    answer of the sandbox for the code, the arguments and the environment of the
    version, or of one that the cache had, what is shown of a success has passed
    the pipeline of the namespace, and one row with the caller, the version, the
    arguments and the result is added to the executions, if the database takes
    it when it is flushed. *)
Theorem function_call_sound c name sn fn args env (w : wld) r w' :
  split_once "." name = Some (sn, fn) -> starts_with "api__" name = false -> dispatch c name args env w = (Ok r, w') ->
  "execute" ∈ c_scopes c /\
  exists n f v,
    (Namespaces.get_by_name (c_namespace_name c) (Some (c_account_id c)) (Some (c_user_id c)) (Some "execute") (Functions.ns (tables w))).1 = Ok n /\
    rules_allow w (n_id n) sn fn = true /\
    (get_for_execution (n_id n) sn fn (tables w)).1 = Ok (f, v) /\
    match function_env (env_of env) (required_env (v_spec v)) (optional_env (v_spec v)) with
    | inr missing => r = missing_env_result missing /\ executions w' = executions w
    | inl e => executed c n sn fn f v args e w w' r
    end.
Proof.
  intros Hsplit Hapi. unfold dispatch_tool. intros (u & w1 & Ku & Hrun)%stm_bind_Ok.
  assert (forall t, str_contains "." t = false -> String.eqb name t = false) as Hne.
  { intros t Hp. apply String.eqb_neq. intros ->. apply split_once_None in Hp. congruence. }
  assert (str_in name ["execute_python"; "execute"] = false) as Hin.
  { apply bool_decide_eq_false. rewrite !elem_of_cons. intros [->|[->|[]%elem_of_nil]]; by vm_compute in Hsplit. }
  rewrite Hin, (Hne "execute_typescript"), (Hne "_env_status"), Hapi, Hsplit in Hrun by reflexivity. cbn [andb] in Hrun.
  unfold _check_scope in Ku. assert (dict_getd name "execute" TOOL_SCOPES = "execute") as Hs.
  { unfold dict_getd, TOOL_SCOPES. cbn [dict_get]. pose proof (Hne "_env_status" eq_refl) as He.
    first [by rewrite He|rewrite String.eqb_sym in He; by rewrite He]. }
  rewrite Hs in Ku. destruct (str_in "execute" (c_scopes c)) eqn:Hscope; [|done]. injection Ku as _ <-.
  split; [by apply str_in_spec|]. by eapply call_sound.
Qed.

Lemma denied_run c name sn fn args env (w : wld) n a rules rule_id :
  (Namespaces.get_by_name (c_namespace_name c) (Some (c_account_id c)) (Some (c_user_id c)) (Some "execute") (Functions.ns (tables w))).1 = Ok n ->
  agent_of (n_id n) w = Some a -> some_rules (access_rules a) = Some rules ->
  check_function_access (Some rules) sn fn (Some (ag_trust a)) = (false, rule_id) ->
  call c name sn fn args env w = (Err (AgentAccessDenied (ag_row_name a) (sn +:+ "." +:+ fn) (default "unknown" rule_id)), w).
Proof.
  intros Hn Ha Hr Hc. unfold dispatch_function. unfold mbind, stm_bind. rewrite get_namespace_run, Hn.
  unfold _check_agent_function_access, mbind, stm_bind, getS. by rewrite Ha, Hr, Hc.
Qed.

(** [C8] A call that the rules of the agent forbid does nothing at all: it
    raises, and the world is the one before. *)
Theorem denied_call_inert c name sn fn args env (w : wld) n a rules rule_id :
  (Namespaces.get_by_name (c_namespace_name c) (Some (c_account_id c)) (Some (c_user_id c)) (Some "execute") (Functions.ns (tables w))).1 = Ok n ->
  agent_of (n_id n) w = Some a -> some_rules (access_rules a) = Some rules ->
  check_function_access (Some rules) sn fn (Some (ag_trust a)) = (false, rule_id) ->
  call c name sn fn args env w = (Err (AgentAccessDenied (ag_row_name a) (sn +:+ "." +:+ fn) (default "unknown" rule_id)), w).
Proof. apply denied_run. Qed.

(** A hit of the cache is the answer, whoever asks and with whatever
    environment: the sandbox is not called. *)
Lemma cache_hit_answers c f v args env context (w : wld) ttl r w' :
  get_cache_policy (dict_getd (f_id f) PNone (cache_policies w)) = Some (true, ttl) ->
  get_cached_result (cache w) (clock_ms (out w)).1 (make_cache_key (f_id f) (v_version v) (Some args)) <> PNone ->
  execute_cached c f v args false env context w = (Ok r, w') ->
  r.2 = cached_execution (get_cached_result (cache w) (clock_ms (out w)).1 (make_cache_key (f_id f) (v_version v) (Some args))).
Proof.
  intros Hp Hg. unfold execute_cached. intros (p & w1 & Kp & Hrun)%stm_bind_Ok.
  unfold cache_policy_of, mbind, stm_bind, getS in Kp. rewrite Hp in Kp. injection Kp as <- <-. cbn [andb negb] in Hrun.
  apply stm_bind_Ok in Hrun as (cached & w2 & Kc & Hrun).
  assert (cached = get_cached_result (cache w) (clock_ms (out w)).1 (make_cache_key (f_id f) (v_version v) (Some args))) as ->.
  { unfold read_cache, ask, mbind, stm_bind, getS in Kc. destruct (clock_ms (out w)) as [now o]. by injection Kc as <- <-. }
  apply stm_bind_Ok in Hrun as (eid & w3 & _ & Hrun). apply stm_bind_Ok in Hrun as (start & w4 & _ & Hrun).
  destruct (get_cached_result _ _ _); [done|..]; by injection Hrun as <- _.
Qed.

(** *** Registrations of code mode *)

(** The entries of the registry. *)
Definition entries_of (w : wld) : gmap string nat := _registry (reg (proxy w)).

#[local] Instance entries_part : Part entries_of.
Proof. by split. Qed.

Lemma entries_with_registry f (w : wld) : entries_of (with_registry f w).2 = _registry (f (reg (proxy w))).
Proof. done. Qed.

Lemma entries_close token n eid code x (w : wld) :
  entries_of (close_execution token n eid code x w).2 = match token with Some t => delete t (entries_of w) | None => entries_of w end.
Proof. unfold close_execution, mbind, stm_bind, getS. by destruct token. Qed.

(** After [begin] only [token] was entered; after the [finally] it is out. *)
Lemma entries_finally {A} (m : M A) token n eid code (h : option A -> M unit) (w : wld) :
  frame entries_of m -> (forall x w1, entries_of (h x w1).2 = entries_of (close_execution token n eid code None w1).2) ->
  entries_of (finally m h w).2 = match token with Some t => delete t (entries_of w) | None => entries_of w end.
Proof.
  intros Hm Hh. specialize (Hm w). unfold finally. destruct (m w) as [[a|e] w1]; cbn in *; by rewrite Hh, entries_close, Hm.
Qed.

Lemma entries_bind {A B} (m : M A) (k : A -> M B) (P : gmap string nat -> Prop) (w : wld) :
  frame entries_of m -> P (entries_of w) -> (forall a w1, entries_of w1 = entries_of w -> P (entries_of (k a w1).2)) ->
  P (entries_of ((m ≫= k) w).2).
Proof.
  intros Hm Hw Hk. unfold mbind, stm_bind. specialize (Hm w). destruct (m w) as [[a|e] w1]; cbn in *; [|by rewrite Hm]. by apply Hk.
Qed.

Lemma entries_end {A} (m : M A) (P : gmap string nat -> Prop) (w : wld) : frame entries_of m -> P (entries_of w) -> P (entries_of (m w).2).
Proof. intros Hm Hw. by rewrite Hm. Qed.

(** What code mode may do to the registry: nothing, or forget its own key. *)
Definition closed (c : caller) (r r' : gmap string nat) : Prop := r' = r \/ exists t, c_raw_key c = Some t /\ r' = delete t r.

Ltac entries_tac := apply entries_bind; [solve [frame_tac; auto using entries_part with frame]|assumption|].

Lemma keeps_load_mcp {T} (f : wld -> T) `{!Part f} ns : frame f (_load_mcp_server_tools ns).
Proof. unfold _load_mcp_server_tools. frame_tac. Qed.
Lemma keeps_load_api {T} (f : wld -> T) `{!Part f} ns : frame f (_load_api_server_endpoints ns).
Proof. unfold _load_api_server_endpoints. frame_tac. Qed.
Lemma keeps_passthrough {T} (f : wld -> T) `{!Part f} ns env : frame f (_load_api_passthrough_env set_iter ns env).
Proof. unfold _load_api_passthrough_env. frame_tac. Qed.
Lemma keeps_code_answer {T} (f : wld -> T) `{!Part f} c mode eid ms called scan r :
  frame f (code_answer run compute_hash c mode eid ms called scan r).
Proof. unfold code_answer. frame_tac. Qed.
#[local] Hint Resolve keeps_load_mcp keeps_load_api keeps_passthrough keeps_code_answer : frame.

(** A run between its registration and the [finally]. *)
Lemma entries_window {B} token now ns name eid env (m : M ExecutionResult) n eid' code (k : ExecutionResult -> M B) (w : wld) :
  frame entries_of m -> (forall a, frame entries_of (k a)) ->
  entries_of ((match token with Some t => with_registry (register_execution now t ns name eid env) | None => mret tt end;;
               x ← finally m (close_execution token n eid' code); k x) w).2 =
    match token with Some t => delete t (entries_of w) | None => entries_of w end.
Proof.
  intros Hm Hk. set (w1 := ((match token with Some t => with_registry (register_execution now t ns name eid env) | None => mret tt end : M unit) w).2).
  assert (entries_of ((x ← finally m (close_execution token n eid' code); k x) w1).2 =
    match token with Some t => delete t (entries_of w1) | None => entries_of w1 end) as Hrun.
  { pose proof (entries_finally m token n eid' code (close_execution token n eid' code) w1 Hm) as Hf.
    unfold mbind, stm_bind. destruct (finally m _ w1) as [[a|e] w2]; cbn [snd] in *; [rewrite Hk|]; apply Hf;
      intros x w3; by rewrite !entries_close. }
  transitivity (entries_of ((x ← finally m (close_execution token n eid' code); k x) w1).2).
  { unfold w1. by destruct token. }
  rewrite Hrun. unfold w1. destruct token as [t|]; [|done]. rewrite entries_with_registry. cbn [register_execution _registry].
  by rewrite delete_insert_eq.
Qed.

(** Code mode leaves no key behind: after any run, also one that raised, the
    registry of executions is the one before, except that the caller's own key
    is gone from it, even if another run had registered it. *)
Theorem bridge_key_closed c code env (w : wld) :
  closed c (entries_of w) (entries_of (_execute_code_mode b64decode kek_b64 run compute_hash backends set_iter c code env w).2).
Proof.
  set (P := closed c (entries_of w)). assert (P (entries_of w)) as Hend by by left.
  unfold _execute_code_mode. destruct (String.eqb code ""); [apply entries_end; [frame_tac|done]|].
  assert (forall A (m : M A) (k : A -> M MCPToolResult) w0, frame entries_of m -> entries_of w0 = entries_of w ->
    (forall a w1, entries_of w1 = entries_of w -> P (entries_of (k a w1).2)) -> P (entries_of ((m ≫= k) w0).2)) as Hstep.
  { intros A m k w0 Hm Hw Hk. apply entries_bind; [done|by rewrite Hw|]. intros a w1 E1. apply Hk. congruence. }
  apply Hstep; [frame_tac|done|]. intros n w1 E1. apply Hstep; [frame_tac|done|]. intros fs w2 E2.
  apply Hstep; [frame_tac|done|]. intros mcp w3 E3. apply Hstep; [frame_tac|done|]. intros api w4 E4.
  apply Hstep; [frame_tac|done|]. intros context w5 E5. cbv zeta. apply Hstep; [frame_tac|done|]. intros pass w6 E6.
  destruct (negb (str_in "code_sandbox" backends)); [apply entries_end; [frame_tac|by rewrite E6]|].
  apply Hstep; [frame_tac|done|]. intros eid w7 E7. apply Hstep; [frame_tac|done|]. intros start w8 E8.
  rewrite entries_window; [|frame_tac|frame_tac]. rewrite E8.
  match goal with |- P (match ?x with Some _ => _ | None => _ end) => destruct x as [t|] eqn:Ht end; [|exact Hend].
  right. exists t. split; [|done]. destruct (_ || _); [|done]. by destruct (truthy_ostr (c_raw_key c)).
Qed.
End calls.

(** ** Runs *)

Section runs.

(** A sandbox that returns the environment it got, and a clock that stands. *)
#[local] Instance echo_sandbox : RunOutside := {
  around := nat;
  clock_ms n := (1000, n);
  fresh_uuid n := ("e" +:+ str_of_nat n, S n);
  execute b n := (Ok (ExecutionResult_ true (PDict (map (fun kv => (kv.1, PStr kv.2)) (default [] (b_sandbox_env b)))) None None None None None []), S n);
  flush_ok n := (true, n)
}.
#[local] Existing Instance scripted_net.
#[local] Existing Instance toy_aead.
#[local] Existing Instance toy_crypto.

Definition env_spec : spec := Spec "code_sandbox" (Some "return env") None None None None (Some ["TOKEN"]) None None.
Definition run_store : store :=
  Functions.run [Functions.Create 1 "f1" "v1" "s1" "post" env_spec None None "python" true "prompt"] empty_store.

Definition bot (rules : list access_rule) : agent_rules := AgentRules "ag1" "n1" "bot" (Some (AccessRules (Some rules) None)) 500.
Definition deny_social : access_rule := AccessRule (Some "r1") (Some "deny_services") (Some ["social"]) None.
Definition hook : pipeline_config :=
  {| fallback_policy := None; scanners := Some [Entry None (Some "webhook") (Some "guard") None None None None] |}.
Definition blocking : scanner -> string -> ScanContext -> option (string * ScanVerdict) :=
  run_scanner (fun s => s) (fun _ => None) (fun l => l) (fun _ _ => WReply {| rp_action := Some "block"; rp_score := Some (QArith_base.Qmake 1 1); rp_reason := Some "injection" |})
    (fun _ _ => PyImportFailed).

Definition demo_world (rules : list access_rule) : world (R := text_map) :=
  World run_store [bot rules] [] (ApiProxy.Tables [] []) [("n1", hook)] [("f1", PDict [("enabled", PBool true)])]
    (AgentState.St [] [] None) (ApiProxy.St empty_registry [] [] []) ∅ [] [] 0%nat.
Definition demo_caller (user : string) : caller := Caller "a1" user ["execute"] (Some "key") "acme" "tools".
Abbreviation demo_dispatch := (dispatch_tool (R := text_map) None (fun s => s) (fun s => s) "" blocking (fun s => s) ["code_sandbox"] (fun l => l)).
Definition demo_token (v : string) : option (list (string * string)) := Some [("TOKEN", v)].

(** What a call shows. *)
Definition shows (r : res exn MCPToolResult * world (R := text_map)) : option string :=
  match r.1 with Ok t => Some (r_text t) | Err _ => None end.

Lemma demo_call_runs :
  exists r w', demo_dispatch (demo_caller "u1") "social.post" [] (demo_token "s1") (demo_world []) = (Ok r, w').
Proof.
  assert (match (demo_dispatch (demo_caller "u1") "social.post" [] (demo_token "s1") (demo_world [])).1 with Ok _ => true | Err _ => false end = true)
    as Hok by (vm_compute; reflexivity).
  destruct (demo_dispatch _ _ _ _ _) as [[r|e] w'] eqn:E; [by exists r, w'|done].
Qed.

Lemma function_call_sound_witness :
  exists r w', "execute" ∈ c_scopes (demo_caller "u1") /\ exists n f v,
    (Namespaces.get_by_name "acme" (Some "a1") (Some "u1") (Some "execute") (Functions.ns run_store)).1 = Ok n /\
    rules_allow (demo_world []) (n_id n) "social" "post" = true /\
    (get_for_execution (n_id n) "social" "post" run_store).1 = Ok (f, v) /\
    match function_env (env_of (demo_token "s1")) (required_env (v_spec v)) (optional_env (v_spec v)) with
    | inr missing => r = missing_env_result missing /\ executions w' = executions (demo_world [])
    | inl e => executed blocking (fun s => s) ["code_sandbox"] (demo_caller "u1") n "social" "post" f v [] e (demo_world []) w' r
    end.
Proof.
  destruct demo_call_runs as (r & w' & E). exists r, w'.
  exact (function_call_sound None (fun s => s) (fun s => s) "" blocking (fun s => s) ["code_sandbox"] (fun l => l)
    (demo_caller "u1") "social.post" "social" "post" [] (demo_token "s1") (demo_world []) r w' eq_refl eq_refl E).
Defined.

Lemma denied_call_inert_witness :
  dispatch_function (R := text_map) (fun s => s) "" blocking (fun s => s) ["code_sandbox"] (demo_caller "u1") "social.post" "social" "post" []
    (demo_token "s1") (demo_world [deny_social]) = (Err (AgentAccessDenied "bot" "social.post" "r1"), demo_world [deny_social]).
Proof.
  exact (denied_call_inert (fun s => s) "" blocking (fun s => s) ["code_sandbox"] (demo_caller "u1") "social.post" "social" "post" []
    (demo_token "s1") (demo_world [deny_social]) (Namespace "n1" "a1" "acme" None None None 0 None) (bot [deny_social])
    (AccessRules (Some [deny_social]) None) (Some "r1") eq_refl eq_refl eq_refl eq_refl).
Defined.

(** The rules match the name as it is written, and the function is found in lower
    case: another capitalization evades any denial. *)
Example denial_evaded :
  shows (demo_dispatch (demo_caller "u1") "social.post" [] (demo_token "s1") (demo_world [deny_social])) = None /\
  is_Some (shows (demo_dispatch (demo_caller "u1") "Social.post" [] (demo_token "s1") (demo_world [deny_social]))).
Proof. split; vm_compute; [reflexivity|by eexists]. Qed.

(** Code mode does not look at the rules. *)
Example code_mode_ignores_rules :
  let c := Caller "a1" "u1" ["execute"] None "acme" "code" in
  is_Some (shows (demo_dispatch c "execute" [("code", PStr "import functions")] None (demo_world [deny_social]))).
Proof. vm_compute. by eexists. Qed.

(** A verdict [block] is ignored: the blocked content is shown. *)
Example blocked_output_shown :
  let content := json_dumps (PDict [("TOKEN", PStr "s1")]) in
  final_action (evaluate_pipeline blocking (fun s => s) content
    {| PatternScanner.direction := "output"; PatternScanner.namespace := "acme"; PatternScanner.service := "social";
       PatternScanner.function := "post"; PatternScanner.execution_id := "e0"; PatternScanner.output_trust := "prompt" |} (Some hook)) = "block" /\
  shows (demo_dispatch (demo_caller "u1") "social.post" [] (demo_token "s1") (demo_world [])) = Some content.
Proof. split; vm_compute; reflexivity. Qed.

(** The key of the cache has neither caller nor environment in it: the second
    caller gets the answer that was made with the secret of the first. *)
Example cache_crosses_environments :
  let w1 := (demo_dispatch (demo_caller "u1") "social.post" [] (demo_token "secret of u1") (demo_world [])).2 in
  let w2 := fold_left (fun w b => run_task 1000 b w) (tasks w1) w1 in
  shows (demo_dispatch (demo_caller "u2") "social.post" [] (demo_token "secret of u2") w2) =
    Some (json_dumps (PDict [("TOKEN", PStr "secret of u1")])).
Proof. vm_compute. reflexivity. Qed.

(** A function of a service whose name begins with [api__] is listed, but its
    calls go to the published endpoints. *)
Example api_prefix_unreachable :
  valid_item "api__x" = true /\
  (demo_dispatch (demo_caller "u1") "api__x.post" [] None (demo_world [])).1 = Err (ValueError "Invalid API tool name: api__x.post").
Proof. split; vm_compute; reflexivity. Qed.
End runs.
