(* ===== verification/Packages.v ===== *)
(** * The packages a function may require

    [sandbox/packages.py] and [sandbox/packages_node.py]: two registries of
    packages that are installed in the sandbox, and the validation of the
    requirements of a function against them.  The same file models
    [sandbox/credential_scan.py], the warnings about secrets in the code of a
    function. *)

From S2P Require Import Prelude Regex.
From Stdlib Require Import Ascii.

(** ** Registries *)

(** [PackageInfo] and [NodePackageInfo]. *)
Record PackageInfo := PackageInfo_ {
  install_name : string;
  pk_description : string;
  category : string;
  aliases : list string
}.

Definition PACKAGE_REGISTRY : list (string * PackageInfo) :=
  [("requests", PackageInfo_ "requests" "Simple HTTP client library" "http" []);
   ("httpx", PackageInfo_ "httpx" "Modern async/sync HTTP client" "http" []);
   ("urllib3", PackageInfo_ "urllib3" "Low-level HTTP client" "http" []);
   ("aiohttp", PackageInfo_ "aiohttp" "Async HTTP client/server framework" "http" []);
   ("websockets", PackageInfo_ "websockets" "WebSocket client and server library" "http" []);
   ("pyyaml", PackageInfo_ "pyyaml" "YAML parser and emitter" "data_formats" ["yaml"]);
   ("orjson", PackageInfo_ "orjson" "Fast JSON library (10x faster than stdlib json)" "data_formats" []);
   ("tomli", PackageInfo_ "tomli" "TOML parser" "data_formats" []);
   ("tomli-w", PackageInfo_ "tomli-w" "TOML writer" "data_formats" []);
   ("xmltodict", PackageInfo_ "xmltodict" "XML to Python dict and back" "data_formats" []);
   ("msgpack", PackageInfo_ "msgpack" "MessagePack binary serialization" "data_formats" []);
   ("pydantic", PackageInfo_ "pydantic" "Data validation using Python type hints" "validation" []);
   ("attrs", PackageInfo_ "attrs" "Classes without boilerplate" "validation" []);
   ("jsonschema", PackageInfo_ "jsonschema" "JSON Schema validation" "validation" []);
   ("beautifulsoup4", PackageInfo_ "beautifulsoup4" "HTML and XML parser" "text" ["bs4"]);
   ("lxml", PackageInfo_ "lxml" "Fast XML and HTML processing" "text" []);
   ("markdownify", PackageInfo_ "markdownify" "Convert HTML to Markdown" "text" []);
   ("markdown", PackageInfo_ "markdown" "Markdown to HTML converter" "text" []);
   ("html2text", PackageInfo_ "html2text" "Convert HTML to plain text" "text" []);
   ("chardet", PackageInfo_ "chardet" "Character encoding detection" "text" []);
   ("python-slugify", PackageInfo_ "python-slugify" "URL slug generator" "text" ["slugify"]);
   ("jinja2", PackageInfo_ "jinja2" "Template engine" "text" []);
   ("regex", PackageInfo_ "regex" "Extended regular expressions (superset of stdlib re)" "text" []);
   ("python-dateutil", PackageInfo_ "python-dateutil" "Powerful date parsing and manipulation" "datetime" ["dateutil"]);
   ("pytz", PackageInfo_ "pytz" "Timezone definitions" "datetime" []);
   ("arrow", PackageInfo_ "arrow" "Better dates and times for Python" "datetime" []);
   ("numpy", PackageInfo_ "numpy" "Numerical computing with arrays" "data_science" []);
   ("pandas", PackageInfo_ "pandas" "Data manipulation and analysis" "data_science" []);
   ("scipy", PackageInfo_ "scipy" "Scientific computing (optimization, stats, signal)" "data_science" []);
   ("scikit-learn", PackageInfo_ "scikit-learn" "Machine learning (classification, regression, clustering)" "data_science" ["sklearn"]);
   ("sympy", PackageInfo_ "sympy" "Symbolic mathematics" "data_science" []);
   ("statsmodels", PackageInfo_ "statsmodels" "Statistical models and tests" "data_science" []);
   ("matplotlib", PackageInfo_ "matplotlib" "Plotting and visualization" "visualization" []);
   ("pillow", PackageInfo_ "pillow" "Image processing (PIL fork)" "visualization" ["PIL"]);
   ("openai", PackageInfo_ "openai" "OpenAI API client (GPT, embeddings, assistants)" "ai" []);
   ("anthropic", PackageInfo_ "anthropic" "Anthropic Claude API client" "ai" []);
   ("tiktoken", PackageInfo_ "tiktoken" "OpenAI tokenizer for token counting" "ai" []);
   ("cohere", PackageInfo_ "cohere" "Cohere API client (embeddings, rerank, generate)" "ai" []);
   ("boto3", PackageInfo_ "boto3" "AWS SDK (S3, DynamoDB, Lambda, SES, etc.)" "cloud" []);
   ("stripe", PackageInfo_ "stripe" "Stripe payment processing API" "cloud" []);
   ("sendgrid", PackageInfo_ "sendgrid" "SendGrid email delivery API" "cloud" []);
   ("twilio", PackageInfo_ "twilio" "Twilio SMS and voice API" "cloud" []);
   ("google-cloud-storage", PackageInfo_ "google-cloud-storage" "Google Cloud Storage client" "cloud" []);
   ("openpyxl", PackageInfo_ "openpyxl" "Read/write Excel .xlsx files" "file_formats" []);
   ("xlsxwriter", PackageInfo_ "xlsxwriter" "Write Excel .xlsx files with formatting" "file_formats" []);
   ("tabulate", PackageInfo_ "tabulate" "Pretty-print tabular data" "file_formats" []);
   ("feedparser", PackageInfo_ "feedparser" "Parse RSS and Atom feeds" "file_formats" []);
   ("python-docx", PackageInfo_ "python-docx" "Read/write Word .docx files" "file_formats" []);
   ("pypdf", PackageInfo_ "pypdf" "Read and manipulate PDF files" "file_formats" []);
   ("cryptography", PackageInfo_ "cryptography" "Cryptographic primitives and recipes" "security" []);
   ("pyjwt", PackageInfo_ "pyjwt" "JSON Web Token encoding/decoding" "security" ["jwt"]);
   ("bcrypt", PackageInfo_ "bcrypt" "Password hashing" "security" []);
   ("psycopg2-binary", PackageInfo_ "psycopg2-binary" "PostgreSQL database client" "database" ["psycopg2"]);
   ("pymongo", PackageInfo_ "pymongo" "MongoDB client" "database" []);
   ("redis", PackageInfo_ "redis" "Redis client" "database" []);
   ("humanize", PackageInfo_ "humanize" "Human-friendly data formatting (file sizes, dates, numbers)" "utilities" []);
   ("tqdm", PackageInfo_ "tqdm" "Progress bars for loops" "utilities" []);
   ("rich", PackageInfo_ "rich" "Rich text and formatting for terminal output" "utilities" []);
   ("typing-extensions", PackageInfo_ "typing-extensions" "Backported typing features" "utilities" [])].

Definition NODE_PACKAGE_REGISTRY : list (string * PackageInfo) :=
  [("lodash", PackageInfo_ "lodash" "Utility functions for arrays, objects, strings" "utilities" []);
   ("uuid", PackageInfo_ "uuid" "RFC-compliant UUID generation" "utilities" []);
   ("date-fns", PackageInfo_ "date-fns" "Modern date utility library" "datetime" []);
   ("zod", PackageInfo_ "zod" "TypeScript-first schema validation" "validation" []);
   ("ajv", PackageInfo_ "ajv" "JSON Schema validator (fast)" "validation" []);
   ("csv-parse", PackageInfo_ "csv-parse" "CSV parser with streaming support" "data_formats" []);
   ("csv-stringify", PackageInfo_ "csv-stringify" "CSV serializer" "data_formats" []);
   ("yaml", PackageInfo_ "yaml" "YAML parser and serializer" "data_formats" []);
   ("xml2js", PackageInfo_ "xml2js" "XML to JavaScript object converter" "data_formats" []);
   ("cheerio", PackageInfo_ "cheerio" "HTML parser (jQuery-like API for server)" "text" []);
   ("marked", PackageInfo_ "marked" "Markdown to HTML converter" "text" []);
   ("axios", PackageInfo_ "axios" "HTTP client (alternative to built-in fetch)" "http" []);
   ("jsonwebtoken", PackageInfo_ "jsonwebtoken" "JSON Web Token signing and verification" "security" ["jwt"]);
   ("bcryptjs", PackageInfo_ "bcryptjs" "Password hashing (pure JS, no native deps)" "security" ["bcrypt"]);
   ("openai", PackageInfo_ "openai" "OpenAI API client" "ai" []);
   ("@anthropic-ai/sdk", PackageInfo_ "@anthropic-ai/sdk" "Anthropic Claude API client" "ai" ["anthropic"])].

(** ** Validation *)

Section registry.
Context (registry : list (string * PackageInfo)).

(** A later alias replaces an earlier one. *)
Definition _ALIAS_MAP : list (string * string) :=
  fold_left (fun d kv => dict_set kv.1 kv.2 d) (p ← registry; a ← aliases p.2; [(str_lower a, p.1)]) [].

Definition _resolve_name (name : string) : option string :=
  let normalized := str_lower (str_strip name) in
  match dict_get normalized registry with
  | Some _ => Some normalized
  | None => dict_get normalized _ALIAS_MAP
  end.

Fixpoint validate_go (message : string -> string) (requirements validated errors : list string) : list string * list string :=
  match requirements with
  | [] => (validated, errors)
  | req :: rest =>
      match _resolve_name req with
      | None => validate_go message rest validated (errors ++ [message req])
      | Some canonical =>
          if str_in canonical validated then validate_go message rest validated errors
          else validate_go message rest (validated ++ [canonical]) errors
      end
  end.
End registry.

Definition validate_requirements (requirements : list string) : list string * list string :=
  validate_go PACKAGE_REGISTRY
    (fun req => "Package '" +:+ req +:+ "' is not in the allowed list. Use the list_packages tool to see available packages.")
    requirements [] [].

Definition validate_node_requirements (requirements : list string) : list string * list string :=
  validate_go NODE_PACKAGE_REGISTRY
    (fun req => "Package '" +:+ req +:+ "' is not in the allowed list. Use list_packages(language='typescript') to see available packages.")
    requirements [] [].

Definition validate_requirements_for_language (requirements : list string) (language : string) : list string * list string :=
  if String.eqb language "typescript" then validate_node_requirements requirements else validate_requirements requirements.

Definition registry_for (language : string) : list (string * PackageInfo) :=
  if String.eqb language "typescript" then NODE_PACKAGE_REGISTRY else PACKAGE_REGISTRY.

(** By category, in the order in which the sorted registry meets them. *)
Definition by_category (registry : list (string * PackageInfo)) : list (string * list (string * string)) :=
  fold_left (fun d p => dict_set (category p.2) (dict_getd (category p.2) [] d ++ [(p.1, pk_description p.2)]) d)
    (order_by (fun a b => str_leb a.1 b.1) registry) [].
Definition get_registry_by_category := by_category PACKAGE_REGISTRY.
Definition get_node_registry_by_category := by_category NODE_PACKAGE_REGISTRY.

(** ** Accepted requirements *)

(** What the loop has validated: names of the registry, each once. *)
Lemma validate_go_spec registry message reqs validated errors :
  (forall name c, _resolve_name registry name = Some c -> is_Some (dict_get c registry)) ->
  NoDup validated -> (forall c, c ∈ validated -> is_Some (dict_get c registry)) ->
  let '(v, e) := validate_go registry message reqs validated errors in
  NoDup v /\ (forall c, c ∈ v -> is_Some (dict_get c registry)) /\
  (forall c, c ∈ v <-> c ∈ validated \/ exists req, req ∈ reqs /\ _resolve_name registry req = Some c) /\
  e = errors ++ map message (List.filter (fun r => match _resolve_name registry r with None => true | _ => false end) reqs).
Proof.
  intros Hr. revert validated errors. induction reqs as [|r reqs IH]; intros validated errors Hn Hv; cbn [validate_go List.filter map].
  - rewrite app_nil_r. repeat split; auto. intros [Hc|(req & Hq & _)]; [done|by apply not_elem_of_nil in Hq].
  - destruct (_resolve_name registry r) as [c|] eqn:Er.
    + destruct (str_in c validated) eqn:Ec.
      * specialize (IH validated errors Hn Hv). destruct (validate_go _ _ _ _ _) as [v e].
        destruct IH as (A & B & C & D). repeat split; auto.
        -- intros [Hc|(q & Hq & E)]%C; [by left|]. right. exists q. split; [by right|done].
        -- intros [Hc|(q & [->|Hq]%elem_of_cons & E)]; apply C; [by left| |by right; eauto].
           left. rewrite E in Er. injection Er as <-. by apply bool_decide_eq_true in Ec.
      * apply bool_decide_eq_false in Ec.
        specialize (IH (validated ++ [c]) errors). destruct (validate_go _ _ _ _ _) as [v e].
        destruct IH as (A & B & C & D).
        { apply NoDup_app. split; [done|]. split; [|apply NoDup_singleton]. by intros x Hx ->%list_elem_of_singleton. }
        { intros x [Hx| ->%list_elem_of_singleton]%elem_of_app; [by apply Hv|by apply (Hr r)]. }
        repeat split; auto.
        -- intros [[Hc| ->%list_elem_of_singleton]%elem_of_app|(q & Hq & E)]%C; [by left| |].
           ++ right. exists r. split; [by left|done].
           ++ right. exists q. split; [by right|done].
        -- intros [Hc|(q & [->|Hq]%elem_of_cons & E)]; apply C.
           ++ left. apply elem_of_app. by left.
           ++ left. rewrite E in Er. injection Er as ->. apply elem_of_app. right. by apply list_elem_of_singleton.
           ++ by right; eauto.
    + specialize (IH validated (errors ++ [message r]) Hn Hv). destruct (validate_go _ _ _ _ _) as [v e].
      destruct IH as (A & B & C & D). repeat split; auto.
      * intros [Hc|(q & Hq & E)]%C; [by left|]. right. exists q. split; [by right|done].
      * intros [Hc|(q & [->|Hq]%elem_of_cons & E)]; apply C; [by left| |by right; eauto]. by rewrite E in Er.
      * rewrite D, <- app_assoc. done.
Qed.

(** Facts of the two registries that the loop relies on. *)
Definition aliases_ok (registry : list (string * PackageInfo)) : bool :=
  forallb (fun kv => match dict_get kv.2 registry with Some _ => true | None => false end) (_ALIAS_MAP registry).
Definition keys_canonical (registry : list (string * PackageInfo)) : bool :=
  forallb (fun p => String.eqb (str_lower (str_strip p.1)) p.1) registry.

Lemma registries_ok language : aliases_ok (registry_for language) = true /\ keys_canonical (registry_for language) = true.
Proof. unfold registry_for. destruct (String.eqb language "typescript"); split; vm_compute; reflexivity. Qed.

Lemma resolve_registered language name c :
  _resolve_name (registry_for language) name = Some c -> is_Some (dict_get c (registry_for language)).
Proof.
  destruct (registries_ok language) as [Ha _]. unfold _resolve_name.
  destruct (dict_get (str_lower (str_strip name)) (registry_for language)) eqn:E.
  - intros [= <-]. by rewrite E.
  - intros Hc%dict_get_in. unfold aliases_ok in Ha. rewrite forallb_forall in Ha. apply list_elem_of_In in Hc.
    specialize (Ha _ Hc). cbn [snd] in Ha. destruct (dict_get c (registry_for language)); [by eexists|done].
Qed.

(** A name of a registry resolves to itself. *)
Lemma resolve_canonical language c :
  is_Some (dict_get c (registry_for language)) -> _resolve_name (registry_for language) c = Some c.
Proof.
  destruct (registries_ok language) as [_ Hk]. intros [i Hi]. unfold _resolve_name.
  unfold keys_canonical in Hk. rewrite forallb_forall in Hk. pose proof (dict_get_in _ _ _ Hi) as Hin. apply list_elem_of_In in Hin.
  specialize (Hk _ Hin). cbn [fst] in Hk. apply String.eqb_eq in Hk. by rewrite Hk, Hi.
Qed.

Lemma requirements_as_go reqs language : exists message,
  validate_requirements_for_language reqs language = validate_go (registry_for language) message reqs [] [].
Proof.
  unfold validate_requirements_for_language, registry_for. destruct (String.eqb language "typescript"); by eexists.
Qed.

Lemma requirements_spec reqs language :
  exists message,
  let '(v, e) := validate_requirements_for_language reqs language in
  NoDup v /\ (forall c, c ∈ v <-> exists req, req ∈ reqs /\ _resolve_name (registry_for language) req = Some c) /\
  e = map message (List.filter (fun r => match _resolve_name (registry_for language) r with None => true | _ => false end) reqs).
Proof.
  destruct (requirements_as_go reqs language) as [message ->]. exists message.
  pose proof (validate_go_spec (registry_for language) message reqs [] [] (resolve_registered language) (NoDup_nil_2) ltac:(by intros c Hc%not_elem_of_nil)) as K.
  destruct (validate_go _ _ _ _ _) as [v e]. destruct K as (A & B & C & D). repeat split; auto.
  - intros [Hc|K]%C; [by apply not_elem_of_nil in Hc|done].
  - intros. apply C. by right.
Qed.

Lemma filter_none_iff {A} (p : A -> bool) l : List.filter p l = [] <-> forall x, x ∈ l -> p x = false.
Proof.
  induction l as [|y l IH]; cbn [List.filter].
  - split; [intros _ x Hx%not_elem_of_nil; done|done].
  - destruct (p y) eqn:E.
    + split; [done|]. intros Hall. rewrite Hall in E; [done|left].
    + rewrite IH. split; [|intros Hall x Hx; apply Hall; by right].
      intros Hall x [->|Hx]%elem_of_cons; [done|by apply Hall].
Qed.

Definition unresolved (language : string) (reqs : list string) : list string :=
  List.filter (fun r => match _resolve_name (registry_for language) r with None => true | _ => false end) reqs.

Lemma unresolved_nil language reqs :
  unresolved language reqs = [] <-> forall req, req ∈ reqs -> is_Some (_resolve_name (registry_for language) req).
Proof.
  unfold unresolved. rewrite filter_none_iff. split; intros K r Hr; specialize (K r Hr).
  - destruct (_resolve_name (registry_for language) r); [by eexists|done].
  - by destruct K as [c ->].
Qed.

(** What a function may require: the requirements of either language are
    accepted exactly when every one of them names a package of its registry, by
    the name or an alias, in any case and between spaces; what is stored are then
    the names of the registry, each once, and they are what a second validation
    gives. *)
Theorem requirements_correct reqs language v e :
  validate_requirements_for_language reqs language = (v, e) ->
  (e = [] <-> forall req, req ∈ reqs -> is_Some (_resolve_name (registry_for language) req)) /\
  NoDup v /\
  (forall c, c ∈ v <-> exists req, req ∈ reqs /\ _resolve_name (registry_for language) req = Some c) /\
  (forall c, c ∈ v -> is_Some (dict_get c (registry_for language))) /\
  exists v', validate_requirements_for_language v language = (v', []) /\ forall c, c ∈ v' <-> c ∈ v.
Proof.
  intros E. destruct (requirements_spec reqs language) as [message K]. rewrite E in K. destruct K as (Hn & Hv & He).
  assert (forall c, c ∈ v -> is_Some (dict_get c (registry_for language))) as Hreg.
  { intros c (r & _ & Hr)%Hv. by apply (resolve_registered language r). }
  split; [|split; [done|split; [done|split; [done|]]]].
  - rewrite <- unresolved_nil, He. fold (unresolved language reqs). split; [apply fmap_nil_inv|by intros ->].
  - destruct (requirements_spec v language) as [message' K']. destruct (validate_requirements_for_language v language) as [v' e'].
    destruct K' as (_ & Hv' & He'). exists v'. split.
    + f_equal. rewrite He'. fold (unresolved language v). rewrite (proj2 (unresolved_nil language v)); [done|].
      intros c Hc. exists c. by apply resolve_canonical, Hreg.
    + intros c. rewrite Hv'. split.
      * intros (r & Hr & Er). rewrite resolve_canonical in Er by auto. by injection Er as <-.
      * intros Hc. exists c. split; [done|]. by apply resolve_canonical, Hreg.
Qed.

Lemma requirements_correct_witness :
  validate_requirements_for_language ["numpy"; " NumPy"] "python" = (["numpy"], @nil string) /\ NoDup ["numpy"].
Proof.
  split; [vm_compute; reflexivity|].
  exact (proj1 (proj2 (requirements_correct ["numpy"; " NumPy"] "python" ["numpy"] [] eq_refl))).
Defined.

(** ** Credentials in code *)

Definition lit (s : string) : re := rstr_with (fun p => p) s.
Definition lits (l : list string) : re := ralt (map lit l).
Definition quote_char (c : ascii) : bool := Ascii.eqb c "'" || Ascii.eqb c (chr 34).
Definition word_dash (c : ascii) : bool := is_alpha c || is_digit c || Ascii.eqb c "_" || Ascii.eqb c "-".
Definition alnum_ (c : ascii) : bool := is_alpha c || is_digit c || Ascii.eqb c "_".
Definition not_c (d : ascii) (c : ascii) : bool := negb (Ascii.eqb c d).
Definition any_char (c : ascii) : bool := negb (ord c =? 10)%nat.

Definition _PATTERNS : list (string * re) :=
  [("AWS access key", rseq [lit "AKIA"; rexact (fun c => is_digit c || is_upper c) 16]);
   ("AWS secret key", rseq [lits ["aws_secret"; "secret_access_key"; "AWS_SECRET"]; rstar is_space;
      RCls (fun c => Ascii.eqb c "=" || Ascii.eqb c ":"); rstar is_space; RCls quote_char;
      rexact (fun c => is_alpha c || is_digit c || Ascii.eqb c "/" || Ascii.eqb c "+" || Ascii.eqb c "=") 40; RCls quote_char]);
   ("API key (sk-/rk- prefix)", RSeq (lits ["sk-"; "sk_live_"; "sk_test_"; "rk_live_"; "rk_test_"]) (rmin (fun c => negb (is_space c)) 20));
   ("GitHub token", RSeq (lits ["ghp_"; "ghs_"; "gho_"; "github_pat_"]) (rmin alnum_ 20));
   ("private key", rseq [lit "-----BEGIN"; rstar (fun c => is_upper c || Ascii.eqb c " "); lit "PRIVATE KEY-----"]);
   ("JWT token", rseq [lit "eyJ"; rmin word_dash 20; lit ".eyJ"; rmin word_dash 20; lit "."; rplus word_dash]);
   ("connection string with password", rseq [lits ["postgresql"; "mysql"; "mongodb"; "redis"]; lit "://";
      rplus (not_c ":"); lit ":"; rplus (not_c "@"); lit "@"]);
   ("hardcoded secret assignment", rseq [ralt (map rlit ["password"; "secret"; "token"; "api_key"; "apikey"; "api_secret"]);
      rstar is_space; lit "="; rstar is_space; RCls quote_char; rmin (fun c => negb (quote_char c)) 8; RCls quote_char]);
   ("os.environ assignment", rseq [lit "os.environ["; rstar any_char; lit "]"; rstar is_space; lit "="; rstar is_space; RCls quote_char])].

(** [pattern.search(s)] *)
Definition search (r : re) (s : string) : bool := match finditer r s with [] => false | _ => true end.

Definition warning (label : string) (line_num : nat) : string :=
  "Possible " +:+ label +:+ " detected (line " +:+ str_of_nat line_num +:+ "). Use required_env instead of hardcoding credentials.".

Definition line_warnings (line_num : nat) (line : string) : list string :=
  p ← _PATTERNS; if search p.2 line then [warning p.1 line_num] else [].

Fixpoint scan_lines (line_num : nat) (lines : list string) : list string :=
  match lines with [] => [] | l :: rest => line_warnings line_num l ++ scan_lines (S line_num) rest end.

Definition scan_code_for_credentials (code : string) : list string := scan_lines 1 (splitlines code).

(** A secret that is spread over two lines, or put together from two texts, is
    not seen. *)
Example credential_scan_by_line :
  scan_code_for_credentials ("a = 1" +:+ nl +:+ "password = 'hunter2hunter2'") = [warning "hardcoded secret assignment" 2] /\
  scan_code_for_credentials ("password = (" +:+ nl +:+ "'hunter2hunter2')") = [] /\
  scan_code_for_credentials ("key = 'AKIA' + 'ABCDEFGHIJKLMNOP'") = [].
Proof. repeat split; vm_compute; reflexivity. Qed.

(** ** Suggested trust *)

Definition word_re (l : list string) : re := rseq [RWordB; lits l; RWordB].
Definition mcp_tool_re : re := rseq [RWordB; lit "mcp__"; rplus word_char].

Definition external_hints : list string := ["url"; "api"; "token"; "key"; "secret"; "endpoint"; "webhook"].

(** [suggest_trust_level]; which hint the reason names depends on the order of a
    set, so the reason is left out. *)
Definition suggest_trust_level (code : option string) (required_env : option (list string)) : string :=
  let code := default "" code in
  if search mcp_tool_re code then "data"
  else if existsb (fun hint => existsb (fun e => str_contains hint (str_lower e)) (default [] required_env)) external_hints then "data"
  else if search (word_re ["httpx"; "requests"; "urllib"; "aiohttp"]) code then "data"
  else "prompt".
