(* ===== verification/CreateHandler.v ===== *)
(** * The management handler: what stands before a tool

    [mcp/create_handler.py], the path of a call: the scope of the key, the tier
    of an agent, the rate limit, the sizes of the arguments, the confirmation of
    irreversible tools, then the handler of the tool.  The handlers are an
    argument here; [CreateTools] and [CreateSettings] have them.  The
    state is that of [RunHandler], whose tables the tools write, with the
    procedures and the keys in Redis. *)

From S2P Require Import Prelude OutputSanitizer AgentAccess Redis Security Json Encryption AgentState Namespaces Functions Procedures AiTools ToolDispatch ExecTokens ApiProxy ResultCache RunHandler.
From stdpp Require Import gmap strings.

Open Scope Z_scope.

Section guards.
Context `{Network} `{Aead} `{Crypto} {R : Type} `{TextCacheOps R} `{RunOutside} {L : Type} `{RedisOps L}.

(** The random texts of [secrets], and those of an encryption. *)
Class Secrets := {
  token_urlsafe : around -> string * around;
  token_hex : around -> string * around;
  fresh_randomness : around -> randomness * around
}.
Context `{Secrets}.

(** [limits] and [confirms]: the counters of the rate limiter and the texts of
    confirmations, which have keys of their own in Redis. *)
Record state := State_ {
  runs : RunHandler.world (R := R);
  procedure_rows : list procedure;
  procedure_versions : list pversion;
  procedure_executions : list Procedures.execution;
  limits : L;
  confirms : R
}.

(** [IllTyped]: an argument of another JSON type than the signature declares. *)
Inductive exn :=
| Run (e : RunHandler.exn)
| Procedure_ (e : pexn)
| AccessDenied (agent resource rule_id : string)
| AttributeError (message : string)
| RedisError
| IllTyped.

Abbreviation M := (stm state exn).

Definition value_error {A} (message : string) : M A := raise (Run (ValueError message)).
Definition forbid {A} (message : string) : M A := raise (Run (Service (mcp_with Security.ForbiddenError message))).

Definition with_runs (w : RunHandler.world (R := R)) (s : state) : state :=
  State_ w (procedure_rows s) (procedure_versions s) (procedure_executions s) (limits s) (confirms s).

Definition on_run {A} (m : stm (RunHandler.world (R := R)) RunHandler.exn A) : M A := fun s =>
  match m (runs s) with (Ok a, w) => (Ok a, with_runs w s) | (Err e, w) => (Err (Run e), with_runs w s) end.
Definition on_rows {A} (m : stm store Security.exn A) : M A := on_run (on_store m).
Definition on_namespace_rows {A} (m : stm Namespaces.tables Security.exn A) : M A := on_run (on_namespaces m).
Definition on_agent_states {A} (m : stm AgentState.st AgentState.err A) : M A := on_run (on_states m).
Definition on_procedures {A} (m : stm pstore pexn A) : M A := fun s =>
  match m (PStore (tables (runs s)) (procedure_rows s) (procedure_versions s) (procedure_executions s)) with
  | (r, p) =>
      (match r with Ok a => Ok a | Err e => Err (Procedure_ e) end,
       State_ (with_store (Procedures.base p) (runs s)) (procedures p) (pversions p) (Procedures.executions p) (limits s) (confirms s))
  end.
Definition draw {A} (f : around -> A * around) : M A := on_run (RunHandler.ask f).
Definition now_seconds : M Z := ms ← draw clock_ms; mret (ms / 1000).

(** The caller: the account, its key, its tier, and the agent that calls for it
    (name and tool tier). *)
Record creator := Creator {
  k_account_id : string;
  k_user_id : string;
  k_scopes : list string;
  k_namespace_name : string;
  k_tier : string;
  k_agent : option (string * string)
}.

(** ** Arguments *)

Abbreviation args := (list (string * pyval)).

Definition JSON_ARGUMENT_KEYS : list string :=
  ["input_schema"; "output_schema"; "config"; "failure_policy"; "servers"; "requirements"; "tags"; "required_env"; "optional_env"].

(** A text that [json.loads] reads and [Json] does not stops the model. *)
Definition coerced (key : string) (v : pyval) : M pyval :=
  match v with
  | PStr s =>
      if str_in key JSON_ARGUMENT_KEYS then
        match json_loads s with
        | Ok v' => mret v'
        | Err JSONDecodeError => mret v
        | Err Json.OutOfModel => raise IllTyped
        end
      else mret v
  | _ => mret v
  end.

Fixpoint _coerce_json_arguments (arguments : args) : M args :=
  match arguments with
  | [] => mret []
  | (key, v) :: rest => v' ← coerced key v; rest' ← _coerce_json_arguments rest; mret ((key, v') :: rest')
  end.

(** [handler( **arguments)] for a signature with these parameters. *)
Definition takes (required optional : list string) (arguments : args) : M unit :=
  if forallb (fun k => str_in k (dict_keys arguments)) required && forallb (fun k => str_in k (required ++ optional)) (dict_keys arguments)
  then mret tt else raise (Run RunHandler.TypeError).

Definition given (key : string) (arguments : args) : pyval := dict_getd key PNone arguments.

Definition text_arg (key : string) (arguments : args) : M string :=
  match given key arguments with PStr s => mret s | _ => raise IllTyped end.
Definition text_or (key otherwise : string) (arguments : args) : M string :=
  match dict_getd key (PStr otherwise) arguments with PStr s => mret s | _ => raise IllTyped end.
Definition opt_text (key : string) (arguments : args) : M (option string) :=
  match given key arguments with PStr s => mret (Some s) | PNone => mret None | _ => raise IllTyped end.
Definition opt_bool (key : string) (arguments : args) : M (option bool) :=
  match given key arguments with PBool b => mret (Some b) | PNone => mret None | _ => raise IllTyped end.
Definition opt_int (key : string) (arguments : args) : M (option Z) :=
  match given key arguments with PInt n => mret (Some n) | PNone => mret None | _ => raise IllTyped end.
Definition opt_dict (key : string) (arguments : args) : M (option (list (string * pyval))) :=
  match given key arguments with PDict d => mret (Some d) | PNone => mret None | _ => raise IllTyped end.
Definition opt_json (key : string) (arguments : args) : option pyval :=
  match given key arguments with PNone => None | v => Some v end.

Fixpoint all_texts (l : list pyval) : option (list string) :=
  match l with
  | [] => Some []
  | PStr s :: rest => rest' ← all_texts rest; Some (s :: rest')
  | _ => None
  end.
Definition opt_texts (key : string) (arguments : args) : M (option (list string)) :=
  match given key arguments with
  | PNone => mret None
  | PList l => match all_texts l with Some ts => mret (Some ts) | None => raise IllTyped end
  | _ => raise IllTyped
  end.

(** An answer that is one JSON object. *)
Definition reply (d : args) : MCPToolResult := ToolResult_ (json_dumps (PDict d)) false None.
Definition error_reply (d : args) : MCPToolResult := ToolResult_ (json_dumps (PDict d)) true None.

(** ** Guards *)

Definition TOOL_SCOPES : list (string * string) :=
  [("list_namespaces", "read"); ("list_services", "read"); ("list_functions", "read"); ("describe_function", "read");
   ("list_packages", "read"); ("list_templates", "read"); ("describe_template", "read"); ("make_namespace", "write");
   ("make_service", "write"); ("delete_service", "write"); ("make_function", "write"); ("update_function", "write");
   ("delete_function", "write"); ("list_agents", "read"); ("describe_agent", "read"); ("make_agent", "write");
   ("scale_agent", "write"); ("start_agent", "write"); ("stop_agent", "write"); ("destroy_agent", "write");
   ("make_procedure", "write"); ("update_procedure", "write"); ("delete_procedure", "write"); ("list_procedures", "read");
   ("describe_procedure", "read"); ("run_procedure", "execute"); ("list_procedure_executions", "read");
   ("describe_procedure_execution", "read"); ("add_schedule", "write"); ("remove_schedule", "write");
   ("list_schedules", "read"); ("add_webhook", "write"); ("remove_webhook", "write"); ("list_webhooks", "read");
   ("set_agent_state", "write"); ("get_agent_state", "read"); ("delete_agent_state", "write");
   ("list_agent_state_keys", "read"); ("configure_agent_ai", "write"); ("remove_agent_ai", "write");
   ("configure_mcp_servers", "write"); ("configure_orchestration_limits", "write"); ("configure_heartbeat", "write");
   ("chat_with_agent", "read"); ("add_channel", "write"); ("remove_channel", "write"); ("clone_agent", "write");
   ("lock_function", "write"); ("unlock_function", "write"); ("publish_view", "write"); ("get_view_url", "read");
   ("clear_view", "write"); ("configure_chat_token", "write"); ("configure_git_remote", "write");
   ("remove_git_remote", "write"); ("export_namespace", "write"); ("export_service", "write");
   ("import_namespace", "write"); ("import_service", "write"); ("add_mcp_server", "write"); ("remove_mcp_server", "write");
   ("list_mcp_servers", "read"); ("describe_mcp_server", "read"); ("refresh_mcp_server", "write");
   ("update_mcp_server", "write"); ("set_mcp_server_setting", "write"); ("set_mcp_server_env", "write");
   ("remove_mcp_server_env", "write"); ("configure_agent_mcp", "write"); ("add_mcp_server_rule", "write");
   ("remove_mcp_server_rule", "write"); ("list_mcp_server_rules", "read"); ("set_mcp_server_tool_trust", "write");
   ("get_mcp_server_stats", "read"); ("get_token_savings_report", "read"); ("suggest_optimizations", "read");
   ("get_function_mcp_stats", "read"); ("configure_agent_access", "write"); ("list_agent_access_rules", "read");
   ("remove_agent_access_rule", "write"); ("list_executions", "read"); ("describe_execution", "read");
   ("add_security_scanner", "write"); ("list_security_scanners", "read"); ("update_security_scanner", "write");
   ("remove_security_scanner", "write"); ("configure_telemetry_webhook", "write"); ("configure_discovery", "write");
   ("configure_cache", "write"); ("list_orchestration_runs", "read"); ("describe_orchestration_run", "read");
   ("list_schedule_fires", "read"); ("add_api_server", "write"); ("refresh_api_endpoints", "write");
   ("list_api_servers", "read"); ("describe_api_server", "read"); ("list_endpoints", "read");
   ("add_manual_endpoint", "write"); ("enable_endpoint", "write"); ("disable_endpoint", "write");
   ("remove_api_server", "write"); ("update_api_settings", "write"); ("set_api_credentials", "write");
   ("publish_endpoint", "write"); ("unpublish_endpoint", "write"); ("configure_agent_api_access", "write")].

Definition _check_scope (k : creator) (tool_name : string) : M unit :=
  match dict_get tool_name TOOL_SCOPES with
  | Some required =>
      if truthy_str required && negb (str_in required (k_scopes k))
      then value_error ("API key missing required scope '" +:+ required +:+ "' for tool '" +:+ tool_name +:+ "'") else mret tt
  | None => mret tt
  end.

Definition _authorize_agent_tool (k : creator) (tool_name : string) : M unit :=
  match k_agent k with
  | None => mret tt
  | Some (agent, tier_value) =>
      match ToolTier_of tier_value with
      | None => value_error (py_repr_str tier_value +:+ " is not a valid ToolTier")
      | Some tier =>
          if is_tool_allowed tier tool_name then mret tt
          else forbid ("Agent '" +:+ agent +:+ "' (tier: " +:+ tier_value +:+ ") is not authorized to call '" +:+ tool_name +:+ "'")
      end
  end.

Definition mgmt_key (k : creator) (tool_name : string) : string := "mgmt:" +:+ k_account_id k +:+ ":" +:+ tool_name.

Definition count_management_call (key : string) (now limit window : Z) : M (bool * Z) := fun s =>
  let '(r, l) := is_rate_limited (limits s) now key limit window in
  let s := State_ (runs s) (procedure_rows s) (procedure_versions s) (procedure_executions s) l (confirms s) in
  (match r with Some x => Ok x | None => Err RedisError end, s).

Definition _check_management_rate_limit (k : creator) (tool_name : string) : M unit :=
  match dict_get tool_name MANAGEMENT_RATE_LIMITS with
  | None => mret tt
  | Some (limit, window) =>
      now ← now_seconds;
      '(is_limited, current) ← count_management_call (mgmt_key k tool_name) now limit window;
      if (is_limited : bool) then
        forbid ("Rate limit exceeded for " +:+ tool_name +:+ ": " +:+ str_of_Z limit +:+ " calls per " +:+ str_of_Z window
                +:+ "s (current: " +:+ str_of_Z current +:+ ")")
      else mret tt
  end.

(** [len(value.encode("utf-8"))] of a text, [len(value)] of what has one. *)
Definition sized (v : pyval) : M input_value :=
  match v with
  | PNone => mret InNone
  | PStr s => mret (InStr (text_of s))
  | PList l => mret (InBytes (repeat 0 (length l)))
  | PDict d => mret (InBytes (repeat 0 (length d)))
  | PBool _ | PInt _ => raise (Run RunHandler.TypeError)
  end.

Definition too_large (e : InputTooLarge) : string :=
  "Input '" +:+ itl_field e +:+ "' is " +:+ str_of_Z (itl_size e) +:+ " bytes, max is " +:+ str_of_Z (itl_limit e) +:+ " bytes".

Definition check_size (field : string) (v : pyval) : M unit :=
  x ← sized v;
  match validate_input_size field x with Ok _ => mret tt | Err e => forbid (too_large e) end.

Definition dumped (v : pyval) : pyval := match v with PNone => PNone | _ => PStr (json_dumps v) end.

Definition _validate_tool_inputs (tool_name : string) (arguments : args) : M unit :=
  if str_in tool_name ["make_function"; "update_function"] then
    check_size "code" (given "code" arguments);;
    check_size "description" (given "description" arguments);;
    check_size "input_schema" (dumped (given "input_schema" arguments));;
    check_size "output_schema" (dumped (given "output_schema" arguments))
  else if String.eqb tool_name "set_agent_state" then
    match given "value" arguments with
    | PNone => mret tt
    | PStr s => check_size "agent_state_value" (PStr s)
    | v => check_size "agent_state_value" (PStr (json_dumps v))
    end
  else if String.eqb tool_name "configure_agent_ai" then check_size "agent_ai_config" (given "system_prompt" arguments)
  else mret tt.

(** *** Confirmation *)

Definition confirm_target (arguments : args) : pyval := dict_getd "name" (dict_getd "agent_name" (PStr "unknown") arguments) arguments.
Definition confirm_key (k : creator) (tool_name : string) (arguments : args) : string :=
  "confirm:" +:+ k_account_id k +:+ ":" +:+ tool_name +:+ ":" +:+ py_str (confirm_target arguments).

(** [stored.decode()].  The pool of [core/redis.py] is made with
    [decode_responses=True], so [stored] is a [str], and has no such method. *)
Definition decode (stored : string) : M string := raise (AttributeError "'str' object has no attribute 'decode'").

Definition confirm_get (now : Z) (key : string) : M (option string) := fun s =>
  (match t_get (confirms s) now key with Some x => Ok x | None => Err RedisError end, s).
Definition confirm_set (now : Z) (key value : string) (ttl : Z) : M unit := fun s =>
  match t_set (confirms s) now key value ttl with
  | Some r => (Ok tt, State_ (runs s) (procedure_rows s) (procedure_versions s) (procedure_executions s) (limits s) r)
  | None => (Err RedisError, s)
  end.

Definition confirmation_request (tool_name : string) (target : pyval) (new_token : string) : MCPToolResult :=
  reply [("status", PStr "confirmation_required"); ("confirmation_token", PStr new_token); ("expires_in", PInt 60);
         ("message", PStr (tool_name +:+ "('" +:+ py_str target +:+ "') is irreversible. Call again with confirmation_token to proceed."))].

(** [None] to go on, with the arguments without the token.  The deletion of a
    confirmed key has no effect to state: [decode] raises before it. *)
Definition _check_confirmation_token (k : creator) (tool_name : string) (arguments : args) : M (option MCPToolResult * args) :=
  if negb (requires_confirmation tool_name) then mret (None, arguments)
  else
    let arguments' := dict_pop "confirmation_token" arguments in
    let key := confirm_key k tool_name arguments' in
    now ← now_seconds;
    match given "confirmation_token" arguments with
    | PNone =>
        new_token ← draw token_urlsafe;
        confirm_set now key new_token 60;;
        mret (Some (confirmation_request tool_name (confirm_target arguments') new_token), arguments')
    | token =>
        stored ← confirm_get now key;
        confirmed ← match stored with
                    | Some x => if truthy_str x then (d ← decode x; mret (match token with PStr t => String.eqb d t | _ => false end)) else mret false
                    | None => mret false
                    end;
        if (confirmed : bool) then mret (None, arguments') else forbid "Invalid or expired confirmation token"
    end.

(** ** Dispatch *)

Section dispatch.
(** The handlers of the tools. *)
Context (handlers : string -> option (creator -> args -> M MCPToolResult)).

Definition guard (k : creator) (name : string) (arguments : args) : M (option MCPToolResult * args) :=
  _check_scope k name;;
  _authorize_agent_tool k name;;
  _check_management_rate_limit k name;;
  _validate_tool_inputs name arguments;;
  _check_confirmation_token k name arguments.

Definition dispatch_tool (k : creator) (name : string) (arguments : args) : M MCPToolResult :=
  '(confirmation, arguments) ← guard k name arguments;
  match confirmation with
  | Some r => mret r
  | None =>
      match handlers name with
      | None => value_error ("Unknown tool: " +:+ name)
      | Some handler => arguments ← _coerce_json_arguments arguments; handler k arguments
      end
  end.

Definition FORBIDDEN : Z := -32002.

(** The classes that [_handle_tools_call] tells apart. *)
Definition service_of (e : exn) : option Security.exn :=
  match e with
  | Run (Service e) | Procedure_ (Exn e) => Some e
  | Run (State (AgentState.NotFoundError m)) => Some (Mcp Security.NotFoundError m)
  | Run (State (AgentState.ForbiddenError m)) => Some (Mcp Security.ForbiddenError m)
  | _ => None
  end.

Definition is_value_error (e : exn) : bool :=
  match e with
  | Run e => RunHandler.is_value_error e
  | Procedure_ (Exn Security.ValueError) => true
  | _ => false
  end.

Definition code_of_exn (e : exn) : Z :=
  if is_value_error e then METHOD_NOT_FOUND
  else match service_of e with
       | Some (Mcp Security.NotFoundError _) => NOT_FOUND
       | Some (Mcp Security.ConflictError _) => INVALID_PARAMS
       | Some (Mcp Security.ForbiddenError _) => FORBIDDEN
       | _ => EXECUTION_ERROR
       end.

Definition _handle_tools_call (k : creator) (params : args) : stm state Empty_set rpc_response := fun s =>
  match call_params params with
  | None => (Ok (RpcError INVALID_PARAMS), s)
  | Some (name, arguments) =>
      match dispatch_tool k name arguments s with
      | (Ok r, s') => (Ok (RpcTool r), s')
      | (Err e, s') => (Ok (RpcError (code_of_exn e)), s')
      end
  end.
End dispatch.
End guards.

(** ** What the guards guarantee *)

Section facts.
Context `{Network} `{Aead} `{Crypto} {R : Type} `{TextCacheOps R} `{RunOutside} {L : Type} `{RedisOps L} `{!Secrets}.
Abbreviation St := (state (R := R) (L := L)).
Abbreviation args := (list (string * pyval)).

(** The tables. *)
Definition rows (s : St) :=
  (tables (runs s), agent_rows (runs s), mcp_rows (runs s), api_tables (runs s), pipelines (runs s), cache_policies (runs s),
   states (runs s), procedure_rows s, procedure_versions s, procedure_executions s).

Lemma frame_draw {A} (f : around -> A * around) : frame rows (draw f : stm St exn A).
Proof. intros s. unfold draw, on_run, RunHandler.ask. by destruct (f (out (runs s))). Qed.
Lemma frame_count key now limit window : frame rows (count_management_call key now limit window : stm St exn (bool * Z)).
Proof. intros s. unfold count_management_call. by destruct (is_rate_limited _ _ _ _ _). Qed.
Lemma frame_confirm_get now key : frame rows (confirm_get now key : stm St exn (option string)).
Proof. done. Qed.
Lemma frame_confirm_set now key v ttl : frame rows (confirm_set now key v ttl : stm St exn unit).
Proof. intros s. unfold confirm_set. by destruct (t_set _ _ _ _ _). Qed.
Lemma frame_size field v : frame rows (check_size field v : stm St exn unit).
Proof. unfold check_size, sized, forbid. frame_tac. Qed.
#[local] Hint Resolve frame_draw frame_count frame_confirm_get frame_confirm_set frame_size : frame.

Lemma frame_guard k name arguments : frame rows (guard k name arguments : stm St exn _).
Proof.
  unfold guard, _check_scope, _authorize_agent_tool, _check_management_rate_limit, _validate_tool_inputs, _check_confirmation_token,
    value_error, forbid, now_seconds, decode. frame_tac.
Qed.

Lemma confirmation_asked k name arguments (s s' : St) c arguments' :
  requires_confirmation name = true -> _check_confirmation_token k name arguments s = (Ok (c, arguments'), s') ->
  given "confirmation_token" arguments = PNone /\ exists token,
    c = Some (confirmation_request name (confirm_target (dict_pop "confirmation_token" arguments)) token).
Proof.
  intros Hn. unfold _check_confirmation_token. rewrite Hn. cbn [negb].
  intros (now & s1 & _ & K)%stm_bind_Ok. destruct (given "confirmation_token" arguments) eqn:Eg; [split; [done|]|exfalso..].
  { apply stm_bind_Ok in K as (token & s2 & _ & K). apply stm_bind_Ok in K as ([] & s3 & _ & K).
    exists token. by apply stm_ret_Ok in K as [[= <- _] _]. }
  all: apply stm_bind_Ok in K as (stored & s2 & _ & K); apply stm_bind_Ok in K as (confirmed & s3 & Hc & K);
    assert (confirmed = false) as -> by (destruct stored as [x|]; [destruct (truthy_str x)|]; [discriminate Hc| |];
      by apply stm_ret_Ok in Hc as [<- _]); discriminate K.
Qed.

Lemma guard_last k name arguments (s s' : St) r :
  guard k name arguments s = (Ok r, s') -> exists s1, _check_confirmation_token k name arguments s1 = (Ok r, s').
Proof.
  unfold guard. intros (u1 & s1 & _ & K)%stm_bind_Ok. apply stm_bind_Ok in K as (u2 & s2 & _ & K).
  apply stm_bind_Ok in K as (u3 & s3 & _ & K). apply stm_bind_Ok in K as (u4 & s4 & _ & K). by exists s4.
Qed.

(** [C32] An irreversible tool never runs through this handler: whatever the
    caller sends, and whatever the handler of [delete_service] or
    [destroy_agent] would do, no table changes, and the only answer that is not an
    error is the request for a confirmation, given when no token was sent.  The
    check of a token raises [AttributeError], because Redis returns texts. *)
Theorem confirmed_tools_never_run handlers k name arguments (s : St) :
  requires_confirmation name = true ->
  let '(r, s') := dispatch_tool handlers k name arguments s in
  rows s' = rows s /\
  forall answer, r = Ok answer ->
    given "confirmation_token" arguments = PNone /\
    exists token, answer = confirmation_request name (confirm_target (dict_pop "confirmation_token" arguments)) token.
Proof.
  intros Hn. unfold dispatch_tool. pose proof (frame_guard k name arguments s) as Hf.
  unfold mbind, stm_bind. destruct (guard k name arguments s) as [[[c a']|e] s1] eqn:Eg; [|split; [exact Hf|done]].
  apply guard_last in Eg as [s2 Eg]. apply confirmation_asked in Eg as (Hg & token & ->); [|done].
  split; [exact Hf|]. intros answer [= <-]. split; [done|by exists token].
Qed.

(** The checks before the rate limit change nothing and do not look at the clock. *)
Lemma checks_pass k name (s s1 s2 : St) u1 u2 :
  _check_scope k name s = (Ok u1, s1) -> _authorize_agent_tool k name s1 = (Ok u2, s2) -> s2 = s.
Proof.
  unfold _check_scope, _authorize_agent_tool. intros K1 K2. transitivity s1; [revert K2|revert K1]; repeat case_match; by intros [= _ <-].
Qed.

Lemma check_size_Ok field text limit (s s' : St) u :
  check_size field (PStr text) s = (Ok u, s') -> dict_get field INPUT_LIMITS = Some limit -> utf8_len (text_of text) <= limit.
Proof.
  intros (x & s1 & [<- _]%stm_ret_Ok & K)%stm_bind_Ok Hl. unfold validate_input_size in K. rewrite Hl in K. cbn iota beta in K.
  destruct (limit <? utf8_len (text_of text)) eqn:E; [done|by apply Z.ltb_ge in E].
Qed.

Lemma rate_check_Ok k name limit window (s s' : St) u :
  dict_get name MANAGEMENT_RATE_LIMITS = Some (limit, window) -> _check_management_rate_limit k name s = (Ok u, s') ->
  exists n, n <= limit /\ (is_rate_limited (limits s) ((clock_ms (out (runs s))).1 / 1000) (mgmt_key k name) limit window).1 = Some (false, n).
Proof.
  intros Hr K. unfold _check_management_rate_limit in K. rewrite Hr in K.
  apply stm_bind_Ok in K as (now & s5 & Hnow & K). apply stm_bind_Ok in K as ([lim cur] & s6 & Hc & K).
  assert (limits s5 = limits s /\ now = (clock_ms (out (runs s))).1 / 1000) as [E5 ->].
  { unfold now_seconds, draw, on_run, RunHandler.ask in Hnow. apply stm_bind_Ok in Hnow as (ms & s7 & Hq & [<- <-]%stm_ret_Ok).
    by destruct (clock_ms (out (runs s))); simplify_eq/=. }
  unfold count_management_call in Hc. rewrite E5 in Hc. set (now := (clock_ms (out (runs s))).1 / 1000) in *.
  destruct (is_rate_limited (limits s) now (mgmt_key k name) limit window) as [[x|] l] eqn:E; simplify_eq/=. destruct lim; [done|]. exists cur.
  split; [|done]. revert E. unfold is_rate_limited. destruct (incr (limits s) now _) as [[c|] r]; [|done]. intros [= Hle -> _]. by apply Z.ltb_ge in Hle.
Qed.

(** [C31] Nothing runs past the guards: if the outcome of a call depends on the
    handlers at all, then the tool is not one that asks for a confirmation (those never
    run), the key has its scope, an agent has a tier that allows it, the call is
    within the rate limit of the account for the tool, as the counter stands at the time
    the clock shows when the call comes, and neither the code of a function nor a text
    for the state of an agent is beyond its limit. *)
Theorem management_guarded h1 h2 k name arguments (s : St) :
  dispatch_tool h1 k name arguments s <> dispatch_tool h2 k name arguments s ->
  requires_confirmation name = false /\
  (forall required, dict_get name TOOL_SCOPES = Some required -> required ∈ k_scopes k) /\
  (forall agent tier, k_agent k = Some (agent, tier) -> exists t, ToolTier_of tier = Some t /\ is_tool_allowed t name = true) /\
  (forall limit window, dict_get name MANAGEMENT_RATE_LIMITS = Some (limit, window) ->
     exists n, n <= limit /\
       (is_rate_limited (limits s) ((clock_ms (out (runs s))).1 / 1000) (mgmt_key k name) limit window).1 = Some (false, n)) /\
  (name ∈ ["make_function"; "update_function"] -> forall code, given "code" arguments = PStr code ->
     utf8_len (text_of code) <= 100 * 1024) /\
  (name = "set_agent_state"%string -> forall v, given "value" arguments = PStr v -> utf8_len (text_of v) <= 10 * 1024 * 1024).
Proof.
  intros Hd. destruct (guard k name arguments s) as [[[c a']|e] s'] eqn:Eg.
  2: { exfalso. apply Hd. unfold dispatch_tool, mbind, stm_bind. by rewrite Eg. }
  destruct (requires_confirmation name) eqn:Hn.
  { exfalso. apply Hd. apply guard_last in Eg as K. destruct K as [s2 K].
    apply confirmation_asked in K as (_ & token & ->); [|done]. unfold dispatch_tool, mbind, stm_bind. by rewrite Eg. }
  split; [done|]. clear Hd Hn. unfold guard in Eg.
  apply stm_bind_Ok in Eg as (u1 & s1 & K1 & Eg). apply stm_bind_Ok in Eg as (u2 & s2 & K2 & Eg).
  apply stm_bind_Ok in Eg as (u3 & s3 & K3 & Eg). apply stm_bind_Ok in Eg as (u4 & s4 & K4 & _).
  pose proof (checks_pass _ _ _ _ _ _ _ K1 K2) as ->.
  split; [|split; [|split; [|split]]].
  - intros required Hr. unfold _check_scope in K1. rewrite Hr in K1.
    assert (truthy_str required = true) as Ht.
    { apply dict_get_in, list_elem_of_In in Hr. assert (forallb (fun kv => truthy_str kv.2) TOOL_SCOPES = true) as Hall by (vm_compute; reflexivity).
      rewrite forallb_forall in Hall. exact (Hall _ Hr). }
    rewrite Ht in K1. cbn [andb] in K1. destruct (str_in required (k_scopes k)) eqn:E; [by apply bool_decide_eq_true in E|done].
  - intros agent tier Ha. unfold _authorize_agent_tool in K2. rewrite Ha in K2.
    destruct (ToolTier_of tier) as [t|]; [|done]. exists t. split; [done|]. by destruct (is_tool_allowed t name).
  - intros limit window Hr. by eapply rate_check_Ok.
  - intros Hin code Hcode. unfold _validate_tool_inputs in K4. assert (str_in name ["make_function"; "update_function"] = true) as Hs by by apply bool_decide_eq_true.
    rewrite Hs in K4. apply stm_bind_Ok in K4 as (u5 & s5 & K5 & _). rewrite Hcode in K5. by apply (check_size_Ok _ _ _ _ _ _ K5).
  - intros -> v Hv. unfold _validate_tool_inputs in K4. rewrite Hv in K4. by apply (check_size_Ok _ _ _ _ _ _ K4).
Qed.

(** Every tool has a scope. *)
Lemma all_tools_scoped : forallb (fun kv => str_in kv.2 ["read"; "write"; "execute"]) TOOL_SCOPES = true /\ length TOOL_SCOPES = 106%nat.
Proof. split; vm_compute; reflexivity. Qed.
End facts.

(** ** Examples *)

Section runs.
#[local] Existing Instance scripted_net.
#[local] Existing Instance toy_aead.
#[local] Existing Instance toy_crypto.
#[local] Existing Instance echo_sandbox.

(** Texts that count up. *)
#[local] Instance toy_secrets : Secrets := {
  token_urlsafe n := ("t" +:+ str_of_nat n, S n);
  token_hex n := ("h" +:+ str_of_nat n, S n);
  fresh_randomness n := (demo_rnd, S n)
}.

Definition demo_state : state (R := text_map) (L := rmap) := State_ (demo_world []) [] [] [] ∅ ∅.
Definition demo_creator (account : string) : creator := Creator account ("user of " +:+ account) ["read"; "write"] "acme" "pro" None.
Definition no_handlers : string -> option (creator -> list (string * pyval) -> stm (state (R := text_map) (L := rmap)) exn MCPToolResult) := fun _ => None.

Lemma confirmed_tools_never_run_witness :
  requires_confirmation "delete_service" = true /\
  let arguments := [("name", PStr "social"); ("confirmation_token", PStr "t1")] in
  let '(r, s') := dispatch_tool no_handlers (demo_creator "a1") "delete_service" arguments demo_state in
  rows s' = rows demo_state /\
  forall answer, r = Ok answer ->
    given "confirmation_token" arguments = PNone /\
    exists token, answer = confirmation_request "delete_service" (confirm_target (dict_pop "confirmation_token" arguments)) token.
Proof. split; [reflexivity|]. apply (confirmed_tools_never_run no_handlers); reflexivity. Defined.

(** The token that was just given is refused with another exception than a wrong
    token would be: it was found, and could not be compared. *)
Example confirmation_dead_end :
  let ask token s := dispatch_tool no_handlers (demo_creator "a1") "delete_service" ([("name", PStr "social")] ++ token) s in
  let s1 := (ask [] demo_state).2 in
  (ask [] demo_state).1 = Ok (confirmation_request "delete_service" (PStr "social") "t0") /\
  (ask [("confirmation_token", PStr "t0")] s1).1 = Err (AttributeError "'str' object has no attribute 'decode'").
Proof. split; vm_compute; reflexivity. Qed.

Lemma management_guarded_witness :
  let arguments := [("service", PStr "social"); ("name", PStr "post"); ("backend", PStr "code_sandbox"); ("code", PStr "return 1")] in
  let c := demo_creator "a1" in
  let h2 := fun _ => Some (fun _ _ => mret (reply [])) in
  dispatch_tool no_handlers c "make_function" arguments demo_state <> dispatch_tool h2 c "make_function" arguments demo_state /\
  requires_confirmation "make_function" = false /\
  (forall required, dict_get "make_function" TOOL_SCOPES = Some required -> required ∈ k_scopes c) /\
  (forall agent tier, k_agent c = Some (agent, tier) -> exists t, ToolTier_of tier = Some t /\ is_tool_allowed t "make_function" = true) /\
  (forall limit window, dict_get "make_function" MANAGEMENT_RATE_LIMITS = Some (limit, window) ->
     exists n, n <= limit /\
       (is_rate_limited (limits demo_state) ((clock_ms (out (runs demo_state))).1 / 1000) (mgmt_key c "make_function") limit window).1 = Some (false, n)) /\
  ("make_function" ∈ ["make_function"; "update_function"] -> forall code, given "code" arguments = PStr code ->
     utf8_len (text_of code) <= 100 * 1024) /\
  ("make_function" = "set_agent_state"%string -> forall v, given "value" arguments = PStr v -> utf8_len (text_of v) <= 10 * 1024 * 1024).
Proof.
  intros arguments c h2.
  assert (dispatch_tool no_handlers c "make_function" arguments demo_state <> dispatch_tool h2 c "make_function" arguments demo_state) as Hd.
  { intros E. apply (f_equal (fun r => match r.1 with Ok _ => true | Err _ => false end)) in E. vm_compute in E. done. }
  split; [exact Hd|]. exact (management_guarded no_handlers h2 c "make_function" arguments demo_state Hd).
Defined.
End runs.
