(* ===== verification/CreateTools.v ===== *)
(** * Management tools: namespaces, services, functions and procedures

    The handlers of [mcp/create_handler.py] for these tools, on the services of
    [Namespaces], [Functions] and [Procedures].  URLs and time stamps are left out
    of the answers; the templates of [templates.py], which are data, are an
    argument. *)

From S2P Require Import Prelude AgentAccess ScannerPipeline Redis Security Json Encryption AgentState EnvPassthrough Namespaces Functions Procedures AiTools ToolDispatch ExecTokens ApiProxy ResultCache RunHandler Packages CreateHandler.
From stdpp Require Import gmap strings.
From Stdlib Require Import Ascii.

Open Scope Z_scope.

(** [FunctionTemplate] *)
Record template := Template {
  t_name : string;
  t_description : string;
  t_code : string;
  t_input_schema : pyval;
  t_output_schema : pyval;
  t_tags : list string;
  t_requirements : list string;
  t_requires_network : bool;
  t_language : string
}.

Definition or_some {A} (x y : option A) : option A := match x with Some _ => x | None => y end.
Definition texts (l : list string) : pyval := PList (map PStr l).
Definition otexts (l : option (list string)) : pyval := match l with Some l => texts l | None => PNone end.
Definition otext (o : option string) : pyval := match o with Some s => PStr s | None => PNone end.
Definition ojson (o : option pyval) : pyval := default PNone o.

(** [config or ...], [backend or ...]: the first that is true. *)
Definition truthy_or {A} (t : A -> bool) (x : option A) (y : option A) : option A :=
  match x with Some a => if t a then x else y | None => y end.

Section tools.
Context `{Network} `{Aead} `{Crypto} {R : Type} `{TextCacheOps R} `{RunOutside} {L : Type} `{RedisOps L} `{!Secrets}.
Context (get_template : string -> option template) (list_templates : list template).
Abbreviation M := (stm (state (R := R) (L := L)) CreateHandler.exn).
Abbreviation args := (list (string * pyval)).

(** ** Namespaces and services *)

(** Owners only, and readers too. *)
Definition _get_current_namespace (k : creator) : M Namespaces.namespace :=
  on_namespace_rows (Namespaces.get_by_name (k_namespace_name k) (Some (k_account_id k)) None None).
Definition _get_current_namespace_read (k : creator) : M Namespaces.namespace :=
  on_namespace_rows (Namespaces.get_by_name (k_namespace_name k) (Some (k_account_id k)) (Some (k_user_id k)) (Some "read")).

Definition _make_namespace (k : creator) (arguments : args) : M MCPToolResult :=
  takes ["name"] ["description"] arguments;;
  name ← text_arg "name" arguments;
  description ← opt_text "description" arguments;
  new_id ← draw fresh_uuid;
  n ← on_namespace_rows (Namespaces.create new_id (k_account_id k) name description None);
  mret (reply [("id", PStr (n_id n)); ("name", PStr (n_name n))]).

Definition calls_of (id : string) (s : store) : pyval := PInt (default 0 (calls s !! id)).

Definition _list_namespaces (k : creator) (arguments : args) : M MCPToolResult :=
  takes [] [] arguments;;
  '(found, total) ← on_namespace_rows (Namespaces.list_namespaces (k_account_id k) (Some (k_user_id k)) 1 50);
  s ← getS;
  mret (reply [("namespaces", PList (map (fun n => PDict [("name", PStr (n_name n)); ("description", otext (n_description n));
                  ("call_count", calls_of (n_id n) (tables (runs s)))]) found)); ("total", PInt total)]).

Definition _make_service (k : creator) (arguments : args) : M MCPToolResult :=
  takes ["name"] ["description"] arguments;;
  name ← text_arg "name" arguments;
  description ← opt_text "description" arguments;
  ns ← _get_current_namespace k;
  new_id ← draw fresh_uuid;
  x ← on_namespace_rows (service_create new_id (n_id ns) name description);
  mret (reply [("name", PStr (s_name x)); ("namespace", PStr (k_namespace_name k))]).

(** [function_count] counts deleted functions too. *)
Definition function_count (service_id : string) (s : store) : pyval :=
  PInt (Z.of_nat (length (List.filter (fun f => String.eqb (f_service_id f) service_id) (functions s)))).

Definition _list_services (k : creator) (arguments : args) : M MCPToolResult :=
  takes [] [] arguments;;
  ns ← _get_current_namespace_read k;
  found ← on_namespace_rows (service_list (n_id ns));
  s ← getS;
  mret (reply [("services", PList (map (fun x => PDict [("name", PStr (s_name x)); ("description", otext (s_description x));
                  ("function_count", function_count (s_id x) (tables (runs s))); ("call_count", calls_of (s_id x) (tables (runs s)))]) found));
               ("namespace", PStr (k_namespace_name k))]).

Definition _delete_service (k : creator) (arguments : args) : M MCPToolResult :=
  takes ["name"] [] arguments;;
  name ← text_arg "name" arguments;
  ns ← _get_current_namespace k;
  x ← on_namespace_rows (service_get_by_name (n_id ns) name);
  on_procedures (delete_service_cascade (s_id x));;
  mret (ToolResult_ ("Deleted service: " +:+ name) false None).

(** ** Functions *)

(** The parameters of [make_function] that the template and the validation have
    settled. *)
Record function_request := FunctionRequest {
  q_code : option string;
  q_input_schema : option pyval;
  q_output_schema : option pyval;
  q_description : option string;
  q_tags : option (list string);
  q_requirements : option (list string);
  q_language : string
}.

(** The template gives what the caller left out. *)
Definition apply_template (t : template) (q : function_request) : function_request :=
  FunctionRequest (or_some (q_code q) (Some (t_code t))) (or_some (q_input_schema q) (Some (t_input_schema t)))
    (or_some (q_output_schema q) (Some (t_output_schema t))) (or_some (q_description q) (Some (t_description t)))
    (or_some (q_tags q) (Some (t_tags t)))
    (match q_requirements q, t_requirements t with None, (_ :: _) as l => Some l | r, _ => r end)
    (if truthy_str (t_language t) then t_language t else q_language q).

(** The first name that [_validate_key] refuses. *)
Fixpoint invalid_env_name (names : list string) : option string :=
  match names with
  | [] => None
  | n :: rest => match _validate_key n with Err (EnvPassthroughError m) => Some m | _ => invalid_env_name rest end
  end.

Definition some_names (l : option (list string)) : bool := match l with Some (_ :: _) => true | _ => false end.

Definition valid_trust (trust : string) : bool := str_in trust ["prompt"; "data"].

Definition with_entry (c : bool) (key : string) (v : pyval) (d : args) : args := if c then d ++ [(key, v)] else d.

(** Every tier has network access, so the warning for libraries that need it is
    never given. *)
Definition made_reply (service name backend language : string) (reqs required_env optional_env : option (list string))
    (created_by : option string) (warnings : list string) : MCPToolResult :=
  reply (with_entry (match warnings with [] => false | _ => true end) "warnings" (texts warnings)
        (with_entry (truthy_ostr created_by) "created_by" (otext created_by)
        (with_entry (some_names optional_env) "optional_env" (otexts optional_env)
        (with_entry (some_names required_env) "required_env" (otexts required_env)
        (with_entry (some_names reqs) "requirements" (otexts reqs)
          [("name", PStr (service +:+ "." +:+ name)); ("version", PInt 1); ("backend", PStr backend); ("language", PStr language)]))))).

(** What follows the template: [inl] a refusal that is an answer. *)
Definition settle (q : function_request) (template : option string) : function_request + MCPToolResult :=
  match template with
  | Some t =>
      if truthy_str t then
        match get_template t with
        | None => inr (error_reply [("error", PStr ("Unknown template: " +:+ t))])
        | Some tmpl => inl (apply_template tmpl q)
        end
      else inl q
  | None => inl q
  end.

Definition validated (q : function_request) : option (list string) + list string :=
  if some_names (q_requirements q) then
    match validate_requirements_for_language (default [] (q_requirements q)) (q_language q) with
    | (v, []) => inl (Some v)
    | (_, errors) => inr errors
    end
  else inl None.

Definition scanned (code : option string) : list string :=
  if truthy_ostr code then scan_code_for_credentials (default "" code) else [].

Definition ask_trust (trust code : option string) (required_env : option (list string)) : M string :=
  match trust with
  | None =>
      let suggested := suggest_trust_level code required_env in
      value_error ("output_trust is required. Suggested: '" +:+ suggested +:+ "'")
  | Some t => if valid_trust t then mret t else value_error "output_trust must be 'prompt' or 'data'"
  end.

Definition create_function (k : creator) (service name backend : string) (config : option pyval) (q : function_request)
    (reqs required_env optional_env : option (list string)) (created_by : option string) (public_safe : bool) (trust : string)
    : M MCPToolResult :=
  ns ← _get_current_namespace k;
  svc ← on_namespace_rows (service_get_by_name (n_id ns) service);
  now ← now_seconds;
  new_id ← draw fresh_uuid;
  version_id ← draw fresh_uuid;
  _ ← on_rows (create now new_id version_id (s_id svc) name
    (Spec backend (q_code q) config (q_input_schema q) (q_output_schema q) reqs required_env optional_env created_by)
    (q_description q) (q_tags q) (q_language q) public_safe trust);
  mret (made_reply service name backend (q_language q) reqs required_env optional_env created_by (scanned (q_code q))).

Definition _make_function (k : creator) (arguments : args) : M MCPToolResult :=
  takes ["service"; "name"; "backend"]
    ["code"; "config"; "input_schema"; "output_schema"; "description"; "tags"; "requirements"; "required_env"; "optional_env";
     "created_by"; "template"; "language"; "public_safe"; "output_trust"] arguments;;
  service ← text_arg "service" arguments;
  name ← text_arg "name" arguments;
  backend ← text_arg "backend" arguments;
  code ← opt_text "code" arguments;
  description ← opt_text "description" arguments;
  tags ← opt_texts "tags" arguments;
  requirements ← opt_texts "requirements" arguments;
  required_env ← opt_texts "required_env" arguments;
  optional_env ← opt_texts "optional_env" arguments;
  created_by ← opt_text "created_by" arguments;
  template ← opt_text "template" arguments;
  language ← text_or "language" "python" arguments;
  public_safe ← opt_bool "public_safe" arguments;
  output_trust ← opt_text "output_trust" arguments;
  if negb (str_in language ["python"; "typescript"]) then mret (error_reply [("error", PStr "language must be 'python' or 'typescript'")])
  else
    match settle (FunctionRequest code (opt_json "input_schema" arguments) (opt_json "output_schema" arguments) description tags
                    requirements language) template with
    | inr refusal => mret refusal
    | inl q =>
        match validated q with
        | inr errors => mret (error_reply [("errors", texts errors)])
        | inl reqs =>
            let names := default [] required_env ++ default [] optional_env in
            match invalid_env_name names with
            | Some m => mret (error_reply [("error", PStr m)])
            | None =>
                let settled (l : option (list string)) := match names with [] => None | _ => l end in
                trust ← ask_trust output_trust (q_code q) required_env;
                create_function k service name backend (opt_json "config" arguments) q reqs (settled required_env) (settled optional_env)
                  created_by (default false public_safe) trust
            end
        end
    end.

(** *** Updates *)

(** The requirements given, validated for the language of the function. *)
Definition revalidated (requirements : option (list string)) (language : string) : option (list string) + list string :=
  match requirements with
  | None => inl None
  | Some l => match validate_requirements_for_language l language with (v, []) => inl (Some v) | (_, errors) => inr errors end
  end.

Definition language_of (function_id : string) (s : store) (f : function) : string :=
  match Functions.get_active_version_obj (versions s) f with Some v => v_language v | None => "python" end.

(** The changes of a call: [c_requirements] are validated. *)
Record changes := Changes {
  c_backend : option string;
  c_code : option string;
  c_config : option pyval;
  c_input_schema : option pyval;
  c_output_schema : option pyval;
  c_requirements : option (list string);
  c_required_env : option (list string);
  c_optional_env : option (list string);
  c_created_by : option string
}.

Definition is_some {A} (x : option A) : bool := match x with Some _ => true | None => false end.
Definition truthy_json (x : option pyval) : bool := match x with Some v => truthy v | None => false end.

Definition changes_version (c : changes) : bool :=
  truthy_ostr (c_backend c) || truthy_ostr (c_code c) || truthy_json (c_config c) || truthy_json (c_input_schema c)
  || truthy_json (c_output_schema c) || is_some (c_requirements c) || is_some (c_required_env c) || is_some (c_optional_env c).

(** The specification of the next version: what is given, and the rest as it is. *)
Definition next_spec (c : changes) (a : spec) : spec :=
  Spec (default (backend a) (truthy_or truthy_str (c_backend c) None)) (or_some (c_code c) (code a)) (or_some (c_config c) (config a))
    (or_some (c_input_schema c) (input_schema a)) (or_some (c_output_schema c) (output_schema a))
    (or_some (c_requirements c) (requirements a)) (or_some (c_required_env c) (required_env a))
    (or_some (c_optional_env c) (optional_env a)) (c_created_by c).

Definition restored_spec (a : spec) (created_by : option string) : spec :=
  Spec (backend a) (code a) (config a) (input_schema a) (output_schema a) (requirements a) (required_env a) (optional_env a) created_by.

Definition add_next_version (function_id : string) (sp : spec) : M version :=
  now ← now_seconds;
  version_id ← draw fresh_uuid;
  on_rows (create_version now version_id function_id sp true false None).

(** The new version, and the message. *)
Definition write_version (function_id : string) (c : changes) (restore_version : Z) : M string :=
  if negb (restore_version =? 0) then
    old ← on_rows (get_version function_id restore_version);
    add_next_version function_id (restored_spec (v_spec old) (c_created_by c));;
    mret ("Restored from v" +:+ str_of_Z restore_version)
  else if changes_version c then
    active ← on_rows (get_active_version function_id);
    add_next_version function_id (next_spec c (v_spec active));;
    mret "Created new version"
  else mret "Updated metadata only".

Definition update_metadata (function_id : string) (description : option string) (tags : option (list string)) (safe : option bool)
    (trust : option string) : M unit :=
  if is_some description || is_some tags || is_some safe || is_some trust then
    on_rows (update function_id description tags safe trust);; mret tt
  else mret tt.

Definition updated_reply (service name : string) (f : function) (message : string) (created_by : option string) (warnings : list string)
    : MCPToolResult :=
  reply (with_entry (match warnings with [] => false | _ => true end) "warnings" (texts warnings)
        (with_entry (truthy_ostr created_by) "created_by" (otext created_by)
          [("name", PStr (service +:+ "." +:+ name)); ("version", PInt (active_version f)); ("message", PStr message)])).

Definition find_function (k : creator) (service name : string) : M function :=
  ns ← _get_current_namespace k;
  svc ← on_namespace_rows (service_get_by_name (n_id ns) service);
  on_rows (get_by_name (s_id svc) name).

Definition _update_function (k : creator) (arguments : args) : M MCPToolResult :=
  takes ["service"; "name"]
    ["backend"; "code"; "config"; "input_schema"; "output_schema"; "description"; "tags"; "requirements"; "required_env"; "optional_env";
     "created_by"; "restore_version"; "public_safe"; "output_trust"] arguments;;
  service ← text_arg "service" arguments;
  name ← text_arg "name" arguments;
  backend ← opt_text "backend" arguments;
  code ← opt_text "code" arguments;
  description ← opt_text "description" arguments;
  tags ← opt_texts "tags" arguments;
  requirements ← opt_texts "requirements" arguments;
  required_env ← opt_texts "required_env" arguments;
  optional_env ← opt_texts "optional_env" arguments;
  created_by ← opt_text "created_by" arguments;
  restore_version ← opt_int "restore_version" arguments;
  public_safe ← opt_bool "public_safe" arguments;
  output_trust ← opt_text "output_trust" arguments;
  f ← find_function k service name;
  s ← getS;
  match revalidated requirements (language_of (f_id f) (tables (runs s)) f) with
  | inr errors => mret (error_reply [("errors", texts errors)])
  | inl reqs =>
      match invalid_env_name (default [] required_env ++ default [] optional_env) with
      | Some m => mret (error_reply [("error", PStr m)])
      | None =>
          if match output_trust with Some t => negb (valid_trust t) | None => false end
          then value_error "output_trust must be 'prompt' or 'data'"
          else
            update_metadata (f_id f) description tags public_safe output_trust;;
            message ← write_version (f_id f)
              (Changes backend code (opt_json "config" arguments) (opt_json "input_schema" arguments) (opt_json "output_schema" arguments)
                 reqs required_env optional_env created_by) (default 0 restore_version);
            f ← on_rows (get_by_id (f_id f));
            mret (updated_reply service name f message created_by (scanned code))
      end
  end.

Definition _delete_function (k : creator) (arguments : args) : M MCPToolResult :=
  takes ["service"; "name"] [] arguments;;
  service ← text_arg "service" arguments;
  name ← text_arg "name" arguments;
  f ← find_function k service name;
  now ← now_seconds;
  on_rows (Functions.delete now (f_id f) false);;
  mret (ToolResult_ ("Deleted function: " +:+ service +:+ "." +:+ name) false None).

Definition _list_functions (k : creator) (arguments : args) : M MCPToolResult :=
  takes ["service"] ["tag"] arguments;;
  service ← text_arg "service" arguments;
  tag ← opt_text "tag" arguments;
  ns ← _get_current_namespace_read k;
  svc ← on_namespace_rows (service_get_by_name (n_id ns) service);
  '(found, total) ← on_rows (list_functions (s_id svc) 1 50 (if truthy_ostr tag then Some [default "" tag] else None));
  mret (reply [("functions", PList (map (fun f => PDict [("name", PStr (service +:+ "." +:+ f_name f)); ("description", otext (f_description f));
                  ("version", PInt (active_version f)); ("tags", texts (default [] (f_tags f))); ("call_count", PInt (call_count f))]) found));
               ("total", PInt total)]).

Definition version_details (v : version) : pyval :=
  let sp := v_spec v in
  PDict [("id", PStr (v_id v)); ("version", PInt (v_version v)); ("backend", PStr (backend sp)); ("language", PStr (v_language v));
         ("code", otext (code sp)); ("config", ojson (config sp)); ("input_schema", ojson (input_schema sp));
         ("output_schema", ojson (output_schema sp)); ("requirements", otexts (requirements sp));
         ("required_env", otexts (required_env sp)); ("optional_env", otexts (optional_env sp)); ("created_by", otext (created_by sp))].

Definition version_line (v : version) : pyval :=
  PDict [("version", PInt (v_version v)); ("backend", PStr (backend (v_spec v))); ("language", PStr (v_language v));
         ("created_by", otext (created_by (v_spec v)))].

(** [FunctionService.describe] *)
Definition describe (function_id : string) : stm store Security.exn args :=
  f ← get_by_id function_id;
  s ← getS;
  mret [("id", PStr (f_id f)); ("name", PStr (f_name f)); ("description", otext (f_description f)); ("tags", texts (default [] (f_tags f)));
        ("public_safe", PBool (public_safe f)); ("call_count", PInt (call_count f)); ("active_version", PInt (active_version f));
        ("active_version_details", match Functions.get_active_version_obj (versions s) f with Some v => version_details v | None => PNone end);
        ("versions", PList (map version_line (versions_of function_id (versions s))))].

Definition _describe_function (k : creator) (arguments : args) : M MCPToolResult :=
  takes ["service"; "name"] [] arguments;;
  service ← text_arg "service" arguments;
  name ← text_arg "name" arguments;
  ns ← _get_current_namespace_read k;
  svc ← on_namespace_rows (service_get_by_name (n_id ns) service);
  f ← on_rows (get_by_name (s_id svc) name);
  d ← on_rows (describe (f_id f));
  mret (reply d).

(** Any account may lock: the namespace is looked up without an account. *)
Definition locked_reply (namespace service function : string) (b : bool) : MCPToolResult :=
  reply [("namespace", PStr namespace); ("service", PStr service); ("function", PStr function); ("locked", PBool b)].

Definition function_anywhere (namespace service function : string) : M Functions.function :=
  ns ← on_namespace_rows (Namespaces.get_by_name namespace None None None);
  svc ← on_namespace_rows (service_get_by_name (n_id ns) service);
  on_rows (get_by_name (s_id svc) function).

Definition lock_arguments (arguments : args) : M (string * string * string) :=
  takes ["namespace"; "service"; "function"] [] arguments;;
  namespace ← text_arg "namespace" arguments;
  service ← text_arg "service" arguments;
  function ← text_arg "function" arguments;
  mret (namespace, service, function).

Definition _lock_function (k : creator) (arguments : args) : M MCPToolResult :=
  '(namespace, service, function) ← lock_arguments arguments;
  f ← function_anywhere namespace service function;
  now ← now_seconds;
  on_rows (lock_function now (f_id f) (k_user_id k));;
  mret (locked_reply namespace service function true).

Definition _unlock_function (k : creator) (arguments : args) : M MCPToolResult :=
  '(namespace, service, function) ← lock_arguments arguments;
  f ← function_anywhere namespace service function;
  on_rows (unlock_function (f_id f));;
  mret (locked_reply namespace service function false).

(** ** Packages and templates *)

Definition packages_json (by_category : list (string * list (string * string))) : pyval :=
  PDict (map (fun c => (c.1, PList (map (fun p => PDict [("name", PStr p.1); ("description", PStr p.2)]) c.2))) by_category).

Definition _list_packages (k : creator) (arguments : args) : M MCPToolResult :=
  takes [] ["language"] arguments;;
  if match given "language" arguments with PStr l => String.eqb l "typescript" | _ => false end then
    mret (reply [("language", PStr "typescript"); ("packages", packages_json get_node_registry_by_category);
                 ("total", PInt (Z.of_nat (length NODE_PACKAGE_REGISTRY)));
                 ("note", PStr "Node.js built-ins (crypto, url, path, buffer, util, fs, http) are always available without listing.")])
  else
    mret (reply [("language", PStr "python"); ("packages", packages_json get_registry_by_category);
                 ("total", PInt (Z.of_nat (length PACKAGE_REGISTRY)))]).

Definition template_dict (t : template) : args :=
  with_entry (t_requires_network t) "requires_network" (PBool true)
    [("name", PStr (t_name t)); ("description", PStr (t_description t)); ("language", PStr (t_language t)); ("tags", texts (t_tags t));
     ("requirements", texts (t_requirements t))].

Definition template_full_dict (t : template) : args :=
  with_entry (t_requires_network t) "requires_network" (PBool true)
    [("name", PStr (t_name t)); ("description", PStr (t_description t)); ("language", PStr (t_language t)); ("code", PStr (t_code t));
     ("input_schema", t_input_schema t); ("output_schema", t_output_schema t); ("tags", texts (t_tags t));
     ("requirements", texts (t_requirements t))].

Definition _list_templates (k : creator) (arguments : args) : M MCPToolResult :=
  takes [] [] arguments;;
  mret (reply [("templates", PList (map (fun t => PDict (template_dict t)) list_templates))]).

Definition _describe_template (k : creator) (arguments : args) : M MCPToolResult :=
  takes ["name"] [] arguments;;
  name ← text_arg "name" arguments;
  mret (match get_template name with
        | None => error_reply [("error", PStr ("Unknown template: " +:+ name))]
        | Some t => reply (template_full_dict t)
        end).

(** ** Procedures *)

Fixpoint all_steps (l : list pyval) : option (list step) :=
  match l with
  | [] => Some []
  | PDict d :: rest => rest' ← all_steps rest; Some (d :: rest')
  | _ => None
  end.
Definition opt_steps (arguments : args) : M (option (list step)) :=
  match given "steps" arguments with
  | PNone => mret None
  | PList l => match all_steps l with Some ss => mret (Some ss) | None => raise IllTyped end
  | _ => raise IllTyped
  end.

Definition active_steps (p : procedure) (s : state (R := R) (L := L)) : list step :=
  match Procedures.get_active_version_obj (procedure_versions s) p with Some v => pv_steps v | None => [] end.

Definition step_count (p : procedure) (s : state (R := R) (L := L)) : pyval := PInt (Z.of_nat (length (active_steps p s))).

Definition _make_procedure (k : creator) (arguments : args) : M MCPToolResult :=
  takes ["service"; "name"; "steps"] ["description"] arguments;;
  service ← text_arg "service" arguments;
  name ← text_arg "name" arguments;
  steps ← opt_steps arguments;
  description ← opt_text "description" arguments;
  match steps with
  | None => raise IllTyped
  | Some steps =>
      ns ← _get_current_namespace k;
      now ← now_seconds;
      new_id ← draw fresh_uuid;
      p ← on_procedures (create_procedure now new_id (n_id ns) service name steps description None);
      s ← getS;
      mret (reply [("id", PStr (p_id p)); ("name", PStr (p_name p)); ("service", PStr service); ("version", PInt (p_active_version p));
                   ("step_count", step_count p s)])
  end.

Definition _update_procedure (k : creator) (arguments : args) : M MCPToolResult :=
  takes ["service"; "name"] ["steps"; "description"] arguments;;
  service ← text_arg "service" arguments;
  name ← text_arg "name" arguments;
  steps ← opt_steps arguments;
  description ← opt_text "description" arguments;
  ns ← _get_current_namespace k;
  p ← on_procedures (update_procedure (n_id ns) service name steps description None);
  mret (reply [("name", PStr (p_name p)); ("version", PInt (p_active_version p)); ("updated", PBool true)]).

Definition _delete_procedure (k : creator) (arguments : args) : M MCPToolResult :=
  takes ["service"; "name"] [] arguments;;
  service ← text_arg "service" arguments;
  name ← text_arg "name" arguments;
  ns ← _get_current_namespace k;
  on_procedures (delete_procedure (n_id ns) service name);;
  mret (reply [("name", PStr name); ("deleted", PBool true)]).

Definition _list_procedures (k : creator) (arguments : args) : M MCPToolResult :=
  takes ["service"] [] arguments;;
  service ← text_arg "service" arguments;
  ns ← _get_current_namespace k;
  found ← on_procedures (list_procedures (n_id ns) service);
  s ← getS;
  mret (reply [("procedures", PList (map (fun p => PDict [("name", PStr (p_name p)); ("description", otext (p_description p));
                  ("version", PInt (p_active_version p)); ("step_count", step_count p s)]) found));
               ("total", PInt (Z.of_nat (length found)))]).

Definition _describe_procedure (k : creator) (arguments : args) : M MCPToolResult :=
  takes ["service"; "name"] [] arguments;;
  service ← text_arg "service" arguments;
  name ← text_arg "name" arguments;
  ns ← _get_current_namespace k;
  p ← on_procedures (get_procedure (n_id ns) service name);
  s ← getS;
  let versions := List.filter (fun v => String.eqb (pv_procedure_id v) (p_id p)) (procedure_versions s) in
  mret (reply [("id", PStr (p_id p)); ("name", PStr (p_name p)); ("description", otext (p_description p)); ("service", PStr service);
               ("active_version", PInt (p_active_version p)); ("steps", PList (map PDict (active_steps p s)));
               ("versions", PList (map (fun v => PDict [("version", PInt (pv_version v)); ("created_by", otext (pv_created_by v))])
                  (order_by (fun a b => pv_version b <=? pv_version a) versions)))]).

(** [s.get("status") == "success"] of every result. *)
Fixpoint steps_completed (results : list pyval) : M Z :=
  match results with
  | [] => mret 0
  | PDict d :: rest =>
      n ← steps_completed rest;
      mret (if match dict_get "status" d with Some (PStr "success") => true | _ => false end then n + 1 else n)
  | _ => raise (AttributeError "get")
  end.

Fixpoint execution_lines (l : list Procedures.execution) : M (list pyval) :=
  match l with
  | [] => mret []
  | x :: rest =>
      n ← steps_completed (x_step_results x);
      rest' ← execution_lines rest;
      mret (PDict [("id", PStr (x_id x)); ("status", PStr (x_status x)); ("trigger_type", PStr (x_trigger_type x));
                   ("version", PInt (x_procedure_version x)); ("steps_completed", PInt n)] :: rest')
  end.

Definition _list_procedure_executions (k : creator) (arguments : args) : M MCPToolResult :=
  takes ["service"; "name"] ["status"; "limit"] arguments;;
  service ← text_arg "service" arguments;
  name ← text_arg "name" arguments;
  status ← opt_text "status" arguments;
  limit ← opt_int "limit" arguments;
  ns ← _get_current_namespace k;
  p ← on_procedures (get_procedure (n_id ns) service name);
  found ← on_procedures (list_executions (p_id p) status (default 10 limit));
  lines ← execution_lines found;
  mret (reply [("executions", PList lines); ("total", PInt (Z.of_nat (length lines)))]).

(** [str(uuid.UUID(text))]: braces, hyphens and the prefixes of a URN are
    dropped, then there must be 32 hexadecimal digits. *)
Definition hyphenated (h : string) : string :=
  str_join "-" [String.substring 0 8 h; String.substring 8 4 h; String.substring 12 4 h; String.substring 16 4 h; String.substring 20 12 h].
Definition parse_uuid (text : string) : option string :=
  let h := str_replace "-" "" (str_strip_by (fun c => Ascii.eqb c "{" || Ascii.eqb c "}")
             (str_replace "uuid:" "" (str_replace "urn:" "" text))) in
  if (String.length h =? 32)%nat && str_forallb Ssrf.hex_char h then Some (hyphenated (str_lower h)) else None.

Definition uuid_arg (key : string) (arguments : args) : M string :=
  text ← text_arg key arguments;
  match parse_uuid text with Some id => mret id | None => value_error "badly formed hexadecimal UUID string" end.

(** The execution is looked up by its identifier alone. *)
Definition _describe_procedure_execution (k : creator) (arguments : args) : M MCPToolResult :=
  takes ["execution_id"] [] arguments;;
  id ← uuid_arg "execution_id" arguments;
  x ← on_procedures (get_execution id);
  mret (reply [("id", PStr (x_id x)); ("procedure_id", PStr (x_procedure_id x)); ("version", PInt (x_procedure_version x));
               ("status", PStr (x_status x)); ("trigger_type", PStr (x_trigger_type x)); ("current_step", PInt (x_current_step x));
               ("step_results", PList (x_step_results x)); ("input_context", ojson (x_input_context x)); ("error", otext (Procedures.x_error x))]).

(** The handlers of this file, by the names of their tools. *)
Definition FUNCTION_TOOLS : list (string * (creator -> args -> M MCPToolResult)) :=
  [("make_namespace", _make_namespace); ("list_namespaces", _list_namespaces); ("make_service", _make_service);
   ("list_services", _list_services); ("delete_service", _delete_service); ("make_function", _make_function);
   ("update_function", _update_function); ("delete_function", _delete_function); ("list_functions", _list_functions);
   ("describe_function", _describe_function); ("list_packages", _list_packages); ("list_templates", _list_templates);
   ("describe_template", _describe_template); ("make_procedure", _make_procedure); ("update_procedure", _update_procedure);
   ("delete_procedure", _delete_procedure); ("list_procedures", _list_procedures); ("describe_procedure", _describe_procedure);
   ("list_procedure_executions", _list_procedure_executions); ("describe_procedure_execution", _describe_procedure_execution);
   ("lock_function", _lock_function); ("unlock_function", _unlock_function)].
End tools.

(** ** What the readers of arguments return *)

(** One argument of a handler, by the lemma of its reader. *)
Tactic Notation "next_arg" uconstr(lem) ident(K) ident(E) := let K' := fresh in apply stm_bind_Ok in K as (? & ? & K' & K); apply lem in K' as [-> E].
Tactic Notation "next_opt" uconstr(lem) ident(K) := let K' := fresh in apply stm_bind_Ok in K as (? & ? & K' & K); apply lem in K' as ->.

Section facts.
Context `{Network} `{Aead} `{Crypto} {R : Type} `{TextCacheOps R} `{RunOutside} {L : Type} `{RedisOps L} `{!Secrets}.
Context (get_template : string -> option template) (list_templates : list template).
Abbreviation St := (state (R := R) (L := L)).
Abbreviation args := (list (string * pyval)).

Lemma takes_Ok required optional (arguments : args) (s s' : St) u :
  takes required optional arguments s = (Ok u, s') -> s' = s.
Proof. unfold takes. destruct (_ && _); [by intros [= _ <-]|done]. Qed.

Lemma text_arg_Ok key (arguments : args) (s s' : St) t :
  text_arg key arguments s = (Ok t, s') -> s' = s /\ given key arguments = PStr t.
Proof. unfold text_arg. destruct (given key arguments); try done. by intros [= -> <-]. Qed.

Lemma opt_text_Ok key (arguments : args) (s s' : St) o :
  opt_text key arguments s = (Ok o, s') -> s' = s /\ given key arguments = match o with Some t => PStr t | None => PNone end.
Proof. unfold opt_text. destruct (given key arguments); try done; by intros [= <- <-]. Qed.

Lemma opt_bool_Ok key (arguments : args) (s s' : St) o : opt_bool key arguments s = (Ok o, s') -> s' = s.
Proof. unfold opt_bool. destruct (given key arguments); try done; by intros [= _ <-]. Qed.

Lemma opt_texts_Ok key (arguments : args) (s s' : St) o : opt_texts key arguments s = (Ok o, s') -> s' = s.
Proof.
  unfold opt_texts. destruct (given key arguments) as [| | | |l|]; try done; [by intros [= _ <-]|].
  destruct (all_texts l); [by intros [= _ <-]|done].
Qed.

(** A query of the tables of namespaces leaves the state as it is. *)
Lemma namespace_rows_pure {A} (m : stm Namespaces.tables Security.exn A) (s s' : St) a :
  (forall t, (m t).2 = t) -> on_namespace_rows m s = (Ok a, s') -> s' = s /\ (m (ns (tables (runs s)))).1 = Ok a.
Proof.
  intros Hm. unfold on_namespace_rows, on_run, on_namespaces, on_store, on_services. specialize (Hm (ns (tables (runs s)))).
  destruct (m (ns (tables (runs s)))) as [[x|e] t]; cbn [snd] in Hm; subst t; [|done]. cbn.
  intros [= -> <-]. split; [|done]. destruct s as [w ? ? ? ? ?]. destruct w. cbn. by match goal with t : store |- _ => destruct t end.
Qed.

Lemma service_get_pure n name t : (service_get_by_name n name t).2 = t.
Proof.
  unfold service_get_by_name, mbind, stm_bind, select.
  by destruct (List.filter _ _) as [|x [|y l]].
Qed.

Lemma service_get_Ok n name t x :
  (service_get_by_name n name t).1 = Ok x -> x ∈ services t /\ s_namespace_id x = n /\ s_name x = str_lower name.
Proof.
  unfold service_get_by_name, mbind, stm_bind.
  destruct (select_cases services (fun x => String.eqb (s_namespace_id x) n && String.eqb (s_name x) (str_lower name)) t)
    as [(y & -> & Hy & [K1%String.eqb_eq K2%String.eqb_eq]%andb_true_iff & _)|[[-> _]| ->]]; try done. by intros [= <-].
Qed.

(** The row of a name is the same for everybody who may have it. *)
Lemma get_by_name_same name a u p a' u' p' t n n' :
  (Namespaces.get_by_name name a u p t).1 = Ok n -> (Namespaces.get_by_name name a' u' p' t).1 = Ok n' -> n = n'.
Proof.
  unfold Namespaces.get_by_name, mbind, stm_bind.
  destruct (select_cases namespaces (fun n => String.eqb (n_name n) (str_lower name) && Namespaces.is_live n) t)
    as [(y & -> & _)|[[-> _]| ->]]; [|done..].
  assert (forall a u p m, (check_owner y a u p t).1 = Ok m -> m = y) as Hc.
  { intros b v q m. unfold check_owner. destruct b as [b|]; [|by intros [= <-]]. destruct (String.eqb _ _); [by intros [= <-]|].
    destruct v as [v|], q as [q|]; try done. destruct (truthy_str q); [|done]. unfold mbind, stm_bind.
    destruct (_check_share_access _ _ _ _) as [[[]|] t'']; [by intros [= <-]|done..]. }
  intros K1%Hc K2%Hc. congruence.
Qed.

Lemma draw_Ok {A} (f : around -> A * around) (s s' : St) a :
  draw f s = (Ok a, s') -> a = (f (out (runs s))).1 /\ tables (runs s') = tables (runs s).
Proof. unfold draw, on_run, RunHandler.ask. destruct (f (out (runs s))). by intros [= <- <-]. Qed.

Lemma now_Ok (s s' : St) n : now_seconds s = (Ok n, s') -> tables (runs s') = tables (runs s).
Proof. unfold now_seconds. intros (ms & s1 & K & [_ <-]%stm_ret_Ok)%stm_bind_Ok. by apply draw_Ok in K as [_ ->]. Qed.

Lemma on_rows_Ok {A} (m : stm store Security.exn A) (s s' : St) a :
  on_rows m s = (Ok a, s') -> m (tables (runs s)) = (Ok a, tables (runs s')).
Proof. unfold on_rows, on_run, on_store. destruct (m _) as [[x|e] t]; [|done]. by intros [= -> <-]. Qed.

(** What [make_function] stores: the version is valid and is the one that runs. *)
Definition allowed_requirements (v : version) : Prop :=
  forall l, requirements (v_spec v) = Some l -> NoDup l /\ forall c, c ∈ l -> is_Some (dict_get c (registry_for (v_language v))).

Definition allowed_env (v : version) : Prop :=
  forall name, name ∈ default [] (required_env (v_spec v)) ++ default [] (optional_env (v_spec v)) -> allowed_key name.

Lemma invalid_env_none names : invalid_env_name names = None -> forall name, name ∈ names -> _validate_key name = Ok tt.
Proof.
  induction names as [|n names IH]; cbn [invalid_env_name]; [by intros _ x Hx%not_elem_of_nil|].
  assert (_validate_key n = Ok tt \/ exists m, _validate_key n = Err (EnvPassthroughError m)) as [E|[m E]]
    by (unfold _validate_key, env_error; repeat case_match; eauto); rewrite E; [|done].
  intros K x [->|Hx]%elem_of_cons; auto.
Qed.

Lemma validated_ok q reqs : validated q = inl reqs -> forall l, reqs = Some l ->
  NoDup l /\ forall c, c ∈ l -> is_Some (dict_get c (registry_for (q_language q))).
Proof.
  unfold validated. destruct (some_names (q_requirements q)); [|by intros [= <-] l].
  destruct (validate_requirements_for_language _ _) as [v [|e es]] eqn:E; [|done]. intros [= <-] l [= <-].
  destruct (requirements_spec (default [] (q_requirements q)) (q_language q)) as [message K]. rewrite E in K.
  destruct K as (Hn & Hv & _). split; [done|]. intros c (r & _ & Hr)%Hv. by apply (resolve_registered _ r).
Qed.

Lemma settle_code q template q' c : settle get_template q template = inl q' -> q_code q = Some c -> q_code q' = Some c.
Proof.
  unfold settle. destruct template as [t|]; [|by intros [= <-]]. destruct (truthy_str t); [|by intros [= <-]].
  destruct (get_template t); [|done]. intros [= <-] Hc. cbn. by rewrite Hc.
Qed.

#[local] Set Default Proof Using "Type*".

(** A name for a new row that no row has, whatever was drawn before. *)
Definition fresh_ids (s : St) : Prop := forall o, (fresh_uuid o).1 ∉ map f_id (functions (tables (runs s))).

Lemma create_keeps_namespaces now i vi sv name sp d t l safe tr : frame Functions.ns (create now i vi sv name sp d t l safe tr).
Proof.
  unfold create, insert_function, insert_version, trust_fits, not_found, conflict.
  assert (forall g, frame Functions.ns (set_functions g)) by done. assert (forall g, frame Functions.ns (set_versions g)) by done.
  assert (forall f, frame Functions.ns (put_function f)) by done. frame_tac.
Qed.

Lemma create_function_runs k sn fn b config q reqs re oe by_ safe tr (s s' : St) r :
  create_function k sn fn b config q reqs re oe by_ safe tr s = (Ok r, s') -> Functions.wf (tables (runs s)) -> fresh_ids s ->
  exists n f v,
    (Namespaces.get_by_name (k_namespace_name k) (Some (k_account_id k)) None None (ns (tables (runs s)))).1 = Ok n /\
    ns (tables (runs s')) = ns (tables (runs s)) /\ Functions.wf (tables (runs s')) /\
    get_for_execution (n_id n) sn fn (tables (runs s')) = (Ok (f, v), tables (runs s')) /\
    v_spec v = Spec b (q_code q) config (q_input_schema q) (q_output_schema q) reqs re oe by_ /\
    v_language v = q_language q /\ output_trust f = tr.
Proof.
  unfold create_function. intros (n & s1 & K1 & Hrun)%stm_bind_Ok Hwf Hfresh.
  apply namespace_rows_pure in K1 as [-> Hn]; [|intros t; apply get_by_name_pure].
  apply stm_bind_Ok in Hrun as (x & s2 & K2 & Hrun). apply namespace_rows_pure in K2 as [-> Hx]; [|intros t; apply service_get_pure].
  apply service_get_Ok in Hx as (Hx & Hxn & Hxs).
  apply stm_bind_Ok in Hrun as (now & s3 & K3%now_Ok & Hrun). apply stm_bind_Ok in Hrun as (i & s4 & [Hi K4]%draw_Ok & Hrun).
  apply stm_bind_Ok in Hrun as (vi & s5 & [_ K5]%draw_Ok & Hrun). apply stm_bind_Ok in Hrun as (f & s6 & K6%on_rows_Ok & Hrun).
  apply stm_ret_Ok in Hrun as [_ <-]. rewrite K5, K4, K3 in K6. pose proof (Hfresh (out (runs s3))) as Hf. rewrite <-Hi in Hf.
  pose proof (frame_result _ _ _ _ _ (create_keeps_namespaces _ _ _ _ _ _ _ _ _ _ _) K6) as Hns.
  destruct (create_runs (tables (runs s)) (n_id n) sn fn x now i vi _ _ _ _ _ _ f (tables (runs s6)) Hwf Hf Hx Hxn Hxs K6)
    as (Hwf' & v & Hv & Hsp & Hl & Ht).
  by exists n, f, v.
Qed.

(** What the call asks for, of the version that it leaves. *)
Definition as_asked (arguments : args) (f : function) (v : version) : Prop :=
  given "backend" arguments = PStr (backend (v_spec v)) /\
  (forall c, given "code" arguments = PStr c -> code (v_spec v) = Some c) /\
  config (v_spec v) = opt_json "config" arguments /\
  (given "template" arguments = PNone ->
     dict_getd "language" (PStr "python") arguments = PStr (v_language v) /\ v_language v ∈ ["python"; "typescript"]) /\
  given "output_trust" arguments = PStr (output_trust f) /\ output_trust f ∈ ["prompt"; "data"] /\
  allowed_requirements v /\ allowed_env v.

Lemma ask_trust_Ok trust c re (s s' : St) t :
  ask_trust trust c re s = (Ok t, s') -> s' = s /\ trust = Some t /\ t ∈ ["prompt"; "data"].
Proof.
  unfold ask_trust, value_error. destruct trust as [t'|]; [|done]. destruct (valid_trust t') eqn:E; [|done].
  apply str_in_spec in E. by intros [= -> <-].
Qed.

Lemma text_or_Ok key d (arguments : args) (s s' : St) t :
  text_or key d arguments s = (Ok t, s') -> s' = s /\ dict_getd key (PStr d) arguments = PStr t.
Proof. unfold text_or. destruct (dict_getd _ _ _); try done. by intros [= -> <-]. Qed.


(** What [make_function] leaves when it answers without an error. *)
Lemma make_function_runs k arguments (s s' : St) r sn fn :
  _make_function get_template k arguments s = (Ok r, s') -> isError r = false ->
  given "service" arguments = PStr sn -> given "name" arguments = PStr fn ->
  Functions.wf (tables (runs s)) -> fresh_ids s ->
  exists n f v,
    (Namespaces.get_by_name (k_namespace_name k) (Some (k_account_id k)) None None (ns (tables (runs s)))).1 = Ok n /\
    ns (tables (runs s')) = ns (tables (runs s)) /\ Functions.wf (tables (runs s')) /\
    get_for_execution (n_id n) sn fn (tables (runs s')) = (Ok (f, v), tables (runs s')) /\ as_asked arguments f v.
Proof.
  unfold _make_function. intros Hrun Hr Hsn Hfn Hwf Hfresh. next_opt takes_Ok Hrun.
  next_arg text_arg_Ok Hrun E1. rewrite Hsn in E1. injection E1 as <-. next_arg text_arg_Ok Hrun E2. rewrite Hfn in E2. injection E2 as <-.
  next_arg text_arg_Ok Hrun Eb. next_arg opt_text_Ok Hrun Ec. next_arg opt_text_Ok Hrun Ed.
  do 4 next_opt opt_texts_Ok Hrun. next_arg opt_text_Ok Hrun Ea. next_arg opt_text_Ok Hrun Et. next_arg text_or_Ok Hrun El.
  next_opt opt_bool_Ok Hrun. next_arg opt_text_Ok Hrun Eo.
  match type of El with _ = PStr ?l => destruct (str_in l ["python"; "typescript"]) eqn:Hl end; cbn [negb] in Hrun;
    [|apply stm_ret_Ok in Hrun as [<- _]; done].
  apply str_in_spec in Hl. destruct (settle _ _ _) as [q|refusal] eqn:Hq.
  2: { exfalso. unfold settle in Hq. apply stm_ret_Ok in Hrun as [-> _]. repeat case_match; simplify_eq; done. }
  destruct (validated q) as [reqs|] eqn:Hv; [|apply stm_ret_Ok in Hrun as [<- _]; done].
  destruct (invalid_env_name _) as [m|] eqn:He; [apply stm_ret_Ok in Hrun as [<- _]; done|].
  apply stm_bind_Ok in Hrun as (trust & s1 & Ht & Hrun). apply ask_trust_Ok in Ht as (-> & -> & Ht).
  apply create_function_runs in Hrun as (n & f & v & Hn & Hns & Hwf' & Hget & Hsp & Hvl & Htr); [|done..].
  exists n, f, v. split_and!; try done. unfold as_asked, allowed_requirements, allowed_env. rewrite Hsp, Hvl, Htr.
  cbn [backend code config requirements required_env optional_env]. split_and!; try done.
  - intros c Hc. rewrite Hc in Ec. match type of Ec with _ = match ?x with _ => _ end => destruct x; [|done] end. injection Ec as <-.
    by eapply settle_code.
  - intros Hnone. rewrite Hnone in Et. match type of Et with _ = match ?x with _ => _ end => destruct x; [done|] end. by injection Hq as <-.
  - by eapply validated_ok.
  - intros name Hname. apply validate_key_spec. eapply invalid_env_none; [exact He|]. revert Hname.
    destruct (default [] _ ++ default [] _) eqn:E; [|by rewrite <-E]. cbn. by intros ?%not_elem_of_nil.
Qed.
End facts.

(** ** Locks *)

Section tenants.
Context `{Network} `{Aead} `{Crypto} {R : Type} `{TextCacheOps R} `{RunOutside} {L : Type} `{RedisOps L} `{!Secrets}.
Abbreviation St := (state (R := R) (L := L)).
Abbreviation args := (list (string * pyval)).

Lemma namespace_rows_run {A} (m : stm Namespaces.tables Security.exn A) (s : St) a :
  (forall t, (m t).2 = t) -> (m (ns (tables (runs s)))).1 = Ok a -> on_namespace_rows m s = (Ok a, s).
Proof.
  intros Hm Ha. unfold on_namespace_rows, on_run, on_namespaces, on_store, on_services. specialize (Hm (ns (tables (runs s)))).
  destruct (m (ns (tables (runs s)))) as [[x|e] t]; cbn [fst snd] in *; [|done]. injection Ha as ->. subst t.
  destruct s as [[[] ? ? ? ? ? ? ? ? ? ? ?] ? ? ? ? ?]. done.
Qed.

Lemma on_rows_run {A} (m : stm store Security.exn A) (s : St) r t :
  m (tables (runs s)) = (r, t) ->
  on_rows m s = (match r with Ok a => Ok a | Err e => Err (Run (Service e)) end, with_runs (with_store t (runs s)) s).
Proof. intros E. unfold on_rows, on_run, on_store. rewrite E. by destruct r. Qed.

Lemma now_run (s : St) : exists n s', now_seconds s = (Ok n, s') /\ tables (runs s') = tables (runs s).
Proof.
  unfold now_seconds, draw, on_run, RunHandler.ask, mbind, stm_bind. destruct (clock_ms (out (runs s))) as [n o]. by eexists _, _.
Qed.

Lemma get_by_name_Ok sv name (t : store) f :
  (get_by_name sv name t).1 = Ok f -> f ∈ functions t /\ f_service_id f = sv /\ f_name f = str_lower name /\ Functions.is_live f = true.
Proof.
  unfold get_by_name, mbind, stm_bind, getS, lift_res.
  match goal with |- context [one_or_none ?p ?l] => destruct (one_or_none_cases p l) as [(g & -> & Hg & Hp & _)|[[-> _]| ->]] end; try done.
  intros [= <-]. rewrite !andb_true_iff, !String.eqb_eq in Hp. tauto.
Qed.

Lemma get_by_name_live (t : store) f name : Functions.wf t -> f ∈ functions t -> Functions.is_live f = true -> f_name f = str_lower name ->
  get_by_name (f_service_id f) name t = (Ok f, t).
Proof.
  intros Hwf Hf Hl Hn. unfold get_by_name, mbind, stm_bind, getS, lift_res.
  rewrite (one_unique full_name _ _ f); [done|apply Hwf|done|by rewrite <-Hn, !String.eqb_refl, Hl|].
  intros g _. rewrite !andb_true_iff, !String.eqb_eq. intros [[Hs Hg] _]. unfold full_name. congruence.
Qed.

(** The row of a function that a name leads to, whoever asks. *)
Definition reached (namespace service function : string) (t : store) (f : Functions.function) : Prop :=
  exists n x, (Namespaces.get_by_name namespace None None None (ns t)).1 = Ok n /\
    (service_get_by_name (n_id n) service (ns t)).1 = Ok x /\ (get_by_name (s_id x) function t).1 = Ok f.

Lemma function_anywhere_run namespace service function (s : St) f :
  Functions.wf (tables (runs s)) -> reached namespace service function (tables (runs s)) f ->
  exists s', function_anywhere namespace service function s = (Ok f, s') /\ tables (runs s') = tables (runs s).
Proof.
  intros Hwf (n & x & Hn & Hx & Hf). unfold function_anywhere, mbind, stm_bind.
  rewrite (namespace_rows_run _ s n); [|intros t; apply get_by_name_pure|done].
  rewrite (namespace_rows_run _ s x); [|intros t; apply service_get_pure|done].
  apply get_by_name_Ok in Hf as (Hf & <- & Hnm & Hl).
  erewrite on_rows_run; [|by apply get_by_name_live]. by eexists.
Qed.

Definition lock_args (namespace service function : string) : args :=
  [("namespace", PStr namespace); ("service", PStr service); ("function", PStr function)].

Lemma lock_arguments_run namespace service function (s : St) :
  lock_arguments (lock_args namespace service function) s = (Ok (namespace, service, function), s).
Proof. done. Qed.

Definition with_row (f : Functions.function) (t : store) : store := Store (ns t) (replace f (functions t)) (versions t) (calls t).

Lemma lock_run now user (t : store) f : Functions.wf t -> f ∈ functions t -> Functions.is_live f = true ->
  lock_function now (f_id f) user t = (Ok (lock_row f true (Some user) (Some now)), with_row (lock_row f true (Some user) (Some now)) t).
Proof. intros. unfold lock_function, mbind, stm_bind. by rewrite (get_by_id_live t f). Qed.

Lemma unlock_run (t : store) f : Functions.wf t -> f ∈ functions t -> Functions.is_live f = true ->
  unlock_function (f_id f) t = (Ok (lock_row f false None None), with_row (lock_row f false None None) t).
Proof. intros. unfold unlock_function, mbind, stm_bind. by rewrite (get_by_id_live t f). Qed.

(** Tenants are not kept apart by the tools [lock_function] and
    [unlock_function]: whoever calls, with whatever account, the live function
    that the names lead to is locked in his name, or unlocked, in any namespace. *)
Theorem lock_crosses_tenants k namespace service function (s : St) f :
  Functions.wf (tables (runs s)) -> reached namespace service function (tables (runs s)) f ->
  exists now s1 s2,
    _lock_function k (lock_args namespace service function) s = (Ok (locked_reply namespace service function true), s1) /\
    functions (tables (runs s1)) = replace (lock_row f true (Some (k_user_id k)) (Some now)) (functions (tables (runs s))) /\
    _unlock_function k (lock_args namespace service function) s = (Ok (locked_reply namespace service function false), s2) /\
    functions (tables (runs s2)) = replace (lock_row f false None None) (functions (tables (runs s))).
Proof.
  intros Hwf Hr. pose proof Hr as (n & x & _ & _ & (Hf & _ & _ & Hl)%get_by_name_Ok).
  unfold _lock_function, _unlock_function. unfold mbind, stm_bind. rewrite lock_arguments_run.
  destruct (function_anywhere_run _ _ _ _ _ Hwf Hr) as (s1 & -> & E1). destruct (now_run s1) as (now & s2 & -> & E2).
  rewrite E1 in E2. exists now.
  erewrite (on_rows_run (lock_function _ _ _)); [|rewrite E2; by apply lock_run].
  erewrite (on_rows_run (unlock_function _)); [|rewrite E1; by apply unlock_run]. by do 2 eexists.
Qed.

(** ** Runs of procedures *)

(** Tenants are not kept apart by [describe_procedure_execution]: with the
    identifier of a run, every account gets the same answer, the results of the
    steps and the input included. *)
Theorem execution_trail_crosses_tenants k id x (s : St) :
  parse_uuid id = Some (x_id x) -> x ∈ procedure_executions s -> NoDup (map x_id (procedure_executions s)) ->
  (_describe_procedure_execution k [("execution_id", PStr id)] s).1 =
    Ok (reply [("id", PStr (x_id x)); ("procedure_id", PStr (x_procedure_id x)); ("version", PInt (x_procedure_version x));
               ("status", PStr (x_status x)); ("trigger_type", PStr (x_trigger_type x)); ("current_step", PInt (x_current_step x));
               ("step_results", PList (x_step_results x)); ("input_context", ojson (x_input_context x)); ("error", otext (Procedures.x_error x))]).
Proof.
  intros Hid Hx Hnd. unfold _describe_procedure_execution, uuid_arg, mbind, stm_bind.
  assert (takes ["execution_id"] [] [("execution_id", PStr id)] s = (Ok tt, s)) as -> by done. cbn -[parse_uuid on_procedures].
  rewrite Hid. cbn -[on_procedures]. unfold on_procedures, get_execution, mbind, stm_bind, getS, Procedures.lift. cbn [Procedures.executions].
  rewrite (one_unique x_id _ _ x); [done|done|done|by apply String.eqb_eq|by intros y _ Hy%String.eqb_eq].
Qed.
End tenants.

(** ** From the management handler to the run handler *)

Section made.
Context `{Network} `{Aead} `{Crypto} {R : Type} `{TextCacheOps R} `{RunOutside} {L : Type} `{RedisOps L} `{!Secrets}.
Context (get_template : string -> option template).
Context (b64decode : string -> string) (kek_b64 : string).
Context (run : scanner -> string -> PatternScanner.ScanContext -> option (string * PatternScanner.ScanVerdict)) (compute_hash : string -> string).
Context (backends : list string).
#[local] Set Default Proof Using "Type*".

(** [C2] A function made through the management tools is the one that runs: when
    [make_function] answers without an error, the tables stay well-formed, the
    name leads to a version that is as the call asked (its code, configuration,
    backend and trust, packages of the registry without repetition, variable names
    that may be passed), and any call of the name through the run handler, by
    whoever is let in, runs that version, is answered from the cache of that version
    with what was asked for, or reports the variables that lack. *)
Theorem made_function_runs k arguments (s s' : state (R := R) (L := L)) r sn fn :
  _make_function get_template k arguments s = (Ok r, s') -> isError r = false ->
  given "service" arguments = PStr sn -> given "name" arguments = PStr fn ->
  Functions.wf (tables (runs s)) -> fresh_ids s ->
  Functions.wf (tables (runs s')) /\
  exists n f v,
    (Namespaces.get_by_name (k_namespace_name k) (Some (k_account_id k)) None None (ns (tables (runs s)))).1 = Ok n /\
    as_asked arguments f v /\
    forall c name call_args env r' w',
      c_namespace_name c = k_namespace_name k ->
      dispatch_function b64decode kek_b64 run compute_hash backends c name sn fn call_args env (runs s') = (Ok r', w') ->
      match function_env (env_of env) (required_env (v_spec v)) (optional_env (v_spec v)) with
      | inr missing => r' = missing_env_result missing /\ executions w' = executions (runs s')
      | inl e => executed run compute_hash backends c n sn fn f v call_args e (runs s') w' r'
      end.
Proof.
  intros Hrun Hr Hsn Hfn Hwf Hfresh.
  destruct (make_function_runs get_template k arguments s s' r sn fn) as (n & f & v & Hn & Hns & Hwf' & Hget & Hask); [done..|].
  split; [done|]. exists n, f, v. split; [done|]. split; [done|]. intros c name ca env r' w' Hc Hcall.
  apply call_sound in Hcall as (n' & f' & v' & Hn' & _ & Hget' & Hout). rewrite Hc, Hns in Hn'.
  assert (n' = n) as -> by (by eapply get_by_name_same). rewrite Hget in Hget'. cbn [fst] in Hget'. by injection Hget' as <- <-.
Qed.
End made.

(** ** Examples *)

Section runs.
#[local] Existing Instance scripted_net.
#[local] Existing Instance toy_aead.
#[local] Existing Instance toy_crypto.
#[local] Existing Instance echo_sandbox.
#[local] Existing Instance toy_secrets.

Definition make_args : list (string * pyval) :=
  [("service", PStr "social"); ("name", PStr "Greet"); ("backend", PStr "code_sandbox"); ("code", PStr "return env");
   ("requirements", PList [PStr "requests"; PStr "HTTPX"]); ("required_env", PList [PStr "TOKEN"]); ("output_trust", PStr "data")].
Definition no_templates : string -> option template := fun _ => None.

Lemma demo_store_wf : Functions.wf (tables (runs demo_state)).
Proof.
  apply run_wf; [|split; [vm_compute|done]].
  - split; cbn; repeat constructor; set_solver.
  - set_solver.
Qed.

Lemma demo_fresh_ids : fresh_ids demo_state.
Proof. intros o. cbn. intros [E|[]%elem_of_nil]%elem_of_cons. discriminate E. Qed.

Lemma made_demo : exists r s', _make_function no_templates (demo_creator "a1") make_args demo_state = (Ok r, s') /\ isError r = false.
Proof.
  assert (match (_make_function no_templates (demo_creator "a1") make_args demo_state).1 with Ok r => negb (isError r) | Err _ => false end = true)
    as Hok by (vm_compute; reflexivity).
  destruct (_make_function _ _ _ _) as [[r|e] s'] eqn:E; [|done]. exists r, s'. split; [done|]. by apply negb_true_iff in Hok.
Qed.

Lemma made_function_runs_witness :
  exists r s', _make_function no_templates (demo_creator "a1") make_args demo_state = (Ok r, s') /\
    Functions.wf (tables (runs s')) /\
    exists n f v,
      (Namespaces.get_by_name "acme" (Some "a1") None None (ns (tables (runs demo_state)))).1 = Ok n /\
      as_asked make_args f v /\
      forall c name call_args env r' w',
        c_namespace_name c = "acme"%string ->
        dispatch_function (R := text_map) (fun s => s) "" blocking (fun s => s) ["code_sandbox"] c name "social" "Greet" call_args env (runs s') = (Ok r', w') ->
        match function_env (env_of env) (required_env (v_spec v)) (optional_env (v_spec v)) with
        | inr missing => r' = missing_env_result missing /\ executions w' = executions (runs s')
        | inl e => executed blocking (fun s => s) ["code_sandbox"] c n "social" "Greet" f v call_args e (runs s') w' r'
        end.
Proof.
  destruct made_demo as (r & s' & E & Hr). exists r, s'. split; [exact E|].
  exact (made_function_runs no_templates (fun s => s) "" blocking (fun s => s) ["code_sandbox"] (demo_creator "a1") make_args demo_state s' r
    "social" "Greet" E Hr eq_refl eq_refl demo_store_wf demo_fresh_ids).
Defined.

(** Another account, whose namespace has nothing to do with [acme], locks its function. *)
Definition stranger : creator := Creator "a9" "u9" ["write"] "elsewhere" "free" None.

Lemma demo_reached : exists f, reached "acme" "social" "post" (tables (runs demo_state)) f.
Proof. eexists. unfold reached. do 2 eexists. split_and!; vm_compute; reflexivity. Qed.

Lemma lock_crosses_tenants_witness :
  exists f now s1 s2,
    _lock_function stranger (lock_args "acme" "social" "post") demo_state = (Ok (locked_reply "acme" "social" "post" true), s1) /\
    functions (tables (runs s1)) = replace (lock_row f true (Some "u9") (Some now)) (functions (tables (runs demo_state))) /\
    _unlock_function stranger (lock_args "acme" "social" "post") demo_state = (Ok (locked_reply "acme" "social" "post" false), s2) /\
    functions (tables (runs s2)) = replace (lock_row f false None None) (functions (tables (runs demo_state))).
Proof.
  destruct demo_reached as [f Hf]. exists f.
  exact (lock_crosses_tenants stranger "acme" "social" "post" demo_state f demo_store_wf Hf).
Defined.

(** Its owner can then neither change nor delete it. *)
Example locked_out :
  let s := (_lock_function stranger (lock_args "acme" "social" "post") demo_state).2 in
  let post := [("service", PStr "social"); ("name", PStr "post")] in
  (_delete_function (demo_creator "a1") post s).1 =
    Err (Run (Service (mcp_with Security.ForbiddenError "Function 'post' is locked and cannot be deleted"))) /\
  match (_update_function (demo_creator "a1") (post ++ [("code", PStr "return 2")]) s).1 with Ok _ => False | Err _ => True end.
Proof. split; vm_compute; [reflexivity|done]. Qed.

Definition a_run : Procedures.execution :=
  Procedures.Execution "01234567-89ab-cdef-0123-456789abcdef" "p1" 1 None "manual" "completed" 1
    [PDict [("result", PStr "a secret of a1")]] None None None 7.
Definition state_with_run : state (R := text_map) (L := rmap) := State_ (runs demo_state) [] [] [a_run] ∅ ∅.

Lemma execution_trail_crosses_tenants_witness :
  exists answer, (_describe_procedure_execution stranger [("execution_id", PStr "{0123456789ABCDEF0123456789abcdef}")] state_with_run).1 = Ok answer.
Proof.
  eexists. apply (execution_trail_crosses_tenants stranger _ a_run state_with_run);
    [vm_compute; reflexivity|by left|apply NoDup_singleton].
Defined.
End runs.
