(* ===== verification/ToolRegistry.v ===== *)
(** * The tools that the management handler lists

    [mcp/tool_registry.py]: every tool with the JSON schema of its arguments,
    and [get_tools] of [mcp/create_handler.py], which lists them to a client.  The
    texts that explain tools and arguments are left out; a schema has everything
    else.  Against it stand the parameters of the handlers: what a client may
    send is compared with what the handlers take. *)

From S2P Require Import Prelude AgentAccess Redis Security Json Encryption AgentState Namespaces Functions Procedures ExecTokens ApiProxy ResultCache RunHandler Packages CreateHandler CreateTools.
From stdpp Require Import strings.

Open Scope Z_scope.

Record ToolDef := Tool { td_name : string; td_input_schema : pyval }.

Definition _AUTH_INJECTION_SCHEMA : pyval :=
  PDict [("type", PStr "object"); ("properties", PDict [("name", PDict [("type", PStr "string")]); ("location", PDict [("type",
  PStr "string"); ("enum", PList [PStr "header"; PStr "query"; PStr "bearer"; PStr "basic"])]); ("key", PDict [("type",
  PStr "string")]); ("format", PDict [("type", PStr "string")]); ("source", PDict [("type", PStr "string"); ("enum", PList
  [PStr "stored"; PStr "passthrough"])]); ("value", PDict [("type", PStr "string")]); ("env_var", PDict [("type",
  PStr "string")])]); ("required", PList [PStr "name"; PStr "location"; PStr "source"])].

Definition tool_make_namespace : ToolDef := Tool "make_namespace"
  (PDict [("type", PStr "object");
   ("properties", PDict [
     ("name", PDict [("type", PStr "string"); ("pattern", PStr "^[a-z0-9]([a-z0-9-]{0,61}[a-z0-9])?$")]);
     ("description", PDict [("type", PStr "string")])]);
   ("required", PList [PStr "name"])]).

Definition tool_list_namespaces : ToolDef := Tool "list_namespaces"
  (PDict [("type", PStr "object");
   ("properties", PDict [])]).

Definition tool_make_service : ToolDef := Tool "make_service"
  (PDict [("type", PStr "object");
   ("properties", PDict [
     ("name", PDict [("type", PStr "string")]);
     ("description", PDict [("type", PStr "string")])]);
   ("required", PList [PStr "name"])]).

Definition tool_list_services : ToolDef := Tool "list_services"
  (PDict [("type", PStr "object");
   ("properties", PDict [])]).

Definition tool_delete_service : ToolDef := Tool "delete_service"
  (PDict [("type", PStr "object");
   ("properties", PDict [
     ("name", PDict [("type", PStr "string")])]);
   ("required", PList [PStr "name"])]).

Definition tool_make_function : ToolDef := Tool "make_function"
  (PDict [("type", PStr "object");
   ("properties", PDict [
     ("service", PDict [("type", PStr "string")]);
     ("name", PDict [("type", PStr "string")]);
     ("backend", PDict [("type", PStr "string"); ("enum", PList [PStr "code_sandbox"; PStr "nanobot"; PStr "github_repo"])]);
     ("language", PDict [("type", PStr "string"); ("enum", PList [PStr "python"; PStr "typescript"])]);
     ("code", PDict [("type", PStr "string")]);
     ("config", PDict [("type", PStr "object")]);
     ("input_schema", PDict [("type", PStr "object")]);
     ("output_schema", PDict [("type", PStr "object")]);
     ("description", PDict [("type", PStr "string")]);
     ("tags", PDict [("type", PStr "array"); ("items", PDict [("type", PStr "string")])]);
     ("requirements", PDict [("type", PStr "array"); ("items", PDict [("type", PStr "string")])]);
     ("required_env", PDict [("type", PStr "array"); ("items", PDict [("type", PStr "string")])]);
     ("optional_env", PDict [("type", PStr "array"); ("items", PDict [("type", PStr "string")])]);
     ("created_by", PDict [("type", PStr "string")]);
     ("template", PDict [("type", PStr "string")]);
     ("public_safe", PDict [("type", PStr "boolean")]);
     ("output_trust", PDict [("type", PStr "string"); ("enum", PList [PStr "prompt"; PStr "data"])])]);
   ("required", PList [PStr "service"; PStr "name"; PStr "backend"; PStr "output_trust"])]).

Definition tool_update_function : ToolDef := Tool "update_function"
  (PDict [("type", PStr "object");
   ("properties", PDict [
     ("service", PDict [("type", PStr "string")]);
     ("name", PDict [("type", PStr "string")]);
     ("backend", PDict [("type", PStr "string"); ("enum", PList [PStr "code_sandbox"; PStr "nanobot"; PStr "github_repo"])]);
     ("code", PDict [("type", PStr "string")]);
     ("config", PDict [("type", PStr "object")]);
     ("input_schema", PDict [("type", PStr "object")]);
     ("output_schema", PDict [("type", PStr "object")]);
     ("description", PDict [("type", PStr "string")]);
     ("tags", PDict [("type", PStr "array"); ("items", PDict [("type", PStr "string")])]);
     ("requirements", PDict [("type", PStr "array"); ("items", PDict [("type", PStr "string")])]);
     ("required_env", PDict [("type", PStr "array"); ("items", PDict [("type", PStr "string")])]);
     ("optional_env", PDict [("type", PStr "array"); ("items", PDict [("type", PStr "string")])]);
     ("created_by", PDict [("type", PStr "string")]);
     ("restore_version", PDict [("type", PStr "integer")]);
     ("public_safe", PDict [("type", PStr "boolean")]);
     ("output_trust", PDict [("type", PStr "string"); ("enum", PList [PStr "prompt"; PStr "data"])])]);
   ("required", PList [PStr "service"; PStr "name"])]).

Definition tool_delete_function : ToolDef := Tool "delete_function"
  (PDict [("type", PStr "object");
   ("properties", PDict [
     ("service", PDict [("type", PStr "string")]);
     ("name", PDict [("type", PStr "string")])]);
   ("required", PList [PStr "service"; PStr "name"])]).

Definition tool_list_functions : ToolDef := Tool "list_functions"
  (PDict [("type", PStr "object");
   ("properties", PDict [
     ("service", PDict [("type", PStr "string")]);
     ("tag", PDict [("type", PStr "string")])]);
   ("required", PList [PStr "service"])]).

Definition tool_describe_function : ToolDef := Tool "describe_function"
  (PDict [("type", PStr "object");
   ("properties", PDict [
     ("service", PDict [("type", PStr "string")]);
     ("name", PDict [("type", PStr "string")])]);
   ("required", PList [PStr "service"; PStr "name"])]).

Definition tool_list_packages : ToolDef := Tool "list_packages"
  (PDict [("type", PStr "object");
   ("properties", PDict [
     ("language", PDict [("type", PStr "string"); ("enum", PList [PStr "python"; PStr "typescript"])])])]).

Definition tool_list_templates : ToolDef := Tool "list_templates"
  (PDict [("type", PStr "object");
   ("properties", PDict [])]).

Definition tool_describe_template : ToolDef := Tool "describe_template"
  (PDict [("type", PStr "object");
   ("properties", PDict [
     ("name", PDict [("type", PStr "string")])]);
   ("required", PList [PStr "name"])]).

Definition tool_configure_cache : ToolDef := Tool "configure_cache"
  (PDict [("type", PStr "object");
   ("properties", PDict [
     ("service", PDict [("type", PStr "string")]);
     ("function", PDict [("type", PStr "string")]);
     ("enabled", PDict [("type", PStr "boolean")]);
     ("ttl_seconds", PDict [("type", PStr "integer")])]);
   ("required", PList [PStr "service"; PStr "function"; PStr "enabled"])]).

Definition tool_configure_discovery : ToolDef := Tool "configure_discovery"
  (PDict [("type", PStr "object");
   ("properties", PDict [
     ("discoverable", PDict [("type", PStr "boolean")])]);
   ("required", PList [PStr "discoverable"])]).

Definition tool_make_agent : ToolDef := Tool "make_agent"
  (PDict [("type", PStr "object");
   ("properties", PDict [
     ("name", PDict [("type", PStr "string")]);
     ("display_name", PDict [("type", PStr "string")])]);
   ("required", PList [PStr "name"])]).

Definition tool_list_agents : ToolDef := Tool "list_agents"
  (PDict [("type", PStr "object");
   ("properties", PDict [])]).

Definition tool_describe_agent : ToolDef := Tool "describe_agent"
  (PDict [("type", PStr "object");
   ("properties", PDict [
     ("name", PDict [("type", PStr "string")])]);
   ("required", PList [PStr "name"])]).

Definition tool_scale_agent : ToolDef := Tool "scale_agent"
  (PDict [("type", PStr "object");
   ("properties", PDict [
     ("name", PDict [("type", PStr "string")]);
     ("replicas", PDict [("type", PStr "integer"); ("minimum", PInt 0)])]);
   ("required", PList [PStr "name"; PStr "replicas"])]).

Definition tool_start_agent : ToolDef := Tool "start_agent"
  (PDict [("type", PStr "object");
   ("properties", PDict [
     ("name", PDict [("type", PStr "string")]);
     ("replica", PDict [("type", PStr "string")])]);
   ("required", PList [PStr "name"])]).

Definition tool_stop_agent : ToolDef := Tool "stop_agent"
  (PDict [("type", PStr "object");
   ("properties", PDict [
     ("name", PDict [("type", PStr "string")]);
     ("replica", PDict [("type", PStr "string")])]);
   ("required", PList [PStr "name"])]).

Definition tool_destroy_agent : ToolDef := Tool "destroy_agent"
  (PDict [("type", PStr "object");
   ("properties", PDict [
     ("name", PDict [("type", PStr "string")]);
     ("confirm", PDict [("type", PStr "boolean")])]);
   ("required", PList [PStr "name"; PStr "confirm"])]).

Definition tool_add_schedule : ToolDef := Tool "add_schedule"
  (PDict [("type", PStr "object");
   ("properties", PDict [
     ("agent_name", PDict [("type", PStr "string")]);
     ("function_name", PDict [("type", PStr "string")]);
     ("cron_expression", PDict [("type", PStr "string")]);
     ("timezone", PDict [("type", PStr "string"); ("default", PStr "UTC")]);
     ("failure_policy", PDict [("type", PStr "object"); ("properties", PDict [("strategy", PDict [("type", PStr "string");
     ("enum", PList [PStr "continue"; PStr "auto_disable"; PStr "backoff"])]); ("max_failures", PDict [("type", PStr "integer")]);
     ("backoff_factor", PDict [("type", PStr "number")])]); ("required", PList [PStr "strategy"])]);
     ("mode", PDict [("type", PStr "string"); ("enum", PList [PStr "single"; PStr "cluster"]); ("default", PStr "single")]);
     ("orchestration_mode", PDict [("type", PStr "string"); ("enum", PList [PStr "direct"; PStr "reason_first";
     PStr "run_then_reason"; PStr "procedure"]); ("default", PStr "direct")]);
     ("procedure_name", PDict [("type", PStr "string")])]);
   ("required", PList [PStr "agent_name"; PStr "function_name"; PStr "cron_expression"; PStr "failure_policy"])]).

Definition tool_remove_schedule : ToolDef := Tool "remove_schedule"
  (PDict [("type", PStr "object");
   ("properties", PDict [
     ("agent_name", PDict [("type", PStr "string")]);
     ("schedule_id", PDict [("type", PStr "string")])]);
   ("required", PList [PStr "agent_name"; PStr "schedule_id"])]).

Definition tool_list_schedules : ToolDef := Tool "list_schedules"
  (PDict [("type", PStr "object");
   ("properties", PDict [
     ("agent_name", PDict [("type", PStr "string")])]);
   ("required", PList [PStr "agent_name"])]).

Definition tool_add_webhook : ToolDef := Tool "add_webhook"
  (PDict [("type", PStr "object");
   ("properties", PDict [
     ("agent_name", PDict [("type", PStr "string")]);
     ("path", PDict [("type", PStr "string")]);
     ("handler_function_name", PDict [("type", PStr "string")]);
     ("secret", PDict [("type", PStr "string")]);
     ("orchestration_mode", PDict [("type", PStr "string"); ("enum", PList [PStr "direct"; PStr "reason_first";
     PStr "run_then_reason"; PStr "procedure"]); ("default", PStr "direct")])]);
   ("required", PList [PStr "agent_name"; PStr "path"; PStr "handler_function_name"])]).

Definition tool_remove_webhook : ToolDef := Tool "remove_webhook"
  (PDict [("type", PStr "object");
   ("properties", PDict [
     ("agent_name", PDict [("type", PStr "string")]);
     ("webhook_id", PDict [("type", PStr "string")])]);
   ("required", PList [PStr "agent_name"; PStr "webhook_id"])]).

Definition tool_list_webhooks : ToolDef := Tool "list_webhooks"
  (PDict [("type", PStr "object");
   ("properties", PDict [
     ("agent_name", PDict [("type", PStr "string")])]);
   ("required", PList [PStr "agent_name"])]).

Definition tool_set_agent_state : ToolDef := Tool "set_agent_state"
  (PDict [("type", PStr "object");
   ("properties", PDict [
     ("agent_name", PDict [("type", PStr "string")]);
     ("key", PDict [("type", PStr "string")]);
     ("value", PDict [])]);
   ("required", PList [PStr "agent_name"; PStr "key"; PStr "value"])]).

Definition tool_get_agent_state : ToolDef := Tool "get_agent_state"
  (PDict [("type", PStr "object");
   ("properties", PDict [
     ("agent_name", PDict [("type", PStr "string")]);
     ("key", PDict [("type", PStr "string")])]);
   ("required", PList [PStr "agent_name"; PStr "key"])]).

Definition tool_delete_agent_state : ToolDef := Tool "delete_agent_state"
  (PDict [("type", PStr "object");
   ("properties", PDict [
     ("agent_name", PDict [("type", PStr "string")]);
     ("key", PDict [("type", PStr "string")])]);
   ("required", PList [PStr "agent_name"; PStr "key"])]).

Definition tool_list_agent_state_keys : ToolDef := Tool "list_agent_state_keys"
  (PDict [("type", PStr "object");
   ("properties", PDict [
     ("agent_name", PDict [("type", PStr "string")])]);
   ("required", PList [PStr "agent_name"])]).

Definition tool_configure_agent_ai : ToolDef := Tool "configure_agent_ai"
  (PDict [("type", PStr "object");
   ("properties", PDict [
     ("agent_name", PDict [("type", PStr "string")]);
     ("engine", PDict [("type", PStr "string"); ("enum", PList [PStr "anthropic"; PStr "openai"; PStr "google";
     PStr "openrouter"])]);
     ("model", PDict [("type", PStr "string")]);
     ("api_key", PDict [("type", PStr "string")]);
     ("system_prompt", PDict [("type", PStr "string")]);
     ("auto_channel", PDict [("type", PStr "string"); ("enum", PList [PStr "discord"; PStr "slack"; PStr "email"])])]);
   ("required", PList [PStr "agent_name"; PStr "engine"; PStr "model"])]).

Definition tool_remove_agent_ai : ToolDef := Tool "remove_agent_ai"
  (PDict [("type", PStr "object");
   ("properties", PDict [
     ("agent_name", PDict [("type", PStr "string")])]);
   ("required", PList [PStr "agent_name"])]).

Definition tool_configure_mcp_servers : ToolDef := Tool "configure_mcp_servers"
  (PDict [("type", PStr "object");
   ("properties", PDict [
     ("agent_name", PDict [("type", PStr "string")]);
     ("servers", PDict [("type", PStr "object"); ("additionalProperties", PDict [("type", PStr "object"); ("properties", PDict
     [("type", PDict [("type", PStr "string"); ("enum", PList [PStr "sse"; PStr "streamable_http"; PStr "stdio"])]); ("url", PDict
     [("type", PStr "string")]); ("command", PDict [("type", PStr "string")]); ("args", PDict [("type", PStr "array");
     ("items", PDict [("type", PStr "string")])]); ("headers", PDict [("type", PStr "object"); ("additionalProperties", PDict
     [("type", PStr "string")])])]); ("required", PList [PStr "type"])])])]);
   ("required", PList [PStr "agent_name"; PStr "servers"])]).

Definition tool_configure_orchestration_limits : ToolDef := Tool "configure_orchestration_limits"
  (PDict [("type", PStr "object");
   ("properties", PDict [
     ("agent_name", PDict [("type", PStr "string")]);
     ("max_iterations", PDict [("type", PStr "integer"); ("minimum", PInt 1); ("maximum", PInt 200)]);
     ("max_ai_tokens", PDict [("type", PStr "integer"); ("minimum", PInt 1000); ("maximum", PInt 10000000)]);
     ("max_execution_seconds", PDict [("type", PStr "integer"); ("minimum", PInt 10); ("maximum", PInt 3600)]);
     ("max_functions_called", PDict [("type", PStr "integer"); ("minimum", PInt 1); ("maximum", PInt 500)])]);
   ("required", PList [PStr "agent_name"])]).

Definition tool_configure_heartbeat : ToolDef := Tool "configure_heartbeat"
  (PDict [("type", PStr "object");
   ("properties", PDict [
     ("agent_name", PDict [("type", PStr "string")]);
     ("enabled", PDict [("type", PStr "boolean")]);
     ("interval_seconds", PDict [("type", PStr "integer"); ("minimum", PInt 15); ("maximum", PInt 86400)])]);
   ("required", PList [PStr "agent_name"; PStr "enabled"])]).

Definition tool_chat_with_agent : ToolDef := Tool "chat_with_agent"
  (PDict [("type", PStr "object");
   ("properties", PDict [
     ("agent_name", PDict [("type", PStr "string")]);
     ("message", PDict [("type", PStr "string")]);
     ("replica", PDict [("type", PStr "string")])]);
   ("required", PList [PStr "agent_name"; PStr "message"])]).

Definition tool_add_channel : ToolDef := Tool "add_channel"
  (PDict [("type", PStr "object");
   ("properties", PDict [
     ("agent_name", PDict [("type", PStr "string")]);
     ("channel_type", PDict [("type", PStr "string"); ("enum", PList [PStr "discord"; PStr "slack"; PStr "whatsapp";
     PStr "email"])]);
     ("config", PDict [("type", PStr "object")])]);
   ("required", PList [PStr "agent_name"; PStr "channel_type"; PStr "config"])]).

Definition tool_remove_channel : ToolDef := Tool "remove_channel"
  (PDict [("type", PStr "object");
   ("properties", PDict [
     ("agent_name", PDict [("type", PStr "string")]);
     ("channel_type", PDict [("type", PStr "string"); ("enum", PList [PStr "discord"; PStr "slack"; PStr "whatsapp";
     PStr "email"])])]);
   ("required", PList [PStr "agent_name"; PStr "channel_type"])]).

Definition tool_make_procedure : ToolDef := Tool "make_procedure"
  (PDict [("type", PStr "object");
   ("properties", PDict [
     ("service", PDict [("type", PStr "string")]);
     ("name", PDict [("type", PStr "string")]);
     ("description", PDict [("type", PStr "string")]);
     ("steps", PDict [("type", PStr "array"); ("minItems", PInt 1); ("maxItems", PInt 20); ("items", PDict [("type",
     PStr "object"); ("properties", PDict [("name", PDict [("type", PStr "string")]); ("function_ref", PDict [("type",
     PStr "string")]); ("instructions", PDict [("type", PStr "string")]); ("failure_policy", PDict [("type", PStr "string");
     ("enum", PList [PStr "required"; PStr "allowed"; PStr "skip"]); ("default", PStr "required")]); ("max_retries", PDict
     [("type", PStr "integer"); ("minimum", PInt 0); ("maximum", PInt 5); ("default", PInt 1)]); ("validation", PDict [("type",
     PStr "object")])]); ("required", PList [PStr "name"; PStr "function_ref"; PStr "instructions"])])])]);
   ("required", PList [PStr "service"; PStr "name"; PStr "steps"])]).

Definition tool_update_procedure : ToolDef := Tool "update_procedure"
  (PDict [("type", PStr "object");
   ("properties", PDict [
     ("service", PDict [("type", PStr "string")]);
     ("name", PDict [("type", PStr "string")]);
     ("description", PDict [("type", PStr "string")]);
     ("steps", PDict [("type", PStr "array")])]);
   ("required", PList [PStr "service"; PStr "name"])]).

Definition tool_delete_procedure : ToolDef := Tool "delete_procedure"
  (PDict [("type", PStr "object");
   ("properties", PDict [
     ("service", PDict [("type", PStr "string")]);
     ("name", PDict [("type", PStr "string")])]);
   ("required", PList [PStr "service"; PStr "name"])]).

Definition tool_list_procedures : ToolDef := Tool "list_procedures"
  (PDict [("type", PStr "object");
   ("properties", PDict [
     ("service", PDict [("type", PStr "string")])]);
   ("required", PList [PStr "service"])]).

Definition tool_describe_procedure : ToolDef := Tool "describe_procedure"
  (PDict [("type", PStr "object");
   ("properties", PDict [
     ("service", PDict [("type", PStr "string")]);
     ("name", PDict [("type", PStr "string")])]);
   ("required", PList [PStr "service"; PStr "name"])]).

Definition tool_run_procedure : ToolDef := Tool "run_procedure"
  (PDict [("type", PStr "object");
   ("properties", PDict [
     ("service", PDict [("type", PStr "string")]);
     ("name", PDict [("type", PStr "string")]);
     ("input_context", PDict [("type", PStr "object")])]);
   ("required", PList [PStr "service"; PStr "name"])]).

Definition tool_list_procedure_executions : ToolDef := Tool "list_procedure_executions"
  (PDict [("type", PStr "object");
   ("properties", PDict [
     ("service", PDict [("type", PStr "string")]);
     ("name", PDict [("type", PStr "string")]);
     ("status", PDict [("type", PStr "string"); ("enum", PList [PStr "running"; PStr "completed"; PStr "failed"])]);
     ("limit", PDict [("type", PStr "integer"); ("default", PInt 10)])]);
   ("required", PList [PStr "service"; PStr "name"])]).

Definition tool_describe_procedure_execution : ToolDef := Tool "describe_procedure_execution"
  (PDict [("type", PStr "object");
   ("properties", PDict [
     ("execution_id", PDict [("type", PStr "string")])]);
   ("required", PList [PStr "execution_id"])]).

Definition tool_clone_agent : ToolDef := Tool "clone_agent"
  (PDict [("type", PStr "object");
   ("properties", PDict [
     ("agent_name", PDict [("type", PStr "string")]);
     ("new_name", PDict [("type", PStr "string")])]);
   ("required", PList [PStr "agent_name"; PStr "new_name"])]).

Definition tool_lock_function : ToolDef := Tool "lock_function"
  (PDict [("type", PStr "object");
   ("properties", PDict [
     ("service", PDict [("type", PStr "string")]);
     ("name", PDict [("type", PStr "string")])]);
   ("required", PList [PStr "service"; PStr "name"])]).

Definition tool_unlock_function : ToolDef := Tool "unlock_function"
  (PDict [("type", PStr "object");
   ("properties", PDict [
     ("service", PDict [("type", PStr "string")]);
     ("name", PDict [("type", PStr "string")])]);
   ("required", PList [PStr "service"; PStr "name"])]).

Definition tool_publish_view : ToolDef := Tool "publish_view"
  (PDict [("type", PStr "object");
   ("properties", PDict [
     ("agent_name", PDict [("type", PStr "string")]);
     ("files", PDict [("type", PStr "object"); ("additionalProperties", PDict [("type", PStr "string")])]);
     ("mode", PDict [("type", PStr "string"); ("enum", PList [PStr "replace"; PStr "append"]); ("default", PStr "replace")])]);
   ("required", PList [PStr "agent_name"; PStr "files"])]).

Definition tool_get_view_url : ToolDef := Tool "get_view_url"
  (PDict [("type", PStr "object");
   ("properties", PDict [
     ("agent_name", PDict [("type", PStr "string")])]);
   ("required", PList [PStr "agent_name"])]).

Definition tool_clear_view : ToolDef := Tool "clear_view"
  (PDict [("type", PStr "object");
   ("properties", PDict [
     ("agent_name", PDict [("type", PStr "string")])]);
   ("required", PList [PStr "agent_name"])]).

Definition tool_configure_chat_token : ToolDef := Tool "configure_chat_token"
  (PDict [("type", PStr "object");
   ("properties", PDict [
     ("agent_name", PDict [("type", PStr "string")]);
     ("action", PDict [("type", PStr "string"); ("enum", PList [PStr "generate"; PStr "revoke"])])]);
   ("required", PList [PStr "agent_name"; PStr "action"])]).

Definition tool_configure_agent_access : ToolDef := Tool "configure_agent_access"
  (PDict [("type", PStr "object");
   ("properties", PDict [
     ("agent_name", PDict [("type", PStr "string")]);
     ("rule", PDict [("type", PStr "object"); ("properties", PDict [("type", PDict [("type", PStr "string"); ("enum", PList
     [PStr "allow_services"; PStr "deny_services"; PStr "allow_functions"; PStr "deny_functions"; PStr "allow_keys";
     PStr "deny_keys"])]); ("patterns", PDict [("type", PStr "array"); ("items", PDict [("type", PStr "string")])]);
     ("min_trust_score", PDict [("type", PStr "integer"); ("minimum", PInt 0); ("maximum", PInt 1000)])]); ("required", PList
     [PStr "type"; PStr "patterns"])]);
     ("trust_score", PDict [("type", PStr "integer"); ("minimum", PInt 0); ("maximum", PInt 1000)])]);
   ("required", PList [PStr "agent_name"])]).

Definition tool_list_agent_access_rules : ToolDef := Tool "list_agent_access_rules"
  (PDict [("type", PStr "object");
   ("properties", PDict [
     ("agent_name", PDict [("type", PStr "string")])]);
   ("required", PList [PStr "agent_name"])]).

Definition tool_remove_agent_access_rule : ToolDef := Tool "remove_agent_access_rule"
  (PDict [("type", PStr "object");
   ("properties", PDict [
     ("agent_name", PDict [("type", PStr "string")]);
     ("rule_id", PDict [("type", PStr "string")])]);
   ("required", PList [PStr "agent_name"; PStr "rule_id"])]).

Definition tool_execute_python : ToolDef := Tool "execute_python"
  (PDict [("type", PStr "object");
   ("properties", PDict [
     ("code", PDict [("type", PStr "string")])]);
   ("required", PList [PStr "code"])]).

Definition tool_execute_typescript : ToolDef := Tool "execute_typescript"
  (PDict [("type", PStr "object");
   ("properties", PDict [
     ("code", PDict [("type", PStr "string")])]);
   ("required", PList [PStr "code"])]).

Definition tool__env_status : ToolDef := Tool "_env_status"
  (PDict [("type", PStr "object");
   ("properties", PDict [])]).

Definition tool_configure_git_remote : ToolDef := Tool "configure_git_remote"
  (PDict [("type", PStr "object");
   ("properties", PDict [
     ("git_url", PDict [("type", PStr "string")]);
     ("git_token", PDict [("type", PStr "string")]);
     ("git_branch", PDict [("type", PStr "string"); ("default", PStr "main")])]);
   ("required", PList [PStr "git_url"; PStr "git_token"])]).

Definition tool_remove_git_remote : ToolDef := Tool "remove_git_remote"
  (PDict [("type", PStr "object");
   ("properties", PDict [])]).

Definition tool_export_namespace : ToolDef := Tool "export_namespace"
  (PDict [("type", PStr "object");
   ("properties", PDict [
     ("message", PDict [("type", PStr "string")])])]).

Definition tool_export_service : ToolDef := Tool "export_service"
  (PDict [("type", PStr "object");
   ("properties", PDict [
     ("service", PDict [("type", PStr "string")]);
     ("message", PDict [("type", PStr "string")])]);
   ("required", PList [PStr "service"])]).

Definition tool_import_namespace : ToolDef := Tool "import_namespace"
  (PDict [("type", PStr "object");
   ("properties", PDict [
     ("git_url", PDict [("type", PStr "string")]);
     ("git_token", PDict [("type", PStr "string")]);
     ("git_branch", PDict [("type", PStr "string"); ("default", PStr "main")]);
     ("name", PDict [("type", PStr "string")]);
     ("conflict", PDict [("type", PStr "string"); ("enum", PList [PStr "fail"; PStr "skip"; PStr "overwrite"]);
     ("default", PStr "fail")])]);
   ("required", PList [PStr "git_url"])]).

Definition tool_import_service : ToolDef := Tool "import_service"
  (PDict [("type", PStr "object");
   ("properties", PDict [
     ("git_url", PDict [("type", PStr "string")]);
     ("git_token", PDict [("type", PStr "string")]);
     ("service", PDict [("type", PStr "string")]);
     ("conflict", PDict [("type", PStr "string"); ("enum", PList [PStr "fail"; PStr "skip"; PStr "overwrite"]);
     ("default", PStr "fail")])]);
   ("required", PList [PStr "git_url"; PStr "service"])]).

Definition tool_add_mcp_server : ToolDef := Tool "add_mcp_server"
  (PDict [("type", PStr "object");
   ("properties", PDict [
     ("name", PDict [("type", PStr "string")]);
     ("url", PDict [("type", PStr "string")]);
     ("transport", PDict [("type", PStr "string"); ("enum", PList [PStr "streamable_http"; PStr "sse"; PStr "stdio"]);
     ("default", PStr "streamable_http")]);
     ("auth_token", PDict [("type", PStr "string")]);
     ("headers", PDict [("type", PStr "object")]);
     ("command", PDict [("type", PStr "string")]);
     ("args", PDict [("type", PStr "array"); ("items", PDict [("type", PStr "string")])]);
     ("auth_type", PDict [("type", PStr "string"); ("enum", PList [PStr "bearer"; PStr "oauth2"; PStr "none"]);
     ("default", PStr "bearer")]);
     ("oauth_config", PDict [("type", PStr "object")])]);
   ("required", PList [PStr "name"])]).

Definition tool_remove_mcp_server : ToolDef := Tool "remove_mcp_server"
  (PDict [("type", PStr "object");
   ("properties", PDict [
     ("name", PDict [("type", PStr "string")])]);
   ("required", PList [PStr "name"])]).

Definition tool_list_mcp_servers : ToolDef := Tool "list_mcp_servers"
  (PDict [("type", PStr "object");
   ("properties", PDict [])]).

Definition tool_describe_mcp_server : ToolDef := Tool "describe_mcp_server"
  (PDict [("type", PStr "object");
   ("properties", PDict [
     ("name", PDict [("type", PStr "string")])]);
   ("required", PList [PStr "name"])]).

Definition tool_refresh_mcp_server : ToolDef := Tool "refresh_mcp_server"
  (PDict [("type", PStr "object");
   ("properties", PDict [
     ("name", PDict [("type", PStr "string")])]);
   ("required", PList [PStr "name"])]).

Definition tool_update_mcp_server : ToolDef := Tool "update_mcp_server"
  (PDict [("type", PStr "object");
   ("properties", PDict [
     ("name", PDict [("type", PStr "string")]);
     ("auth_token", PDict [("type", PStr "string")]);
     ("headers", PDict [("type", PStr "object")]);
     ("url", PDict [("type", PStr "string")])]);
   ("required", PList [PStr "name"])]).

Definition tool_set_mcp_server_setting : ToolDef := Tool "set_mcp_server_setting"
  (PDict [("type", PStr "object");
   ("properties", PDict [
     ("name", PDict [("type", PStr "string")]);
     ("key", PDict [("type", PStr "string")]);
     ("value", PDict [])]);
   ("required", PList [PStr "name"; PStr "key"; PStr "value"])]).

Definition tool_set_mcp_server_env : ToolDef := Tool "set_mcp_server_env"
  (PDict [("type", PStr "object");
   ("properties", PDict [
     ("name", PDict [("type", PStr "string")]);
     ("key", PDict [("type", PStr "string")]);
     ("value", PDict [("type", PStr "string")])]);
   ("required", PList [PStr "name"; PStr "key"; PStr "value"])]).

Definition tool_remove_mcp_server_env : ToolDef := Tool "remove_mcp_server_env"
  (PDict [("type", PStr "object");
   ("properties", PDict [
     ("name", PDict [("type", PStr "string")]);
     ("key", PDict [("type", PStr "string")])]);
   ("required", PList [PStr "name"; PStr "key"])]).

Definition tool_configure_agent_mcp : ToolDef := Tool "configure_agent_mcp"
  (PDict [("type", PStr "object");
   ("properties", PDict [
     ("agent_name", PDict [("type", PStr "string")]);
     ("servers", PDict [("type", PStr "array"); ("items", PDict [("type", PStr "string")])])]);
   ("required", PList [PStr "agent_name"; PStr "servers"])]).

Definition tool_add_mcp_server_rule : ToolDef := Tool "add_mcp_server_rule"
  (PDict [("type", PStr "object");
   ("properties", PDict [
     ("name", PDict [("type", PStr "string")]);
     ("direction", PDict [("type", PStr "string"); ("enum", PList [PStr "request"; PStr "response"])]);
     ("rule", PDict [("type", PStr "object")])]);
   ("required", PList [PStr "name"; PStr "direction"; PStr "rule"])]).

Definition tool_remove_mcp_server_rule : ToolDef := Tool "remove_mcp_server_rule"
  (PDict [("type", PStr "object");
   ("properties", PDict [
     ("name", PDict [("type", PStr "string")]);
     ("rule_id", PDict [("type", PStr "string")])]);
   ("required", PList [PStr "name"; PStr "rule_id"])]).

Definition tool_list_mcp_server_rules : ToolDef := Tool "list_mcp_server_rules"
  (PDict [("type", PStr "object");
   ("properties", PDict [
     ("name", PDict [("type", PStr "string")])]);
   ("required", PList [PStr "name"])]).

Definition tool_set_mcp_server_tool_trust : ToolDef := Tool "set_mcp_server_tool_trust"
  (PDict [("type", PStr "object");
   ("properties", PDict [
     ("name", PDict [("type", PStr "string")]);
     ("tool", PDict [("type", PStr "string")]);
     ("output_trust", PDict [("type", PStr "string"); ("enum", PList [PStr "prompt"; PStr "data"])])]);
   ("required", PList [PStr "name"; PStr "tool"; PStr "output_trust"])]).

Definition tool_get_mcp_server_stats : ToolDef := Tool "get_mcp_server_stats"
  (PDict [("type", PStr "object");
   ("properties", PDict [
     ("name", PDict [("type", PStr "string")]);
     ("period", PDict [("type", PStr "string"); ("enum", PList [PStr "1h"; PStr "24h"; PStr "7d"; PStr "30d"]);
     ("default", PStr "24h")])]);
   ("required", PList [PStr "name"])]).

Definition tool_get_token_savings_report : ToolDef := Tool "get_token_savings_report"
  (PDict [("type", PStr "object");
   ("properties", PDict [
     ("period", PDict [("type", PStr "string"); ("enum", PList [PStr "1h"; PStr "24h"; PStr "7d"; PStr "30d"]);
     ("default", PStr "24h")])])]).

Definition tool_suggest_optimizations : ToolDef := Tool "suggest_optimizations"
  (PDict [("type", PStr "object");
   ("properties", PDict [
     ("name", PDict [("type", PStr "string")]);
     ("probe", PDict [("type", PStr "array"); ("items", PDict [("type", PStr "string")])])])]).

Definition tool_get_function_mcp_stats : ToolDef := Tool "get_function_mcp_stats"
  (PDict [("type", PStr "object");
   ("properties", PDict [
     ("period", PDict [("type", PStr "string"); ("enum", PList [PStr "1h"; PStr "24h"; PStr "7d"; PStr "30d"]);
     ("default", PStr "24h")])])]).

Definition tool_list_executions : ToolDef := Tool "list_executions"
  (PDict [("type", PStr "object");
   ("properties", PDict [
     ("service", PDict [("type", PStr "string")]);
     ("function", PDict [("type", PStr "string")]);
     ("status", PDict [("type", PStr "string"); ("enum", PList [PStr "completed"; PStr "failed"; PStr "timed_out"])]);
     ("limit", PDict [("type", PStr "integer"); ("default", PInt 20)])])]).

Definition tool_describe_execution : ToolDef := Tool "describe_execution"
  (PDict [("type", PStr "object");
   ("properties", PDict [
     ("execution_id", PDict [("type", PStr "string")])]);
   ("required", PList [PStr "execution_id"])]).

Definition tool_add_security_scanner : ToolDef := Tool "add_security_scanner"
  (PDict [("type", PStr "object");
   ("properties", PDict [
     ("type", PDict [("type", PStr "string"); ("enum", PList [PStr "builtin"; PStr "webhook"; PStr "python"])]);
     ("name", PDict [("type", PStr "string")]);
     ("direction", PDict [("type", PStr "string"); ("enum", PList [PStr "input"; PStr "output"; PStr "both"])]);
     ("config", PDict [("type", PStr "object")])]);
   ("required", PList [PStr "type"; PStr "name"; PStr "direction"; PStr "config"])]).

Definition tool_list_security_scanners : ToolDef := Tool "list_security_scanners"
  (PDict [("type", PStr "object");
   ("properties", PDict [])]).

Definition tool_update_security_scanner : ToolDef := Tool "update_security_scanner"
  (PDict [("type", PStr "object");
   ("properties", PDict [
     ("scanner_id", PDict [("type", PStr "string")]);
     ("enabled", PDict [("type", PStr "boolean")]);
     ("config", PDict [("type", PStr "object")]);
     ("order", PDict [("type", PStr "integer")])]);
   ("required", PList [PStr "scanner_id"])]).

Definition tool_remove_security_scanner : ToolDef := Tool "remove_security_scanner"
  (PDict [("type", PStr "object");
   ("properties", PDict [
     ("scanner_id", PDict [("type", PStr "string")])]);
   ("required", PList [PStr "scanner_id"])]).

Definition tool_configure_telemetry_webhook : ToolDef := Tool "configure_telemetry_webhook"
  (PDict [("type", PStr "object");
   ("properties", PDict [
     ("url", PDict [("type", PStr "string")]);
     ("secret", PDict [("type", PStr "string")]);
     ("batch_enabled", PDict [("type", PStr "boolean")]);
     ("batch_interval_seconds", PDict [("type", PStr "integer")]);
     ("events", PDict [("type", PStr "array"); ("items", PDict [("type", PStr "string"); ("enum", PList [PStr "tool_call";
     PStr "orchestration_run"])])]);
     ("remove", PDict [("type", PStr "boolean")])])]).

Definition tool_list_orchestration_runs : ToolDef := Tool "list_orchestration_runs"
  (PDict [("type", PStr "object");
   ("properties", PDict [
     ("agent", PDict [("type", PStr "string")]);
     ("trigger_type", PDict [("type", PStr "string"); ("enum", PList [PStr "cron"; PStr "webhook"; PStr "manual"; PStr "ai";
     PStr "heartbeat"])]);
     ("outcome", PDict [("type", PStr "string"); ("enum", PList [PStr "completed"; PStr "no_action"; PStr "limit_hit";
     PStr "error"; PStr "timeout"; PStr "cancelled"])]);
     ("limit", PDict [("type", PStr "integer")])]);
   ("required", PList [PStr "agent"])]).

Definition tool_describe_orchestration_run : ToolDef := Tool "describe_orchestration_run"
  (PDict [("type", PStr "object");
   ("properties", PDict [
     ("run_id", PDict [("type", PStr "string")])]);
   ("required", PList [PStr "run_id"])]).

Definition tool_list_schedule_fires : ToolDef := Tool "list_schedule_fires"
  (PDict [("type", PStr "object");
   ("properties", PDict [
     ("agent", PDict [("type", PStr "string")]);
     ("schedule_id", PDict [("type", PStr "string")]);
     ("status", PDict [("type", PStr "string"); ("enum", PList [PStr "started"; PStr "completed"; PStr "error"; PStr "skipped"])]);
     ("limit", PDict [("type", PStr "integer")])]);
   ("required", PList [PStr "agent"])]).

Definition tool_add_api_server : ToolDef := Tool "add_api_server"
  (PDict [("type", PStr "object");
   ("properties", PDict [
     ("name", PDict [("type", PStr "string")]);
     ("base_url", PDict [("type", PStr "string")]);
     ("description", PDict [("type", PStr "string")]);
     ("spec_source", PDict [("type", PStr "string"); ("enum", PList [PStr "openapi_url"; PStr "openapi_file"; PStr "manual"])]);
     ("openapi_url", PDict [("type", PStr "string")]);
     ("openapi_file", PDict [("type", PStr "string")]);
     ("auth", PDict [("type", PStr "array"); ("items", _AUTH_INJECTION_SCHEMA)]);
     ("default_headers", PDict [("type", PStr "object")]);
     ("settings", PDict [("type", PStr "object")]);
     ("enabled_endpoints", PDict [("type", PStr "array"); ("items", PDict [("type", PStr "string")])])]);
   ("required", PList [PStr "name"; PStr "base_url"; PStr "spec_source"])]).

Definition tool_refresh_api_endpoints : ToolDef := Tool "refresh_api_endpoints"
  (PDict [("type", PStr "object");
   ("properties", PDict [
     ("server", PDict [("type", PStr "string")])]);
   ("required", PList [PStr "server"])]).

Definition tool_list_api_servers : ToolDef := Tool "list_api_servers"
  (PDict [("type", PStr "object");
   ("properties", PDict [])]).

Definition tool_describe_api_server : ToolDef := Tool "describe_api_server"
  (PDict [("type", PStr "object");
   ("properties", PDict [
     ("server", PDict [("type", PStr "string")])]);
   ("required", PList [PStr "server"])]).

Definition tool_list_endpoints : ToolDef := Tool "list_endpoints"
  (PDict [("type", PStr "object");
   ("properties", PDict [
     ("server", PDict [("type", PStr "string")]);
     ("filter", PDict [("type", PStr "string"); ("enum", PList [PStr "all"; PStr "enabled"; PStr "published"])])]);
   ("required", PList [PStr "server"])]).

Definition tool_add_manual_endpoint : ToolDef := Tool "add_manual_endpoint"
  (PDict [("type", PStr "object");
   ("properties", PDict [
     ("server", PDict [("type", PStr "string")]);
     ("operation_id", PDict [("type", PStr "string")]);
     ("method", PDict [("type", PStr "string")]);
     ("path", PDict [("type", PStr "string")]);
     ("summary", PDict [("type", PStr "string")]);
     ("param_schema", PDict [("type", PStr "object")]);
     ("request_body_schema", PDict [("type", PStr "object")]);
     ("response_schema", PDict [("type", PStr "object")])]);
   ("required", PList [PStr "server"; PStr "operation_id"; PStr "method"; PStr "path"])]).

Definition tool_enable_endpoint : ToolDef := Tool "enable_endpoint"
  (PDict [("type", PStr "object");
   ("properties", PDict [
     ("server", PDict [("type", PStr "string")]);
     ("operation_ids", PDict [("type", PStr "array"); ("items", PDict [("type", PStr "string")])])]);
   ("required", PList [PStr "server"; PStr "operation_ids"])]).

Definition tool_disable_endpoint : ToolDef := Tool "disable_endpoint"
  (PDict [("type", PStr "object");
   ("properties", PDict [
     ("server", PDict [("type", PStr "string")]);
     ("operation_ids", PDict [("type", PStr "array"); ("items", PDict [("type", PStr "string")])])]);
   ("required", PList [PStr "server"; PStr "operation_ids"])]).

Definition tool_remove_api_server : ToolDef := Tool "remove_api_server"
  (PDict [("type", PStr "object");
   ("properties", PDict [
     ("server", PDict [("type", PStr "string")])]);
   ("required", PList [PStr "server"])]).

Definition tool_update_api_settings : ToolDef := Tool "update_api_settings"
  (PDict [("type", PStr "object");
   ("properties", PDict [
     ("server", PDict [("type", PStr "string")]);
     ("settings", PDict [("type", PStr "object")])]);
   ("required", PList [PStr "server"; PStr "settings"])]).

Definition tool_set_api_credentials : ToolDef := Tool "set_api_credentials"
  (PDict [("type", PStr "object");
   ("properties", PDict [
     ("server", PDict [("type", PStr "string")]);
     ("name", PDict [("type", PStr "string")]);
     ("value", PDict [("type", PStr "string")])]);
   ("required", PList [PStr "server"; PStr "name"; PStr "value"])]).

Definition tool_publish_endpoint : ToolDef := Tool "publish_endpoint"
  (PDict [("type", PStr "object");
   ("properties", PDict [
     ("server", PDict [("type", PStr "string")]);
     ("operation_id", PDict [("type", PStr "string")])]);
   ("required", PList [PStr "server"; PStr "operation_id"])]).

Definition tool_unpublish_endpoint : ToolDef := Tool "unpublish_endpoint"
  (PDict [("type", PStr "object");
   ("properties", PDict [
     ("server", PDict [("type", PStr "string")]);
     ("operation_id", PDict [("type", PStr "string")])]);
   ("required", PList [PStr "server"; PStr "operation_id"])]).

Definition tool_configure_agent_api_access : ToolDef := Tool "configure_agent_api_access"
  (PDict [("type", PStr "object");
   ("properties", PDict [
     ("agent", PDict [("type", PStr "string")]);
     ("api_servers", PDict [("type", PStr "array"); ("items", PDict [("type", PStr "string")])])]);
   ("required", PList [PStr "agent"; PStr "api_servers"])]).

Definition BASE_TOOLS : list ToolDef :=
  [tool_make_namespace; tool_list_namespaces; tool_make_service; tool_list_services; tool_delete_service; tool_make_function;
  tool_update_function; tool_delete_function; tool_list_functions; tool_describe_function; tool_list_packages;
  tool_list_templates; tool_describe_template; tool_configure_cache; tool_configure_discovery].

Definition AGENT_TOOLS : list ToolDef :=
  [tool_make_agent; tool_list_agents; tool_describe_agent; tool_scale_agent; tool_start_agent; tool_stop_agent;
  tool_destroy_agent; tool_add_schedule; tool_remove_schedule; tool_list_schedules; tool_add_webhook; tool_remove_webhook;
  tool_list_webhooks; tool_set_agent_state; tool_get_agent_state; tool_delete_agent_state; tool_list_agent_state_keys;
  tool_configure_agent_ai; tool_remove_agent_ai; tool_configure_mcp_servers; tool_configure_orchestration_limits;
  tool_configure_heartbeat; tool_chat_with_agent; tool_add_channel; tool_remove_channel; tool_make_procedure;
  tool_update_procedure; tool_delete_procedure; tool_list_procedures; tool_describe_procedure; tool_run_procedure;
  tool_list_procedure_executions; tool_describe_procedure_execution; tool_clone_agent; tool_lock_function; tool_unlock_function;
  tool_publish_view; tool_get_view_url; tool_clear_view; tool_configure_chat_token; tool_configure_agent_access;
  tool_list_agent_access_rules; tool_remove_agent_access_rule].

Definition RUN_TOOLS : list ToolDef :=
  [tool_execute_python; tool_execute_typescript; tool__env_status].

Definition GIT_TOOLS : list ToolDef :=
  [tool_configure_git_remote; tool_remove_git_remote; tool_export_namespace; tool_export_service; tool_import_namespace;
  tool_import_service].

Definition MCP_SERVER_TOOLS : list ToolDef :=
  [tool_add_mcp_server; tool_remove_mcp_server; tool_list_mcp_servers; tool_describe_mcp_server; tool_refresh_mcp_server;
  tool_update_mcp_server; tool_set_mcp_server_setting; tool_set_mcp_server_env; tool_remove_mcp_server_env;
  tool_configure_agent_mcp; tool_add_mcp_server_rule; tool_remove_mcp_server_rule; tool_list_mcp_server_rules;
  tool_set_mcp_server_tool_trust].

Definition ANALYTICS_TOOLS : list ToolDef :=
  [tool_get_mcp_server_stats; tool_get_token_savings_report; tool_suggest_optimizations; tool_get_function_mcp_stats;
  tool_list_executions; tool_describe_execution; tool_add_security_scanner; tool_list_security_scanners;
  tool_update_security_scanner; tool_remove_security_scanner; tool_configure_telemetry_webhook; tool_list_orchestration_runs;
  tool_describe_orchestration_run; tool_list_schedule_fires].

Definition API_SERVER_TOOLS : list ToolDef :=
  [tool_add_api_server; tool_refresh_api_endpoints; tool_list_api_servers; tool_describe_api_server; tool_list_endpoints;
  tool_add_manual_endpoint; tool_enable_endpoint; tool_disable_endpoint; tool_remove_api_server; tool_update_api_settings;
  tool_set_api_credentials; tool_publish_endpoint; tool_unpublish_endpoint; tool_configure_agent_api_access].

(** [ToolDef.render], without the description. *)
Definition render (t : ToolDef) : pyval := PDict [("name", PStr (td_name t)); ("inputSchema", td_input_schema t)].

(** [get_tools] of the registry; three of its groups have no name. *)
Definition registry_groups : list (string * list ToolDef) :=
  [("base", BASE_TOOLS); ("agent", AGENT_TOOLS); ("run", RUN_TOOLS); ("git", GIT_TOOLS); ("analytics", ANALYTICS_TOOLS)].
Definition get_group_tools (group : string) : list pyval := map render (dict_getd group [] registry_groups).

Definition all_groups : list (list ToolDef) :=
  [BASE_TOOLS; AGENT_TOOLS; RUN_TOOLS; GIT_TOOLS; MCP_SERVER_TOOLS; API_SERVER_TOOLS; ANALYTICS_TOOLS].
Definition get_tool (name : string) : option pyval :=
  t ← find_first (fun t => String.eqb (td_name t) name) (concat all_groups); Some (render t).

(** [CreateMCPHandler.get_tools] *)
Definition agent_tiers : list string := ["pro-agent"; "enterprise-agent"; "dedicated-agent"; "trial-agent"].
Definition listed_tools (effective_tier : string) : list ToolDef :=
  BASE_TOOLS ++ (if str_in effective_tier agent_tiers then AGENT_TOOLS else []) ++ GIT_TOOLS ++ MCP_SERVER_TOOLS ++ API_SERVER_TOOLS ++ ANALYTICS_TOOLS.

(** ** The parameters of the handlers *)

(** Those without and with a default, by the name under which [dispatch_tool]
    finds the handler. *)
Definition SIGNATURES : list (string * (list string * list string)) :=
  [("make_namespace", (["name"], ["description"]));
   ("list_namespaces", ([], []));
   ("make_service", (["name"], ["description"]));
   ("list_services", ([], []));
   ("delete_service", (["name"], []));
   ("make_function", (["service"; "name"; "backend"], ["code"; "config"; "input_schema"; "output_schema"; "description"; "tags";
     "requirements"; "required_env"; "optional_env"; "created_by"; "template"; "language"; "public_safe"; "output_trust"]));
   ("update_function", (["service"; "name"], ["backend"; "code"; "config"; "input_schema"; "output_schema"; "description"; "tags";
     "requirements"; "required_env"; "optional_env"; "created_by"; "restore_version"; "public_safe"; "output_trust"]));
   ("delete_function", (["service"; "name"], []));
   ("list_functions", (["service"], ["tag"]));
   ("describe_function", (["service"; "name"], []));
   ("list_packages", ([], ["language"]));
   ("list_templates", ([], []));
   ("describe_template", (["name"], []));
   ("make_agent", (["name"], ["display_name"]));
   ("list_agents", ([], []));
   ("describe_agent", (["name"], []));
   ("scale_agent", (["name"; "replicas"], []));
   ("start_agent", (["name"], ["replica"]));
   ("stop_agent", (["name"], ["replica"]));
   ("destroy_agent", (["name"], ["confirm"]));
   ("add_schedule", (["agent_name"; "function_name"; "cron_expression"; "failure_policy"], ["timezone"; "mode";
     "orchestration_mode"]));
   ("remove_schedule", (["agent_name"; "schedule_id"], []));
   ("list_schedules", (["agent_name"], []));
   ("add_webhook", (["agent_name"; "path"; "handler_function_name"], ["secret"; "orchestration_mode"]));
   ("remove_webhook", (["agent_name"; "webhook_id"], []));
   ("list_webhooks", (["agent_name"], []));
   ("set_agent_state", (["agent_name"; "key"; "value"], []));
   ("get_agent_state", (["agent_name"; "key"], []));
   ("delete_agent_state", (["agent_name"; "key"], []));
   ("list_agent_state_keys", (["agent_name"], []));
   ("configure_agent_ai", (["agent_name"; "engine"; "model"], ["api_key"; "system_prompt"; "auto_channel"]));
   ("remove_agent_ai", (["agent_name"], []));
   ("configure_mcp_servers", (["agent_name"; "servers"], []));
   ("configure_orchestration_limits", (["agent_name"], ["max_iterations"; "max_ai_tokens"; "max_execution_seconds";
     "max_functions_called"]));
   ("configure_heartbeat", (["agent_name"; "enabled"], ["interval_seconds"]));
   ("chat_with_agent", (["agent_name"; "message"], ["replica"]));
   ("add_channel", (["agent_name"; "channel_type"; "config"], []));
   ("remove_channel", (["agent_name"; "channel_type"], []));
   ("clone_agent", (["agent_name"; "new_name"], []));
   ("make_procedure", (["service"; "name"; "steps"], ["description"]));
   ("update_procedure", (["service"; "name"], ["steps"; "description"]));
   ("delete_procedure", (["service"; "name"], []));
   ("list_procedures", (["service"], []));
   ("describe_procedure", (["service"; "name"], []));
   ("run_procedure", (["service"; "name"], ["input_context"]));
   ("list_procedure_executions", (["service"; "name"], ["status"; "limit"]));
   ("describe_procedure_execution", (["execution_id"], []));
   ("lock_function", (["namespace"; "service"; "function"], []));
   ("unlock_function", (["namespace"; "service"; "function"], []));
   ("publish_view", (["agent_name"; "files"], ["mode"]));
   ("get_view_url", (["agent_name"], []));
   ("clear_view", (["agent_name"], []));
   ("configure_chat_token", (["agent_name"; "action"], []));
   ("configure_git_remote", (["git_url"; "git_token"], ["git_branch"]));
   ("remove_git_remote", ([], []));
   ("export_namespace", ([], ["message"]));
   ("export_service", (["service"], ["message"]));
   ("import_namespace", (["git_url"], ["git_token"; "git_branch"; "name"; "conflict"]));
   ("import_service", (["git_url"; "service"], ["git_token"; "conflict"]));
   ("add_mcp_server", (["name"], ["url"; "transport"; "auth_token"; "headers"; "command"; "args"; "auth_type"; "oauth_config"]));
   ("remove_mcp_server", (["name"], []));
   ("list_mcp_servers", ([], []));
   ("describe_mcp_server", (["name"], []));
   ("refresh_mcp_server", (["name"], []));
   ("update_mcp_server", (["name"], ["auth_token"; "headers"; "url"]));
   ("set_mcp_server_setting", (["name"; "key"; "value"], []));
   ("set_mcp_server_env", (["name"; "key"; "value"], []));
   ("remove_mcp_server_env", (["name"; "key"], []));
   ("configure_agent_mcp", (["agent_name"; "servers"], []));
   ("add_mcp_server_rule", (["name"; "direction"; "rule"], []));
   ("remove_mcp_server_rule", (["name"; "rule_id"], []));
   ("list_mcp_server_rules", (["name"], []));
   ("set_mcp_server_tool_trust", (["name"; "tool"; "output_trust"], []));
   ("get_mcp_server_stats", (["name"], ["period"]));
   ("get_token_savings_report", ([], ["period"]));
   ("suggest_optimizations", ([], ["name"; "probe"]));
   ("get_function_mcp_stats", ([], ["period"]));
   ("configure_agent_access", (["agent_name"], ["rule"; "trust_score"]));
   ("list_agent_access_rules", (["agent_name"], []));
   ("remove_agent_access_rule", (["agent_name"; "rule_id"], []));
   ("list_executions", ([], ["service"; "function"; "status"; "limit"]));
   ("describe_execution", (["execution_id"], []));
   ("add_security_scanner", (["type"; "name"; "direction"; "config"], []));
   ("list_security_scanners", ([], []));
   ("update_security_scanner", (["scanner_id"], ["enabled"; "config"; "order"]));
   ("remove_security_scanner", (["scanner_id"], []));
   ("configure_telemetry_webhook", ([], ["url"; "secret"; "batch_enabled"; "batch_interval_seconds"; "events"; "remove"]));
   ("configure_discovery", (["discoverable"], []));
   ("configure_cache", (["service"; "function"; "enabled"], ["ttl_seconds"]));
   ("list_orchestration_runs", (["agent"], ["trigger_type"; "outcome"; "limit"]));
   ("describe_orchestration_run", (["run_id"], []));
   ("list_schedule_fires", (["agent"], ["schedule_id"; "status"; "limit"]));
   ("add_api_server", (["name"; "base_url"; "spec_source"], ["description"; "openapi_url"; "openapi_file"; "auth"; "default_headers";
     "settings"; "enabled_endpoints"]));
   ("refresh_api_endpoints", (["server"], []));
   ("list_api_servers", ([], []));
   ("describe_api_server", (["server"], []));
   ("list_endpoints", (["server"], ["filter"]));
   ("add_manual_endpoint", (["server"; "operation_id"; "method"; "path"], ["summary"; "param_schema"; "request_body_schema";
     "response_schema"]));
   ("enable_endpoint", (["server"; "operation_ids"], []));
   ("disable_endpoint", (["server"; "operation_ids"], []));
   ("remove_api_server", (["server"], []));
   ("update_api_settings", (["server"; "settings"], []));
   ("set_api_credentials", (["server"; "name"; "value"], []));
   ("publish_endpoint", (["server"; "operation_id"], []));
   ("unpublish_endpoint", (["server"; "operation_id"], []));
   ("configure_agent_api_access", (["agent"; "api_servers"], []))].

(** ** What a client may send *)

Definition schema_entry (key : string) (t : ToolDef) : pyval :=
  match td_input_schema t with PDict d => dict_getd key PNone d | _ => PNone end.
Definition properties_of (t : ToolDef) : list string := match schema_entry "properties" t with PDict d => dict_keys d | _ => [] end.
Definition required_of (t : ToolDef) : list string :=
  match schema_entry "required" t with PList l => default [] (all_texts l) | _ => [] end.

Abbreviation args := (list (string * pyval)).

(** The required arguments are there, and every argument is described. *)
Definition conforms (t : ToolDef) (arguments : args) : bool :=
  forallb (fun k => str_in k (dict_keys arguments)) (required_of t) && forallb (fun k => str_in k (properties_of t)) (dict_keys arguments).

(** [handler( **arguments)] binds. *)
Definition binds (required optional : list string) (arguments : args) : bool :=
  forallb (fun k => str_in k (dict_keys arguments)) required && forallb (fun k => str_in k (required ++ optional)) (dict_keys arguments).
Definition accepts (name : string) (arguments : args) : bool :=
  match dict_get name SIGNATURES with Some (r, o) => binds r o arguments | None => false end.

(** The fewest and the most arguments. *)
Definition named (keys : list string) : args := map (fun k => (k, PNone)) keys.

Lemma keys_named keys : dict_keys (named keys) = keys.
Proof. unfold dict_keys, named. rewrite map_map. apply map_id. Qed.

Lemma forallb_str_in (l l' : list string) : forallb (fun k => str_in k l') l = true <-> l ⊆ l'.
Proof.
  rewrite forallb_forall. split.
  - intros K x Hx. apply str_in_spec, K. by apply list_elem_of_In.
  - intros K x Hx. apply str_in_spec, K. by apply list_elem_of_In.
Qed.

Lemma conforms_spec t arguments : conforms t arguments = true <-> required_of t ⊆ dict_keys arguments /\ dict_keys arguments ⊆ properties_of t.
Proof. unfold conforms. by rewrite andb_true_iff, !forallb_str_in. Qed.

Lemma binds_spec r o arguments : binds r o arguments = true <-> r ⊆ dict_keys arguments /\ dict_keys arguments ⊆ r ++ o.
Proof. unfold binds. by rewrite andb_true_iff, !forallb_str_in. Qed.

(** It is enough to look at the fewest and at the most arguments. *)
Lemma accepts_conforming t : required_of t ⊆ properties_of t ->
  (forall arguments, conforms t arguments = true -> accepts (td_name t) arguments = true) <->
  accepts (td_name t) (named (required_of t)) && accepts (td_name t) (named (properties_of t)) = true.
Proof.
  intros Hrp. rewrite andb_true_iff. unfold accepts. destruct (dict_get (td_name t) SIGNATURES) as [[r o]|]; split.
  - intros K. split; apply K, conforms_spec; by rewrite keys_named.
  - rewrite !binds_spec, !keys_named. intros [[Hr _] [_ Hp]] arguments [K1 K2]%conforms_spec. rewrite binds_spec. set_solver.
  - intros K. assert (false = true) by (apply (K (named (required_of t))), conforms_spec; by rewrite keys_named). done.
  - by intros [? _].
Qed.

Definition departures : list string := ["lock_function"; "unlock_function"; "add_schedule"].

Lemma registry_checked tier :
  Forall (fun t => required_of t ⊆ properties_of t /\ is_Some (dict_get (td_name t) CreateHandler.TOOL_SCOPES) /\
    (accepts (td_name t) (named (required_of t)) && accepts (td_name t) (named (properties_of t)) = true <-> td_name t ∉ departures))
    (listed_tools tier).
Proof.
  assert (forall l, forallb (fun t => forallb (fun k => str_in k (properties_of t)) (required_of t) &&
    match dict_get (td_name t) CreateHandler.TOOL_SCOPES with Some _ => true | None => false end &&
    Bool.eqb (accepts (td_name t) (named (required_of t)) && accepts (td_name t) (named (properties_of t))) (negb (str_in (td_name t) departures))) l = true ->
    Forall (fun t => required_of t ⊆ properties_of t /\ is_Some (dict_get (td_name t) CreateHandler.TOOL_SCOPES) /\
      (accepts (td_name t) (named (required_of t)) && accepts (td_name t) (named (properties_of t)) = true <-> td_name t ∉ departures)) l) as K.
  { intros l. rewrite forallb_forall, Forall_forall. intros K t Ht%list_elem_of_In. specialize (K t Ht).
    rewrite !andb_true_iff, forallb_str_in, eqb_true_iff in K. destruct K as [[K1 K2] K3]. split; [done|]. split.
    - destruct (dict_get _ _); [by eexists|done].
    - rewrite K3, negb_true_iff. unfold str_in. by rewrite bool_decide_eq_false. }
  apply K. unfold listed_tools. rewrite !forallb_app. destruct (str_in tier agent_tiers); vm_compute; reflexivity.
Qed.

(** The list of tools agrees with the handlers: every tool that any account
    is shown needs a scope, and its handler binds whatever arguments its schema
    describes, the required ones being there, with three exceptions: the
    arguments shown for [lock_function] and [unlock_function], and the argument
    [procedure_name] of [add_schedule], are not what the handlers take. *)
Theorem advertised_calls_bind tier t :
  t ∈ listed_tools tier ->
  is_Some (dict_get (td_name t) CreateHandler.TOOL_SCOPES) /\
  ((forall arguments, conforms t arguments = true -> accepts (td_name t) arguments = true) <-> td_name t ∉ departures).
Proof.
  intros Ht. pose proof (registry_checked tier) as K. rewrite Forall_forall in K. destruct (K t Ht) as (Hrp & Hs & Hd).
  split; [done|]. by rewrite accepts_conforming.
Qed.

Lemma advertised_calls_bind_witness :
  tool_make_function ∈ listed_tools "free" /\
  ((forall arguments, conforms tool_make_function arguments = true -> accepts "make_function" arguments = true) <-> "make_function" ∉ departures).
Proof.
  assert (tool_make_function ∈ listed_tools "free") as Hin by (unfold listed_tools, BASE_TOOLS; do 5 right; left).
  split; [exact Hin|]. exact (proj2 (advertised_calls_bind "free" tool_make_function Hin)).
Defined.

(** ** The handlers *)

Section handlers.
Context `{Network} `{Aead} `{Crypto} {R : Type} `{TextCacheOps R} `{RunOutside} {L : Type} `{RedisOps L} `{!Secrets}.
Context (get_template : string -> option template) (list_templates : list template).
Abbreviation St := (state (R := R) (L := L)).
#[local] Set Default Proof Using "Type*".

Lemma takes_binds r o (arguments : args) (s : St) : takes r o arguments s = (if binds r o arguments then Ok tt else Err (Run RunHandler.TypeError), s).
Proof. unfold takes, binds. by destruct (_ && _). Qed.

Ltac head_of t := lazymatch t with ?f _ => head_of f | _ => t end.

(** The modelled handlers have the parameters of [SIGNATURES]. *)
Lemma handlers_bind : Forall (fun h => forall k arguments (s : St), accepts h.1 arguments = false -> h.2 k arguments s = (Err (Run RunHandler.TypeError), s))
  (FUNCTION_TOOLS get_template list_templates).
Proof.
  unfold FUNCTION_TOOLS. repeat (apply Forall_cons; split; [intros k arguments s|]); [..|apply Forall_nil; done];
    cbn [fst snd]; unfold accepts; cbn [dict_get SIGNATURES String.eqb Ascii.eqb Bool.eqb]; intros Hb;
    match goal with |- ?h _ _ _ = _ => let h := head_of h in unfold h end;
    unfold lock_arguments, mbind, stm_bind; by rewrite takes_binds, Hb.
Qed.
End handlers.

Section locks.
Context `{Network} `{Aead} `{Crypto} {R : Type} `{TextCacheOps R} `{RunOutside} {L : Type} `{RedisOps L} `{!Secrets}.
Context (get_template : string -> option template) (list_templates : list template).
Abbreviation St := (state (R := R) (L := L)).
#[local] Set Default Proof Using "Type*".

Lemma coerce_keys (arguments : args) : forall (s : St) a s', _coerce_json_arguments arguments s = (Ok a, s') -> s' = s /\ dict_keys a = dict_keys arguments.
Proof.
  induction arguments as [|[key v] rest IH]; intros s a s' K; [by apply stm_ret_Ok in K as [<- ->]|].
  cbn [_coerce_json_arguments] in K. apply stm_bind_Ok in K as (v' & s1 & Hv & K).
  assert (s1 = s) as ->.
  { unfold coerced in Hv. destruct v; try (by apply stm_ret_Ok in Hv as [_ ->]). destruct (str_in key _); [|by apply stm_ret_Ok in Hv as [_ ->]].
    destruct (json_loads s0) as [|[]]; try (by apply stm_ret_Ok in Hv as [_ ->]). done. }
  apply stm_bind_Ok in K as (a' & s2 & Ha & K). apply IH in Ha as [-> Hk]. apply stm_ret_Ok in K as [<- ->].
  split; [done|]. unfold dict_keys in *. cbn. by rewrite Hk.
Qed.

Lemma coerce_frame (arguments : args) : frame (fun s : St => s) (_coerce_json_arguments arguments).
Proof.
  induction arguments as [|[key v] rest IH]; [apply frame_ret|]. cbn [_coerce_json_arguments].
  apply frame_bind; [unfold coerced; frame_tac|]. intros v'. apply frame_bind; [exact IH|]. intros. apply frame_ret.
Qed.

Lemma accepts_keys name (a b : args) : dict_keys a = dict_keys b -> accepts name a = accepts name b.
Proof. unfold accepts, binds. by intros ->. Qed.

Lemma lock_schema tier t : t ∈ listed_tools tier -> td_name t ∈ ["lock_function"; "unlock_function"] -> "namespace" ∉ properties_of t.
Proof.
  intros Ht Hn. assert (forallb (fun t => negb (str_in (td_name t) ["lock_function"; "unlock_function"]) || negb (str_in "namespace" (properties_of t)))
    (listed_tools tier) = true) as K.
  { unfold listed_tools. rewrite !forallb_app. destruct (str_in tier agent_tiers); vm_compute; reflexivity. }
  rewrite forallb_forall in K. specialize (K t (proj1 (list_elem_of_In _ _) Ht)). apply str_in_spec in Hn. rewrite Hn in K.
  cbn [negb orb] in K. rewrite <-str_in_spec. by destruct (str_in "namespace" _).
Qed.

Lemma lock_refused name arguments : name ∈ ["lock_function"; "unlock_function"] -> "namespace" ∉ dict_keys arguments -> accepts name arguments = false.
Proof.
  intros Hn Hk. apply not_true_iff_false. intros K.
  assert (dict_get name SIGNATURES = Some (["namespace"; "service"; "function"], [])) as E
    by (apply elem_of_cons in Hn as [->|[->|[]%elem_of_nil]%elem_of_cons]; reflexivity).
  unfold accepts in K. rewrite E in K. apply binds_spec in K as [K _]. apply Hk, K. by left.
Qed.

(** A client that follows the list of tools can neither lock nor unlock a
    function: the arguments that the list describes for these tools never bind,
    and the call ends in an exception with the tables as they were. *)
Theorem advertised_lock_fails tier t k arguments (s : St) :
  t ∈ listed_tools tier -> td_name t ∈ ["lock_function"; "unlock_function"] -> conforms t arguments = true ->
  let '(r, s') := CreateHandler.dispatch_tool (fun name => dict_get name (FUNCTION_TOOLS get_template list_templates)) k (td_name t) arguments s in
  rows s' = rows s /\ exists e, r = Err e.
Proof.
  intros Ht Hname Hc. assert (accepts (td_name t) arguments = false) as Ha.
  { apply lock_refused; [done|]. apply conforms_spec in Hc as [_ Hc]. intros K. by apply (lock_schema tier t Ht Hname), Hc. }
  set (name := td_name t) in *. clearbody name. unfold CreateHandler.dispatch_tool. pose proof (frame_guard k name arguments s) as Hf.
  unfold mbind at 1, stm_bind at 1. destruct (CreateHandler.guard k name arguments s) as [[[c a]|e] s1] eqn:Eg; [|split; [exact Hf|by eexists]].
  assert (c = None /\ a = arguments) as [-> ->].
  { apply guard_last in Eg as [s2 Eg]. unfold _check_confirmation_token in Eg.
    assert (requires_confirmation name = false) as E by (apply elem_of_cons in Hname as [->|[->|[]%elem_of_nil]%elem_of_cons]; reflexivity).
    rewrite E in Eg. by injection Eg as <- <- _. }
  cbn [snd] in Hf. destruct (dict_get name (FUNCTION_TOOLS get_template list_templates)) as [h|] eqn:Eh; [|split; [exact Hf|by eexists]].
  unfold mbind, stm_bind. pose proof (coerce_frame arguments s1) as Hs. destruct (_coerce_json_arguments arguments s1) as [[a|e] s2] eqn:Ec.
  - cbn [snd] in Hs. subst s2. apply coerce_keys in Ec as [_ Ec]. apply dict_get_in in Eh.
    pose proof (handlers_bind get_template list_templates) as K. rewrite Forall_forall in K. specialize (K _ Eh). cbn [fst snd] in K.
    rewrite K; [split; [exact Hf|by eexists]|]. by rewrite (accepts_keys _ _ arguments).
  - cbn [snd] in Hs. subst s2. split; [exact Hf|by eexists].
Qed.
End locks.

Section runs.
#[local] Existing Instance ApiProxy.scripted_net.
#[local] Existing Instance toy_aead.
#[local] Existing Instance Security.toy_crypto.
#[local] Existing Instance echo_sandbox.
#[local] Existing Instance toy_secrets.

Lemma advertised_lock_fails_witness :
  let handlers := fun name => dict_get name (FUNCTION_TOOLS no_templates []) in
  conforms tool_lock_function [("service", PStr "social"); ("name", PStr "post")] = true /\
  let '(r, s') := CreateHandler.dispatch_tool handlers (demo_creator "a1") "lock_function" [("service", PStr "social"); ("name", PStr "post")] demo_state in
  rows s' = rows demo_state /\ exists e, r = Err e.
Proof.
  split; [vm_compute; reflexivity|].
  refine (advertised_lock_fails no_templates [] "pro-agent" tool_lock_function (demo_creator "a1") [("service", PStr "social"); ("name", PStr "post")] demo_state _ _ _).
  - apply elem_of_app. right. apply elem_of_app. left. change (tool_lock_function ∈ AGENT_TOOLS). apply list_elem_of_In. cbn. tauto.
  - by left.
  - vm_compute. reflexivity.
Defined.
End runs.
