(* ===== verification/Telemetry.v ===== *)
(** * Telemetry webhooks

    [services/telemetry.py]: the check of a webhook URL, the events of calls and
    runs, their delivery, and the batches that wait in Redis.  The configuration
    of a webhook is that of [_configure_telemetry_webhook] in
    [mcp/create_handler.py].  Requests are recorded where the code starts a task
    to send them; the metrics of deliveries are left out. *)

From S2P Require Import Prelude Json Encryption Ssrf.
From stdpp Require Import strings.
From Stdlib Require Import Ascii.

Open Scope Z_scope.

(** ** The check of a URL *)

Definition localhosts : list string := ["localhost"; "127.0.0.1"; "::1"].

(** [^10\.], [^172\.(1[6-9]|2[0-9]|3[01])\.], [^192\.168\.] *)
Definition private_prefixes : list string :=
  ["10."; "192.168."] ++ map (fun n => "172." +:+ str_of_Z n +:+ ".") (seqZ 16 16).

(** The complaint, or [None]. *)
Definition validate_webhook_url (url : string) : option string :=
  match urlsplit url with
  | Err _ => Some "Invalid URL format"
  | Ok (scheme, netloc) =>
      let host := hostname netloc in
      let is_localhost := str_in host localhosts in
      let refused := Some ("Private IP addresses are not allowed: " +:+ host) in
      if negb (str_in scheme ["http"; "https"]) then Some "URL must use http or https scheme"
      else if String.eqb host "" then Some "URL must have a hostname"
      else if String.eqb scheme "http" && negb is_localhost then Some "HTTP is only allowed for localhost; use HTTPS for remote endpoints"
      else if is_localhost then None
      else if match ip_address host with Some ip => is_private ip | None => false end then refused
      else if existsb (fun p => starts_with p host) private_prefixes then refused
      else None
  end.

(** ** State *)

(** The columns of a namespace that telemetry reads. *)
Record endpoint := Endpoint {
  w_namespace_id : string;
  w_name : string;
  w_url : option string;
  w_secret : option (string * string);
  w_config : option (list (string * pyval))
}.

(** A request that a task sends. *)
Record delivery := Delivery { d_url : string; d_body : string; d_headers : list (string * string) }.

(** A Redis list with the time at which it expires. *)
Record buffer := Buffer { b_key : string; b_events : list string; b_expires : Z }.

Record st := St {
  endpoints : list endpoint;
  buffers : list buffer;
  redis_up : bool;
  deliveries : list delivery
}.

(** ** Redis lists *)

Definition live (now : Z) (b : buffer) : bool := now <? b_expires b.
Definition find_buffer (now : Z) (key : string) (l : list buffer) : option buffer :=
  find_first (fun b => String.eqb (b_key b) key && live now b) l.
Definition events_at (now : Z) (key : string) (l : list buffer) : list string :=
  match find_buffer now key l with Some b => b_events b | None => [] end.
Definition set_buffer (b : buffer) (l : list buffer) : list buffer :=
  List.filter (fun x => negb (String.eqb (b_key x) (b_key b))) l ++ [b].

(** [LPUSH] and [EXPIRE] *)
Definition lpush_expire (now : Z) (key raw : string) (ttl : Z) (s : st) : st :=
  St (endpoints s) (set_buffer (Buffer key (raw :: events_at now key (buffers s)) (now + ttl)) (buffers s)) (redis_up s) (deliveries s).

(** [LRANGE key 0 999] *)
Definition lrange (now : Z) (key : string) (s : st) : list string := take 1000 (events_at now key (buffers s)).

(** [LTRIM key n -1]: a list that becomes empty is removed. *)
Definition ltrim (now : Z) (key : string) (n : nat) (s : st) : st :=
  match find_buffer now key (buffers s) with
  | Some b =>
      let left := drop n (b_events b) in
      St (endpoints s)
        (match left with
         | [] => List.filter (fun x => negb (String.eqb (b_key x) key)) (buffers s)
         | _ => set_buffer (Buffer key left (b_expires b)) (buffers s)
         end) (redis_up s) (deliveries s)
  | None => s
  end.

Section telemetry.
Context `{Aead} (kek : option string) (hmac_hex : string -> string -> string).

(** ** Delivery *)

Definition _SIGNATURE_HEADER : string := "X-MCPWorks-Signature".

Definition sign_payload (payload secret : string) : string := "sha256=" +:+ hmac_hex secret payload.

(** [secret]: what was decrypted.  A secret that is no text raises in the task,
    which then sends nothing. *)
Definition delivery_headers (payload : string) (secret : option pyval) : option (list (string * string)) :=
  let fixed := [("Content-Type", "application/json"); ("User-Agent", "MCPWorks-Webhook/1.0")] in
  match secret with
  | None => Some fixed
  | Some v =>
      if truthy v then
        match v with PStr s => Some (fixed ++ [(_SIGNATURE_HEADER, sign_payload payload s)]) | _ => None end
      else Some fixed
  end.

Definition _deliver_webhook (url payload : string) (secret : option pyval) (s : st) : st :=
  match delivery_headers payload secret with
  | Some h => St (endpoints s) (buffers s) (redis_up s) (deliveries s ++ [Delivery url payload h])
  | None => s
  end.

(** [decrypt_value], whose exceptions the callers catch. *)
Definition secret_of (e : endpoint) : option pyval :=
  match w_secret e, kek with
  | Some (c, dek), Some k =>
      if truthy_str c && truthy_str dek then match decrypt_value c dek k with Ok v => Some v | Err _ => None end else None
  | _, _ => None
  end.

Definition find_endpoint (namespace_id : string) (s : st) : option endpoint :=
  find_first (fun e => String.eqb (w_namespace_id e) namespace_id) (endpoints s).

(** The row, when it has a URL. *)
Definition target_of (namespace_id : string) (s : st) : option (endpoint * string) :=
  e ← find_endpoint namespace_id s;
  url ← w_url e;
  if truthy_str url then Some (e, url) else None.

(** ** Events *)

Definition _build_event_payload (timestamp namespace_name function_name execution_id : string) (execution_time_ms : Z) (success : bool)
    (backend : option string) (version : option Z) : pyval :=
  PDict [("event", PStr "tool_call"); ("namespace", PStr namespace_name);
         ("data", PDict [("function", PStr function_name); ("execution_id", PStr execution_id); ("execution_time_ms", PInt execution_time_ms);
                         ("success", PBool success); ("backend", PStr (if truthy_ostr backend then default "" backend else "unknown"));
                         ("version", PInt (default 0 version)); ("timestamp", PStr timestamp)])].

Definition batch_key (namespace_id : string) : string := "telemetry:batch:" +:+ namespace_id.

(** [false] when there is no Redis. *)
Definition _buffer_event (now : Z) (namespace_id payload : string) (s : st) : bool * st :=
  if redis_up s then (true, lpush_expire now (batch_key namespace_id) payload 120 s) else (false, s).

Definition emit_telemetry_event (now : Z) (timestamp namespace_id namespace_name function_name execution_id : string)
    (execution_time_ms : Z) (success : bool) (backend : option string) (version : option Z) (s : st) : st :=
  match target_of namespace_id s with
  | None => s
  | Some (e, url) =>
      let batch_enabled := truthy (dict_getd "batch_enabled" (PBool false) (default [] (w_config e))) in
      let payload := json_dumps (_build_event_payload timestamp namespace_name function_name execution_id execution_time_ms success backend version) in
      let '(buffered, s) := if batch_enabled then _buffer_event now namespace_id payload s else (false, s) in
      if buffered then s else _deliver_webhook url payload (secret_of e) s
  end.

(** ["orchestration_run" in events]: of a list, or of a text. *)
Definition event_selected (name : string) (config : option (list (string * pyval))) : bool :=
  match dict_getd "events" (PList [PStr "tool_call"]) (default [] config) with
  | PList l => existsb (fun v => match v with PStr s => String.eqb s name | _ => false end) l
  | PStr s => str_contains name s
  | _ => false
  end.

Definition emit_orchestration_run_event (namespace_id : string) (payload : pyval) (s : st) : st :=
  match target_of namespace_id s with
  | None => s
  | Some (e, url) =>
      if event_selected "orchestration_run" (w_config e) then _deliver_webhook url (json_dumps payload) (secret_of e) s else s
  end.

(** ** Batches *)

(** [e.get("data", e)]; [None]: an event that is no dict raises, and the flush
    ends there. *)
Fixpoint batch_data (events : list pyval) : option (list pyval) :=
  match events with
  | [] => Some []
  | PDict d :: rest => rest' ← batch_data rest; Some (dict_getd "data" (PDict d) d :: rest')
  | _ => None
  end.

Definition loaded (raws : list string) : list pyval := omap (fun raw => match json_loads raw with Ok v => Some v | Err _ => None end) raws.

Definition batch_payload (name : string) (data : list pyval) : pyval :=
  PDict [("event", PStr "tool_call_batch"); ("namespace", PStr name); ("data", PList data)].

(** What follows [LTRIM]: [false] when the flush ends with an exception. *)
Definition deliver_batch (namespace_id : string) (raws : list string) (s : st) : bool * st :=
  match target_of namespace_id s with
  | None => (true, s)
  | Some (e, url) =>
      match loaded raws with
      | [] => (true, s)
      | events =>
          match batch_data events with
          | None => (false, s)
          | Some data => (true, _deliver_webhook url (json_dumps (batch_payload (w_name e) data)) (secret_of e) s)
          end
      end
  end.

Definition namespace_of_key (key : string) : string := default key (last (str_split ":" key)).

(** One key of the loop, its two commands to Redis apart: [read] is what
    [LRANGE] returned, possibly earlier. *)
Definition flush_rest (now : Z) (key : string) (read : list string) (s : st) : bool * st :=
  match read with
  | [] => (true, s)
  | _ => deliver_batch (namespace_of_key key) read (ltrim now key (length read) s)
  end.

Definition flush_key (now : Z) (key : string) (s : st) : bool * st := flush_rest now key (lrange now key s) s.

Fixpoint flush_keys (now : Z) (keys : list string) (s : st) : st :=
  match keys with
  | [] => s
  | key :: rest => let '(go_on, s) := flush_key now key s in if (go_on : bool) then flush_keys now rest s else s
  end.

(** The keys in some order. *)
Definition flush_telemetry_batches (now : Z) (scan : list string -> list string) (s : st) : st :=
  if redis_up s then flush_keys now (scan (map b_key (List.filter (live now) (buffers s)))) s else s.

(** ** Configuration *)

Definition known_events (events : list string) : list string := List.filter (fun e => str_in e ["tool_call"; "orchestration_run"]) events.

Definition configured (config : option (list (string * pyval))) (batch_enabled : option bool) (batch_interval_seconds : option Z)
    (events : option (list string)) : list (string * pyval) :=
  let c := default [] config in
  let c := match batch_enabled with Some b => dict_set "batch_enabled" (PBool b) c | None => c end in
  let c := match batch_interval_seconds with Some n => dict_set "batch_interval_seconds" (PInt (Z.max 1 (Z.min 60 n))) c | None => c end in
  match events with Some l => dict_set "events" (PList (map PStr (known_events l))) c | None => c end.

Inductive exn := ValueError (message : string) | CryptoError (e : Encryption.exn).

Definition encrypted (r : randomness) (secret : option string) (old : option (string * string)) : res exn (option (string * string)) :=
  match secret, kek with
  | None, _ => Ok old
  | Some x, Some k => match encrypt_value r (PStr x) k with Ok c => Ok (Some c) | Err e => Err (CryptoError e) end
  | Some _, None => Err (CryptoError (RuntimeError "ENCRYPTION_KEK_B64 not configured"))
  end.

(** On the row of the namespace; the answer has its URL and whether it has a
    secret. *)
Definition _configure_telemetry_webhook (r : randomness) (e : endpoint) (url secret : option string) (batch_enabled : option bool)
    (batch_interval_seconds : option Z) (events : option (list string)) (remove : bool) : res exn endpoint :=
  if remove then Ok (Endpoint (w_namespace_id e) (w_name e) None None None)
  else
    new_url ← match url with
              | None => Ok (w_url e)
              | Some u => match validate_webhook_url u with None => Ok (Some u) | Some m => Err (ValueError ("Invalid webhook URL: " +:+ m)) end
              end;
    new_secret ← encrypted r secret (w_secret e);
    let c := configured (w_config e) batch_enabled batch_interval_seconds events in
    Ok (Endpoint (w_namespace_id e) (w_name e) new_url new_secret (match c with [] => w_config e | _ => Some c end)).
End telemetry.

(** ** What is delivered *)

Lemma find_set now b l key : find_buffer now key (set_buffer b l) =
  if String.eqb (b_key b) key then (if live now b then Some b else None) else find_buffer now key l.
Proof.
  unfold find_buffer, set_buffer. induction l as [|x l IH]; cbn [List.filter app find_first].
  - destruct (String.eqb (b_key b) key), (live now b); done.
  - destruct (String.eqb_spec (b_key x) (b_key b)) as [Hx|Hx]; cbn [negb app find_first].
    + rewrite IH. destruct (String.eqb_spec (b_key b) key) as [Hb|Hb]; [done|].
      assert (String.eqb (b_key x) key = false) as -> by (apply String.eqb_neq; congruence). done.
    + rewrite IH. destruct (String.eqb_spec (b_key x) key) as [Hk|Hk]; [|done].
      assert (String.eqb (b_key b) key = false) as -> by (apply String.eqb_neq; congruence). done.
Qed.

Lemma find_removed now l key k : find_buffer now k (List.filter (fun x => negb (String.eqb (b_key x) key)) l) =
  if String.eqb key k then None else find_buffer now k l.
Proof.
  unfold find_buffer. induction l as [|x l IH]; cbn [List.filter find_first]; [by destruct (String.eqb key k)|].
  destruct (String.eqb_spec (b_key x) key) as [Hx|Hx]; cbn [negb find_first].
  - rewrite IH. destruct (String.eqb_spec key k) as [Hb|Hb]; [done|].
    assert (String.eqb (b_key x) k = false) as -> by (apply String.eqb_neq; congruence). done.
  - rewrite IH. destruct (String.eqb_spec (b_key x) k) as [Hk|Hk]; [|done].
    assert (String.eqb key k = false) as -> by (apply String.eqb_neq; congruence). done.
Qed.

Lemma events_ltrim now key n s k :
  events_at now k (buffers (ltrim now key n s)) = if String.eqb key k then drop n (events_at now k (buffers s)) else events_at now k (buffers s).
Proof.
  unfold ltrim. destruct (find_buffer now key (buffers s)) as [b|] eqn:E.
  - assert (live now b = true) as Hl.
    { unfold find_buffer in E. apply find_first_Some in E as [_ E]. by apply andb_true_iff in E as [_ E]. }
    unfold events_at. destruct (drop n (b_events b)) as [|x l] eqn:Ed; cbn [buffers].
    + rewrite find_removed. destruct (String.eqb_spec key k) as [<-|]; [by rewrite E, Ed|done].
    + rewrite find_set. cbn [b_key]. destruct (String.eqb_spec key k) as [<-|]; [|done]. unfold live in *. cbn [b_expires]. by rewrite Hl, E, Ed.
  - destruct (String.eqb_spec key k) as [<-|]; [|done]. unfold events_at. rewrite E. by rewrite drop_nil.
Qed.

Lemma events_push now key raw ttl s k : 0 < ttl ->
  events_at now k (buffers (lpush_expire now key raw ttl s)) = if String.eqb key k then raw :: events_at now k (buffers s) else events_at now k (buffers s).
Proof.
  intros Ht. unfold lpush_expire, events_at at 1. cbn [buffers]. rewrite find_set. cbn [b_key]. destruct (String.eqb_spec key k) as [<-|]; [|done].
  unfold live. cbn [b_expires b_events]. assert ((now <? now + ttl) = true) as -> by (apply Z.ltb_lt; lia). done.
Qed.

(** The events of a list of payloads, the latest first. *)
Definition pushes (now : Z) (namespace_id : string) (raws : list string) (s : st) : st :=
  fold_left (fun s raw => (_buffer_event now namespace_id raw s).2) raws s.

Lemma events_pushes now ns raws : forall s, redis_up s = true ->
  events_at now (batch_key ns) (buffers (pushes now ns raws s)) = rev raws ++ events_at now (batch_key ns) (buffers s) /\
  endpoints (pushes now ns raws s) = endpoints s /\ deliveries (pushes now ns raws s) = deliveries s.
Proof.
  induction raws as [|raw raws IH]; intros s Hup; [done|]. change (pushes now ns (raw :: raws) s) with (pushes now ns raws (_buffer_event now ns raw s).2).
  assert ((_buffer_event now ns raw s).2 = lpush_expire now (batch_key ns) raw 120 s) as -> by (unfold _buffer_event; by rewrite Hup).
  destruct (IH (lpush_expire now (batch_key ns) raw 120 s) Hup) as (K & K2 & K3).
  rewrite K, K2, K3, events_push by lia. rewrite String.eqb_refl. cbn [rev]. by rewrite <-app_assoc.
Qed.

Section facts.
Context `{Aead} (kek : option string) (hmac_hex : string -> string -> string).

Lemma ltrim_target now key n s ns : target_of ns (ltrim now key n s) = target_of ns s /\ deliveries (ltrim now key n s) = deliveries s.
Proof. unfold ltrim. destruct (find_buffer _ _ _) as [b|]; [|done]. by destruct (drop _ _). Qed.

Lemma deliver_batch_buffers ns raws s : buffers (deliver_batch kek hmac_hex ns raws s).2 = buffers s.
Proof.
  unfold deliver_batch. destruct (target_of _ _) as [[e url]|]; [|done]. destruct (loaded raws); [done|]. destruct (batch_data _); [|done].
  cbn [snd]. unfold _deliver_webhook. by destruct (delivery_headers _ _ _).
Qed.

(** A key of a batch has the namespace after its last colon. *)
Definition plain_id (ns : string) : Prop := str_forallb (fun c => negb (Ascii.eqb c ":")) ns = true.

Lemma namespace_of_batch_key ns : plain_id ns -> namespace_of_key (batch_key ns) = ns.
Proof.
  intros Hp. unfold namespace_of_key, batch_key. change ("telemetry:batch:" +:+ ns) with ("telemetry" +:+ String ":" ("batch" +:+ String ":" ns)).
  assert (forall a b, str_forallb (fun d => negb (Ascii.eqb d ":")) a = true -> str_split ":" (a +:+ String ":" b) = a :: str_split ":" b) as Hs
    by (intros; by apply split_cons).
  rewrite Hs, Hs by reflexivity. rewrite split_plain by done. done.
Qed.

(** What a client sent, as it is stored and as a batch carries it. *)
Definition event_dict (d : list (string * pyval)) : Prop := val_wf (PDict d).

Lemma loaded_dumps ds : Forall event_dict ds -> loaded (map (fun d => json_dumps (PDict d)) ds) = map PDict ds.
Proof.
  induction 1 as [|d ds Hd _ IH]; [done|]. cbn [map loaded omap list_omap]. fold (loaded (map (fun d => json_dumps (PDict d)) ds)).
  unfold json_dumps at 1. rewrite loads_dumps by done. cbn. by f_equal.
Qed.

Lemma batch_data_dicts ds : batch_data (map PDict ds) = Some (map (fun d => dict_getd "data" (PDict d) d) ds).
Proof. induction ds as [|d ds IH]; [done|]. cbn [map batch_data]. by rewrite IH. Qed.

Lemma flush_rest_run now ns ds s e url h :
  plain_id ns -> ds <> [] -> Forall event_dict ds -> target_of ns s = Some (e, url) ->
  let raws := map (fun d => json_dumps (PDict d)) ds in
  let body := json_dumps (batch_payload (w_name e) (map (fun d => dict_getd "data" (PDict d) d) ds)) in
  delivery_headers hmac_hex body (secret_of kek e) = Some h ->
  let '(go_on, s') := flush_rest kek hmac_hex now (batch_key ns) raws s in
  go_on = true /\ deliveries s' = deliveries s ++ [Delivery url body h] /\ endpoints s' = endpoints s /\
  forall k, events_at now k (buffers s') = if String.eqb (batch_key ns) k then drop (length ds) (events_at now k (buffers s)) else events_at now k (buffers s).
Proof.
  intros Hns Hne Hds Ht raws body Hh. unfold flush_rest. destruct raws as [|r rs] eqn:Er; [by destruct ds|]. rewrite <-Er.
  rewrite namespace_of_batch_key by done. unfold deliver_batch. destruct (ltrim_target now (batch_key ns) (length raws) s ns) as [Hlt Hld].
  rewrite Hlt, Ht. unfold raws at 1. rewrite loaded_dumps by done. destruct ds as [|d ds]; [done|]. cbn [map]. rewrite <-map_cons, batch_data_dicts.
  unfold _deliver_webhook. fold body. rewrite Hh. cbn [endpoints buffers deliveries]. rewrite Hld. split; [done|]. split; [done|]. split.
  - unfold ltrim. destruct (find_buffer _ _ _) as [b|]; [|done]. by destruct (drop _ _).
  - intros k. rewrite events_ltrim. unfold raws. by rewrite length_map.
Qed.

(** A batch goes out once and whole: when nothing comes between its two
    commands, a flush sends the waiting events of a namespace (up to a thousand,
    the latest first) in one request, signed when the webhook has a secret, and
    takes exactly these from the list, so that another flush does not send them
    again; other lists and namespaces stay as they are. *)
Theorem batch_sent_once now ns ds s e url h :
  plain_id ns -> ds <> [] -> Forall event_dict ds -> target_of ns s = Some (e, url) ->
  events_at now (batch_key ns) (buffers s) = map (fun d => json_dumps (PDict d)) ds -> (length ds <= 1000)%nat ->
  let body := json_dumps (batch_payload (w_name e) (map (fun d => dict_getd "data" (PDict d) d) ds)) in
  delivery_headers hmac_hex body (secret_of kek e) = Some h ->
  let '(go_on, s') := flush_key kek hmac_hex now (batch_key ns) s in
  go_on = true /\ deliveries s' = deliveries s ++ [Delivery url body h] /\ endpoints s' = endpoints s /\
  (forall k, events_at now k (buffers s') = if String.eqb (batch_key ns) k then [] else events_at now k (buffers s)) /\
  flush_key kek hmac_hex now (batch_key ns) s' = (true, s').
Proof.
  intros Hns Hne Hds Ht Hev Hlen body Hh. unfold flush_key at 1, lrange. rewrite Hev, take_ge by (rewrite length_map; lia).
  pose proof (flush_rest_run now ns ds s e url h Hns Hne Hds Ht Hh) as K. destruct (flush_rest _ _ _ _ _ s) as [go_on s'].
  destruct K as (-> & Hd & He & Hb). split; [done|]. split; [done|]. split; [done|].
  assert (forall k, events_at now k (buffers s') = if String.eqb (batch_key ns) k then [] else events_at now k (buffers s)) as Hb'.
  { intros k. rewrite Hb. destruct (String.eqb_spec (batch_key ns) k) as [<-|]; [|done].
    rewrite Hev. apply drop_ge. by rewrite length_map. }
  split; [done|]. unfold flush_key, lrange. by rewrite Hb', String.eqb_refl.
Qed.

(** Events are lost and sent twice when calls end during a flush: of the
    events that come between its two commands to Redis none is ever sent, for
    the second removes them in place of as many of those that the first read,
    which stay and are sent again. *)
Theorem flush_race now ns old new s e url h :
  plain_id ns -> old <> [] -> Forall event_dict old -> target_of ns s = Some (e, url) -> redis_up s = true ->
  events_at now (batch_key ns) (buffers s) = map (fun d => json_dumps (PDict d)) old -> (length old <= 1000)%nat ->
  (length new <= length old)%nat ->
  let body := json_dumps (batch_payload (w_name e) (map (fun d => dict_getd "data" (PDict d) d) old)) in
  delivery_headers hmac_hex body (secret_of kek e) = Some h ->
  let read := lrange now (batch_key ns) s in
  let '(_, s') := flush_rest kek hmac_hex now (batch_key ns) read (pushes now ns new s) in
  deliveries s' = deliveries s ++ [Delivery url body h] /\
  events_at now (batch_key ns) (buffers s') = map (fun d => json_dumps (PDict d)) (drop (length old - length new) old).
Proof.
  intros Hns Hne Hds Ht Hup Hev Hlen Hnew body Hh read. subst read. unfold lrange. rewrite Hev, take_ge by (rewrite length_map; lia).
  destruct (events_pushes now ns new s Hup) as (Hp & He & Hd).
  assert (target_of ns (pushes now ns new s) = Some (e, url)) as Ht' by (unfold target_of, find_endpoint in *; by rewrite He).
  pose proof (flush_rest_run now ns old (pushes now ns new s) e url h Hns Hne Hds Ht' Hh) as K.
  destruct (flush_rest _ _ _ _ _ _) as [go_on s']. destruct K as (_ & K & _ & Hb). split; [by rewrite K, Hd|].
  rewrite Hb, String.eqb_refl, Hp, Hev. rewrite drop_app. rewrite (drop_ge (rev new)) by (rewrite length_rev; lia).
  rewrite length_rev. cbn [app]. by rewrite skipn_map.
Qed.
End facts.

(** ** A configured webhook *)

Section configured.
Context `{AeadLaws} (hmac_hex : string -> string -> string).
#[local] Set Default Proof Using "Type*".

Lemma configure_Ok kek r e url secret be bi ev e' :
  _configure_telemetry_webhook kek r e url secret be bi ev false = Ok e' ->
  w_namespace_id e' = w_namespace_id e /\ w_name e' = w_name e /\ encrypted kek r secret (w_secret e) = Ok (w_secret e') /\
  (forall u, url = Some u -> w_url e' = Some u /\ validate_webhook_url u = None) /\
  (url = None -> w_url e' = w_url e) /\
  w_config e' = match configured (w_config e) be bi ev with [] => w_config e | c => Some c end.
Proof.
  unfold _configure_telemetry_webhook, mbind, res_bind. destruct url as [u|].
  - destruct (validate_webhook_url u) eqn:Eu; [done|]. destruct (encrypted _ _ _ _) eqn:Ee; [|done]. intros [= <-]. cbn [w_namespace_id w_name w_secret w_url w_config].
    split_and!; try done; [intros u' Hu; by injection Hu as <-|by destruct (configured _ _ _ _)].
  - destruct (encrypted _ _ _ _) eqn:Ee; [|done]. intros [= <-]. cbn [w_namespace_id w_name w_secret w_url w_config].
    split_and!; try done. by destruct (configured _ _ _ _).
Qed.

Lemma encrypt_value_nonempty r v kek c dk : good_randomness r -> encrypt_value r v kek = Ok (c, dk) -> truthy_str c && truthy_str dk = true.
Proof.
  intros (_ & Hn & Hdn). unfold encrypt_value, encrypt_string, encrypt_dek. destruct (aes_encrypt (r_dek r) _ _); [|done]. cbn [of_option mbind res_bind].
  destruct (aes_encrypt kek _ _); [|done]. cbn [of_option mbind res_bind]. intros [= <- <-].
  destruct (r_nonce r); [done|]. by destruct (r_dek_nonce r).
Qed.

(** What a webhook is configured with is what its receiver sees: after a
    configuration with a URL and a secret that is not empty, an event of the
    namespace (batches being off) goes to this URL in one request, and the
    signature in its header is that of the body under this secret. *)
Theorem configured_webhook_signed k r e url secret be bi ev e' s now ts fn eid ms ok b v :
  good_randomness r -> _configure_telemetry_webhook (Some k) r e (Some url) (Some secret) be bi ev false = Ok e' ->
  secret <> "" -> find_endpoint (w_namespace_id e) s = Some e' ->
  truthy (dict_getd "batch_enabled" (PBool false) (default [] (w_config e'))) = false ->
  exists body,
    deliveries (emit_telemetry_event (Some k) hmac_hex now ts (w_namespace_id e) (w_name e) fn eid ms ok b v s) =
      deliveries s ++ [Delivery url body [("Content-Type", "application/json"); ("User-Agent", "MCPWorks-Webhook/1.0");
                                           ("X-MCPWorks-Signature", "sha256=" +:+ hmac_hex secret body)]] /\
    body = json_dumps (_build_event_payload ts (w_name e) fn eid ms ok b v).
Proof.
  intros Hr Hc Hs Hf Hb. apply configure_Ok in Hc as (_ & _ & He & Hu & _). destruct (Hu url eq_refl) as [Hu' Hv].
  assert (truthy_str url = true) as Ht by (destruct url; [by vm_compute in Hv|done]).
  eexists. split; [|reflexivity]. unfold emit_telemetry_event, target_of. rewrite Hf. cbn [mbind option_bind]. rewrite Hu'. cbn [mbind option_bind].
  rewrite Ht, Hb. unfold _deliver_webhook. unfold encrypted in He.
  destruct (encrypt_value r (PStr secret) k) as [[c dk]|] eqn:Ee; [|done]. injection He as He.
  assert (secret_of (Some k) e' = Some (PStr secret)) as ->.
  { unfold secret_of. rewrite <-He.
    assert (truthy_str c && truthy_str dk = true) as -> by (by eapply encrypt_value_nonempty).
    by rewrite (decrypt_encrypt_value r (PStr secret) k c dk Hr I Ee). }
  unfold delivery_headers. assert (truthy (PStr secret) = true) as -> by (by destruct secret).
  reflexivity.
Qed.
End configured.

(** ** Examples *)

Section runs.
#[local] Existing Instance toy_aead.

Definition demo_endpoint : endpoint := Endpoint "n1" "acme" (Some "https://hooks.example/x") None (Some [("batch_enabled", PBool true)]).
Definition demo_event (fn : string) : list (string * pyval) := [("event", PStr "tool_call"); ("data", PDict [("function", PStr fn)])].
Lemma demo_events_ok fns : Forall event_dict (map demo_event fns).
Proof.
  apply Forall_forall. intros d (fn & <- & _)%list_elem_of_In%in_map_iff. unfold event_dict. cbn.
  split; [|split; [done|split; [|done]]]; [|split; [|done]]; unfold dict_wf, dict_keys; cbn; repeat constructor; set_solver.
Qed.

Definition raw_event (fn : string) : string := json_dumps (PDict (demo_event fn)).
Definition demo_st : st := St [demo_endpoint] [Buffer (batch_key "n1") [raw_event "b"; raw_event "a"] 200] true [].
Abbreviation demo_flush := (flush_key None (fun k m => k +:+ m) 100).

Lemma batch_sent_once_witness :
  exists body s', flush_key None (fun k m => k +:+ m) 100 (batch_key "n1") demo_st = (true, s') /\
    deliveries s' = [Delivery "https://hooks.example/x" body [("Content-Type", "application/json"); ("User-Agent", "MCPWorks-Webhook/1.0")]].
Proof.
  pose proof (batch_sent_once None (fun k m => k +:+ m) 100 "n1" [demo_event "b"; demo_event "a"] demo_st demo_endpoint "https://hooks.example/x"
    [("Content-Type", "application/json"); ("User-Agent", "MCPWorks-Webhook/1.0")] eq_refl ltac:(discriminate)
    (demo_events_ok ["b"; "a"]) eq_refl eq_refl ltac:(cbn; lia) eq_refl) as K.
  destruct (flush_key _ _ _ _ _) as [g s']. destruct K as (-> & K & _). eexists _, s'. split; [reflexivity|exact K].
Defined.

(** One call ends between the two commands: its event [c] is gone, and [a] is in
    the list again after it was sent. *)
Lemma flush_race_witness :
  let read := lrange 100 (batch_key "n1") demo_st in
  let s' := (flush_rest None (fun k m => k +:+ m) 100 (batch_key "n1") read (pushes 100 "n1" [raw_event "c"] demo_st)).2 in
  length (deliveries s') = 1%nat /\ events_at 100 (batch_key "n1") (buffers s') = [raw_event "a"].
Proof.
  pose proof (flush_race None (fun k m => k +:+ m) 100 "n1" [demo_event "b"; demo_event "a"] [raw_event "c"] demo_st demo_endpoint "https://hooks.example/x"
    [("Content-Type", "application/json"); ("User-Agent", "MCPWorks-Webhook/1.0")] eq_refl ltac:(discriminate)
    (demo_events_ok ["b"; "a"]) eq_refl eq_refl eq_refl ltac:(cbn; lia) ltac:(cbn; lia) eq_refl) as K.
  cbv zeta in *. destruct (flush_rest _ _ _ _ _ _) as [g s']. destruct K as (K1 & K2). cbn [snd]. rewrite K1, K2. by split.
Defined.

Definition demo_randomness : randomness := Randomness "fedcba9876543210fedcba9876543210" "nonce-000001" "nonce-000002".
Definition demo_kek : string := "0123456789abcdef0123456789abcdef".
Definition plain_endpoint : endpoint := Endpoint "n1" "acme" None None None.

Lemma configured_webhook_signed_witness :
  exists e', _configure_telemetry_webhook (Some demo_kek) demo_randomness plain_endpoint (Some "https://hooks.example/x") (Some "s3cret") None None None false = Ok e' /\
  exists body,
    deliveries (emit_telemetry_event (Some demo_kek) (fun k m => k +:+ m) 100 "now" "n1" "acme" "social.post" "e1" 5 true None None (St [e'] [] true [])) =
      [Delivery "https://hooks.example/x" body [("Content-Type", "application/json"); ("User-Agent", "MCPWorks-Webhook/1.0");
         ("X-MCPWorks-Signature", "sha256=" +:+ ("s3cret" +:+ body))]].
Proof.
  destruct (_configure_telemetry_webhook (Some demo_kek) demo_randomness plain_endpoint (Some "https://hooks.example/x") (Some "s3cret") None None None false)
    as [e'|] eqn:E; [|by vm_compute in E].
  exists e'. split; [done|].
  destruct (configured_webhook_signed (fun k m => k +:+ m) demo_kek demo_randomness plain_endpoint "https://hooks.example/x" "s3cret" None None None e'
    (St [e'] [] true []) 100 "now" "social.post" "e1" 5 true None None) as (body & K & _).
  - done.
  - exact E.
  - done.
  - vm_compute in E. by injection E as <-.
  - vm_compute in E. by injection E as <-.
  - by exists body.
Defined.

(** The URL of a webhook may lead to the host itself, and the name of a host is
    never resolved, unlike in the gate of [core/ssrf.py]. *)
Example webhook_reaches_loopback :
  let resolve := (fun _ => Ok ["127.0.0.1"]) : resolver in
  map validate_webhook_url ["http://127.0.0.1:6379/"; "http://localhost:8000/v1/admin"; "https://internal.example/"; "https://10.1.2.3/"] =
    [None; None; None; Some "Private IP addresses are not allowed: 10.1.2.3"] /\
  forallb (fun u => match assert_url_allowed resolve u with Ok _ => false | Err _ => true end)
    ["http://127.0.0.1:6379/"; "http://localhost:8000/v1/admin"; "https://internal.example/"] = true.
Proof. split; vm_compute; reflexivity. Qed.

(** The selection of events has no effect on the events of calls. *)
Example event_selection_ignored :
  let e := Endpoint "n1" "acme" (Some "https://hooks.example/x") None (Some (configured None None None (Some ["orchestration_run"]))) in
  let s := emit_telemetry_event None (fun k m => k) 0 "now" "n1" "acme" "social.post" "e1" 5 true None None (St [e] [] true []) in
  event_selected "tool_call" (w_config e) = false /\ length (deliveries s) = 1%nat.
Proof. split; vm_compute; reflexivity. Qed.

(** The interval is stored between 1 and 60 seconds, and nothing reads it: the
    loop of [main.py] waits ten seconds. *)
Example interval_clamped n :
  configured None None (Some n) None = [("batch_interval_seconds", PInt (Z.max 1 (Z.min 60 n)))].
Proof. reflexivity. Qed.
End runs.
