(* ===== verification/Agents.v ===== *)
(** * Agents and their containers

    [services/agent_service.py] on the tables of [models/agent.py]: agents with
    their namespace and replicas, the containers that Docker runs for them,
    schedules, webhooks, channels, the settings of the AI engine, tokens for
    public chat, and clones.  (The state operations are [AgentState], the chat is
    [AgentChat].)  Docker, the parser of cron expressions, the time zones, the
    draws of replica names and the test of an API key with its provider are the
    class [Host], and so is whether a session loads a relation when it is first read:
    SQLAlchemy documents that asynchronous sessions, which the program uses, do not,
    and raise ([lazy_loads] is false).  Floating-point statistics of a container are left out. *)

From S2P Require Import Prelude Regex Routing Security Json Encryption AgentState Namespaces Functions Procedures SecurityEvents AiTools ToolDispatch Hoare ReplicaNames.
From stdpp Require Import gmap strings.
From Stdlib Require Import Ascii Sorting.Sorted.

Open Scope Z_scope.

(** ** What the host gives *)

(** [NotFound] is a subclass of [APIError]; [Unreachable] is any other exception
    of the client. *)
Inductive docker_error := DockerNotFound | DockerAPIError (message : string) | Unreachable (message : string).

(** The arguments of [containers.run]. *)
Record container_spec := ContainerSpec {
  cs_image : string;
  cs_name : string;
  cs_network : string;
  cs_memory_mb : Z;
  cs_nano_cpus : Z;
  cs_environment : list (string * string)
}.

Class Host := {
  host : Type;
  name_draws : host -> ((nat -> nat * nat) * list string) * host;
  network_get : string -> host -> res docker_error unit * host;
  network_create : string -> host -> res docker_error unit * host;
  container_get : string -> host -> res docker_error string * host;
  container_run : container_spec -> host -> res docker_error string * host;
  container_start : string -> host -> res docker_error unit * host;
  container_stop : string -> host -> res docker_error unit * host;
  container_restart : string -> host -> res docker_error unit * host;
  container_remove : string -> host -> res docker_error unit * host;
  probe : string -> list (string * string) -> host -> option Z * host;
  lazy_loads : bool;
  valid_zone : string -> bool;
  cron_next : string -> string -> Z -> option Z
}.

(** ** Tables *)

Record agent_record := AgentRecord {
  row : agent_row;
  display_name : option string;
  agent_status : string;
  container_id : option string;
  memory_mb : Z;
  cpu_tenths : Z;
  enabled : bool;
  mcp_servers : option (list (string * pyval));
  target_replicas : Z;
  chat_token : option string;
  heartbeat_enabled : bool;
  heartbeat_interval : option Z;
  heartbeat_next_at : option Z;
  cloned_from_id : option string;
  created_at : Z
}.

Record replica := Replica {
  rp_id : string;
  rp_agent_id : string;
  replica_name : string;
  rp_container_id : option string;
  rp_status : string;
  last_heartbeat : option Z;
  rp_created_at : Z
}.

Record schedule := Schedule {
  sc_id : string;
  sc_agent_id : string;
  function_name : string;
  cron_expression : string;
  timezone : string;
  failure_policy : pyval;
  sc_enabled : bool;
  sc_mode : string;
  sc_orchestration_mode : string;
  sc_procedure_name : option string;
  consecutive_failures : Z;
  last_run_at : option Z;
  next_run_at : option Z
}.

Record webhook := Webhook {
  wh_id : string;
  wh_agent_id : string;
  wh_path : string;
  handler_function_name : string;
  secret_hash : option string;
  wh_orchestration_mode : string;
  wh_procedure_name : option string;
  wh_enabled : bool
}.

(** [ScheduledJob]; [models/schedule_fire.py] *)
Record job := Job {
  jb_id : string;
  jb_agent_id : string;
  jb_schedule_id : string;
  jb_replica_id : option string;
  fire_time : Z;
  jb_status : string;
  claimed_by : option string;
  jb_error : option string;
  jb_created_at : Z
}.

Record schedule_fire := ScheduleFire {
  fr_id : string;
  fr_schedule_id : string;
  fr_agent_id : string;
  fr_status : string;
  fr_error : option string;
  fr_run_id : option string
}.

Definition AGENT_STATUSES : list string := ["creating"; "running"; "stopped"; "error"; "destroying"; "degraded"].
Definition REPLICA_STATUSES : list string := ["creating"; "running"; "stopped"; "error"].
Definition CHANNEL_TYPES : list string := ["discord"; "slack"; "whatsapp"; "email"].
Definition ORCHESTRATION_MODES : list string := ["direct"; "reason_first"; "run_then_reason"; "procedure"].

Definition a_id (a : agent_record) : string := ar_id (row a).
Definition a_name (a : agent_record) : string := ar_name (row a).
Definition a_account (a : agent_record) : string := ar_account_id (row a).
Definition a_namespace (a : agent_record) : string := ar_namespace_id (row a).

Section tables.
Context `{Outside} `{Host}.

(** The database and the world outside.  [states] of the world repeats the
    identifiers, accounts and names of the agents. *)
Record fleet := Fleet {
  the_world : world;
  records : list agent_record;
  replicas : list replica;
  schedules : list schedule;
  webhooks : list webhook;
  jobs : list job;
  fires : list schedule_fire;
  the_host : host
}.

(** An exception of the services, an invalid value with its message, one of
    Docker, of the cron parser, of the ciphers, or of a tool call. *)
Inductive exn :=
| Service (e : Security.exn)
| BadValue (message : string)
| PyRuntimeError (message : string)
| PyAttributeError
| MissingGreenlet
| Docker (e : docker_error)
| BadCron
| Cipher (e : Encryption.exn)
| Raised (e : exc).

Abbreviation M := (stm fleet exn).

Definition not_found {A} (m : string) : M A := raise (Service (mcp_with Security.NotFoundError m)).
Definition forbidden {A} (m : string) : M A := raise (Service (mcp_with Security.ForbiddenError m)).
Definition conflict {A} (m : string) : M A := raise (Service (mcp_with ConflictError m)).

(** *** Parts of the state *)

Definition set_world (f : world -> world) : M unit := modS (fun s =>
  Fleet (f (the_world s)) (records s) (replicas s) (schedules s) (webhooks s) (jobs s) (fires s) (the_host s)).
Definition set_records (f : list agent_record -> list agent_record) : M unit := modS (fun s =>
  Fleet (the_world s) (f (records s)) (replicas s) (schedules s) (webhooks s) (jobs s) (fires s) (the_host s)).
Definition set_replicas (f : list replica -> list replica) : M unit := modS (fun s =>
  Fleet (the_world s) (records s) (f (replicas s)) (schedules s) (webhooks s) (jobs s) (fires s) (the_host s)).
Definition set_schedules (f : list schedule -> list schedule) : M unit := modS (fun s =>
  Fleet (the_world s) (records s) (replicas s) (f (schedules s)) (webhooks s) (jobs s) (fires s) (the_host s)).
Definition set_webhooks (f : list webhook -> list webhook) : M unit := modS (fun s =>
  Fleet (the_world s) (records s) (replicas s) (schedules s) (f (webhooks s)) (jobs s) (fires s) (the_host s)).
Definition set_jobs (f : list job -> list job) : M unit := modS (fun s =>
  Fleet (the_world s) (records s) (replicas s) (schedules s) (webhooks s) (f (jobs s)) (fires s) (the_host s)).
Definition set_fires (f : list schedule_fire -> list schedule_fire) : M unit := modS (fun s =>
  Fleet (the_world s) (records s) (replicas s) (schedules s) (webhooks s) (jobs s) (f (fires s)) (the_host s)).

(** A computation in the world. *)
Definition in_world {A} (m : stm world exc A) : M A := fun s =>
  let '(r, w) := m (the_world s) in
  (match r with Ok a => Ok a | Err e => Err (Raised e) end,
   Fleet w (records s) (replicas s) (schedules s) (webhooks s) (jobs s) (fires s) (the_host s)).

(** A computation with Docker. *)
Definition on_host {A} (m : stm host docker_error A) : M A := fun s =>
  let '(r, h) := m (the_host s) in
  (match r with Ok a => Ok a | Err e => Err (Docker e) end,
   Fleet (the_world s) (records s) (replicas s) (schedules s) (webhooks s) (jobs s) (fires s) h).

(** [try: m except DockerAPIError: k], and what follows a success. *)
Definition docker_try {A B} (m : stm host docker_error A) (ok : A -> M B) (k : M B) : M B := fun s =>
  match on_host m s with
  | (Ok a, s') => ok a s'
  | (Err (Docker DockerNotFound), s') | (Err (Docker (DockerAPIError _)), s') => k s'
  | (Err e, s') => (Err e, s')
  end.

Definition set_namespace_tables (t : Namespaces.tables) (w : world) : world :=
  let p := tables w in let b := base p in
  World (PStore (Store t (functions b) (versions b) (calls b)) (procedures p) (pversions p) (executions p))
    (states w) (channels w) (execution_log w) (runs w) (events w) (out w).

(** An operation of the service for namespaces, in the same session. *)
Definition on_namespaces {A} (m : stm Namespaces.tables Security.exn A) : M A := fun s =>
  let '(r, t) := m (ns (base (tables (the_world s)))) in
  (match r with Ok a => Ok a | Err e => Err (Service e) end,
   Fleet (set_namespace_tables t (the_world s)) (records s) (replicas s) (schedules s) (webhooks s) (jobs s) (fires s) (the_host s)).

(** The state of agents: the rows of agents that it knows, and its entries. *)
Definition set_state_tables (s : st) (w : world) : world :=
  World (tables w) s (channels w) (execution_log w) (runs w) (events w) (out w).
Definition set_channel_rows (l : list channel) (w : world) : world :=
  World (tables w) (states w) l (execution_log w) (runs w) (events w) (out w).

Definition state_exn (e : AgentState.err) : exn :=
  match e with
  | AgentState.NotFoundError m => Service (mcp_with Security.NotFoundError m)
  | AgentState.ForbiddenError m => Service (mcp_with Security.ForbiddenError m)
  | CryptoError e => Cipher e
  | DataError => Service DBAPIError
  end.

(** An operation on the state of agents, in the same session. *)
Definition on_state {A} (m : stm st AgentState.err A) : M A := fun s =>
  let '(r, t) := m (states (the_world s)) in
  (match r with Ok a => Ok a | Err e => Err (state_exn e) end,
   Fleet (set_state_tables t (the_world s)) (records s) (replicas s) (schedules s) (webhooks s) (jobs s) (fires s) (the_host s)).

(** *** Rows *)

(** [scalar_one_or_none()] of the rows with [p]. *)
Definition one {A} (rows : fleet -> list A) (p : A -> bool) : M (option A) := fun s =>
  match List.filter p (rows s) with
  | [] => (Ok None, s)
  | [a] => (Ok (Some a), s)
  | _ => (Err (Service MultipleResultsFound), s)
  end.

(** The row replaced where the identifier is its own. *)
Definition put {A} (key : A -> string) (x : A) : list A -> list A :=
  map (fun y => if String.eqb (key y) (key x) then x else y).
Definition put_record (a : agent_record) : M unit := set_records (put a_id a).
Definition put_replica (r : replica) : M unit := set_replicas (put rp_id r).

(** A new row: the primary key is unique, and so is what [same] compares. *)
Definition insert {A} (rows : fleet -> list A) (set : (list A -> list A) -> M unit) (same : A -> A -> bool) (x : A) : M unit :=
  s ← getS;
  if existsb (same x) (rows s) then raise (Service DBAPIError) else set (fun l => l ++ [x]).

Definition same_id {A} (key : A -> string) (x y : A) : bool := String.eqb (key x) (key y).

(** The unique constraint [uq_agent_account_name], the validators of the
    columns. *)
Definition same_agent (a b : agent_record) : bool :=
  same_id a_id a b || String.eqb (a_account a) (a_account b) && String.eqb (a_name a) (a_name b).
Definition valid_agent (a : agent_record) : bool :=
  truthy_str (a_name a) && namespace_match (a_name a) && str_in (agent_status a) AGENT_STATUSES
  && match auto_channel (row a) with Some c => str_in c CHANNEL_TYPES | None => true end.

Definition state_agent (a : agent_record) : AgentState.agent := AgentState.Agent (a_id a) (a_account a) (a_name a).

Definition add_agent (a : agent_record) : M unit :=
  if valid_agent a then
    insert records set_records same_agent a;;
    set_world (fun w => set_state_tables (St (agents (states w) ++ [state_agent a]) (entries (states w)) (kek_cache (states w))) w)
  else raise (Service Security.ValueError).

Definition same_replica (r x : replica) : bool :=
  same_id rp_id r x || String.eqb (rp_agent_id r) (rp_agent_id x) && String.eqb (replica_name r) (replica_name x).
Definition same_webhook (x y : webhook) : bool :=
  same_id wh_id x y || String.eqb (wh_agent_id x) (wh_agent_id y) && String.eqb (wh_path x) (wh_path y).
End tables.

(** ** Containers *)

Definition AGENT_NETWORK_NAME : string := "mcpworks-agents".
Definition AGENT_CONTAINER_PREFIX : string := "agent-".
Definition AGENT_IMAGE : string := "mcpworks/agent-runtime:latest".

Section containers.
Context `{Outside} `{Host}.

Abbreviation M := (stm fleet exn).
Abbreviation D := (stm host docker_error).

Definition _ensure_network : D unit :=
  try_except (network_get AGENT_NETWORK_NAME)
    (fun e => match e with DockerNotFound => Some (network_create AGENT_NETWORK_NAME : D unit) | _ => None end).

(** [with contextlib.suppress(DockerNotFound)]: a container of that name goes. *)
Definition remove_stale (name : string) : D unit :=
  try_except (id ← (container_get name : D string); (container_remove id : D unit))
    (fun e => match e with DockerNotFound => Some (mret tt) | _ => None end).

Definition container_name (a : agent_record) (r : replica) : string :=
  AGENT_CONTAINER_PREFIX +:+ a_name a +:+ "-" +:+ replica_name r.

Definition replica_spec (a : agent_record) (r : replica) (cluster_size : Z) : container_spec :=
  ContainerSpec AGENT_IMAGE (container_name a r) AGENT_NETWORK_NAME (memory_mb a) (cpu_tenths a * 100000000)
    [("AGENT_NAME", a_name a); ("AGENT_ID", a_id a); ("MCPWORKS_API_URL", "http://mcpworks-api:8000");
     ("MCPWORKS_REPLICA_NAME", replica_name r); ("MCPWORKS_CLUSTER_SIZE", str_of_Z cluster_size)].

Definition with_replica (r : replica) (container : option string) (status : string) : replica :=
  Replica (rp_id r) (rp_agent_id r) (replica_name r) container status (last_heartbeat r) (rp_created_at r).

Definition _run_replica_container (a : agent_record) (r : replica) (cluster_size : Z) : M unit :=
  docker_try (_ensure_network;; remove_stale (container_name a r);; (container_run (replica_spec a r cluster_size) : D string))
    (fun id => put_replica (with_replica r (Some id) "running"))
    (put_replica (with_replica r (rp_container_id r) "error")).

Definition _stop_replica_container (r : replica) : M unit :=
  match rp_container_id r with
  | None => mret tt
  | Some id =>
      if negb (truthy_str id) then mret tt
      else docker_try (c ← (container_get id : D string); (container_stop c : D unit)) (fun _ => mret tt) (mret tt)
  end.

Definition _remove_replica_container (r : replica) : M unit :=
  match rp_container_id r with
  | None => mret tt
  | Some id =>
      if negb (truthy_str id) then mret tt
      else docker_try (c ← (container_get id : D string); (container_remove c : D unit)) (fun _ => mret tt) (mret tt)
  end.

(** A container that Docker does not know is made anew, for a cluster of one. *)
Definition _start_replica_container (a : agent_record) (r : replica) : M unit := fun s =>
  match rp_container_id r with
  | Some id =>
      if truthy_str id then
        match on_host (c ← (container_get id : D string); (container_start c : D unit)) s with
        | (Ok _, s') => put_replica (with_replica r (Some id) "running") s'
        | (Err (Docker DockerNotFound), s') => _run_replica_container a (with_replica r None (rp_status r)) 1 s'
        | (Err (Docker (DockerAPIError _)), s') => put_replica (with_replica r (Some id) "error") s'
        | (Err e, s') => (Err e, s')
        end
      else _run_replica_container a r 1 s
  | None => _run_replica_container a r 1 s
  end.

(** ** Agents *)

Definition get_tier_config (tier : string) : M tier_config :=
  match dict_get tier AGENT_TIER_CONFIG with
  | Some c => mret c
  | None => forbidden ("Tier '" +:+ tier +:+ "' is not agent-enabled")
  end.

Definition of_account (account_id : string) (a : agent_record) : bool := String.eqb (a_account a) account_id.
Definition named (account_id agent_name : string) (a : agent_record) : bool :=
  of_account account_id a && String.eqb (a_name a) agent_name.
Definition of_agent (agent_id : string) (r : replica) : bool := String.eqb (rp_agent_id r) agent_id.

Definition get_agent_count (account_id : string) : M Z := fun s =>
  (Ok (Z.of_nat (length (List.filter (of_account account_id) (records s)))), s).

(** The replicas of the agents of an account. *)
Definition replica_of_account (account_id : string) (l : list agent_record) (r : replica) : bool :=
  existsb (fun a => String.eqb (a_id a) (rp_agent_id r) && of_account account_id a) l.
Definition get_total_replica_count (account_id : string) : M Z := fun s =>
  (Ok (Z.of_nat (length (List.filter (replica_of_account account_id (records s)) (replicas s)))), s).

Definition oldest_first (r x : replica) : bool := rp_created_at r <=? rp_created_at x.
Definition newest_first (r x : replica) : bool := rp_created_at x <=? rp_created_at r.
Definition replicas_of (agent_id : string) (s : fleet) : list replica :=
  order_by oldest_first (List.filter (of_agent agent_id) (replicas s)).
Definition _get_replicas (agent_id : string) : M (list replica) := fun s => (Ok (replicas_of agent_id s), s).

Definition _derive_agent_status (status : string) (l : list replica) : string :=
  match l with
  | [] => if str_in status ["creating"; "destroying"] then status else "stopped"
  | _ =>
      let has x := existsb (fun r => String.eqb (rp_status r) x) l in
      let all x := forallb (fun r => String.eqb (rp_status r) x) l in
      if all "running" then "running"
      else if all "stopped" then "stopped"
      else if has "running" then "degraded"
      else if has "error" then "error"
      else "creating"
  end.

Definition get_agent (account_id agent_name : string) : M agent_record :=
  found ← one records (named account_id agent_name);
  match found with
  | Some a => mret a
  | None => not_found ("Agent '" +:+ agent_name +:+ "' not found")
  end.

Definition get_agent_by_id (account_id agent_id : string) : M agent_record :=
  found ← one records (fun a => of_account account_id a && String.eqb (a_id a) agent_id);
  match found with Some a => mret a | None => not_found "Agent not found" end.

Definition list_agents (account_id : string) : M (list agent_record) := fun s =>
  (Ok (order_by (fun a b => created_at b <=? created_at a) (List.filter (of_account account_id) (records s))), s).

(** (used, total, available) *)
Definition get_agent_slots (account_id tier : string) : M (Z * Z * Z) :=
  cfg ← get_tier_config tier;
  used ← get_agent_count account_id;
  mret (used, max_agents cfg, max_agents cfg - used).

Definition with_status (a : agent_record) (status : string) : agent_record :=
  AgentRecord (row a) (display_name a) status (container_id a) (memory_mb a) (cpu_tenths a) (enabled a) (mcp_servers a)
    (target_replicas a) (chat_token a) (heartbeat_enabled a) (heartbeat_interval a) (heartbeat_next_at a) (cloned_from_id a)
    (created_at a).
Definition with_container (a : agent_record) (status : string) (container : option string) : agent_record :=
  AgentRecord (row a) (display_name a) status container (memory_mb a) (cpu_tenths a) (enabled a) (mcp_servers a)
    (target_replicas a) (chat_token a) (heartbeat_enabled a) (heartbeat_interval a) (heartbeat_next_at a) (cloned_from_id a)
    (created_at a).
Definition with_target (a : agent_record) (n : Z) : agent_record :=
  AgentRecord (row a) (display_name a) (agent_status a) (container_id a) (memory_mb a) (cpu_tenths a) (enabled a) (mcp_servers a)
    n (chat_token a) (heartbeat_enabled a) (heartbeat_interval a) (heartbeat_next_at a) (cloned_from_id a) (created_at a).

(** [refresh(agent, ["replicas"])], the derived status, and the flush. *)
Definition update_status (a : agent_record) : M agent_record :=
  l ← _get_replicas (a_id a);
  let a' := with_status a (_derive_agent_status (agent_status a) l) in
  put_record a';;
  mret a'.

(** The same without the refresh: [agent.replicas] is not loaded. *)
Definition update_status_lazily (a : agent_record) : M agent_record :=
  if lazy_loads then update_status a else raise MissingGreenlet.

(** A question to the outside. *)
Definition ask_out {A} (f : outside -> A * outside) : M A := in_world (ask f).

Definition _create_replica (a : agent_record) : M replica :=
  l ← _get_replicas (a_id a);
  let existing_names := map replica_name l in
  draws ← on_host (fun h => let '(d, h') := name_draws h in (Ok d, h'));
  match generate_replica_name draws.1 draws.2 existing_names 10 with
  | Err (RuntimeError m) => raise (PyRuntimeError m)
  | Ok name =>
      id ← ask_out uuid4;
      t ← ask_out now;
      let r := Replica id (a_id a) name None "creating" None t in
      insert replicas set_replicas same_replica r;;
      _run_replica_container a r (Z.of_nat (length existing_names) + 1);;
      mret r
  end.

(** The columns of a new agent, with the defaults of the table. *)
Definition new_row (id account_id namespace_id name : string) : agent_row :=
  AgentRow id account_id namespace_id name None None None None None None "standard" "execute_only".

(** The namespace of a new agent; the primary key is unique. *)
Definition new_namespace (account_id name : string) : M namespace :=
  id ← ask_out uuid4;
  s ← getS;
  let used := existsb (fun n => String.eqb (n_id n) id) (namespaces (ns (base (tables (the_world s))))) in
  n ← on_namespaces (Namespaces.create id account_id name None None);
  if used then raise (Service DBAPIError) else mret n.

Definition create_agent (account_id tier name : string) (display_name : option string) : M agent_record :=
  cfg ← get_tier_config tier;
  current_count ← get_agent_count account_id;
  if max_agents cfg <=? current_count then
    conflict ("Agent slot limit reached (" +:+ str_of_Z (max_agents cfg) +:+ " for " +:+ tier +:+ ")")
  else
    existing ← one records (named account_id name);
    match existing with
    | Some _ => conflict ("Agent '" +:+ name +:+ "' already exists")
    | None =>
        n ← new_namespace account_id name;
        id ← ask_out uuid4;
        t ← ask_out now;
        let a := AgentRecord (new_row id account_id (n_id n) name) display_name "creating" None (memory_limit_mb cfg)
                   (cpu_limit_tenths cfg) true None 1 None false None None None t in
        add_agent a;;
        _ ← _create_replica a;
        update_status_lazily a
    end.

(** [for _ in range(n)] *)
Fixpoint create_replicas (n : nat) (a : agent_record) : M unit :=
  match n with O => mret tt | S n' => _ ← _create_replica a; create_replicas n' a end.

(** [await self.db.delete(replica)]; jobs lose their reference ([SET NULL]). *)
Definition delete_replica (r : replica) : M unit :=
  set_replicas (List.filter (fun x => negb (String.eqb (rp_id x) (rp_id r))));;
  let cleared (o : option string) := if decide (o = Some (rp_id r)) then None else o in
  set_jobs (map (fun j => Job (jb_id j) (jb_agent_id j) (jb_schedule_id j) (cleared (jb_replica_id j)) (fire_time j) (jb_status j)
    (cleared (claimed_by j)) (jb_error j) (jb_created_at j))).

Fixpoint remove_replicas (l : list replica) : M unit :=
  match l with
  | [] => mret tt
  | r :: l' => _stop_replica_container r;; _remove_replica_container r;; delete_replica r;; remove_replicas l'
  end.

Definition scale_agent (account_id agent_name : string) (target : Z) (tier : string) : M agent_record :=
  a ← get_agent account_id agent_name;
  cfg ← get_tier_config tier;
  current ← _get_replicas (a_id a);
  let current_count := Z.of_nat (length current) in
  total ← get_total_replica_count account_id;
  let total_after := total - current_count + target in
  if max_agents cfg <? total_after then
    conflict ("Scaling to " +:+ str_of_Z target +:+ " replicas would use " +:+ str_of_Z total_after +:+ " slots (limit: "
              +:+ str_of_Z (max_agents cfg) +:+ ")")
  else
    let a := with_target a target in
    put_record a;;
    (if current_count <? target then create_replicas (Z.to_nat (target - current_count)) a
     else if target <? current_count then
       remove_replicas (take (Z.to_nat (current_count - target)) (order_by newest_first current))
     else mret tt);;
    update_status a.

Definition startable (r : replica) : bool := str_in (rp_status r) ["stopped"; "error"].

Fixpoint start_replicas (a : agent_record) (l : list replica) : M unit :=
  match l with
  | [] => mret tt
  | r :: l' => (if startable r then _start_replica_container a r else mret tt);; start_replicas a l'
  end.

Definition start_agent (account_id agent_name : string) (name : option string) : M agent_record :=
  a ← get_agent account_id agent_name;
  l ← _get_replicas (a_id a);
  (if truthy_ostr name then
     let n := default "" name in
     match List.find (fun r => String.eqb (replica_name r) n) l with
     | None => not_found ("Replica '" +:+ n +:+ "' not found in agent '" +:+ agent_name +:+ "'")
     | Some r =>
         if negb (startable r) then conflict ("Replica '" +:+ n +:+ "' is " +:+ rp_status r +:+ ", cannot start")
         else _start_replica_container a r
     end
   else start_replicas a l);;
  update_status a.

Definition is_running (r : replica) : bool := String.eqb (rp_status r) "running".

Definition stop_one (r : replica) : M unit :=
  _stop_replica_container r;; put_replica (with_replica r (rp_container_id r) "stopped").

Fixpoint stop_replicas (l : list replica) : M unit :=
  match l with
  | [] => mret tt
  | r :: l' => (if is_running r then stop_one r else mret tt);; stop_replicas l'
  end.

Definition stop_agent (account_id agent_name : string) (name : option string) : M agent_record :=
  a ← get_agent account_id agent_name;
  l ← _get_replicas (a_id a);
  (if truthy_ostr name then
     let n := default "" name in
     match List.find (fun r => String.eqb (replica_name r) n) l with
     | None => not_found ("Replica '" +:+ n +:+ "' not found in agent '" +:+ agent_name +:+ "'")
     | Some r =>
         if negb (is_running r) then conflict ("Replica '" +:+ n +:+ "' is " +:+ rp_status r +:+ ", cannot stop")
         else stop_one r
     end
   else stop_replicas l);;
  update_status a.

Fixpoint remove_containers (l : list replica) : M unit :=
  match l with [] => mret tt | r :: l' => _remove_replica_container r;; remove_containers l' end.

(** [ondelete="SET NULL"] *)
Definition forget_source (id : string) (a : agent_record) : agent_record :=
  if decide (cloned_from_id a = Some id) then
    AgentRecord (row a) (display_name a) (agent_status a) (container_id a) (memory_mb a) (cpu_tenths a) (enabled a) (mcp_servers a)
      (target_replicas a) (chat_token a) (heartbeat_enabled a) (heartbeat_interval a) (heartbeat_next_at a) None (created_at a)
  else a.

(** The references to what is gone are emptied: those of runs to schedules, of fires
    and executions to runs, of executions of procedures to the agent. *)
Definition unless (gone : string -> bool) (o : option string) : option string :=
  match o with Some x => if gone x then None else o | None => None end.
Definition forget_schedule (gone : string -> bool) (r : agent_run * list tool_call) : agent_run * list tool_call :=
  let x := r.1 in
  (AgentRun (run_agent_id x) (run_row_id x) (run_trigger_detail x) (run_function_name x) (run_status x) (run_outcome x)
     (run_orchestration_mode x) (run_limits_consumed x) (run_limits_configured x) (run_duration_ms x) (unless gone (run_schedule_id x))
     (run_functions_called x) (run_result_summary x) (run_error x), r.2).
Definition forget_run (gone : string -> bool) (x : schedule_fire) : schedule_fire :=
  ScheduleFire (fr_id x) (fr_schedule_id x) (fr_agent_id x) (fr_status x) (fr_error x) (unless gone (fr_run_id x)).
Definition forget_logged_run (gone : string -> bool) (x : execution_row) : execution_row :=
  ExecutionRow (ex_id x) (ex_namespace_id x) (ex_service_name x) (ex_function_name x) (ex_function_id x) (ex_version x) (ex_status x)
    (ex_input x) (ex_result x) (ex_error x) (unless gone (ex_agent_run_id x)).
Definition forget_agent (id : string) (p : pstore) : pstore :=
  PStore (base p) (procedures p) (pversions p)
    (map (fun x => Procedures.Execution (x_id x) (x_procedure_id x) (x_procedure_version x) (unless (String.eqb id) (x_agent_id x))
       (x_trigger_type x) (Procedures.x_status x) (x_current_step x) (x_step_results x) (x_input_context x) (Procedures.x_completed_at x)
       (x_error x) (x_created_at x)) (Procedures.executions p)).

(** The schedules of an agent, and its runs. *)
Definition schedule_of (id : string) (l : list schedule) (x : string) : bool :=
  existsb (fun y => String.eqb (sc_id y) x && String.eqb (sc_agent_id y) id) l.
Definition run_of (id : string) (l : list (agent_run * list tool_call)) (x : string) : bool :=
  existsb (fun r => bool_decide (run_row_id r.1 = Some x) && String.eqb (run_agent_id r.1) id) l.

(** The rows that go with an agent, by the cascades of the ORM and of the
    foreign keys; its clones forget it. *)
Definition delete_agent_rows (id : string) : M unit :=
  s ← getS;
  let gone := schedule_of id (schedules s) in
  let gone_run := run_of id (runs (the_world s)) in
  set_records (fun l => map (forget_source id) (List.filter (fun a => negb (String.eqb (a_id a) id)) l));;
  set_replicas (List.filter (fun r => negb (String.eqb (rp_agent_id r) id)));;
  set_schedules (List.filter (fun x => negb (String.eqb (sc_agent_id x) id)));;
  set_webhooks (List.filter (fun x => negb (String.eqb (wh_agent_id x) id)));;
  set_jobs (List.filter (fun j => negb (String.eqb (jb_agent_id j) id || gone (jb_schedule_id j))));;
  set_fires (fun l => map (forget_run gone_run) (List.filter (fun x => negb (String.eqb (fr_agent_id x) id || gone (fr_schedule_id x))) l));;
  set_world (fun w =>
    World (forget_agent id (tables w))
      (St (List.filter (fun a => negb (String.eqb (ag_id a) id)) (agents (states w)))
          (List.filter (fun e => negb (String.eqb (e_agent_id e) id)) (entries (states w))) (kek_cache (states w)))
      (List.filter (fun c => negb (String.eqb (ch_agent_id c) id)) (channels w))
      (map (forget_logged_run gone_run) (execution_log w))
      (map (forget_schedule gone) (List.filter (fun r => negb (String.eqb (run_agent_id r.1) id)) (runs w))) (events w) (out w)).

(** A namespace with its services, functions, procedures and shares. *)
Definition delete_namespace_rows (id : string) (p : pstore) : pstore :=
  let b := base p in let t := ns b in
  let gone_service x := existsb (fun s => String.eqb (s_id s) x && String.eqb (s_namespace_id s) id) (services t) in
  let fs := List.filter (fun f => negb (gone_service (f_service_id f))) (functions b) in
  let ps := List.filter (fun q => negb (gone_service (p_service_id q))) (procedures p) in
  let owned x := existsb (fun q => String.eqb (p_id q) x) ps in
  PStore
    (Store (Tables (users t) (accounts t) (List.filter (fun n => negb (String.eqb (n_id n) id)) (namespaces t))
              (List.filter (fun s => negb (String.eqb (s_namespace_id s) id)) (services t))
              (List.filter (fun x => negb (String.eqb (sh_namespace_id x) id)) (shares t)) (mails t))
       fs (List.filter (fun v => existsb (fun f => String.eqb (f_id f) (v_function_id v)) fs) (versions b)) (calls b))
    ps (List.filter (fun v => owned (pv_procedure_id v)) (pversions p))
    (List.filter (fun x => owned (x_procedure_id x)) (executions p)).

(** The container of a clone, which is the agent's own. *)
Definition remove_agent_container (a : agent_record) : M unit :=
  match container_id a with
  | Some c =>
      if truthy_str c then
        docker_try (id ← (container_get c : D string); (container_remove id : D unit)) (fun _ => mret tt) (mret tt)
      else mret tt
  | None => mret tt
  end.

(** The rows of the agent and of its namespace are deleted. *)
Definition bury (a : agent_record) : M agent_record :=
  delete_agent_rows (a_id a);;
  set_world (fun w => World (delete_namespace_rows (a_namespace a) (tables w)) (states w) (channels w) (execution_log w) (runs w)
    (events w) (out w));;
  mret (with_status a "destroying").

(** (The files of the scratchpad, which go before the rows, are in [Scratchpad].) *)
Definition destroy_agent (account_id agent_name : string) : M agent_record :=
  a ← get_agent account_id agent_name;
  put_record (with_status a "destroying");;
  l ← _get_replicas (a_id a);
  remove_containers l;;
  remove_agent_container a;;
  bury a.

Definition force_restart_agent (a : agent_record) : M agent_record :=
  match container_id a with
  | Some c =>
      if truthy_str c then
        docker_try (id ← (container_get c : D string); (container_restart id : D unit))
          (fun _ => put_record (with_status a "running");; mret (with_status a "running"))
          (put_record (with_status a "error");; mret (with_status a "error"))
      else put_record (with_status a "error");; mret (with_status a "error")
  | None => put_record (with_status a "error");; mret (with_status a "error")
  end.

(** Both branches of the code restart the running replicas in their order. *)
Fixpoint restart_replicas (l : list replica) : M unit :=
  match l with
  | [] => mret tt
  | r :: l' =>
      (match rp_container_id r with
       | Some c =>
           if truthy_str c then
             docker_try (id ← (container_get c : D string); (container_restart id : D unit))
               (fun _ => put_replica (with_replica r (Some c) "running"))
               (put_replica (with_replica r (Some c) "error"))
           else mret tt
       | None => mret tt
       end);;
      restart_replicas l'
  end.

Definition _rolling_restart (a : agent_record) : M unit :=
  l ← _get_replicas (a_id a);
  restart_replicas (List.filter is_running l).

Definition _trigger_rolling_restart_if_clustered (a : agent_record) : M unit :=
  if 1 <? target_replicas a then _rolling_restart a else mret tt.
End containers.

(** ** Schedules *)

(** [int(text)] for ASCII digits: spaces around, a sign, single underscores
    between digits. *)
Fixpoint digits_value (acc : Z) (after_digit : bool) (s : string) : option Z :=
  match s with
  | EmptyString => if after_digit then Some acc else None
  | String c s' =>
      if is_digit c then digits_value (10 * acc + (Z.of_nat (ord c) - 48)) true s'
      else if Ascii.eqb c "_" && after_digit then digits_value acc false s'
      else None
  end.
Definition int_of_text (s : string) : option Z :=
  match str_strip s with
  | String c s' =>
      if Ascii.eqb c "-" then Z.opp <$> digits_value 0 false s'
      else if Ascii.eqb c "+" then digits_value 0 false s'
      else digits_value 0 false (String c s')
  | EmptyString => None
  end.

(** [s.split()] *)
Fixpoint words_go (cur s : string) : list string :=
  match s with
  | EmptyString => if truthy_str cur then [cur] else []
  | String c s' =>
      if is_space c then (if truthy_str cur then cur :: words_go "" s' else words_go "" s')
      else words_go (cur +:+ String c "") s'
  end.
Definition words (s : string) : list string := words_go "" s.

(** The step of a field [*/n]. *)
Definition field_step (field : string) : option string :=
  if starts_with "*/" field then Some (str_drop 2 field) else None.

Definition _cron_min_interval_seconds (cron : string) : Z :=
  let parts := words (str_strip cron) in
  if (length parts <? 5)%nat then 60
  else
    let minutes_field := nth 0 parts "" in
    if String.eqb minutes_field "*" then 60
    else match field_step minutes_field with
    | Some t => match int_of_text t with Some n => n * 60 | None => 60 end
    | None =>
        let hours_field := nth 1 parts "" in
        if String.eqb hours_field "*" then 60
        else match field_step hours_field with
        | Some t => match int_of_text t with Some n => n * 3600 | None => 3600 end
        | None => 3600
        end
    end.

Section service.
Context `{Outside} `{Host} `{Aead} `{Crypto} (b64decode : string -> string) (kek_b64 : string).

Abbreviation M := (stm fleet exn).

(** [_compute_next_run] of [tasks/scheduler.py]. *)
Definition _compute_next_run (cron zone : string) : M Z :=
  t ← ask_out now;
  match cron_next cron (if valid_zone zone then zone else "UTC") t with
  | Some next => mret next
  | None => raise BadCron
  end.

Definition valid_mode (m : string) : bool := str_in m ORCHESTRATION_MODES.

Definition add_schedule (account_id agent_name fn cron zone : string) (policy : pyval) (tier orchestration_mode mode : string)
    : M schedule :=
  a ← get_agent account_id agent_name;
  cfg ← get_tier_config tier;
  let min_seconds := _cron_min_interval_seconds cron in
  if min_seconds <? min_schedule_seconds cfg then
    forbidden ("Minimum schedule interval for " +:+ tier +:+ " is " +:+ str_of_Z (min_schedule_seconds cfg)
               +:+ "s; cron expression resolves to " +:+ str_of_Z min_seconds +:+ "s")
  else
    next ← _compute_next_run cron zone;
    if negb (valid_mode orchestration_mode) then raise (Service Security.ValueError)
    else
      id ← ask_out uuid4;
      let x := Schedule id (a_id a) fn cron zone policy true mode orchestration_mode None 0 None (Some next) in
      insert schedules set_schedules (same_id sc_id) x;;
      mret x.

(** The jobs and fires of a schedule go with it; its runs stay, and forget it. *)
Definition delete_schedule (id : string) : M unit :=
  set_schedules (List.filter (fun x => negb (String.eqb (sc_id x) id)));;
  set_jobs (List.filter (fun j => negb (String.eqb (jb_schedule_id j) id)));;
  set_fires (List.filter (fun x => negb (String.eqb (fr_schedule_id x) id)));;
  set_world (fun w => World (tables w) (states w) (channels w) (execution_log w) (map (forget_schedule (String.eqb id)) (runs w)) (events w) (out w)).

Definition remove_schedule (account_id agent_name schedule_id : string) : M unit :=
  a ← get_agent account_id agent_name;
  found ← one schedules (fun x => String.eqb (sc_id x) schedule_id && String.eqb (sc_agent_id x) (a_id a));
  match found with
  | None => not_found ("Schedule '" +:+ schedule_id +:+ "' not found")
  | Some x => delete_schedule (sc_id x)
  end.

Definition list_schedules (account_id agent_name : string) : M (list schedule) :=
  a ← get_agent account_id agent_name;
  s ← getS;
  mret (List.filter (fun x => String.eqb (sc_agent_id x) (a_id a)) (schedules s)).

(** The newest first. *)
Definition list_runs (account_id agent_id : string) (limit offset : nat) : M (list (agent_run * list tool_call) * Z) :=
  a ← get_agent_by_id account_id agent_id;
  s ← getS;
  let l := List.filter (fun r => String.eqb (run_agent_id r.1) (a_id a)) (runs (the_world s)) in
  mret (take limit (drop offset (rev l)), Z.of_nat (length l)).

(** ** Webhooks *)

Definition add_webhook (account_id agent_name path handler : string) (secret : option string) (orchestration_mode : string)
    : M webhook :=
  a ← get_agent account_id agent_name;
  existing ← one webhooks (fun x => String.eqb (wh_agent_id x) (a_id a) && String.eqb (wh_path x) path);
  match existing with
  | Some _ => conflict ("Webhook path '" +:+ path +:+ "' already exists for agent '" +:+ agent_name +:+ "'")
  | None =>
      let hash := if truthy_ostr secret then Some (sha256_hex (default "" secret)) else None in
      if negb (valid_mode orchestration_mode) then raise (Service Security.ValueError)
      else
        id ← ask_out uuid4;
        let x := Webhook id (a_id a) path handler hash orchestration_mode None true in
        insert webhooks set_webhooks same_webhook x;;
        mret x
  end.

Definition remove_webhook (account_id agent_name webhook_id : string) : M unit :=
  a ← get_agent account_id agent_name;
  found ← one webhooks (fun x => String.eqb (wh_id x) webhook_id && String.eqb (wh_agent_id x) (a_id a));
  match found with
  | None => not_found ("Webhook '" +:+ webhook_id +:+ "' not found")
  | Some x => set_webhooks (List.filter (fun y => negb (String.eqb (wh_id y) (wh_id x))))
  end.

Definition list_webhooks (account_id agent_name : string) : M (list webhook) :=
  a ← get_agent account_id agent_name;
  s ← getS;
  mret (List.filter (fun x => String.eqb (wh_agent_id x) (a_id a)) (webhooks s)).

(** The join of webhooks and agents of that name, whatever the account. *)
Definition resolve_webhook (agent_name path : string) : M (option webhook) := fun s =>
  one webhooks (fun x => existsb (fun a => String.eqb (a_id a) (wh_agent_id x) && String.eqb (a_name a) agent_name) (records s)
                         && String.eqb (wh_path x) path && wh_enabled x) s.

(** ** The AI engine *)

Definition with_row (a : agent_record) (r : agent_row) : agent_record :=
  AgentRecord r (display_name a) (agent_status a) (container_id a) (memory_mb a) (cpu_tenths a) (enabled a) (mcp_servers a)
    (target_replicas a) (chat_token a) (heartbeat_enabled a) (heartbeat_interval a) (heartbeat_next_at a) (cloned_from_id a)
    (created_at a).

Definition engine_urls : list (string * string) :=
  [("openrouter", "https://openrouter.ai/api/v1/models"); ("openai", "https://api.openai.com/v1/models");
   ("anthropic", "https://api.anthropic.com/v1/models")].

(** Engines without an entry are not tested; a failure of the network counts as
    a success. *)
Definition _validate_api_key (engine api_key : string) : M unit :=
  match dict_get engine engine_urls with
  | None => mret tt
  | Some url =>
      let headers := if String.eqb engine "anthropic" then [("x-api-key", api_key); ("anthropic-version", "2023-06-01")]
                     else [("Authorization", "Bearer " +:+ api_key)] in
      status ← on_host (fun h => let '(r, h') := probe url headers h in (Ok r, h'));
      if decide (status = Some 401) then
        raise (BadValue ("API key validation failed: " +:+ engine +:+ " returned 401 Unauthorized. "
          +:+ "The key is invalid or expired. The previous key has NOT been overwritten."))
      else if decide (status = Some 403) then
        raise (BadValue ("API key validation failed: " +:+ engine +:+ " returned 403 Forbidden. "
          +:+ "The key may lack required permissions."))
      else mret tt
  end.

(** The columns of the AI engine: [None] for an argument that was not given. *)
Definition with_engine (r : agent_row) (engine model : string) (key : option (string * string))
    (prompt channel : option (option string)) : agent_row :=
  AgentRow (ar_id r) (ar_account_id r) (ar_namespace_id r) (ar_name r) (Some engine) (Some model)
    (match key with Some k => Some k | None => ai_api_key r end)
    (default (system_prompt r) prompt) (default (auto_channel r) channel)
    (orchestration_limits r) (tool_tier r) (scheduled_tool_tier r).

(** The columns are assigned one after the other, and the validator of the last
    one raises with the others in the session. *)
Definition configure_ai (account_id agent_name engine model : string) (api_key : option string)
    (prompt channel : option (option string)) : M agent_record :=
  a ← get_agent account_id agent_name;
  key ← (if truthy_ostr api_key then
           _validate_api_key engine (default "" api_key);;
           r ← ask_out random_bytes;
           k ← on_state (k ← kek b64decode kek_b64; lift_crypto (encrypt_value r (PStr (default "" api_key)) k));
           mret (Some k)
         else mret None : M (option (string * string)));
  let bad := match channel with Some (Some c) => if str_in c CHANNEL_TYPES then None else Some c | _ => None end in
  match bad with
  | Some c =>
      put_record (with_row a (with_engine (row a) engine model key prompt None));;
      raise (BadValue ("Invalid auto_channel type: " +:+ c))
  | None =>
      let a := with_row a (with_engine (row a) engine model key prompt channel) in
      put_record a;;
      _trigger_rolling_restart_if_clustered a;;
      mret a
  end.

Definition without_engine (r : agent_row) : agent_row :=
  AgentRow (ar_id r) (ar_account_id r) (ar_namespace_id r) (ar_name r) None None None None (auto_channel r)
    (orchestration_limits r) (tool_tier r) (scheduled_tool_tier r).

Definition remove_ai (account_id agent_name : string) : M agent_record :=
  a ← get_agent account_id agent_name;
  let a := with_row a (without_engine (row a)) in
  put_record a;;
  mret a.

(** ** Chat tokens *)

Definition with_chat_token (a : agent_record) (t : option string) : agent_record :=
  AgentRecord (row a) (display_name a) (agent_status a) (container_id a) (memory_mb a) (cpu_tenths a) (enabled a) (mcp_servers a)
    (target_replicas a) t (heartbeat_enabled a) (heartbeat_interval a) (heartbeat_next_at a) (cloned_from_id a) (created_at a).

(** [base64.urlsafe_b64encode(token_bytes(32)).rstrip(b"=")] is what
    [token_urlsafe] gives; the index [ix_agents_chat_token] is unique. *)
Definition generate_chat_token (account_id agent_name : string) : M string :=
  a ← get_agent account_id agent_name;
  token ← ask_out token_urlsafe;
  s ← getS;
  if existsb (fun x => negb (String.eqb (a_id x) (a_id a)) && bool_decide (chat_token x = Some token)) (records s)
  then raise (Service DBAPIError)
  else put_record (with_chat_token a (Some token));; mret token.

Definition revoke_chat_token (account_id agent_name : string) : M unit :=
  a ← get_agent account_id agent_name;
  put_record (with_chat_token a None).

Definition resolve_agent_by_chat_token (token : string) : M (option agent_record) :=
  one records (fun a => bool_decide (chat_token a = Some token)).

(** ** Channels *)

Definition is_channel (agent_id kind : string) (c : channel) : bool :=
  String.eqb (ch_agent_id c) agent_id && String.eqb (ch_type c) kind.
Definition channel_rows (s : fleet) : list channel := channels (the_world s).

Definition add_channel (account_id agent_name kind : string) (config : pyval) : M channel :=
  a ← get_agent account_id agent_name;
  existing ← one channel_rows (is_channel (a_id a) kind);
  match existing with
  | Some _ => conflict ("Channel type '" +:+ kind +:+ "' already configured for agent '" +:+ agent_name +:+ "'")
  | None =>
      r ← ask_out random_bytes;
      ct ← on_state (k ← kek b64decode kek_b64; lift_crypto (encrypt_value r config k));
      if negb (str_in kind CHANNEL_TYPES) then raise (Service Security.ValueError)
      else
        let c := Channel (a_id a) kind ct.1 ct.2 true in
        set_world (fun w => set_channel_rows (channels w ++ [c]) w);;
        mret c
  end.

Definition remove_channel (account_id agent_name kind : string) : M unit :=
  a ← get_agent account_id agent_name;
  found ← one channel_rows (is_channel (a_id a) kind);
  match found with
  | None => not_found ("Channel type '" +:+ kind +:+ "' not found")
  | Some _ => set_world (fun w => set_channel_rows (List.filter (fun c => negb (is_channel (a_id a) kind c)) (channels w)) w)
  end.

(** ** MCP servers of an agent *)

Definition with_servers (a : agent_record) (l : option (list (string * pyval))) : agent_record :=
  AgentRecord (row a) (display_name a) (agent_status a) (container_id a) (memory_mb a) (cpu_tenths a) (enabled a) l
    (target_replicas a) (chat_token a) (heartbeat_enabled a) (heartbeat_interval a) (heartbeat_next_at a) (cloned_from_id a)
    (created_at a).

Definition configure_mcp_servers (account_id agent_name : string) (servers : list (string * pyval)) : M agent_record :=
  a ← get_agent account_id agent_name;
  let a := with_servers a (match servers with [] => None | _ => Some servers end) in
  put_record a;;
  mret a.

Definition get_mcp_servers (account_id agent_name : string) : M (option (list (string * pyval))) :=
  a ← get_agent account_id agent_name;
  mret (mcp_servers a).

Definition remove_mcp_servers (account_id agent_name : string) : M agent_record :=
  a ← get_agent account_id agent_name;
  put_record (with_servers a None);;
  mret (with_servers a None).

(** ** Clones *)

(** The rows of the source, with fresh identifiers for the schedules; a schedule
    is off, in the mode [single], and without its next time. *)
Fixpoint clone_schedules (agent_id : string) (l : list schedule) : M unit :=
  match l with
  | [] => mret tt
  | x :: l' =>
      id ← ask_out uuid4;
      insert schedules set_schedules (same_id sc_id)
        (Schedule id agent_id (function_name x) (cron_expression x) (timezone x) (failure_policy x) false "single"
           (sc_orchestration_mode x) None 0 None None);;
      clone_schedules agent_id l'
  end.

Definition clone_entries (source_id agent_id : string) (t : st) : st :=
  St (agents t)
    (entries t ++ map (fun e => StateEntry agent_id (e_key e) (value_encrypted e) (value_dek_encrypted e) (size_bytes e))
                    (List.filter (fun e => String.eqb (e_agent_id e) source_id) (entries t)))
    (kek_cache t).

Definition clone_channels (source_id agent_id : string) (l : list channel) : list channel :=
  l ++ map (fun c => Channel agent_id (ch_type c) (ch_config_encrypted c) (ch_config_dek_encrypted c) (ch_enabled c))
         (List.filter (fun c => String.eqb (ch_agent_id c) source_id) l).

Definition clone_spec (a : agent_record) : container_spec :=
  ContainerSpec AGENT_IMAGE (AGENT_CONTAINER_PREFIX +:+ a_name a) AGENT_NETWORK_NAME (memory_mb a) (cpu_tenths a * 100000000)
    [("AGENT_NAME", a_name a); ("AGENT_ID", a_id a); ("MCPWORKS_API_URL", "http://mcpworks-api:8000")].

Definition cloned_row (id account_id namespace_id name : string) (r : agent_row) : agent_row :=
  AgentRow id account_id namespace_id name (ai_engine r) (ai_model r) (ai_api_key r) (system_prompt r) (auto_channel r) None
    "standard" "execute_only".

(** The rows of the source, copied for the clone. *)
Definition clone_rows (source_id agent_id : string) (l : list schedule) : M unit :=
  set_world (fun w => set_state_tables (clone_entries source_id agent_id (states w)) w);;
  clone_schedules agent_id l;;
  set_world (fun w => set_channel_rows (clone_channels source_id agent_id (channels w)) w).

Definition clone_agent (account_id source_name new_name tier : string) : M agent_record :=
  cfg ← get_tier_config tier;
  current_count ← get_agent_count account_id;
  if max_agents cfg <=? current_count then
    conflict ("Agent slot limit reached (" +:+ str_of_Z (max_agents cfg) +:+ " for " +:+ tier +:+ ")")
  else
    existing ← one records (named account_id new_name);
    match existing with
    | Some _ => conflict ("Agent '" +:+ new_name +:+ "' already exists")
    | None =>
        source ← get_agent account_id source_name;
        s ← getS;
        n ← new_namespace account_id new_name;
        id ← ask_out uuid4;
        t ← ask_out now;
        let a := AgentRecord (cloned_row id account_id (n_id n) new_name (row source)) (display_name source) "creating" None
                   (memory_limit_mb cfg) (cpu_limit_tenths cfg) true (mcp_servers source) 1 None false None None
                   (Some (a_id source)) t in
        add_agent a;;
        clone_rows (a_id source) id (List.filter (fun x => String.eqb (sc_agent_id x) (a_id source)) (schedules s));;
        docker_try (_ensure_network;; (container_run (clone_spec a) : stm host docker_error string))
          (fun c => put_record (with_container a "running" (Some c));; mret (with_container a "running" (Some c)))
          (put_record (with_container a "error" None);; mret (with_container a "error" None))
    end.
End service.

(** ** Requests *)

Section requests.
Context `{Outside} `{Host}.

(** The database and the world, when the request is rolled back: what Docker and
    the world outside did stays done. *)
Definition rolled_back (s s' : fleet) : fleet :=
  let w := the_world s in let w' := the_world s' in
  Fleet (World (tables w) (St (agents (states w)) (entries (states w)) (kek_cache (states w'))) (channels w) (execution_log w)
           (runs w) (events w) (out w'))
    (records s) (replicas s) (schedules s) (webhooks s) (jobs s) (fires s) (the_host s').

(** [get_db]: committed at the end, or rolled back with the exception. *)
Definition transaction {A} (m : stm fleet exn A) : stm fleet exn A := fun s =>
  match m s with
  | (Ok a, s') => (Ok a, s')
  | (Err e, s') => (Err e, rolled_back s s')
  end.
End requests.

(** ** The invariant of the tables *)

(** The tables that the invariant speaks of. *)
Record db := Db {
  d_namespaces : list namespace;
  d_agents : list agent_record;
  d_replicas : list replica;
  d_schedules : list schedule;
  d_webhooks : list webhook;
  d_channels : list channel;
  d_state_agents : list AgentState.agent;
  d_entries : list state_entry;
  d_jobs : list job;
  d_fires : list schedule_fire;
  d_runs : list (agent_run * list tool_call);
  d_log : list execution_row
}.

Definition core (a : agent_record) : string * string * string * string := (a_id a, a_account a, a_name a, a_namespace a).
(** What of an agent the life cycle leaves alone. *)
Definition ident (a : agent_record) : (string * string * string * string) * option string * option string :=
  (core a, chat_token a, auto_channel (row a)).
Definition rkey (r : replica) : string * string * string := (rp_id r, rp_agent_id r, replica_name r).
Definition place (r : replica) : string * string := (rp_agent_id r, replica_name r).
Definition address (x : webhook) : string * string := (wh_agent_id x, wh_path x).
Definition channel_key (c : channel) : string * string := (ch_agent_id c, ch_type c).

(** The namespace of an agent has its name and its account. *)
Definition homed (l : list namespace) (a : agent_record) : Prop :=
  exists n, n ∈ l /\ n_id n = a_namespace a /\ n_name n = a_name a /\ n_account_id n = a_account a.

(** The agent of a run, and its schedule if it names one, are in the tables. *)
Definition run_ok (agents schedules : list string) (r : agent_run * list tool_call) : Prop :=
  run_agent_id r.1 ∈ agents /\ forall x, run_schedule_id r.1 = Some x -> x ∈ schedules.

Record wf (d : db) : Prop := {
  wf_ns_ids : NoDup (map n_id (d_namespaces d));
  wf_ns_names : NoDup (map n_name (d_namespaces d));
  wf_ids : NoDup (map a_id (d_agents d));
  wf_names : NoDup (map a_name (d_agents d));
  wf_homes : Forall (homed (d_namespaces d)) (d_agents d);
  wf_valid : Forall (fun a => valid_agent a = true) (d_agents d);
  wf_tokens : forall a b t, a ∈ d_agents d -> b ∈ d_agents d -> chat_token a = Some t -> chat_token b = Some t -> a_id a = a_id b;
  wf_state_agents : d_state_agents d = map state_agent (d_agents d);
  wf_replica_ids : NoDup (map rp_id (d_replicas d));
  wf_places : NoDup (map place (d_replicas d));
  wf_replicas : Forall (fun r => rp_agent_id r ∈ map a_id (d_agents d) /\ rp_status r ∈ REPLICA_STATUSES) (d_replicas d);
  wf_schedule_ids : NoDup (map sc_id (d_schedules d));
  wf_schedules : Forall (fun x => sc_agent_id x ∈ map a_id (d_agents d) /\ sc_orchestration_mode x ∈ ORCHESTRATION_MODES) (d_schedules d);
  wf_webhook_ids : NoDup (map wh_id (d_webhooks d));
  wf_addresses : NoDup (map address (d_webhooks d));
  wf_webhooks : Forall (fun x => wh_agent_id x ∈ map a_id (d_agents d) /\ wh_orchestration_mode x ∈ ORCHESTRATION_MODES) (d_webhooks d);
  wf_channel_keys : NoDup (map channel_key (d_channels d));
  wf_channels : Forall (fun c => ch_agent_id c ∈ map a_id (d_agents d) /\ ch_type c ∈ CHANNEL_TYPES) (d_channels d);
  wf_entry_keys : unique_entries (d_entries d);
  wf_entries : Forall (fun e => e_agent_id e ∈ map a_id (d_agents d)) (d_entries d);
  wf_jobs : Forall (fun j => jb_agent_id j ∈ map a_id (d_agents d) /\ jb_schedule_id j ∈ map sc_id (d_schedules d)) (d_jobs d);
  wf_fires : Forall (fun x => fr_agent_id x ∈ map a_id (d_agents d) /\ fr_schedule_id x ∈ map sc_id (d_schedules d)) (d_fires d);
  wf_runs : Forall (run_ok (map a_id (d_agents d)) (map sc_id (d_schedules d))) (d_runs d)
}.

(** *** Rows *)

Lemma map_put {A B} (f : A -> B) (key : A -> string) (x : A) l :
  (forall y, y ∈ l -> key y = key x -> f y = f x) -> map f (put key x l) = map f l.
Proof.
  intros Hf. unfold put. rewrite map_map. apply map_ext_in. intros y Hy%list_elem_of_In.
  destruct (String.eqb_spec (key y) (key x)); [by rewrite (Hf y)|done].
Qed.

Lemma Forall_put {A} (P : A -> Prop) (key : A -> string) (x : A) l : P x -> Forall P l -> Forall P (put key x l).
Proof.
  intros Hx Hl. unfold put. apply Forall_fmap. unfold compose. eapply Forall_impl; [exact Hl|].
  intros y Hy. cbn. by destruct (String.eqb _ _).
Qed.

Lemma put_elem {A} (key : A -> string) (x y : A) l : y ∈ put key x l -> y = x \/ y ∈ l /\ key y <> key x.
Proof.
  unfold put. intros (z & -> & Hz)%list_elem_of_fmap. destruct (String.eqb_spec (key z) (key x)); [by left|by right].
Qed.

(** The attributes [f] of a row, unique by its key, are those of the row that
    takes its place. *)
Lemma same_attributes {A B} (f : A -> B) (key : A -> string) (x : A) l :
  NoDup (map key l) -> (forall y, f y = f x -> key y = key x) -> f x ∈ map f l -> forall y, y ∈ l -> key y = key x -> f y = f x.
Proof.
  intros Hnd Hk Hx y Hy Hkey. apply list_elem_of_In, in_map_iff in Hx as (z & Hz & Hin%list_elem_of_In).
  rewrite (NoDup_map_inj key l y z) by (done || by rewrite Hkey, (Hk z Hz)). done.
Qed.

Lemma NoDup_map_snoc {A B} (f : A -> B) l x : NoDup (map f l) -> f x ∉ map f l -> NoDup (map f (l ++ [x])).
Proof.
  intros Hl Hx. rewrite map_app. apply NoDup_app. split; [done|]. split; [|apply NoDup_singleton].
  intros y Hy ->%list_elem_of_singleton. done.
Qed.

Lemma existsb_fresh {A B} (p : A -> bool) (f : A -> B) (b : B) l :
  existsb p l = false -> (forall y, f y = b -> p y = true) -> b ∉ map f l.
Proof.
  intros Hp Hf (y & <- & Hy)%list_elem_of_In%in_map_iff. apply not_true_iff_false in Hp. apply Hp, existsb_exists.
  exists y. split; [done|by apply Hf].
Qed.

Lemma Forall_filter_both {A} (P Q : A -> Prop) p (l : list A) :
  Forall P l -> (forall x, x ∈ l -> P x -> p x = true -> Q x) -> Forall Q (List.filter p l).
Proof.
  rewrite !Forall_forall. intros HP H x [Hx Hp]%list_elem_of_In%filter_In. apply list_elem_of_In in Hx. by apply H; [|apply HP|].
Qed.

Section state.
Context `{Outside} `{Host}.

Definition db_of (s : fleet) : db :=
  Db (namespaces (ns (base (tables (the_world s))))) (records s) (replicas s) (schedules s) (webhooks s) (channels (the_world s))
    (agents (states (the_world s))) (entries (states (the_world s))) (jobs s) (fires s) (runs (the_world s)) (execution_log (the_world s)).

Lemma rolled_back_db s s' : db_of (rolled_back s s') = db_of s.
Proof. reflexivity. Qed.
End state.

(** *** One table changed *)

Lemma wf_set_replicas d l : wf d ->
  NoDup (map rp_id l) -> NoDup (map place l) ->
  Forall (fun r => rp_agent_id r ∈ map a_id (d_agents d) /\ rp_status r ∈ REPLICA_STATUSES) l ->
  wf (Db (d_namespaces d) (d_agents d) l (d_schedules d) (d_webhooks d) (d_channels d) (d_state_agents d) (d_entries d) (d_jobs d) (d_fires d) (d_runs d) (d_log d)).
Proof. intros [] ???. by split. Qed.

Lemma wf_set_webhooks d l : wf d ->
  NoDup (map wh_id l) -> NoDup (map address l) ->
  Forall (fun x => wh_agent_id x ∈ map a_id (d_agents d) /\ wh_orchestration_mode x ∈ ORCHESTRATION_MODES) l ->
  wf (Db (d_namespaces d) (d_agents d) (d_replicas d) (d_schedules d) l (d_channels d) (d_state_agents d) (d_entries d) (d_jobs d) (d_fires d) (d_runs d) (d_log d)).
Proof. intros [] ???. by split. Qed.

Lemma wf_set_channels d l : wf d ->
  NoDup (map channel_key l) -> Forall (fun c => ch_agent_id c ∈ map a_id (d_agents d) /\ ch_type c ∈ CHANNEL_TYPES) l ->
  wf (Db (d_namespaces d) (d_agents d) (d_replicas d) (d_schedules d) (d_webhooks d) l (d_state_agents d) (d_entries d) (d_jobs d) (d_fires d) (d_runs d) (d_log d)).
Proof. intros [] ??. by split. Qed.

Lemma wf_set_entries d l : wf d ->
  unique_entries l -> Forall (fun e => e_agent_id e ∈ map a_id (d_agents d)) l ->
  wf (Db (d_namespaces d) (d_agents d) (d_replicas d) (d_schedules d) (d_webhooks d) (d_channels d) (d_state_agents d) l (d_jobs d) (d_fires d) (d_runs d) (d_log d)).
Proof. intros [] ??. by split. Qed.

Definition job_ok (agents schedules : list string) (j : job) : Prop := jb_agent_id j ∈ agents /\ jb_schedule_id j ∈ schedules.
Definition fire_ok (agents schedules : list string) (x : schedule_fire) : Prop := fr_agent_id x ∈ agents /\ fr_schedule_id x ∈ schedules.

Lemma wf_set_schedules d l js fs rs : wf d ->
  NoDup (map sc_id l) -> Forall (fun x => sc_agent_id x ∈ map a_id (d_agents d) /\ sc_orchestration_mode x ∈ ORCHESTRATION_MODES) l ->
  Forall (job_ok (map a_id (d_agents d)) (map sc_id l)) js -> Forall (fire_ok (map a_id (d_agents d)) (map sc_id l)) fs ->
  Forall (run_ok (map a_id (d_agents d)) (map sc_id l)) rs ->
  wf (Db (d_namespaces d) (d_agents d) (d_replicas d) l (d_webhooks d) (d_channels d) (d_state_agents d) (d_entries d) js fs rs (d_log d)).
Proof. intros [] ?????. by split. Qed.

Lemma valid_agent_core a b : core a = core b -> agent_status b ∈ AGENT_STATUSES ->
  match auto_channel (row b) with Some c => c ∈ CHANNEL_TYPES | None => True end -> valid_agent a = true -> valid_agent b = true.
Proof.
  unfold valid_agent. intros [= _ _ -> _] Hs Hc Ha. repeat (apply andb_true_iff in Ha as [Ha ?]).
  rewrite Ha. repeat match goal with E : _ = true |- _ => rewrite E end. cbn.
  rewrite (bool_decide_true _ Hs : str_in _ _ = true). cbn. destruct (auto_channel (row b)); [|done].
  by apply bool_decide_true.
Qed.

(** The row of an agent in the place of one with the same identity. *)
Lemma wf_put_agent d a : wf d -> core a ∈ map core (d_agents d) ->
  agent_status a ∈ AGENT_STATUSES -> match auto_channel (row a) with Some c => c ∈ CHANNEL_TYPES | None => True end ->
  (forall b t, b ∈ d_agents d -> chat_token a = Some t -> chat_token b = Some t -> a_id b = a_id a) ->
  let d' := Db (d_namespaces d) (put a_id a (d_agents d)) (d_replicas d) (d_schedules d) (d_webhooks d) (d_channels d) (d_state_agents d)
              (d_entries d) (d_jobs d) (d_fires d) (d_runs d) (d_log d) in
  wf d' /\ map core (d_agents d') = map core (d_agents d).
Proof.
  intros Hwf Hin Hst Hch Htok d'. pose proof Hwf as [].
  assert (forall y, y ∈ d_agents d -> a_id y = a_id a -> core y = core a) as Hsame.
  { apply same_attributes; [done| |done]. by intros y [= ? ? ? ?]. }
  assert (forall B (f : agent_record -> B), (forall y, core y = core a -> f y = f a) -> map f (put a_id a (d_agents d)) = map f (d_agents d)) as Hmap.
  { intros B f Hf. apply map_put. intros y Hy Hid. by apply Hf, Hsame. }
  assert (map a_id (put a_id a (d_agents d)) = map a_id (d_agents d)) as Hids by (apply Hmap; by intros y [= ? ? ? ?]).
  split; [|by apply Hmap]. split; cbn; rewrite ?Hids; try done.
  - rewrite Hmap; [done|by intros y [= ? ? ? ?]].
  - apply Forall_put; [|done]. apply list_elem_of_In, in_map_iff in Hin as (y & Hy & Hin%list_elem_of_In).
    destruct (Forall_elem _ _ _ wf_homes0 Hin) as (n & Hn & ? & ? & ?). injection Hy as ? ? ? ?. exists n. repeat split; congruence.
  - apply Forall_put; [|done]. apply list_elem_of_In, in_map_iff in Hin as (y & Hy & Hin%list_elem_of_In).
    apply (valid_agent_core y); [done..|]. by apply (Forall_elem _ _ _ wf_valid0 Hin).
  - intros x y t [->|[Hx Hnx]]%put_elem [->|[Hy Hny]]%put_elem Ha Hb; [done| | |by eapply wf_tokens0].
    + symmetry. by eapply Htok.
    + by eapply Htok.
  - rewrite wf_state_agents0. symmetry. apply Hmap. unfold state_agent. by intros y [= -> -> -> _].
Qed.

(** ** Operations keep the invariant *)

Section rules.
Context `{Outside} `{Host}.

Abbreviation M := (stm fleet exn).
Abbreviation D := (stm host docker_error).

(** [m] keeps [P], unless it raises: then the request is rolled back. *)
Definition stays {A} (P : db -> Prop) (m : M A) : Prop :=
  triple (fun s => P (db_of s)) m (fun _ s => P (db_of s)) (fun _ _ => True).

Lemma stays_ret {A} P (a : A) : stays P (mret a).
Proof. by apply triple_ret. Qed.
Lemma stays_raise {A} P e : stays P (raise e : M A).
Proof. by apply triple_raise. Qed.
Lemma stays_bind {A B} P (m : M A) (f : A -> M B) : stays P m -> (forall a, stays P (f a)) -> stays P (m ≫= f).
Proof. intros Hm Hf. by eapply triple_bind. Qed.
Lemma stays_get P : stays P getS.
Proof. by intros s Hs. Qed.
Lemma stays_read {A} P (g : fleet -> A) : stays P (fun s => (Ok (g s), s)).
Proof. by intros s Hs. Qed.
Lemma stays_host {A} P (m : D A) : stays P (on_host m).
Proof. intros s Hs. unfold on_host. by destruct (m (the_host s)) as [[a|e] h]. Qed.
Lemma host_db {A} (m : D A) s : db_of (on_host m s).2 = db_of s.
Proof. unfold on_host. by destruct (m (the_host s)). Qed.
Lemma stays_ask {A} P (f : outside -> A * outside) : stays P (ask_out f).
Proof. intros s Hs. unfold ask_out, in_world, ask. by destruct (f (out (the_world s))). Qed.
Lemma stays_docker_try {A B} P (m : D A) (ok : A -> M B) k :
  (forall a, stays P (ok a)) -> stays P k -> stays P (docker_try m ok k).
Proof.
  intros Hok Hk s Hs. unfold docker_try. pose proof (stays_host P m s Hs) as Hm. revert Hm. unfold on_host.
  destruct (m (the_host s)) as [[a|e] h]; intros Hm; [by apply Hok|].
  destruct e; [by apply Hk|by apply Hk|done].
Qed.
Lemma stays_one {A} P (rows : fleet -> list A) p : stays P (one rows p).
Proof. intros s Hs. unfold one. by destruct (List.filter p (rows s)) as [|a [|b l]]. Qed.
Lemma stays_tier P tier : stays P (get_tier_config tier).
Proof. unfold get_tier_config. destruct (dict_get _ _); [apply stays_ret|apply stays_raise]. Qed.

(** What a row that was found satisfies. *)
Lemma one_triple {A} P (rows : fleet -> list A) p :
  triple (fun s => P (db_of s)) (one rows p)
    (fun o s => P (db_of s) /\ match o with Some a => a ∈ rows s /\ p a = true | None => forall a, a ∈ rows s -> p a = false end)
    (fun _ _ => True).
Proof.
  intros s Hs. unfold one. destruct (List.filter p (rows s)) as [|a [|b l]] eqn:E; [|split; [done|]|done].
  - split; [done|]. intros a Ha. apply not_true_iff_false. intros Hp.
    assert (In a (List.filter p (rows s))) as Hin by (apply filter_In; split; [by apply list_elem_of_In|done]). by rewrite E in Hin.
  - assert (In a (List.filter p (rows s))) as [Ha Hp]%filter_In by (rewrite E; by left). split; [by apply list_elem_of_In|done].
Qed.

(** [insert]: the new row agrees with none that is there. *)
Lemma insert_triple {A} (P : db -> Prop) (Q : fleet -> Prop) (rows : fleet -> list A) set (same : A -> A -> bool) x :
  (forall s, P (db_of s) -> existsb (same x) (rows s) = false -> match set (fun l => l ++ [x]) s with (Ok _, s') => Q s' | (Err _, _) => True end) ->
  triple (fun s => P (db_of s)) (insert rows set same x) (fun _ s => Q s) (fun _ _ => True).
Proof.
  intros HQ s Hs. unfold insert, mbind, stm_bind, getS. destruct (existsb (same x) (rows s)) eqn:E; [done|].
  specialize (HQ s Hs E). by destruct (set _ s) as [[a|e] s'].
Qed.

(** *** The replicas of an agent *)

(** The invariant, with the identities of the agents and of the replicas. *)
Definition inv (A : list ((string * string * string * string) * option string * option string)) (K : list (string * string * string)) (d : db) : Prop :=
  wf d /\ map ident (d_agents d) = A /\ map rkey (d_replicas d) = K.
Definition invA (A : list ((string * string * string * string) * option string * option string)) (d : db) : Prop := wf d /\ map ident (d_agents d) = A.

Lemma invA_of_inv {B} A (m : M B) :
  (forall K, triple (fun s => inv A K (db_of s)) m (fun _ s => invA A (db_of s)) (fun _ _ => True)) -> stays (invA A) m.
Proof. intros Hm s [Hw HA]. by apply (Hm (map rkey (d_replicas (db_of s))) s). Qed.

Lemma inv_weaken {B} A K (m : M B) : stays (inv A K) m ->
  triple (fun s => inv A K (db_of s)) m (fun _ s => invA A (db_of s)) (fun _ _ => True).
Proof. intros Hm. eapply triple_post; [exact Hm| |done]. by intros ? s (? & ? & _). Qed.

Lemma put_replica_stays A K r : rkey r ∈ K -> rp_status r ∈ REPLICA_STATUSES -> stays (inv A K) (put_replica r).
Proof.
  intros Hr Hs s (Hw & HA & HK). pose proof Hw as []. cbn in *.
  assert (forall y, y ∈ replicas s -> rp_id y = rp_id r -> rkey y = rkey r) as Hsame.
  { apply same_attributes; [done|by intros y [= ? ? ?]|by rewrite HK]. }
  assert (forall B (f : replica -> B), (forall y, rkey y = rkey r -> f y = f r) -> map f (put rp_id r (replicas s)) = map f (replicas s)) as Hmap.
  { intros B f Hf. apply map_put. intros y Hy Hid. by apply Hf, Hsame. }
  split; [|split; [done|rewrite Hmap; done]]. apply (wf_set_replicas (db_of s) (put rp_id r (replicas s))); cbn; [done| | |].
  - rewrite Hmap; [done|by intros y [= ? ? ?]].
  - rewrite Hmap; [done|]. unfold place. by intros y [= _ -> ->].
  - apply Forall_put; [|done]. split; [|done]. rewrite <-HK in Hr.
    apply list_elem_of_In, in_map_iff in Hr as (y & [= _ Hag _] & Hin%list_elem_of_In). rewrite <-Hag.
    by apply (Forall_elem _ _ _ wf_replicas0 Hin).
Qed.

Lemma run_container_stays A K a r n : rkey r ∈ K -> stays (inv A K) (_run_replica_container a r n).
Proof.
  intros Hr. unfold _run_replica_container. apply stays_docker_try; intros; apply put_replica_stays; cbn; try done; set_solver.
Qed.

Lemma stop_container_stays P r : stays P (_stop_replica_container r).
Proof.
  unfold _stop_replica_container. destruct (rp_container_id r) as [c|]; [|apply stays_ret].
  destruct (negb _); [apply stays_ret|]. apply stays_docker_try; intros; apply stays_ret.
Qed.

Lemma remove_container_stays P r : stays P (_remove_replica_container r).
Proof.
  unfold _remove_replica_container. destruct (rp_container_id r) as [c|]; [|apply stays_ret].
  destruct (negb _); [apply stays_ret|]. apply stays_docker_try; intros; apply stays_ret.
Qed.

Lemma start_container_stays A K a r : rkey r ∈ K -> stays (inv A K) (_start_replica_container a r).
Proof.
  intros Hr s Hs. unfold _start_replica_container. destruct (rp_container_id r) as [c|]; [|by apply run_container_stays].
  destruct (truthy_str c); [|by apply run_container_stays].
  match goal with |- context [on_host ?m s] => pose proof (host_db m s) as Hdb; destruct (on_host m s) as [[u|e] s'] end;
    cbn [snd] in Hdb; rewrite <-Hdb in Hs.
  - apply (put_replica_stays A K (with_replica r (Some c) "running")); cbn; [done|set_solver|done].
  - destruct e as [| | | | |[]| | |]; try done.
    + by apply run_container_stays.
    + apply (put_replica_stays A K (with_replica r (Some c) "error")); cbn; [done|set_solver|done].
Qed.

Lemma start_replicas_stays A K a l : Forall (fun r => rkey r ∈ K) l -> stays (inv A K) (start_replicas a l).
Proof.
  induction 1 as [|r l Hr _ IH]; [apply stays_ret|]. cbn. apply stays_bind; [|intros; apply IH].
  destruct (startable r); [by apply start_container_stays|apply stays_ret].
Qed.

Lemma stop_one_stays A K r : rkey r ∈ K -> stays (inv A K) (stop_one r).
Proof.
  intros Hr. apply stays_bind; [apply stop_container_stays|intros]. apply put_replica_stays; cbn; [done|set_solver].
Qed.

Lemma stop_replicas_stays A K l : Forall (fun r => rkey r ∈ K) l -> stays (inv A K) (stop_replicas l).
Proof.
  induction 1 as [|r l Hr _ IH]; [apply stays_ret|]. cbn. apply stays_bind; [|intros; apply IH].
  destruct (is_running r); [by apply stop_one_stays|apply stays_ret].
Qed.

Lemma restart_replicas_stays A K l : Forall (fun r => rkey r ∈ K) l -> stays (inv A K) (restart_replicas l).
Proof.
  induction 1 as [|r l Hr _ IH]; [apply stays_ret|]. cbn. apply stays_bind; [|intros; apply IH].
  destruct (rp_container_id r) as [c|]; [|apply stays_ret]. destruct (truthy_str c); [|apply stays_ret].
  apply stays_docker_try; intros; apply put_replica_stays; cbn; try done; set_solver.
Qed.

Lemma elem_of_replicas_of id s r : r ∈ replicas_of id s <-> r ∈ replicas s /\ rp_agent_id r = id.
Proof. unfold replicas_of. rewrite order_by_perm, elem_of_filter_bool. unfold of_agent. by rewrite String.eqb_eq. Qed.

Lemma replicas_of_known A K id s : inv A K (db_of s) -> Forall (fun r => rkey r ∈ K) (replicas_of id s).
Proof.
  intros (_ & _ & <-). apply Forall_forall. intros r [Hr _]%elem_of_replicas_of. apply list_elem_of_In, in_map, list_elem_of_In, Hr.
Qed.

(** The replicas that are read are there. *)
Lemma get_replicas_triple A K id :
  triple (fun s => inv A K (db_of s)) (_get_replicas id)
    (fun l s => Forall (fun r => rkey r ∈ K) l /\ inv A K (db_of s)) (fun _ _ => True).
Proof. intros s Hs. split; [by eapply replicas_of_known|done]. Qed.

Lemma known_agent a l : ident a ∈ map ident l -> a_id a ∈ map a_id l.
Proof.
  intros (b & [= Hb _ _ _ _ _] & Hin)%list_elem_of_In%in_map_iff. rewrite <-Hb. apply list_elem_of_In, in_map, Hin.
Qed.

Lemma put_record_stays A K a : ident a ∈ A -> agent_status a ∈ AGENT_STATUSES -> stays (inv A K) (put_record a).
Proof.
  intros Ha Hst s (Hw & HA & HK). rewrite <-HA in Ha. pose proof Hw as []. cbn in *.
  apply list_elem_of_In, in_map_iff in Ha as (b & Hb & Hin%list_elem_of_In). injection Hb as Hb1 Hb2 Hb3 Hb4 Htk Hch.
  assert (core b = core a) as Hcore by (unfold core; congruence).
  assert (forall y, y ∈ records s -> a_id y = a_id a -> ident y = ident a) as Hsame.
  { intros y Hy Hid. rewrite (NoDup_map_inj a_id (records s) y b) by (done || congruence). unfold ident. congruence. }
  destruct (wf_put_agent (db_of s) a) as [Hw' _]; cbn; [done| |done| | |].
  - rewrite <-Hcore. apply list_elem_of_In, in_map, list_elem_of_In, Hin.
  - pose proof (Forall_elem _ _ _ wf_valid0 Hin) as Hv. unfold valid_agent in Hv. apply andb_true_iff in Hv as [_ Hv].
    rewrite <-Hch. destruct (auto_channel (row b)); [|done]. by apply bool_decide_eq_true in Hv.
  - intros y t Hy Hta Hty. rewrite <-Hb1. eapply wf_tokens0; [done..|]. congruence.
  - split; [exact Hw'|]. split; [|done]. cbn. rewrite map_put; [done|]. intros y Hy Hid. by apply Hsame.
Qed.

Lemma create_replica_stays A a : ident a ∈ A -> stays (invA A) (_create_replica a).
Proof.
  intros Ha. unfold _create_replica. apply stays_bind; [apply stays_read|intros l]. apply stays_bind; [apply stays_host|intros draws].
  destruct (generate_replica_name _ _ _ _) as [name|[m]]; [|apply stays_raise].
  apply stays_bind; [apply stays_ask|intros id]. apply stays_bind; [apply stays_ask|intros t].
  set (r := Replica id (a_id a) name None "creating" None t).
  eapply (triple_bind _ (fun _ s => invA A (db_of s) /\ rkey r ∈ map rkey (replicas s))).
  - apply insert_triple. intros s [Hw HA] Hfresh. pose proof Hw as []. cbn. split.
    2:{ rewrite map_app. apply elem_of_app. right. by apply list_elem_of_singleton. }
    split; [|done]. apply (wf_set_replicas (db_of s) (replicas s ++ [r])); [done| | |].
    + apply NoDup_map_snoc; [done|]. eapply (existsb_fresh (same_replica r)); [done|]. intros y Hy. unfold same_replica, same_id.
      rewrite Hy. cbn. by rewrite String.eqb_refl.
    + apply NoDup_map_snoc; [done|]. eapply (existsb_fresh (same_replica r)); [done|]. intros y [= Hy1 Hy2]. unfold same_replica.
      rewrite Hy1, Hy2. cbn. by rewrite !String.eqb_refl, orb_true_r.
    + apply Forall_app. split; [done|]. apply Forall_singleton. cbn. split; [|set_solver]. apply known_agent. cbn in HA. by rewrite HA.
  - intros ?. intros s [[Hw HA] Hr].
    assert (triple (fun s => inv A (map rkey (replicas s)) (db_of s) /\ rkey r ∈ map rkey (replicas s)) 
      (_run_replica_container a r (Z.of_nat (length (map replica_name l)) + 1);; mret r) (fun _ s => invA A (db_of s)) (fun _ _ => True)) as Hrun.
    { intros s0 [Hs0 Hr0]. eapply (triple_bind (fun s => inv A (map rkey (replicas s0)) (db_of s))); [by apply run_container_stays| |done].
      intros u. apply triple_ret. intros s1 (? & ? & _). done. }
    by apply Hrun.
Qed.

Lemma create_replicas_stays A a n : ident a ∈ A -> stays (invA A) (create_replicas n a).
Proof.
  intros Ha. induction n as [|n IH]; [apply stays_ret|]. cbn. apply stays_bind; [by apply create_replica_stays|intros; apply IH].
Qed.

Lemma delete_replica_stays A r : stays (invA A) (delete_replica r).
Proof.
  intros s [Hw HA]. pose proof Hw as []. cbn in *. split; [|done].
  assert (forall f, (forall j, jb_agent_id (f j) = jb_agent_id j /\ jb_schedule_id (f j) = jb_schedule_id j) ->
    Forall (job_ok (map a_id (records s)) (map sc_id (schedules s))) (map f (jobs s))) as Hjs.
  { intros f Hf. apply Forall_fmap. eapply Forall_impl; [exact wf_jobs0|]. intros j Hj. unfold compose, job_ok.
    by destruct (Hf j) as [-> ->]. }
  assert (wf (db_of (set_replicas (List.filter (fun x => negb (String.eqb (rp_id x) (rp_id r)))) s).2)) as Hw1.
  { apply (wf_set_replicas (db_of s)); [done|by apply NoDup_filter_map..|by eapply Forall_filter_both; [exact wf_replicas0|]]. }
  apply (wf_set_schedules _ (schedules s) _ (fires s) (runs (the_world s)) Hw1); try done. by apply Hjs.
Qed.

Lemma remove_replicas_stays A l : stays (invA A) (remove_replicas l).
Proof.
  induction l as [|r l IH]; [apply stays_ret|]. cbn. apply stays_bind; [apply stop_container_stays|intros].
  apply stays_bind; [apply remove_container_stays|intros]. apply stays_bind; [apply delete_replica_stays|intros; apply IH].
Qed.

Lemma remove_containers_stays P l : stays P (remove_containers l).
Proof. induction l as [|r l IH]; [apply stays_ret|]. cbn. apply stays_bind; [apply remove_container_stays|intros; apply IH]. Qed.
End rules.

Section operations.
Context `{Outside} `{Host}.

Abbreviation M := (stm fleet exn).

Lemma ident_in a s : a ∈ records s -> ident a ∈ map ident (records s).
Proof. intros Ha. apply list_elem_of_In, in_map, list_elem_of_In, Ha. Qed.

(** After the agent is found, its identity is one of the table. *)
Lemma get_agent_stays {B} acc name (k : agent_record -> M B) :
  (forall A a, ident a ∈ A -> agent_status a ∈ AGENT_STATUSES -> stays (invA A) (k a)) -> stays wf (get_agent acc name ≫= k).
Proof.
  intros Hk s Hs. unfold get_agent, mbind at 1, stm_bind at 1.
  pose proof (one_triple wf records (named acc name) s Hs) as Ho. unfold mbind, stm_bind in *.
  destruct (one records (named acc name) s) as [[[a|]|e] s']; [|done|done]. destruct Ho as (Hw & Ha & _).
  cbn [mret stm_ret]. assert (agent_status a ∈ AGENT_STATUSES) as Hst.
  { destruct Hw as []. pose proof (Forall_elem _ _ _ wf_valid0 Ha) as Hv. unfold valid_agent in Hv.
    unfold str_in in Hv. repeat (apply andb_true_iff in Hv as [Hv ?]). by eapply bool_decide_eq_true_1. }
  pose proof (Hk (map ident (records s')) a (ident_in a s' Ha) Hst s' (conj Hw eq_refl)) as K.
  destruct (k a s') as [[b|e] s'']; [by destruct K|done].
Qed.

Lemma stays_invA_wf {B} (m : M B) : (forall A, stays (invA A) m) -> stays wf m.
Proof. intros Hm s Hs. pose proof (Hm (map ident (records s)) s (conj Hs eq_refl)) as K. by destruct (m s) as [[b|e] s']; [destruct K|]. Qed.

Lemma update_status_stays A a : ident a ∈ A -> stays (invA A) (update_status a).
Proof.
  intros Ha. apply invA_of_inv. intros K. apply inv_weaken. unfold update_status.
  apply stays_bind; [apply stays_read|intros l]. apply stays_bind; [|intros; apply stays_ret].
  apply put_record_stays; [done|]. cbn. unfold _derive_agent_status.
  destruct l as [|r l]; [destruct (str_in (agent_status a) _) eqn:E; [apply bool_decide_eq_true in E|]; set_solver|].
  repeat match goal with |- context [if ?b then _ else _] => destruct b end; set_solver.
Qed.

Lemma put_record_staysA A a : ident a ∈ A -> agent_status a ∈ AGENT_STATUSES -> stays (invA A) (put_record a).
Proof. intros Ha Hs. apply invA_of_inv. intros K. by apply inv_weaken, put_record_stays. Qed.

(** A loop over the replicas that were read. *)
Lemma over_replicas_stays {B C} A id (f : list replica -> M B) (k : B -> M C) :
  (forall (K : list (string * string * string)) l, Forall (fun r => rkey r ∈ K) l -> stays (inv A K) (f l)) -> (forall b, stays (invA A) (k b)) ->
  stays (invA A) (l ← _get_replicas id; b ← f l; k b).
Proof.
  intros Hf Hk. apply invA_of_inv. intros K. eapply triple_bind; [apply get_replicas_triple|]. intros l. cbn beta.
  apply triple_pure. intros Hl. eapply triple_bind; [by apply Hf|]. intros b s (Hw & HA & _). by apply Hk.
Qed.

Lemma scale_stays acc name target tier : stays wf (scale_agent acc name target tier).
Proof.
  apply get_agent_stays. intros A a Ha Hst. apply stays_bind; [apply stays_tier|intros cfg].
  apply stays_bind; [apply stays_read|intros l]. apply stays_bind; [apply stays_read|intros total].
  cbn zeta. match goal with |- context [if ?b then _ else _] => destruct b end; [apply stays_raise|]. apply stays_bind; [by apply put_record_staysA|intros ?].
  apply stays_bind; [|intros ?; by apply update_status_stays].
  destruct (Z.of_nat (length l) <? target); [by apply create_replicas_stays|].
  destruct (target <? Z.of_nat (length l)); [apply remove_replicas_stays|apply stays_ret].
Qed.

Lemma found_known (p : replica -> bool) (K : list (string * string * string)) l r : Forall (fun r => rkey r ∈ K) l -> List.find p l = Some r -> rkey r ∈ K.
Proof. intros Hl [Hin _]%find_some. rewrite Forall_forall in Hl. by apply Hl, list_elem_of_In. Qed.

Lemma start_stays acc name r : stays wf (start_agent acc name r).
Proof.
  apply get_agent_stays. intros A a Ha Hst. apply over_replicas_stays; [|intros ?; by apply update_status_stays].
  intros K l Hl. destruct (truthy_ostr r); [|by apply start_replicas_stays].
  cbn zeta. match goal with |- context [List.find ?p l] => destruct (List.find p l) as [x|] eqn:E end; [|apply stays_raise].
  match goal with |- context [if ?b then _ else _] => destruct b end; [apply stays_raise|].
  eapply start_container_stays, found_known; done.
Qed.

Lemma stop_stays acc name r : stays wf (stop_agent acc name r).
Proof.
  apply get_agent_stays. intros A a Ha Hst. apply over_replicas_stays; [|intros ?; by apply update_status_stays].
  intros K l Hl. destruct (truthy_ostr r); [|by apply stop_replicas_stays].
  cbn zeta. match goal with |- context [List.find ?p l] => destruct (List.find p l) as [x|] eqn:E end; [|apply stays_raise].
  match goal with |- context [if ?b then _ else _] => destruct b end; [apply stays_raise|].
  eapply stop_one_stays, found_known; done.
Qed.

Lemma stays_invA_raise_ask {B C} A (f : outside -> B * outside) (k : B -> M C) :
  (forall b, stays (invA A) (k b)) -> stays (invA A) (b ← ask_out f; k b).
Proof. intros Hk. apply stays_bind; [apply stays_ask|done]. Qed.

(** A table extended by a row, or filtered. *)
Lemma add_schedule_stays acc name fn cron zone policy tier om mode :
  stays wf (add_schedule acc name fn cron zone policy tier om mode).
Proof.
  apply get_agent_stays. intros A a Ha Hst. apply stays_bind; [apply stays_tier|intros cfg].
  cbn zeta. match goal with |- context [if ?b then _ else _] => destruct b end; [apply stays_raise|]. apply stays_bind.
  { apply stays_bind; [apply stays_ask|intros t]. destruct (cron_next _ _ _); [apply stays_ret|apply stays_raise]. }
  intros next. destruct (negb (valid_mode om)) eqn:Hm; [apply stays_raise|]. apply stays_bind; [apply stays_ask|intros id].
  apply stays_bind; [|intros; apply stays_ret]. apply negb_false_iff, bool_decide_eq_true in Hm.
  set (x := Schedule _ _ _ _ _ _ _ _ _ _ _ _ _).
  apply (insert_triple (invA A) (fun s => invA A (db_of s))). intros s [Hw HA] Hfresh. cbn. split; [|done]. pose proof Hw as [].
  apply (wf_set_schedules (db_of s) (schedules s ++ [x])); cbn; [done| | | | |].
  - apply NoDup_map_snoc; [done|]. eapply (existsb_fresh (same_id sc_id x)); [done|]. intros y Hy. by apply String.eqb_eq.
  - apply Forall_app. split; [done|]. apply Forall_singleton. split; [|done]. apply known_agent. cbn in HA. by rewrite HA.
  - eapply Forall_impl; [exact wf_jobs0|]. intros j [? ?]. split; [done|]. rewrite map_app. set_solver.
  - eapply Forall_impl; [exact wf_fires0|]. intros j [? ?]. split; [done|]. rewrite map_app. set_solver.
  - eapply Forall_impl; [exact wf_runs0|]. intros j [? Hj]. split; [done|]. intros i Hi%Hj. rewrite map_app. set_solver.
Qed.

Lemma kept_schedule id x (l : list schedule) : x ∈ map sc_id l -> x <> id -> x ∈ map sc_id (List.filter (fun y => negb (String.eqb (sc_id y) id)) l).
Proof.
  intros (y & <- & Hy)%list_elem_of_In%in_map_iff Hne. apply list_elem_of_In, in_map, filter_In. split; [done|].
  by apply negb_true_iff, String.eqb_neq.
Qed.

(** A run that forgets the schedules that are gone. *)
Lemma run_forgets gone l l' A A' r : run_ok A l r -> (run_agent_id r.1 ∈ A -> run_agent_id r.1 ∈ A') ->
  (forall x, x ∈ l -> gone x = false -> x ∈ l') -> run_ok A' l' (forget_schedule gone r).
Proof.
  intros [Ha Hs] HA Hl. split; [by apply HA|]. intros x. cbn. unfold unless. destruct (run_schedule_id r.1) as [y|]; [|done].
  destruct (gone y) eqn:Hg; [done|]. intros [= <-]. by apply Hl; [apply Hs|].
Qed.

Lemma remove_schedule_stays acc name id : stays wf (remove_schedule acc name id).
Proof.
  apply get_agent_stays. intros A a Ha Hst. apply stays_bind; [apply stays_one|]. intros [x|]; [|apply stays_raise].
  intros s [Hw HA]. cbn. split; [|done]. pose proof Hw as []. eapply (wf_set_schedules (db_of s)); cbn; [done| | | | |].
  - by apply NoDup_filter_map.
  - by eapply Forall_filter_both; [exact wf_schedules0|].
  - eapply Forall_filter_both; [exact wf_jobs0|]. intros j _ [? ?] Hn%negb_true_iff%String.eqb_neq. split; [done|by apply kept_schedule].
  - eapply Forall_filter_both; [exact wf_fires0|]. intros j _ [? ?] Hn%negb_true_iff%String.eqb_neq. split; [done|by apply kept_schedule].
  - apply Forall_fmap. eapply Forall_impl; [exact wf_runs0|]. intros j Hj. apply (run_forgets _ (map sc_id (schedules s)) _ (map a_id (records s))); [done..|].
    intros i Hi Hg. apply kept_schedule; [done|]. intros ->. by rewrite String.eqb_refl in Hg.
Qed.

Context `{Crypto}.

Lemma add_webhook_stays acc name path handler secret om : stays wf (add_webhook acc name path handler secret om).
Proof.
  apply get_agent_stays. intros A a Ha Hst. apply stays_bind; [apply stays_one|]. intros [x|]; [apply stays_raise|].
  destruct (negb (valid_mode om)) eqn:Hm; [apply stays_raise|]. apply stays_bind; [apply stays_ask|intros id].
  apply stays_bind; [|intros; apply stays_ret]. apply negb_false_iff, bool_decide_eq_true in Hm. set (x := Webhook _ _ _ _ _ _ _ _).
  apply (insert_triple (invA A) (fun s => invA A (db_of s))). intros s [Hw HA] Hfresh. cbn. split; [|done]. pose proof Hw as [].
  apply (wf_set_webhooks (db_of s) (webhooks s ++ [x])); cbn; [done| | |].
  - apply NoDup_map_snoc; [done|]. eapply (existsb_fresh (same_webhook x)); [done|]. intros y Hy. unfold same_webhook, same_id. rewrite Hy.
    by rewrite String.eqb_refl.
  - apply NoDup_map_snoc; [done|]. eapply (existsb_fresh (same_webhook x)); [done|]. intros y [= Hy1 Hy2]. unfold same_webhook.
    rewrite Hy1, Hy2. cbn. by rewrite !String.eqb_refl, orb_true_r.
  - apply Forall_app. split; [done|]. apply Forall_singleton. split; [|done]. apply known_agent. cbn in HA. by rewrite HA.
Qed.

Lemma remove_webhook_stays acc name id : stays wf (remove_webhook acc name id).
Proof.
  apply get_agent_stays. intros A a Ha Hst. apply stays_bind; [apply stays_one|]. intros [x|]; [|apply stays_raise].
  intros s [Hw HA]. cbn. split; [|done]. pose proof Hw as []. eapply (wf_set_webhooks (db_of s)); cbn; [done| | |];
    [by apply NoDup_filter_map..|by eapply Forall_filter_both; [exact wf_webhooks0|]].
Qed.
End operations.

Section operations.
Context `{Outside} `{Host}.

Abbreviation M := (stm fleet exn).

(** A changed row of the agent that was found: another token or channel must be
    allowed. *)
Lemma put_record_wf A a b : ident a ∈ A -> core b = core a -> agent_status b ∈ AGENT_STATUSES ->
  match auto_channel (row b) with Some c => c ∈ CHANNEL_TYPES \/ auto_channel (row b) = auto_channel (row a) | None => True end ->
  chat_token b = None \/ chat_token b = chat_token a ->
  triple (fun s => invA A (db_of s)) (put_record b) (fun _ s => wf (db_of s)) (fun _ _ => True).
Proof.
  intros Ha Hcore Hst Hch Htok s [Hw HA]. rewrite <-HA in Ha. pose proof Hw as []. cbn in *.
  apply list_elem_of_In, in_map_iff in Ha as (x & Hx & Hin%list_elem_of_In). unfold ident in Hx.
  assert (core x = core a /\ chat_token x = chat_token a /\ auto_channel (row x) = auto_channel (row a)) as (Hc & Ht & Hau) by (repeat split; congruence).
  destruct (wf_put_agent (db_of s) b) as [Hw' _]; cbn; [done| |done| | |exact Hw'].
  - rewrite Hcore, <-Hc. apply list_elem_of_In, in_map, list_elem_of_In, Hin.
  - pose proof (Forall_elem _ _ _ wf_valid0 Hin) as Hv. unfold valid_agent in Hv. apply andb_true_iff in Hv as [_ Hv].
    destruct (auto_channel (row b)) as [c|] eqn:E; [|done]. destruct Hch as [?|Hch]; [done|]. rewrite Hau, <-Hch in Hv.
    by eapply bool_decide_eq_true_1.
  - intros y t Hy Hb Hyt. destruct Htok as [Hn|Heq]; [congruence|]. rewrite Heq, <-Ht in Hb.
    assert (a_id x = a_id b) as <- by (unfold core in Hc, Hcore; congruence). by eapply wf_tokens0.
Qed.

Lemma finish_put A a b {B} (r : B) : ident a ∈ A -> core b = core a -> agent_status b ∈ AGENT_STATUSES ->
  match auto_channel (row b) with Some c => c ∈ CHANNEL_TYPES \/ auto_channel (row b) = auto_channel (row a) | None => True end ->
  chat_token b = None \/ chat_token b = chat_token a ->
  triple (fun s => invA A (db_of s)) (put_record b;; mret r) (fun _ s => wf (db_of s)) (fun _ _ => True).
Proof. intros. eapply triple_bind; [by eapply put_record_wf|]. intros ?. by apply triple_ret. Qed.

(** After the agent is found, a continuation that need not keep identities. *)
Lemma get_agent_wf {B} acc name (k : agent_record -> M B) :
  (forall A a, ident a ∈ A -> agent_status a ∈ AGENT_STATUSES ->
     triple (fun s => invA A (db_of s)) (k a) (fun _ s => wf (db_of s)) (fun _ _ => True)) -> stays wf (get_agent acc name ≫= k).
Proof.
  intros Hk s Hs. unfold get_agent, mbind at 1, stm_bind at 1.
  pose proof (one_triple wf records (named acc name) s Hs) as Ho. unfold mbind, stm_bind in *.
  destruct (one records (named acc name) s) as [[[a|]|e] s']; [|done|done]. destruct Ho as (Hw & Ha & _).
  cbn [mret stm_ret]. assert (agent_status a ∈ AGENT_STATUSES) as Hst.
  { destruct Hw as []. pose proof (Forall_elem _ _ _ wf_valid0 Ha) as Hv. unfold valid_agent in Hv.
    unfold str_in in Hv. repeat (apply andb_true_iff in Hv as [Hv ?]). by eapply bool_decide_eq_true_1. }
  exact (Hk (map ident (records s')) a (ident_in a s' Ha) Hst s' (conj Hw eq_refl)).
Qed.

Lemma auto_same (a b : agent_record) : auto_channel (row b) = auto_channel (row a) ->
  match auto_channel (row b) with Some c => c ∈ CHANNEL_TYPES \/ auto_channel (row b) = auto_channel (row a) | None => True end.
Proof. intros ->. destruct (auto_channel (row a)); [by right|done]. Qed.

Lemma remove_ai_stays acc name : stays wf (remove_ai acc name).
Proof. apply get_agent_wf. intros A a Ha Hst. by eapply finish_put; [exact Ha|..|apply auto_same|right]. Qed.

Lemma revoke_stays acc name : stays wf (revoke_chat_token acc name).
Proof. apply get_agent_wf. intros A a Ha Hst. by eapply put_record_wf; [exact Ha|..|apply auto_same|left]. Qed.

Lemma configure_servers_stays acc name l : stays wf (configure_mcp_servers acc name l).
Proof. apply get_agent_wf. intros A a Ha Hst. by eapply finish_put; [exact Ha|..|apply auto_same|right]. Qed.

Lemma remove_servers_stays acc name : stays wf (remove_mcp_servers acc name).
Proof. apply get_agent_wf. intros A a Ha Hst. by eapply finish_put; [exact Ha|..|apply auto_same|right]. Qed.

Lemma generate_token_stays acc name : stays wf (generate_chat_token acc name).
Proof.
  apply get_agent_wf. intros A a Ha Hst. eapply triple_bind; [apply stays_ask|]. intros t s [Hw HA]. unfold mbind, stm_bind, getS.
  match goal with |- context [existsb ?p ?l] => destruct (existsb p l) eqn:E end; [done|]. cbn. cbn in HA. rewrite <-HA in Ha. pose proof Hw as [].
  apply list_elem_of_In, in_map_iff in Ha as (x & Hx & Hin%list_elem_of_In). unfold ident in Hx.
  destruct (wf_put_agent (db_of s) (with_chat_token a (Some t))) as [Hw' _]; cbn; [done| |done| | |exact Hw'].
  - change (core (with_chat_token a (Some t))) with (core a). assert (core a = core x) as -> by congruence.
    apply list_elem_of_In, in_map, list_elem_of_In, Hin.
  - pose proof (Forall_elem _ _ _ wf_valid0 Hin) as Hv. unfold valid_agent in Hv. apply andb_true_iff in Hv as [_ Hv].
    assert (auto_channel (row x) = auto_channel (row a)) as <- by congruence.
    destruct (auto_channel (row x)); [by eapply bool_decide_eq_true_1|done].
  - intros y u Hy [= <-] Hyt. destruct (String.eqb_spec (a_id y) (a_id a)) as [|Hne]; [done|].
    apply not_true_iff_false in E. destruct E. apply existsb_exists. exists y. split; [by apply list_elem_of_In|].
    apply andb_true_iff. split; [by apply negb_true_iff, String.eqb_neq|by apply bool_decide_true].
Qed.

Lemma remove_channel_stays acc name kind : stays wf (remove_channel acc name kind).
Proof.
  apply get_agent_stays. intros A a Ha Hst. apply stays_bind; [apply stays_one|]. intros [x|]; [|apply stays_raise].
  intros s [Hw HA]. cbn. split; [|done]. pose proof Hw as []. eapply (wf_set_channels (db_of s)); cbn; [done| |];
    [by apply NoDup_filter_map|by eapply Forall_filter_both; [exact wf_channels0|]].
Qed.

Section crypto.
Context `{Aead} (b64decode : string -> string) (kek_b64 : string).

(** What encryption does to the state: only the cached key changes. *)
Lemma stays_encrypt P r v : stays P (on_state (k ← kek b64decode kek_b64; lift_crypto (encrypt_value r v k))).
Proof.
  intros s Hs. unfold on_state, mbind at 1, stm_bind at 1. unfold kek. destruct (_get_kek _ _ _) as [[k|e] c]; cbn; [|done].
  unfold lift_crypto. by destruct (encrypt_value r v k).
Qed.

Lemma add_channel_stays acc name kind config : stays wf (add_channel b64decode kek_b64 acc name kind config).
Proof.
  apply get_agent_stays. intros A a Ha Hst s Hs. unfold mbind, stm_bind.
  pose proof (one_triple (invA A) channel_rows (is_channel (a_id a) kind) s Hs) as Ho.
  destruct (one channel_rows _ s) as [[[x|]|e] s1]; [done| |done]. destruct Ho as [Hs1 Hnone].
  pose proof (stays_ask (fun d => invA A d /\ d_channels d = channel_rows s1) random_bytes s1 (conj Hs1 eq_refl)) as Ka.
  destruct (ask_out random_bytes s1) as [[r|e] s2]; [|done].
  pose proof (stays_encrypt (fun d => invA A d /\ d_channels d = channel_rows s1) r config s2 Ka) as Kb.
  destruct (on_state _ s2) as [[ct|e] s3]; [|done]. destruct Kb as [[Hw HA] Hrows].
  destruct (negb (str_in kind CHANNEL_TYPES)) eqn:Hk; [done|]. apply negb_false_iff, bool_decide_eq_true in Hk.
  cbn. split; [|done]. pose proof Hw as []. cbn in Hrows. cbn in *. 
  apply (wf_set_channels (db_of s3) (channels (the_world s3) ++ [Channel (a_id a) kind ct.1 ct.2 true])); cbn; [done| |].
  - apply NoDup_map_snoc; [done|]. rewrite Hrows. intros (y & [= Hy1 Hy2] & Hy)%list_elem_of_In%in_map_iff.
    specialize (Hnone y (proj2 (list_elem_of_In _ _) Hy)). unfold is_channel in Hnone.
    by rewrite Hy1, Hy2, !String.eqb_refl in Hnone.
  - apply Forall_app. split; [done|]. apply Forall_singleton. split; [|done]. apply known_agent. by rewrite HA.
Qed.

Lemma rolling_restart_stays A a : stays (invA A) (_trigger_rolling_restart_if_clustered a).
Proof.
  unfold _trigger_rolling_restart_if_clustered. destruct (1 <? _); [|apply stays_ret].
  apply invA_of_inv. intros K. eapply triple_bind; [apply get_replicas_triple|]. intros l. cbn beta.
  apply triple_pure. intros Hl. apply inv_weaken, restart_replicas_stays.
  eapply Forall_filter_both; [exact Hl|]. done.
Qed.

Lemma configure_ai_stays acc name engine model key prompt channel :
  stays wf (configure_ai b64decode kek_b64 acc name engine model key prompt channel).
Proof.
  apply get_agent_wf. intros A a Ha Hst.
  eapply (triple_bind _ (fun _ s => invA A (db_of s))).
  { destruct (truthy_ostr key); [|apply stays_ret]. apply stays_bind.
    { unfold _validate_api_key. destruct (dict_get _ _); [|apply stays_ret]. apply stays_bind; [apply stays_host|intros st].
      destruct (decide _); [apply stays_raise|]. destruct (decide _); [apply stays_raise|apply stays_ret]. }
    intros ?. apply stays_bind; [apply stays_ask|intros r]. apply stays_bind; [apply stays_encrypt|intros; apply stays_ret]. }
  intros ct. cbn zeta.
  match goal with |- context [match ?b with Some _ => _ | None => _ end] => set (bad := b) end.
  destruct bad as [c|] eqn:E; [eapply triple_bind; [|intros ?; by apply triple_raise]; 
    eapply put_record_wf; [exact Ha|done|done|by apply auto_same|by right]|].
  set (b := with_row a _).
  eapply (triple_bind _ (fun _ s => invA (map ident (records s)) (db_of s) /\ wf (db_of s))).
  - eapply triple_post; [eapply (put_record_wf A a b); [exact Ha|done|done| |by right]| |done].
    + subst b bad. cbn. destruct channel as [[c|]|]; cbn in *; [left|done|by apply (auto_same a)].
      destruct (str_in c CHANNEL_TYPES) eqn:Hc; [by eapply bool_decide_eq_true_1|done].
    + intros ? s Hs. by split.
  - intros ? s [Hi Hw]. pose proof (rolling_restart_stays (map ident (records s)) b s Hi) as K.
    unfold mbind, stm_bind. destruct (_trigger_rolling_restart_if_clustered b s) as [[u|e] s']; [|done]. by destruct K.
Qed.
End crypto.
End operations.

Lemma not_upper_label c : alnum_dash c = true -> is_upper c = false.
Proof. destruct c as [[] [] [] [] [] [] [] []]; vm_compute; congruence. Qed.

Lemma lower_id s : str_forallb (fun c => negb (is_upper c)) s = true -> str_lower s = s.
Proof.
  induction s as [|c s IH]; cbn; [done|]. intros [Hc%negb_true_iff Hs]%andb_true_iff. unfold char_lower. by rewrite Hc, IH.
Qed.

Lemma label_lower s : valid_label s = true -> str_forallb (fun c => negb (is_upper c)) s = true.
Proof.
  unfold valid_label. intros Hv. repeat (apply andb_true_iff in Hv as [Hv ?]). rewrite str_forallb_list, forallb_forall in *.
  intros c Hc. apply negb_true_iff, not_upper_label. by match goal with E : forall x, In x _ -> alnum_dash x = true |- _ => apply E end.
Qed.

Lemma match_lower s : namespace_match s = true -> str_lower s = s.
Proof.
  intros Hm%namespace_match_spec. apply lower_id. destruct Hm as [Hv|(l & Hv & ->)]; [by apply label_lower|].
  rewrite str_forallb_append, (label_lower l Hv). reflexivity.
Qed.

Section birth.
Context `{Outside} `{Host}.

Abbreviation M := (stm fleet exn).

(** A new namespace: its name is new, and nothing else changes. *)
Definition with_namespaces (d : db) (l : list namespace) : db :=
  Db l (d_agents d) (d_replicas d) (d_schedules d) (d_webhooks d) (d_channels d) (d_state_agents d) (d_entries d) (d_jobs d) (d_fires d) (d_runs d) (d_log d).

Lemma new_namespace_triple d acc name :
  triple (fun s => db_of s = d) (new_namespace acc name)
    (fun n s => db_of s = with_namespaces d (d_namespaces d ++ [n]) /\ n_account_id n = acc /\ n_name n = str_lower name /\
       n_id n ∉ map n_id (d_namespaces d) /\ n_name n ∉ map n_name (d_namespaces d))
    (fun _ _ => True).
Proof.
  intros s <-. unfold new_namespace, mbind, stm_bind.
  pose proof (stays_ask (fun d => d = db_of s) uuid4 s eq_refl) as Ka. destruct (ask_out uuid4 s) as [[id|e] s1]; [|done].
  rewrite <-Ka. unfold getS. match goal with |- context [existsb ?p ?l] => destruct (existsb p l) eqn:E end.
  { by destruct (on_namespaces _ s1) as [[n|e] s2]. }
  unfold on_namespaces, Namespaces.create. destruct (str_in _ _); [done|]. unfold mbind, stm_bind.
  set (t := ns (base (tables (the_world s1)))) in *.
  destruct (select_cases namespaces (fun n => String.eqb (n_name n) (str_lower name)) t) as [(f & -> & _)|[[-> _]| ->]];
    [by destruct (deleted_at f)| |done].
  unfold lift_res, validate_name. destruct (String.eqb (str_lower name) ""); [done|]. destruct (63 <? _); [done|].
  destruct (negb (namespace_match _)); [done|]. cbn [Namespaces.n_name]. rewrite str_lower_idem. unfold insert_namespace, mbind, stm_bind, getS.
  cbn [n_name]. destruct (negb _ || existsb _ _) eqn:E2; [done|]. apply orb_false_iff in E2 as [_ E2]. cbn.
  split; [done|]. split; [done|]. split; [done|]. split.
  - eapply existsb_fresh; [exact E|]. intros n Hn. by apply String.eqb_eq.
  - eapply existsb_fresh; [exact E2|]. intros n Hn. by apply String.eqb_eq.
Qed.

(** The new agent of a new namespace. *)
Lemma add_agent_wf d n a : wf d -> n_id n ∉ map n_id (d_namespaces d) -> n_name n ∉ map n_name (d_namespaces d) ->
  n_id n = a_namespace a -> n_name n = str_lower (a_name a) -> n_account_id n = a_account a -> chat_token a = None ->
  triple (fun s => db_of s = with_namespaces d (d_namespaces d ++ [n])) (add_agent a)
    (fun _ s => wf (db_of s) /\ ident a ∈ map ident (records s) /\ a_id a ∉ map a_id (d_agents d) /\
       db_of s = Db (d_namespaces d ++ [n]) (d_agents d ++ [a]) (d_replicas d) (d_schedules d) (d_webhooks d) (d_channels d)
         (d_state_agents d ++ [state_agent a]) (d_entries d) (d_jobs d) (d_fires d) (d_runs d) (d_log d))
    (fun _ _ => True).
Proof.
  intros Hw Hni Hnn Hid Hnm Hacc Htok s Hs. unfold add_agent. destruct (valid_agent a) eqn:Hv; [|done].
  assert (n_name n = a_name a) as Hname.
  { rewrite Hnm. apply match_lower. unfold valid_agent in Hv. by repeat (apply andb_true_iff in Hv as [Hv ?]). }
  unfold insert, mbind, stm_bind, getS. match goal with |- context [existsb ?p ?l] => destruct (existsb p l) eqn:E end; [done|].
  cbn. unfold db_of, with_namespaces in Hs. injection Hs as E1 E2 E3 E4 E5 E6 E7 E8 E9 E10 E11 E12. unfold db_of. cbn.
  rewrite E1, E2, E3, E4, E5, E6, E7, E8, E9, E10, E11, E12. rewrite E2 in E. destruct Hw. 
  assert (a_id a ∉ map a_id (d_agents d)) as Hfi.
  { eapply existsb_fresh; [exact E|]. intros y Hy. unfold same_agent, same_id. by rewrite Hy, String.eqb_refl. }
  assert (forall x, x ∈ map a_id (d_agents d) -> x ∈ map a_id (d_agents d ++ [a])) as Hgrow by (intros x; rewrite map_app; set_solver).
  split; [|split; [rewrite map_app; apply elem_of_app; right; by apply list_elem_of_singleton|done]]. split; cbn; try done.
  - by apply NoDup_map_snoc.
  - by apply NoDup_map_snoc.
  - by apply NoDup_map_snoc.
  - apply NoDup_map_snoc; [done|]. intros (b & Hb & Hin)%list_elem_of_In%in_map_iff. apply list_elem_of_In in Hin.
    destruct (Forall_elem _ _ _ wf_homes0 Hin) as (m & Hm & _ & Hmn & _). apply Hnn. rewrite Hname, <-Hb, <-Hmn.
    by apply list_elem_of_In, in_map, list_elem_of_In.
  - apply Forall_app. split.
    + eapply Forall_impl; [exact wf_homes0|]. intros b (m & Hm & ?). exists m. split; [set_solver|done].
    + apply Forall_singleton. exists n. split; [set_solver|done].
  - apply Forall_app. split; [done|]. by apply Forall_singleton.
  - intros x y t [Hx| ->%list_elem_of_singleton]%elem_of_app [Hy| ->%list_elem_of_singleton]%elem_of_app; try congruence. by apply wf_tokens0.
  - by rewrite map_app, wf_state_agents0.
  - eapply Forall_impl; [exact wf_replicas0|]. intros x [? ?]. split; [by apply Hgrow|done].
  - eapply Forall_impl; [exact wf_schedules0|]. intros x [? ?]. split; [by apply Hgrow|done].
  - eapply Forall_impl; [exact wf_webhooks0|]. intros x [? ?]. split; [by apply Hgrow|done].
  - eapply Forall_impl; [exact wf_channels0|]. intros x [? ?]. split; [by apply Hgrow|done].
  - eapply Forall_impl; [exact wf_entries0|]. intros x ?. by apply Hgrow.
  - eapply Forall_impl; [exact wf_jobs0|]. intros x [? ?]. split; [by apply Hgrow|done].
  - eapply Forall_impl; [exact wf_fires0|]. intros x [? ?]. split; [by apply Hgrow|done].
  - eapply Forall_impl; [exact wf_runs0|]. intros x [? ?]. split; [by apply Hgrow|done].
Qed.
End birth.

Lemma NoDup_transfer {A B C} (f : A -> B) (g : A -> C) l :
  NoDup (map f l) -> (forall x y, x ∈ l -> y ∈ l -> g x = g y -> f x = f y) -> NoDup (map g l).
Proof.
  induction l as [|x l IH]; cbn; [intros; apply NoDup_nil_2|]. intros [Hx Hl]%NoDup_cons Hg. apply NoDup_cons. split.
  - intros (y & Hy & Hin)%list_elem_of_In%in_map_iff. apply Hx. apply list_elem_of_In in Hin.
    rewrite <-(Hg y x) by (set_solver || done). by apply list_elem_of_In, in_map, list_elem_of_In.
  - apply IH; [done|]. intros a b Ha Hb. apply Hg; set_solver.
Qed.

(** The rows of one agent copied for another, which has none. *)
Lemma NoDup_copy {A B} (owner : A -> string) (sub : A -> B) (copy : A -> A) (src dst : string) (l : list A) :
  NoDup (map (fun x => (owner x, sub x)) l) -> (forall x, owner (copy x) = dst /\ sub (copy x) = sub x) ->
  (forall x, x ∈ l -> owner x <> dst) ->
  NoDup (map (fun x => (owner x, sub x)) (l ++ map copy (List.filter (fun x => String.eqb (owner x) src) l))).
Proof.
  intros Hnd Hc Hd. rewrite map_app. apply NoDup_app. split; [done|]. split.
  - intros y (x & <- & Hx)%list_elem_of_In%in_map_iff (z & Hz & Hin)%list_elem_of_In%in_map_iff.
    apply in_map_iff in Hin as (w & <- & _). injection Hz as Ho _. destruct (Hc w) as [Hw _]. rewrite Hw in Ho.
    apply (Hd x); [by apply list_elem_of_In|done].
  - rewrite map_map. rewrite (map_ext _ (fun x => (dst, sub x))); [|intros x; by destruct (Hc x) as [-> ->]].
    eapply NoDup_transfer; [by apply NoDup_filter_map|]. intros x y Hx Hy [= Hs]. apply elem_of_filter_bool in Hx as [_ Hx], Hy as [_ Hy].
    apply String.eqb_eq in Hx, Hy. congruence.
Qed.
Section reachable.
Context `{Outside} `{Host}.

Abbreviation M := (stm fleet exn).

Lemma create_stays acc tier name dn : stays wf (create_agent acc tier name dn).
Proof.
  unfold create_agent. apply stays_bind; [apply stays_tier|intros cfg]. apply stays_bind; [apply stays_read|intros count].
  destruct (max_agents cfg <=? count); [apply stays_raise|]. apply stays_bind; [apply stays_one|]. intros [x|]; [apply stays_raise|].
  intros s Hs. eapply (triple_bind (fun s1 => db_of s1 = db_of s)); [apply new_namespace_triple| |done].
  intros n. cbn beta. intros s1 (Hd & Hacc & Hnm & Hfi & Hfn). unfold mbind at 1, stm_bind at 1.
  pose proof (stays_ask (fun d => d = db_of s1) uuid4 s1 eq_refl) as Ka. destruct (ask_out uuid4 s1) as [[id|e] s2]; [|done].
  unfold mbind at 1, stm_bind at 1. pose proof (stays_ask (fun d => d = db_of s1) now s2 Ka) as Kb.
  destruct (ask_out now s2) as [[t|e] s3]; [|done]. cbn zeta. set (a := AgentRecord _ _ _ _ _ _ _ _ _ _ _ _ _ _ _).
  rewrite <-Kb in Hd. revert s3 Hd Kb. intros s3 Hd _.
  eapply (triple_bind (fun s3 => db_of s3 = with_namespaces (db_of s) (d_namespaces (db_of s) ++ [n]))
    (fun _ s => invA (map ident (records s)) (db_of s) /\ ident a ∈ map ident (records s))); [| |exact Hd].
  - eapply triple_post; [apply (add_agent_wf (db_of s) n a); done| |done]. intros ? s4 (? & ? & _). done.
  - intros ? s4 [Hi Ha]. revert s4 Hi Ha.
    assert (forall A, ident a ∈ A -> stays (invA A) (_ ← _create_replica a; update_status_lazily a)) as K.
    { intros A Ha. apply stays_bind; [by apply create_replica_stays|intros r]. unfold update_status_lazily.
      destruct lazy_loads; [by apply update_status_stays|apply stays_raise]. }
    intros s4 Hi Ha. specialize (K _ Ha s4 Hi). destruct ((_ ← _create_replica a; update_status_lazily a) s4) as [[b|e] s5]; [by destruct K|done].
Qed.

(** The rows of the source copied under the identifier of the clone. *)
Lemma clone_schedules_stays A C a l : ident a ∈ A -> Forall (fun x => sc_orchestration_mode x ∈ ORCHESTRATION_MODES) l ->
  stays (fun d => invA A d /\ d_channels d = C) (clone_schedules (a_id a) l).
Proof.
  intros Ha. induction 1 as [|y l Hy _ IH]; [apply stays_ret|]. cbn. apply stays_bind; [apply stays_ask|intros id].
  apply stays_bind; [|intros; apply IH]. set (x := Schedule _ _ _ _ _ _ _ _ _ _ _ _ _).
  apply (insert_triple (fun d => invA A d /\ d_channels d = C) (fun s => invA A (db_of s) /\ d_channels (db_of s) = C)).
  intros s [[Hw HA] HC] Hfresh. cbn. split; [|done]. split; [|done]. pose proof Hw as [].
  apply (wf_set_schedules (db_of s) (schedules s ++ [x])); cbn; [done| | | | |].
  - apply NoDup_map_snoc; [done|]. eapply (existsb_fresh (same_id sc_id x)); [done|]. intros z Hz. by apply String.eqb_eq.
  - apply Forall_app. split; [done|]. apply Forall_singleton. split; [|done]. apply known_agent. cbn in HA. by rewrite HA.
  - eapply Forall_impl; [exact wf_jobs0|]. intros j [? ?]. split; [done|]. rewrite map_app. set_solver.
  - eapply Forall_impl; [exact wf_fires0|]. intros j [? ?]. split; [done|]. rewrite map_app. set_solver.
  - eapply Forall_impl; [exact wf_runs0|]. intros j [? Hj]. split; [done|]. intros i Hi%Hj. rewrite map_app. set_solver.
Qed.

Lemma clone_entries_stays A C a src :
  ident a ∈ A ->
  triple (fun s => Forall (fun e => e_agent_id e <> a_id a) (entries (states (the_world s))) /\ invA A (db_of s) /\ d_channels (db_of s) = C)
    (set_world (fun w => set_state_tables (clone_entries src (a_id a) (states w)) w))
    (fun _ s => invA A (db_of s) /\ d_channels (db_of s) = C) (fun _ _ => True).
Proof.
  intros Ha s (Hn & [Hw HA] & HC). cbn. split; [|done]. split; [|done]. pose proof Hw as [].
  apply (wf_set_entries (db_of s)); cbn; [done| |].
  - apply (NoDup_copy e_agent_id e_key (fun e => StateEntry (a_id a) (e_key e) (value_encrypted e) (value_dek_encrypted e) (size_bytes e)) src (a_id a));
      [done|by intros x|]. intros x Hx. by apply (Forall_elem _ _ _ Hn Hx).
  - apply Forall_app. split; [done|]. apply Forall_fmap, Forall_forall. intros e _. unfold compose. cbn. apply known_agent. cbn in HA. by rewrite HA.
Qed.

Lemma clone_channels_stays A C a src : ident a ∈ A -> Forall (fun c => ch_agent_id c <> a_id a) C ->
  triple (fun s => invA A (db_of s) /\ d_channels (db_of s) = C)
    (set_world (fun w => set_channel_rows (clone_channels src (a_id a) (channels w)) w)) (fun _ s => invA A (db_of s)) (fun _ _ => True).
Proof.
  intros Ha Hn s ([Hw HA] & HC). cbn in HC. cbn. split; [|done]. pose proof Hw as [].
  apply (wf_set_channels (db_of s)); cbn; [done| |].
  - apply (NoDup_copy ch_agent_id ch_type (fun c => Channel (a_id a) (ch_type c) (ch_config_encrypted c) (ch_config_dek_encrypted c) (ch_enabled c)) src (a_id a));
      [done|by intros x|]. rewrite HC. intros x Hx. by apply (Forall_elem _ _ _ Hn Hx).
  - apply Forall_app. split; [done|]. apply Forall_fmap. eapply Forall_filter_both; [exact wf_channels0|]. intros c _ [_ Hc] _.
    unfold compose. cbn. split; [|done]. apply known_agent. cbn in HA. by rewrite HA.
Qed.

Lemma not_elem_forall {A} (f : A -> string) id (ids : list string) l :
  id ∉ ids -> Forall (fun x => f x ∈ ids) l -> Forall (fun x => f x <> id) l.
Proof. intros Hid Hl. eapply Forall_impl; [exact Hl|]. intros x Hx Heq. apply Hid. by rewrite <-Heq. Qed.

(** What follows the insertion of the clone. *)
Lemma clone_rest_stays A (d : db) a src l :
  ident a ∈ A -> wf d -> a_id a ∉ map a_id (d_agents d) -> Forall (fun x => sc_orchestration_mode x ∈ ORCHESTRATION_MODES) l ->
  triple (fun s => entries (states (the_world s)) = d_entries d /\ invA A (db_of s) /\ d_channels (db_of s) = d_channels d)
    (clone_rows src (a_id a) l)
    (fun _ s => invA A (db_of s)) (fun _ _ => True).
Proof.
  intros Ha Hw Hfresh Hl. pose proof Hw as [].
  assert (Forall (fun e => e_agent_id e <> a_id a) (d_entries d)) as Hen by by eapply not_elem_forall.
  assert (Forall (fun c => ch_agent_id c <> a_id a) (d_channels d)) as Hcn.
  { eapply (not_elem_forall ch_agent_id); [exact Hfresh|]. eapply Forall_impl; [exact wf_channels0|]. by intros c [? _]. }
  eapply triple_bind.
  - eapply triple_pre; [by apply (clone_entries_stays A (d_channels d) a src)|]. intros s (He & Hi & Hc). by rewrite He.
  - intros ?. eapply triple_bind; [by apply clone_schedules_stays|]. intros ?. by apply clone_channels_stays.
Qed.
End reachable.

Section reachable.
Context `{Outside} `{Host}.

Lemma clone_stays acc src name tier : stays wf (clone_agent acc src name tier).
Proof.
  unfold clone_agent. apply stays_bind; [apply stays_tier|intros cfg]. apply stays_bind; [apply stays_read|intros count].
  destruct (max_agents cfg <=? count); [apply stays_raise|]. apply stays_bind; [apply stays_one|]. intros [x|]; [apply stays_raise|].
  apply get_agent_wf. intros A0 source _ _ s [Hs _]. unfold mbind at 1, stm_bind at 1, getS.
  eapply (triple_bind (fun s1 => db_of s1 = db_of s)); [apply new_namespace_triple| |done].
  intros n. cbn beta. intros s1 (Hd & Hacc & Hnm & Hfi & Hfn). unfold mbind at 1, stm_bind at 1.
  pose proof (stays_ask (fun d => d = db_of s1) uuid4 s1 eq_refl) as Ka. destruct (ask_out uuid4 s1) as [[id|e] s2]; [|done].
  unfold mbind at 1, stm_bind at 1. pose proof (stays_ask (fun d => d = db_of s1) now s2 Ka) as Kb.
  destruct (ask_out now s2) as [[t|e] s3]; [|done]. cbn zeta. set (a := AgentRecord _ _ _ _ _ _ _ _ _ _ _ _ _ _ _).
  rewrite <-Kb in Hd. clear Ka Kb s1 s2. set (src_id := a_id source). set (l := List.filter _ (schedules s)).
  assert (Forall (fun x => sc_orchestration_mode x ∈ ORCHESTRATION_MODES) l) as Hl.
  { subst l. eapply Forall_filter_both; [exact (wf_schedules _ Hs)|]. by intros y _ [_ ?]. }
  set (A := map ident (records s ++ [a])).
  assert (ident a ∈ A) as Ha by (subst A; rewrite map_app; apply elem_of_app; right; by apply list_elem_of_singleton).
  pose proof (add_agent_wf (db_of s) n a Hs Hfi Hfn eq_refl Hnm Hacc eq_refl s3 Hd) as Hadd.
  unfold mbind at 1, stm_bind at 1. destruct (add_agent a s3) as [[u|e] s4]; [|done]. destruct Hadd as (Hw4 & _ & Hfresh & Hd4).
  pose proof (clone_rest_stays A (db_of s) a src_id l Ha Hs Hfresh Hl s4) as Hrest.
  assert (entries (states (the_world s4)) = d_entries (db_of s) /\ invA A (db_of s4) /\ d_channels (db_of s4) = d_channels (db_of s)) as Hpre.
  { pose proof (f_equal d_entries Hd4) as E1. pose proof (f_equal d_agents Hd4) as E2. pose proof (f_equal d_channels Hd4) as E3.
    cbn in E1, E2, E3. split; [done|]. split; [|done]. split; [done|]. cbn. by rewrite E2. }
  specialize (Hrest Hpre). unfold mbind at 1, stm_bind at 1. change id with (a_id a).
  destruct (clone_rows src_id (a_id a) l s4) as [[v|e] s6]; [|done].
  assert (forall b, ident b = ident a -> agent_status b ∈ AGENT_STATUSES -> stays (invA A) (put_record b;; mret b)) as Hput.
  { intros b Hb Hst. apply stays_bind; [|intros; apply stays_ret]. apply put_record_staysA; [by rewrite Hb|done]. }
  pose proof (stays_docker_try (invA A) (_ensure_network;; (container_run (clone_spec a) : stm host docker_error string))
    (fun c => put_record (with_container a "running" (Some c));; mret (with_container a "running" (Some c)))
    (put_record (with_container a "error" None);; mret (with_container a "error" None))
    (fun c => Hput (with_container a "running" (Some c)) eq_refl ltac:(cbn; set_solver))
    (Hput (with_container a "error" None) eq_refl ltac:(cbn; set_solver)) s6 Hrest) as K.
  unfold mbind, stm_bind in K. destruct (docker_try _ _ _ s6) as [[b|e] s7]; [by destruct K|done].
Qed.

(** *** Death *)

Lemma elem_of_drop (p : string -> bool) {A} (f : A -> string) l x :
  x ∈ map f l -> p x = true -> x ∈ map f (List.filter (fun y => p (f y)) l).
Proof.
  intros (y & <- & Hy)%list_elem_of_In%in_map_iff Hp. apply list_elem_of_In, in_map, filter_In. done.
Qed.

Lemma map_records_ids {A} (f : agent_record -> A) (g : agent_record -> agent_record) l :
  (forall a, f (g a) = f a) -> map f (map g l) = map f l.
Proof. intros Hg. rewrite map_map. by apply map_ext. Qed.

Lemma elem_of_map_intro {A B} (f : A -> B) l x : x ∈ l -> f x ∈ map f l.
Proof. intros Hx. by apply list_elem_of_In, in_map, list_elem_of_In. Qed.

(** The rows without those of an agent and without its namespace. *)
Definition without (a : agent_record) (d : db) : db :=
  let id := a_id a in
  let gone := schedule_of id (d_schedules d) in
  Db (List.filter (fun n => negb (String.eqb (n_id n) (a_namespace a))) (d_namespaces d))
    (map (forget_source id) (List.filter (fun b => negb (String.eqb (a_id b) id)) (d_agents d)))
    (List.filter (fun r => negb (String.eqb (rp_agent_id r) id)) (d_replicas d))
    (List.filter (fun x => negb (String.eqb (sc_agent_id x) id)) (d_schedules d))
    (List.filter (fun x => negb (String.eqb (wh_agent_id x) id)) (d_webhooks d))
    (List.filter (fun c => negb (String.eqb (ch_agent_id c) id)) (d_channels d))
    (List.filter (fun x => negb (String.eqb (ag_id x) id)) (d_state_agents d))
    (List.filter (fun e => negb (String.eqb (e_agent_id e) id)) (d_entries d))
    (List.filter (fun j => negb (String.eqb (jb_agent_id j) id || gone (jb_schedule_id j))) (d_jobs d))
    (map (forget_run (run_of id (d_runs d))) (List.filter (fun x => negb (String.eqb (fr_agent_id x) id || gone (fr_schedule_id x))) (d_fires d)))
    (map (forget_schedule gone) (List.filter (fun r => negb (String.eqb (run_agent_id r.1) id)) (d_runs d)))
    (map (forget_logged_run (run_of id (d_runs d))) (d_log d)).

Lemma forget_same id b : core (forget_source id b) = core b /\ chat_token (forget_source id b) = chat_token b /\
  row (forget_source id b) = row b /\ agent_status (forget_source id b) = agent_status b.
Proof. unfold forget_source. by destruct (decide _). Qed.

Lemma wf_without d a : wf d -> a ∈ d_agents d -> wf (without a d).
Proof.
  intros Hw Ha. unfold without. cbv zeta. set (id := a_id a). pose proof (forget_same id) as Hforget.
  set (others := map (forget_source id) _).
  set (gone := schedule_of id (d_schedules d)).
  pose proof Hw as [].
  assert (forall B (f : agent_record -> B), (forall x y, core x = core y -> f x = f y) ->
    map f others = map f (List.filter (fun b => negb (String.eqb (a_id b) id)) (d_agents d))) as Hmap.
  { intros B f Hf. apply map_records_ids. intros b. apply Hf. by destruct (Hforget b). }
  assert (map a_id others = map a_id (List.filter (fun b => negb (String.eqb (a_id b) id)) (d_agents d))) as Hids
    by (apply Hmap; by intros x y [= ? ? ? ?]).
  assert (forall x, x ∈ map a_id (d_agents d) -> String.eqb x id = false -> x ∈ map a_id others) as Hkeep.
  { intros x Hx Hne. rewrite Hids. apply (elem_of_drop (fun y => negb (String.eqb y id)) a_id); [done|by rewrite Hne]. }
  assert (forall x, x ∈ map sc_id (d_schedules d) -> gone x = false ->
    x ∈ map sc_id (List.filter (fun x => negb (String.eqb (sc_agent_id x) id)) (d_schedules d))) as Hsched.
  { intros x (y & <- & Hy)%list_elem_of_In%in_map_iff Hg. apply list_elem_of_In, in_map, filter_In. split; [done|].
    apply negb_true_iff, not_true_iff_false. intros He. apply not_true_iff_false in Hg. apply Hg, existsb_exists. exists y.
    split; [done|]. by rewrite String.eqb_refl, He. }
  assert (forall b, b ∈ others -> exists c, c ∈ d_agents d /\ b = forget_source id c /\ String.eqb (a_id c) id = false) as Hothers.
  { intros b (c & -> & [Hc Hn]%elem_of_filter_bool)%list_elem_of_fmap. exists c. split; [done|]. split; [done|by apply negb_true_iff]. }
  split; cbn; rewrite ?Hids.
  - by apply NoDup_filter_map.
  - by apply NoDup_filter_map.
  - by apply NoDup_filter_map.
  - rewrite Hmap; [by apply NoDup_filter_map|by intros x y [= ? ? ? ?]].
  - apply Forall_forall. intros b (c & Hc & -> & Hne)%Hothers.
    destruct (Forall_elem _ _ _ wf_homes0 Hc) as (n & Hn & Hi & Hnm & Hac).
    destruct (Forall_elem _ _ _ wf_homes0 Ha) as (m & Hm & Hmi & Hmn & _).
    destruct (Hforget c) as ([= Q1 Q2 Q3 Q4] & _). exists n. rewrite Q2, Q3, Q4. split; [|done]. apply elem_of_filter_bool. split; [done|].
    apply negb_true_iff, String.eqb_neq. intros He. apply String.eqb_neq in Hne. apply Hne.
    assert (n = m) as -> by (apply (NoDup_map_inj n_id (d_namespaces d)); congruence).
    assert (c = a) as -> by (apply (NoDup_map_inj a_name (d_agents d)); congruence). done.
  - apply Forall_forall. intros b (c & Hc & -> & _)%Hothers. pose proof (Forall_elem _ _ _ wf_valid0 Hc) as Hv.
    destruct (Hforget c) as ([= _ _ Q3 _] & _ & Q5 & Q6). unfold valid_agent in *. by rewrite Q3, Q5, Q6.
  - intros x y t (c & Hc & -> & _)%Hothers (c' & Hc' & -> & _)%Hothers. destruct (Hforget c) as ([= Q1 _ _ _] & Q2 & _).
    destruct (Hforget c') as ([= R1 _ _ _] & R2 & _). rewrite Q1, Q2, R1, R2. by apply wf_tokens0.
  - rewrite wf_state_agents0, Hmap; [|unfold state_agent; by intros x y [= -> -> -> _]].
    clear. induction (d_agents d) as [|b l IH]; cbn; [done|]. change (ar_id (row b)) with (a_id b). destruct (negb _); cbn; by rewrite IH.
  - by apply NoDup_filter_map.
  - by apply NoDup_filter_map.
  - rewrite <-Hids. eapply Forall_filter_both; [exact wf_replicas0|]. intros x _ [? ?] Hn%negb_true_iff. split; [by apply Hkeep|done].
  - by apply NoDup_filter_map.
  - rewrite <-Hids. eapply Forall_filter_both; [exact wf_schedules0|]. intros x _ [? ?] Hn%negb_true_iff. split; [by apply Hkeep|done].
  - by apply NoDup_filter_map.
  - by apply NoDup_filter_map.
  - rewrite <-Hids. eapply Forall_filter_both; [exact wf_webhooks0|]. intros x _ [? ?] Hn%negb_true_iff. split; [by apply Hkeep|done].
  - by apply NoDup_filter_map.
  - rewrite <-Hids. eapply Forall_filter_both; [exact wf_channels0|]. intros x _ [? ?] Hn%negb_true_iff. split; [by apply Hkeep|done].
  - by apply NoDup_filter_map.
  - rewrite <-Hids. eapply Forall_filter_both; [exact wf_entries0|]. intros x _ ? Hn%negb_true_iff. by apply Hkeep.
  - rewrite <-Hids. eapply Forall_filter_both; [exact wf_jobs0|]. intros x _ [? ?] [Hn Hg]%negb_true_iff%orb_false_iff.
    split; [by apply Hkeep|by apply Hsched].
  - rewrite <-Hids. apply Forall_fmap. eapply (Forall_filter_both _ (compose (fire_ok _ _) (forget_run _))); [exact wf_fires0|].
    intros x _ [? ?] [Hn Hg]%negb_true_iff%orb_false_iff. split; [by apply Hkeep|by apply Hsched].
  - rewrite <-Hids. apply Forall_fmap. eapply (Forall_filter_both _ (compose (run_ok _ _) (forget_schedule _))); [exact wf_runs0|].
    intros x _ Hx Hn%negb_true_iff. by apply (run_forgets gone _ _ _ _ x Hx); [intros; apply Hkeep|].
Qed.
Lemma filter_put {A} (key : A -> string) (x : A) l :
  List.filter (fun y => negb (String.eqb (key y) (key x))) (put key x l) = List.filter (fun y => negb (String.eqb (key y) (key x))) l.
Proof.
  unfold put. induction l as [|y l IH]; cbn; [done|]. destruct (String.eqb (key y) (key x)) eqn:E; cbn; [by rewrite String.eqb_refl|].
  by rewrite E, IH.
Qed.

Lemma bury_db a s : match bury a s with (Ok b, s') => b = with_status a "destroying" /\ db_of s' = without a (db_of s) | (Err _, _) => False end.
Proof. destruct s as [w rs rp sc wh jb fr h]. destruct w as [t st ch lg ru ev o]. vm_compute. done. Qed.

(** What [destroy_agent] leaves, whatever Docker answers. *)
Lemma destroy_triple d acc name :
  triple (fun s => db_of s = d) (destroy_agent acc name)
    (fun b s => exists a, a ∈ d_agents d /\ named acc name a = true /\ b = with_status a "destroying" /\ db_of s = without a d)
    (fun _ _ => True).
Proof.
  intros s <-. unfold destroy_agent, get_agent, mbind, stm_bind.
  pose proof (one_triple (fun d => d = db_of s) records (named acc name) s eq_refl) as Ho.
  destruct (one records (named acc name) s) as [[[a|]|e] s0]; [|done|done]. destruct Ho as (Hs0 & Ha & Hn). cbn [mret stm_ret].
  set (s1 := (put_record (with_status a "destroying") s0).2). change (put_record _ s0) with ((Ok tt : res exn unit), s1).
  cbv beta iota. unfold _get_replicas at 1.
  pose proof (remove_containers_stays (fun d => d = db_of s1) (replicas_of (a_id a) s1) s1 eq_refl) as Hr.
  destruct (remove_containers _ s1) as [[u|e] s2]; [|done].
  assert (stays (fun d => d = db_of s1) (remove_agent_container a)) as Hrm.
  { unfold remove_agent_container. destruct (container_id a) as [c|]; [|apply stays_ret]. destruct (truthy_str c); [|apply stays_ret].
    apply stays_docker_try; intros; apply stays_ret. }
  specialize (Hrm s2 Hr). destruct (remove_agent_container a s2) as [[v|e] s3]; [|exact I]. 
  pose proof (bury_db a s3) as Hb. destruct (bury a s3) as [[b|e] s4]; [|done]. destruct Hb as [-> ->]. exists a. rewrite <-Hs0.
  split; [done|]. split; [done|]. split; [done|]. rewrite Hrm. subst s1. unfold without, db_of. cbn [d_namespaces d_agents d_replicas
    d_schedules d_webhooks d_channels d_state_agents d_entries d_jobs d_fires d_runs d_log]. f_equal.
  f_equal. exact (filter_put a_id (with_status a "destroying") (records s0)).
Qed.

Lemma destroy_stays acc name : stays wf (destroy_agent acc name).
Proof.
  intros s Hs. pose proof (destroy_triple (db_of s) acc name s eq_refl) as K. destruct (destroy_agent acc name s) as [[b|e] s']; [|done].
  destruct K as (a & Ha & _ & _ & ->). by apply wf_without.
Qed.
End reachable.

(** ** Requests in a row *)

Section lookup.
Context `{Outside} `{Host}.

(** A webhook is found for one agent at most, although the query looks at the
    names of agents of all accounts. *)
Lemma resolve_unique s name path : wf (db_of s) ->
  (exists x, resolve_webhook name path s = (Ok (Some x), s)) \/ resolve_webhook name path s = (Ok None, s).
Proof.
  intros []. unfold resolve_webhook, one. cbn in *.
  match goal with |- context [List.filter ?q (webhooks s)] => set (p := q) end. destruct (List.filter p (webhooks s)) as [|x [|y l]] eqn:E; [by right|by left; exists x|]. exfalso.
  assert (NoDup (map address (List.filter p (webhooks s)))) as Hnd by by apply NoDup_filter_map.
  assert (forall z, z ∈ List.filter p (webhooks s) -> exists a, a ∈ records s /\ a_id a = wh_agent_id z /\ a_name a = name /\ wh_path z = path) as Hp.
  { intros z [_ Hz]%elem_of_filter_bool. subst p. cbn in Hz. repeat (apply andb_true_iff in Hz as [Hz ?]).
    apply existsb_exists in Hz as (a & Ha & [? ?]%andb_true_iff). exists a. split; [by apply list_elem_of_In|].
    repeat match goal with K : String.eqb _ _ = true |- _ => apply String.eqb_eq in K end. done. }
  rewrite E in *. destruct (Hp x ltac:(set_solver)) as (a & Ha & Hai & Han & Hxp). destruct (Hp y ltac:(set_solver)) as (b & Hb & Hbi & Hbn & Hyp).
  assert (a = b) as -> by (apply (NoDup_map_inj a_name (records s)); [done..|congruence]).
  cbn in Hnd. apply NoDup_cons in Hnd as [Hnx _]. apply Hnx. apply elem_of_cons. left. unfold address. congruence.
Qed.

End lookup.

Section reachable.
Context `{Outside} `{Host} `{Aead} `{Crypto} (b64decode : string -> string) (kek_b64 : string).

Inductive op :=
| CreateAgent (account_id tier name : string) (display_name : option string)
| ScaleAgent (account_id agent_name : string) (target : Z) (tier : string)
| StartAgent (account_id agent_name : string) (replica : option string)
| StopAgent (account_id agent_name : string) (replica : option string)
| DestroyAgent (account_id agent_name : string)
| CloneAgent (account_id source_name new_name tier : string)
| AddSchedule (account_id agent_name fn cron zone : string) (policy : pyval) (tier orchestration_mode mode : string)
| RemoveSchedule (account_id agent_name schedule_id : string)
| AddWebhook (account_id agent_name path handler : string) (secret : option string) (orchestration_mode : string)
| RemoveWebhook (account_id agent_name webhook_id : string)
| ConfigureAi (account_id agent_name engine model : string) (api_key : option string) (prompt channel : option (option string))
| RemoveAi (account_id agent_name : string)
| GenerateChatToken (account_id agent_name : string)
| RevokeChatToken (account_id agent_name : string)
| AddChannel (account_id agent_name kind : string) (config : pyval)
| RemoveChannel (account_id agent_name kind : string)
| ConfigureMcpServers (account_id agent_name : string) (servers : list (string * pyval))
| RemoveMcpServers (account_id agent_name : string).

Definition run_op (o : op) (s : fleet) : fleet :=
  match o with
  | CreateAgent acc tier name dn => (transaction (create_agent acc tier name dn) s).2
  | ScaleAgent acc name n tier => (transaction (scale_agent acc name n tier) s).2
  | StartAgent acc name r => (transaction (start_agent acc name r) s).2
  | StopAgent acc name r => (transaction (stop_agent acc name r) s).2
  | DestroyAgent acc name => (transaction (destroy_agent acc name) s).2
  | CloneAgent acc src name tier => (transaction (clone_agent acc src name tier) s).2
  | AddSchedule acc name fn cron zone p tier om m => (transaction (add_schedule acc name fn cron zone p tier om m) s).2
  | RemoveSchedule acc name i => (transaction (remove_schedule acc name i) s).2
  | AddWebhook acc name p h sec om => (transaction (add_webhook acc name p h sec om) s).2
  | RemoveWebhook acc name i => (transaction (remove_webhook acc name i) s).2
  | ConfigureAi acc name e m k p c => (transaction (configure_ai b64decode kek_b64 acc name e m k p c) s).2
  | RemoveAi acc name => (transaction (remove_ai acc name) s).2
  | GenerateChatToken acc name => (transaction (generate_chat_token acc name) s).2
  | RevokeChatToken acc name => (transaction (revoke_chat_token acc name) s).2
  | AddChannel acc name k c => (transaction (add_channel b64decode kek_b64 acc name k c) s).2
  | RemoveChannel acc name k => (transaction (remove_channel acc name k) s).2
  | ConfigureMcpServers acc name l => (transaction (configure_mcp_servers acc name l) s).2
  | RemoveMcpServers acc name => (transaction (remove_mcp_servers acc name) s).2
  end.

Lemma transaction_wf {A} (m : stm fleet exn A) s : stays wf m -> wf (db_of s) -> wf (db_of (transaction m s).2).
Proof.
  intros Hm Hs. specialize (Hm s Hs). unfold transaction. destruct (m s) as [[a|e] s']; [done|]. cbn [snd]. by rewrite rolled_back_db.
Qed.

Lemma service_op_wf o s : wf (db_of s) -> wf (db_of (run_op o s)).
Proof.
  intros Hs. destruct o; (apply transaction_wf; [|exact Hs]);
    [apply create_stays|apply scale_stays|apply start_stays|apply stop_stays|apply destroy_stays|apply clone_stays
          |apply add_schedule_stays|apply remove_schedule_stays|apply add_webhook_stays|apply remove_webhook_stays
          |apply configure_ai_stays|apply remove_ai_stays|apply generate_token_stays|apply revoke_stays
          |apply add_channel_stays|apply remove_channel_stays|apply configure_servers_stays|apply remove_servers_stays].
Qed.

Definition run_ops (l : list op) (s : fleet) : fleet := foldl (fun s o => run_op o s) s l.

Lemma run_ops_wf l s : wf (db_of s) -> wf (db_of (run_ops l s)).
Proof. revert s. induction l as [|o l IH]; intros s Hs; [done|]. by apply IH, service_op_wf. Qed.

(** [C29] The tables of agents stay sound, whatever is asked of the service and
    whatever Docker and the network answer: agents have names of their own in
    the whole database, each has a namespace of its name and account, every
    replica, schedule, webhook, channel, entry of the state, job, fire and run
    belongs to an agent that exists, and the jobs, fires and runs of a schedule to one that
    exists, the unique constraints and the values of the status
    columns hold; so that a webhook URL, which names an agent and a path, never
    belongs to two agents. *)
Theorem fleet_well_formed l s : wf (db_of s) ->
  let s' := run_ops l s in
  wf (db_of s') /\
  forall name path, (exists x, resolve_webhook name path s' = (Ok (Some x), s')) \/ resolve_webhook name path s' = (Ok None, s').
Proof. intros Hs s'. assert (wf (db_of s')) as Hs' by by apply run_ops_wf. split; [done|]. intros name path. by apply resolve_unique. Qed.
End reachable.

(** ** Scaling *)

Section scaling.
Context `{Outside} `{Host}.

Abbreviation M := (stm fleet exn).

(** Everything but the replicas (and what is outside the database). *)
Definition rest_db (d : db) : db :=
  Db (d_namespaces d) (d_agents d) [] (d_schedules d) (d_webhooks d) (d_channels d) (d_state_agents d) (d_entries d) (d_jobs d) (d_fires d) (d_runs d) (d_log d).

Lemma put_new (l : list replica) r r' : rp_id r' = rp_id r -> rp_id r ∉ map rp_id l -> put rp_id r' (l ++ [r]) = l ++ [r'].
Proof.
  intros Hid Hn. unfold put. rewrite map_app. cbn. rewrite Hid, String.eqb_refl. f_equal. rewrite <-(map_id l) at 2. apply map_ext_in.
  intros y Hy. destruct (String.eqb_spec (rp_id y) (rp_id r)) as [E|]; [|done]. destruct Hn. rewrite <-E. by apply list_elem_of_In, in_map.
Qed.

Lemma run_container_new a r n s l : replicas s = l ++ [r] -> rp_id r ∉ map rp_id l ->
  match _run_replica_container a r n s with
  | (Ok _, s') => exists r', replicas s' = l ++ [r'] /\ rkey r' = rkey r /\ rp_created_at r' = rp_created_at r /\
      (rp_status r' = "running" \/ rp_status r' = "error") /\ rest_db (db_of s') = rest_db (db_of s)
  | (Err _, _) => True
  end.
Proof.
  intros Hl Hn. unfold _run_replica_container, docker_try. match goal with |- context [on_host ?m s] => pose proof (host_db m s) as Hdb;
    assert (replicas (on_host m s).2 = replicas s) as Hr by exact (f_equal d_replicas Hdb); destruct (on_host m s) as [[u|e] s1] end; cbn [snd] in *.
  - cbn. exists (with_replica r (Some u) "running"). rewrite Hr, Hl, put_new by done. split; [done|]. split; [done|]. split; [done|]. split; [by left|].
    exact (f_equal rest_db Hdb).
  - destruct e as [| | | | |[]| | |]; try done; cbn; exists (with_replica r (rp_container_id r) "error"); rewrite Hr, Hl, put_new by done;
      (split; [done|]; split; [done|]; split; [done|]; split; [by right|exact (f_equal rest_db Hdb)]).
Qed.

Lemma create_replica_run a s r s' : _create_replica a s = (Ok r, s') ->
  exists r', replicas s' = replicas s ++ [r'] /\ rp_agent_id r' = a_id a /\ (rp_status r' = "running" \/ rp_status r' = "error") /\
    rest_db (db_of s') = rest_db (db_of s).
Proof.
  unfold _create_replica, _get_replicas. unfold mbind at 1, stm_bind at 1. cbv beta iota. unfold mbind at 1, stm_bind at 1.
  match goal with |- context [on_host ?m s] => pose proof (host_db m s) as H0db; destruct (on_host m s) as [[d|e] s1] end; [|done].
  cbn [snd] in H0db. destruct (generate_replica_name _ _ _ _) as [name|[m]]; [|done].
  unfold mbind at 1, stm_bind at 1. pose proof (stays_ask (fun d => d = db_of s) uuid4 s1 H0db) as Ka.
  destruct (ask_out uuid4 s1) as [[id|e] s2]; [|done]. unfold mbind at 1, stm_bind at 1.
  pose proof (stays_ask (fun d => d = db_of s) now s2 Ka) as Kb. destruct (ask_out now s2) as [[t|e] s3]; [|done].
  set (r0 := Replica id (a_id a) name None "creating" None t). unfold insert, mbind, stm_bind, getS.
  destruct (existsb (same_replica r0) (replicas s3)) eqn:E; [done|]. cbn [set_replicas modS].
  unfold set_replicas, modS. match goal with |- context [_run_replica_container a r0 ?n ?s4] => pose proof (run_container_new a r0 n s4 (replicas s3) eq_refl) as Hrun end.
  assert (rp_id r0 ∉ map rp_id (replicas s3)) as Hn.
  { eapply existsb_fresh; [exact E|]. intros y Hy. unfold same_replica, same_id. by rewrite Hy, String.eqb_refl. }
  specialize (Hrun Hn). destruct (_run_replica_container a r0 _ _) as [[u|e] s5]; [|done]. intros [= <- <-].
  destruct Hrun as (r' & Hr' & [= _ Hag _] & _ & Hst & Hdb). exists r'. 
  rewrite Hr'. pose proof (f_equal d_replicas Kb) as Hrep. cbn in Hrep. rewrite Hrep. split; [done|]. split; [done|]. split; [done|].
  rewrite Hdb. exact (f_equal rest_db Kb).
Qed.

Lemma create_replicas_run n a : forall s u s', create_replicas n a s = (Ok u, s') ->
  exists new, replicas s' = replicas s ++ new /\ length new = n /\ Forall (fun r => rp_agent_id r = a_id a) new /\
    rest_db (db_of s') = rest_db (db_of s).
Proof.
  induction n as [|n IH]; intros s u s'; cbn [create_replicas].
  - intros [= _ <-]. exists []. by rewrite app_nil_r.
  - intros (r & s1 & H1 & H2)%stm_bind_Ok. apply create_replica_run in H1 as (r' & E1 & Ha & _ & D1). apply IH in H2 as (new & E2 & Hl & Hf & D2).
    exists (r' :: new). rewrite E2, E1, <-app_assoc. split; [done|]. split; [cbn; by rewrite Hl|]. split; [by constructor|]. by rewrite D2.
Qed.
End scaling.

Section scaled.
Context `{Outside} `{Host}.

Lemma filter_all {A} (p : A -> bool) l : (forall x, p x = true) -> List.filter p l = l.
Proof. intros Hp. induction l as [|x l IH]; cbn; [done|]. by rewrite Hp, IH. Qed.

(** The rows of a run of deletions. *)
Lemma remove_replicas_run l : forall s u s', remove_replicas l s = (Ok u, s') ->
  replicas s' = List.filter (fun x => negb (str_in (rp_id x) (map rp_id l))) (replicas s) /\
  records s' = records s.
Proof.
  induction l as [|r l IH]; intros s u s'; cbn [remove_replicas].
  - intros [= _ <-]. split; [|done]. symmetry. apply filter_all. intros x. unfold str_in. by rewrite bool_decide_false by apply not_elem_of_nil.
  - intros (v & s1 & H1 & H2)%stm_bind_Ok. apply stm_bind_Ok in H2 as (v2 & s2 & H2 & H3). apply stm_bind_Ok in H3 as (v3 & s3 & H3 & H4).
    apply IH in H4 as [E4 R4]. pose proof (stop_container_stays (fun d => d = db_of s) r s eq_refl) as K1. rewrite H1 in K1.
    pose proof (remove_container_stays (fun d => d = db_of s) r s1 K1) as K2. rewrite H2 in K2.
    unfold delete_replica in H3. cbn in H3. injection H3 as _ <-. cbn in E4, R4. rewrite R4, E4.
    pose proof (f_equal d_replicas K2) as E5. pose proof (f_equal d_agents K2) as E6. cbn in E5, E6. rewrite E5, E6. split; [|done]. clear.
    induction (replicas s) as [|x k IHk]; cbn; [done|]. unfold str_in in *.
    destruct (String.eqb_spec (rp_id x) (rp_id r)) as [E|E]; cbn.
    + rewrite IHk. rewrite (bool_decide_true (rp_id x ∈ _)); [done|]. rewrite E. set_solver.
    + rewrite IHk. assert (bool_decide (rp_id x ∈ rp_id r :: map rp_id l) = bool_decide (rp_id x ∈ map rp_id l)) as ->; [|done].
      apply bool_decide_ext. set_solver.
Qed.

Lemma of_agent_app id l new : Forall (fun r => rp_agent_id r = id) new ->
  List.filter (of_agent id) (l ++ new) = List.filter (of_agent id) l ++ new.
Proof.
  intros Hn. induction l as [|x l IH]; cbn.
  - induction Hn as [|x new Hx _ IH]; cbn; [done|]. unfold of_agent at 1. by rewrite Hx, String.eqb_refl, IH.
  - by destruct (of_agent id x); cbn; rewrite IH.
Qed.

Lemma length_replicas_of id s : length (replicas_of id s) = length (List.filter (of_agent id) (replicas s)).
Proof. unfold replicas_of. by rewrite order_by_perm. Qed.

(** Removing some of the replicas of an agent. *)
Lemma filter_removed id (l gone : list replica) :
  NoDup (map rp_id l) -> NoDup (map rp_id gone) -> (forall r, r ∈ gone -> r ∈ l /\ rp_agent_id r = id) ->
  let l' := List.filter (fun x => negb (str_in (rp_id x) (map rp_id gone))) l in
  length (List.filter (of_agent id) l') = (length (List.filter (of_agent id) l) - length gone)%nat /\
  (forall r, r ∈ l -> r ∉ l' <-> r ∈ gone).
Proof.
  intros Hnd Hng Hin l'.
  assert (forall r, r ∈ l -> (str_in (rp_id r) (map rp_id gone) = true <-> r ∈ gone)) as Hiff.
  { intros r Hr. unfold str_in. rewrite bool_decide_eq_true. split.
    - intros (x & Hx & Hg)%list_elem_of_In%in_map_iff. apply list_elem_of_In in Hg. destruct (Hin x Hg) as [Hxl _].
      by rewrite (NoDup_map_inj rp_id l r x).
    - intros Hg. by apply elem_of_map_intro. }
  split.
  - assert (gone ≡ₚ List.filter (fun x => str_in (rp_id x) (map rp_id gone)) (List.filter (of_agent id) l)) as Hp.
    { apply NoDup_Permutation; [by eapply NoDup_fmap_1|..].
      - eapply NoDup_fmap_1. apply (NoDup_filter_map rp_id), (NoDup_filter_map rp_id), Hnd.
      - intros r. rewrite !elem_of_filter_bool. split.
        + intros Hg. destruct (Hin r Hg) as [Hl Ha]. split; [split; [done|]|by apply Hiff]. unfold of_agent. by rewrite Ha, String.eqb_refl.
        + intros [[Hl _] Hs]. by apply Hiff. }
    rewrite (Permutation_length Hp). subst l'. clear. induction l as [|x l IH]; cbn; [done|].
    assert (length (List.filter (fun x => str_in (rp_id x) (map rp_id gone)) (List.filter (of_agent id) l)) <= length (List.filter (of_agent id) l))%nat
      by apply filter_length_le.
    destruct (of_agent id x) eqn:Ea; cbn; destruct (str_in (rp_id x) (map rp_id gone)) eqn:Es; cbn; rewrite ?Ea; cbn; lia.
  - intros r Hr. subst l'. rewrite elem_of_filter_bool, negb_true_iff. specialize (Hiff r Hr).
    destruct (str_in (rp_id r) (map rp_id gone)); [|destruct Hiff as [_ Hi]; split; [tauto|intros Hg; by apply Hi in Hg]].
    split; [intros _; by apply Hiff|by intros _ [_ ?]].
Qed.

Lemma insert_by_sorted (le : replica -> replica -> bool) x l :
  (forall a b, le a b = true \/ le b a = true) -> (forall a b c, le a b = true -> le b c = true -> le a c = true) ->
  StronglySorted (fun a b => le a b = true) l -> StronglySorted (fun a b => le a b = true) (insert_by le x l).
Proof.
  intros Htot Htr. induction 1 as [|y l Hs IH Hy]; cbn; [by constructor; [constructor|]|].
  destruct (le x y) eqn:E.
  - constructor; [by constructor|]. constructor; [done|]. eapply Forall_impl; [exact Hy|]. intros z Hz. by eapply Htr.
  - constructor; [done|]. destruct (Htot x y) as [?|Hyx]; [congruence|].
    rewrite insert_by_perm. by constructor.
Qed.

Lemma newest_sorted l : StronglySorted (fun a b => newest_first a b = true) (order_by newest_first l).
Proof.
  induction l as [|x l IH]; [constructor|]. cbn. fold (order_by newest_first l). apply insert_by_sorted; [| |done]; unfold newest_first; intros; lia.
Qed.

Lemma sorted_take {A} (R : A -> A -> Prop) n l a b : StronglySorted R l -> a ∈ take n l -> b ∈ drop n l -> R a b.
Proof.
  intros Hs. revert n. induction Hs as [|x l Hs IH Hx]; intros [|n]; cbn; try (by intros ?%not_elem_of_nil).
  intros [->|Ha]%elem_of_cons Hb; [|by eapply IH]. rewrite Forall_forall in Hx. apply Hx. rewrite <-(take_drop n l), elem_of_app. by right.
Qed.
Lemma get_agent_Ok acc name s a s' : get_agent acc name s = (Ok a, s') -> s' = s /\ a ∈ records s /\ named acc name a = true.
Proof.
  unfold get_agent, mbind, stm_bind. pose proof (one_triple (fun d => d = db_of s) records (named acc name) s eq_refl) as Ho.
  unfold one in *. destruct (List.filter _ (records s)) as [|x [|y l]]; [done| |done]. intros [= <- <-]. by destruct Ho.
Qed.

Lemma tier_Ok tier s cfg s' : get_tier_config tier s = (Ok cfg, s') -> s' = s /\ dict_get tier AGENT_TIER_CONFIG = Some cfg.
Proof. unfold get_tier_config. destruct (dict_get _ _); [by intros [= <- <-]|done]. Qed.

Lemma length_order_by {A} (le : A -> A -> bool) l : length (order_by le l) = length l.
Proof. by rewrite order_by_perm. Qed.

Lemma NoDup_perm {A} (l k : list A) : l ≡ₚ k -> NoDup k -> NoDup l.
Proof. intros Hp Hn. exact (proj2 (NoDup_Permutation_proper l k Hp) Hn). Qed.

(** The replicas of the others. *)
Definition of_others (id : string) (l : list replica) : list replica := List.filter (fun r => negb (of_agent id r)) l.

Lemma others_app id l new : Forall (fun r => rp_agent_id r = id) new -> of_others id (l ++ new) = of_others id l.
Proof.
  intros Hn. unfold of_others. rewrite List.filter_app. assert (List.filter (fun r => negb (of_agent id r)) new = []) as ->; [|by rewrite app_nil_r].
  induction Hn as [|x new Hx _ IH]; cbn; [done|]. unfold of_agent at 1. by rewrite Hx, String.eqb_refl.
Qed.

Lemma others_removed id l gone : (forall r, r ∈ gone -> rp_agent_id r = id) -> NoDup (map rp_id l) -> (forall r, r ∈ gone -> r ∈ l) ->
  of_others id (List.filter (fun x => negb (str_in (rp_id x) (map rp_id gone))) l) = of_others id l.
Proof.
  intros Hg Hnd Hin. unfold of_others.
  assert (forall x, x ∈ l -> negb (of_agent id x) = true -> str_in (rp_id x) (map rp_id gone) = false) as Hx.
  { intros x Hx Hne. unfold str_in. apply bool_decide_false. intros (y & Hy & Hyg)%list_elem_of_In%in_map_iff. apply list_elem_of_In in Hyg.
    assert (y = x) as -> by (apply (NoDup_map_inj rp_id l); auto). unfold of_agent in Hne. by rewrite (Hg x Hyg), String.eqb_refl in Hne. }
  clear Hnd Hin. induction l as [|x l IH]; cbn; [done|]. assert (forall y, y ∈ l -> y ∈ x :: l) as Hsub by set_solver.
  destruct (negb (of_agent id x)) eqn:E; [rewrite (Hx x (ltac:(set_solver)) E); cbn; rewrite E|].
  - f_equal. apply IH. intros y Hy. apply Hx. by apply Hsub.
  - destruct (negb (str_in _ _)); cbn; rewrite ?E; apply IH; intros y Hy; apply Hx; by apply Hsub.
Qed.
End scaled.

Section scale.
Context `{Outside} `{Host}.

(** What a number of replicas is reached by. *)
Definition scaled (id : string) (target : Z) (s s' : fleet) : Prop :=
  let old := replicas_of id s in let new := replicas_of id s' in
  Z.of_nat (length new) = Z.max 0 target /\
  of_others id (replicas s') = of_others id (replicas s) /\
  (Z.of_nat (length old) <= target -> forall r, r ∈ old -> r ∈ new) /\
  (target <= Z.of_nat (length old) -> (forall r, r ∈ new -> r ∈ old) /\
     forall r k, r ∈ old -> r ∉ new -> k ∈ new -> rp_created_at k <= rp_created_at r).

Lemma scaled_up id n s s' new : replicas s' = replicas s ++ new -> Forall (fun r => rp_agent_id r = id) new -> length new = n ->
  scaled id (Z.of_nat (length (replicas_of id s)) + Z.of_nat n) s s'.
Proof.
  intros Hr Hn Hl. unfold scaled. rewrite !length_replicas_of, Hr, of_agent_app, length_app, Hl by done.
  split; [lia|]. split; [by rewrite others_app|]. split.
  - intros _ r [Hin Hid]%elem_of_replicas_of. apply elem_of_replicas_of. rewrite Hr. split; [set_solver|done].
  - intros Hle. assert (new = []) as -> by (apply nil_length_inv; lia). rewrite app_nil_r in Hr.
    assert (forall r, r ∈ replicas_of id s' <-> r ∈ replicas_of id s) as Hiff by (intros r; by rewrite !elem_of_replicas_of, Hr).
    split; [intros r; by apply Hiff|]. intros r k Hr1 Hr2. by apply Hiff in Hr1.
Qed.

Lemma scaled_down id target s s' : wf (db_of s) -> target < Z.of_nat (length (replicas_of id s)) ->
  let gone := take (Z.to_nat (Z.of_nat (length (replicas_of id s)) - target)) (order_by newest_first (replicas_of id s)) in
  replicas s' = List.filter (fun x => negb (str_in (rp_id x) (map rp_id gone))) (replicas s) ->
  scaled id target s s'.
Proof.
  intros Hw Hlt gone Hr. pose proof Hw as []. cbn in *. set (sorted := order_by newest_first (replicas_of id s)) in *.
  set (n := Z.to_nat (Z.of_nat (length (replicas_of id s)) - target)) in *.
  assert (sorted ≡ₚ replicas_of id s) as Hp by apply order_by_perm.
  assert (NoDup (map rp_id sorted)) as Hns.
  { eapply NoDup_perm; [by apply Permutation_map|]. unfold replicas_of. eapply NoDup_perm; [by apply Permutation_map, order_by_perm|]. by apply NoDup_filter_map. }
  assert (NoDup (map rp_id gone)) as Hng by (subst gone; rewrite <-firstn_map; by eapply sublist_NoDup; [|apply sublist_take]).
  assert (forall r, r ∈ gone -> r ∈ replicas s /\ rp_agent_id r = id) as Hg.
  { intros r Hin. apply elem_of_replicas_of. rewrite <-Hp. fold sorted. rewrite <-(take_drop n sorted), elem_of_app. by left. }
  destruct (filter_removed id (replicas s) gone wf_replica_ids0 Hng Hg) as [Hlen Hmem]. rewrite <-Hr in Hlen, Hmem.
  unfold scaled. rewrite !length_replicas_of in *. split; [|split; [|split]].
  - rewrite Hlen. subst gone. rewrite length_take. subst sorted. rewrite length_order_by. unfold n. rewrite !length_replicas_of. lia.
  - rewrite Hr. apply others_removed; [|done|]; intros r Hin; by apply Hg.
  - intros. lia.
  - intros _. assert (forall r, r ∈ replicas_of id s' -> r ∈ replicas_of id s) as Hsub.
    { intros r. rewrite !elem_of_replicas_of, Hr, elem_of_filter_bool. tauto. }
    split; [done|]. intros r k Hr1 Hr2 Hk. apply elem_of_replicas_of in Hr1 as [Hr1 Hid].
    assert (r ∈ gone) as Hrg by (apply Hmem; [done|]; intros Hin; apply Hr2, elem_of_replicas_of; done).
    assert (k ∈ drop n sorted) as Hkd.
    { pose proof (Hsub k Hk) as Hk1. rewrite <-Hp in Hk1. rewrite <-(take_drop n sorted) in Hk1. apply elem_of_app in Hk1 as [Hk1|]; [|done].
      apply elem_of_replicas_of in Hk as [Hk _]. exfalso. pose proof (Hg k Hk1) as [Hks _]. apply (proj2 (Hmem k Hks)); done. }
    pose proof (sorted_take _ n sorted r k (newest_sorted _) Hrg Hkd) as Hle. unfold newest_first in Hle. lia.
Qed.
End scale.

(** ** What scaling and destruction do *)

Section scaled_exactly.
Context `{Outside} `{Host}.

Lemma in_put {A} (key : A -> string) (x : A) l : key x ∈ map key l -> x ∈ put key x l.
Proof.
  intros (y & Hy & Hin)%list_elem_of_In%in_map_iff. apply list_elem_of_In, in_map_iff. exists y. by rewrite Hy, String.eqb_refl.
Qed.

Lemma update_status_Ok a s b s' : update_status a s = (Ok b, s') ->
  replicas s' = replicas s /\ records s' = put a_id b (records s) /\
  b = with_status a (_derive_agent_status (agent_status a) (replicas_of (a_id a) s')).
Proof. intros [= <- <-]. done. Qed.

(** The middle of [scale_agent]. *)
Lemma scale_middle a target s u s' : wf (db_of s) ->
  (let l := replicas_of (a_id a) s in
   if Z.of_nat (length l) <? target then create_replicas (Z.to_nat (target - Z.of_nat (length l))) a
   else if target <? Z.of_nat (length l) then
     remove_replicas (take (Z.to_nat (Z.of_nat (length l) - target)) (order_by newest_first l))
   else mret tt) s = (Ok u, s') ->
  scaled (a_id a) target s s' /\ records s' = records s.
Proof.
  intros Hw. cbv zeta. destruct (Z.ltb_spec (Z.of_nat (length (replicas_of (a_id a) s))) target) as [Hlt|Hge].
  - intros (new & Hr & Hl & Hf & Hd)%create_replicas_run. split; [|exact (f_equal d_agents Hd)].
    pose proof (scaled_up (a_id a) _ s s' new Hr Hf Hl) as Hs. by rewrite Z2Nat.id, Zplus_minus in Hs by lia.
  - destruct (Z.ltb_spec target (Z.of_nat (length (replicas_of (a_id a) s)))) as [Hlt|Hge2].
    + intros [Hr Hrec]%remove_replicas_run. split; [by apply scaled_down|done].
    + intros [= _ <-]. split; [|done]. replace target with (Z.of_nat (length (replicas_of (a_id a) s)) + Z.of_nat 0) by lia.
      apply (scaled_up _ _ _ _ []); [by rewrite app_nil_r|constructor|done].
Qed.

Lemma scale_agent_cases acc name target tier s b s' : scale_agent acc name target tier s = (Ok b, s') ->
  exists a cfg sm u, a ∈ records s /\ named acc name a = true /\ dict_get tier AGENT_TIER_CONFIG = Some cfg /\
    Z.of_nat (length (List.filter (replica_of_account acc (records s)) (replicas s)))
      - Z.of_nat (length (replicas_of (a_id a) s)) + target <= max_agents cfg /\
    (let l := replicas_of (a_id a) s in
     if Z.of_nat (length l) <? target then create_replicas (Z.to_nat (target - Z.of_nat (length l))) (with_target a target)
     else if target <? Z.of_nat (length l) then
       remove_replicas (take (Z.to_nat (Z.of_nat (length l) - target)) (order_by newest_first l))
     else mret tt) (put_record (with_target a target) s).2 = (Ok u, sm) /\
    update_status (with_target a target) sm = (Ok b, s').
Proof.
  unfold scale_agent. intros (a & s1 & (-> & Ha & Hn)%get_agent_Ok & H1)%stm_bind_Ok.
  apply stm_bind_Ok in H1 as (cfg & s2 & (-> & Hc)%tier_Ok & H1).
  apply stm_bind_Ok in H1 as (l & s3 & Hl & H1). injection Hl as <- <-.
  apply stm_bind_Ok in H1 as (tot & s4 & Ht & H1). injection Ht as <- <-.
  match type of H1 with context [if ?c then _ else _] => destruct c eqn:Ec end; [done|]. apply Z.ltb_ge in Ec.
  apply stm_bind_Ok in H1 as (v & s5 & Hp & H1). injection Hp as _ <-.
  apply stm_bind_Ok in H1 as (u & s6 & Hm & H1).
  exists a, cfg, s6, u. do 4 (split; [done|]). split; [exact Hm|exact H1].
Qed.

Lemma wf_put_target a n s : wf (db_of s) -> a ∈ records s -> wf (db_of (put_record (with_target a n) s).2).
Proof.
  intros Hw Ha. pose proof (wf_valid _ Hw) as wf_valid0. pose proof (wf_tokens _ Hw) as wf_tokens0. pose proof (Forall_elem _ _ _ wf_valid0 Ha) as Hv. unfold valid_agent in Hv.
  repeat (apply andb_true_iff in Hv as [Hv ?]).
  destruct (wf_put_agent (db_of s) (with_target a n)) as [K _]; [done|exact (elem_of_map_intro core (records s) a Ha)| | | |exact K].
  - change (agent_status (with_target a n)) with (agent_status a). eapply bool_decide_eq_true_1. eassumption.
  - change (auto_channel (row (with_target a n))) with (auto_channel (row a)). destruct (auto_channel (row a)); [|done].
    eapply bool_decide_eq_true_1. eassumption.
  - intros x t Hx Hx1 Hx2. change (a_id (with_target a n)) with (a_id a). by eapply wf_tokens0.
Qed.

(** [scale_agent] makes exactly the number of replicas asked for, of the
    agent asked for: it refuses a number that takes the account past the slots
    of its tier, adds or removes only what is missing or in excess, removes the
    newest replicas first, leaves the replicas of other agents alone, and stores
    the target and the status that the replicas now give. *)
Theorem scale_exact acc name target tier s b s' : wf (db_of s) -> scale_agent acc name target tier s = (Ok b, s') ->
  exists a cfg, a ∈ records s /\ named acc name a = true /\ dict_get tier AGENT_TIER_CONFIG = Some cfg /\
    Z.of_nat (length (List.filter (replica_of_account acc (records s)) (replicas s)))
      - Z.of_nat (length (replicas_of (a_id a) s)) + target <= max_agents cfg /\
    scaled (a_id a) target s s' /\
    b ∈ records s' /\ a_id b = a_id a /\ target_replicas b = target /\
    agent_status b = _derive_agent_status (agent_status a) (replicas_of (a_id a) s').
Proof.
  intros Hw (a & cfg & sm & u & Ha & Hn & Hc & Hmax & Hm & Hu)%scale_agent_cases. exists a, cfg.
  pose proof (scale_middle (with_target a target) target _ u sm (wf_put_target a target s Hw Ha) Hm) as [Hs Hr].
  apply update_status_Ok in Hu as (Er & Eq & ->). split; [exact Ha|]. split; [exact Hn|]. split; [exact Hc|]. split; [exact Hmax|].
  split; [unfold scaled, replicas_of in *; rewrite Er; exact Hs|].
  split; [|done]. rewrite Eq, Hr. apply in_put. cbn. rewrite map_put by (intros y _ E; exact E).
  exact (elem_of_map_intro a_id (records s) a Ha).
Qed.
End scaled_exactly.

(** ** The end of an agent *)

Section ending.
Context `{Outside} `{Host}.

Lemma eqb_neq_true x y : negb (String.eqb x y) = true <-> x <> y.
Proof. rewrite negb_true_iff. apply String.eqb_neq. Qed.

(** Every row that a foreign key leads from to the agent. *)
Definition nothing_of (id : string) (d : db) : Prop :=
  id ∉ map a_id (d_agents d) /\ id ∉ map rp_agent_id (d_replicas d) /\ id ∉ map sc_agent_id (d_schedules d) /\
  id ∉ map wh_agent_id (d_webhooks d) /\ id ∉ map ch_agent_id (d_channels d) /\ id ∉ map ag_id (d_state_agents d) /\
  id ∉ map e_agent_id (d_entries d) /\ id ∉ map jb_agent_id (d_jobs d) /\ id ∉ map fr_agent_id (d_fires d) /\
  id ∉ map (fun r => run_agent_id r.1) (d_runs d).

(** The rows of the agents other than [id], and of the jobs and fires of their
    schedules; references to rows of [id] are emptied. *)
Definition others_kept (id : string) (d d' : db) : Prop :=
  (forall x, x ∈ d_agents d -> a_id x <> id -> forget_source id x ∈ d_agents d') /\
  (forall x, x ∈ d_replicas d -> rp_agent_id x <> id -> x ∈ d_replicas d') /\
  (forall x, x ∈ d_schedules d -> sc_agent_id x <> id -> x ∈ d_schedules d') /\
  (forall x, x ∈ d_webhooks d -> wh_agent_id x <> id -> x ∈ d_webhooks d') /\
  (forall x, x ∈ d_channels d -> ch_agent_id x <> id -> x ∈ d_channels d') /\
  (forall x, x ∈ d_entries d -> e_agent_id x <> id -> x ∈ d_entries d') /\
  (forall x, x ∈ d_jobs d -> jb_agent_id x <> id ->
     (forall y, y ∈ d_schedules d -> sc_id y = jb_schedule_id x -> sc_agent_id y <> id) -> x ∈ d_jobs d') /\
  (forall x, x ∈ d_fires d -> fr_agent_id x <> id -> (forall y, y ∈ d_schedules d -> sc_id y = fr_schedule_id x -> sc_agent_id y <> id) ->
     forget_run (run_of id (d_runs d)) x ∈ d_fires d') /\
  (forall r, r ∈ d_runs d -> run_agent_id r.1 <> id -> forget_schedule (schedule_of id (d_schedules d)) r ∈ d_runs d') /\
  d_log d' = map (forget_logged_run (run_of id (d_runs d))) (d_log d).

Lemma not_in_filtered {A} (f : A -> string) id l : id ∉ map f (List.filter (fun x => negb (String.eqb (f x) id)) l).
Proof. intros (x & Hx & [_ Hn]%filter_In)%list_elem_of_In%in_map_iff. by apply eqb_neq_true in Hn. Qed.

Lemma filtered_in {A} (p : A -> bool) l x : x ∈ l -> p x = true -> x ∈ List.filter p l.
Proof. intros. by apply elem_of_filter_bool. Qed.

Lemma not_in_filtered_and {A} (f : A -> string) (q : A -> bool) id l :
  id ∉ map f (List.filter (fun x => negb (String.eqb (f x) id || q x)) l).
Proof. intros (x & Hx & [_ Hn]%filter_In)%list_elem_of_In%in_map_iff. subst id. by rewrite String.eqb_refl in Hn. Qed.

Lemma without_nothing a d : nothing_of (a_id a) (without a d).
Proof.
  unfold nothing_of, without. cbv zeta. cbn [d_agents d_replicas d_schedules d_webhooks d_channels d_state_agents d_entries d_jobs d_fires d_runs d_log].
  split; [rewrite map_records_ids; [apply not_in_filtered|intros b; unfold a_id; f_equal; by destruct (forget_same (a_id a) b) as (_ & _ & E & _)]|].
  do 6 (split; [apply not_in_filtered|]). split; [apply not_in_filtered_and|]. rewrite !map_map.
  split; [apply (not_in_filtered_and fr_agent_id)|apply (not_in_filtered (fun r : agent_run * list tool_call => run_agent_id r.1))].
Qed.

Lemma without_others a d : others_kept (a_id a) d (without a d).
Proof.
  unfold others_kept, without. cbv zeta. cbn [d_agents d_replicas d_schedules d_webhooks d_channels d_state_agents d_entries d_jobs d_fires d_runs d_log].
  split; [intros x Hx Hn; apply elem_of_map_intro, filtered_in; [done|by apply eqb_neq_true]|].
  do 5 (split; [intros x Hx Hn; apply filtered_in; [done|by apply eqb_neq_true]|]).
  assert (forall x, (forall y, y ∈ d_schedules d -> sc_id y = x -> sc_agent_id y <> a_id a) -> schedule_of (a_id a) (d_schedules d) x = false) as Hof.
  { intros x Hs. apply not_true_iff_false. intros (y & Hy & [E1 E2]%andb_true_iff)%existsb_exists. apply String.eqb_eq in E1, E2.
    by apply (Hs y); [apply list_elem_of_In| |]. }
  split; [intros x Hx Hn Hs; apply filtered_in; [done|]; apply negb_true_iff, orb_false_iff; split; [by apply String.eqb_neq|by apply Hof]|].
  split; [intros x Hx Hn Hs; apply elem_of_map_intro, filtered_in; [done|]; apply negb_true_iff, orb_false_iff; split; [by apply String.eqb_neq|by apply Hof]|].
  split; [|done]. intros r Hr Hn. apply elem_of_map_intro, filtered_in; [done|by apply eqb_neq_true].
Qed.

(** [C34] [destroy_agent] is complete, whatever Docker answers: no row of the
    agent is left in any table, its namespace is gone and no other one is, every
    row of the other agents stays as it was (with its references to rows that are
    gone emptied: a clone forgets its source), and the tables stay sound. *)
Theorem destroy_complete acc name s b s' : wf (db_of s) -> destroy_agent acc name s = (Ok b, s') ->
  exists a, a ∈ records s /\ named acc name a = true /\ a_id b = a_id a /\
    nothing_of (a_id a) (db_of s') /\ others_kept (a_id a) (db_of s) (db_of s') /\
    (forall n, n ∈ d_namespaces (db_of s') <-> n ∈ d_namespaces (db_of s) /\ n_id n <> a_namespace a) /\
    wf (db_of s').
Proof.
  intros Hw E. pose proof (destroy_triple (db_of s) acc name s eq_refl) as K. rewrite E in K.
  destruct K as (a & Ha & Hn & -> & ->). exists a. split; [exact Ha|]. split; [exact Hn|]. split; [reflexivity|].
  split; [apply without_nothing|]. split; [apply without_others|]. split; [|by apply wf_without].
  intros n. unfold without. cbv zeta. cbn [d_namespaces]. by rewrite elem_of_filter_bool, eqb_neq_true.
Qed.
End ending.

(** ** The slots of a tier *)

Section slots.
Context `{Outside} `{Host}.

Lemma filter_subset_length {A} (p q : A -> bool) l : (forall x, x ∈ l -> p x = true -> q x = true) ->
  (length (List.filter p l) <= length (List.filter q l))%nat.
Proof.
  induction l as [|x l IH]; cbn; [done|]. intros Hpq. pose proof (Hpq x ltac:(by left)) as Hx.
  assert (length (List.filter p l) <= length (List.filter q l))%nat by (apply IH; intros y Hy; apply Hpq; by right).
  destruct (p x); [rewrite Hx by done; cbn; lia|]. destruct (q x); cbn; lia.
Qed.

(** The replicas of an agent are among those of its account. *)
Lemma own_replicas acc name a s : a ∈ records s -> named acc name a = true ->
  (length (replicas_of (a_id a) s) <= length (List.filter (replica_of_account acc (records s)) (replicas s)))%nat.
Proof.
  intros Ha [Hacc _]%andb_true_iff. rewrite length_replicas_of. apply filter_subset_length. intros r _ Hr.
  apply existsb_exists. exists a. split; [by apply list_elem_of_In|]. apply String.eqb_eq in Hr. by rewrite <-Hr, String.eqb_refl.
Qed.

Lemma get_agent_cases acc name s :
  match get_agent acc name s with
  | (Ok a, s') => s' = s /\ a ∈ records s /\ named acc name a = true
  | (Err e, s') => s' = s /\ exists e', e = Service e'
  end.
Proof.
  destruct (get_agent acc name s) as [[a|e] s'] eqn:E; [by apply get_agent_Ok|]. revert E. unfold get_agent, mbind, stm_bind, one.
  destruct (List.filter (named acc name) (records s)) as [|x [|y l]]; cbn; [|done|]; intros [= <- <-]; (split; [done|by eexists]).
Qed.

Definition dedicated : tier_config := TierConfig (-1) 2048 20 15 (-1) 365 (10 * 1024 * 1024).
Lemma dedicated_bind {A} (f : tier_config -> stm fleet exn A) s : (get_tier_config "dedicated-agent" ≫= f) s = f dedicated s.
Proof. reflexivity. Qed.

(** The tier "dedicated-agent", whose [-1] stands for agents without a
    limit in its other uses, has no agent at all: creating one and cloning one
    are refused as past the limit, and so is every number of replicas for one
    that the account has from another tier. *)
Theorem dedicated_tier_has_no_agents acc name new display target s : 0 <= target ->
  (exists e, create_agent acc "dedicated-agent" name display s = (Err (Service e), s)) /\
  (exists e, clone_agent acc name new "dedicated-agent" s = (Err (Service e), s)) /\
  (exists e, scale_agent acc name target "dedicated-agent" s = (Err (Service e), s)).
Proof.
  intros Ht. split; [|split].
  - unfold create_agent. rewrite dedicated_bind. unfold get_agent_count, mbind, stm_bind. cbv beta iota zeta.
    destruct (Z.leb_spec (max_agents dedicated) (Z.of_nat (length (List.filter (of_account acc) (records s))))) as [_|Hc]; [by eexists|].
    cbn in Hc. lia.
  - unfold clone_agent. rewrite dedicated_bind. unfold get_agent_count, mbind, stm_bind. cbv beta iota zeta.
    destruct (Z.leb_spec (max_agents dedicated) (Z.of_nat (length (List.filter (of_account acc) (records s))))) as [_|Hc]; [by eexists|].
    cbn in Hc. lia.
  - unfold scale_agent. unfold mbind at 1, stm_bind at 1. pose proof (get_agent_cases acc name s) as Hg.
    destruct (get_agent acc name s) as [[a|e] s1]; [|destruct Hg as [-> (e' & ->)]; by eexists].
    destruct Hg as (-> & Ha & Hn). pose proof (own_replicas acc name a s Ha Hn) as Hle. rewrite dedicated_bind.
    unfold _get_replicas, get_total_replica_count, mbind, stm_bind. cbv beta iota zeta.
    match goal with |- context [max_agents dedicated <? ?t] => destruct (Z.ltb_spec (max_agents dedicated) t) as [_|Hc] end; [by eexists|].
    cbn in Hc. lia.
Qed.
End slots.

(** ** The interval of a schedule *)

Lemma step_bounds t (k : Z) : 0 < k -> match int_of_text t with Some n => n * k | None => k end < k ->
  exists n, int_of_text t = Some n /\ n <= 0.
Proof. intros Hk. destruct (int_of_text t) as [n|]; intros Hn; [exists n; split; [done|nia]|lia]. Qed.

(** The test of the minimal interval refuses only a step of zero or less: every
    other expression counts as one minute at least, and no tier asks for more.
    A sixth field, of seconds, is not looked at. *)
Lemma interval_test_refuses cron tier cfg : dict_get tier AGENT_TIER_CONFIG = Some cfg ->
  _cron_min_interval_seconds cron < min_schedule_seconds cfg ->
  exists field t n, field ∈ take 2 (words (str_strip cron)) /\ field_step field = Some t /\ int_of_text t = Some n /\ n <= 0.
Proof.
  intros Hc Hlt. assert (min_schedule_seconds cfg <= 60) as Hmin.
  { revert Hc. unfold AGENT_TIER_CONFIG. cbn [dict_get]. repeat (destruct (String.eqb _ _); [intros [= <-]; cbn; lia|]). done. }
  assert (_cron_min_interval_seconds cron < 60) as H60 by lia. clear Hlt Hc Hmin. revert H60. unfold _cron_min_interval_seconds.
  destruct (words (str_strip cron)) as [|mf [|hf l]]; [cbn; lia|cbn; lia|].
  destruct (length (mf :: hf :: l) <? 5)%nat; [lia|]. cbn [nth]. destruct (String.eqb mf "*"); [lia|].
  destruct (field_step mf) as [t|] eqn:E1.
  - intros (n & Hn & Hle)%step_bounds; [|lia]. exists mf, t, n. split; [apply elem_of_cons; by left|done].
  - destruct (String.eqb hf "*"); [lia|]. destruct (field_step hf) as [t|] eqn:E2; [|lia].
    intros Hlt. destruct (step_bounds t 3600) as (n & Hn & Hle); [lia|destruct (int_of_text t); lia|].
    exists hf, t, n. split; [|done]. apply elem_of_cons. right. by apply list_elem_of_singleton.
Qed.

Example interval_demo :
  map _cron_min_interval_seconds ["*/5 * * * *"; "0 * * * *"; "0 */2 * * *"; "0 9 * * 1"; "* * * * * */5"; "*/0 * * * *"]
  = [300; 60; 7200; 3600; 60; 0].
Proof. by vm_compute. Qed.

(** An unknown channel is refused after the other columns are assigned: who
    answers the error without a rollback commits them. *)
Lemma bad_channel_half_applied `{Outside} `{Host} `{Aead} `{Crypto} (b64decode : string -> string) kek_b64
    acc name engine model prompt c a s :
  get_agent acc name s = (Ok a, s) -> c ∉ CHANNEL_TYPES ->
  let r := configure_ai b64decode kek_b64 acc name engine model None prompt (Some (Some c)) s in
  r.1 = Err (BadValue ("Invalid auto_channel type: " +:+ c)) /\
  records r.2 = put a_id (with_row a (with_engine (row a) engine model None prompt None)) (records s).
Proof.
  intros Ha Hc r. subst r. assert (str_in c CHANNEL_TYPES = false) as E by by apply bool_decide_eq_false.
  unfold configure_ai, mbind, stm_bind. rewrite Ha. cbn [truthy_ostr mret stm_ret]. rewrite E. done.
Qed.

(** ** Examples *)

(** A machine: the names of its containers, and how many names were drawn. *)
Record machine := Machine { running : list string; drawn : nat }.

Definition found (name : string) (h : machine) : bool := str_in name (running h).

#[export] Instance laptop : Host := {|
  host := machine;
  name_draws h := ((fun i => ((i + drawn h)%nat, i), all_names), Machine (running h) (S (drawn h)));
  network_get name h := (Err DockerNotFound, h);
  network_create name h := (Ok tt, h);
  container_get name h := (if found name h then Ok name else Err DockerNotFound, h);
  container_run spec h := (Ok (cs_name spec), Machine (running h ++ [cs_name spec]) (drawn h));
  container_start id h := (Ok tt, h);
  container_stop id h := (Ok tt, h);
  container_restart id h := (Ok tt, h);
  container_remove id h := (Ok tt, Machine (List.filter (fun x => negb (String.eqb x id)) (running h)) (drawn h));
  probe url headers h := (Some 200, h);
  lazy_loads := false;
  valid_zone zone := String.eqb zone "UTC";
  cron_next cron zone t := Some (t + 60)
|}.

(** [scripted], with an identifier of its own for every row. *)
#[local] Instance ticking : Outside := {|
  outside := script;
  monotonic := @monotonic scripted;
  uuid4 o := ("id-" +:+ str_of_Z (s_clock o), Script (s_clock o + 1) (s_replies o));
  random_bytes := @random_bytes scripted;
  now o := (s_clock o, Script (s_clock o + 1) (s_replies o));
  chat_with_tools := @chat_with_tools scripted;
  sandbox_execute := @sandbox_execute scripted;
  mcp_call_tool := @mcp_call_tool scripted;
  api_call_tool := @api_call_tool scripted;
  post_webhook := @post_webhook scripted;
  load_mcp_tools := @load_mcp_tools scripted;
  load_api_tools := @load_api_tools scripted;
  token_urlsafe o := ("token-" +:+ str_of_Z (s_clock o), Script (s_clock o + 1) (s_replies o));
  lib_text := @lib_text scripted
|}.

Definition no_tables : pstore := PStore (Store (Tables [] [] [] [] [] []) [] [] ∅) [] [] [].
(** Two agents of two accounts, from before there were replicas. *)
Definition old_agent (id account_id ns name : string) : agent_record :=
  AgentRecord (new_row id account_id ns name) None "stopped" None 512 5 true None 1 None false None None None 0.
Definition old_agents : list agent_record := [old_agent "a1" "acc1" "n1" "bot"; old_agent "a2" "acc2" "n2" "owl"].
Definition owl_run : agent_run :=
  AgentRun "a2" (Some "r2") "cron" None "completed" "completed" None None None 5 None 1 None None.
Definition old_fleet : fleet :=
  Fleet (World (PStore (Store (Tables [] [Namespaces.Account "acc1" "u1"; Namespaces.Account "acc2" "u2"]
                                 [Namespace "n1" "acc1" "bot" None None None 0 None; Namespace "n2" "acc2" "owl" None None None 0 None]
                                 [] [] []) [] [] ∅) [] [] [])
           (St (map state_agent old_agents) [] None) [] []
           [(owl_run, [])] (Sec [] ∅) (Script 0 [])) old_agents [] [] [] [] [] (Machine [] 0).

Lemma old_fleet_wf : wf (db_of old_fleet).
Proof.
  split; cbn; try (by repeat constructor); try (apply (bool_decide_unpack _); by vm_compute).
  - constructor; [|constructor; [|done]].
    + eexists. split; [apply elem_of_cons; by left|done].
    + eexists. split; [apply elem_of_cons; right; by apply list_elem_of_singleton|done].
  - intros a b t [->|[->|[]%not_elem_of_nil]%elem_of_cons]%elem_of_cons [->|[->|[]%not_elem_of_nil]%elem_of_cons]%elem_of_cons; cbn; congruence.
Qed.

Definition demo_ops : list op :=
  [ScaleAgent "acc1" "bot" 3 "pro-agent"; StartAgent "acc2" "owl" None;
   AddSchedule "acc1" "bot" "s.f" "*/5 * * * *" "UTC" PNone "pro-agent" "direct" "single";
   AddWebhook "acc1" "bot" "hook" "s.f" (Some "secret") "direct"; ScaleAgent "acc2" "owl" 2 "pro-agent";
   CreateAgent "acc2" "pro-agent" "bot" None; CreateAgent "acc2" "pro-agent" "jay" None;
   CloneAgent "acc1" "bot" "cub" "pro-agent"; AddWebhook "acc2" "owl" "hook" "s.f" None "direct"].
Definition run_demo (l : list op) (s : fleet) : fleet := run_ops (fun x => x) demo_kek l s.
Definition demo_fleet : fleet := run_demo demo_ops old_fleet.

(** No agent was created: the name "bot" is that of the namespace of another account,
    and for "jay" the replicas were not loaded. *)
Example demo_fleet_rows :
  map a_name (records demo_fleet) = ["bot"; "owl"; "cub"] /\ length (replicas demo_fleet) = 5%nat /\
  map sc_enabled (schedules demo_fleet) = [true; false] /\ map wh_path (webhooks demo_fleet) = ["hook"; "hook"].
Proof. by vm_compute. Qed.

Lemma demo_fleet_wf : wf (db_of demo_fleet).
Proof. apply run_ops_wf, old_fleet_wf. Qed.

Lemma fleet_well_formed_witness :
  wf (db_of old_fleet) /\ map a_name (records (run_demo demo_ops old_fleet)) = ["bot"; "owl"; "cub"] /\
  wf (db_of (run_demo demo_ops old_fleet)) /\
  forall name path, (exists x, resolve_webhook name path (run_demo demo_ops old_fleet) = (Ok (Some x), run_demo demo_ops old_fleet)) \/
    resolve_webhook name path (run_demo demo_ops old_fleet) = (Ok None, run_demo demo_ops old_fleet).
Proof.
  split; [exact old_fleet_wf|]. split; [vm_compute; reflexivity|].
  exact (@fleet_well_formed ticking laptop toy_aead toy_crypto (fun x => x) demo_kek demo_ops old_fleet old_fleet_wf).
Defined.

Lemma scale_exact_witness :
  exists b s', scale_agent "acc1" "bot" 1 "pro-agent" demo_fleet = (Ok b, s') /\
  exists a cfg, a ∈ records demo_fleet /\ named "acc1" "bot" a = true /\ dict_get "pro-agent" AGENT_TIER_CONFIG = Some cfg /\
    Z.of_nat (length (List.filter (replica_of_account "acc1" (records demo_fleet)) (replicas demo_fleet)))
      - Z.of_nat (length (replicas_of (a_id a) demo_fleet)) + 1 <= max_agents cfg /\
    scaled (a_id a) 1 demo_fleet s' /\
    b ∈ records s' /\ a_id b = a_id a /\ target_replicas b = 1 /\
    agent_status b = _derive_agent_status (agent_status a) (replicas_of (a_id a) s').
Proof.
  destruct (scale_agent "acc1" "bot" 1 "pro-agent" demo_fleet) as [[b|e] s'] eqn:E; [|vm_compute in E; discriminate].
  exists b, s'. split; [reflexivity|].
  exact (scale_exact "acc1" "bot" 1 "pro-agent" demo_fleet b s' demo_fleet_wf E).
Defined.

Lemma destroy_complete_witness :
  exists b s', destroy_agent "acc1" "bot" demo_fleet = (Ok b, s') /\
  exists a, a ∈ records demo_fleet /\ named "acc1" "bot" a = true /\ a_id b = a_id a /\
    nothing_of (a_id a) (db_of s') /\ others_kept (a_id a) (db_of demo_fleet) (db_of s') /\
    (forall n, n ∈ d_namespaces (db_of s') <-> n ∈ d_namespaces (db_of demo_fleet) /\ n_id n <> a_namespace a) /\
    wf (db_of s').
Proof.
  destruct (destroy_agent "acc1" "bot" demo_fleet) as [[b|e] s'] eqn:E; [|vm_compute in E; discriminate].
  exists b, s'. split; [reflexivity|]. exact (destroy_complete "acc1" "bot" demo_fleet b s' demo_fleet_wf E).
Defined.

Lemma dedicated_tier_has_no_agents_witness :
  0 <= 1 /\
  (exists e, create_agent "acc1" "dedicated-agent" "bot" None demo_fleet = (Err (Service e), demo_fleet)) /\
  (exists e, clone_agent "acc1" "bot" "fox" "dedicated-agent" demo_fleet = (Err (Service e), demo_fleet)) /\
  (exists e, scale_agent "acc1" "bot" 1 "dedicated-agent" demo_fleet = (Err (Service e), demo_fleet)).
Proof.
  split; [lia|]. exact (dedicated_tier_has_no_agents "acc1" "bot" "fox" None 1 demo_fleet ltac:(lia)).
Defined.

(** The clone has a container, but no replica: its next status is "stopped". *)
Example clone_without_replica :
  map (fun a => (a_name a, agent_status a, length (replicas_of (a_id a) demo_fleet),
                 _derive_agent_status (agent_status a) (replicas_of (a_id a) demo_fleet))) (records demo_fleet)
  = [("bot", "running", 3%nat, "running"); ("owl", "running", 2%nat, "running"); ("cub", "running", 0%nat, "stopped")].
Proof. by vm_compute. Qed.

(** No agent can be created where relations are not loaded on first use: the request
    raises, whatever it asks for. *)
Lemma creation_raises `{Outside} `{Host} acc tier name dn s : lazy_loads = false -> exists e, (create_agent acc tier name dn s).1 = Err e.
Proof.
  intros Hl. destruct (create_agent acc tier name dn s) as [[a|e] s'] eqn:E; [exfalso|by exists e]. unfold create_agent, update_status_lazily in E.
  rewrite Hl in E. apply stm_bind_Ok in E as (cfg & s1 & _ & E). apply stm_bind_Ok in E as (n & s2 & _ & E). destruct (_ <=? _); [done|].
  apply stm_bind_Ok in E as ([x|] & s3 & _ & E); [done|]. do 5 apply stm_bind_Ok in E as (? & ? & _ & E). done.
Qed.

(** The rows go with the transaction, and the container of the replica stays. *)
Example creation_leaves_container :
  let s := run_demo [CreateAgent "acc2" "pro-agent" "jay" None] old_fleet in
  db_of s = db_of old_fleet /\ length (running (the_host s)) = 1%nat.
Proof. by vm_compute. Qed.

(** The limit for new agents counts agents, the one for replicas counts replicas:
    an account with all its slots in replicas still clones an agent. *)
Example slots_bypassed :
  let s := run_demo [ScaleAgent "acc1" "bot" 5 "pro-agent"; CloneAgent "acc1" "bot" "fox" "pro-agent"] old_fleet in
  (max_agents <$> dict_get "pro-agent" AGENT_TIER_CONFIG) = Some 5 /\ length (running (the_host s)) = 6%nat.
Proof. by vm_compute. Qed.
