(* ===== verification/AgentChat.v ===== *)
(** * Chats with an agent

    [chat_with_agent] of [services/agent_service.py], the dispatcher of its tool
    calls, and the two ways in from outside without a key: the public chat of
    [api/v1/public_chat.py] and the webhooks of [api/v1/webhooks.py].  The state is
    the [fleet] of [Agents].  Telemetry events and log lines are left out.

    A chat is one database session.  What it calls opens sessions of its own (the
    history, procedures, the log of executions); here they all work on the same
    rows, where the code shows them what is committed. *)

From S2P Require Import Prelude Regex Routing Security Json Encryption AgentState Namespaces Functions Procedures SecurityEvents ConversationMemory AiTools ToolDispatch Hoare Orchestrator ProcedureRun Agents.
From stdpp Require Import gmap strings.
From Stdlib Require Import Ascii.

Open Scope Z_scope.

Section chat.
Context `{Outside} `{Host} `{Aead} (b64decode : string -> string) (kek_b64 : string).

Abbreviation M := (stm fleet exn).

(** [core/ai_client.chat], which writes the summary of a compaction. *)
Context (summarize : string -> string -> string -> string -> string -> option string).

(** ** Limits *)

(** [Agent] has no attribute [tier], so that the default is always taken. *)
Definition _resolve_chat_limits (agent : agent_row) : list (string * pyval) :=
  let limits := dict_getd "pro-agent" DEFAULT_LIMITS ORCHESTRATION_TIER_LIMITS in
  let overrides := default [] (orchestration_limits agent) in
  foldl (fun limits key =>
    match dict_get key overrides with
    | Some v => if bool_decide (is_Some (int_value v)) then dict_set key v limits else limits
    | None => limits
    end) limits ["max_iterations"; "max_functions_called"].

(** ** Tool calls *)

(** The account that pays, and the tier of its user. *)
Record payer := Payer { py_account : string; py_tier : string }.

(** What does not change during a chat. *)
Record talk := Talk {
  tk_agent : agent_row;
  tk_payer : payer;
  tk_state : list (string * pyval);
  tk_pool : bool;
  tk_tools : list tool;
  tk_covered : list (string * string);
  tk_api_key : pyval;
  tk_system : string
}.

(** [try: m except Exception: k] *)
Definition except_any {A} (m k : M A) : M A := fun s =>
  match m s with (Ok a, s') => (Ok a, s') | (Err _, s') => k s' end.

Definition chat_get_state (t : talk) (tool_input : pyval) : M string :=
  except_any
    (key ← in_world (input_get "key" (PStr "") tool_input);
     k ← in_world (as_text key);
     v ← on_state (get_state b64decode kek_b64 (ar_account_id (tk_agent t)) (ar_name (tk_agent t)) k);
     shown ← in_world (input_get "key" PNone tool_input);
     mret (json_dumps (PDict [("key", shown); ("value", v.1)])))
    (key ← in_world (input_get "key" (PStr "") tool_input);
     mret (error_json ("State key '" +:+ py_str key +:+ "' not found"))).

(** No [try]: what the service raises ends the chat. *)
Definition chat_set_state (t : talk) (tool_input : pyval) : M string :=
  key ← in_world (input_get "key" (PStr "") tool_input);
  value ← in_world (input_get "value" PNone tool_input);
  k ← in_world (as_text key);
  r ← ask_out random_bytes;
  _ ← on_state (set_state b64decode kek_b64 r (ar_account_id (tk_agent t)) (ar_name (tk_agent t)) k value (py_tier (tk_payer t)));
  shown ← in_world (input_get "key" PNone tool_input);
  mret (json_dumps (PDict [("key", shown); ("stored", PBool true)])).

Definition chat_list_keys (t : talk) : M string :=
  info ← on_state (list_state_keys (ar_account_id (tk_agent t)) (ar_name (tk_agent t)) (py_tier (tk_payer t)));
  let '(keys, total, _) := info in
  mret (json_dumps (PDict [("keys", PList (map PStr keys)); ("count", PInt (Z.of_nat (length keys)));
                           ("total_size_bytes", PInt total)])).

Definition chat_search (t : talk) (tool_input : pyval) : M string :=
  q ← in_world (input_get "query" (PStr "") tool_input);
  query ← in_world (as_lower q);
  if negb (truthy_str query) then mret (error_json "query is required")
  else mret (json_dumps (PDict [("matches", PList (take 20 (search_matches query (tk_state t)))); ("query", PStr query);
                                ("total_searched", PInt (Z.of_nat (length (tk_state t))))])).

Definition chat_function (t : talk) (tool_name : string) (tool_input : pyval) : M string :=
  match parse_tool_name tool_name with
  | None => mret (unknown_tool tool_name (tk_tools t))
  | Some (service_name, function_name) =>
      match dict_get tool_name (tk_covered t) with
      | Some label => mret (covered_json tool_name label)
      | None => in_world (_execute_namespace_function service_name function_name tool_input (tk_agent t) (tk_state t) None)
      end
  end.

(** Neither the tier of the agent's tools, nor the tools that were offered, nor
    [public_only] is looked at. *)
Definition _dispatch_chat_tool (t : talk) (tool_name : string) (tool_input : pyval) : M string :=
  if String.eqb tool_name "get_state" then chat_get_state t tool_input
  else if String.eqb tool_name "set_state" then chat_set_state t tool_input
  else if String.eqb tool_name "send_to_channel" then
    channel_type ← in_world (input_get "channel_type" (PStr "") tool_input);
    text ← in_world (input_get "message" (PStr "") tool_input);
    in_world (_send_to_channel b64decode kek_b64 (tk_agent t) channel_type text)
  else if String.eqb tool_name "list_state_keys" then chat_list_keys t
  else if String.eqb tool_name "search_state" then chat_search t tool_input
  else if String.eqb tool_name "run_procedure" then
    in_world (dispatch_procedure (run_procedure_orchestration b64decode kek_b64 (dispatch_tool b64decode kek_b64 0))
      (tk_agent t) (py_account (tk_payer t)) (py_tier (tk_payer t)) "chat" tool_input)
  else if is_mcp_tool tool_name then
    if negb (tk_pool t) then mret (error_json "MCP server pool not available")
    else ask_out (mcp_call_tool tool_name tool_input)
  else chat_function t tool_name tool_input.

(** ** The loop *)

Definition max_consecutive_failures : Z := 3.

(** The keys of the arguments are read for the log after the call. *)
Definition logged_keys (tool_input : pyval) : M unit :=
  match tool_input with
  | PDict _ => mret tt
  | v => if truthy v then in_world (lib LibAttributeError) else mret tt
  end.

(** The calls of one reply: their results, and whether one is not an error.  (The
    list of names for the log raises for a block without a name before the first call;
    the client makes no such block.) *)
Fixpoint chat_calls (t : talk) (blocks : list ToolDispatch.block) (tool_results : list msg) (had_success : bool) : M (list msg * bool) :=
  match blocks with
  | [] => mret (tool_results, had_success)
  | BadToolUse :: _ => in_world (lib LibKeyError)
  | ToolUse tool_id tool_name tool_input :: blocks' =>
      result_str ← _dispatch_chat_tool t tool_name tool_input;
      logged_keys tool_input;;
      chat_calls t blocks' (tool_results ++ [ToolResult tool_id tool_name result_str]) (had_success || negb (is_error result_str))
  | _ :: blocks' => chat_calls t blocks' tool_results had_success
  end.

Definition stopped_text (n : Z) : string :=
  "(Stopped: " +:+ str_of_Z n +:+ " consecutive iterations where all tool calls failed. "
  +:+ "The AI model may not be using the correct tool name format.)".

Definition chat_request_of (t : talk) (messages : list msg) : chat_request :=
  ChatRequest (default "" (ai_engine (tk_agent t))) (or_text (ai_model (tk_agent t)) "") (tk_api_key t) messages (tk_tools t)
    (tk_system t).

(** [_save_chat_turns], with the clock and the random values of its writes. *)
Definition save_with (env : chat_env) (t : talk) (user_message response : string) : M unit := fun s =>
  let a := tk_agent t in
  let '(_, st') := ConversationMemory._save_chat_turns b64decode kek_b64 summarize env
    (ar_id a) (ar_account_id a) (ar_name a) (default "" (ai_engine a)) (or_text (ai_model a) "") (py_tier (tk_payer t))
    user_message response (tk_state t) (match tk_api_key t with PStr k => k | _ => "" end) (states (the_world s)) in
  set_world (set_state_tables st') s.

Definition save_turns (t : talk) (user_message response : string) : M unit :=
  r1 ← ask_out random_bytes;
  t1 ← ask_out now;
  r2 ← ask_out random_bytes;
  t2 ← ask_out now;
  r3 ← ask_out random_bytes;
  t3 ← ask_out now;
  save_with (ChatEnv r1 (isoformat t1) r2 (isoformat t2) r3 (isoformat t3)) t user_message response.

Definition final_text_of (blocks : list ToolDispatch.block) : string := default "(No response)" (_extract_text blocks).

(** [for iteration in range(max_iterations)] *)
Fixpoint chat_loop (n : nat) (t : talk) (user_message : string) (messages : list msg) (failures : Z) : M string :=
  match n with
  | O => mret "(Max chat iterations reached)"
  | S n' =>
      r ← in_world (ask_res (chat_with_tools (chat_request_of t messages)));
      if negb (String.eqb (stop_reason r) "tool_use") then
        save_turns t user_message (final_text_of (content r));;
        mret (final_text_of (content r))
      else
        out ← chat_calls t (content r) [] false;
        let messages := messages ++ [AssistantMsg (content r)] ++ out.1 in
        if (out.2 : bool) then chat_loop n' t user_message messages 0
        else
          let failures := failures + 1 in
          if max_consecutive_failures <=? failures then mret (stopped_text failures)
          else chat_loop n' t user_message messages failures
  end.

(** ** [chat_with_agent] *)

(** What [build_history_messages] raises. *)
Definition history_exn {A} (e : ConversationMemory.exn) : M A :=
  in_world (lib (match e with ConversationMemory.AttributeError => LibAttributeError | _ => LibTypeError end)).

Definition chat_with_agent (account_id agent_name text : string) (p : payer) (public_only : bool) : M string :=
  a ← get_agent account_id agent_name;
  let agent := row a in
  match truthy_ostr (ai_engine agent) && truthy_ostr (fst <$> ai_api_key agent), ai_api_key agent with
  | true, Some (encrypted, dek) =>
      api_key ← on_state (k ← kek b64decode kek_b64; lift_crypto (decrypt_value encrypted dek k));
      s ← getS;
      let ts := tables (the_world s) in
      let ns_tools := build_tool_definitions (base ts) (ar_namespace_id agent) public_only true in
      agent_state ← on_state (get_all_state b64decode kek_b64 (ar_id agent));
      let summaries := get_procedure_summaries ts (ar_namespace_id agent) in
      covered ← (match _build_covered_function_set summaries with Some c => mret c | None => in_world (lib LibAttributeError) end : M _);
      pool ← (match mcp_servers a with
              | None | Some [] => mret None
              | Some _ => ask_out (load_mcp_tools (ar_id agent))
              end : M (option (list tool)));
      let tools := ns_tools ++ default [] pool in
      let prompt := default "" (augment_system_prompt (system_prompt agent) tools summaries) in
      let '(summary, turns) := load_history agent_state in
      match build_history_messages summary turns with
      | Err e => history_exn e
      | Ok history =>
          _ ← ask_out uuid4;
          let t := Talk agent p agent_state (bool_decide (is_Some pool)) tools covered api_key prompt in
          chat_loop (Z.to_nat (limit "max_iterations" (_resolve_chat_limits agent))) t text
            (map HistoryMsg history ++ [UserMsg text]) 0
      end
  | _, _ => not_found "Agent has no AI engine configured"
  end.
End chat.

(** ** Answers to requests *)

(** [JSONResponse]; an exception that no handler catches is the error of the monad. *)
Record answer := Answer { status_code : Z; content_of : list (string * pyval) }.

Definition say (status : Z) (field text : string) : answer := Answer status [(field, PStr text)].
Definition is_ascii_text (s : string) : bool := str_forallb (fun c => (ord c <? 128)%nat) s.

(** ** The public chat *)

(** A POST to the chat of an agent: whether the path was one of an agent, the
    agent that the path names, and what [request.json()] gives, if anything. *)
Record chat_post := ChatPost { cp_agent_endpoint : bool; cp_namespace : option string; cp_token : string; cp_json : option pyval }.

Section doors.
Context `{Outside} `{Host} `{Aead} `{Crypto} (b64decode : string -> string) (kek_b64 : string).
Context (summarize : string -> string -> string -> string -> string -> option string).

Abbreviation M := (stm fleet exn).

(** [selectinload(Account.user)]: the effective tier of the user of an account. *)
Context (owner_tier : string -> string).

(** [body.get("message", "").strip()] *)
Definition stripped_message (body : pyval) : M string :=
  match body with
  | PDict d => match dict_getd "message" (PStr "") d with PStr m => mret (str_strip m) | _ => in_world (lib LibAttributeError) end
  | _ => in_world (lib LibAttributeError)
  end.

(** The chat itself: every exception is logged and answered, and what was done
    is committed. *)
Definition open_chat (a : agent_record) (text : string) : M answer :=
  except_any
    (response ← chat_with_agent b64decode kek_b64 summarize (a_account a) (a_name a) text
       (Payer (a_account a) (owner_tier (a_account a))) false;
     mret (say 200 "response" response))
    (mret (say 500 "error" "Chat failed")).

Definition not_found_answer : answer := say 404 "error" "Not found".

(** What is looked up and tested before the chat. *)
Definition admit_chat (rq : chat_post) : M (answer + agent_record) :=
  found ← resolve_agent_by_chat_token (cp_token rq);
  match found with
  | None => mret (inl not_found_answer)
  | Some a =>
      mret (if truthy_ostr (cp_namespace rq) && negb (bool_decide (cp_namespace rq = Some (a_name a))) then inl not_found_answer
            else if negb (String.eqb (agent_status a) "running") then inl (say 503 "error" "Agent is not running")
            else if negb (truthy_ostr (ai_engine (row a)) && truthy_ostr (fst <$> ai_api_key (row a))) then
              inl (say 503 "error" "Agent has no AI engine configured")
            else inr a)
  end.

Definition public_chat (rq : chat_post) : M answer :=
  if negb (cp_agent_endpoint rq) then mret not_found_answer
  else if str_len (cp_token rq) <? 20 then mret not_found_answer
  else match cp_json rq with
  | None => mret (say 400 "error" "Invalid JSON body")
  | Some body =>
      text ← stripped_message body;
      if negb (truthy_str text) then mret (say 400 "error" "message is required")
      else if 10000 <? str_len text then mret (say 400 "error" "message too long (max 10000 chars)")
      else
        admitted ← admit_chat rq;
        match admitted with
        | inl refusal => mret refusal
        | inr a => open_chat a text
        end
  end.

(** ** Webhooks *)

(** The effective tier of [account.user] for an account that was selected without
    its user: [None] when the session raises on the lazy load. *)
Context (lazy_tier : string -> option string).

(** A POST to a webhook. *)
Record hook_post := HookPost { hp_namespace : option string; hp_path : string; hp_body : string; hp_signature : string }.

(** The row of a direct run; the columns without a value are empty or zero. *)
Definition direct_run (agent : agent_row) (id detail fn status : string) (ms : Z) (summary error : option string) : agent_run :=
  AgentRun (ar_id agent) (Some id) detail (Some fn) status "" None None None ms None 0 summary error.

Definition end_run (r : agent_run) : M unit := set_world (fun w =>
  World (tables w) (states w) (channels w) (execution_log w) (runs w ++ [(r, [])]) (events w) (out w)).

(** [try: ... except Exception as e], of what the world does. *)
Definition attempt {A} (m : stm world exc A) : M (A + string) := fun s =>
  match in_world m s with
  | (Ok a, s') => (Ok (inl a), s')
  | (Err (Raised e), s') => (Ok (inr (exc_text e)), s')
  | (Err e, s') => (Err e, s')
  end.

Definition run_failed (agent : agent_row) (id detail fn text : string) : M (list (string * pyval)) :=
  end_run (direct_run agent id detail fn "failed" 0 None (Some (str_take 1000 text)));;
  mret [("error", PStr text)].

(** The handler function in a session of its own; the row of the run is written
    with its last values. *)
Definition run_handler (x : webhook) (agent : agent_row) (payload : pyval) (service_name fn_name : string)
    : M (list (string * pyval)) :=
  id ← ask_out uuid4;
  let fn := handler_function_name x in
  let detail := "webhook:" +:+ wh_path x in
  if negb (fits 255 (Some detail)) then raise (Service DBAPIError)
  else
    s ← getS;
    match (get_for_execution (ar_namespace_id agent) service_name fn_name (base (tables (the_world s)))).1 with
    | Err e => run_failed agent id detail fn (service_text e)
    | Ok (_, v) =>
        if negb (get_backend (backend (v_spec v))) then run_failed agent id detail fn ("Backend not available: " +:+ backend (v_spec v))
        else
          agent_state ← on_state (get_all_state b64decode kek_b64 (ar_id agent));
          execution_id ← ask_out uuid4;
          start ← ask_out now;
          out ← attempt (ask_res (sandbox_execute (ExecCall (code (v_spec v)) (config (v_spec v)) payload execution_id
                  agent_state None (ar_name agent))));
          match out with
          | inr text => run_failed agent id detail fn text
          | inl result =>
              stop ← ask_out now;
              let ms := Z.quot (stop - start) 1000 in
              if r_success result then
                end_run (direct_run agent id detail fn "completed" ms
                  (if truthy (r_output result) then Some (str_take 1000 (py_str (r_output result))) else None) None);;
                mret [("status", PStr "ok"); ("output", r_output result)]
              else
                let text := or_text (r_error result) "Unknown error" in
                end_run (direct_run agent id detail fn "failed" ms None (Some (str_take 1000 text)));;
                mret [("error", PStr text)]
          end
    end.

Definition _execute_webhook_function_direct (x : webhook) (agent : agent_row) (payload : pyval) : M (list (string * pyval)) :=
  match split_once "." (handler_function_name x) with
  | None => mret [("error", PStr ("Invalid function name format: " +:+ handler_function_name x))]
  | Some (service_name, fn_name) => transaction (run_handler x agent payload service_name fn_name)
  end.

(** [json.loads(body) if body else {}]; a body that does not decode is passed on
    as text. *)
Definition payload_of (body : string) : M pyval :=
  if negb (truthy_str body) then mret (PDict [])
  else match json_loads body with
  | Ok v => mret v
  | Err JSONDecodeError => mret (PDict [("raw", PStr (str_take 4000 body))])
  | Err OutOfModel => in_world (lib LibValueError)
  end.

(** The signature is compared with the hash of the body alone. *)
Definition signature_refused (x : webhook) (rq : hook_post) : M bool :=
  if truthy_ostr (secret_hash x) then
    if is_ascii_text (hp_signature rq) then mret (negb (String.eqb (hp_signature rq) (sha256_hex (hp_body rq))))
    else in_world (lib LibTypeError)
  else mret false.

Definition opt_text (o : option string) : pyval := match o with Some t => PStr t | None => PNone end.
Definition done_text (r : OrchestrationResult) : pyval := PStr (if success r then "completed" else "failed").

(** The procedure of a webhook. *)
Definition hook_procedure (x : webhook) (agent : agent_row) (tier path : string) (payload : pyval) : M answer :=
  if negb (truthy_ostr (wh_procedure_name x)) then mret (say 422 "detail" "procedure_name required for procedure mode")
  else if negb (truthy_ostr (ai_engine agent)) then mret (say 422 "detail" "Agent needs AI engine for procedure mode")
  else
    let procedure_name := default "" (wh_procedure_name x) in
    let svc_name := match split_once "." (handler_function_name x) with Some (s, _) => s | None => "default" end in
    r ← in_world (run_procedure_orchestration b64decode kek_b64 (dispatch_tool b64decode kek_b64 0) agent
          (PStr procedure_name) (PStr svc_name) "webhook" (ar_account_id agent) tier
          (PDict [("webhook_path", PStr path); ("payload", payload)]));
    mret (Answer 200 [("status", done_text r); ("procedure", PStr procedure_name);
                      ("steps_completed", PInt (Z.of_nat (length (functions_called r)))); ("error", opt_text (error r))]).

(** A model run on what the webhook brought. *)
Definition hook_orchestration (agent : agent_row) (tier context : string) : M answer :=
  r ← in_world (run_orchestration b64decode kek_b64 (dispatch_tool b64decode kek_b64 1) agent "webhook" context tier
        (ar_account_id agent) None None);
  mret (Answer 200 [("status", done_text r); ("response", opt_text (first_chars 1000 (final_text r)));
                    ("functions_called", PList (map PStr (functions_called r))); ("iterations", PInt (iterations r))]).

(** What follows the tests: the mode of the webhook. *)
Definition hook_run (x : webhook) (agent : agent_row) (tier path : string) (payload : pyval) : M answer :=
  let mode := if truthy_str (wh_orchestration_mode x) then wh_orchestration_mode x else "direct" in
  if String.eqb mode "procedure" then hook_procedure x agent tier path payload
  else
    let mode := if negb (truthy_ostr (ai_engine agent)) then "direct" else mode in
    if String.eqb mode "direct" then
      result ← _execute_webhook_function_direct x agent payload;
      mret (Answer 200 result)
    else if String.eqb mode "run_then_reason" then
      result ← _execute_webhook_function_direct x agent payload;
      hook_orchestration agent tier ("Webhook received on /" +:+ path +:+ "." +:+ nl +:+ "Handler function "
        +:+ handler_function_name x +:+ " executed." +:+ nl +:+ "Output: " +:+ str_take 2000 (json_dumps (PDict result)))
    else
      hook_orchestration agent tier ("Webhook received on /" +:+ path +:+ "." +:+ nl +:+ "Payload: "
        +:+ str_take 2000 (json_dumps payload) +:+ nl +:+ "Decide what actions to take.").

(** What follows the signature. *)
Definition accepted_hook (x : webhook) (a : agent_record) (rq : hook_post) : M answer :=
  payload ← payload_of (hp_body rq);
  s ← getS;
  match List.find (fun c => String.eqb (Namespaces.a_id c) (a_account a)) (accounts (ns (base (tables (the_world s))))) with
  | None => mret (say 500 "detail" "Account not found")
  | Some c =>
      match lazy_tier (Namespaces.a_id c) with
      | None => in_world (lib LibValueError)
      | Some tier => hook_run x (row a) tier (hp_path rq) payload
      end
  end.

Definition handle_agent_webhook (rq : hook_post) : M answer :=
  match (if truthy_ostr (hp_namespace rq) then hp_namespace rq else None) with
  | None => mret (say 404 "detail" "Not found")
  | Some namespace =>
      found ← resolve_webhook namespace (hp_path rq);
      match found with
      | None => mret (say 404 "detail" ("Webhook path '/" +:+ hp_path rq +:+ "' not found"))
      | Some x =>
          agent ← Agents.one records (fun a => String.eqb (a_id a) (wh_agent_id x));
          match agent with
          | Some a =>
              if negb (str_in (agent_status a) ["running"; "degraded"]) then mret (say 503 "detail" "Agent is not running")
              else
                refused ← signature_refused x rq;
                if (refused : bool) then mret (say 401 "detail" "Invalid webhook signature")
                else accepted_hook x a rq
          | None => mret (say 503 "detail" "Agent is not running")
          end
      end
  end.
End doors.

(** ** Who may chat, and who may call a webhook *)

Section lookups.
Context `{Outside} `{Host} `{Crypto}.

(** [scalar_one_or_none] in a state. *)
Lemma one_cases {A} (rows : fleet -> list A) p s :
  (exists a, Agents.one rows p s = (Ok (Some a), s) /\ a ∈ rows s /\ p a = true) \/
  (Agents.one rows p s = (Ok None, s) /\ forall a, a ∈ rows s -> p a = false) \/
  exists e, Agents.one rows p s = (Err e, s).
Proof.
  pose proof (one_triple (fun d => d = db_of s) rows p s eq_refl) as K. revert K. unfold Agents.one.
  destruct (List.filter p (rows s)) as [|a [|b l]]; cbn; intros K.
  - right. left. by destruct K.
  - left. exists a. by destruct K as (_ & ? & ?).
  - right. right. by eexists.
Qed.

(** The answer of a request that was turned away. *)
Definition turned_away (r : res exn answer) : Prop :=
  match r with Ok x => 400 <= status_code x | Err _ => True end.

(** The agent may be talked to through [rq]. *)
Definition admits (rq : chat_post) (s : fleet) (a : agent_record) : Prop :=
  a ∈ records s /\ chat_token a = Some (cp_token rq) /\ 20 <= str_len (cp_token rq) /\
  (forall n, cp_namespace rq = Some n -> n <> ""%string -> n = a_name a) /\ agent_status a = "running"%string /\
  truthy_ostr (ai_engine (row a)) = true /\ truthy_ostr (fst <$> ai_api_key (row a)) = true.

Lemma admit_chat_cases rq s : 20 <= str_len (cp_token rq) ->
  (exists r, admit_chat rq s = (r, s) /\ match r with Ok (inl x) => 400 <= status_code x | Ok (inr a) => admits rq s a | Err _ => True end).
Proof.
  intros Hlen. unfold admit_chat, mbind, stm_bind.
  destruct (one_cases records (fun a => bool_decide (chat_token a = Some (cp_token rq))) s) as [(a & Ho & Ha & Ht)|[[Ho _]|(e & Ho)]];
    unfold resolve_agent_by_chat_token; rewrite Ho; [|by eexists..].
  eexists. split; [reflexivity|]. cbn [mret stm_ret].
  destruct (truthy_ostr (cp_namespace rq) && negb (bool_decide (cp_namespace rq = Some (a_name a)))) eqn:En; [cbn; lia|].
  destruct (String.eqb_spec (agent_status a) "running") as [Es|]; [|cbn; lia]. cbn [negb].
  destruct (truthy_ostr (ai_engine (row a)) && truthy_ostr (fst <$> ai_api_key (row a))) eqn:Ek; [|cbn; lia].
  apply andb_true_iff in Ek as [Ek1 Ek2]. cbn [negb]. split; [done|]. split; [by apply bool_decide_eq_true in Ht|]. split; [done|].
  split; [|done]. intros n Hn Hne. rewrite Hn in En. cbn in En. apply andb_false_iff in En as [En|En].
  - unfold truthy_str in En. destruct n; done.
  - apply negb_false_iff, bool_decide_eq_true in En. congruence.
Qed.

(** *** Webhooks *)

Definition hook_found (rq : hook_post) (s : fleet) (x : webhook) (a : agent_record) : Prop :=
  x ∈ webhooks s /\ a ∈ records s /\ a_id a = wh_agent_id x /\ hp_namespace rq = Some (a_name a) /\ wh_path x = hp_path rq /\
  wh_enabled x = true /\ agent_status a ∈ ["running"; "degraded"].

(** The test of a webhook with a secret. *)
Definition signed (x : webhook) (rq : hook_post) : Prop :=
  truthy_ostr (secret_hash x) = true -> hp_signature rq = sha256_hex (hp_body rq).

Lemma in_world_lib {A} e s : in_world (lib e : stm world exc A) s = (Err (Raised (Exception (lib_text e))), s).
Proof. by destruct s. Qed.

Lemma signature_refused_cases x rq s :
  (exists e, signature_refused x rq s = (Err e, s)) \/ (signature_refused x rq s = (Ok true, s)) \/
  (signature_refused x rq s = (Ok false, s) /\ signed x rq).
Proof.
  unfold signature_refused, signed. destruct (truthy_ostr (secret_hash x)); [|right; right; by split].
  destruct (is_ascii_text _); [|left; rewrite in_world_lib; by eexists].
  destruct (String.eqb_spec (hp_signature rq) (sha256_hex (hp_body rq))) as [E|]; [right; right; by split|right; left; done].
Qed.

Lemma resolve_found namespace path s x : resolve_webhook namespace path s = (Ok (Some x), s) ->
  x ∈ webhooks s /\ wh_path x = path /\ wh_enabled x = true /\ exists b, b ∈ records s /\ a_id b = wh_agent_id x /\ a_name b = namespace.
Proof.
  unfold resolve_webhook. intros E.
  destruct (one_cases webhooks (fun x => existsb (fun a => String.eqb (a_id a) (wh_agent_id x) && String.eqb (a_name a) namespace) (records s)
    && String.eqb (wh_path x) path && wh_enabled x) s) as [(y & Ho & Hy & Hp)|[[Ho _]|(e & Ho)]]; rewrite Ho in E; [|done..].
  injection E as <-. apply andb_true_iff in Hp as [[Hp Hpath]%andb_true_iff Hen]. apply String.eqb_eq in Hpath.
  apply existsb_exists in Hp as (b & Hb & [E1 E2]%andb_true_iff). apply String.eqb_eq in E1, E2. apply list_elem_of_In in Hb.
  split; [done|]. split; [done|]. split; [done|]. by exists b.
Qed.

(** The row with its key, if the key is unique. *)
Lemma one_key {A} (key : A -> string) (rows : fleet -> list A) s a : NoDup (map key (rows s)) -> a ∈ rows s ->
  Agents.one rows (fun x => String.eqb (key x) (key a)) s = (Ok (Some a), s).
Proof.
  intros Hnd Ha. unfold Agents.one. set (p := fun x => String.eqb (key x) (key a)).
  assert (forall x, x ∈ List.filter p (rows s) -> x = a) as Hall.
  { intros x [Hx Hp]%elem_of_filter_bool. apply String.eqb_eq in Hp. by apply (NoDup_map_inj key (rows s)). }
  assert (a ∈ List.filter p (rows s)) as Hin by (apply elem_of_filter_bool; split; [done|apply String.eqb_refl]).
  pose proof (NoDup_filter_map key p (rows s) Hnd) as Hf.
  destruct (List.filter p (rows s)) as [|x [|y l]]; [by apply not_elem_of_nil in Hin|by rewrite (Hall x) by (by left)|].
  rewrite (Hall x), (Hall y) in Hf by set_solver. cbn in Hf. apply NoDup_cons in Hf as [Hf _]. set_solver.
Qed.

Lemma resolve_complete rq s x a : wf (db_of s) -> hook_found rq s x a ->
  resolve_webhook (a_name a) (hp_path rq) s = (Ok (Some x), s).
Proof.
  intros Hw (Hx & Ha & Hi & Hns & Hpath & Hen & Hst).
  destruct (resolve_unique s (a_name a) (hp_path rq) Hw) as [(y & Ey)|Ey].
  - rewrite Ey. pose proof (resolve_found _ _ _ _ Ey) as (Hy & Hyp & _ & b & Hb & Hbi & Hbn).
    assert (b = a) as -> by (apply (NoDup_map_inj a_name (records s)); [apply Hw|done..]).
    assert (y = x) as ->; [|done]. apply (NoDup_map_inj address (webhooks s)); [apply Hw|done|done|unfold address; congruence].
  - exfalso. unfold resolve_webhook in Ey. match type of Ey with Agents.one _ ?p s = _ =>
      destruct (one_cases webhooks p s) as [(y & Ho & _)|[[_ Hno]|(e & Ho)]] end; [congruence| |congruence].
    specialize (Hno x Hx). cbn beta in Hno. rewrite Hpath, Hen, String.eqb_refl in Hno. rewrite andb_true_r, andb_true_r in Hno.
    apply not_true_iff_false in Hno. apply Hno, existsb_exists. exists a. split; [by apply list_elem_of_In|].
    by rewrite Hi, !String.eqb_refl.
Qed.

Definition with_secret (x : webhook) (h : option string) : webhook :=
  Webhook (wh_id x) (wh_agent_id x) (wh_path x) (handler_function_name x) h (wh_orchestration_mode x) (wh_procedure_name x) (wh_enabled x).

End lookups.

Section chat_door.
Context `{Outside} `{Host} `{Aead} (b64decode : string -> string) (kek_b64 : string).
Context (summarize : string -> string -> string -> string -> string -> option string) (owner_tier : string -> string).

Abbreviation public_chat := (public_chat b64decode kek_b64 summarize owner_tier).
Abbreviation open_chat := (open_chat b64decode kek_b64 summarize owner_tier).

(** [C12] A request to the public chat reaches an agent only with its chat token:
    one of twenty characters at least, under the agent's own name if the path has
    one, while the agent runs and has a model and a key; the token then belongs to
    no other agent.  Every other request is turned away and changes nothing. *)
Theorem public_chat_guarded rq s : wf (db_of s) ->
  (exists r, public_chat rq s = (r, s) /\ turned_away r) \/
  exists a text, admits rq s a /\ truthy_str text = true /\ str_len text <= 10000 /\ cp_agent_endpoint rq = true /\
    (forall b, b ∈ records s -> chat_token b = Some (cp_token rq) -> a_id b = a_id a) /\
    public_chat rq s = open_chat a text s.
Proof.
  intros Hw. unfold AgentChat.public_chat. destruct (cp_agent_endpoint rq); [cbn [negb]|left; eexists; split; [reflexivity|cbn; lia]].
  destruct (Z.ltb_spec (str_len (cp_token rq)) 20) as [|Hlen]; [left; eexists; split; [reflexivity|cbn; lia]|].
  destruct (cp_json rq) as [body|]; [|left; eexists; split; [reflexivity|cbn; lia]].
  unfold mbind, stm_bind. destruct (stripped_message body s) as [[text|e] s1] eqn:Em.
  2: { left. exists (Err e). assert (s1 = s) as ->; [|done]. revert Em. unfold stripped_message.
       destruct body as [| | | | |d]; try (by intros [= _ <-]); destruct s as [[] ? ? ? ? ? ? ?]; try (by intros [= _ <-]).
       destruct (dict_getd _ _ _); by intros [=]. }
  assert (s1 = s) as ->.
  { revert Em. unfold stripped_message. destruct body; try done. destruct (dict_getd _ _ _); try done. by intros [= _ <-]. }
  destruct (truthy_str text) eqn:Et; [cbn [negb]|left; eexists; split; [reflexivity|cbn; lia]].
  destruct (Z.ltb_spec 10000 (str_len text)) as [|Hmax]; [left; eexists; split; [reflexivity|cbn; lia]|].
  destruct (admit_chat_cases rq s Hlen) as (r & -> & Hr).
  destruct r as [[x|a]|e]; [left; by exists (Ok x)| |left; by exists (Err e)].
  right. exists a, text. split; [done|]. split; [done|]. split; [done|]. split; [done|]. split; [|done].
  intros b Hb Hbt. destruct Hr as (Ha & Hat & _). symmetry. by eapply (wf_tokens _ Hw).
Qed.

End chat_door.

Section hook_door.
Context `{Outside} `{Host} `{Aead} `{Crypto} (b64decode : string -> string) (kek_b64 : string).
Context (lazy_tier : string -> option string).

Abbreviation handle := (handle_agent_webhook b64decode kek_b64 lazy_tier).
Abbreviation accepted_hook := (accepted_hook b64decode kek_b64 lazy_tier).

(** A webhook is run only for a request that names an agent and an enabled
    path of it, while the agent is running or degraded, and, when the webhook has
    a secret, with the hash of the body for a signature, which the secret has no part
    in.  Every other request is turned away and changes nothing. *)
Theorem webhook_guarded rq s : wf (db_of s) ->
  (exists r, handle rq s = (r, s) /\ turned_away r) \/
  exists x a, hook_found rq s x a /\ signed x rq /\ handle rq s = accepted_hook x a rq s.
Proof.
  intros Hw. unfold handle_agent_webhook. destruct (hp_namespace rq) as [ns|] eqn:Ens; [|left; eexists; split; [reflexivity|cbn; lia]].
  cbn [truthy_ostr]. destruct (truthy_str ns) eqn:Et; [|left; eexists; split; [reflexivity|cbn; lia]].
  unfold mbind, stm_bind. destruct (resolve_unique s ns (hp_path rq) Hw) as [(x & Ex)|Ex]; rewrite Ex;
    [|left; eexists; split; [reflexivity|cbn; lia]].
  apply resolve_found in Ex as (Hx & Hpath & Hen & b & Hb & Hbi & Hbn).
  destruct (one_cases records (fun a => String.eqb (a_id a) (wh_agent_id x)) s) as [(a & Ho & Ha & Hi)|[[Ho _]|(e & Ho)]]; rewrite Ho;
    [|left; eexists; split; [reflexivity|cbn; lia]|left; eexists; split; [reflexivity|done]].
  apply String.eqb_eq in Hi. assert (a = b) as -> by (apply (NoDup_map_inj a_id (records s)); [apply Hw|done|done|congruence]).
  destruct (str_in (agent_status b) ["running"; "degraded"]) eqn:Es; [cbn [negb]|left; eexists; split; [reflexivity|cbn; lia]].
  apply str_in_spec in Es.
  destruct (signature_refused_cases x rq s) as [(e & ->)|[->|[-> Hs]]]; [left; eexists; split; [reflexivity|done]|left; eexists; split; [reflexivity|cbn; lia]|].
  right. exists x, b. split; [|done]. unfold hook_found. by rewrite Ens, Hbn.
Qed.

Lemma accepted_without_secret x h a rq s : accepted_hook (with_secret x h) a rq s = accepted_hook x a rq s.
Proof. by destruct x. Qed.

(** [C16] The secret of a webhook protects nothing: the signature that the code
    expects is the hash of the body, without the secret (the documents have it keyed
    by the secret).  Whatever secret the
    owner has set, a request signed with the hash of its own body is run, exactly
    as it would be with any other secret or with none. *)
Theorem webhook_signature_unkeyed rq s x a h : wf (db_of s) -> hook_found rq s x a ->
  is_ascii_text (sha256_hex (hp_body rq)) = true -> hp_signature rq = sha256_hex (hp_body rq) ->
  handle rq s = accepted_hook (with_secret x h) a rq s.
Proof.
  intros Hw Hf Hasc Hsig. pose proof (resolve_complete rq s x a Hw Hf) as Hres. destruct Hf as (Hx & Ha & Hi & Hns & Hpath & Hen & Hst).
  unfold handle_agent_webhook. rewrite Hns. cbn [truthy_ostr].
  assert (truthy_str (a_name a) = true) as ->.
  { pose proof (Forall_elem _ _ _ (wf_valid _ Hw) Ha) as Hv. unfold valid_agent in Hv. by destruct (truthy_str (a_name a)). }
  unfold mbind at 1, stm_bind at 1. rewrite Hres. unfold mbind at 1, stm_bind at 1. rewrite <-Hi.
  rewrite (one_key a_id records s a) by (apply Hw || done).
  assert (str_in (agent_status a) ["running"; "degraded"] = true) as -> by by apply str_in_spec. cbn [negb]. unfold mbind, stm_bind.
  rewrite accepted_without_secret. unfold signature_refused. rewrite Hsig, Hasc, String.eqb_refl. cbn [negb].
  by destruct (truthy_ostr (secret_hash x)).
Qed.
End hook_door.

(** ** The rounds of a chat *)

Section rounds.
Context `{Outside} `{Host} `{Aead} (b64decode : string -> string) (kek_b64 : string).
Context (summarize : string -> string -> string -> string -> string -> option string) (t : talk) (user_message : string).
#[local] Set Default Proof Using "Type*".

Abbreviation chat_calls := (chat_calls b64decode kek_b64 t).
Abbreviation chat_loop := (fun n => chat_loop b64decode kek_b64 summarize n t user_message).
Abbreviation save_turns := (save_turns b64decode kek_b64 summarize t user_message).

(** A reply that asks for tools, their results, and whether one of them is no error. *)
Record round := Round { rd_reply : response; rd_results : list msg; rd_success : bool }.

(** The request to the provider. *)
Definition asks (messages : list msg) : stm fleet exn response := in_world (ask_res (chat_with_tools (chat_request_of t messages))).

(** What a round adds to the messages. *)
Definition said (x : round) : list msg := [AssistantMsg (content (rd_reply x))] ++ rd_results x.

Inductive exchange : list msg -> fleet -> list round -> list msg -> fleet -> Prop :=
| exchange_nil messages s : exchange messages s [] messages s
| exchange_round messages s x s1 s2 rest messages' s' :
    asks messages s = (Ok (rd_reply x), s1) -> stop_reason (rd_reply x) = "tool_use"%string ->
    chat_calls (content (rd_reply x)) [] false s1 = (Ok (rd_results x, rd_success x), s2) ->
    exchange (messages ++ said x) s2 rest messages' s' ->
    exchange messages s (x :: rest) messages' s'.

(** The failed rounds at the end, after [k] of them. *)
Definition failures_after (k : Z) (l : list round) : Z := foldl (fun k x => if rd_success x then 0 else k + 1) k l.

(** How a chat of at most [n] requests ends after its rounds. *)
Inductive ending (n : nat) (k : Z) (l : list round) (messages : list msg) (s : fleet) : res exn string -> fleet -> Prop :=
| answered r s1 s2 u :
    (length l < n)%nat -> asks messages s = (Ok r, s1) -> stop_reason r <> "tool_use"%string ->
    save_turns (final_text_of (content r)) s1 = (Ok u, s2) ->
    ending n k l messages s (Ok (final_text_of (content r))) s2
| given_up : failures_after k l = 3 -> ending n k l messages s (Ok (stopped_text 3)) s
| exhausted : length l = n -> ending n k l messages s (Ok "(Max chat iterations reached)"%string) s
| provider_failed e s1 : (length l < n)%nat -> asks messages s = (Err e, s1) -> ending n k l messages s (Err e) s1
| call_raised r e s1 s2 :
    (length l < n)%nat -> asks messages s = (Ok r, s1) -> stop_reason r = "tool_use"%string ->
    chat_calls (content r) [] false s1 = (Err e, s2) -> ending n k l messages s (Err e) s2.

Lemma ask_out_Ok {A} (f : outside -> A * outside) s : exists a s', ask_out f s = (Ok a, s').
Proof. unfold ask_out, in_world, ask. destruct (f (out (the_world s))). by do 2 eexists. Qed.

Lemma save_turns_Ok text s : exists s', save_turns text s = (Ok tt, s').
Proof.
  unfold AgentChat.save_turns, mbind, stm_bind.
  repeat match goal with |- context [ask_out ?f ?s] =>
    let a := fresh in let s' := fresh in let E := fresh in destruct (ask_out_Ok f s) as (a & s' & E); rewrite E end.
  unfold save_with. destruct (ConversationMemory._save_chat_turns _ _ _ _ _ _ _ _ _ _ _ _ _ _ _) as [u st']. by eexists.
Qed.

(** [C9] A chat makes at most as many requests to the provider as its limit says,
    whatever the provider and the tools do, and ends in one of five ways: with the
    text of the first reply that asks for no tool, which is then remembered; after
    the third round in a row all of whose calls failed, never with three such
    rounds before; with the limit; or with what the provider or a tool call
    raised.  In between it does exactly the calls of the replies, in their order. *)
Theorem chat_rounds n : forall messages k s, 0 <= k < 3 ->
  exists l messages' s' r s'', exchange messages s l messages' s' /\ chat_loop n messages k s = (r, s'') /\
    ending n k l messages' s' r s'' /\ (length l <= n)%nat /\
    (forall l1 x l2, l = l1 ++ x :: l2 -> failures_after k l1 < 3).
Proof.
  induction n as [|n IH]; intros messages k s Hk; cbn [AgentChat.chat_loop].
  { exists [], messages, s, (Ok "(Max chat iterations reached)"%string), s. split; [constructor|]. split; [done|]. split; [by apply exhausted|].
    split; [done|]. by intros [|? ?] ? ?. }
  assert (forall l1 (x : round) l2, [] = l1 ++ x :: l2 -> failures_after k l1 < 3) as Hnil by by intros [|? ?] ? ?.
  unfold mbind at 1, stm_bind at 1. fold (asks messages). destruct (asks messages s) as [[r|e] s1] eqn:Ea.
  2: { exists [], messages, s, (Err e), s1. split; [constructor|]. split; [done|]. split; [apply provider_failed; [cbn; lia|done]|]. split; [cbn; lia|done]. }
  destruct (String.eqb_spec (stop_reason r) "tool_use") as [Hr|Hr]; cbn [negb].
  2: { destruct (save_turns_Ok (final_text_of (content r)) s1) as (s2 & Es). exists [], messages, s, (Ok (final_text_of (content r))), s2.
       split; [constructor|]. split; [unfold mbind, stm_bind; by rewrite Es|]. split; [eapply answered; [cbn; lia|done..]|]. split; [cbn; lia|done]. }
  unfold mbind at 1, stm_bind at 1. destruct (chat_calls (content r) [] false s1) as [[[results ok]|e] s2] eqn:Ec; cbn [fst snd].
  2: { exists [], messages, s, (Err e), s2. split; [constructor|]. split; [done|]. split; [eapply call_raised; [cbn; lia|done..]|]. split; [cbn; lia|done]. }
  set (x := Round r results ok).
  assert (forall k' m s3 l m' s' q s'', k' = (if ok then 0 else k + 1) -> m = messages ++ said x -> s3 = s2 -> exchange m s3 l m' s' ->
    ending n k' l m' s' q s'' -> (length l <= n)%nat -> (forall l1 y l2, l = l1 ++ y :: l2 -> failures_after k' l1 < 3) ->
    exchange messages s (x :: l) m' s' /\ ending (S n) k (x :: l) m' s' q s'' /\ (length (x :: l) <= S n)%nat /\
    (forall l1 y l2, x :: l = l1 ++ y :: l2 -> failures_after k l1 < 3)) as Hstep.
  { intros k' m s3 l m' s' q s'' -> -> -> Hex Hend Hlen Hpre. split; [by eapply exchange_round|]. split; [|split; [cbn; lia|]].
    - destruct Hend; [eapply answered|by apply given_up|apply exhausted|eapply provider_failed|eapply call_raised]; try done; cbn; lia.
    - intros [|z l1] y l2; [intros _; cbn; lia|]. intros [= <- Hl]. by apply (Hpre l1 y l2). }
  destruct ok.
  - destruct (IH (messages ++ said x) 0 s2) as (l & m' & s' & q & s'' & Hex & Hrun & Hend & Hlen & Hpre); [lia|].
    exists (x :: l), m', s', q, s''. destruct (Hstep 0 (messages ++ said x) s2 l m' s' q s'') as (? & ? & ? & ?); try done.
  - destruct (Z.leb_spec max_consecutive_failures (k + 1)) as [Hm|Hm]; unfold max_consecutive_failures in Hm.
    + exists [x], (messages ++ said x), s2, (Ok (stopped_text 3)), s2. assert (k + 1 = 3) as Hk3 by lia.
      split; [eapply exchange_round; [done..|constructor]|]. split; [by rewrite Hk3|]. split; [by apply given_up|]. split; [cbn; lia|].
      intros [|z l1] y l2; [cbn; lia|]. intros [= <- Hl]. by destruct l1.
    + destruct (IH (messages ++ said x) (k + 1) s2) as (l & m' & s' & q & s'' & Hex & Hrun & Hend & Hlen & Hpre); [lia|].
      exists (x :: l), m', s', q, s''. destruct (Hstep (k + 1) (messages ++ said x) s2 l m' s' q s'') as (? & ? & ? & ?); try done.
Qed.
End rounds.

(** ** What the tools of a chat may do *)

Section policy.
Context `{Outside} `{Host} `{Aead} (b64decode : string -> string) (kek_b64 : string).

Abbreviation dispatch := (_dispatch_chat_tool b64decode kek_b64).

(** The chat with other tools on offer and other tiers for the agent. *)
Definition with_policy (t : talk) (tools : list tool) (tier scheduled : string) : talk :=
  let a := tk_agent t in
  Talk (AgentRow (ar_id a) (ar_account_id a) (ar_namespace_id a) (ar_name a) (ai_engine a) (ai_model a) (ai_api_key a)
          (system_prompt a) (auto_channel a) (orchestration_limits a) tier scheduled)
    (tk_payer t) (tk_state t) (tk_pool t) tools (tk_covered t) (tk_api_key t) (tk_system t).

Lemma function_call t name input s svc fn :
  name ∉ PLATFORM_TOOL_NAMES -> is_mcp_tool name = false -> parse_tool_name name = Some (svc, fn) -> dict_get name (tk_covered t) = None ->
  dispatch t name input s = in_world (_execute_namespace_function svc fn input (tk_agent t) (tk_state t) None) s.
Proof.
  intros Hp Hm Hn Hc. unfold _dispatch_chat_tool, chat_function.
  assert (forall n, n ∈ PLATFORM_TOOL_NAMES -> String.eqb name n = false) as Hne.
  { intros n Hin. apply String.eqb_neq. by intros ->. }
  assert (forall n, str_in n PLATFORM_TOOL_NAMES = true -> String.eqb name n = false) as Hne' by (intros n ?%str_in_spec; by apply Hne).
  rewrite (Hne' "get_state"), (Hne' "set_state"), (Hne' "send_to_channel"), (Hne' "list_state_keys"), (Hne' "search_state"),
    (Hne' "run_procedure") by by vm_compute. by rewrite Hm, Hn, Hc.
Qed.

(** A function that the sandbox answers for is run. *)
Lemma function_runs svc fn input agent state run w f v :
  get_for_execution (ar_namespace_id agent) svc fn (base (tables w)) = (Ok (f, v), base (tables w)) ->
  backend (v_spec v) = "code_sandbox"%string -> (forall c o, exists r, (sandbox_execute c o).1 = Ok r) ->
  exists m w', _execute_namespace_function svc fn input agent state run w = (Ok m, w') /\ executed agent svc fn input run w m w'.
Proof.
  intros Hget Hb Hsb. unfold _execute_namespace_function, try_all, mbind, stm_bind. cbn [getS]. rewrite Hget. cbn [fst].
  unfold get_backend. rewrite Hb. cbn [String.eqb Ascii.eqb Bool.eqb negb]. unfold ask. destruct (uuid4 (out w)) as [id o1]. unfold ask_res.
  cbn [set_out out]. set (call := ExecCall _ _ _ _ _ _ _). pose proof (Hsb call o1) as (result & Hres).
  destruct (sandbox_execute call o1) as [r o2] eqn:Hexec. cbn in Hres. subst r. cbn [log_execution modS].
  destruct (r_success result) eqn:Hok; unfold _increment_orchestration_call_count, mbind, stm_bind; cbn [getS set_tables modS mret stm_ret];
    (do 2 eexists; split; [reflexivity|]; exists f, v, result, id, o1, state; split; [done|]; split; [done|];
     split; [subst call; by rewrite Hexec|]; unfold row_of, result_text; rewrite Hok; by repeat split).
Qed.

(** [C28] The tool tiers of an agent, the tools that a chat offers to the model and
    the mark [public_safe] of a function bind no call: except for procedures, a
    call by a known name does the same whatever the tiers and the offer are, and
    every function of the namespace that has an active version is run for whoever
    chats, also through the public door, as soon as the model asks for it. *)
Theorem chat_ignores_tool_policy t tools tier scheduled name input s :
  (name <> "run_procedure"%string -> (name ∈ PLATFORM_TOOL_NAMES \/ is_mcp_tool name = true \/ parse_tool_name name <> None) ->
   dispatch (with_policy t tools tier scheduled) name input s = dispatch t name input s) /\
  (forall svc fn f v, name ∉ PLATFORM_TOOL_NAMES -> is_mcp_tool name = false -> parse_tool_name name = Some (svc, fn) ->
     dict_get name (tk_covered t) = None ->
     get_for_execution (ar_namespace_id (tk_agent t)) svc fn (base (tables (the_world s))) = (Ok (f, v), base (tables (the_world s))) ->
     backend (v_spec v) = "code_sandbox"%string -> (forall c o, exists r, (sandbox_execute c o).1 = Ok r) ->
     exists m w', dispatch t name input s = (Ok m, Fleet w' (records s) (replicas s) (schedules s) (webhooks s) (jobs s) (fires s) (the_host s)) /\
       executed (tk_agent t) svc fn input None (the_world s) m w').
Proof.
  split.
  - intros Hrun Hname. unfold _dispatch_chat_tool.
    destruct (String.eqb_spec name "get_state"); [reflexivity|]. destruct (String.eqb_spec name "set_state"); [reflexivity|].
    destruct (String.eqb_spec name "send_to_channel"); [reflexivity|]. destruct (String.eqb_spec name "list_state_keys"); [reflexivity|].
    destruct (String.eqb_spec name "search_state"); [reflexivity|]. destruct (String.eqb_spec name "run_procedure"); [contradiction|].
    destruct (is_mcp_tool name); [reflexivity|]. unfold chat_function.
    destruct (parse_tool_name name) as [[svc fn]|]; [reflexivity|]. exfalso. destruct Hname as [Hp|[Hm|Hn]]; [|discriminate|contradiction].
    apply list_elem_of_In in Hp. cbn in Hp. intuition congruence.
  - intros svc fn f v Hp Hm Hn Hc Hget Hb Hsb. rewrite (function_call t name input s svc fn) by done.
    destruct (function_runs svc fn input (tk_agent t) (tk_state t) None (the_world s) f v) as (m & w' & Hrun & Hex); [done..|].
    exists m, w'. unfold in_world. by rewrite Hrun.
Qed.
End policy.

(** ** Examples *)

Definition secret_function (f : function) : function :=
  Function (f_id f) (f_service_id f) (f_name f) (f_description f) (f_tags f) (output_trust f) (active_version f) (call_count f)
    (locked f) (locked_by f) (locked_at f) false (f_deleted_at f).

(** One agent, "bot", with a key, a chat token and a webhook; the function
    [social.post] of its namespace is not marked [public_safe]. *)
Definition open_store : pstore :=
  PStore (Store (Tables [] [Account "acc1" "u1"] [Namespace "n1" "acc1" "bot" None None None 0 None] (services (ns demo_store)) [] [])
            (map secret_function (functions demo_store)) (versions demo_store) (calls demo_store)) [] [] [].
Definition open_token : string := "0123456789abcdefghijklm".
Definition open_agent : agent_record :=
  AgentRecord keyed_agent None "running" None 512 5 true None 1 (Some open_token) false None None None 0.
Definition open_hook : webhook := Webhook "w1" "ag1" "hook" "social.post" (Some (sha256_hex "top secret")) "direct" None true.
Definition open_fleet (l : list (res exc response)) : @fleet scripted laptop :=
  Fleet (World open_store demo_st [] [] [] (Sec [] ∅) (Script 0 l)) [open_agent] [] [] [open_hook] [] [] (Machine [] 0).

Lemma open_fleet_wf l : wf (db_of (open_fleet l)).
Proof.
  split; cbn; try (by repeat constructor); try (apply (bool_decide_unpack _); by vm_compute).
  - constructor; [|done]. eexists. split; [by apply list_elem_of_singleton|done].
  - intros a b t ->%list_elem_of_singleton ->%list_elem_of_singleton. done.
Qed.

Definition no_summary : string -> string -> string -> string -> string -> option string := fun _ _ _ _ _ => None.
Definition pro (account : string) : string := "pro-agent".
Definition the_post : chat_post := ChatPost true (Some "bot") open_token (Some (PDict [("message", PStr " Hello ")])).
Abbreviation chat_demo l := (public_chat (fun x => x) demo_kek no_summary pro the_post (open_fleet l)).
Definition ask_for (tool : string) (input : pyval) : res exc response := Ok (Response [ToolUse "t1" tool input] "tool_use" 10).

(** Whoever has the link of the public chat gets the private function run, and
    the state written, if the model asks for it: neither tool was on offer. *)
Example public_chat_runs_private_function :
  let '(r, s') := chat_demo [ask_for "social__post" demo_text; ask_for "set_state" (PDict [("key", PStr "k"); ("value", PInt 1)]); the_end] in
  r = Ok (say 200 "response" "Done.") /\ map ex_function_id (execution_log (the_world s')) = ["f1"%string] /\
  map public_safe (functions (base (tables (the_world s')))) = [false] /\
  existsb (fun e => String.eqb (e_key e) "k") (entries (states (the_world s'))) = true /\
  existsb (fun x => String.eqb (t_name x) "set_state")
    (build_tool_definitions (base open_store) "n1" true true) = false.
Proof. by vm_compute. Qed.

(** Three rounds of refused calls end a chat that may take ten. *)
Example chat_gives_up :
  (chat_demo (repeat (ask_for "nonsense" demo_text) 9)).1 = Ok (say 200 "response" (stopped_text 3)).
Proof. by vm_compute. Qed.

(** An argument that is no object: the function has run when the chat fails. *)
Example bad_arguments_after_the_fact :
  let '(r, s') := chat_demo [ask_for "social__post" (PList [PInt 1])] in
  r = Ok (say 500 "error" "Chat failed") /\ length (execution_log (the_world s')) = 1%nat.
Proof. by vm_compute. Qed.

(** The limits of a chat are those of "pro-agent", whatever the account pays for. *)
Example chat_limits : _resolve_chat_limits keyed_agent = limit_set 10 200000 120 1.
Proof. by vm_compute. Qed.

Lemma public_chat_guarded_witness :
  wf (db_of (open_fleet [the_end])) /\
  ((exists r, chat_demo [the_end] = (r, open_fleet [the_end]) /\ turned_away r) \/
   exists a text, admits the_post (open_fleet [the_end]) a /\ truthy_str text = true /\ str_len text <= 10000 /\ cp_agent_endpoint the_post = true /\
    (forall b, b ∈ records (open_fleet [the_end]) -> chat_token b = Some (cp_token the_post) -> Agents.a_id b = Agents.a_id a) /\
    chat_demo [the_end] = open_chat (fun x => x) demo_kek no_summary pro a text (open_fleet [the_end])).
Proof.
  split; [apply open_fleet_wf|].
  exact (public_chat_guarded (fun x => x) demo_kek no_summary pro the_post (open_fleet [the_end]) (open_fleet_wf _)).
Defined.

Definition the_hook : hook_post := HookPost (Some "bot") "hook" "{}" (sha256_hex "{}").
Definition known_tier (account : string) : option string := Some "pro-agent".

Lemma webhook_guarded_witness :
  wf (db_of (open_fleet [])) /\
  ((exists r, handle_agent_webhook (fun x => x) demo_kek known_tier the_hook (open_fleet []) = (r, open_fleet []) /\ turned_away r) \/
   exists x a, hook_found the_hook (open_fleet []) x a /\ signed x the_hook /\
    handle_agent_webhook (fun x => x) demo_kek known_tier the_hook (open_fleet [])
    = accepted_hook (fun x => x) demo_kek known_tier x a the_hook (open_fleet [])).
Proof.
  split; [apply open_fleet_wf|]. exact (webhook_guarded (fun x => x) demo_kek known_tier the_hook (open_fleet []) (open_fleet_wf _)).
Defined.

Lemma open_hook_found : hook_found the_hook (open_fleet []) open_hook open_agent.
Proof. repeat split; try (by apply list_elem_of_singleton). cbn. by apply elem_of_cons; left. Qed.

Lemma webhook_signature_unkeyed_witness :
  hook_found the_hook (open_fleet []) open_hook open_agent /\ secret_hash open_hook <> None /\
  (exists s', handle_agent_webhook (fun x => x) demo_kek known_tier the_hook (open_fleet []) = (Ok (Answer 200 [("status", PStr "ok"); ("output", PDict [])]), s')) /\
  handle_agent_webhook (fun x => x) demo_kek known_tier the_hook (open_fleet [])
  = accepted_hook (fun x => x) demo_kek known_tier (with_secret open_hook None) open_agent the_hook (open_fleet []).
Proof.
  split; [exact open_hook_found|]. split; [done|]. split; [eexists; vm_compute; reflexivity|].
  exact (@webhook_signature_unkeyed scripted laptop toy_aead toy_crypto (fun x => x) demo_kek known_tier the_hook (open_fleet []) open_hook open_agent None
    (open_fleet_wf _) open_hook_found ltac:(vm_compute; reflexivity) eq_refl).
Defined.

(** A session that cannot load the user of the account fails every webhook. *)
Example lazy_load_fails :
  (handle_agent_webhook (fun x => x) demo_kek (fun _ => None) the_hook (open_fleet [])).1 = Err (Raised (Exception "error")).
Proof. by vm_compute. Qed.

Lemma chat_rounds_witness :
  0 <= 0 < 3 /\
  let t := Talk keyed_agent (Payer "acc1" "pro-agent") [] false [] [] (PStr "sk-demo") "" in
  exists l messages' s' r s'', exchange (fun x => x) demo_kek t [] (open_fleet [the_end]) l messages' s' /\
    chat_loop (fun x => x) demo_kek no_summary 10 t "Hello" [] 0 (open_fleet [the_end]) = (r, s'') /\
    ending (fun x => x) demo_kek no_summary t "Hello" 10 0 l messages' s' r s'' /\ (length l <= 10)%nat /\
    (forall l1 x l2, l = l1 ++ x :: l2 -> failures_after 0 l1 < 3).
Proof.
  split; [lia|]. exact (chat_rounds (fun x => x) demo_kek no_summary (Talk keyed_agent (Payer "acc1" "pro-agent") [] false [] [] (PStr "sk-demo") "")
    "Hello" 10 [] 0 (open_fleet [the_end]) ltac:(lia)).
Defined.

Lemma sandbox_answers c o : exists r, (@sandbox_execute scripted c o).1 = Ok r.
Proof. by eexists. Qed.

Lemma chat_ignores_tool_policy_witness :
  let t := Talk keyed_agent (Payer "acc1" "pro-agent") [] false [] [] (PStr "sk-demo") "" in
  _dispatch_chat_tool (fun x => x) demo_kek (with_policy t [] "execute_only" "none") "social__post" demo_text (open_fleet [])
  = _dispatch_chat_tool (fun x => x) demo_kek t "social__post" demo_text (open_fleet []) /\
  exists m w', _dispatch_chat_tool (fun x => x) demo_kek t "social__post" demo_text (open_fleet [])
    = (Ok m, Fleet w' [open_agent] [] [] [open_hook] [] [] (Machine [] 0)) /\
    executed keyed_agent "social" "post" demo_text None (the_world (open_fleet [])) m w'.
Proof.
  intros t. destruct (chat_ignores_tool_policy (fun x => x) demo_kek t [] "execute_only" "none" "social__post" demo_text (open_fleet [])) as [H1 H2].
  split; [apply H1; [discriminate|right; right; discriminate]|].
  refine (H2 "social" "post" (secret_function demo_fn) demo_v1 _ eq_refl eq_refl eq_refl ltac:(vm_compute; reflexivity) eq_refl sandbox_answers).
  apply (bool_decide_unpack _). vm_compute. exact I.
Defined.
