(* ===== verification/Scheduler.v ===== *)
(** * The scheduler

    [tasks/scheduler.py]: schedules that are due become jobs, jobs are claimed for
    a running replica and executed, failures are counted, stale jobs fail, and
    replicas that went silent are replaced.  The state is the [fleet] of
    [Agents]; each [transaction] is a session of its own.

    A schedule and its agent are the rows as they were loaded at the claim, also
    where their rows have changed since.  A query with a limit takes the rows in
    the order of their insertion.  The tasks of one poll, which the code runs at the same time, follow one
    another here in their order.  The columns for the time of a claim and of an
    end, the generated package of functions, log lines and metrics are left out. *)

From S2P Require Import Prelude Regex Routing ReplicaNames Security Json Encryption AgentState Namespaces Functions Procedures SecurityEvents ConversationMemory AiTools ToolDispatch Hoare Orchestrator ProcedureRun Agents AgentChat.
From stdpp Require Import gmap strings.
From Stdlib Require Import Ascii.

Open Scope Z_scope.

Definition MAX_CONCURRENT_EXECUTIONS : nat := 5.
Definition STALE_JOB_TIMEOUT_SECONDS : Z := 300.
Definition REPLICA_HEARTBEAT_TIMEOUT_SECONDS : Z := 60.
Definition seconds (n : Z) : Z := n * 1000000.

Section scheduler.
Context `{Outside} `{Host} `{Aead} `{Crypto} (b64decode : string -> string) (kek_b64 : string).

(** [selectinload(Account.user)]: the effective tier of the user of an account. *)
Context (owner_tier : string -> string).

Abbreviation M := (stm fleet exn).

(** [str(e)] *)
Definition exn_text (e : exn) : string :=
  match e with
  | Service x => service_text x
  | BadValue m | PyRuntimeError m => m
  | PyAttributeError => lib_text LibAttributeError
  | MissingGreenlet => lib_text LibMissingGreenlet
  | Docker (DockerAPIError m) | Docker (Unreachable m) => m
  | Docker DockerNotFound => ""
  | BadCron => lib_text LibValueError
  | Cipher x => lib_text (LibState (AgentState.CryptoError x))
  | Raised x => exc_text x
  end.

(** [try: m except Exception as e: k e] *)
Definition catch {A} (m : M A) (k : exn -> M A) : M A := fun s =>
  match m s with (Ok a, s') => (Ok a, s') | (Err e, s') => k e s' end.

(** [update(...).where(id == ...)] *)
Definition update_schedule (id : string) (f : schedule -> schedule) : M unit :=
  set_schedules (map (fun x => if String.eqb (sc_id x) id then f x else x)).
Definition update_job (id : string) (f : job -> job) : M unit :=
  set_jobs (map (fun x => if String.eqb (jb_id x) id then f x else x)).
Definition update_fire (id status : string) (error run : option string) : M unit :=
  transaction (set_fires (map (fun x =>
    if String.eqb (fr_id x) id then
      ScheduleFire (fr_id x) (fr_schedule_id x) (fr_agent_id x) status error
        (if truthy_ostr run then run else fr_run_id x)
    else x))).

Definition after_run (enabled : bool) (failures last next : Z) (x : schedule) : schedule :=
  Schedule (sc_id x) (sc_agent_id x) (function_name x) (cron_expression x) (timezone x) (failure_policy x) enabled (sc_mode x)
    (sc_orchestration_mode x) (sc_procedure_name x) failures (Some last) (Some next).
Definition with_next (next : Z) (x : schedule) : schedule :=
  Schedule (sc_id x) (sc_agent_id x) (function_name x) (cron_expression x) (timezone x) (failure_policy x) (sc_enabled x) (sc_mode x)
    (sc_orchestration_mode x) (sc_procedure_name x) (consecutive_failures x) (last_run_at x) (Some next).
Definition with_job (status : string) (claimed error : option string) (j : job) : job :=
  Job (jb_id j) (jb_agent_id j) (jb_schedule_id j) (jb_replica_id j) (fire_time j) status claimed error (jb_created_at j).

(** ** Failures *)

(** [schedule.failure_policy or {"strategy": "continue"}], decoded from a text. *)
Definition policy_of (v : pyval) : M (list (string * pyval)) :=
  let continue := [("strategy", PStr "continue")] in
  let dict v := match v with PDict d => mret d | _ => raise PyAttributeError end in
  if negb (truthy v) then mret continue
  else match v with
  | PStr t => match json_loads t with
              | Ok v => dict v
              | Err JSONDecodeError => mret continue
              | Err OutOfModel => raise PyAttributeError
              end
  | v => dict v
  end.

Definition is_auto_disable (policy : list (string * pyval)) : bool :=
  match dict_getd "strategy" (PStr "continue") policy with PStr t => String.eqb t "auto_disable" | _ => false end.

(** [new_failures >= policy.get("max_failures", 3)] under the strategy that disables. *)
Definition disables (policy : list (string * pyval)) (new_failures : Z) : M bool :=
  if is_auto_disable policy then
    match int_value (dict_getd "max_failures" (PInt 3) policy) with
    | Some n => mret (n <=? new_failures)
    | None => raise (Raised (Exception (lib_text LibTypeError)))
    end
  else mret false.

Definition cron_row (agent : agent_row) (x : schedule) (id status : string) (ms : Z) (summary error : option string) : agent_run :=
  direct_run agent id ("schedule:" +:+ sc_id x) (function_name x) status ms summary error.

(** [x] is the schedule as it was loaded. *)
Definition _record_failure (agent : agent_row) (run_id : string) (x : schedule) (error : string) (ms : Z) : M unit :=
  end_run (cron_row agent x run_id "failed" ms None (Some (str_take 1000 error)));;
  let new_failures := consecutive_failures x + 1 in
  last ← ask_out now;
  next ← _compute_next_run (cron_expression x) (timezone x);
  policy ← policy_of (failure_policy x);
  off ← disables policy new_failures;
  update_schedule (sc_id x) (fun y => after_run (if (off : bool) then false else sc_enabled y) new_failures last next y).

(** ** The function of a schedule *)

(** The call of the sandbox and what follows it. *)
Definition run_scheduled (x : schedule) (agent : agent_row) (namespace_name run_id : string) (v : version) : M (option string) :=
  agent_state ← on_state (get_all_state b64decode kek_b64 (ar_id agent));
  execution_id ← ask_out uuid4;
  start ← ask_out now;
  out ← attempt (ask_res (sandbox_execute (ExecCall (code (v_spec v)) (config (v_spec v)) (PDict []) execution_id agent_state None
          namespace_name)));
  match out with
  | inr text => _record_failure agent run_id x text 0;; mret None
  | inl result =>
      stop ← ask_out now;
      let ms := Z.quot (stop - start) 1000 in
      if r_success result then
        let output := if truthy (r_output result) then Some (str_take 2000 (py_str (r_output result))) else None in
        end_run (cron_row agent x run_id "completed" ms (first_chars 1000 output) None);;
        last ← ask_out now;
        next ← _compute_next_run (cron_expression x) (timezone x);
        update_schedule (sc_id x) (fun y => after_run (sc_enabled y) 0 last next y);;
        mret output
      else
        _record_failure agent run_id x (or_text (r_error result) "Unknown error") ms;;
        mret None
  end.

(** The session of a direct run.  A missing account or namespace leaves the row of
    the run as it was inserted. *)
Definition direct_session (x : schedule) (agent : agent_row) (service_name fn_name : string) : M (option string) :=
  run_id ← ask_out uuid4;
  s ← getS;
  let t := ns (base (tables (the_world s))) in
  let unfinished := end_run (cron_row agent x run_id "running" 0 None None);; mret None in
  match List.find (fun c => String.eqb (Namespaces.a_id c) (ar_account_id agent)) (accounts t) with
  | None => unfinished
  | Some account =>
      match List.filter (fun n => String.eqb (n_name n) (ar_name agent) && String.eqb (n_account_id n) (Namespaces.a_id account))
              (namespaces t) with
      | [] => unfinished
      | [n] =>
          match (get_for_execution (n_id n) service_name fn_name (base (tables (the_world s)))).1 with
          | Err e => _record_failure agent run_id x (service_text e) 0;; mret None
          | Ok (_, v) =>
              if negb (get_backend (backend (v_spec v))) then
                _record_failure agent run_id x ("Backend not available: " +:+ backend (v_spec v)) 0;; mret None
              else run_scheduled x agent (n_name n) run_id v
          end
      | _ => raise (Service MultipleResultsFound)
      end
  end.

Definition _execute_function_direct (x : schedule) (agent : agent_row) : M (option string) :=
  match split_once "." (function_name x) with
  | None => mret None
  | Some (service_name, fn_name) => transaction (direct_session x agent service_name fn_name)
  end.

(** ** A scheduled execution *)

Definition account_of (agent : agent_row) : M (option string) := fun s =>
  (Ok (Namespaces.a_id <$> List.find (fun c => String.eqb (Namespaces.a_id c) (ar_account_id agent)) (accounts (ns (base (tables (the_world s)))))), s).

Definition scheduled_procedure (x : schedule) (agent : agent_row) (fire_id : string) : M unit :=
  if negb (truthy_ostr (sc_procedure_name x)) then update_fire fire_id "error" (Some "No procedure name configured") None
  else if negb (truthy_ostr (ai_engine agent)) then update_fire fire_id "error" (Some "No AI engine configured") None
  else
    account ← account_of agent;
    match account with
    | None => update_fire fire_id "error" (Some "Account not found") None
    | Some account =>
        let svc_name := match split_once "." (function_name x) with Some (s, _) => s | None => "default" end in
        _ ← in_world (run_procedure_orchestration b64decode kek_b64 (dispatch_tool b64decode kek_b64 0) agent
              (PStr (default "" (sc_procedure_name x))) (PStr svc_name) "cron" account (owner_tier account) PNone);
        update_fire fire_id "completed" None None
    end.

(** What the run of the model leaves in the schedule: the policy is not looked at. *)
Definition after_orchestration (x : schedule) (ok : bool) : M unit :=
  transaction
    (last ← ask_out now;
     next ← _compute_next_run (cron_expression x) (timezone x);
     update_schedule (sc_id x) (fun y => after_run (sc_enabled y) (if ok then 0 else consecutive_failures x + 1) last next y)).

Definition scheduled_reasoning (x : schedule) (agent : agent_row) (mode fire_id : string) : M unit :=
  account ← account_of agent;
  match account with
  | None => update_fire fire_id "error" (Some "Account not found") None
  | Some account =>
      context ← (if String.eqb mode "run_then_reason" then
                   output ← _execute_function_direct x agent;
                   mret ("Scheduled execution of " +:+ function_name x +:+ " completed." +:+ nl +:+ "Output: " +:+ or_text output "(no output)")
                 else mret ("Scheduled trigger for function " +:+ function_name x +:+ ". Decide what actions to take.") : M string);
      r ← in_world (run_orchestration b64decode kek_b64 (dispatch_tool b64decode kek_b64 1) agent "cron" context (owner_tier account)
            account (Some (sc_id x)) (Some mode));
      after_orchestration x (success r);;
      update_fire fire_id (if success r then "completed" else "error") (first_chars 500 (error r)) (run_id r)
  end.

Definition _execute_scheduled_function (x : schedule) (agent : agent_row) : M unit :=
  fire_id ← ask_out uuid4;
  transaction (Agents.insert fires set_fires (same_id fr_id) (ScheduleFire fire_id (sc_id x) (ar_id agent) "started" None None));;
  let mode := if truthy_str (sc_orchestration_mode x) then sc_orchestration_mode x else "direct" in
  if String.eqb mode "procedure" then scheduled_procedure x agent fire_id
  else
    let mode := if negb (truthy_ostr (ai_engine agent)) then "direct" else mode in
    if String.eqb mode "direct" then
      catch (_ ← _execute_function_direct x agent; update_fire fire_id "completed" None None)
        (fun e => update_fire fire_id "error" (Some (str_take 500 (exn_text e))) None)
    else scheduled_reasoning x agent mode fire_id.

(** ** Jobs *)

Definition active (a : agent_record) : bool := String.eqb (agent_status a) "running" && enabled a.
Definition running_replicas (agent_id : string) (s : fleet) : list replica :=
  List.filter (fun r => of_agent agent_id r && String.eqb (rp_status r) "running") (replicas s).

Definition is_due (now : Z) (at_time : option Z) : bool := match at_time with None => true | Some t => t <=? now end.

(** The enabled schedules of the agents that run, as far as they are due. *)
Definition due_schedules (now : Z) (s : fleet) : list schedule :=
  List.filter (fun x => sc_enabled x && existsb (fun a => String.eqb (a_id a) (sc_agent_id x) && active a) (records s)
                        && is_due now (next_run_at x)) (schedules s).

Definition due_heartbeats (now : Z) (s : fleet) : list agent_record :=
  List.filter (fun a => active a && heartbeat_enabled a && bool_decide (is_Some (heartbeat_interval a))
                        && bool_decide (is_Some (ai_engine (row a))) && is_due now (heartbeat_next_at a)) (records s).

Definition new_job (x : schedule) (replica_id : option string) (fire_at : Z) : M unit :=
  id ← ask_out uuid4;
  t ← ask_out now;
  Agents.insert jobs set_jobs (same_id jb_id) (Job id (sc_agent_id x) (sc_id x) replica_id fire_at "pending" None None t).

Fixpoint new_jobs (x : schedule) (l : list replica) (fire_at : Z) : M unit :=
  match l with [] => mret tt | r :: l' => new_job x (Some (rp_id r)) fire_at;; new_jobs x l' fire_at end.

Definition schedule_jobs (fire_at : Z) (x : schedule) : M unit :=
  existing ← Agents.one jobs (fun j => String.eqb (jb_schedule_id j) (sc_id x) && (fire_time j =? fire_at));
  match existing with
  | Some _ => mret tt
  | None =>
      s ← getS;
      (if String.eqb (sc_mode x) "cluster" then new_jobs x (running_replicas (sc_agent_id x) s) fire_at
       else new_job x None fire_at);;
      next ← _compute_next_run (cron_expression x) (timezone x);
      update_schedule (sc_id x) (with_next next)
  end.

Fixpoint each {A} (f : A -> M unit) (l : list A) : M unit :=
  match l with [] => mret tt | x :: l' => f x;; each f l' end.

Definition _create_scheduled_jobs (due : list schedule) (fire_at : Z) : M unit := transaction (each (schedule_jobs fire_at) due).

Definition is_pending (j : job) : bool := String.eqb (jb_status j) "pending".
Definition is_single (j : job) : bool := negb (bool_decide (is_Some (jb_replica_id j))).

(** The jobs that one poll takes: five without a replica and five with one. *)
Definition claimable (s : fleet) : list job :=
  take MAX_CONCURRENT_EXECUTIONS (List.filter (fun j => is_pending j && is_single j) (jobs s)) ++
  take MAX_CONCURRENT_EXECUTIONS (List.filter (fun j => is_pending j && negb (is_single j)) (jobs s)).

(** The claim of one job: nothing without a running replica of its agent, or
    without its schedule and agent. *)
Definition claim_job (j : job) : M (list (job * schedule * agent_record)) := fun s =>
  let claimer := if is_single j then rp_id <$> head (running_replicas (jb_agent_id j) s) else jb_replica_id j in
  match claimer with
  | None => (Ok [], s)
  | Some who =>
      let '(r, s') := update_job (jb_id j) (with_job "claimed" (Some who) (jb_error j)) s in
      (match List.find (fun x => String.eqb (sc_id x) (jb_schedule_id j)) (schedules s) with
       | Some x =>
           match List.find (fun a => String.eqb (a_id a) (sc_agent_id x)) (records s) with
           | Some a => Ok [(j, x, a)]
           | None => Ok []
           end
       | None => Ok []
       end, s')
  end.

Fixpoint claim_jobs (l : list job) : M (list (job * schedule * agent_record)) :=
  match l with
  | [] => mret []
  | j :: l' => c ← claim_job j; rest ← claim_jobs l'; mret (c ++ rest)
  end.

Definition _claim_pending_jobs : M (list (job * schedule * agent_record)) :=
  transaction (s ← getS; claim_jobs (claimable s)).

Definition set_job_status (id status : string) (error : option string) : M unit :=
  transaction (update_job id (fun j => with_job status (claimed_by j) (match error with Some e => Some e | None => jb_error j end) j)).

Definition _execute_claimed_job (c : job * schedule * agent_record) : M unit :=
  let '(j, x, a) := c in
  set_job_status (jb_id j) "running" None;;
  catch (_execute_scheduled_function x (row a);; set_job_status (jb_id j) "complete" None)
    (fun e => set_job_status (jb_id j) "failed" (Some (str_take 1000 (exn_text e)))).

(** ** Heartbeats *)

Definition part (title : string) (v : pyval) : string :=
  if truthy v then nl +:+ title +:+ ":" +:+ nl +:+ py_str v +:+ nl else "".

Definition heartbeat_context (agent_state : list (string * pyval)) : string :=
  let get k := dict_getd k (PStr "") agent_state in
  "Heartbeat tick. You are waking up on your configured interval." +:+ nl
  +:+ part "Your identity" (get "__soul__") +:+ part "Your current goals" (get "__goals__")
  +:+ part "Your instructions for this heartbeat" (get "__heartbeat_instructions__")
  +:+ part "Recent conversation context" (load_history agent_state).1
  +:+ nl +:+ "Review your state and instructions, then decide what actions to take. "
  +:+ "You can update __heartbeat_instructions__ via set_state to change "
  +:+ "what you do on your next heartbeat. "
  +:+ "If nothing needs doing, respond briefly that all is well.".

Definition with_next_beat (t : Z) (a : agent_record) : agent_record :=
  AgentRecord (row a) (display_name a) (agent_status a) (container_id a) (memory_mb a) (cpu_tenths a) (enabled a) (mcp_servers a)
    (target_replicas a) (chat_token a) (heartbeat_enabled a) (heartbeat_interval a) (Some t) (cloned_from_id a) (created_at a).

Definition _execute_heartbeat (a : agent_record) : M unit :=
  let agent := row a in
  if negb (truthy_ostr (ai_engine agent)) then mret tt
  else
    account ← account_of agent;
    match account with
    | None => mret tt
    | Some account =>
        agent_state ← transaction (on_state (get_all_state b64decode kek_b64 (ar_id agent)));
        _ ← in_world (run_orchestration b64decode kek_b64 (dispatch_tool b64decode kek_b64 1) agent "heartbeat"
              (heartbeat_context agent_state) (owner_tier account) account None None);
        t ← ask_out now;
        let interval := match heartbeat_interval a with Some n => if n =? 0 then 300 else n | None => 300 end in
        set_records (map (fun b => if String.eqb (a_id b) (a_id a) then with_next_beat (t + seconds interval) b else b))
    end.

(** ** One poll *)

Definition logged (m : M unit) : M unit := catch m (fun _ => mret tt).

Definition _poll_and_execute : M Z :=
  t ← ask_out now;
  s ← getS;
  let due := due_schedules t s in
  let beats := due_heartbeats t s in
  (match due with [] => mret tt | _ => _create_scheduled_jobs due t end);;
  claimed ← _claim_pending_jobs;
  each (fun c => logged (_execute_claimed_job c)) claimed;;
  each (fun a => logged (_execute_heartbeat a)) beats;;
  mret (Z.of_nat (length claimed + length beats)).

(** ** Stale jobs and silent replicas *)

Definition is_stale (cutoff : Z) (j : job) : bool := is_pending j && (jb_created_at j <? cutoff).

Definition _reap_stale_jobs : M Z :=
  transaction
    (t ← ask_out now;
     let cutoff := t - seconds STALE_JOB_TIMEOUT_SECONDS in
     s ← getS;
     set_jobs (map (fun j => if is_stale cutoff j then with_job "failed" (claimed_by j) (Some "Stale: unclaimed within timeout") j else j));;
     mret (Z.of_nat (length (List.filter (is_stale cutoff) (jobs s))))).

Definition is_silent (cutoff : Z) (s : fleet) (r : replica) : bool :=
  String.eqb (rp_status r) "running" && match last_heartbeat r with Some t => t <? cutoff | None => false end
  && existsb (fun a => String.eqb (a_id a) (rp_agent_id r) && enabled a) (records s).

(** [for _ in range(needed)], counting the replicas that were made. *)
Fixpoint replace_replicas (n : nat) (a : agent_record) : M Z :=
  match n with
  | O => mret 0
  | S n' =>
      made ← catch (_ ← _create_replica a; mret 1) (fun _ => mret 0);
      rest ← replace_replicas n' a;
      mret (made + rest)
  end.

Definition replace_for (agent_id : string) : M Z :=
  found ← Agents.one records (fun a => String.eqb (a_id a) agent_id);
  match found with
  | None => mret 0
  | Some a =>
      s ← getS;
      let running := Z.of_nat (length (running_replicas agent_id s)) in
      if running <? target_replicas a then replace_replicas (Z.to_nat (target_replicas a - running)) a else mret 0
  end.

Fixpoint replace_all (l : list string) : M Z :=
  match l with [] => mret 0 | id :: l' => n ← replace_for id; rest ← replace_all l'; mret (n + rest) end.

Definition _check_replica_health : M Z :=
  transaction
    (t ← ask_out now;
     s ← getS;
     let stale := List.filter (is_silent (t - seconds REPLICA_HEARTBEAT_TIMEOUT_SECONDS) s) (replicas s) in
     set_replicas (map (fun r => if str_in (rp_id r) (map rp_id stale) then with_replica r (rp_container_id r) "error" else r));;
     replace_all (remove_dups (map rp_agent_id stale))).

(** ** The loop *)

Definition initialize_schedule (x : schedule) : M unit :=
  logged (next ← _compute_next_run (cron_expression x) (timezone x); update_schedule (sc_id x) (with_next next)).

Definition _initialize_next_run_times : M unit :=
  transaction (s ← getS; each initialize_schedule (List.filter sc_enabled (schedules s))).

(** One turn of [run_scheduler_loop], without the detection of anomalies. *)
Definition scheduler_turn : M unit :=
  logged (_ ← _poll_and_execute; mret tt);;
  logged (_ ← _reap_stale_jobs; mret tt);;
  logged (_ ← _check_replica_health; mret tt).

Fixpoint scheduler_turns (n : nat) : M unit := match n with O => mret tt | S n' => scheduler_turn;; scheduler_turns n' end.

Definition run_scheduler_loop (turns : nat) : M unit := _initialize_next_run_times;; scheduler_turns turns.
End scheduler.

(** ** What stays as it is *)

(** A part of the tables that is neither in the world nor with the host. *)
Class Apart `{Outside} `{Host} {T} (f : fleet -> T) : Prop :=
  apart : forall w h s, f (Fleet w (records s) (replicas s) (schedules s) (webhooks s) (jobs s) (fires s) h) = f s.

Section frames.
Context `{Outside} `{Host}.

#[export] Instance jobs_apart : Apart jobs.
Proof. by intros ???. Qed.
#[export] Instance schedules_apart : Apart schedules.
Proof. by intros ???. Qed.

(** The identifiers that jobs and schedules refer to. *)
Definition idents (s : fleet) : list string * list string * list string :=
  (map sc_id (schedules s), map sc_agent_id (schedules s), map a_id (records s)).
#[export] Instance idents_apart : Apart idents.
Proof. by intros ???. Qed.

(** Jobs, and what they refer to. *)
Definition board (s : fleet) : list job * (list string * list string * list string) := (jobs s, idents s).
#[export] Instance board_apart : Apart board.
Proof. by intros ???. Qed.

Section part.
Context {T : Type} (f : fleet -> T) `{!Apart f}.
#[local] Set Default Proof Using "Type*".

Lemma frame_in_world {A} (m : stm world exc A) : frame f (in_world m).
Proof. intros s. unfold in_world. destruct (m _) as [[a|e] w]; apply apart. Qed.
Lemma frame_ask_out {A} (m : outside -> A * outside) : frame f (ask_out m).
Proof. apply frame_in_world. Qed.
Lemma frame_on_state {A} (m : stm st AgentState.err A) : frame f (on_state m).
Proof. intros s. unfold on_state. destruct (m _) as [[a|e] w]; apply apart. Qed.
Lemma frame_set_world (g : world -> world) : frame f (set_world g).
Proof. intros s. apply apart. Qed.
Lemma frame_attempt {A} (m : stm world exc A) : frame f (attempt m).
Proof.
  intros s. unfold attempt. pose proof (frame_in_world m s) as K. by destruct (in_world m s) as [[a|[]] s'].
Qed.
Lemma frame_on_host {A} (m : stm host docker_error A) : frame f (on_host m).
Proof. intros s. unfold on_host. destruct (m _) as [[a|e] h]; apply apart. Qed.
Lemma frame_docker_try {A B} (m : stm host docker_error A) (ok : A -> stm fleet exn B) k :
  (forall a, frame f (ok a)) -> frame f k -> frame f (docker_try m ok k).
Proof.
  intros Hok Hk s. unfold docker_try. pose proof (frame_on_host m s) as K.
  destruct (on_host m s) as [[a|[| | | | |[]| | |]] s']; cbn in K; rewrite ?Hok, ?Hk; done.
Qed.
Lemma frame_transaction {A} (m : stm fleet exn A) : frame f m -> frame f (transaction m).
Proof. intros Hm s. unfold transaction. specialize (Hm s). destruct (m s) as [[a|e] s']; [done|apply apart]. Qed.
Lemma frame_catch {A} (m : stm fleet exn A) (k : exn -> stm fleet exn A) :
  frame f m -> (forall e, frame f (k e)) -> frame f (catch m k).
Proof. intros Hm Hk s. unfold catch. specialize (Hm s). destruct (m s) as [[a|e] s']; [done|]. by rewrite Hk. Qed.
Lemma frame_logged (m : stm fleet exn unit) : frame f m -> frame f (logged m).
Proof. intros Hm. by apply frame_catch. Qed.
Lemma frame_each {A} (g : A -> stm fleet exn unit) l : (forall a, frame f (g a)) -> frame f (each g l).
Proof. intros Hg. induction l as [|a l IH]; [apply frame_ret|]. apply frame_bind; [apply Hg|by intros _]. Qed.
Lemma frame_one {A} (rows : fleet -> list A) p : frame f (Agents.one rows p).
Proof. intros s. unfold Agents.one. by destruct (List.filter p (rows s)) as [|? []]. Qed.
Lemma frame_account_of agent : frame f (account_of agent).
Proof. by intros s. Qed.
Lemma frame_next cron zone : frame f (_compute_next_run cron zone).
Proof. apply frame_bind; [apply frame_ask_out|]. intros t. by case_match. Qed.
Lemma frame_policy v : frame f (policy_of v).
Proof. unfold policy_of. repeat case_match; apply frame_ret || apply frame_raise. Qed.
Lemma frame_disables p n : frame f (disables p n).
Proof. unfold disables. repeat case_match; apply frame_ret || apply frame_raise. Qed.
Lemma frame_end_run r : frame f (end_run r).
Proof. apply frame_set_world. Qed.
End part.

Lemma map_updated {A B} (key : A -> string) (g : A -> B) (id : string) (h : A -> A) l :
  (forall y, g (h y) = g y) -> map g (map (fun x => if String.eqb (key x) id then h x else x) l) = map g l.
Proof. intros Hg. rewrite map_map. apply map_ext. intros y. by destruct (String.eqb _ _). Qed.

Lemma frame_update_schedule id g : (forall y, sc_id (g y) = sc_id y) -> (forall y, sc_agent_id (g y) = sc_agent_id y) ->
  frame board (update_schedule id g).
Proof. intros H1 H2 s. unfold board, idents. cbn. by rewrite !map_updated. Qed.

Lemma frame_update_fire id status e run : frame board (update_fire id status e run).
Proof. apply frame_transaction; [apply _|]. by intros s. Qed.

Lemma frame_insert_fire x : frame board (Agents.insert fires set_fires (same_id fr_id) x).
Proof. intros s. unfold Agents.insert, mbind, stm_bind. cbn. by case_match. Qed.
End frames.

#[export] Hint Resolve frame_in_world frame_ask_out frame_on_state frame_set_world frame_attempt frame_one frame_account_of frame_next
  frame_policy frame_disables frame_end_run frame_update_fire frame_insert_fire : frame.

(** ** Every claimed job ends *)

Section settled.
Context `{Outside} `{Host} `{Aead} `{Crypto} (b64decode : string -> string) (kek_b64 : string).
Context (owner_tier : string -> string).
#[local] Set Default Proof Using "Type*".

Abbreviation M := (stm fleet exn).
Abbreviation boards := (frame board).

Lemma frame_record_failure agent id x e ms : boards (_record_failure agent id x e ms).
Proof.
  unfold _record_failure. apply frame_bind; [auto with frame typeclass_instances|]. intros _. apply frame_bind; [auto with frame typeclass_instances|].
  intros last. apply frame_bind; [auto with frame typeclass_instances|]. intros next. apply frame_bind; [auto with frame typeclass_instances|].
  intros policy. apply frame_bind; [auto with frame typeclass_instances|]. intros off. by apply frame_update_schedule.
Qed.

Lemma frame_after_run id en fl last next : boards (update_schedule id (fun y => after_run (en y) fl last next y)).
Proof. by apply frame_update_schedule. Qed.
Lemma frame_with_next id next : boards (update_schedule id (with_next next)).
Proof. by apply frame_update_schedule. Qed.
#[local] Hint Resolve frame_record_failure frame_after_run frame_with_next : frame.

Ltac board_tac := repeat (frame_tac; try case_match).

Lemma frame_run_scheduled x agent ns id v : boards (run_scheduled b64decode kek_b64 x agent ns id v).
Proof. unfold run_scheduled. board_tac. Qed.
#[local] Hint Resolve frame_run_scheduled : frame.

Lemma frame_direct x agent : boards (_execute_function_direct b64decode kek_b64 x agent).
Proof.
  unfold _execute_function_direct. destruct (split_once _ _) as [[svc fn]|]; [|apply frame_ret]. apply frame_transaction; [apply _|].
  unfold direct_session. board_tac.
Qed.
#[local] Hint Resolve frame_direct : frame.

Lemma frame_scheduled x agent : boards (_execute_scheduled_function b64decode kek_b64 owner_tier x agent).
Proof.
  unfold _execute_scheduled_function, scheduled_procedure, scheduled_reasoning, after_orchestration. apply frame_bind; [auto with frame typeclass_instances|].
  intros fire. apply frame_bind; [apply frame_transaction; [apply _|auto with frame]|]. intros _.
  destruct (String.eqb _ "procedure"); [board_tac|]. destruct (String.eqb _ "direct").
  - apply frame_catch; [apply _|board_tac|intros e; board_tac].
  - apply frame_bind; [auto with frame typeclass_instances|]. intros [account|]; [|board_tac]. apply frame_bind; [board_tac|]. intros context.
    apply frame_bind; [board_tac|]. intros r. apply frame_bind; [apply frame_transaction; [apply _|board_tac]|]. intros _. board_tac.
Qed.

Lemma frame_heartbeat a : boards (_execute_heartbeat b64decode kek_b64 owner_tier a).
Proof.
  unfold _execute_heartbeat. destruct (negb _); [apply frame_ret|]. apply frame_bind; [auto with frame typeclass_instances|].
  intros [account|]; [|apply frame_ret]. apply frame_bind; [apply frame_transaction; [apply _|board_tac]|]. intros state.
  apply frame_bind; [board_tac|]. intros _. apply frame_bind; [board_tac|]. intros t s. unfold board, idents. cbn. by rewrite map_updated.
Qed.

Lemma frame_put_replica r : boards (put_replica r).
Proof. by intros s. Qed.
Lemma frame_create_replica a : boards (_create_replica a).
Proof.
  unfold _create_replica. apply frame_bind; [by intros s|]. intros l. apply frame_bind; [apply frame_on_host, _|]. intros draws.
  destruct (generate_replica_name _ _ _ _) as [name|[]]; [|apply frame_raise]. board_tac.
  - intros s. unfold Agents.insert, mbind, stm_bind. cbn. by case_match.
  - apply frame_docker_try; [apply _|intros id|]; apply frame_put_replica.
Qed.

Lemma frame_replace n a : boards (replace_replicas n a).
Proof.
  induction n as [|n IH]; [apply frame_ret|]. apply frame_bind; [|intros made; apply frame_bind; [done|intros rest; apply frame_ret]].
  apply frame_catch; [apply _| |intros e; apply frame_ret]. apply frame_bind; [apply frame_create_replica|intros r; apply frame_ret].
Qed.
#[local] Hint Resolve frame_replace : frame.

Lemma frame_replace_all l : boards (replace_all l).
Proof. induction l as [|id l IH]; [apply frame_ret|]. cbn [replace_all]. unfold replace_for. board_tac. Qed.

Lemma frame_health : boards _check_replica_health.
Proof.
  apply frame_transaction; [apply _|]. apply frame_bind; [board_tac|]. intros t. apply frame_bind; [board_tac|]. intros s.
  apply frame_bind; [by intros s1|]. intros _. apply frame_replace_all.
Qed.

(** *** The jobs between two steps *)

(** A job that waits or has ended. *)
Definition settled (j : job) : Prop := jb_status j ∈ ["pending"; "complete"; "failed"].

(** All jobs are settled, except those of [ids]; each has its schedule, and each
    schedule its agent. *)
Record queue_ok (ids : list string) (b : list job * (list string * list string * list string)) : Prop := {
  q_settled : Forall (fun j => settled j \/ jb_id j ∈ ids) b.1;
  q_linked : Forall (fun j => jb_schedule_id j ∈ b.2.1.1) b.1;
  q_agents : Forall (fun a => a ∈ b.2.2) b.2.1.2
}.

Definition queue (ids : list string) (s : fleet) : Prop := queue_ok ids (board s).

Lemma queue_incl ids ids' s : ids ⊆ ids' -> queue ids s -> queue ids' s.
Proof. intros Hi [Hq Hl Ha]. split; [|done..]. eapply Forall_impl; [exact Hq|]. intros j [Hj|Hj]; [by left|right; by apply Hi]. Qed.

(** The jobs that are claimed or running. *)
Definition left_behind (s : fleet) : list string :=
  map jb_id (List.filter (fun j => negb (str_in (jb_status j) ["pending"; "complete"; "failed"])) (jobs s)).

(** The foreign keys: each job has its schedule, each schedule its agent. *)
Definition linked (s : fleet) : Prop :=
  Forall (fun j => jb_schedule_id j ∈ map sc_id (schedules s)) (jobs s) /\ Forall (fun x => sc_agent_id x ∈ map a_id (records s)) (schedules s).

Lemma linked_queue s : linked s -> queue (left_behind s) s.
Proof.
  intros [Hl Ha]. split; [|exact Hl|]; cbn.
  - apply Forall_forall. intros j Hj. destruct (str_in (jb_status j) ["pending"; "complete"; "failed"]) eqn:E; [left; by apply str_in_spec|].
    right. apply list_elem_of_fmap. exists j. split; [done|]. apply elem_of_filter_bool. by rewrite E.
  - by apply Forall_map.
Qed.

Lemma queue_frame {A} ids (m : M A) : boards m -> triple (queue ids) m (fun _ => queue ids) (fun _ => queue ids).
Proof. intros Hm s Hs. unfold queue. pose proof (Hm s) as K. destruct (m s) as [[a|e] s']; cbn in K; by rewrite K. Qed.

Lemma queue_transaction {A} ids P (m : M A) Q : (forall s, P s -> queue ids s) ->
  triple P m Q (fun _ _ => True) -> triple P (transaction m) Q (fun _ => queue ids).
Proof.
  intros HP Hm s Hs. specialize (Hm s Hs). unfold transaction. destruct (m s) as [[a|e] s']; [done|].
  unfold queue. change (rolled_back s s') with (Fleet (the_world (rolled_back s s')) (records s) (replicas s) (schedules s) (webhooks s) (jobs s) (fires s)
    (the_host (rolled_back s s'))). rewrite apart. by apply HP.
Qed.

Lemma queue_logged P (m : M unit) ids :
  triple P m (fun _ => queue ids) (fun _ => queue ids) -> triple P (logged m) (fun _ => queue ids) (fun _ _ => False).
Proof. intros Hm s Hs. specialize (Hm s Hs). unfold logged, catch. by destruct (m s) as [[[]|e] s']. Qed.

(** A job of [id] that gets another status. *)
Lemma queue_update ids ids' id (g : job -> job) :
  (forall j, jb_id (g j) = jb_id j) -> (forall j, jb_schedule_id (g j) = jb_schedule_id j) ->
  (forall j, settled (g j) \/ id ∈ ids') -> (forall i, i ∈ ids -> i = id \/ i ∈ ids') ->
  triple (queue ids) (update_job id g) (fun _ => queue ids') (fun _ _ => False).
Proof.
  intros Hi Hs Hg Hids s [Hq Hl Ha]. unfold queue, board. cbn. split; cbn; [| |done].
  - apply Forall_map. eapply Forall_impl; [exact Hq|]. intros j Hj. cbn. destruct (String.eqb_spec (jb_id j) id) as [<-|Hne].
    + rewrite Hi. apply Hg.
    + destruct Hj as [Hj|[Hj|Hj]%Hids]; [by left|done|by right].
  - apply Forall_map. eapply Forall_impl; [exact Hl|]. intros j Hj. cbn. destruct (String.eqb _ _); [by rewrite Hs|done].
Qed.
End settled.

Section rounds.
Context `{Outside} `{Host} `{Aead} `{Crypto} (b64decode : string -> string) (kek_b64 : string).
Context (owner_tier : string -> string).
#[local] Set Default Proof Using "Type*".

Abbreviation M := (stm fleet exn).

Lemma status_ids id status e ids ids' :
  (status ∈ ["pending"; "complete"; "failed"] \/ id ∈ ids') -> (forall i, i ∈ ids -> i = id \/ i ∈ ids') ->
  triple (queue ids) (set_job_status id status e) (fun _ => queue ids') (fun _ _ => False).
Proof.
  intros Hst Hids s Hs. pose proof (queue_update ids ids' id
    (fun j => with_job status (claimed_by j) (match e with Some e => Some e | None => jb_error j end) j)) as K.
  unfold set_job_status, transaction. by apply K.
Qed.

(** [old]: the jobs that an earlier process left claimed or running. *)
Section left.
Context (old : list string).
#[local] Set Default Proof Using "All".

(** [_execute_claimed_job] never raises, and its job ends. *)
Lemma execute_claimed_settles c ids :
  triple (queue (jb_id c.1.1 :: ids)) (_execute_claimed_job b64decode kek_b64 owner_tier c) (fun _ => queue ids) (fun _ _ => False).
Proof.
  destruct c as [[j x] a]. unfold _execute_claimed_job. cbn [fst].
  eapply triple_bind; [apply (status_ids _ _ _ _ (jb_id j :: ids)); [right; by left|intros i Hi; by right]|]. intros _ s Hs.
  pose proof (queue_frame (jb_id j :: ids) (_execute_scheduled_function b64decode kek_b64 owner_tier x (row a))
    (frame_scheduled b64decode kek_b64 owner_tier x (row a)) s Hs) as K.
  assert (forall status e, status ∈ ["complete"; "failed"] ->
    triple (queue (jb_id j :: ids)) (set_job_status (jb_id j) status e) (fun _ => queue ids) (fun _ _ => False)) as Hend.
  { intros status e Hst. apply status_ids; [left; by right|]. intros i [->|Hi]%elem_of_cons; [by left|by right]. }
  unfold catch, mbind, stm_bind. destruct (_execute_scheduled_function _ _ _ _ _ s) as [[[]|e] s'].
  - pose proof (Hend "complete" None ltac:(by left) s' K) as K'. by destruct (set_job_status _ _ _ s') as [[[]|?] ?].
  - apply (Hend "failed" (Some (str_take 1000 (exn_text e))) ltac:(right; by left) s' K).
Qed.

Lemma claimed_settle l :
  triple (queue (map (fun c => jb_id c.1.1) l ++ old)) (each (fun c => logged (_execute_claimed_job b64decode kek_b64 owner_tier c)) l)
    (fun _ => queue old) (fun _ _ => False).
Proof.
  induction l as [|c l IH]; [by apply triple_ret|]. cbn [each map].
  apply (triple_bind _ (fun _ => queue (map (fun c => jb_id c.1.1) l ++ old))); [|by intros _].
  apply queue_logged. eapply triple_post; [apply execute_claimed_settles|done|done].
Qed.

Lemma find_key {A} (key : A -> string) k l : k ∈ map key l ->
  exists x, List.find (fun x => String.eqb (key x) k) l = Some x /\ x ∈ l.
Proof.
  intros (y & Hy & Hin)%list_elem_of_fmap. destruct (List.find _ l) as [x|] eqn:E.
  - exists x. split; [done|]. apply list_elem_of_In. by eapply find_some.
  - pose proof (List.find_none _ _ E y) as K. rewrite <-list_elem_of_In in K. specialize (K Hin). cbn in K. subst k.
    by rewrite String.eqb_refl in K.
Qed.

Lemma claim_settles j ids :
  triple (fun s => queue ids s /\ jb_schedule_id j ∈ map sc_id (schedules s)) (claim_job j)
    (fun c s => queue (ids ++ map (fun c => jb_id c.1.1) c) s) (fun _ _ => False).
Proof.
  intros s [Hs Hj]. unfold claim_job. set (claimer := if is_single j then _ else _). destruct claimer as [who|];
    [|cbn; by rewrite app_nil_r].
  destruct (find_key sc_id _ _ Hj) as (x & -> & Hx). destruct (find_key a_id (sc_agent_id x) (records s)) as (a & -> & Ha).
  { pose proof (q_agents _ _ Hs) as K. rewrite Forall_forall in K. apply K. by apply (list_elem_of_fmap_2 sc_agent_id). }
  cbn [map fst]. apply (queue_update ids (ids ++ [jb_id j]) (jb_id j) (with_job "claimed" (Some who) (jb_error j))); try done.
  - intros k. right. apply elem_of_app. right. by left.
  - intros i Hi. right. apply elem_of_app. by left.
Qed.

Lemma claim_keeps_schedules j : frame schedules (claim_job j).
Proof. intros s. unfold claim_job, update_job, set_jobs, modS. cbn. destruct (if is_single j then _ else _); [|done]. by destruct (List.find _ _) as [x|]; [destruct (List.find _ _)|]. Qed.

Lemma claims_settle l ids :
  triple (fun s => queue ids s /\ Forall (fun j => jb_schedule_id j ∈ map sc_id (schedules s)) l) (claim_jobs l)
    (fun c s => queue (ids ++ map (fun c => jb_id c.1.1) c) s) (fun _ _ => False).
Proof.
  revert ids. induction l as [|j l IH]; intros ids s [Hs Hl]; [cbn; by rewrite app_nil_r|].
  apply Forall_cons in Hl as [Hj Hl]. cbn [claim_jobs]. pose proof (claim_settles j ids s (conj Hs Hj)) as K.
  pose proof (claim_keeps_schedules j s) as Hsch. unfold mbind, stm_bind. destruct (claim_job j s) as [[c|e] s']; [|done].
  cbn in Hsch. rewrite <-Hsch in Hl. specialize (IH _ s' (conj K Hl)). unfold mbind, stm_bind in IH.
  destruct (claim_jobs l s') as [[rest|e] s'']; [|done]. cbn. rewrite map_app. by rewrite app_assoc.
Qed.

Lemma claimable_in s j : j ∈ claimable s -> j ∈ jobs s /\ is_pending j = true.
Proof.
  assert (forall p, j ∈ take MAX_CONCURRENT_EXECUTIONS (List.filter p (jobs s)) -> j ∈ jobs s /\ p j = true) as K.
  { intros p Hin. apply elem_of_filter_bool. by eapply subseteq_take. }
  unfold claimable. intros [Hin|Hin]%elem_of_app; apply K in Hin as [Hin ?]; bool_to_prop; done.
Qed.

Lemma claim_pending_settles : triple (queue old) _claim_pending_jobs (fun c => queue (map (fun c => jb_id c.1.1) c ++ old)) (fun _ => queue old).
Proof.
  apply (queue_transaction old); [done|]. intros s Hs.
  assert (Forall (fun j => jb_schedule_id j ∈ map sc_id (schedules s)) (claimable s)) as Hl.
  { apply Forall_forall. intros j [Hj _]%claimable_in. pose proof (q_linked _ _ Hs) as K. rewrite Forall_forall in K. by apply K. }
  pose proof (claims_settle (claimable s) old s (conj Hs Hl)) as K. unfold mbind, stm_bind. cbn [getS].
  destruct (claim_jobs (claimable s) s) as [[c|e] s']; [|done]. apply (queue_incl (old ++ map (fun c => jb_id c.1.1) c)); [|done].
  intros i. rewrite !elem_of_app. tauto.
Qed.

(** *** New jobs *)

Lemma new_job_settles x r t ids :
  triple (fun s => queue ids s /\ sc_id x ∈ map sc_id (schedules s)) (new_job x r t)
    (fun _ s => queue ids s /\ sc_id x ∈ map sc_id (schedules s)) (fun _ _ => True).
Proof.
  intros s [Hs Hx]. unfold new_job, mbind, stm_bind.
  assert (forall A (m : outside -> A * outside) s, queue ids s /\ sc_id x ∈ map sc_id (schedules s) ->
    exists a s', ask_out m s = (Ok a, s') /\ queue ids s' /\ sc_id x ∈ map sc_id (schedules s')) as Hask.
  { intros A m s0 [H1' H2']. destruct (ask_out_Ok m s0) as (a & s' & E). exists a, s'. split; [done|]. split.
    - pose proof (queue_frame ids (ask_out m) (frame_ask_out _ m) s0 H1') as K. by rewrite E in K.
    - pose proof (frame_ask_out schedules m s0) as K. rewrite E in K. cbn in K. by rewrite K. }
  destruct (Hask _ uuid4 s (conj Hs Hx)) as (id & s1 & -> & Hs1). destruct (Hask _ now s1 Hs1) as (u & s2 & -> & Hs2 & Hx2).
  unfold Agents.insert, mbind, stm_bind. cbn. destruct (existsb _ _); [done|]. split; [|done]. destruct Hs2 as [Hq Hl Ha]. split; cbn; [| |done].
  - apply Forall_app. split; [done|]. apply Forall_singleton. left. by left.
  - apply Forall_app. split; [done|]. by apply Forall_singleton.
Qed.

Lemma schedule_jobs_settles t x ids :
  triple (fun s => queue ids s /\ sc_id x ∈ (board s).2.1.1) (schedule_jobs t x) (fun _ s => queue ids s) (fun _ _ => True).
Proof.
  unfold schedule_jobs. intros s [Hs Hx]. unfold mbind, stm_bind.
  match goal with |- context [Agents.one jobs ?p] => pose proof (frame_one board jobs p s) as Hone end.
  destruct (Agents.one _ _ s) as [[[j|]|e] s1]; [change (queue ids s1); unfold queue; cbn in Hone; by rewrite Hone| |done]. cbn in Hone. cbn [getS].
  assert (queue ids s1 /\ sc_id x ∈ map sc_id (schedules s1)) as Hs1.
  { unfold queue. rewrite Hone. split; [done|]. change (map sc_id (schedules s1)) with (board s1).2.1.1. by rewrite Hone. }
  clear Hs Hx Hone. set (made := if String.eqb (sc_mode x) "cluster" then _ else _).
  assert (triple (fun s => queue ids s /\ sc_id x ∈ map sc_id (schedules s)) made
    (fun _ s => queue ids s /\ sc_id x ∈ map sc_id (schedules s)) (fun _ _ => True)) as Hmade.
  { subst made. destruct (String.eqb _ _); [|apply new_job_settles]. generalize (running_replicas (sc_agent_id x) s1) as l. intros l.
    induction l as [|r l IH]; [by apply triple_ret|]. cbn [new_jobs]. eapply triple_bind; [apply new_job_settles|intros u; apply IH]. }
  specialize (Hmade s1 Hs1). destruct (made s1) as [[[]|e] s2]; [|done]. destruct Hmade as [Hs2 _].
  pose proof (queue_frame ids (_compute_next_run (cron_expression x) (timezone x)) (frame_next _ _ _) s2 Hs2) as K.
  destruct (_compute_next_run _ _ s2) as [[next|e] s3]; [|done]. apply (queue_frame ids _ (frame_with_next (sc_id x) next) s3 K).
Qed.

Lemma frame_idents {A} (m : M A) : frame board m -> frame idents m.
Proof. intros Hm s. exact (f_equal snd (Hm s)). Qed.

Lemma frame_schedule_jobs t x : frame idents (schedule_jobs t x).
Proof.
  assert (forall r, frame idents (new_job x r t)) as Hnew.
  { intros r. unfold new_job. apply frame_bind; [apply frame_ask_out, _|]. intros id. apply frame_bind; [apply frame_ask_out, _|]. intros u s.
    unfold Agents.insert, mbind, stm_bind. cbn. by destruct (existsb _ _). }
  unfold schedule_jobs. apply frame_bind; [apply frame_one, _|]. intros [j|]; [apply frame_ret|]. apply frame_bind; [apply frame_get|]. intros s.
  apply frame_bind; [destruct (String.eqb _ _); [|apply Hnew]|intros _; apply frame_bind; [apply frame_next, _|]].
  - generalize (running_replicas (sc_agent_id x) s) as l. intros l. induction l as [|r l IH]; [apply frame_ret|].
    apply frame_bind; [apply Hnew|by intros _].
  - intros next. apply frame_idents, frame_with_next.
Qed.

Lemma create_settles due t :
  triple (fun s => queue old s /\ Forall (fun x => sc_id x ∈ map sc_id (schedules s)) due) (_create_scheduled_jobs due t)
    (fun _ => queue old) (fun _ => queue old).
Proof.
  apply (queue_transaction old); [by intros s [Hs _]|]. induction due as [|x due IH]; [by apply triple_ret; intros s [Hs _]|].
  intros s [Hs [Hx Hdue]%Forall_cons]. cbn [each]. pose proof (schedule_jobs_settles t x old s (conj Hs Hx)) as K.
  pose proof (frame_schedule_jobs t x s) as Hid. unfold mbind, stm_bind. destruct (schedule_jobs t x s) as [[[]|e] s']; [|done].
  assert (map sc_id (schedules s') = map sc_id (schedules s)) as Heq by (cbn in Hid; unfold idents in Hid; congruence).
  apply IH. split; [done|]. by rewrite Heq.
Qed.

Lemma beats_settle l : triple (queue old) (each (fun a => logged (_execute_heartbeat b64decode kek_b64 owner_tier a)) l) (fun _ => queue old) (fun _ => queue old).
Proof. apply queue_frame, (frame_each board). intros a. apply frame_logged, frame_heartbeat. apply _. Qed.

Lemma poll_settles : triple (queue old) (_poll_and_execute b64decode kek_b64 owner_tier) (fun _ => queue old) (fun _ => queue old).
Proof.
  unfold _poll_and_execute. eapply (triple_bind _ (fun _ => queue old)); [apply queue_frame, frame_ask_out, _|]. intros t s Hs.
  change (match (match due_schedules t s with [] => mret tt | _ => _create_scheduled_jobs (due_schedules t s) t end ;;
    (claimed ← _claim_pending_jobs; each (fun c => logged (_execute_claimed_job b64decode kek_b64 owner_tier c)) claimed;;
     each (fun a => logged (_execute_heartbeat b64decode kek_b64 owner_tier a)) (due_heartbeats t s);;
     mret (Z.of_nat (length claimed + length (due_heartbeats t s)))) : M Z) s with (Ok _, s') => queue old s' | (Err _, s') => queue old s' end).
  assert (triple (queue old) (claimed ← _claim_pending_jobs; each (fun c => logged (_execute_claimed_job b64decode kek_b64 owner_tier c)) claimed;;
     each (fun a => logged (_execute_heartbeat b64decode kek_b64 owner_tier a)) (due_heartbeats t s);;
     mret (Z.of_nat (length claimed + length (due_heartbeats t s))) : M Z) (fun _ => queue old) (fun _ => queue old)) as Hrest.
  { eapply triple_bind; [apply claim_pending_settles|]. intros claimed. cbn beta.
    apply (triple_bind _ (fun _ => queue old)); [eapply triple_post; [apply claimed_settle|done|done]|]. intros _.
    apply (triple_bind _ (fun _ => queue old)); [apply beats_settle|]. intros _. by apply triple_ret. }
  assert (triple (fun s' => s' = s) (match due_schedules t s with [] => mret tt | _ => _create_scheduled_jobs (due_schedules t s) t end : M unit)
    (fun _ => queue old) (fun _ => queue old)) as Hcreate.
  { intros s' ->. pose proof (create_settles (due_schedules t s) t s) as K. destruct (due_schedules t s) as [|x due] eqn:E; [done|].
    apply K. split; [done|]. apply Forall_forall. intros y Hy. rewrite <-E in Hy. apply elem_of_filter_bool in Hy as [Hy _].
    by apply (list_elem_of_fmap_2 sc_id). }
  by apply (triple_bind _ _ _ _ _ _ Hcreate (fun _ => Hrest) s).
Qed.

Lemma reap_settles : triple (queue old) _reap_stale_jobs (fun _ => queue old) (fun _ => queue old).
Proof.
  apply (queue_transaction old); [done|]. eapply (triple_bind _ (fun _ => queue old)); [eapply triple_post; [apply queue_frame, frame_ask_out, _|done|done]|].
  intros t s [Hq Hl Ha]. unfold queue, board. cbn. split; cbn; [| |done].
  - apply Forall_map. eapply Forall_impl; [exact Hq|]. intros j Hj. cbn. destruct (is_stale _ j); [left; right; right; by left|done].
  - apply Forall_map. eapply Forall_impl; [exact Hl|]. intros j Hj. cbn. by destruct (is_stale _ j).
Qed.

Lemma turn_settles : triple (queue old) (scheduler_turn b64decode kek_b64 owner_tier) (fun _ => queue old) (fun _ _ => False).
Proof.
  assert (forall m : M Z, triple (queue old) m (fun _ => queue old) (fun _ => queue old) ->
    triple (queue old) (logged (_ ← m; mret tt)) (fun _ => queue old) (fun _ _ => False)) as Hlog.
  { intros m Hm. apply queue_logged. eapply (triple_bind _ (fun _ => queue old)); [done|]. intros _. by apply triple_ret. }
  unfold scheduler_turn. apply (triple_bind _ (fun _ => queue old)); [apply Hlog, poll_settles|]. intros _.
  apply (triple_bind _ (fun _ => queue old)); [apply Hlog, reap_settles|]. intros _. apply Hlog, queue_frame, frame_health.
Qed.

End left.

End rounds.

(** ** Failures *)

Section failures.
Context `{Outside} `{Host} `{Aead} `{Crypto} (b64decode : string -> string) (kek_b64 : string).
#[local] Set Default Proof Using "Type*".

Abbreviation M := (stm fleet exn).

(** The number of failures at which a policy disables its schedule, if it does. *)
Definition threshold (v : pyval) : option Z :=
  let cap d := if is_auto_disable d then int_value (dict_getd "max_failures" (PInt 3) d) else None in
  match v with
  | PDict ((_ :: _) as d) => cap d
  | PStr t => match json_loads t with Ok (PDict d) => cap d | _ => None end
  | _ => None
  end.

(** The schedules and the rows of runs. *)
Definition ledger (s : fleet) : list schedule * list agent_run := (schedules s, map fst (runs (the_world s))).

Lemma ledger_ask {A} (m : outside -> A * outside) : frame ledger (ask_out m).
Proof. intros s. unfold ask_out, in_world, ask, ledger. cbn. by destruct (m _). Qed.
Lemma ledger_on_state {A} (m : stm st AgentState.err A) : frame ledger (on_state m).
Proof. intros s. unfold on_state, ledger. by destruct (m _) as [[a|e] w]. Qed.
Lemma ledger_attempt {A} (m : outside -> res exc A * outside) : frame ledger (attempt (ask_res m)).
Proof. intros s. unfold attempt, in_world, ask_res, ledger. cbn. by destruct (m _) as [[a|[]] o]. Qed.
Lemma ledger_next cron zone : frame ledger (_compute_next_run cron zone).
Proof. apply frame_bind; [apply ledger_ask|]. intros t. by case_match. Qed.

Lemma policy_threshold v n s p off s1 s2 : policy_of v s = (Ok p, s1) -> disables p n s1 = (Ok off, s2) ->
  s1 = s /\ s2 = s /\ (off = true <-> exists m, threshold v = Some m /\ m <= n).
Proof.
  intros Hp Hd.
  assert (s1 = s /\ (is_auto_disable p = true -> threshold v = int_value (dict_getd "max_failures" (PInt 3) p)) /\
    (is_auto_disable p = false -> threshold v = None)) as (-> & Hyes & Hno).
  { assert (forall d, (mret d : M _) s = (Ok p, s1) -> s1 = s /\ p = d) as Hret by (intros d [<- <-]%stm_ret_Ok; done).
    assert ((mret [("strategy", PStr "continue")] : M _) s = (Ok p, s1) -> threshold v = None ->
      s1 = s /\ (is_auto_disable p = true -> threshold v = int_value (dict_getd "max_failures" (PInt 3) p)) /\
      (is_auto_disable p = false -> threshold v = None)) as Hcont by (intros [-> ->]%Hret E; done).
    assert (forall d, (mret d : M _) s = (Ok p, s1) -> threshold v = (if is_auto_disable d then int_value (dict_getd "max_failures" (PInt 3) d) else None) ->
      s1 = s /\ (is_auto_disable p = true -> threshold v = int_value (dict_getd "max_failures" (PInt 3) p)) /\
      (is_auto_disable p = false -> threshold v = None)) as Hdict.
    { intros d [-> ->]%Hret E. split; [done|]. by split; intros Hd'; rewrite Hd' in E. }
    unfold policy_of in Hp. destruct v as [|[]|z|t|[|y l]|[|y l]]; cbn [truthy negb] in Hp; try done; try by apply Hcont.
    - destruct (negb (negb (z =? 0))); [by apply Hcont|done].
    - destruct (negb (truthy_str t)) eqn:Et; [apply Hcont; [done|]; cbn; by destruct t|].
      destruct (json_loads t) as [[]|[]] eqn:Ej; try done; [apply (Hdict _ Hp)|apply (Hcont Hp)]; cbn [threshold]; by rewrite Ej.
    - exact (Hdict (y :: l) Hp eq_refl). }
  split; [done|]. unfold disables in Hd. destruct (is_auto_disable p) eqn:E.
  - rewrite Hyes by done. destruct (int_value _) as [m|]; [|done]. injection Hd as <- <-. split; [done|]. rewrite Z.leb_le.
    split; [by eauto|]. by intros (k & [= <-] & ?).
  - rewrite Hno by done. injection Hd as <- <-. split; [done|]. split; [done|]. by intros (? & ? & _).
Qed.

(** [s'] is [s] with the schedule of [x] changed by [f] and a row of a run of the
    schedule with this status. *)
Definition logged_run (x : schedule) (agent : agent_row) (status : string) (f : schedule -> schedule) (s s' : fleet) : Prop :=
  exists id ms summary error,
    ledger s' = (map (fun y => if String.eqb (sc_id y) (sc_id x) then f y else y) (schedules s),
                 map fst (runs (the_world s)) ++ [cron_row agent x id status ms summary error]).

(** After a failure: one more, and disabled when the threshold is reached. *)
Definition failed_once (x : schedule) (agent : agent_row) (s s' : fleet) : Prop :=
  exists last next off, (off = true <-> exists m, threshold (failure_policy x) = Some m /\ m <= consecutive_failures x + 1) /\
    logged_run x agent "failed" (fun y => after_run (if (off : bool) then false else sc_enabled y) (consecutive_failures x + 1) last next y) s s'.

(** After a success: none. *)
Definition succeeded (x : schedule) (agent : agent_row) (s s' : fleet) : Prop :=
  exists last next, logged_run x agent "completed" (fun y => after_run (sc_enabled y) 0 last next y) s s'.

Lemma record_failure_Ok agent id x e ms s s' : _record_failure agent id x e ms s = (Ok tt, s') -> failed_once x agent s s'.
Proof.
  intros ([] & s1 & H1' & Hr)%stm_bind_Ok. apply stm_bind_Ok in Hr as (last & s2 & H2' & Hr). apply stm_bind_Ok in Hr as (next & s3 & H3 & Hr).
  apply stm_bind_Ok in Hr as (p & s4 & H4 & Hr). apply stm_bind_Ok in Hr as (off & s5 & H5 & Hr).
  destruct (policy_threshold _ _ _ _ _ _ _ H4 H5) as (-> & -> & Hoff).
  pose proof (ledger_ask now s1) as K1. rewrite H2' in K1. pose proof (ledger_next (cron_expression x) (timezone x) s2) as K2. rewrite H3 in K2.
  exists last, next, off. split; [done|]. exists id, ms, None, (Some (str_take 1000 e)). injection H1' as <-. injection Hr as <-.
  cbn [snd] in K1, K2. rewrite K1 in K2. unfold ledger in K2. cbn in K2. rewrite map_app in K2. injection K2 as Hsch Hruns. unfold ledger. cbn.
  by rewrite Hsch, Hruns.
Qed.

Lemma ledger_run x agent status f s0 s s' : ledger s0 = ledger s -> logged_run x agent status f s s' -> logged_run x agent status f s0 s'.
Proof.
  intros Hl (id & ms & summary & error & Hs). exists id, ms, summary, error. rewrite Hs. unfold ledger in Hl. injection Hl as Hl1 Hl2.
  by rewrite Hl1, Hl2.
Qed.
Lemma ledger_failed x agent s0 s s' : ledger s0 = ledger s -> failed_once x agent s s' -> failed_once x agent s0 s'.
Proof. intros Hl (last & next & off & Hoff & Hr). exists last, next, off. split; [done|]. by eapply ledger_run. Qed.
Lemma ledger_succeeded x agent s0 s s' : ledger s0 = ledger s -> succeeded x agent s s' -> succeeded x agent s0 s'.
Proof. intros Hl (last & next & Hr). exists last, next. by eapply ledger_run. Qed.

Lemma run_scheduled_Ok x agent ns id v s o s' : run_scheduled b64decode kek_b64 x agent ns id v s = (Ok o, s') ->
  succeeded x agent s s' \/ o = None /\ failed_once x agent s s'.
Proof.
  intros (state & s1 & E1 & Hr)%stm_bind_Ok. apply stm_bind_Ok in Hr as (eid & s2 & E2 & Hr). apply stm_bind_Ok in Hr as (start & s3 & E3 & Hr).
  apply stm_bind_Ok in Hr as (out & s4 & E4 & Hr).
  assert (ledger s = ledger s4) as L4.
  { rewrite <-(frame_result ledger _ _ _ _ (ledger_on_state _) E1), <-(frame_result ledger _ _ _ _ (ledger_ask _) E2),
      <-(frame_result ledger _ _ _ _ (ledger_ask _) E3), <-(frame_result ledger _ _ _ _ (ledger_attempt _) E4). done. }
  destruct out as [result|text].
  2:{ right. apply stm_bind_Ok in Hr as ([] & s5 & Hf & Hr). apply stm_ret_Ok in Hr as [<- <-]. split; [done|].
      by eapply ledger_failed, record_failure_Ok. }
  apply stm_bind_Ok in Hr as (stop & s5 & E5 & Hr). rewrite <-(frame_result ledger _ _ _ _ (ledger_ask _) E5) in L4.
  cbn zeta in Hr. destruct (r_success result).
  2:{ right. apply stm_bind_Ok in Hr as ([] & s6 & Hf & Hr). apply stm_ret_Ok in Hr as [<- <-]. split; [done|].
      by eapply ledger_failed, record_failure_Ok. }
  left. apply stm_bind_Ok in Hr as ([] & s6 & H6 & Hr). apply stm_bind_Ok in Hr as (last & s7 & E7 & Hr).
  apply stm_bind_Ok in Hr as (next & s8 & E8 & Hr). apply stm_bind_Ok in Hr as ([] & s9 & H9 & Hr). apply stm_ret_Ok in Hr as [<- <-].
  eapply ledger_succeeded; [exact L4|]. exists last, next.
  pose proof (frame_result ledger _ _ _ _ (ledger_next _ _) E8) as L8. rewrite (frame_result ledger _ _ _ _ (ledger_ask _) E7) in L8.
  injection H6 as <-. injection H9 as <-. unfold ledger in L8. cbn in L8. rewrite map_app in L8. injection L8 as Hs Hr.
  do 4 eexists. unfold ledger. cbn. rewrite Hs, Hr. reflexivity.
Qed.

(** The function of the schedule could not be looked for. *)
Definition unreachable (x : schedule) (agent : agent_row) (s : fleet) : Prop :=
  split_once "." (function_name x) = None \/
  (forall c, c ∈ accounts (ns (base (tables (the_world s)))) -> Namespaces.a_id c <> ar_account_id agent) \/
  (forall n, n ∈ namespaces (ns (base (tables (the_world s)))) -> n_account_id n = ar_account_id agent -> n_name n <> ar_name agent).

(** Then no failure is counted, and the run is left as it was begun. *)
Definition uncounted (x : schedule) (agent : agent_row) (s s' : fleet) : Prop :=
  unreachable x agent s /\ (ledger s' = ledger s \/ logged_run x agent "running" (fun y => y) s s').

Lemma unfinished_run x agent id s : logged_run x agent "running" (fun y => y) s (end_run (cron_row agent x id "running" 0 None None) s).2.
Proof.
  do 4 eexists. unfold ledger. cbn. rewrite map_app. f_equal. symmetry. rewrite <-(map_id (schedules s)) at 2. apply map_ext. intros y.
  by destruct (String.eqb _ _).
Qed.

Lemma direct_session_Ok x agent svc fn s o s' : direct_session b64decode kek_b64 x agent svc fn s = (Ok o, s') ->
  succeeded x agent s s' \/ o = None /\ (failed_once x agent s s' \/ uncounted x agent s s').
Proof.
  intros (id & s1 & E1 & Hr)%stm_bind_Ok. apply stm_bind_Ok in Hr as (s1' & s1'' & Hg & Hr). injection Hg as <- <-.
  pose proof (frame_result ledger _ _ _ _ (ledger_ask _) E1) as L1.
  assert (ns (base (tables (the_world s1))) = ns (base (tables (the_world s)))) as Ht.
  { unfold ask_out, in_world, ask in E1. cbn in E1. destruct (uuid4 _) as [i o']. by injection E1 as <- <-. }
  assert (forall e s2, (_record_failure agent id x e 0;; mret None : M (option string)) s1 = (Ok o, s2) -> o = None /\ failed_once x agent s s2) as Hfail.
  { intros e s2 ([] & s3 & Hf & [<- <-]%stm_ret_Ok)%stm_bind_Ok. split; [done|]. by eapply ledger_failed, record_failure_Ok. }
  assert (forall s2, (end_run (cron_row agent x id "running" 0 None None);; mret None : M (option string)) s1 = (Ok o, s2) ->
    o = None /\ logged_run x agent "running" (fun y => y) s s2) as Hopen.
  { intros s2 ([] & s3 & Hf & [<- <-]%stm_ret_Ok)%stm_bind_Ok. split; [done|]. eapply ledger_run; [by symmetry|].
    pose proof (unfinished_run x agent id s1) as K. by rewrite Hf in K. }
  cbn zeta in Hr. rewrite Ht in Hr. destruct (List.find _ (accounts _)) as [c|] eqn:Ec.
  2:{ apply Hopen in Hr as [-> Hr]. right. split; [done|]. right. split; [|by right]. right. left. intros c Hc Hi.
      pose proof (List.find_none _ _ Ec c) as K. rewrite <-list_elem_of_In in K. specialize (K Hc). cbn in K. by rewrite Hi, String.eqb_refl in K. }
  pose proof (List.find_some _ _ Ec) as [_ Hc]. apply String.eqb_eq in Hc. rewrite Hc in Hr.
  destruct (List.filter _ (namespaces _)) as [|n [|n2 l]] eqn:En; [| |done].
  - apply Hopen in Hr as [-> Hr]. right. split; [done|]. right. split; [|by right]. right. right. intros n Hn Ha Hnm.
    assert (n ∈ @nil namespace) as K; [|by apply not_elem_of_nil in K].
    rewrite <-En. apply elem_of_filter_bool. split; [done|]. by rewrite Ha, Hnm, !String.eqb_refl.
  - destruct (get_for_execution _ _ _ _).1 as [[f v]|e].
    + destruct (negb _).
      * apply Hfail in Hr as [-> Hr]. right. split; [done|by left].
      * apply run_scheduled_Ok in Hr as [Hr|[-> Hr]]; [left; by eapply ledger_succeeded|right; split; [done|left; by eapply ledger_failed]].
    + apply Hfail in Hr as [-> Hr]. right. split; [done|by left].
Qed.

Definition within_limits (s : fleet) : Prop :=
  Forall (fun y => forall n, threshold (failure_policy y) = Some n -> 0 < n -> sc_enabled y = true -> consecutive_failures y < n) (schedules s).

Lemma updated_within x agent status f s s' : logged_run x agent status f s s' -> within_limits s ->
  (forall y n, y ∈ schedules s -> sc_id y = sc_id x -> threshold (failure_policy (f y)) = Some n -> 0 < n -> sc_enabled (f y) = true ->
    consecutive_failures (f y) < n) ->
  within_limits s'.
Proof.
  intros (id & ms & summary & error & Hl) Hs Hf. unfold within_limits. unfold ledger in Hl. injection Hl as -> _. apply Forall_forall.
  intros y' (y & -> & Hy)%list_elem_of_fmap n. destruct (String.eqb_spec (sc_id y) (sc_id x)) as [E|]; [by apply Hf|].
  unfold within_limits in Hs. rewrite Forall_forall in Hs. by apply Hs.
Qed.

(** [C15] What a direct run of a schedule's function, the row [x] loaded before, leaves behind.
    A success is recorded and sets the failures to 0; a failure is recorded, adds 1
    to what [x] had and disables the schedule exactly when its policy says
    auto_disable and the maximum is reached; an exception changes nothing.  A name
    without a dot, a missing account or a missing namespace counts as neither.  An
    enabled schedule under auto_disable therefore stays below its maximum. *)
Theorem direct_failures_counted x agent s r s' :
  _execute_function_direct b64decode kek_b64 x agent s = (r, s') ->
  match r with
  | Err _ => ledger s' = ledger s
  | Ok o => succeeded x agent s s' \/ o = None /\ (failed_once x agent s s' \/ uncounted x agent s s')
  end /\
  ((forall y, y ∈ schedules s -> sc_id y = sc_id x -> failure_policy y = failure_policy x) -> within_limits s -> within_limits s').
Proof.
  intros Hrun.
  assert (match r with
    | Err _ => ledger s' = ledger s
    | Ok o => succeeded x agent s s' \/ o = None /\ (failed_once x agent s s' \/ uncounted x agent s s')
    end) as Hr.
  { unfold _execute_function_direct in Hrun. destruct (split_once _ _) as [[svc fn]|] eqn:Ed.
    - unfold transaction in Hrun. destruct (direct_session _ _ _ _ _ _ s) as [[o|e] s1] eqn:E; injection Hrun as <- <-; [|done].
      by eapply direct_session_Ok.
    - injection Hrun as <- <-. right. split; [done|]. right. split; [by left|by left]. }
  split; [done|]. intros Hp Hw.
  assert (ledger s' = ledger s -> within_limits s') as Hsame by (intros Hl; unfold within_limits; by injection Hl as -> _).
  destruct r as [o|e]; [|by apply Hsame]. destruct Hr as [(last & next & Hr)|[-> [(last & next & off & Hoff & Hr)|[_ [Hr|Hr]]]]]; [| |by apply Hsame|].
  - eapply updated_within; [exact Hr|done|]. intros y n _ _ _ Hn _. exact Hn.
  - eapply updated_within; [exact Hr|done|]. cbn. intros y n Hy Hi Hth Hn Hen. rewrite (Hp y Hy Hi) in Hth.
    destruct off; [done|]. apply Z.lt_nge. intros Hle. assert (false = true); [|done]. apply Hoff. by exists n.
  - eapply updated_within; [exact Hr|done|]. intros y n Hy _. unfold within_limits in Hw. rewrite Forall_forall in Hw. by apply Hw.
Qed.
End failures.

(** ** The jobs of one poll *)

Section polls.
Context `{Outside} `{Host} `{Aead} `{Crypto} (b64decode : string -> string) (kek_b64 : string).
Context (owner_tier : string -> string).
#[local] Set Default Proof Using "Type*".

Abbreviation M := (stm fleet exn).

(** What new jobs leave alone. *)
Definition staff (s : fleet) : list schedule * list replica := (schedules s, replicas s).
#[local] Instance staff_apart : Apart staff.
Proof. by intros ???. Qed.

(** The replicas that a due schedule wants jobs for; a job without a replica is
    for any of them. *)
Definition wanted (x : schedule) (s : fleet) : list (option string) :=
  if String.eqb (sc_mode x) "cluster" then map (fun r => Some (rp_id r)) (running_replicas (sc_agent_id x) s) else [None].

Definition new_for (x : schedule) (t : Z) (r : option string) (j : job) : Prop :=
  jb_agent_id j = sc_agent_id x /\ jb_schedule_id j = sc_id x /\ jb_replica_id j = r /\ fire_time j = t /\
  jb_status j = "pending"%string /\ claimed_by j = None.

(** The row of a schedule after jobs were made for [due]. *)
Definition rescheduled (due : list schedule) (y y' : schedule) : Prop :=
  (sc_id y ∉ map sc_id due -> y' = y) /\
  (forall x, x ∈ due -> sc_id x = sc_id y -> exists next zone t', cron_next (cron_expression x) zone t' = Some next /\ y' = with_next next y).

Definition unfired (due : list schedule) (t : Z) (s : fleet) : Prop :=
  forall j x, j ∈ jobs s -> x ∈ due -> jb_schedule_id j = sc_id x -> fire_time j <> t.

Lemma new_job_Ok x r t s s' : new_job x r t s = (Ok tt, s') -> exists j, jobs s' = jobs s ++ [j] /\ new_for x t r j /\ staff s' = staff s.
Proof.
  intros (id & s1 & E1 & Hr)%stm_bind_Ok. apply stm_bind_Ok in Hr as (u & s2 & E2 & Hr). apply stm_bind_Ok in Hr as (s3 & s4 & Hg & Hr).
  injection Hg as <- <-. destruct (existsb _ _); [done|]. injection Hr as <-.
  pose proof (frame_result staff _ _ _ _ (frame_ask_out staff _) E1) as L1. rewrite <-(frame_result staff _ _ _ _ (frame_ask_out staff _) E2) in L1.
  pose proof (frame_result jobs _ _ _ _ (frame_ask_out jobs _) E1) as J1. rewrite <-(frame_result jobs _ _ _ _ (frame_ask_out jobs _) E2) in J1.
  eexists. cbn. rewrite J1. split; [reflexivity|]. by split.
Qed.

Lemma new_jobs_Ok x rs t s s' : new_jobs x rs t s = (Ok tt, s') ->
  exists l, jobs s' = jobs s ++ l /\ Forall2 (new_for x t) (map (fun r => Some (rp_id r)) rs) l /\ staff s' = staff s.
Proof.
  revert s. induction rs as [|r rs IH]; intros s; cbn [new_jobs].
  - intros [_ <-]%stm_ret_Ok. exists []. by rewrite app_nil_r.
  - intros ([] & s1 & Hj & Hr)%stm_bind_Ok. apply new_job_Ok in Hj as (j & Hj & Hn & Hs). apply IH in Hr as (l & Hl & Hf & Hs').
    exists (j :: l). rewrite Hl, Hj, <-app_assoc. split; [done|]. split; [by constructor|congruence].
Qed.

Lemma unfired_one x t s : unfired [x] t s ->
  Agents.one jobs (fun j => String.eqb (jb_schedule_id j) (sc_id x) && (fire_time j =? t)) s = (Ok None, s).
Proof.
  intros Hu. unfold Agents.one. destruct (List.filter _ _) as [|j l] eqn:E; [done|].
  assert (j ∈ j :: l) as Hj by (by left). rewrite <-E in Hj. apply elem_of_filter_bool in Hj as [Hj Hp]. bool_to_prop.
  exfalso. by apply (Hu j x Hj); [left|..].
Qed.

(** The middle of [schedule_jobs]. *)
Lemma made_Ok x t s s' :
  (if String.eqb (sc_mode x) "cluster" then new_jobs x (running_replicas (sc_agent_id x) s) t else new_job x None t) s = (Ok tt, s') ->
  exists l, jobs s' = jobs s ++ l /\ Forall2 (new_for x t) (wanted x s) l /\ staff s' = staff s.
Proof.
  unfold wanted. destruct (String.eqb _ _); [apply new_jobs_Ok|]. intros (j & Hj & Hn & Hs)%new_job_Ok. exists [j]. split; [done|]. split; [|done].
  by constructor.
Qed.

Lemma schedule_jobs_Ok x t s s' : unfired [x] t s -> schedule_jobs t x s = (Ok tt, s') ->
  exists l, jobs s' = jobs s ++ l /\ Forall2 (new_for x t) (wanted x s) l /\ replicas s' = replicas s /\
    Forall2 (rescheduled [x]) (schedules s) (schedules s').
Proof.
  intros Hu. unfold schedule_jobs. intros (o & s1 & Ho & Hr)%stm_bind_Ok. rewrite (unfired_one x t s Hu) in Ho. injection Ho as <- <-.
  apply stm_bind_Ok in Hr as (s0 & s0' & Hg & Hr). injection Hg as <- <-. apply stm_bind_Ok in Hr as ([] & s2 & Hm & Hr).
  apply made_Ok in Hm as (l & Hl & Hf & Hs). apply stm_bind_Ok in Hr as (next & s3 & Hn & Hr). injection Hr as <-.
  pose proof (frame_result jobs _ _ _ _ (frame_next jobs _ _) Hn) as J. pose proof (frame_result staff _ _ _ _ (frame_next staff _ _) Hn) as S.
  rewrite Hs in S. injection S as Ss Sr. exists l. cbn. rewrite J, Hl, Ss, Sr. split; [done|]. split; [done|]. split; [done|].
  apply Forall2_fmap_r, Forall_Forall2_diag, Forall_forall. intros y _. cbn. unfold rescheduled. cbn. destruct (String.eqb_spec (sc_id y) (sc_id x)) as [E|E].
  - split; [intros K; exfalso; apply K; rewrite E; by left|]. intros ? ->%list_elem_of_singleton _.
    unfold _compute_next_run, mbind, stm_bind in Hn. destruct (ask_out now s2) as [[t'|] ?]; [|done]. destruct (cron_next _ _ t') as [n|] eqn:Ec; [|done].
    injection Hn as <- <-. by eauto.
  - split; [done|]. intros ? ->%list_elem_of_singleton E'. by rewrite E' in E.
Qed.

Lemma unfired_tail x due t s : unfired (x :: due) t s -> unfired [x] t s /\ unfired due t s.
Proof. intros Hu. split; intros j y Hj Hy; apply Hu; try done; [apply list_elem_of_singleton in Hy as ->; by left|by right]. Qed.

Lemma unfired_after x due t s s' l rs : unfired due t s -> sc_id x ∉ map sc_id due -> jobs s' = jobs s ++ l -> Forall2 (new_for x t) rs l ->
  unfired due t s'.
Proof.
  intros Hu Hx Hl Hf j y Hj Hy E. rewrite Hl in Hj. apply elem_of_app in Hj as [Hj|Hj]; [by apply (Hu j y)|].
  apply list_elem_of_lookup in Hj as [i Hi]. destruct (Forall2_lookup_r _ _ _ _ _ Hf Hi) as (r & _ & _ & Hs & _).
  exfalso. apply Hx. rewrite <-Hs, E. by apply (list_elem_of_fmap_2 sc_id).
Qed.

Lemma create_Ok due t s s' : NoDup (map sc_id due) -> unfired due t s -> each (schedule_jobs t) due s = (Ok tt, s') ->
  exists ls, jobs s' = jobs s ++ concat ls /\ Forall2 (fun x l => Forall2 (new_for x t) (wanted x s) l) due ls /\
    Forall2 (rescheduled due) (schedules s) (schedules s').
Proof.
  revert s. induction due as [|x due IH]; intros s Hnd Hu; cbn [each].
  - intros [_ <-]%stm_ret_Ok. exists []. cbn. rewrite app_nil_r. split; [done|]. split; [done|].
    apply Forall_Forall2_diag, Forall_forall. intros y _. split; [done|]. by intros x Hx%not_elem_of_nil.
  - apply NoDup_cons in Hnd as [Hx Hnd]. apply unfired_tail in Hu as [Hu1 Hu]. intros ([] & s1 & Hj & Hr)%stm_bind_Ok.
    apply schedule_jobs_Ok in Hj as (l & Hl & Hf & Hrep & Hsch); [|done].
    apply IH in Hr as (ls & Hls & Hfs & Hsch'); [|done|by eapply unfired_after].
    exists (l :: ls). cbn. rewrite Hls, Hl, app_assoc. split; [done|]. split.
    + constructor; [done|]. eapply Forall2_impl; [exact Hfs|]. unfold wanted, running_replicas. rewrite Hrep. done.
    + eapply Forall2_trans; [|exact Hsch|exact Hsch']. clear -Hx. intros y y1 y' [Hn Hd] [Hn' Hd']. unfold rescheduled. cbn.
      rewrite not_elem_of_cons. split.
      * intros [Hne Hnin]. assert (y1 = y) as -> by (apply Hn; cbn; by intros [?|?%not_elem_of_nil]%elem_of_cons). by apply Hn'.
      * intros z [->|Hz]%elem_of_cons E.
        -- destruct (Hd x ltac:(by left) E) as (next & zone & t' & Hc & ->). exists next, zone, t'. split; [done|]. apply Hn'. cbn. by rewrite <-E.
        -- assert (y1 = y) as ->; [|by apply Hd']. apply Hn. cbn. intros [Hy|Hy%not_elem_of_nil]%elem_of_cons; [|done].
           apply Hx. rewrite <-Hy, <-E. by apply (list_elem_of_fmap_2 sc_id).
Qed.

(** The jobs that a poll at [t] makes: every enabled schedule of a running, enabled
    agent that has no next time or one not after [t] gets one job, or in cluster
    mode one for each running replica of its agent, and its next time comes from
    the parser of cron expressions; no other schedule gets a job or is changed. *)
Theorem poll_makes_jobs t s s' : NoDup (map sc_id (schedules s)) -> Forall (fun j => fire_time j < t) (jobs s) ->
  _create_scheduled_jobs (due_schedules t s) t s = (Ok tt, s') ->
  exists ls, jobs s' = jobs s ++ concat ls /\
    Forall2 (fun x l => Forall2 (new_for x t) (wanted x s) l) (due_schedules t s) ls /\
    Forall2 (rescheduled (due_schedules t s)) (schedules s) (schedules s') /\
    (forall x, x ∈ due_schedules t s <-> x ∈ schedules s /\ sc_enabled x = true /\
       (exists a, a ∈ records s /\ a_id a = sc_agent_id x /\ agent_status a = "running"%string /\ enabled a = true) /\
       (forall n, next_run_at x = Some n -> n <= t)).
Proof.
  intros Hnd Ht Hc. unfold _create_scheduled_jobs, transaction in Hc. destruct (each _ _ s) as [[[]|e] s1] eqn:E; [|done]. injection Hc as <-.
  apply create_Ok in E as (ls & Hl & Hf & Hs).
  - exists ls. split; [done|]. split; [done|]. split; [done|]. intros x. unfold due_schedules. rewrite elem_of_filter_bool, !andb_true_iff, existsb_elem.
    unfold active, is_due. split.
    + intros (Hx & [Hen (a & Ha & [E1%String.eqb_eq [E2%String.eqb_eq E3]%andb_true_iff]%andb_true_iff)] & Hd). split; [done|]. split; [done|].
      split; [by exists a|]. intros n Hn. rewrite Hn in Hd. by apply Z.leb_le.
    + intros (Hx & Hen & (a & Ha & E1 & E2 & E3) & Hd). split; [done|]. split; [split; [done|]|].
      * exists a. split; [done|]. by rewrite E1, E2, E3, !String.eqb_refl.
      * destruct (next_run_at x) as [n|]; [|done]. by apply Z.leb_le, Hd.
  - by apply NoDup_filter_map.
  - intros j x Hj _ _ E'. rewrite Forall_forall in Ht. specialize (Ht j Hj). cbn in Ht. lia.
Qed.

(** *** One schedule without a next time *)

(** From [t] on the parser finds no time for the expression: it names a last year,
    for example, that is over. *)
Definition ended (x : schedule) (t : Z) : Prop :=
  forall t', t <= t' -> cron_next (cron_expression x) (if valid_zone (timezone x) then timezone x else "UTC") t' = None.

(** The moment that the next question for the time is answered with. *)
Definition clock (s : fleet) : Z := (now (out (the_world s))).1.

(** What users and their agents see of the tables. *)
Definition seen (s : fleet) :=
  (records s, replicas s, schedules s, jobs s, fires s, runs (the_world s), execution_log (the_world s), entries (states (the_world s))).

Lemma ask_out_seen {A} (m : outside -> A * outside) s :
  exists s', ask_out m s = (Ok (m (out (the_world s))).1, s') /\ seen s' = seen s.
Proof. unfold ask_out, in_world, ask. destruct (m _) as [a o]. by eexists. Qed.

Lemma rolled_back_seen s s' : seen (rolled_back s s') = seen s.
Proof. done. Qed.

End polls.

(** The clock does not go back; asking for an identifier leaves it. *)
Section ending.
Context `{Outside} `{Host} `{Aead} `{Crypto} (b64decode : string -> string) (kek_b64 : string) (owner_tier : string -> string).
Context (Hnow : forall o, (now o).1 <= (now (now o).2).1) (Huuid : forall o, (now o).1 <= (now (uuid4 o).2).1).
#[local] Set Default Proof Using "Type*".

Abbreviation M := (stm fleet exn).

(** The clock goes on. *)
Definition forward {A} (m : M A) : Prop := forall s, clock s <= clock (m s).2.

Lemma forward_still {A} (m : M A) : (forall s, the_world (m s).2 = the_world s) -> forward m.
Proof. intros Hm s. unfold clock. rewrite Hm. lia. Qed.
Lemma forward_bind {A B} (m : M A) (k : A -> M B) : forward m -> (forall a, forward (k a)) -> forward (m ≫= k).
Proof.
  intros Hm Hk s. specialize (Hm s). unfold mbind, stm_bind. destruct (m s) as [[a|e] s1]; cbn [snd] in *; [|done].
  specialize (Hk a s1). lia.
Qed.
Lemma forward_now : forward (ask_out now).
Proof. intros s. unfold clock, ask_out, in_world, ask. pose proof (Hnow (out (the_world s))) as K. destruct (now (out (the_world s))) as [t o]. exact K. Qed.
Lemma forward_uuid : forward (ask_out uuid4).
Proof. intros s. unfold clock, ask_out, in_world, ask. pose proof (Huuid (out (the_world s))) as K. by destruct (uuid4 (out (the_world s))) as [t o]. Qed.

Lemma forward_new_job x r t : forward (new_job x r t).
Proof.
  unfold new_job. apply forward_bind; [apply forward_uuid|]. intros id. apply forward_bind; [apply forward_now|]. intros u.
  apply forward_still. intros s. unfold Agents.insert, mbind, stm_bind. cbn. by destruct (existsb _ _).
Qed.
Lemma forward_made x t s : forward (if String.eqb (sc_mode x) "cluster" then new_jobs x (running_replicas (sc_agent_id x) s) t else new_job x None t).
Proof.
  destruct (String.eqb _ _); [|apply forward_new_job]. generalize (running_replicas (sc_agent_id x) s) as l. intros l.
  induction l as [|r l IH]; [by apply forward_still|]. apply forward_bind; [apply forward_new_job|]. by intros _.
Qed.
Lemma forward_next cron zone : forward (_compute_next_run cron zone).
Proof. apply forward_bind; [apply forward_now|]. intros t. destruct (cron_next _ _ _); by apply forward_still. Qed.
Lemma forward_one {A} (tbl : fleet -> list A) p : forward (Agents.one tbl p).
Proof. apply forward_still. intros s. unfold Agents.one. by destruct (List.filter _ _) as [|? [|]]. Qed.
Lemma forward_schedule_jobs t x : forward (schedule_jobs t x).
Proof.
  unfold schedule_jobs. apply forward_bind; [apply forward_one|]. intros [j|]; [by apply forward_still|].
  apply forward_bind; [by apply forward_still|]. intros s. apply forward_bind; [apply forward_made|]. intros _.
  apply forward_bind; [apply forward_next|]. intros next. by apply forward_still.
Qed.

Lemma ended_raises x T t s : ended x T -> T <= clock s -> unfired [x] t s -> exists e s', schedule_jobs t x s = (Err e, s').
Proof.
  intros Hx HT Hu. destruct (schedule_jobs t x s) as [[[]|e] s'] eqn:E; [exfalso|by eauto]. revert E. unfold schedule_jobs.
  intros (o & s1 & Ho & Hr)%stm_bind_Ok. pose proof (forward_one jobs (fun j => String.eqb (jb_schedule_id j) (sc_id x) && (fire_time j =? t)) s) as F1.
  rewrite Ho in F1. cbn [snd] in F1. rewrite (unfired_one x t s Hu) in Ho. injection Ho as <- <-.
  apply stm_bind_Ok in Hr as (s0 & s0' & [= <- <-] & Hr). apply stm_bind_Ok in Hr as ([] & s2 & Hmade & Hr).
  pose proof (forward_made x t s s) as F2. rewrite Hmade in F2. cbn [snd] in F2.
  apply stm_bind_Ok in Hr as (next & s3 & Hn & _). revert Hn. unfold _compute_next_run. intros (t' & s4 & Ht & Hn)%stm_bind_Ok.
  assert (t' = clock s2) as -> by (unfold ask_out, in_world, ask, clock in *; by destruct (now (out (the_world s2))); injection Ht as <- _).
  rewrite (Hx (clock s2)) in Hn by lia. done.
Qed.

Lemma create_raises x T due t s : ended x T -> T <= clock s -> x ∈ due -> NoDup (map sc_id due) -> unfired due t s ->
  exists e s', each (schedule_jobs t) due s = (Err e, s').
Proof.
  intros Hx HT Hin. revert s HT. induction due as [|y due IH]; intros s HT Hnd Hu; [by apply not_elem_of_nil in Hin|].
  apply NoDup_cons in Hnd as [Hy Hnd]. apply unfired_tail in Hu as [Hu1 Hu]. cbn [each]. unfold mbind, stm_bind.
  pose proof (forward_schedule_jobs t y s) as F. destruct (schedule_jobs t y s) as [[[]|e] s1] eqn:E; [|by eauto]. cbn [snd] in F.
  apply elem_of_cons in Hin as [<-|Hin].
  - destruct (ended_raises x T t s Hx HT Hu1) as (e & s2 & E'). congruence.
  - apply schedule_jobs_Ok in E as (l & Hl & Hf & _ & _); [|done]. apply IH; [done|lia|done|]. by eapply unfired_after.
Qed.

Lemma each_forward {A} (f : A -> M unit) l : (forall x, forward (f x)) -> forward (each f l).
Proof. intros Hf. induction l as [|x l IH]; [by apply forward_still|]. apply forward_bind; [apply Hf|]. by intros _. Qed.

Lemma poll_raises x T s : ended x T -> T <= clock s -> x ∈ due_schedules (clock s) s -> NoDup (map sc_id (schedules s)) ->
  Forall (fun j => fire_time j < clock s) (jobs s) ->
  exists e s', _poll_and_execute b64decode kek_b64 owner_tier s = (Err e, s') /\ seen s' = seen s /\ clock s <= clock s'.
Proof.
  intros Hx HT Hdue Hnd Ht. pose proof (forward_now s) as F1. destruct (ask_out_seen now s) as (s1 & E1 & L1).
  rewrite E1 in F1. cbn [snd] in F1. unfold _poll_and_execute, mbind, stm_bind. rewrite E1. cbn [getS]. fold (clock s). set (t := clock s) in *.
  pose proof L1 as [= Lr Lp Ls Lj _ _ _ _].
  assert (due_schedules t s1 = due_schedules t s) as -> by (unfold due_schedules; by rewrite Lr, Ls).
  destruct (create_raises x T (due_schedules t s) t s1) as (e & s2 & E2); [done|lia|done|by apply NoDup_filter_map| |].
  { intros j y Hj _ _ E. rewrite Lj in Hj. rewrite Forall_forall in Ht. specialize (Ht j Hj). cbn in Ht. lia. }
  pose proof (each_forward (schedule_jobs t) (due_schedules t s) (forward_schedule_jobs t) s1) as F2. rewrite E2 in F2. cbn [snd] in F2.
  exists e, (rolled_back s1 s2).
  assert (_create_scheduled_jobs (due_schedules t s) t s1 = (Err e, rolled_back s1 s2)) as Hc
    by (unfold _create_scheduled_jobs, transaction; by rewrite E2).
  split; [destruct (due_schedules t s) as [|y l]; [by apply not_elem_of_nil in Hdue|]; by rewrite Hc|].
  split; [by rewrite rolled_back_seen|]. change (clock (rolled_back s1 s2)) with (clock s2). lia.
Qed.

(** Polls, one after the other. *)
Fixpoint polls (n : nat) (s : fleet) : list (res exn Z) * fleet :=
  match n with
  | O => ([], s)
  | S n' => let o := _poll_and_execute b64decode kek_b64 owner_tier s in let os := polls n' o.2 in (o.1 :: os.1, os.2)
  end.

(** [C10] One schedule that is due after its last time, of whatever account, stops all
    schedules for good: with an expression for which the parser finds no further time
    ([add_schedule] accepted it while there was one), every poll from then on raises
    before any job is claimed or any heartbeat is run, and leaves every table as it
    was, so that the schedule is due again in the next one. *)
Theorem one_schedule_stops_all x T n s :
  ended x T -> T <= clock s -> x ∈ due_schedules (clock s) s ->
  NoDup (map sc_id (schedules s)) -> Forall (fun j => fire_time j < clock s) (jobs s) ->
  Forall (fun r => exists e, r = Err e) (polls n s).1 /\ length (polls n s).1 = n /\ seen (polls n s).2 = seen s.
Proof.
  intros Hx. revert s. induction n as [|n IH]; intros s HT Hdue Hnd Ht; [by repeat split|]. cbn [polls].
  destruct (poll_raises x T s Hx HT Hdue Hnd Ht) as (e & s' & E & L & F). rewrite E. cbn [fst snd].
  pose proof L as [= Lr _ Ls Lj _ _ _ _].
  destruct (IH s') as (H1' & H2' & H3'); [lia| |by rewrite Ls|rewrite Lj; eapply Forall_impl; [exact Ht|]; cbn; lia|].
  - unfold due_schedules in *. rewrite Lr, Ls. apply elem_of_filter_bool in Hdue as [Hin Hd]. apply elem_of_filter_bool. split; [done|].
    apply andb_true_iff in Hd as [Hd Ht']. rewrite Hd. unfold is_due in *. destruct (next_run_at x); [|done]. cbn. apply Z.leb_le in Ht'. apply Z.leb_le. lia.
  - split; [constructor; [by exists e|done]|]. split; [cbn; by rewrite H2'|]. by rewrite H3'.
Qed.
End ending.

(** ** Examples *)

(** Identifiers and the clock move on with every question; functions succeed or not. *)
Definition world_where (ok : bool) : Outside := {|
  outside := script;
  monotonic := @monotonic scripted;
  uuid4 o := ("id-" +:+ str_of_Z (s_clock o), Script (s_clock o + 1) (s_replies o));
  random_bytes := @random_bytes scripted;
  now o := (s_clock o, Script (s_clock o + 1) (s_replies o));
  chat_with_tools := @chat_with_tools scripted;
  sandbox_execute c o := (Ok (ExecResult ok (c_input c) (if ok then None else Some "boom")), o);
  mcp_call_tool := @mcp_call_tool scripted;
  api_call_tool := @api_call_tool scripted;
  post_webhook := @post_webhook scripted;
  load_mcp_tools := @load_mcp_tools scripted;
  load_api_tools := @load_api_tools scripted;
  token_urlsafe := @token_urlsafe scripted;
  lib_text := @lib_text scripted
|}.

(** Every moment matches every expression. *)
Definition always : Host := {|
  host := machine;
  name_draws := @name_draws laptop;
  network_get := @network_get laptop;
  network_create := @network_create laptop;
  container_get := @container_get laptop;
  container_run := @container_run laptop;
  container_start := @container_start laptop;
  container_stop := @container_stop laptop;
  container_restart := @container_restart laptop;
  container_remove := @container_remove laptop;
  probe := @probe laptop;
  lazy_loads := false;
  valid_zone := @valid_zone laptop;
  cron_next cron zone t := Some t
|}.

Section scenes.
Context (ok : bool).
#[local] Instance scene_world : Outside := world_where ok.
#[local] Instance scene_host : Host := always.

Definition scene_schedule (id cron mode orchestration : string) : schedule :=
  Schedule id "ag1" "social.post" cron "UTC" (PDict [("strategy", PStr "auto_disable"); ("max_failures", PInt 2)]) true mode orchestration None 0
    None (Some 0).
Definition scene_replica (id agent_id : string) : replica := Replica id agent_id id None "running" None 0.
Definition waiting_job (id agent_id schedule_id : string) : job := Job id agent_id schedule_id None 0 "pending" None None 0.

Definition scene (replies : list (res exc response)) (l : list schedule) (reps : list replica) (queue : list job) : fleet :=
  Fleet (World open_store demo_st [] [] [] (Sec [] ∅) (Script 5 replies)) [open_agent] reps l [] queue [] (Machine [] 0).

Definition scene_turns (n : nat) (s : fleet) : fleet := (run_scheduler_loop (fun x => x) demo_kek pro n s).2.
Definition one_replica : list replica := [scene_replica "r1" "ag1"].
Definition direct_scene : fleet := scene [] [scene_schedule "c1" "* * * * *" "single" "direct"] one_replica [].
End scenes.
Arguments scene_turns ok n s : clear implicits.

(** Two failures disable the schedule, as its policy says; its jobs and fires tell
    of completed executions. *)
Example two_failures_disable :
  let s := scene_turns false 5 (direct_scene false) in
  map (fun x => (sc_enabled x, consecutive_failures x)) (schedules s) = [(false, 2)] /\
  map (fun r => run_status r.1) (runs (the_world s)) = ["failed"; "failed"]%string /\
  map jb_status (jobs s) = ["complete"; "complete"]%string /\ map fr_status (fires s) = ["completed"; "completed"]%string.
Proof. by vm_compute. Qed.

(** With a model in between the policy is not looked at. *)
Example reasoning_never_disables :
  let s := scene_turns false 4 (scene false [] [scene_schedule "c1" "* * * * *" "single" "reason_first"] one_replica []) in
  map (fun x => (sc_enabled x, consecutive_failures x)) (schedules s) = [(true, 4)].
Proof. by vm_compute. Qed.

(** A function that fails, with a model that has nothing to do: no failure is left. *)
Example reasoning_forgets_failures :
  let s := scene_turns false 1 (scene false [the_end] [scene_schedule "c1" "* * * * *" "single" "run_then_reason"] one_replica []) in
  map consecutive_failures (schedules s) = [0] /\ "failed"%string ∈ map (fun r => run_status r.1) (runs (the_world s)).
Proof. split; [by vm_compute|]. apply (bool_decide_unpack _). by vm_compute. Qed.

(** The failures of two replicas in one poll count as one. *)
Example cluster_failures_count_once :
  let s := scene_turns false 1 (scene false [] [scene_schedule "c1" "* * * * *" "cluster" "direct"] [scene_replica "r1" "ag1"; scene_replica "r2" "ag1"] []) in
  map consecutive_failures (schedules s) = [1] /\ map (fun r => run_status r.1) (runs (the_world s)) = ["failed"; "failed"]%string.
Proof. by vm_compute. Qed.

(** A schedule in procedure mode never runs: no operation stores the name of its procedure. *)
Example procedure_schedules_fail :
  let s := scene_turns true 1 (scene true [] [scene_schedule "c1" "* * * * *" "single" "procedure"] one_replica []) in
  map (fun f => (fr_status f, fr_error f)) (fires s) = [("error", Some "No procedure name configured")]%string /\
  map jb_status (jobs s) = ["complete"]%string.
Proof. by vm_compute. Qed.

(** Five jobs that no replica can take keep the others from being looked at. *)
Example first_five_block :
  let stuck := map (fun i => waiting_job i "ag2" "c2") ["j1"; "j2"; "j3"; "j4"; "j5"]%string in
  let s := scene true [] [scene_schedule "c1" "* * * * *" "single" "direct"] one_replica (stuck ++ [waiting_job "j6" "ag1" "c1"]) in
  (@_claim_pending_jobs (world_where true) always s).1 = Ok [].
Proof. by vm_compute. Qed.

Lemma direct_scene_linked ok : @linked (world_where ok) always (direct_scene ok).
Proof. split; cbn; repeat constructor. Qed.


Definition the_schedule : schedule := scene_schedule "c1" "* * * * *" "single" "direct".

Lemma direct_failures_counted_witness :
  let run := @_execute_function_direct (world_where false) always toy_aead (fun x => x) demo_kek the_schedule keyed_agent (direct_scene false) in
  run.1 = Ok None /\ @failed_once (world_where false) always the_schedule keyed_agent (direct_scene false) run.2 /\
  @within_limits (world_where false) always run.2.
Proof.
  intros run. destruct run as [r s'] eqn:E. cbn [fst snd].
  destruct (@direct_failures_counted (world_where false) always toy_aead (fun x => x) demo_kek the_schedule keyed_agent (direct_scene false) r s' E)
    as [Hr Hw].
  assert (r = Ok None /\ run_status <$> (fst <$> runs (the_world s')) = ["failed"]%string) as [-> Hs].
  { pose proof (f_equal fst E) as E1. pose proof (f_equal (fun p => run_status <$> (fst <$> runs (the_world p.2))) E) as E2. cbn [fst snd] in E1, E2.
    rewrite <-E1, <-E2. split; vm_compute; reflexivity. }
  split; [reflexivity|]. split.
  - destruct Hr as [(last & next & id & ms & su & er & Hl)|[_ [Hr|[_ [Hl|(id & ms & su & er & Hl)]]]]]; [|exact Hr|..];
      exfalso; unfold ledger in Hl; injection Hl as _ Hl; change (fst <$> runs (the_world s')) with (map fst (runs (the_world s'))) in Hs;
      rewrite Hl in Hs; discriminate Hs.
  - apply Hw; [by intros y ->%list_elem_of_singleton|]. repeat constructor; cbn. intros n [= <-]. lia.
Defined.

Definition due_fleet (cron : string) : @fleet (world_where true) always :=
  scene true [] [scene_schedule "c1" cron "cluster" "direct"; scene_schedule "c2" "* * * * *" "single" "direct"]
    [scene_replica "r1" "ag1"; scene_replica "r2" "ag1"] [].

Lemma poll_makes_jobs_witness :
  let s := due_fleet "* * * * *" in
  let s' := (@_create_scheduled_jobs (world_where true) always (@due_schedules (world_where true) always 1 s) 1 s).2 in
  exists ls, jobs s' = jobs s ++ concat ls /\ length (concat ls) = 3%nat /\
    Forall2 (fun x l => Forall2 (new_for x 1) (wanted x s) l) (@due_schedules (world_where true) always 1 s) ls.
Proof.
  intros s s'. destruct (@_create_scheduled_jobs (world_where true) always (@due_schedules (world_where true) always 1 s) 1 s) as [r s1] eqn:E.
  assert (r = Ok tt) as -> by (change r with (r, s1).1; rewrite <-E; vm_compute; reflexivity).
  destruct (@poll_makes_jobs (world_where true) always 1 s s1) as (ls & Hl & Hf & _);
    [apply (bool_decide_unpack _); vm_compute; exact I|constructor|exact E|].
  exists ls. split; [exact Hl|]. split; [|exact Hf].
  assert (length (jobs s1) = 3%nat) as K by (change s1 with (Ok tt : res exn unit, s1).2; rewrite <-E; vm_compute; reflexivity).
  by rewrite Hl in K.
Defined.

(** A parser that knows the last year of one expression. *)
Definition new_year : Z := 1798761600.
Definition last_time : string := "0 0 1 1 * 0 2027".
Definition calendar : Host := {|
  host := machine;
  name_draws := @name_draws laptop;
  network_get := @network_get laptop;
  network_create := @network_create laptop;
  container_get := @container_get laptop;
  container_run := @container_run laptop;
  container_start := @container_start laptop;
  container_stop := @container_stop laptop;
  container_restart := @container_restart laptop;
  container_remove := @container_remove laptop;
  probe := @probe laptop;
  lazy_loads := false;
  valid_zone := @valid_zone laptop;
  cron_next cron zone t := if String.eqb cron last_time then if t <? new_year then Some new_year else None else Some (t + 60)
|}.
Definition at_time (t : Z) (l : list schedule) : @fleet (world_where true) calendar :=
  @Fleet (world_where true) calendar (@World (world_where true) open_store demo_st [] [] [] (Sec [] ∅) (Script t [])) [open_agent] one_replica l [] [] []
    (Machine [] 0).

(** Added in time, by whoever owns the agent, and due in the new year. *)
Definition stop_all : schedule :=
  Schedule ("id-" +:+ str_of_Z (new_year - 99)) "ag1" "social.post" last_time "UTC" PNone true "single" "direct" None 0 None (Some new_year).

Lemma one_schedule_stops_all_witness :
  (@add_schedule (world_where true) calendar "acc1" "bot" "social.post" last_time "UTC" PNone "pro-agent" "direct" "single"
     (at_time (new_year - 100) [])).1 = Ok stop_all /\
  let s := at_time (new_year + 5) [stop_all; scene_schedule "c2" "* * * * *" "single" "direct"] in
  @due_schedules (world_where true) calendar (new_year + 5) s = [stop_all; scene_schedule "c2" "* * * * *" "single" "direct"] /\
  let o := @polls (world_where true) calendar toy_aead toy_crypto (fun x => x) demo_kek pro 3 s in
  Forall (fun r => exists e, r = Err e) o.1 /\ length o.1 = 3%nat /\ @seen (world_where true) calendar o.2 = @seen (world_where true) calendar s.
Proof.
  split; [vm_compute; reflexivity|]. intros s. split; [vm_compute; reflexivity|].
  apply (@one_schedule_stops_all (world_where true) calendar toy_aead toy_crypto (fun x => x) demo_kek pro
    ltac:(intros o; cbn; lia) ltac:(intros o; cbn; lia) stop_all new_year 3 s).
  - intros t Ht. cbn. by rewrite (proj2 (Z.ltb_ge t new_year)) by exact Ht.
  - vm_compute. discriminate.
  - by left.
  - apply (bool_decide_unpack _). vm_compute. exact I.
  - constructor.
Defined.
