(* ===== verification/AgentTenancy.v ===== *)
(** * Whose rows the agent service touches

    The operations of [Agents] work for an account.  [leaves]: an operation, also
    one that raises, changes no row of the agents, replicas, schedules and webhooks
    of other accounts.  The rules follow the code; [Agents.stays] gives the
    invariant that uniqueness of keys comes from. *)

From S2P Require Import Prelude Regex Routing ReplicaNames Security Json Encryption AgentState Namespaces Functions Procedures AiTools ToolDispatch Hoare Agents AgentChat Scheduler.
From stdpp Require Import gmap strings.

Open Scope Z_scope.

(** A row of an agent, but for the agent it was cloned from: that column is
    emptied when the source is destroyed. *)
Definition unsourced (a : agent_record) : agent_record :=
  AgentRecord (row a) (display_name a) (agent_status a) (container_id a) (memory_mb a) (cpu_tenths a) (enabled a) (mcp_servers a)
    (target_replicas a) (chat_token a) (heartbeat_enabled a) (heartbeat_interval a) (heartbeat_next_at a) None (created_at a).

(** The agents of other accounts. *)
Definition foreign (account_id : string) (l : list agent_record) (id : string) : bool :=
  existsb (fun a => String.eqb (a_id a) id && negb (String.eqb (a_account a) account_id)) l.

Section outsiders.
Context `{Outside} `{Host} (F : string -> bool).
#[local] Set Default Proof Using "Type*".

Abbreviation M := (stm fleet exn).
Abbreviation D := (stm host docker_error).

(** The rows of the agents in [F]. *)
Definition outsiders (s : fleet) : list agent_record * list replica * list schedule * list webhook :=
  (map unsourced (List.filter (fun a => F (a_id a)) (records s)), List.filter (fun r => F (rp_agent_id r)) (replicas s),
   List.filter (fun x => F (sc_agent_id x)) (schedules s), List.filter (fun x => F (wh_agent_id x)) (webhooks s)).
#[export] Instance outsiders_apart : Apart outsiders.
Proof. by intros ???. Qed.

Definition leaves {A} (I : db -> Prop) (m : M A) : Prop := forall s, I (db_of s) -> outsiders (m s).2 = outsiders s.

Lemma leaves_frame {A} I (m : M A) : frame outsiders m -> leaves I m.
Proof. intros Hm s _. apply Hm. Qed.
Lemma leaves_ret {A} I (a : A) : leaves I (mret a).
Proof. by intros s _. Qed.
Lemma leaves_raise {A} I e : leaves I (raise e : M A).
Proof. by intros s _. Qed.
Lemma leaves_read {A} I (g : fleet -> A) : leaves I (fun s => (Ok (g s), s)).
Proof. by intros s _. Qed.
Lemma leaves_bind {A B} I (m : M A) (k : A -> M B) : stays I m -> leaves I m -> (forall a, leaves I (k a)) -> leaves I (m ≫= k).
Proof.
  intros Hs Hm Hk s Hi. specialize (Hs s Hi). specialize (Hm s Hi). unfold mbind, stm_bind.
  destruct (m s) as [[a|e] s']; [|done]. cbn in Hm. by rewrite (Hk a s' Hs).
Qed.
Lemma leaves_weaken {A} (I J : db -> Prop) (m : M A) : leaves J m -> (forall d, I d -> J d) -> leaves I m.
Proof. intros Hm HI s Hs. by apply Hm, HI. Qed.

Lemma leaves_docker_try {A B} I (m : D A) (ok : A -> M B) k :
  (forall a, leaves I (ok a)) -> leaves I k -> leaves I (docker_try m ok k).
Proof.
  intros Hok Hk s Hs. unfold docker_try. pose proof (frame_on_host outsiders m s) as K. pose proof (host_db m s) as Hd.
  destruct (on_host m s) as [[a|[| | | | |[]| | |]] s']; cbn in K, Hd; rewrite <-Hd in Hs; rewrite ?(Hok a s' Hs), ?(Hk s' Hs); done.
Qed.

(** *** Rows of agents outside [F] *)

Lemma filter_put_out {A} (key owner : A -> string) (x : A) l :
  F (owner x) = false -> (forall y, y ∈ l -> key y = key x -> F (owner y) = false) ->
  List.filter (fun y => F (owner y)) (put key x l) = List.filter (fun y => F (owner y)) l.
Proof.
  intros Hx Hl. unfold put. induction l as [|y l IH]; [done|]. cbn.
  destruct (String.eqb_spec (key y) (key x)) as [E|E].
  - rewrite Hx, (Hl y) by (by left || done). apply IH. intros z Hz. apply Hl. by right.
  - destruct (F (owner y)); [f_equal|]; apply IH; intros z Hz; apply Hl; by right.
Qed.

Lemma filter_snoc_out {A} (owner : A -> string) (x : A) l : F (owner x) = false ->
  List.filter (fun y => F (owner y)) (l ++ [x]) = List.filter (fun y => F (owner y)) l.
Proof. intros Hx. rewrite List.filter_app. cbn. by rewrite Hx, app_nil_r. Qed.

Lemma filter_drop_out {A} (owner : A -> string) (p : A -> bool) l : (forall y, y ∈ l -> p y = false -> F (owner y) = false) ->
  List.filter (fun y => F (owner y)) (List.filter p l) = List.filter (fun y => F (owner y)) l.
Proof.
  intros Hp. induction l as [|y l IH]; [done|]. cbn. destruct (p y) eqn:E; cbn.
  - rewrite IH; [done|]. intros z Hz. apply Hp. by right.
  - rewrite (Hp y) by (by left || done). apply IH. intros z Hz. apply Hp. by right.
Qed.

Lemma put_record_leaves I a : F (a_id a) = false -> leaves I (put_record a).
Proof. intros Ha s _. unfold outsiders. cbn. rewrite (filter_put_out a_id a_id); [done..|]. by intros y _ ->. Qed.

Lemma put_replica_leaves A K r : rkey r ∈ K -> F (rp_agent_id r) = false -> leaves (inv A K) (put_replica r).
Proof.
  intros Hr Hf s (Hw & _ & HK). unfold outsiders. cbn. rewrite (filter_put_out rp_id rp_agent_id); [done..|].
  intros y Hy Hid. pose proof (same_attributes rkey rp_id r (replicas s) (wf_replica_ids _ Hw)) as Hsame. cbn in HK.
  assert (rkey y = rkey r) as [= _ -> _]; [|done]. apply Hsame; [by intros z [= ? ? ?]|by rewrite HK|done|done].
Qed.

Definition mine (K : list (string * string * string)) (r : replica) : Prop := rkey r ∈ K /\ F (rp_agent_id r) = false.

Lemma mine_known K l : Forall (mine K) l -> Forall (fun r => rkey r ∈ K) l.
Proof. intros Hl. eapply Forall_impl; [exact Hl|]. by intros r [? _]. Qed.

Lemma frame_docker {A} (m : D A) : frame outsiders (docker_try m (fun _ => mret tt) (mret tt)).
Proof. apply frame_docker_try; [apply _|intros a; apply frame_ret|apply frame_ret]. Qed.

Lemma run_container_leaves A K a r n : mine K r -> leaves (inv A K) (_run_replica_container a r n).
Proof. intros [Hk Hf]. apply leaves_docker_try; intros; by apply put_replica_leaves. Qed.

Lemma stop_container_leaves I r : leaves I (_stop_replica_container r).
Proof.
  apply leaves_frame. unfold _stop_replica_container. destruct (rp_container_id r) as [c|]; [|apply frame_ret].
  destruct (negb _); [apply frame_ret|apply frame_docker].
Qed.
Lemma remove_container_leaves I r : leaves I (_remove_replica_container r).
Proof.
  apply leaves_frame. unfold _remove_replica_container. destruct (rp_container_id r) as [c|]; [|apply frame_ret].
  destruct (negb _); [apply frame_ret|apply frame_docker].
Qed.

Lemma start_container_leaves A K a r : mine K r -> leaves (inv A K) (_start_replica_container a r).
Proof.
  intros Hr s Hs. unfold _start_replica_container. destruct (rp_container_id r) as [c|]; [|exact (run_container_leaves A K a r _ Hr s Hs)].
  destruct (truthy_str c); [|exact (run_container_leaves A K a r _ Hr s Hs)].
  pose proof Hr as [Hk Hf].
  match goal with |- context [on_host ?m s] => pose proof (host_db m s) as Hd; pose proof (frame_on_host outsiders m s) as K';
    destruct (on_host m s) as [[u|e] s'] end; cbn in Hd, K'; rewrite <-Hd in Hs.
  - by rewrite (put_replica_leaves A K (with_replica r (Some c) "running") Hk Hf s' Hs).
  - destruct e as [| | | | |[]| | |]; try done.
    + rewrite <-K'. refine (run_container_leaves A K a _ _ _ s' Hs). exact Hr.
    + by rewrite (put_replica_leaves A K (with_replica r (Some c) "error") Hk Hf s' Hs).
Qed.

Lemma start_replicas_leaves A K a l : Forall (mine K) l -> leaves (inv A K) (start_replicas a l).
Proof.
  induction 1 as [|r l Hr _ IH]; [apply leaves_ret|]. cbn. destruct (startable r); [|apply leaves_bind; [apply stays_ret|apply leaves_ret|done]].
  apply leaves_bind; [apply start_container_stays, Hr|by apply start_container_leaves|done].
Qed.

Lemma stop_one_leaves A K r : mine K r -> leaves (inv A K) (stop_one r).
Proof. intros [Hk Hf]. apply leaves_bind; [apply stop_container_stays|apply stop_container_leaves|intros _; by apply put_replica_leaves]. Qed.

Lemma stop_replicas_leaves A K l : Forall (mine K) l -> leaves (inv A K) (stop_replicas l).
Proof.
  induction 1 as [|r l Hr _ IH]; [apply leaves_ret|]. cbn. destruct (is_running r); [|apply leaves_bind; [apply stays_ret|apply leaves_ret|done]].
  apply leaves_bind; [apply stop_one_stays, Hr|by apply stop_one_leaves|done].
Qed.
End outsiders.

(** *** Operations *)

Section operations.
Context `{Outside} `{Host} (F : string -> bool).
#[local] Set Default Proof Using "Type*".

Abbreviation M := (stm fleet exn).
Abbreviation leaves := (leaves F).
Abbreviation outsiders := (outsiders F).

#[local] Instance replicas_apart : Apart replicas.
Proof. by intros ???. Qed.

Lemma restart_replicas_leaves A K l : Forall (mine F K) l -> leaves (inv A K) (restart_replicas l).
Proof.
  induction 1 as [|r l [Hk Hf] _ IH]; [apply leaves_ret|]. cbn. destruct (rp_container_id r) as [c|];
    [destruct (truthy_str c)|]; (apply leaves_bind; [| |intros; apply IH]); try apply stays_ret; try apply leaves_ret.
  - apply stays_docker_try; intros; apply put_replica_stays; cbn; try done; set_solver.
  - apply leaves_docker_try; intros; by apply put_replica_leaves.
Qed.

Lemma find_mine (p : replica -> bool) K l r : Forall (mine F K) l -> List.find p l = Some r -> mine F K r.
Proof. intros Hl [Hin _]%find_some. rewrite Forall_forall in Hl. by apply Hl, list_elem_of_In. Qed.

Lemma get_replicas_mine {B} A id (k : list replica -> M B) : F id = false ->
  (forall K l, Forall (mine F K) l -> leaves (inv A K) (k l)) -> leaves (invA A) (l ← _get_replicas id; k l).
Proof.
  intros Hf Hk s [Hw HA]. change ((l ← _get_replicas id; k l) s) with (k (replicas_of id s) s).
  apply (Hk (map rkey (replicas s))); [|done]. apply Forall_forall. intros r [Hr Hi]%elem_of_replicas_of. split; [|by rewrite Hi].
  apply list_elem_of_In, in_map, list_elem_of_In, Hr.
Qed.

Lemma create_replica_leaves A a : ident a ∈ A -> F (a_id a) = false -> leaves (invA A) (_create_replica a).
Proof.
  intros Ha Hf. unfold _create_replica. apply leaves_bind; [apply stays_read|apply leaves_read|intros l].
  apply leaves_bind; [apply stays_host|apply leaves_frame, frame_on_host, _|intros draws].
  destruct (generate_replica_name _ _ _ _) as [name|[m]]; [|apply leaves_raise].
  apply leaves_bind; [apply stays_ask|apply leaves_frame, frame_ask_out, _|intros id].
  apply leaves_bind; [apply stays_ask|apply leaves_frame, frame_ask_out, _|intros t]. cbn zeta.
  set (r := Replica id (a_id a) name None "creating" None t). intros s [Hw HA]. unfold Agents.insert, mbind, stm_bind. cbn [getS].
  destruct (existsb (same_replica r) (replicas s)) eqn:E; [done|]. cbn [set_replicas modS].
  set (s1 := Fleet _ _ _ _ _ _ _ _). pose proof (wf_replica_ids _ Hw) as Hids. cbn in Hids.
  assert (outsiders s1 = outsiders s) as H1 by (unfold AgentTenancy.outsiders; cbn; by rewrite (filter_snoc_out F rp_agent_id r)).
  assert (forall r', rkey r' = rkey r -> outsiders (put_replica r' s1).2 = outsiders s1) as Hput.
  { intros r' [= Hi Hag _]. unfold AgentTenancy.outsiders. cbn. rewrite (filter_put_out F rp_id rp_agent_id); [done|by rewrite Hag|].
    rewrite Hi. intros y [Hy| ->%list_elem_of_singleton]%elem_of_app Hid; [|done]. exfalso.
    apply not_true_iff_false in E. apply E, existsb_exists. exists y. split; [by apply list_elem_of_In|].
    unfold same_replica, same_id. rewrite Hid. cbn. by rewrite String.eqb_refl. }
  destruct (_run_replica_container a r _ s1) as [r0 s2] eqn:Hrun.
  assert (outsiders s2 = outsiders s1) as H2; [|destruct r0; cbn; by rewrite H2].
  change s2 with (r0, s2).2. rewrite <-Hrun. unfold _run_replica_container, docker_try.
  match goal with |- context [on_host ?m s1] => pose proof (frame_on_host replicas m s1) as Kr; pose proof (frame_on_host outsiders m s1) as Ko;
    destruct (on_host m s1) as [[u|e] s'] end; cbn in Kr, Ko.
  - specialize (Hput (with_replica r (Some u) "running") eq_refl). unfold AgentTenancy.outsiders in *. cbn in *. injection Ko as ? ? ? ?.
    rewrite Kr. congruence.
  - specialize (Hput (with_replica r (rp_container_id r) "error") eq_refl). unfold AgentTenancy.outsiders in *. cbn in *.
    injection Ko as ? ? ? ?. destruct e as [| | | | |[]| | |]; cbn; rewrite ?Kr; congruence.
Qed.

Lemma create_replicas_leaves A a n : ident a ∈ A -> F (a_id a) = false -> leaves (invA A) (create_replicas n a).
Proof.
  intros Ha Hf. induction n as [|n IH]; [apply leaves_ret|]. apply leaves_bind; [by apply create_replica_stays|by apply create_replica_leaves|].
  intros _. apply IH.
Qed.

(** Replicas are deleted by their key. *)
Lemma remove_replicas_leaves l s : (forall r y, r ∈ l -> y ∈ replicas s -> rp_id y = rp_id r -> F (rp_agent_id y) = false) ->
  outsiders (remove_replicas l s).2 = outsiders s.
Proof.
  revert s. induction l as [|r l IH]; intros s Hl; [done|]. cbn [remove_replicas].
  assert (forall T (g : fleet -> T), Apart g -> frame g (_stop_replica_container r) /\ frame g (_remove_replica_container r)) as Hg.
  { intros T g Hg. unfold _stop_replica_container, _remove_replica_container. destruct (rp_container_id r) as [c|]; [|split; apply frame_ret].
    destruct (negb _); [split; apply frame_ret|].
    split; (apply frame_docker_try; [apply _|intros a; apply frame_ret|apply frame_ret]). }
  pose proof (Hg _ outsiders _) as [Ho1 Ho2]. pose proof (Hg _ replicas _) as [Hr1 Hr2]. clear Hg.
  specialize (Ho1 s). specialize (Hr1 s). unfold mbind, stm_bind. destruct (_stop_replica_container r s) as [[u|e] s1]; [|done]. cbn [snd] in Ho1, Hr1.
  specialize (Ho2 s1). specialize (Hr2 s1). destruct (_remove_replica_container r s1) as [[v|e] s2]; cbn [snd] in Ho2, Hr2; [|cbn [snd]; by rewrite Ho2, Ho1].
  destruct (delete_replica r s2) as [[w|e] s3] eqn:Hd; [|done]. injection Hd as _ <-. rewrite IH.
  - rewrite <-Ho1, <-Ho2. unfold AgentTenancy.outsiders. cbn. rewrite (filter_drop_out F rp_agent_id); [done|].
    intros y Hy Hid%negb_false_iff%String.eqb_eq. apply (Hl r); [by left|by rewrite <-Hr1, <-Hr2|done].
  - cbn. intros x y Hx [Hy _]%elem_of_filter_bool. rewrite Hr2, Hr1 in Hy. apply Hl; [by right|done].
Qed.

Lemma update_status_leaves I a : F (a_id a) = false -> leaves I (update_status a).
Proof.
  intros Hf s _. exact (put_record_leaves F (fun _ => True)
    (with_status a (_derive_agent_status (agent_status a) (replicas_of (a_id a) s))) Hf s Logic.I).
Qed.

(** ** The agent that is found is the account's *)

Definition others_of (acc : string) (d : db) : Prop := wf d /\ forall x, F x = foreign acc (d_agents d) x.

Lemma own_agent acc s a : others_of acc (db_of s) -> a ∈ records s -> a_account a = acc -> F (a_id a) = false.
Proof.
  intros [Hw HF] Ha Hacc. rewrite HF. apply not_true_iff_false. intros (b & Hb & [Hi%String.eqb_eq Hn]%andb_true_iff)%existsb_exists.
  apply list_elem_of_In in Hb. pose proof (wf_ids _ Hw) as Hids. rewrite (NoDup_map_inj a_id (records s) b a) in Hn by done.
  by rewrite Hacc, String.eqb_refl in Hn.
Qed.

Lemma get_agent_leaves {B} acc name (k : agent_record -> M B) :
  (forall A a, ident a ∈ A -> agent_status a ∈ AGENT_STATUSES -> F (a_id a) = false -> leaves (invA A) (k a)) ->
  leaves (others_of acc) (get_agent acc name ≫= k).
Proof.
  intros Hk s Hs. unfold get_agent, mbind, stm_bind.
  pose proof (one_triple (fun d => d = db_of s) records (named acc name) s eq_refl) as Ho.
  destruct (one_cases records (named acc name) s) as [(a & E & Ha & Hn)|[[E _]|(e & E)]]; rewrite E; [|done..].
  cbn [mret stm_ret]. apply (Hk (map ident (records s))); [by apply ident_in| | |by split; [apply Hs|]].
  - destruct Hs as [Hw _]. pose proof (Forall_elem _ _ _ (wf_valid _ Hw) Ha) as Hv. unfold valid_agent in Hv.
    unfold str_in in Hv. repeat (apply andb_true_iff in Hv as [Hv ?]). by eapply bool_decide_eq_true_1.
  - eapply own_agent; [done..|]. unfold named in Hn. apply andb_true_iff in Hn as [Hn _]. by apply String.eqb_eq.
Qed.
End operations.

Section service.
Context `{Outside} `{Host} (F : string -> bool).
#[local] Set Default Proof Using "Type*".

Abbreviation M := (stm fleet exn).
Abbreviation leaves := (leaves F).
Abbreviation confined acc := (leaves (others_of F acc)).

(** A changed row of the agent that was found, as the last thing. *)
Lemma put_found {B} acc name (g : agent_record -> agent_record) (r : agent_record -> B) : (forall a, a_id (g a) = a_id a) ->
  confined acc (a ← get_agent acc name; put_record (g a);; mret (r a)).
Proof.
  intros Hg. apply get_agent_leaves. intros A a _ _ Hf s _. cbn.
  exact (put_record_leaves F (fun _ => True) (g a) ltac:(by rewrite Hg) s Logic.I).
Qed.

Lemma remove_ai_confined acc name : confined acc (remove_ai acc name).
Proof. by apply (put_found acc name (fun a => with_row a (without_engine (row a)))). Qed.
Lemma configure_servers_confined acc name l : confined acc (configure_mcp_servers acc name l).
Proof. by apply (put_found acc name (fun a => with_servers a (match l with [] => None | _ => Some l end))). Qed.
Lemma revoke_confined acc name : confined acc (revoke_chat_token acc name).
Proof. apply get_agent_leaves. intros A a _ _ Hf. by apply put_record_leaves. Qed.
Lemma generate_confined acc name : confined acc (generate_chat_token acc name).
Proof.
  apply get_agent_leaves. intros A a _ _ Hf. apply leaves_bind; [apply stays_ask|apply leaves_frame, frame_ask_out, _|]. intros t s Hs.
  unfold mbind, stm_bind. cbn [getS]. destruct (existsb _ (records s)); [done|].
  exact (put_record_leaves F (fun _ => True) (with_chat_token a (Some t)) Hf s Logic.I).
Qed.

Lemma over_replicas_leaves {B} A id (f : list replica -> M B) (k : B -> M agent_record) : F id = false ->
  (forall K l, Forall (fun r => rkey r ∈ K) l -> stays (inv A K) (f l)) ->
  (forall K l, Forall (mine F K) l -> leaves (inv A K) (f l)) -> (forall I b, leaves I (k b)) ->
  leaves (invA A) (l ← _get_replicas id; b ← f l; k b).
Proof.
  intros Hid Hs Hf Hk. apply get_replicas_mine; [done|]. intros K l Hl. apply leaves_bind; [by apply Hs, (mine_known F)|by apply Hf|done].
Qed.

Lemma start_confined acc name r : confined acc (start_agent acc name r).
Proof.
  apply get_agent_leaves. intros A a Ha Hst Hf. apply over_replicas_leaves; [done|..|intros; by apply update_status_leaves]; intros K l Hl;
    (destruct (truthy_ostr r); [|by apply start_replicas_stays || by apply start_replicas_leaves]); cbn zeta;
    (match goal with |- context [List.find ?p l] => destruct (List.find p l) as [x|] eqn:E end; [|apply stays_raise || apply leaves_raise]);
    (match goal with |- context [if ?b then _ else _] => destruct b end; [apply stays_raise || apply leaves_raise|]).
  - by eapply start_container_stays, found_known.
  - by eapply start_container_leaves, find_mine.
Qed.

Lemma stop_confined acc name r : confined acc (stop_agent acc name r).
Proof.
  apply get_agent_leaves. intros A a Ha Hst Hf. apply over_replicas_leaves; [done|..|intros; by apply update_status_leaves]; intros K l Hl;
    (destruct (truthy_ostr r); [|by apply stop_replicas_stays || by apply stop_replicas_leaves]); cbn zeta;
    (match goal with |- context [List.find ?p l] => destruct (List.find p l) as [x|] eqn:E end; [|apply stays_raise || apply leaves_raise]);
    (match goal with |- context [if ?b then _ else _] => destruct b end; [apply stays_raise || apply leaves_raise|]).
  - by eapply stop_one_stays, found_known.
  - by eapply stop_one_leaves, find_mine.
Qed.

Lemma scale_confined acc name target tier : confined acc (scale_agent acc name target tier).
Proof.
  apply get_agent_leaves. intros A a Ha Hst Hf. apply leaves_bind; [apply stays_tier| |intros cfg].
  { unfold get_tier_config. destruct (dict_get _ _); [apply leaves_ret|apply leaves_raise]. }
  intros s Hs. change (_get_replicas (a_id a) s) with (Ok (replicas_of (a_id a) s) : res exn _, s). unfold mbind at 1, stm_bind at 1.
  change (_get_replicas (a_id a) s) with (Ok (replicas_of (a_id a) s) : res exn _, s). cbn beta iota. cbn zeta.
  set (l := replicas_of (a_id a) s). unfold mbind at 1, stm_bind at 1. destruct (get_total_replica_count acc s) as [[total|e] s0] eqn:E; [|done].
  injection E as _ <-. cbn beta iota. match goal with |- context [if ?b then _ else _] => destruct b end; [done|].
  unfold mbind at 1, stm_bind at 1. pose proof (put_record_leaves F (fun _ => True) (with_target a target) Hf s Logic.I) as K1.
  pose proof (put_record_staysA A (with_target a target) Ha Hst s Hs) as K2. destruct (put_record _ s) as [[u|e] s1] eqn:Hp; [|done]. cbn [snd] in K1.
  rewrite <-K1. assert (replicas s1 = replicas s) as Hr by (by injection Hp as <- <-).
  match goal with |- context [((if ?b then ?x else ?y) ≫= _)] => set (act := if b then x else y) end.
  assert (AgentTenancy.outsiders F (act s1).2 = AgentTenancy.outsiders F s1) as Hact.
  { subst act. destruct (Z.of_nat (length l) <? target); [by apply (create_replicas_leaves F A)|].
    destruct (target <? Z.of_nat (length l)); [|done]. apply remove_replicas_leaves. intros r y Hin Hy Hid. rewrite Hr in Hy.
    assert (r ∈ l) as Hl. { apply subseteq_take in Hin. by rewrite order_by_perm in Hin. }
    apply elem_of_replicas_of in Hl as [Hl Hag]. destruct Hs as [Hw _]. pose proof (wf_replica_ids _ Hw) as Hids.
    rewrite (NoDup_map_inj rp_id (replicas s) y r) by done. by rewrite Hag. }
  unfold mbind, stm_bind. destruct (act s1) as [[v|e] s2]; cbn [snd] in Hact; [|done]. rewrite <-Hact.
  by apply (update_status_leaves F (fun _ => True)).
Qed.

Lemma add_schedule_confined acc name fn cron zone policy tier om mode : confined acc (add_schedule acc name fn cron zone policy tier om mode).
Proof.
  apply get_agent_leaves. intros A a Ha Hst Hf. intros s _. unfold mbind, stm_bind.
  destruct (get_tier_config tier s) as [[cfg|e] s0] eqn:E0; [|unfold get_tier_config in E0; destruct (dict_get _ _); [done|by injection E0 as _ <-]].
  assert (s0 = s) as -> by (unfold get_tier_config in E0; destruct (dict_get _ _); by injection E0). cbn zeta.
  match goal with |- context [if ?b then _ else _] => destruct b end; [done|].
  pose proof (frame_next (AgentTenancy.outsiders F) cron zone s) as K1. destruct (_compute_next_run cron zone s) as [[next|e] s1]; cbn [snd] in K1; [|done].
  destruct (negb (valid_mode om)); [done|]. pose proof (frame_ask_out (AgentTenancy.outsiders F) uuid4 s1) as K2.
  destruct (ask_out uuid4 s1) as [[id|e] s2]; cbn [snd] in K2; [|cbn [snd]; by rewrite K2, K1]. unfold Agents.insert, mbind, stm_bind. cbn [getS].
  rewrite <-K1, <-K2. destruct (existsb _ (schedules s2)); [done|]. unfold AgentTenancy.outsiders. cbn. by rewrite (filter_snoc_out F sc_agent_id).
Qed.

Lemma add_webhook_confined `{Crypto} acc name path handler secret om : confined acc (add_webhook acc name path handler secret om).
Proof.
  apply get_agent_leaves. intros A a Ha Hst Hf. apply leaves_bind; [apply stays_one|apply leaves_frame, frame_one, _|]. intros [x|]; [apply leaves_raise|].
  cbn zeta. destruct (negb (valid_mode om)); [apply leaves_raise|]. apply leaves_bind; [apply stays_ask|apply leaves_frame, frame_ask_out, _|].
  intros id s _. unfold Agents.insert, mbind, stm_bind. cbn [getS]. destruct (existsb _ (webhooks s)); [done|].
  unfold AgentTenancy.outsiders. cbn. by rewrite (filter_snoc_out F wh_agent_id).
Qed.
End service.

Section lives.
Context `{Outside} `{Host} (F : string -> bool).
#[local] Set Default Proof Using "Type*".

Abbreviation M := (stm fleet exn).
Abbreviation leaves := (leaves F).
Abbreviation outsiders := (AgentTenancy.outsiders F).
Abbreviation confined acc := (leaves (others_of F acc)).

Lemma remove_schedule_confined acc name id : confined acc (remove_schedule acc name id).
Proof.
  apply get_agent_leaves. intros A a Ha Hst Hf s Hs. unfold mbind, stm_bind.
  match goal with |- context [Agents.one schedules ?p s] => destruct (one_cases schedules p s) as [(x & E & Hx & Hp)|[[E _]|(e & E)]] end;
    rewrite E; [|done..]. apply andb_true_iff in Hp as [Hid Hag]. apply String.eqb_eq in Hag. destruct Hs as [Hw _].
  pose proof (wf_schedule_ids _ Hw) as Hids.
  unfold AgentTenancy.outsiders, delete_schedule, mbind, stm_bind. cbn. rewrite (filter_drop_out F sc_agent_id); [done|].
  intros y Hy Hn%negb_false_iff%String.eqb_eq. rewrite (NoDup_map_inj sc_id (schedules s) y x) by done. by rewrite Hag.
Qed.

Lemma remove_webhook_confined acc name id : confined acc (remove_webhook acc name id).
Proof.
  apply get_agent_leaves. intros A a Ha Hst Hf s Hs. unfold mbind, stm_bind.
  match goal with |- context [Agents.one webhooks ?p s] => destruct (one_cases webhooks p s) as [(x & E & Hx & Hp)|[[E _]|(e & E)]] end;
    rewrite E; [|done..]. apply andb_true_iff in Hp as [Hid Hag]. apply String.eqb_eq in Hag. destruct Hs as [Hw _].
  pose proof (wf_webhook_ids _ Hw) as Hids. unfold AgentTenancy.outsiders. cbn. rewrite (filter_drop_out F wh_agent_id); [done|].
  intros y Hy Hn%negb_false_iff%String.eqb_eq. rewrite (NoDup_map_inj wh_id (webhooks s) y x) by done. by rewrite Hag.
Qed.

Lemma remove_channel_confined acc name kind : confined acc (remove_channel acc name kind).
Proof.
  apply get_agent_leaves. intros A a Ha Hst Hf. apply leaves_frame. apply frame_bind; [intros s; unfold Agents.one; by repeat case_match|]. intros [x|]; [|apply frame_raise].
  apply frame_set_world, _.
Qed.

Section crypto.
Context `{Aead} (b64decode : string -> string) (kek_b64 : string).

Lemma add_channel_confined acc name kind config : confined acc (add_channel b64decode kek_b64 acc name kind config).
Proof.
  apply get_agent_leaves. intros A a Ha Hst Hf. apply leaves_frame. apply frame_bind; [intros s; unfold Agents.one; by repeat case_match|].
  intros [x|]; [apply frame_raise|]. apply frame_bind; [apply frame_ask_out, _|]. intros r. apply frame_bind; [apply frame_on_state, _|].
  intros ct. destruct (negb _); [apply frame_raise|]. apply frame_bind; [apply frame_set_world, _|]. intros u. apply frame_ret.
Qed.

Lemma rolling_restart_leaves A a : ident a ∈ A -> F (a_id a) = false -> leaves (invA A) (_trigger_rolling_restart_if_clustered a).
Proof.
  intros Ha Hf. unfold _trigger_rolling_restart_if_clustered. destruct (1 <? _); [|apply leaves_ret]. apply get_replicas_mine; [done|].
  intros K l Hl. apply restart_replicas_leaves. eapply Forall_filter_both; [exact Hl|]. done.
Qed.

Lemma configure_ai_confined acc name engine model key prompt channel :
  confined acc (configure_ai b64decode kek_b64 acc name engine model key prompt channel).
Proof.
  apply get_agent_leaves. intros A a Ha Hst Hf s Hs. unfold mbind at 1, stm_bind at 1.
  match goal with |- context [let (_, _) := ?m s in _] => set (getkey := m) end.
  assert (stays (invA A) getkey /\ frame outsiders getkey) as [Hk1 Hk2].
  { subst getkey. destruct (truthy_ostr key); [|split; [apply stays_ret|apply frame_ret]]. split.
    - apply stays_bind.
      { unfold _validate_api_key. destruct (dict_get _ _); [|apply stays_ret]. apply stays_bind; [apply stays_host|intros st].
        destruct (decide _); [apply stays_raise|]. destruct (decide _); [apply stays_raise|apply stays_ret]. }
      intros ?. apply stays_bind; [apply stays_ask|intros r]. apply stays_bind; [apply stays_encrypt|intros; apply stays_ret].
    - apply frame_bind.
      { unfold _validate_api_key. destruct (dict_get _ _); [|apply frame_ret]. apply frame_bind; [apply frame_on_host, _|intros st].
        destruct (decide _); [apply frame_raise|]. destruct (decide _); [apply frame_raise|apply frame_ret]. }
      intros ?. apply frame_bind; [apply frame_ask_out, _|intros r]. apply frame_bind; [apply frame_on_state, _|intros k; apply frame_ret]. }
  clearbody getkey. specialize (Hk1 s Hs). specialize (Hk2 s). destruct (getkey s) as [[ct|e] s1]; cbn [snd] in Hk2; [|done]. rewrite <-Hk2.
  cbn zeta. match goal with |- context [match ?b with Some _ => _ | None => _ end] => destruct b as [c|] eqn:Hbad end.
  { unfold mbind, stm_bind. exact (put_record_leaves F (fun _ => True) (with_row a (with_engine (row a) engine model ct prompt None)) Hf s1 Logic.I). }
  set (b := with_row a _). pose proof (put_record_leaves F (fun _ => True) b Hf s1 Logic.I) as Kp.
  assert (triple (fun s => invA A (db_of s)) (put_record b) (fun _ s => wf (db_of s)) (fun _ _ => True)) as Hw.
  { eapply (put_record_wf A a b); [exact Ha|done|done| |by right]. subst b. cbn. destruct channel as [[c|]|]; cbn in *; [left|done|by apply (auto_same a)].
    destruct (str_in c CHANNEL_TYPES) eqn:Hc; [by eapply bool_decide_eq_true_1|done]. }
  specialize (Hw s1 Hk1). unfold mbind at 1, stm_bind at 1. change (put_record b s1) with (Ok tt : res exn unit, (put_record b s1).2) in *.
  cbn beta iota. set (s2 := (put_record b s1).2) in *. cbn beta iota in Hw.
  assert (invA (map ident (records s2)) (db_of s2)) as Hi by by split.
  assert (ident b ∈ map ident (records s2)) as Hb.
  { apply ident_in. subst s2. cbn. destruct Hk1 as [_ <-]. apply list_elem_of_In, in_map_iff in Ha as (x & [= Hx _ _ _ _ _] & Hin).
    unfold put. apply list_elem_of_fmap. exists x. change (a_id b) with (a_id a). rewrite Hx, String.eqb_refl. split; [done|by apply list_elem_of_In]. }
  pose proof (rolling_restart_leaves _ b Hb Hf s2 Hi) as Kr. unfold mbind, stm_bind.
  destruct (_trigger_rolling_restart_if_clustered b s2) as [[u|e] s3]; cbn [snd] in Kr;
    change (outsiders s3 = outsiders s1); by rewrite Kr.
Qed.
End crypto.

(** *** Birth and death *)

Lemma fresh_out acc d a : others_of F acc d -> a_id a ∉ map a_id (d_agents d) -> F (a_id a) = false.
Proof.
  intros [_ HF] Hn. rewrite HF. apply not_true_iff_false. intros (b & Hb & [Hi%String.eqb_eq _]%andb_true_iff)%existsb_exists.
  apply Hn. rewrite <-Hi. by apply list_elem_of_In, in_map.
Qed.

Lemma new_namespace_out acc name s : outsiders (new_namespace acc name s).2 = outsiders s.
Proof.
  unfold new_namespace. match goal with |- outsiders (?m s).2 = _ => change (outsiders (m s).2 = outsiders s); assert (frame outsiders m) as K end; [|apply K].
  apply frame_bind; [apply frame_ask_out, _|]. intros id. apply frame_bind; [apply frame_get|]. intros s0. cbn zeta.
  apply frame_bind; [intros s1; unfold on_namespaces; by destruct (Namespaces.create _ _ _ _ _ _)|]. intros n.
  destruct (existsb _ _); [apply frame_raise|apply frame_ret].
Qed.

(** A new agent for a new namespace, before its first replica. *)
Lemma add_agent_out acc s s1 n a : others_of F acc (db_of s) -> db_of s1 = with_namespaces (db_of s) (d_namespaces (db_of s) ++ [n]) ->
  n_id n ∉ map n_id (d_namespaces (db_of s)) -> n_name n ∉ map n_name (d_namespaces (db_of s)) ->
  n_id n = a_namespace a -> n_name n = str_lower (a_name a) -> n_account_id n = a_account a -> chat_token a = None ->
  outsiders (add_agent a s1).2 = outsiders s1 /\
  match add_agent a s1 with
  | (Ok _, s2) => F (a_id a) = false /\ invA (map ident (records s2)) (db_of s2) /\ ident a ∈ map ident (records s2)
  | (Err _, _) => True
  end.
Proof.
  intros Ho Hd Hfi Hfn Hid Hnm Hacc Htok. pose proof (add_agent_wf (db_of s) n a (proj1 Ho) Hfi Hfn Hid Hnm Hacc Htok s1 Hd) as K.
  destruct (add_agent a s1) as [[u|e] s2] eqn:E.
  - destruct K as (Hw & Hin & Hfresh & Hdb). pose proof (fresh_out acc (db_of s) a Ho Hfresh) as Hf. split; [|split; [done|split; [by split|done]]].
    pose proof (f_equal d_agents Hd) as A1. pose proof (f_equal d_replicas Hd) as A2. pose proof (f_equal d_schedules Hd) as A3.
    pose proof (f_equal d_webhooks Hd) as A4. pose proof (f_equal d_agents Hdb) as B1. pose proof (f_equal d_replicas Hdb) as B2.
    pose proof (f_equal d_schedules Hdb) as B3. pose proof (f_equal d_webhooks Hdb) as B4. cbn in *. unfold AgentTenancy.outsiders.
    rewrite A1, A2, A3, A4, B1, B2, B3, B4. by rewrite (filter_snoc_out F a_id a).
  - split; [|done]. unfold add_agent, Agents.insert, mbind, stm_bind in E. destruct (valid_agent a); [|by injection E as _ <-].
    cbn [getS] in E. destruct (existsb _ (records s1)); [by injection E as _ <-|done].
Qed.

Lemma create_confined acc tier name dn : confined acc (create_agent acc tier name dn).
Proof.
  intros s Ho. unfold create_agent. unfold mbind at 1, stm_bind at 1.
  assert (forall r s0, get_tier_config tier s = (r, s0) -> s0 = s) as Htier.
  { intros r s0. unfold get_tier_config. destruct (dict_get _ _); by intros [= _ <-]. }
  destruct (get_tier_config tier s) as [[cfg|e] s0] eqn:E0; rewrite (Htier _ _ eq_refl); [|done]. unfold mbind at 1, stm_bind at 1.
  destruct (get_agent_count acc s) as [[count|e] s1] eqn:E1; [|done]. injection E1 as _ <-. destruct (max_agents cfg <=? count); [done|].
  unfold mbind at 1, stm_bind at 1. destruct (one_cases records (named acc name) s) as [(a & E & _)|[[E _]|(e & E)]]; rewrite E; [done| |done].
  unfold mbind at 1, stm_bind at 1. pose proof (new_namespace_triple (db_of s) acc name s eq_refl) as Kn. pose proof (new_namespace_out acc name s) as Kp.
  destruct (new_namespace acc name s) as [[n|e] s1]; cbn [snd] in Kp; [|by cbn [snd]]. destruct Kn as (Hd & Hacc & Hnm & Hfi & Hfn). rewrite <-Kp.
  unfold mbind at 1, stm_bind at 1. pose proof (stays_ask (fun d => d = db_of s1) uuid4 s1 eq_refl) as Ka. pose proof (frame_ask_out outsiders uuid4 s1) as Ka'.
  destruct (ask_out uuid4 s1) as [[id|e] s2]; cbn [snd] in Ka'; [|done]. unfold mbind at 1, stm_bind at 1.
  pose proof (stays_ask (fun d => d = db_of s1) now s2 Ka) as Kb. pose proof (frame_ask_out outsiders now s2) as Kb'.
  destruct (ask_out now s2) as [[t|e] s3]; cbn [snd] in Kb'; [|cbn [snd]; by rewrite Kb']. cbn zeta. set (a := AgentRecord _ _ _ _ _ _ _ _ _ _ _ _ _ _ _).
  rewrite <-Kb in Hd. rewrite <-Ka', <-Kb'.
  pose proof (add_agent_out acc s s3 n a Ho Hd Hfi Hfn eq_refl Hnm Hacc eq_refl) as [Hout Hadd]. unfold mbind at 1, stm_bind at 1.
  destruct (add_agent a s3) as [[u|e] s4]; cbn [snd] in Hout; [|done]. rewrite <-Hout. destruct Hadd as (Hf & Hi & Ha).
  apply (leaves_bind F (invA (map ident (records s4)))); [by apply create_replica_stays|by apply create_replica_leaves| |done].
  intros r. unfold update_status_lazily. destruct lazy_loads; [by apply update_status_leaves|apply leaves_raise].
Qed.

Lemma clone_schedules_out id l : F id = false -> frame outsiders (clone_schedules id l).
Proof.
  intros Hf. induction l as [|x l IH]; [apply frame_ret|]. cbn [clone_schedules]. apply frame_bind; [apply frame_ask_out, _|]. intros i.
  apply frame_bind; [|by intros _]. intros s. unfold Agents.insert, mbind, stm_bind. cbn [getS]. destruct (existsb _ (schedules s)); [done|].
  unfold AgentTenancy.outsiders. cbn. by rewrite (filter_snoc_out F sc_agent_id).
Qed.

Lemma clone_confined acc src name tier : confined acc (clone_agent acc src name tier).
Proof.
  intros s Ho. unfold clone_agent. unfold mbind at 1, stm_bind at 1.
  assert (forall r s0, get_tier_config tier s = (r, s0) -> s0 = s) as Htier.
  { intros r s0. unfold get_tier_config. destruct (dict_get _ _); by intros [= _ <-]. }
  destruct (get_tier_config tier s) as [[cfg|e] s0] eqn:E0; rewrite (Htier _ _ eq_refl); [|done]. unfold mbind at 1, stm_bind at 1.
  destruct (get_agent_count acc s) as [[count|e] s1] eqn:E1; [|done]. injection E1 as _ <-. destruct (max_agents cfg <=? count); [done|].
  unfold mbind at 1, stm_bind at 1. destruct (one_cases records (named acc name) s) as [(a & E & _)|[[E _]|(e & E)]]; rewrite E; [done| |done].
  clear E. unfold get_agent, mbind at 1, stm_bind at 1. unfold mbind at 1, stm_bind at 1.
  destruct (one_cases records (named acc src) s) as [(source & E & _)|[[E _]|(e & E)]]; rewrite E; [|done..]. cbn [mret stm_ret].
  unfold mbind at 1, stm_bind at 1. cbn [getS].
  unfold mbind at 1, stm_bind at 1. pose proof (new_namespace_triple (db_of s) acc name s eq_refl) as Kn. pose proof (new_namespace_out acc name s) as Kp.
  destruct (new_namespace acc name s) as [[n|e] s1]; cbn [snd] in Kp; [|by cbn [snd]]. destruct Kn as (Hd & Hacc & Hnm & Hfi & Hfn). rewrite <-Kp.
  unfold mbind at 1, stm_bind at 1. pose proof (stays_ask (fun d => d = db_of s1) uuid4 s1 eq_refl) as Ka. pose proof (frame_ask_out outsiders uuid4 s1) as Ka'.
  destruct (ask_out uuid4 s1) as [[id|e] s2]; cbn [snd] in Ka'; [|done]. unfold mbind at 1, stm_bind at 1.
  pose proof (stays_ask (fun d => d = db_of s1) now s2 Ka) as Kb. pose proof (frame_ask_out outsiders now s2) as Kb'.
  destruct (ask_out now s2) as [[t|e] s3]; cbn [snd] in Kb'; [|cbn [snd]; by rewrite Kb']. cbn zeta. set (a := AgentRecord _ _ _ _ _ _ _ _ _ _ _ _ _ _ _).
  rewrite <-Kb in Hd. rewrite <-Ka', <-Kb'.
  pose proof (add_agent_out acc s s3 n a Ho Hd Hfi Hfn eq_refl Hnm Hacc eq_refl) as [Hout Hadd]. unfold mbind at 1, stm_bind at 1.
  destruct (add_agent a s3) as [[u|e] s4]; cbn [snd] in Hout; [|done]. rewrite <-Hout. destruct Hadd as (Hf & _ & _). change (F id = false) in Hf.
  assert (frame outsiders (clone_rows (a_id source) id (List.filter (fun x => String.eqb (sc_agent_id x) (a_id source)) (schedules s)))) as Hrows.
  { unfold clone_rows. apply frame_bind; [apply frame_set_world, _|]. intros v. apply frame_bind; [by apply clone_schedules_out|]. intros w.
    apply frame_set_world, _. }
  match goal with |- outsiders (?m s4).2 = _ => assert (frame outsiders m) as K; [|apply K] end. apply frame_bind; [exact Hrows|]. intros v.
  assert (forall b, a_id b = id -> frame outsiders (put_record b;; mret b)) as Hput.
  { intros b Hb s5. exact (put_record_leaves F (fun _ => True) b ltac:(by rewrite Hb) s5 Logic.I). }
  apply frame_docker_try; [apply _|intros c; by apply Hput|by apply Hput].
Qed.

Lemma forgotten id l : F id = false ->
  map unsourced (List.filter (fun a => F (a_id a)) (map (forget_source id) (List.filter (fun a => negb (String.eqb (a_id a) id)) l)))
  = map unsourced (List.filter (fun a => F (a_id a)) l).
Proof.
  intros Hf. induction l as [|a l IH]; [done|]. cbn. destruct (String.eqb_spec (a_id a) id) as [E|E]; cbn; [by rewrite E, Hf|].
  assert (a_id (forget_source id a) = a_id a /\ unsourced (forget_source id a) = unsourced a) as [-> Hu] by (unfold forget_source; by destruct (decide _)).
  destruct (F (a_id a)); cbn; by rewrite ?Hu, IH.
Qed.

Lemma bury_out a s : F (a_id a) = false -> outsiders (bury a s).2 = outsiders s.
Proof.
  intros Hf. pose proof (bury_db a s) as K. destruct (bury a s) as [[b|e] s']; [|done]. destruct K as [_ K].
  pose proof (f_equal d_agents K) as A1. pose proof (f_equal d_replicas K) as A2. pose proof (f_equal d_schedules K) as A3.
  pose proof (f_equal d_webhooks K) as A4. cbn in A1, A2, A3, A4. unfold AgentTenancy.outsiders. cbn [snd]. rewrite A1, A2, A3, A4, (forgotten _ _ Hf).
  rewrite (filter_drop_out F rp_agent_id), (filter_drop_out F sc_agent_id), (filter_drop_out F wh_agent_id); [done|..];
    intros y _ ->%negb_false_iff%String.eqb_eq; done.
Qed.

Lemma destroy_confined acc name : confined acc (destroy_agent acc name).
Proof.
  apply get_agent_leaves. intros A a Ha Hst Hf. apply leaves_frame. apply frame_bind.
  { intros s. exact (put_record_leaves F (fun _ => True) (with_status a "destroying") Hf s Logic.I). }
  intros u. apply frame_bind; [by intros s|]. intros l. apply frame_bind.
  { induction l as [|r l IH]; [apply frame_ret|]. cbn [remove_containers]. apply frame_bind; [|by intros _]. unfold _remove_replica_container.
    destruct (rp_container_id r) as [c|]; [|apply frame_ret]. destruct (negb _); [apply frame_ret|apply frame_docker]. }
  intros v. apply frame_bind.
  { unfold remove_agent_container. destruct (container_id a) as [c|]; [|apply frame_ret]. destruct (truthy_str c); [apply frame_docker|apply frame_ret]. }
  intros w s. by apply bury_out.
Qed.
End lives.
