(* ===== verification/CreateAgents.v ===== *)
(** * The create handler's tools for agents

    The tools of [mcp/create_handler.py] that manage agents, on the [fleet] of
    [Agents], with the URLs of [url_builder.py].  The arguments have the types of
    the tool schemas ([ToolRegistry]); a handler that raises is rolled back, one
    that answers is committed ([serve]).  Columns that no modelled code of this file reads (the
    scratchpad, access to servers, times of runs and fires) are left out of the
    answers; the tools of the scratchpad are in [Scratchpad]. *)

From S2P Require Import Prelude Regex Routing ReplicaNames Security CreateHandler CreateTools Json Encryption AgentState Namespaces Functions Procedures SecurityEvents ConversationMemory AiTools ToolDispatch Hoare Orchestrator ProcedureRun Agents AgentChat Scheduler AgentTenancy.
From stdpp Require Import gmap strings.
From Stdlib Require Import Ascii.

Open Scope Z_scope.

(** ** URLs *)

(** The settings that [url_builder] reads. *)
Record url_settings := UrlSettings { base_scheme : string; base_domain : string; url_routing_mode : routing_mode }.

Section urls.
Context (cfg : url_settings).

Definition _is_path_mode : bool := match url_routing_mode cfg with BySubdomain => false | _ => true end.
Definition _api_base : string := base_scheme cfg +:+ "://api." +:+ base_domain cfg.
Definition _subdomain_base (subdomain : string) : string := base_scheme cfg +:+ "://" +:+ subdomain +:+ "." +:+ base_domain cfg.

Definition create_url (namespace : string) : string :=
  if _is_path_mode then _api_base +:+ "/mcp/create/" +:+ namespace else _subdomain_base (namespace +:+ ".create").
Definition run_url (namespace : string) : string :=
  if _is_path_mode then _api_base +:+ "/mcp/run/" +:+ namespace else _subdomain_base (namespace +:+ ".run").
Definition agent_url (agent_name : string) : string :=
  if _is_path_mode then _api_base +:+ "/mcp/agent/" +:+ agent_name else _subdomain_base (agent_name +:+ ".agent").
Definition mcp_url (namespace endpoint : string) : string :=
  if _is_path_mode then _api_base +:+ "/mcp/" +:+ endpoint +:+ "/" +:+ namespace
  else _subdomain_base (namespace +:+ "." +:+ endpoint) +:+ "/mcp".
Definition api_url (path : string) : string := if truthy_str path then _api_base +:+ path else _api_base.
Definition view_url (agent_name token : string) : string :=
  if _is_path_mode then _api_base +:+ "/mcp/agent/" +:+ agent_name +:+ "/view/" +:+ token +:+ "/"
  else _subdomain_base (agent_name +:+ ".agent") +:+ "/view/" +:+ token +:+ "/".
Definition chat_url (agent_name token : string) : string :=
  if _is_path_mode then _api_base +:+ "/mcp/agent/" +:+ agent_name +:+ "/chat/" +:+ token
  else _subdomain_base (agent_name +:+ ".agent") +:+ "/chat/" +:+ token.
Definition webhook_url (agent_name path : string) : string :=
  if _is_path_mode then _api_base +:+ "/mcp/agent/" +:+ agent_name +:+ "/webhook/" +:+ path
  else _subdomain_base (agent_name +:+ ".agent") +:+ "/webhook/" +:+ path.
End urls.

Definition reply_t := RunHandler.MCPToolResult.

Section tools.
Context `{Outside} `{Host} `{Aead} `{Crypto} (b64decode : string -> string) (kek_b64 : string) (urls : url_settings).
Context (summarize : string -> string -> string -> string -> string -> option string).

Abbreviation M := (stm fleet exn).

(** ** The life cycle *)

Definition _make_agent (k : creator) (name : string) (display_name : option string) : M reply_t :=
  a ← create_agent (k_account_id k) (k_tier k) name display_name;
  mret (reply [("id", PStr (a_id a)); ("name", PStr (a_name a)); ("status", PStr (agent_status a))]).

Definition agent_line (a : agent_record) : pyval :=
  PDict [("id", PStr (a_id a)); ("name", PStr (a_name a)); ("display_name", otext (display_name a)); ("status", PStr (agent_status a));
         ("target_replicas", PInt (target_replicas a))].

Definition _list_agents (k : creator) : M reply_t :=
  l ← list_agents (k_account_id k);
  slots ← get_agent_slots (k_account_id k) (k_tier k);
  let '(used, limit, available) := slots in
  mret (reply [("agents", PList (map agent_line l));
               ("slots", PDict [("slots_used", PInt used); ("slots_total", PInt limit); ("slots_available", PInt available);
                                  ("tier", PStr (k_tier k))])]).

Definition replica_line (r : replica) : pyval := PDict [("name", PStr (replica_name r)); ("status", PStr (rp_status r))].

Definition _describe_agent (k : creator) (name : string) : M reply_t :=
  a ← get_agent (k_account_id k) name;
  l ← _get_replicas (a_id a);
  mret (reply ([("id", PStr (a_id a)); ("name", PStr (a_name a)); ("display_name", otext (display_name a)); ("status", PStr (agent_status a));
                ("target_replicas", PInt (target_replicas a)); ("replicas", PList (map replica_line l)); ("ai_engine", otext (ai_engine (row a)));
                ("ai_model", otext (ai_model (row a))); ("system_prompt", otext (system_prompt (row a)));
                ("auto_channel", otext (auto_channel (row a))); ("memory_limit_mb", PInt (memory_mb a)); ("enabled", PBool (enabled a))] ++
               match chat_token a with
               | Some t => if truthy_str t then [("chat_url", PStr (chat_url urls (a_name a) t))] else []
               | None => []
               end)).

(** [self.account.user.subscription_tier]: users have no such attribute. *)
Definition _scale_agent (k : creator) (name : string) (count : Z) : M reply_t := raise PyAttributeError.

Definition status_reply (a : agent_record) : reply_t := reply [("name", PStr (a_name a)); ("status", PStr (agent_status a))].

Definition _start_agent (k : creator) (name : string) (replica : option string) : M reply_t :=
  a ← start_agent (k_account_id k) name replica;
  mret (status_reply a).
Definition _stop_agent (k : creator) (name : string) (replica : option string) : M reply_t :=
  a ← stop_agent (k_account_id k) name replica;
  mret (status_reply a).

Definition _destroy_agent (k : creator) (name : string) (confirm : bool) : M reply_t :=
  if negb confirm then raise (BadValue "Must confirm=true to destroy agent")
  else
    a ← destroy_agent (k_account_id k) name;
    mret (reply [("name", PStr (a_name a)); ("destroyed", PBool true)]).

Definition _clone_agent (k : creator) (agent_name new_name : string) : M reply_t :=
  a ← clone_agent (k_account_id k) agent_name new_name (k_tier k);
  mret (reply [("id", PStr (a_id a)); ("name", PStr (a_name a)); ("status", PStr (agent_status a)); ("cloned_from", PStr agent_name)]).

(** ** Schedules, webhooks, channels *)

(** [uuid.UUID(text)] *)
Definition as_uuid (text : string) : M string :=
  match parse_uuid text with Some id => mret id | None => raise (BadValue "badly formed hexadecimal UUID string") end.

Definition _add_schedule (k : creator) (agent_name fn cron : string) (failure_policy : pyval) (zone mode orchestration_mode : string)
    : M reply_t :=
  x ← add_schedule (k_account_id k) agent_name fn cron zone failure_policy (k_tier k) orchestration_mode mode;
  mret (reply [("schedule_id", PStr (sc_id x)); ("agent_name", PStr agent_name); ("function_name", PStr fn); ("cron_expression", PStr cron);
               ("timezone", PStr zone); ("mode", PStr (sc_mode x)); ("orchestration_mode", PStr (sc_orchestration_mode x));
               ("enabled", PBool (sc_enabled x))]).

Definition _remove_schedule (k : creator) (agent_name schedule_id : string) : M reply_t :=
  id ← as_uuid schedule_id;
  remove_schedule (k_account_id k) agent_name id;;
  mret (reply [("schedule_id", PStr schedule_id); ("removed", PBool true)]).

Definition schedule_line (x : schedule) : pyval :=
  PDict [("id", PStr (sc_id x)); ("function_name", PStr (function_name x)); ("cron_expression", PStr (cron_expression x));
         ("timezone", PStr (timezone x)); ("orchestration_mode", PStr (sc_orchestration_mode x)); ("enabled", PBool (sc_enabled x));
         ("consecutive_failures", PInt (consecutive_failures x))].

Definition _list_schedules (k : creator) (agent_name : string) : M reply_t :=
  l ← list_schedules (k_account_id k) agent_name;
  mret (reply [("schedules", PList (map schedule_line l)); ("total", PInt (Z.of_nat (length l)))]).

Definition _add_webhook (k : creator) (agent_name path handler : string) (secret : option string) (orchestration_mode : string) : M reply_t :=
  x ← add_webhook (k_account_id k) agent_name path handler secret orchestration_mode;
  mret (reply [("webhook_id", PStr (wh_id x)); ("agent_name", PStr agent_name); ("path", PStr path); ("handler_function_name", PStr handler);
               ("orchestration_mode", PStr (wh_orchestration_mode x)); ("enabled", PBool (wh_enabled x))]).

Definition _remove_webhook (k : creator) (agent_name webhook_id : string) : M reply_t :=
  id ← as_uuid webhook_id;
  remove_webhook (k_account_id k) agent_name id;;
  mret (reply [("webhook_id", PStr webhook_id); ("removed", PBool true)]).

Definition webhook_line (x : webhook) : pyval :=
  PDict [("id", PStr (wh_id x)); ("path", PStr (wh_path x)); ("handler_function_name", PStr (handler_function_name x));
         ("orchestration_mode", PStr (wh_orchestration_mode x)); ("enabled", PBool (wh_enabled x))].

Definition _list_webhooks (k : creator) (agent_name : string) : M reply_t :=
  l ← list_webhooks (k_account_id k) agent_name;
  mret (reply [("webhooks", PList (map webhook_line l)); ("total", PInt (Z.of_nat (length l)))]).

Definition _add_channel (k : creator) (agent_name channel_type : string) (config : pyval) : M reply_t :=
  c ← add_channel b64decode kek_b64 (k_account_id k) agent_name channel_type config;
  mret (reply [("agent_name", PStr agent_name); ("channel_type", PStr channel_type); ("enabled", PBool (ch_enabled c))]).

Definition _remove_channel (k : creator) (agent_name channel_type : string) : M reply_t :=
  remove_channel (k_account_id k) agent_name channel_type;;
  mret (reply [("agent_name", PStr agent_name); ("channel_type", PStr channel_type); ("removed", PBool true)]).

(** ** The model of an agent, its limits and its heartbeat *)

(** [except ValueError as e: str(e)] *)
Definition value_error_of (e : exn) : option string :=
  match e with
  | BadValue m => Some m
  | Service Security.ValueError | Cipher ValueError | Cipher UnicodeDecodeError | Cipher (JsonError _) => Some (exn_text e)
  | _ => None
  end.

(** [prompt if prompt is not None else _UNSET] *)
Definition unless_none (o : option string) : option (option string) := match o with Some t => Some (Some t) | None => None end.

(** The exception is answered, and what was assigned before it is committed. *)
Definition _configure_agent_ai (k : creator) (agent_name engine model : string) (api_key prompt channel : option string) : M reply_t :=
  missing ← (if truthy_ostr api_key then mret false
             else a ← get_agent (k_account_id k) agent_name; mret (negb (bool_decide (is_Some (ai_api_key (row a))))) : M bool);
  if (missing : bool) then
    mret (error_reply [("error", PStr "api_key is required when configuring AI for the first time (no existing key found)")])
  else
    try_except
      (a ← configure_ai b64decode kek_b64 (k_account_id k) agent_name engine model api_key (unless_none prompt) (unless_none channel);
       mret (reply [("agent_name", PStr agent_name); ("engine", otext (ai_engine (row a))); ("model", otext (ai_model (row a)));
                    ("system_prompt", otext (system_prompt (row a))); ("auto_channel", otext (auto_channel (row a))); ("configured", PBool true)]))
      (fun e => match value_error_of e with Some m => Some (mret (error_reply [("error", PStr m)])) | None => None end).

Definition _remove_agent_ai (k : creator) (agent_name : string) : M reply_t :=
  _ ← remove_ai (k_account_id k) agent_name;
  mret (reply [("agent_name", PStr agent_name); ("ai_removed", PBool true)]).

Definition _configure_mcp_servers (k : creator) (agent_name : string) (servers : list (string * pyval)) : M reply_t :=
  a ← configure_mcp_servers (k_account_id k) agent_name servers;
  let l := default [] (mcp_servers a) in
  mret (reply [("agent_name", PStr agent_name); ("mcp_servers", PDict l); ("count", PInt (Z.of_nat (length l))); ("configured", PBool true)]).

Definition override (key : string) (n : option Z) : list (string * pyval) := match n with Some n => [(key, PInt n)] | None => [] end.

Definition with_limits (a : agent_record) (l : option (list (string * pyval))) : agent_record :=
  let r := row a in
  with_row a (AgentRow (ar_id r) (ar_account_id r) (ar_namespace_id r) (ar_name r) (ai_engine r) (ai_model r) (ai_api_key r) (system_prompt r)
    (auto_channel r) l (tool_tier r) (scheduled_tool_tier r)).

(** No number is compared with those of the tier. *)
Definition _configure_orchestration_limits (k : creator) (agent_name : string) (iterations ai_tokens seconds functions : option Z) : M reply_t :=
  a ← get_agent (k_account_id k) agent_name;
  let overrides := override "max_iterations" iterations ++ override "max_ai_tokens" ai_tokens
                   ++ override "max_execution_seconds" seconds ++ override "max_functions_called" functions in
  let b := with_limits a (match overrides with [] => None | _ => Some overrides end) in
  put_record b;;
  mret (reply [("agent_name", PStr agent_name); ("overrides", match overrides with [] => PNone | _ => PDict overrides end);
               ("effective_limits", PDict (resolve_orchestration_limits (k_tier k) (row b)));
               ("source", PStr (match overrides with [] => "tier_default" | _ => "custom" end))]).

Definition with_heartbeat (a : agent_record) (on : bool) (interval next : option Z) : agent_record :=
  AgentRecord (row a) (display_name a) (agent_status a) (container_id a) (memory_mb a) (cpu_tenths a) (enabled a) (mcp_servers a)
    (target_replicas a) (chat_token a) on interval next (cloned_from_id a) (created_at a).

Definition heartbeat_reply (agent_name : string) (a : agent_record) : reply_t :=
  reply [("agent_name", PStr agent_name); ("heartbeat_enabled", PBool (heartbeat_enabled a));
         ("heartbeat_interval", match heartbeat_interval a with Some n => PInt n | None => PNone end);
         ("heartbeat_next_at", match heartbeat_next_at a with Some t => PStr (isoformat t) | None => PNone end)].

Definition _configure_heartbeat (k : creator) (agent_name : string) (on : bool) (interval_seconds : option Z) : M reply_t :=
  a ← get_agent (k_account_id k) agent_name;
  if on && negb (truthy_ostr (ai_engine (row a))) then forbidden "Heartbeat requires an AI engine. Use configure_agent_ai first."
  else
    let min_interval := match dict_get (k_tier k) AGENT_TIER_CONFIG with Some c => min_schedule_seconds c | None => 30 end in
    if on then
      let interval := match interval_seconds with Some n => if n =? 0 then 300 else n | None => 300 end in
      if interval <? min_interval then
        forbidden ("Heartbeat interval " +:+ str_of_Z interval +:+ "s is below tier minimum (" +:+ str_of_Z min_interval +:+ "s)")
      else
        t ← ask_out now;
        let b := with_heartbeat a true (Some interval) (Some (t + Scheduler.seconds interval)) in
        put_record b;;
        mret (heartbeat_reply agent_name b)
    else
      let b := with_heartbeat a false (heartbeat_interval a) None in
      put_record b;;
      mret (heartbeat_reply agent_name b).

(** ** Talking to an agent *)

Definition error_text (m : string) : reply_t := reply [("error", PStr m)].

(** The replica that is named in the answer; the chat is the same for all. *)
Definition choose_replica (k : creator) (agent_name : string) (replica_arg : option string) : M (reply_t + option string) :=
  a ← get_agent (k_account_id k) agent_name;
  l ← _get_replicas (a_id a);
  if truthy_ostr replica_arg then
    let n := default "" replica_arg in
    mret (match List.find (fun r => String.eqb (replica_name r) n) l with
          | None => inl (error_text ("Replica '" +:+ n +:+ "' not found in agent '" +:+ agent_name +:+ "'"))
          | Some r =>
              if is_running r then inr (Some n)
              else inl (error_text ("Replica '" +:+ n +:+ "' is " +:+ rp_status r +:+ ", not available for chat"))
          end)
  else mret (inr (replica_name <$> head (List.filter is_running l))).

Definition _chat_with_agent (k : creator) (agent_name message : string) (replica_arg : option string) : M reply_t :=
  chosen ← choose_replica k agent_name replica_arg;
  match chosen with
  | inl r => mret r
  | inr who =>
      try_except
        (response ← chat_with_agent b64decode kek_b64 summarize (k_account_id k) agent_name message
           (Payer (k_account_id k) (k_tier k)) false;
         mret (reply ([("agent_name", PStr agent_name); ("response", PStr response)] ++
                      match who with Some n => if truthy_str n then [("replica", PStr n)] else [] | None => [] end)))
        (fun e => match e with Raised (AIClientError m) => Some (mret (error_text m)) | _ => None end)
  end.

Definition _configure_chat_token (k : creator) (agent_name action : string) : M reply_t :=
  if String.eqb action "generate" then
    t ← generate_chat_token (k_account_id k) agent_name;
    mret (reply [("chat_url", PStr (chat_url urls agent_name t)); ("chat_token", PStr t)])
  else if String.eqb action "revoke" then
    revoke_chat_token (k_account_id k) agent_name;;
    mret (reply [("status", PStr "revoked"); ("chat_url", PNone)])
  else mret (error_text "action must be 'generate' or 'revoke'").

(** ** Records *)

Definition step_line (x : tool_call) : pyval :=
  PDict [("sequence_number", PInt (sequence_number x)); ("tool_name", PStr (tc_tool_name x)); ("reason_category", PStr (reason_category x));
         ("duration_ms", PInt (tc_duration_ms x)); ("status", PStr (tc_status x))].
Definition execution_line (x : execution_row) : pyval :=
  PDict [("execution_id", PStr (ex_id x)); ("function_name", PStr (ex_function_name x)); ("status", PStr (ex_status x))].
Definition ints_json (o : option (list (string * Z))) : pyval := match o with Some l => PDict (map (fun p => (p.1, PInt p.2)) l) | None => PNone end.

Definition run_lines (r : agent_run) (steps : list tool_call) (execs : list execution_row) : list (string * pyval) :=
  [("id", otext (run_row_id r)); ("agent_id", PStr (run_agent_id r)); ("trigger_detail", PStr (run_trigger_detail r));
   ("orchestration_mode", otext (run_orchestration_mode r)); ("outcome", PStr (run_outcome r)); ("status", PStr (run_status r));
   ("functions_called_count", PInt (run_functions_called r)); ("duration_ms", PInt (run_duration_ms r));
   ("limits_consumed", ints_json (run_limits_consumed r));
   ("limits_configured", match run_limits_configured r with Some l => PDict l | None => PNone end);
   ("result_summary", otext (run_result_summary r)); ("error", otext (run_error r)); ("steps", PList (map step_line steps));
   ("executions", PList (map execution_line execs))].

(** The run is looked up by its identifier alone. *)
Definition _describe_orchestration_run (k : creator) (run_id : string) : M reply_t :=
  match parse_uuid run_id with
  | None => raise (BadValue ("Invalid run ID: " +:+ run_id))
  | Some id =>
      s ← getS;
      match List.find (fun r => bool_decide (run_row_id r.1 = Some id)) (runs (the_world s)) with
      | None => raise (BadValue ("Orchestration run '" +:+ run_id +:+ "' not found"))
      | Some (r, steps) =>
          mret (reply (run_lines r steps (List.filter (fun x => bool_decide (ex_agent_run_id x = Some id)) (execution_log (the_world s)))))
      end
  end.

Definition fire_line (x : schedule_fire) : pyval :=
  PDict [("id", PStr (fr_id x)); ("schedule_id", PStr (fr_schedule_id x)); ("agent_id", PStr (fr_agent_id x)); ("status", PStr (fr_status x));
         ("agent_run_id", otext (fr_run_id x)); ("error_detail", otext (fr_error x))].

(** [list_fires], the newest first. *)
Definition list_fires (schedule_id : option string) (agent_id : string) (status : option string) (limit : Z) (s : fleet)
    : list schedule_fire * Z :=
  let wanted x := String.eqb (fr_agent_id x) agent_id
                  && match schedule_id with Some i => String.eqb (fr_schedule_id x) i | None => true end
                  && (negb (truthy_ostr status) || bool_decide (status = Some (fr_status x))) in
  let l := List.filter wanted (fires s) in
  (take (Z.to_nat limit) (rev l), Z.of_nat (length l)).

Definition _list_schedule_fires (k : creator) (agent : string) (schedule_id status : option string) (limit : Z) : M reply_t :=
  a ← get_agent (k_account_id k) agent;
  id ← (if truthy_ostr schedule_id then i ← as_uuid (default "" schedule_id); mret (Some i) else mret None : M (option string));
  s ← getS;
  if Z.min limit 50 <? 0 then raise (Service DBAPIError)
  else
    let '(l, total) := list_fires id (a_id a) status (Z.min limit 50) s in
    mret (reply [("fires", PList (map fire_line l)); ("total", PInt total)]).
End tools.

(** ** Calls *)

(** A call of one of the tools, with its arguments. *)
Inductive agent_tool :=
| MakeAgent (name : string) (display_name : option string)
| ListAgents
| DescribeAgent (name : string)
| ScaleTool (name : string) (count : Z)
| StartTool (name : string) (replica_arg : option string)
| StopTool (name : string) (replica_arg : option string)
| DestroyTool (name : string) (confirm : bool)
| CloneTool (agent_name new_name : string)
| ScheduleTool (agent_name fn cron : string) (policy : pyval) (zone mode orchestration_mode : string)
| UnscheduleTool (agent_name schedule_id : string)
| ListSchedules (agent_name : string)
| WebhookTool (agent_name path handler : string) (secret : option string) (orchestration_mode : string)
| UnhookTool (agent_name webhook_id : string)
| ListWebhooks (agent_name : string)
| ChannelTool (agent_name channel_type : string) (config : pyval)
| UnchannelTool (agent_name channel_type : string)
| AiTool (agent_name engine model : string) (api_key prompt channel : option string)
| UnaiTool (agent_name : string)
| ServersTool (agent_name : string) (servers : list (string * pyval))
| LimitsTool (agent_name : string) (iterations ai_tokens seconds functions : option Z)
| HeartbeatTool (agent_name : string) (on : bool) (interval : option Z)
| ChatTool (agent_name message : string) (replica_arg : option string)
| TokenTool (agent_name action : string)
| DescribeRun (run_id : string)
| ListFires (agent : string) (schedule_id status : option string) (limit : Z).

Section calls.
Context `{Outside} `{Host} `{Aead} `{Crypto} (b64decode : string -> string) (kek_b64 : string) (urls : url_settings).
Context (summarize : string -> string -> string -> string -> string -> option string).

Abbreviation M := (stm fleet exn).

Definition run_agent_tool (k : creator) (t : agent_tool) : M reply_t :=
  match t with
  | MakeAgent name dn => _make_agent k name dn
  | ListAgents => _list_agents k
  | DescribeAgent name => _describe_agent urls k name
  | ScaleTool name n => _scale_agent k name n
  | StartTool name r => _start_agent k name r
  | StopTool name r => _stop_agent k name r
  | DestroyTool name confirm => _destroy_agent k name confirm
  | CloneTool name new_name => _clone_agent k name new_name
  | ScheduleTool name fn cron p zone mode om => _add_schedule k name fn cron p zone mode om
  | UnscheduleTool name id => _remove_schedule k name id
  | ListSchedules name => _list_schedules k name
  | WebhookTool name path handler secret om => _add_webhook k name path handler secret om
  | UnhookTool name id => _remove_webhook k name id
  | ListWebhooks name => _list_webhooks k name
  | ChannelTool name kind config => _add_channel b64decode kek_b64 k name kind config
  | UnchannelTool name kind => _remove_channel k name kind
  | AiTool name e m key p c => _configure_agent_ai b64decode kek_b64 k name e m key p c
  | UnaiTool name => _remove_agent_ai k name
  | ServersTool name l => _configure_mcp_servers k name l
  | LimitsTool name i a s f => _configure_orchestration_limits k name i a s f
  | HeartbeatTool name on i => _configure_heartbeat k name on i
  | ChatTool name m r => _chat_with_agent b64decode kek_b64 summarize k name m r
  | TokenTool name action => _configure_chat_token urls k name action
  | DescribeRun id => _describe_orchestration_run k id
  | ListFires a sch st n => _list_schedule_fires k a sch st n
  end.

(** The request: committed after an answer, rolled back after an exception. *)
Definition serve_tool (k : creator) (t : agent_tool) : M reply_t := transaction (run_agent_tool k t).
End calls.

(** ** Chats leave the tables of agents alone *)

Section chats.
Context `{Outside} `{Host} `{Aead} (b64decode : string -> string) (kek_b64 : string).
Context (summarize : string -> string -> string -> string -> string -> option string).
Context {T : Type} (f : fleet -> T) `{!Apart f}.
#[local] Set Default Proof Using "Type*".

Abbreviation M := (stm fleet exn).

Lemma frame_except_any {A} (m k : M A) : frame f m -> frame f k -> frame f (except_any m k).
Proof. intros Hm Hk s. unfold except_any. specialize (Hm s). destruct (m s) as [[a|e] s']; [done|]. by rewrite Hk. Qed.

Lemma frame_dispatch_chat t name input : frame f (_dispatch_chat_tool b64decode kek_b64 t name input).
Proof.
  unfold _dispatch_chat_tool, chat_get_state, chat_set_state, chat_list_keys, chat_search, chat_function.
  repeat (first [apply frame_except_any | apply frame_bind | case_match | (intros; apply frame_in_world, _) | (intros; apply frame_on_state, _)
    | (intros; apply frame_ask_out, _) | (intros; apply frame_ret) | intros ?]).
Qed.

Lemma frame_chat_calls t blocks results ok : frame f (chat_calls b64decode kek_b64 t blocks results ok).
Proof.
  revert results ok. induction blocks as [|b blocks IH]; intros results ok; [apply frame_ret|]. cbn [chat_calls].
  destruct b; try apply IH; [|apply frame_in_world, _]. apply frame_bind; [apply frame_dispatch_chat|]. intros r.
  apply frame_bind; [|intros _; apply IH]. unfold logged_keys. repeat case_match; apply frame_ret || apply frame_in_world, _.
Qed.

Lemma frame_save_turns t text response : frame f (save_turns b64decode kek_b64 summarize t text response).
Proof.
  unfold save_turns. do 6 (apply frame_bind; [apply frame_ask_out, _|intros ?]). intros s. unfold save_with.
  destruct (ConversationMemory._save_chat_turns _ _ _ _ _ _ _ _ _ _ _ _ _ _ _) as [r st']. apply frame_set_world, _.
Qed.

Lemma frame_chat_loop n t text messages failures : frame f (chat_loop b64decode kek_b64 summarize n t text messages failures).
Proof.
  revert messages failures. induction n as [|n IH]; intros messages failures; [apply frame_ret|]. cbn [chat_loop].
  apply frame_bind; [apply frame_in_world, _|]. intros r. destruct (negb _).
  - apply frame_bind; [apply frame_save_turns|intros ?; apply frame_ret].
  - apply frame_bind; [apply frame_chat_calls|]. intros out. cbn zeta. destruct (out.2); [apply IH|]. destruct (_ <=? _); [apply frame_ret|apply IH].
Qed.

Lemma frame_chat acc name text p public_only :
  frame f (chat_with_agent b64decode kek_b64 summarize acc name text p public_only).
Proof.
  unfold chat_with_agent, get_agent. apply frame_bind; [apply frame_bind; [apply frame_one, _|intros [a|]; [apply frame_ret|apply frame_raise]]|].
  intros a. cbn zeta. destruct (_ && _); [|by repeat case_match; apply frame_raise]. destruct (ai_api_key (row a)) as [[ct dek]|]; [|apply frame_raise].
  apply frame_bind; [apply frame_on_state, _|]. intros key. apply frame_bind; [apply frame_get|]. intros s.
  apply frame_bind; [apply frame_on_state, _|]. intros state. cbn zeta. apply frame_bind.
  { destruct (_build_covered_function_set _); [apply frame_ret|apply frame_in_world, _]. }
  intros covered. apply frame_bind. { destruct (mcp_servers a) as [[|? ?]|]; [apply frame_ret|apply frame_ask_out, _|apply frame_ret]. }
  intros pool. destruct (load_history state) as [summary turns]. destruct (build_history_messages summary turns) as [history|e].
  - apply frame_bind; [apply frame_ask_out, _|]. intros u. apply frame_chat_loop.
  - unfold history_exn. apply frame_in_world, _.
Qed.
End chats.

(** ** A call touches no other account *)

Section tenancy.
Context `{Outside} `{Host} `{Aead} `{Crypto} (b64decode : string -> string) (kek_b64 : string) (urls : url_settings).
Context (summarize : string -> string -> string -> string -> string -> option string) (F : string -> bool).
#[local] Set Default Proof Using "Type*".

Abbreviation M := (stm fleet exn).
Abbreviation confined acc := (leaves F (others_of F acc)).
Abbreviation quiet := (frame (outsiders F)).

Lemma leaves_then {A B} I (m : M A) (c : A -> M B) : leaves F I m -> (forall a, quiet (c a)) -> leaves F I (m ≫= c).
Proof.
  intros Hm Hc s Hs. specialize (Hm s Hs). unfold mbind, stm_bind. destruct (m s) as [[a|e] s']; [|done]. by rewrite Hc.
Qed.

Lemma quiet_then {A B} acc (m : M A) (c : A -> M B) : (forall s, (m s).2 = s) -> (forall a, confined acc (c a)) -> confined acc (m ≫= c).
Proof.
  intros Hm Hc s Hs. specialize (Hm s). unfold mbind, stm_bind. destruct (m s) as [[a|e] s']; cbn in Hm; subst s'; [|done]. by apply Hc.
Qed.

Lemma get_agent_same acc name s : (get_agent acc name s).2 = s.
Proof. unfold get_agent, mbind, stm_bind, Agents.one. by destruct (List.filter _ (records s)) as [|? []]. Qed.

Lemma quiet_get_agent acc name : quiet (get_agent acc name).
Proof. intros s. by rewrite get_agent_same. Qed.

Lemma as_uuid_same text s : (as_uuid text s).2 = s.
Proof. unfold as_uuid. by destruct (parse_uuid text). Qed.

Lemma configure_tool_confined k name engine model key prompt channel :
  confined (k_account_id k) (_configure_agent_ai b64decode kek_b64 k name engine model key prompt channel).
Proof.
  unfold _configure_agent_ai. apply quiet_then.
  { intros s. destruct (truthy_ostr key); [done|]. unfold mbind, stm_bind. pose proof (get_agent_same (k_account_id k) name s) as K.
    by destruct (get_agent _ name s) as [[a|e] s']. }
  intros [|]; [apply leaves_ret|]. intros s Hs.
  match goal with |- context [try_except ?m ?h s] => assert (confined (k_account_id k) m) as Hm end.
  { apply leaves_then; [apply configure_ai_confined|intros a; apply frame_ret]. }
  specialize (Hm s Hs). unfold try_except.
  match goal with |- context [let (_, _) := ?m s in _] => destruct (m s) as [[a|e] s'] end; [done|].
  by destruct (value_error_of e).
Qed.

Lemma limits_tool_confined k name i a sec fn : confined (k_account_id k) (_configure_orchestration_limits k name i a sec fn).
Proof. apply (put_found F (k_account_id k) name (fun a => with_limits a _) (fun b => _)). done. Qed.

Lemma heartbeat_tool_confined k name on i : confined (k_account_id k) (_configure_heartbeat k name on i).
Proof.
  apply get_agent_leaves. intros A a Ha Hst Hf. destruct (on && _); [apply leaves_raise|]. cbn zeta. destruct on.
  - destruct (_ <? _); [apply leaves_raise|]. apply leaves_bind; [apply stays_ask|apply leaves_frame, frame_ask_out, _|]. intros t s _.
    exact (put_record_leaves F (fun _ => True) (with_heartbeat a true _ _) Hf s Logic.I).
  - intros s _. exact (put_record_leaves F (fun _ => True) (with_heartbeat a false (heartbeat_interval a) None) Hf s Logic.I).
Qed.

Lemma chat_tool_quiet k name text r : quiet (_chat_with_agent b64decode kek_b64 summarize k name text r).
Proof.
  unfold _chat_with_agent, choose_replica. apply frame_bind.
  { apply frame_bind; [apply quiet_get_agent|]. intros a. apply frame_bind; [by intros s|]. intros l. by destruct (truthy_ostr r). }
  intros [x|who]; [apply frame_ret|]. intros s. unfold try_except.
  pose proof (frame_bind (outsiders F) (chat_with_agent b64decode kek_b64 summarize (k_account_id k) name text (Payer (k_account_id k) (k_tier k)) false)
    (fun response => mret (reply ([("agent_name", PStr name); ("response", PStr response)] ++
                      match who with Some n => if truthy_str n then [("replica", PStr n)] else [] | None => [] end)))
    (frame_chat b64decode kek_b64 summarize (outsiders F) _ _ _ _ _) (fun _ => frame_ret _ _) s) as K.
  match goal with |- context [let (_, _) := ?m s in _] => destruct (m s) as [[a|e] s'] end; [exact K|].
  destruct e as [| | | | | | | |[]]; exact K.
Qed.

Lemma reads_quiet k : quiet (_list_agents k) /\ (forall name, quiet (_describe_agent urls k name)) /\
  (forall name, quiet (_list_schedules k name)) /\ (forall name, quiet (_list_webhooks k name)) /\
  (forall id, quiet (_describe_orchestration_run k id)) /\ (forall a sch st n, quiet (_list_schedule_fires k a sch st n)).
Proof.
  split; [|split; [|split; [|split; [|split]]]].
  - apply frame_bind; [by intros s|]. intros l. apply frame_bind; [|intros [[used limit] av]; apply frame_ret].
    apply frame_bind; [intros s; unfold get_tier_config; by case_match|]. intros cfg. by apply frame_bind; [intros s|intros u; apply frame_ret].
  - intros name. apply frame_bind; [apply quiet_get_agent|]. intros a. by apply frame_bind; [intros s|intros l; apply frame_ret].
  - intros name. apply frame_bind; [|intros l; apply frame_ret]. apply frame_bind; [apply quiet_get_agent|]. intros a. by intros s.
  - intros name. apply frame_bind; [|intros l; apply frame_ret]. apply frame_bind; [apply quiet_get_agent|]. intros a. by intros s.
  - intros id s. unfold _describe_orchestration_run. destruct (parse_uuid id); [|done]. unfold mbind, stm_bind. cbn [getS].
    by destruct (List.find _ _) as [[r steps]|].
  - intros a sch st n. apply frame_bind; [apply quiet_get_agent|]. intros x. apply frame_bind.
    { destruct (truthy_ostr sch); [|apply frame_ret]. apply frame_bind; [intros s; by rewrite as_uuid_same|intros i; apply frame_ret]. }
    intros id. apply frame_bind; [apply frame_get|]. intros s. destruct (_ <? _); [apply frame_raise|]. by destruct (list_fires _ _ _ _ _).
Qed.

Lemma tool_confined k t : confined (k_account_id k) (run_agent_tool b64decode kek_b64 urls summarize k t).
Proof.
  destruct (reads_quiet k) as (Q1 & Q2 & Q3 & Q4 & Q5 & Q6).
  assert (forall B (m : M B), quiet m -> confined (k_account_id k) m) as Hq by (intros B m Hm; by apply leaves_frame).
  destruct t; cbn [run_agent_tool]; try (by apply Hq); try (apply leaves_then; [|intros ?; apply frame_ret]).
  - apply create_confined.
  - apply start_confined.
  - apply stop_confined.
  - unfold _destroy_agent. destruct (negb confirm); [apply leaves_raise|]. apply leaves_then; [apply destroy_confined|intros ?; apply frame_ret].
  - apply clone_confined.
  - apply add_schedule_confined.
  - apply quiet_then; [apply as_uuid_same|]. intros id. apply leaves_then; [apply remove_schedule_confined|intros ?; apply frame_ret].
  - apply add_webhook_confined.
  - apply quiet_then; [apply as_uuid_same|]. intros id. apply leaves_then; [apply remove_webhook_confined|intros ?; apply frame_ret].
  - apply add_channel_confined.
  - apply remove_channel_confined.
  - apply configure_tool_confined.
  - apply remove_ai_confined.
  - apply configure_servers_confined.
  - apply limits_tool_confined.
  - apply heartbeat_tool_confined.
  - apply Hq, chat_tool_quiet.
  - unfold _configure_chat_token. destruct (String.eqb action "generate"); [|destruct (String.eqb action "revoke"); [|apply leaves_ret]];
      (apply leaves_then; [|intros ?; apply frame_ret]); [apply generate_confined|apply revoke_confined].
Qed.
End tenancy.

Section claims.
Context `{Outside} `{Host} `{Aead} `{Crypto} (b64decode : string -> string) (kek_b64 : string) (urls : url_settings).
Context (summarize : string -> string -> string -> string -> string -> option string).

(** [C13] Whatever tool an account calls with whatever arguments, and whether it is
    answered or raises, no row of another account's agents, of their replicas,
    schedules and webhooks is added, changed or removed (but that a clone forgets
    a source that was destroyed). *)
Theorem agent_tools_confined k t s : wf (db_of s) ->
  let theirs := foreign (k_account_id k) (records s) in
  outsiders theirs (serve_tool b64decode kek_b64 urls summarize k t s).2 = outsiders theirs s.
Proof.
  intros Hw theirs. pose proof (tool_confined b64decode kek_b64 urls summarize theirs k t s (conj Hw (fun _ => eq_refl))) as K.
  unfold serve_tool, transaction. by destruct (run_agent_tool b64decode kek_b64 urls summarize k t s) as [[a|e] s'].
Qed.

(** [C33] Runs are not confined: whoever has the identifier of a run reads it with its
    tool calls and executions, whatever account its agent belongs to. *)
Theorem run_trail_crosses_tenants k text id r steps s :
  parse_uuid text = Some id -> (r, steps) ∈ runs (the_world s) -> run_row_id r = Some id ->
  (forall x, x ∈ runs (the_world s) -> run_row_id x.1 = Some id -> x = (r, steps)) ->
  serve_tool b64decode kek_b64 urls summarize k (DescribeRun text) s =
  (Ok (reply (run_lines r steps (List.filter (fun x => bool_decide (ex_agent_run_id x = Some id)) (execution_log (the_world s))))), s).
Proof.
  intros Hid Hin Hr Huniq. unfold serve_tool, transaction. cbn [run_agent_tool]. unfold _describe_orchestration_run. rewrite Hid.
  unfold mbind, stm_bind. cbn [getS]. destruct (List.find _ (runs (the_world s))) as [[r' steps']|] eqn:E.
  - apply find_some in E as [Hin' Hp]. apply bool_decide_eq_true in Hp.
    by pose proof (Huniq (r', steps') (proj2 (list_elem_of_In _ _) Hin') Hp) as [= -> ->].
  - exfalso. pose proof (List.find_none _ _ E (r, steps)) as K. rewrite <-list_elem_of_In in K. specialize (K Hin). cbn in K.
    rewrite Hr in K. by rewrite bool_decide_true in K.
Qed.

(** The limits that an account sets for its agent are those of its runs, whatever
    its tier and however large. *)
Lemma limits_lifted k name n s a : Agents.one records (named (k_account_id k) name) s = (Ok (Some a), s) ->
  exists r s', serve_tool b64decode kek_b64 urls summarize k (LimitsTool name None (Some n) None None) s = (Ok r, s') /\
    s' = (put_record (with_limits a (Some [("max_ai_tokens", PInt n)])) s).2 /\
    forall tier, limit "max_ai_tokens" (resolve_orchestration_limits tier (row (with_limits a (Some [("max_ai_tokens", PInt n)])))) = n.
Proof.
  intros Ha. unfold serve_tool, transaction. cbn [run_agent_tool]. unfold _configure_orchestration_limits, get_agent, mbind, stm_bind. rewrite Ha.
  do 2 eexists. split; [reflexivity|]. split; [reflexivity|]. intros tier.
  change (resolve_orchestration_limits tier _) with (dict_set "max_ai_tokens" (PInt n) (dict_getd tier DEFAULT_LIMITS ORCHESTRATION_TIER_LIMITS)).
  unfold limit. by rewrite dict_get_set_eq.
Qed.
End claims.

(** ** Examples *)

Definition two_st : st := St [AgentState.Agent "ag1" "acc1" "bot"; AgentState.Agent "ag2" "acc2" "fox"] [] None.
Definition two_store : pstore :=
  PStore (Store (Tables [] [Account "acc1" "u1"; Account "acc2" "u2"]
    [Namespace "n1" "acc1" "bot" None None None 0 None; Namespace "n2" "acc2" "fox" None None None 0 None] [] [] []) [] [] ∅) [] [] [].
Definition fox : agent_record :=
  AgentRecord (AgentRow "ag2" "acc2" "n2" "fox" None None None None None None "standard" "execute_only") None "running" None 512 5 true None 1
    None false None None None 0.
Definition bot_run : agent_run :=
  AgentRun "ag1" (Some "01234567-89ab-cdef-0123-456789abcdef") "cron" None "completed" "completed" None None None 5 None 1 (Some "secret") None.
Definition two_fleet : @fleet scripted laptop :=
  Fleet (World two_store two_st [] [] [(bot_run, [])] (Sec [] ∅) (Script 0 [])) [open_agent; fox] [] [] [open_hook] [] [] (Machine [] 0).

Lemma two_fleet_wf : wf (db_of two_fleet).
Proof.
  split; cbn; try (by repeat constructor); try (apply (bool_decide_unpack _); by vm_compute).
  - constructor; [|constructor; [|done]].
    + eexists. split; [apply elem_of_cons; by left|done].
    + eexists. split; [apply elem_of_cons; right; by apply list_elem_of_singleton|done].
  - intros a b t [->|[->|[]%not_elem_of_nil]%elem_of_cons]%elem_of_cons [->|[->|[]%not_elem_of_nil]%elem_of_cons]%elem_of_cons; cbn; congruence.
Qed.

Definition fox_owner : creator := Creator "acc2" "u2" [] "fox" "pro-agent" None.
Definition demo_urls : url_settings := UrlSettings "https" "example.org" ByPath.
Abbreviation demo_tool t := (serve_tool (fun x => x) demo_kek demo_urls no_summary fox_owner t two_fleet).

Lemma agent_tools_confined_witness :
  wf (db_of two_fleet) /\
  map a_name (records (demo_tool (DestroyTool "fox" true)).2) = ["bot"%string] /\
  outsiders (foreign "acc2" (records two_fleet)) (demo_tool (DestroyTool "fox" true)).2 = outsiders (foreign "acc2" (records two_fleet)) two_fleet.
Proof.
  split; [exact two_fleet_wf|]. split; [vm_compute; reflexivity|].
  exact (agent_tools_confined (fun x => x) demo_kek demo_urls no_summary fox_owner (DestroyTool "fox" true) two_fleet two_fleet_wf).
Defined.

Lemma run_trail_crosses_tenants_witness :
  parse_uuid "0123456789ABCDEF0123456789abcdef" = run_row_id bot_run /\ run_agent_id bot_run = "ag1"%string /\
  demo_tool (DescribeRun "0123456789ABCDEF0123456789abcdef") = (Ok (reply (run_lines bot_run [] [])), two_fleet).
Proof.
  split; [vm_compute; reflexivity|]. split; [reflexivity|].
  exact (run_trail_crosses_tenants (fun x => x) demo_kek demo_urls no_summary fox_owner "0123456789ABCDEF0123456789abcdef"
    "01234567-89ab-cdef-0123-456789abcdef" bot_run [] two_fleet ltac:(vm_compute; reflexivity) (list_elem_of_here _ _) eq_refl
    (fun x Hx _ => proj1 (list_elem_of_singleton _ _) Hx)).
Defined.

(** The answer is an error; the engine and the model are changed all the same. *)
Example refused_channel_applies :
  let '(r, s') := demo_tool (AiTool "fox" "anthropic" "model" (Some "sk") None (Some "smoke")) in
  match r with Ok x => RunHandler.isError x | Err _ => false end = true /\
  map (fun a => ai_engine (row a)) (records s') = [Some "anthropic"; Some "anthropic"]%string.
Proof. by vm_compute. Qed.
