(* ===== verification/ScratchFiles.v ===== *)
(** * The files of scratchpads

    [scratchpad/filesystem.py].  A directory of the base path is a tree: a map
    from the names that lead to a file or a directory.  There are no symbolic
    links, as only this module writes there; space, permissions and the length of
    a name are those of a disk that never refuses. *)

From S2P Require Import Prelude Regex.
From stdpp Require Import gmap strings.
From Stdlib Require Import Ascii.

Open Scope Z_scope.

(** ** Names *)

Definition name_start (c : ascii) : bool := is_alpha c || is_digit c.
Definition name_char (c : ascii) : bool := name_start c || existsb (Ascii.eqb c) ["."; "_"; "/"; "-"]%char.
Definition FILENAME_REGEX : re := RSeq (RCls name_start) (RRep name_char 0 (Some 254%nat) true).
Definition MAX_PATH_DEPTH : nat := 3.

(** [not filename or not FILENAME_REGEX.match(filename)] *)
Definition bad_name (filename : string) : bool := negb (truthy_str filename) || negb (matches FILENAME_REGEX dollar filename).
Definition has_nul (filename : string) : bool := str_contains (String (chr 0) "") filename.

(** *** [pathlib] *)

Definition path_root (s : string) : list string :=
  if starts_with "///" s then ["/"] else if starts_with "//" s then ["//"] else if starts_with "/" s then ["/"] else [].
Definition path_names (s : string) : list string :=
  List.filter (fun c => negb (String.eqb c "") && negb (String.eqb c ".")) (str_split "/" s).
(** [PurePosixPath(s).parts] *)
Definition path_parts (s : string) : list string := path_root s ++ path_names s.

(** An absolute path is the list of its names; [str(path)], [path / s] and
    [path.resolve()]. *)
Definition path_str (p : list string) : string := "/" +:+ str_join "/" p.
Definition path_join (p : list string) (s : string) : list string :=
  match path_root s with [] => p ++ path_names s | _ => path_names s end.
Definition resolve_path (p : list string) : list string :=
  rev (fold_left (fun acc c => if String.eqb c ".." then tail acc else c :: acc) p []).

(** ** The disk *)

Inductive node := Dir | File (bytes : string).
Abbreviation tree := (gmap (list string) node).
Abbreviation disk := (gmap string tree).

Inductive file_exn := ValueError (message : string) | FileExistsError | NotADirectoryError | IsADirectoryError.

(** [path.mkdir(parents=True, exist_ok=True)]: the directories from [here] on. *)
Fixpoint mkdirs (t : tree) (here todo : list string) : res file_exn tree :=
  match todo with
  | [] => Ok t
  | c :: todo' =>
      let p := here ++ [c] in
      match t !! p with
      | Some Dir => mkdirs t p todo'
      | Some (File _) => Err (match todo' with [] => FileExistsError | _ => NotADirectoryError end)
      | None => mkdirs (<[p := Dir]> t) p todo'
      end
  end.

(** [path.write_bytes(bytes)] in a directory that exists. *)
Definition write_bytes (t : tree) (p : list string) (bytes : string) : res file_exn tree :=
  match p, t !! p with
  | [], _ | _, Some Dir => Err IsADirectoryError
  | _, _ => Ok (<[p := File bytes]> t)
  end.

Definition node_size (n : node) : Z := match n with Dir => 0 | File b => str_len b end.
Definition tree_size (t : tree) : Z := map_fold (fun _ n total => node_size n + total) 0 t.

Section backend.
(** The base path, resolved. *)
Context (base_path : list string).

Definition _agent_dir (agent_id : string) : list string := base_path ++ [agent_id].

Definition _validate_path (filename : string) (agent_base : list string) : res file_exn (list string) :=
  if bad_name filename then Err (ValueError ("Invalid filename: " +:+ py_repr_str filename))
  else if has_nul filename then Err (ValueError "Filename contains null bytes")
  else
    let parts := path_parts filename in
    if str_in ".." parts then Err (ValueError "Path traversal not allowed")
    else if existsb (starts_with "/") parts then Err (ValueError "Absolute paths not allowed")
    else if (MAX_PATH_DEPTH <? length parts)%nat then Err (ValueError ("Path too deep (max 3 levels): " +:+ filename))
    else
      let target := path_join agent_base filename in
      let resolved := resolve_path target in
      let agent_resolved := resolve_path agent_base in
      if negb (starts_with (path_str agent_resolved +:+ "/") (path_str resolved)) && negb (bool_decide (resolved = agent_resolved)) then
        Err (ValueError "Path traversal detected after resolution")
      else Ok target.

(** The names of a target below the directory of its agent. *)
Definition below (target : list string) : list string := drop (S (length base_path)) target.

Abbreviation F := (stm disk file_exn).

(** A change of the tree of a directory, which is made when it is not there. *)
Definition in_dir (dir : string) (f : tree -> res file_exn tree) : F unit := fun d =>
  match f (default ∅ (d !! dir)) with
  | Ok t => (Ok tt, <[dir := t]> d)
  | Err e => (Err e, d)
  end.

Definition write_one (dir filename content : string) : F unit :=
  target ← lift_res (_validate_path filename (_agent_dir dir));
  in_dir dir (fun t => mkdirs t [] (removelast (below target)));;
  in_dir dir (fun t => write_bytes t (below target) content).

Fixpoint write_all (dir : string) (files : list (string * string)) : F unit :=
  match files with
  | [] => mret tt
  | (filename, content) :: files' => write_one dir filename content;; write_all dir files'
  end.

Definition rmtree (dir : string) : F unit := modS (delete dir).
(** [tmp_dir.rename(agent_dir)] *)
Definition rename (from to : string) : F unit := modS (fun d =>
  match d !! from with Some t => <[to := t]> (delete from d) | None => d end).

Definition _calc_size (dir : string) (d : disk) : Z := match d !! dir with Some t => tree_size t | None => 0 end.

Definition replace_dir (tmp agent_id : string) (files : list (string * string)) : F unit := fun d =>
  match (write_all tmp files;; rmtree agent_id;; rename tmp agent_id) d with
  | (Ok u, d') => (Ok u, d')
  | (Err e, d') => (Err e, delete tmp d')
  end.

Definition mkdir (dir : string) : F unit := in_dir dir Ok.

(** [uuid]: the value of [uuid4()], drawn when [mode] is "replace". *)
Definition write_files (uuid agent_id : string) (files : list (string * string)) (mode : string) : F Z :=
  (if String.eqb mode "replace" then
     let tmp := ".tmp-" +:+ uuid in
     mkdir tmp;; replace_dir tmp agent_id files
   else mkdir agent_id;; write_all agent_id files);;
  d ← getS;
  mret (_calc_size agent_id d).

Definition read_file (agent_id path : string) (d : disk) : option string :=
  match _validate_path path (_agent_dir agent_id) with
  | Err _ => None
  | Ok target =>
      match d !! agent_id ≫= (fun t : tree => t !! below target) with
      | Some (File b) => Some b
      | _ => None
      end
  end.

Definition shown (p : list string * node) : bool :=
  match p.2 with Dir => false | File _ => negb (starts_with "." (default "" (last p.1))) end.
Definition list_files (agent_id : string) (d : disk) : list string :=
  match d !! agent_id with
  | None => []
  | Some t => order_by str_leb (map (fun p => str_join "/" p.1) (List.filter shown (map_to_list t)))
  end.

Definition get_total_size (agent_id : string) (d : disk) : Z := _calc_size agent_id d.

Definition clear (agent_id : string) : F unit := modS (fun d =>
  match d !! agent_id with Some _ => <[agent_id := ∅]> (delete agent_id d) | None => d end).
Definition delete_all (agent_id : string) : F unit := rmtree agent_id.
End backend.

(** ** Names that are accepted *)

Lemma str_split_no_sep sep s c : c ∈ str_split sep s -> str_forallb (fun x => negb (Ascii.eqb x sep)) c = true.
Proof.
  revert c. induction s as [|x s IH]; intros c; cbn [str_split].
  { by intros ->%list_elem_of_singleton. }
  destruct (Ascii.eqb x sep) eqn:E.
  { intros [->|?]%elem_of_cons; [done|by apply IH]. }
  destruct (str_split sep s) as [|h t]; [by intros ->%list_elem_of_singleton; cbn; rewrite E|].
  intros [->|Hin]%elem_of_cons; [cbn; rewrite E; apply IH; left|apply IH; by right].
Qed.

Lemma names_no_slash s c : c ∈ path_names s -> starts_with "/" c = false /\ c <> "" /\ c <> ".".
Proof.
  unfold path_names. rewrite list_elem_of_In, filter_In, <- list_elem_of_In. intros [Hin Hne]. bool_to_prop.
  split; [|done]. apply str_split_no_sep in Hin. destruct c as [|x c]; [done|]. cbn [str_forallb] in Hin. bool_to_prop.
  cbn [starts_with]. apply andb_false_iff. left. by rewrite Ascii.eqb_sym.
Qed.

Lemma good_name_start s : bad_name s = false -> exists c s', s = String c s' /\ name_start c = true.
Proof.
  unfold bad_name. intros [_ Hm]%orb_false_iff. apply negb_false_iff in Hm. unfold matches, FILENAME_REGEX in Hm. cbn [rmatch] in Hm.
  destruct s as [|c s]; cbn [String.list_ascii_of_string] in Hm; [done|]. destruct (name_start c) eqn:E; [eauto|done].
Qed.

Lemma good_name_relative s : bad_name s = false -> path_root s = [].
Proof.
  intros (c & s' & -> & Hc)%good_name_start. unfold path_root. cbn [starts_with].
  destruct (Ascii.eqb "/" c) eqn:E; [|done]. apply Ascii.eqb_eq in E as <-. done.
Qed.

(** [resolve_path] of names none of which is [..] is the path itself. *)
Lemma resolve_plain p : ".." ∉ p -> resolve_path p = p.
Proof.
  unfold resolve_path. intros Hp.
  enough (forall acc, fold_left (fun acc c => if String.eqb c ".." then tail acc else c :: acc) p acc = rev p ++ acc) as ->.
  { by rewrite app_nil_r, rev_involutive. }
  induction p as [|c p IH]; intros acc; cbn [fold_left rev]; [done|].
  apply not_elem_of_cons in Hp as [Hc Hp]. replace (String.eqb c "..") with false by (symmetry; apply String.eqb_neq; congruence).
  rewrite IH by done. by rewrite <- app_assoc.
Qed.

Lemma str_join_app sep p q : p <> [] -> q <> [] -> str_join sep (p ++ q) = str_join sep p +:+ sep +:+ str_join sep q.
Proof.
  intros Hp Hq. induction p as [|x p IH]; [done|]. destruct p as [|y p].
  - destruct q as [|z q]; [done|]. done.
  - change ((x :: y :: p) ++ q) with (x :: y :: (p ++ q)). rewrite !str_join_cons.
    change (y :: p ++ q) with ((y :: p) ++ q). rewrite IH by done. by rewrite !str_app_assoc.
Qed.

Lemma path_str_below p q : p <> [] -> q <> [] -> starts_with (path_str p +:+ "/") (path_str (p ++ q)) = true.
Proof.
  intros Hp Hq. apply starts_with_spec. exists (str_join "/" q). unfold path_str. rewrite str_join_app by done.
  by rewrite !str_app_assoc.
Qed.

(** What a good relative name is. *)
Definition good_path (filename : string) : Prop :=
  bad_name filename = false /\ has_nul filename = false /\ ".." ∉ path_names filename /\ (length (path_names filename) <= 3)%nat.

Lemma good_names_nonempty s : bad_name s = false -> path_names s <> [].
Proof.
  intros (c & s' & -> & Hc)%good_name_start. unfold path_names. cbn [str_split].
  destruct (Ascii.eqb c "/") eqn:E; [apply Ascii.eqb_eq in E as ->; done|].
  destruct (str_split "/" s') as [|h t].
  - cbn. destruct (Ascii.eqb c ".") eqn:E2; [apply Ascii.eqb_eq in E2 as ->; done|]. done.
  - cbn. destruct (Ascii.eqb c ".") eqn:E2; [apply Ascii.eqb_eq in E2 as ->; done|]. done.
Qed.

Section validation.
Context (base_path : list string) (Hbase : ".." ∉ base_path).
#[local] Set Default Proof Using "Type*".

Lemma validate_good filename dir :
  dir <> ".." -> good_path filename ->
  _validate_path filename (_agent_dir base_path dir) = Ok (_agent_dir base_path dir ++ path_names filename).
Proof.
  intros Hdir (Hbad & Hnul & Hdots & Hlen). unfold _validate_path. rewrite Hbad, Hnul. unfold path_parts, path_join.
  rewrite (good_name_relative _ Hbad). cbn [app].
  replace (str_in ".." (path_names filename)) with false by (symmetry; by apply bool_decide_eq_false).
  replace (existsb (starts_with "/") (path_names filename)) with false.
  2: { symmetry. apply not_true_iff_false. intros (c & Hc & Hs)%existsb_exists. apply list_elem_of_In, names_no_slash in Hc. naive_solver congruence. }
  unfold MAX_PATH_DEPTH. replace (3 <? length (path_names filename))%nat with false by (symmetry; apply Nat.ltb_ge; lia).
  assert (".." ∉ _agent_dir base_path dir) as Hd by (unfold _agent_dir; rewrite elem_of_app, list_elem_of_singleton; naive_solver).
  rewrite !resolve_plain by (rewrite ?elem_of_app; naive_solver). rewrite path_str_below; [done| |by apply good_names_nonempty].
  unfold _agent_dir. by destruct base_path.
Qed.

Lemma validate_inv filename base target :
  _validate_path filename base = Ok target -> good_path filename /\ target = base ++ path_names filename.
Proof.
  unfold _validate_path. destruct (bad_name filename) eqn:Hbad; [done|]. destruct (has_nul filename) eqn:Hnul; [done|].
  unfold path_parts, path_join. rewrite (good_name_relative _ Hbad). cbn [app].
  destruct (str_in ".." (path_names filename)) eqn:Hd; [done|]. destruct (existsb _ _); [done|].
  destruct (MAX_PATH_DEPTH <? _)%nat eqn:Hl; [done|]. case_match; [done|]. intros [= <-]. split; [|done].
  apply bool_decide_eq_false in Hd. apply Nat.ltb_ge in Hl. done.
Qed.

Lemma below_target dir p : below base_path (_agent_dir base_path dir ++ p) = p.
Proof.
  unfold below, _agent_dir. rewrite drop_app_length'; [done|]. rewrite length_app. cbn. lia.
Qed.
End validation.

(** ** Trees *)

Lemma tree_size_insert t p n :
  tree_size (<[p := n]> t) = node_size n + tree_size t - (match t !! p with Some m => node_size m | None => 0 end).
Proof.
  unfold tree_size. destruct (t !! p) as [m|] eqn:E.
  - rewrite <- (insert_id t p m E) at 2. rewrite <- (insert_delete_eq t p n), <- (insert_delete_eq t p m).
    rewrite !map_fold_insert_L; try apply lookup_delete_eq; intros; lia.
  - rewrite map_fold_insert_L by (try done; intros; lia). lia.
Qed.

Lemma node_size_nonneg n : 0 <= node_size n.
Proof. destruct n; cbn; unfold str_len; lia. Qed.

Lemma tree_size_empty : tree_size ∅ = 0.
Proof. apply map_fold_empty. Qed.

(** Directories are made where nothing was; nothing else changes. *)
Lemma mkdirs_result t here todo t' :
  mkdirs t here todo = Ok t' ->
  tree_size t' = tree_size t /\
  forall q, t' !! q = t !! q \/ (t !! q = None /\ t' !! q = Some Dir).
Proof.
  revert t here. induction todo as [|c todo IH]; intros t here; cbn [mkdirs]; [intros [= ->]; auto|].
  destruct (t !! (here ++ [c])) as [[|b]|] eqn:E; [apply IH|done|].
  intros Hm. apply IH in Hm as [-> Hq]. rewrite tree_size_insert, E. cbn [node_size]. split; [lia|].
  intros q. destruct (Hq q) as [->|[Hn Hd]].
  - destruct (decide (here ++ [c] = q)) as [<-|Hne]; [right; by rewrite lookup_insert_eq|left; by rewrite lookup_insert_ne].
  - destruct (decide (here ++ [c] = q)) as [<-|Hne]; [by rewrite lookup_insert_eq in Hn|].
    rewrite lookup_insert_ne in Hn by done. by right.
Qed.

Lemma write_bytes_result t p b t' :
  write_bytes t p b = Ok t' -> t' = <[p := File b]> t /\ t !! p <> Some Dir /\ p <> [].
Proof. unfold write_bytes. destruct p; [done|]. destruct (t !! _) as [[]|]; [done|..]; by intros [= <-]. Qed.

(** One file written in a tree: the file is there, the other files and
    directories are as they were, and the size grows by at most the file. *)
Definition written (p : list string) (b : string) (t t' : tree) : Prop :=
  t' !! p = Some (File b) /\
  (forall q, q <> p -> t' !! q = t !! q \/ (t !! q = None /\ t' !! q = Some Dir)) /\
  tree_size t <= tree_size t' + (match t !! p with Some n => node_size n | None => 0 end) - str_len b /\
  tree_size t' <= tree_size t + str_len b.

Lemma mkdirs_write t p b t1 t2 :
  mkdirs t [] (removelast p) = Ok t1 -> write_bytes t1 p b = Ok t2 -> written p b t t2.
Proof.
  intros [Hs Hm]%mkdirs_result (-> & Hd & _)%write_bytes_result.
  pose proof (tree_size_insert t1 p (File b)) as Hi. cbn [node_size] in Hi.
  split; [apply lookup_insert_eq|]. split; [intros q Hq; rewrite lookup_insert_ne by done; apply Hm|].
  destruct (Hm p) as [Hp|[Hn Hp]]; [|by rewrite Hp in Hd]. rewrite Hp in Hi.
  assert (0 <= match t !! p with Some m => node_size m | None => 0 end) by (destruct (t !! p); [apply node_size_nonneg|lia]). lia.
Qed.

(** ** Runs of the backend *)

Section runs.
Context (base_path : list string) (Hbase : ".." ∉ base_path).
#[local] Set Default Proof Using "Type*".

Abbreviation F := (stm disk file_exn).

Definition the_tree (dir : string) (d : disk) : tree := default ∅ (d !! dir).

Lemma calc_the_tree dir d : _calc_size dir d = tree_size (the_tree dir d).
Proof. unfold _calc_size, the_tree. destruct (d !! dir); [done|]. cbn. by rewrite tree_size_empty. Qed.

(** Only the tree of [dir] may change. *)
Definition elsewhere (dir : string) (d d' : disk) : Prop := forall x, x <> dir -> d' !! x = d !! x.

Lemma elsewhere_refl dir d : elsewhere dir d d.
Proof. done. Qed.
Lemma elsewhere_trans dir d d' d'' : elsewhere dir d d' -> elsewhere dir d' d'' -> elsewhere dir d d''.
Proof. intros H1 H2 x Hx. by rewrite H2, H1. Qed.
Lemma elsewhere_insert dir t d : elsewhere dir d (<[dir := t]> d).
Proof. intros x Hx. by rewrite lookup_insert_ne. Qed.

Lemma write_one_cases dir filename content d :
  dir <> ".." -> good_path filename ->
  let '(r, d') := write_one base_path dir filename content d in
  elsewhere dir d d' /\
  match r with
  | Ok _ => is_Some (d' !! dir) /\ written (path_names filename) content (the_tree dir d) (the_tree dir d')
  | Err e => (forall m, e <> ValueError m) /\ tree_size (the_tree dir d') = tree_size (the_tree dir d)
  end.
Proof.
  intros Hdir Hgood. unfold write_one, mbind, stm_bind, lift_res. rewrite validate_good by done. unfold in_dir.
  rewrite below_target by done. fold (the_tree dir d).
  destruct (mkdirs (the_tree dir d) [] (removelast (path_names filename))) as [t1|e] eqn:E1.
  2: { split; [done|]. split; [|done]. revert E1. generalize (removelast (path_names filename)), (@nil string), (the_tree dir d).
       intros l; induction l as [|c l IH]; intros h t; cbn [mkdirs]; [done|]. repeat case_match; try apply IH; intros [= <-]; done. }
  rewrite lookup_insert_eq. cbn [default]. unfold default, id.
  destruct (write_bytes t1 (path_names filename) content) as [t2|e] eqn:E2.
  - split; [intros x Hx; by rewrite !lookup_insert_ne|]. unfold the_tree at 2. rewrite lookup_insert_eq.
    split; [done|]. by eapply mkdirs_write.
  - split; [apply elsewhere_insert|]. unfold the_tree at 1. rewrite lookup_insert_eq. split.
    + unfold write_bytes in E2. repeat case_match; by simplify_eq.
    + cbn. by apply mkdirs_result in E1 as [-> _].
Qed.

Definition bytes_of (files : list (string * string)) : Z := foldr (fun f total => str_len f.2 + total) 0 files.
Definition good_files (files : list (string * string)) : Prop := Forall (fun f => good_path f.1) files.

Lemma str_len_nonneg s : 0 <= str_len s.
Proof. unfold str_len. lia. Qed.

Lemma bytes_of_nonneg files : 0 <= bytes_of files.
Proof. unfold bytes_of. induction files as [|f l IH]; cbn [foldr]; [lia|]. pose proof (str_len_nonneg f.2). lia. Qed.

(** Whatever happens while the files are written, only their directory changes
    and it grows by no more than their bytes; the only failures are files where
    directories are wanted, or the other way round. *)
Lemma write_all_cases dir files d :
  dir <> ".." -> good_files files ->
  let '(r, d') := write_all base_path dir files d in
  elsewhere dir d d' /\ tree_size (the_tree dir d') <= tree_size (the_tree dir d) + bytes_of files /\
  match r with Ok _ => True | Err e => forall m, e <> ValueError m end.
Proof.
  intros Hdir. revert d. induction files as [|[f b] files IH]; intros d Hg; cbn [write_all bytes_of foldr].
  { split; [done|]. split; [lia|done]. }
  apply Forall_cons in Hg as [Hf Hg]. pose proof (write_one_cases dir f b d Hdir Hf) as H1. unfold mbind, stm_bind.
  destruct (write_one base_path dir f b d) as [[[]|e] d1]; destruct H1 as [He1 H1].
  - destruct H1 as (_ & _ & _ & _ & Hs). specialize (IH d1 Hg).
    destruct (write_all base_path dir files d1) as [r d2]. destruct IH as (He2 & Hs2 & Hr).
    split; [by eapply elsewhere_trans|]. cbn [snd]. fold (bytes_of files). split; [lia|done].
  - destruct H1 as [Hv Hs]. split; [done|]. pose proof (bytes_of_nonneg files). pose proof (str_len_nonneg b). cbn [snd].
    unfold bytes_of in *. split; [lia|done].
Qed.

(** A file that no later file of the same request overwrites is there. *)
Lemma write_all_keeps dir files d d' p b :
  dir <> ".." -> good_files files -> p ∉ map (fun f => path_names f.1) files -> the_tree dir d !! p = Some (File b) ->
  write_all base_path dir files d = (Ok tt, d') -> the_tree dir d' !! p = Some (File b).
Proof.
  intros Hdir. revert d. induction files as [|[f c] files IH]; intros d Hg Hp Hl; cbn [write_all]; [by intros [= <-]|].
  apply Forall_cons in Hg as [Hf Hg]. apply not_elem_of_cons in Hp as [Hne Hp].
  pose proof (write_one_cases dir f c d Hdir Hf) as H1. unfold mbind, stm_bind.
  destruct (write_one base_path dir f c d) as [[[]|e] d1]; [|done]. destruct H1 as (_ & _ & _ & Hq & _).
  apply IH; [done..|]. destruct (Hq p Hne) as [->|[Hn _]]; [done|congruence].
Qed.

Lemma write_all_written dir files d d' f b :
  dir <> ".." -> good_files files -> NoDup (map (fun f => path_names f.1) files) -> (f, b) ∈ files ->
  write_all base_path dir files d = (Ok tt, d') -> the_tree dir d' !! path_names f = Some (File b).
Proof.
  intros Hdir. revert d. induction files as [|[g c] files IH]; intros d Hg Hnd Hin; cbn [write_all]; [by apply not_elem_of_nil in Hin|].
  apply Forall_cons in Hg as [Hf Hg]. apply NoDup_cons in Hnd as [Hni Hnd].
  pose proof (write_one_cases dir g c d Hdir Hf) as H1. unfold mbind, stm_bind.
  destruct (write_one base_path dir g c d) as [[[]|e] d1]; [|done]. destruct H1 as (_ & _ & Hw & _).
  apply elem_of_cons in Hin as [[= -> ->]|Hin]; [by apply write_all_keeps|by apply IH].
Qed.
End runs.

(** ** The two modes of [write_files] *)

Section modes.
Context (base_path : list string) (Hbase : ".." ∉ base_path).
#[local] Set Default Proof Using "Type*".

(** Every file of the directory was there before, or comes from the request. *)
Lemma write_all_source dir files d d' q b :
  dir <> ".." -> good_files files -> write_all base_path dir files d = (Ok tt, d') ->
  the_tree dir d' !! q = Some (File b) ->
  the_tree dir d !! q = Some (File b) \/ exists f, (f, b) ∈ files /\ path_names f = q.
Proof.
  intros Hdir. revert d. induction files as [|[f c] files IH]; intros d Hg; cbn [write_all]; [intros [= <-]; by left|].
  apply Forall_cons in Hg as [Hf Hg]. pose proof (write_one_cases base_path Hbase dir f c d Hdir Hf) as H1. unfold mbind, stm_bind.
  destruct (write_one base_path dir f c d) as [[[]|e] d1]; [|done]. destruct H1 as (_ & _ & Hp & Hq & _).
  intros Hr Hl. destruct (IH d1 Hg Hr Hl) as [H1|(g & Hin & Hn)]; [|right; exists g; split; [by right|done]].
  destruct (decide (q = path_names f)) as [->|Hne].
  - right. exists f. split; [|done]. rewrite Hp in H1. simplify_eq. left.
  - destruct (Hq q Hne) as [He|[_ He]]; [left; congruence|congruence].
Qed.

Lemma write_all_there dir files d d' :
  dir <> ".." -> good_files files -> write_all base_path dir files d = (Ok tt, d') -> is_Some (d !! dir) -> is_Some (d' !! dir).
Proof.
  intros Hdir. revert d. induction files as [|[f c] files IH]; intros d Hg; cbn [write_all]; [by intros [= <-]|].
  apply Forall_cons in Hg as [Hf Hg]. pose proof (write_one_cases base_path Hbase dir f c d Hdir Hf) as H1. unfold mbind, stm_bind.
  destruct (write_one base_path dir f c d) as [[[]|e] d1]; [|done]. destruct H1 as (_ & Hs & _). intros Hr _. by apply (IH d1).
Qed.

(** What a request leaves in the directory of its agent. *)
Definition holds_files (agent_id : string) (files : list (string * string)) (d : disk) : Prop :=
  NoDup (map (fun f => path_names f.1) files) ->
  forall f b, (f, b) ∈ files -> the_tree agent_id d !! path_names f = Some (File b).

(** Replacing is atomic: the directory holds the files of the request and no
    others, or nothing of the disk has changed. *)
Lemma replace_cases uuid agent_id files d :
  let tmp := ".tmp-" +:+ uuid in
  agent_id <> ".." -> tmp <> agent_id -> d !! tmp = None -> good_files files ->
  let '(r, d') := write_files base_path uuid agent_id files "replace" d in
  match r with
  | Ok n =>
      elsewhere agent_id d d' /\ n = _calc_size agent_id d' /\ n <= bytes_of files /\ holds_files agent_id files d' /\
      forall q b, the_tree agent_id d' !! q = Some (File b) -> exists f, (f, b) ∈ files /\ path_names f = q
  | Err e => d' = d /\ forall m, e <> ValueError m
  end.
Proof.
  intros tmp Hid Htmp Hfresh Hg. unfold write_files, mkdir, in_dir, replace_dir, rmtree, rename, modS, getS, mbind, stm_bind. cbn [String.eqb Ascii.eqb Bool.eqb].
  fold tmp. rewrite Hfresh. cbn [default]. unfold default, id.
  assert (tmp <> "..") as Hdots by done.
  set (d1 := <[tmp := ∅]> d : disk).
  pose proof (write_all_cases base_path Hbase tmp files d1 Hdots Hg) as Hw.
  pose proof (fun d' f b => write_all_written base_path Hbase tmp files d1 d' f b Hdots Hg) as Hin.
  pose proof (fun d' => write_all_there tmp files d1 d' Hdots Hg) as Hthere.
  pose proof (fun d' q b => write_all_source tmp files d1 d' q b Hdots Hg) as Hsrc.
  assert (the_tree tmp d1 = ∅) as Hempty by (unfold the_tree, d1; by rewrite lookup_insert_eq).
  destruct (write_all base_path tmp files d1) as [[[]|e] d2]; destruct Hw as (Hels & Hsize & Herr).
  - destruct (Hthere d2 eq_refl) as [t Ht]; [unfold d1; rewrite lookup_insert_eq; by eexists|].
    rewrite lookup_delete_ne by done. rewrite Ht. cbn [mret stm_ret].
    rewrite Hempty, tree_size_empty in Hsize. unfold holds_files, _calc_size, the_tree in *. rewrite lookup_insert_eq.
    rewrite Ht in Hsize. specialize (fun f b => Hin d2 f b). specialize (Hsrc d2). rewrite Ht in Hin, Hsrc.
    cbn [default] in *. unfold default, id in *.
    split; [|split; [done|split; [lia|split; [eauto|]]]].
    + intros x Hx. rewrite lookup_insert_ne by done. destruct (decide (x = tmp)) as [->|Hxt]; [by rewrite lookup_delete_eq|].
      rewrite !lookup_delete_ne by done. rewrite Hels by done. unfold d1. by rewrite lookup_insert_ne.
    + intros q b Hq. destruct (Hsrc q b eq_refl Hq) as [Hc|?]; [|done].
      unfold d1 in Hc. by rewrite lookup_insert_eq in Hc.
  - split; [|done]. apply map_eq. intros x. destruct (decide (x = tmp)) as [->|Hx]; [by rewrite lookup_delete_eq|].
    rewrite lookup_delete_ne by done. rewrite Hels by done. unfold d1. by rewrite lookup_insert_ne.
Qed.

(** Adding leaves the files that are not named; a failure may leave some of the
    files of the request. *)
Lemma append_cases uuid agent_id files mode d :
  agent_id <> ".." -> mode <> "replace" -> good_files files ->
  let '(r, d') := write_files base_path uuid agent_id files mode d in
  elsewhere agent_id d d' /\ _calc_size agent_id d' <= _calc_size agent_id d + bytes_of files /\
  match r with
  | Ok n => n = _calc_size agent_id d' /\ holds_files agent_id files d'
  | Err e => forall m, e <> ValueError m
  end.
Proof.
  intros Hid Hmode Hg. unfold write_files, mkdir, in_dir, getS, mbind, stm_bind.
  replace (String.eqb mode "replace") with false by (symmetry; by apply String.eqb_neq). fold (the_tree agent_id d).
  set (d1 := <[agent_id := the_tree agent_id d]> d : disk).
  assert (the_tree agent_id d1 = the_tree agent_id d) as Hsame by (unfold the_tree at 1, d1; by rewrite lookup_insert_eq).
  assert (elsewhere agent_id d d1) as Hd1 by apply elsewhere_insert.
  pose proof (write_all_cases base_path Hbase agent_id files d1 Hid Hg) as Hw.
  pose proof (fun d' f b => write_all_written base_path Hbase agent_id files d1 d' f b Hid Hg) as Hin.
  rewrite Hsame in Hw. rewrite !calc_the_tree.
  destruct (write_all base_path agent_id files d1) as [[[]|e] d2]; destruct Hw as (Hels & Hsize & Herr); cbn [mret stm_ret];
    rewrite ?calc_the_tree; (split; [by eapply elsewhere_trans|]); (split; [done|]).
  - split; [done|]. unfold holds_files. eauto.
  - done.
Qed.

(** Reading back. *)
Lemma read_file_good agent_id f d :
  agent_id <> ".." -> good_path f ->
  read_file base_path agent_id f d = match the_tree agent_id d !! path_names f with Some (File b) => Some b | _ => None end.
Proof.
  intros Hid Hf. unfold read_file. rewrite validate_good by done. rewrite below_target by done. unfold the_tree.
  by destruct (d !! agent_id).
Qed.

(** Whatever path is asked for, what is read is a file of the agent's own
    directory, at most three names deep. *)
Lemma read_file_inside agent_id path d b :
  read_file base_path agent_id path d = Some b ->
  good_path path /\ the_tree agent_id d !! path_names path = Some (File b).
Proof.
  unfold read_file. destruct (_validate_path _ _) as [target|e] eqn:E; [|done]. apply validate_inv in E as [Hg ->].
  intros Hr. split; [done|]. rewrite below_target in Hr by done. unfold the_tree. destruct (d !! agent_id) as [t|]; [|done]. cbn in *.
  by destruct (t !! path_names path) as [[]|]; simplify_eq.
Qed.
End modes.
