(* ===== verification/Scratchpad.v ===== *)
(** * Scratchpads of agents

    [services/scratchpad.py], the tools of [mcp/create_handler.py] that publish,
    show and clear a scratchpad, and its public pages
    ([api/v1/scratchpad_view.py]), on the [fleet] of [Agents] and the disk of
    [ScratchFiles].  The columns of agents that hold a scratchpad are a table of
    their own, keyed by agent.  The database is rolled back with an exception;
    the disk is not. *)

From S2P Require Import Prelude Regex Base64 Routing ReplicaNames Security RunHandler CreateHandler CreateTools Json Encryption AgentState Namespaces Functions Procedures SecurityEvents ConversationMemory AiTools ToolDispatch Hoare Orchestrator ProcedureRun Agents AgentChat Scheduler AgentTenancy CreateAgents ScratchFiles.
From stdpp Require Import gmap strings.
From Stdlib Require Import Ascii.

Open Scope Z_scope.

(** ** Limits *)

Definition MiB : Z := 1024 * 1024.
Definition SCRATCHPAD_QUOTA_BYTES : list (string * Z) :=
  [("trial-agent", 0); ("pro-agent", 100 * MiB); ("enterprise-agent", 1024 * MiB); ("dedicated-agent", 10 * 1024 * MiB)].
Definition DEFAULT_QUOTA_BYTES : Z := 100 * MiB.
Definition SCRATCHPAD_TTL_DAYS : list (string * Z) :=
  [("trial-agent", 0); ("pro-agent", 7); ("enterprise-agent", 30); ("dedicated-agent", 30)].
Definition DEFAULT_TTL_DAYS : Z := 7.
Definition _get_quota_bytes (tier : string) : Z := dict_getd tier DEFAULT_QUOTA_BYTES SCRATCHPAD_QUOTA_BYTES.
Definition _get_ttl_days (tier : string) : Z := dict_getd tier DEFAULT_TTL_DAYS SCRATCHPAD_TTL_DAYS.

(** The columns [scratchpad_*] of an agent, and those of a new agent. *)
Record pad_row := Pad {
  scratchpad_token : option string;
  scratchpad_size_bytes : Z;
  scratchpad_updated_at : option Z;
  scratchpad_expires_at : option Z
}.
Definition no_pad : pad_row := Pad None 0 None None.

(** [ScratchpadNotAvailable], [ScratchpadQuotaExceeded], [ScratchpadValidationError],
    an exception of the backend, and the others. *)
Inductive pad_exn :=
| NotAvailable (message : string)
| QuotaExceeded (current_bytes limit_bytes requested_bytes : Z)
| Invalid (message : string)
| Backend (e : file_exn)
| Other (e : Agents.exn).

(** ** What a request may publish *)

Definition check_filename (filename : string) : res pad_exn unit :=
  if bad_name filename then Err (Invalid ("Invalid filename: " +:+ py_repr_str filename))
  else if has_nul filename then Err (Invalid "Filename contains null bytes")
  else
    let parts := path_parts filename in
    if str_in ".." parts then Err (Invalid "Path traversal not allowed")
    else if (MAX_PATH_DEPTH <? length parts)%nat then Err (Invalid ("Path too deep (max 3 levels): " +:+ filename))
    else Ok tt.

Fixpoint check_filenames (filenames : list string) : res pad_exn unit :=
  match filenames with [] => Ok tt | f :: fs => _ ← check_filename f; check_filenames fs end.

Definition _validate_filenames (filenames : list string) : res pad_exn unit :=
  if (100 <? length filenames)%nat then Err (Invalid ("Too many files: " +:+ str_of_nat (length filenames) +:+ " (max 100)"))
  else match filenames with
       | [] => Err (Invalid "No files provided")
       | _ => check_filenames filenames
       end.

Definition _decode_file_content (content : string) : res pad_exn string :=
  if starts_with "base64:" content then
    match b64decode_lenient (str_drop 7 content) with
    | Ok bytes => Ok bytes
    | Err text => Err (Invalid ("Invalid base64 content: " +:+ text))
    end
  else Ok (utf8_encode content).

Fixpoint decode_files (files : list (string * string)) : res pad_exn (list (string * string)) :=
  match files with
  | [] => Ok []
  | (filename, content) :: files' =>
      bytes ← _decode_file_content content; rest ← decode_files files'; Ok ((filename, bytes) :: rest)
  end.

(** [sum(len(v) for v in decoded.values())] *)
Definition new_bytes (decoded : list (string * string)) : Z := bytes_of decoded.

Section service.
Context `{Outside} `{Host} (urls : url_settings) (base_path : list string).

(** The database with the outside, the columns of scratchpads and the disk. *)
Record hut := Hut { hut_fleet : fleet; hut_pads : gmap string pad_row; hut_disk : disk }.

Abbreviation P := (stm hut pad_exn).

Definition on_fleet {A} (m : stm fleet Agents.exn A) : P A := fun s =>
  let '(r, f) := m (hut_fleet s) in
  (match r with Ok a => Ok a | Err e => Err (Other e) end, Hut f (hut_pads s) (hut_disk s)).
Definition on_disk {A} (m : stm disk file_exn A) : P A := fun s =>
  let '(r, d) := m (hut_disk s) in
  (match r with Ok a => Ok a | Err e => Err (Backend e) end, Hut (hut_fleet s) (hut_pads s) d).
Definition ask_hut {A} (f : outside -> A * outside) : P A := on_fleet (ask_out f).

Definition pad_of (id : string) (s : hut) : pad_row := default no_pad (hut_pads s !! id).
Definition set_pad (id : string) (p : pad_row) : P unit := modS (fun s =>
  Hut (hut_fleet s) (<[id := p]> (hut_pads s)) (hut_disk s)).
Definition get_pad (id : string) : P pad_row := s ← getS; mret (pad_of id s).

(** [self.db.flush()] of the columns of an agent: the size is an [Integer] of 32
    bits, and [ix_agents_scratchpad_token] is unique. *)
Definition other_token (id token : string) (s : hut) : bool :=
  existsb (fun a => negb (String.eqb (a_id a) id) && bool_decide (scratchpad_token (pad_of (a_id a) s) = Some token)) (records (hut_fleet s)).
Definition flush_pad (id : string) : P unit := fun s =>
  let p := pad_of id s in
  if (2147483647 <? scratchpad_size_bytes p)
     || match scratchpad_token p with Some t => other_token id t s | None => false end
  then (Err (Other (Service DBAPIError)), s) else (Ok tt, s).

(** [generate_scratchpad_token()] is what [token_urlsafe(32)] gives. *)
Definition new_token (id : string) (p : pad_row) : P string :=
  t ← ask_hut token_urlsafe;
  set_pad id (Pad (Some t) (scratchpad_size_bytes p) (scratchpad_updated_at p) (scratchpad_expires_at p));;
  mret t.
Definition _ensure_token (id : string) : P string :=
  p ← get_pad id;
  match scratchpad_token p with
  | Some t => if truthy_str t then mret t else new_token id p
  | None => new_token id p
  end.

Definition day_us : Z := 86400 * 1000000.

(** What stands before the write. *)
Definition quota_check (id mode : string) (quota fresh : Z) : P unit :=
  if String.eqb mode "replace" then if quota <? fresh then raise (QuotaExceeded 0 quota fresh) else mret tt
  else
    p ← get_pad id;
    let current := scratchpad_size_bytes p in
    if quota <? current + fresh then raise (QuotaExceeded current quota fresh) else mret tt.

(** The value of [uuid4()] that names the temporary directory. *)
Definition tmp_uuid (mode : string) : P string := if String.eqb mode "replace" then ask_hut uuid4 else mret "".

Definition publish (a : agent_record) (files : list (string * string)) (mode tier : string) : P (list (string * pyval)) :=
  let quota := _get_quota_bytes tier in
  if quota =? 0 then raise (NotAvailable "Scratchpad is not available on the Trial tier. Upgrade to Pro.")
  else
    lift_res (_validate_filenames (map fst files));;
    decoded ← lift_res (decode_files files);
    quota_check (a_id a) mode quota (new_bytes decoded);;
    token ← _ensure_token (a_id a);
    uuid ← tmp_uuid mode;
    total ← on_disk (write_files base_path uuid (a_id a) decoded mode);
    updated ← ask_hut now;
    expiry ← ask_hut now;
    let expires := expiry + _get_ttl_days tier * day_us in
    set_pad (a_id a) (Pad (Some token) total (Some updated) (Some expires));;
    flush_pad (a_id a);;
    mret [("url", PStr (view_url urls (a_name a) token)); ("files_written", PInt (Z.of_nat (length decoded)));
          ("total_bytes", PInt total); ("quota_remaining_bytes", PInt (Z.max 0 (quota - total)));
          ("expires_at", PStr (isoformat expires))].

Definition is_expired (p : pad_row) : P bool :=
  match scratchpad_expires_at p with
  | None => mret false
  | Some e => t ← ask_hut now; mret (e <=? t)
  end.

Definition get_url (a : agent_record) : P (list (string * pyval)) :=
  p ← get_pad (a_id a);
  match scratchpad_token p with
  | Some token =>
      if negb (truthy_str token) || (scratchpad_size_bytes p =? 0) then
        mret [("url", PNone); ("files", PList []); ("total_bytes", PInt 0); ("expires_at", PNone)]
      else
        expired ← is_expired p;
        s ← getS;
        mret [("url", PStr (view_url urls (a_name a) token));
              ("files", PList (map PStr (take 50 (list_files (a_id a) (hut_disk s)))));
              ("total_bytes", PInt (scratchpad_size_bytes p));
              ("expires_at", match scratchpad_expires_at p with Some e => PStr (isoformat e) | None => PNone end);
              ("expired", PBool expired)]
  | None => mret [("url", PNone); ("files", PList []); ("total_bytes", PInt 0); ("expires_at", PNone)]
  end.

Definition clear_pad (a : agent_record) : P unit :=
  on_disk (ScratchFiles.clear (a_id a));;
  p ← get_pad (a_id a);
  set_pad (a_id a) (Pad (scratchpad_token p) 0 None None);;
  flush_pad (a_id a).

(** [scalar_one_or_none()] of the agents with a token. *)
Definition resolve_agent_by_token (token : string) : P (option agent_record) := fun s =>
  match List.filter (fun a => bool_decide (scratchpad_token (pad_of (a_id a) s) = Some token)) (records (hut_fleet s)) with
  | [] => (Ok None, s)
  | [a] => (Ok (Some a), s)
  | _ => (Err (Other (Service MultipleResultsFound)), s)
  end.

(** ** The tools *)

(** [try ... except]: the answers to the exceptions of the service. *)
Definition publish_error (e : pad_exn) : option (P reply_t) :=
  match e with
  | NotAvailable m => Some (mret (error_reply [("error", PStr "SCRATCHPAD_NOT_AVAILABLE"); ("message", PStr m)]))
  | QuotaExceeded c l r =>
      Some (mret (error_reply [("error", PStr "SCRATCHPAD_QUOTA_EXCEEDED"); ("current_bytes", PInt c); ("limit_bytes", PInt l);
                               ("requested_bytes", PInt r)]))
  | Invalid m => Some (mret (error_reply [("error", PStr "VALIDATION_ERROR"); ("message", PStr m)]))
  | _ => None
  end.

Definition _publish_view (k : creator) (agent_name : string) (files : list (string * string)) (mode : string) : P reply_t :=
  a ← on_fleet (get_agent (k_account_id k) agent_name);
  try_except (d ← publish a files mode (k_tier k); mret (reply d)) publish_error.

Definition _get_view_url (k : creator) (agent_name : string) : P reply_t :=
  a ← on_fleet (get_agent (k_account_id k) agent_name);
  d ← get_url a;
  mret (reply d).

Definition _clear_view (k : creator) (agent_name : string) : P reply_t :=
  a ← on_fleet (get_agent (k_account_id k) agent_name);
  clear_pad a;;
  mret (reply [("status", PStr "cleared")]).

Inductive pad_tool :=
| PublishView (agent_name : string) (files : list (string * string)) (mode : string)
| GetViewUrl (agent_name : string)
| ClearView (agent_name : string).

Definition run_pad_tool (k : creator) (t : pad_tool) : P reply_t :=
  match t with
  | PublishView name files mode => _publish_view k name files mode
  | GetViewUrl name => _get_view_url k name
  | ClearView name => _clear_view k name
  end.

(** The request: the database is rolled back with an exception, the disk is not. *)
Definition pad_transaction {A} (m : P A) : P A := fun s =>
  match m s with
  | (Ok a, s') => (Ok a, s')
  | (Err e, s') => (Err e, Hut (rolled_back (hut_fleet s) (hut_fleet s')) (hut_pads s) (hut_disk s'))
  end.
Definition serve_pad_tool (k : creator) (t : pad_tool) : P reply_t := pad_transaction (run_pad_tool k t).
End service.

(** ** The public pages *)

Definition MIME_TYPES : list (string * string) :=
  [(".html", "text/html; charset=utf-8"); (".htm", "text/html; charset=utf-8"); (".js", "application/javascript; charset=utf-8");
   (".mjs", "application/javascript; charset=utf-8"); (".css", "text/css; charset=utf-8"); (".json", "application/json; charset=utf-8");
   (".png", "image/png"); (".jpg", "image/jpeg"); (".jpeg", "image/jpeg"); (".gif", "image/gif"); (".svg", "image/svg+xml");
   (".ico", "image/x-icon"); (".woff", "font/woff"); (".woff2", "font/woff2"); (".txt", "text/plain; charset=utf-8");
   (".xml", "application/xml; charset=utf-8"); (".csv", "text/csv; charset=utf-8"); (".map", "application/json; charset=utf-8")].

Definition SCRATCHPAD_HEADERS : list (string * string) :=
  [("Content-Security-Policy",
    "default-src 'self' 'unsafe-inline' 'unsafe-eval' "
    +:+ "https://cdn.jsdelivr.net https://cdnjs.cloudflare.com https://unpkg.com; "
    +:+ "img-src 'self' data: https:; "
    +:+ "font-src 'self' https://fonts.gstatic.com https://cdn.jsdelivr.net "
    +:+ "https://cdnjs.cloudflare.com; "
    +:+ "connect-src 'self'");
   ("X-Content-Type-Options", "nosniff"); ("X-Frame-Options", "DENY"); ("X-Robots-Tag", "noindex, nofollow");
   ("Referrer-Policy", "no-referrer"); ("Cache-Control", "no-cache, must-revalidate")].

(** The text from the last occurrence of a text on ([s.rfind], [s[idx:]]), and
    the text before it. *)
Fixpoint rsplit_at (sub s : string) : option (string * string) :=
  match s with
  | EmptyString => if starts_with sub s then Some ("", s) else None
  | String c s' =>
      match rsplit_at sub s' with
      | Some (a, b) => Some (String c a, b)
      | None => if starts_with sub s then Some ("", s) else None
      end
  end.

(** [PurePosixPath(path).suffix] *)
Definition path_suffix (path : string) : string :=
  match rsplit_at "." (default "" (last (path_names path))) with
  | Some (a, b) => if (0 <? String.length a)%nat && (1 <? String.length b)%nat then b else ""
  | None => ""
  end.
Definition _get_mime_type (path : string) : string :=
  dict_getd (str_lower (path_suffix path)) "application/octet-stream" MIME_TYPES.

(** A response: its status, body, media type and headers. *)
Record page := Page { pg_status : Z; pg_body : string; pg_media : option string; pg_headers : list (string * string) }.
Definition NOT_FOUND : page := Page 404 "Not Found" None [].
Definition GONE : page := Page 410 "Expired" None [].

(** The accents of the literal stand for double quotes. *)
Fixpoint quoted (s : string) : string :=
  match s with EmptyString => "" | String c s' => String (if Ascii.eqb c "`" then chr 34 else c) (quoted s') end.

(** The widget, a text of 30 lines, in the bytes of its UTF-8 encoding. *)
Definition CHAT_WIDGET_JS : string := nl +:+ quoted "<div id=`mcpw-chat` style=`position:fixed;bottom:20px;right:20px;z-index:99999;font-family:-apple-system,BlinkMacSystemFont,'Segoe UI',sans-serif`>
<button id=`mcpw-toggle` style=`width:48px;height:48px;border-radius:50%;background:#1a1a2e;color:#fff;border:none;cursor:pointer;font-size:20px;box-shadow:0 4px 12px rgba(0,0,0,0.3);display:flex;align-items:center;justify-content:center` title=`Chat with agent`>💬</button>
<div id=`mcpw-panel` style=`display:none;width:380px;max-height:500px;background:#1a1a2e;border-radius:12px;box-shadow:0 8px 32px rgba(0,0,0,0.4);overflow:hidden;margin-bottom:8px;flex-direction:column`>
<div style=`padding:12px 16px;background:#16213e;color:#e2e8f0;font-weight:600;font-size:14px;display:flex;justify-content:space-between;align-items:center`><span>Agent Chat</span><button onclick=`document.getElementById('mcpw-panel').style.display='none'` style=`background:none;border:none;color:#94a3b8;cursor:pointer;font-size:18px`>×</button></div>
<div id=`mcpw-msgs` style=`flex:1;overflow-y:auto;padding:12px;min-height:200px;max-height:350px`></div>
<div style=`padding:8px 12px;border-top:1px solid #2d3748;display:flex;gap:8px`>
<input id=`mcpw-input` type=`text` placeholder=`Ask the agent...` style=`flex:1;padding:8px 12px;border:1px solid #374151;border-radius:8px;background:#0f172a;color:#e2e8f0;font-size:14px;outline:none` />
<button id=`mcpw-send` style=`padding:8px 16px;background:#3b82f6;color:#fff;border:none;border-radius:8px;cursor:pointer;font-size:14px;font-weight:500`>Send</button>
</div></div></div>
<script>
(function(){
var panel=document.getElementById('mcpw-panel'),msgs=document.getElementById('mcpw-msgs'),
input=document.getElementById('mcpw-input'),send=document.getElementById('mcpw-send'),
toggle=document.getElementById('mcpw-toggle');
toggle.onclick=function(){panel.style.display=panel.style.display==='none'?'flex':'none';if(panel.style.display==='flex')input.focus()};
function addMsg(text,isUser){
var d=document.createElement('div');
d.style.cssText='margin:6px 0;padding:8px 12px;border-radius:8px;font-size:13px;line-height:1.5;max-width:85%;word-wrap:break-word;white-space:pre-wrap;'
+(isUser?'background:#3b82f6;color:#fff;margin-left:auto;':'background:#1e293b;color:#e2e8f0;');
d.textContent=text;msgs.appendChild(d);msgs.scrollTop=msgs.scrollHeight}
async function doSend(){
var m=input.value.trim();if(!m)return;input.value='';addMsg(m,true);
send.disabled=true;send.textContent='...';
try{var r=await fetch('./chat',{method:'POST',headers:{'Content-Type':'application/json'},body:JSON.stringify({message:m})});
var j=await r.json();addMsg(j.response||j.error||'No response',!j.response)}
catch(e){addMsg('Error: '+e.message,false)}
send.disabled=false;send.textContent='Send';input.focus()}
send.onclick=doSend;input.onkeydown=function(e){if(e.key==='Enter'&&!e.shiftKey){e.preventDefault();doSend()}}
})();
</script>" +:+ nl.

Section pages.
Context `{Outside} `{Host} (urls : url_settings) (base_path : list string).
(** [bytes.decode("utf-8", errors="replace")] of bytes that are not the UTF-8 of
    a text of the model. *)
Context (lossy_decode : string -> string).

Abbreviation P := (stm hut pad_exn).

Definition _inject_chat_widget (html_bytes : string) : string :=
  let html := match utf8_decode html_bytes with Some t => t | None => lossy_decode html_bytes end in
  match rsplit_at "</body>" (str_lower html) with
  | Some (a, _) =>
      let idx := String.length a in
      utf8_encode (str_take idx html) +:+ CHAT_WIDGET_JS +:+ utf8_encode (str_drop idx html)
  | None => utf8_encode html +:+ CHAT_WIDGET_JS
  end.

(** A GET of a page: whether the endpoint is one of an agent or unknown, the
    token, the path, the header [Host], and whether the request is local. *)
Record view_request := ViewRequest {
  v_agent_endpoint : bool;
  v_token : string;
  v_path : string;
  v_host : string;
  v_local : bool
}.

Definition expected_host (a : agent_record) : string :=
  if _is_path_mode urls then "api." +:+ base_domain urls
  else match split_once "://" (agent_url urls (a_name a)) with Some (_, h) => h | None => "" end.

Definition host_refused (rq : view_request) (a : agent_record) : bool :=
  negb (v_local rq) && negb (starts_with (expected_host a) (str_lower (v_host rq))).

Definition page_headers (p : pad_row) : list (string * string) :=
  SCRATCHPAD_HEADERS ++ match scratchpad_updated_at p with Some t => [("X-Scratchpad-Updated", isoformat t)] | None => [] end.

Definition page_of (a : agent_record) (p : pad_row) (path bytes : string) : page :=
  let mime := _get_mime_type path in
  let widget := starts_with "text/html" mime && truthy_ostr (chat_token a) in
  Page 200 (if widget then _inject_chat_widget bytes else bytes) (Some mime) (page_headers p).

Definition serve_scratchpad (rq : view_request) : P page :=
  if negb (v_agent_endpoint rq) then mret NOT_FOUND
  else if str_len (v_token rq) <? 20 then mret NOT_FOUND
  else
    found ← resolve_agent_by_token (v_token rq);
    match found with
    | None => mret NOT_FOUND
    | Some a =>
        p ← get_pad (a_id a);
        expired ← is_expired p;
        if (expired : bool) then mret GONE
        else if host_refused rq a then mret NOT_FOUND
        else
          s ← getS;
          match read_file base_path (a_id a) (v_path rq) (hut_disk s) with
          | None => mret NOT_FOUND
          | Some bytes => mret (page_of a p (v_path rq) bytes)
          end
    end.
End pages.

(** *** The chat of a page *)

Section page_chat.
Context `{Outside} `{Host} `{Aead} `{Crypto} (b64decode : string -> string) (kek_b64 : string).
Context (summarize : string -> string -> string -> string -> string -> option string) (owner_tier : string -> string).

Abbreviation P := (stm hut pad_exn).

(** A POST to the chat: as in [chat_post], but the namespace of the path is not
    looked at. *)
Record page_post := PagePost { pp_agent_endpoint : bool; pp_token : string; pp_json : option pyval }.

Definition admit_page_chat (token : string) : P (answer + agent_record) :=
  found ← resolve_agent_by_token token;
  mret (match found with
        | None => inl (say 404 "error" "Not found")
        | Some a =>
            if negb (truthy_ostr (chat_token a)) then inl (say 403 "error" "Chat not enabled for this agent")
            else if negb (String.eqb (agent_status a) "running") then inl (say 503 "error" "Agent is not running")
            else if negb (truthy_ostr (ai_engine (row a)) && truthy_ostr (fst <$> ai_api_key (row a))) then
              inl (say 503 "error" "Agent has no AI configured")
            else inr a
        end).

Definition page_chat (a : agent_record) (text : string) : P answer :=
  on_fleet (except_any
    (response ← chat_with_agent b64decode kek_b64 summarize (a_account a) (a_name a) text
       (Payer (a_account a) (owner_tier (a_account a))) true;
     mret (say 200 "response" response))
    (mret (say 500 "error" "Chat failed"))).

Definition scratchpad_chat (rq : page_post) : P answer :=
  if negb (pp_agent_endpoint rq) then mret (say 404 "error" "Not found")
  else if str_len (pp_token rq) <? 20 then mret (say 404 "error" "Not found")
  else match pp_json rq with
  | None => mret (say 400 "error" "Invalid JSON body")
  | Some body =>
      text ← on_fleet (stripped_message body);
      if negb (truthy_str text) then mret (say 400 "error" "message is required")
      else if 10000 <? str_len text then mret (say 400 "error" "message too long (max 10000 chars)")
      else
        admitted ← admit_page_chat (pp_token rq);
        match admitted with
        | inl refusal => mret refusal
        | inr a => page_chat a text
        end
  end.
End page_chat.

(** ** Agents that are destroyed *)

Section burial.
Context `{Outside} `{Host}.

(** [AgentService.destroy_agent] with the files, which go before the rows do. *)
Definition destroy_with_files (account_id agent_name : string) : stm hut pad_exn agent_record :=
  a ← on_fleet (get_agent account_id agent_name);
  on_fleet (put_record (with_status a "destroying"));;
  l ← on_fleet (_get_replicas (a_id a));
  on_fleet (remove_containers l);;
  on_fleet (remove_agent_container a);;
  on_disk (delete_all (a_id a));;
  on_fleet (bury a).
End burial.

(** ** One request *)

Lemma check_filename_good f : check_filename f = Ok tt -> good_path f.
Proof.
  unfold check_filename, good_path, path_parts. destruct (bad_name f) eqn:Hb; [done|]. destruct (has_nul f) eqn:Hn; [done|].
  rewrite (good_name_relative f Hb). cbn [app]. destruct (str_in ".." (path_names f)) eqn:Hd; [done|].
  destruct (MAX_PATH_DEPTH <? _)%nat eqn:Hl; [done|]. intros _. apply bool_decide_eq_false in Hd. by apply Nat.ltb_ge in Hl.
Qed.

Lemma validated_good fs : _validate_filenames fs = Ok tt -> Forall good_path fs.
Proof.
  unfold _validate_filenames. destruct (100 <? _)%nat; [done|]. destruct fs as [|f0 fs0]; [done|].
  generalize (f0 :: fs0). clear. induction l as [|f l IH]; cbn [check_filenames]; [constructor|]. unfold mbind, res_bind.
  destruct (check_filename f) as [[]|] eqn:E; [|done]. intros Hc. constructor; [by apply check_filename_good|by apply IH].
Qed.

Lemma decoded_names files decoded : decode_files files = Ok decoded -> map fst decoded = map fst files.
Proof.
  revert decoded. induction files as [|[f c] files IH]; intros decoded; cbn [decode_files]; [by intros [= <-]|].
  unfold mbind, res_bind. destruct (_decode_file_content c); [|done]. destruct (decode_files files) as [rest|]; [|done].
  intros [= <-]. cbn. f_equal. by apply IH.
Qed.

Lemma decoded_in files decoded f c b :
  decode_files files = Ok decoded -> (f, c) ∈ files -> _decode_file_content c = Ok b -> (f, b) ∈ decoded.
Proof.
  revert decoded. induction files as [|[g d] files IH]; intros decoded; cbn [decode_files]; [by intros _ []%not_elem_of_nil|].
  unfold mbind, res_bind. destruct (_decode_file_content d) as [b'|] eqn:Ed; [|done]. destruct (decode_files files) as [rest|]; [|done].
  intros [= <-] [[= -> ->]|Hin]%elem_of_cons Hb; [|right; by apply IH].
  rewrite Ed in Hb. simplify_eq. left.
Qed.

Lemma good_decoded files decoded :
  _validate_filenames (map fst files) = Ok tt -> decode_files files = Ok decoded -> good_files decoded.
Proof.
  intros Hv%validated_good Hd%decoded_names. unfold good_files. rewrite <- Hd in Hv. exact (proj1 (Forall_fmap fst good_path decoded) Hv).
Qed.

(** The checks and the decoding raise validation errors only. *)
Lemma validation_error fs e : _validate_filenames fs = Err e -> exists m, e = Invalid m.
Proof.
  unfold _validate_filenames. case_match; [intros [= <-]; eauto|]. destruct fs as [|f0 fs0]; [intros [= <-]; eauto|].
  generalize (f0 :: fs0). intros l. induction l as [|f l IH]; cbn [check_filenames]; [done|]. unfold mbind, res_bind, check_filename.
  repeat case_match; simplify_eq; auto; intros [= <-]; eauto.
Qed.

Lemma decode_error files e : decode_files files = Err e -> exists m, e = Invalid m.
Proof.
  revert e. induction files as [|[f c] l IH]; intros e; cbn [decode_files]; [done|]. unfold mbind, res_bind.
  destruct (_decode_file_content c) as [b|d] eqn:E.
  - destruct (decode_files l) as [|d]; [done|]. intros [= <-]. by apply IH.
  - intros [= <-]. revert E. unfold _decode_file_content. repeat case_match; intros; simplify_eq; eauto.
Qed.

Section steps.
Context `{Outside} `{Host}.

(** Only the world outside has moved. *)
Definition still (s s' : hut) : Prop :=
  hut_pads s' = hut_pads s /\ hut_disk s' = hut_disk s /\ records (hut_fleet s') = records (hut_fleet s).

Lemma still_refl s : still s s.
Proof. done. Qed.
Lemma still_trans s s' s'' : still s s' -> still s' s'' -> still s s''.
Proof. intros (? & ? & ?) (? & ? & ?). repeat split; congruence. Qed.
Lemma still_pad s s' id : still s s' -> pad_of id s' = pad_of id s.
Proof. intros (Hp & _). unfold pad_of. by rewrite Hp. Qed.

Lemma ask_hut_cases {A} (f : outside -> A * outside) s :
  exists s', ask_hut f s = (Ok (f (out (the_world (hut_fleet s)))).1, s') /\ still s s'.
Proof.
  unfold ask_hut, on_fleet, ask_out, in_world, ask. destruct (f (out (the_world (hut_fleet s)))) as [v o]. eexists. by split.
Qed.

Lemma quota_check_cases id mode quota fresh s :
  let '(r, s') := quota_check id mode quota fresh s in
  s' = s /\ match r with
            | Ok _ => fresh <= quota - (if String.eqb mode "replace" then 0 else scratchpad_size_bytes (pad_of id s))
            | Err e => e = QuotaExceeded (if String.eqb mode "replace" then 0 else scratchpad_size_bytes (pad_of id s)) quota fresh /\
                       quota - (if String.eqb mode "replace" then 0 else scratchpad_size_bytes (pad_of id s)) < fresh
            end.
Proof.
  unfold quota_check, get_pad, getS, mbind, stm_bind, raise, mret, stm_ret. destruct (String.eqb mode "replace").
  - destruct (quota <? fresh) eqn:E; bool_to_prop; (split; [done|]); [split; [done|lia]|lia].
  - destruct (quota <? _) eqn:E; bool_to_prop; (split; [done|]); [split; [done|lia]|lia].
Qed.

(** The token is there afterwards; nothing else of the columns has changed. *)
Lemma ensure_token_cases id s :
  exists t s', _ensure_token id s = (Ok t, s') /\ hut_disk s' = hut_disk s /\ records (hut_fleet s') = records (hut_fleet s) /\
  (forall x, x <> id -> pad_of x s' = pad_of x s) /\ scratchpad_size_bytes (pad_of id s') = scratchpad_size_bytes (pad_of id s) /\
  scratchpad_token (pad_of id s') = Some t.
Proof.
  assert (exists t s', new_token id (pad_of id s) s = (Ok t, s') /\ hut_disk s' = hut_disk s /\ records (hut_fleet s') = records (hut_fleet s) /\
    (forall x, x <> id -> pad_of x s' = pad_of x s) /\ scratchpad_size_bytes (pad_of id s') = scratchpad_size_bytes (pad_of id s) /\
    scratchpad_token (pad_of id s') = Some t) as Hnew.
  { unfold new_token, mbind, stm_bind. destruct (ask_hut_cases token_urlsafe s) as (s1 & -> & Hp & Hd & Hr).
    do 2 eexists. split; [reflexivity|]. unfold pad_of. cbn [hut_disk hut_fleet hut_pads]. rewrite Hp, lookup_insert_eq.
    split; [done|]. split; [done|]. split; [|done]. intros x Hx. by rewrite lookup_insert_ne by done. }
  change (_ensure_token id s) with (match scratchpad_token (pad_of id s) with
    | Some t => if truthy_str t then mret t else new_token id (pad_of id s) | None => new_token id (pad_of id s) end s).
  destruct (scratchpad_token (pad_of id s)) as [t|] eqn:E; [|exact Hnew]. destruct (truthy_str t); [|exact Hnew].
  do 2 eexists. split; [reflexivity|]. done.
Qed.

Lemma tmp_uuid_cases mode s : exists u s', tmp_uuid mode s = (Ok u, s') /\ still s s'.
Proof.
  unfold tmp_uuid. case_match; [|by do 2 eexists]. destruct (ask_hut_cases uuid4 s) as (s' & Hs & Hq). by do 2 eexists.
Qed.

Lemma get_pad_run id (s : hut) : get_pad id s = (Ok (pad_of id s), s).
Proof. done. Qed.

Lemma on_agent_run k name s :
  let '(r, s') := on_fleet (get_agent k name) s in
  s' = s /\ match r with Ok a => a ∈ records (hut_fleet s) /\ named k name a = true | Err e => exists e', e = Other (Service e') end.
Proof.
  unfold on_fleet. pose proof (get_agent_cases k name (hut_fleet s)) as Hc.
  destruct (get_agent k name (hut_fleet s)) as [[a|e] f]; destruct Hc as [-> Hc]; (split; [by destruct s|]); [done|].
  destruct Hc as [e' ->]. eauto.
Qed.
End steps.

Section publishing.
Context `{Outside} `{Host} (urls : url_settings) (base_path : list string) (Hbase : ".." ∉ base_path).
#[local] Set Default Proof Using "Type*".

Definition is_tmp (dir : string) : bool := starts_with ".tmp-" dir.
(** A directory that can be an agent's. *)
Definition proper_id (id : string) : Prop := id <> ".." /\ is_tmp id = false.
(** No temporary directory is left over. *)
Definition tidy (d : disk) : Prop := forall dir, is_Some (d !! dir) -> is_tmp dir = false.

Lemma tmp_fresh d uuid : tidy d -> d !! (".tmp-" +:+ uuid) = None.
Proof.
  intros Ht. destruct (d !! _) as [t|] eqn:E; [|done]. specialize (Ht (".tmp-" +:+ uuid) ltac:(eauto)).
  unfold is_tmp in Ht. by rewrite starts_with_app in Ht.
Qed.

Lemma tmp_not_id id uuid : proper_id id -> ".tmp-" +:+ uuid <> id.
Proof. intros [_ Hp] <-. unfold is_tmp in Hp. by rewrite starts_with_app in Hp. Qed.

(** What the backend has done to the directory of an agent, by the mode. *)
Definition write_effect (id mode : string) (files : list (string * string)) (d : disk) (r : res file_exn Z) (d' : disk) : Prop :=
  elsewhere id d d' /\
  match r with
  | Ok n =>
      n = _calc_size id d' /\ holds_files id files d' /\
      n <= bytes_of files + (if String.eqb mode "replace" then 0 else _calc_size id d) /\
      (mode = "replace" -> forall q b, the_tree id d' !! q = Some (File b) -> exists f, (f, b) ∈ files /\ path_names f = q)
  | Err e => (forall m, e <> ValueError m) /\ (mode = "replace" -> d' = d)
  end.

Lemma write_files_effect uuid id files mode d :
  proper_id id -> tidy d -> good_files files ->
  let '(r, d') := write_files base_path uuid id files mode d in write_effect id mode files d r d'.
Proof.
  intros [Hid Htmp] Ht Hg. unfold write_effect. destruct (decide (mode = "replace")) as [->|Hm].
  - pose proof (replace_cases base_path Hbase uuid id files d Hid (tmp_not_id id uuid (conj Hid Htmp)) (tmp_fresh d uuid Ht) Hg) as Hc.
    destruct (write_files base_path uuid id files "replace" d) as [[n|e] d']; cbn [String.eqb Ascii.eqb Bool.eqb].
    + destruct Hc as (? & ? & ? & ? & ?). repeat split; try done. lia.
    + destruct Hc as [-> ?]. split; [apply elsewhere_refl|done].
  - pose proof (append_cases base_path Hbase uuid id files mode d Hid Hm Hg) as Hc.
    replace (String.eqb mode "replace") with false by (symmetry; by apply String.eqb_neq).
    destruct (write_files base_path uuid id files mode d) as [[n|e] d']; destruct Hc as (? & ? & Hc).
    + destruct Hc as [-> ?]. repeat split; try done. lia.
    + by repeat split.
Qed.

(** [publish] that returns: what was sent is stored, and the columns are those
    of the disk. *)
Definition published (a : agent_record) (files : list (string * string)) (mode tier : string) (s s' : hut) : Prop :=
  exists decoded token updated expires,
    decode_files files = Ok decoded /\ good_files decoded /\
    write_effect (a_id a) mode decoded (hut_disk s) (Ok (_calc_size (a_id a) (hut_disk s'))) (hut_disk s') /\
    pad_of (a_id a) s' = Pad (Some token) (_calc_size (a_id a) (hut_disk s')) (Some updated) (Some expires) /\
    _calc_size (a_id a) (hut_disk s') <= 2147483647 /\ other_token (a_id a) token s' = false /\
    bytes_of decoded <= _get_quota_bytes tier - (if String.eqb mode "replace" then 0 else scratchpad_size_bytes (pad_of (a_id a) s)).

(** [publish] that raises. *)
Definition refused (a : agent_record) (mode : string) (s s' : hut) (e : pad_exn) : Prop :=
  match e with
  | Backend fe => (forall m, fe <> ValueError m) /\ (mode = "replace" -> hut_disk s' = hut_disk s)
  | Other fe => fe = Service DBAPIError
  | _ => s' = s
  end.

Definition only_pad (a : agent_record) (s s' : hut) : Prop :=
  elsewhere (a_id a) (hut_disk s) (hut_disk s') /\ (forall x, x <> a_id a -> pad_of x s' = pad_of x s) /\
  records (hut_fleet s') = records (hut_fleet s).

Lemma publish_cases a files mode tier s :
  proper_id (a_id a) -> tidy (hut_disk s) ->
  let '(r, s') := publish urls base_path a files mode tier s in
  only_pad a s s' /\
  match r with Ok _ => published a files mode tier s s' | Err e => refused a mode s s' e end.
Proof.
  intros Hid Ht. unfold publish, only_pad. destruct (_get_quota_bytes tier =? 0); [done|]. unfold mbind, stm_bind, lift_res.
  destruct (_validate_filenames (map fst files)) as [[]|ve] eqn:Ev; [|by destruct (validation_error _ _ Ev) as [m ->]].
  destruct (decode_files files) as [decoded|de] eqn:Ed; [|by destruct (decode_error _ _ Ed) as [m ->]].
  pose proof (good_decoded _ _ Ev Ed) as Hg.
  pose proof (quota_check_cases (a_id a) mode (_get_quota_bytes tier) (new_bytes decoded) s) as Hq.
  destruct (quota_check _ _ _ _ s) as [[[]|qe] s0]; destruct Hq as [-> Hq]; [|by destruct Hq as [-> _]].
  destruct (ensure_token_cases (a_id a) s) as (token & s1 & -> & Hd1 & Hr1 & Hp1 & _ & Ht1).
  destruct (tmp_uuid_cases mode s1) as (uuid & s2 & -> & Hs2). pose proof Hs2 as (Hp2 & Hd2 & Hr2).
  pose proof (write_files_effect uuid (a_id a) decoded mode (hut_disk s) Hid Ht Hg) as Hw.
  unfold on_disk. rewrite Hd2, Hd1. destruct (write_files base_path uuid (a_id a) decoded mode (hut_disk s)) as [[total|fe] d'].
  2: { destruct Hw as [Hels Herr]. cbn [hut_disk hut_fleet]. split; [|done]. split; [done|]. split; [|congruence].
       intros x Hx. rewrite <- Hp1 by done. unfold pad_of. cbn [hut_pads]. by rewrite Hp2. }
  pose proof Hw as [Hels (-> & _)].
  match goal with |- context [ask_hut now ?s3] => destruct (ask_hut_cases now s3) as (s4 & -> & Hp4 & Hd4 & Hr4) end.
  destruct (ask_hut_cases now s4) as (s5 & -> & Hp5 & Hd5 & Hr5). cbn [hut_pads hut_disk hut_fleet] in *.
  unfold set_pad, modS. set (p := Pad _ _ _ _). set (s6 := Hut _ _ _).
  assert (pad_of (a_id a) s6 = p) as Hp6 by (unfold s6, pad_of; cbn [hut_pads]; by rewrite lookup_insert_eq).
  assert (only_pad a s s6) as Ho.
  { unfold s6. split; [cbn [hut_disk]; by rewrite Hd5, Hd4|]. split; [|cbn [hut_fleet]; congruence]. intros x Hx. rewrite <- Hp1 by done.
    unfold pad_of. cbn [hut_pads]. rewrite lookup_insert_ne by done. by rewrite Hp5, Hp4, Hp2. }
  unfold flush_pad. rewrite Hp6. cbn [scratchpad_size_bytes scratchpad_token p].
  destruct (_ || _) eqn:Ef; [by split|]. split; [done|]. bool_to_prop.
  exists decoded, token. do 2 eexists. rewrite Hp6. unfold s6. cbn [hut_disk]. rewrite Hd5, Hd4. by repeat (split; [done|]).
Qed.
End publishing.

(** ** What the tools keep *)

Section keeping.
Context `{Outside} `{Host} (urls : url_settings) (base_path : list string) (Hbase : ".." ∉ base_path).
#[local] Set Default Proof Using "Type*".

Abbreviation token_of a s := (scratchpad_token (pad_of (a_id a) s)).

(** Agents have identifiers and tokens of their own; the disk has no directory
    that is left over; the sizes of the database are those of the disk. *)
Record kept (s : hut) : Prop := {
  kept_ids : NoDup (map a_id (records (hut_fleet s)));
  kept_proper : Forall (fun a => proper_id (a_id a)) (records (hut_fleet s));
  kept_tidy : tidy (hut_disk s);
  kept_sizes : forall id, scratchpad_size_bytes (pad_of id s) = _calc_size id (hut_disk s);
  kept_tokens : forall a b t, a ∈ records (hut_fleet s) -> b ∈ records (hut_fleet s) ->
    token_of a s = Some t -> token_of b s = Some t -> a_id a = a_id b
}.

Lemma kept_agent s a : kept s -> a ∈ records (hut_fleet s) -> proper_id (a_id a).
Proof. intros Hs Ha. by apply (proj1 (Forall_forall _ _) (kept_proper s Hs) a). Qed.

Lemma kept_still s s' : still s s' -> kept s -> kept s'.
Proof.
  intros Hst Hs. pose proof Hst as (Hp & Hd & Hr). destruct Hs as [H1 H2 H3 H4 H5]. split; rewrite ?Hr, ?Hd; try done.
  - intros id. by rewrite (still_pad _ _ _ Hst).
  - intros a b t. rewrite !(still_pad _ _ _ Hst). eauto.
Qed.

Lemma tidy_elsewhere id d d' : proper_id id -> elsewhere id d d' -> tidy d -> tidy d'.
Proof.
  intros [_ Hid] He Ht dir Hdir. destruct (decide (dir = id)) as [->|Hne]; [done|]. apply Ht. by rewrite <- He.
Qed.

Lemma other_token_false id t s :
  other_token id t s = false -> forall a, a ∈ records (hut_fleet s) -> token_of a s = Some t -> a_id a = id.
Proof.
  unfold other_token. intros Ho a Ha Ht. apply not_true_iff_false in Ho. destruct (decide (a_id a = id)) as [|Hne]; [done|].
  destruct Ho. apply existsb_exists. exists a. split; [by apply list_elem_of_In|].
  apply andb_true_iff. split; [by apply negb_true_iff, String.eqb_neq|by apply bool_decide_eq_true].
Qed.

(** A change of one agent whose size is that of the disk, and whose token is
    nobody else's. *)
Lemma kept_only_pad a s s' :
  kept s -> a ∈ records (hut_fleet s) -> only_pad a s s' ->
  scratchpad_size_bytes (pad_of (a_id a) s') = _calc_size (a_id a) (hut_disk s') ->
  (forall b t, b ∈ records (hut_fleet s') -> token_of b s' = Some t -> token_of a s' = Some t -> a_id b = a_id a) ->
  kept s'.
Proof.
  intros Hs Ha (He & Hp & Hr) Hsize Htok. pose proof (kept_agent s a Hs Ha) as Hid. destruct Hs as [H1 H2 H3 H4 H5].
  split; rewrite ?Hr; try done.
  - by eapply tidy_elsewhere.
  - intros id. destruct (decide (id = a_id a)) as [->|Hne]; [done|]. rewrite Hp by done. rewrite H4. unfold _calc_size. by rewrite He.
  - intros x y t Hx Hy Htx Hty. rewrite Hr in Htok.
    destruct (decide (a_id x = a_id a)) as [Ex|Nx]; destruct (decide (a_id y = a_id a)) as [Ey|Ny]; [congruence|..].
    + rewrite Ex in Htx |- *. symmetry. by apply (Htok y t).
    + rewrite Ey in Hty |- *. by apply (Htok x t).
    + rewrite Hp in Htx, Hty by done. by apply (H5 x y t).
Qed.

Lemma publish_kept a files mode tier s d s' :
  kept s -> a ∈ records (hut_fleet s) -> publish urls base_path a files mode tier s = (Ok d, s') ->
  kept s' /\ _calc_size (a_id a) (hut_disk s') <= _get_quota_bytes tier.
Proof.
  intros Hs Ha Hr. pose proof (publish_cases urls base_path Hbase a files mode tier s (kept_agent s a Hs Ha) (kept_tidy s Hs)) as Hc.
  rewrite Hr in Hc. destruct Hc as [Ho (decoded & token & upd & exp & _ & _ & (_ & _ & _ & Hsize & _) & Hpad & _ & Hother & Hq)].
  split.
  - apply (kept_only_pad a s); [done..|by rewrite Hpad|]. rewrite Hpad. cbn [scratchpad_token].
    intros b t Hb Htb [= <-]. by eapply other_token_false.
  - rewrite (kept_sizes s Hs) in Hq. destruct (String.eqb mode "replace"); lia.
Qed.

Lemma calc_size_clear id d : _calc_size id (ScratchFiles.clear id d).2 = 0.
Proof.
  unfold ScratchFiles.clear, modS, _calc_size. cbn [snd]. destruct (d !! id) as [t|] eqn:E; [|by rewrite E].
  rewrite lookup_insert_eq. apply tree_size_empty.
Qed.

Lemma clear_elsewhere id d : elsewhere id d (ScratchFiles.clear id d).2.
Proof.
  intros x Hx. unfold ScratchFiles.clear, modS. cbn [snd]. destruct (d !! id); [|done].
  rewrite lookup_insert_ne by done. by rewrite lookup_delete_ne.
Qed.

Lemma clear_kept a s :
  kept s -> a ∈ records (hut_fleet s) ->
  exists s', clear_pad a s = (Ok tt, s') /\ kept s' /\ _calc_size (a_id a) (hut_disk s') = 0.
Proof.
  intros Hs Ha. unfold clear_pad, on_disk, get_pad, set_pad, getS, modS, mbind, stm_bind.
  pose proof (calc_size_clear (a_id a) (hut_disk s)) as Hz. pose proof (clear_elsewhere (a_id a) (hut_disk s)) as He.
  unfold ScratchFiles.clear, modS in *. cbn [snd] in Hz, He. set (d' := match hut_disk s !! a_id a with Some _ => _ | None => _ end) in *.
  cbn [mret stm_ret hut_fleet hut_pads hut_disk]. set (p := Pad _ _ _ _). set (s' := Hut _ _ _).
  assert (pad_of (a_id a) s' = p) as Hp by (unfold s', pad_of; cbn [hut_pads]; by rewrite lookup_insert_eq).
  assert (forall x, x <> a_id a -> pad_of x s' = pad_of x s) as Hx by (intros x Hx; unfold s', pad_of; cbn [hut_pads]; by rewrite lookup_insert_ne).
  assert (scratchpad_token p = token_of a s) as Htok by done.
  assert (forall b t, b ∈ records (hut_fleet s) -> token_of b s' = Some t -> token_of a s = Some t -> a_id b = a_id a) as Hun.
  { intros b t Hb Htb Hta. destruct (decide (a_id b = a_id a)) as [|Hne]; [done|]. rewrite Hx in Htb by done. by apply (kept_tokens s Hs b a t). }
  assert (flush_pad (a_id a) s' = (Ok tt, s')) as ->.
  { unfold flush_pad. rewrite Hp, Htok. cbn [scratchpad_size_bytes p orb Z.ltb Z.compare].
    destruct (token_of a s) as [t|] eqn:Et; [|done]. destruct (other_token (a_id a) t s') eqn:Eo; [|done]. exfalso.
    apply existsb_exists in Eo as (b & Hb & [Hne Hbt%bool_decide_eq_true]%andb_true_iff).
    apply negb_true_iff, String.eqb_neq in Hne. apply list_elem_of_In in Hb. by destruct (Hun b t Hb Hbt eq_refl). }
  exists s'. split; [done|]. split; [|done].
  apply (kept_only_pad a s); [done..| |by rewrite Hp, Htok]. rewrite Hp. done.
Qed.

Lemma get_url_still a s : exists d s', get_url urls a s = (Ok d, s') /\ still s s'.
Proof.
  unfold get_url, get_pad, getS, mbind, stm_bind. cbn [mret stm_ret].
  destruct (scratchpad_token (pad_of (a_id a) s)) as [t|]; [|by do 2 eexists]. destruct (negb (truthy_str t) || _); [by do 2 eexists|].
  unfold is_expired. destruct (scratchpad_expires_at _) as [e|]; [|by do 2 eexists].
  unfold mbind, stm_bind. destruct (ask_hut_cases now s) as (s1 & -> & Hst). by do 2 eexists.
Qed.
End keeping.

(** ** The tools *)

Section requests.
Context `{Outside} `{Host} (urls : url_settings) (base_path : list string) (Hbase : ".." ∉ base_path).
#[local] Set Default Proof Using "Type*".

Abbreviation P := (stm hut pad_exn).
Abbreviation serve := (serve_pad_tool urls base_path).

(** What an exception leaves: the database as it was, and the disk. *)
Lemma kept_rolled_back s s' : kept s -> hut_disk s' = hut_disk s -> kept (Hut (rolled_back (hut_fleet s) (hut_fleet s')) (hut_pads s) (hut_disk s')).
Proof. intros [H1 H2 H3 H4 H5] Hd. split; rewrite ?Hd; done. Qed.

(** A publication ends in an answer of the service, with its effect, or one of
    its refusals, with none, or with an exception that nothing catches. *)
Lemma serve_publish k name files mode s r s' :
  kept s -> serve k (PublishView name files mode) s = (r, s') ->
  (exists e, r = Err (Other (Service e)) /\ still s s') \/
  exists a, a ∈ records (hut_fleet s) /\ named (k_account_id k) name a = true /\
  match r with
  | Ok x => (isError x = false /\ exists d, publish urls base_path a files mode (k_tier k) s = (Ok d, s') /\ x = reply d) \/ (isError x = true /\ s' = s)
  | Err e => exists s1, publish urls base_path a files mode (k_tier k) s = (Err e, s1) /\ hut_disk s' = hut_disk s1 /\
                        hut_pads s' = hut_pads s /\ records (hut_fleet s') = records (hut_fleet s)
  end.
Proof.
  intros Hs. unfold serve_pad_tool, pad_transaction. cbn [run_pad_tool]. unfold _publish_view, mbind, stm_bind.
  pose proof (on_agent_run (k_account_id k) name s) as Ha.
  destruct (on_fleet (get_agent (k_account_id k) name) s) as [[a|e] s0]; destruct Ha as [-> Ha].
  2: { destruct Ha as [e' ->]. intros [= <- <-]. left. by exists e'. }
  destruct Ha as [Hin Hn]. unfold try_except, mret, stm_ret.
  pose proof (publish_cases urls base_path Hbase a files mode (k_tier k) s (kept_agent s a Hs Hin) (kept_tidy s Hs)) as Hc.
  destruct (publish urls base_path a files mode (k_tier k) s) as [[d|e] s1] eqn:Ep.
  { intros [= <- <-]. right. exists a. split; [done|]. split; [done|]. left. split; [done|]. by exists d. }
  destruct Hc as [Ho Hc]. intros Hr. destruct e as [m|c l q|m|fe|fe]; cbn in Hr, Hc; injection Hr as <- <-.
  1-3: subst s1; right; exists a; do 2 (split; [done|]); right; by split.
  1-2: right; exists a; do 2 (split; [done|]); exists s1; by repeat split.
Qed.

(** [C17]  A scratchpad is accounted for: whatever tool is called, afterwards the
    size in the database is the size of the files on the disk, and after a
    publication it is within the quota of the tier; except for an addition that
    fails in the backend, or one that the database refuses. *)
Theorem pads_accounted k t s r s' :
  kept s -> serve k t s = (r, s') ->
  (kept s' /\
   forall name files mode x, t = PublishView name files mode -> r = Ok x -> isError x = false ->
     exists a, a ∈ records (hut_fleet s) /\ named (k_account_id k) name a = true /\
       scratchpad_size_bytes (pad_of (a_id a) s') <= _get_quota_bytes (k_tier k)) \/
  (exists name files mode e, t = PublishView name files mode /\ r = Err e /\
     (e = Other (Service DBAPIError) \/ mode <> "replace" /\ exists fe, e = Backend fe)).
Proof.
  intros Hs Hr. destruct t as [name files mode|name|name].
  - destruct (serve_publish k name files mode s r s' Hs Hr) as [(e & -> & Hst)|(a & Hin & Hn & Hc)].
    { left. split; [by eapply kept_still|done]. }
    destruct r as [x|e].
    + destruct Hc as [[He (d & Hp & ->)]|[He ->]]; left.
      * destruct (publish_kept urls base_path Hbase a files mode (k_tier k) s d s' Hs Hin Hp) as [Hk Hq]. split; [done|].
        intros ? ? ? ? [= <- <- <-] _ _. exists a. by rewrite (kept_sizes s' Hk).
      * split; [done|]. intros ? ? ? ? _ [= <-]. by rewrite He.
    + destruct Hc as (s1 & Hp & Hd & Hpads & Hrec).
      pose proof (publish_cases urls base_path Hbase a files mode (k_tier k) s (kept_agent s a Hs Hin) (kept_tidy s Hs)) as Hc.
      rewrite Hp in Hc. destruct Hc as [_ Hc].
      assert (hut_disk s1 = hut_disk s -> kept s') as Hk.
      { intros Hd1. destruct Hs as [H1 H2 H3 H4 H5]. unfold pad_of in *. split; unfold pad_of; rewrite ?Hrec, ?Hd, ?Hd1, ?Hpads; done. }
      destruct e as [m|c l q|m|fe|fe]; cbn in Hc; [subst s1; left; by split; [apply Hk|]..| |].
      * destruct (decide (mode = "replace")) as [->|Hm]; [left; split; [by apply Hk, Hc|done]|].
        right. do 4 eexists. do 2 (split; [done|]). right. eauto.
      * subst fe. right. do 4 eexists. do 2 (split; [done|]). by left.
  - left. split; [|done]. revert Hr. unfold serve_pad_tool, pad_transaction. cbn [run_pad_tool]. unfold _get_view_url, mbind, stm_bind.
    pose proof (on_agent_run (k_account_id k) name s) as Ha.
    destruct (on_fleet (get_agent (k_account_id k) name) s) as [[a|e] s0]; destruct Ha as [-> Ha].
    + destruct (get_url_still urls a s) as (d & s1 & -> & Hst). intros [= <- <-]. by eapply kept_still.
    + intros [= <- <-]. by apply kept_rolled_back.
  - left. split; [|done]. revert Hr. unfold serve_pad_tool, pad_transaction. cbn [run_pad_tool]. unfold _clear_view, mbind, stm_bind.
    pose proof (on_agent_run (k_account_id k) name s) as Ha.
    destruct (on_fleet (get_agent (k_account_id k) name) s) as [[a|e] s0]; destruct Ha as [-> Ha].
    + destruct (clear_kept a s Hs (proj1 Ha)) as (s1 & -> & Hk & _). by intros [= <- <-].
    + intros [= <- <-]. by apply kept_rolled_back.
Qed.

(** [C20]  Replacing is atomic: a publication with mode "replace" leaves exactly the
    files that were sent (of those whose names lead to the same place, the last), or the
    disk as it was, unless the database refuses the new columns. *)
Theorem replace_atomic k name files s r s' :
  kept s -> serve k (PublishView name files "replace") s = (r, s') ->
  r = Err (Other (Service DBAPIError)) \/ hut_disk s' = hut_disk s \/
  exists a decoded, a ∈ records (hut_fleet s) /\ named (k_account_id k) name a = true /\ decode_files files = Ok decoded /\
    elsewhere (a_id a) (hut_disk s) (hut_disk s') /\
    (forall q b, the_tree (a_id a) (hut_disk s') !! q = Some (File b) -> exists f, (f, b) ∈ decoded /\ path_names f = q) /\
    holds_files (a_id a) decoded (hut_disk s').
Proof.
  intros Hs Hr. destruct (serve_publish k name files "replace" s r s' Hs Hr) as [(e & -> & _ & Hd & _)|(a & Hin & Hn & Hc)]; [by right; left|].
  pose proof (publish_cases urls base_path Hbase a files "replace" (k_tier k) s (kept_agent s a Hs Hin) (kept_tidy s Hs)) as Hp.
  destruct r as [x|e].
  - destruct Hc as [[_ (d & Hd & _)]|[_ ->]]; [|by right; left]. rewrite Hd in Hp.
    destruct Hp as [[He _] (decoded & token & upd & exp & Hdec & _ & (_ & _ & Hholds & _ & Honly) & _)].
    right. right. exists a, decoded. eauto 10.
  - destruct Hc as (s1 & Hd & Hdisk & _). rewrite Hd in Hp. destruct Hp as [_ Hp]. rewrite Hdisk.
    destruct e as [m|c l q|m|fe|fe]; cbn in Hp; [by subst s1; right; left..| |by subst; left]. right. left. by apply Hp.
Qed.
End requests.

(** ** Additions that fail *)

Lemma str_split_app sep a b : str_split sep (a +:+ String sep b) = str_split sep a ++ str_split sep b.
Proof.
  induction a as [|c a IH]; cbn [String.append str_split]; [by rewrite Ascii.eqb_refl|]. rewrite IH.
  destruct (Ascii.eqb c sep); [done|]. destruct (str_split sep a) as [|h t] eqn:E; [|done].
  destruct a as [|x a]; cbn in E; [done|]. destruct (Ascii.eqb x sep); [done|]. by destruct (str_split sep a).
Qed.

Lemma path_names_app a b : path_names (a +:+ "/" +:+ b) = path_names a ++ path_names b.
Proof. unfold path_names. cbn [String.append]. by rewrite str_split_app, List.filter_app. Qed.

Lemma good_filename f : good_path f -> check_filename f = Ok tt.
Proof.
  intros (Hb & Hn & Hd & Hl). unfold check_filename, path_parts. rewrite Hb, Hn, (good_name_relative f Hb). cbn [app].
  replace (str_in ".." (path_names f)) with false by (symmetry; by apply bool_decide_eq_false).
  unfold MAX_PATH_DEPTH. by replace (3 <? length (path_names f))%nat with false by (symmetry; by apply Nat.ltb_ge).
Qed.

(** A file, and a file in a directory of the same name. *)
Definition clash (f c : string) : list (string * string) := [(f, c); (f +:+ "/x", "")].
Definition clash_name (f : string) : Prop := path_names f = [f] /\ good_path f /\ good_path (f +:+ "/x").

Section escape.
Context `{Outside} `{Host} (urls : url_settings) (base_path : list string) (Hbase : ".." ∉ base_path).
#[local] Set Default Proof Using "Type*".

Abbreviation serve := (serve_pad_tool urls base_path).

Lemma write_clash dir f b d :
  proper_id dir -> clash_name f -> the_tree dir d !! [f] = None ->
  write_files base_path "" dir (clash f b) "append" d = (Err FileExistsError, <[dir := <[[f] := File b]> (the_tree dir d)]> d).
Proof.
  intros [Hid _] (Hf & Hg & Hg') Hn. unfold write_files, mkdir, in_dir, mbind, stm_bind. cbn [String.eqb Ascii.eqb Bool.eqb].
  fold (the_tree dir d). unfold clash. cbn [write_all]. unfold write_one, mbind, stm_bind, lift_res.
  rewrite !validate_good by done. unfold in_dir. rewrite !below_target by done.
  assert (path_names (f +:+ "/x") = [f; "x"]) as -> by (etransitivity; [exact (path_names_app f "x")|by rewrite Hf]). rewrite Hf. cbn [removelast app mkdirs].
  assert (forall t, default ∅ (<[dir := t]> d !! dir) = t) as Hat by (intros t; by rewrite lookup_insert_eq).
  repeat (rewrite insert_insert_eq || rewrite Hat). unfold write_bytes at 1. rewrite Hn.
  repeat (rewrite insert_insert_eq || rewrite Hat). by rewrite lookup_insert_eq.
Qed.

(** One such request: an exception, the database as before, and the file on the disk. *)
Lemma clash_leaks k name a f c s :
  get_agent (k_account_id k) name (hut_fleet s) = (Ok a, hut_fleet s) -> proper_id (a_id a) ->
  _get_quota_bytes (k_tier k) <> 0 -> starts_with "base64:" c = false -> clash_name f ->
  scratchpad_size_bytes (pad_of (a_id a) s) + str_len (utf8_encode c) <= _get_quota_bytes (k_tier k) ->
  the_tree (a_id a) (hut_disk s) !! [f] = None ->
  let '(r, s') := serve k (PublishView name (clash f c) "append") s in
  r = Err (Backend FileExistsError) /\ hut_pads s' = hut_pads s /\ records (hut_fleet s') = records (hut_fleet s) /\
  hut_disk s' = <[a_id a := <[[f] := File (utf8_encode c)]> (the_tree (a_id a) (hut_disk s))]> (hut_disk s).
Proof.
  intros Ha Hid Hq Hc Hf Hsize Hn. pose proof Hf as (_ & Hg & Hg').
  unfold serve_pad_tool, pad_transaction. cbn [run_pad_tool]. unfold _publish_view, mbind, stm_bind. unfold on_fleet at 1. rewrite Ha.
  unfold try_except, publish. replace (_get_quota_bytes (k_tier k) =? 0) with false by (symmetry; by apply Z.eqb_neq).
  unfold mbind, stm_bind, lift_res. unfold clash at 1. cbn [map fst _validate_filenames length Nat.ltb Nat.leb check_filenames].
  unfold mbind, res_bind. rewrite !good_filename by done.
  unfold clash at 1. cbn [decode_files]. unfold mbind, res_bind. unfold _decode_file_content. rewrite Hc. cbn [starts_with utf8_encode].
  fold (clash f (utf8_encode c)).
  set (s0 := Hut (hut_fleet s) (hut_pads s) (hut_disk s)).
  assert (s0 = s) as -> by (by destruct s).
  pose proof (quota_check_cases (a_id a) "append" (_get_quota_bytes (k_tier k)) (new_bytes (clash f (utf8_encode c))) s) as Hqc.
  destruct (quota_check _ _ _ _ s) as [[[]|e] s1]; destruct Hqc as [-> Hqc].
  2: { exfalso. destruct Hqc as [_ Hqc]. unfold new_bytes, bytes_of, clash in Hqc. cbn [foldr snd String.eqb Ascii.eqb Bool.eqb] in Hqc.
       change (str_len "") with 0 in Hqc. lia. }
  destruct (ensure_token_cases (a_id a) s) as (token & s1 & -> & Hd1 & Hr1 & _). unfold tmp_uuid. cbn [String.eqb Ascii.eqb Bool.eqb mret stm_ret].
  unfold on_disk. rewrite Hd1, write_clash by done. cbn [publish_error hut_pads hut_disk hut_fleet].
  split; [done|]. split; [done|]. split; [done|]. done.
Qed.

Lemma get_agent_records acc name a (s s' : fleet) :
  records s' = records s -> get_agent acc name s = (Ok a, s) -> get_agent acc name s' = (Ok a, s').
Proof.
  unfold get_agent, mbind, stm_bind, Agents.one. intros ->. destruct (List.filter _ _) as [|x [|y l]]; [done| |done].
  unfold mret, stm_ret. by intros [= ->].
Qed.

(** [C21]  The quota does not bound what is stored: additions that send a file and a
    file below it fail after the first was written, are not counted, and can be
    repeated; each leaves its file on the disk, whatever the quota. *)
Theorem failed_additions_escape_quota k name a c names s :
  get_agent (k_account_id k) name (hut_fleet s) = (Ok a, hut_fleet s) -> proper_id (a_id a) ->
  _get_quota_bytes (k_tier k) <> 0 -> starts_with "base64:" c = false ->
  scratchpad_size_bytes (pad_of (a_id a) s) + str_len (utf8_encode c) <= _get_quota_bytes (k_tier k) ->
  NoDup names -> Forall clash_name names -> Forall (fun f => the_tree (a_id a) (hut_disk s) !! [f] = None) names ->
  let s' := foldl (fun s f => (serve k (PublishView name (clash f c) "append") s).2) s names in
  hut_pads s' = hut_pads s /\
  _calc_size (a_id a) (hut_disk s') = _calc_size (a_id a) (hut_disk s) + Z.of_nat (length names) * str_len (utf8_encode c).
Proof.
  intros Ha Hid Hq Hc Hsize Hnd Hn Hf. revert s Ha Hsize Hf. induction names as [|f names IH]; intros s Ha Hsize Hf; cbn [foldl length]; [split; [done|lia]|].
  apply NoDup_cons in Hnd as [Hni Hnd]. apply Forall_cons in Hn as [Hf1 Hn]. apply Forall_cons in Hf as [Hfree Hf].
  pose proof (clash_leaks k name a f c s Ha Hid Hq Hc Hf1 Hsize Hfree) as Hstep.
  destruct (serve k (PublishView name (clash f c) "append") s) as [r s1]. destruct Hstep as (_ & Hp & Hr & Hd). cbn [snd].
  assert (the_tree (a_id a) (hut_disk s1) = <[[f] := File (utf8_encode c)]> (the_tree (a_id a) (hut_disk s))) as Ht
    by (rewrite Hd; unfold the_tree at 1; by rewrite lookup_insert_eq).
  assert (scratchpad_size_bytes (pad_of (a_id a) s1) = scratchpad_size_bytes (pad_of (a_id a) s)) as Hs by (unfold pad_of; by rewrite Hp).
  destruct (IH Hnd Hn s1) as [Hp' Hc'].
  - by eapply get_agent_records.
  - by rewrite Hs.
  - rewrite Ht. eapply Forall_impl; [apply Forall_and; split; [exact Hf|]|].
    + apply Forall_forall. intros g Hg. exact Hg.
    + intros g [Hg Hin]. cbn beta in *. rewrite lookup_insert_ne; [done|]. intros [= ->]. by apply Hni.
  - split; [congruence|]. rewrite Hc', !calc_the_tree, Ht, tree_size_insert, Hfree. cbn [node_size]. lia.
Qed.
End escape.

(** ** The public pages *)

Section lookup.
Context `{Outside} `{Host}.

Lemma pad_token_found a t s :
  kept s -> a ∈ records (hut_fleet s) -> scratchpad_token (pad_of (a_id a) s) = Some t ->
  resolve_agent_by_token t s = (Ok (Some a), s).
Proof.
  intros Hs Ha Ht. unfold resolve_agent_by_token. set (p := fun b => bool_decide (scratchpad_token (pad_of (a_id b) s) = Some t)).
  assert (forall b, b ∈ List.filter p (records (hut_fleet s)) -> b = a) as Hall.
  { intros b [Hb Hp%bool_decide_eq_true]%elem_of_filter_bool. pose proof (kept_tokens s Hs b a t Hb Ha Hp Ht) as Hid.
    apply (NoDup_map_inj a_id (records (hut_fleet s))); [exact (kept_ids s Hs)|done..]. }
  assert (a ∈ List.filter p (records (hut_fleet s))) as Hin by (apply elem_of_filter_bool; split; [done|by apply bool_decide_eq_true]).
  pose proof (NoDup_filter_map a_id p (records (hut_fleet s)) (kept_ids s Hs)) as Hf.
  destruct (List.filter p (records (hut_fleet s))) as [|x [|y l]]; [by apply not_elem_of_nil in Hin|by rewrite (Hall x) by (by left)|].
  rewrite (Hall x), (Hall y) in Hf by set_solver. cbn in Hf. apply NoDup_cons in Hf as [Hf _]. set_solver.
Qed.

End lookup.

Section serving.
Context `{Outside} `{Host} (urls : url_settings) (base_path : list string) (Hbase : ".." ∉ base_path) (lossy_decode : string -> string).
#[local] Set Default Proof Using "Type*".

Abbreviation view := (serve_scratchpad urls base_path lossy_decode).
Abbreviation clock s := ((now (out (the_world (hut_fleet s)))).1).

(** What a page needs. *)
Definition opens (rq : view_request) (a : agent_record) (p : pad_row) (s : hut) : Prop :=
  v_agent_endpoint rq = true /\ 20 <= str_len (v_token rq) /\ scratchpad_token p = Some (v_token rq) /\
  (forall e, scratchpad_expires_at p = Some e -> clock s < e) /\ host_refused urls rq a = false.

Lemma expired_cases p s :
  exists s', is_expired p s = (Ok (match scratchpad_expires_at p with Some e => e <=? clock s | None => false end), s') /\ still s s'.
Proof.
  unfold is_expired. destruct (scratchpad_expires_at p) as [e|]; [|by eexists].
  unfold mbind, stm_bind. destruct (ask_hut_cases now s) as (s' & -> & Hst). by eexists.
Qed.

(** [C19]  What a page shows: with a token of twenty characters or more that
    belongs to an agent, before it expires and at the right host, the file of that
    agent's own directory at the path, at most three names deep and never above
    it; in every other case the answer is 404 or 410 and has no content of a
    scratchpad.  Nothing is changed. *)
Theorem pages_guarded rq s r s' :
  kept s -> view rq s = (r, s') ->
  still s s' /\
  (r = Ok NOT_FOUND \/ r = Ok GONE \/
   exists a b, a ∈ records (hut_fleet s) /\ opens rq a (pad_of (a_id a) s) s /\ good_path (v_path rq) /\
     the_tree (a_id a) (hut_disk s) !! path_names (v_path rq) = Some (File b) /\
     r = Ok (page_of lossy_decode a (pad_of (a_id a) s) (v_path rq) b)).
Proof.
  intros Hs. unfold serve_scratchpad. destruct (v_agent_endpoint rq) eqn:Hep; cbn [negb]; [|intros [= <- <-]; auto using still_refl].
  destruct (str_len (v_token rq) <? 20) eqn:Hlen; [intros [= <- <-]; auto using still_refl|]. bool_to_prop.
  unfold mbind, stm_bind. destruct (List.filter (fun b => bool_decide (scratchpad_token (pad_of (a_id b) s) = Some (v_token rq))) (records (hut_fleet s))) as [|a l] eqn:Ef.
  { unfold resolve_agent_by_token. rewrite Ef. intros [= <- <-]; auto using still_refl. }
  assert (a ∈ records (hut_fleet s) /\ scratchpad_token (pad_of (a_id a) s) = Some (v_token rq)) as [Ha Ht].
  { assert (a ∈ a :: l) as Hin by left. rewrite <- Ef in Hin. apply elem_of_filter_bool in Hin as [? ?%bool_decide_eq_true]. done. }
  rewrite (pad_token_found a _ s Hs Ha Ht). rewrite get_pad_run.
  destruct (expired_cases (pad_of (a_id a) s) s) as (s1 & -> & Hst). pose proof Hst as (_ & Hd & _).
  destruct (match scratchpad_expires_at _ with Some e => e <=? clock s | None => false end) eqn:Hex; [intros [= <- <-]; auto|].
  destruct (host_refused urls rq a) eqn:Hh; [intros [= <- <-]; auto|]. unfold getS. rewrite Hd.
  destruct (read_file base_path (a_id a) (v_path rq) (hut_disk s)) as [b|] eqn:Er; [|intros [= <- <-]; auto].
  intros [= <- <-]. split; [done|]. right. right. exists a, b. apply (read_file_inside base_path Hbase) in Er as [Hg Hf].
  split; [done|]. split; [|done]. repeat split; try done. intros e He. rewrite He in Hex. by apply Z.leb_gt in Hex.
Qed.

(** [C18]  What is published is what is shown: after a publication, every file of
    the request (when no two of its names lead to the same place) is served at
    its name, with the content that was sent, under the token and until the
    expiry that the agent now has. *)
Theorem published_files_served k name files mode s x s' f c b :
  kept s -> serve_pad_tool urls base_path k (PublishView name files mode) s = (Ok x, s') -> isError x = false ->
  NoDup (map (fun f => path_names f.1) files) -> (f, c) ∈ files -> _decode_file_content c = Ok b ->
  exists a token expires, a ∈ records (hut_fleet s') /\ named (k_account_id k) name a = true /\
    scratchpad_token (pad_of (a_id a) s') = Some token /\ scratchpad_expires_at (pad_of (a_id a) s') = Some expires /\
    forall rq, v_agent_endpoint rq = true -> v_token rq = token -> v_path rq = f -> 20 <= str_len token ->
      host_refused urls rq a = false -> clock s' < expires ->
      fst (view rq s') = Ok (page_of lossy_decode a (pad_of (a_id a) s') f b).
Proof.
  intros Hs Hr He Hnd Hin Hb. destruct (serve_publish urls base_path Hbase k name files mode s (Ok x) s' Hs Hr) as [(e & ? & _)|(a & Ha & Hn & Hc)]; [done|].
  destruct Hc as [[_ (d & Hp & _)]|[He' _]]; [|congruence].
  pose proof (publish_kept urls base_path Hbase a files mode (k_tier k) s d s' Hs Ha Hp) as [Hk _].
  pose proof (publish_cases urls base_path Hbase a files mode (k_tier k) s (kept_agent s a Hs Ha) (kept_tidy s Hs)) as Hc.
  rewrite Hp in Hc. destruct Hc as [(_ & _ & Hrec) (decoded & token & upd & exp & Hdec & Hgood & (_ & _ & Hholds & _) & Hpad & _)].
  pose proof (decoded_in files decoded f c b Hdec Hin Hb) as Hfb.
  assert (NoDup (map (fun f => path_names f.1) decoded)) as Hnd'.
  { assert (forall l : list (string * string), map (fun f => path_names f.1) l = map path_names (map fst l)) as Hm by (intros l; by rewrite map_map).
    rewrite Hm, (decoded_names _ _ Hdec), <- Hm. done. }
  specialize (Hholds Hnd' f b Hfb).
  assert (good_path f) as Hg by exact (proj1 (Forall_forall _ _) Hgood (f, b) Hfb).
  exists a, token, exp. rewrite Hrec, Hpad. do 4 (split; [done|]). intros rq Hep Htok Hpath Hlen Hhost Hclock.
  unfold serve_scratchpad. rewrite Hep, Htok. cbn [negb]. replace (str_len token <? 20) with false by (symmetry; by apply Z.ltb_ge).
  unfold mbind, stm_bind. rewrite (pad_token_found a token s' Hk); [|by rewrite Hrec|by rewrite Hpad]. rewrite get_pad_run, Hpad.
  destruct (expired_cases (Pad (Some token) (_calc_size (a_id a) (hut_disk s')) (Some upd) (Some exp)) s') as (s1 & -> & _ & Hd & _).
  cbn [scratchpad_expires_at]. replace (exp <=? clock s') with false by (symmetry; by apply Z.leb_gt). rewrite Hhost. unfold getS. rewrite Hd, Hpath.
  rewrite (read_file_good base_path Hbase) by (try done; by apply (kept_agent s a Hs Ha)). by rewrite Hholds.
Qed.
End serving.

(** The quota of the tier "dedicated-agent" is more than the column of the size
    can hold: the database refuses what is beyond, after the files were written. *)
Lemma dedicated_quota_unreachable `{Outside} `{Host} urls base_path a files mode s d s' :
  ".." ∉ base_path -> proper_id (a_id a) -> tidy (hut_disk s) ->
  publish urls base_path a files mode "dedicated-agent" s = (Ok d, s') ->
  _calc_size (a_id a) (hut_disk s') <= 2147483647 < _get_quota_bytes "dedicated-agent".
Proof.
  intros Hbase Hid Ht Hp. pose proof (publish_cases urls base_path Hbase a files mode "dedicated-agent" s Hid Ht) as Hc. rewrite Hp in Hc.
  destruct Hc as [_ (decoded & token & upd & exp & _ & _ & _ & _ & Hint & _)]. by split; [|reflexivity].
Qed.

(** A good name does not lead out of the directory. *)
Lemma good_path_inside f : good_path f -> resolve_path (path_names f) = path_names f.
Proof. intros (_ & _ & Hd & _). by apply resolve_plain. Qed.

(** *** Examples *)

#[local] Existing Instance scripted.
#[local] Existing Instance laptop.
#[local] Existing Instance toy_aead.

Definition empty_hut : @hut scripted laptop := Hut two_fleet ∅ ∅.
Definition demo_base : list string := ["opt"; "scratchpad"].
Definition site : list (string * string) := [("index.html", "<p>hi</p>"); ("js/app.js", "base64:MSs=")].
Abbreviation demo_pad t s := (serve_pad_tool demo_urls demo_base fox_owner t s).
Definition site_hut : @hut scripted laptop := (demo_pad (PublishView "fox" site "replace") empty_hut).2.
Definition demo_view (path : string) : view_request := ViewRequest true "cAnArY-tOkEn_0123456" path "api.example.org" false.
Abbreviation demo_page path s := (serve_scratchpad demo_urls demo_base (fun x => x) (demo_view path) s).

Lemma demo_base_ok : ".." ∉ demo_base.
Proof. by apply (bool_decide_unpack _); vm_compute. Qed.

Lemma empty_hut_kept : kept empty_hut.
Proof.
  split.
  - apply (bool_decide_unpack _). by vm_compute.
  - by repeat constructor.
  - intros dir [t Ht]. done.
  - done.
  - intros a b t _ _. done.
Qed.

Example pages_of_site :
  fst (demo_page "index.html" site_hut) = Ok (page_of (fun x => x) fox (pad_of "ag2" site_hut) "index.html" "<p>hi</p>") /\
  option_map pg_body (match fst (demo_page "js/./app.js" site_hut) with Ok p => Some p | Err _ => None end) = Some "1+" /\
  fst (demo_page "../ag1/index.html" site_hut) = Ok NOT_FOUND /\ fst (demo_page "js" site_hut) = Ok NOT_FOUND /\
  _get_mime_type "js/App.MJS" = "application/javascript; charset=utf-8" /\ _get_mime_type ".html" = "application/octet-stream".
Proof. by vm_compute. Qed.

(** The widget goes before the last [</body>], whatever its case. *)
Example widget_place :
  _inject_chat_widget (fun x => x) "<BODY>x</BODY>" = ("<BODY>x" +:+ CHAT_WIDGET_JS +:+ "</BODY>")%string.
Proof. by vm_compute. Qed.

Example names_checked :
  map check_filename ["a/b/c.js"; "a/b/c/d.js"; "a/../b"; "/etc"; "a//./b"] =
  [Ok tt; Err (Invalid "Path too deep (max 3 levels): a/b/c/d.js"); Err (Invalid "Path traversal not allowed");
   Err (Invalid "Invalid filename: '/etc'"); Ok tt] /\
  check_filename ("a.js" +:+ nl) = Ok tt.
Proof. by vm_compute. Qed.

Lemma pads_accounted_witness :
  kept empty_hut /\ kept site_hut /\ _calc_size "ag2" (hut_disk site_hut) = 11.
Proof.
  split; [exact empty_hut_kept|]. split; [|by vm_compute].
  destruct (pads_accounted demo_urls demo_base demo_base_ok fox_owner (PublishView "fox" site "replace") empty_hut
    (demo_pad (PublishView "fox" site "replace") empty_hut).1 site_hut empty_hut_kept (surjective_pairing _))
    as [[Hk _]|(n & f & m & e & _ & He & _)]; [exact Hk|].
  exfalso. revert He. vm_compute. discriminate.
Defined.

Lemma replace_atomic_witness :
  kept empty_hut /\
  (let r := (demo_pad (PublishView "fox" [("a", "1"); ("a/b", "2")] "replace") empty_hut) in
   r.1 = Err (Backend FileExistsError) /\ hut_disk r.2 = hut_disk empty_hut).
Proof.
  split; [exact empty_hut_kept|]. split; [by vm_compute|].
  destruct (replace_atomic demo_urls demo_base demo_base_ok fox_owner "fox" [("a", "1"); ("a/b", "2")] empty_hut
    (demo_pad (PublishView "fox" [("a", "1"); ("a/b", "2")] "replace") empty_hut).1
    (demo_pad (PublishView "fox" [("a", "1"); ("a/b", "2")] "replace") empty_hut).2 empty_hut_kept (surjective_pairing _))
    as [He|[Hd|(a & decoded & _ & _ & Hdec & _ & Honly & Hholds)]]; [exfalso; revert He; vm_compute; discriminate|exact Hd|].
  exfalso. vm_compute in Hdec. injection Hdec as <-.
  assert (NoDup (map (fun f : string * string => path_names f.1) [("a", "1"); ("a/b", "2")])) as Hnd by (apply (bool_decide_unpack _); by vm_compute).
  pose proof (Hholds Hnd "a" "1" (list_elem_of_here _ _)) as Hx. vm_compute in Hx.
  by destruct (a_id a).
Defined.

Lemma failed_additions_escape_quota_witness :
  get_agent "acc2" "fox" two_fleet = (Ok fox, two_fleet) /\
  (let s' := foldl (fun s f => (demo_pad (PublishView "fox" (clash f "xyz") "append") s).2) empty_hut ["a"; "b"; "c"] in
   hut_pads s' = ∅ /\ _calc_size "ag2" (hut_disk s') = 9).
Proof.
  split; [by vm_compute|].
  exact (failed_additions_escape_quota demo_urls demo_base demo_base_ok fox_owner "fox" fox "xyz" ["a"; "b"; "c"] empty_hut
    ltac:(by vm_compute) ltac:(by split) ltac:(done) eq_refl ltac:(vm_compute; discriminate)
    ltac:(apply (bool_decide_unpack _); by vm_compute)
    ltac:(repeat constructor; try reflexivity; try (apply (bool_decide_unpack _); by vm_compute); vm_compute; lia)
    ltac:(by repeat constructor)).
Defined.

Lemma site_fox a : a ∈ records (hut_fleet site_hut) -> named "acc2" "fox" a = true -> a = fox.
Proof.
  change (records (hut_fleet site_hut)) with (records two_fleet). cbn [two_fleet records].
  intros [->|Ha%list_elem_of_singleton]%elem_of_cons Hn; [by vm_compute in Hn|done].
Qed.

Definition answered (r : res pad_exn reply_t) : bool := match r with Ok x => negb (isError x) | Err _ => false end.
Lemma site_answered : answered (demo_pad (PublishView "fox" site "replace") empty_hut).1 = true.
Proof. by vm_compute. Qed.

Lemma site_hut_kept : kept site_hut.
Proof.
  pose proof site_answered as Hok.
  destruct (demo_pad (PublishView "fox" site "replace") empty_hut) as [r s'] eqn:E. cbn [fst] in Hok.
  assert (s' = site_hut) as -> by (unfold site_hut; by rewrite E).
  destruct (serve_publish demo_urls demo_base demo_base_ok fox_owner "fox" site "replace" empty_hut r site_hut empty_hut_kept E)
    as [(e & -> & _)|(a & Ha & _ & Hc)]; [discriminate Hok|].
  destruct r as [x|e]; [|discriminate Hok].
  destruct Hc as [[_ (d & Hp & _)]|[He _]].
  - exact (proj1 (publish_kept demo_urls demo_base demo_base_ok a site "replace" _ empty_hut d site_hut empty_hut_kept Ha Hp)).
  - cbn in Hok. rewrite He in Hok. discriminate Hok.
Qed.

Lemma pages_guarded_witness :
  kept site_hut /\ still site_hut (demo_page "index.html" site_hut).2 /\
  exists a b, opens demo_urls (demo_view "index.html") a (pad_of (a_id a) site_hut) site_hut /\
    (demo_page "index.html" site_hut).1 = Ok (page_of (fun x => x) a (pad_of (a_id a) site_hut) "index.html" b).
Proof.
  split; [exact site_hut_kept|].
  destruct (pages_guarded demo_urls demo_base demo_base_ok (fun x => x) (demo_view "index.html") site_hut
    (demo_page "index.html" site_hut).1 (demo_page "index.html" site_hut).2 site_hut_kept (surjective_pairing _)) as [Hst Hr].
  split; [exact Hst|]. destruct Hr as [Hr|[Hr|(a & b & Ha & Ho & Hg & Hf & Hr)]].
  1-2: exfalso; revert Hr; vm_compute; discriminate.
  exists a, b. exact (conj Ho Hr).
Defined.

Lemma published_files_served_witness :
  kept empty_hut /\
  fst (demo_page "js/app.js" site_hut) = Ok (page_of (fun x => x) fox (pad_of "ag2" site_hut) "js/app.js" "1+").
Proof.
  split; [exact empty_hut_kept|]. pose proof site_answered as Hok.
  destruct (demo_pad (PublishView "fox" site "replace") empty_hut) as [[x|e] s'] eqn:E; [|discriminate Hok]. cbn in Hok.
  assert (s' = site_hut) as -> by (unfold site_hut; by rewrite E).
  destruct (published_files_served demo_urls demo_base demo_base_ok (fun x => x) fox_owner "fox" site "replace" empty_hut x site_hut
    "js/app.js" "base64:MSs=" "1+" empty_hut_kept E) as (a & token & expires & Ha & Hn & Ht & Hx & Hserve).
  - by apply negb_true_iff.
  - apply (bool_decide_unpack _). by vm_compute.
  - right. left.
  - by vm_compute.
  - apply site_fox in Ha as ->; [|exact Hn]. apply (Hserve (demo_view "js/app.js")); try reflexivity.
    + vm_compute in Ht. by injection Ht as <-.
    + vm_compute in Ht. injection Ht as <-. vm_compute. discriminate.
    + vm_compute in Hx. injection Hx as <-. by vm_compute.
Defined.

(** The page of a scratchpad that has expired is gone; its chat is not: nothing
    there looks at the expiry. *)
Definition chatty_fox : agent_record :=
  with_chat_token (with_row fox (with_engine (row fox) "anthropic" "model" (Some ("sk", "dek")) None None)) (Some "chat").
Definition old_pad : pad_row := Pad (Some "cAnArY-tOkEn_0123456") 11 (Some (-9)) (Some (-5)).
Definition old_hut : @hut scripted laptop :=
  Hut (snd (put_record chatty_fox two_fleet)) {[ "ag2" := old_pad ]} (hut_disk site_hut).

Example expired_pad_chats :
  fst (demo_page "index.html" old_hut) = Ok GONE /\
  fst (admit_page_chat "cAnArY-tOkEn_0123456" old_hut) = Ok (inr chatty_fox).
Proof. by vm_compute. Qed.

(** Destroying an agent does what [destroy_agent] does to the database and to
    Docker, and nothing of its scratchpad is left on the disk. *)
Lemma destroy_with_files_correct `{Outside} `{Host} acc name (s : hut) :
  let '(r, s') := destroy_with_files acc name s in
  (match r with Ok a => Ok a | Err (Other e) => Err e | Err _ => Err PyAttributeError end, hut_fleet s') =
    destroy_agent acc name (hut_fleet s) /\ hut_pads s' = hut_pads s /\
  match r with Ok a => exists b, a = with_status b "destroying" /\ hut_disk s' = delete (a_id b) (hut_disk s) | Err _ => True end.
Proof.
  unfold destroy_with_files, destroy_agent, bury, mbind, stm_bind, on_fleet, on_disk, delete_all, rmtree, modS.
  destruct (get_agent acc name (hut_fleet s)) as [[a|e] f1]; [|by repeat split]. cbn [hut_fleet hut_pads hut_disk].
  destruct (put_record (with_status a "destroying") f1) as [[[]|e] f2]; [|by repeat split]. cbn [hut_fleet hut_pads hut_disk].
  destruct (_get_replicas (a_id a) f2) as [[l|e] f3]; [|by repeat split]. cbn [hut_fleet hut_pads hut_disk].
  destruct (remove_containers l f3) as [[[]|e] f4]; [|by repeat split]. cbn [hut_fleet hut_pads hut_disk].
  destruct (remove_agent_container a f4) as [[[]|e] f5]; [|by repeat split]. cbn [hut_fleet hut_pads hut_disk].
  destruct (delete_agent_rows (a_id a) f5) as [[[]|e] f6]; [|by repeat split]. cbn.
  split; [done|]. split; [done|]. by exists a.
Qed.
