(* ===== verification/AgentApi.v ===== *)
(** * The REST endpoints for agents

    [api/v1/agents.py], with the checks of [schemas/agent.py]: who is let in (the
    dependencies of [AuthApi] and [Security]), what is checked, and the operation of
    [Agents] that is called.  Request bodies have the types of their schemas.
    Time stamps and numbers that are not integers are left out of the answers;
    the streams of telemetry and the locks of functions are not modelled beyond
    who gets to them. *)

From S2P Require Import Prelude Regex Security Auth AuthApi Routing ReplicaNames RunHandler CreateHandler CreateTools Json Encryption AgentState Namespaces Functions Procedures SecurityEvents ConversationMemory AiTools ToolDispatch Hoare Orchestrator ProcedureRun Agents AgentChat Scheduler AgentTenancy CreateAgents.
From stdpp Require Import gmap strings.
From Stdlib Require Import Ascii.

Open Scope Z_scope.

(** ** Request bodies *)

Definition length_in (lo hi : Z) (s : string) : bool := (lo <=? str_len s) && (str_len s <=? hi).
Definition short (hi : Z) (o : option string) : bool := match o with Some s => str_len s <=? hi | None => true end.

Definition TOOL_TIERS : list string := ["execute_only"; "standard"; "builder"; "admin"].

(** [CreateAgentRequest] and the validators: the body as the endpoint sees it, or
    [None] for a request that is answered with 422. *)
Record create_agent_request := CreateAgentRequest { ca_name : string; ca_display_name : option string; ca_tool_tier : string }.
Definition check_create (b : create_agent_request) : option create_agent_request :=
  let name := str_lower (ca_name b) in
  if length_in 1 63 (ca_name b) && short 255 (ca_display_name b) && str_in (ca_tool_tier b) TOOL_TIERS && namespace_match name
  then Some (CreateAgentRequest name (ca_display_name b) (ca_tool_tier b)) else None.

Record schedule_request := CreateScheduleRequest {
  cs_function_name : string; cs_cron : string; cs_timezone : string; cs_mode : string; cs_policy : list (string * pyval)
}.
Definition policy_ok (p : list (string * pyval)) : bool :=
  match dict_get "strategy" p with
  | Some (PStr s) =>
      str_in s ["continue"; "auto_disable"; "backoff"]
      && (negb (String.eqb s "auto_disable") || dict_has "max_failures" p) && (negb (String.eqb s "backoff") || dict_has "backoff_factor" p)
  | _ => false
  end.
Definition check_schedule (b : schedule_request) : option schedule_request :=
  if length_in 1 255 (cs_function_name b) && length_in 9 255 (cs_cron b) && (str_len (cs_timezone b) <=? 50)
     && str_in (cs_mode b) ["single"; "cluster"] && policy_ok (cs_policy b)
  then Some b else None.

(** [^[a-zA-Z0-9][a-zA-Z0-9\-/]*[a-zA-Z0-9]$|^[a-zA-Z0-9]$] *)
Definition path_char (c : ascii) : bool := is_alpha c || is_digit c || Ascii.eqb c "-" || Ascii.eqb c "/".
Definition path_ok (path : string) : bool :=
  let alnum c := is_alpha c || is_digit c in
  matches (RSeq (RCls alnum) (RSeq (RRep path_char 0 None true) (RCls alnum))) dollar path || matches (RCls alnum) dollar path.

Record webhook_request := CreateWebhookRequest { cw_path : string; cw_handler : string; cw_secret : option string }.
Definition check_webhook (b : webhook_request) : option webhook_request :=
  let path := str_strip_by (fun c => Ascii.eqb c "/") (cw_path b) in
  if length_in 1 255 (cw_path b) && length_in 1 255 (cw_handler b) && path_ok path
  then Some (CreateWebhookRequest path (cw_handler b) (cw_secret b)) else None.

Definition AI_ENGINES : list string := ["anthropic"; "openai"; "google"; "openrouter"; "grok"; "deepseek"; "kimi"; "ollama"].
Record ai_request := ConfigureAIRequest { ai_engine_arg : string; ai_model_arg : string; ai_key_arg : option string; ai_prompt_arg : option string }.
Definition check_ai (b : ai_request) : option ai_request :=
  if str_in (ai_engine_arg b) AI_ENGINES && (str_len (ai_model_arg b) <=? 100) then Some b else None.

Definition check_channel (kind : string) : bool := str_in kind ["discord"; "slack"; "whatsapp"; "email"].

(** [McpServerConfig], as [model_dump(exclude_none=True)] gives it. *)
Record server_config := McpServerConfig {
  sv_type : string; sv_url : option string; sv_command : option string; sv_args : option (list string);
  sv_headers : option (list (string * string)); sv_env : option (list (string * string))
}.
Definition given {A} (key : string) (f : A -> pyval) (o : option A) : list (string * pyval) :=
  match o with Some a => [(key, f a)] | None => [] end.
Definition str_dict (l : list (string * string)) : pyval := PDict (map (fun kv => (kv.1, PStr kv.2)) l).
Definition dump_server (c : server_config) : pyval :=
  PDict ([("type", PStr (sv_type c))] ++ given "url" PStr (sv_url c) ++ given "command" PStr (sv_command c)
         ++ given "args" (fun l => PList (map PStr l)) (sv_args c) ++ given "headers" str_dict (sv_headers c) ++ given "env" str_dict (sv_env c)).

(** [^[a-z0-9][a-z0-9_-]{0,30}[a-z0-9]?$] *)
Definition server_name_ok (name : string) : bool :=
  let low c := is_lower c || is_digit c in
  matches (RSeq (RCls low) (RSeq (RRep (fun c => low c || Ascii.eqb c "_" || Ascii.eqb c "-") 0 (Some 30%nat) true) (ropt (RCls low)))) dollar name.
Definition check_servers (l : list (string * server_config)) : bool :=
  forallb (fun nc => str_in (sv_type nc.2) ["sse"; "streamable_http"; "stdio"]) l && (length l <=? 10)%nat && forallb (fun nc => server_name_ok nc.1) l.

Record limits_request := LimitsRequest { lr_iterations : option Z; lr_ai_tokens : option Z; lr_seconds : option Z; lr_functions : option Z }.
Definition in_bounds (lo hi : Z) (o : option Z) : bool := match o with Some n => (lo <=? n) && (n <=? hi) | None => true end.
Definition check_limits (b : limits_request) : bool :=
  in_bounds 1 200 (lr_iterations b) && in_bounds 1000 10000000 (lr_ai_tokens b) && in_bounds 10 3600 (lr_seconds b) && in_bounds 1 500 (lr_functions b).

Definition check_clone (name : string) : option string :=
  if length_in 1 63 name && namespace_match (str_lower name) then Some (str_lower name) else None.

(** ** Requests *)

(** A request, its path parameters still texts. *)
Inductive api_request :=
| PostAgent (b : create_agent_request)
| GetAgents
| GetAgent (id : string)
| PostStart (id : string)
| PostStop (id : string)
| DeleteAgent (id : string) (confirm : bool)
| GetRuns (id : string) (limit offset : Z)
| PostSchedule (id : string) (b : schedule_request)
| GetSchedules (id : string)
| DeleteSchedule (id schedule_id : string)
| PostWebhook (id : string) (b : webhook_request)
| GetWebhooks (id : string)
| DeleteWebhook (id webhook_id : string)
| PostTrigger (id webhook_id : string)
| PutState (id key : string) (value : pyval)
| GetState (id key : string)
| DeleteState (id key : string)
| GetStateKeys (id : string)
| PutAi (id : string) (b : ai_request)
| DeleteAi (id : string)
| PutServers (id : string) (l : list (string * server_config))
| GetServers (id : string)
| DeleteServers (id : string)
| GetChannels (id : string)
| PostChannel (id kind : string) (config : list (string * pyval))
| DeleteChannel (id kind : string)
| PutLimits (id : string) (b : limits_request)
| GetLimits (id : string)
| DeleteLimits (id : string)
| PostClone (id new_name : string).

(** [dependencies=[Depends(require_scope(...))]] *)
Definition scope_of (rq : api_request) : string :=
  match rq with
  | GetAgents | GetAgent _ | GetRuns _ _ _ | GetSchedules _ | GetWebhooks _ | GetState _ _ | GetStateKeys _ | GetServers _ | GetChannels _
  | GetLimits _ => "read"
  | _ => "write"
  end.

(** ** Who sends it *)

(** An authenticated client: its user, with the tier, and its account. *)
Record member := Member { mb_user : string; mb_tier : string; mb_account : string }.

Section entry.
Context `{Crypto} (cfg : settings) (effective_tier : Auth.user -> string).

(** A dependency that reads the tables of users and accounts. *)
Definition reading {A} (m : Auth.M A) (d : Auth.db) : res Security.exn A := fst (m (Session d d [])).

Definition account_of_user (message user_id : string) : Auth.M Auth.account :=
  uid ← id_column user_id;
  rows ← query (fun d => List.filter (fun a => String.eqb (Auth.a_user_id a) uid) (Auth.accounts d));
  found ← scalar_one_or_none rows;
  match found with Some a => mret a | None => raise (Security.HTTPException 401 "" message) end.
Definition get_current_account (user_id : string) : Auth.M Auth.account := account_of_user "Account not found for user" user_id.

Definition get_current_user (user_id : string) : Auth.M Auth.user :=
  uid ← id_column user_id;
  found ← user_by_id uid;
  match found with Some u => mret u | None => raise (Security.HTTPException 401 "" "User not found") end.

(** The dependencies of a request, in the order in which they are solved. *)
Definition sign_in (required : string) (now : Z) (authorization : option string) (d : Auth.db) : res Security.exn member :=
  _ ← require_scope cfg required now authorization;
  user_id ← get_current_user_id cfg now authorization;
  active ← reading (require_active_status user_id) d;
  user ← reading (get_current_user active) d;
  account ← reading (get_current_account active) d;
  Ok (Member (Auth.u_id user) (effective_tier user) (Auth.a_id account)).

(** The stream of telemetry takes its token from the query. *)
Definition telemetry_user (now : Z) (token : string) (d : Auth.db) : res Security.exn Auth.user :=
  match (payload ← verify_access_token cfg now token; subject payload) with
  | Err (Mcp TokenExpiredError _) | Err (Mcp InvalidTokenError _) | Err Security.KeyError => Err (Security.HTTPException 401 "" "Invalid or expired token")
  | Err e => Err e
  | Ok user_id => reading (get_current_user user_id) d
  end.
End entry.

(** ** Endpoints *)

Section endpoints.
Context `{Outside} `{Host} `{Aead} `{Crypto} (b64decode : string -> string) (kek_b64 : string).

Abbreviation M := (stm fleet Agents.exn).

Definition http {A} (status : Z) (error message : string) : M A := raise (Service (Security.HTTPException status error message)).
(** [RequestValidationError] *)
Definition unprocessable {A} : M A := http 422 "VALIDATION_ERROR" "Request validation failed".
Definition checked {A} (o : option A) : M A := match o with Some a => mret a | None => unprocessable end.

(** [try: m except C as e: raise HTTPException(status, {"error": ..., "message": str(e)})] *)
Definition answering {A} (table : list (exc_class * (Z * string))) (m : M A) : M A :=
  try_except m (fun e =>
    match e with
    | Service (Mcp c message) =>
        match List.find (fun row => bool_decide (row.1 = c)) table with
        | Some (_, (status, error)) => Some (http status error message)
        | None => None
        end
    | _ => None
    end).

Definition not_found_404 : list (exc_class * (Z * string)) := [(Security.NotFoundError, (404, "NOT_FOUND"))].
Definition conflict_409 : list (exc_class * (Z * string)) := [(ConflictError, (409, "CONFLICT"))].
Definition forbidden_403 : list (exc_class * (Z * string)) := [(Security.ForbiddenError, (403, "FORBIDDEN"))].

Definition agent_tiers : list string := ["trial-agent"; "pro-agent"; "enterprise-agent"; "dedicated-agent"].
Definition _require_agent_tier (effective_tier : string) : M unit :=
  if str_in effective_tier agent_tiers then mret tt
  else http 403 "AGENT_TIER_REQUIRED" "Agents require a Builder Agent, Pro Agent, or Enterprise Agent subscription".

(** The agent of the path. *)
Definition path_uuid (text : string) : M string := checked (parse_uuid text).
Definition agent_of_path (m : member) (id : string) : M agent_record :=
  _require_agent_tier (mb_tier m);;
  answering not_found_404 (get_agent_by_id (mb_account m) id).

(** *** Answers *)

Definition replica_view (r : replica) : pyval :=
  PDict [("id", PStr (rp_id r)); ("replica_name", PStr (replica_name r)); ("status", PStr (rp_status r))].
Definition agent_view (a : agent_record) (l : list replica) (namespace_name : option string) : pyval :=
  PDict [("id", PStr (a_id a)); ("name", PStr (a_name a)); ("display_name", otext (display_name a));
         ("namespace_id", PStr (a_namespace a)); ("namespace_name", otext namespace_name); ("status", PStr (agent_status a));
         ("target_replicas", PInt (target_replicas a)); ("replicas", PList (map replica_view l)); ("tool_tier", PStr (tool_tier (row a)));
         ("ai_engine", otext (ai_engine (row a))); ("ai_model", otext (ai_model (row a))); ("system_prompt", otext (system_prompt (row a)));
         ("memory_limit_mb", PInt (memory_mb a)); ("enabled", PBool (enabled a)); ("cloned_from_id", otext (cloned_from_id a))].

(** [order_by="AgentReplica.created_at"] of the relationship. *)
Definition view_agent (a : agent_record) (namespace_name : option string) : M pyval :=
  s ← getS; mret (agent_view a (replicas_of (a_id a) s) namespace_name).
Definition done_view (a : agent_record) (status : option string) (message : string) : pyval :=
  PDict ([("id", PStr (a_id a)); ("name", PStr (a_name a))] ++ given "status" PStr status ++ [("message", PStr message)]).

Definition schedule_view (x : schedule) : pyval :=
  PDict [("id", PStr (sc_id x)); ("agent_id", PStr (sc_agent_id x)); ("function_name", PStr (function_name x));
         ("cron_expression", PStr (cron_expression x)); ("timezone", PStr (timezone x)); ("mode", PStr (sc_mode x));
         ("failure_policy", failure_policy x); ("enabled", PBool (sc_enabled x)); ("consecutive_failures", PInt (consecutive_failures x))].
Definition webhook_view (x : webhook) : pyval :=
  PDict [("id", PStr (wh_id x)); ("agent_id", PStr (wh_agent_id x)); ("path", PStr (wh_path x));
         ("handler_function_name", PStr (handler_function_name x)); ("enabled", PBool (wh_enabled x))].
Definition channel_view (c : channel) : pyval :=
  PDict [("agent_id", PStr (ch_agent_id c)); ("channel_type", PStr (ch_type c)); ("enabled", PBool (ch_enabled c))].
Definition channel_line (c : channel) : pyval := PDict [("channel_type", PStr (ch_type c)); ("enabled", PBool (ch_enabled c))].
Definition run_view (r : agent_run * list tool_call) : pyval :=
  PDict [("id", otext (run_row_id r.1)); ("agent_id", PStr (run_agent_id r.1)); ("trigger_detail", PStr (run_trigger_detail r.1));
         ("function_name", otext (run_function_name r.1)); ("status", PStr (run_status r.1)); ("duration_ms", PInt (run_duration_ms r.1));
         ("result_summary", otext (run_result_summary r.1)); ("error", otext (run_error r.1))].
Definition state_view (key : string) (value : pyval) (e : state_entry) : pyval :=
  PDict [("key", PStr key); ("value", value); ("size_bytes", PInt (size_bytes e))].
Definition servers_view (l : option (list (string * pyval))) : pyval :=
  let l := default [] l in PDict [("servers", PDict l); ("count", PInt (Z.of_nat (length l)))].
Definition limits_view (tier : string) (r : agent_row) (custom : bool) : pyval :=
  PDict [("limits", PDict (resolve_orchestration_limits tier r)); ("source", PStr (if custom then "custom" else "tier_default"))].

(** *** The life cycle *)

Definition post_agent (m : member) (b : create_agent_request) : M pyval :=
  b ← checked (check_create b);
  _require_agent_tier (mb_tier m);;
  a ← answering [(Security.ForbiddenError, (403, "AGENT_TIER_REQUIRED")); (ConflictError, (409, "CONFLICT"))]
        (Agents.create_agent (mb_account m) (mb_tier m) (ca_name b) (ca_display_name b));
  view_agent a None.

Definition agents_view (l : list agent_record) (s : fleet) (used available : Z) : pyval :=
  PDict [("agents", PList (map (fun a => agent_view a (replicas_of (a_id a) s) None) l)); ("total", PInt (Z.of_nat (length l)));
         ("slots_used", PInt used); ("slots_available", PInt available)].
Definition get_agents (m : member) : M pyval :=
  if negb (str_in (mb_tier m) agent_tiers) then s ← getS; mret (agents_view [] s 0 0)
  else
    l ← list_agents (mb_account m);
    slots ← answering [(Security.ForbiddenError, (403, "AGENT_TIER_REQUIRED"))] (get_agent_slots (mb_account m) (mb_tier m));
    let '(used, limit, available) := slots in
    s ← getS;
    mret (agents_view l s used available).

Definition get_one (m : member) (id : string) : M pyval :=
  id ← path_uuid id;
  a ← agent_of_path m id;
  s ← getS;
  n ← Agents.one (fun s => namespaces (ns (base (tables (the_world s))))) (fun n => String.eqb (n_id n) (a_namespace a));
  view_agent a (n_name <$> n).

Definition post_start (m : member) (id : string) : M pyval :=
  id ← path_uuid id;
  a ← agent_of_path m id;
  a ← answering conflict_409 (start_agent (mb_account m) (a_name a) None);
  mret (done_view a (Some (agent_status a)) ("Agent '" +:+ a_name a +:+ "' start requested")).
Definition post_stop (m : member) (id : string) : M pyval :=
  id ← path_uuid id;
  a ← agent_of_path m id;
  a ← answering conflict_409 (stop_agent (mb_account m) (a_name a) None);
  mret (done_view a (Some (agent_status a)) ("Agent '" +:+ a_name a +:+ "' stop requested")).

Definition delete_agent (m : member) (id : string) (confirm : bool) : M pyval :=
  id ← path_uuid id;
  if negb confirm then http 400 "CONFIRMATION_REQUIRED" "Pass confirm=true to permanently destroy the agent"
  else
    a ← agent_of_path m id;
    a ← destroy_agent (mb_account m) (a_name a);
    mret (done_view a None ("Agent '" +:+ a_name a +:+ "' destroyed")).

Definition post_clone (m : member) (id new_name : string) : M pyval :=
  id ← path_uuid id;
  new_name ← checked (check_clone new_name);
  a ← agent_of_path m id;
  b ← answering [(ConflictError, (409, "CONFLICT")); (Security.ForbiddenError, (403, "FORBIDDEN"))]
        (clone_agent (mb_account m) (a_name a) new_name (mb_tier m));
  view_agent b None.

Definition get_runs (m : member) (id : string) (limit offset : Z) : M pyval :=
  id ← path_uuid id;
  if negb ((1 <=? limit) && (limit <=? 200) && (0 <=? offset)) then unprocessable
  else
    _require_agent_tier (mb_tier m);;
    out ← answering not_found_404 (list_runs (mb_account m) id (Z.to_nat limit) (Z.to_nat offset));
    mret (PDict [("runs", PList (map run_view out.1)); ("total", PInt out.2)]).

(** *** Schedules and webhooks *)

(** The mode of the body is not passed on. *)
Definition post_schedule (m : member) (id : string) (b : schedule_request) : M pyval :=
  id ← path_uuid id;
  b ← checked (check_schedule b);
  a ← agent_of_path m id;
  x ← answering (forbidden_403 ++ conflict_409)
        (add_schedule (mb_account m) (a_name a) (cs_function_name b) (cs_cron b) (cs_timezone b) (PDict (cs_policy b)) (mb_tier m) "direct" "single");
  mret (schedule_view x).

Definition get_schedules (m : member) (id : string) : M pyval :=
  id ← path_uuid id;
  a ← agent_of_path m id;
  l ← list_schedules (mb_account m) (a_name a);
  mret (PDict [("schedules", PList (map schedule_view l)); ("total", PInt (Z.of_nat (length l)))]).

Definition delete_schedule_endpoint (m : member) (id schedule_id : string) : M pyval :=
  id ← path_uuid id;
  schedule_id ← path_uuid schedule_id;
  a ← agent_of_path m id;
  answering not_found_404 (remove_schedule (mb_account m) (a_name a) schedule_id);;
  mret PNone.

Definition post_webhook (m : member) (id : string) (b : webhook_request) : M pyval :=
  id ← path_uuid id;
  b ← checked (check_webhook b);
  a ← agent_of_path m id;
  x ← answering conflict_409 (add_webhook (mb_account m) (a_name a) (cw_path b) (cw_handler b) (cw_secret b) "direct");
  mret (webhook_view x).

Definition get_webhooks (m : member) (id : string) : M pyval :=
  id ← path_uuid id;
  a ← agent_of_path m id;
  l ← list_webhooks (mb_account m) (a_name a);
  mret (PDict [("webhooks", PList (map webhook_view l)); ("total", PInt (Z.of_nat (length l)))]).

Definition delete_webhook (m : member) (id webhook_id : string) : M pyval :=
  id ← path_uuid id;
  webhook_id ← path_uuid webhook_id;
  a ← agent_of_path m id;
  answering not_found_404 (remove_webhook (mb_account m) (a_name a) webhook_id);;
  mret PNone.

(** It only looks the webhook up. *)
Definition post_trigger (m : member) (id webhook_id : string) : M pyval :=
  id ← path_uuid id;
  webhook_id ← path_uuid webhook_id;
  a ← agent_of_path m id;
  l ← list_webhooks (mb_account m) (a_name a);
  match List.find (fun w => String.eqb (wh_id w) webhook_id) l with
  | None => http 404 "NOT_FOUND" "Webhook not found"
  | Some _ => mret (PDict [("webhook_id", PStr webhook_id); ("triggered", PBool true); ("message", PStr "Webhook triggered")])
  end.

(** *** State *)

Definition put_state (m : member) (id key : string) (value : pyval) : M pyval :=
  id ← path_uuid id;
  a ← agent_of_path m id;
  r ← ask_out random_bytes;
  e ← answering forbidden_403 (on_state (set_state b64decode kek_b64 r (mb_account m) (a_name a) key value (mb_tier m)));
  mret (state_view key value e).

Definition get_state_endpoint (m : member) (id key : string) : M pyval :=
  id ← path_uuid id;
  a ← agent_of_path m id;
  v ← answering not_found_404 (on_state (get_state b64decode kek_b64 (mb_account m) (a_name a) key));
  mret (state_view key v.1 v.2).

Definition delete_state_endpoint (m : member) (id key : string) : M pyval :=
  id ← path_uuid id;
  a ← agent_of_path m id;
  answering not_found_404 (on_state (delete_state (mb_account m) (a_name a) key));;
  mret PNone.

Definition get_state_keys (m : member) (id : string) : M pyval :=
  id ← path_uuid id;
  a ← agent_of_path m id;
  out ← answering forbidden_403 (on_state (list_state_keys (mb_account m) (a_name a) (mb_tier m)));
  let '(keys, total, maximum) := out in
  mret (PDict [("keys", PList (map PStr keys)); ("total_size_bytes", PInt total); ("max_size_bytes", PInt maximum)]).

(** *** The model, the servers and the channels *)

(** The prompt is passed on even when it is not given; what [configure_ai]
    raises is not caught. *)
Definition put_ai (m : member) (id : string) (b : ai_request) : M pyval :=
  id ← path_uuid id;
  b ← checked (check_ai b);
  a ← agent_of_path m id;
  if negb (truthy_ostr (ai_key_arg b)) && negb (truthy_ostr (fst <$> ai_api_key (row a))) && negb (String.eqb (ai_engine_arg b) "ollama") then
    http 422 "VALIDATION" "API key is required for initial configuration"
  else
    a ← configure_ai b64decode kek_b64 (mb_account m) (a_name a) (ai_engine_arg b) (ai_model_arg b) (ai_key_arg b) (Some (ai_prompt_arg b)) None;
    mret (PDict [("engine", otext (ai_engine (row a))); ("model", otext (ai_model (row a))); ("system_prompt", otext (system_prompt (row a)));
                 ("configured", PBool true)]).

Definition delete_ai (m : member) (id : string) : M pyval :=
  id ← path_uuid id;
  a ← agent_of_path m id;
  _ ← remove_ai (mb_account m) (a_name a);
  mret PNone.

Definition put_servers (m : member) (id : string) (l : list (string * server_config)) : M pyval :=
  id ← path_uuid id;
  if negb (check_servers l) then unprocessable
  else
    a ← agent_of_path m id;
    a ← configure_mcp_servers (mb_account m) (a_name a) (map (fun nc => (nc.1, dump_server nc.2)) l);
    mret (servers_view (mcp_servers a)).

Definition get_servers (m : member) (id : string) : M pyval :=
  id ← path_uuid id;
  a ← agent_of_path m id;
  l ← get_mcp_servers (mb_account m) (a_name a);
  mret (servers_view l).

Definition delete_servers (m : member) (id : string) : M pyval :=
  id ← path_uuid id;
  a ← agent_of_path m id;
  _ ← remove_mcp_servers (mb_account m) (a_name a);
  mret PNone.

(** The tier is not asked for. *)
Definition get_channels (m : member) (id : string) : M pyval :=
  id ← path_uuid id;
  a ← answering not_found_404 (get_agent_by_id (mb_account m) id);
  s ← getS;
  mret (PDict [("channels", PList (map channel_line (List.filter (fun c => String.eqb (ch_agent_id c) (a_id a)) (channel_rows s))))]).

Definition post_channel (m : member) (id kind : string) (config : list (string * pyval)) : M pyval :=
  id ← path_uuid id;
  if negb (check_channel kind) then unprocessable
  else
    a ← agent_of_path m id;
    c ← answering conflict_409 (add_channel b64decode kek_b64 (mb_account m) (a_name a) kind (PDict config));
    mret (channel_view c).

Definition delete_channel (m : member) (id kind : string) : M pyval :=
  id ← path_uuid id;
  a ← agent_of_path m id;
  answering not_found_404 (remove_channel (mb_account m) (a_name a) kind);;
  mret PNone.

(** *** Limits *)

Definition overrides_of (b : limits_request) : list (string * pyval) :=
  override "max_iterations" (lr_iterations b) ++ override "max_ai_tokens" (lr_ai_tokens b)
  ++ override "max_execution_seconds" (lr_seconds b) ++ override "max_functions_called" (lr_functions b).

Definition put_limits (m : member) (id : string) (b : limits_request) : M pyval :=
  id ← path_uuid id;
  if negb (check_limits b) then unprocessable
  else
    a ← agent_of_path m id;
    let overrides := overrides_of b in
    let a := with_limits a (match overrides with [] => None | _ => Some overrides end) in
    put_record a;;
    mret (limits_view (mb_tier m) (row a) (match overrides with [] => false | _ => true end)).

Definition get_limits (m : member) (id : string) : M pyval :=
  id ← path_uuid id;
  a ← agent_of_path m id;
  mret (limits_view (mb_tier m) (row a) (match orchestration_limits (row a) with None | Some [] => false | _ => true end)).

Definition delete_limits (m : member) (id : string) : M pyval :=
  id ← path_uuid id;
  a ← agent_of_path m id;
  put_record (with_limits a None);;
  mret PNone.

(** ** The router *)

Definition endpoint (m : member) (rq : api_request) : M pyval :=
  match rq with
  | PostAgent b => post_agent m b
  | GetAgents => get_agents m
  | GetAgent id => get_one m id
  | PostStart id => post_start m id
  | PostStop id => post_stop m id
  | DeleteAgent id confirm => delete_agent m id confirm
  | GetRuns id limit offset => get_runs m id limit offset
  | PostSchedule id b => post_schedule m id b
  | GetSchedules id => get_schedules m id
  | DeleteSchedule id x => delete_schedule_endpoint m id x
  | PostWebhook id b => post_webhook m id b
  | GetWebhooks id => get_webhooks m id
  | DeleteWebhook id x => delete_webhook m id x
  | PostTrigger id x => post_trigger m id x
  | PutState id key v => put_state m id key v
  | GetState id key => get_state_endpoint m id key
  | DeleteState id key => delete_state_endpoint m id key
  | GetStateKeys id => get_state_keys m id
  | PutAi id b => put_ai m id b
  | DeleteAi id => delete_ai m id
  | PutServers id l => put_servers m id l
  | GetServers id => get_servers m id
  | DeleteServers id => delete_servers m id
  | GetChannels id => get_channels m id
  | PostChannel id kind config => post_channel m id kind config
  | DeleteChannel id kind => delete_channel m id kind
  | PutLimits id b => put_limits m id b
  | GetLimits id => get_limits m id
  | DeleteLimits id => delete_limits m id
  | PostClone id name => post_clone m id name
  end.

Context (cfg : settings) (effective_tier : Auth.user -> string).

(** A request with its header [Authorization], at a time, on the tables of
    users ([d]) and on those of agents. *)
Definition serve_api (now : Z) (authorization : option string) (d : Auth.db) (rq : api_request) : M pyval :=
  transaction
    (m ← lift_res (match sign_in cfg effective_tier (scope_of rq) now authorization d with Ok m => Ok m | Err e => Err (Service e) end);
     endpoint m rq).

Definition agent_telemetry (now : Z) (token : string) (d : Auth.db) (id : string) : M string :=
  id ← path_uuid id;
  user ← lift_res (match telemetry_user cfg now token d with Ok u => Ok u | Err e => Err (Service e) end);
  _require_agent_tier (effective_tier user);;
  account ← lift_res (match reading (account_of_user "Account not found" (Auth.u_id user)) d with Ok a => Ok a | Err e => Err (Service e) end);
  a ← answering not_found_404 (get_agent_by_id (Auth.a_id account) id);
  mret (a_id a).
End endpoints.

(** ** What stands before an operation changes nothing *)

Section before.
Context `{Outside} `{Host}.

Abbreviation M := (stm fleet Agents.exn).

Lemma answering_state {A} table (m : M A) s : (answering table m s).2 = (m s).2.
Proof.
  unfold answering, try_except. destruct (m s) as [[a|e] s']; [done|]. destruct e as [[c msg| | | | | |]| | | | | | | |]; try done.
  by destruct (List.find _ table) as [[? [? ?]]|].
Qed.
Lemma path_uuid_state text s : (path_uuid text s).2 = s.
Proof. unfold path_uuid, checked. by destruct (parse_uuid text). Qed.
Lemma checked_state {A} (o : option A) (s : fleet) : (checked o s).2 = s.
Proof. by destruct o. Qed.
Lemma tier_state t (s : fleet) : (_require_agent_tier t s).2 = s.
Proof. unfold _require_agent_tier. by destruct (str_in t agent_tiers). Qed.

(** The agent of the path is one of the account. *)
Lemma by_id_run acc id s :
  match get_agent_by_id acc id s with
  | (Ok a, s') => s' = s /\ a ∈ records s /\ a_account a = acc /\ a_id a = id
  | (Err _, s') => s' = s
  end.
Proof.
  unfold get_agent_by_id, mbind, stm_bind.
  destruct (one_cases records (fun a => of_account acc a && String.eqb (a_id a) id) s) as [(a & -> & Ha & Hp)|[[-> _]|(e & ->)]]; [|done..].
  apply andb_true_iff in Hp as [Hacc Hid]. apply String.eqb_eq in Hacc, Hid. done.
Qed.

Lemma get_by_id_state acc id s : (get_agent_by_id acc id s).2 = s.
Proof. pose proof (by_id_run acc id s) as Hr. by destruct (get_agent_by_id acc id s) as [[a|e] s']; [destruct Hr as [-> _]|subst]. Qed.

Lemma agent_of_path_run m id s :
  match agent_of_path m id s with
  | (Ok a, s') => s' = s /\ a ∈ records s /\ a_account a = mb_account m /\ a_id a = id /\ str_in (mb_tier m) agent_tiers = true
  | (Err _, s') => s' = s
  end.
Proof.
  unfold agent_of_path, _require_agent_tier, mbind, stm_bind. destruct (str_in (mb_tier m) agent_tiers); [|done]. cbn [mret stm_ret].
  pose proof (by_id_run (mb_account m) id s) as Hr. pose proof (answering_state not_found_404 (get_agent_by_id (mb_account m) id) s) as Hs.
  unfold answering, try_except in *. destruct (get_agent_by_id (mb_account m) id s) as [[a|e] s']; [naive_solver|]. cbn in Hs. subst s'.
  destruct e as [[c msg| | | | | |]| | | | | | | |]; cbn in *; try congruence. by destruct (bool_decide _).
Qed.

End before.

(** ** A request touches no other account *)

Section tenancy.
Context `{Outside} `{Host} `{Aead} `{Crypto} (b64decode : string -> string) (kek_b64 : string) (F : string -> bool).
#[local] Set Default Proof Using "Type*".

Abbreviation M := (stm fleet Agents.exn).
Abbreviation confined acc := (leaves F (others_of F acc)).
Abbreviation quiet := (frame (outsiders F)).

Lemma then_quiet {A B} I (m : M A) (c : A -> M B) : leaves F I m -> (forall a, quiet (c a)) -> leaves F I (m ≫= c).
Proof. intros Hm Hc s Hs. specialize (Hm s Hs). unfold mbind, stm_bind. destruct (m s) as [[a|e] s']; [|done]. by rewrite Hc. Qed.

Lemma after_read {A B} acc (m : M A) (c : A -> M B) : (forall s, (m s).2 = s) -> (forall a, confined acc (c a)) -> confined acc (m ≫= c).
Proof.
  intros Hm Hc s Hs. specialize (Hm s). unfold mbind, stm_bind. destruct (m s) as [[a|e] s']; cbn in Hm; subst s'; [|done]. by apply Hc.
Qed.

Lemma answering_confined {A} I table (m : M A) : leaves F I m -> leaves F I (answering table m).
Proof. intros Hm s Hs. rewrite answering_state. by apply Hm. Qed.
Lemma answering_quiet {A} table (m : M A) : quiet m -> quiet (answering table m).
Proof. intros Hm s. rewrite answering_state. apply Hm. Qed.

Lemma agent_of_path_confined {B} m id (k : agent_record -> M B) :
  (forall a, F (a_id a) = false -> confined (mb_account m) (k a)) -> confined (mb_account m) (agent_of_path m id ≫= k).
Proof.
  intros Hk s Hs. pose proof (agent_of_path_run m id s) as Hr. unfold mbind, stm_bind.
  destruct (agent_of_path m id s) as [[a|e] s']; [|by subst]. destruct Hr as (-> & Ha & Hacc & _).
  apply Hk; [|done]. by eapply own_agent.
Qed.

Lemma put_confined acc a : F (a_id a) = false -> confined acc (put_record a).
Proof. intros Ha s _. exact (put_record_leaves F (fun _ => True) a Ha s Logic.I). Qed.

Lemma view_quiet a n : quiet (view_agent a n).
Proof. by intros s. Qed.

Lemma list_quiet acc : quiet (list_agents acc).
Proof. by intros s. Qed.
Lemma slots_quiet acc tier : quiet (get_agent_slots acc tier).
Proof.
  apply frame_bind; [intros s; unfold get_tier_config; by case_match|]. intros cfg. by apply frame_bind; [intros s|intros u; apply frame_ret].
Qed.
Lemma named_list_quiet {A} acc name (rows : fleet -> list A) (p : agent_record -> A -> bool) :
  quiet (a ← get_agent acc name; s ← getS; mret (List.filter (p a) (rows s))).
Proof. apply frame_bind; [intros s; by rewrite get_agent_same|]. intros a. by intros s. Qed.

(** The steps of an endpoint before its operation. *)
Ltac enter :=
  repeat match goal with
  | |- leaves _ _ (path_uuid _ ≫= _) => apply after_read; [apply path_uuid_state|intros ?]
  | |- leaves _ _ (checked _ ≫= _) => apply after_read; [apply checked_state|intros ?]
  | |- leaves _ _ (_require_agent_tier _ ≫= _) => apply after_read; [apply tier_state|intros ?]
  | |- leaves _ _ (if _ then _ else _) => case_match; try apply leaves_raise
  | |- leaves _ _ (agent_of_path _ _ ≫= _) => apply agent_of_path_confined; intros ? ?
  end.
Ltac finish := apply then_quiet; [try apply answering_confined|intros ?; first [apply frame_ret|apply view_quiet]].
Ltac reads := apply leaves_frame, frame_bind; [try apply answering_quiet|intros ?; try (apply frame_ret)].

Lemma endpoint_confined m rq : confined (mb_account m) (endpoint b64decode kek_b64 m rq).
Proof.
  destruct rq; cbn [endpoint]; unfold post_agent, get_agents, get_one, post_start, post_stop, delete_agent, get_runs, post_schedule, get_schedules,
    delete_schedule_endpoint, post_webhook, get_webhooks, delete_webhook, post_trigger, put_state, get_state_endpoint, delete_state_endpoint,
    get_state_keys, put_ai, delete_ai, put_servers, get_servers, delete_servers, get_channels, post_channel, delete_channel, put_limits,
    get_limits, delete_limits, post_clone; enter.
  - finish. apply create_confined.
  - by apply leaves_frame.
  - reads; [apply list_quiet|]. apply frame_bind; [apply answering_quiet, slots_quiet|]. intros [[? ?] ?]. by intros s.
  - apply leaves_frame, frame_bind; [apply frame_get|intros s]. apply frame_bind; [apply frame_one, _|intros n; apply view_quiet].
  - finish. apply start_confined.
  - finish. apply stop_confined.
  - finish. apply destroy_confined.
  - reads. apply frame_bind; [intros s; by rewrite get_by_id_state|]. intros x. by intros s.
  - finish. apply add_schedule_confined.
  - reads. apply (named_list_quiet _ _ schedules (fun a x => String.eqb (sc_agent_id x) (a_id a))).
  - finish. apply remove_schedule_confined.
  - finish. apply add_webhook_confined.
  - reads. apply (named_list_quiet _ _ webhooks (fun a x => String.eqb (wh_agent_id x) (a_id a))).
  - finish. apply remove_webhook_confined.
  - reads; [apply (named_list_quiet _ _ webhooks (fun a x => String.eqb (wh_agent_id x) (a_id a)))|]. by destruct (List.find _ _).
  - reads; [apply frame_ask_out, _|]. apply frame_bind; [apply answering_quiet, frame_on_state, _|intros e; apply frame_ret].
  - reads. apply frame_on_state, _.
  - reads. apply frame_on_state, _.
  - reads; [apply frame_on_state, _|]. by repeat case_match.
  - finish. apply configure_ai_confined.
  - finish. apply remove_ai_confined.
  - finish. apply configure_servers_confined.
  - reads. apply frame_bind; [intros s; by rewrite get_agent_same|]. intros x. apply frame_ret.
  - finish. apply (put_found F (mb_account m) _ (fun a => with_servers a None) (fun a => with_servers a None)). done.
  - reads; [intros s; by rewrite get_by_id_state|]. by intros s.
  - finish. apply add_channel_confined.
  - finish. apply remove_channel_confined.
  - finish. by apply put_confined.
  - by apply leaves_ret.
  - finish. by apply put_confined.
  - finish. apply clone_confined.
Qed.
End tenancy.

(** ** Who gets in *)

Section gate.
Context `{Crypto} (cfg : settings) (effective_tier : Auth.user -> string).

Definition admitted (required : string) (now : Z) (authorization : option string) (d : Auth.db) (m : member) : Prop :=
  exists token payload user_id u a,
    bearer_token authorization = Ok token /\ verify_access_token cfg now token = Ok payload /\ has_scope required payload = true /\
    subject payload = Ok user_id /\ uuid_parse user_id = Some (Auth.u_id u) /\ u ∈ Auth.users d /\ Auth.status u = "active" /\
    a ∈ Auth.accounts d /\ Auth.a_user_id a = Auth.u_id u /\ m = Member (Auth.u_id u) (effective_tier u) (Auth.a_id a).

Lemma token_errors_Ok {A} (r : res Security.exn A) a : token_errors r = Ok a -> r = Ok a.
Proof. unfold token_errors. by repeat case_match. Qed.

Lemma reading_bind {A B} (m : Auth.M A) (k : A -> Auth.M B) d b :
  (forall s, (m s).2 = s) -> reading (m ≫= k) d = Ok b -> exists a, reading m d = Ok a /\ reading (k a) d = Ok b.
Proof.
  intros Hm. unfold reading, mbind, stm_bind. specialize (Hm (Session d d [])). destruct (m (Session d d [])) as [[a|e] s]; cbn in Hm; subst s; [|done].
  intros Hk. by exists a.
Qed.

Lemma scalar_Ok {A} (l : list A) d a : reading (scalar_one_or_none l) d = Ok (Some a) -> a ∈ l.
Proof. destruct l as [|x [|y l]]; [done| |done]. intros [= ->]. left. Qed.

Lemma scalar_state_Ok {A} (l : list A) d o : reading (scalar_one_or_none l) d = Ok o -> match o with Some a => a ∈ l | None => l = [] end.
Proof. destruct l as [|x [|y l]]; intros H'; [by injection H' as <-| |done]. injection H' as <-. left. Qed.

Lemma id_column_Ok t d u : reading (id_column t) d = Ok u -> uuid_parse t = Some u.
Proof. unfold reading, id_column. destruct (uuid_parse t); [by intros [= ->]|done]. Qed.
Lemma id_column_state t s : (id_column t s).2 = s.
Proof. unfold id_column. by destruct (uuid_parse t). Qed.
Lemma scalar_state {A} (l : list A) (s : session) : (scalar_one_or_none l s : res _ _ * _).2 = s.
Proof. by destruct l as [|x [|y l]]. Qed.
Lemma found_user_state id s : (user_by_id id s).2 = s.
Proof. unfold user_by_id, mbind, stm_bind, query. apply scalar_state. Qed.

Lemma user_by_id_Ok id d u : reading (user_by_id id) d = Ok (Some u) -> u ∈ Auth.users d /\ Auth.u_id u = id.
Proof. intros Hu. apply scalar_Ok in Hu. apply elem_of_filter_bool in Hu as [? ?%String.eqb_eq]. done. Qed.

Lemma active_Ok t d uid : reading (require_active_status t) d = Ok uid ->
  exists u, uuid_parse t = Some (Auth.u_id u) /\ u ∈ Auth.users d /\ Auth.status u = "active" /\ uid = t.
Proof.
  intros Hr. apply reading_bind in Hr as (id & Hid%id_column_Ok & Hr); [|apply id_column_state].
  apply reading_bind in Hr as (found & Hf & Hr); [|apply found_user_state].
  destruct found as [u|]; [|done]. apply user_by_id_Ok in Hf as [Hu He]. revert Hr. unfold reading.
  repeat case_match; try done. intros [= <-]. exists u. rewrite Hid, He. bool_to_prop. done.
Qed.

Lemma current_user_Ok t d u : reading (get_current_user t) d = Ok u -> uuid_parse t = Some (Auth.u_id u) /\ u ∈ Auth.users d.
Proof.
  intros Hr. apply reading_bind in Hr as (id & Hid%id_column_Ok & Hr); [|apply id_column_state].
  apply reading_bind in Hr as (found & Hf & Hr); [|apply found_user_state].
  destruct found as [x|]; [|done]. apply user_by_id_Ok in Hf as [Hu He]. injection Hr as ->. by rewrite Hid, He.
Qed.

Lemma current_account_Ok t d a :
  reading (get_current_account t) d = Ok a -> uuid_parse t = Some (Auth.a_user_id a) /\ a ∈ Auth.accounts d.
Proof.
  intros Hr. apply reading_bind in Hr as (id & Hid%id_column_Ok & Hr); [|apply id_column_state].
  apply reading_bind in Hr as (rows & Hrows & Hr); [|done]. injection Hrows as <-.
  apply reading_bind in Hr as (found & Hf%scalar_state_Ok & Hr); [|apply scalar_state].
  destruct found as [x|]; [|done]. injection Hr as ->. apply elem_of_filter_bool in Hf as [? ?%String.eqb_eq]. split; [congruence|done].
Qed.

(** Whoever is let in has a valid access token with the scope, whose subject is
    an active user, and gets the account of that user. *)
Lemma sign_in_Ok required now authorization d m :
  NoDup (map Auth.u_id (Auth.users d)) ->
  sign_in cfg effective_tier required now authorization d = Ok m -> admitted required now authorization d m.
Proof.
  unfold sign_in, require_scope, get_current_user_id, mbind, res_bind. intros Hnd.
  destruct (bearer_token authorization) as [token|] eqn:Et; [|done].
  destruct (verify_access_token cfg now token) as [payload|e] eqn:Ev.
  2: { intros Hx. exfalso. revert Hx. unfold token_errors. repeat case_match; done. }
  destruct (has_scope required payload) eqn:Es; [|done]. cbn [token_errors].
  destruct (subject payload) as [uid|e] eqn:Eu.
  2: { intros Hx. exfalso. revert Hx. unfold token_errors. repeat case_match; done. }
  cbn [token_errors].
  destruct (reading (require_active_status uid) d) as [active|] eqn:Ea; [|done]. apply active_Ok in Ea as (u & Hu & Hin & Hst & ->).
  destruct (reading (get_current_user uid) d) as [x|] eqn:Ex; [|done]. apply current_user_Ok in Ex as [Hx Hxin].
  destruct (reading (get_current_account uid) d) as [a|] eqn:Ec; [|done]. apply current_account_Ok in Ec as [Ha Hain]. intros [= <-].
  assert (x = u) as -> by (apply (NoDup_map_inj Auth.u_id (Auth.users d)); [done..|congruence]).
  exists token, payload, uid, u, a. repeat split; try done. congruence.
Qed.
End gate.

(** ** Claims *)

Section serving.
Context `{Outside} `{Host} `{Aead} `{Crypto} (b64decode : string -> string) (kek_b64 : string).
Context (cfg : settings) (effective_tier : Auth.user -> string).

Lemma rolled_back_same s : rolled_back s s = s.
Proof. destruct s as [[] ? ? ? ? ? ? ?]. unfold rolled_back. cbn. f_equal. f_equal. by destruct states. Qed.

(** [C22] A request whose token has not the scope of the endpoint, or whose user is not
    active or has no account, changes nothing.  Any other request is one of a
    member whose token is valid, and whatever it asks for, with any identifiers,
    and whether it is answered or refused, no row of another account's agents, of
    their replicas, schedules and webhooks is added, changed or removed. *)
Theorem agent_api_guarded now authorization d rq s : wf (db_of s) -> NoDup (map Auth.u_id (Auth.users d)) ->
  let o := serve_api b64decode kek_b64 cfg effective_tier now authorization d rq s in
  (exists e, sign_in cfg effective_tier (scope_of rq) now authorization d = Err e /\ o = (Err (Service e), s)) \/
  (exists m, admitted cfg effective_tier (scope_of rq) now authorization d m /\ o = transaction (endpoint b64decode kek_b64 m rq) s /\
     outsiders (foreign (mb_account m) (records s)) o.2 = outsiders (foreign (mb_account m) (records s)) s).
Proof.
  intros Hw Hnd o. subst o. pose proof (sign_in_Ok cfg effective_tier (scope_of rq) now authorization d) as Hin.
  unfold serve_api, transaction. unfold mbind, stm_bind, lift_res.
  destruct (sign_in cfg effective_tier (scope_of rq) now authorization d) as [m|e].
  - specialize (Hin m Hnd eq_refl).
    pose proof (endpoint_confined b64decode kek_b64 (foreign (mb_account m) (records s)) m rq s (conj Hw (fun _ => eq_refl))) as K.
    destruct (endpoint b64decode kek_b64 m rq s) as [[a|e] s'] eqn:E; right; exists m; rewrite E; (split; [exact Hin|]); (split; [reflexivity|]); [exact K|reflexivity].
  - left. exists e. by rewrite rolled_back_same.
Qed.
End serving.

(** ** The endpoints and the tools *)

Definition answered {E A} (r : res E A) : bool := match r with Ok _ => true | Err _ => false end.

(** The tool that does what a request asks for, with the identifier in its path. *)
Definition tool_of (agent_name : string) (rq : api_request) : option (string * agent_tool) :=
  match rq with
  | PostStart id => Some (id, StartTool agent_name None)
  | PostStop id => Some (id, StopTool agent_name None)
  | DeleteAgent id true => Some (id, DestroyTool agent_name true)
  | PostClone id name => name ← check_clone name; Some (id, CloneTool agent_name name)
  | PostSchedule id b =>
      b ← check_schedule b;
      Some (id, ScheduleTool agent_name (cs_function_name b) (cs_cron b) (PDict (cs_policy b)) (cs_timezone b) "single" "direct")
  | GetSchedules id => Some (id, ListSchedules agent_name)
  | DeleteSchedule id x => Some (id, UnscheduleTool agent_name x)
  | PostWebhook id b => b ← check_webhook b; Some (id, WebhookTool agent_name (cw_path b) (cw_handler b) (cw_secret b) "direct")
  | GetWebhooks id => Some (id, ListWebhooks agent_name)
  | DeleteWebhook id x => Some (id, UnhookTool agent_name x)
  | DeleteAi id => Some (id, UnaiTool agent_name)
  | PutServers id l => if check_servers l then Some (id, ServersTool agent_name (map (fun nc => (nc.1, dump_server nc.2)) l)) else None
  | PostChannel id kind config => if check_channel kind then Some (id, ChannelTool agent_name kind (PDict config)) else None
  | DeleteChannel id kind => Some (id, UnchannelTool agent_name kind)
  | PutLimits id b =>
      if check_limits b then Some (id, LimitsTool agent_name (lr_iterations b) (lr_ai_tokens b) (lr_seconds b) (lr_functions b)) else None
  | _ => None
  end.

Section agreement.
Context `{Outside} `{Host}.

Abbreviation M := (stm fleet Agents.exn).

(** Two programs that change the same and answer both or neither. *)
Definition same_effect {A B} (m1 : M A) (m2 : M B) (s : fleet) : Prop :=
  (m1 s).2 = (m2 s).2 /\ answered (m1 s).1 = answered (m2 s).1.

Lemma same_transaction {A B} (m1 : M A) (m2 : M B) s : same_effect m1 m2 s -> same_effect (transaction m1) (transaction m2) s.
Proof.
  unfold same_effect, transaction. destruct (m1 s) as [[a|e] s1], (m2 s) as [[b|e'] s2]; intros [Hs Ha]; cbn in *; [done|discriminate Ha..|by rewrite Hs].
Qed.

Lemma answering_answered {A} table (m : M A) s :
  match (m s).1 with Ok a => answering table m s = (Ok a, (m s).2) | Err _ => answered (answering table m s).1 = false end.
Proof.
  unfold answering, try_except. destruct (m s) as [[a|e] s']; [done|]. destruct e as [[c msg| | | | | |]| | | | | | | |]; try done.
  cbn. by destruct (List.find _ table) as [[? [? ?]]|].
Qed.

(** What is done with an answer changes nothing and does not fail. *)
Definition replies {A} (m : M A) : Prop := forall s, (m s).2 = s /\ answered (m s).1 = true.

(** An operation, with its errors named or not, and the operation. *)
Lemma same_answering {A B C} table (m : M A) (c : A -> M B) (c' : A -> M C) s : (forall a, replies (c a)) -> (forall a, replies (c' a)) ->
  same_effect (answering table m ≫= c) (m ≫= c') s.
Proof.
  unfold same_effect, mbind, stm_bind. intros Hc Hc'. pose proof (answering_answered table m s) as Ha. pose proof (answering_state table m s) as Hs.
  destruct (m s) as [[a|e] s']; cbn in *.
  - rewrite Ha. destruct (Hc a s') as [-> ->], (Hc' a s') as [-> ->]. done.
  - by destruct (answering table m s) as [[b|e'] s2]; cbn in *.
Qed.

Lemma same_op {A B C} (m : M A) (c : A -> M B) (c' : A -> M C) s : (forall a, replies (c a)) -> (forall a, replies (c' a)) ->
  same_effect (m ≫= c) (m ≫= c') s.
Proof.
  unfold same_effect, mbind, stm_bind. intros Hc Hc'. destruct (m s) as [[a|e] s']; [|done]. destruct (Hc a s') as [-> ->], (Hc' a s') as [-> ->]. done.
Qed.

Lemma same_uuid {A B} text (f : string -> M A) (g : string -> M B) s :
  (forall id, same_effect (f id) (g id) s) -> same_effect (path_uuid text ≫= f) (as_uuid text ≫= g) s.
Proof. intros Hf. unfold path_uuid, as_uuid, checked. destruct (parse_uuid text) as [id|]; [apply Hf|done]. Qed.

Lemma one_run {A} (rows : fleet -> list A) (key : A -> string) p s a : NoDup (map key (rows s)) -> a ∈ rows s -> p a = true ->
  (forall b, b ∈ rows s -> p b = true -> key b = key a) -> Agents.one rows p s = (Ok (Some a), s).
Proof. intros Hn Ha Hp Hk. unfold Agents.one. by rewrite (filter_unique key p (rows s) a). Qed.

Lemma path_run m id a s : wf (db_of s) -> a ∈ records s -> a_account a = mb_account m -> str_in (mb_tier m) agent_tiers = true ->
  a_id a = id -> agent_of_path m id s = (Ok a, s).
Proof.
  intros Hw Ha Hacc Ht <-. unfold agent_of_path, _require_agent_tier, answering, try_except, get_agent_by_id, mbind, stm_bind. rewrite Ht. cbn [mret stm_ret].
  rewrite (one_run records a_id _ s a); [done|exact (wf_ids _ Hw)|done| |].
  - unfold of_account. by rewrite Hacc, !String.eqb_refl.
  - intros b _ [_ ?%String.eqb_eq]%andb_true_iff. done.
Qed.

Lemma name_run acc a s : wf (db_of s) -> a ∈ records s -> a_account a = acc -> get_agent acc (a_name a) s = (Ok a, s).
Proof.
  intros Hw Ha <-. unfold get_agent, mbind, stm_bind.
  rewrite (one_run records a_name _ s a); [done|exact (wf_names _ Hw)|done| |].
  - unfold named, of_account. by rewrite !String.eqb_refl.
  - intros b _ [_ ?%String.eqb_eq]%andb_true_iff. done.
Qed.
End agreement.

Section agreed.
Context `{Outside} `{Host} `{Aead} `{Crypto} (b64decode : string -> string) (kek_b64 : string) (urls : url_settings).
Context (summarize : string -> string -> string -> string -> string -> option string).

Lemma uuid_step {A} text id (c : string -> stm fleet Agents.exn A) : parse_uuid text = Some id -> path_uuid text ≫= c = c id.
Proof. intros Hid. unfold path_uuid, checked. by rewrite Hid. Qed.
Lemma checked_step {A B} (b : B) (c : B -> stm fleet Agents.exn A) : checked (Some b) ≫= c = c b.
Proof. done. Qed.

(** The agent of the path, where it is found. *)
Lemma same_at_path {A B} m a (c : agent_record -> stm fleet Agents.exn A) (t : stm fleet Agents.exn B) s : wf (db_of s) -> a ∈ records s ->
  a_account a = mb_account m -> str_in (mb_tier m) agent_tiers = true -> same_effect (c a) t s -> same_effect (agent_of_path m (a_id a) ≫= c) t s.
Proof.
  intros Hw Ha Hacc Ht Hc. unfold same_effect, mbind, stm_bind in *. by rewrite (path_run m _ a s).
Qed.

(** [C23] A request on an agent of the account, whose body is as its schema asks, has the
    effect of the tool of the same name: the same tables and the same calls of
    Docker afterwards, whether it succeeds or not, and it succeeds when the tool does. *)
Theorem api_agrees_with_tools m k a id t rq s : wf (db_of s) -> a ∈ records s -> a_account a = mb_account m ->
  str_in (mb_tier m) agent_tiers = true -> k_account_id k = mb_account m -> k_tier k = mb_tier m ->
  parse_uuid id = Some (a_id a) -> tool_of (a_name a) rq = Some (id, t) ->
  same_effect (transaction (endpoint b64decode kek_b64 m rq)) (serve_tool b64decode kek_b64 urls summarize k t) s.
Proof.
  intros Hw Ha Hacc Ht Hka Hkt Hid Hrq. apply same_transaction.
  assert (forall A B (c : agent_record -> stm fleet Agents.exn A) (p : stm fleet Agents.exn B),
    same_effect (c a) p s -> same_effect (agent_of_path m (a_id a) ≫= c) p s) as Hat by (intros; by apply same_at_path).
  destruct rq; try discriminate Hrq; cbn [tool_of] in Hrq; repeat case_match; try discriminate Hrq; simplify_option_eq;
    cbn [endpoint run_agent_tool]; unfold post_start, post_stop, delete_agent, post_clone, post_schedule, get_schedules, delete_schedule_endpoint,
    post_webhook, get_webhooks, delete_webhook, delete_ai, put_servers, post_channel, delete_channel, put_limits, _start_agent, _stop_agent,
    _destroy_agent, _clone_agent, _add_schedule, _list_schedules, _remove_schedule, _add_webhook, _list_webhooks, _remove_webhook, _remove_agent_ai,
    CreateAgents._configure_mcp_servers, _add_channel, _remove_channel, _configure_orchestration_limits.
  all: rewrite (uuid_step _ _ _ Hid).
  all: rewrite ?Hka, ?Hkt.
  all: try match goal with E : ?o = Some ?x |- same_effect (checked ?o ≫= _) _ _ => rewrite E, checked_step end.
  all: try match goal with |- same_effect (path_uuid _ ≫= _) _ _ => apply same_uuid; intros ? end.
  all: try match goal with E : ?b = true |- context [negb ?b] => rewrite E end; cbn [negb].
  all: try (apply Hat; first [apply same_answering|apply same_op]; by intros ??).
  apply Hat. unfold same_effect, mbind, stm_bind. by rewrite (name_run (mb_account m) a s).
Qed.
End agreed.

(** ** Examples *)

Definition red_id : string := "01234567-89ab-cdef-0123-456789abcdef".
Definition red_st : st := St [AgentState.Agent "ag1" "acc1" "bot"; AgentState.Agent red_id "acc2" "fox"] [] None.
Definition red : agent_record :=
  AgentRecord (AgentRow red_id "acc2" "n2" "fox" (Some "ollama") (Some "llama3") None (Some "Be brief.") None None "standard" "execute_only")
    None "running" None 512 5 true None 1 None false None None None 0.
Definition red_fleet : @fleet scripted laptop :=
  Fleet (World two_store red_st [] [] [] (Sec [] ∅) (Script 0 [])) [open_agent; red] [] [] [open_hook] [] [] (Machine [] 0).

Lemma red_fleet_wf : wf (db_of red_fleet).
Proof.
  split; cbn; try (by repeat constructor); try (apply (bool_decide_unpack _); by vm_compute).
  - constructor; [|constructor; [|done]].
    + eexists. split; [apply elem_of_cons; by left|done].
    + eexists. split; [apply elem_of_cons; right; by apply list_elem_of_singleton|done].
  - intros a b t [->|[->|[]%not_elem_of_nil]%elem_of_cons]%elem_of_cons [->|[->|[]%not_elem_of_nil]%elem_of_cons]%elem_of_cons; cbn; congruence.
Qed.

Definition demo_api_db : Auth.db := Auth.Db [Auth.demo_user] [Auth.Account "acc2" Auth.demo_id None] [] [] [].
Definition demo_header (scope : string) : option string :=
  Some ("Bearer " +:+ write_token (access_payload toy_settings 1000 Auth.demo_id (Some [scope]) None None)).
Abbreviation demo_api scope rq :=
  (serve_api (fun x => x) demo_kek toy_settings (fun _ => "pro-agent") 2000 (demo_header scope) demo_api_db rq red_fleet).

Lemma demo_api_users : NoDup (map Auth.u_id (Auth.users demo_api_db)).
Proof. apply NoDup_singleton. Qed.

Lemma agent_api_guarded_witness :
  wf (db_of red_fleet) /\ NoDup (map Auth.u_id (Auth.users demo_api_db)) /\
  (demo_api "read" (DeleteAgent red_id true)).2 = red_fleet /\
  map a_name (records (demo_api "write" (DeleteAgent red_id true)).2) = ["bot"%string] /\
  let rq := DeleteAgent red_id true in let now := 2000 in let auth := demo_header "write" in let tier := fun _ => "pro-agent"%string in
  let o := serve_api (fun x => x) demo_kek toy_settings tier now auth demo_api_db rq red_fleet in
  (exists e, sign_in toy_settings tier (scope_of rq) now auth demo_api_db = Err e /\ o = (Err (Service e), red_fleet)) \/
  (exists m, admitted toy_settings tier (scope_of rq) now auth demo_api_db m /\ o = transaction (endpoint (fun x => x) demo_kek m rq) red_fleet /\
     outsiders (foreign (mb_account m) (records red_fleet)) o.2 = outsiders (foreign (mb_account m) (records red_fleet)) red_fleet).
Proof.
  split; [exact red_fleet_wf|]. split; [exact demo_api_users|]. split; [vm_compute; reflexivity|]. split; [vm_compute; reflexivity|].
  intros rq now auth tier.
  exact (agent_api_guarded (fun x => x) demo_kek toy_settings tier now auth demo_api_db rq red_fleet red_fleet_wf demo_api_users).
Defined.

Definition red_member : member := Member Auth.demo_id "pro-agent" "acc2".

Lemma api_agrees_with_tools_witness :
  parse_uuid red_id = Some (a_id red) /\ tool_of "fox" (DeleteAgent red_id true) = Some (red_id, DestroyTool "fox" true) /\
  same_effect (transaction (endpoint (fun x => x) demo_kek red_member (DeleteAgent red_id true)))
    (serve_tool (fun x => x) demo_kek demo_urls no_summary fox_owner (DestroyTool "fox" true)) red_fleet.
Proof.
  split; [vm_compute; reflexivity|]. split; [reflexivity|].
  exact (api_agrees_with_tools (fun x => x) demo_kek demo_urls no_summary red_member fox_owner red red_id (DestroyTool "fox" true)
    (DeleteAgent red_id true) red_fleet red_fleet_wf (list_elem_of_further _ _ _ (list_elem_of_here _ _)) eq_refl ltac:(vm_compute; reflexivity)
    eq_refl eq_refl ltac:(vm_compute; reflexivity) eq_refl).
Defined.

(** The tool leaves the prompt that it is not given; the endpoint clears it. *)
Example api_clears_prompt :
  let prompt s := map (fun a => system_prompt (row a)) (records s) in
  prompt (serve_tool (fun x => x) demo_kek demo_urls no_summary fox_owner (AiTool "fox" "ollama" "llama4" None None None) red_fleet).2
    = [system_prompt (row open_agent); Some "Be brief."]%string /\
  prompt (demo_api "write" (PutAi red_id (ConfigureAIRequest "ollama" "llama4" None None))).2 = [system_prompt (row open_agent); None].
Proof. by vm_compute. Qed.

(** The mode of a schedule is checked, and "single" whatever it says. *)
Example api_drops_mode :
  let policy := [("strategy", PStr "continue")] in
  map sc_mode (schedules (demo_api "write" (PostSchedule red_id (CreateScheduleRequest "svc.fn" "0 * * * *" "UTC" "cluster" policy))).2) = ["single"%string].
Proof. by vm_compute. Qed.

(** So is the tier of tools of a new agent: any valid one does the same. *)
Lemma api_drops_tool_tier `{Outside} `{Host} m name dn t t' s : t ∈ TOOL_TIERS -> t' ∈ TOOL_TIERS ->
  post_agent m (CreateAgentRequest name dn t) s = post_agent m (CreateAgentRequest name dn t') s.
Proof.
  intros Ht%str_in_spec Ht'%str_in_spec. unfold post_agent, check_create. cbn [ca_name ca_display_name ca_tool_tier]. rewrite Ht, Ht'.
  by destruct (_ && _ && true && _).
Qed.

(** "Triggered", and nothing is called. *)
Example trigger_changes_nothing :
  let hook := Webhook "11111111-2222-3333-4444-555555555555" red_id "in" "svc.fn" None "direct" None true in
  let s := Fleet (the_world red_fleet) (records red_fleet) [] [] [hook] [] [] (the_host red_fleet) in
  let id := "11111111-2222-3333-4444-555555555555"%string in
  endpoint (fun x => x) demo_kek red_member (PostTrigger red_id id) s =
    (Ok (PDict [("webhook_id", PStr id); ("triggered", PBool true); ("message", PStr "Webhook triggered")]), s).
Proof. by vm_compute. Qed.

(** A user who is suspended, with a token without any scope. *)
Example telemetry_of_suspended :
  let u := Auth.User Auth.demo_id "ada@example.com" None None "pro-agent" "suspended" true None None 0 0 None None in
  let d := Auth.Db [u] [Auth.Account "acc2" Auth.demo_id None] [] [] [] in
  let token := write_token (access_payload toy_settings 1000 Auth.demo_id None None None) in
  (agent_telemetry toy_settings (fun _ => "pro-agent") 2000 token d red_id red_fleet).1 = Ok red_id /\
  answered (sign_in toy_settings (fun _ => "pro-agent") "read" 2000 (demo_header "read") d) = false.
Proof. by vm_compute. Qed.
