(* ===== verification/NamespaceApi.v ===== *)
(** * The REST endpoints for namespaces, services and functions

    [api/v1/namespaces.py]: who is let in, the checks of the bodies, and the
    operations of [Namespaces] and [Functions].  Bodies have the types of their
    schemas, fresh identifiers and the time are arguments, and time stamps are left out
    of the answers.  The three endpoints for telemetry webhooks take for the account
    what [require_scope] returns, which is nothing. *)

From S2P Require Import Prelude Regex Security Auth AuthApi Routing CreateHandler CreateTools Namespaces Functions AiTools ToolDispatch CreateAgents AgentApi.
From stdpp Require Import gmap strings.

Open Scope Z_scope.

(** ** Requests *)

Record create_function_request := CreateFunctionRequest {
  cf_name : string; cf_backend : string; cf_description : option string; cf_tags : option (list string); cf_code : option string;
  cf_config : option pyval; cf_input_schema : option pyval; cf_output_schema : option pyval
}.

(** The parameters [ns], [svc] and [fn] are the names in the path. *)
Inductive ns_request :=
| PostNamespace (name : string) (description : option string) (allowlist : option (list string))
| GetNamespaces (page page_size : Z)
| GetNamespace (ns : string)
| PatchNamespace (ns : string) (description : option string) (allowlist : option (list string))
| RemoveNamespace (ns : string)
| PostService (ns name : string) (description : option string)
| GetServices (ns : string)
| RemoveService (ns svc : string)
| PostFunction (ns svc : string) (b : create_function_request)
| GetFunctions (ns svc : string) (tag : option string) (page page_size : Z)
| GetFunction (ns svc fn : string)
| GetVersion (ns svc fn : string) (n : Z)
| RemoveFunction (ns svc fn : string).

(** [CreateNamespaceRequest]: the pattern is that of a DNS label, up to the end of the text. *)
Definition check_namespace (name : string) (description : option string) : bool :=
  length_in 1 63 name && valid_label name && short 500 description && negb (str_in (str_lower name) RESERVED_NAMESPACE_NAMES).
Definition check_page (page page_size : Z) : bool := (1 <=? page) && (1 <=? page_size) && (page_size <=? 100).

Definition reads (rq : ns_request) : bool :=
  match rq with
  | GetNamespaces _ _ | GetNamespace _ | GetServices _ | GetFunctions _ _ _ _ _ | GetFunction _ _ _ | GetVersion _ _ _ _ => true
  | _ => false
  end.
Definition scope_needed (rq : ns_request) : string := if reads rq then "read" else "write".

(** The namespace in the path. *)
Definition path_namespace (rq : ns_request) : option string :=
  match rq with
  | PostNamespace _ _ _ | GetNamespaces _ _ => None
  | GetNamespace ns | PatchNamespace ns _ _ | RemoveNamespace ns | PostService ns _ _ | GetServices ns | RemoveService ns _
  | PostFunction ns _ _ | GetFunctions ns _ _ _ _ | GetFunction ns _ _ | GetVersion ns _ _ _ | RemoveFunction ns _ _ => Some ns
  end.

(** ** Endpoints *)

Abbreviation M := (stm store Security.exn).

Definition refuse {A} (status : Z) (detail : string) : M A := raise (Security.HTTPException status "" detail).
Definition bad_request {A} : M A := raise (Security.HTTPException 422 "VALIDATION_ERROR" "Request validation failed").

(** [try: m except C as e: raise HTTPException(...)] *)
Definition catching {A} (f : exc_class -> string -> option (Z * string)) (m : M A) : M A :=
  try_except m (fun e =>
    match e with
    | Mcp c message => match f c message with Some (status, detail) => Some (refuse status detail) | None => None end
    | _ => None
    end).

Definition as_404 (c : exc_class) (message : string) : option (Z * string) :=
  match c with NotFoundError => Some (404, message) | _ => None end.
Definition as_409 (c : exc_class) (message : string) : option (Z * string) :=
  match c with ConflictError => Some (409, message) | _ => None end.
Definition as_404_409 (c : exc_class) (message : string) : option (Z * string) :=
  match c with NotFoundError => Some (404, message) | ConflictError => Some (409, message) | _ => None end.
Definition no_namespace (name : string) : string := "Namespace '" +:+ name +:+ "' not found".
Definition hidden (name : string) (c : exc_class) (message : string) : option (Z * string) :=
  match c with NotFoundError => Some (404, no_namespace name) | ForbiddenError => Some (403, "Access denied") | _ => None end.
Definition hidden_or_taken (name : string) (c : exc_class) (message : string) : option (Z * string) :=
  match c with NotFoundError => Some (404, no_namespace name) | ConflictError => Some (409, message) | _ => None end.
Definition hidden_404 (name : string) (c : exc_class) (message : string) : option (Z * string) :=
  match c with NotFoundError => Some (404, no_namespace name) | _ => None end.

Section endpoints.
Context (urls : url_settings) (keyed : list string) (now : Z) (new_id version_id : string).

(** *** Answers *)

Definition calls_of (id : string) (s : store) : Z := default 0 (calls s !! id).
Definition namespace_view (n : namespace) (s : store) : pyval :=
  PDict [("id", PStr (n_id n)); ("name", PStr (n_name n)); ("description", otext (n_description n));
         ("create_endpoint", PStr (create_url urls (n_name n))); ("run_endpoint", PStr (run_url urls (n_name n)));
         ("network_allowlist", otexts (network_allowlist n)); ("call_count", PInt (calls_of (n_id n) s))].
Definition view_namespace (n : namespace) : M pyval := s ← getS; mret (namespace_view n s).

(** Deleted functions are counted too. *)
Definition function_count (x : service) (s : store) : Z :=
  Z.of_nat (length (List.filter (fun f => String.eqb (f_service_id f) (s_id x)) (functions s))).
Definition service_view (x : service) (s : store) : pyval :=
  PDict [("id", PStr (s_id x)); ("name", PStr (s_name x)); ("description", otext (s_description x)); ("namespace_id", PStr (s_namespace_id x));
         ("function_count", PInt (function_count x s)); ("call_count", PInt (calls_of (s_id x) s))].
Definition function_view (f : function) : pyval :=
  PDict [("id", PStr (f_id f)); ("name", PStr (f_name f)); ("description", otext (f_description f)); ("tags", otexts (f_tags f));
         ("active_version", PInt (active_version f)); ("call_count", PInt (call_count f)); ("service_id", PStr (f_service_id f))].
Definition detail_view (d : list (string * pyval)) : pyval :=
  PDict (List.filter (fun kv => str_in kv.1 ["id"; "name"; "description"; "tags"; "active_version"; "call_count"; "active_version_details"; "versions"]) d).

(** *** Namespaces *)

Definition owned (account_id ns : string) : M namespace := on_services (Namespaces.get_by_name ns (Some account_id) None None).
Definition readable (account_id user_id ns : string) : M namespace :=
  on_services (Namespaces.get_by_name ns (Some account_id) (Some user_id) (Some "read")).

Definition post_namespace (acc name : string) (description : option string) (allowlist : option (list string)) : M pyval :=
  if negb (check_namespace name description) then bad_request
  else catching as_409 (n ← on_services (Namespaces.create new_id acc (str_lower name) description allowlist); view_namespace n).

Definition get_namespaces (acc user : string) (page page_size : Z) : M pyval :=
  if negb (check_page page page_size) then bad_request
  else
    '(l, total) ← on_services (list_namespaces acc (Some user) page page_size);
    s ← getS;
    mret (PDict [("namespaces", PList (map (fun n => namespace_view n s) l)); ("total", PInt total); ("page", PInt page);
                 ("page_size", PInt page_size)]).

Definition get_namespace (acc user ns : string) : M pyval := catching (hidden ns) (n ← readable acc user ns; view_namespace n).

Definition patch_namespace (acc ns : string) (description : option string) (allowlist : option (list string)) : M pyval :=
  if negb (short 500 description) then bad_request
  else
    catching (hidden ns)
      (n ← owned acc ns;
       n ← on_services (Namespaces.update now (n_id n) acc description allowlist);
       view_namespace n).

(** Here too.  [keyed]: the namespaces of the API keys. *)
Definition remove_namespace (acc ns : string) : M pyval :=
  catching (hidden ns)
    (n ← owned acc ns;
     s ← getS;
     let found := List.filter (fun x => String.eqb (s_namespace_id x) (n_id n)) (services (Functions.ns s)) in
     let fns := List.filter (fun f => existsb (fun x => String.eqb (s_id x) (f_service_id f)) found) (functions s) in
     let keys := List.filter (String.eqb (n_id n)) keyed in
     n ← on_services (Namespaces.delete now (n_id n) acc);
     mret (PDict [("name", PStr (n_name n)); ("affected_services", PInt (Z.of_nat (length found)));
                  ("affected_functions", PInt (Z.of_nat (length fns))); ("affected_api_keys", PInt (Z.of_nat (length keys)))])).

(** *** Services *)

Definition view_service (x : service) : M pyval := s ← getS; mret (service_view x s).

Definition post_service (acc ns name : string) (description : option string) : M pyval :=
  if negb (length_in 1 63 name && short 500 description) then bad_request
  else
    catching (hidden_or_taken ns)
      (n ← owned acc ns;
       x ← on_services (service_create new_id (n_id n) name description);
       view_service x).

Definition get_services (acc user ns : string) : M pyval :=
  catching (hidden_404 ns)
    (n ← readable acc user ns;
     l ← on_services (service_list (n_id n));
     s ← getS;
     mret (PDict [("services", PList (map (fun x => service_view x s) l)); ("namespace", PStr ns)])).

Definition remove_service (acc ns svc : string) : M pyval :=
  catching as_404
    (n ← owned acc ns;
     x ← on_services (service_get_by_name (n_id n) svc);
     delete_service (s_id x);;
     mret PNone).

(** *** Functions *)

Definition post_function (acc ns svc : string) (b : create_function_request) : M pyval :=
  if negb (length_in 1 63 (cf_name b) && short 500 (cf_description b)) then bad_request
  else
    catching as_404_409
      (n ← owned acc ns;
       x ← on_services (service_get_by_name (n_id n) svc);
       f ← Functions.create now new_id version_id (s_id x) (cf_name b)
             (Spec (cf_backend b) (cf_code b) (cf_config b) (cf_input_schema b) (cf_output_schema b) None None None None)
             (cf_description b) (cf_tags b) "python" false "prompt";
       mret (function_view f)).

Definition get_functions (acc user ns svc : string) (tag : option string) (page page_size : Z) : M pyval :=
  if negb (check_page page page_size) then bad_request
  else
    catching as_404
      (n ← readable acc user ns;
       x ← on_services (service_get_by_name (n_id n) svc);
       '(l, total) ← Functions.list_functions (s_id x) page page_size (if truthy_ostr tag then Some [default "" tag] else None);
       mret (PDict [("functions", PList (map function_view l)); ("total", PInt total); ("service", PStr svc)])).

Definition readable_function (acc user ns svc fn : string) : M function :=
  n ← readable acc user ns;
  x ← on_services (service_get_by_name (n_id n) svc);
  Functions.get_by_name (s_id x) fn.

Definition get_function (acc user ns svc fn : string) : M pyval :=
  catching as_404 (f ← readable_function acc user ns svc fn; d ← describe (f_id f); mret (detail_view d)).

(** [FunctionService.get_version_detail] *)
Definition get_version_detail (function_id : string) (n : Z) : M pyval :=
  f ← Functions.get_by_id function_id;
  v ← Functions.get_version function_id n;
  mret (match version_details v with
        | PDict d => PDict (d ++ [("is_active", PBool (v_version v =? active_version f))])
        | d => d
        end).

(** The model of the response has no language. *)
Definition get_function_version (acc user ns svc fn : string) (n : Z) : M pyval :=
  catching as_404
    (f ← readable_function acc user ns svc fn;
     d ← get_version_detail (f_id f) n;
     mret (match d with PDict d => PDict (List.filter (fun kv => negb (String.eqb kv.1 "language")) d) | d => d end)).

Definition remove_function (acc ns svc fn : string) : M pyval :=
  catching as_404
    (n ← owned acc ns;
     x ← on_services (service_get_by_name (n_id n) svc);
     f ← Functions.get_by_name (s_id x) fn;
     Functions.delete now (f_id f) false;;
     mret PNone).

Definition ns_endpoint (acc user : string) (rq : ns_request) : M pyval :=
  match rq with
  | PostNamespace name d l => post_namespace acc name d l
  | GetNamespaces p n => get_namespaces acc user p n
  | GetNamespace ns => get_namespace acc user ns
  | PatchNamespace ns d l => patch_namespace acc ns d l
  | RemoveNamespace ns => remove_namespace acc ns
  | PostService ns name d => post_service acc ns name d
  | GetServices ns => get_services acc user ns
  | RemoveService ns svc => remove_service acc ns svc
  | PostFunction ns svc b => post_function acc ns svc b
  | GetFunctions ns svc tag p n => get_functions acc user ns svc tag p n
  | GetFunction ns svc fn => get_function acc user ns svc fn
  | GetVersion ns svc fn n => get_function_version acc user ns svc fn n
  | RemoveFunction ns svc fn => remove_function acc ns svc fn
  end.
(** *** Locks of functions, for administrators *)

Definition named_404 {A} (m : M A) : M A :=
  try_except m (fun e => match e with Mcp NotFoundError message => Some (raise (Security.HTTPException 404 "NOT_FOUND" message)) | _ => None end).

(** The function "service.name" of any namespace. *)
Definition locking {A} (namespace_name function_name : string) (act : function -> M A) : M A :=
  match split_once "." function_name with
  | None => raise (Security.HTTPException 400 "INVALID_FUNCTION" "function_name must be service.name")
  | Some (service_name, fn_name) =>
      n ← named_404 (on_services (Namespaces.get_by_name namespace_name None None None));
      named_404
        (x ← on_services (service_get_by_name (n_id n) service_name);
         f ← Functions.get_by_name (s_id x) fn_name;
         act f)
  end.
Definition lock_view (namespace_name function_name : string) (l : list (string * pyval)) : pyval :=
  PDict ([("function", PStr function_name); ("namespace", PStr namespace_name)] ++ l).

Definition post_lock (admin_id namespace_name function_name : string) : M pyval :=
  locking namespace_name function_name (fun f =>
    match parse_uuid admin_id with Some id => Functions.lock_function now (f_id f) id | None => raise ValueError end);;
  mret (lock_view namespace_name function_name [("locked", PBool true); ("locked_by", PStr admin_id)]).
Definition remove_lock (namespace_name function_name : string) : M pyval :=
  locking namespace_name function_name (fun f => Functions.unlock_function (f_id f));;
  mret (lock_view namespace_name function_name [("locked", PBool false)]).
End endpoints.

(** ** Requests with their tokens *)

Section serving.
Context `{Crypto} (cfg : settings) (urls : url_settings) (keyed : list string).

(** The account of a request, with its user. *)
Definition ns_sign_in (required : string) (now : Z) (authorization : option string) (d : Auth.db) : res Security.exn (string * string) :=
  _ ← require_scope cfg required now authorization;
  user_id ← get_current_user_id cfg now authorization;
  active ← reading (require_active_status user_id) d;
  account ← reading (get_current_account active) d;
  Ok (Auth.a_id account, Auth.a_user_id account).

(** Committed after an answer, rolled back after an exception. *)
Definition serve_namespaces (now : Z) (new_id version_id : string) (authorization : option string) (d : Auth.db) (rq : ns_request) : M pyval :=
  fun s =>
  match ns_sign_in (scope_needed rq) now authorization d with
  | Err e => (Err e, s)
  | Ok (acc, user) =>
      match ns_endpoint urls keyed now new_id version_id acc user rq s with
      | (Ok a, s') => (Ok a, s')
      | (Err e, _) => (Err e, s)
      end
  end.

(** The endpoints of locks, POST and DELETE, with what [require_admin] returns. *)
Definition serve_lock (now : Z) (authorization x_admin_key : option string) (d : Auth.db) (lock : bool) (namespace_name function_name : string)
    : M pyval :=
  fun s =>
  match reading (require_admin cfg now authorization x_admin_key) d with
  | Err e => (Err e, s)
  | Ok admin_id =>
      match (if lock then post_lock now admin_id namespace_name function_name else remove_lock namespace_name function_name) s with
      | (Ok a, s') => (Ok a, s')
      | (Err e, _) => (Err e, s)
      end
  end.

(** *** Telemetry webhooks *)

Inductive failure := Raised (e : Security.exn) | NoAttribute (name : string).

(** [account: Account = Depends(require_scope(...))]: the dependency returns [None],
    and the first thing each endpoint does is to read [account.id]. *)
Definition telemetry_account (required : string) (now : Z) (authorization : option string) : res failure string :=
  match require_scope cfg required now authorization with
  | Err e => Err (Raised e)
  | Ok _ => Err (NoAttribute "id")
  end.
End serving.

(** ** What a request leaves alone *)

Section others.
Variables (acc : string) (s0 : store).

(** The rows of other accounts, by their identifiers. *)
Definition other_namespace (id : string) : bool :=
  existsb (fun n => String.eqb (n_id n) id && negb (String.eqb (n_account_id n) acc)) (namespaces (Functions.ns s0)).
Definition other_service (id : string) : bool :=
  existsb (fun x => String.eqb (s_id x) id && other_namespace (s_namespace_id x)) (services (Functions.ns s0)).
Definition other_function (id : string) : bool :=
  existsb (fun f => String.eqb (f_id f) id && other_service (f_service_id f)) (functions s0).

Definition others (s : store) : list namespace * list service * list function * list version :=
  (List.filter (fun n => other_namespace (n_id n)) (namespaces (Functions.ns s)),
   List.filter (fun x => other_namespace (s_namespace_id x)) (services (Functions.ns s)),
   List.filter (fun f => other_function (f_id f)) (functions s),
   List.filter (fun v => other_function (v_function_id v)) (versions s)).

Definition quiet {A} (m : M A) : Prop := forall s, others (m s).2 = others s.
Definition reader {A} (m : M A) : Prop := forall s, (m s).2 = s.

Lemma reader_quiet {A} (m : M A) : reader m -> quiet m.
Proof. intros Hm s. by rewrite Hm. Qed.
Lemma others_bind {A B} (m : M A) (k : A -> M B) : quiet m -> (forall s a, (m s).1 = Ok a -> quiet (k a)) -> quiet (m ≫= k).
Proof.
  intros Hm Hk s. specialize (Hm s). specialize (Hk s). unfold mbind, stm_bind. destruct (m s) as [[a|e] s']; cbn in *; [|done]. by rewrite (Hk a).
Qed.
Lemma quiet_catching {A} f (m : M A) : quiet m -> quiet (catching f m).
Proof.
  intros Hm s. specialize (Hm s). unfold catching, try_except. destruct (m s) as [[a|e] s']; cbn in *; [done|].
  destruct e; try done. by destruct (f c message) as [[]|].
Qed.
Lemma others_ret {A} (a : A) : quiet (mret a).
Proof. done. Qed.
Lemma others_raise {A} e : quiet (raise e : M A).
Proof. done. Qed.
Lemma others_get : quiet getS.
Proof. done. Qed.

(** The steps of operations that write. *)
Lemma filter_replaced {A} (p : A -> bool) (key : A -> string) (x : A) l (F : string -> bool) :
  (forall y, p y = F (key y)) -> F (key x) = false -> List.filter p (map (fun y => if String.eqb (key y) (key x) then x else y) l) = List.filter p l.
Proof.
  intros Hp Hx. induction l as [|y l IH]; [done|]. cbn [map List.filter]. destruct (String.eqb_spec (key y) (key x)) as [E|E].
  - rewrite !Hp, E, Hx. exact IH.
  - destruct (p y); [f_equal|]; exact IH.
Qed.
Lemma filter_snoc {A} (p : A -> bool) l x : p x = false -> List.filter p (l ++ [x]) = List.filter p l.
Proof. intros Hx. rewrite List.filter_app. cbn. by rewrite Hx, app_nil_r. Qed.

Lemma put_namespace_quiet n : other_namespace (n_id n) = false -> quiet (on_services (put_namespace n)).
Proof. intros Hn s. unfold others. cbn. by rewrite (filter_replaced _ n_id n _ other_namespace). Qed.
Lemma put_function_quiet f : other_function (f_id f) = false -> quiet (put_function f).
Proof. intros Hn s. unfold others. cbn. unfold replace. by rewrite (filter_replaced _ f_id f _ other_function). Qed.
Lemma trust_quiet f : quiet (trust_fits f).
Proof. intros s. unfold trust_fits. by destruct (10 <? _). Qed.
Lemma insert_version_quiet v : other_function (v_function_id v) = false -> quiet (insert_version v).
Proof.
  intros Hv s. unfold insert_version, mbind, stm_bind. cbn [getS]. destruct (_ || _); [done|]. unfold others. cbn. by rewrite filter_snoc.
Qed.
Lemma insert_function_quiet f : other_function (f_id f) = false -> quiet (insert_function f).
Proof.
  intros Hf. apply others_bind; [apply others_get|]. intros ? s _. destruct (_ || _); [apply others_raise|].
  apply others_bind; [apply trust_quiet|]. intros ? ? _ t. unfold others. cbn. by rewrite filter_snoc.
Qed.
Lemma insert_service_quiet x : other_namespace (s_namespace_id x) = false -> quiet (on_services (insert_service x)).
Proof.
  intros Hx s. unfold on_services, insert_service, mbind, stm_bind. cbn [getS]. destruct (_ || _); [by destruct s|].
  unfold others. cbn. by rewrite filter_snoc.
Qed.
Lemma insert_namespace_quiet n : other_namespace (n_id n) = false -> quiet (on_services (insert_namespace n)).
Proof.
  intros Hn s. unfold on_services, insert_namespace, mbind, stm_bind. cbn [getS]. destruct (_ || _); [by destruct s|].
  unfold others. cbn. by rewrite filter_snoc.
Qed.
End others.

Section readers.

Lemma on_services_state {A} (m : stm Namespaces.tables Security.exn A) : (forall t, (m t).2 = t) -> reader (on_services m).
Proof. intros Hm s. unfold on_services. specialize (Hm (Functions.ns s)). destruct (m (Functions.ns s)) as [r t]. cbn in *. subst t. by destruct s. Qed.
Lemma reader_bind {A B} (m : M A) (k : A -> M B) : reader m -> (forall a, reader (k a)) -> reader (m ≫= k).
Proof. intros Hm Hk s. specialize (Hm s). unfold mbind, stm_bind. destruct (m s) as [[a|e] s']; cbn in Hm; subst s'; [apply Hk|done]. Qed.

Lemma select_state {A} (rows : Namespaces.tables -> list A) p t : (select rows p t).2 = t.
Proof. unfold select. by destruct (List.filter p (rows t)) as [|a [|b l]]. Qed.
Lemma select_bind {A B} (rows : Namespaces.tables -> list A) p (k : option A -> stm Namespaces.tables Security.exn B) t :
  (forall o, (k o t).2 = t) -> ((select rows p ≫= k) t).2 = t.
Proof.
  intros Hk. unfold mbind, stm_bind. destruct (select_cases rows p t) as [(a & -> & _)|[[-> _]| ->]]; [apply Hk..|done].
Qed.
Lemma check_owner_state n a u p t : (check_owner n a u p t).2 = t.
Proof.
  unfold check_owner. destruct a as [acc|]; [|done]. destruct (String.eqb _ _); [done|]. unfold mbind at 1, stm_bind at 1.
  assert (forall x y, (_check_share_access (n_id n) x y t).2 = t) as Hs by (intros; unfold _check_share_access; by apply select_bind).
  destruct u as [x|]; [destruct p as [y|]; [destruct (truthy_str y)|]|]; try done.
  specialize (Hs x y). destruct (_check_share_access (n_id n) x y t) as [[b|e] t']; cbn in Hs; subst t'; [by destruct b|done].
Qed.

Lemma by_name_state name a u p t : (Namespaces.get_by_name name a u p t).2 = t.
Proof. apply select_bind. intros [n|]; [apply check_owner_state|done]. Qed.
Lemma by_id_state i a u p t : (Namespaces.get_by_id i a u p t).2 = t.
Proof. apply select_bind. intros [n|]; [apply check_owner_state|done]. Qed.
Lemma service_by_name_state i name t : (service_get_by_name i name t).2 = t.
Proof. apply select_bind. by intros [x|]. Qed.
Lemma service_by_id_state i t : (service_get_by_id i t).2 = t.
Proof. apply select_bind. by intros [x|]. Qed.
Lemma list_namespaces_state acc u p n t : (list_namespaces acc u p n t).2 = t.
Proof. unfold list_namespaces, mbind, stm_bind. cbn [getS]. destruct (_ || _); [done|]. by destruct u. Qed.

Lemma one_reader {A B} (p : A -> bool) (rows : store -> list A) (k : option A -> M B) :
  (forall o, reader (k o)) -> reader (s ← getS; found ← lift_res (one_or_none p (rows s)); k found).
Proof.
  intros Hk s. unfold mbind, stm_bind. cbn [getS lift_res].
  destruct (one_or_none_cases p (rows s)) as [(a & E & _)|[[E _]|E]]; rewrite E; [apply Hk..|done].
Qed.
Lemma function_by_name_reader i name : reader (Functions.get_by_name i name).
Proof. apply (one_reader _ functions). by intros [f|]. Qed.
Lemma function_by_id_reader i : reader (Functions.get_by_id i).
Proof. apply (one_reader _ functions). by intros [f|]. Qed.
Lemma version_reader i n : reader (Functions.get_version i n).
Proof. apply (one_reader _ versions). by intros [v|]. Qed.
Lemma list_functions_reader i p n tags : reader (Functions.list_functions i p n tags).
Proof. intros s. unfold Functions.list_functions, mbind, stm_bind. cbn [getS]. by destruct (_ || _). Qed.
Lemma describe_reader i : reader (describe i).
Proof. apply reader_bind; [apply function_by_id_reader|]. by intros f s. Qed.
Lemma version_detail_reader i n : reader (get_version_detail i n).
Proof. apply reader_bind; [apply function_by_id_reader|]. intros f. apply reader_bind; [apply version_reader|]. by intros v s. Qed.

Lemma owned_reader acc ns : reader (owned acc ns).
Proof. apply on_services_state. intros t. apply by_name_state. Qed.
Lemma readable_reader acc user ns : reader (readable acc user ns).
Proof. apply on_services_state. intros t. apply by_name_state. Qed.
Lemma service_reader i name : reader (on_services (service_get_by_name i name)).
Proof. apply on_services_state. intros t. apply service_by_name_state. Qed.

(** *** What is found *)

Lemma service_found i name t x : (service_get_by_name i name t).1 = Ok x -> x ∈ services t /\ s_namespace_id x = i.
Proof.
  unfold service_get_by_name, mbind, stm_bind.
  destruct (select_cases services (fun x => String.eqb (s_namespace_id x) i && String.eqb (s_name x) (str_lower name)) t) as [(a & -> & Ha & Hp & _)|[[-> _]| ->]]; [|done..].
  intros [= <-]. apply andb_true_iff in Hp as [?%String.eqb_eq _]. done.
Qed.
Lemma namespace_by_id i a u p t n : (Namespaces.get_by_id i a u p t).1 = Ok n -> n_id n = i.
Proof.
  unfold Namespaces.get_by_id, mbind, stm_bind.
  destruct (select_cases namespaces (fun n => String.eqb (n_id n) i && Namespaces.is_live n) t) as [(b & -> & Hb & Hp & _)|[[-> _]| ->]]; [|done..].
  intros Hn. apply andb_true_iff in Hp as [<-%String.eqb_eq _]. f_equal. revert Hn. unfold check_owner.
  destruct a as [acc|]; [|by intros [= ->]]. destruct (String.eqb _ _); [by intros [= ->]|]. unfold mbind, stm_bind.
  match goal with |- context [match ?m t with _ => _ end] => destruct (m t) as [[[]|e] t'] end; [by intros [= ->]|done..].
Qed.
Lemma function_found i name s f : (Functions.get_by_name i name s).1 = Ok f -> f ∈ functions s /\ f_service_id f = i /\ Functions.is_live f = true.
Proof.
  unfold Functions.get_by_name, mbind, stm_bind. cbn [getS lift_res].
  destruct (one_or_none_cases (fun f => String.eqb (f_service_id f) i && String.eqb (f_name f) (str_lower name) && Functions.is_live f) (functions s))
    as [(a & -> & Ha & Hp & _)|[[-> _]| ->]]; [|done..].
  intros [= <-]. apply andb_true_iff in Hp as [[?%String.eqb_eq _]%andb_true_iff ?]. done.
Qed.
Lemma function_by_id i s f : (Functions.get_by_id i s).1 = Ok f -> f_id f = i.
Proof.
  unfold Functions.get_by_id, mbind, stm_bind. cbn [getS lift_res].
  destruct (one_or_none_cases (fun f => String.eqb (f_id f) i && Functions.is_live f) (functions s)) as [(a & -> & Ha & Hp & _)|[[-> _]| ->]]; [|done..].
  intros [= <-]. by apply andb_true_iff in Hp as [?%String.eqb_eq _].
Qed.

(** Who may read a namespace: its account, and the users it is shared with. *)
Definition entitled (reading : bool) (acc user : string) (t : Namespaces.tables) (n : namespace) : Prop :=
  n_account_id n = acc \/
  reading = true /\ exists x, x ∈ shares t /\ sh_namespace_id x = n_id n /\ sh_user_id x = user /\ status x = ACCEPTED /\ str_in "read" (permissions x) = true.

Definition at_path (reading : bool) (acc user ns : string) (t : Namespaces.tables) (n : namespace) : Prop :=
  n ∈ namespaces t /\ n_name n = str_lower ns /\ Namespaces.is_live n = true /\ entitled reading acc user t n.

Lemma share_found i user t b : (_check_share_access i user "read" t).1 = Ok b -> b = true ->
  exists x, x ∈ shares t /\ sh_namespace_id x = i /\ sh_user_id x = user /\ status x = ACCEPTED /\ str_in "read" (permissions x) = true.
Proof.
  unfold _check_share_access, mbind, stm_bind.
  match goal with |- context [select shares ?p t] => destruct (select_cases shares p t) as [(a & -> & Ha & Hp & _)|[[-> _]| ->]] end; [|naive_solver..].
  intros [= <-] Hr. apply andb_true_iff in Hp as [[?%String.eqb_eq ?%String.eqb_eq]%andb_true_iff ?%bool_decide_eq_true]. exists a. done.
Qed.

Lemma readable_found acc user ns s n : (readable acc user ns s).1 = Ok n -> at_path true acc user ns (Functions.ns s) n.
Proof.
  unfold readable, on_services, Namespaces.get_by_name. unfold mbind at 1, stm_bind at 1.
  destruct (select_cases namespaces (fun n => String.eqb (n_name n) (str_lower ns) && Namespaces.is_live n) (Functions.ns s)) as [(b & -> & Hb & Hp & _)|[[-> _]| ->]]; [|done..].
  apply andb_true_iff in Hp as [Hname%String.eqb_eq Hlive]. unfold check_owner.
  destruct (String.eqb_spec (n_account_id b) acc); [intros [= <-]; refine (conj Hb (conj Hname (conj Hlive _))); by left|]. change (truthy_str "read") with true. cbv iota.
  unfold mbind, stm_bind. destruct (_check_share_access (n_id b) user "read" (Functions.ns s)) as [[[]|e] t'] eqn:E; [|intros Hx; discriminate Hx..].
  intros [= <-]. refine (conj Hb (conj Hname (conj Hlive _))). right. split; [done|]. eapply share_found; [by rewrite E|done].
Qed.
Lemma owned_found acc user ns s n : (owned acc ns s).1 = Ok n -> at_path false acc user ns (Functions.ns s) n.
Proof.
  unfold owned, on_services, Namespaces.get_by_name. unfold mbind at 1, stm_bind at 1.
  destruct (select_cases namespaces (fun n => String.eqb (n_name n) (str_lower ns) && Namespaces.is_live n) (Functions.ns s)) as [(b & -> & Hb & Hp & _)|[[-> _]| ->]]; [|done..].
  apply andb_true_iff in Hp as [Hname%String.eqb_eq Hlive]. unfold check_owner.
  destruct (String.eqb_spec (n_account_id b) acc); [|intros Hx; discriminate Hx]. intros [= <-]. refine (conj Hb (conj Hname (conj Hlive _))). by left.
Qed.
End readers.

(** ** Every endpoint *)

Section safety.
Variables (acc : string) (s0 : store).

Abbreviation others := (others acc s0).
Abbreviation quiet := (quiet acc s0).

Definition safe {A} (m : M A) : Prop := others (m s0).2 = others s0.

Lemma safe_quiet {A} (m : M A) : quiet m -> safe m.
Proof. intros Hm. apply Hm. Qed.
Lemma safe_read {A B} (m : M A) (k : A -> M B) : reader m -> (forall a, (m s0).1 = Ok a -> safe (k a)) -> safe (m ≫= k).
Proof.
  intros Hm Hk. unfold safe, mbind, stm_bind. specialize (Hm s0). destruct (m s0) as [[a|e] s']; cbn in Hm; subst s'; [by apply Hk|done].
Qed.
Lemma safe_then {A B} (m : M A) (k : A -> M B) : safe m -> (forall a, quiet (k a)) -> safe (m ≫= k).
Proof. intros Hm Hk. unfold safe, mbind, stm_bind in *. destruct (m s0) as [[a|e] s']; cbn in *; [|done]. by rewrite (Hk a). Qed.
Lemma safe_catching {A} f (m : M A) : safe m -> safe (catching f m).
Proof.
  intros Hm. unfold safe, catching, try_except in *. destruct (m s0) as [[a|e] s']; cbn in *; [done|].
  destruct e; try done. by destruct (f c message) as [[]|].
Qed.

Lemma on_services_bind {A B} (m : stm Namespaces.tables Security.exn A) (k : A -> stm Namespaces.tables Security.exn B) :
  quiet (on_services m) -> (forall t a, (m t).1 = Ok a -> quiet (on_services (k a))) -> quiet (on_services (m ≫= k)).
Proof.
  intros Hm Hk s. specialize (Hm s). specialize (Hk (Functions.ns s)). unfold on_services, mbind, stm_bind in *.
  destruct (m (Functions.ns s)) as [[a|e] t]; cbn in *; [|done]. specialize (Hk a eq_refl (Store t (functions s) (versions s) (calls s))).
  etransitivity; [exact Hk|exact Hm].
Qed.
Lemma services_quiet {A} (m : stm Namespaces.tables Security.exn A) : (forall t, (m t).2 = t) -> quiet (on_services m).
Proof. intros Hm. by apply reader_quiet, on_services_state. Qed.

Lemma fresh_namespace i : i ∉ map n_id (namespaces (Functions.ns s0)) -> other_namespace acc s0 i = false.
Proof.
  intros Hi. apply not_true_iff_false. intros (b & Hb & [<-%String.eqb_eq _]%andb_true_iff)%existsb_exists. by apply Hi, list_elem_of_In, in_map.
Qed.
Lemma fresh_function i : i ∉ map f_id (functions s0) -> other_function acc s0 i = false.
Proof.
  intros Hi. apply not_true_iff_false. intros (b & Hb & [<-%String.eqb_eq _]%andb_true_iff)%existsb_exists. by apply Hi, list_elem_of_In, in_map.
Qed.

(** *** The operations *)

Lemma create_quiet i name d l : other_namespace acc s0 i = false -> quiet (on_services (Namespaces.create i acc name d l)).
Proof.
  intros Hi. unfold Namespaces.create. destruct (str_in _ _); [by apply services_quiet|].
  apply on_services_bind; [apply services_quiet; intros; apply select_state|]. intros t [f|] _; [apply services_quiet; by destruct (deleted_at f)|].
  apply on_services_bind; [by apply services_quiet|]. intros t' nm _.
  apply on_services_bind; [by apply insert_namespace_quiet|]. intros t'' u _. by apply services_quiet.
Qed.

Lemma update_quiet t i d l : other_namespace acc s0 i = false -> quiet (on_services (Namespaces.update t i acc d l)).
Proof.
  intros Hi. apply on_services_bind; [apply services_quiet; intros; apply by_id_state|]. intros t1 n <-%namespace_by_id.
  apply on_services_bind; [apply put_namespace_quiet; by destruct d|]. intros t2 u _. destruct l as [l|]; [|by apply services_quiet].
  destruct (negb _); [by apply services_quiet|]. apply on_services_bind; [apply put_namespace_quiet; by destruct d|]. intros t3 u' _. by apply services_quiet.
Qed.

Lemma delete_quiet t i : other_namespace acc s0 i = false -> quiet (on_services (Namespaces.delete t i acc)).
Proof.
  intros Hi. apply on_services_bind; [apply services_quiet; intros; apply by_id_state|]. intros t1 n <-%namespace_by_id.
  apply on_services_bind; [by apply put_namespace_quiet|]. intros t2 u _. by apply services_quiet.
Qed.

Lemma service_create_quiet i nid name d : other_namespace acc s0 nid = false -> quiet (on_services (service_create i nid name d)).
Proof.
  intros Hi. apply on_services_bind; [apply services_quiet; intros; apply select_state|]. intros t [f|] _; [by apply services_quiet|].
  apply on_services_bind; [by apply services_quiet|]. intros t' nm _.
  apply on_services_bind; [by apply insert_service_quiet|]. intros t'' u _. by apply services_quiet.
Qed.

Lemma new_version_owner i fid n l sp t v : new_version i fid n l sp t = Ok v -> v_function_id v = fid.
Proof. unfold new_version. repeat case_match; try done. by intros [= <-]. Qed.

Lemma delete_function_quiet t i b : other_function acc s0 i = false -> quiet (Functions.delete t i b).
Proof.
  intros Hi. apply others_bind; [apply reader_quiet, function_by_id_reader|]. intros s f <-%function_by_id.
  destruct (_ && _); [apply others_raise|by apply put_function_quiet].
Qed.

Lemma filter_filter {A} (p q : A -> bool) l : (forall x, x ∈ l -> p x = true -> q x = true) -> List.filter p (List.filter q l) = List.filter p l.
Proof.
  induction l as [|x l IH]; intros Hq; [done|]. cbn. specialize (IH (fun y Hy => Hq y (list_elem_of_further _ _ _ Hy))).
  pose proof (Hq x (list_elem_of_here _ _)) as Hx. destruct (q x); cbn; [by rewrite IH|]. by destruct (p x); [specialize (Hx eq_refl)|].
Qed.

End safety.

Section guarded.
Variables (acc : string) (s0 : store).
Hypothesis ns_ids : NoDup (map n_id (namespaces (Functions.ns s0))).
Hypothesis service_ids : NoDup (map s_id (services (Functions.ns s0))).
Hypothesis function_ids : NoDup (map f_id (functions s0)).
#[local] Set Default Proof Using "Type*".

Abbreviation others := (others acc s0).
Abbreviation quiet := (quiet acc s0).
Abbreviation safe := (safe acc s0).

(** The rows of the account are not others'. *)
Lemma own_namespace n : n ∈ namespaces (Functions.ns s0) -> n_account_id n = acc -> other_namespace acc s0 (n_id n) = false.
Proof.
  intros Hn Ha. apply not_true_iff_false. intros (b & Hb & [Hi%String.eqb_eq Hne]%andb_true_iff)%existsb_exists. apply list_elem_of_In in Hb.
  rewrite (NoDup_map_inj n_id (namespaces (Functions.ns s0)) b n) in Hne by done. by rewrite Ha, String.eqb_refl in Hne.
Qed.
Lemma own_service x : x ∈ services (Functions.ns s0) -> other_namespace acc s0 (s_namespace_id x) = false -> other_service acc s0 (s_id x) = false.
Proof.
  intros Hx Ho. apply not_true_iff_false. intros (b & Hb & [Hi%String.eqb_eq Hne]%andb_true_iff)%existsb_exists. apply list_elem_of_In in Hb.
  rewrite (NoDup_map_inj s_id (services (Functions.ns s0)) b x) in Hne by done. by rewrite Ho in Hne.
Qed.
Lemma own_function f : f ∈ functions s0 -> other_service acc s0 (f_service_id f) = false -> other_function acc s0 (f_id f) = false.
Proof.
  intros Hx Ho. apply not_true_iff_false. intros (b & Hb & [Hi%String.eqb_eq Hne]%andb_true_iff)%existsb_exists. apply list_elem_of_In in Hb.
  rewrite (NoDup_map_inj f_id (functions s0) b f) in Hne by done. by rewrite Ho in Hne.
Qed.
(** The function that is there under the name is one of the service. *)
Lemma create_function_safe t i vi sid name sp d tags lang ps trust : other_service acc s0 sid = false -> other_function acc s0 i = false ->
  safe (Functions.create t i vi sid name sp d tags lang ps trust).
Proof.
  intros Hs Hi. unfold Functions.create. apply safe_read; [done|]. intros s [= <-].
  apply safe_read; [done|]. intros [f|] Hf; apply safe_quiet.
  - assert (other_function acc s0 (f_id f) = false) as Ho.
    { revert Hf. cbn [lift_res fst].
      destruct (one_or_none_cases (fun f => String.eqb (f_service_id f) sid && String.eqb (f_name f) (str_lower name)) (functions s0))
        as [(a & -> & Ha & Hp & _)|[[-> _]| ->]]; [|intros Hx; discriminate Hx..].
      intros [= <-]. apply andb_true_iff in Hp as [<-%String.eqb_eq _]. by apply own_function. }
    destruct (Functions.is_live f); [apply others_raise|]. cbn zeta.
    apply others_bind; [by apply put_function_quiet|]. intros s1 u _.
    apply others_bind; [by apply reader_quiet|]. intros s2 v Hv. pose proof (new_version_owner _ _ _ _ _ _ _ Hv) as Hid.
    apply others_bind; [by apply put_function_quiet|]. intros s3 u3 _.
    apply others_bind; [apply trust_quiet|]. intros s4 u4 _.
    apply others_bind; [apply insert_version_quiet; by rewrite Hid|]. intros s5 u5 _. apply others_ret.
  - apply others_bind; [by apply reader_quiet|]. intros s1 nm _. cbn zeta.
    apply others_bind; [by apply insert_function_quiet|]. intros s2 u2 _.
    apply others_bind; [by apply reader_quiet|]. intros s3 v Hv. pose proof (new_version_owner _ _ _ _ _ _ _ Hv) as Hid.
    apply others_bind; [apply insert_version_quiet; by rewrite Hid|]. intros s5 u5 _. apply others_ret.
Qed.

Lemma delete_service_safe x : x ∈ services (Functions.ns s0) -> other_namespace acc s0 (s_namespace_id x) = false -> safe (delete_service (s_id x)).
Proof.
  intros Hx Ho. pose proof (own_service x Hx Ho) as Hs. unfold safe, delete_service, service_delete. unfold mbind at 1, stm_bind at 1.
  pose proof (service_by_id_state (s_id x) (Functions.ns s0)) as Hst.
  destruct (service_get_by_id (s_id x) (Functions.ns s0)) as [[y|e] t] eqn:E; cbn in Hst; subst t; [|done].
  assert (s_id y = s_id x) as Hy.
  { unfold service_get_by_id, mbind, stm_bind in E.
    destruct (select_cases services (fun z => String.eqb (s_id z) (s_id x)) (Functions.ns s0)) as [(a & E' & Ha & Hp & _)|[[E' _]|E']]; rewrite E' in E; try done.
    injection E as <-. by apply String.eqb_eq. }
  assert (forall f, f ∈ functions s0 -> other_function acc s0 (f_id f) = true -> f_service_id f <> s_id x) as Hf.
  { intros f Hf Ht Hi. rewrite (own_function f Hf) in Ht; [done|by rewrite Hi]. }
  cbn [set_services modS fst snd]. unfold NamespaceApi.others. cbn. rewrite Hy. apply f_equal2; [apply f_equal2; [apply f_equal2; [done|]|]|].
  - apply filter_filter. intros z Hz Ht. apply negb_true_iff, String.eqb_neq. intros Hi.
    rewrite (NoDup_map_inj s_id (services (Functions.ns s0)) z x) in Ht by done. by rewrite Ho in Ht.
  - apply filter_filter. intros f Hfin Ht. apply negb_true_iff, String.eqb_neq. by apply Hf.
  - apply filter_filter. intros v _ Ht. apply existsb_exists. pose proof Ht as (f & Hfin & [Hi%String.eqb_eq Hs']%andb_true_iff)%existsb_exists.
    exists f. split; [|by apply String.eqb_eq]. apply filter_In. split; [done|]. apply negb_true_iff, String.eqb_neq. apply Hf; [by apply list_elem_of_In|by rewrite Hi].
Qed.
End guarded.

Section endpoints_guarded.
Context (urls : url_settings) (keyed : list string) (now : Z) (new_id version_id : string) (acc user : string).

Abbreviation serve rq := (ns_endpoint urls keyed now new_id version_id acc user rq).

Lemma reader_catching {A} f (m : M A) : reader m -> reader (catching f m).
Proof.
  intros Hm s. specialize (Hm s). unfold catching, try_except. destruct (m s) as [[a|e] s']; cbn in *; [done|].
  destruct e; try done. by destruct (f c message) as [[]|].
Qed.
Lemma readable_function_reader ns svc fn : reader (readable_function acc user ns svc fn).
Proof.
  apply reader_bind; [apply readable_reader|]. intros n. apply reader_bind; [apply service_reader|]. intros x. apply function_by_name_reader.
Qed.

Lemma endpoint_reads rq : reads rq = true -> reader (serve rq).
Proof.
  destruct rq; intros Hr; try discriminate Hr; cbn [ns_endpoint]; unfold get_namespaces, get_namespace, get_services, get_functions, get_function, get_function_version.
  - destruct (negb _); [done|]. apply reader_bind; [apply on_services_state; intros; apply list_namespaces_state|]. by intros [l total] s.
  - apply reader_catching, reader_bind; [apply readable_reader|]. by intros n s.
  - apply reader_catching, reader_bind; [apply readable_reader|]. intros n. apply reader_bind; [by apply on_services_state|]. by intros l s.
  - destruct (negb _); [done|]. apply reader_catching, reader_bind; [apply readable_reader|]. intros n.
    apply reader_bind; [apply service_reader|]. intros x. apply reader_bind; [apply list_functions_reader|]. by intros [l total] s.
  - apply reader_catching, reader_bind; [apply readable_function_reader|]. intros f. apply reader_bind; [apply describe_reader|]. by intros l s.
  - apply reader_catching, reader_bind; [apply readable_function_reader|]. intros f. apply reader_bind; [apply version_detail_reader|]. by intros l s.
Qed.

(** *** Who is answered *)

Lemma catching_Ok {A} f (m : M A) s a : (catching f m s).1 = Ok a -> (m s).1 = Ok a.
Proof.
  unfold catching, try_except. destruct (m s) as [[b|e] s']; [done|]. destruct e; try done. by destruct (f c message) as [[]|].
Qed.
Lemma bind_answered {A B} (m : M A) (k : A -> M B) s b : ((m ≫= k) s).1 = Ok b -> exists a, (m s).1 = Ok a.
Proof. unfold mbind, stm_bind. destruct (m s) as [[a|e] s']; [by eexists|done]. Qed.

Lemma endpoint_entitled rq ns s a : path_namespace rq = Some ns -> (serve rq s).1 = Ok a ->
  exists n, at_path (reads rq) acc user ns (Functions.ns s) n.
Proof.
  destruct rq; intros Hp Ha; try discriminate Hp; injection Hp as ->; cbn [ns_endpoint reads] in *;
    unfold get_namespace, patch_namespace, remove_namespace, post_service, get_services, remove_service, post_function, get_functions, get_function,
      get_function_version, remove_function, readable_function in Ha; try (destruct (negb _); [discriminate Ha|]);
    apply catching_Ok, bind_answered in Ha as (x & Hx); try apply bind_answered in Hx as (y & Hx);
    eexists; first [apply (readable_found acc user _ s _ Hx)|apply (owned_found acc user _ s _ Hx)].
Qed.
End endpoints_guarded.

Section writes.
Context (urls : url_settings) (keyed : list string) (now : Z) (new_id version_id : string) (acc user : string) (s0 : store).
Hypothesis ns_ids : NoDup (map n_id (namespaces (Functions.ns s0))).
Hypothesis service_ids : NoDup (map s_id (services (Functions.ns s0))).
Hypothesis function_ids : NoDup (map f_id (functions s0)).
Hypothesis new_ns : new_id ∉ map n_id (namespaces (Functions.ns s0)).
Hypothesis new_fn : new_id ∉ map f_id (functions s0).
#[local] Set Default Proof Using "Type*".

Abbreviation safe := (safe acc s0).
Abbreviation quiet := (quiet acc s0).

(** The steps in front of an operation. *)
Lemma owned_then {B} ns (k : namespace -> M B) :
  (forall n, other_namespace acc s0 (n_id n) = false -> safe (k n)) -> safe (owned acc ns ≫= k).
Proof.
  intros Hk. apply safe_read; [apply owned_reader|]. intros n (Hn & _ & _ & [Ha|[Hr _]])%(owned_found acc acc); [|discriminate Hr].
  apply Hk. by apply own_namespace.
Qed.
Lemma service_then {B} nid name (k : service -> M B) : other_namespace acc s0 nid = false ->
  (forall x, x ∈ services (Functions.ns s0) -> other_namespace acc s0 (s_namespace_id x) = false -> safe (k x)) ->
  safe (on_services (service_get_by_name nid name) ≫= k).
Proof.
  intros Hn Hk. apply safe_read; [apply service_reader|]. intros x Hx. unfold on_services in Hx.
  destruct (service_get_by_name nid name (Functions.ns s0)) as [r t] eqn:E. cbn in Hx. subst r.
  pose proof (service_found nid name (Functions.ns s0) x ltac:(by rewrite E)) as [Hin <-]. by apply Hk.
Qed.

Lemma endpoint_safe rq : safe (ns_endpoint urls keyed now new_id version_id acc user rq).
Proof.
  destruct (reads rq) eqn:Hr.
  { by apply safe_quiet, reader_quiet, endpoint_reads. }
  destruct rq; try discriminate Hr; cbn [ns_endpoint]; unfold post_namespace, patch_namespace, remove_namespace, post_service, remove_service,
    post_function, remove_function; try (destruct (negb _); [done|]); apply safe_catching; try (apply owned_then; intros n Hn).
  - apply safe_then; [apply safe_quiet, create_quiet; by apply fresh_namespace|]. by intros n s.
  - apply safe_then; [by apply safe_quiet, update_quiet|]. by intros n' s.
  - apply safe_read; [done|]. intros s _. cbn zeta. apply safe_then; [by apply safe_quiet, delete_quiet|]. by intros n' t.
  - apply safe_then; [by apply safe_quiet, service_create_quiet|]. by intros x s.
  - apply service_then; [done|]. intros x Hx Ho. apply safe_then; [by apply delete_service_safe|]. by intros u s.
  - apply service_then; [done|]. intros x Hx Ho.
    apply safe_then; [apply create_function_safe; try done; [by apply own_service|by apply fresh_function]|]. by intros f s.
  - apply service_then; [done|]. intros x Hx Ho. apply safe_read; [apply function_by_name_reader|]. intros f (Hf & Hi & _)%function_found.
    apply safe_then; [|by intros u s]. apply safe_quiet, delete_function_quiet. apply own_function; try done. rewrite Hi. by apply own_service.
Qed.
End writes.

(** ** Claims *)

Section claims.
Context `{Crypto} (cfg : settings) (urls : url_settings) (keyed : list string).

(** Who is let in: the bearer of a valid access token that has the scope, as an
    active user of the table, with the account of that user. *)
Definition let_in (required : string) (now : Z) (authorization : option string) (d : Auth.db) (acc user : string) : Prop :=
  exists token payload user_id u a,
    bearer_token authorization = Ok token /\ verify_access_token cfg now token = Ok payload /\ has_scope required payload = true /\
    subject payload = Ok user_id /\ uuid_parse user_id = Some (Auth.u_id u) /\ u ∈ Auth.users d /\ Auth.status u = "active" /\
    a ∈ Auth.accounts d /\ Auth.a_user_id a = Auth.u_id u /\ acc = Auth.a_id a /\ user = Auth.u_id u.

Lemma ns_sign_in_Ok required now authorization d acc user :
  ns_sign_in cfg required now authorization d = Ok (acc, user) -> let_in required now authorization d acc user.
Proof.
  unfold ns_sign_in, require_scope, get_current_user_id, mbind, res_bind.
  destruct (bearer_token authorization) as [token|] eqn:Et; [|done].
  destruct (verify_access_token cfg now token) as [payload|e] eqn:Ev.
  2: { intros Hx. exfalso. revert Hx. unfold token_errors. repeat case_match; done. }
  destruct (has_scope required payload) eqn:Es; [|done]. cbn [token_errors].
  destruct (subject payload) as [uid|e] eqn:Eu.
  2: { intros Hx. exfalso. revert Hx. unfold token_errors. repeat case_match; done. }
  cbn [token_errors].
  destruct (reading (require_active_status uid) d) as [active|] eqn:Ea; [|done]. apply active_Ok in Ea as (u & Hu & Hin & Hst & ->).
  destruct (reading (get_current_account uid) d) as [a|] eqn:Ec; [|done]. apply current_account_Ok in Ec as [Ha Hain]. intros [= <- <-].
  assert (Auth.a_user_id a = Auth.u_id u) as E by congruence.
  exists token, payload, uid, u, a. by repeat split.
Qed.

(** [C24] A request is turned away, and changes nothing, or comes from the bearer of a
    valid token that has the scope of the request (reading or writing), as an active
    user with its account.  It is answered then, if it names a namespace, only where that
    namespace is live and the account's own, or, to read, shared with the user who
    accepted with the permission to read; reading changes nothing, and whatever is
    asked for, no namespace of another account, no service in one, no function and
    no version is added, changed or removed. *)
Theorem namespace_api_guarded now new_id version_id authorization d rq s :
  Namespaces.wf (Functions.ns s) -> Functions.wf s ->
  new_id ∉ map n_id (namespaces (Functions.ns s)) -> new_id ∉ map f_id (functions s) ->
  let o := serve_namespaces cfg urls keyed now new_id version_id authorization d rq s in
  (exists e, o = (Err e, s)) \/
  exists acc user, let_in (scope_needed rq) now authorization d acc user /\
    others acc s o.2 = others acc s s /\ (reads rq = true -> o.2 = s) /\
    (forall a ns, o.1 = Ok a -> path_namespace rq = Some ns -> exists n, at_path (reads rq) acc user ns (Functions.ns s) n).
Proof.
  intros Hn Hf Hni Hfi o. subst o. unfold serve_namespaces. pose proof (ns_sign_in_Ok (scope_needed rq) now authorization d) as Hin.
  destruct (ns_sign_in cfg (scope_needed rq) now authorization d) as [[acc user]|e]; [|left; by eexists].
  right. exists acc, user. split; [by apply Hin|]. clear Hin.
  pose proof (endpoint_safe urls keyed now new_id version_id acc user s (Namespaces.wf_ids _ Hn) (Functions.wf_service_ids _ Hf)
    (Functions.wf_ids _ Hf) Hni Hfi rq) as Hsafe.
  pose proof (endpoint_reads urls keyed now new_id version_id acc user rq) as Hread.
  pose proof (fun ns a => endpoint_entitled urls keyed now new_id version_id acc user rq ns s a) as Hent. unfold safe, reader in *.
  destruct (ns_endpoint urls keyed now new_id version_id acc user rq s) as [[a|e] s'] eqn:E; cbn [fst snd] in *; (split; [done|]); (split; [|naive_solver]); [|done].
  intros Hr. specialize (Hread Hr s). by rewrite E in Hread.
Qed.
End claims.

(** A lock is refused, and changes nothing, unless the client is an administrator: it
    has the static key, or a valid token of a user with an address of the settings. *)
Lemma lock_admin_only `{Crypto} cfg now authorization key d lock ns fn s e :
  reading (require_admin cfg now authorization key) d = Err e -> serve_lock cfg now authorization key d lock ns fn s = (Err e, s).
Proof. intros He. unfold serve_lock. by rewrite He. Qed.

(** ** Examples *)

Definition ada_db : Auth.db := Auth.Db [Auth.demo_user] [Auth.Account "a1" Auth.demo_id None] [] [] [].
Definition bob_db : Auth.db := Auth.Db [Auth.demo_user] [Auth.Account "a2" Auth.demo_id None] [] [] [].
Abbreviation demo_ns_api d scope rq s := (serve_namespaces toy_settings demo_urls [] 2000 "new1" "new2" (demo_header scope) d rq s).

Lemma demo_namespaces_wf : Namespaces.wf (Functions.ns demo_store).
Proof. split; cbn; try (by repeat constructor); apply NoDup_singleton. Qed.
Lemma demo_new_ids : ("new1"%string ∉ map n_id (namespaces (Functions.ns demo_store))) /\ ("new1"%string ∉ map f_id (functions demo_store)).
Proof. split; not_elem. Qed.

(** Ada reads and deletes her function; Bob, whose account is another, is refused. *)
Lemma namespace_api_guarded_witness :
  Namespaces.wf (Functions.ns demo_store) /\ Functions.wf demo_store /\
  map Functions.is_live (functions (demo_ns_api ada_db "write" (RemoveFunction "acme" "social" "post") demo_store).2) = [false] /\
  demo_ns_api bob_db "read" (GetNamespace "acme") demo_store = (Err (Security.HTTPException 403 "" "Access denied"), demo_store) /\
  let rq := RemoveFunction "acme" "social" "post" in
  let o := demo_ns_api ada_db "write" rq demo_store in
  (exists e, o = (Err e, demo_store)) \/
  exists acc user, let_in toy_settings "write" 2000 (demo_header "write") ada_db acc user /\
    others acc demo_store o.2 = others acc demo_store demo_store /\ (reads rq = true -> o.2 = demo_store) /\
    (forall a ns, o.1 = Ok a -> path_namespace rq = Some ns -> exists n, at_path (reads rq) acc user ns (Functions.ns demo_store) n).
Proof.
  split; [exact demo_namespaces_wf|]. split; [exact demo_ops_wf|]. split; [vm_compute; reflexivity|]. split; [vm_compute; reflexivity|].
  exact (namespace_api_guarded toy_settings demo_urls [] 2000 "new1" "new2" (demo_header "write") ada_db (RemoveFunction "acme" "social" "post") demo_store
    demo_namespaces_wf demo_ops_wf (proj1 demo_new_ids) (proj2 demo_new_ids)).
Defined.

(** With the scope or without, the telemetry endpoints have no account. *)
Example telemetry_api_fails :
  telemetry_account toy_settings "namespaces:write" 2000 (demo_header "namespaces:write") = Err (NoAttribute "id") /\
  telemetry_account toy_settings "namespaces:write" 2000 (demo_header "write") =
    Err (Raised (Security.HTTPException 403 "INSUFFICIENT_SCOPE" "Scope 'namespaces:write' required")).
Proof. by vm_compute. Qed.

(** A locked function cannot be deleted, but goes with its service. *)
Example locked_goes_with_service :
  demo_ns_api ada_db "write" (RemoveFunction "acme" "social" "post") demo_locked =
    (Err (mcp_with ForbiddenError "Function 'post' is locked and cannot be deleted"), demo_locked) /\
  functions (demo_ns_api ada_db "write" (RemoveService "acme" "social") demo_locked).2 = [].
Proof. by vm_compute. Qed.

(** A backend that the model does not know is a [ValueError], which nothing catches. *)
Example backend_unchecked :
  (demo_ns_api ada_db "write" (PostFunction "acme" "social" (CreateFunctionRequest "like" "docker" None None None None None None)) demo_store).1 =
    Err ValueError.
Proof. by vm_compute. Qed.

(** The number of functions of a service counts those that were deleted. *)
Example deleted_are_counted :
  (demo_ns_api ada_db "read" (GetFunctions "acme" "social" None 1 50) demo_deleted).1 =
    Ok (PDict [("functions", PList []); ("total", PInt 0); ("service", PStr "social")]) /\
  map (fun x => function_count x demo_deleted) (services (Functions.ns demo_deleted)) = [1].
Proof. by vm_compute. Qed.

(** The static key without a user of the addresses: the administrator is no UUID. *)
Example key_cannot_lock :
  let cfg := Settings (Some "PEM") None (Some "PEM") None 60 7 "https://api.mcpworks.io" "https://mcpworks.io" true "key" ["admin@mcpworks.io"] in
  reading (require_admin cfg 2000 None (Some "key")) ada_db = Ok "system-admin"%string /\
  (serve_lock cfg 2000 None (Some "key") ada_db true "acme" "social.post" demo_store).1 = Err ValueError.
Proof. by vm_compute. Qed.
