(* ===== verification/UserAdmin.v ===== *)
(** * Users: their own endpoints, and what administrators do with them

    [api/v1/users.py] on the sessions of [Auth], and the endpoints of
    [api/v1/admin.py] that change users: approval, suspension, deletion, overrides of
    the tier and impersonation.  The columns of [models/user.py] that only these
    use are a map beside the table of users; what they start besides
    the database is a list.  Time stamps are left out of the answers. *)

From S2P Require Import Prelude RateLimit Security Auth AuthApi AgentApi.
From stdpp Require Import gmap strings.
From Stdlib Require Import Ascii.

Open Scope Z_scope.

(** ** The columns *)

Record extras := Extras {
  rejection_reason : option string; tier_override : option string; tier_override_reason : option string; tier_override_expires_at : option Z
}.
Definition no_extras : extras := Extras None None None None.
Definition columns := gmap string extras.
Definition extras_of (id : string) (m : columns) : extras := default no_extras (m !! id).

(** [User.effective_tier] *)
Definition effective_tier (now : Z) (m : columns) (u : user) : string :=
  let x := extras_of (u_id u) m in
  match tier_override x with
  | Some ((String _ _) as t) =>
      match tier_override_expires_at x with None => t | Some e => if now <? e then t else tier u end
  | _ => tier u
  end.

(** ** The endpoints of a user *)

(** [re.sub(r"<[^>]*?>", "", v)] *)
Fixpoint strip_tags (fuel : nat) (s : string) : string :=
  match fuel, s with
  | S n, String c rest =>
      if Ascii.eqb c "<" then
        match split_once ">" rest with Some (_, after) => strip_tags n after | None => s end
      else String c (strip_tags n rest)
  | _, _ => s
  end.
Definition control_char (c : ascii) : bool :=
  let n := ord c in (n <=? 8)%nat || (n =? 11)%nat || (n =? 12)%nat || ((14 <=? n)%nat && (n <=? 31)%nat).
Definition without (p : ascii -> bool) (s : string) : string :=
  String.string_of_list_ascii (List.filter (fun c => negb (p c)) (String.list_ascii_of_string s)).
Definition _sanitize_display_name (v : option string) : option string :=
  match v with
  | None => None
  | Some v =>
      let v := strip_tags (String.length v) v in
      let v := without (fun c => Ascii.eqb c "<" || Ascii.eqb c ">") v in
      let v := str_strip (without control_char v) in
      if truthy_str v then Some v else None
  end.

Definition ALLOWED_SCOPES : list string := ["read"; "write"; "execute"].
Record create_key_request := CreateApiKeyRequest {
  ck_name : option string; ck_scopes : list string; ck_namespace : option string; ck_days : option Z
}.
(** [sorted(set(v))] of scopes that are allowed. *)
Definition sorted_scopes (l : list string) : list string := List.filter (fun s => str_in s l) ["execute"; "read"; "write"].
Definition check_key (b : create_key_request) : option create_key_request :=
  let name := _sanitize_display_name (ck_name b) in
  if short 100 name && negb (match ck_scopes b with [] => true | _ => false end) && forallb (fun s => str_in s ALLOWED_SCOPES) (ck_scopes b)
     && in_bounds 1 730 (ck_days b)
  then Some (CreateApiKeyRequest name (sorted_scopes (ck_scopes b)) (ck_namespace b) (ck_days b)) else None.

Definition LEGAL_VERSION : string := "1.0.0".

Section users.
Context `{Crypto} (cfg : settings).

Definition not_found_user {A} : Auth.M A := raise (HTTPException 404 "USER_NOT_FOUND" "User not found").
Definition own_row (user_id : string) : Auth.M user :=
  uid ← Auth.as_uuid user_id;
  found ← user_by_id uid;
  match found with Some u => mret u | None => not_found_user end.

Definition get_current_user_profile (user_id : string) : Auth.M user := own_row user_id.

Definition accept_tos (now : Z) (user_id : string) : Auth.M user :=
  u ← own_row user_id;
  match tos_accepted_at u with
  | Some _ => mret u
  | None =>
      let u' := User (u_id u) (email u) (password_hash u) (u_name u) (tier u) (status u) (email_verified u) (verification_token u)
                  (verification_pin_expires_at u) (verification_attempts u) (verification_resend_count u) (Some now) (Some LEGAL_VERSION) in
      update_user (u_id u) (fun _ => u');; commit;; mret u'
  end.

(** [NotFoundError] and [ForbiddenError] are those of the namespace. *)
Definition post_api_key (now : Z) (r : entropy) (user_id : string) (b : create_key_request) (c : client) : Auth.M (api_key * string) :=
  match check_key b with
  | None => raise (HTTPException 422 "VALIDATION_ERROR" "Request validation failed")
  | Some b =>
      try_except
        (uid ← Auth.as_uuid user_id;
         out ← create_api_key now r uid (ck_name b) (Some (ck_scopes b)) (ck_namespace b) (ck_days b) c;
         commit;; mret out)
        (fun e =>
          match e with
          | Mcp UserNotFoundError m => Some (raise (http_of 404 UserNotFoundError m))
          | Mcp NotFoundError m => Some (raise (HTTPException 404 "NAMESPACE_NOT_FOUND" m))
          | Mcp ForbiddenError m => Some (raise (HTTPException 403 "FORBIDDEN" m))
          | _ => None
          end)
  end.

Definition get_api_keys (user_id : string) : Auth.M (list api_key) := uid ← Auth.as_uuid user_id; list_api_keys uid false.

Definition remove_api_key (now : Z) (user_id key_id : string) (c : client) : Auth.M unit :=
  translate [(ApiKeyNotFoundError, (404, []))]
    (uid ← Auth.as_uuid user_id;
     _ ← revoke_api_key now uid key_id c;
     commit).

(** [ActiveUserId]: no scope is asked for. *)
Definition as_user {A} (now : Z) (authorization : option string) (m : string -> Auth.M A) : Auth.M A :=
  user_id ← lift_res (get_current_user_id cfg now authorization);
  active ← require_active_status user_id;
  m active.
End users.

(** ** Administrators *)

(** What is started besides the database. *)
Inductive notice :=
| UserEvent (admin_id user_id email action : string)
| ApprovedMail (to : string) (name : option string)
| RejectedMail (to : string) (name reason : option string)
| SuspendedMail (to : string) (name reason : option string)
| UnsuspendedMail (to : string) (name : option string)
| ImpersonationMail (admin_email target_email ip agent : string)
| ImpersonationAlert (admin_email target_email ip agent : string).

Record adm := Adm { tables : Auth.db; cols : columns; posted : list notice }.
Abbreviation M := (stm adm Security.exn).

Definition on_tables {A} (m : Auth.M A) : M A := fun s =>
  let '(r, t) := m (Session (tables s) (tables s) []) in (r, Adm (working t) (cols s) (posted s)).
Definition set_extras (id : string) (f : extras -> extras) : M unit := modS (fun s =>
  Adm (tables s) (<[id := f (extras_of id (cols s))]> (cols s)) (posted s)).
Definition drop_extras (id : string) : M unit := modS (fun s => Adm (tables s) (delete id (cols s)) (posted s)).
Definition post (n : notice) : M unit := modS (fun s => Adm (tables s) (cols s) (posted s ++ [n])).
Definition http {A} (status : Z) (detail : string) : M A := raise (HTTPException status "" detail).

Definition found_user (user_id : string) : M user :=
  uid ← on_tables (Auth.as_uuid user_id);
  found ← on_tables (user_by_id uid);
  match found with Some u => mret u | None => http 404 "User not found" end.

Definition with_status (st : string) (u : user) : user :=
  set_verification (email_verified u) st (verification_token u) (verification_pin_expires_at u) (verification_attempts u)
    (verification_resend_count u) u.
Definition set_status (u : user) (st : string) : M unit := on_tables (update_user (u_id u) (with_status st)).
Definition set_reason (u : user) (reason : option string) : M unit :=
  set_extras (u_id u) (fun x => Extras reason (tier_override x) (tier_override_reason x) (tier_override_expires_at x)).
Definition otext (o : option string) : pyval := match o with Some s => PStr s | None => PNone end.

(** [AuditLog(user_id=uuid.UUID(admin_id), ...)] *)
Definition log (admin_id action : string) (u : user) (data : list (string * pyval)) : M unit :=
  id ← on_tables (Auth.as_uuid admin_id);
  on_tables (add_audit (AuditLog (Some id) action "user" (Some (u_id u)) None None data)).
Definition status_view (u : user) (st what : string) : pyval :=
  PDict [("user_id", PStr (u_id u)); ("status", PStr st); ("message", PStr ("User " +:+ email u +:+ " has been " +:+ what))].

Section admin.
Context `{Crypto} (cfg : settings) (resources : string -> Z * Z).

(** The latest first. *)
Definition list_pending_approvals : M pyval :=
  s ← getS;
  mret (PList (List.rev (map (fun u => PDict [("id", PStr (u_id u)); ("email", PStr (email u)); ("name", otext (u_name u))])
    (List.filter (fun u => String.eqb (status u) "pending_approval") (users (tables s)))))).

Definition approve_user (user_id admin_id : string) : M pyval :=
  u ← found_user user_id;
  if negb (String.eqb (status u) "pending_approval") then http 409 "User is not in pending_approval status"
  else
    set_status u "active";;
    log admin_id "user_approved" u [("approved_user_email", PStr (email u))];;
    post (UserEvent admin_id (u_id u) (email u) "approved");;
    post (ApprovedMail (email u) (u_name u));;
    mret (status_view u "active" "approved").

Definition reject_user (user_id admin_id : string) (reason : option string) : M pyval :=
  u ← found_user user_id;
  if negb (String.eqb (status u) "pending_approval") then http 409 "User is not in pending_approval status"
  else
    set_status u "rejected";;
    set_reason u reason;;
    log admin_id "user_rejected" u [("rejected_user_email", PStr (email u)); ("reason", otext reason)];;
    post (UserEvent admin_id (u_id u) (email u) "rejected");;
    post (RejectedMail (email u) (u_name u) reason);;
    mret (status_view u "rejected" "rejected").

Definition suspend_user (user_id admin_id : string) (reason : option string) : M pyval :=
  u ← found_user user_id;
  if negb (String.eqb (status u) "active") then http 409 "User is not in active status"
  else
    set_status u "suspended";;
    set_reason u reason;;
    log admin_id "user_suspended" u [("suspended_user_email", PStr (email u)); ("reason", otext reason)];;
    post (UserEvent admin_id (u_id u) (email u) "suspended");;
    post (SuspendedMail (email u) (u_name u) reason);;
    mret (status_view u "suspended" "suspended").

Definition unsuspend_user (user_id admin_id : string) : M pyval :=
  u ← found_user user_id;
  if negb (String.eqb (status u) "suspended") then http 409 "User is not in suspended status"
  else
    set_status u "active";;
    set_reason u None;;
    log admin_id "user_unsuspended" u [("unsuspended_user_email", PStr (email u))];;
    post (UserEvent admin_id (u_id u) (email u) "unsuspended");;
    post (UnsuspendedMail (email u) (u_name u));;
    mret (status_view u "active" "unsuspended").

(** [db.delete(user)]: its keys and its account with its namespaces go with it, and
    the audit rows of what it did keep no user. *)
Definition drop_user (id : string) (d : Auth.db) : Auth.db :=
  let gone := map a_id (List.filter (fun a => String.eqb (a_user_id a) id) (accounts d)) in
  Db (List.filter (fun u => negb (String.eqb (u_id u) id)) (users d)) (List.filter (fun a => negb (String.eqb (a_user_id a) id)) (accounts d))
    (List.filter (fun k => negb (String.eqb (k_user_id k) id)) (api_keys d))
    (map (fun l => if bool_decide (l_user_id l = Some id)
                   then AuditLog None (action l) (resource_type l) (resource_id l) (l_ip_address l) (l_user_agent l) (event_data l) else l)
       (audit_logs d))
    (List.filter (fun n => negb (str_in (n_account_id n) gone)) (namespaces d)).

(** [resources]: the numbers of services and of functions of a namespace. *)
Definition delete_user_account (user_id confirm_email admin_id : string) : M pyval :=
  u ← found_user user_id;
  if negb (String.eqb confirm_email (email u)) then http 422 "Email confirmation does not match"
  else if str_in (email u) (admin_emails cfg) then http 403 "Cannot delete admin accounts"
  else
    s ← getS;
    let accs := map a_id (List.filter (fun a => String.eqb (a_user_id a) (u_id u)) (accounts (tables s))) in
    let nss := List.filter (fun n => str_in (n_account_id n) accs) (namespaces (tables s)) in
    let ns_count := Z.of_nat (length nss) in
    let svc_count := foldr Z.add 0 (map (fun n => (resources (n_id n)).1) nss) in
    let fn_count := foldr Z.add 0 (map (fun n => (resources (n_id n)).2) nss) in
    log admin_id "user_account_deleted" u
      [("deleted_email", PStr (email u)); ("namespaces_deleted", PInt ns_count); ("services_deleted", PInt svc_count);
       ("functions_deleted", PInt fn_count); ("reason", PStr "GDPR right to erasure / admin action")];;
    on_tables (modify (drop_user (u_id u)));;
    drop_extras (u_id u);;
    post (UserEvent admin_id (u_id u) (email u) "account_deleted");;
    mret (PDict [("deleted", PBool true); ("user_id", PStr (u_id u)); ("email", PStr (email u));
                 ("resources_deleted", PDict [("namespaces", PInt ns_count); ("services", PInt svc_count); ("functions", PInt fn_count)])]).

(** *** The tier *)

Definition OVERRIDE_TIERS : list string :=
  ["trial"; "pro"; "enterprise"; "dedicated"; "trial-agent"; "pro-agent"; "enterprise-agent"; "dedicated-agent"].
Definition otime (o : option Z) : pyval := match o with Some t => PInt t | None => PNone end.

Definition set_tier_override (now : Z) (user_id admin_id tier_arg reason : string) (expires : option Z) : M pyval :=
  if negb (str_in tier_arg OVERRIDE_TIERS && length_in 3 255 reason) then raise (HTTPException 422 "VALIDATION_ERROR" "Request validation failed")
  else
    u ← found_user user_id;
    set_extras (u_id u) (fun x => Extras (rejection_reason x) (Some tier_arg) (Some reason) expires);;
    log admin_id "tier_override_set" u
      [("target_email", PStr (email u)); ("tier_override", PStr tier_arg); ("reason", PStr reason); ("expires_at", otime expires)];;
    s ← getS;
    mret (PDict [("user_id", PStr (u_id u)); ("tier", PStr (tier u)); ("tier_override", PStr tier_arg);
                 ("effective_tier", PStr (effective_tier now (cols s) u)); ("tier_override_reason", PStr reason);
                 ("tier_override_expires_at", otime expires)]).

(** [reason]: the body of the request, if it has one. *)
Definition clear_tier_override (now : Z) (user_id admin_id : string) (reason : option string) : M pyval :=
  if negb (match reason with Some r => length_in 3 255 r | None => true end) then raise (HTTPException 422 "VALIDATION_ERROR" "Request validation failed")
  else
    u ← found_user user_id;
    s ← getS;
    let old := tier_override (extras_of (u_id u) (cols s)) in
    if negb (truthy_ostr old) then http 409 "No tier override to clear"
    else
      set_extras (u_id u) (fun x => Extras (rejection_reason x) None None None);;
      log admin_id "tier_override_cleared" u
        [("target_email", PStr (email u)); ("previous_override", otext old); ("reason", PStr (default "No reason provided" reason))];;
      s ← getS;
      mret (PDict [("user_id", PStr (u_id u)); ("tier", PStr (tier u)); ("tier_override", PNone);
                   ("effective_tier", PStr (effective_tier now (cols s) u))]).

(** *** Impersonation *)

Record caller := Caller { x_forwarded_for : option string; x_real_ip : option string; peer : option string; agent_header : option string }.
Definition or_else_text (x y : string) : string := if truthy_str x then x else y.
Definition caller_ip (q : caller) : string :=
  or_else_text (first_forwarded (default "" (x_forwarded_for q)))
    (or_else_text (default "" (x_real_ip q)) (default "unknown" (peer q))).
Definition caller_agent (q : caller) : string := default "unknown" (agent_header q).

Definition impersonation_token (nonce : nat) (now : Z) (admin_id : string) (u : user) : res Security.exn string :=
  create_access_token cfg nonce now (u_id u) None (Some 3600) (Some [("impersonated_by", PStr admin_id)]).

Definition impersonate_user (now : Z) (nonce : nat) (q : caller) (user_id admin_id : string) : M pyval :=
  target_uid ← on_tables (Auth.as_uuid user_id);
  if String.eqb target_uid admin_id then http 422 "Cannot impersonate yourself"
  else
    found ← on_tables (user_by_id target_uid);
    match found with
    | None => http 404 "User not found"
    | Some u =>
        if str_in (email u) (admin_emails cfg) then http 403 "Cannot impersonate admin accounts"
        else
          admin_uid ← on_tables (id_column admin_id);
          rows ← on_tables (query (fun d => List.filter (fun v => String.eqb (u_id v) admin_uid) (users d)));
          admin ← on_tables (scalar_one rows);
          token ← lift_res (impersonation_token nonce now admin_id u);
          log admin_id "user_impersonated" u
            [("target_email", PStr (email u)); ("ip_address", PStr (caller_ip q)); ("user_agent", PStr (caller_agent q))];;
          post (UserEvent admin_id (u_id u) (email u) "impersonated");;
          post (ImpersonationMail (email admin) (email u) (caller_ip q) (caller_agent q));;
          post (ImpersonationAlert (email admin) (email u) (caller_ip q) (caller_agent q));;
          mret (PDict [("access_token", PStr token); ("user_id", PStr (u_id u)); ("email", PStr (email u)); ("expires_in", PInt 3600)])
    end.

(** *** The router *)

Inductive admin_call :=
| PendingApprovals
| Approve (user_id : string)
| Reject (user_id : string) (reason : option string)
| Suspend (user_id : string) (reason : option string)
| Unsuspend (user_id : string)
| DeleteUser (user_id confirm_email : string)
| SetOverride (user_id tier_arg reason : string) (expires : option Z)
| ClearOverride (user_id : string) (reason : option string)
| Impersonate (user_id : string) (q : caller).

Definition bad_body {A} : M A := raise (HTTPException 422 "VALIDATION_ERROR" "Request validation failed").

(** A client with the static key, or with the token of an administrator; the tables
    are those before the request where it raises. *)
Definition admin_endpoint (now : Z) (nonce : nat) (admin_id : string) (x : admin_call) : M pyval :=
  match x with
  | PendingApprovals => list_pending_approvals
  | Approve u => approve_user u admin_id
  | Reject u reason => if negb (short 500 reason) then bad_body else reject_user u admin_id reason
  | Suspend u reason => if negb (short 500 reason) then bad_body else suspend_user u admin_id reason
  | Unsuspend u => unsuspend_user u admin_id
  | DeleteUser u confirm => delete_user_account u confirm admin_id
  | SetOverride u t reason e => set_tier_override now u admin_id t reason e
  | ClearOverride u reason => clear_tier_override now u admin_id reason
  | Impersonate u q => impersonate_user now nonce q u admin_id
  end.

Definition serve_admin (now : Z) (nonce : nat) (authorization x_admin_key : option string) (x : admin_call) : M pyval :=
  fun s =>
  match (admin_id ← on_tables (require_admin cfg now authorization x_admin_key); admin_endpoint now nonce admin_id x) s with
  | (Ok a, s') => (Ok a, s')
  | (Err e, s') => (Err e, Adm (tables s) (cols s) (posted s'))
  end.
End admin.

(** ** What an administrator does to users *)

(** The transitions of the status that are documented, with the action in the log. *)
Inductive move : string -> string -> string -> Prop :=
| approved : move "pending_approval" "active" "user_approved"
| rejected : move "pending_approval" "rejected" "user_rejected"
| suspended : move "active" "suspended" "user_suspended"
| unsuspended : move "suspended" "active" "user_unsuspended".

(** A row of the audit log about a user. *)
Definition logged (act : string) (u : user) (l : audit_log) : Prop :=
  resource_type l = "user"%string /\ resource_id l = Some (u_id u) /\ action l = act.

(** What is a user's own: its keys, its account, and the namespaces of that. *)
Definition own_accounts (u : user) (d : Auth.db) : list account := List.filter (fun a => String.eqb (a_user_id a) (u_id u)) (accounts d).
Definition belongings (u : user) (d : Auth.db) : list api_key * list account * list namespace :=
  (List.filter (fun k => String.eqb (k_user_id k) (u_id u)) (api_keys d), own_accounts u d,
   List.filter (fun n => str_in (n_account_id n) (map a_id (own_accounts u d))) (namespaces d)).

(** Nothing of the user is left: no key, no account, no namespace, no column, no name in
    the audit log. *)
Definition erased (u : user) (s s' : adm) : Prop :=
  u_id u ∉ map u_id (users (tables s')) /\ u_id u ∉ map k_user_id (api_keys (tables s')) /\ u_id u ∉ map a_user_id (accounts (tables s')) /\
  (forall a n, a ∈ own_accounts u (tables s) -> n ∈ namespaces (tables s') -> n_account_id n <> a_id a) /\
  (forall l, l ∈ audit_logs (tables s') -> l_user_id l <> Some (u_id u)) /\ cols s' !! u_id u = None.

(** What may have become of a user; [x] and [x'] are its other columns. *)
Inductive fate (cfg : settings) (u : user) (s s' : adm) : Prop :=
| fate_stays :
    u ∈ users (tables s') -> extras_of (u_id u) (cols s') = extras_of (u_id u) (cols s) -> belongings u (tables s') = belongings u (tables s) ->
    fate cfg u s s'
| fate_moved st act reason l :
    move (status u) st act -> with_status st u ∈ users (tables s') ->
    (let x := extras_of (u_id u) (cols s) in
     extras_of (u_id u) (cols s') = Extras reason (tier_override x) (tier_override_reason x) (tier_override_expires_at x)) ->
    belongings u (tables s') = belongings u (tables s) ->
    l ∈ audit_logs (tables s') -> logged act u l -> is_Some (l_user_id l) -> fate cfg u s s'
| fate_overridden act l :
    u ∈ users (tables s') ->
    (let x := extras_of (u_id u) (cols s) in let x' := extras_of (u_id u) (cols s') in
     rejection_reason x' = rejection_reason x /\
     match tier_override x' with
     | Some t => t ∈ OVERRIDE_TIERS /\ act = "tier_override_set"%string
     | None => truthy_ostr (tier_override x) = true /\ act = "tier_override_cleared"%string
     end) ->
    belongings u (tables s') = belongings u (tables s) ->
    l ∈ audit_logs (tables s') -> logged act u l -> is_Some (l_user_id l) -> fate cfg u s s'
| fate_deleted l :
    str_in (email u) (admin_emails cfg) = false -> erased u s s' ->
    l ∈ audit_logs (tables s') -> logged "user_account_deleted" u l -> fate cfg u s s'.

(** Who is an administrator: a client with the static key, or the bearer of a valid
    token of a user with an address of the settings. *)
Definition is_admin `{Crypto} (cfg : settings) (now : Z) (authorization x_admin_key : option string) (d : Auth.db) : Prop :=
  (exists k, x_admin_key = Some k /\ k = admin_api_key cfg /\ k <> ""%string) \/
  exists token payload user_id u, bearer_token authorization = Ok token /\ verify_access_token cfg now token = Ok payload /\
    subject payload = Ok user_id /\ uuid_parse user_id = Some (u_id u) /\ u ∈ users d /\ email u ∈ admin_emails cfg /\ email u <> ""%string.

Section moves.
Context `{Crypto} (cfg : settings) (resources : string -> Z * Z).

Lemma on_tables_run {A} (m : Auth.M A) s :
  (on_tables m s).1 = (m (Session (tables s) (tables s) [])).1 /\ (forall d, working (m (Session (tables s) (tables s) [])).2 = d -> (on_tables m s).2 = Adm d (cols s) (posted s)).
Proof. unfold on_tables. destruct (m _) as [r t]. by split; [|intros d <-]. Qed.

Lemma on_tables_read {A} (m : Auth.M A) s : (forall t, (m t).2 = t) -> on_tables m s = ((m (Session (tables s) (tables s) [])).1, s).
Proof.
  intros Hm. unfold on_tables. specialize (Hm (Session (tables s) (tables s) [])). destruct (m _) as [r t]. cbn in Hm. subst t. by destruct s.
Qed.

Lemma as_uuid_state t (s : session) : (Auth.as_uuid t s : res _ _ * _).2 = s.
Proof. unfold Auth.as_uuid. by destruct (uuid_parse t). Qed.

Lemma found_user_run user_id s :
  match found_user user_id s with
  | (Ok u, s') => s' = s /\ u ∈ users (tables s) /\ uuid_parse user_id = Some (u_id u)
  | (Err _, s') => s' = s
  end.
Proof.
  unfold found_user, mbind, stm_bind. rewrite (on_tables_read (Auth.as_uuid user_id)) by apply as_uuid_state. unfold Auth.as_uuid.
  destruct (uuid_parse user_id) as [uid|]; [|done]. cbn [fst mret stm_ret]. rewrite (on_tables_read (user_by_id uid)) by apply found_user_state.
  destruct (user_by_id uid _) as [[[u|]|e] t] eqn:E; [|done..]. cbn.
  assert (reading (user_by_id uid) (tables s) = Ok (Some u)) as [Hu <-]%user_by_id_Ok by (unfold reading; by rewrite E). done.
Qed.

Lemma log_run admin_id act u data s :
  match log admin_id act u data s with
  | (Ok _, s') => exists id, s' = Adm (Db (users (tables s)) (accounts (tables s)) (api_keys (tables s))
                     (audit_logs (tables s) ++ [AuditLog (Some id) act "user" (Some (u_id u)) None None data]) (namespaces (tables s))) (cols s) (posted s)
  | (Err _, s') => s' = s
  end.
Proof.
  unfold log, mbind, stm_bind. rewrite (on_tables_read (Auth.as_uuid admin_id)) by apply as_uuid_state. unfold Auth.as_uuid.
  destruct (uuid_parse admin_id) as [id|]; [|done]. by exists id.
Qed.

(** The users of the endpoint: each has one of the fates, and none is new. *)
Definition fates (s s' : adm) : Prop :=
  sublist (map u_id (users (tables s'))) (map u_id (users (tables s))) /\ forall v, v ∈ users (tables s) -> fate cfg v s s'.

Definition moves {A} (m : M A) (s : adm) : Prop := match m s with (Ok _, s') => fates s s' | (Err _, _) => True end.

Lemma extras_insert_ne id id' x c : id' <> id -> extras_of id' (<[id := x]> c) = extras_of id' c.
Proof. intros Hne. unfold extras_of, columns in *. by rewrite lookup_insert_ne. Qed.
Lemma extras_insert_eq id x c : extras_of id (<[id := x]> c) = x.
Proof. unfold extras_of, columns in *. by rewrite lookup_insert_eq. Qed.

Definition with_users (f : user -> user) (l : audit_log) (d : Auth.db) : Auth.db :=
  Db (map f (users d)) (accounts d) (api_keys d) (audit_logs d ++ [l]) (namespaces d).

Lemma new_log f l d : l ∈ audit_logs (with_users f l d).
Proof. cbn. apply elem_of_app. right. by apply list_elem_of_singleton. Qed.

(** One user has moved. *)
Lemma fates_moved u st act reason c l p (s : adm) : NoDup (map u_id (users (tables s))) -> u ∈ users (tables s) -> move (status u) st act ->
  (c = cols s /\ reason = rejection_reason (extras_of (u_id u) (cols s)) \/
   let x := extras_of (u_id u) (cols s) in
   c = <[u_id u := Extras reason (tier_override x) (tier_override_reason x) (tier_override_expires_at x)]> (cols s)) ->
  logged act u l -> is_Some (l_user_id l) ->
  fates s (Adm (with_users (fun w => if String.eqb (u_id w) (u_id u) then with_status st w else w) l (tables s)) c p).
Proof.
  intros Hnd Hu Hm Hc Hl Hid. split.
  - cbn. rewrite map_map. rewrite (map_ext _ u_id); [done|]. intros w. by destruct (String.eqb _ _).
  - intros v Hv. destruct (String.eqb_spec (u_id v) (u_id u)) as [E|E].
    + apply (NoDup_map_inj u_id (users (tables s))) in E as ->; [|done..]. apply (fate_moved cfg u s _ st act reason l); try done.
      * cbn. apply list_elem_of_fmap. exists u. by rewrite String.eqb_refl.
      * cbn [cols]. cbn zeta. destruct Hc as [[-> ->]| ->]; [by destruct (extras_of _ _)|apply extras_insert_eq].
      * apply new_log.
    + apply fate_stays; [|cbn [cols]; destruct Hc as [[-> _]| ->]; [done|by apply extras_insert_ne]|done].
      cbn. apply list_elem_of_fmap. exists v. by rewrite (proj2 (String.eqb_neq _ _) E).
Qed.

(** One user has got other columns, or none has. *)
Lemma fates_overridden u act x' l p (s : adm) : NoDup (map u_id (users (tables s))) -> u ∈ users (tables s) ->
  (let x := extras_of (u_id u) (cols s) in
   rejection_reason x' = rejection_reason x /\
   match tier_override x' with
   | Some t => t ∈ OVERRIDE_TIERS /\ act = "tier_override_set"%string
   | None => truthy_ostr (tier_override x) = true /\ act = "tier_override_cleared"%string
   end) -> logged act u l -> is_Some (l_user_id l) ->
  fates s (Adm (with_users (fun w => w) l (tables s)) (<[u_id u := x']> (cols s)) p).
Proof.
  intros Hnd Hu Hx Hl Hid. split; [cbn; by rewrite map_id|]. intros v Hv. destruct (String.eqb_spec (u_id v) (u_id u)) as [E|E].
  - apply (NoDup_map_inj u_id (users (tables s))) in E as ->; [|done..]. apply (fate_overridden cfg u s _ act l); try done.
    + cbn. by rewrite map_id.
    + cbn [cols]. by rewrite extras_insert_eq.
    + apply new_log.
  - apply fate_stays; [cbn; by rewrite map_id|by apply extras_insert_ne|done].
Qed.

Lemma fates_log l p (s : adm) : fates s (Adm (with_users (fun w => w) l (tables s)) (cols s) p).
Proof. split; [cbn; by rewrite map_id|]. intros v Hv. apply fate_stays; [cbn; by rewrite map_id|done..]. Qed.
Lemma fates_same (s : adm) : fates s s.
Proof. split; [done|]. intros v Hv. by apply fate_stays. Qed.

(** An endpoint that changes the status of the user it finds. *)
Lemma status_moves {A} user_id (from to what act : string) (mid : user -> M unit) admin_id data (rest : user -> M A) s :
  NoDup (map u_id (users (tables s))) -> move from to act ->
  ((forall u t, mid u t = (Ok tt, t)) \/ exists reason, forall u, mid u = set_reason u reason) ->
  (forall u t, exists a p, rest u t = (Ok a, Adm (tables t) (cols t) p)) ->
  moves (u ← found_user user_id;
         if negb (String.eqb (status u) from) then http 409 what
         else set_status u to;; mid u;; log admin_id act u (data u);; rest u) s.
Proof.
  intros Hnd Hm Hmid Hrest. unfold moves, mbind, stm_bind. pose proof (found_user_run user_id s) as Hf.
  destruct (found_user user_id s) as [[u|e] s1]; [|done]. destruct Hf as (-> & Hu & _).
  destruct (String.eqb_spec (status u) from) as [Hst|]; cbn [negb]; [|done].
  set (s1 := (set_status u to s).2). change (set_status u to s) with (Ok (E := Security.exn) tt, s1).
  assert (exists c reason, mid u s1 = (Ok tt, Adm (tables s1) c (posted s1)) /\
    (c = cols s /\ reason = rejection_reason (extras_of (u_id u) (cols s)) \/
     let x := extras_of (u_id u) (cols s) in
     c = <[u_id u := Extras reason (tier_override x) (tier_override_reason x) (tier_override_expires_at x)]> (cols s))) as (c & reason & E & Hc).
  { destruct Hmid as [Hmid|[reason Hmid]]; [exists (cols s); eexists; split; [by rewrite Hmid|by left]|].
    do 2 eexists. rewrite Hmid. split; [reflexivity|]. by right. }
  rewrite E. pose proof (log_run admin_id act u (data u) (Adm (tables s1) c (posted s1))) as Hl.
  destruct (log admin_id act u (data u) _) as [[x|e] s2]; [|done]. destruct Hl as [id ->].
  match goal with |- context [rest u ?t] => destruct (Hrest u t) as (a & p & ->) end. cbn [tables cols].
  by apply (fates_moved u to act reason c _ p s); [..|rewrite Hst| | |].
Qed.

Lemma drop_erases u l c p (s : adm) : erased u s
  (Adm (drop_user (u_id u) (Db (users (tables s)) (accounts (tables s)) (api_keys (tables s)) (audit_logs (tables s) ++ [l]) (namespaces (tables s))))
     (delete (u_id u) c) p).
Proof.
  assert (forall A (key : A -> string) (l : list A), u_id u ∉ map key (List.filter (fun x => negb (String.eqb (key x) (u_id u))) l)) as Hout.
  { intros A key l' (x & Hx & Hn)%list_elem_of_fmap. apply list_elem_of_In, filter_In in Hn as [_ Hn%negb_true_iff%String.eqb_neq]. by apply Hn. }
  split; [apply Hout|]. split; [apply Hout|]. split; [apply Hout|]. split; [|split; [|apply lookup_delete_eq]].
  - cbn. intros a n Ha Hn Hna. apply list_elem_of_In, filter_In in Hn as [_ Hn%negb_true_iff]. apply not_true_iff_false in Hn. apply Hn.
    apply str_in_spec. rewrite Hna. by apply (list_elem_of_fmap_2 a_id).
  - cbn. intros x (y & -> & _)%list_elem_of_fmap. case_bool_decide; [done|]. done.
Qed.

Lemma in_filtered {A} (p : A -> bool) l x : x ∈ List.filter p l <-> x ∈ l /\ p x = true.
Proof. by rewrite !list_elem_of_In, filter_In. Qed.

Lemma filter_keep {A} (p q : A -> bool) l : (forall x, x ∈ l -> p x = true -> q x = true) -> List.filter p (List.filter q l) = List.filter p l.
Proof.
  induction l as [|x l IH]; intros Hpq; [done|]. cbn. specialize (IH ltac:(intros; apply Hpq; [by right|done])).
  destruct (q x) eqn:Eq; cbn; [by rewrite IH|]. destruct (p x) eqn:Ep; [|done]. by rewrite (Hpq x ltac:(by left) Ep) in Eq.
Qed.

(** Another user keeps what is its own. *)
Lemma drop_belongings u v d : NoDup (map a_id (accounts d)) -> u_id v <> u_id u -> belongings v (drop_user (u_id u) d) = belongings v d.
Proof.
  intros Hnd Hne.
  assert (own_accounts v (drop_user (u_id u) d) = own_accounts v d) as Hacc.
  { unfold own_accounts. cbn. apply filter_keep. intros a _ E%String.eqb_eq. apply negb_true_iff, String.eqb_neq. congruence. }
  unfold belongings. rewrite Hacc. cbn. apply f_equal2; [apply f_equal2; [|done]|].
  - apply filter_keep. intros k _ E%String.eqb_eq. apply negb_true_iff, String.eqb_neq. congruence.
  - apply filter_keep. intros n _ E%str_in_spec. apply negb_true_iff, not_true_iff_false. intros E'%str_in_spec.
    apply list_elem_of_fmap in E as (a & Ea & Ha), E' as (b & Eb & Hb). apply in_filtered in Ha as [Ha Hav%String.eqb_eq], Hb as [Hb Hbu%String.eqb_eq].
    rewrite (NoDup_map_inj a_id (accounts d) a b) in Hav by (done || congruence). congruence.
Qed.
End moves.

Section endpoints.
Context `{Crypto} (cfg : settings) (resources : string -> Z * Z).
Abbreviation moves := (moves cfg).

(** Nothing but the audit log and what is posted. *)
Definition only_logs {A} (m : M A) : Prop := forall s,
  (m s).2 = s \/ exists l p, (m s).2 = Adm (with_users (fun w => w) l (tables s)) (cols s) p.

Lemma only_moves {A} (m : M A) s : only_logs m -> moves m s.
Proof.
  intros Hm. unfold UserAdmin.moves. destruct (Hm s) as [E|(l & p & E)]; destruct (m s) as [[a|e] s']; try done; cbn in E; rewrite E; [apply fates_same|apply fates_log].
Qed.
Lemma only_read {A B} (m : M A) (k : A -> M B) : (forall s, (m s).2 = s) -> (forall a, only_logs (k a)) -> only_logs (m ≫= k).
Proof. intros Hm Hk s. specialize (Hm s). unfold mbind, stm_bind. destruct (m s) as [[a|e] s']; cbn in Hm; subst s'; [apply Hk|by left]. Qed.
Lemma on_tables_same {A} (m : Auth.M A) : (forall t, (m t).2 = t) -> forall s, (on_tables m s).2 = s.
Proof. intros Hm s. by rewrite on_tables_read. Qed.

Lemma only_impersonate now nonce q user_id admin_id : only_logs (impersonate_user cfg now nonce q user_id admin_id).
Proof.
  unfold impersonate_user. apply only_read; [apply on_tables_same, as_uuid_state|]. intros uid. destruct (String.eqb _ _); [by left|].
  apply only_read; [apply on_tables_same, found_user_state|]. intros [u|]; [|by left]. destruct (str_in _ _); [by left|].
  apply only_read; [apply on_tables_same, id_column_state|]. intros auid. apply only_read; [by apply on_tables_same|]. intros rows.
  apply only_read; [apply on_tables_same; by destruct rows as [|? []]|]. intros admin. apply only_read; [done|]. intros token s.
  match goal with |- context [log admin_id ?act u ?data] => pose proof (log_run admin_id act u data s) as Hl; unfold mbind, stm_bind;
    destruct (log admin_id act u data s) as [[x|e] s1] end; [|subst; by left].
  destruct Hl as [id ->]. right. do 2 eexists. cbn. unfold with_users. by rewrite map_id.
Qed.

Lemma override_moves now user_id admin_id t reason e s : NoDup (map u_id (users (tables s))) -> moves (set_tier_override now user_id admin_id t reason e) s.
Proof.
  intros Hnd. unfold UserAdmin.moves, set_tier_override. destruct (str_in t OVERRIDE_TIERS) eqn:Ht; [|done]. destruct (length_in 3 255 reason); [|done].
  cbn [andb negb]. unfold mbind, stm_bind. pose proof (found_user_run user_id s) as Hf.
  destruct (found_user user_id s) as [[u|e'] s1]; [|done]. destruct Hf as (-> & Hu & _). unfold set_extras, modS.
  match goal with |- context [log admin_id ?act u ?data ?st] => pose proof (log_run admin_id act u data st) as Hl; destruct (log admin_id act u data st) as [[x|e'] s2] end; [|done].
  destruct Hl as [id ->]. cbn [getS mret stm_ret tables cols posted].
  pose proof (fates_overridden cfg u "tier_override_set" (Extras (rejection_reason (extras_of (u_id u) (cols s))) (Some t) (Some reason) e)
    (AuditLog (Some id) "tier_override_set" "user" (Some (u_id u)) None None
      [("target_email", PStr (email u)); ("tier_override", PStr t); ("reason", PStr reason); ("expires_at", otime e)]) (posted s) s Hnd Hu) as K.
  unfold with_users in K. rewrite map_id in K. apply K; [|done|by eexists]. cbn. split; [done|]. split; [by apply str_in_spec|done].
Qed.
Lemma clear_moves now user_id admin_id reason s : NoDup (map u_id (users (tables s))) -> moves (clear_tier_override now user_id admin_id reason) s.
Proof.
  intros Hnd. unfold UserAdmin.moves, clear_tier_override. destruct (negb _); [done|]. unfold mbind, stm_bind. pose proof (found_user_run user_id s) as Hf.
  destruct (found_user user_id s) as [[u|e'] s1]; [|done]. destruct Hf as (-> & Hu & _). cbn [getS].
  destruct (truthy_ostr (tier_override (extras_of (u_id u) (cols s)))) eqn:Ht; cbn [negb]; [|done]. unfold set_extras, modS.
  match goal with |- context [log admin_id ?act u ?data ?st] => pose proof (log_run admin_id act u data st) as Hl; destruct (log admin_id act u data st) as [[x|e'] s2] end; [|done].
  destruct Hl as [id ->]. cbn [getS mret stm_ret tables cols posted].
  match goal with |- fates _ _ (Adm (Db _ _ _ (_ ++ [?l]) _) _ _) =>
    pose proof (fates_overridden cfg u "tier_override_cleared" (Extras (rejection_reason (extras_of (u_id u) (cols s))) None None None) l (posted s) s Hnd Hu) as K end.
  unfold with_users in K. rewrite map_id in K. by apply K; [|done|eexists].
Qed.

Lemma delete_moves user_id confirm admin_id s : NoDup (map u_id (users (tables s))) -> NoDup (map a_id (accounts (tables s))) ->
  moves (delete_user_account cfg resources user_id confirm admin_id) s.
Proof.
  intros Hnd Hacc. unfold UserAdmin.moves, delete_user_account, mbind, stm_bind. pose proof (found_user_run user_id s) as Hf.
  destruct (found_user user_id s) as [[u|e] s1]; [|done]. destruct Hf as (-> & Hu & _).
  destruct (negb _); [done|]. destruct (str_in (email u) (admin_emails cfg)) eqn:Ha; [done|]. cbn [getS].
  match goal with |- context [log admin_id ?act u ?data s] => pose proof (log_run admin_id act u data s) as Hl; destruct (log admin_id act u data s) as [[x|e] s2] end; [|done].
  destruct Hl as [id ->]. unfold on_tables, modify, drop_extras, post, modS. cbn [tables cols posted working].
  split.
  - cbn. clear. induction (users (tables s)) as [|w l IH]; [constructor|]. cbn. case_match; by constructor.
  - intros v Hv. destruct (String.eqb_spec (u_id v) (u_id u)) as [E|E].
    + apply (NoDup_map_inj u_id (users (tables s))) in E as ->; [|done..]. eapply fate_deleted; [done|apply drop_erases| |].
      * cbn [tables drop_user audit_logs]. apply list_elem_of_fmap. eexists. split; [reflexivity|]. apply elem_of_app. right. by apply list_elem_of_singleton.
      * cbn [l_user_id]. by case_bool_decide.
    + apply fate_stays.
      * cbn. apply in_filtered. split; [done|]. by rewrite (proj2 (String.eqb_neq _ _) E).
      * unfold extras_of, columns in *. cbn. by rewrite lookup_delete_ne.
      * cbn [tables]. by rewrite drop_belongings.
Qed.

Lemma endpoint_moves now nonce admin_id x s : NoDup (map u_id (users (tables s))) -> NoDup (map a_id (accounts (tables s))) ->
  moves (admin_endpoint cfg resources now nonce admin_id x) s.
Proof.
  intros Hnd Hacc. destruct x; cbn [admin_endpoint]; try (destruct (negb _); [done|]).
  - apply only_moves. by left.
  - refine (status_moves cfg user_id "pending_approval" "active" "User is not in pending_approval status" "user_approved" (fun _ => mret tt) admin_id
      (fun u => [("approved_user_email", PStr (email u))])
      (fun u => post (UserEvent admin_id (u_id u) (email u) "approved");; post (ApprovedMail (email u) (u_name u));; mret (status_view u "active" "approved"))
      s Hnd ltac:(constructor) _ _); [by left|]. intros u t. do 2 eexists. reflexivity.
  - apply (status_moves cfg user_id "pending_approval" "rejected" _ _ (fun u => set_reason u reason)); [done|constructor|right; by exists reason|].
    intros u t. do 2 eexists. reflexivity.
  - apply (status_moves cfg user_id "active" "suspended" _ _ (fun u => set_reason u reason)); [done|constructor|right; by exists reason|].
    intros u t. do 2 eexists. reflexivity.
  - apply (status_moves cfg user_id "suspended" "active" _ _ (fun u => set_reason u None)); [done|constructor|right; by exists None|].
    intros u t. do 2 eexists. reflexivity.
  - by apply delete_moves.
  - by apply override_moves.
  - by apply clear_moves.
  - apply only_moves, only_impersonate.
Qed.

Lemma admin_state now authorization key s : (on_tables (require_admin cfg now authorization key) s).2 = s.
Proof.
  rewrite on_tables_read; [done|]. intros t. unfold require_admin. destruct (match key with Some _ => _ | None => _ end); [done|].
  unfold mbind, stm_bind, lift_res. destruct (get_current_user_id cfg now authorization) as [uid|e]; [|done].
  pose proof (id_column_state uid t) as Hs. destruct (id_column uid t) as [[u|e] t']; cbn in Hs; subst t'; [|done].
  pose proof (found_user_state u t) as Hs. destruct (user_by_id u t) as [[[w|]|e] t']; cbn in Hs; subst t'; [|done..]. by destruct (_ && _).
Qed.

Lemma require_admin_Ok now authorization key d admin_id :
  reading (require_admin cfg now authorization key) d = Ok admin_id -> is_admin cfg now authorization key d.
Proof.
  unfold require_admin. destruct (match key with Some _ => _ | None => _ end) eqn:Ek.
  - intros _. left. destruct key as [k|]; [|done]. apply andb_true_iff in Ek as [[Ek _]%andb_true_iff ->%String.eqb_eq].
    exists (admin_api_key cfg). split; [done|]. split; [done|]. by intros E; rewrite E in Ek.
  - intros Hr. right. apply reading_bind in Hr as (uid & Hu & Hr); [|done].
    apply reading_bind in Hr as (id & Hid%id_column_Ok & Hr); [|apply id_column_state].
    apply reading_bind in Hr as (found & Hf & Hr); [|apply found_user_state].
    destruct found as [u|]; [|done]. apply user_by_id_Ok in Hf as [Hin <-].
    destruct (truthy_str (email u)) eqn:Ht; [|done]. destruct (str_in (email u) (admin_emails cfg)) eqn:Ha; [|done]. apply str_in_spec in Ha.
    assert (get_current_user_id cfg now authorization = Ok uid) as Hg by exact Hu. unfold get_current_user_id, mbind, res_bind in Hg.
    destruct (bearer_token authorization) as [token|] eqn:Et; [|done].
    destruct (verify_access_token cfg now token) as [payload|e] eqn:Ev.
    2: { exfalso. revert Hg. unfold token_errors. repeat case_match; done. }
    destruct (subject payload) as [uid'|e] eqn:Eu.
    2: { exfalso. revert Hg. unfold token_errors. repeat case_match; done. }
    injection Hg as ->. exists token, payload, uid, u. repeat split; try done. by intros E; rewrite E in Ht.
Qed.

End endpoints.

(** ** Claims on users *)

Section claims.
Context `{CryptoLaws} (cfg : settings).
#[local] Set Default Proof Using "Type*".

Lemma impersonation_payload sk pk nonce now admin_id u tok t :
  _get_private_key cfg = Ok sk -> _get_public_key cfg = Ok pk -> pair sk pk -> impersonation_token cfg nonce now admin_id u = Ok tok -> now <= t ->
  t < now + 3600 -> exists p, verify_access_token cfg t tok = Ok p /\ subject p = Ok (u_id u) /\ dict_get "scopes" p = None.
Proof.
  intros Hsk Hpk Hpair Hc Ht Ht'. unfold impersonation_token, create_access_token in Hc. rewrite Hsk in Hc. injection Hc as <-.
  set (p := access_payload cfg now (u_id u) None (Some 3600) (Some [("impersonated_by", PStr admin_id)])). exists p.
  pose proof (fun k Hk Hs => access_payload_get cfg now (u_id u) None (Some 3600) [("impersonated_by", PStr admin_id)] k Hk Hs ltac:(by repeat constructor)) as Hget.
  assert (dict_get "iat" p = Some (PInt now)) as Hiat by (apply Hget; [set_solver|done]).
  assert (dict_get "exp" p = Some (PInt (now + 3600))) as Hexp by (apply Hget; [set_solver|done]).
  assert (dict_get "type" p = Some (PStr "access")) as Htype by (apply Hget; [set_solver|done]).
  assert (dict_get "sub" p = Some (PStr (u_id u))) as Hsub by (apply Hget; [set_solver|done]).
  split; [|split; [unfold subject; by rewrite Hsub|done]].
  unfold verify_access_token, decode_token. rewrite Hpk. cbn [mbind res_bind]. rewrite (jwt_decode_encode nonce p sk pk); [|done|].
  2:{ split; [eauto|]. split; [eauto|]. split; by apply Hget; [set_solver|]. }
  unfold has_type, mbind, res_bind. by rewrite Htype.
Qed.

(** [C27] The token with which an administrator becomes a user names no scopes: for its
    hour it is that user wherever no scope is asked for, and is refused at every
    endpoint that asks for one. *)
Theorem impersonation_unscoped sk pk nonce now admin_id u tok t authorization :
  _get_private_key cfg = Ok sk -> _get_public_key cfg = Ok pk -> pair sk pk -> impersonation_token cfg nonce now admin_id u = Ok tok -> now <= t ->
  t < now + 3600 -> bearer_token authorization = Ok tok ->
  get_current_user_id cfg t authorization = Ok (u_id u) /\
  forall scope, require_scope cfg scope t authorization = Err (HTTPException 403 "INSUFFICIENT_SCOPE" ("Scope '" +:+ scope +:+ "' required")).
Proof.
  intros Hsk Hpk Hpair Hc Ht Ht' Hb. destruct (impersonation_payload sk pk nonce now admin_id u tok t) as (p & Hv & Hs & Hn); try done.
  unfold get_current_user_id, require_scope, mbind, res_bind. rewrite Hb, Hv, Hs. split; [done|]. intros scope. unfold has_scope. by rewrite Hn.
Qed.

Lemma own_user d u : wf d -> u ∈ users d -> reading (user_by_id (u_id u)) d = Ok (Some u).
Proof. intros Hw Hu. unfold reading. by rewrite (user_by_id_found d u). Qed.

Lemma found_user_found user_id u s : wf (tables s) -> u ∈ users (tables s) -> uuid_parse user_id = Some (u_id u) -> found_user user_id s = (Ok u, s).
Proof.
  intros Hw Hu Hid. unfold found_user, mbind, stm_bind. rewrite (on_tables_read (Auth.as_uuid user_id)) by apply as_uuid_state.
  unfold Auth.as_uuid. rewrite Hid. cbn [fst mret stm_ret]. rewrite (on_tables_read (user_by_id (u_id u))) by apply found_user_state.
  by rewrite (user_by_id_found (tables s) u).
Qed.
Lemma log_Ok admin_id id act u data s : uuid_parse admin_id = Some id -> log admin_id act u data s =
  (Ok tt, Adm (Db (users (tables s)) (accounts (tables s)) (api_keys (tables s))
     (audit_logs (tables s) ++ [AuditLog (Some id) act "user" (Some (u_id u)) None None data]) (namespaces (tables s))) (cols s) (posted s)).
Proof. intros Hid. unfold log, mbind, stm_bind. rewrite (on_tables_read (Auth.as_uuid admin_id)) by apply as_uuid_state. unfold Auth.as_uuid. by rewrite Hid. Qed.

(** The suspension of an administrator does not hold: with a token from before, which
    is refused everywhere else, it lifts the suspension itself. *)
Theorem suspended_admin_returns (resources : string -> Z * Z) now nonce authorization u s : wf (tables s) -> u ∈ users (tables s) -> status u = "suspended"%string ->
  email u <> ""%string -> str_in (email u) (admin_emails cfg) = true -> uuid_parse (u_id u) = Some (u_id u) ->
  get_current_user_id cfg now authorization = Ok (u_id u) ->
  reading (as_user cfg now authorization get_current_user_profile) (tables s) = Err (HTTPException 403 "ACCOUNT_SUSPENDED" "Account has been suspended") /\
  let o := serve_admin cfg resources now nonce authorization None (Unsuspend (u_id u)) s in
  o.1 = Ok (status_view u "active" "unsuspended") /\ with_status "active" u ∈ users (tables o.2).
Proof.
  intros Hw Hu Hst Hne Hadm Hid Htok.
  assert (forall d, user_by_id (u_id u) (Session (tables s) (tables s) d) = (Ok (Some u), Session (tables s) (tables s) d)) as Hf
    by (intros d; by apply (user_by_id_found (tables s) u)).
  split.
  - unfold reading, as_user, require_active_status, id_column, mbind, stm_bind, lift_res. rewrite Htok, Hid. cbn [mret stm_ret]. rewrite Hf, Hst. done.
  - unfold serve_admin, mbind, stm_bind.
    assert (on_tables (require_admin cfg now authorization None) s = (Ok (u_id u), s)) as ->.
    { rewrite on_tables_read by (intros t; pose proof (admin_state cfg now authorization None) as Ha; revert t; unfold require_admin;
        intros t; unfold mbind, stm_bind, lift_res; rewrite Htok; unfold id_column; rewrite Hid; cbn [mret stm_ret];
        pose proof (found_user_state (u_id u) t) as Hx; destruct (user_by_id (u_id u) t) as [[[w|]|e] t']; cbn in Hx; subst t'; [by destruct (_ && _)|done..]).
      unfold require_admin, mbind, stm_bind, lift_res. rewrite Htok. unfold id_column. rewrite Hid. cbn [mret stm_ret]. rewrite Hf, Hadm.
      destruct (email u); [done|]. done. }
    cbn [admin_endpoint]. unfold unsuspend_user, mbind, stm_bind. rewrite (found_user_found _ u) by done. rewrite Hst. cbn [negb String.eqb Ascii.eqb Bool.eqb].
    match goal with |- context [set_status u "active" s] => destruct (set_status u "active" s) as [r s1] eqn:E1 end.
    injection E1 as <- <-. unfold set_reason, set_extras, modS. cbn [tables cols posted]. rewrite log_Ok with (id := u_id u) by done.
    unfold post, modS. cbn [mret stm_ret fst snd tables]. split; [done|]. cbn. apply list_elem_of_fmap. exists u. by rewrite String.eqb_refl.
Qed.

(** [C26] A key is created with the scopes that are asked for, whatever those of the token:
    with a token that may only read, or that names no scopes, a client gets a key that
    may write. *)
Theorem scopes_escape now r c authorization uid u days d : wf d -> u ∈ users d -> status u = "active"%string ->
  get_current_user_id cfg now authorization = Ok uid -> uuid_parse uid = Some (u_id u) -> in_bounds 1 730 days = true ->
  exists k raw, reading (as_user cfg now authorization (fun active => post_api_key now r active (CreateApiKeyRequest None ["write"] None days) c)) d = Ok (k, raw) /\
    scopes k = ["write"%string] /\ k_user_id k = u_id u /\ key_prefix k = str_take 12 raw.
Proof.
  intros Hw Hu Hst Htok Hid Hd.
  assert (forall e, user_by_id (u_id u) (Session d d e) = (Ok (Some u), Session d d e)) as Hf by (intros e; by apply (user_by_id_found d u)).
  unfold reading, as_user, require_active_status, id_column, mbind, stm_bind, lift_res. rewrite Htok, Hid. cbn [mret stm_ret]. rewrite Hf, Hst.
  cbn [String.eqb Ascii.eqb Bool.eqb negb mret stm_ret]. unfold post_api_key.
  assert (check_key (CreateApiKeyRequest None ["write"] None days) = Some (CreateApiKeyRequest None ["write"] None days)) as ->
    by (unfold check_key; cbn [ck_days]; by rewrite Hd).
  unfold try_except, Auth.as_uuid, create_api_key, mbind, stm_bind. rewrite Hid. cbn [mret stm_ret ck_name ck_scopes ck_namespace ck_days check_namespace].
  rewrite Hf. do 2 eexists. repeat split.
Qed.
End claims.

(** ** Examples *)

Definition boss_id : string := "00000000-0000-4000-8000-0000000000aa".
Definition boss (st : string) : user := User boss_id "admin@mcpworks.io" None (Some "Eve") "enterprise" st true None None 0 0 None None.
Definition demo_adm (boss_status ada_status : string) : adm :=
  Adm (Db [boss boss_status; with_status ada_status demo_user] [Account "acc1" demo_id None] [demo_key] [] [Namespace "n1" "acc1"]) ∅ [].
Definition token_for (id : string) (sc : option (list string)) : string := write_token (access_payload toy_settings 1000 id sc None None).
Definition boss_header : option string := Some ("Bearer " +:+ token_for boss_id None).
Definition no_resources (_ : string) : Z * Z := (0, 0).
Abbreviation demo_admin x s := (serve_admin toy_settings no_resources 2000 0 boss_header None x s).

Lemma demo_adm_wf a b : wf (tables (demo_adm a b)).
Proof. constructor; cbn; repeat constructor; try set_solver; by vm_compute. Qed.


Definition demo_impersonation : string :=
  write_token (access_payload toy_settings 1000 demo_id None (Some 3600) (Some [("impersonated_by", PStr boss_id)])).
Definition demo_as_ada : option string := Some ("Bearer " +:+ demo_impersonation).

Lemma impersonation_unscoped_witness :
  impersonation_token toy_settings 0 1000 boss_id demo_user = Ok demo_impersonation /\
  get_current_user_id toy_settings 2000 demo_as_ada = Ok demo_id /\
  forall scope, require_scope toy_settings scope 2000 demo_as_ada =
    Err (HTTPException 403 "INSUFFICIENT_SCOPE" ("Scope '" +:+ scope +:+ "' required")).
Proof.
  split; [reflexivity|].
  exact (@impersonation_unscoped toy_crypto toy_crypto_laws toy_settings tt tt 0 1000 boss_id demo_user demo_impersonation 2000 demo_as_ada
    eq_refl eq_refl Logic.I eq_refl ltac:(lia) ltac:(lia) ltac:(vm_compute; reflexivity)).
Defined.

Lemma suspended_admin_returns_witness :
  let o := serve_admin toy_settings no_resources 2000 0 boss_header None (Unsuspend boss_id) (demo_adm "suspended" "active") in
  o.1 = Ok (status_view (boss "suspended") "active" "unsuspended") /\ boss "active" ∈ users (tables o.2).
Proof.
  exact (proj2 (@suspended_admin_returns toy_crypto toy_crypto_laws toy_settings no_resources 2000 0 boss_header (boss "suspended")
    (demo_adm "suspended" "active") (demo_adm_wf _ _) (list_elem_of_here _ _) eq_refl ltac:(discriminate) ltac:(vm_compute; reflexivity)
    ltac:(vm_compute; reflexivity) ltac:(vm_compute; reflexivity))).
Defined.

Lemma scopes_escape_witness :
  let auth := Some ("Bearer " +:+ token_for demo_id (Some ["read"])) in
  require_scope toy_settings "write" 2000 auth = Err (HTTPException 403 "INSUFFICIENT_SCOPE" "Scope 'write' required") /\
  exists k raw, reading (as_user toy_settings 2000 auth (fun active =>
      post_api_key 2000 demo_entropy active (CreateApiKeyRequest None ["write"] None (Some 30)) demo_client)) demo_db = Ok (k, raw) /\
    scopes k = ["write"%string] /\ k_user_id k = demo_id /\ key_prefix k = str_take 12 raw.
Proof.
  intros auth. split; [vm_compute; reflexivity|].
  exact (@scopes_escape toy_crypto toy_crypto_laws toy_settings 2000 demo_entropy demo_client auth demo_id demo_user (Some 30) demo_db
    demo_wf (list_elem_of_here _ _) eq_refl ltac:(vm_compute; reflexivity) ltac:(vm_compute; reflexivity) eq_refl).
Defined.

(** An override is the tier until it expires, and after that the tier is its own again. *)
Example override_until :
  let s := (demo_admin (SetOverride demo_id "enterprise-agent" "friends" (Some 5000)) (demo_adm "active" "active")).2 in
  map (fun now => effective_tier now (cols s) demo_user) [4999; 5000] = ["enterprise-agent"; "pro"]%string.
Proof. by vm_compute. Qed.

(** The address of a deleted user stays in the audit log. *)
Example deletion_keeps_email :
  map event_data (audit_logs (tables (demo_admin (DeleteUser demo_id "ada@example.com") (demo_adm "active" "active")).2)) =
    [[("deleted_email", PStr "ada@example.com"); ("namespaces_deleted", PInt 1); ("services_deleted", PInt 0); ("functions_deleted", PInt 0);
      ("reason", PStr "GDPR right to erasure / admin action")]].
Proof. by vm_compute. Qed.

(** With the static key and no administrator in the table, nobody can be approved. *)
Example key_cannot_approve :
  let cfg := Settings (Some "PEM") None (Some "PEM") None 60 7 "https://api.mcpworks.io" "https://mcpworks.io" true "key" ["root@mcpworks.io"] in
  (serve_admin cfg no_resources 2000 0 None (Some "key") (Approve demo_id) (demo_adm "active" "pending_approval")).1 = Err ValueError.
Proof. by vm_compute. Qed.

Example names_are_sanitized :
  _sanitize_display_name (Some " <b>Ada</b> <3 ") = Some "Ada 3"%string /\ _sanitize_display_name (Some "<i>") = None.
Proof. by vm_compute. Qed.
